(* ===== verification/_CoqProject ===== *)
-Q . S2P
Prelude.v
Bitmap.v
Interrupt.v
DList.v
Sched.v
Sync.v
Threads.v
Task.v
Memory.v
Disk.v
Cstring.v
Words.v
Inode.v
Dir.v
File.v
Path.v
Format.v
Ioqueue.v
Pipe.v
Fs.v
FsSpec.v
Returns.v
CleanPath.v
Stdio.v
Screen.v
Irq.v
Timer.v
Console.v
Keyboard.v
Syscall.v
Ide.v
Shell.v
ShellSpec.v
Partition.v
IdeInit.v
Spaces.v
Process.v
Boot.v
Fork.v
Types.v
FdTable.v
Exec.v
Release.v
Ps.v
UserProg.v
Main.v
