(* ===== verification/Prelude.v ===== *)
(** * A verification of tinykernel

    tinykernel is a small 32-bit kernel for the PC: a scheduler with semaphores and locks, a
    page allocator and a heap, an ATA driver, a file system with inodes, directories and
    pipes, user processes with fork, exec, exit and wait, and a shell.  This development
    models its C code, under src/, as executable definitions and proves what each part
    promises to the parts above it.

    ** How the program is put together

    boot/ loads the kernel and jumps to main (kernel/main.c), which calls init_all
    (kernel/init.c): the interrupt controller and the vector table, the timer, the memory
    pools, the keyboard, the task segment, the threads, the console, the system calls, the
    disk and the file system, in this order.  From then on code runs in three ways: a
    thread calls kernel functions; an interrupt (timer, keyboard, disk) runs a handler on
    the stack of the thread it interrupts; a user process enters the kernel by int 0x80
    and leaves it by intr_exit.  All of them share the queues of lib/kernel/list.c, the
    bitmaps of lib/kernel/bitmap.c, the pools of kernel/memory.c and the tables of fs/.
    A thread loses the processor only in switch_to, which schedule calls with interrupts
    off; critical sections are made with the interrupt flag or with the locks of
    thread/sync.c.

    ** How C is modelled

    This file has the conventions.  Code that cannot be switched out is a function of the
    state and error monad [KM]: it gives a result and a new state or a [fault].  A failed
    assertion, an explicit PANIC, an access outside of an object, the corruption of a list
    and the exhaustion of fuel are different faults, so that a theorem "the run is [Ok]"
    excludes them all.  Code that can be switched out is in [CM]: it returns or is
    suspended, with the code that goes on when the thread is switched to again.  Integers
    are [Z] with their wrap-around written out ([u8] to [i32]); arrays are lists with
    checked access ([rd], [wr], [fill], [splice]); what C leaves uninitialised, on the
    stack or in memory, is an argument of the definition.  Loops that are not structural
    take fuel, which is the bound the theorem gives them (the length of a buffer, the
    number of sectors, the number of times a thread may be woken); a theorem that such code
    returns is about enough fuel, and Returns and mtime_sleep state it as such.

    Components meet in classes: a class of operations, for the code of the client, and a
    class of laws, for its theorems.  [KernelPages] and [AddressSpaces] (pages and page
    tables), [BlockDev] and [KernelHeap] (the file system's disk and heap), [AtaPorts] (the
    controller), [CharIo] (queues and console), [ScreenStore], [StdOut], [OpenFiles],
    [ProgramFiles], [ProcessResources], [PageTypes], [ShellCalls], [UserCalls].  The laws have
    closed instances, in which the witnesses run.

    ** The files, and what they model

    Foundations.
    - Prelude: the monads, machine integers, arrays, tactics, hint databases.
    - Bitmap: lib/kernel/bitmap.c.  A scan finds the first free bit or run.
    - DList: lib/kernel/list.c, on a heap of prev and next pointers.  Each operation
      refines the one on sequences that the rest of the development uses for queues.
    - Cstring, Stdio: lib/string.c and lib/stdio.c, on byte buffers with offsets.  Formatted
      output equals a reference that renders a format as a text.
    - Words: texts cut at a separator, the reference for paths and command lines.

    Interrupts and devices.
    - Interrupt: the interrupt flag, gate and segment descriptors (kernel/interrupt.c,
      userprog/tss.c, kernel/global.h).
    - Irq: idt_init, the 8259s, the 8253, tss_init, the handler of unexpected interrupts.
      Which lines get through, where they go and who handles them is read off the bytes
      written to the controllers.
    - Timer: sleeping (device/timer.c).
    - Screen, Console: lib/kernel/print.c and device/console.c.  The screen is a terminal's.
    - Keyboard, Ioqueue: device/keyboard.c and device/ioqueue.c.  Keys become characters by a
      table, characters come out of a ring in the order they went in, also when the reader
      has to wait.
    - Ide, Partition: device/ide.c.  The driver, on a controller with documented registers,
      is the block device of Disk; the scan finds the partitions of a well-formed disk.
    - IdeInit: ide_init of the same file.  The disks that are there are identified and
      scanned; what is printed lists what was found.

    Threads.
    - Sched: PCBs, schedule, thread_block, thread_unblock, thread_yield, process_activate,
      the timer tick.  schedule is round robin; a ready thread runs after the ones before it.
    - Sync: semaphores and locks.
    - Threads: the threads together as a transition system, in which every interleaving of
      their calls and of timer interrupts is a path.  The invariant of scheduler, semaphores
      and locks holds in every reachable configuration, no assertion fails there, and locks
      exclude.
    - Task: pids, creation, exit and wait (thread/thread.c, userprog/wait_exit.c).
    - Boot: thread_init, which establishes the invariant of Threads.
    - Ps: sys_ps, sys_getpid and sys_help.  The list has a line for every task.

    Memory and processes.
    - Memory: kernel/memory.c, with the page tables as words seen through the recursive
      mapping.  Allocation maps fresh frames, freeing gives back exactly these, the heap
      hands out disjoint blocks.
    - Spaces: the interface of address spaces for the process code.
    - Process: userprog/process.c.  A process starts in user mode with an empty space and
      an empty stack.
    - Fork: userprog/fork.c.  Child and parent have the same user memory, the child returns 0.
    - FdTable: the descriptors across fork, exec and exit; the counts of pipes are exact.
    - Exec: userprog/exec.c.  A program's segments are mapped and filled from the file; what
      is not an i386 executable is refused.
    - Release: realease_prog_resource (userprog/wait_exit.c).  An exiting process gives
      back exactly the frames of its pages and page tables and the pages of its bitmap.
    - Types: the transition system of Threads with creation, fork, exit and wait; no field of
      a PCB, semaphore, lock or kernel stack ever leaves the range of its C type.
    - Syscall: the numbers, stubs, table and dispatch of the system calls.

    File system (fs/), against the interfaces in Disk.
    - Inode, Dir, File, Path, Format: inode.c, dir.c, file.c, and the paths and the formatting
      of fs.c.  On disk and in memory the same inode; a name that was added is found; data
      that was written is read; a formatted partition is well formed.
    - Pipe, Fs: shell/pipe.c and the system calls of fs.c.
    - Returns, FsSpec: that the code ends, what it leaves alone, and properties of whole
      system calls.

    Shell.
    - CleanPath, Shell, ShellSpec: shell/shell.c and shell/buildin_cmd.c.  A typed line is
      edited, cut into words, and the commands give the kernel clean absolute paths.

    Programs and the start screen.
    - UserProg: command/cat.c, pipe_test.c and prog_no_arg.c, lib/user/assert.c, and init and
      load_user_code of kernel/main.c, on an interface of system calls.  cat writes what the
      file holds.
    - Main: kernel/main.c and kernel/debug.c.  The banner puts the expected text in the
      expected colours on the screen.

    ** What links the parts

    Queues: Sched runs list operations through [queue_op], DList proves that list.c does what
    [queue_op] says.  Disk: Ide proves the laws of [BlockDev] that the file system assumes.
    Threads: Boot proves the state that Threads starts from.  Paths: the shell's clean paths
    are the paths Fs parses.  Pages: Fork, Process and Boot are proved from
    [AddressSpacesLaws], whose instance in Spaces is a small model of the allocator.

    ** Bounds

    Addresses, sizes and offsets of the source are 32-bit; where a theorem needs a sum not to
    wrap it says so, and where the code wraps the theorem states the wrapped value
    (mtime_sleep, lseek, inode_sync's 8-bit inode number).  The sizes of the source are kept:
    129 vectors, 1024 pids, 8 descriptors, 32 open files, 4096 inodes, 512-byte sectors, 140
    blocks of a file, 128 characters of a line.

    ** Not modelled

    Assembly (boot/, kernel/kernel.asm, thread/switch.asm, command/start.asm) and the port
    instructions of lib/kernel/io.c: they are the suspension in [CM], the dispatch in Syscall
    and the lists of port writes.  The messages of printk inside the file system, and the
    text that thread_yield prints; list.c's print_ele, which only prints.  init_all and the
    call of it in main are a row of calls of the components' init functions, each of which
    is modelled in the state of its component.  A loop that never ends (panic_spin,
    user_spin, idle, the ends of main and init) is where its function stops. *)

(** ** Prelude: what every component shares

    - the result of running kernel code ([outcome], [fault]) and the state and
      error monad [KM] the stateful components are written in, with its
      weakest-precondition rules;
    - the machine integers of [lib/stdint.h], written out as wrap-around on [Z];
    - arrays with explicit bounds ([rd], [wr], [fill]);
    - the interface of a state that carries the processor's EFLAGS register;
    - the generic lemmas, hint databases and tactics of the development. *)

From Stdlib Require Export ZArith Lia.
From stdpp Require Export base list gmap numbers option.

#[export] Set Default Proof Using "Type".
#[global] Open Scope Z_scope.

#[global] Arguments Z.eqb : simpl never.
#[global] Arguments Z.ltb : simpl never.
#[global] Arguments Z.leb : simpl never.
#[global] Arguments Z.land : simpl never.
#[global] Arguments Z.lor : simpl never.
#[global] Arguments Z.lnot : simpl never.
#[global] Arguments Z.shiftl : simpl never.
#[global] Arguments Z.shiftr : simpl never.
#[global] Arguments Z.testbit : simpl never.
#[global] Arguments Z.div : simpl never.
#[global] Arguments Z.modulo : simpl never.
#[global] Arguments Z.pow : simpl never.
#[global] Arguments Z.of_nat : simpl never.
#[global] Arguments Z.to_nat : simpl never.

(** ** Results of kernel code *)

(** How an execution can go wrong.  [AssertFail] is a failed [ASSERT] of
    [kernel/debug.h] (the kernel is built without [NDEBUG]) or [assert] of
    [lib/user/assert.h]; [PanicStop] an explicit [PANIC]; [OutOfBounds] an access
    outside the object accessed, where C leaves the behaviour undefined;
    [ListCorrupt] the insertion of a list node that is linked already or the removal
    of one that is not, after which list.c leaves two lists sharing nodes;
    [Diverges] marks the exhaustion of the fuel of a loop. *)
Inductive fault : Type :=
| AssertFail
| PanicStop
| OutOfBounds
| ListCorrupt
| Diverges.

Inductive outcome (A : Type) : Type :=
| Ok (a : A)
| Err (e : fault).
Arguments Ok {A} a.
Arguments Err {A} e.

#[export] Instance fault_eq_dec : EqDecision fault.
Proof. solve_decision. Defined.
#[export] Instance outcome_eq_dec {A} `{EqDecision A} : EqDecision (outcome A).
Proof. solve_decision. Defined.

Definition obind {A B} (m : outcome A) (k : A -> outcome B) : outcome B :=
  match m with Ok a => k a | Err e => Err e end.

(** The monad of the stateful components: explicit state passing with faults. *)
Definition KM (S A : Type) : Type := S -> outcome (A * S).

Definition kret {S A} (a : A) : KM S A := fun s => Ok (a, s).
Definition kbind {S A B} (m : KM S A) (k : A -> KM S B) : KM S B :=
  fun s => match m s with Ok (a, s') => k a s' | Err e => Err e end.
Definition kget {S} : KM S S := fun s => Ok (s, s).
Definition kmod {S} (f : S -> S) : KM S unit := fun s => Ok (tt, f s).
Definition kreads {S A} (f : S -> A) : KM S A := fun s => Ok (f s, s).
Definition kfail {S A} (e : fault) : KM S A := fun _ => Err e.
Definition klift {S A} (m : outcome A) : KM S A :=
  fun s => match m with Ok a => Ok (a, s) | Err e => Err e end.

Declare Scope kernel_scope.
Delimit Scope kernel_scope with kernel.
#[global] Open Scope kernel_scope.

Notation "'let?' x ':=' m 'in' k" := (obind m (fun x => k))
  (at level 10, x name, m at level 99, k at level 200) : kernel_scope.
Notation "x <- m ;; k" := (kbind m (fun x => k))
  (at level 20, m at level 99, k at level 200) : kernel_scope.
Notation "m ;;; k" := (kbind m (fun _ => k))
  (at level 100, right associativity, k at level 200) : kernel_scope.

(** [ASSERT(c)] and [PANIC(...)] of [kernel/debug.h]: [panic_spin] disables the
    interrupts, prints and loops for ever, so nothing after it runs. *)
Definition ASSERT {S} (c : bool) : KM S unit := if c then kret tt else kfail AssertFail.
Definition PANIC {S A} : KM S A := kfail PanicStop.
Definition oassert (c : bool) : outcome unit := if c then Ok tt else Err AssertFail.

(** ** Code that can be switched out *)

(** What a run of kernel code that may call [schedule] gives: its result, or, when
    [switch_to] took the processor away, the rest of the code, to be run in the state
    the kernel is in when the thread is switched to again. *)
Inductive co (S A : Type) : Type :=
| Return (a : A)
| Suspended (k : S -> outcome (co S A * S)).
Arguments Return {S A} a.
Arguments Suspended {S A} k.

Definition CM (S A : Type) : Type := S -> outcome (co S A * S).

Definition cret {S A} (a : A) : CM S A := fun s => Ok (Return a, s).

Fixpoint co_bind {S A B} (c : co S A) (f : A -> CM S B) : CM S B := fun s =>
  match c with
  | Return a => f a s
  | Suspended k =>
      Ok (Suspended (fun s1 =>
            match k s1 with Ok (c', s2) => co_bind c' f s2 | Err e => Err e end), s)
  end.
Definition cbind {S A B} (m : CM S A) (f : A -> CM S B) : CM S B :=
  fun s => match m s with Ok (c, s') => co_bind c f s' | Err e => Err e end.

(** Code that is not switched out, and the point where [switch_to] leaves the thread. *)
Definition atomic {S A} (m : KM S A) : CM S A :=
  fun s => match m s with Ok (a, s') => Ok (Return a, s') | Err e => Err e end.
Definition suspend {S} : CM S unit := fun s => Ok (Suspended (cret tt), s).

Notation "x <~ m ;; k" := (cbind m (fun x => k))
  (at level 20, m at level 99, k at level 200) : kernel_scope.
Notation "m ;~; k" := (cbind m (fun _ => k))
  (at level 100, right associativity, k at level 200) : kernel_scope.

(** ** Weakest preconditions *)

(** [wp m Q s]: from [s] the code [m] runs without a fault and ends with [Q].
    A proof of [wp] is a proof that the code returns. *)
Definition wp {S A} (m : KM S A) (Q : A -> S -> Prop) (s : S) : Prop :=
  match m s with Ok (a, s') => Q a s' | Err _ => False end.

Section wp_rules.
Context {S A B : Type}.
Implicit Types (s : S).

Lemma wp_ret (a : A) Q s : Q a s -> wp (kret a) Q s.
Proof. done. Qed.

Lemma wp_bind (m : KM S A) (k : A -> KM S B) Q s :
  wp m (fun a s' => wp (k a) Q s') s -> wp (kbind m k) Q s.
Proof. unfold wp, kbind. destruct (m s) as [[a s']|e]; naive_solver. Qed.

Lemma wp_mono (m : KM S A) (P Q : A -> S -> Prop) s :
  wp m P s -> (forall a s', P a s' -> Q a s') -> wp m Q s.
Proof. unfold wp. destruct (m s) as [[a s']|e]; naive_solver. Qed.

Lemma wp_run (m : KM S A) Q s a s' : m s = Ok (a, s') -> Q a s' -> wp m Q s.
Proof. unfold wp. by intros ->. Qed.

Lemma wp_inv (m : KM S A) Q s : wp m Q s -> exists a s', m s = Ok (a, s') /\ Q a s'.
Proof. unfold wp. destruct (m s) as [[a s']|e]; naive_solver. Qed.

Lemma wp_get (Q : S -> S -> Prop) s : Q s s -> wp kget Q s.
Proof. done. Qed.

Lemma wp_mod (f : S -> S) Q s : Q tt (f s) -> wp (kmod f) Q s.
Proof. done. Qed.

Lemma wp_reads (f : S -> A) Q s : Q (f s) s -> wp (kreads f) Q s.
Proof. done. Qed.

Lemma wp_lift (m : outcome A) a Q s : m = Ok a -> Q a s -> wp (klift m) Q s.
Proof. intros ->. done. Qed.

Lemma wp_ASSERT (c : bool) Q s : c = true -> Q tt s -> wp (ASSERT c) Q s.
Proof. intros ->. done. Qed.
End wp_rules.

(** Runs of a bind, for the theorems stated as equations. *)
Lemma kbind_ok {S A B} (m : KM S A) (k : A -> KM S B) s a s' :
  m s = Ok (a, s') -> kbind m k s = k a s'.
Proof. unfold kbind. by intros ->. Qed.

Lemma kbind_inv {S A B} (m : KM S A) (k : A -> KM S B) s b s2 :
  kbind m k s = Ok (b, s2) -> exists a s1, m s = Ok (a, s1) /\ k a s1 = Ok (b, s2).
Proof. unfold kbind. destruct (m s) as [[a s1]|e]; naive_solver. Qed.

Lemma cbind_atomic {S A B} (m : KM S A) (f : A -> CM S B) s a s' :
  m s = Ok (a, s') -> cbind (atomic m) f s = f a s'.
Proof. unfold cbind, atomic. by intros ->. Qed.

Lemma cbind_return {S A B} (m : CM S A) (f : A -> CM S B) s a s' :
  m s = Ok (Return a, s') -> cbind m f s = f a s'.
Proof. unfold cbind. by intros ->. Qed.

Lemma cbind_suspended {S A B} (m : CM S A) (f : A -> CM S B) s k s' :
  m s = Ok (Suspended k, s') -> cbind m f s = Ok (Suspended (cbind k f), s').
Proof. unfold cbind. by intros ->. Qed.

Ltac wp_step :=
  lazymatch goal with
  | |- wp (kbind _ _) _ _ => apply wp_bind
  | |- wp (kret _) _ _ => apply wp_ret
  | |- wp kget _ _ => apply wp_get
  | |- wp (kmod _) _ _ => apply wp_mod
  | |- wp (kreads _) _ _ => apply wp_reads
  end.
Ltac wp_steps := repeat wp_step; cbn beta.

(** ** Machine integers ([lib/stdint.h]) *)

Definition u8 (z : Z) : Z := z mod 2 ^ 8.
Definition u16 (z : Z) : Z := z mod 2 ^ 16.
Definition u32 (z : Z) : Z := z mod 2 ^ 32.
Definition i8 (z : Z) : Z := (z + 2 ^ 7) mod 2 ^ 8 - 2 ^ 7.
Definition i16 (z : Z) : Z := (z + 2 ^ 15) mod 2 ^ 16 - 2 ^ 15.
Definition i32 (z : Z) : Z := (z + 2 ^ 31) mod 2 ^ 32 - 2 ^ 31.

(** [DIV_ROUND_UP] of [kernel/global.h], on [uint32_t] operands. *)
Definition DIV_ROUND_UP (x step : Z) : Z := u32 (u32 (x + step) - 1) / step.

#[global] Arguments u8 : simpl never.
#[global] Arguments u16 : simpl never.
#[global] Arguments u32 : simpl never.
#[global] Arguments i8 : simpl never.
#[global] Arguments i16 : simpl never.
#[global] Arguments i32 : simpl never.

Lemma u8_small z : 0 <= z < 256 -> u8 z = z.
Proof. intros. unfold u8. rewrite Z.mod_small; lia. Qed.
Lemma u16_small z : 0 <= z < 65536 -> u16 z = z.
Proof. intros. unfold u16. rewrite Z.mod_small; lia. Qed.
Lemma u32_small z : 0 <= z < 4294967296 -> u32 z = z.
Proof. intros. unfold u32. rewrite Z.mod_small; lia. Qed.
Lemma i32_small z : - 2147483648 <= z < 2147483648 -> i32 z = z.
Proof. intros. unfold i32. rewrite Z.mod_small; lia. Qed.
Lemma u8_range z : 0 <= u8 z < 256.
Proof. unfold u8. pose proof (Z.mod_pos_bound z (2 ^ 8)). lia. Qed.
Lemma u32_range z : 0 <= u32 z < 4294967296.
Proof. unfold u32. pose proof (Z.mod_pos_bound z (2 ^ 32)). lia. Qed.
Lemma i32_range z : - 2147483648 <= i32 z < 2147483648.
Proof. unfold i32. pose proof (Z.mod_pos_bound (z + 2 ^ 31) (2 ^ 32)). lia. Qed.
Lemma i32_u32 z : i32 (u32 z) = i32 z.
Proof. unfold i32, u32. rewrite Zplus_mod_idemp_l. done. Qed.
Lemma u32_i32 z : u32 (i32 z) = u32 z.
Proof.
  unfold i32, u32. rewrite Zminus_mod_idemp_l. f_equal. lia.
Qed.
Lemma u32_idemp z : u32 (u32 z) = u32 z.
Proof. apply u32_small, u32_range. Qed.

Create HintDb kernel.
Create Rewrite HintDb word.
#[export] Hint Rewrite u32_idemp i32_u32 u32_i32 : word.
#[export] Hint Rewrite u8_small u16_small u32_small i32_small using lia : word.

(** ** Arrays *)

(** [a[i]] and [a[i] = v] in C, for an array whose storage is the list: an index
    outside of it is undefined behaviour, reported as [OutOfBounds]. *)
Definition rd {A} (l : list A) (i : Z) : outcome A :=
  if decide (0 <= i) then
    match l !! Z.to_nat i with Some v => Ok v | None => Err OutOfBounds end
  else Err OutOfBounds.

Definition wr {A} (l : list A) (i : Z) (v : A) : outcome (list A) :=
  if decide (0 <= i < Z.of_nat (length l)) then Ok (<[Z.to_nat i := v]> l)
  else Err OutOfBounds.

(** [memset(a + off, v, n)] on an array of bytes. *)
Definition fill {A} (l : list A) (off n : Z) (v : A) : outcome (list A) :=
  if decide (0 <= off /\ 0 <= n /\ off + n <= Z.of_nat (length l)) then
    Ok (take (Z.to_nat off) l ++ replicate (Z.to_nat n) v ++ drop (Z.to_nat (off + n)) l)
  else Err OutOfBounds.

(** [memcpy(a + off, src, length src)] on an array. *)
Definition splice {A} (l : list A) (off : Z) (src : list A) : outcome (list A) :=
  if decide (0 <= off /\ off + Z.of_nat (length src) <= Z.of_nat (length l)) then
    Ok (take (Z.to_nat off) l ++ src ++ drop (Z.to_nat off + length src)%nat l)
  else Err OutOfBounds.

(** The [n] bytes at [a + off]. *)
Definition slice {A} (l : list A) (off n : Z) : outcome (list A) :=
  if decide (0 <= off /\ 0 <= n /\ off + n <= Z.of_nat (length l)) then
    Ok (take (Z.to_nat n) (drop (Z.to_nat off) l))
  else Err OutOfBounds.

#[global] Arguments rd : simpl never.
#[global] Arguments wr : simpl never.
#[global] Arguments fill : simpl never.
#[global] Arguments splice : simpl never.
#[global] Arguments slice : simpl never.

Section arrays.
Context {A : Type}.
Implicit Types (l src : list A) (v : A).

Lemma rd_Ok l i v : 0 <= i -> l !! Z.to_nat i = Some v -> rd l i = Ok v.
Proof. intros Hi Hl. unfold rd. by rewrite decide_True, Hl by done. Qed.

Lemma rd_inv l i v : rd l i = Ok v -> 0 <= i /\ l !! Z.to_nat i = Some v.
Proof. unfold rd. intros. repeat case_match; naive_solver. Qed.

Lemma rd_lt l i : 0 <= i < Z.of_nat (length l) -> exists v, rd l i = Ok v.
Proof.
  intros Hi. destruct (lookup_lt_is_Some_2 l (Z.to_nat i)) as [v Hv]; [lia|].
  exists v. apply rd_Ok; [lia|done].
Qed.

Lemma rd_oob l i : ~ (0 <= i < Z.of_nat (length l)) -> rd l i = Err OutOfBounds.
Proof.
  intros Hi. unfold rd. case_decide; [|done].
  rewrite lookup_ge_None_2; [done|lia].
Qed.

Lemma wr_Ok l i v :
  0 <= i < Z.of_nat (length l) -> wr l i v = Ok (<[Z.to_nat i := v]> l).
Proof. intros. unfold wr. by rewrite decide_True. Qed.

Lemma wr_inv l i v l' :
  wr l i v = Ok l' -> 0 <= i < Z.of_nat (length l) /\ l' = <[Z.to_nat i := v]> l.
Proof. unfold wr. intros. case_decide; naive_solver. Qed.

Lemma rd_insert_eq l i v :
  0 <= i < Z.of_nat (length l) -> rd (<[Z.to_nat i := v]> l) i = Ok v.
Proof. intros. apply rd_Ok; [lia|]. apply list_lookup_insert_eq. lia. Qed.

Lemma rd_insert_ne l i j v :
  0 <= i -> i <> j -> rd (<[Z.to_nat i := v]> l) j = rd l j.
Proof.
  intros. unfold rd. case_decide; [|done].
  rewrite list_lookup_insert_ne; [done|lia].
Qed.

Lemma fill_Ok l off n v :
  0 <= off -> 0 <= n -> off + n <= Z.of_nat (length l) ->
  fill l off n v
  = Ok (take (Z.to_nat off) l ++ replicate (Z.to_nat n) v ++ drop (Z.to_nat (off + n)) l).
Proof. intros. unfold fill. by rewrite decide_True. Qed.

Lemma splice_Ok l off src :
  0 <= off -> off + Z.of_nat (length src) <= Z.of_nat (length l) ->
  splice l off src = Ok (take (Z.to_nat off) l ++ src ++ drop (Z.to_nat off + length src)%nat l).
Proof. intros. unfold splice. by rewrite decide_True. Qed.

Lemma splice_length l off src l' : splice l off src = Ok l' -> length l' = length l.
Proof.
  unfold splice. case_decide; [|done]. intros. simplify_eq.
  rewrite !length_app, length_take, length_drop. lia.
Qed.

Lemma slice_Ok l off n :
  0 <= off -> 0 <= n -> off + n <= Z.of_nat (length l) ->
  slice l off n = Ok (take (Z.to_nat n) (drop (Z.to_nat off) l)).
Proof. intros. unfold slice. by rewrite decide_True. Qed.

Lemma slice_length l off n r :
  slice l off n = Ok r -> 0 <= n /\ length r = Z.to_nat n.
Proof.
  unfold slice. case_decide; [|done]. intros. simplify_eq.
  rewrite length_take, length_drop. lia.
Qed.

(** Reading back what was copied in. *)
Lemma slice_splice l off src l' :
  splice l off src = Ok l' -> slice l' off (Z.of_nat (length src)) = Ok src.
Proof.
  intros H. pose proof (splice_length _ _ _ _ H) as Hlen. revert H.
  unfold splice. case_decide as Hb; [|done]. intros. simplify_eq.
  rewrite slice_Ok by (rewrite ?Hlen; lia). f_equal.
  rewrite Nat2Z.id, drop_app_length' by (rewrite length_take; lia).
  by rewrite take_app_length.
Qed.

(** A slice that does not meet the copied range is unchanged. *)
Lemma slice_splice_disjoint l off src l' off2 n :
  splice l off src = Ok l' ->
  off2 + n <= off \/ off + Z.of_nat (length src) <= off2 ->
  slice l' off2 n = slice l off2 n.
Proof.
  intros H Hd. pose proof (splice_length _ _ _ _ H) as Hlen. revert H.
  unfold splice. case_decide as Hb; [|done]. intros. simplify_eq.
  unfold slice. rewrite Hlen. case_decide as Hb2; [|done]. f_equal.
  apply list_eq. intros i. destruct (decide (i < Z.to_nat n)%nat).
  - rewrite !lookup_take_lt, !lookup_drop by lia. destruct Hd.
    + rewrite lookup_app_l by (rewrite length_take; lia).
      rewrite lookup_take_lt by lia. done.
    + rewrite lookup_app_r by (rewrite length_take; lia).
      rewrite lookup_app_r by (rewrite length_take; lia).
      rewrite lookup_drop, length_take. f_equal. lia.
  - rewrite !lookup_take_ge by lia. done.
Qed.
End arrays.

Create Rewrite HintDb array.
#[export] Hint Rewrite @length_insert @length_app @length_take @length_drop
  @length_replicate @length_nil @length_cons @length_fmap : array.

(** ** Little-endian words *)

(** The [n] bytes of [z] as the processor stores them, and back. *)
Fixpoint le_bytes (n : nat) (z : Z) : list Z :=
  match n with
  | O => []
  | S n => z mod 256 :: le_bytes n (z / 256)
  end.

Fixpoint le_val (l : list Z) : Z :=
  match l with
  | [] => 0
  | b :: l => b + 256 * le_val l
  end.

Lemma le_bytes_length n z : length (le_bytes n z) = n.
Proof. revert z. induction n; intros; simpl; auto. Qed.

Lemma le_val_bytes n z : 0 <= z < 256 ^ Z.of_nat n -> le_val (le_bytes n z) = z.
Proof.
  revert z. induction n as [|n IH]; intros z Hz; simpl in *; [lia|].
  replace (256 ^ Z.of_nat (S n)) with (256 * 256 ^ Z.of_nat n) in Hz
    by (rewrite Nat2Z.inj_succ, Z.pow_succ_r; lia).
  rewrite IH.
  - pose proof (Z.div_mod z 256). lia.
  - split; [apply Z.div_pos; lia | apply Z.div_lt_upper_bound; lia].
Qed.

#[export] Hint Rewrite le_bytes_length : array.

(** ** Bits *)

Lemma testbit_1 j : Z.testbit 1 j = bool_decide (j = 0).
Proof.
  destruct (decide (j = 0)) as [->|Hj].
  - reflexivity.
  - rewrite bool_decide_eq_false_2 by done. change 1 with (2 ^ 0).
    apply Z.pow2_bits_false. congruence.
Qed.

Lemma shiftl1_testbit k j : 0 <= k -> Z.testbit (Z.shiftl 1 k) j = bool_decide (j = k).
Proof.
  intros. rewrite Z.shiftl_1_l. destruct (decide (j = k)) as [->|Hne].
  - rewrite bool_decide_eq_true_2 by done. apply Z.pow2_bits_true. lia.
  - rewrite bool_decide_eq_false_2 by done. apply Z.pow2_bits_false. congruence.
Qed.

(** A mask with one bit: the conjunction is zero exactly when the bit is. *)
Lemma land_shiftl1 v k :
  0 <= k -> Z.land v (Z.shiftl 1 k) = if Z.testbit v k then Z.shiftl 1 k else 0.
Proof.
  intros Hk. apply Z.bits_inj'. intros j Hj.
  rewrite Z.land_spec, shiftl1_testbit by done.
  destruct (decide (j = k)) as [->|Hne].
  - rewrite bool_decide_eq_true_2 by done. rewrite andb_true_r.
    destruct (Z.testbit v k); [|by rewrite Z.bits_0].
    by rewrite shiftl1_testbit, bool_decide_eq_true_2.
  - rewrite bool_decide_eq_false_2 by done. rewrite andb_false_r.
    destruct (Z.testbit v k); [|by rewrite Z.bits_0].
    by rewrite shiftl1_testbit, bool_decide_eq_false_2.
Qed.

Lemma land_shiftl1_eqb v k :
  0 <= k -> (Z.land v (Z.shiftl 1 k) =? 0) = negb (Z.testbit v k).
Proof.
  intros Hk. rewrite land_shiftl1 by done. rewrite Z.shiftl_1_l.
  destruct (Z.testbit v k); simpl; [|done].
  apply Z.eqb_neq. pose proof (Z.pow_pos_nonneg 2 k). lia.
Qed.

(** A property of all small indices, checked index by index. *)
Lemma below_forall (n : nat) (P : Z -> Prop) :
  Forall P (map Z.of_nat (seq 0 n)) -> forall i, 0 <= i < Z.of_nat n -> P i.
Proof.
  intros HP i Hi. rewrite Forall_forall in HP. apply HP.
  apply in_map_iff. exists (Z.to_nat i). rewrite in_seq. lia.
Qed.

(** A boolean test of all small indices, run by computation. *)
Lemma below_forallb (n : nat) (f : Z -> bool) :
  forallb f (map Z.of_nat (seq 0 n)) = true -> forall i, 0 <= i < Z.of_nat n -> f i = true.
Proof.
  intros Hf. apply below_forall. apply Forall_forall. by apply forallb_forall.
Qed.

(** A field of [w] bits at position [k]. *)
Lemma land_field f k w :
  0 <= k -> 0 <= w ->
  Z.shiftr (Z.land f (Z.shiftl (Z.ones w) k)) k = (f / 2 ^ k) mod 2 ^ w.
Proof.
  intros Hk Hw. rewrite Z.shiftr_land, Z.shiftr_shiftl_l, Z.sub_diag, Z.shiftl_0_r by lia.
  by rewrite Z.land_ones, Z.shiftr_div_pow2 by lia.
Qed.

(** The same field left in place. *)
Lemma land_high f k w :
  0 <= k -> 0 <= w -> Z.land f (Z.shiftl (Z.ones w) k) = (f / 2 ^ k) mod 2 ^ w * 2 ^ k.
Proof.
  intros Hk Hw. rewrite <- land_field, <- Z.shiftl_mul_pow2 by done.
  apply Z.bits_inj'. intros j Hj. rewrite Z.shiftl_spec by done. destruct (Z.lt_ge_cases j k).
  - rewrite (Z.testbit_neg_r _ (j - k)) by lia.
    by rewrite Z.land_spec, Z.shiftl_spec_low, andb_false_r by lia.
  - rewrite Z.shiftr_spec by lia. f_equal. lia.
Qed.

(** Bits put below an aligned value. *)
Lemma lor_low f b k : 0 <= k -> f mod 2 ^ k = 0 -> 0 <= b < 2 ^ k -> Z.lor f b = f + b.
Proof.
  intros Hk Hf Hb.
  assert (Hz : Z.land f b = 0).
  { apply Z.bits_inj'. intros j Hj. rewrite Z.land_spec, Z.bits_0.
    destruct (Z.lt_ge_cases j k).
    - apply Z.mod_divide in Hf as [q ->]; [|lia].
      by rewrite Z.mul_pow2_bits_low by lia.
    - destruct (decide (b = 0)) as [->|]; [by rewrite Z.bits_0, andb_false_r|].
      rewrite (Z.bits_above_log2 b), andb_false_r; [done|lia|].
      assert (Z.log2 b < k) by (apply Z.log2_lt_pow2; lia). lia. }
  rewrite Z.add_nocarry_lxor by done. by rewrite Z.lxor_lor.
Qed.

(** ** EFLAGS *)

(** A component state that carries the processor's EFLAGS register, through
    which [kernel/interrupt.c] reads and sets the interrupt flag. *)
Class HasEflags (S : Type) := {
  eflags : S -> Z;
  set_eflags : Z -> S -> S;
  eflags_set : forall v s, eflags (set_eflags v s) = v;
  set_eflags_set : forall v w s, set_eflags v (set_eflags w s) = set_eflags v s;
  set_eflags_id : forall s, set_eflags (eflags s) s = s
}.

(** ** Tactics *)

(** Split the hypotheses and goals that come from a run of the monad. *)
Ltac run_inv :=
  repeat match goal with
  | H : kbind _ _ _ = Ok _ |- _ => apply kbind_inv in H; destruct H as (?&?&?&?)
  | H : kret _ _ = Ok _ |- _ => unfold kret in H
  | H : Ok _ = Ok _ |- _ => simplify_eq H
  | H : Err _ = Ok _ |- _ => discriminate H
  | H : rd _ _ = Ok _ |- _ => apply rd_inv in H; destruct H
  | H : wr _ _ _ = Ok _ |- _ => apply wr_inv in H; destruct H
  end.

Ltac list_simp := autorewrite with array in *; simpl length in *.
