(* ===== verification/Bitmap.v ===== *)
(** * Bitmap: lib/kernel/bitmap.c

    The bitmap every allocator of the kernel is built on (physical pages, virtual
    pages, pids, inodes, blocks).  [bits] is the storage that can be read through
    the C pointer [bits], which may extend past the [btmp_bytes_len] bytes of the
    bitmap itself: [bitmap_scan] reads the byte behind the bitmap, so the model
    has to say what is there.  The type [bool] of [kernel/global.h] is an
    [enum]: [bitmap_scan_test] returns the masked byte, not 0 or 1. *)

From S2P Require Import Prelude.

Definition BITMAP_MASK : Z := 1.

Record bitmap : Type := Bitmap { btmp_bytes_len : Z; bits : list Z }.

Definition set_bits (l : list Z) (b : bitmap) : bitmap := Bitmap (btmp_bytes_len b) l.

Definition bitmap_init (b : bitmap) : outcome bitmap :=
  let? l := fill (bits b) 0 (btmp_bytes_len b) 0 in
  Ok (set_bits l b).

Definition bitmap_scan_test (b : bitmap) (bit_idx : Z) : outcome Z :=
  let byte_idx := bit_idx / 8 in
  let bit_odd := bit_idx mod 8 in
  let? v := rd (bits b) byte_idx in
  Ok (Z.land v (Z.shiftl BITMAP_MASK bit_odd)).

(** The loop that looks for a byte that is not [0xff]. *)
Fixpoint scan_byte (fuel : nat) (b : bitmap) (idx_byte : Z) : outcome Z :=
  match fuel with
  | O => Err Diverges
  | S fuel =>
      let? v := rd (bits b) idx_byte in
      if (255 =? v) && (idx_byte <? btmp_bytes_len b)
      then scan_byte fuel b (u32 (idx_byte + 1))
      else Ok idx_byte
  end.

(** The loop that looks for a clear bit in the byte [v]. *)
Fixpoint scan_bit (fuel : nat) (v : Z) (idx_bit : Z) : outcome Z :=
  match fuel with
  | O => Err Diverges
  | S fuel =>
      if negb (Z.land (u8 (Z.shiftl BITMAP_MASK idx_bit)) v =? 0)
      then scan_bit fuel v (idx_bit + 1)
      else Ok idx_bit
  end.

(** [while (bit_left-- > 0)]: [bit_left] is the number of rounds to go. *)
Fixpoint scan_run (bit_left : nat) (b : bitmap) (cnt next_bit count : Z) : outcome Z :=
  match bit_left with
  | O => Ok (-1)
  | S bit_left =>
      let? t := bitmap_scan_test b next_bit in
      let count := if t =? 0 then u32 (count + 1) else 0 in
      if count =? cnt then Ok (i32 (u32 (next_bit - cnt + 1)))
      else scan_run bit_left b cnt (u32 (next_bit + 1)) count
  end.

Definition bitmap_scan (b : bitmap) (cnt : Z) : outcome Z :=
  let? idx_byte := scan_byte (S (length (bits b))) b 0 in
  let? _ := oassert (idx_byte <? btmp_bytes_len b) in
  if idx_byte =? btmp_bytes_len b then Ok (-1) else
  let? v := rd (bits b) idx_byte in
  let? idx_bit := scan_bit 9 v 0 in
  let bit_idx_start := i32 (u32 (idx_byte * 8 + idx_bit)) in
  if cnt =? 1 then Ok bit_idx_start else
  let bit_left := u32 (btmp_bytes_len b * 8 - bit_idx_start) in
  scan_run (Z.to_nat bit_left) b cnt (u32 (bit_idx_start + 1)) 1.

Definition bitmap_set (b : bitmap) (bit_idx value : Z) : outcome bitmap :=
  let? _ := oassert ((value =? 0) || (value =? 1)) in
  let byte_idx := bit_idx / 8 in
  let bit_odd := bit_idx mod 8 in
  let? v := rd (bits b) byte_idx in
  let mask := u8 (Z.shiftl BITMAP_MASK bit_odd) in
  let? l := wr (bits b) byte_idx
              (if negb (value =? 0) then u8 (Z.lor v mask) else u8 (Z.land v (Z.lnot mask))) in
  Ok (set_bits l b).

(** ** Specification *)

(** Bit [i] of the storage; bits outside of it read as clear. *)
Definition bit_at (b : bitmap) (i : Z) : bool :=
  match bits b !! Z.to_nat (i / 8) with
  | Some v => Z.testbit v (i mod 8)
  | None => false
  end.

(** The bitmap is stored, its bytes are bytes, and its bits can be counted in
    an [int]. *)
Record bitmap_ok (b : bitmap) : Prop := {
  bm_bytes : Forall (fun v => 0 <= v < 256) (bits b);
  bm_len : 0 <= btmp_bytes_len b <= Z.of_nat (length (bits b));
  bm_small : Z.of_nat (length (bits b)) < 2 ^ 27
}.

Definition bit_len (b : bitmap) : Z := btmp_bytes_len b * 8.

(** [cnt] clear bits from [r] on. *)
Definition clear_run (b : bitmap) (r cnt : Z) : Prop :=
  forall k, 0 <= k < cnt -> bit_at b (r + k) = false.

Lemma bitmap_ok_byte b i v :
  bitmap_ok b -> bits b !! i = Some v -> 0 <= v < 256.
Proof. intros Hok Hi. exact (Forall_lookup_1 _ _ _ _ (bm_bytes b Hok) Hi). Qed.

Lemma scan_test_spec b i :
  bitmap_ok b -> 0 <= i < Z.of_nat (length (bits b)) * 8 ->
  exists t, bitmap_scan_test b i = Ok t /\ (t =? 0) = negb (bit_at b i).
Proof.
  intros Hok Hi. unfold bitmap_scan_test, bit_at, BITMAP_MASK.
  assert (Hb : 0 <= i / 8 < Z.of_nat (length (bits b))).
  { split; [apply Z.div_pos; lia | apply Z.div_lt_upper_bound; lia]. }
  destruct (rd_lt _ _ Hb) as [v Hv]. rewrite Hv. cbn.
  apply rd_inv in Hv as [_ Hv]. rewrite Hv. eexists. split; [done|].
  apply land_shiftl1_eqb. apply Z.mod_pos_bound. lia.
Qed.

(** *** [bitmap_set] *)

Lemma byte_testbit_high v j : 0 <= v < 256 -> 8 <= j -> Z.testbit v j = false.
Proof.
  intros Hv Hj. destruct (decide (v = 0)) as [->|]; [apply Z.bits_0|].
  apply Z.bits_above_log2; [lia|].
  assert (Z.log2 v < 8) by (apply Z.log2_lt_pow2; lia). lia.
Qed.

Lemma u8_testbit z j : Z.testbit (u8 z) j = (j <? 8) && Z.testbit z j.
Proof.
  unfold u8. destruct (Z.ltb_spec j 8).
  - by rewrite Z.mod_pow2_bits_low.
  - by rewrite Z.mod_pow2_bits_high by lia.
Qed.

(** The byte [bitmap_set] writes. *)
Definition set_byte (v bit_odd : Z) (x : bool) : Z :=
  if x then u8 (Z.lor v (u8 (Z.shiftl 1 bit_odd)))
  else u8 (Z.land v (Z.lnot (u8 (Z.shiftl 1 bit_odd)))).

Lemma set_byte_testbit v k x j :
  0 <= k < 8 -> 0 <= j < 8 ->
  Z.testbit (set_byte v k x) j = if decide (j = k) then x else Z.testbit v j.
Proof.
  intros Hk Hj. unfold set_byte. destruct x.
  - rewrite u8_testbit, Z.lor_spec, u8_testbit, shiftl1_testbit by lia.
    destruct (Z.ltb_spec j 8); [|lia]. simpl. case_decide.
    + rewrite bool_decide_eq_true_2 by done. by rewrite orb_true_r.
    + rewrite bool_decide_eq_false_2 by done. by rewrite orb_false_r.
  - rewrite u8_testbit, Z.land_spec, Z.lnot_spec, u8_testbit, shiftl1_testbit by lia.
    destruct (Z.ltb_spec j 8); [|lia]. simpl. case_decide.
    + rewrite bool_decide_eq_true_2 by done. by rewrite andb_false_r.
    + rewrite bool_decide_eq_false_2 by done. by rewrite andb_true_r.
Qed.

Lemma set_byte_range v k x : 0 <= set_byte v k x < 256.
Proof. unfold set_byte. destruct x; apply u8_range. Qed.

Lemma bitmap_set_run b i (x : bool) :
  0 <= i < Z.of_nat (length (bits b)) * 8 ->
  exists v, bits b !! Z.to_nat (i / 8) = Some v /\
    bitmap_set b i (Z.b2z x)
    = Ok (set_bits (<[Z.to_nat (i / 8) := set_byte v (i mod 8) x]> (bits b)) b).
Proof.
  intros Hi.
  assert (Hb : 0 <= i / 8 < Z.of_nat (length (bits b))).
  { split; [apply Z.div_pos; lia | apply Z.div_lt_upper_bound; lia]. }
  destruct (rd_lt _ _ Hb) as [v Hv]. exists v.
  split; [by apply rd_inv in Hv as [_ ?]|]. unfold bitmap_set.
  destruct x; cbn -[rd wr u8]; rewrite Hv; cbn -[wr u8]; rewrite wr_Ok by lia; done.
Qed.

Lemma bitmap_set_ok b i (x : bool) b' :
  bitmap_ok b -> 0 <= i < Z.of_nat (length (bits b)) * 8 ->
  bitmap_set b i (Z.b2z x) = Ok b' ->
  bitmap_ok b' /\ btmp_bytes_len b' = btmp_bytes_len b /\
  length (bits b') = length (bits b) /\
  forall j, 0 <= j -> bit_at b' j = if decide (j = i) then x else bit_at b j.
Proof.
  intros Hok Hi Hset. destruct (bitmap_set_run b i x Hi) as (v & Hv & Hrun).
  rewrite Hrun in Hset. simplify_eq. unfold set_bits; simpl.
  rewrite length_insert. split; [|split; [done|split; [done|]]].
  - destruct Hok. split; simpl; rewrite ?length_insert; try done.
    apply Forall_insert; [done|]. apply set_byte_range.
  - intros j Hj. unfold bit_at; simpl.
    destruct (decide (j / 8 = i / 8)) as [Heq|Hne].
    + rewrite Heq, list_lookup_insert_eq by (eapply lookup_lt_Some; eauto).
      rewrite Hv, set_byte_testbit by (apply Z.mod_pos_bound; lia).
      assert (j = i <-> j mod 8 = i mod 8) as Hiff.
      { pose proof (Z.div_mod j 8). pose proof (Z.div_mod i 8). lia. }
      repeat case_decide; tauto.
    + assert (0 <= j / 8) by (apply Z.div_pos; lia).
      assert (0 <= i / 8) by (apply Z.div_pos; lia).
      rewrite list_lookup_insert_ne by lia.
      case_decide; [congruence|done].
Qed.

(** *** The searching loops *)

Lemma scan_byte_spec fuel b i :
  bitmap_ok b -> 0 <= i <= btmp_bytes_len b ->
  Z.of_nat (length (bits b)) - i < Z.of_nat fuel ->
  match scan_byte fuel b i with
  | Ok r => i <= r <= btmp_bytes_len b /\
            (forall j, i <= j < r -> bits b !! Z.to_nat j = Some 255) /\
            (r < btmp_bytes_len b -> exists v, bits b !! Z.to_nat r = Some v /\ v <> 255)
  | Err e => e = OutOfBounds /\ btmp_bytes_len b = Z.of_nat (length (bits b)) /\
             forall j, i <= j < btmp_bytes_len b -> bits b !! Z.to_nat j = Some 255
  end.
Proof.
  intros Hok. pose proof (bm_len b Hok). pose proof (bm_small b Hok).
  revert i. induction fuel as [|fuel IH]; intros i Hi Hfuel; [lia|]. simpl.
  destruct (decide (i < Z.of_nat (length (bits b)))) as [Hlt|Hge].
  2: { rewrite rd_oob by lia. simpl. split_and!; [done|lia|lia]. }
  destruct (rd_lt (bits b) i ltac:(lia)) as [v Hv]. rewrite Hv. simpl.
  apply rd_inv in Hv as [_ Hv].
  destruct (Z.eqb_spec 255 v) as [<-|Hne]; simpl.
  2: { split_and!; try lia. intros _. eauto. }
  destruct (Z.ltb_spec i (btmp_bytes_len b)); [|split_and!; lia].
  rewrite u32_small by lia. specialize (IH (i + 1) ltac:(lia) ltac:(lia)).
  assert (Hcase : forall j, i <= j -> j = i \/ i + 1 <= j) by lia.
  destruct (scan_byte fuel b (i + 1)) as [r|e].
  - destruct IH as (Hr & Hff & Hex). split_and!; [lia|lia| |done].
    intros j Hj. destruct (Hcase j) as [->|]; [lia|done|apply Hff; lia].
  - destruct IH as (-> & Heq & Hff). split_and!; [done|lia|].
    intros j Hj. destruct (Hcase j) as [->|]; [lia|done|apply Hff; lia].
Qed.

(** A byte with eight set bits is [0xff]. *)
Lemma byte_all_ones v :
  0 <= v < 256 -> (forall k, 0 <= k < 8 -> Z.testbit v k = true) -> v = 255.
Proof.
  intros Hv Hall. apply Z.bits_inj'. intros j Hj.
  change 255 with (Z.ones 8). rewrite Z.testbit_ones by lia.
  destruct (Z.ltb_spec j 8).
  - rewrite Hall by lia. destruct (Z.leb_spec 0 j); [done|lia].
  - rewrite byte_testbit_high by lia. by rewrite andb_false_r.
Qed.

Lemma scan_bit_spec fuel v i :
  0 <= v < 256 -> v <> 255 -> 0 <= i <= 8 -> 8 - i < Z.of_nat fuel ->
  (forall k, 0 <= k < i -> Z.testbit v k = true) ->
  exists r, scan_bit fuel v i = Ok r /\ i <= r < 8 /\ Z.testbit v r = false /\
            forall k, 0 <= k < r -> Z.testbit v k = true.
Proof.
  intros Hv Hne. revert i. induction fuel as [|fuel IH]; intros i Hi Hfuel Hones; [lia|].
  assert (i < 8).
  { destruct (decide (i = 8)) as [->|]; [|lia]. by apply byte_all_ones in Hones. }
  simpl. replace (u8 (Z.shiftl BITMAP_MASK i)) with (Z.shiftl 1 i).
  2: { unfold BITMAP_MASK, u8. rewrite Z.shiftl_1_l, Z.mod_small; [done|].
       split; [apply Z.pow_nonneg; lia|apply Z.pow_lt_mono_r; lia]. }
  rewrite Z.land_comm, land_shiftl1_eqb, negb_involutive by lia.
  destruct (Z.testbit v i) eqn:Hbit.
  - destruct (IH (i + 1)) as (r & Hr & ? & ? & ?); [lia|lia| |].
    { intros k Hk. destruct (decide (k = i)) as [->|]; [done|apply Hones; lia]. }
    exists r. split_and!; try done; lia.
  - exists i. split_and!; try done; lia.
Qed.

(** The position the two byte loops find: the first clear bit. *)
Definition first_clear (b : bitmap) (r : Z) : Prop :=
  0 <= r < bit_len b /\ bit_at b r = false /\ forall j, 0 <= j < r -> bit_at b j = true.

Lemma bit_at_ff b i :
  bits b !! Z.to_nat (i / 8) = Some 255 -> bit_at b i = true.
Proof.
  intros Hi. unfold bit_at. rewrite Hi. change 255 with (Z.ones 8).
  assert (0 <= i mod 8 < 8) by (apply Z.mod_pos_bound; lia).
  rewrite Z.testbit_ones by lia.
  destruct (Z.leb_spec 0 (i mod 8)), (Z.ltb_spec (i mod 8) 8); done || lia.
Qed.

(** [bitmap_scan] up to the point where it looks at [cnt]. *)
Lemma bitmap_scan_start b :
  bitmap_ok b ->
  (exists i, 0 <= i < bit_len b /\ bit_at b i = false) ->
  exists r, first_clear b r /\
    forall cnt, bitmap_scan b cnt
      = if cnt =? 1 then Ok r
        else scan_run (Z.to_nat (bit_len b - r)) b cnt (r + 1) 1.
Proof.
  intros Hok (i & Hi & Hbit). unfold bit_len in *.
  pose proof (bm_len b Hok). pose proof (bm_small b Hok).
  assert (Hdiv : 0 <= i / 8 < btmp_bytes_len b).
  { split; [apply Z.div_pos; lia|apply Z.div_lt_upper_bound; lia]. }
  pose proof (scan_byte_spec (S (length (bits b))) b 0 Hok ltac:(lia) ltac:(lia)) as Hscan.
  assert (Hnot : bits b !! Z.to_nat (i / 8) <> Some 255).
  { intros Hff. apply bit_at_ff in Hff. congruence. }
  destruct (scan_byte _ b 0) as [r|e] eqn:Hrun.
  2: { destruct Hscan as (_ & _ & Hff). destruct Hnot. apply Hff. lia. }
  destruct Hscan as (Hr & Hff & Hex).
  assert (Hlt : r < btmp_bytes_len b).
  { destruct (decide (r <= i / 8)); [lia|]. destruct Hnot. apply Hff. lia. }
  destruct (Hex Hlt) as (v & Hv & Hne).
  pose proof (bitmap_ok_byte _ _ _ Hok Hv) as Hvr.
  destruct (scan_bit_spec 9 v 0 Hvr Hne) as (k & Hk & Hkr & Hkb & Hkl); [lia|lia|lia|].
  exists (r * 8 + k).
  assert (Hmod : forall k', 0 <= k' < 8 -> (r * 8 + k') / 8 = r /\ (r * 8 + k') mod 8 = k').
  { intros k' Hk'. replace (r * 8 + k') with (k' + r * 8) by lia.
    rewrite Z.div_add, Z.div_small, Z.mod_add, Z.mod_small by lia. lia. }
  split.
  - unfold first_clear, bit_len. split_and!; [lia|lia| |].
    + unfold bit_at. destruct (Hmod k) as [-> ->]; [lia|]. by rewrite Hv.
    + intros j Hj. pose proof (Z.div_mod j 8).
      destruct (decide (j / 8 = r)) as [Heq|].
      * unfold bit_at. rewrite Heq, Hv. apply Hkl.
        pose proof (Z.mod_pos_bound j 8). lia.
      * apply bit_at_ff, Hff. pose proof (Z.mod_pos_bound j 8). lia.
  - intros cnt. unfold bitmap_scan. rewrite Hrun. cbn -[scan_bit scan_run rd].
    destruct (Z.ltb_spec r (btmp_bytes_len b)); [|lia]. cbn -[scan_bit scan_run rd].
    destruct (Z.eqb_spec r (btmp_bytes_len b)); [lia|].
    rewrite (rd_Ok _ _ v) by (done || lia). cbn -[scan_bit scan_run].
    rewrite Hk. cbn -[scan_run].
    autorewrite with word. done.
Qed.

(** *** First fit *)

(** What [bitmap_scan b cnt] looks for, [cnt >= 2].  The search also tests the
    bit behind the bitmap, so the bound is [bit_len b + 1]. *)
Definition fits (b : bitmap) (cnt r : Z) : Prop :=
  0 <= r /\ r + cnt <= bit_len b + 1 /\ clear_run b r cnt.

Definition first_fit (b : bitmap) (cnt r : Z) : Prop :=
  fits b cnt r /\ forall r', 0 <= r' < r -> ~ fits b cnt r'.

Lemma first_fit_unique b cnt r1 r2 : first_fit b cnt r1 -> first_fit b cnt r2 -> r1 = r2.
Proof.
  intros [H1 M1] [H2 M2]. destruct (Z.lt_trichotomy r1 r2) as [?|[?|?]]; [|done|].
  - destruct (M2 r1); [destruct H1; lia|done].
  - destruct (M1 r2); [destruct H2; lia|done].
Qed.

Lemma scan_run_spec n b cnt p c :
  bitmap_ok b -> btmp_bytes_len b < Z.of_nat (length (bits b)) ->
  2 <= cnt < 2 ^ 31 -> p + Z.of_nat n = bit_len b + 1 ->
  0 <= c < cnt -> c <= p -> clear_run b (p - c) c ->
  (forall r, 0 <= r < p - c -> ~ clear_run b r cnt) ->
  (exists r, scan_run n b cnt p c = Ok r /\ first_fit b cnt r) \/
  (scan_run n b cnt p c = Ok (-1) /\ forall r, ~ fits b cnt r).
Proof.
  intros Hok Hslack Hcnt. pose proof (bm_len b Hok). pose proof (bm_small b Hok).
  unfold bit_len. revert p c. induction n as [|n IH]; intros p c Hp Hc Hcp Hrun Hnone; simpl.
  { right. split; [done|]. intros r (? & ? & Hcl). destruct (Hnone r); [|done].
    unfold bit_len in *. lia. }
  destruct (scan_test_spec b p Hok) as (t & Ht & Htz); [lia|].
  rewrite Ht. cbn -[scan_run]. rewrite Htz. destruct (bit_at b p) eqn:Hbit; simpl.
  - destruct (Z.eqb_spec 0 cnt); [lia|]. autorewrite with word.
    apply IH; [lia|lia|lia| |].
    + intros k Hk. lia.
    + intros r Hr Hcl. destruct (decide (r < p - c)); [by apply (Hnone r); [lia|]|].
      specialize (Hcl (p - r) ltac:(lia)). replace (r + (p - r)) with p in Hcl by lia.
      congruence.
  - rewrite (u32_small (c + 1)) by lia. destruct (Z.eqb_spec (c + 1) cnt) as [<-|].
    + left. autorewrite with word. exists (p - c). split; [do 2 f_equal; lia|].
      split; [split_and!; [lia|unfold bit_len; lia|]|].
      * intros k Hk. destruct (decide (k < c)); [apply Hrun; lia|].
        replace (p - c + k) with p by lia. done.
      * intros r Hr (_ & _ & Hcl). exact (Hnone r Hr Hcl).
    + autorewrite with word. apply IH; [lia|lia|lia| |].
      * replace (p + 1 - (c + 1)) with (p - c) by lia.
        intros k Hk. destruct (decide (k < c)); [apply Hrun; lia|].
        replace (p - c + k) with p by lia. done.
      * intros r Hr. apply Hnone. lia.
Qed.

(** ** Theorems *)

(** *** Allocating and freeing one bit *)

Lemma bitmap_set_at b i (x : bool) :
  bitmap_ok b -> 0 <= i < Z.of_nat (length (bits b)) * 8 ->
  exists b', bitmap_set b i (Z.b2z x) = Ok b' /\ bitmap_ok b' /\
    btmp_bytes_len b' = btmp_bytes_len b /\ length (bits b') = length (bits b) /\
    forall j, 0 <= j -> bit_at b' j = if decide (j = i) then x else bit_at b j.
Proof.
  intros Hok Hi. destruct (bitmap_set_run b i x Hi) as (v & Hv & Hrun).
  eexists. split; [exact Hrun|]. exact (bitmap_set_ok b i x _ Hok Hi Hrun).
Qed.

Lemma bitmap_alloc_one b :
  bitmap_ok b -> (exists i, 0 <= i < bit_len b /\ bit_at b i = false) ->
  exists r b', bitmap_scan b 1 = Ok r /\ bitmap_set b r 1 = Ok b' /\ 0 <= r < bit_len b /\
    bit_at b r = false /\ (forall j, 0 <= j < r -> bit_at b j = true) /\
    bitmap_ok b' /\ btmp_bytes_len b' = btmp_bytes_len b /\ length (bits b') = length (bits b) /\
    forall j, 0 <= j -> bit_at b' j = if decide (j = r) then true else bit_at b j.
Proof.
  intros Hok Hex. destruct (bitmap_scan_start b Hok Hex) as (r & (Hr & Hc & Hs) & Hscan).
  pose proof (bm_len b Hok). unfold bit_len in *.
  destruct (bitmap_set_at b r true Hok) as (b' & Hset & H1 & H2 & H3 & H4); [lia|].
  exists r, b'. rewrite Hscan. split_and!; try done; lia.
Qed.

(** [bitmap_set] with 0 or 1 succeeds inside the storage, changes exactly the
    bit asked for, and keeps every byte a byte. *)
Theorem bitmap_set_spec b i (x : bool) :
  bitmap_ok b -> 0 <= i < Z.of_nat (length (bits b)) * 8 ->
  exists b', bitmap_set b i (Z.b2z x) = Ok b' /\ bitmap_ok b' /\
    btmp_bytes_len b' = btmp_bytes_len b /\
    forall j, 0 <= j -> bit_at b' j = if decide (j = i) then x else bit_at b j.
Proof.
  intros Hok Hi. destruct (bitmap_set_run b i x Hi) as (v & Hv & Hrun).
  eexists. split; [exact Hrun|].
  destruct (bitmap_set_ok b i x _ Hok Hi Hrun) as (? & ? & ? & ?). done.
Qed.

(** for one bit, [bitmap_scan] returns the first clear bit of a bitmap that
    is not full: in range, clear, and every bit below it set. *)
Theorem bitmap_scan_one b :
  bitmap_ok b -> (exists i, 0 <= i < bit_len b /\ bit_at b i = false) ->
  exists r, bitmap_scan b 1 = Ok r /\ 0 <= r < bit_len b /\ bit_at b r = false /\
            forall j, 0 <= j < r -> bit_at b j = true.
Proof.
  intros Hok Hex. destruct (bitmap_scan_start b Hok Hex) as (r & (? & ? & ?) & Hscan).
  exists r. by rewrite Hscan.
Qed.

(** For [cnt >= 2] bits on a bitmap that is not full, [bitmap_scan] is first
    fit: it returns the least position from which [cnt] bits are clear, and -1
    exactly when there is none.  The search includes the bit behind the bitmap
    (see [fits]), so it needs one readable byte there. *)
Theorem bitmap_scan_first_fit b cnt :
  bitmap_ok b -> btmp_bytes_len b < Z.of_nat (length (bits b)) -> 2 <= cnt < 2 ^ 31 ->
  (exists i, 0 <= i < bit_len b /\ bit_at b i = false) ->
  (exists r, bitmap_scan b cnt = Ok r /\ first_fit b cnt r) \/
  (bitmap_scan b cnt = Ok (-1) /\ forall r, ~ fits b cnt r).
Proof.
  intros Hok Hslack Hcnt Hex.
  destruct (bitmap_scan_start b Hok Hex) as (r & (Hr & Hbit & Hset) & Hscan).
  rewrite Hscan. destruct (Z.eqb_spec cnt 1); [lia|].
  apply scan_run_spec; try done; try lia.
  - intros k Hk. replace (r + 1 - 1 + k) with r by lia. done.
  - intros r' Hr' Hcl. specialize (Hcl 0 ltac:(lia)).
    rewrite Z.add_0_r, Hset in Hcl by lia. done.
Qed.

(** On a full bitmap [bitmap_scan] never returns -1: it reads the byte behind
    the bitmap, and then its ASSERT stops the kernel (or the read itself is out of
    bounds).  So the "-1 on failure" that the callers test is unreachable for an
    exhausted bitmap. *)
Theorem bitmap_scan_full b cnt :
  bitmap_ok b -> (forall i, 0 <= i < bit_len b -> bit_at b i = true) ->
  bitmap_scan b cnt
  = Err (if decide (btmp_bytes_len b < Z.of_nat (length (bits b)))
         then AssertFail else OutOfBounds).
Proof.
  intros Hok Hfull. pose proof (bm_len b Hok). unfold bit_len in *.
  pose proof (scan_byte_spec (S (length (bits b))) b 0 Hok ltac:(lia) ltac:(lia)) as Hscan.
  unfold bitmap_scan. destruct (scan_byte _ b 0) as [r|e] eqn:Hrun; simpl.
  - destruct Hscan as (Hr & Hff & Hex). destruct (Z.ltb_spec r (btmp_bytes_len b)) as [Hlt|].
    + exfalso. destruct (Hex Hlt) as (v & Hv & Hne). apply Hne.
      apply byte_all_ones; [by eapply bitmap_ok_byte|]. intros k Hk.
      specialize (Hfull (k + r * 8) ltac:(lia)). unfold bit_at in Hfull.
      rewrite Z.div_add, Z.div_small, Z.mod_add, Z.mod_small, Z.add_0_l in Hfull by lia.
      by rewrite Hv in Hfull.
    + simpl. assert (r = btmp_bytes_len b) as -> by lia. rewrite decide_True; [done|].
      destruct (decide (btmp_bytes_len b < Z.of_nat (length (bits b)))); [done|].
      exfalso. clear Hex Hff. revert Hrun. clear -H n.
      assert (Hall : forall f i, 0 <= i <= btmp_bytes_len b ->
                scan_byte f b i <> Ok (btmp_bytes_len b)).
      { induction f as [|f IH]; intros i Hi; simpl; [done|].
        destruct (decide (i < Z.of_nat (length (bits b)))) as [Hlt|].
        - destruct (rd_lt (bits b) i ltac:(lia)) as [v ->]. simpl. case_match.
          + destruct (decide (i + 1 < 2 ^ 32)).
            * rewrite u32_small by lia. apply IH. lia.
            * unfold u32. replace (i + 1) with (2 ^ 32 + (i + 1 - 2 ^ 32)) by lia.
              apply IH. pose proof (Z.mod_pos_bound (2 ^ 32 + (i + 1 - 2 ^ 32)) (2 ^ 32)).
              pose proof (Z.mod_le (2 ^ 32 + (i + 1 - 2 ^ 32)) (2 ^ 32)). lia.
          + intros [=]. lia.
        - rewrite rd_oob by lia. done. }
      intros Hrun. by apply Hall in Hrun; [|lia].
  - destruct Hscan as (-> & Heq & _). rewrite decide_False; [done|lia].
Qed.

(** because the search includes the bit behind the bitmap, an allocation can
    leave it: when the only clear bits are the last [cnt - 1] ones and the bit
    behind the bitmap happens to be clear, [bitmap_scan] returns a range whose
    last bit is outside of the bitmap. *)
Theorem bitmap_scan_overruns b cnt :
  bitmap_ok b -> btmp_bytes_len b < Z.of_nat (length (bits b)) ->
  2 <= cnt <= bit_len b ->
  (forall i, 0 <= i < bit_len b -> bit_at b i = bool_decide (i < bit_len b - (cnt - 1))) ->
  bit_at b (bit_len b) = false ->
  exists r, bitmap_scan b cnt = Ok r /\ r + cnt = bit_len b + 1.
Proof.
  intros Hok Hslack Hcnt Hbits Hlast.
  assert (Hfit : first_fit b cnt (bit_len b - (cnt - 1))).
  { split.
    - split_and!; [lia|lia|]. intros k Hk.
      destruct (decide (k = cnt - 1)) as [->|].
      + by replace (bit_len b - (cnt - 1) + (cnt - 1)) with (bit_len b) by lia.
      + rewrite Hbits by lia. apply bool_decide_eq_false_2. lia.
    - intros r' Hr' (_ & _ & Hcl). specialize (Hcl 0 ltac:(lia)).
      rewrite Z.add_0_r, Hbits, bool_decide_eq_true_2 in Hcl by lia. done. }
  pose proof (bm_len b Hok). pose proof (bm_small b Hok).
  destruct (bitmap_scan_first_fit b cnt Hok Hslack) as [(r & Hr & Hff)|[_ Hnone]].
  - unfold bit_len in *. lia.
  - exists (bit_len b - 1). split; [lia|]. rewrite Hbits by lia.
    apply bool_decide_eq_false_2. lia.
  - exists r. split; [done|]. rewrite (first_fit_unique _ _ _ _ Hff Hfit). lia.
  - exfalso. eapply Hnone. apply Hfit.
Qed.

(** ** Witnesses *)

Ltac bitmap_ok_tac :=
  split; simpl; [repeat constructor; lia | lia | lia].

Lemma bitmap_set_spec_witness :
  exists b', bitmap_set (Bitmap 2 [0; 255]) 9 0 = Ok b' /\ bit_at b' 9 = false.
Proof.
  destruct (bitmap_set_spec (Bitmap 2 [0; 255]) 9 false) as (b' & H1 & H2 & H3 & H4).
  - bitmap_ok_tac.
  - simpl. lia.
  - exists b'. split; [exact H1|]. rewrite (H4 9) by lia. reflexivity.
Defined.

Lemma bitmap_scan_one_witness :
  exists r, bitmap_scan (Bitmap 2 [255; 7]) 1 = Ok r.
Proof.
  destruct (bitmap_scan_one (Bitmap 2 [255; 7])) as (r & H1 & H2).
  - bitmap_ok_tac.
  - exists 11. split; [unfold bit_len; simpl; lia|reflexivity].
  - exists r. exact H1.
Defined.

Lemma bitmap_scan_first_fit_witness :
  (exists r, bitmap_scan (Bitmap 2 [5; 1; 0]) 3 = Ok r /\ first_fit (Bitmap 2 [5; 1; 0]) 3 r) \/
  (bitmap_scan (Bitmap 2 [5; 1; 0]) 3 = Ok (-1) /\ forall r, ~ fits (Bitmap 2 [5; 1; 0]) 3 r).
Proof.
  apply (bitmap_scan_first_fit (Bitmap 2 [5; 1; 0]) 3).
  - bitmap_ok_tac.
  - simpl. lia.
  - lia.
  - exists 1. split; [unfold bit_len; simpl; lia|reflexivity].
Defined.

Lemma bitmap_scan_full_witness : bitmap_scan (Bitmap 1 [255; 0]) 1 = Err AssertFail.
Proof.
  apply (bitmap_scan_full (Bitmap 1 [255; 0]) 1).
  - bitmap_ok_tac.
  - apply (below_forall 8). repeat (constructor; [reflexivity|]). constructor.
Defined.

Lemma bitmap_scan_overruns_witness :
  exists r, bitmap_scan (Bitmap 1 [63; 0]) 3 = Ok r /\ r + 3 = 9.
Proof.
  apply (bitmap_scan_overruns (Bitmap 1 [63; 0]) 3).
  - bitmap_ok_tac.
  - simpl. lia.
  - unfold bit_len. simpl. lia.
  - apply (below_forall 8). repeat (constructor; [reflexivity|]). constructor.
  - reflexivity.
Defined.
