(* ===== verification/Interrupt.v ===== *)
(** * Interrupt: kernel/interrupt.c and the descriptor tables of userprog/tss.c

    The interrupt flag of EFLAGS, which every critical section of the kernel
    saves, clears and restores; the gate descriptors of the IDT; the segment
    descriptors [tss_init] adds to the GDT. *)

From S2P Require Import Prelude.

(** ** The interrupt flag *)

Definition EFLAGS_IF : Z := 512.

Inductive intr_status : Type := INTR_OFF | INTR_ON.

#[export] Instance intr_status_eq_dec : EqDecision intr_status.
Proof. solve_decision. Defined.

Section flag.
Context {S : Type} `{!HasEflags S}.

Definition intr_get_status : KM S intr_status :=
  kreads (fun s => if Z.land EFLAGS_IF (eflags s) =? 0 then INTR_OFF else INTR_ON).

(** [sti] and [cli]. *)
Definition sti : KM S unit := kmod (fun s => set_eflags (Z.lor (eflags s) EFLAGS_IF) s).
Definition cli : KM S unit :=
  kmod (fun s => set_eflags (Z.land (eflags s) (Z.lnot EFLAGS_IF)) s).

Definition intr_enable : KM S intr_status :=
  st <- intr_get_status ;;
  match st with
  | INTR_ON => kret INTR_ON
  | INTR_OFF => sti ;;; kret INTR_OFF
  end.

Definition intr_disable : KM S intr_status :=
  st <- intr_get_status ;;
  match st with
  | INTR_ON => cli ;;; kret INTR_ON
  | INTR_OFF => kret INTR_OFF
  end.

Definition intr_set_status (status : intr_status) : KM S intr_status :=
  match status with INTR_ON => intr_enable | INTR_OFF => intr_disable end.

(** The status a state is in. *)
Definition intr_of (s : S) : intr_status :=
  if Z.testbit (eflags s) 9 then INTR_ON else INTR_OFF.

(** The state with interrupts off, and with a given status. *)
Definition intr_off (s : S) : S :=
  if Z.testbit (eflags s) 9
  then set_eflags (Z.land (eflags s) (Z.lnot EFLAGS_IF)) s else s.
Definition intr_on (s : S) : S :=
  if Z.testbit (eflags s) 9 then s else set_eflags (Z.lor (eflags s) EFLAGS_IF) s.

Lemma intr_get_status_run s : intr_get_status s = Ok (intr_of s, s).
Proof.
  unfold intr_get_status, kreads, intr_of. change EFLAGS_IF with (Z.shiftl 1 9).
  rewrite Z.land_comm, land_shiftl1_eqb by lia.
  by destruct (Z.testbit (eflags s) 9).
Qed.

Lemma intr_disable_run s : intr_disable s = Ok (intr_of s, intr_off s).
Proof.
  unfold intr_disable. rewrite (kbind_ok _ _ _ _ _ (intr_get_status_run s)).
  unfold intr_off, intr_of. by destruct (Z.testbit (eflags s) 9).
Qed.

Lemma intr_enable_run s : intr_enable s = Ok (intr_of s, intr_on s).
Proof.
  unfold intr_enable. rewrite (kbind_ok _ _ _ _ _ (intr_get_status_run s)).
  unfold intr_on, intr_of. by destruct (Z.testbit (eflags s) 9).
Qed.

Lemma intr_off_bit s : Z.testbit (eflags (intr_off s)) 9 = false.
Proof.
  unfold intr_off. destruct (Z.testbit (eflags s) 9) eqn:H; [|done].
  rewrite eflags_set, Z.land_spec. rewrite H. reflexivity.
Qed.

Lemma intr_off_of s : intr_of (intr_off s) = INTR_OFF.
Proof. unfold intr_of. by rewrite intr_off_bit. Qed.

Lemma intr_off_idemp s : intr_of s = INTR_OFF -> intr_off s = s.
Proof. unfold intr_of, intr_off. by destruct (Z.testbit (eflags s) 9). Qed.

(** Clearing and setting one bit gives the register back. *)
Lemma set_clear_if f :
  Z.testbit f 9 = true -> Z.lor (Z.land f (Z.lnot EFLAGS_IF)) EFLAGS_IF = f.
Proof.
  intros H. change EFLAGS_IF with (Z.shiftl 1 9). apply Z.bits_inj'. intros j Hj.
  rewrite Z.lor_spec, Z.land_spec, Z.lnot_spec, shiftl1_testbit by lia.
  destruct (decide (j = 9)) as [->|Hne].
  - by rewrite H.
  - rewrite bool_decide_eq_false_2 by done. simpl. by rewrite andb_true_r, orb_false_r.
Qed.

Lemma intr_on_off s : intr_of s = INTR_ON -> intr_on (intr_off s) = s.
Proof.
  unfold intr_of. destruct (Z.testbit (eflags s) 9) eqn:H; [|done]. intros _.
  unfold intr_on. rewrite intr_off_bit. unfold intr_off. rewrite H.
  rewrite eflags_set, set_eflags_set, set_clear_if by done. apply set_eflags_id.
Qed.

(** A critical section: what the code between [intr_disable] and
    [intr_set_status(old_status)] does, run with interrupts off. *)
Definition critical {A} (body : KM S A) : KM S A :=
  old_status <- intr_disable ;;
  a <- body ;;
  intr_set_status old_status ;;;
  kret a.

Lemma critical_run {A} (body : KM S A) s a s' :
  body (intr_off s) = Ok (a, s') -> intr_of s' = INTR_OFF ->
  critical body s = Ok (a, match intr_of s with INTR_ON => intr_on s' | INTR_OFF => s' end).
Proof.
  intros Hbody Hoff. unfold critical.
  rewrite (kbind_ok _ _ _ _ _ (intr_disable_run s)).
  rewrite (kbind_ok _ _ _ _ _ Hbody). destruct (intr_of s); simpl.
  - rewrite (kbind_ok _ _ _ _ _ (intr_disable_run s')). by rewrite intr_off_idemp.
  - by rewrite (kbind_ok _ _ _ _ _ (intr_enable_run s')).
Qed.

(** [intr_set_status] with the status saved by [intr_disable]. *)
Lemma intr_restore s s' :
  eflags s' = eflags (intr_off s) ->
  exists st, intr_set_status (intr_of s) s' = Ok (st, set_eflags (eflags s) s').
Proof.
  intros Hfl. unfold intr_of, intr_off in *. destruct (Z.testbit (eflags s) 9) eqn:Hb.
  - eexists. simpl. rewrite intr_enable_run. unfold intr_on.
    rewrite Hfl, eflags_set, Z.land_spec, Hb. change (Z.testbit (Z.lnot EFLAGS_IF) 9) with false.
    simpl. by rewrite set_clear_if.
  - eexists. simpl. rewrite intr_disable_run. unfold intr_off. rewrite Hfl, Hb.
    by rewrite <- Hfl, set_eflags_id.
Qed.
End flag.

(** The smallest state with a flag register, for the closed examples. *)
#[export] Instance Z_eflags : HasEflags Z.
Proof. by refine {| eflags := fun s => s; set_eflags := fun v _ => v |}. Defined.

(** ** Interrupt gates *)

Record gate_desc : Type := GateDesc {
  func_offset_low_word : Z;
  selector : Z;
  dcount : Z;
  attribute : Z;
  func_offset_high_word : Z
}.

Definition IDT_DESC_CNT : Z := 129.

(** The fields of descriptors and selectors in [kernel/global.h]. *)
Definition DESC_G_4K : Z := 1.
Definition DESC_D_32 : Z := 1.
Definition DESC_L : Z := 0.
Definition DESC_AVL : Z := 0.
Definition DESC_P : Z := 1.
Definition DESC_DPL_0 : Z := 0.
Definition DESC_DPL_3 : Z := 3.
Definition DESC_S_CODE : Z := 1.
Definition DESC_S_DATA : Z := DESC_S_CODE.
Definition DESC_S_SYS : Z := 0.
Definition DESC_TYPE_CODE : Z := 8.
Definition DESC_TYPE_DATA : Z := 2.
Definition DESC_TYPE_TSS : Z := 9.
Definition RPL0 : Z := 0.
Definition RPL3 : Z := 3.
Definition TI_GDT : Z := 0.
Definition SELECTOR_K_CODE : Z := Z.shiftl 1 3 + Z.shiftl TI_GDT 2 + RPL0.
Definition SELECTOR_K_DATA : Z := Z.shiftl 2 3 + Z.shiftl TI_GDT 2 + RPL0.
Definition SELECTOR_K_STACK : Z := SELECTOR_K_DATA.
Definition SELECTOR_U_CODE : Z := Z.shiftl 5 3 + Z.shiftl TI_GDT 2 + RPL3.
Definition SELECTOR_U_DATA : Z := Z.shiftl 6 3 + Z.shiftl TI_GDT 2 + RPL3.
Definition SELECTOR_TSS : Z := Z.shiftl 4 3 + Z.shiftl TI_GDT 2 + RPL0.
Definition IDT_DESC_P : Z := 1.
Definition IDT_DESC_DPL0 : Z := 0.
Definition IDT_DESC_DPL3 : Z := 3.
Definition IDT_DESC_32_TYPE : Z := 0xE.
Definition IDT_DESC_ATTR_DPL0 : Z := Z.shiftl IDT_DESC_P 7 + Z.shiftl IDT_DESC_DPL0 5 + IDT_DESC_32_TYPE.
Definition IDT_DESC_ATTR_DPL3 : Z := Z.shiftl IDT_DESC_P 7 + Z.shiftl IDT_DESC_DPL3 5 + IDT_DESC_32_TYPE.

Definition make_idt_desc (attr function : Z) : gate_desc :=
  {| func_offset_low_word := u16 (Z.land function 65535);
     selector := SELECTOR_K_CODE;
     dcount := 0;
     attribute := attr;
     func_offset_high_word := u16 (Z.shiftr (Z.land function 4294901760) 16) |}.

(** [idt_desc_init]: the loop over the gates below [lastindex], then the gate of
    the system call.  [intr_entry_table] and [syscall_handler] are the entry
    points defined in [kernel/kernel.asm]. *)
Fixpoint idt_fill (n : nat) (i : Z) (intr_entry_table : list Z) (idt : list gate_desc)
  : outcome (list gate_desc) :=
  match n with
  | O => Ok idt
  | S n =>
      let? f := rd intr_entry_table i in
      let? idt := wr idt i (make_idt_desc IDT_DESC_ATTR_DPL0 f) in
      idt_fill n (i + 1) intr_entry_table idt
  end.

Definition idt_desc_init (intr_entry_table : list Z) (syscall_handler : Z)
    (idt : list gate_desc) : outcome (list gate_desc) :=
  let lastindex := IDT_DESC_CNT - 1 in
  let? idt := idt_fill (Z.to_nat lastindex) 0 intr_entry_table idt in
  wr idt lastindex (make_idt_desc IDT_DESC_ATTR_DPL3 syscall_handler).

(** How the processor reads a gate. *)
Definition gate_offset (g : gate_desc) : Z :=
  func_offset_low_word g + Z.shiftl (func_offset_high_word g) 16.
Definition gate_dpl (g : gate_desc) : Z := Z.land (Z.shiftr (attribute g) 5) 3.
Definition gate_present (g : gate_desc) : bool := Z.testbit (attribute g) 7.

Lemma word_parts f :
  0 <= f < 2 ^ 32 ->
  Z.land f 65535 = f mod 2 ^ 16 /\ Z.shiftr (Z.land f 4294901760) 16 = f / 2 ^ 16.
Proof.
  intros Hf. split.
  - change 65535 with (Z.ones 16). by rewrite Z.land_ones by lia.
  - change 4294901760 with (Z.shiftl (Z.ones 16) 16).
    rewrite Z.shiftr_land, Z.shiftr_shiftl_l, Z.sub_diag, Z.shiftl_0_r by lia.
    rewrite Z.land_ones, Z.shiftr_div_pow2 by lia.
    apply Z.mod_small. split; [apply Z.div_pos; lia|apply Z.div_lt_upper_bound; lia].
Qed.

Lemma make_idt_desc_offset attr f :
  0 <= f < 2 ^ 32 -> gate_offset (make_idt_desc attr f) = f.
Proof.
  intros Hf. unfold gate_offset, make_idt_desc; simpl.
  destruct (word_parts f Hf) as [-> ->].
  pose proof (Z.mod_pos_bound f (2 ^ 16)). pose proof (Z.div_mod f (2 ^ 16)).
  assert (0 <= f / 2 ^ 16 < 65536).
  { split; [apply Z.div_pos; lia|apply Z.div_lt_upper_bound; lia]. }
  rewrite !u16_small by lia. rewrite Z.shiftl_mul_pow2 by lia. lia.
Qed.

Lemma idt_fill_spec n i tbl idt :
  0 <= i -> i + Z.of_nat n <= Z.of_nat (length tbl) ->
  i + Z.of_nat n <= Z.of_nat (length idt) ->
  exists idt', idt_fill n i tbl idt = Ok idt' /\ length idt' = length idt /\
    forall j, 0 <= j ->
      idt' !! Z.to_nat j
      = if decide (i <= j < i + Z.of_nat n)
        then make_idt_desc IDT_DESC_ATTR_DPL0 <$> tbl !! Z.to_nat j
        else idt !! Z.to_nat j.
Proof.
  revert i idt. induction n as [|n IH]; intros i idt Hi Ht Hl; simpl.
  { exists idt. split_and!; [done|done|]. intros j Hj. rewrite decide_False; [done|lia]. }
  destruct (rd_lt tbl i ltac:(lia)) as [f Hf]. rewrite Hf. simpl.
  rewrite wr_Ok by lia. simpl.
  destruct (IH (i + 1) (<[Z.to_nat i:=make_idt_desc IDT_DESC_ATTR_DPL0 f]> idt))
    as (idt' & Hrun & Hlen & Hlk); [lia|lia|rewrite length_insert; lia|].
  exists idt'. rewrite length_insert in Hlen. split_and!; [done|done|].
  intros j Hj. rewrite Hlk by done. apply rd_inv in Hf as [_ Hf].
  destruct (decide (j = i)) as [->|].
  - rewrite decide_False, decide_True by lia. rewrite list_lookup_insert_eq by lia.
    by rewrite Hf.
  - rewrite list_lookup_insert_ne by lia. repeat case_decide; done || lia.
Qed.

(** ** Segment descriptors of the GDT (userprog/tss.c) *)

Record gdt_desc : Type := GdtDesc {
  limit_low_word : Z;
  base_low_word : Z;
  base_mid_byte : Z;
  attr_low_byte : Z;
  limit_high_attr_high : Z;
  base_high_byte : Z
}.

Definition GDT_ATTR_HIGH : Z := Z.shiftl DESC_G_4K 7 + Z.shiftl DESC_D_32 6 + Z.shiftl DESC_L 5 + Z.shiftl DESC_AVL 4.
Definition GDT_CODE_ATTR_LOW_DPL3 : Z := Z.shiftl DESC_P 7 + Z.shiftl DESC_DPL_3 5 + Z.shiftl DESC_S_CODE 4 + DESC_TYPE_CODE.
Definition GDT_DATA_ATTR_LOW_DPL3 : Z := Z.shiftl DESC_P 7 + Z.shiftl DESC_DPL_3 5 + Z.shiftl DESC_S_DATA 4 + DESC_TYPE_DATA.
Definition TSS_DESC_D : Z := 0.
Definition TSS_ATTR_HIGH : Z := Z.shiftl DESC_G_4K 7 + Z.shiftl TSS_DESC_D 6 + Z.shiftl DESC_L 5 + Z.shiftl DESC_AVL 4 + 0x0.
Definition TSS_ATTR_LOW : Z := Z.shiftl DESC_P 7 + Z.shiftl DESC_DPL_0 5 + Z.shiftl DESC_S_SYS 4 + DESC_TYPE_TSS.

Definition make_gdt_desc (desc_base limit attr_low attr_high : Z) : gdt_desc :=
  {| limit_low_word := u16 (Z.land limit 65535);
     base_low_word := u16 (Z.land desc_base 65535);
     base_mid_byte := u8 (Z.shiftr (Z.land desc_base 16711680) 16);
     attr_low_byte := u8 attr_low;
     limit_high_attr_high := u8 (Z.shiftr (Z.land limit 983040) 16 + u8 attr_high);
     base_high_byte := u8 (Z.shiftr desc_base 24) |}.

(** How the processor reads base, limit and granularity of a descriptor. *)
Definition desc_base (d : gdt_desc) : Z :=
  base_low_word d + Z.shiftl (base_mid_byte d) 16 + Z.shiftl (base_high_byte d) 24.
Definition desc_limit (d : gdt_desc) : Z :=
  limit_low_word d + Z.shiftl (Z.land (limit_high_attr_high d) 15) 16.
Definition desc_attr_high (d : gdt_desc) : Z := Z.land (limit_high_attr_high d) 240.
Definition desc_dpl (d : gdt_desc) : Z := Z.land (Z.shiftr (attr_low_byte d) 5) 3.

(** The stores of [tss_init] to the GDT: the TSS descriptor and the two user segments are
    written at 0xc0000920, 0xc0000928 and 0xc0000930, slots 4 to 6 of the GDT at
    0xc0000900.  [tss] is the address of the TSS; [sizeof(struct tss)] is 27 words. *)
Definition gdt_base : Z := 3221227776.
Definition gdt_slot (addr : Z) : Z := (addr - gdt_base) / 8.
Definition tss_size : Z := 108.

Definition gdt_entries (tss : Z) (gdt : list gdt_desc) : outcome (list gdt_desc) :=
  let? gdt := wr gdt (gdt_slot 3221227808)
                (make_gdt_desc tss (tss_size - 1) TSS_ATTR_LOW TSS_ATTR_HIGH) in
  let? gdt := wr gdt (gdt_slot 3221227816)
                (make_gdt_desc 0 1048575 GDT_CODE_ATTR_LOW_DPL3 GDT_ATTR_HIGH) in
  wr gdt (gdt_slot 3221227824)
     (make_gdt_desc 0 1048575 GDT_DATA_ATTR_LOW_DPL3 GDT_ATTR_HIGH).

(** The attribute nibble and the high nibble of the limit share a byte. *)
Lemma nibbles lo h :
  0 <= lo < 16 -> 0 <= h < 16 ->
  Z.land (u8 (lo + u8 (16 * h))) 15 = lo /\ Z.land (u8 (lo + u8 (16 * h))) 240 = 16 * h.
Proof.
  intros Hlo Hh.
  pose proof (below_forallb 16 (fun a => forallb (fun b =>
    (Z.land (u8 (b + u8 (16 * a))) 15 =? b) && (Z.land (u8 (b + u8 (16 * a))) 240 =? 16 * a))
    (map Z.of_nat (seq 0 16))) eq_refl h Hh) as H.
  rewrite forallb_forall in H. specialize (H lo).
  rewrite andb_true_iff, !Z.eqb_eq in H. apply H.
  apply in_map_iff. exists (Z.to_nat lo). rewrite in_seq. lia.
Qed.

Lemma make_gdt_desc_fields base limit attr h :
  0 <= base < 2 ^ 32 -> 0 <= limit < 2 ^ 20 -> 0 <= h < 16 ->
  let d := make_gdt_desc base limit attr (16 * h) in
  desc_base d = base /\ desc_limit d = limit /\ desc_attr_high d = 16 * h.
Proof.
  intros Hb Hl Hh. unfold desc_base, desc_limit, desc_attr_high, make_gdt_desc; simpl.
  change 65535 with (Z.ones 16). change 16711680 with (Z.shiftl (Z.ones 8) 16).
  change 983040 with (Z.shiftl (Z.ones 4) 16).
  rewrite !land_field, !Z.land_ones, Z.shiftr_div_pow2 by lia.
  pose proof (Z.mod_pos_bound base (2 ^ 16)). pose proof (Z.mod_pos_bound limit (2 ^ 16)).
  pose proof (Z.mod_pos_bound (base / 2 ^ 16) (2 ^ 8)).
  assert (Hhigh : limit / 2 ^ 16 mod 2 ^ 4 = limit / 2 ^ 16).
  { apply Z.mod_small. split; [apply Z.div_pos; lia|apply Z.div_lt_upper_bound; lia]. }
  assert (Hb24 : 0 <= base / 2 ^ 24 < 256).
  { split; [apply Z.div_pos; lia|apply Z.div_lt_upper_bound; lia]. }
  assert (Hl16 : 0 <= limit / 2 ^ 16 < 16).
  { split; [apply Z.div_pos; lia|apply Z.div_lt_upper_bound; lia]. }
  rewrite Hhigh. destruct (nibbles (limit / 2 ^ 16) h Hl16 Hh) as [-> ->].
  rewrite !u16_small, (u8_small (_ mod _)), (u8_small (base / 2 ^ 24)) by lia.
  rewrite !Z.shiftl_mul_pow2 by lia. split_and!; [|pose proof (Z.div_mod limit (2 ^ 16)); lia|done].
  replace (2 ^ 24) with (2 ^ 16 * 2 ^ 8) by lia. rewrite <- Z.div_div by lia.
  pose proof (Z.div_mod base (2 ^ 16)). pose proof (Z.div_mod (base / 2 ^ 16) (2 ^ 8)). lia.
Qed.

(** ** Theorems *)

(** a critical section (interrupts saved and disabled, body, status restored)
    whose body does not touch the interrupt flag runs the body with interrupts
    off and leaves EFLAGS as it found them. *)
Theorem critical_section_restores {S} `{!HasEflags S} {A} (body : KM S A) s a s' :
  body (intr_off s) = Ok (a, s') -> eflags s' = eflags (intr_off s) ->
  exists s2, critical body s = Ok (a, s2) /\ eflags s2 = eflags s /\
             set_eflags (eflags s) s' = s2.
Proof.
  intros Hbody Hfl.
  assert (Hoff : intr_of s' = INTR_OFF).
  { unfold intr_of. by rewrite Hfl, intr_off_bit. }
  rewrite (critical_run _ _ _ _ Hbody Hoff). eexists. split; [done|].
  unfold intr_of, intr_on, intr_off in *. destruct (Z.testbit (eflags s) 9) eqn:Hb.
  - rewrite Hfl, eflags_set, set_clear_if, Z.land_spec, Hb by done.
    change (Z.testbit (Z.lnot EFLAGS_IF) 9) with false. simpl. by rewrite eflags_set.
  - split; [done|]. rewrite <- Hfl. apply set_eflags_id.
Qed.

(** [idt_desc_init] fills every gate of the table with the entry point it is
    given for it, present and reachable only from ring 0, except the last one,
    0x80, the system call, which ring 3 may use. *)
Theorem idt_desc_init_spec tbl handler idt :
  Z.of_nat (length tbl) = IDT_DESC_CNT -> Z.of_nat (length idt) = IDT_DESC_CNT ->
  Forall (fun f => 0 <= f < 2 ^ 32) tbl -> 0 <= handler < 2 ^ 32 ->
  exists idt', idt_desc_init tbl handler idt = Ok idt' /\ length idt' = length idt /\
    forall i, 0 <= i < IDT_DESC_CNT -> exists g, rd idt' i = Ok g /\
      gate_present g = true /\
      (if decide (i = 128) then gate_offset g = handler /\ gate_dpl g = 3
       else rd tbl i = Ok (gate_offset g) /\ gate_dpl g = 0).
Proof.
  unfold IDT_DESC_CNT. intros Ht Hl Htbl Hh. unfold idt_desc_init, IDT_DESC_CNT.
  destruct (idt_fill_spec 128 0 tbl idt) as (idt1 & Hrun & Hlen & Hlk); [lia|lia|lia|].
  change (Z.to_nat (129 - 1)) with 128%nat. rewrite Hrun. simpl.
  rewrite wr_Ok by lia. eexists. split; [done|]. rewrite length_insert. split; [done|].
  intros i Hi. case_decide as Hd.
  - subst i. rewrite rd_insert_eq by lia. eexists. split; [done|].
    rewrite make_idt_desc_offset by done. done.
  - rewrite rd_insert_ne by lia. destruct (rd_lt tbl i ltac:(lia)) as [f Hf].
    pose proof (rd_inv _ _ _ Hf) as [_ Hf'].
    pose proof (Forall_lookup_1 _ _ _ _ Htbl Hf') as Hfr.
    exists (make_idt_desc IDT_DESC_ATTR_DPL0 f). split.
    + apply rd_Ok; [lia|]. rewrite Hlk, decide_True, Hf' by lia. done.
    + rewrite make_idt_desc_offset by done. done.
Qed.

(** after [gdt_entries] the GDT's slot 4 describes the TSS exactly (base, limit,
    ring 0), and slots 5 and 6 are flat 4 GB segments (base 0, limit 0xfffff
    pages) of ring 3; every other slot is untouched. *)
Theorem gdt_entries_spec tss gdt :
  0 <= tss < 2 ^ 32 -> 7 <= Z.of_nat (length gdt) ->
  exists gdt' d4 d5 d6, gdt_entries tss gdt = Ok gdt' /\
    rd gdt' 4 = Ok d4 /\ rd gdt' 5 = Ok d5 /\ rd gdt' 6 = Ok d6 /\
    (desc_base d4 = tss /\ desc_limit d4 = tss_size - 1 /\ desc_dpl d4 = 0) /\
    (desc_base d5 = 0 /\ desc_limit d5 = 1048575 /\ desc_dpl d5 = 3) /\
    (desc_base d6 = 0 /\ desc_limit d6 = 1048575 /\ desc_dpl d6 = 3) /\
    forall i, i < 4 \/ 6 < i -> rd gdt' i = rd gdt i.
Proof.
  intros Ht Hl. unfold gdt_entries.
  change (gdt_slot 3221227808) with 4. change (gdt_slot 3221227816) with 5.
  change (gdt_slot 3221227824) with 6.
  rewrite wr_Ok by lia. simpl. rewrite wr_Ok by (rewrite length_insert; lia). simpl.
  rewrite wr_Ok by (rewrite !length_insert; lia).
  do 4 eexists. split; [done|].
  rewrite !rd_insert_ne, rd_insert_eq, (rd_insert_ne _ 6 5), rd_insert_eq, rd_insert_eq
    by (rewrite ?length_insert; lia).
  split; [done|]. split; [done|]. split; [done|].
  change TSS_ATTR_HIGH with (16 * 8). change GDT_ATTR_HIGH with (16 * 12).
  destruct (make_gdt_desc_fields tss (tss_size - 1) TSS_ATTR_LOW 8) as (-> & -> & _);
    [done|unfold tss_size; lia|lia|].
  destruct (make_gdt_desc_fields 0 1048575 GDT_CODE_ATTR_LOW_DPL3 12) as (-> & -> & _);
    [lia|lia|lia|].
  destruct (make_gdt_desc_fields 0 1048575 GDT_DATA_ATTR_LOW_DPL3 12) as (-> & -> & _);
    [lia|lia|lia|].
  split; [done|]. split; [done|]. split; [done|].
  intros i Hi. destruct (decide (0 <= i)) as [|Hneg].
  - rewrite !rd_insert_ne by lia. done.
  - rewrite !rd_oob by (rewrite ?length_insert; lia). done.
Qed.

(** ** Witnesses *)

Lemma critical_section_restores_witness :
  exists s2, critical (S := Z) (kret 7) 514 = Ok (7, s2) /\ eflags s2 = eflags 514.
Proof.
  destruct (critical_section_restores (S := Z) (kret 7) 514 7 2) as (s2 & H1 & H2 & _).
  - reflexivity.
  - reflexivity.
  - exists s2. split; [exact H1|exact H2].
Defined.

Lemma idt_desc_init_spec_witness :
  exists idt', idt_desc_init (replicate 129 3221233664) 3221237760
                 (replicate 129 (GateDesc 0 0 0 0 0)) = Ok idt'.
Proof.
  destruct (idt_desc_init_spec (replicate 129 3221233664) 3221237760
              (replicate 129 (GateDesc 0 0 0 0 0))) as (idt' & H & _).
  - reflexivity.
  - reflexivity.
  - apply Forall_replicate. lia.
  - lia.
  - exists idt'. exact H.
Defined.

Lemma gdt_entries_spec_witness :
  exists gdt', gdt_entries 3222274048 (replicate 7 (GdtDesc 0 0 0 0 0 0)) = Ok gdt'.
Proof.
  destruct (gdt_entries_spec 3222274048 (replicate 7 (GdtDesc 0 0 0 0 0 0)))
    as (gdt' & ? & ? & ? & H & _).
  - lia.
  - simpl. lia.
  - exists gdt'. exact H.
Defined.
