(* ===== verification/DList.v ===== *)
(** * DList: lib/kernel/list.c

    The intrusive doubly linked list every queue of the kernel is made of (ready
    queue, wait queues, open inodes, free blocks).  The model keeps the pointer
    structure: a heap maps the address of a [struct list_elem] to its two
    pointers, a [struct list] at address [L] has its [head] at [L] and its [tail]
    at [L + 8].  [dl h L xs] says that the list at [L] holds the elements [xs] in
    order; the theorems show that each operation implements the operation on
    sequences that the rest of the development uses, and frames every other list. *)

From S2P Require Import Prelude Interrupt.

(** ** Data *)

Record list_elem : Type := ListElem { prev : Z; next : Z }.

Record lstate : Type := LState { l_eflags : Z; heap : gmap Z list_elem }.

#[export] Instance lstate_eflags : HasEflags lstate.
Proof.
  refine {| eflags := l_eflags; set_eflags := fun v s => LState v (heap s) |}; try done.
  by intros [].
Defined.

Definition head_of (L : Z) : Z := L.
Definition tail_of (L : Z) : Z := L + 8.

(** ** Operations *)

Definition get_elem (a : Z) : KM lstate list_elem := fun s =>
  match heap s !! a with Some e => Ok (e, s) | None => Err OutOfBounds end.
Definition put_elem (a : Z) (e : list_elem) : KM lstate unit := fun s =>
  Ok (tt, LState (l_eflags s) (<[a := e]> (heap s))).

(** [a->next], [a->prev], [a->next = v], [a->prev = v]. *)
Definition get_next (a : Z) : KM lstate Z := e <- get_elem a ;; kret (next e).
Definition get_prev (a : Z) : KM lstate Z := e <- get_elem a ;; kret (prev e).
Definition set_next (a v : Z) : KM lstate unit :=
  e <- get_elem a ;; put_elem a (ListElem (prev e) v).
Definition set_prev (a v : Z) : KM lstate unit :=
  e <- get_elem a ;; put_elem a (ListElem v (next e)).

Definition list_init (L : Z) : KM lstate unit :=
  set_next (head_of L) (tail_of L) ;;;
  set_prev (tail_of L) (head_of L) ;;;
  set_prev (head_of L) (tail_of L) ;;;
  set_next (tail_of L) (head_of L).

Definition list_insert_before (before elem : Z) : KM lstate unit :=
  old_status <- intr_disable ;;
  p <- get_prev before ;;
  set_next p elem ;;;
  set_next elem before ;;;
  p' <- get_prev before ;;
  set_prev elem p' ;;;
  set_prev before elem ;;;
  intr_set_status old_status ;;;
  kret tt.

Definition list_push (plist elem : Z) : KM lstate unit :=
  first <- get_next (head_of plist) ;;
  list_insert_before first elem.

Definition list_append (plist elem : Z) : KM lstate unit :=
  list_insert_before (tail_of plist) elem.

Definition list_remove (pelem : Z) : KM lstate unit :=
  old_status <- intr_disable ;;
  n <- get_next pelem ;;
  p <- get_prev pelem ;;
  set_prev n p ;;;
  p' <- get_prev pelem ;;
  n' <- get_next pelem ;;
  set_next p' n' ;;;
  intr_set_status old_status ;;;
  kret tt.

Definition list_pop (plist : Z) : KM lstate Z :=
  elem <- get_next (head_of plist) ;;
  list_remove elem ;;;
  kret elem.

Fixpoint find_loop (fuel : nat) (tail obj_elem elem : Z) : KM lstate bool :=
  match fuel with
  | O => kfail Diverges
  | S fuel =>
      if elem =? tail then kret false
      else if elem =? obj_elem then kret true
      else n <- get_next elem ;; find_loop fuel tail obj_elem n
  end.

Definition elem_find (fuel : nat) (plist obj_elem : Z) : KM lstate bool :=
  elem <- get_next (head_of plist) ;;
  find_loop fuel (tail_of plist) obj_elem elem.

Definition list_empty (plist : Z) : KM lstate bool :=
  elem <- get_next (head_of plist) ;;
  kret (elem =? tail_of plist).

Fixpoint len_loop (fuel : nat) (tail elem count : Z) : KM lstate Z :=
  match fuel with
  | O => kfail Diverges
  | S fuel =>
      if elem =? tail then kret (u32 count)
      else n <- get_next elem ;; len_loop fuel tail n (i32 (count + 1))
  end.

Definition list_len (fuel : nat) (plist : Z) : KM lstate Z :=
  elem <- get_next (head_of plist) ;;
  len_loop fuel (tail_of plist) elem 0.

(** [function]: the callback of [list_traversal]. *)
Fixpoint traversal_loop (fuel : nat) (func : Z -> Z -> KM lstate bool) (arg tail elem : Z)
  : KM lstate Z :=
  match fuel with
  | O => kfail Diverges
  | S fuel =>
      if elem =? tail then kret 0
      else
        hit <- func elem arg ;;
        if (hit : bool) then kret elem
        else n <- get_next elem ;; traversal_loop fuel func arg tail n
  end.

Definition list_traversal (fuel : nat) (plist : Z) (func : Z -> Z -> KM lstate bool) (arg : Z)
  : KM lstate Z :=
  empty <- list_empty plist ;;
  if (empty : bool) then kret 0
  else
    elem <- get_next (head_of plist) ;;
    traversal_loop fuel func arg (tail_of plist) elem.

(** ** Representation *)

Definition nxt (h : gmap Z list_elem) (a : Z) : option Z := next <$> h !! a.
Definition prv (h : gmap Z list_elem) (a : Z) : option Z := prev <$> h !! a.

Definition link (h : gmap Z list_elem) (a b : Z) : Prop := nxt h a = Some b /\ prv h b = Some a.

Fixpoint chain (h : gmap Z list_elem) (l : list Z) : Prop :=
  match l with
  | a :: (b :: _) as t => link h a b /\ chain h t
  | _ => True
  end.

Definition nodes (L : Z) (xs : list Z) : list Z := head_of L :: xs ++ [tail_of L].

Definition dl (h : gmap Z list_elem) (L : Z) (xs : list Z) : Prop :=
  NoDup (nodes L xs) /\ chain h (nodes L xs).

Lemma chain_app h l1 a l2 : chain h (l1 ++ a :: l2) <-> chain h (l1 ++ [a]) /\ chain h (a :: l2).
Proof.
  induction l1 as [|b l1 IH]; [simpl; tauto|].
  destruct l1 as [|c l1]; simpl in *; [tauto|]. rewrite IH. tauto.
Qed.

Lemma chain_ext_l h h' l p :
  (forall a, a ∈ l -> nxt h' a = nxt h a) -> (forall a, a ∈ l ++ [p] -> prv h' a = prv h a) ->
  chain h (l ++ [p]) -> chain h' (l ++ [p]).
Proof.
  induction l as [|a l IH]; intros Hn Hp; [done|].
  assert (Hstep : chain h (l ++ [p]) -> chain h' (l ++ [p])).
  { apply IH; intros; [apply Hn|apply Hp]; set_solver. }
  destruct l as [|b l]; simpl in *.
  - intros [[H1 H2] _]. split; [|done]. split; [rewrite Hn|rewrite Hp]; set_solver.
  - intros [[H1 H2] H3]. split; [|tauto]. split; [rewrite Hn|rewrite Hp]; set_solver.
Qed.

Lemma chain_ext_r h h' b l :
  (forall a, a ∈ b :: l -> nxt h' a = nxt h a) -> (forall a, a ∈ l -> prv h' a = prv h a) ->
  chain h (b :: l) -> chain h' (b :: l).
Proof.
  revert b. induction l as [|c l IH]; intros b Hn Hp; [done|].
  intros [[H1 H2] H3]. split.
  - split; [rewrite Hn|rewrite Hp]; set_solver.
  - apply IH; [| |exact H3]; intros; [apply Hn|apply Hp]; set_solver.
Qed.

Lemma chain_ext h h' l :
  (forall a, a ∈ l -> h' !! a = h !! a) -> chain h l -> chain h' l.
Proof.
  intros Heq. destruct l as [|a l]; [done|].
  apply chain_ext_r; intros x Hx; unfold nxt, prv; rewrite Heq; set_solver.
Qed.

(** ** Single writes *)

Lemma get_next_run a b fl h :
  nxt h a = Some b -> get_next a (LState fl h) = Ok (b, LState fl h).
Proof.
  unfold nxt, get_next, kbind, get_elem. simpl. destruct (h !! a); naive_solver.
Qed.

Lemma get_prev_run a b fl h :
  prv h a = Some b -> get_prev a (LState fl h) = Ok (b, LState fl h).
Proof.
  unfold prv, get_prev, kbind, get_elem. simpl. destruct (h !! a); naive_solver.
Qed.

Definition upd_next (h : gmap Z list_elem) (a v : Z) : gmap Z list_elem :=
  alter (fun e => ListElem (prev e) v) a h.
Definition upd_prev (h : gmap Z list_elem) (a v : Z) : gmap Z list_elem :=
  alter (fun e => ListElem v (next e)) a h.

Lemma set_next_run a v fl h :
  is_Some (h !! a) -> set_next a v (LState fl h) = Ok (tt, LState fl (upd_next h a v)).
Proof.
  intros [e He]. unfold set_next, kbind, get_elem, put_elem, upd_next. simpl. rewrite He.
  do 3 f_equal. apply map_eq. intros i. rewrite lookup_insert, lookup_alter.
  case_decide; subst; by rewrite ?He.
Qed.

Lemma set_prev_run a v fl h :
  is_Some (h !! a) -> set_prev a v (LState fl h) = Ok (tt, LState fl (upd_prev h a v)).
Proof.
  intros [e He]. unfold set_prev, kbind, get_elem, put_elem, upd_prev. simpl. rewrite He.
  do 3 f_equal. apply map_eq. intros i. rewrite lookup_insert, lookup_alter.
  case_decide; subst; by rewrite ?He.
Qed.

Lemma upd_next_nxt h a v b :
  nxt (upd_next h a v) b = if decide (a = b) then (fun _ => v) <$> h !! a else nxt h b.
Proof.
  unfold nxt, upd_next. rewrite lookup_alter. case_decide; [|done]. subst. by destruct (h !! b).
Qed.
Lemma upd_next_prv h a v b : prv (upd_next h a v) b = prv h b.
Proof.
  unfold prv, upd_next. rewrite lookup_alter. case_decide; [|done]. subst. by destruct (h !! b).
Qed.
Lemma upd_prev_prv h a v b :
  prv (upd_prev h a v) b = if decide (a = b) then (fun _ => v) <$> h !! a else prv h b.
Proof.
  unfold prv, upd_prev. rewrite lookup_alter. case_decide; [|done]. subst. by destruct (h !! b).
Qed.
Lemma upd_prev_nxt h a v b : nxt (upd_prev h a v) b = nxt h b.
Proof.
  unfold nxt, upd_prev. rewrite lookup_alter. case_decide; [|done]. subst. by destruct (h !! b).
Qed.
Lemma upd_next_lookup_ne h a v b : a <> b -> upd_next h a v !! b = h !! b.
Proof. intros. unfold upd_next. by rewrite lookup_alter_ne. Qed.
Lemma upd_prev_lookup_ne h a v b : a <> b -> upd_prev h a v !! b = h !! b.
Proof. intros. unfold upd_prev. by rewrite lookup_alter_ne. Qed.
Lemma upd_next_is_Some h a v b : is_Some (upd_next h a v !! b) <-> is_Some (h !! b).
Proof. unfold upd_next. by rewrite lookup_alter_is_Some. Qed.
Lemma upd_prev_is_Some h a v b : is_Some (upd_prev h a v !! b) <-> is_Some (h !! b).
Proof. unfold upd_prev. by rewrite lookup_alter_is_Some. Qed.

Create Rewrite HintDb dlist.
#[export] Hint Rewrite upd_next_nxt upd_next_prv upd_prev_prv upd_prev_nxt : dlist.
#[export] Hint Rewrite upd_next_is_Some upd_prev_is_Some : dlist.

(** Evaluates reads of updated heaps, splitting on the addresses. *)
Ltac heap_simp :=
  autorewrite with dlist;
  repeat (case_decide; subst; try congruence);
  unfold upd_prev, upd_next;
  repeat (rewrite lookup_alter; case_decide; subst; try congruence);
  repeat match goal with H : _ !! _ = Some _ |- _ => rewrite H end;
  simpl; try congruence.

(** ** The two structural updates *)

Definition insert_heap (h : gmap Z list_elem) (p e before : Z) : gmap Z list_elem :=
  upd_prev (upd_prev (upd_next (upd_next h p e) e before) e p) before e.

Definition remove_heap (h : gmap Z list_elem) (p e n : Z) : gmap Z list_elem :=
  upd_next (upd_prev h n p) p n.

(** Interrupts are off during the update and back to what they were after it. *)
Lemma critical_flags fl h :
  exists fl1, intr_disable (LState fl h) = Ok (intr_of (LState fl h), LState fl1 h) /\
    forall h', exists st, intr_set_status (intr_of (LState fl h)) (LState fl1 h')
                          = Ok (st, LState fl h').
Proof.
  exists (eflags (intr_off (LState fl h))). split.
  - rewrite intr_disable_run. unfold intr_off. by destruct (Z.testbit _ _).
  - intros h'. unfold intr_off, intr_of; simpl. destruct (Z.testbit fl 9) eqn:Hfl; simpl.
    + rewrite intr_enable_run. eexists. unfold intr_on; simpl.
      rewrite Z.land_spec, Hfl. change (Z.testbit (Z.lnot EFLAGS_IF) 9) with false. simpl.
      by rewrite set_clear_if.
    + rewrite intr_disable_run. eexists. unfold intr_off; simpl. by rewrite Hfl.
Qed.

Lemma insert_before_run fl h p e before :
  prv h before = Some p -> is_Some (h !! p) -> is_Some (h !! e) ->
  p <> before -> e <> before ->
  list_insert_before before e (LState fl h) = Ok (tt, LState fl (insert_heap h p e before)).
Proof.
  intros Hprv Hp He Hpb Heb.
  assert (Hb : is_Some (h !! before)) by (unfold prv in Hprv; destruct (h !! before); naive_solver).
  destruct (critical_flags fl h) as (fl1 & Hdis & Hen). unfold list_insert_before.
  rewrite (kbind_ok _ _ _ _ _ Hdis), (kbind_ok _ _ _ _ _ (get_prev_run _ _ _ _ Hprv)).
  rewrite (kbind_ok _ _ _ _ _ (set_next_run _ _ _ _ Hp)).
  rewrite (kbind_ok _ _ _ tt (LState fl1 (upd_next (upd_next h p e) e before))).
  2: { apply set_next_run. by rewrite upd_next_is_Some. }
  rewrite (kbind_ok (get_prev before) _ _ p (LState fl1 (upd_next (upd_next h p e) e before))).
  2: { apply get_prev_run. simpl. by rewrite !upd_next_prv. }
  rewrite (kbind_ok _ _ _ tt (LState fl1 (upd_prev (upd_next (upd_next h p e) e before) e p))).
  2: { apply set_prev_run. by rewrite !upd_next_is_Some. }
  rewrite (kbind_ok _ _ _ tt (LState fl1 (insert_heap h p e before))).
  2: { apply set_prev_run. by rewrite upd_prev_is_Some, !upd_next_is_Some. }
  destruct (Hen (insert_heap h p e before)) as [st Hst].
  by rewrite (kbind_ok _ _ _ _ _ Hst).
Qed.

Lemma list_remove_run fl h p e n :
  prv h e = Some p -> nxt h e = Some n -> is_Some (h !! p) -> is_Some (h !! n) ->
  n <> e -> p <> e ->
  list_remove e (LState fl h) = Ok (tt, LState fl (remove_heap h p e n)).
Proof.
  intros Hp Hn Hps Hns Hne Hpe. destruct (critical_flags fl h) as (fl1 & Hdis & Hen).
  unfold list_remove.
  rewrite (kbind_ok _ _ _ _ _ Hdis), (kbind_ok _ _ _ _ _ (get_next_run _ _ _ _ Hn)).
  rewrite (kbind_ok _ _ _ _ _ (get_prev_run _ _ _ _ Hp)).
  rewrite (kbind_ok _ _ _ _ _ (set_prev_run _ _ _ _ Hns)).
  rewrite (kbind_ok (get_prev e) _ _ p (LState fl1 (upd_prev h n p))).
  2: { apply get_prev_run. simpl. rewrite upd_prev_prv. by case_decide. }
  rewrite (kbind_ok (get_next e) _ _ n (LState fl1 (upd_prev h n p))).
  2: { apply get_next_run. simpl. by rewrite upd_prev_nxt. }
  rewrite (kbind_ok _ _ _ tt (LState fl1 (remove_heap h p e n))).
  2: { apply set_next_run. by rewrite upd_prev_is_Some. }
  destruct (Hen (remove_heap h p e n)) as [st Hst].
  by rewrite (kbind_ok _ _ _ _ _ Hst).
Qed.

Lemma insert_heap_fields h p e before :
  is_Some (h !! p) -> is_Some (h !! e) -> is_Some (h !! before) ->
  e <> p -> e <> before ->
  let h' := insert_heap h p e before in
  nxt h' p = Some e /\ nxt h' e = Some before /\ prv h' e = Some p /\ prv h' before = Some e /\
  (forall a, a <> p -> a <> e -> nxt h' a = nxt h a) /\
  (forall a, a <> before -> a <> e -> prv h' a = prv h a).
Proof.
  intros [ep Hp] [ee He] [eb Hb] Hep Heb. unfold insert_heap. cbv zeta.
  split_and!; intros; heap_simp; done.
Qed.

Lemma insert_heap_chain h l1 p e before l2 :
  NoDup (l1 ++ p :: before :: l2) -> e ∉ l1 ++ p :: before :: l2 -> is_Some (h !! e) ->
  chain h (l1 ++ p :: before :: l2) ->
  chain (insert_heap h p e before) (l1 ++ p :: e :: before :: l2).
Proof.
  intros Hnd He Hes Hch. apply chain_app. apply chain_app in Hch as (Hl1 & [Hpn Hbp] & Hr).
  apply list.NoDup_app in Hnd as (_ & Hd1 & Hnd).
  apply list.NoDup_cons in Hnd as [Hp Hnd]. apply list.NoDup_cons in Hnd as [Hb _].
  rewrite elem_of_app, !elem_of_cons in He. rewrite elem_of_cons in Hp.
  assert (is_Some (h !! p)) by (unfold nxt in Hpn; destruct (h !! p); naive_solver).
  assert (is_Some (h !! before)) by (unfold prv in Hbp; destruct (h !! before); naive_solver).
  destruct (insert_heap_fields h p e before) as (F1 & F2 & F3 & F4 & Fn & Fp);
    [done|done|done|tauto|tauto|].
  assert (Hl : forall a, a ∈ l1 -> a <> p /\ a <> e /\ a <> before).
  { intros a Ha. split_and!; intros ->; [|tauto|]; apply (Hd1 _ Ha); rewrite !elem_of_cons; auto. }
  split; [|split; [|split]]; [|by split|by split|].
  - revert Hl1. apply chain_ext_l; intros a Ha.
    + destruct (Hl a Ha) as (?&?&?). by apply Fn.
    + apply elem_of_app in Ha as [Ha|Ha].
      * destruct (Hl a Ha) as (?&?&?). by apply Fp.
      * apply list_elem_of_singleton in Ha as ->. apply Fp; intros ->; tauto.
  - revert Hr. apply chain_ext_r; intros a Ha.
    + apply Fn; intros ->; rewrite elem_of_cons in Ha; tauto.
    + apply Fp; intros ->; tauto.
Qed.

Lemma remove_heap_fields h p e n :
  is_Some (h !! p) -> is_Some (h !! n) ->
  let h' := remove_heap h p e n in
  nxt h' p = Some n /\ prv h' n = Some p /\
  (forall a, a <> p -> nxt h' a = nxt h a) /\ (forall a, a <> n -> prv h' a = prv h a).
Proof.
  intros [ep Hp] [en Hn]. unfold remove_heap. cbv zeta.
  split_and!; intros; heap_simp; done.
Qed.

Lemma remove_heap_chain h l1 p e n l2 :
  NoDup (l1 ++ p :: e :: n :: l2) -> chain h (l1 ++ p :: e :: n :: l2) ->
  chain (remove_heap h p e n) (l1 ++ p :: n :: l2).
Proof.
  intros Hnd Hch. apply chain_app.
  apply chain_app in Hch as (Hl1 & [Hpn _] & [_ Hnp] & Hr).
  apply list.NoDup_app in Hnd as (_ & Hd1 & Hnd).
  apply list.NoDup_cons in Hnd as [Hp Hnd]. apply list.NoDup_cons in Hnd as [_ Hnd].
  apply list.NoDup_cons in Hnd as [Hn _]. rewrite !elem_of_cons in Hp.
  assert (is_Some (h !! p)) by (unfold nxt in Hpn; destruct (h !! p); naive_solver).
  assert (is_Some (h !! n)) by (unfold prv in Hnp; destruct (h !! n); naive_solver).
  destruct (remove_heap_fields h p e n) as (F1 & F2 & Fn & Fp); [done|done|].
  assert (Hl : forall a, a ∈ l1 -> a <> p /\ a <> n).
  { intros a Ha. split; intros ->; apply (Hd1 _ Ha); rewrite !elem_of_cons; auto. }
  split; [|split]; [|by split|].
  - revert Hl1. apply chain_ext_l; intros a Ha.
    + apply Fn, Hl, Ha.
    + apply Fp. apply elem_of_app in Ha as [Ha|Ha]; [by apply Hl|].
      apply list_elem_of_singleton in Ha as ->. tauto.
  - revert Hr. apply chain_ext_r; intros a Ha.
    + apply Fn. intros ->. rewrite elem_of_cons in Ha. tauto.
    + apply Fp. intros ->. tauto.
Qed.

(** ** What the operations preserve besides their list *)

(** [same_elsewhere h h' X]: outside of [X] the heap is the same. *)
Definition same_elsewhere (h h' : gmap Z list_elem) (X : list Z) : Prop :=
  (forall a, a ∉ X -> h' !! a = h !! a) /\ (forall a, is_Some (h' !! a) <-> is_Some (h !! a)).

Lemma insert_heap_same h p e before :
  same_elsewhere h (insert_heap h p e before) [p; e; before].
Proof.
  split.
  - intros a Ha. rewrite !elem_of_cons in Ha. unfold insert_heap.
    rewrite !upd_prev_lookup_ne, !upd_next_lookup_ne by (intros ->; tauto). done.
  - intros a. unfold insert_heap. by autorewrite with dlist.
Qed.

Lemma remove_heap_same h p e n : same_elsewhere h (remove_heap h p e n) [p; n].
Proof.
  split.
  - intros a Ha. rewrite !elem_of_cons in Ha. unfold remove_heap.
    rewrite upd_next_lookup_ne, upd_prev_lookup_ne by (intros ->; tauto). done.
  - intros a. unfold remove_heap. by autorewrite with dlist.
Qed.

(** A list whose nodes are not touched keeps its elements. *)
Lemma dl_frame h h' X L xs :
  same_elsewhere h h' X -> dl h L xs -> (forall a, a ∈ nodes L xs -> a ∉ X) -> dl h' L xs.
Proof.
  intros [Heq _] [Hnd Hch] Hdisj. split; [done|].
  revert Hch. apply chain_ext. intros a Ha. by apply Heq, Hdisj.
Qed.

(** A list with its element nodes allocated, at insertion positions. *)
Lemma dl_insert fl h L xs1 xs2 e before p l1 l2 :
  nodes L (xs1 ++ xs2) = l1 ++ p :: before :: l2 ->
  nodes L (xs1 ++ e :: xs2) = l1 ++ p :: e :: before :: l2 ->
  dl h L (xs1 ++ xs2) -> e ∉ nodes L (xs1 ++ xs2) -> is_Some (h !! e) ->
  exists h', list_insert_before before e (LState fl h) = Ok (tt, LState fl h') /\
    dl h' L (xs1 ++ e :: xs2) /\ same_elsewhere h h' (e :: nodes L (xs1 ++ xs2)).
Proof.
  intros Hn Hn' [Hnd Hch] He Hes. rewrite Hn in *.
  exists (insert_heap h p e before).
  pose proof Hnd as Hnd2. apply list.NoDup_app in Hnd2 as (_ & _ & Hnd2).
  apply list.NoDup_cons in Hnd2 as [Hpb _].
  pose proof Hch as Hch2. apply chain_app in Hch2 as (_ & [Hpn Hbp] & _).
  rewrite elem_of_app, !elem_of_cons in He. rewrite elem_of_cons in Hpb.
  split; [|split].
  - apply insert_before_run; [done| |done|tauto|intros ->; tauto].
    unfold nxt in Hpn. destruct (h !! p); naive_solver.
  - split; rewrite Hn'.
    + clear -Hnd He. rewrite (Permutation_app_comm l1). simpl.
      rewrite (Permutation_app_comm l1) in Hnd. simpl in Hnd.
      apply list.NoDup_cons in Hnd as [Hp Hnd].
      apply list.NoDup_cons. split; [|apply list.NoDup_cons; split; [|done]].
      all: rewrite ?elem_of_cons, ?elem_of_app in *; intuition congruence.
    + apply insert_heap_chain; try done. by rewrite elem_of_app, !elem_of_cons.
  - destruct (insert_heap_same h p e before) as [Hs1 Hs2]. split; [|done].
    intros a Ha. apply Hs1. rewrite elem_of_cons, elem_of_app, !elem_of_cons in Ha.
    rewrite !elem_of_cons, elem_of_nil. tauto.
Qed.

Lemma dl_remove fl h L xs1 e xs2 :
  dl h L (xs1 ++ e :: xs2) ->
  exists h', list_remove e (LState fl h) = Ok (tt, LState fl h') /\
    dl h' L (xs1 ++ xs2) /\ same_elsewhere h h' (nodes L (xs1 ++ xs2)).
Proof.
  intros [Hnd Hch].
  assert (exists l1 p n l2, nodes L (xs1 ++ e :: xs2) = l1 ++ p :: e :: n :: l2 /\
            nodes L (xs1 ++ xs2) = l1 ++ p :: n :: l2) as (l1 & p & n & l2 & Hn & Hn').
  { assert (exists l1 p, head_of L :: xs1 = l1 ++ [p]) as (l1 & p & Hl).
    { destruct xs1 as [|x xs1] using rev_ind; [by exists [], (head_of L)|].
      exists (head_of L :: xs1), x. done. }
    assert (exists n l2, xs2 ++ [tail_of L] = n :: l2) as (n & l2 & Hr).
    { destruct xs2; simpl; eauto. }
    exists l1, p, n, l2. unfold nodes. rewrite <- !app_assoc, Hr. simpl.
    rewrite Hr, !app_comm_cons, Hl, <- !app_assoc. done. }
  rewrite Hn in *. exists (remove_heap h p e n).
  pose proof Hch as Hch2. apply chain_app in Hch2 as (_ & [Hpe Hep] & [Hen Hne] & _).
  pose proof Hnd as Hnd2. apply list.NoDup_app in Hnd2 as (_ & _ & Hnd2).
  apply list.NoDup_cons in Hnd2 as [Hp Hnd2]. apply list.NoDup_cons in Hnd2 as [He _].
  rewrite !elem_of_cons in *.
  split; [|split].
  - apply list_remove_run; [done|done| | |intros ->; tauto|intros ->; tauto].
    + unfold nxt in Hpe. destruct (h !! p); naive_solver.
    + unfold prv in Hne. destruct (h !! n); naive_solver.
  - split; rewrite Hn'; [|by apply remove_heap_chain].
    clear -Hnd. rewrite (Permutation_app_comm l1) in *. simpl in *.
    apply list.NoDup_cons in Hnd as [? Hnd]. apply list.NoDup_cons in Hnd as [? Hnd].
    apply list.NoDup_cons. split; [|done]. rewrite !elem_of_cons in *. tauto.
  - rewrite Hn'. destruct (remove_heap_same h p e n) as [Hs1 Hs2]. split; [|done].
    intros a Ha. apply Hs1. rewrite elem_of_app, !elem_of_cons in Ha.
    rewrite !elem_of_cons, elem_of_nil. tauto.
Qed.

(** Walking the list. *)
Lemma dl_first fl h L x xs :
  dl h L (x :: xs) -> get_next (head_of L) (LState fl h) = Ok (x, LState fl h).
Proof. intros [_ [[H _] _]]. by apply get_next_run. Qed.

Lemma dl_first_nil fl h L :
  dl h L [] -> get_next (head_of L) (LState fl h) = Ok (tail_of L, LState fl h).
Proof. intros [_ [[H _] _]]. by apply get_next_run. Qed.

Lemma dl_tail_notin h L xs : dl h L xs -> tail_of L ∉ xs.
Proof.
  intros [Hnd _]. unfold nodes in Hnd. apply list.NoDup_cons in Hnd as [_ Hnd].
  apply list.NoDup_app in Hnd as (_ & Hd & _). intros Hin. by apply (Hd _ Hin), list_elem_of_singleton.
Qed.

(** A suffix of the node sequence that a walk has still to visit. *)
Definition walk (h : gmap Z list_elem) (tail : Z) (ys : list Z) : Prop :=
  chain h (ys ++ [tail]) /\ tail ∉ ys.

Lemma dl_walk h L xs : dl h L xs -> walk h (tail_of L) xs.
Proof.
  intros Hdl. split; [|by eapply dl_tail_notin].
  destruct Hdl as [_ Hch]. unfold nodes in Hch. destruct xs; apply Hch.
Qed.

Lemma walk_next fl h tail x ys :
  walk h tail (x :: ys) ->
  x <> tail /\ get_next x (LState fl h) = Ok (hd tail ys, LState fl h) /\ walk h tail ys.
Proof.
  intros [Hch Hni]. split_and!.
  - intros ->. apply Hni. constructor.
  - apply get_next_run. destruct ys; simpl in Hch; apply Hch.
  - split; [|set_solver]. destruct ys; apply Hch.
Qed.

Lemma find_loop_spec fuel fl h tail x ys :
  walk h tail ys -> (length ys < fuel)%nat -> x <> tail ->
  find_loop fuel tail x (hd tail ys) (LState fl h) = Ok (bool_decide (x ∈ ys), LState fl h).
Proof.
  revert ys. induction fuel as [|fuel IH]; intros ys Hw Hf Hx; [lia|]. simpl.
  destruct ys as [|y ys]; simpl.
  { by rewrite Z.eqb_refl. }
  destruct (walk_next fl _ _ _ _ Hw) as (Hy & Hn & Hw').
  rewrite (proj2 (Z.eqb_neq _ _) Hy). destruct (Z.eqb_spec y x) as [->|Hyx].
  { rewrite bool_decide_eq_true_2; [done|constructor]. }
  rewrite (kbind_ok _ _ _ _ _ Hn). simpl in Hf. rewrite IH by (done || lia).
  do 2 f_equal. apply bool_decide_ext. rewrite elem_of_cons. naive_solver.
Qed.

Lemma len_loop_spec fuel fl h tail ys c :
  walk h tail ys -> (length ys < fuel)%nat -> 0 <= c -> c + Z.of_nat (length ys) < 2 ^ 31 ->
  len_loop fuel tail (hd tail ys) c (LState fl h) = Ok (c + Z.of_nat (length ys), LState fl h).
Proof.
  revert ys c. induction fuel as [|fuel IH]; intros ys c Hw Hf Hc Hb; [lia|]. simpl.
  destruct ys as [|y ys]; simpl in *.
  { rewrite Z.eqb_refl. autorewrite with word. unfold kret. do 2 f_equal. lia. }
  destruct (walk_next fl _ _ _ _ Hw) as (Hy & Hn & Hw').
  rewrite (proj2 (Z.eqb_neq _ _) Hy), (kbind_ok _ _ _ _ _ Hn).
  autorewrite with word. rewrite IH by (done || lia). do 2 f_equal. lia.
Qed.

Lemma traversal_loop_spec fuel func p arg fl h tail ys :
  (forall a s, func a arg s = Ok (p a, s)) ->
  walk h tail ys -> (length ys < fuel)%nat ->
  traversal_loop fuel func arg tail (hd tail ys) (LState fl h) =
    Ok (hd 0 (List.filter p ys), LState fl h).
Proof.
  intros Hf. revert ys. induction fuel as [|fuel IH]; intros ys Hw Hlen; [lia|]. simpl.
  destruct ys as [|y ys]; simpl in *; [by rewrite Z.eqb_refl|].
  destruct (walk_next fl _ _ _ _ Hw) as (Hy & Hn & Hw').
  rewrite (proj2 (Z.eqb_neq _ _) Hy), (kbind_ok _ _ _ _ _ (Hf _ _)).
  destruct (p y); [done|]. rewrite (kbind_ok _ _ _ _ _ Hn). apply IH; [done|lia].
Qed.

(** ** Several lists in one heap *)

(** The abstract state of the kernel's queues: which sequence each [struct list] holds. *)
Abbreviation queues := (gmap Z (list Z)).

(** [h] holds the queues [qs]: each is a well-formed doubly linked list, no two share a node. *)
Record represents (h : gmap Z list_elem) (qs : queues) : Prop := {
  rep_dl : forall L xs, qs !! L = Some xs -> dl h L xs;
  rep_disjoint : forall L1 L2 xs ys a, qs !! L1 = Some xs -> qs !! L2 = Some ys ->
    a ∈ nodes L1 xs -> a ∈ nodes L2 ys -> L1 = L2
}.

(** [e] is a node of none of the queues. *)
Definition unlinked (qs : queues) (e : Z) : Prop :=
  forall L xs, qs !! L = Some xs -> e ∉ nodes L xs.

(** The updates of list.c and what they mean for the queues. *)
Inductive list_op : Type :=
  | OpInit (L : Z) | OpPush (L e : Z) | OpAppend (L e : Z) | OpRemove (e : Z) | OpPop (L : Z).

Definition run_op (op : list_op) : KM lstate Z :=
  match op with
  | OpInit L => list_init L ;;; kret 0
  | OpPush L e => list_push L e ;;; kret 0
  | OpAppend L e => list_append L e ;;; kret 0
  | OpRemove e => list_remove e ;;; kret 0
  | OpPop L => list_pop L
  end.

Inductive spec_op (qs : queues) : list_op -> queues -> Z -> Prop :=
  | spec_init L : unlinked qs (head_of L) -> unlinked qs (tail_of L) ->
      spec_op qs (OpInit L) (<[L := []]> qs) 0
  | spec_push L xs e : qs !! L = Some xs -> unlinked qs e ->
      spec_op qs (OpPush L e) (<[L := e :: xs]> qs) 0
  | spec_append L xs e : qs !! L = Some xs -> unlinked qs e ->
      spec_op qs (OpAppend L e) (<[L := xs ++ [e]]> qs) 0
  | spec_remove L xs ys e : qs !! L = Some (xs ++ e :: ys) ->
      spec_op qs (OpRemove e) (<[L := xs ++ ys]> qs) 0
  | spec_pop L x xs : qs !! L = Some (x :: xs) ->
      spec_op qs (OpPop L) (<[L := xs]> qs) x.

(** The nodes an operation links in. *)
Definition op_elems (op : list_op) : list Z :=
  match op with
  | OpInit L => [head_of L; tail_of L]
  | OpPush _ e | OpAppend _ e => [e]
  | _ => []
  end.

Lemma nodes_elem L xs a : a ∈ nodes L xs <-> a = head_of L \/ a ∈ xs \/ a = tail_of L.
Proof. unfold nodes. by rewrite elem_of_cons, elem_of_app, list_elem_of_singleton. Qed.

(** Changing one queue: the others are framed. *)
Lemma represents_update h h' qs L xs xs' X :
  represents h qs -> qs !! L = Some xs -> dl h' L xs' -> same_elsewhere h h' X ->
  (forall a, a ∈ X -> a ∈ nodes L xs \/ unlinked qs a) ->
  (forall a, a ∈ xs' -> a ∈ xs \/ unlinked qs a) ->
  represents h' (<[L := xs']> qs).
Proof.
  intros [Hdl Hdis] HL Hdl' Hsame HX Hxs.
  assert (Hin : forall a, a ∈ nodes L xs' -> a ∈ nodes L xs \/ unlinked qs a).
  { intros a. rewrite !nodes_elem. intros [?|[Ha|?]]; [tauto| |tauto]. apply Hxs in Ha. tauto. }
  split.
  - intros L1 ys. destruct (decide (L1 = L)) as [->|HL1].
    { rewrite lookup_insert_eq. by intros [= ->]. }
    rewrite lookup_insert_ne by done. intros H1. eapply dl_frame; [done|by apply Hdl|].
    intros a Ha Hx. destruct (HX _ Hx) as [Hl|Hu]; [|by eapply Hu].
    by apply HL1, (Hdis _ _ _ _ _ H1 HL Ha).
  - intros L1 L2 ys1 ys2 a H1 H2 Ha1 Ha2.
    destruct (decide (L1 = L)) as [->|HL1], (decide (L2 = L)) as [->|HL2]; try done.
    + rewrite lookup_insert_eq in H1. injection H1 as ->. rewrite lookup_insert_ne in H2 by done.
      destruct (Hin _ Ha1) as [Hl|Hu]; [by eapply Hdis|by destruct (Hu _ _ H2)].
    + rewrite lookup_insert_eq in H2. injection H2 as ->. rewrite lookup_insert_ne in H1 by done.
      destruct (Hin _ Ha2) as [Hl|Hu]; [by eapply Hdis|by destruct (Hu _ _ H1)].
    + rewrite lookup_insert_ne in H1, H2 by done. by eapply Hdis.
Qed.

Lemma list_push_run fl h L xs e :
  dl h L xs -> e ∉ nodes L xs -> is_Some (h !! e) ->
  exists h', list_push L e (LState fl h) = Ok (tt, LState fl h') /\ dl h' L (e :: xs) /\
    same_elsewhere h h' (e :: nodes L xs).
Proof.
  intros Hdl He Hes. unfold list_push.
  assert (Hf : get_next (head_of L) (LState fl h) = Ok (hd (tail_of L) xs, LState fl h)).
  { destruct xs; [by apply dl_first_nil|by eapply dl_first]. }
  rewrite (kbind_ok _ _ _ _ _ Hf).
  by apply (dl_insert fl h L [] xs e _ (head_of L) [] (tl (xs ++ [tail_of L]))); destruct xs.
Qed.

Lemma list_append_run fl h L xs e :
  dl h L xs -> e ∉ nodes L xs -> is_Some (h !! e) ->
  exists h', list_append L e (LState fl h) = Ok (tt, LState fl h') /\ dl h' L (xs ++ [e]) /\
    same_elsewhere h h' (e :: nodes L xs).
Proof.
  intros Hdl He Hes. unfold list_append.
  assert (exists l1 p, head_of L :: xs = l1 ++ [p]) as (l1 & p & Hl).
  { destruct xs as [|x xs _] using rev_ind; [by exists [], (head_of L)|].
    by exists (head_of L :: xs), x. }
  pose proof (dl_insert fl h L xs [] e (tail_of L) p l1 []) as H. rewrite app_nil_r in H.
  apply H; try done; unfold nodes; rewrite <- ?app_assoc, app_comm_cons, Hl, <- app_assoc; done.
Qed.

Lemma list_init_run fl h L :
  is_Some (h !! head_of L) -> is_Some (h !! tail_of L) ->
  exists h', list_init L (LState fl h) = Ok (tt, LState fl h') /\ dl h' L [] /\
    same_elsewhere h h' [head_of L; tail_of L].
Proof.
  intros [[hp hn] Hh] [[tp tn] Ht].
  assert (Hne : head_of L <> tail_of L) by (unfold head_of, tail_of; lia).
  set (h1 := <[head_of L := ListElem hp (tail_of L)]> h).
  set (h2 := <[tail_of L := ListElem (head_of L) tn]> h1).
  set (h3 := <[head_of L := ListElem (tail_of L) (tail_of L)]> h2).
  set (h4 := <[tail_of L := ListElem (head_of L) (head_of L)]> h3).
  assert (H1 : h1 !! tail_of L = Some (ListElem tp tn)) by (unfold h1; by rewrite lookup_insert_ne).
  assert (H2 : h2 !! head_of L = Some (ListElem hp (tail_of L))).
  { unfold h2, h1. rewrite lookup_insert_ne by done. by rewrite lookup_insert_eq. }
  assert (H3 : h3 !! tail_of L = Some (ListElem (head_of L) tn)).
  { unfold h3, h2. rewrite lookup_insert_ne by done. by rewrite lookup_insert_eq. }
  exists h4. split; [|split].
  - unfold list_init, set_next, set_prev, get_elem, put_elem, kbind, kret; cbn [heap l_eflags].
    rewrite Hh; cbn. fold h1. rewrite H1; cbn. fold h2. rewrite H2; cbn. fold h3.
    rewrite H3; cbn. done.
  - split; [apply list.NoDup_cons; split; [|apply list.NoDup_singleton]|].
    { change (head_of L ∉ [tail_of L]). by rewrite list_elem_of_singleton. }
    split; [|done]. unfold link, nxt, prv, h4, h3.
    rewrite lookup_insert_ne by done. rewrite !lookup_insert_eq by done. done.
  - split.
    + intros a. rewrite !elem_of_cons. intros Ha. unfold h4, h3, h2, h1.
      by rewrite !lookup_insert_ne by (intros Heq; apply Ha; rewrite <- Heq; tauto).
    + intros a. unfold h4, h3, h2, h1. rewrite !lookup_insert_is_Some.
      destruct (decide (tail_of L = a)) as [E|], (decide (head_of L = a)) as [E'|];
        try rewrite <- E; try rewrite <- E'; rewrite ?Hh, ?Ht; naive_solver.
Qed.

Lemma represents_init h h' qs L :
  represents h qs -> unlinked qs (head_of L) -> unlinked qs (tail_of L) -> dl h' L [] ->
  same_elsewhere h h' [head_of L; tail_of L] -> represents h' (<[L := []]> qs).
Proof.
  intros [Hdl Hdis] Hu1 Hu2 Hdl' Hs.
  assert (Hout : forall L1 ys a, qs !! L1 = Some ys -> a ∈ nodes L1 ys -> a ∉ nodes L []).
  { intros L1 ys a H1 Ha. rewrite nodes_elem, elem_of_nil.
    intros [->|[?| ->]]; [by eapply Hu1|done|by eapply Hu2]. }
  split.
  - intros L1 ys. destruct (decide (L1 = L)) as [->|HL1].
    { rewrite lookup_insert_eq. by intros [= <-]. }
    rewrite lookup_insert_ne by done. intros H1. eapply dl_frame; [done|by apply Hdl|].
    intros a Ha. by eapply Hout.
  - intros L1 L2 ys1 ys2 a H1 H2 Ha1 Ha2.
    destruct (decide (L1 = L)) as [->|HL1], (decide (L2 = L)) as [->|HL2]; try done.
    + rewrite lookup_insert_eq in H1. injection H1 as <-. rewrite lookup_insert_ne in H2 by done.
      by destruct (Hout _ _ _ H2 Ha2).
    + rewrite lookup_insert_eq in H2. injection H2 as <-. rewrite lookup_insert_ne in H1 by done.
      by destruct (Hout _ _ _ H1 Ha1).
    + rewrite lookup_insert_ne in H1, H2 by done. by eapply Hdis.
Qed.

(** C25: list.c implements queues.  Whatever well-formed queues a heap holds, each update
    of list.c ([list_init], [list_push], [list_append], [list_remove], [list_pop]) on an element that
    is free, respectively linked, succeeds, returns what the operation on sequences
    returns, leaves the heap holding exactly the updated queues (every other queue is
    unchanged) and restores the interrupt flag it found. *)
Theorem list_ops_refine fl h qs op qs' r :
  represents h qs -> spec_op qs op qs' r -> (forall e, e ∈ op_elems op -> is_Some (h !! e)) ->
  exists h', run_op op (LState fl h) = Ok (r, LState fl h') /\ represents h' qs'.
Proof.
  intros Hrep Hop He. pose proof (rep_dl _ _ Hrep) as Hdl.
  assert (Hadd : forall L xs xs' h', qs !! L = Some xs -> dl h' L xs' ->
    forall e, unlinked qs e -> same_elsewhere h h' (e :: nodes L xs) ->
    (forall a, a ∈ xs' -> a = e \/ a ∈ xs) -> represents h' (<[L:=xs']> qs)).
  { intros L xs xs' h' HL Hdl' e Hu Hs Hin. eapply represents_update; try done.
    - intros a. rewrite elem_of_cons. intros [->|?]; auto.
    - intros a Ha. destruct (Hin _ Ha) as [->|?]; auto. }
  assert (Hrem : forall L xs ys e h', qs !! L = Some (xs ++ e :: ys) -> dl h' L (xs ++ ys) ->
    same_elsewhere h h' (nodes L (xs ++ ys)) -> represents h' (<[L:=xs ++ ys]> qs)).
  { intros L xs ys e h' HL Hdl' Hs. eapply represents_update; try done; intros a;
      rewrite ?nodes_elem, !elem_of_app, ?elem_of_cons; tauto. }
  destruct Hop as [L Hu1 Hu2|L xs e HL Hu|L xs e HL Hu|L xs ys e HL|L x xs HL]; unfold run_op, op_elems in *;
    try pose proof (He e (proj2 (list.list_elem_of_singleton _ _) eq_refl)) as He'.
  - destruct (list_init_run fl h L) as (h' & H1 & H2 & H3);
      [apply He; rewrite !elem_of_cons; tauto..|].
    exists h'. rewrite (kbind_ok _ _ _ _ _ H1). split; [done|].
    by eapply represents_init.
  - destruct (list_push_run fl h L xs e) as (h' & H1 & H2 & H3); eauto.
    exists h'. rewrite (kbind_ok _ _ _ _ _ H1). split; [done|].
    eapply Hadd; eauto. intros a. rewrite elem_of_cons. tauto.
  - destruct (list_append_run fl h L xs e) as (h' & H1 & H2 & H3); eauto.
    exists h'. rewrite (kbind_ok _ _ _ _ _ H1). split; [done|].
    eapply Hadd; eauto. intros a. rewrite elem_of_app, list_elem_of_singleton. tauto.
  - destruct (dl_remove fl h L xs e ys (Hdl _ _ HL)) as (h' & H1 & H2 & H3).
    exists h'. rewrite (kbind_ok _ _ _ _ _ H1). split; [done|]. by eapply Hrem.
  - destruct (dl_remove fl h L [] x xs (Hdl _ _ HL)) as (h' & H1 & H2 & H3).
    exists h'. unfold list_pop. rewrite (kbind_ok _ _ _ _ _ (dl_first fl _ _ _ _ (Hdl _ _ HL))).
    rewrite (kbind_ok _ _ _ _ _ H1). split; [done|]. by eapply (Hrem L [] xs).
Qed.

(** The searches of list.c agree with the sequence the list holds and change nothing:
    [elem_find] decides membership, [list_empty] emptiness, [list_len] returns the
    length, and [list_traversal] returns the first element its callback accepts, or
    [NULL]; each terminates within one step per element. *)
Theorem list_queries_spec fl h L xs func p arg fuel x :
  dl h L xs -> (length xs < fuel)%nat -> Z.of_nat (length xs) < 2 ^ 31 -> x <> tail_of L ->
  (forall a s, func a arg s = Ok (p a, s)) ->
  let s := LState fl h in
  elem_find fuel L x s = Ok (bool_decide (x ∈ xs), s) /\
  list_empty L s = Ok (bool_decide (xs = []), s) /\
  list_len fuel L s = Ok (Z.of_nat (length xs), s) /\
  list_traversal fuel L func arg s = Ok (hd 0 (List.filter p xs), s).
Proof.
  intros Hdl Hfuel Hlen Hx Hf s.
  assert (Hfst : get_next (head_of L) s = Ok (hd (tail_of L) xs, s)).
  { destruct xs; [by apply dl_first_nil|by eapply dl_first]. }
  assert (Hempty : list_empty L s = Ok (bool_decide (xs = []), s)).
  { unfold list_empty. rewrite (kbind_ok _ _ _ _ _ Hfst). unfold kret.
    pose proof (dl_tail_notin _ _ _ Hdl) as Ht. destruct xs as [|y ys]; simpl.
    - by rewrite Z.eqb_refl.
    - rewrite (proj2 (Z.eqb_neq _ _)); [done|]. intros ->. apply Ht. constructor. }
  pose proof (dl_walk _ _ _ Hdl) as Hw. split_and!; [| done | |].
  - unfold elem_find. rewrite (kbind_ok _ _ _ _ _ Hfst). by apply find_loop_spec.
  - unfold list_len. rewrite (kbind_ok _ _ _ _ _ Hfst). by apply len_loop_spec.
  - unfold list_traversal. rewrite (kbind_ok _ _ _ _ _ Hempty). destruct xs as [|y ys]; [done|].
    simpl bool_decide. cbn [negb]. rewrite bool_decide_eq_false_2 by done.
    rewrite (kbind_ok _ _ _ _ _ Hfst). by apply traversal_loop_spec.
Qed.

(** ** The queue operations as functions *)

#[export] Instance unlinked_dec qs e : Decision (unlinked qs e).
Proof. apply (map_Forall_dec (fun L xs => e ∉ nodes L xs)). Defined.

(** The queue that holds [e]. *)
Definition owner (qs : queues) (e : Z) : option (Z * list Z) :=
  List.find (fun p => bool_decide (e ∈ p.2)) (map_to_list qs).

Fixpoint remove_first (e : Z) (xs : list Z) : list Z :=
  match xs with
  | [] => []
  | x :: xs => if decide (x = e) then xs else x :: remove_first e xs
  end.

(** The effect of an operation on the queues, where it is one: what the clients of
    list.c run.  [None] stands for the uses that corrupt the lists. *)
Definition queue_op (qs : queues) (op : list_op) : option (queues * Z) :=
  match op with
  | OpInit L =>
      if decide (unlinked qs (head_of L) /\ unlinked qs (tail_of L))
      then Some (<[L := []]> qs, 0) else None
  | OpPush L e =>
      xs ← qs !! L; if decide (unlinked qs e) then Some (<[L := e :: xs]> qs, 0) else None
  | OpAppend L e =>
      xs ← qs !! L; if decide (unlinked qs e) then Some (<[L := xs ++ [e]]> qs, 0) else None
  | OpRemove e =>
      p ← owner qs e; Some (<[p.1 := remove_first e p.2]> qs, 0)
  | OpPop L =>
      match qs !! L with Some (x :: xs) => Some (<[L := xs]> qs, x) | _ => None end
  end.

Lemma owner_Some qs e L xs : owner qs e = Some (L, xs) -> qs !! L = Some xs /\ e ∈ xs.
Proof.
  intros [Hin Hb]%find_some. rewrite <- list_elem_of_In, elem_of_map_to_list in Hin.
  split; [done|]. by apply bool_decide_eq_true in Hb.
Qed.

Lemma remove_first_split e xs :
  e ∈ xs -> exists ys zs, xs = ys ++ e :: zs /\ remove_first e xs = ys ++ zs.
Proof.
  induction xs as [|x xs IH]; [by rewrite elem_of_nil|]. simpl. case_decide as Hx.
  - subst x. by exists [], xs.
  - rewrite elem_of_cons. intros [->|Hin]; [done|].
    destruct (IH Hin) as (ys & zs & -> & ->). by exists (x :: ys), zs.
Qed.

Lemma queue_op_sound qs op qs' r : queue_op qs op = Some (qs', r) -> spec_op qs op qs' r.
Proof.
  destruct op as [L|L e|L e|e|L]; simpl.
  - case_decide as Hu; [|done]. intros [= ]; subst. destruct Hu; by apply spec_init.
  - destruct (qs !! L) eqn:HL; [|done]. simpl. case_decide; [|done]. intros [= ]; subst.
    by apply spec_push.
  - destruct (qs !! L) eqn:HL; [|done]. simpl. case_decide; [|done]. intros [= ]; subst.
    by apply spec_append.
  - destruct (owner qs e) as [[L xs]|] eqn:HL; [|done]. simpl. intros [= ]; subst.
    apply owner_Some in HL as [HL Hin].
    destruct (remove_first_split _ _ Hin) as (ys & zs & -> & ->). by eapply spec_remove.
  - destruct (qs !! L) as [[|x xs]|] eqn:HL; try done. intros [= ]; subst. by apply spec_pop.
Qed.

(** ** Well-formed queues *)

(** What [represents] says without the heap: no node is in two places. *)
Record queues_ok (qs : queues) : Prop := {
  qok_nodup : forall L xs, qs !! L = Some xs -> NoDup (nodes L xs);
  qok_disjoint : forall L1 L2 xs ys a, qs !! L1 = Some xs -> qs !! L2 = Some ys ->
    a ∈ nodes L1 xs -> a ∈ nodes L2 ys -> L1 = L2
}.

Lemma elem_nodes L xs a : a ∈ xs -> a ∈ nodes L xs.
Proof. rewrite nodes_elem. tauto. Qed.

(** Replacing the contents of one queue. *)
Lemma queues_ok_update qs L xs xs' :
  queues_ok qs -> qs !! L = Some xs -> NoDup (nodes L xs') ->
  (forall a, a ∈ xs' -> a ∈ xs \/ unlinked qs a) -> queues_ok (<[L := xs']> qs).
Proof.
  intros [Hnd Hdis] HL Hnd' Hxs.
  assert (Hin : forall L2 ys a, qs !! L2 = Some ys -> L2 <> L -> a ∈ nodes L xs' -> a ∉ nodes L2 ys).
  { intros L2 ys a H2 Hne Ha Ha2. assert (a ∈ nodes L xs \/ unlinked qs a) as [Hl|Hu].
    { rewrite nodes_elem in Ha |- *. destruct Ha as [?|[Ha|?]]; [tauto| |tauto].
      apply Hxs in Ha. tauto. }
    - by apply Hne, (Hdis _ _ _ _ _ H2 HL Ha2).
    - by eapply Hu. }
  split.
  - intros L1 ys. destruct (decide (L1 = L)) as [->|HL1].
    + rewrite lookup_insert_eq. intros [= <-]. done.
    + rewrite lookup_insert_ne by done. apply Hnd.
  - intros L1 L2 ys1 ys2 a H1 H2 Ha1 Ha2.
    destruct (decide (L1 = L)) as [->|HL1], (decide (L2 = L)) as [->|HL2]; try done.
    + rewrite lookup_insert_eq in H1. injection H1 as <-. rewrite lookup_insert_ne in H2 by done.
      by destruct (Hin _ _ _ H2 HL2 Ha1).
    + rewrite lookup_insert_eq in H2. injection H2 as <-. rewrite lookup_insert_ne in H1 by done.
      by destruct (Hin _ _ _ H1 HL1 Ha2).
    + rewrite lookup_insert_ne in H1, H2 by done. by eapply Hdis.
Qed.

Lemma nodup_push L e xs : NoDup (nodes L xs) -> e ∉ nodes L xs -> NoDup (nodes L (e :: xs)).
Proof.
  unfold nodes. intros [Hh Hnd]%list.NoDup_cons. rewrite elem_of_cons. intros He.
  apply list.NoDup_cons. split; [|apply list.NoDup_cons; split; [tauto|done]].
  simpl. rewrite elem_of_cons. intros [?|?]; intuition congruence.
Qed.

Lemma nodup_append L e xs : NoDup (nodes L xs) -> e ∉ nodes L xs -> NoDup (nodes L (xs ++ [e])).
Proof.
  intros Hnd He. pose proof (nodup_push _ _ _ Hnd He) as H. revert H. unfold nodes.
  apply list.NoDup_Permutation_proper. apply perm_skip. simpl.
  rewrite <- app_assoc. simpl. symmetry. apply Permutation_middle.
Qed.

Lemma nodup_remove L e xs ys : NoDup (nodes L (xs ++ e :: ys)) ->
  NoDup (nodes L (xs ++ ys)) /\ e ∉ nodes L (xs ++ ys).
Proof.
  unfold nodes. intros H.
  assert (Hp : Permutation (head_of L :: (xs ++ e :: ys) ++ [tail_of L])
                           (e :: head_of L :: (xs ++ ys) ++ [tail_of L])).
  { rewrite <- !app_assoc. simpl. rewrite <- Permutation_middle. apply perm_swap. }
  rewrite Hp in H. by apply list.NoDup_cons in H as [He H].
Qed.

Lemma queues_ok_push qs L e xs :
  queues_ok qs -> qs !! L = Some xs -> unlinked qs e -> queues_ok (<[L := e :: xs]> qs).
Proof.
  intros Hok HL Hu. eapply queues_ok_update; [done|done| |].
  - apply nodup_push; [by eapply qok_nodup|by eapply Hu].
  - intros a. rewrite elem_of_cons. intros [->|?]; auto.
Qed.

Lemma queues_ok_append qs L e xs :
  queues_ok qs -> qs !! L = Some xs -> unlinked qs e -> queues_ok (<[L := xs ++ [e]]> qs).
Proof.
  intros Hok HL Hu. eapply queues_ok_update; [done|done| |].
  - apply nodup_append; [by eapply qok_nodup|by eapply Hu].
  - intros a. rewrite elem_of_app, list_elem_of_singleton. intros [?| ->]; auto.
Qed.

(** An element taken out of a queue is in no queue. *)
Lemma queues_ok_take qs L e xs ys :
  queues_ok qs -> qs !! L = Some (xs ++ e :: ys) ->
  queues_ok (<[L := xs ++ ys]> qs) /\ unlinked (<[L := xs ++ ys]> qs) e.
Proof.
  intros Hok HL. destruct (nodup_remove _ _ _ _ (qok_nodup _ Hok _ _ HL)) as [Hnd He]. split.
  - eapply queues_ok_update; [done|done|done|].
    intros a. rewrite !elem_of_app, elem_of_cons. tauto.
  - intros L2 zs. destruct (decide (L2 = L)) as [->|HL2].
    + rewrite lookup_insert_eq. by intros [= <-].
    + rewrite lookup_insert_ne by done. intros H2 Hin. apply HL2.
      apply (qok_disjoint _ Hok _ _ _ _ _ H2 HL Hin). rewrite nodes_elem, elem_of_app, elem_of_cons.
      tauto.
Qed.

Lemma unlinked_insert qs L xs xs' e :
  unlinked qs e -> qs !! L = Some xs -> (e ∈ xs' -> e ∈ xs) -> unlinked (<[L := xs']> qs) e.
Proof.
  intros Hu HL Hin L2 zs. destruct (decide (L2 = L)) as [->|HL2].
  - rewrite lookup_insert_eq. intros [= <-]. specialize (Hu _ _ HL).
    rewrite nodes_elem in Hu |- *. tauto.
  - rewrite lookup_insert_ne by done. apply Hu.
Qed.

Lemma linked_not_unlinked qs L xs e : qs !! L = Some xs -> e ∈ xs -> ~ unlinked qs e.
Proof. intros HL Hin Hu. by apply (Hu _ _ HL), elem_nodes. Qed.

Lemma queue_remove qs L xs e ys :
  queues_ok qs -> qs !! L = Some (xs ++ e :: ys) ->
  queue_op qs (OpRemove e) = Some (<[L := xs ++ ys]> qs, 0).
Proof.
  intros Hok HL. simpl.
  assert (Hin : e ∈ xs ++ e :: ys) by (rewrite elem_of_app, elem_of_cons; tauto).
  destruct (owner qs e) as [[L' zs]|] eqn:Ho.
  - apply owner_Some in Ho as [HL' Hin'].
    assert (L' = L) as -> by (eapply (qok_disjoint qs Hok); eauto using elem_nodes).
    rewrite HL in HL'. injection HL' as <-. simpl. do 3 f_equal.
    destruct (remove_first_split _ _ Hin) as (xs' & ys' & Heq & ->).
    pose proof (qok_nodup _ Hok _ _ HL) as Hnd. destruct (nodup_remove _ _ _ _ Hnd) as [_ Hn1].
    rewrite Heq in Hnd. destruct (nodup_remove _ _ _ _ Hnd) as [_ Hn2].
    rewrite nodes_elem, elem_of_app in Hn1, Hn2.
    clear -Heq Hn1 Hn2. revert xs' Heq Hn1 Hn2. induction xs as [|x xs IH]; intros [|x' xs'] Heq Hn1 Hn2.
    + by injection Heq.
    + injection Heq as <- ->. rewrite elem_of_cons in Hn2. tauto.
    + injection Heq as -> <-. rewrite elem_of_cons in Hn1. tauto.
    + injection Heq as <- Heq. simpl. f_equal. apply IH; [done|..];
        rewrite elem_of_cons in Hn1, Hn2; tauto.
  - exfalso. unfold owner in Ho. eapply find_none in Ho.
    2: { apply list_elem_of_In, elem_of_map_to_list. exact HL. }
    simpl in Ho. by rewrite bool_decide_eq_true_2 in Ho.
Qed.

(** A check of [queues_ok] by evaluation. *)
Lemma nodup_flat_map {A} (f : A -> list Z) (l : list A) :
  NoDup (flat_map f l) ->
  (forall x, x ∈ l -> NoDup (f x)) /\
  (forall x y a, x ∈ l -> y ∈ l -> a ∈ f x -> a ∈ f y -> x = y).
Proof.
  induction l as [|x l IH]; simpl.
  { intros _. split; [by intros x ?%elem_of_nil|by intros x y a ?%elem_of_nil]. }
  intros (Hx & Hd & Hl)%list.NoDup_app. destruct (IH Hl) as [H1 H2].
  assert (Hout : forall y a, y ∈ l -> a ∈ f x -> a ∈ f y -> False).
  { intros y a Hy Ha Hay. apply (Hd a Ha). rewrite list_elem_of_In, in_flat_map.
    exists y. by rewrite <- !list_elem_of_In. }
  split.
  - intros y. rewrite elem_of_cons. intros [->|?]; auto.
  - intros y z a. rewrite !elem_of_cons. naive_solver.
Qed.

Lemma queues_ok_check qs :
  NoDup (flat_map (fun p => nodes p.1 p.2) (map_to_list qs)) -> queues_ok qs.
Proof.
  intros [H1 H2]%nodup_flat_map. split.
  - intros L xs HL. by apply (H1 (L, xs)), elem_of_map_to_list.
  - intros L1 L2 xs ys a HL1 HL2 Ha1 Ha2.
    assert ((L1, xs) = (L2, ys)) as [= -> _]; [|done].
    by apply (H2 _ _ a); rewrite ?elem_of_map_to_list.
Qed.

(** A concrete heap: the list at 100 holds the element at 200, the element at 300 is free. *)
Definition sample_heap : gmap Z list_elem :=
  <[100 := ListElem 108 200]> (<[108 := ListElem 200 100]>
    (<[200 := ListElem 100 108]> (<[300 := ListElem 0 0]> ∅))).

Lemma sample_dl : dl sample_heap 100 [200].
Proof.
  split; [|by vm_compute].
  apply (bool_decide_unpack (base.NoDup (nodes 100 [200]))). by vm_compute.
Qed.

Lemma sample_represents : represents sample_heap {[100 := [200]]}.
Proof.
  split.
  - intros L xs [<- <-]%lookup_singleton_Some. apply sample_dl.
  - by intros L1 L2 xs ys a [<- _]%lookup_singleton_Some [<- _]%lookup_singleton_Some.
Qed.

Lemma list_ops_refine_witness :
  exists h', run_op (OpAppend 100 300) (LState EFLAGS_IF sample_heap) = Ok (0, LState EFLAGS_IF h') /\
    represents h' (<[100 := [200] ++ [300]]> {[100 := [200]]}).
Proof.
  apply (list_ops_refine EFLAGS_IF sample_heap {[100 := [200]]}).
  - apply sample_represents.
  - apply spec_append; [by vm_compute|].
    intros L xs [<- <-]%lookup_singleton_Some. rewrite nodes_elem, list_elem_of_singleton.
    vm_compute. by intros [?|[?|?]].
  - intros e He. apply list_elem_of_singleton in He as ->. by exists (ListElem 0 0).
Defined.

Lemma list_queries_spec_witness :
  let s := LState 0 sample_heap in
  elem_find 2 100 200 s = Ok (bool_decide (200 ∈ [200]), s) /\
  list_empty 100 s = Ok (bool_decide ([200] = @nil Z), s) /\
  list_len 2 100 s = Ok (1, s) /\
  list_traversal 2 100 (fun a arg => kret (a =? arg)) 200 s = Ok (200, s).
Proof.
  apply (list_queries_spec 0 sample_heap 100 [200] _ (fun a => a =? 200)).
  - apply sample_dl.
  - simpl; lia.
  - by vm_compute.
  - by vm_compute.
  - done.
Defined.
