(* ===== verification/Sched.v ===== *)
(** * Sched: the scheduler of thread/thread.c, with process_activate and the timer tick

    The state of the kernel's threads: the PCBs, the queues their tags are linked in
    (abstract sequences, which DList shows list.c to implement), the semaphores and
    locks, EFLAGS and the thread on the processor.  A thread is named by the address of
    its PCB page, which is what [running_thread] computes from [esp].  [switch_to] is a
    [suspend]: the rest of the calling thread runs when the thread is switched to again.
    The physical pages are behind the interface [KernelPages]. *)

From S2P Require Import Prelude Bitmap Interrupt DList.

(** ** Data *)

Inductive task_status : Type :=
  | TASK_RUNNING | TASK_READY | TASK_BLOCKED | TASK_WAITING | TASK_HANGING | TASK_DIED.

#[export] Instance task_status_eq_dec : EqDecision task_status.
Proof. solve_decision. Defined.

(** [struct virtual_addr]: the bitmap's storage is kernel memory, here its address. *)
Record virtual_addr : Type := VAddr { va_bits : Z; va_bytes_len : Z; va_start : Z }.

(** [struct task_struct] (the tags live in [k_queues], the block descriptors in Memory). *)
Record task : Type := Task {
  t_kstack : Z;
  t_pid : Z;
  t_status : task_status;
  t_name : list Z;
  t_priority : Z;
  t_ticks : Z;
  t_elapsed : Z;
  t_fd : list Z;
  t_pgdir : Z;
  t_vaddr : virtual_addr;
  t_cwd : Z;
  t_parent : Z;
  t_exit : Z;
  t_magic : Z
}.

Definition set_t_kstack (v : Z) (s : task) : task :=
  Task v (t_pid s) (t_status s) (t_name s) (t_priority s) (t_ticks s) (t_elapsed s) (t_fd s) (t_pgdir s) (t_vaddr s) (t_cwd s) (t_parent s) (t_exit s) (t_magic s).
Definition set_t_status (v : task_status) (s : task) : task :=
  Task (t_kstack s) (t_pid s) v (t_name s) (t_priority s) (t_ticks s) (t_elapsed s) (t_fd s) (t_pgdir s) (t_vaddr s) (t_cwd s) (t_parent s) (t_exit s) (t_magic s).
Definition set_t_ticks (v : Z) (s : task) : task :=
  Task (t_kstack s) (t_pid s) (t_status s) (t_name s) (t_priority s) v (t_elapsed s) (t_fd s) (t_pgdir s) (t_vaddr s) (t_cwd s) (t_parent s) (t_exit s) (t_magic s).
Definition set_t_elapsed (v : Z) (s : task) : task :=
  Task (t_kstack s) (t_pid s) (t_status s) (t_name s) (t_priority s) (t_ticks s) v (t_fd s) (t_pgdir s) (t_vaddr s) (t_cwd s) (t_parent s) (t_exit s) (t_magic s).
Definition set_t_fd (v : list Z) (s : task) : task :=
  Task (t_kstack s) (t_pid s) (t_status s) (t_name s) (t_priority s) (t_ticks s) (t_elapsed s) v (t_pgdir s) (t_vaddr s) (t_cwd s) (t_parent s) (t_exit s) (t_magic s).
Definition set_t_pgdir (v : Z) (s : task) : task :=
  Task (t_kstack s) (t_pid s) (t_status s) (t_name s) (t_priority s) (t_ticks s) (t_elapsed s) (t_fd s) v (t_vaddr s) (t_cwd s) (t_parent s) (t_exit s) (t_magic s).
Definition set_t_vaddr (v : virtual_addr) (s : task) : task :=
  Task (t_kstack s) (t_pid s) (t_status s) (t_name s) (t_priority s) (t_ticks s) (t_elapsed s) (t_fd s) (t_pgdir s) v (t_cwd s) (t_parent s) (t_exit s) (t_magic s).
Definition set_t_parent (v : Z) (s : task) : task :=
  Task (t_kstack s) (t_pid s) (t_status s) (t_name s) (t_priority s) (t_ticks s) (t_elapsed s) (t_fd s) (t_pgdir s) (t_vaddr s) (t_cwd s) v (t_exit s) (t_magic s).
Definition set_t_exit (v : Z) (s : task) : task :=
  Task (t_kstack s) (t_pid s) (t_status s) (t_name s) (t_priority s) (t_ticks s) (t_elapsed s) (t_fd s) (t_pgdir s) (t_vaddr s) (t_cwd s) (t_parent s) v (t_magic s).

Record lock : Type := Lock { holder : Z; holder_repeat_nr : Z }.

(** What the threads need of the page allocator and the page tables ([memory.c]). *)
Class KernelPages (P : Type) : Type := {
  get_kernel_pages : Z -> P -> outcome (Z * P);
  mfree_kernel_page : Z -> Z -> P -> outcome P;
  addr_v2p : Z -> P -> outcome Z
}.

(** The kernel's state as the threads share it. *)
Record kst (P : Type) : Type := KSt {
  k_eflags : Z;
  k_cur : Z;
  k_tasks : gmap Z task;
  k_queues : queues;
  k_semas : gmap Z Z;
  k_locks : gmap Z lock;
  k_stack : gmap Z Z;
  k_idle : Z;
  k_main : Z;
  k_pids : bitmap;
  k_pages : P;
  k_cr3 : Z;
  k_esp0 : Z;
  k_jiffies : Z
}.
Arguments KSt {P}.
Arguments k_eflags {P} _.
Arguments k_cur {P} _.
Arguments k_tasks {P} _.
Arguments k_queues {P} _.
Arguments k_semas {P} _.
Arguments k_locks {P} _.
Arguments k_stack {P} _.
Arguments k_idle {P} _.
Arguments k_main {P} _.
Arguments k_pids {P} _.
Arguments k_pages {P} _.
Arguments k_cr3 {P} _.
Arguments k_esp0 {P} _.
Arguments k_jiffies {P} _.

Definition set_k_eflags {P} (v : Z) (s : kst P) : kst P :=
  KSt v (k_cur s) (k_tasks s) (k_queues s) (k_semas s) (k_locks s) (k_stack s) (k_idle s) (k_main s) (k_pids s) (k_pages s) (k_cr3 s) (k_esp0 s) (k_jiffies s).
Definition set_k_cur {P} (v : Z) (s : kst P) : kst P :=
  KSt (k_eflags s) v (k_tasks s) (k_queues s) (k_semas s) (k_locks s) (k_stack s) (k_idle s) (k_main s) (k_pids s) (k_pages s) (k_cr3 s) (k_esp0 s) (k_jiffies s).
Definition set_k_tasks {P} (v : gmap Z task) (s : kst P) : kst P :=
  KSt (k_eflags s) (k_cur s) v (k_queues s) (k_semas s) (k_locks s) (k_stack s) (k_idle s) (k_main s) (k_pids s) (k_pages s) (k_cr3 s) (k_esp0 s) (k_jiffies s).
Definition set_k_queues {P} (v : queues) (s : kst P) : kst P :=
  KSt (k_eflags s) (k_cur s) (k_tasks s) v (k_semas s) (k_locks s) (k_stack s) (k_idle s) (k_main s) (k_pids s) (k_pages s) (k_cr3 s) (k_esp0 s) (k_jiffies s).
Definition set_k_semas {P} (v : gmap Z Z) (s : kst P) : kst P :=
  KSt (k_eflags s) (k_cur s) (k_tasks s) (k_queues s) v (k_locks s) (k_stack s) (k_idle s) (k_main s) (k_pids s) (k_pages s) (k_cr3 s) (k_esp0 s) (k_jiffies s).
Definition set_k_locks {P} (v : gmap Z lock) (s : kst P) : kst P :=
  KSt (k_eflags s) (k_cur s) (k_tasks s) (k_queues s) (k_semas s) v (k_stack s) (k_idle s) (k_main s) (k_pids s) (k_pages s) (k_cr3 s) (k_esp0 s) (k_jiffies s).
Definition set_k_stack {P} (v : gmap Z Z) (s : kst P) : kst P :=
  KSt (k_eflags s) (k_cur s) (k_tasks s) (k_queues s) (k_semas s) (k_locks s) v (k_idle s) (k_main s) (k_pids s) (k_pages s) (k_cr3 s) (k_esp0 s) (k_jiffies s).
Definition set_k_idle {P} (v : Z) (s : kst P) : kst P :=
  KSt (k_eflags s) (k_cur s) (k_tasks s) (k_queues s) (k_semas s) (k_locks s) (k_stack s) v (k_main s) (k_pids s) (k_pages s) (k_cr3 s) (k_esp0 s) (k_jiffies s).
Definition set_k_main {P} (v : Z) (s : kst P) : kst P :=
  KSt (k_eflags s) (k_cur s) (k_tasks s) (k_queues s) (k_semas s) (k_locks s) (k_stack s) (k_idle s) v (k_pids s) (k_pages s) (k_cr3 s) (k_esp0 s) (k_jiffies s).
Definition set_k_pids {P} (v : bitmap) (s : kst P) : kst P :=
  KSt (k_eflags s) (k_cur s) (k_tasks s) (k_queues s) (k_semas s) (k_locks s) (k_stack s) (k_idle s) (k_main s) v (k_pages s) (k_cr3 s) (k_esp0 s) (k_jiffies s).
Definition set_k_pages {P} (v : P) (s : kst P) : kst P :=
  KSt (k_eflags s) (k_cur s) (k_tasks s) (k_queues s) (k_semas s) (k_locks s) (k_stack s) (k_idle s) (k_main s) (k_pids s) v (k_cr3 s) (k_esp0 s) (k_jiffies s).
Definition set_k_cr3 {P} (v : Z) (s : kst P) : kst P :=
  KSt (k_eflags s) (k_cur s) (k_tasks s) (k_queues s) (k_semas s) (k_locks s) (k_stack s) (k_idle s) (k_main s) (k_pids s) (k_pages s) v (k_esp0 s) (k_jiffies s).
Definition set_k_esp0 {P} (v : Z) (s : kst P) : kst P :=
  KSt (k_eflags s) (k_cur s) (k_tasks s) (k_queues s) (k_semas s) (k_locks s) (k_stack s) (k_idle s) (k_main s) (k_pids s) (k_pages s) (k_cr3 s) v (k_jiffies s).
Definition set_k_jiffies {P} (v : Z) (s : kst P) : kst P :=
  KSt (k_eflags s) (k_cur s) (k_tasks s) (k_queues s) (k_semas s) (k_locks s) (k_stack s) (k_idle s) (k_main s) (k_pids s) (k_pages s) (k_cr3 s) (k_esp0 s) v.

#[export] Instance kst_eflags {P} : HasEflags (kst P).
Proof.
  refine {| eflags := k_eflags; set_eflags := set_k_eflags |}; try done.
  by intros [].
Defined.

Definition PG_SIZE : Z := 4096.
Definition STACK_MAGIC : Z := 0x19870916.
Definition MAX_FILES_OPEN_PER_PROC : Z := 8.

(** The offsets of [general_tag] and [all_list_tag] in [struct task_struct], and
    [elem2entry] on them. *)
Definition general_tag (t : Z) : Z := t + 68.
Definition all_list_tag (t : Z) : Z := t + 76.
Definition general_entry (tag : Z) : Z := tag - 68.
Definition all_list_entry (tag : Z) : Z := tag - 76.

(** The two global queues: addresses in the kernel's data, any two distinct ones. *)
Definition thread_ready_list : Z := 0xc0001000.
Definition thread_all_list : Z := 0xc0001010.

Section sched.
Context {P : Type} `{!KernelPages P}.

(** ** Access to the PCBs and the queues *)

Definition running_thread : KM (kst P) Z := kreads k_cur.

Definition get_task (t : Z) : KM (kst P) task := fun s =>
  match k_tasks s !! t with Some p => Ok (p, s) | None => Err OutOfBounds end.
Definition put_task (t : Z) (p : task) : KM (kst P) unit :=
  kmod (fun s => set_k_tasks (<[t := p]> (k_tasks s)) s).
Definition upd_task (t : Z) (f : task -> task) : KM (kst P) unit :=
  p <- get_task t ;; put_task t (f p).

(** The operations of list.c on the kernel's queues. *)
Definition run_queue (op : list_op) : KM (kst P) Z := fun s =>
  match queue_op (k_queues s) op with
  | Some (qs, r) => Ok (r, set_k_queues qs s)
  | None => Err ListCorrupt
  end.
Definition q_append (L e : Z) : KM (kst P) unit := run_queue (OpAppend L e) ;;; kret tt.
Definition q_push (L e : Z) : KM (kst P) unit := run_queue (OpPush L e) ;;; kret tt.
Definition q_remove (e : Z) : KM (kst P) unit := run_queue (OpRemove e) ;;; kret tt.
Definition q_pop (L : Z) : KM (kst P) Z := run_queue (OpPop L).
Definition q_list (L : Z) : KM (kst P) (list Z) := fun s =>
  match k_queues s !! L with Some xs => Ok (xs, s) | None => Err OutOfBounds end.
Definition q_find (L e : Z) : KM (kst P) bool :=
  xs <- q_list L ;; kret (bool_decide (e ∈ xs)).
Definition q_empty (L : Z) : KM (kst P) bool :=
  xs <- q_list L ;; kret (bool_decide (xs = [])).

(** Calls of the page allocator. *)
Definition kpages {A} (f : P -> outcome (A * P)) : KM (kst P) A := fun s =>
  match f (k_pages s) with Ok (a, p) => Ok (a, set_k_pages p s) | Err e => Err e end.

(** ** userprog/process.c: activating a thread *)

Definition update_tss_esp (t : Z) : KM (kst P) unit :=
  kmod (set_k_esp0 (u32 (t + PG_SIZE))).

Definition page_dir_activate (t : Z) : KM (kst P) unit :=
  p <- get_task t ;;
  pagedir_phy_addr <-
    (if t_pgdir p =? 0 then kret 0x100000
     else s <- kget ;; klift (addr_v2p (t_pgdir p) (k_pages s))) ;;
  kmod (set_k_cr3 pagedir_phy_addr).

Definition process_activate (t : Z) : KM (kst P) unit :=
  ASSERT (negb (t =? 0)) ;;;
  page_dir_activate t ;;;
  p <- get_task t ;;
  (if t_pgdir p =? 0 then kret tt else update_tss_esp t).

(** ** thread/thread.c: scheduling *)

Definition may_block (st : task_status) : bool :=
  bool_decide (st = TASK_BLOCKED) || bool_decide (st = TASK_WAITING)
  || bool_decide (st = TASK_HANGING).

Definition thread_unblock (pthread : Z) : KM (kst P) unit :=
  old_status <- intr_disable ;;
  p <- get_task pthread ;;
  ASSERT (may_block (t_status p)) ;;;
  (if decide (t_status p = TASK_READY) then kret tt
   else
     found <- q_find thread_ready_list (general_tag pthread) ;;
     ASSERT (negb found) ;;;
     (if (found : bool) then PANIC else kret tt) ;;;
     q_push thread_ready_list (general_tag pthread) ;;;
     upd_task pthread (set_t_status TASK_READY)) ;;;
  intr_set_status old_status ;;;
  kret tt.

(** [schedule] up to [switch_to]: a thread whose time is up goes to the end of the
    ready list, *)
Definition requeue (cur : Z) : KM (kst P) unit :=
  p <- get_task cur ;;
  if decide (t_status p = TASK_RUNNING) then
    found <- q_find thread_ready_list (general_tag cur) ;;
    ASSERT (negb found) ;;;
    q_append thread_ready_list (general_tag cur) ;;;
    upd_task cur (fun p => set_t_ticks (t_priority p) p) ;;;
    upd_task cur (set_t_status TASK_READY)
  else kret tt.

(** the idle thread is woken when nothing is ready, *)
Definition wake_idle : KM (kst P) unit :=
  empty <- q_empty thread_ready_list ;;
  idle_thread <- kreads k_idle ;;
  if (empty : bool) then thread_unblock idle_thread else kret tt.

(** and the first ready thread gets the processor. *)
Definition dispatch : KM (kst P) unit :=
  thread_tag <- q_pop thread_ready_list ;;
  let next := general_entry thread_tag in
  upd_task next (set_t_status TASK_RUNNING) ;;;
  process_activate next ;;;
  kmod (set_k_cur next).

Definition pick_next : KM (kst P) unit :=
  st <- intr_get_status ;;
  ASSERT (bool_decide (st = INTR_OFF)) ;;;
  cur <- running_thread ;;
  requeue cur ;;;
  wake_idle ;;;
  dispatch.

Definition schedule : CM (kst P) unit := atomic pick_next ;~; suspend.

Definition thread_block (stat : task_status) : CM (kst P) unit :=
  atomic (ASSERT (may_block stat)) ;~;
  old_status <~ atomic intr_disable ;;
  cur_thread <~ atomic running_thread ;;
  atomic (upd_task cur_thread (set_t_status stat)) ;~;
  schedule ;~;
  atomic (intr_set_status old_status) ;~;
  cret tt.

Definition thread_yield : CM (kst P) unit :=
  cur <~ atomic running_thread ;;
  old_status <~ atomic intr_disable ;;
  found <~ atomic (q_find thread_ready_list (general_tag cur)) ;;
  atomic (ASSERT (negb found)) ;~;
  atomic (q_append thread_ready_list (general_tag cur)) ;~;
  atomic (upd_task cur (set_t_status TASK_READY)) ;~;
  schedule ;~;
  atomic (intr_set_status old_status) ;~;
  cret tt.

(** One round of the loop of [idle]: it blocks, then enables interrupts and halts. *)
Definition idle_round : CM (kst P) unit :=
  thread_block TASK_BLOCKED ;~; atomic sti.

(** The timer interrupt ([device/timer.c]), entered with interrupts off. *)
Definition intr_timer_handler : CM (kst P) unit :=
  cur_thread <~ atomic running_thread ;;
  p <~ atomic (get_task cur_thread) ;;
  atomic (ASSERT (t_magic p =? STACK_MAGIC)) ;~;
  atomic (put_task cur_thread (set_t_elapsed (u32 (t_elapsed p + 1)) p)) ;~;
  atomic (kmod (fun s => set_k_jiffies (u32 (k_jiffies s + 1)) s)) ;~;
  (if t_ticks p =? 0 then schedule
   else atomic (upd_task cur_thread (fun p => set_t_ticks (u8 (t_ticks p - 1)) p))).

(** ** Runs of the operations *)

Definition status (s : kst P) (t : Z) : option task_status := t_status <$> k_tasks s !! t.

Lemma q_find_run s L xs e :
  k_queues s !! L = Some xs -> q_find L e s = Ok (bool_decide (e ∈ xs), s).
Proof. intros H. unfold q_find, q_list, kbind. by rewrite H. Qed.

Lemma q_empty_run s L xs :
  k_queues s !! L = Some xs -> q_empty L s = Ok (bool_decide (xs = []), s).
Proof. intros H. unfold q_empty, q_list, kbind. by rewrite H. Qed.

Lemma q_append_run s L xs e :
  k_queues s !! L = Some xs -> unlinked (k_queues s) e ->
  q_append L e s = Ok (tt, set_k_queues (<[L := xs ++ [e]]> (k_queues s)) s).
Proof.
  intros HL Hu. unfold q_append, run_queue, kbind; simpl. rewrite HL; simpl.
  by rewrite decide_True.
Qed.

Lemma q_push_run s L xs e :
  k_queues s !! L = Some xs -> unlinked (k_queues s) e ->
  q_push L e s = Ok (tt, set_k_queues (<[L := e :: xs]> (k_queues s)) s).
Proof.
  intros HL Hu. unfold q_push, run_queue, kbind; simpl. rewrite HL; simpl.
  by rewrite decide_True.
Qed.

Lemma q_pop_run s L x xs :
  k_queues s !! L = Some (x :: xs) ->
  q_pop L s = Ok (x, set_k_queues (<[L := xs]> (k_queues s)) s).
Proof. intros HL. unfold q_pop, run_queue; simpl. by rewrite HL. Qed.

Lemma get_task_run s t p : k_tasks s !! t = Some p -> get_task t s = Ok (p, s).
Proof. intros H. unfold get_task. by rewrite H. Qed.

Lemma upd_task_run s t p f :
  k_tasks s !! t = Some p ->
  upd_task t f s = Ok (tt, set_k_tasks (<[t := f p]> (k_tasks s)) s).
Proof. intros H. unfold upd_task. by rewrite (kbind_ok _ _ _ _ _ (get_task_run _ _ _ H)). Qed.

(** The state after [thread_unblock t] of a thread with PCB [p]. *)
Definition unblocked (t : Z) (p : task) (xs : list Z) (s : kst P) : kst P :=
  set_k_tasks (<[t := set_t_status TASK_READY p]> (k_tasks s))
    (set_k_queues (<[thread_ready_list := general_tag t :: xs]> (k_queues s)) s).

Lemma thread_unblock_run s t p xs :
  k_tasks s !! t = Some p -> may_block (t_status p) = true ->
  k_queues s !! thread_ready_list = Some xs -> unlinked (k_queues s) (general_tag t) ->
  thread_unblock t s = Ok (tt, unblocked t p xs s).
Proof.
  intros Hp Hb HL Hu.
  assert (Hni : general_tag t ∉ xs) by (intros Hin; by eapply linked_not_unlinked).
  assert (Hoff : forall s : kst P, k_tasks (intr_off s) = k_tasks s /\ k_queues (intr_off s) = k_queues s).
  { intros s0. unfold intr_off. by destruct (Z.testbit _ _). }
  destruct (Hoff s) as [Ht Hq]. unfold thread_unblock.
  rewrite (kbind_ok _ _ _ _ _ (intr_disable_run s)).
  erewrite kbind_ok by (apply get_task_run; rewrite Ht; exact Hp). rewrite Hb. simpl.
  unfold ASSERT at 1; simpl. rewrite kbind_ok with (a := tt) (s' := intr_off s) by done.
  rewrite decide_False by (intros E; by rewrite E in Hb).
  erewrite kbind_ok.
  2: { erewrite kbind_ok by (apply q_find_run; rewrite Hq; exact HL).
    rewrite bool_decide_eq_false_2 by done. simpl.
    rewrite kbind_ok with (a := tt) (s' := intr_off s) by done.
    rewrite kbind_ok with (a := tt) (s' := intr_off s) by done.
    erewrite kbind_ok by (apply q_push_run; rewrite Hq; done).
    apply upd_task_run; simpl. rewrite Ht. exact Hp. }
  simpl. destruct (intr_restore s (set_k_tasks (<[t := set_t_status TASK_READY p]> (k_tasks (intr_off s)))
    (set_k_queues (<[thread_ready_list := general_tag t :: xs]> (k_queues (intr_off s))) (intr_off s))))
    as [st Hst]; [done|].
  rewrite (kbind_ok _ _ _ _ _ Hst). unfold kret, unblocked. do 2 f_equal.
  unfold intr_off. by destruct s, (Z.testbit _ _).
Qed.

(** ** The scheduling invariant *)

(** [ts] are the threads of the ready list, in order. *)
Definition ready_is (s : kst P) (ts : list Z) : Prop :=
  k_queues s !! thread_ready_list = Some (general_tag <$> ts).

(** A PCB is a page, and its page directory can be translated while the thread lives. *)
Definition pcb_ok (s : kst P) (t : Z) (p : task) : Prop :=
  t <> 0 /\ t mod PG_SIZE = 0 /\
  (t_status p <> TASK_DIED ->
   t_pgdir p = 0 \/ exists pa, addr_v2p (t_pgdir p) (k_pages s) = Ok pa).

(** Only the status of a PCB changed, and the thread was alive. *)
Lemma pcb_ok_status s s' t p p' :
  pcb_ok s t p -> k_pages s' = k_pages s -> t_pgdir p' = t_pgdir p -> t_status p <> TASK_DIED ->
  pcb_ok s' t p'.
Proof.
  unfold pcb_ok. intros (? & ? & Hpg) Ep Eg Hd. rewrite Ep, Eg. split_and!; auto.
Qed.

(** What holds of the threads whenever the scheduler runs: the ready list holds exactly
    the threads whose status is READY, only the thread on the processor can be RUNNING
    and it is then in no queue, no node is in two queues, the idle thread never waits in
    a queue, and page directories can be translated. *)
Record core (s : kst P) : Prop := {
  core_cur : is_Some (k_tasks s !! k_cur s);
  core_ready : exists ts, ready_is s ts /\ forall t, t ∈ ts <-> status s t = Some TASK_READY;
  core_running : forall t, status s t = Some TASK_RUNNING ->
    t = k_cur s /\ unlinked (k_queues s) (general_tag t);
  core_queues : queues_ok (k_queues s);
  core_idle : exists st, status s (k_idle s) = Some st /\
    (st = TASK_RUNNING \/ st = TASK_READY \/
     st = TASK_BLOCKED /\ unlinked (k_queues s) (general_tag (k_idle s)));
  core_pages : forall t p, k_tasks s !! t = Some p -> pcb_ok s t p
}.

(** The invariant between two runs of the scheduler. *)
Definition sched_ok (s : kst P) : Prop := core s /\ status s (k_cur s) = Some TASK_RUNNING.

Lemma status_insert s t p t' :
  status (set_k_tasks (<[t := p]> (k_tasks s)) s) t' =
  if decide (t = t') then Some (t_status p) else status s t'.
Proof.
  unfold status; simpl. case_decide as H; [subst; by rewrite lookup_insert_eq|].
  by rewrite lookup_insert_ne.
Qed.

Lemma general_tag_inj t t' : general_tag t = general_tag t' -> t = t'.
Proof. unfold general_tag. lia. Qed.

Lemma tag_in_ready t (ts : list Z) : general_tag t ∈ general_tag <$> ts <-> t ∈ ts.
Proof.
  rewrite list_elem_of_fmap. split; [|by exists t].
  by intros (y & ->%general_tag_inj & Hy).
Qed.

(** A thread that is made ready, at either end of the ready list. *)
Lemma core_add_ready s t p' ts ts' :
  core s -> status s t <> Some TASK_READY ->
  unlinked (k_queues s) (general_tag t) ->
  t_status p' = TASK_READY -> pcb_ok s t p' -> ready_is s ts ->
  ts' = t :: ts \/ ts' = ts ++ [t] ->
  let s' := set_k_tasks (<[t := p']> (k_tasks s))
              (set_k_queues (<[thread_ready_list := general_tag <$> ts']> (k_queues s)) s) in
  core s' /\ ready_is s' ts' /\ (forall t', t' <> t -> status s' t' = status s t').
Proof.
  intros Hc Hnr Hu Hst' Hpg Hts Hts' s'.
  assert (Hin : forall x, x ∈ ts' <-> x = t \/ x ∈ ts).
  { intros x. destruct Hts' as [->| ->]; rewrite ?elem_of_app, ?elem_of_cons, ?elem_of_nil; tauto. }
  assert (Hstat : forall t', status s' t' = if decide (t = t') then Some TASK_READY else status s t').
  { intros t'. unfold status, s'; simpl. case_decide as H; [subst t'|].
    - rewrite lookup_insert_eq. simpl. by rewrite Hst'.
    - by rewrite lookup_insert_ne. }
  assert (Hunl : forall t', t' <> t -> unlinked (k_queues s) (general_tag t') ->
                            unlinked (k_queues s') (general_tag t')).
  { intros t' Hne Hu'. eapply unlinked_insert; [done|exact Hts|].
    rewrite !tag_in_ready, Hin. by intros [?|?]. }
  split; [|split; [apply lookup_insert_eq|]].
  2: { intros t' Hne. rewrite Hstat. by rewrite decide_False. }
  destruct Hc as [Hcur (ts0 & Hr0 & Hrd) Hrun Hq (st & Hidle & Hst) Hpages]. split.
  - simpl. destruct (decide (t = k_cur s)) as [->|Hne]; [by rewrite lookup_insert_eq|].
    by rewrite lookup_insert_ne.
  - exists ts'. split; [apply lookup_insert_eq|]. intros x. rewrite Hin, Hstat.
    unfold ready_is in *. rewrite Hts in Hr0. injection Hr0 as Hr0.
    apply (list_fmap_eq_inj general_tag) in Hr0 as ->; [|exact general_tag_inj].
    rewrite Hrd. case_decide; naive_solver.
  - intros x. rewrite Hstat. case_decide; [done|]. intros Hx.
    destruct (Hrun _ Hx) as [? Hux]. split; [done|]. by apply Hunl.
  - change (queues_ok (<[thread_ready_list := general_tag <$> ts']> (k_queues s))).
    destruct Hts' as [->| ->]; [|rewrite fmap_app]; [by apply queues_ok_push|].
    by apply queues_ok_append.
  - simpl. setoid_rewrite Hstat. case_decide as Hd; [eauto|].
    exists st. split; [done|]. destruct Hst as [?|[?|[? Hui]]]; [tauto..|].
    right; right. split; [done|]. apply Hunl; [congruence|done].
  - intros x q. simpl. destruct (decide (t = x)) as [->|Hne].
    + rewrite lookup_insert_eq. by intros [= <-].
    + rewrite lookup_insert_ne by done. apply Hpages.
Qed.

Lemma core_make_ready s t p p' ts ts' :
  core s -> k_tasks s !! t = Some p -> t_status p <> TASK_READY /\ t_status p <> TASK_DIED ->
  unlinked (k_queues s) (general_tag t) ->
  t_status p' = TASK_READY -> t_pgdir p' = t_pgdir p -> ready_is s ts ->
  ts' = t :: ts \/ ts' = ts ++ [t] ->
  let s' := set_k_tasks (<[t := p']> (k_tasks s))
              (set_k_queues (<[thread_ready_list := general_tag <$> ts']> (k_queues s)) s) in
  core s' /\ ready_is s' ts' /\ (forall t', t' <> t -> status s' t' = status s t').
Proof.
  intros Hc Hp [Hnr Hnd] Hu Hst' Hpg Hts Hts'. apply (core_add_ready s t p' ts); try done.
  - unfold status. rewrite Hp. simpl. congruence.
  - apply (pcb_ok_status s s t p); auto. by apply core_pages.
Qed.

Lemma general_entry_tag t : general_entry (general_tag t) = t.
Proof. unfold general_entry, general_tag. lia. Qed.

(** A PCB but for what the scheduler writes. *)
Definition unscheduled (p : task) : task := set_t_ticks 0 (set_t_status TASK_RUNNING p).

(** What the scheduler does not touch. *)
Record sched_frame (s s' : kst P) : Prop := {
  fr_eflags : k_eflags s' = k_eflags s;
  fr_idle : k_idle s' = k_idle s;
  fr_main : k_main s' = k_main s;
  fr_pages : k_pages s' = k_pages s;
  fr_semas : k_semas s' = k_semas s;
  fr_locks : k_locks s' = k_locks s;
  fr_pids : k_pids s' = k_pids s;
  fr_queues : forall L, L <> thread_ready_list -> k_queues s' !! L = k_queues s !! L;
  fr_tasks : forall t, is_Some (k_tasks s' !! t) <-> is_Some (k_tasks s !! t);
  fr_pcbs : forall t, unscheduled <$> k_tasks s' !! t = unscheduled <$> k_tasks s !! t
}.

#[export] Instance sched_frame_po : PreOrder sched_frame.
Proof.
  split; [by intros s|]. intros s1 s2 s3 [] []. split; try congruence.
  - intros L HL. by rewrite fr_queues1, fr_queues0.
  - intros t. by rewrite fr_tasks1, fr_tasks0.
Qed.

Lemma unscheduled_insert (ts : gmap Z task) t p q t' :
  ts !! t = Some q -> unscheduled p = unscheduled q ->
  unscheduled <$> <[t := p]> ts !! t' = unscheduled <$> ts !! t'.
Proof.
  intros Hq E. destruct (decide (t = t')) as [<-|Hne]; [|by rewrite lookup_insert_ne].
  rewrite lookup_insert_eq, Hq. cbn. by rewrite E.
Qed.

Lemma frame_task_queue s t p q xs :
  k_tasks s !! t = Some q -> unscheduled p = unscheduled q ->
  sched_frame s (set_k_tasks (<[t := p]> (k_tasks s))
    (set_k_queues (<[thread_ready_list := xs]> (k_queues s)) s)).
Proof.
  intros Ht Hpq. split; try done; simpl.
  - intros L HL. by rewrite lookup_insert_ne.
  - intros t'. rewrite lookup_insert_is_Some. destruct (decide (t = t')) as [<-|]; naive_solver.
  - intros t'. by eapply unscheduled_insert.
Qed.

(** No thread is marked RUNNING: the state inside [schedule]. *)
Definition none_running (s : kst P) : Prop := forall t, status s t <> Some TASK_RUNNING.

Lemma requeue_spec s ts :
  core s -> ready_is s ts ->
  exists s', requeue (k_cur s) s = Ok (tt, s') /\ core s' /\ none_running s' /\
    ready_is s' (if decide (status s (k_cur s) = Some TASK_RUNNING) then ts ++ [k_cur s] else ts) /\
    sched_frame s s' /\ k_cur s' = k_cur s /\
    (forall t, t <> k_cur s \/ status s t <> Some TASK_RUNNING -> status s' t = status s t).
Proof.
  intros Hc Hts. destruct (core_cur _ Hc) as [p Hp]. unfold requeue.
  rewrite (kbind_ok _ _ _ _ _ (get_task_run _ _ _ Hp)).
  assert (Hs : status s (k_cur s) = Some (t_status p)) by (unfold status; by rewrite Hp).
  destruct (decide (t_status p = TASK_RUNNING)) as [Hr|Hr].
  - rewrite Hr in Hs. destruct (core_running _ Hc _ Hs) as [_ Hu].
    rewrite (kbind_ok _ _ _ _ _ (q_find_run _ _ _ _ Hts)).
    rewrite bool_decide_eq_false_2 by (intros Hin; by eapply linked_not_unlinked).
    rewrite (kbind_ok _ _ _ tt s) by done.
    rewrite (kbind_ok _ _ _ _ _ (q_append_run _ _ _ _ Hts Hu)).
    erewrite kbind_ok by (apply upd_task_run; exact Hp).
    erewrite upd_task_run by (simpl; by rewrite lookup_insert_eq).
    simpl. rewrite insert_insert_eq.
    replace ((general_tag <$> ts) ++ [general_tag (k_cur s)])
      with (general_tag <$> (ts ++ [k_cur s])) by (by rewrite fmap_app).
    destruct (core_make_ready s (k_cur s) p
      (set_t_status TASK_READY (set_t_ticks (t_priority p) p)) ts (ts ++ [k_cur s]))
      as (Hc' & Hr' & Hst'); auto; [split; congruence|].
    eexists. split; [done|]. rewrite decide_True by done. split_and!; try done.
    + intros t Ht. destruct (decide (t = k_cur s)) as [->|Hne].
      * unfold status in Ht; simpl in Ht. by rewrite lookup_insert_eq in Ht.
      * rewrite Hst' in Ht by done. by destruct (core_running _ Hc _ Ht).
    + by eapply frame_task_queue.
    + intros t Ht. apply Hst'. intros ->. by destruct Ht.
  - exists s. rewrite decide_False by congruence. split_and!; try done.
    intros t Ht. destruct (core_running _ Hc _ Ht) as [-> _]. congruence.
Qed.

Lemma wake_idle_spec s ts :
  core s -> ready_is s ts -> none_running s ->
  exists s', wake_idle s = Ok (tt, s') /\ core s' /\ none_running s' /\
    ready_is s' (match ts with [] => [k_idle s] | _ => ts end) /\
    sched_frame s s' /\ k_cur s' = k_cur s /\
    (ts <> [] -> s' = s) /\ (forall t, t <> k_idle s -> status s' t = status s t).
Proof.
  intros Hc Hts Hnr. unfold wake_idle.
  rewrite (kbind_ok _ _ _ _ _ (q_empty_run _ _ _ Hts)).
  rewrite (kbind_ok _ _ _ (k_idle s) s) by done.
  destruct ts as [|t ts]; simpl.
  2: { exists s. by split_and!. }
  destruct (core_idle _ Hc) as (st & Hst & Hcase).
  assert (st = TASK_BLOCKED /\ unlinked (k_queues s) (general_tag (k_idle s))) as [-> Hu].
  { destruct Hcase as [->|[->|?]]; [by destruct (Hnr _ Hst)| |done].
    destruct (core_ready _ Hc) as (ts & Hts' & Hrd). unfold ready_is in *. rewrite Hts in Hts'.
    apply Hrd in Hst. destruct ts; [by apply elem_of_nil in Hst|done]. }
  unfold status in Hst. destruct (k_tasks s !! k_idle s) as [p|] eqn:Hp; [|done].
  injection Hst as Hst.
  erewrite thread_unblock_run; [|done|by rewrite Hst|exact Hts|done]. eexists. split; [done|].
  destruct (core_make_ready s (k_idle s) p (set_t_status TASK_READY p) [] [k_idle s])
    as (Hc' & Hr' & Hst'); auto; [split; congruence|].
  split_and!; try done.
  - intros t Ht. destruct (decide (t = k_idle s)) as [->|Hne].
    + unfold status, unblocked in Ht; simpl in Ht. by rewrite lookup_insert_eq in Ht.
    + eapply Hnr. unfold unblocked in Ht. simpl in Hst'. by rewrite <- Hst'.
  - by eapply frame_task_queue.
Qed.
(** Activating a thread whose page directory can be translated. *)
Lemma process_activate_run s t p :
  k_tasks s !! t = Some p -> t <> 0 ->
  (t_pgdir p = 0 \/ exists pa, addr_v2p (t_pgdir p) (k_pages s) = Ok pa) ->
  exists cr3 esp0, process_activate t s = Ok (tt, set_k_esp0 esp0 (set_k_cr3 cr3 s)) /\
    (t_pgdir p = 0 -> cr3 = 0x100000 /\ esp0 = k_esp0 s) /\
    (t_pgdir p <> 0 -> addr_v2p (t_pgdir p) (k_pages s) = Ok cr3 /\ esp0 = u32 (t + PG_SIZE)).
Proof.
  intros Hp Ht Hpg. unfold process_activate, page_dir_activate.
  rewrite (proj2 (Z.eqb_neq _ _) Ht). rewrite (kbind_ok _ _ _ tt s) by done.
  destruct (Z.eqb_spec (t_pgdir p) 0) as [Hz|Hz].
  - exists 0x100000, (k_esp0 s). split; [|done].
    rewrite (kbind_ok _ _ _ tt (set_k_cr3 0x100000 s)).
    2: { rewrite (kbind_ok _ _ _ _ _ (get_task_run _ _ _ Hp)). by rewrite Hz. }
    erewrite kbind_ok by (by apply get_task_run). rewrite Hz. by destruct s.
  - destruct Hpg as [?|[pa Hpa]]; [done|]. exists pa, (u32 (t + PG_SIZE)). split; [|done].
    rewrite (kbind_ok _ _ _ tt (set_k_cr3 pa s)).
    2: { rewrite (kbind_ok _ _ _ _ _ (get_task_run _ _ _ Hp)).
      rewrite (proj2 (Z.eqb_neq _ _) Hz). unfold kbind, kget, klift. by rewrite Hpa. }
    erewrite kbind_ok by (by apply get_task_run). by rewrite (proj2 (Z.eqb_neq _ _) Hz).
Qed.

(** Taking the first ready thread as the running one. *)
Lemma core_dispatch s t ts p cr3 esp0 :
  core s -> none_running s -> ready_is s (t :: ts) -> k_tasks s !! t = Some p ->
  let s' := set_k_cur t (set_k_esp0 esp0 (set_k_cr3 cr3
    (set_k_tasks (<[t := set_t_status TASK_RUNNING p]> (k_tasks s))
      (set_k_queues (<[thread_ready_list := general_tag <$> ts]> (k_queues s)) s)))) in
  sched_ok s' /\ ready_is s' ts /\ (forall t', t' <> t -> status s' t' = status s t').
Proof.
  intros Hc Hnr Hts Hp s'.
  destruct (queues_ok_take (k_queues s) thread_ready_list (general_tag t) [] (map general_tag ts)
    (core_queues _ Hc) Hts) as [Hq Hu]. simpl in Hq, Hu.
  assert (Hstat : forall t', status s' t' = if decide (t = t') then Some TASK_RUNNING else status s t').
  { intros t'. unfold status, s'; simpl. case_decide as H; [subst t'; by rewrite lookup_insert_eq|].
    by rewrite lookup_insert_ne. }
  assert (Hnt : t ∉ ts).
  { intros Hin. apply (linked_not_unlinked _ _ _ _ (lookup_insert_eq _ _ _)) in Hu; [done|].
    by apply tag_in_ready. }
  split; [|split; [apply lookup_insert_eq|]].
  2: { intros t' Hne. rewrite Hstat. by rewrite decide_False. }
  split; [|simpl; rewrite Hstat; by rewrite decide_True].
  destruct Hc as [Hcur (ts0 & Hr0 & Hrd) Hrun _ (st & Hidle & Hst) Hpages].
  unfold ready_is in *. rewrite Hts in Hr0. injection Hr0 as Hr0.
  apply (list_fmap_eq_inj general_tag general_tag_inj (t :: ts)) in Hr0 as <-.
  split; simpl.
  - by rewrite lookup_insert_eq.
  - exists ts. split; [apply lookup_insert_eq|]. intros x. rewrite Hstat. case_decide as Hx.
    + subst x. split; [by intros ?%Hnt|done].
    + rewrite <- Hrd, elem_of_cons. naive_solver.
  - intros x. rewrite Hstat. case_decide as Hx; [by subst x|]. by intros ?%Hnr.
  - done.
  - setoid_rewrite Hstat. case_decide as Hx; [eauto|]. exists st. split; [done|].
    destruct Hst as [?|[?|[? Hui]]]; [tauto..|]. right; right. split; [done|].
    eapply unlinked_insert; [done|exact Hts|]. rewrite !tag_in_ready, elem_of_cons. tauto.
  - intros x q. destruct (decide (t = x)) as [->|Hne].
    + rewrite lookup_insert_eq. intros [= <-]. apply (pcb_ok_status s _ x p); auto.
      assert (Hx : status s x = Some TASK_READY) by (apply Hrd; constructor).
      unfold status in Hx. rewrite Hp in Hx. simpl in Hx. congruence.
    + rewrite lookup_insert_ne by done. apply Hpages.
Qed.

Lemma dispatch_spec s t ts :
  core s -> none_running s -> ready_is s (t :: ts) ->
  exists s', dispatch s = Ok (tt, s') /\ sched_ok s' /\ k_cur s' = t /\ ready_is s' ts /\
    sched_frame s s' /\ (forall t', t' <> t -> status s' t' = status s t').
Proof.
  intros Hc Hnr Hts.
  assert (exists p, k_tasks s !! t = Some p) as [p Hp].
  { destruct (core_ready _ Hc) as (ts0 & Hr0 & Hrd). unfold ready_is in *. rewrite Hts in Hr0.
    injection Hr0 as Hr0. assert (Ht : t ∈ ts0) by (apply tag_in_ready; rewrite <- Hr0; constructor).
    apply Hrd in Ht. unfold status in Ht. destruct (k_tasks s !! t); naive_solver. }
  assert (Hst : status s t = Some TASK_READY).
  { destruct (core_ready _ Hc) as (ts0 & Hr0 & Hrd). apply Hrd. unfold ready_is in *.
    rewrite Hts in Hr0. injection Hr0 as Hr0. apply tag_in_ready. rewrite <- Hr0. constructor. }
  unfold status in Hst. rewrite Hp in Hst. injection Hst as Hst.
  destruct (core_pages _ Hc _ _ Hp) as (Ht0 & _ & Hpg). rewrite Hst in Hpg.
  specialize (Hpg ltac:(done)). unfold dispatch.
  erewrite kbind_ok by (by apply q_pop_run). rewrite general_entry_tag.
  erewrite kbind_ok by (by apply upd_task_run).
  set (s1 := set_k_tasks _ _). edestruct (process_activate_run s1 t) as (cr3 & esp0 & Hrun & _ & _).
  { unfold s1; simpl. by rewrite lookup_insert_eq. }
  { done. }
  { done. }
  rewrite (kbind_ok _ _ _ _ _ Hrun). unfold kmod. eexists. split; [done|].
  destruct (core_dispatch s t ts p cr3 esp0 Hc Hnr Hts Hp) as (H1 & H2 & H3).
  split_and!; try done.
  etrans; [by apply (frame_task_queue s t (set_t_status TASK_RUNNING p) p)|]. by split.
Qed.
(** The ready threads [schedule] chooses from, in order. *)
Definition candidates (s : kst P) (ts : list Z) : list Z :=
  let ts1 := if decide (status s (k_cur s) = Some TASK_RUNNING) then ts ++ [k_cur s] else ts in
  match ts1 with [] => [k_idle s] | _ => ts1 end.

Lemma pick_next_spec s ts :
  core s -> intr_of s = INTR_OFF -> ready_is s ts ->
  exists s' ts', pick_next s = Ok (tt, s') /\ sched_ok s' /\ ready_is s' ts' /\
    candidates s ts = k_cur s' :: ts' /\ sched_frame s s' /\
    (forall t, t <> k_cur s' -> t <> k_cur s \/ status s t <> Some TASK_RUNNING ->
       status s' t = status s t).
Proof.
  intros Hc Hoff Hts. unfold pick_next.
  rewrite (kbind_ok _ _ _ _ _ (intr_get_status_run s)), Hoff.
  rewrite bool_decide_eq_true_2 by done. rewrite (kbind_ok _ _ _ tt s) by done.
  rewrite (kbind_ok _ _ _ (k_cur s) s) by done.
  destruct (requeue_spec s ts Hc Hts) as (s1 & H1 & Hc1 & Hn1 & Hr1 & Hf1 & Hcur1 & Hst1).
  rewrite (kbind_ok _ _ _ _ _ H1).
  destruct (wake_idle_spec s1 _ Hc1 Hr1 Hn1) as (s2 & H2 & Hc2 & Hn2 & Hr2 & Hf2 & Hcur2 & Hs2 & Hst2).
  rewrite (kbind_ok _ _ _ _ _ H2).
  rewrite (fr_idle _ _ Hf1) in Hr2, Hst2.
  assert (Hwake : forall t, t <> k_idle s \/ candidates s ts <> [k_idle s] -> status s2 t = status s1 t).
  { intros t [Ht|Ht]; [by apply Hst2|]. rewrite Hs2; [done|]. intros E. apply Ht.
    unfold candidates. by rewrite E. }
  fold (candidates s ts) in Hr2.
  destruct (candidates s ts) as [|t ts'] eqn:Hcand.
  { unfold candidates in Hcand. by repeat case_match. }
  destruct (dispatch_spec s2 t ts' Hc2 Hn2 Hr2) as (s3 & H3 & Hok & Hcur3 & Hr3 & Hf3 & Hst3).
  exists s3, ts'. rewrite Hcur3. split_and!; try done.
  - by etrans; [|etrans].
  - intros x Hx1 Hx2. rewrite Hst3, Hwake, Hst1; try done.
    destruct (decide (x = k_idle s)) as [->|]; [right|by left]. congruence.
Qed.

(** The queue a thread joins when it gives up the processor. *)
Lemma core_block s st :
  sched_ok s -> may_block st = true -> (k_cur s = k_idle s -> st = TASK_BLOCKED) ->
  exists p, k_tasks s !! k_cur s = Some p /\
    core (set_k_tasks (<[k_cur s := set_t_status st p]> (k_tasks s)) s).
Proof.
  intros [[[p Hp] (ts & Hr & Hrd) Hrun Hq (sti & Hidle & Hst) Hpages] Hs] Hmb Hi.
  exists p. split; [done|]. destruct (Hrun _ Hs) as [_ Hu].
  assert (Hne : st <> TASK_READY /\ st <> TASK_RUNNING) by (by split; intros ->).
  destruct Hne as [Hne1 Hne2]. split; simpl.
  - by rewrite lookup_insert_eq.
  - exists ts. split; [done|]. intros t. rewrite status_insert. case_decide; [subst t|by rewrite Hrd].
    rewrite Hrd, Hs. naive_solver.
  - intros t. rewrite status_insert. case_decide; [naive_solver|]. apply Hrun.
  - done.
  - setoid_rewrite status_insert. case_decide as Hd; [|eauto]. exists st. split; [done|].
    right; right. rewrite <- Hd. auto.
  - intros t q. destruct (decide (k_cur s = t)) as [<-|Hn].
    + rewrite lookup_insert_eq. intros [= <-]. apply (pcb_ok_status s _ (k_cur s) p); auto.
      unfold status in Hs. rewrite Hp in Hs. simpl in Hs. congruence.
    + rewrite lookup_insert_ne by done. apply Hpages.
Qed.

Lemma intr_off_fields (s : kst P) : intr_off s = set_k_eflags (k_eflags (intr_off s)) s.
Proof. unfold intr_off. destruct (Z.testbit _ _), s; done. Qed.

Lemma intr_off_kbit (s : kst P) : Z.testbit (k_eflags (intr_off s)) 9 = false.
Proof. exact (intr_off_bit s). Qed.

Lemma core_eflags s v : core s -> core (set_k_eflags v s).
Proof. by intros []. Qed.
(** Changes the scheduler does not look at. *)
Lemma core_other s s' :
  core s -> k_cur s' = k_cur s -> k_idle s' = k_idle s -> k_tasks s' = k_tasks s ->
  k_queues s' = k_queues s ->
  (forall a pa, addr_v2p a (k_pages s) = Ok pa -> addr_v2p a (k_pages s') = Ok pa) -> core s'.
Proof.
  intros [Hcur Hr Hrun Hq Hidle Hpages] Ec Ei Et Eq Hv.
  split; unfold ready_is, status, pcb_ok in *; rewrite ?Ec, ?Ei, ?Et, ?Eq; try done.
  intros t p Hp. destruct (Hpages t p Hp) as (? & ? & Hpg). split_and!; try done.
  intros Hd. destruct (Hpg Hd) as [?|[pa ?]]; eauto.
Qed.

Lemma core_all_append s t xs :
  core s -> t mod PG_SIZE = 0 -> unlinked (k_queues s) (all_list_tag t) ->
  k_queues s !! thread_all_list = Some xs ->
  core (set_k_queues (<[thread_all_list := xs ++ [all_list_tag t]]> (k_queues s)) s).
Proof.
  intros [Hcur (ts & Hr & Hrd) Hrun Hq (sti & Hidle & Hst) Hpages] Ht Hu Hxs.
  assert (Hmod : forall x p, k_tasks s !! x = Some p -> unlinked (k_queues s) (general_tag x) ->
    unlinked (<[thread_all_list := xs ++ [all_list_tag t]]> (k_queues s)) (general_tag x)).
  { intros x p Hp Hux. destruct (Hpages _ _ Hp) as (_ & Hx & _).
    eapply unlinked_insert; [done|exact Hxs|]. rewrite elem_of_app, list_elem_of_singleton.
    intros [?|E]; [done|]. exfalso. unfold general_tag, all_list_tag, PG_SIZE in *.
    assert (x = t + 8) as -> by lia. apply Z.mod_divide in Ht as [k Hk]; [|lia].
    rewrite Hk, Z.add_comm, Z.mod_add in Hx by lia. done. }
  split; simpl; try done.
  - exists ts. split; [|done]. unfold ready_is in *; simpl. by rewrite lookup_insert_ne.
  - intros x Hx. destruct (Hrun x Hx) as [? Hux]. split; [done|].
    change (status s x = Some TASK_RUNNING) in Hx. unfold status in Hx.
    destruct (k_tasks s !! x) as [p|] eqn:Hp; [|done]. by eapply Hmod.
  - by apply queues_ok_append.
  - exists sti. split; [done|]. destruct Hst as [?|[?|[? Hui]]]; [tauto..|].
    right; right. split; [done|]. unfold status in Hidle.
    destruct (k_tasks s !! k_idle s) as [p|] eqn:Hp; [|done]. by eapply Hmod.
Qed.
End sched.

#[export] Hint Resolve core_eflags : kernel.

Section sched_properties.
Context {P : Type} `{!KernelPages P}.

(** C21: [schedule] is round robin and keeps the scheduler's invariant.  Called with
    interrupts off, no assertion in it can fail; a thread whose time is up goes to the
    end of the ready list, the idle thread is taken when nothing else is ready, and the
    first of the candidates gets the processor: it is the RUNNING thread, the others are
    the ready list, and nothing outside of the scheduler's data changes.  The caller is
    left suspended with nothing but its continuation to run. *)
Theorem schedule_round_robin (s : kst P) ts :
  core s -> intr_of s = INTR_OFF -> ready_is s ts ->
  exists s' ts', schedule s = Ok (Suspended (cret tt), s') /\ sched_ok s' /\
    candidates s ts = k_cur s' :: ts' /\ ready_is s' ts' /\ sched_frame s s'.
Proof.
  intros Hc Hoff Hts. destruct (pick_next_spec s ts Hc Hoff Hts) as (s' & ts' & H1 & H2 & H3 & H4 & H5 & _).
  exists s', ts'. split_and!; try done. unfold schedule. by rewrite (cbind_atomic _ _ _ _ _ H1).
Qed.

(** [n] time slices used up one after the other. *)
Fixpoint slices (n : nat) : KM (kst P) unit :=
  match n with O => kret tt | S n => pick_next ;;; slices n end.

(** C22: no starvation among preempted threads.  A thread that is [k]-th in the ready
    list has the processor after [k + 1] time slices, if nobody is unblocked in between. *)
Theorem round_robin_bound (s : kst P) ts k t :
  sched_ok s -> intr_of s = INTR_OFF -> ready_is s ts -> ts !! k = Some t ->
  exists s', slices (S k) s = Ok (tt, s') /\ sched_ok s' /\ k_cur s' = t.
Proof.
  revert s ts. induction k as [|k IH]; intros s ts [Hc Hrun] Hoff Hts Hk.
  - destruct (pick_next_spec s ts Hc Hoff Hts) as (s' & ts' & H1 & H2 & H3 & H4 & H5 & _).
    exists s'. simpl. rewrite (kbind_ok _ _ _ _ _ H1). split_and!; try done.
    unfold candidates in H4. rewrite decide_True in H4 by done.
    destruct ts; [done|]. simpl in *. congruence.
  - destruct (pick_next_spec s ts Hc Hoff Hts) as (s' & ts' & H1 & H2 & H3 & H4 & H5 & _).
    assert (Hoff' : intr_of s' = INTR_OFF).
    { unfold intr_of in *. simpl in *. by rewrite (fr_eflags _ _ H5). }
    destruct (IH s' ts' H2 Hoff' H3) as (s2 & Hs2 & Hok & Hcur).
    { unfold candidates in H4. rewrite decide_True in H4 by done.
      destruct ts as [|t0 ts]; [done|]. simpl in H4. injection H4 as _ <-. simpl in Hk.
      apply lookup_app_l_Some. exact Hk. }
    exists s2. split_and!; try done.
    change (slices (S (S k))) with (pick_next ;;; slices (S k)).
    by rewrite (kbind_ok _ _ _ _ _ H1).
Qed.
(** The rest of [thread_block] and [thread_yield] after [switch_to] returned. *)
Definition resume_with (old : intr_status) : CM (kst P) unit := fun s =>
  Ok (Return tt, match old with INTR_ON => intr_on s | INTR_OFF => intr_off s end).

Lemma resume_run (old : intr_status) (s : kst P) :
  cbind (cret tt) (fun _ => atomic (intr_set_status old) ;~; cret tt) s = resume_with old s.
Proof.
  unfold cbind, atomic, cret, resume_with; simpl.
  destruct old; simpl; by rewrite ?intr_disable_run, ?intr_enable_run.
Qed.

(** [thread_block] in terms of the state in which the caller has its new status. *)
Lemma thread_block_run (s : kst P) ts st p :
  k_tasks s !! k_cur s = Some p -> may_block st = true -> ready_is s ts ->
  core (set_k_tasks (<[k_cur s := set_t_status st p]> (k_tasks s)) s) ->
  exists s' k, thread_block st s = Ok (Suspended k, s') /\ sched_ok s' /\ intr_of s' = INTR_OFF /\
    k_cur s' = hd (k_idle s) ts /\ ready_is s' (tl ts) /\
    (k_cur s' <> k_cur s -> status s' (k_cur s) = Some st) /\
    sched_frame (set_k_eflags (k_eflags (intr_off s)) s) s' /\
    (forall t, t <> k_cur s -> t <> k_cur s' -> status s' t = status s t) /\
    forall s2, k s2 = resume_with (intr_of s) s2.
Proof.
  intros Hp Hmb Hts Hc.
  set (s1 := set_k_eflags (k_eflags (intr_off s)) (set_k_tasks (<[k_cur s := set_t_status st p]> (k_tasks s)) s)).
  assert (Hc1 : core s1) by (by apply core_eflags).
  assert (Hoff : intr_of s1 = INTR_OFF).
  { unfold intr_of, s1. simpl. by rewrite intr_off_kbit. }
  assert (Hs1 : status s1 (k_cur s) = Some st).
  { unfold status, s1; simpl. by rewrite lookup_insert_eq. }
  destruct (pick_next_spec s1 ts Hc1 Hoff Hts) as (s' & ts' & H1 & H2 & H3 & H4 & H5 & H6).
  assert (Hcand : candidates s1 ts = match ts with [] => [k_idle s] | _ => ts end).
  { unfold candidates. rewrite decide_False; [done|]. simpl. rewrite Hs1.
    intros [= ->]. done. }
  rewrite Hcand in H4. exists s'.
  set (rest := fun _ : unit => atomic (S := kst P) (intr_set_status (intr_of s)) ;~; cret tt).
  exists (cbind (cret tt) rest). split_and!; try done.
  - unfold thread_block. rewrite (cbind_atomic _ _ _ tt s) by (by rewrite Hmb).
    rewrite (cbind_atomic _ _ _ _ _ (intr_disable_run s)).
    rewrite (cbind_atomic _ _ _ (k_cur s) (intr_off s)) by (by rewrite intr_off_fields).
    rewrite (cbind_atomic _ _ _ tt s1).
    2: { rewrite intr_off_fields. rewrite (upd_task_run _ _ p) by exact Hp. reflexivity. }
    apply cbind_suspended. unfold schedule. by rewrite (cbind_atomic _ _ _ _ _ H1).
  - unfold intr_of. simpl. rewrite (fr_eflags _ _ H5). unfold s1; simpl. by rewrite intr_off_kbit.
  - destruct ts; simpl in *; congruence.
  - by destruct ts; simplify_eq/=.
  - intros Hne. rewrite H6; [done|done|]. right. rewrite Hs1. by intros [= ->].
  - etrans; [|exact H5]. split; try done; simpl; intros t.
    + rewrite lookup_insert_is_Some. destruct (decide (k_cur s = t)) as [<-|]; naive_solver.
    + by eapply unscheduled_insert.
  - intros t Ht1 Ht2. rewrite H6 by (try done; by left). unfold status, s1; simpl.
    by rewrite lookup_insert_ne.
  - intros s2. apply resume_run.
Qed.

(** [thread_block] gives the processor away.  The calling thread gets the status it
    asked for and leaves the ready list alone; the first ready thread runs, or the idle
    thread when there is none; the scheduler's invariant is kept with interrupts off.
    When the caller is switched to again it restores the interrupt status it came with. *)
Theorem thread_block_spec (s : kst P) ts st :
  sched_ok s -> ready_is s ts -> may_block st = true -> (k_cur s = k_idle s -> st = TASK_BLOCKED) ->
  exists s' k, thread_block st s = Ok (Suspended k, s') /\ sched_ok s' /\ intr_of s' = INTR_OFF /\
    k_cur s' = hd (k_idle s) ts /\ ready_is s' (tl ts) /\
    (k_cur s' <> k_cur s -> status s' (k_cur s) = Some st) /\
    forall s2, k s2 = resume_with (intr_of s) s2.
Proof.
  intros Hok Hts Hmb Hid. destruct (core_block s st Hok Hmb Hid) as (p & Hp & Hc).
  destruct (thread_block_run s ts st p Hp Hmb Hts Hc) as (s' & k & H1 & H2 & H3 & H4 & H5 & H6 & _ & _ & H7).
  by exists s', k.
Qed.
(** [thread_unblock] makes a blocked thread the first of the ready list and changes
    nothing else: the caller keeps the processor and its interrupt status, and the
    scheduler's invariant holds after it. *)
Theorem thread_unblock_spec (s : kst P) ts t p :
  sched_ok s -> ready_is s ts -> k_tasks s !! t = Some p -> may_block (t_status p) = true ->
  unlinked (k_queues s) (general_tag t) ->
  exists s', thread_unblock t s = Ok (tt, s') /\ sched_ok s' /\ ready_is s' (t :: ts) /\
    k_cur s' = k_cur s /\ sched_frame s s' /\ status s' t = Some TASK_READY /\
    (forall t', t' <> t -> status s' t' = status s t').
Proof.
  intros [Hc Hs] Hts Hp Hmb Hu. eexists. split; [by apply thread_unblock_run|].
  destruct (core_make_ready s t p (set_t_status TASK_READY p) ts (t :: ts)) as (H1 & H2 & H3); auto.
  { split; by intros E; rewrite E in Hmb. }
  assert (Hne : k_cur s <> t).
  { intros <-. unfold status in Hs. rewrite Hp in Hs. injection Hs as Hs. by rewrite Hs in Hmb. }
  split_and!; try done.
  - split; [done|]. rewrite <- Hs. by apply H3.
  - by eapply frame_task_queue.
  - unfold status, unblocked; simpl. by rewrite lookup_insert_eq.
Qed.

(** the timer interrupt.  While its time slice lasts the running thread keeps the
    processor, one tick is taken from the slice and the tick counters advance (modulo
    2^32); when the slice is used up the scheduler runs and the interrupted thread is
    suspended; a PCB whose magic number was overwritten by its stack stops the kernel. *)
Theorem timer_tick_spec (s : kst P) ts p :
  sched_ok s -> intr_of s = INTR_OFF -> ready_is s ts -> k_tasks s !! k_cur s = Some p ->
  0 <= t_ticks p < 256 ->
  (t_magic p <> STACK_MAGIC -> intr_timer_handler s = Err AssertFail) /\
  (t_magic p = STACK_MAGIC -> 0 < t_ticks p ->
     exists s', intr_timer_handler s = Ok (Return tt, s') /\ sched_ok s' /\ ready_is s' ts /\
       k_cur s' = k_cur s /\ k_jiffies s' = u32 (k_jiffies s + 1) /\
       k_tasks s' !! k_cur s = Some (set_t_ticks (t_ticks p - 1) (set_t_elapsed (u32 (t_elapsed p + 1)) p))) /\
  (t_magic p = STACK_MAGIC -> t_ticks p = 0 ->
     exists s' ts', intr_timer_handler s = Ok (Suspended (cret tt), s') /\ sched_ok s' /\
       ts ++ [k_cur s] = k_cur s' :: ts' /\ ready_is s' ts').
Proof.
  intros [Hc Hs] Hoff Hts Hp Ht.
  assert (Hcore : forall q v, t_status q = t_status p -> t_pgdir q = t_pgdir p ->
    let s1 := set_k_jiffies v (set_k_tasks (<[k_cur s := q]> (k_tasks s)) s) in
    core s1 /\ status s1 (k_cur s) = Some TASK_RUNNING).
  { intros q v Hq Hpg s1.
    assert (Hst : forall t, status s1 t = status s t).
    { intros t. unfold status, s1; simpl. destruct (decide (k_cur s = t)) as [<-|].
      - rewrite lookup_insert_eq, Hp. simpl. by rewrite Hq.
      - by rewrite lookup_insert_ne. }
    split; [|by rewrite Hst].
    destruct Hc as [Hcur (ts0 & Hr & Hrd) Hrun Hqs (sti & Hidle & Hsti) Hpages]. split; simpl.
    - by rewrite lookup_insert_eq.
    - exists ts0. split; [done|]. intros t. by rewrite Hst, Hrd.
    - intros t. rewrite Hst. apply Hrun.
    - done.
    - exists sti. by rewrite Hst.
    - intros t q' Hq'. destruct (decide (k_cur s = t)) as [<-|].
      + rewrite lookup_insert_eq in Hq'. injection Hq' as <-. apply (pcb_ok_status s _ (k_cur s) p); auto.
        unfold status in Hs. rewrite Hp in Hs. simpl in Hs. congruence.
      + rewrite lookup_insert_ne in Hq' by done. by apply Hpages. }
  set (q := set_t_elapsed (u32 (t_elapsed p + 1)) p).
  set (s1 := set_k_jiffies (u32 (k_jiffies s + 1)) (set_k_tasks (<[k_cur s := q]> (k_tasks s)) s)).
  assert (Hrun : t_magic p = STACK_MAGIC -> intr_timer_handler s =
    (if t_ticks p =? 0 then schedule
     else atomic (upd_task (k_cur s) (fun p => set_t_ticks (u8 (t_ticks p - 1)) p))) s1).
  { intros Hm. unfold intr_timer_handler. rewrite (cbind_atomic _ _ _ (k_cur s) s) by done.
    rewrite (cbind_atomic _ _ _ _ _ (get_task_run _ _ _ Hp)). rewrite Hm, Z.eqb_refl.
    rewrite (cbind_atomic _ _ _ tt s) by done.
    rewrite (cbind_atomic _ _ _ tt (set_k_tasks (<[k_cur s := q]> (k_tasks s)) s)) by done.
    by rewrite (cbind_atomic _ _ _ tt s1). }
  split_and!; intros Hm.
  - unfold intr_timer_handler. rewrite (cbind_atomic _ _ _ (k_cur s) s) by done.
    rewrite (cbind_atomic _ _ _ _ _ (get_task_run _ _ _ Hp)).
    by rewrite (proj2 (Z.eqb_neq _ _) Hm).
  - intros Htk. rewrite Hrun by done.
    rewrite (proj2 (Z.eqb_neq _ _)) by lia. unfold atomic. erewrite upd_task_run.
    2: { simpl. by rewrite lookup_insert_eq. }
    eexists. split; [done|]. simpl. rewrite insert_insert_eq, lookup_insert_eq.
    rewrite u8_small by lia. split_and!; try done.
    eapply (Hcore _ (u32 (k_jiffies s + 1))); done.
  - intros Htk. rewrite Hrun by done. rewrite Htk.
    destruct (Hcore q (u32 (k_jiffies s + 1))) as [Hc1 Hs1]; [done..|]. fold s1 in Hc1, Hs1.
    destruct (pick_next_spec s1 ts Hc1 Hoff Hts) as (s' & ts' & H1 & H2 & H3 & H4 & _).
    exists s', ts'. unfold schedule. rewrite Z.eqb_refl.
    rewrite (cbind_atomic _ _ _ _ _ H1). split_and!; try done.
    unfold candidates in H4. rewrite decide_True in H4 by done. change (k_cur s1) with (k_cur s) in H4.
    by destruct ts.
Qed.
End sched_properties.

(** ** A concrete kernel: main runs, another thread is ready, idle is blocked, a child
    of main hangs *)

#[export] Instance no_pages : KernelPages unit := {|
  get_kernel_pages := fun _ p => Ok (0xc0100000, p);
  mfree_kernel_page := fun _ _ p => Ok p;
  addr_v2p := fun a _ => Ok a
|}.

Definition sample_task (st : task_status) (ticks : Z) : task :=
  Task 0 1 st (replicate 16 0) 10 ticks 0 [0; 1; 2; -1; -1; -1; -1; -1] 0 (VAddr 0 0 0) 0 (-1) 0
    STACK_MAGIC.

(** A child of main that has exited with status 7. *)
Definition sample_child : task :=
  Task 0 2 TASK_HANGING (replicate 16 0) 10 10 0 [0; 1; 2; -1; -1; -1; -1; -1] 0 (VAddr 0 0 0) 0 1 7
    STACK_MAGIC.

Definition sample_kernel (ticks : Z) : kst unit :=
  KSt 0 0x1000
    {[0x1000 := sample_task TASK_RUNNING ticks; 0x2000 := sample_task TASK_READY 3;
      0x3000 := sample_task TASK_BLOCKED 10; 0x4000 := sample_child]}
    {[thread_ready_list := [general_tag 0x2000];
      thread_all_list := all_list_tag <$> [0x1000; 0x2000; 0x3000; 0x4000]]}
    ∅ ∅ ∅ 0x3000 0x1000 (Bitmap 0 []) tt 0x100000 0 0.

Lemma sample_tasks ticks t p :
  k_tasks (sample_kernel ticks) !! t = Some p ->
  (t = 0x1000 /\ p = sample_task TASK_RUNNING ticks) \/ (t = 0x2000 /\ p = sample_task TASK_READY 3) \/
  (t = 0x3000 /\ p = sample_task TASK_BLOCKED 10) \/ (t = 0x4000 /\ p = sample_child).
Proof.
  simpl. rewrite !lookup_insert_Some, lookup_singleton_Some. intros H.
  repeat match type of H with _ \/ _ => destruct H as [H|[_ H]] end; naive_solver.
Qed.

Lemma sample_unlinked t :
  bool_decide (t ∈ [0x1000; 0x3000; 0x4000]) = true ->
  unlinked (k_queues (sample_kernel 0)) (general_tag t).
Proof.
  intros Ht%bool_decide_eq_true. rewrite !elem_of_cons, elem_of_nil in Ht.
  apply (bool_decide_unpack _). destruct Ht as [->|[->|[->|[]]]]; by vm_compute.
Qed.

Lemma sample_ready ticks : ready_is (sample_kernel ticks) [0x2000].
Proof. by vm_compute. Qed.

Lemma sample_ok ticks : sched_ok (sample_kernel ticks).
Proof.
  assert (Hst : forall t st, status (sample_kernel ticks) t = Some st ->
    (t = 0x1000 /\ st = TASK_RUNNING) \/ (t = 0x2000 /\ st = TASK_READY) \/
    (t = 0x3000 /\ st = TASK_BLOCKED) \/ (t = 0x4000 /\ st = TASK_HANGING)).
  { intros t st. unfold status. destruct (k_tasks _ !! t) as [p|] eqn:Hp; [|done].
    intros [= <-]. apply sample_tasks in Hp as [[-> ->]|[[-> ->]|[[-> ->]|[-> ->]]]]; naive_solver. }
  split; [|by vm_compute]. split.
  - by eexists.
  - exists [0x2000]. split; [apply sample_ready|]. intros t. rewrite list_elem_of_singleton. split.
    + by intros ->.
    + intros Ht%Hst. naive_solver.
  - intros t Ht%Hst. assert (t = 0x1000) as -> by naive_solver. split; [done|].
    by apply (sample_unlinked 0x1000).
  - apply queues_ok_check. apply (bool_decide_unpack _). by vm_compute.
  - exists TASK_BLOCKED. split; [by vm_compute|]. right; right. split; [done|].
    by apply (sample_unlinked 0x3000).
  - intros t p Hp%sample_tasks. unfold pcb_ok. destruct Hp as [[-> ->]|[[-> ->]|[[-> ->]|[-> ->]]]]; by split_and!; [| |left].
Qed.

Lemma schedule_round_robin_witness :
  exists s' ts', schedule (sample_kernel 0) = Ok (Suspended (cret tt), s') /\ sched_ok s' /\
    candidates (sample_kernel 0) [0x2000] = k_cur s' :: ts' /\ ready_is s' ts' /\
    sched_frame (sample_kernel 0) s'.
Proof.
  apply schedule_round_robin; [apply (sample_ok 0)|by vm_compute|apply sample_ready].
Defined.

Lemma round_robin_bound_witness :
  exists s', slices 1 (sample_kernel 0) = Ok (tt, s') /\ sched_ok s' /\ k_cur s' = 0x2000.
Proof.
  apply (round_robin_bound _ [0x2000] 0 0x2000);
    [apply sample_ok|by vm_compute|apply sample_ready|done].
Defined.

Lemma thread_block_spec_witness :
  exists s' k, thread_block TASK_BLOCKED (sample_kernel 0) = Ok (Suspended k, s') /\ sched_ok s' /\
    intr_of s' = INTR_OFF /\ k_cur s' = 0x2000 /\ ready_is s' [] /\
    (k_cur s' <> 0x1000 -> status s' 0x1000 = Some TASK_BLOCKED) /\
    forall s2, k s2 = resume_with INTR_OFF s2.
Proof.
  apply (thread_block_spec (sample_kernel 0) [0x2000] TASK_BLOCKED);
    [apply sample_ok|apply sample_ready|done|done].
Defined.

Lemma thread_unblock_spec_witness :
  exists s', thread_unblock 0x4000 (sample_kernel 0) = Ok (tt, s') /\ sched_ok s' /\
    ready_is s' [0x4000; 0x2000] /\ k_cur s' = 0x1000 /\ sched_frame (sample_kernel 0) s' /\
    status s' 0x4000 = Some TASK_READY /\
    (forall t', t' <> 0x4000 -> status s' t' = status (sample_kernel 0) t').
Proof.
  apply (thread_unblock_spec (sample_kernel 0) [0x2000] 0x4000 sample_child);
    [apply sample_ok|apply sample_ready|by vm_compute|done|by apply sample_unlinked].
Defined.

Lemma timer_tick_spec_witness :
  exists s' ts', intr_timer_handler (sample_kernel 0) = Ok (Suspended (cret tt), s') /\
    sched_ok s' /\ [0x2000] ++ [0x1000] = k_cur s' :: ts' /\ ready_is s' ts'.
Proof.
  apply (timer_tick_spec (sample_kernel 0) [0x2000] (sample_task TASK_RUNNING 0));
    [apply sample_ok|by vm_compute|apply sample_ready|by vm_compute|simpl; lia|done|done].
Defined.
