(* ===== verification/Sync.v ===== *)
(** * Sync: thread/sync.c

    Binary semaphores and the re-entrant locks built on them, on the state of Sched.
    A semaphore is named by its address, its [waiters] list is at [p + 4]; a lock is
    named by its address, its semaphore is at [L + 4].  The loop of [sema_down] takes
    as fuel the number of times the thread may find the semaphore taken. *)

From S2P Require Import Prelude Bitmap Interrupt DList Sched.

Definition sema_waiters (psema : Z) : Z := psema + 4.
Definition lock_semaphore (plock : Z) : Z := plock + 4.

Section sync.
Context {P : Type} `{!KernelPages P}.

Definition get_value (psema : Z) : KM (kst P) Z := fun s =>
  match k_semas s !! psema with Some v => Ok (v, s) | None => Err OutOfBounds end.
Definition set_value (psema v : Z) : KM (kst P) unit :=
  kmod (fun s => set_k_semas (<[psema := v]> (k_semas s)) s).
Definition get_lock (plock : Z) : KM (kst P) lock := fun s =>
  match k_locks s !! plock with Some l => Ok (l, s) | None => Err OutOfBounds end.
Definition put_lock (plock : Z) (l : lock) : KM (kst P) unit :=
  kmod (fun s => set_k_locks (<[plock := l]> (k_locks s)) s).

Definition sema_init (psema value : Z) : KM (kst P) unit :=
  set_value psema (u8 value) ;;;
  run_queue (OpInit (sema_waiters psema)) ;;;
  kret tt.

Definition lock_init (plock : Z) : KM (kst P) unit :=
  put_lock plock (Lock 0 0) ;;;
  sema_init (lock_semaphore plock) 1.

Fixpoint down_loop (fuel : nat) (psema : Z) : CM (kst P) unit :=
  match fuel with
  | O => atomic (kfail Diverges)
  | S fuel =>
      value <~ atomic (get_value psema) ;;
      if value =? 0 then
        cur <~ atomic running_thread ;;
        waiting <~ atomic (q_find (sema_waiters psema) (general_tag cur)) ;;
        atomic (ASSERT (negb waiting)) ;~;
        (if (waiting : bool) then atomic PANIC else cret tt) ;~;
        atomic (q_append (sema_waiters psema) (general_tag cur)) ;~;
        thread_block TASK_BLOCKED ;~;
        down_loop fuel psema
      else cret tt
  end.

(** The end of [sema_down], once the semaphore was found free. *)
Definition take_semaphore (psema : Z) (old_status : intr_status) : CM (kst P) unit :=
  atomic (v <- get_value psema ;; set_value psema (u8 (v - 1))) ;~;
  atomic (v <- get_value psema ;; ASSERT (v =? 0)) ;~;
  atomic (intr_set_status old_status) ;~;
  cret tt.

Definition sema_down (fuel : nat) (psema : Z) : CM (kst P) unit :=
  old_status <~ atomic intr_disable ;;
  down_loop fuel psema ;~;
  take_semaphore psema old_status.

Definition sema_up (psema : Z) : KM (kst P) unit :=
  old_status <- intr_disable ;;
  v <- get_value psema ;;
  ASSERT (v =? 0) ;;;
  empty <- q_empty (sema_waiters psema) ;;
  (if negb empty then
     tag <- q_pop (sema_waiters psema) ;;
     let thread_blocked := general_entry tag in
     thread_unblock thread_blocked
   else kret tt) ;;;
  v1 <- get_value psema ;;
  set_value psema (u8 (v1 + 1)) ;;;
  v2 <- get_value psema ;;
  ASSERT (v2 =? 1) ;;;
  intr_set_status old_status ;;;
  kret tt.

Definition lock_acquire (fuel : nat) (plock : Z) : CM (kst P) unit :=
  l <~ atomic (get_lock plock) ;;
  cur <~ atomic running_thread ;;
  if negb (holder l =? cur) then
    sema_down fuel (lock_semaphore plock) ;~;
    cur <~ atomic running_thread ;;
    l <~ atomic (get_lock plock) ;;
    atomic (put_lock plock (Lock cur (holder_repeat_nr l))) ;~;
    atomic (ASSERT (holder_repeat_nr l =? 0)) ;~;
    atomic (put_lock plock (Lock cur 1))
  else
    atomic (put_lock plock (Lock (holder l) (u32 (holder_repeat_nr l + 1)))).

Definition lock_release (plock : Z) : KM (kst P) unit :=
  l <- get_lock plock ;;
  cur <- running_thread ;;
  ASSERT (holder l =? cur) ;;;
  if 1 <? holder_repeat_nr l then
    put_lock plock (Lock (holder l) (u32 (holder_repeat_nr l - 1)))
  else
    ASSERT (holder_repeat_nr l =? 1) ;;;
    put_lock plock (Lock 0 0) ;;;
    sema_up (lock_semaphore plock).

(** ** Semaphores *)

Lemma take_semaphore_run s psema old :
  k_semas s !! psema = Some 1 ->
  take_semaphore psema old s = resume_with old (set_k_semas (<[psema := 0]> (k_semas s)) s).
Proof.
  intros Hv. unfold take_semaphore. set (s1 := set_k_semas _ s).
  rewrite (cbind_atomic _ _ s tt s1).
  2: { unfold get_value, kbind. by rewrite Hv. }
  rewrite (cbind_atomic _ _ s1 tt s1).
  2: { unfold get_value, kbind, s1; simpl. by rewrite lookup_insert_eq. }
  apply (resume_run old s1).
Qed.

Lemma down_loop_free s psema f :
  k_semas s !! psema = Some 1 -> down_loop (S f) psema s = Ok (Return tt, s).
Proof.
  intros Hv. simpl. rewrite (cbind_atomic _ _ s 1 s); [done|].
  unfold get_value. by rewrite Hv.
Qed.

(** Restoring the status [intr_disable] found. *)
Lemma resume_restore (s s' : kst P) :
  k_eflags s' = k_eflags (intr_off s) ->
  resume_with (intr_of s) s' = Ok (Return tt, set_k_eflags (k_eflags s) s').
Proof.
  intros Hfl. change (eflags s' = eflags (intr_off s)) in Hfl.
  destruct (intr_restore s s' Hfl) as [st Hst].
  rewrite <- resume_run. unfold cbind, atomic, cret; simpl. by rewrite Hst.
Qed.

Lemma sema_down_free s psema f :
  k_semas s !! psema = Some 1 ->
  sema_down (S f) psema s = Ok (Return tt, set_k_semas (<[psema := 0]> (k_semas s)) s).
Proof.
  intros Hv. unfold sema_down. rewrite (cbind_atomic _ _ _ _ _ (intr_disable_run s)).
  rewrite (cbind_return _ _ _ tt (intr_off s)).
  2: { apply down_loop_free. by rewrite intr_off_fields. }
  rewrite take_semaphore_run by (by rewrite intr_off_fields).
  rewrite resume_restore by done. do 2 f_equal. rewrite intr_off_fields. by destruct s.
Qed.

(** The running thread put at the end of a wait queue. *)
Lemma core_wait s W ws p :
  sched_ok s -> k_cur s <> k_idle s -> W <> thread_ready_list ->
  k_queues s !! W = Some ws -> k_tasks s !! k_cur s = Some p ->
  core (set_k_tasks (<[k_cur s := set_t_status TASK_BLOCKED p]> (k_tasks s))
    (set_k_queues (<[W := ws ++ [general_tag (k_cur s)]]> (k_queues s)) s)).
Proof.
  intros Hok Hid HW Hws Hp.
  destruct (core_block s TASK_BLOCKED Hok eq_refl (fun _ => eq_refl)) as (p' & Hp' & Hc).
  rewrite Hp in Hp'. injection Hp' as <-. destruct Hok as [Hc0 Hs].
  destruct (core_running _ Hc0 _ Hs) as [_ Hu].
  destruct Hc as [Hcur (ts & Hr & Hrd) Hrun Hq (sti & Hidle & Hst) Hpages]. split; simpl in *.
  - done.
  - exists ts. split; [|done]. unfold ready_is in *; simpl in *. by rewrite lookup_insert_ne.
  - intros t Ht. destruct (Hrun t Ht) as [-> _].
    unfold status in Ht; simpl in Ht. by rewrite lookup_insert_eq in Ht.
  - by apply queues_ok_append.
  - exists sti. split; [done|]. destruct Hst as [?|[?|[? Hui]]]; [tauto..|].
    right; right. split; [done|]. eapply unlinked_insert; [done|exact Hws|].
    rewrite elem_of_app, list_elem_of_singleton. intros [?|E%general_tag_inj]; [done|]. congruence.
  - done.
Qed.

Lemma sema_down_blocks s ts ws psema f :
  sched_ok s -> k_cur s <> k_idle s -> ready_is s ts ->
  sema_waiters psema <> thread_ready_list -> k_queues s !! sema_waiters psema = Some ws ->
  k_semas s !! psema = Some 0 ->
  exists s' k, sema_down (S (S f)) psema s = Ok (Suspended k, s') /\ sched_ok s' /\
    k_cur s' = hd (k_idle s) ts /\ ready_is s' (tl ts) /\
    k_queues s' !! sema_waiters psema = Some (ws ++ [general_tag (k_cur s)]) /\
    (k_cur s' <> k_cur s -> status s' (k_cur s) = Some TASK_BLOCKED) /\
    k_semas s' = k_semas s /\ k_locks s' = k_locks s /\
    (forall s2, k_semas s2 !! psema = Some 1 -> intr_of s2 = INTR_OFF ->
       k s2 = resume_with (intr_of s) (set_k_semas (<[psema := 0]> (k_semas s2)) s2)).
Proof.
  intros Hok Hid Hts HW Hws Hv.
  destruct (core_cur _ (proj1 Hok)) as [p Hp]. pose proof (core_wait s _ _ p Hok Hid HW Hws Hp) as Hc.
  destruct (core_running _ (proj1 Hok) _ (proj2 Hok)) as [_ Hu].
  set (s1 := set_k_eflags (k_eflags (intr_off s))
    (set_k_queues (<[sema_waiters psema := ws ++ [general_tag (k_cur s)]]> (k_queues s)) s)).
  assert (Hoff1 : intr_of s1 = INTR_OFF) by (unfold intr_of, s1; simpl; by rewrite intr_off_kbit).
  destruct (thread_block_run s1 ts TASK_BLOCKED p) as (s' & k & H1 & H2 & H3 & H4 & H5 & H6 & H7 & _ & H8).
  { done. }
  { done. }
  { unfold ready_is, s1 in *; simpl. by rewrite lookup_insert_ne. }
  { by apply (core_eflags _ (k_eflags (intr_off s))) in Hc. }
  rewrite Hoff1 in H8.
  eexists s', _. split.
  { unfold sema_down. rewrite (cbind_atomic _ _ _ _ _ (intr_disable_run s)).
    apply cbind_suspended. rewrite intr_off_fields.
    set (s0 := set_k_eflags (k_eflags (intr_off s)) s).
    change (down_loop (S (S f)) psema) with (
      value <~ atomic (get_value psema) ;;
      if value =? 0 then
        cur <~ atomic running_thread ;;
        waiting <~ atomic (q_find (sema_waiters psema) (general_tag cur)) ;;
        atomic (ASSERT (negb waiting)) ;~;
        (if (waiting : bool) then atomic PANIC else cret tt) ;~;
        atomic (q_append (sema_waiters psema) (general_tag cur)) ;~;
        thread_block TASK_BLOCKED ;~;
        down_loop (S f) psema
      else cret tt).
    rewrite (cbind_atomic _ _ s0 0 s0) by (unfold get_value, s0; simpl; by rewrite Hv).
    rewrite Z.eqb_refl. rewrite (cbind_atomic _ _ s0 (k_cur s) s0) by done.
    rewrite (cbind_atomic _ _ s0 false s0).
    2: { erewrite q_find_run by exact Hws.
      rewrite bool_decide_eq_false_2; [done|]. intros Hin.
      exact (linked_not_unlinked _ _ _ _ Hws Hin Hu). }
    rewrite (cbind_atomic _ _ s0 tt s0) by done.
    rewrite (cbind_return _ _ s0 tt s0) by done.
    rewrite (cbind_atomic _ _ s0 tt s1) by exact (q_append_run s0 _ _ _ Hws Hu).
    by apply cbind_suspended. }
  split_and!; try done.
  - rewrite (fr_queues _ _ H7) by done. unfold s1; simpl. by rewrite lookup_insert_eq.
  - by rewrite (fr_semas _ _ H7).
  - by rewrite (fr_locks _ _ H7).
  - intros s2 Hv2 Hoff2.
    rewrite (cbind_return _ _ s2 tt s2).
    2: { rewrite (cbind_return _ _ s2 tt s2).
      - by apply down_loop_free.
      - rewrite H8. unfold resume_with. by rewrite intr_off_idemp. }
    by apply take_semaphore_run.
Qed.

(** [sema_down].  On a free semaphore it takes it at once and leaves everything else
    alone, EFLAGS included.  On a taken one the caller becomes the last of the waiters,
    is marked BLOCKED and gives the processor to the next ready thread; no assertion
    fails.  When it is switched to again with the semaphore free, it takes it and
    returns with the interrupt status it was called with. *)
Theorem sema_down_spec s ts ws psema f :
  sched_ok s -> k_cur s <> k_idle s -> ready_is s ts ->
  sema_waiters psema <> thread_ready_list -> k_queues s !! sema_waiters psema = Some ws ->
  (k_semas s !! psema = Some 1 ->
     sema_down (S f) psema s = Ok (Return tt, set_k_semas (<[psema := 0]> (k_semas s)) s)) /\
  (k_semas s !! psema = Some 0 ->
     exists s' k, sema_down (S (S f)) psema s = Ok (Suspended k, s') /\ sched_ok s' /\
       k_cur s' = hd (k_idle s) ts /\ ready_is s' (tl ts) /\
       k_queues s' !! sema_waiters psema = Some (ws ++ [general_tag (k_cur s)]) /\
       (k_cur s' <> k_cur s -> status s' (k_cur s) = Some TASK_BLOCKED) /\
       (forall s2, k_semas s2 !! psema = Some 1 -> intr_of s2 = INTR_OFF ->
          k s2 = resume_with (intr_of s) (set_k_semas (<[psema := 0]> (k_semas s2)) s2))).
Proof.
  intros Hok Hid Hts HW Hws. split; [apply sema_down_free|]. intros Hv.
  destruct (sema_down_blocks s ts ws psema f Hok Hid Hts HW Hws Hv)
    as (s' & k & H1 & H2 & H3 & H4 & H5 & H6 & _ & _ & H7).
  by exists s', k.
Qed.

(** The first waiter taken out of a wait queue. *)
Lemma sched_ok_pop s W t ws :
  sched_ok s -> W <> thread_ready_list -> k_queues s !! W = Some (general_tag t :: ws) ->
  sched_ok (set_k_queues (<[W := ws]> (k_queues s)) s) /\
  unlinked (<[W := ws]> (k_queues s)) (general_tag t).
Proof.
  intros [[Hcur (ts & Hr & Hrd) Hrun Hq (sti & Hidle & Hst) Hpages] Hs] HW Hws.
  destruct (queues_ok_take _ _ _ [] ws Hq Hws) as [Hq' Hu]. simpl in Hq', Hu.
  assert (Hui : forall e, unlinked (k_queues s) e -> unlinked (<[W := ws]> (k_queues s)) e).
  { intros e He. eapply unlinked_insert; [done|exact Hws|]. rewrite elem_of_cons. tauto. }
  split; [|done]. split; [|done]. split; simpl; try done.
  - exists ts. split; [|done]. unfold ready_is in *; simpl. by rewrite lookup_insert_ne.
  - intros x Hx. destruct (Hrun x Hx). auto.
  - exists sti. split; [done|]. destruct Hst as [?|[?|[? ?]]]; auto.
Qed.

Lemma sched_ok_eflags v s : sched_ok s -> sched_ok (set_k_eflags v s).
Proof. intros [H1 H2]. split; [by apply core_eflags|done]. Qed.

Lemma sched_ok_semas v s : sched_ok s -> sched_ok (set_k_semas v s).
Proof. by intros [[] ?]. Qed.

Lemma sema_up_run s psema ws s1 :
  k_semas s !! psema = Some 0 -> k_queues s !! sema_waiters psema = Some ws ->
  (if negb (bool_decide (ws = [])) then
     tag <- q_pop (sema_waiters psema) ;; thread_unblock (general_entry tag)
   else kret tt) (intr_off s) = Ok (tt, s1) ->
  k_semas s1 !! psema = Some 0 -> k_eflags s1 = k_eflags (intr_off s) ->
  sema_up psema s = Ok (tt, set_k_eflags (k_eflags s) (set_k_semas (<[psema := 1]> (k_semas s1)) s1)).
Proof.
  intros Hv Hws Hwake Hv1 Hfl. unfold sema_up.
  rewrite (kbind_ok _ _ _ _ _ (intr_disable_run s)).
  assert (Hget : get_value psema (intr_off s) = Ok (0, intr_off s)).
  { unfold get_value. rewrite intr_off_fields. simpl. by rewrite Hv. }
  rewrite (kbind_ok _ _ _ _ _ Hget). rewrite (kbind_ok _ _ _ tt (intr_off s)) by done.
  erewrite kbind_ok by (apply q_empty_run; rewrite intr_off_fields; exact Hws).
  rewrite (kbind_ok _ _ _ _ _ Hwake).
  assert (Hget1 : get_value psema s1 = Ok (0, s1)) by (unfold get_value; by rewrite Hv1).
  rewrite (kbind_ok _ _ _ _ _ Hget1). set (s2 := set_k_semas _ s1).
  rewrite (kbind_ok _ _ _ tt s2) by done.
  assert (Hget2 : get_value psema s2 = Ok (1, s2)).
  { unfold get_value, s2; simpl. by rewrite lookup_insert_eq. }
  rewrite (kbind_ok _ _ _ _ _ Hget2). rewrite (kbind_ok _ _ _ tt s2) by done.
  change (eflags s2 = eflags (intr_off s)) in Hfl.
  destruct (intr_restore s s2 Hfl) as [st Hst]. by rewrite (kbind_ok _ _ _ _ _ Hst).
Qed.

(** [sema_up] hands the semaphore on.  It frees the semaphore and, when threads are
    waiting, makes the first of them the first of the ready list; the caller keeps the
    processor and its interrupt status and no other thread is touched.  On a semaphore
    that is free already its assertion fails. *)
Theorem sema_up_spec s ts ws psema :
  sched_ok s -> ready_is s ts ->
  sema_waiters psema <> thread_ready_list -> k_queues s !! sema_waiters psema = Some ws ->
  (k_semas s !! psema = Some 1 -> sema_up psema s = Err AssertFail) /\
  (k_semas s !! psema = Some 0 -> ws = [] ->
     sema_up psema s = Ok (tt, set_k_semas (<[psema := 1]> (k_semas s)) s)) /\
  (forall t ws' st, k_semas s !! psema = Some 0 -> ws = general_tag t :: ws' ->
     status s t = Some st -> may_block st = true ->
     exists s', sema_up psema s = Ok (tt, s') /\ sched_ok s' /\ ready_is s' (t :: ts) /\
       k_semas s' !! psema = Some 1 /\ k_queues s' !! sema_waiters psema = Some ws' /\
       k_cur s' = k_cur s /\ k_eflags s' = k_eflags s /\ k_locks s' = k_locks s /\
       status s' t = Some TASK_READY /\ (forall t', t' <> t -> status s' t' = status s t')).
Proof.
  intros Hok Hts HW Hws. split_and!.
  - intros Hv. unfold sema_up. rewrite (kbind_ok _ _ _ _ _ (intr_disable_run s)).
    rewrite (kbind_ok _ _ _ 1 (intr_off s)); [done|].
    unfold get_value. rewrite intr_off_fields. simpl. by rewrite Hv.
  - intros Hv ->. erewrite (sema_up_run s psema [] (intr_off s)); try done.
    + do 2 f_equal. rewrite intr_off_fields. by destruct s.
    + by rewrite intr_off_fields.
  - intros t ws' st Hv -> Hst Hmb.
    unfold status in Hst. destruct (k_tasks s !! t) as [p|] eqn:Hp; [|done]. injection Hst as <-.
    destruct (sched_ok_pop s _ _ _ Hok HW Hws) as [Hok1 Hu].
    set (s0 := set_k_eflags (k_eflags (intr_off s))
                 (set_k_queues (<[sema_waiters psema := ws']> (k_queues s)) s)).
    assert (Hr0 : k_queues s0 !! thread_ready_list = Some (general_tag <$> ts)).
    { unfold s0; simpl. by rewrite lookup_insert_ne. }
    set (s1 := unblocked t p (general_tag <$> ts) s0).
    assert (Hrun : sema_up psema s = Ok (tt, set_k_eflags (k_eflags s)
              (set_k_semas (<[psema := 1]> (k_semas s1)) s1))).
    { eapply (sema_up_run s psema); try done. simpl.
      rewrite (kbind_ok _ _ _ (general_tag t) s0).
      - rewrite general_entry_tag. by apply thread_unblock_run.
      - rewrite intr_off_fields.
        exact (q_pop_run (set_k_eflags (k_eflags (intr_off s)) s) _ _ _ Hws). }
    eexists. split; [exact Hrun|].
    assert (Hc0 : core s0) by (apply core_eflags, Hok1).
    destruct (core_make_ready s0 t p (set_t_status TASK_READY p) ts (t :: ts)) as (H1 & H2 & H3); auto.
    { split; by intros E; rewrite E in Hmb. }
    assert (Hne : k_cur s <> t).
    { intros <-. destruct Hok as [_ Hs]. unfold status in Hs. rewrite Hp in Hs.
      injection Hs as Hs. by rewrite Hs in Hmb. }
    split_and!; try done.
    + apply sched_ok_eflags, sched_ok_semas. split; [done|].
      change (status s1 (k_cur s) = Some TASK_RUNNING). rewrite H3 by done. apply Hok.
    + simpl. by rewrite lookup_insert_eq.
    + simpl. by rewrite lookup_insert_ne, lookup_insert_eq.
    + unfold status; simpl. by rewrite lookup_insert_eq.
Qed.

(** ** Locks *)

(** A thread that takes a lock [n] times over, and gives it back [n] times. *)
Fixpoint acquire_n (n fuel : nat) (plock : Z) : CM (kst P) unit :=
  match n with O => cret tt | S n => lock_acquire fuel plock ;~; acquire_n n fuel plock end.
Fixpoint release_n (n : nat) (plock : Z) : KM (kst P) unit :=
  match n with O => kret tt | S n => lock_release plock ;;; release_n n plock end.

(** The state in which the running thread holds the lock [d] times. *)
Definition held (plock d : Z) (s : kst P) : kst P :=
  set_k_locks (<[plock := Lock (k_cur s) d]> (k_locks s))
    (set_k_semas (<[lock_semaphore plock := 0]> (k_semas s)) s).

Lemma get_lock_run s L l : k_locks s !! L = Some l -> get_lock L s = Ok (l, s).
Proof. intros H. unfold get_lock. by rewrite H. Qed.

Lemma acquire_free s L f :
  k_locks s !! L = Some (Lock 0 0) -> k_semas s !! lock_semaphore L = Some 1 -> k_cur s <> 0 ->
  lock_acquire (S f) L s = Ok (Return tt, held L 1 s).
Proof.
  intros Hl Hv Hc. unfold lock_acquire.
  rewrite (cbind_atomic _ _ _ _ _ (get_lock_run _ _ _ Hl)).
  rewrite (cbind_atomic _ _ s (k_cur s) s) by done. simpl.
  rewrite (proj2 (Z.eqb_neq _ _)) by auto. simpl.
  rewrite (cbind_return _ _ _ _ _ (sema_down_free s _ f Hv)). set (s1 := set_k_semas _ s).
  rewrite (cbind_atomic _ _ s1 (k_cur s) s1) by done.
  rewrite (cbind_atomic _ _ s1 (Lock 0 0) s1) by exact (get_lock_run s1 L _ Hl).
  set (s2 := set_k_locks (<[L := Lock (k_cur s) 0]> (k_locks s1)) s1).
  rewrite (cbind_atomic _ _ s1 tt s2) by done.
  rewrite (cbind_atomic _ _ s2 tt s2) by done.
  unfold atomic, put_lock, kmod, held. do 2 f_equal. unfold s2, s1, set_k_locks; simpl.
  by rewrite insert_insert_eq.
Qed.

Lemma acquire_again s L f d :
  0 <= d < 2 ^ 32 - 1 -> lock_acquire f L (held L d s) = Ok (Return tt, held L (d + 1) s).
Proof.
  intros Hd. unfold lock_acquire. set (s1 := held L d s).
  rewrite (cbind_atomic _ _ s1 (Lock (k_cur s) d) s1).
  2: { apply get_lock_run. unfold s1, held; simpl. by rewrite lookup_insert_eq. }
  rewrite (cbind_atomic _ _ s1 (k_cur s) s1) by done. simpl. rewrite Z.eqb_refl. simpl.
  rewrite u32_small by lia. unfold atomic, put_lock, kmod, s1, held. do 2 f_equal.
  unfold set_k_locks; simpl. by rewrite insert_insert_eq.
Qed.

Lemma acquire_more s L f n d :
  0 <= d -> d + Z.of_nat n < 2 ^ 32 ->
  acquire_n n f L (held L d s) = Ok (Return tt, held L (d + Z.of_nat n) s).
Proof.
  revert d. induction n as [|n IH]; intros d Hd Hn.
  - unfold acquire_n, cret. do 3 f_equal. lia.
  - change (acquire_n (S n) f L) with (lock_acquire f L ;~; acquire_n n f L).
    rewrite (cbind_return _ _ _ tt (held L (d + 1) s)) by (apply acquire_again; lia).
    rewrite IH by lia. do 3 f_equal. lia.
Qed.

Lemma release_inner s L d :
  1 < d < 2 ^ 32 -> lock_release L (held L d s) = Ok (tt, held L (d - 1) s).
Proof.
  intros Hd. unfold lock_release. set (s1 := held L d s).
  rewrite (kbind_ok _ _ s1 (Lock (k_cur s) d) s1).
  2: { apply get_lock_run. unfold s1, held; simpl. by rewrite lookup_insert_eq. }
  rewrite (kbind_ok _ _ s1 (k_cur s) s1) by done. simpl. rewrite Z.eqb_refl.
  rewrite (kbind_ok _ _ s1 tt s1) by done. rewrite (proj2 (Z.ltb_lt _ _)) by lia.
  rewrite u32_small by lia. unfold put_lock, kmod, s1, held. do 2 f_equal.
  unfold set_k_locks; simpl. by rewrite insert_insert_eq.
Qed.

Lemma release_last s L :
  k_locks s !! L = Some (Lock 0 0) -> k_semas s !! lock_semaphore L = Some 1 ->
  k_queues s !! sema_waiters (lock_semaphore L) = Some [] ->
  lock_release L (held L 1 s) = Ok (tt, s).
Proof.
  intros Hl Hv Hw. unfold lock_release. set (s1 := held L 1 s).
  rewrite (kbind_ok _ _ s1 (Lock (k_cur s) 1) s1).
  2: { apply get_lock_run. unfold s1, held; simpl. by rewrite lookup_insert_eq. }
  rewrite (kbind_ok _ _ s1 (k_cur s) s1) by done. simpl. rewrite Z.eqb_refl.
  rewrite (kbind_ok _ _ s1 tt s1) by done.
  change (1 <? 1) with false. change (1 =? 1) with true.
  rewrite (kbind_ok _ _ s1 tt s1) by done.
  set (s2 := set_k_locks (<[L := Lock 0 0]> (k_locks s1)) s1).
  rewrite (kbind_ok _ _ s1 tt s2) by done.
  rewrite (sema_up_run s2 _ [] (intr_off s2)).
  - rewrite intr_off_fields. unfold s2, s1, held, set_k_semas, set_k_locks; simpl.
    unfold set_k_eflags; simpl. rewrite !insert_insert_eq, !insert_id by done. by destruct s.
  - unfold s2, s1; simpl. by rewrite lookup_insert_eq.
  - done.
  - done.
  - rewrite intr_off_fields. unfold s2, s1; simpl. by rewrite lookup_insert_eq.
  - done.
Qed.

(** Locks are re-entrant.  A thread that finds a lock free can take it [n] times in a
    row without blocking; it is then the holder with count [n] and the semaphore is
    taken; [n] releases give back exactly the state before. *)
Theorem lock_reentrant s L f n :
  k_locks s !! L = Some (Lock 0 0) -> k_semas s !! lock_semaphore L = Some 1 ->
  k_queues s !! sema_waiters (lock_semaphore L) = Some [] -> k_cur s <> 0 ->
  (0 < n)%nat -> Z.of_nat n < 2 ^ 32 ->
  exists s', acquire_n n (S f) L s = Ok (Return tt, s') /\
    k_locks s' !! L = Some (Lock (k_cur s) (Z.of_nat n)) /\
    k_semas s' !! lock_semaphore L = Some 0 /\ release_n n L s' = Ok (tt, s).
Proof.
  intros Hl Hv Hw Hc Hn Hb. exists (held L (Z.of_nat n) s). split_and!.
  - destruct n as [|n]; [lia|].
    change (acquire_n (S n) (S f) L) with (lock_acquire (S f) L ;~; acquire_n n (S f) L).
    rewrite (cbind_return _ _ _ tt (held L 1 s)) by (by apply acquire_free).
    rewrite acquire_more by lia. do 3 f_equal. lia.
  - simpl. by rewrite lookup_insert_eq.
  - simpl. by rewrite lookup_insert_eq.
  - clear -Hl Hv Hw Hn Hb. induction n as [|n IH]; [lia|].
    change (release_n (S n) L) with (lock_release L ;;; release_n n L).
    destruct n as [|n].
    + rewrite (kbind_ok _ _ _ tt s) by (by apply release_last). done.
    + rewrite (kbind_ok _ _ _ tt (held L (Z.of_nat (S n)) s)).
      * apply IH; lia.
      * rewrite release_inner by lia. do 3 f_equal. lia.
Qed.

(** A lock excludes other threads.  While another thread holds it, the running thread
    cannot release it (the assertion fails); acquiring it puts the thread at the end of
    the lock's wait queue and gives the processor away, and the lock is not changed.
    When the thread runs again after the lock was freed, it becomes its holder. *)
Theorem lock_excludes s ts ws L h r f :
  sched_ok s -> k_cur s <> k_idle s -> ready_is s ts -> h <> k_cur s ->
  k_locks s !! L = Some (Lock h r) -> k_semas s !! lock_semaphore L = Some 0 ->
  let W := sema_waiters (lock_semaphore L) in
  W <> thread_ready_list -> k_queues s !! W = Some ws ->
  lock_release L s = Err AssertFail /\
  exists s' k, lock_acquire (S (S f)) L s = Ok (Suspended k, s') /\ sched_ok s' /\
    k_cur s' = hd (k_idle s) ts /\ k_locks s' !! L = Some (Lock h r) /\
    k_semas s' !! lock_semaphore L = Some 0 /\
    k_queues s' !! W = Some (ws ++ [general_tag (k_cur s)]) /\
    (forall s2, k_locks s2 !! L = Some (Lock 0 0) -> k_semas s2 !! lock_semaphore L = Some 1 ->
       intr_of s2 = INTR_OFF -> k_cur s2 = k_cur s ->
       exists s3, k s2 = Ok (Return tt, s3) /\ k_locks s3 !! L = Some (Lock (k_cur s) 1) /\
         k_semas s3 !! lock_semaphore L = Some 0 /\ intr_of s3 = intr_of s).
Proof.
  intros Hok Hid Hts Hh Hl Hv W HW Hws. split.
  { unfold lock_release. rewrite (kbind_ok _ _ _ _ _ (get_lock_run _ _ _ Hl)).
    rewrite (kbind_ok _ _ s (k_cur s) s) by done. simpl.
    by rewrite (proj2 (Z.eqb_neq _ _) Hh). }
  destruct (sema_down_blocks s ts ws (lock_semaphore L) f Hok Hid Hts HW Hws Hv)
    as (s' & k & H1 & H2 & H3 & H4 & H5 & H6 & H7 & H8 & H9).
  eexists s', _. split.
  { unfold lock_acquire. rewrite (cbind_atomic _ _ _ _ _ (get_lock_run _ _ _ Hl)).
    rewrite (cbind_atomic _ _ s (k_cur s) s) by done. simpl.
    rewrite (proj2 (Z.eqb_neq _ _) Hh). simpl. by apply cbind_suspended. }
  rewrite H7, H8. split_and!; try done.
  intros s2 Hl2 Hv2 Hoff2 Hc2. set (s3 := set_k_semas (<[lock_semaphore L := 0]> (k_semas s2)) s2).
  assert (exists s4, k s2 = Ok (Return tt, s4) /\ k_cur s4 = k_cur s /\ k_locks s4 = k_locks s2 /\
    k_semas s4 !! lock_semaphore L = Some 0 /\ intr_of s4 = intr_of s)
    as (s4 & Hk & Hc4 & Hl4 & Hv4 & Hi4).
  { rewrite (H9 s2 Hv2 Hoff2). fold s3. unfold resume_with. eexists. split; [done|].
    assert (Hv3 : k_semas s3 !! lock_semaphore L = Some 0) by apply lookup_insert_eq.
    destruct (intr_of s); unfold intr_on, intr_off; destruct (Z.testbit (eflags s3) 9) eqn:Hb;
      split_and!; try done; unfold intr_of; simpl in *; rewrite ?Hb; try done.
    - by rewrite Z.land_spec, andb_false_r.
    - by rewrite Z.lor_spec, orb_true_r. }
  rewrite (cbind_return _ _ _ _ _ Hk). rewrite (cbind_atomic _ _ s4 (k_cur s4) s4) by done.
  rewrite (cbind_atomic _ _ s4 (Lock 0 0) s4) by (apply get_lock_run; by rewrite Hl4).
  set (s5 := set_k_locks (<[L := Lock (k_cur s4) 0]> (k_locks s4)) s4).
  rewrite (cbind_atomic _ _ s4 tt s5) by done. rewrite (cbind_atomic _ _ s5 tt s5) by done.
  eexists. split; [done|]. split_and!; try done. simpl. by rewrite lookup_insert_eq, Hc4.
Qed.
End sync.

(** ** A concrete lock at 0x9000: free, or held by another thread *)

Definition sample_lock (l : lock) (v : Z) (ws : list Z) : kst unit :=
  set_k_locks {[0x9000 := l]} (set_k_semas {[0x9004 := v]}
    (set_k_queues (<[0x9008 := ws]> (k_queues (sample_kernel 0))) (sample_kernel 0))).

Lemma sample_lock_ok l v ws :
  ws = [] \/ ws = [general_tag 0x4000] -> sched_ok (sample_lock l v ws).
Proof.
  intros Hws. destruct (sample_ok 0) as [[Hcur (ts & Hr & Hrd) Hrun Hq (sti & Hidle & Hst) Hpages] Hs].
  assert (Hu : forall t, t = 0x1000 \/ t = 0x3000 ->
    unlinked (k_queues (sample_lock l v ws)) (general_tag t)).
  { intros t Ht. apply (bool_decide_unpack _).
    destruct Hws as [-> | ->], Ht as [-> | ->]; by vm_compute. }
  split; [|done]. split.
  - exact Hcur.
  - by exists ts.
  - intros t Ht. destruct (Hrun t Ht) as [-> _]. split; [done|]. apply Hu. by left.
  - apply queues_ok_check, (bool_decide_unpack _). destruct Hws as [-> | ->]; by vm_compute.
  - exists TASK_BLOCKED. split; [by vm_compute|]. right; right. split; [done|]. apply Hu. by right.
  - exact Hpages.
Qed.

Lemma sema_down_spec_witness :
  exists s' k, sema_down 2 0x9004 (sample_lock (Lock 0x4000 1) 0 []) = Ok (Suspended k, s') /\
    sched_ok s' /\ k_cur s' = 0x2000 /\ ready_is s' [] /\
    k_queues s' !! sema_waiters 0x9004 = Some ([] ++ [general_tag 0x1000]) /\
    (k_cur s' <> 0x1000 -> status s' 0x1000 = Some TASK_BLOCKED) /\
    (forall s2, k_semas s2 !! 0x9004 = Some 1 -> intr_of s2 = INTR_OFF ->
       k s2 = resume_with INTR_OFF (set_k_semas (<[0x9004 := 0]> (k_semas s2)) s2)).
Proof.
  apply (sema_down_spec (sample_lock (Lock 0x4000 1) 0 []) [0x2000] [] 0x9004 0).
  - apply sample_lock_ok. by left.
  - done.
  - by vm_compute.
  - done.
  - by vm_compute.
  - by vm_compute.
Defined.

Lemma sema_up_spec_witness :
  exists s', sema_up 0x9004 (sample_lock (Lock 0 0) 0 [general_tag 0x4000]) = Ok (tt, s') /\
    sched_ok s' /\ ready_is s' [0x4000; 0x2000] /\ k_semas s' !! 0x9004 = Some 1 /\
    k_queues s' !! sema_waiters 0x9004 = Some [] /\ k_cur s' = 0x1000 /\ k_eflags s' = 0 /\
    k_locks s' = {[0x9000 := Lock 0 0]} /\ status s' 0x4000 = Some TASK_READY /\
    (forall t', t' <> 0x4000 ->
       status s' t' = status (sample_lock (Lock 0 0) 0 [general_tag 0x4000]) t').
Proof.
  apply (sema_up_spec (sample_lock (Lock 0 0) 0 [general_tag 0x4000]) [0x2000]
           [general_tag 0x4000] 0x9004) with (st := TASK_HANGING).
  - apply sample_lock_ok. by right.
  - by vm_compute.
  - done.
  - by vm_compute.
  - by vm_compute.
  - done.
  - by vm_compute.
  - done.
Defined.

Lemma lock_reentrant_witness :
  exists s', acquire_n 3 1 0x9000 (sample_lock (Lock 0 0) 1 []) = Ok (Return tt, s') /\
    k_locks s' !! 0x9000 = Some (Lock 0x1000 3) /\ k_semas s' !! 0x9004 = Some 0 /\
    release_n 3 0x9000 s' = Ok (tt, sample_lock (Lock 0 0) 1 []).
Proof.
  apply (lock_reentrant (sample_lock (Lock 0 0) 1 []) 0x9000 0 3);
    [by vm_compute|by vm_compute|by vm_compute|done|lia|by vm_compute].
Defined.

Lemma lock_excludes_witness :
  let s := sample_lock (Lock 0x4000 1) 0 [] in
  lock_release 0x9000 s = Err AssertFail /\
  exists s' k, lock_acquire 2 0x9000 s = Ok (Suspended k, s') /\ sched_ok s' /\
    k_cur s' = 0x2000 /\ k_locks s' !! 0x9000 = Some (Lock 0x4000 1) /\
    k_semas s' !! 0x9004 = Some 0 /\ k_queues s' !! 0x9008 = Some ([] ++ [general_tag 0x1000]) /\
    (forall s2, k_locks s2 !! 0x9000 = Some (Lock 0 0) -> k_semas s2 !! 0x9004 = Some 1 ->
       intr_of s2 = INTR_OFF -> k_cur s2 = 0x1000 ->
       exists s3, k s2 = Ok (Return tt, s3) /\ k_locks s3 !! 0x9000 = Some (Lock 0x1000 1) /\
         k_semas s3 !! 0x9004 = Some 0 /\ intr_of s3 = INTR_OFF).
Proof.
  apply (lock_excludes (sample_lock (Lock 0x4000 1) 0 []) [0x2000] [] 0x9000 0x4000 1 0).
  - apply sample_lock_ok. by left.
  - done.
  - by vm_compute.
  - done.
  - by vm_compute.
  - by vm_compute.
  - done.
  - by vm_compute.
Defined.
