(* ===== verification/Threads.v ===== *)
(** * Threads: all threads of the kernel together

    The kernel as a transition system.  A configuration is the shared state of Sched with
    the code each suspended thread continues with; a step runs the code of the thread on
    the processor up to its end or to the [switch_to] that takes the processor away.  The
    calls a thread may make are those of thread.c and sync.c, and the timer interrupt may
    come before any of them.  [sys_ok] is the invariant of the scheduler, the semaphores
    and the locks together; it holds in every configuration that can be reached, and none
    of the assertions of thread.c and sync.c fails in one. *)

From S2P Require Import Prelude Bitmap Interrupt DList Sched Sync.

Section threads.
Context {P : Type} `{!KernelPages P}.
Implicit Types (s : kst P) (t : Z).

(** The timer interrupt: the processor saves EFLAGS and clears the interrupt flag on entry,
    [iret] restores it. *)
Definition timer_interrupt : CM (kst P) unit :=
  f <~ atomic (kreads k_eflags) ;;
  atomic cli ;~;
  intr_timer_handler ;~;
  atomic (kmod (set_k_eflags f)).

(** What the running thread may call in the state [s]: the idle thread only runs its own
    loop, only a taken semaphore is put up, only the holder of a lock releases it, and the
    semaphore inside a lock is left to the lock. *)
Inductive call (s : kst P) : CM (kst P) unit -> Prop :=
| CallTimer : call s timer_interrupt
| CallYield : call s thread_yield
| CallIdle : k_cur s = k_idle s -> call s idle_round
| CallBlock st : k_cur s <> k_idle s -> may_block st = true -> call s (thread_block st)
| CallUnblock t st : status s t = Some st -> may_block st = true ->
    unlinked (k_queues s) (general_tag t) -> call s (atomic (thread_unblock t))
| CallDown fuel psema : k_cur s <> k_idle s -> is_Some (k_semas s !! psema) -> call s (sema_down fuel psema)
| CallUp psema : k_semas s !! psema = Some 0 ->
    (forall L, is_Some (k_locks s !! L) -> psema <> lock_semaphore L) -> call s (atomic (sema_up psema))
| CallAcquire fuel L : k_cur s <> k_idle s -> is_Some (k_locks s !! L) -> call s (lock_acquire fuel L)
| CallRelease L l : k_locks s !! L = Some l -> holder l = k_cur s -> 1 <= holder_repeat_nr l ->
    call s (atomic (lock_release L))
| CallIntr st : call s (atomic (intr_set_status st ;;; kret tt)).

Record config : Type := Cfg { c_state : kst P; c_rest : gmap Z (CM (kst P) unit) }.

(** The code the processor runs next: the rest of the running thread's call, or a new
    call. *)
Definition runs (c : config) (m : CM (kst P) unit) : Prop :=
  match c_rest c !! k_cur (c_state c) with Some k => m = k | None => call (c_state c) m end.

Inductive step : config -> config -> Prop :=
| StepReturn c m s : runs c m -> m (c_state c) = Ok (Return tt, s) ->
    step c (Cfg s (delete (k_cur (c_state c)) (c_rest c)))
| StepSwitch c m k s : runs c m -> m (c_state c) = Ok (Suspended k, s) ->
    step c (Cfg s (<[k_cur (c_state c) := k]> (c_rest c))).

(** ** The invariant *)

(** The semaphores [sems], the locks [lks] and the idle thread do not change. *)
Variables (sems lks : gset Z) (idle : Z).

Record sys_ok (s : kst P) : Prop := {
  sy_sched : sched_ok s;
  sy_idle : k_idle s = idle;
  sy_semas : dom (k_semas s) = sems;
  sy_locks : dom (k_locks s) = lks;
  sy_value : forall psema v, k_semas s !! psema = Some v -> v = 0 \/ v = 1;
  sy_wait : forall psema, psema ∈ sems -> sema_waiters psema <> thread_ready_list /\
    exists ws, k_queues s !! sema_waiters psema = Some (general_tag <$> ws) /\
      forall t, t ∈ ws -> status s t = Some TASK_BLOCKED;
  sy_lock : forall L l, k_locks s !! L = Some l ->
    exists v, k_semas s !! lock_semaphore L = Some v /\ (v = 1 -> l = Lock 0 0);
  sy_magic : forall t p, k_tasks s !! t = Some p -> t_magic p = STACK_MAGIC
}.

(** The locks that other threads than [t] hold are the same. *)
Definition others (t : Z) (s s' : kst P) : Prop :=
  forall L l, k_locks s !! L = Some l -> holder l <> 0 -> holder l <> t -> k_locks s' !! L = Some l.

(** Code of the thread [t] that keeps the invariant: started in any state that satisfies
    it, it fails only when its fuel is used up, it returns in a state that satisfies [Q],
    where it is suspended the invariant holds and the rest is again such code, and it
    leaves the locks of other threads alone. *)
Inductive safe {A} (t : Z) (Q : A -> kst P -> Prop) : CM (kst P) A -> Prop :=
| safe_intro m :
    (forall s e, sys_ok s -> k_cur s = t -> m s = Err e -> e = Diverges) ->
    (forall s a s', sys_ok s -> k_cur s = t -> m s = Ok (Return a, s') -> Q a s' /\ others t s s') ->
    (forall s k s', sys_ok s -> k_cur s = t -> m s = Ok (Suspended k, s') -> sys_ok s' /\ others t s s') ->
    (forall s k s', sys_ok s -> k_cur s = t -> m s = Ok (Suspended k, s') -> safe t Q k) ->
    safe t Q m.

(** The same of one run, which was started in [s0]. *)
Definition fine {A} (t : Z) (Q : A -> kst P -> Prop) (s0 : kst P) (r : outcome (co (kst P) A * kst P)) : Prop :=
  match r with
  | Ok (Return a, s) => Q a s /\ others t s0 s
  | Ok (Suspended k, s) => sys_ok s /\ others t s0 s /\ safe t Q k
  | Err e => e = Diverges
  end.

Lemma others_refl t s : others t s s.
Proof. by intros L l. Qed.

Lemma others_trans t s1 s2 s3 : others t s1 s2 -> others t s2 s3 -> others t s1 s3.
Proof. intros H1 H2 L l HL Hn Ht. by apply H2; [apply H1|..]. Qed.

Lemma others_eq t s0 s s' : others t s0 s -> k_locks s' = k_locks s -> others t s0 s'.
Proof. unfold others. by intros H ->. Qed.

Lemma safe_fine {A} t (Q : A -> kst P -> Prop) m :
  safe t Q m <-> forall s, sys_ok s -> k_cur s = t -> fine t Q s (m s).
Proof.
  split.
  - intros [m' H1 H2 H3 H4] s Hs Ht. unfold fine. destruct (m' s) as [[[a|k] s']|e] eqn:E; [by eapply H2| |by eapply H1].
    destruct (H3 _ _ _ Hs Ht E) as [? ?]. split; [assumption|]. split; [assumption|]. exact (H4 _ _ _ Hs Ht E).
  - intros H. assert (Hf : forall s r, sys_ok s -> k_cur s = t -> m s = r -> fine t Q s r) by (intros s r Hs Ht <-; by apply H).
    constructor.
    + intros s e Hs Ht E. exact (Hf s _ Hs Ht E).
    + intros s a s' Hs Ht E. exact (Hf s _ Hs Ht E).
    + intros s k s' Hs Ht E. destruct (Hf s _ Hs Ht E) as (? & ? & _). by split.
    + intros s k s' Hs Ht E. destruct (Hf s _ Hs Ht E) as (? & ? & ?). assumption.
Qed.

Lemma fine_from {A} t (Q : A -> kst P -> Prop) s0 s r : others t s0 s -> fine t Q s r -> fine t Q s0 r.
Proof.
  intros H. destruct r as [[[a|k] s']|e]; cbn; [| |done].
  - intros [HQ Ho]. split; [done|by eapply others_trans].
  - intros (? & Ho & ?). split; [assumption|]. split; [by eapply others_trans|assumption].
Qed.

Lemma fine_bind {A B} t (R : A -> kst P -> Prop) (Q : B -> kst P -> Prop) m f s0 s :
  fine t R s0 (m s) -> (forall a s', R a s' -> fine t Q s' (f a s')) -> fine t Q s0 (cbind m f s).
Proof.
  intros Hm Hf. assert (Hk : forall k, safe t R k -> safe t Q (cbind k f)).
  { clear s m Hm. intros k Hk. induction Hk as [m H1 H2 H3 _ IH]. apply safe_fine. intros s Hs Ht. unfold cbind.
    destruct (m s) as [[[a|k] s']|e] eqn:E; cbn; [| |eauto].
    - destruct (H2 _ _ _ Hs Ht E). eapply fine_from; [done|eauto].
    - destruct (H3 _ _ _ Hs Ht E) as [? ?]. split; [assumption|]. split; [assumption|]. by apply (IH s k s'). }
  unfold fine in Hm. unfold cbind. destruct (m s) as [[[a|k] s']|e]; cbn; [| |done].
  - destruct Hm. eapply fine_from; [done|auto].
  - destruct Hm as (? & ? & ?). split; [assumption|]. split; [assumption|]. by apply Hk.
Qed.

Lemma fine_weaken {A} t (Q R : A -> kst P -> Prop) s m :
  fine t Q s m -> (forall a s', Q a s' -> R a s') -> fine t R s m.
Proof.
  intros H HQ. assert (Hk : forall k, safe t Q k -> safe t R k).
  { intros k Hk. induction Hk as [k H1 H2 H3 H4 IH]. constructor; [exact H1| |exact H3|exact IH].
    intros s1 a s' Hs Ht E. destruct (H2 _ _ _ Hs Ht E). split; [by apply HQ|assumption]. }
  destruct m as [[[a|k] s']|e]; cbn in *; [| |done].
  - destruct H. split; [by apply HQ|assumption].
  - destruct H as (? & ? & ?). split; [assumption|]. split; [assumption|]. by apply Hk.
Qed.

Lemma fine_atomic {A} t (Q : A -> kst P -> Prop) m s0 s a s' :
  m s = Ok (a, s') -> others t s0 s' -> Q a s' -> fine t Q s0 (atomic m s).
Proof. unfold atomic. intros ->. by split. Qed.

(** What a call leaves when it returns. *)
Definition back (t : Z) (_ : unit) (s : kst P) : Prop := sys_ok s /\ k_cur s = t.

(** ** Switching threads *)

Lemma sys_eflags v s : sys_ok s -> sys_ok (set_k_eflags v s).
Proof. intros [H1 ? ? ? ? ? ? ?]. split; try done. by apply sched_ok_eflags. Qed.

Lemma sys_resume old t s : sys_ok s -> k_cur s = t -> fine t (back t) s (resume_with old s).
Proof.
  intros Hs Ht. assert (H : exists e, resume_with old s = Ok (Return tt, set_k_eflags e s)).
  { unfold resume_with. destruct old; [eexists; by rewrite intr_off_fields|].
    unfold intr_on. destruct (Z.testbit _ _); [exists (k_eflags s); by destruct s|by eexists]. }
  destruct H as [e ->]. split; [split; [by apply sys_eflags|done]|by intros L l].
Qed.

Lemma kept_magic s s' :
  (forall t, unscheduled <$> k_tasks s' !! t = unscheduled <$> k_tasks s !! t) ->
  (forall t p, k_tasks s !! t = Some p -> t_magic p = STACK_MAGIC) ->
  forall t p, k_tasks s' !! t = Some p -> t_magic p = STACK_MAGIC.
Proof.
  intros Hu Hm t p Hp. specialize (Hu t). rewrite Hp in Hu. cbn in Hu.
  destruct (k_tasks s !! t) as [q|] eqn:Hq; [|done]. rewrite <- (Hm _ _ Hq). by injection Hu.
Qed.

(** The thread on the processor is in no queue, so that it is no waiter. *)
Lemma running_not_waiting s W ws t :
  sched_ok s -> k_queues s !! W = Some (general_tag <$> ws) -> t ∈ ws -> t <> k_cur s.
Proof.
  intros [Hc Hr] Hw Hin ->. destruct (core_running _ Hc _ Hr) as [_ Hu].
  apply (linked_not_unlinked _ _ _ (general_tag (k_cur s)) Hw); [by apply tag_in_ready|done].
Qed.

(** From [s] the running thread goes to the end of the wait queue [W], if any, and another
    thread takes the processor. *)
Lemma sys_switched s s1 s' (W : option Z) :
  sys_ok s -> sched_ok s' -> sched_frame s1 s' ->
  k_idle s1 = k_idle s -> k_semas s1 = k_semas s -> k_locks s1 = k_locks s ->
  (forall t, unscheduled <$> k_tasks s1 !! t = unscheduled <$> k_tasks s !! t) ->
  (forall L xs, L <> thread_ready_list -> k_queues s !! L = Some xs ->
     k_queues s1 !! L = Some (xs ++ if decide (W = Some L) then [general_tag (k_cur s)] else [])) ->
  (forall t, t <> k_cur s -> t <> k_cur s' -> status s' t = status s t) ->
  (is_Some W -> k_cur s' <> k_cur s -> status s' (k_cur s) = Some TASK_BLOCKED) -> sys_ok s'.
Proof.
  intros Hs Hok Hf Ei Ev El Hu Hq Hst HW. destruct Hs as [H1 H2 H3 H4 H5 H6 H7 H8]. split.
  - done.
  - by rewrite (fr_idle _ _ Hf), Ei.
  - by rewrite (fr_semas _ _ Hf), Ev.
  - by rewrite (fr_locks _ _ Hf), El.
  - rewrite (fr_semas _ _ Hf), Ev. done.
  - intros psema Hp. destruct (H6 psema Hp) as (Hne & ws & Hws & Hb). split; [done|].
    exists (ws ++ if decide (W = Some (sema_waiters psema)) then [k_cur s] else []).
    assert (Hws' : k_queues s' !! sema_waiters psema =
      Some (general_tag <$> (ws ++ if decide (W = Some (sema_waiters psema)) then [k_cur s] else []))).
    { rewrite (fr_queues _ _ Hf) by done. rewrite (Hq _ _ Hne Hws), fmap_app. by destruct (decide _). }
    split; [done|]. intros t Ht. pose proof (running_not_waiting _ _ _ _ Hok Hws' Ht) as Hc.
    apply elem_of_app in Ht as [Ht|Ht].
    + rewrite Hst; [by apply Hb| |done]. by eapply running_not_waiting.
    + destruct (decide (W = Some (sema_waiters psema))) as [E|]; [|by apply not_elem_of_nil in Ht].
      apply list_elem_of_singleton in Ht as ->. apply HW; [by rewrite E|done].
  - rewrite (fr_locks _ _ Hf), (fr_semas _ _ Hf), El, Ev. done.
  - apply (kept_magic s); [|done]. intros t. by rewrite (fr_pcbs _ _ Hf).
Qed.

(** [thread_block] from a state with the running thread at the end of [W]. *)
Lemma fine_block s s1 (W : option Z) t st ts p :
  sys_ok s -> k_cur s = t -> may_block st = true -> (is_Some W -> st = TASK_BLOCKED) ->
  k_cur s1 = t -> k_idle s1 = k_idle s -> k_semas s1 = k_semas s -> k_locks s1 = k_locks s ->
  k_tasks s1 = k_tasks s -> k_tasks s !! t = Some p ->
  (forall L xs, L <> thread_ready_list -> k_queues s !! L = Some xs ->
     k_queues s1 !! L = Some (xs ++ if decide (W = Some L) then [general_tag t] else [])) ->
  ready_is s1 ts -> core (set_k_tasks (<[t := set_t_status st p]> (k_tasks s1)) s1) ->
  fine t (back t) s (thread_block st s1).
Proof.
  intros Hs Ht Hmb HW Hc Ei Ev El Etk Hp Hq Hr Hcore.
  assert (Hp1 : k_tasks s1 !! k_cur s1 = Some p) by (by rewrite Hc, Etk).
  rewrite <- Hc in Hcore.
  destruct (thread_block_run s1 ts st p Hp1 Hmb Hr Hcore) as (s' & k & R & Ok' & _ & _ & _ & Hcur & Hfr & Hst & Hk).
  rewrite R. split; [|split].
  - apply (sys_switched s (set_k_eflags (k_eflags (intr_off s1)) s1) s' W); try done.
    + intros x. cbn. by rewrite Etk.
    + intros L xs HL Hxs. rewrite Ht. by apply Hq.
    + intros x Hx1 Hx2. rewrite Hst; [|congruence|done]. unfold status. by rewrite Etk.
    + intros HW' Hne. rewrite <- (HW HW'), Ht, <- Hc. apply Hcur. congruence.
  - apply (others_eq _ _ s); [apply others_refl|]. by rewrite (fr_locks _ _ Hfr).
  - apply safe_fine. intros s2 Hs2 Ht2. rewrite Hk. by apply sys_resume.
Qed.

Lemma sys_ready s : sys_ok s -> exists ts, ready_is s ts.
Proof. intros Hs. destruct (core_ready _ (proj1 (sy_sched _ Hs))) as (ts & ? & _). by exists ts. Qed.

Lemma sys_task s : sys_ok s -> exists p, k_tasks s !! k_cur s = Some p.
Proof. intros Hs. exact (core_cur _ (proj1 (sy_sched _ Hs))). Qed.

Lemma block_fine s st :
  sys_ok s -> may_block st = true -> (k_cur s = k_idle s -> st = TASK_BLOCKED) ->
  fine (k_cur s) (back (k_cur s)) s (thread_block st s).
Proof.
  intros Hs Hmb Hi. destruct (sys_ready s Hs) as [ts Hts].
  destruct (core_block s st (sy_sched _ Hs) Hmb Hi) as (p & Hp & Hc).
  apply (fine_block s s None _ _ ts p); try done.
  intros L xs ? ->. by rewrite app_nil_r.
Qed.

(** The switch at the end of a time slice and in [thread_yield]. *)
Lemma fine_schedule s s1 ts :
  sys_ok s -> core s1 -> intr_of s1 = INTR_OFF -> ready_is s1 ts ->
  k_cur s1 = k_cur s -> k_idle s1 = k_idle s -> k_semas s1 = k_semas s -> k_locks s1 = k_locks s ->
  (forall t, t_magic <$> k_tasks s1 !! t = t_magic <$> k_tasks s !! t) ->
  (forall L, L <> thread_ready_list -> k_queues s1 !! L = k_queues s !! L) ->
  (forall t, t <> k_cur s -> status s1 t = status s t) ->
  fine (k_cur s) (back (k_cur s)) s (schedule s1).
Proof.
  intros Hs Hc Hoff Hr Ec Ei Ev El Hu Hq Hst.
  destruct (pick_next_spec s1 ts Hc Hoff Hr) as (s' & ts' & R & Ok' & _ & _ & Hfr & Hst').
  unfold schedule. rewrite (cbind_atomic _ _ _ _ _ R).
  split; [|split; [apply (others_eq _ _ s); [apply others_refl|by rewrite (fr_locks _ _ Hfr)]|]].
  2: { apply safe_fine. intros s2 ? ?. split; [by split|apply others_refl]. }
  destruct Hs as [H1 H2 H3 H4 H5 H6 H7 H8]. split.
  - done.
  - by rewrite (fr_idle _ _ Hfr), Ei.
  - by rewrite (fr_semas _ _ Hfr), Ev.
  - by rewrite (fr_locks _ _ Hfr), El.
  - rewrite (fr_semas _ _ Hfr), Ev. done.
  - intros psema Hp. destruct (H6 psema Hp) as (Hne & ws & Hws & Hb). split; [done|]. exists ws.
    assert (Hws' : k_queues s' !! sema_waiters psema = Some (general_tag <$> ws)) by (by rewrite (fr_queues _ _ Hfr), Hq).
    split; [done|]. intros t Ht. pose proof (running_not_waiting _ _ _ _ H1 Hws Ht) as Hn.
    rewrite Hst', Hst; [by apply Hb|done|by eapply running_not_waiting|left; congruence].
  - rewrite (fr_locks _ _ Hfr), (fr_semas _ _ Hfr), El, Ev. done.
  - intros t p Hp. pose proof (fr_pcbs _ _ Hfr t) as E. rewrite Hp in E. cbn in E.
    destruct (k_tasks s1 !! t) as [q|] eqn:Hq1; [|done]. assert (Em : t_magic p = t_magic q) by (by injection E).
    specialize (Hu t). rewrite Hq1 in Hu. cbn in Hu. destruct (k_tasks s !! t) as [q0|] eqn:Hq0; [|done].
    injection Hu as Hu. rewrite Em, Hu. by eapply H8.
Qed.

Lemma yield_fine s : sys_ok s -> fine (k_cur s) (back (k_cur s)) s (thread_yield s).
Proof.
  intros Hs. destruct (sys_ready s Hs) as [ts Hts]. destruct (sys_task s Hs) as [p Hp].
  destruct (sy_sched _ Hs) as [Hc Hr]. destruct (core_running _ Hc _ Hr) as [_ Hu].
  assert (Hpr : t_status p = TASK_RUNNING) by (unfold status in Hr; rewrite Hp in Hr; by injection Hr).
  unfold thread_yield. rewrite (cbind_atomic _ _ s (k_cur s) s) by done.
  rewrite (cbind_atomic _ _ _ _ _ (intr_disable_run s)), intr_off_fields.
  set (s0 := set_k_eflags (k_eflags (intr_off s)) s).
  rewrite (cbind_atomic _ _ s0 false s0).
  2: { rewrite (q_find_run s0 _ _ _ Hts). rewrite bool_decide_eq_false_2; [done|]. intros Hin.
    by apply (linked_not_unlinked _ _ _ _ Hts Hin). }
  rewrite (cbind_atomic _ _ s0 tt s0) by done.
  rewrite (cbind_atomic _ _ s0 tt _ (q_append_run s0 _ _ _ Hts Hu)).
  destruct (core_make_ready s0 (k_cur s) p (set_t_status TASK_READY p) ts (ts ++ [k_cur s])) as (Hc1 & Hr1 & Hst1);
    try done; [by apply core_eflags|rewrite Hpr; split; done|by right|].
  rewrite fmap_app in Hc1, Hst1.
  set (s1 := set_k_queues (<[thread_ready_list := (general_tag <$> ts) ++ [general_tag (k_cur s)]]> (k_queues s0)) s0).
  rewrite (cbind_atomic _ _ s1 tt _ (upd_task_run s1 (k_cur s) p _ Hp)).
  apply (fine_bind _ (back (k_cur s))); [|intros [] s2 [H1 H2]; rewrite <- H2].
  - eapply (fine_schedule s _ (ts ++ [k_cur s])); try done.
    + unfold intr_of. cbn. by rewrite intr_off_kbit.
    + unfold ready_is. cbn. by rewrite lookup_insert_eq, fmap_app.
    + intros t. cbn. destruct (decide (k_cur s = t)) as [<-|]; [by rewrite lookup_insert_eq, Hp|by rewrite lookup_insert_ne].
    + intros L HL. cbn. by rewrite lookup_insert_ne.
  - pose proof (sys_resume (intr_of s) (k_cur s2) s2 H1 eq_refl) as H. rewrite <- resume_run in H. exact H.
Qed.

(** Changes of a PCB that the scheduler does not look at, and of the tick counter. *)
Lemma status_same_pcb s t p q v : k_tasks s !! t = Some p -> t_status q = t_status p ->
  forall x, status (set_k_jiffies v (set_k_tasks (<[t := q]> (k_tasks s)) s)) x = status s x.
Proof.
  intros Hp Hq x. unfold status; cbn. destruct (decide (t = x)) as [<-|]; [|by rewrite lookup_insert_ne].
  rewrite lookup_insert_eq, Hp. cbn. by rewrite Hq.
Qed.

Lemma sys_same_pcb s t p q v :
  sys_ok s -> k_tasks s !! t = Some p -> t_status q = t_status p -> t_pgdir q = t_pgdir p -> t_magic q = t_magic p ->
  sys_ok (set_k_jiffies v (set_k_tasks (<[t := q]> (k_tasks s)) s)).
Proof.
  intros [[[Hcur (ts & Hr & Hrd) Hrun Hq (sti & Hidle & Hsti) Hpages] Hs] H2 H3 H4 H5 H6 H7 H8] Hp Hst Hpg Hm.
  pose proof (status_same_pcb s t p q v Hp Hst) as E. split; try done.
  - split; [split|]; cbn; try done.
    + destruct (decide (t = k_cur s)) as [->|]; [by rewrite lookup_insert_eq|by rewrite lookup_insert_ne].
    + exists ts. split; [done|]. intros x. by rewrite E.
    + intros x. rewrite E. apply Hrun.
    + exists sti. by rewrite E.
    + intros x y. destruct (decide (t = x)) as [<-|].
      * rewrite lookup_insert_eq. intros [= <-]. destruct (Hpages t p Hp) as (? & ? & Hd). split_and!; try done.
        by rewrite Hst, Hpg.
      * rewrite lookup_insert_ne by done. apply Hpages.
    + by rewrite E.
  - intros psema Hin. destruct (H6 psema Hin) as (? & ws & ? & Hb). split; [done|]. exists ws. split; [done|].
    intros x Hx. rewrite E. by apply Hb.
  - intros x y. cbn. destruct (decide (t = x)) as [<-|]; [rewrite lookup_insert_eq|rewrite lookup_insert_ne by done; apply H8].
    intros [= <-]. rewrite Hm. by eapply H8.
Qed.

Lemma timer_fine s : sys_ok s -> fine (k_cur s) (back (k_cur s)) s (timer_interrupt s).
Proof.
  intros Hs. destruct (sys_task s Hs) as [p Hp]. destruct (sys_ready s Hs) as [ts Hts].
  unfold timer_interrupt. rewrite (cbind_atomic _ _ s (k_eflags s) s) by done.
  set (s0 := set_k_eflags (Z.land (k_eflags s) (Z.lnot EFLAGS_IF)) s).
  rewrite (cbind_atomic _ _ s tt s0) by done. assert (Hs0 : sys_ok s0) by (by apply sys_eflags).
  apply (fine_bind _ (back (k_cur s))).
  2: { intros [] s2 [H1 H2]. eapply fine_atomic; [done|by intros L l|]. split; [by apply sys_eflags|done]. }
  unfold intr_timer_handler. rewrite (cbind_atomic _ _ s0 (k_cur s) s0) by done.
  rewrite (cbind_atomic _ _ s0 p s0) by (by apply get_task_run). rewrite (sy_magic _ Hs _ _ Hp), Z.eqb_refl.
  rewrite (cbind_atomic _ _ s0 tt s0) by done. set (q := set_t_elapsed (u32 (t_elapsed p + 1)) p).
  set (s1 := set_k_tasks (<[k_cur s := q]> (k_tasks s0)) s0). rewrite (cbind_atomic _ _ s0 tt s1) by done.
  set (s2 := set_k_jiffies (u32 (k_jiffies s1 + 1)) s1). rewrite (cbind_atomic _ _ s1 tt s2) by done.
  assert (Hs2 : sys_ok s2) by exact (sys_same_pcb s0 (k_cur s) p q _ Hs0 Hp eq_refl eq_refl eq_refl).
  destruct (t_ticks p =? 0).
  - apply (fine_from _ _ s s2); [by intros L l|].
    apply (fine_schedule s2 s2 ts); try done; [apply (sy_sched _ Hs2)|]. unfold intr_of. cbn.
    by rewrite Z.land_spec, andb_false_r.
  - eapply fine_atomic; [apply (upd_task_run s2 (k_cur s) q); cbn; by rewrite lookup_insert_eq|by intros L l|]. split; [|done].
    refine (sys_same_pcb s2 (k_cur s) q _ (k_jiffies s2) Hs2 _ _ _ _); try done. cbn. by rewrite lookup_insert_eq.
Qed.

Lemma idle_fine s : sys_ok s -> k_cur s = k_idle s -> fine (k_cur s) (back (k_cur s)) s (idle_round s).
Proof.
  intros Hs Hi. unfold idle_round. apply (fine_bind _ (back (k_cur s))); [by apply block_fine|].
  intros [] s2 [H1 H2]. eapply fine_atomic; [done|by intros L l|]. split; [by apply sys_eflags|done].
Qed.

(** ** Waking threads *)

(** A blocked thread that is in no queue is made ready. *)
Lemma sys_unblocked s t p ts :
  sys_ok s -> k_tasks s !! t = Some p -> may_block (t_status p) = true -> unlinked (k_queues s) (general_tag t) ->
  ready_is s ts -> sys_ok (unblocked t p (general_tag <$> ts) s).
Proof.
  intros Hs Hp Hmb Hu Hts. pose proof Hs as [[Hc Hr] H2 H3 H4 H5 H6 H7 H8].
  destruct (core_make_ready s t p (set_t_status TASK_READY p) ts (t :: ts)) as (Hc1 & Hr1 & Hst1); auto.
  { split; intros E; by rewrite E in Hmb. }
  assert (Hne : k_cur s <> t).
  { intros <-. unfold status in Hr. rewrite Hp in Hr. injection Hr as E. by rewrite E in Hmb. }
  split; try done.
  - split; [done|]. rewrite <- Hr. by apply Hst1.
  - intros psema Hin. destruct (H6 psema Hin) as (Hn & ws & Hws & Hb). split; [done|]. exists ws.
    split; [cbn; by rewrite lookup_insert_ne|]. intros x Hx. rewrite <- (Hb x Hx). apply Hst1. intros ->.
    by apply (linked_not_unlinked _ _ _ _ Hws (proj2 (tag_in_ready _ _) Hx)).
  - intros x y. cbn. destruct (decide (t = x)) as [<-|]; [rewrite lookup_insert_eq|rewrite lookup_insert_ne by done; apply H8].
    intros [= <-]. exact (H8 _ _ Hp).
Qed.

Lemma unblock_fine s t st :
  sys_ok s -> status s t = Some st -> may_block st = true -> unlinked (k_queues s) (general_tag t) ->
  fine (k_cur s) (back (k_cur s)) s (atomic (thread_unblock t) s).
Proof.
  intros Hs Hst Hmb Hu. destruct (sys_ready s Hs) as [ts Hts]. unfold status in Hst.
  destruct (k_tasks s !! t) as [p|] eqn:Hp; [|done]. injection Hst as <-.
  eapply fine_atomic; [by eapply thread_unblock_run|by intros L l|]. split; [by apply sys_unblocked|done].
Qed.

(** ** Semaphores *)

Lemma sys_set_value s psema v :
  sys_ok s -> psema ∈ sems -> v = 0 \/ v = 1 ->
  (v = 1 -> forall L l, k_locks s !! L = Some l -> psema = lock_semaphore L -> l = Lock 0 0) ->
  sys_ok (set_k_semas (<[psema := v]> (k_semas s)) s).
Proof.
  intros [H1 H2 H3 H4 H5 H6 H7 H8] Hin Hv Hl. split; try done.
  - by apply sched_ok_semas.
  - change (dom (<[psema := v]> (k_semas s)) = sems). rewrite dom_insert_L, H3. set_solver.
  - intros x y. cbn. destruct (decide (psema = x)) as [<-|]; [rewrite lookup_insert_eq; by intros [= <-]|].
    rewrite lookup_insert_ne by done. apply H5.
  - intros L l HL. cbn. destruct (decide (psema = lock_semaphore L)) as [E|Hne].
    + exists v. rewrite <- E, lookup_insert_eq. split; [done|]. intros Hv1. by eapply Hl.
    + rewrite lookup_insert_ne by done. by apply H7.
Qed.

Lemma sys_put_lock s L l :
  sys_ok s -> is_Some (k_locks s !! L) -> (k_semas s !! lock_semaphore L = Some 1 -> l = Lock 0 0) ->
  sys_ok (set_k_locks (<[L := l]> (k_locks s)) s).
Proof.
  intros [H1 H2 H3 H4 H5 H6 H7 H8] [l0 HL] Hl. split; try done.
  - by destruct H1 as [[] ?].
  - change (dom (<[L := l]> (k_locks s)) = lks). by rewrite dom_insert_lookup_L by done.
  - intros L' l'. cbn. destruct (decide (L = L')) as [<-|]; [rewrite lookup_insert_eq|rewrite lookup_insert_ne by done; apply H7].
    intros [= <-]. destruct (H7 _ _ HL) as (v & Hv & _). exists v. split; [done|]. intros ->. by apply Hl.
Qed.

Lemma get_value_run s psema v : k_semas s !! psema = Some v -> get_value psema s = Ok (v, s).
Proof. intros H. unfold get_value. by rewrite H. Qed.

Lemma sema_value s psema : sys_ok s -> psema ∈ sems -> k_semas s !! psema = Some 0 \/ k_semas s !! psema = Some 1.
Proof.
  intros Hs Hin. rewrite <- (sy_semas _ Hs) in Hin. apply elem_of_dom in Hin as [v Hv].
  destruct (sy_value _ Hs _ _ Hv) as [->| ->]; auto.
Qed.

(** The first waiter of a semaphore is taken out of its queue. *)
Lemma sys_popped s psema t ws :
  sys_ok s -> psema ∈ sems -> k_queues s !! sema_waiters psema = Some (general_tag <$> t :: ws) ->
  let s1 := set_k_queues (<[sema_waiters psema := general_tag <$> ws]> (k_queues s)) s in
  sys_ok s1 /\ unlinked (k_queues s1) (general_tag t) /\ status s t = Some TASK_BLOCKED.
Proof.
  intros [H1 H2 H3 H4 H5 H6 H7 H8] Hin Hws s1. destruct (H6 _ Hin) as (Hn & ws' & Hws' & Hb).
  rewrite Hws in Hws'. injection Hws' as E. assert (ws' = t :: ws) as ->.
  { symmetry. apply (list_fmap_eq_inj general_tag general_tag_inj). exact E. }
  destruct (sched_ok_pop s _ _ _ H1 Hn Hws) as [Hok Hu]. split_and!; [|done|apply Hb; by left].
  split; try done. intros p Hp. destruct (H6 _ Hp) as (Hn' & ws' & Hws' & Hb'). split; [done|]. cbn.
  destruct (decide (sema_waiters psema = sema_waiters p)) as [<-|Hne].
  - exists ws. rewrite lookup_insert_eq. split; [done|]. intros x Hx. apply Hb. by right.
  - exists ws'. rewrite lookup_insert_ne by done. by split.
Qed.

Lemma up_run s psema :
  sys_ok s -> k_semas s !! psema = Some 0 ->
  (forall L l, k_locks s !! L = Some l -> psema = lock_semaphore L -> l = Lock 0 0) ->
  exists s', sema_up psema s = Ok (tt, s') /\ sys_ok s' /\ k_cur s' = k_cur s /\ k_locks s' = k_locks s.
Proof.
  intros Hs Hv Hl. assert (Hin : psema ∈ sems) by (rewrite <- (sy_semas _ Hs); apply elem_of_dom; by exists 0).
  destruct (sy_wait _ Hs psema Hin) as (Hn & ws & Hws & Hb). destruct (sys_ready s Hs) as [ts Hts].
  assert (Hoff : sys_ok (intr_off s)) by (rewrite intr_off_fields; by apply sys_eflags).
  assert (H : exists s1, (if negb (bool_decide (general_tag <$> ws = [])) then
     tag <- q_pop (sema_waiters psema) ;; thread_unblock (general_entry tag) else kret tt) (intr_off s) = Ok (tt, s1) /\
     sys_ok s1 /\ k_semas s1 = k_semas s /\ k_locks s1 = k_locks s /\ k_cur s1 = k_cur s /\ k_eflags s1 = k_eflags (intr_off s)).
  { destruct ws as [|t ws]; cbn [fmap list_fmap].
    - exists (intr_off s). split; [done|]. rewrite intr_off_fields. split_and!; try done. rewrite <- intr_off_fields. done.
    - rewrite bool_decide_eq_false_2 by done. cbn [negb]. rewrite intr_off_fields in *.
      set (s0 := set_k_eflags (k_eflags (intr_off s)) s) in *.
      destruct (sys_popped s0 psema t ws Hoff Hin Hws) as (Hs1 & Hu & Hst).
      rewrite (kbind_ok _ _ _ _ _ (q_pop_run s0 _ _ _ Hws)), general_entry_tag.
      unfold status in Hst. destruct (k_tasks s0 !! t) as [p|] eqn:Hp; [|done]. injection Hst as Hst.
      set (s1 := set_k_queues (<[sema_waiters psema := general_tag <$> ws]> (k_queues s0)) s0) in *.
      assert (Hr : ready_is s1 ts) by (unfold ready_is in *; cbn; by rewrite lookup_insert_ne).
      eexists. split; [apply (thread_unblock_run s1 t p (general_tag <$> ts)); [done|by rewrite Hst|exact Hr|done]|].
      split; [apply sys_unblocked; [done..|by rewrite Hst|done|done]|done]. }
  destruct H as (s1 & R & Hs1 & Ev & El & Ec & Ef). eexists. split; [|split; [|split]].
  - eapply sema_up_run; [done|exact Hws|exact R|by rewrite Ev|done].
  - apply sys_eflags, sys_set_value; [done|done|by right|]. intros _. by rewrite El.
  - done.
  - done.
Qed.

(** The loop of [sema_down] ends with the semaphore free. *)
Lemma down_loop_fine f psema s t :
  sys_ok s -> k_cur s = t -> t <> idle -> psema ∈ sems ->
  fine t (fun _ s' => back t tt s' /\ k_semas s' !! psema = Some 1) s (down_loop f psema s).
Proof.
  intros Hs Ht Hi Hin. revert s Hs Ht. induction f as [|f IH]; intros s Hs Ht; [done|]. cbn [down_loop].
  destruct (sema_value s psema Hs Hin) as [Hv|Hv]; rewrite (cbind_atomic _ _ _ _ _ (get_value_run _ _ _ Hv)).
  2: { split; [by split|apply others_refl]. }
  rewrite Z.eqb_refl. destruct (sy_wait _ Hs psema Hin) as (Hn & ws & Hws & _).
  destruct (sys_ready s Hs) as [ts Hts]. destruct (sys_task s Hs) as [p Hp].
  destruct (sy_sched _ Hs) as [Hc Hr]. destruct (core_running _ Hc _ Hr) as [_ Hu].
  assert (Hci : k_cur s <> k_idle s) by (rewrite (sy_idle _ Hs); congruence).
  rewrite (cbind_atomic _ _ s (k_cur s) s) by done.
  rewrite (cbind_atomic _ _ s false s).
  2: { rewrite (q_find_run s _ _ _ Hws), bool_decide_eq_false_2; [done|]. intros H.
    by apply (linked_not_unlinked _ _ _ _ Hws H). }
  rewrite (cbind_atomic _ _ s tt s) by done. rewrite (cbind_return _ _ s tt s) by done.
  rewrite (cbind_atomic _ _ _ _ _ (q_append_run s _ _ _ Hws Hu)). rewrite Ht in *.
  set (s1 := set_k_queues _ s). apply (fine_bind _ (back t)).
  2: { intros [] s2 [H1 H2]. by apply IH. }
  apply (fine_block s s1 (Some (sema_waiters psema)) t TASK_BLOCKED ts p); try done.
  - intros L xs HL Hxs. cbn. case_decide as E.
    + injection E as <-. rewrite lookup_insert_eq. rewrite Hws in Hxs. by injection Hxs as <-.
    + rewrite lookup_insert_ne by congruence. by rewrite app_nil_r.
  - unfold ready_is in *. cbn. by rewrite lookup_insert_ne.
  - pose proof (core_wait s (sema_waiters psema) (general_tag <$> ws) p (sy_sched _ Hs)) as H.
    rewrite Ht in H. by apply H.
Qed.

(** [sema_down]: the semaphore is taken, and was free just before. *)
Lemma down_fine f psema s t :
  sys_ok s -> k_cur s = t -> t <> idle -> psema ∈ sems ->
  fine t (fun _ s' => back t tt s' /\ k_semas s' !! psema = Some 0 /\
    forall L l, k_locks s' !! L = Some l -> psema = lock_semaphore L -> l = Lock 0 0) s (sema_down f psema s).
Proof.
  intros Hs Ht Hi Hin. unfold sema_down. rewrite (cbind_atomic _ _ _ _ _ (intr_disable_run s)).
  rewrite intr_off_fields. apply (fine_bind _ (fun _ s' => back t tt s' /\ k_semas s' !! psema = Some 1)).
  - apply (fine_from _ _ _ (set_k_eflags (k_eflags (intr_off s)) s)); [by intros L l|].
    apply down_loop_fine; try done. by apply sys_eflags.
  - intros [] s2 [[H1 H2] Hv]. rewrite (take_semaphore_run _ _ _ Hv).
    assert (Hs3 : sys_ok (set_k_semas (<[psema := 0]> (k_semas s2)) s2)) by (apply sys_set_value; auto; done).
    assert (Hl : forall L l, k_locks s2 !! L = Some l -> psema = lock_semaphore L -> l = Lock 0 0).
    { intros L l HL ->. destruct (sy_lock _ H1 _ _ HL) as (v & Hv' & Hf). apply Hf. congruence. }
    assert (E : exists e, resume_with (intr_of s) (set_k_semas (<[psema := 0]> (k_semas s2)) s2) =
      Ok (Return tt, set_k_eflags e (set_k_semas (<[psema := 0]> (k_semas s2)) s2))).
    { unfold resume_with. destruct (intr_of s); [eexists; by rewrite intr_off_fields|].
      unfold intr_on. destruct (Z.testbit _ _); [|by eexists]. eexists (k_eflags s2). by destruct s2. }
    destruct E as [e ->]. split; [|by intros L l].
    split; [split; [by apply sys_eflags|done]|split; [apply lookup_insert_eq|exact Hl]].
Qed.

(** ** Locks *)

Lemma others_put t s0 s L l0 l :
  others t s0 s -> k_locks s !! L = Some l0 -> holder l0 = t \/ holder l0 = 0 ->
  others t s0 (set_k_locks (<[L := l]> (k_locks s)) s).
Proof.
  intros Ho HL Hh L' l' HL' Hn Ht. cbn. rewrite lookup_insert_ne; [by apply Ho|].
  intros <-. rewrite (Ho _ _ HL' Hn Ht) in HL. injection HL as ->. tauto.
Qed.

Lemma acquire_fine f L s :
  sys_ok s -> k_cur s <> k_idle s -> is_Some (k_locks s !! L) ->
  fine (k_cur s) (back (k_cur s)) s (lock_acquire f L s).
Proof.
  intros Hs Hi [l Hl]. pose proof Hs as [[Hc _] H2 H3 H4 _ _ H7 _].
  destruct (H7 _ _ Hl) as (v & Hv & Hfree). unfold lock_acquire.
  rewrite (cbind_atomic _ _ _ _ _ (get_lock_run _ _ _ Hl)). rewrite (cbind_atomic _ _ s (k_cur s) s) by done.
  destruct (core_cur _ Hc) as [p Hp]. destruct (core_pages _ Hc _ _ Hp) as (Hcur & _).
  destruct (Z.eqb_spec (holder l) (k_cur s)) as [Eh|Eh]; cbn [negb].
  - eapply fine_atomic; [done|eapply others_put; [apply others_refl|exact Hl|by left]|].
    split; [|done]. apply sys_put_lock; [done|by exists l|].
    intros Hv1. rewrite Hv in Hv1. injection Hv1 as ->. rewrite (Hfree eq_refl) in Eh. cbn in Eh. congruence.
  - assert (Hin : lock_semaphore L ∈ sems) by (rewrite <- H3; apply elem_of_dom; by exists v).
    eapply fine_bind; [apply (down_fine f (lock_semaphore L) s (k_cur s)); congruence || done|].
    cbn beta. intros [] s2 ([Hs2 Hc2] & Hv2 & Hl2).
    assert (HL2 : L ∈ dom (k_locks s2)) by (rewrite (sy_locks _ Hs2), <- H4; apply elem_of_dom; by exists l).
    apply elem_of_dom in HL2 as [l2 HL2]. pose proof (Hl2 _ _ HL2 eq_refl) as ->.
    rewrite (cbind_atomic _ _ s2 (k_cur s2) s2) by done. rewrite (cbind_atomic _ _ _ _ _ (get_lock_run _ _ _ HL2)).
    set (s3 := set_k_locks (<[L := Lock (k_cur s2) 0]> (k_locks s2)) s2).
    rewrite (cbind_atomic _ _ s2 tt s3) by done. rewrite (cbind_atomic _ _ s3 tt s3) by done.
    assert (Hv3 : k_semas s3 !! lock_semaphore L <> Some 1) by (cbn; rewrite Hv2; congruence).
    assert (Hs3 : sys_ok s3) by (apply sys_put_lock; [done|by eexists|done]).
    eapply fine_atomic; [done| |].
    { apply (others_put _ _ s3 L (Lock (k_cur s2) 0)); [|apply lookup_insert_eq|by left].
      eapply others_put; [apply others_refl|exact HL2|by right]. }
    split; [|done]. apply sys_put_lock; [done| |done].
    cbn. rewrite lookup_insert_eq. by eexists.
Qed.

Lemma release_fine L l s :
  sys_ok s -> k_locks s !! L = Some l -> holder l = k_cur s -> 1 <= holder_repeat_nr l ->
  fine (k_cur s) (back (k_cur s)) s (atomic (lock_release L) s).
Proof.
  intros Hs Hl Hh Hr. pose proof Hs as [[Hc _] _ H3 _ H5 _ H7 _]. destruct (H7 _ _ Hl) as (v & Hv & Hfree).
  destruct (core_cur _ Hc) as [p Hp]. destruct (core_pages _ Hc _ _ Hp) as (Hcur & _).
  assert (v = 0) as ->.
  { destruct (H5 _ _ Hv) as [->| ->]; [done|]. rewrite (Hfree eq_refl) in Hh. cbn in Hh. congruence. }
  assert (H : exists s', lock_release L s = Ok (tt, s') /\ sys_ok s' /\ k_cur s' = k_cur s /\ others (k_cur s) s s').
  { unfold lock_release. rewrite (kbind_ok _ _ _ _ _ (get_lock_run _ _ _ Hl)).
    rewrite (kbind_ok _ _ s (k_cur s) s) by done. rewrite (proj2 (Z.eqb_eq _ _) Hh).
    rewrite (kbind_ok _ _ s tt s) by done. destruct (Z.ltb_spec 1 (holder_repeat_nr l)) as [Hgt|Hle].
    - eexists. split; [done|]. split; [|split; [done|eapply others_put; [apply others_refl|exact Hl|by left]]].
      apply sys_put_lock; [done|by eexists|]. rewrite Hv. congruence.
    - rewrite (proj2 (Z.eqb_eq _ 1)) by lia. rewrite (kbind_ok _ _ s tt s) by done.
      set (s1 := set_k_locks (<[L := Lock 0 0]> (k_locks s)) s). rewrite (kbind_ok _ _ s tt s1) by done.
      destruct (up_run s1 (lock_semaphore L)) as (s' & R & Hs' & Hc' & El).
      + apply sys_put_lock; [done|by eexists|done].
      + exact Hv.
      + intros L' l'. cbn. intros HL' E. assert (L' = L) as -> by (unfold lock_semaphore in E; lia).
        rewrite lookup_insert_eq in HL'. by injection HL'.
      + exists s'. split; [exact R|]. split; [done|]. split; [done|]. apply (others_eq _ _ s1); [|done].
        eapply others_put; [apply others_refl|exact Hl|by left]. }
  destruct H as (s' & R & Hs' & Hc' & Ho). eapply fine_atomic; [exact R|exact Ho|by split].
Qed.

(** ** Configurations *)

Lemma call_fine s m : sys_ok s -> call s m -> fine (k_cur s) (back (k_cur s)) s (m s).
Proof.
  intros Hs [|
    |Hi|st Hi Hmb|t st Hst Hmb Hu|fuel psema Hi [v Hv]|psema Hv Hl|fuel L Hi HL|L l HL Hh Hr|st].
  - by apply timer_fine.
  - by apply yield_fine.
  - by apply idle_fine.
  - by apply block_fine.
  - by eapply unblock_fine.
  - eapply fine_weaken; [apply (down_fine fuel psema s (k_cur s)); [done|done|rewrite <- (sy_idle _ Hs); done|]|by intros [] s' [? _]].
    rewrite <- (sy_semas _ Hs). apply elem_of_dom. by eexists.
  - destruct (up_run s psema) as (s' & R & Hs' & Hc' & El); [done|done| |].
    { intros L l HL E. destruct (Hl L); [by eexists|done]. }
    eapply fine_atomic; [exact R|by apply (others_eq _ _ s); [apply others_refl|]|by split].
  - by apply acquire_fine.
  - by eapply release_fine.
  - assert (H : exists e, intr_set_status st s = Ok (intr_of s, set_k_eflags e s)).
    { unfold intr_set_status. destruct st; [rewrite intr_disable_run|rewrite intr_enable_run].
      - eexists. by rewrite intr_off_fields.
      - unfold intr_on. destruct (Z.testbit _ _); [exists (k_eflags s); by destruct s|by eexists]. }
    destruct H as [e He]. eapply fine_atomic; [by rewrite (kbind_ok _ _ _ _ _ He)|by intros L l|].
    split; [by apply sys_eflags|done].
Qed.

(** The shared state is consistent, and what each suspended thread goes on with is safe. *)
Definition cfg_ok (c : config) : Prop :=
  sys_ok (c_state c) /\ forall t k, c_rest c !! t = Some k -> safe t (back t) k.

Lemma runs_fine c m : cfg_ok c -> runs c m ->
  fine (k_cur (c_state c)) (back (k_cur (c_state c))) (c_state c) (m (c_state c)).
Proof.
  intros [Hs Hk] Hr. unfold runs in Hr. destruct (c_rest c !! k_cur (c_state c)) as [k|] eqn:E.
  - subst m. apply safe_fine; [by apply Hk|done|done].
  - by apply call_fine.
Qed.

Lemma step_ok c c' : cfg_ok c -> step c c' -> cfg_ok c' /\ others (k_cur (c_state c)) (c_state c) (c_state c').
Proof.
  intros Hc Hstep. pose proof Hc as [_ Hk].
  destruct Hstep as [c m s' Hr E|c m k s' Hr E]; pose proof (runs_fine c m Hc Hr) as Hf; rewrite E in Hf; cbn in *.
  - destruct Hf as [[Hs' _] Ho]. split; [|exact Ho]. split; [exact Hs'|]. cbn.
    intros t k [_ H]%lookup_delete_Some. by apply Hk.
  - destruct Hf as (Hs' & Ho & Hsafe). split; [|exact Ho]. split; [exact Hs'|]. cbn.
    intros t k' [[<- <-]|[_ H]]%lookup_insert_Some; [exact Hsafe|by apply Hk].
Qed.
End threads.

Section reachable.
Context {P : Type} `{!KernelPages P}.
Implicit Types (s : kst P) (c : config (P := P)).

(** The invariant of a kernel, for the semaphores, the locks and the idle thread it has. *)
Definition consistent s : Prop := sys_ok (dom (k_semas s)) (dom (k_locks s)) (k_idle s) s.

Lemma reachable_ok s c : consistent s -> rtc step (Cfg s ∅) c ->
  cfg_ok (dom (k_semas s)) (dom (k_locks s)) (k_idle s) c.
Proof.
  intros Hs Hr. assert (H : cfg_ok (dom (k_semas s)) (dom (k_locks s)) (k_idle s) (Cfg s ∅)).
  { split; [exact Hs|]. intros t k H. cbn in H. by rewrite lookup_empty in H. }
  revert Hr H. generalize (Cfg s ∅) as c0. intros c0 Hr H. induction Hr as [|c1 c2 c Hstep _ IH]; [exact H|]. apply IH. exact (proj1 (step_ok _ _ _ _ _ H Hstep)).
Qed.

(** C16: the invariant of the threads.  Started with consistent data, the kernel keeps it
    consistent through every interleaving of its threads' calls and of timer interrupts:
    exactly the READY threads are in the ready list and only the thread on the processor is
    RUNNING, no thread is in two queues, every semaphore is 0 or 1 and its waiters are
    BLOCKED threads, and a lock whose semaphore is free has no holder. *)
Theorem thread_system_invariant s c : consistent s -> rtc step (Cfg s ∅) c -> consistent (c_state c).
Proof.
  intros Hs Hr. destruct (reachable_ok s c Hs Hr) as [H _]. unfold consistent.
  by rewrite (sy_semas _ _ _ _ H), (sy_locks _ _ _ _ H), (sy_idle _ _ _ _ H).
Qed.


End reachable.

(** ** Two threads and a lock *)

(** One step, by running the code. *)
Definition after {P} (m : CM (kst P) unit) (c : config (P := P)) : config :=
  match m (c_state c) with
  | Ok (Return _, s) => Cfg s (delete (k_cur (c_state c)) (c_rest c))
  | Ok (Suspended k, s) => Cfg s (<[k_cur (c_state c) := k]> (c_rest c))
  | Err _ => c
  end.
Definition succeeds {P} (m : CM (kst P) unit) (c : config (P := P)) : bool :=
  match m (c_state c) with Ok _ => true | Err _ => false end.

Lemma step_after {P} `{!KernelPages P} (m : CM (kst P) unit) c :
  runs c m -> succeeds m c = true -> step c (after m c).
Proof.
  unfold succeeds, after. intros Hr. destruct (m (c_state c)) as [[[[]|k] s]|e] eqn:E; intros H; [| |done].
  - by apply StepReturn with m.
  - by apply StepSwitch with m.
Qed.

Lemma runs_call {P} `{!KernelPages P} (m : CM (kst P) unit) c :
  bool_decide (is_Some (c_rest c !! k_cur (c_state c))) = false -> call (c_state c) m -> runs c m.
Proof.
  intros H%bool_decide_eq_false Hc. unfold runs. destruct (c_rest c !! _); [|done]. by destruct H.
Qed.

(** The thread at 0x1000 takes the lock, is interrupted at the end of its time slice, and the
    thread at 0x2000 wants the lock. *)
Definition sample_threads : kst unit := sample_lock (Lock 0 0) 1 [].
Definition sample_cfg0 : config := Cfg sample_threads ∅.
Definition sample_cfg1 : config := after (lock_acquire 2 0x9000) sample_cfg0.
Definition sample_cfg2 : config := after timer_interrupt sample_cfg1.
Definition sample_cfg3 : config := after (lock_acquire 2 0x9000) sample_cfg2.

Lemma sample_consistent : consistent sample_threads.
Proof.
  split; try done.
  - apply sample_lock_ok. by left.
  - intros psema v. cbn. intros [<- <-]%lookup_singleton_Some. by right.
  - intros psema Hin. assert (psema = 0x9004) as -> by set_solver. split; [done|]. exists []. split; [done|].
    intros t Ht. by apply not_elem_of_nil in Ht.
  - intros L l. cbn. intros [<- <-]%lookup_singleton_Some. by exists 1.
  - intros t p Hp%sample_tasks. naive_solver.
Qed.

Lemma sample_step1 : step sample_cfg0 sample_cfg1.
Proof.
  apply step_after; [|by vm_compute]. apply runs_call; [by vm_compute|]. apply CallAcquire; [done|]. by eexists.
Qed.
Lemma sample_step2 : step sample_cfg1 sample_cfg2.
Proof. apply step_after; [|by vm_compute]. apply runs_call; [by vm_compute|]. apply CallTimer. Qed.
Lemma sample_runs3 : runs sample_cfg2 (lock_acquire 2 0x9000).
Proof. apply runs_call; [by vm_compute|]. apply CallAcquire; [by vm_compute|]. apply (bool_decide_unpack _). by vm_compute. Qed.
Lemma sample_reachable : rtc step sample_cfg0 sample_cfg2.
Proof. eapply rtc_l; [exact sample_step1|]. eapply rtc_l; [exact sample_step2|]. apply rtc_refl. Qed.

Lemma thread_system_invariant_witness : k_cur (c_state sample_cfg2) = 0x2000 /\ consistent (c_state sample_cfg2).
Proof. split; [by vm_compute|]. exact (thread_system_invariant _ _ sample_consistent sample_reachable). Defined.


