(* ===== verification/Task.v ===== *)
(** * Task: the life of a thread (thread/thread.c, userprog/wait_exit.c)

    The pid pool, the creation of a thread ([init_thread], [thread_create],
    [thread_start]), the file descriptors of a PCB, the end of a thread ([thread_exit])
    and the parent's and the child's side of it ([sys_wait], [sys_exit]).  What
    [sys_exit] releases of the process's memory and files is behind the interface
    [ProcessResources]. *)

From S2P Require Import Prelude Bitmap Interrupt DList Sched Sync.

(** The addresses of the lock of the pid pool and of [kernel_thread]: any values. *)
Definition pid_lock : Z := 0xc0001020.
Definition kernel_thread : Z := 0xc0001500.

(** [sizeof(struct intr_stack)], [sizeof(struct thread_stack)]. *)
Definition sizeof_intr_stack : Z := 76.
Definition sizeof_thread_stack : Z := 32.

Definition set_t_pid (v : Z) (s : task) : task :=
  Task (t_kstack s) v (t_status s) (t_name s) (t_priority s) (t_ticks s) (t_elapsed s) (t_fd s) (t_pgdir s) (t_vaddr s) (t_cwd s) (t_parent s) (t_exit s) (t_magic s).
Definition set_t_name (v : list Z) (s : task) : task :=
  Task (t_kstack s) (t_pid s) (t_status s) v (t_priority s) (t_ticks s) (t_elapsed s) (t_fd s) (t_pgdir s) (t_vaddr s) (t_cwd s) (t_parent s) (t_exit s) (t_magic s).

Definition zero_task : task :=
  Task 0 0 TASK_RUNNING (replicate 16 0) 0 0 0 (replicate 8 0) 0 (VAddr 0 0 0) 0 0 0 0.

(** What [realease_prog_resource] does to the rest of the kernel. *)
Class ProcessResources (P : Type) : Type := {
  release_resources : task -> P -> outcome P
}.

(** Two ways to write a state of the kernel, or a PCB, are the same. *)
Ltac same_state :=
  cbv [set_k_eflags set_k_cur set_k_tasks set_k_queues set_k_semas set_k_locks set_k_stack set_k_pids set_k_pages
       set_k_cr3 set_k_esp0 set_k_jiffies set_t_kstack set_t_pid set_t_status set_t_name set_t_ticks set_t_elapsed
       set_t_fd set_t_pgdir set_t_vaddr set_t_parent set_t_exit];
  cbn [k_eflags k_cur k_tasks k_queues k_semas k_locks k_stack k_idle k_main k_pids k_pages k_cr3 k_esp0 k_jiffies
       t_kstack t_pid t_status t_name t_priority t_ticks t_elapsed t_fd t_pgdir t_vaddr t_cwd t_parent t_exit t_magic];
  reflexivity.

Section task.
Context {P : Type} `{!KernelPages P}.

(** ** Pids *)

Definition pid_start : Z := 1.

(** [pid_bitmap.bits] is the array [pid_bitmap_bits]. *)
Definition pid_pool_init : KM (kst P) unit :=
  s <- kget ;;
  b <- klift (bitmap_init (Bitmap 128 (bits (k_pids s)))) ;;
  kmod (set_k_pids b) ;;;
  lock_init pid_lock.

Definition allocate_pid (fuel : nat) : CM (kst P) Z :=
  lock_acquire fuel pid_lock ;~;
  bit_idx <~ atomic (s <- kget ;; klift (bitmap_scan (k_pids s) 1)) ;;
  atomic (s <- kget ;;
          b <- klift (bitmap_set (k_pids s) (u32 bit_idx) 1) ;;
          kmod (set_k_pids b)) ;~;
  atomic (lock_release pid_lock) ;~;
  cret (i16 (bit_idx + pid_start)).

Definition release_pid (fuel : nat) (pid : Z) : CM (kst P) unit :=
  lock_acquire fuel pid_lock ;~;
  (let bit_idx := i32 (u32 (pid - pid_start)) in
   atomic (s <- kget ;;
           b <- klift (bitmap_set (k_pids s) (u32 bit_idx) 0) ;;
           kmod (set_k_pids b))) ;~;
  atomic (lock_release pid_lock).

Definition fork_pid (fuel : nat) : CM (kst P) Z := allocate_pid fuel.

(** ** Creating a thread *)

(** [pthread->name] is a buffer of 16 bytes; [strcpy] stops before the final 0. *)
Definition init_thread (fuel : nat) (pthread : Z) (name : list Z) (prio : Z) : CM (kst P) unit :=
  atomic (if pthread =? 0 then kfail OutOfBounds else put_task pthread zero_task) ;~;
  pid <~ allocate_pid fuel ;;
  main_thread <~ atomic (kreads k_main) ;;
  p <~ atomic (get_task pthread) ;;
  name' <~ atomic (klift (splice (t_name p) 0 name)) ;;
  atomic (put_task pthread
    (Task (u32 (pthread + PG_SIZE)) pid
       (if pthread =? main_thread then TASK_RUNNING else TASK_READY)
       name' (u8 prio) (u8 prio) 0
       ([0; 1; 2] ++ replicate (Z.to_nat (MAX_FILES_OPEN_PER_PROC - 3)) (-1))
       0 (t_vaddr p) 0 (-1) (t_exit p) STACK_MAGIC)).

Definition put_word (a v : Z) : KM (kst P) unit :=
  kmod (fun s => set_k_stack (<[a := v]> (k_stack s)) s).

(** [self_kstack] points to 32-bit words: [-=] a size moves it four times as far. *)
Definition thread_create (pthread function func_arg : Z) : KM (kst P) unit :=
  upd_task pthread (fun p => set_t_kstack (u32 (t_kstack p - 4 * sizeof_intr_stack)) p) ;;;
  upd_task pthread (fun p => set_t_kstack (u32 (t_kstack p - 4 * sizeof_thread_stack)) p) ;;;
  p <- get_task pthread ;;
  let kthread_stack := t_kstack p in
  put_word (kthread_stack + 16) kernel_thread ;;;
  put_word (kthread_stack + 28) func_arg ;;;
  put_word (kthread_stack + 24) function ;;;
  put_word kthread_stack 0 ;;;
  put_word kthread_stack 0 ;;;
  put_word (kthread_stack + 8) 0 ;;;
  put_word (kthread_stack + 12) 0.

Definition thread_start (fuel : nat) (name : list Z) (prio function func_arg : Z) : CM (kst P) Z :=
  thread <~ atomic (kpages (get_kernel_pages 1)) ;;
  init_thread fuel thread name prio ;~;
  atomic (thread_create thread function func_arg) ;~;
  r <~ atomic (q_find thread_ready_list (general_tag thread)) ;;
  atomic (ASSERT (negb r)) ;~;
  atomic (q_append thread_ready_list (general_tag thread)) ;~;
  a <~ atomic (q_find thread_all_list (all_list_tag thread)) ;;
  atomic (ASSERT (negb a)) ;~;
  atomic (q_append thread_all_list (all_list_tag thread)) ;~;
  cret thread.

(** ** File descriptors *)

Fixpoint fd_install_loop (fuel : nat) (fd_table : list Z) (fd_idx idx : Z)
  : outcome (Z * list Z) :=
  match fuel with
  | O => Err Diverges
  | S fuel =>
      if idx <? MAX_FILES_OPEN_PER_PROC then
        let? v := rd fd_table idx in
        if v =? -1 then
          let? l := wr fd_table idx (i32 fd_idx) in Ok (idx, l)
        else fd_install_loop fuel fd_table fd_idx (u32 (idx + 1))
      else Ok (-1, fd_table)
  end.

Definition pcb_fd_install (fd_idx : Z) : KM (kst P) Z :=
  cur_thread <- running_thread ;;
  p <- get_task cur_thread ;;
  r <- klift (fd_install_loop 6 (t_fd p) fd_idx 3) ;;
  put_task cur_thread (set_t_fd r.2 p) ;;;
  kret r.1.

(** ** Looking threads up *)

(** [list_traversal] on a queue: the first element the callback accepts, or 0. *)
Fixpoint traverse (f : Z -> KM (kst P) bool) (xs : list Z) : KM (kst P) Z :=
  match xs with
  | [] => kret 0
  | x :: xs => hit <- f x ;; if (hit : bool) then kret x else traverse f xs
  end.
Definition q_traversal (L : Z) (f : Z -> KM (kst P) bool) : KM (kst P) Z :=
  xs <- q_list L ;; traverse f xs.

Definition pid_check (pid pelem : Z) : KM (kst P) bool :=
  p <- get_task (all_list_entry pelem) ;; kret (t_pid p =? pid).

Definition pid2thread (pid : Z) : KM (kst P) Z :=
  pelem <- q_traversal thread_all_list (pid_check pid) ;;
  if pelem =? 0 then kret 0 else kret (all_list_entry pelem).

(** ** The end of a thread *)

Definition thread_exit (fuel : nat) (thread_over : Z) (need_schedule : bool) : CM (kst P) unit :=
  atomic intr_disable ;~;
  atomic (upd_task thread_over (set_t_status TASK_DIED)) ;~;
  r <~ atomic (q_find thread_ready_list (general_tag thread_over)) ;;
  (if (r : bool) then atomic (q_remove (general_tag thread_over)) else cret tt) ;~;
  p <~ atomic (get_task thread_over) ;;
  (if t_pgdir p =? 0 then cret tt
   else atomic (kpages (fun pg => let? pg' := mfree_kernel_page (t_pgdir p) 1 pg in Ok (tt, pg')))) ;~;
  atomic (q_remove (all_list_tag thread_over)) ;~;
  main_thread <~ atomic (kreads k_main) ;;
  (if thread_over =? main_thread then cret tt
   else atomic (kpages (fun pg => let? pg' := mfree_kernel_page thread_over 1 pg in Ok (tt, pg')))) ;~;
  p <~ atomic (get_task thread_over) ;;
  release_pid fuel (t_pid p) ;~;
  (if need_schedule then schedule ;~; atomic PANIC else cret tt).

Definition find_child (ppid pelem : Z) : KM (kst P) bool :=
  p <- get_task (all_list_entry pelem) ;; kret (t_parent p =? ppid).

Definition find_hanging_child (ppid pelem : Z) : KM (kst P) bool :=
  p <- get_task (all_list_entry pelem) ;;
  kret ((t_parent p =? ppid) && bool_decide (t_status p = TASK_HANGING)).

Definition init_adopt_a_child (pid pelem : Z) : KM (kst P) bool :=
  let pthread := all_list_entry pelem in
  p <- get_task pthread ;;
  if t_parent p =? pid then put_task pthread (set_t_parent 1 p) ;;; kret true
  else kret false.

(** The loop of [sys_wait]: the pid and the exit status of the child, or [-1] and no
    status.  [fuel] bounds how often the parent is woken. *)
Fixpoint wait_loop (fuel : nat) (parent_thread : Z) : CM (kst P) (Z * option Z) :=
  match fuel with
  | O => atomic (kfail Diverges)
  | S fuel =>
      parent <~ atomic (get_task parent_thread) ;;
      child_elem <~ atomic (q_traversal thread_all_list (find_hanging_child (t_pid parent))) ;;
      if negb (child_elem =? 0) then
        let child_thread := all_list_entry child_elem in
        child <~ atomic (get_task child_thread) ;;
        thread_exit fuel child_thread false ;~;
        cret (i16 (u16 (t_pid child)), Some (t_exit child))
      else
        child_elem <~ atomic (q_traversal thread_all_list (find_child (t_pid parent))) ;;
        if child_elem =? 0 then cret (-1, None)
        else thread_block TASK_WAITING ;~; wait_loop fuel parent_thread
  end.

Definition sys_wait (fuel : nat) : CM (kst P) (Z * option Z) :=
  parent_thread <~ atomic running_thread ;;
  wait_loop fuel parent_thread.

Definition sys_exit `{!ProcessResources P} (exit_status : Z) : CM (kst P) unit :=
  child_thread <~ atomic running_thread ;;
  atomic (upd_task child_thread (set_t_exit (i8 exit_status))) ;~;
  child <~ atomic (get_task child_thread) ;;
  (if t_parent child =? -1 then atomic PANIC else cret tt) ;~;
  atomic (q_traversal thread_all_list (init_adopt_a_child (t_pid child))) ;~;
  atomic (kpages (fun pg => let? pg' := release_resources child pg in Ok (tt, pg'))) ;~;
  child <~ atomic (get_task child_thread) ;;
  parent_thread <~ atomic (pid2thread (t_parent child)) ;;
  parent <~ atomic (get_task parent_thread) ;;
  (if decide (t_status parent = TASK_WAITING) then atomic (thread_unblock parent_thread)
   else cret tt) ;~;
  thread_block TASK_HANGING.

(** ** The PCB of a thread that is being created *)

(** The state with the PCB [c] at [t]. *)
Definition with_task (t : Z) (c : task) (s : kst P) : kst P := set_k_tasks (<[t := c]> (k_tasks s)) s.

(** The state of a run that has given the new thread the PCB [c], the stack words [m], the pid
    map [b] and the pages [p]. *)
Definition created (child : Z) (c : task) (m : gmap Z Z) (b : bitmap) (p : P) (s : kst P) : kst P :=
  with_task child c (set_k_pages p (set_k_pids b (set_k_stack m s))).

Lemma cbind_upd {A} t f c (s : kst P) (k : unit -> CM (kst P) A) :
  cbind (atomic (upd_task t f)) k (with_task t c s) = k tt (with_task t (f c) s).
Proof.
  apply cbind_atomic. rewrite (upd_task_run _ _ c) by (cbn; apply lookup_insert_eq).
  unfold with_task; cbn. by rewrite insert_insert_eq.
Qed.

Lemma cbind_get {A} t c (s : kst P) (k : task -> CM (kst P) A) :
  cbind (atomic (get_task t)) k (with_task t c s) = k c (with_task t c s).
Proof. apply cbind_atomic, get_task_run. cbn. apply lookup_insert_eq. Qed.

Lemma kpages_run {A} (f : P -> outcome (A * P)) (s : kst P) a p :
  f (k_pages s) = Ok (a, p) -> kpages f s = Ok (a, set_k_pages p s).
Proof. intros H. unfold kpages. by rewrite H. Qed.

(** The state with a new thread at the end of the two lists. *)
Definition enqueued (child : Z) (ts all : list Z) (s : kst P) : kst P :=
  set_k_queues (<[thread_all_list := all ++ [all_list_tag child]]>
    (<[thread_ready_list := ts ++ [general_tag child]]> (k_queues s))) s.

Lemma enqueue_run {A} (s : kst P) child ts all (k : CM (kst P) A) :
  k_queues s !! thread_ready_list = Some ts -> k_queues s !! thread_all_list = Some all ->
  unlinked (k_queues s) (general_tag child) -> unlinked (k_queues s) (all_list_tag child) ->
  (f <~ atomic (q_find thread_ready_list (general_tag child)) ;;
   atomic (ASSERT (negb f)) ;~;
   atomic (q_append thread_ready_list (general_tag child)) ;~;
   a <~ atomic (q_find thread_all_list (all_list_tag child)) ;;
   atomic (ASSERT (negb a)) ;~;
   atomic (q_append thread_all_list (all_list_tag child)) ;~;
   k) s = k (enqueued child ts all s).
Proof.
  intros Hts Hall Ur Ua. rewrite (cbind_atomic _ _ s false s).
  2: { rewrite (q_find_run s _ ts) by exact Hts. rewrite bool_decide_eq_false_2; [done|].
    intros Hin. exact (linked_not_unlinked _ _ _ _ Hts Hin Ur). }
  rewrite (cbind_atomic _ _ s tt s) by done.
  set (s3 := set_k_queues (<[thread_ready_list := ts ++ [general_tag child]]> (k_queues s)) s).
  rewrite (cbind_atomic _ _ s tt s3) by exact (q_append_run s _ _ _ Hts Ur).
  assert (Hall3 : k_queues s3 !! thread_all_list = Some all) by (cbn; by rewrite lookup_insert_ne).
  assert (Ua3 : unlinked (k_queues s3) (all_list_tag child)).
  { cbn. eapply unlinked_insert; [done|exact Hts|]. rewrite elem_of_app. intros [?|Hin]; [done|].
    apply list_elem_of_singleton in Hin. unfold all_list_tag, general_tag in Hin. lia. }
  rewrite (cbind_atomic _ _ s3 false s3).
  2: { rewrite (q_find_run s3 _ all) by exact Hall3. rewrite bool_decide_eq_false_2; [done|].
    intros Hin. exact (linked_not_unlinked _ _ _ _ Hall3 Hin Ua3). }
  rewrite (cbind_atomic _ _ s3 tt s3) by done.
  by rewrite (cbind_atomic _ _ s3 tt _ (q_append_run s3 _ _ _ Hall3 Ua3)).
Qed.

(** ** The pid pool *)

(** A lock nobody holds or waits for. *)
Definition lock_free (s : kst P) (L : Z) : Prop :=
  k_locks s !! L = Some (Lock 0 0) /\ k_semas s !! lock_semaphore L = Some 1 /\
  k_queues s !! sema_waiters (lock_semaphore L) = Some [] /\ k_cur s <> 0.

Definition pids_ok (s : kst P) : Prop :=
  bitmap_ok (k_pids s) /\ btmp_bytes_len (k_pids s) = 128.

Definition pid_used (s : kst P) (pid : Z) : bool := bit_at (k_pids s) (pid - 1).

Lemma allocate_pid_run s f :
  lock_free s pid_lock -> pids_ok s -> (exists pid, 1 <= pid <= 1024 /\ pid_used s pid = false) ->
  exists pid b, allocate_pid (S f) s = Ok (Return pid, set_k_pids b s) /\ 1 <= pid <= 1024 /\
    pid_used s pid = false /\ (forall q, 1 <= q < pid -> pid_used s q = true) /\
    pids_ok (set_k_pids b s) /\
    (forall q, 1 <= q -> pid_used (set_k_pids b s) q = if decide (q = pid) then true else pid_used s q).
Proof.
  intros Hfree [Hok Hlen] (pid0 & Hp0 & Hu0).
  destruct (bitmap_alloc_one (k_pids s) Hok) as (r & b & Hscan & Hset & Hr & Hc & Hs & Hok' & Hl' & _ & Hb).
  { exists (pid0 - 1). unfold bit_len. rewrite Hlen. split; [lia|exact Hu0]. }
  unfold bit_len in Hr. rewrite Hlen in Hr. exists (r + 1), b.
  destruct Hfree as (Hl & Hv & Hw & Hcur). split_and!; try lia.
  - unfold allocate_pid. set (s1 := held pid_lock 1 s).
    rewrite (cbind_return _ _ s tt s1) by (by apply acquire_free).
    rewrite (cbind_atomic _ _ s1 r s1).
    2: { unfold kbind, kget, klift. change (k_pids s1) with (k_pids s). by rewrite Hscan. }
    rewrite (cbind_atomic _ _ s1 tt (set_k_pids b s1)).
    2: { unfold kbind, kget, klift. change (k_pids s1) with (k_pids s).
      rewrite u32_small by lia. by rewrite Hset. }
    rewrite (cbind_atomic _ _ _ tt (set_k_pids b s)).
    2: { by apply (release_last (set_k_pids b s)). }
    unfold cret, pid_start, i16. do 3 f_equal. rewrite Z.mod_small by lia. lia.
  - unfold pid_used. by replace (r + 1 - 1) with r by lia.
  - intros q Hq. apply Hs. lia.
  - split; [done|]. simpl. congruence.
  - intros q Hq. unfold pid_used; simpl. rewrite Hb by lia.
    repeat case_decide; try done; lia.
Qed.

Lemma release_pid_run s f pid :
  lock_free s pid_lock -> pids_ok s -> 1 <= pid <= 1024 ->
  exists b, release_pid (S f) pid s = Ok (Return tt, set_k_pids b s) /\ pids_ok (set_k_pids b s) /\
    (forall q, 1 <= q -> pid_used (set_k_pids b s) q = if decide (q = pid) then false else pid_used s q).
Proof.
  intros (Hl & Hv & Hw & Hcur) [Hok Hlen] Hp. pose proof (bm_len _ Hok).
  destruct (bitmap_set_at (k_pids s) (pid - 1) false Hok) as (b & Hset & Hok' & Hl' & _ & Hb); [lia|].
  exists b. split_and!.
  - unfold release_pid. set (s1 := held pid_lock 1 s).
    rewrite (cbind_return _ _ s tt s1) by (by apply acquire_free).
    rewrite (cbind_atomic _ _ s1 tt (set_k_pids b s1)).
    2: { unfold kbind, kget, klift. change (k_pids s1) with (k_pids s). unfold pid_start.
      rewrite i32_u32, u32_i32, u32_small by lia. cbn in Hset. by rewrite Hset. }
    unfold atomic. change (set_k_pids b s1) with (held pid_lock 1 (set_k_pids b s)).
    by rewrite (release_last (set_k_pids b s)).
  - split; [done|]. simpl. congruence.
  - intros q Hq. unfold pid_used; simpl. rewrite Hb by lia. repeat case_decide; try done; lia.
Qed.

(** Pids.  When a pid is free, [allocate_pid] returns the smallest free one, between
    1 and 1024, and marks exactly that one used; [release_pid] of it makes it free again
    and changes no other; both leave the lock of the pool as they found it. *)
Theorem pid_pool_spec s f :
  lock_free s pid_lock -> pids_ok s -> (exists pid, 1 <= pid <= 1024 /\ pid_used s pid = false) ->
  exists pid s1 s2, allocate_pid (S f) s = Ok (Return pid, s1) /\
    1 <= pid <= 1024 /\ pid_used s pid = false /\ (forall q, 1 <= q < pid -> pid_used s q = true) /\
    (forall q, 1 <= q -> pid_used s1 q = bool_decide (q = pid) || pid_used s q) /\
    lock_free s1 pid_lock /\ pids_ok s1 /\
    release_pid (S f) pid s1 = Ok (Return tt, s2) /\
    (forall q, 1 <= q -> pid_used s2 q = pid_used s q) /\ lock_free s2 pid_lock /\ pids_ok s2.
Proof.
  intros Hfree Hok Hex.
  destruct (allocate_pid_run s f Hfree Hok Hex) as (pid & b & H1 & H2 & H3 & H4 & H5 & H6).
  assert (Hfree1 : lock_free (set_k_pids b s) pid_lock) by exact Hfree.
  destruct (release_pid_run _ f pid Hfree1 H5 H2) as (b2 & H7 & H8 & H9).
  eexists pid, _, _. split_and!; try eassumption; try lia.
  - intros q Hq. rewrite H6 by done. case_decide as Hd; [by rewrite bool_decide_eq_true_2|].
    by rewrite bool_decide_eq_false_2.
  - intros q Hq. rewrite H9, H6 by done. case_decide; [congruence|done].
Qed.

(** ** Thread creation *)

(** The frame [thread_create] leaves at [self_kstack]: what [switch_to] pops, the return
    address, and the arguments of [kernel_thread]. *)
Definition frame_at (m : gmap Z Z) (sp function func_arg : Z) : Prop :=
  m !! sp = Some 0 /\ m !! (sp + 8) = Some 0 /\ m !! (sp + 12) = Some 0 /\
  m !! (sp + 16) = Some kernel_thread /\ m !! (sp + 24) = Some function /\
  m !! (sp + 28) = Some func_arg.

Lemma thread_create_run s t p function func_arg :
  k_tasks s !! t = Some p -> 432 <= t_kstack p < 2 ^ 32 ->
  exists m, thread_create t function func_arg s
    = Ok (tt, set_k_stack m (set_k_tasks (<[t := set_t_kstack (t_kstack p - 432) p]> (k_tasks s)) s)) /\
    frame_at m (t_kstack p - 432) function func_arg.
Proof.
  intros Hp Hk. unfold thread_create, sizeof_intr_stack, sizeof_thread_stack.
  set (q1 := set_t_kstack (u32 (t_kstack p - 4 * 76)) p).
  set (s1 := set_k_tasks (<[t := q1]> (k_tasks s)) s).
  rewrite (kbind_ok _ _ s tt s1) by exact (upd_task_run _ _ _ _ Hp).
  set (sp := t_kstack p - 432).
  set (s2 := set_k_tasks (<[t := set_t_kstack sp p]> (k_tasks s)) s).
  rewrite (kbind_ok _ _ s1 tt s2).
  2: { rewrite (upd_task_run s1 t q1) by (unfold s1; simpl; by rewrite lookup_insert_eq).
    unfold s1, s2, q1, sp, set_t_kstack; simpl. rewrite insert_insert_eq.
    rewrite (u32_small (t_kstack p - 4 * 76)) by lia. rewrite u32_small by lia.
    by replace (t_kstack p - 4 * 76 - 4 * 32) with (t_kstack p - 432) by lia. }
  rewrite (kbind_ok _ _ s2 (set_t_kstack sp p) s2).
  2: { apply get_task_run. unfold s2; simpl. by rewrite lookup_insert_eq. }
  cbn [t_kstack set_t_kstack]. eexists. split; [reflexivity|].
  unfold frame_at; simpl.
  split_and!; repeat (rewrite lookup_insert_ne by lia); apply lookup_insert_eq.
Qed.

(** The PCB [init_thread] leaves. *)
Definition init_task (t pid : Z) (st : task_status) (name : list Z) (prio : Z) : task :=
  Task (t + PG_SIZE) pid st (name ++ replicate (16 - length name) 0) prio prio 0
    [0; 1; 2; -1; -1; -1; -1; -1] 0 (VAddr 0 0 0) 0 (-1) 0 STACK_MAGIC.

Lemma init_thread_run s f t name prio pid b :
  t <> 0 -> (length name <= 16)%nat -> 0 <= t <= 2 ^ 32 - 2 * PG_SIZE ->
  0 <= prio < 256 ->
  allocate_pid (S f) (set_k_tasks (<[t := zero_task]> (k_tasks s)) s)
  = Ok (Return pid, set_k_pids b (set_k_tasks (<[t := zero_task]> (k_tasks s)) s)) ->
  init_thread (S f) t name prio s = Ok (Return tt,
    set_k_pids b (set_k_tasks (<[t := init_task t pid (if t =? k_main s then TASK_RUNNING else TASK_READY) name prio]>
      (k_tasks s)) s)).
Proof.
  intros Ht Hn Hb Hpr Hal. unfold init_thread.
  set (s1 := set_k_tasks (<[t := zero_task]> (k_tasks s)) s) in *.
  rewrite (cbind_atomic _ _ s tt s1) by (by rewrite (proj2 (Z.eqb_neq _ _) Ht)).
  rewrite (cbind_return _ _ _ _ _ Hal). set (s2 := set_k_pids b s1).
  rewrite (cbind_atomic _ _ s2 (k_main s) s2) by done.
  rewrite (cbind_atomic _ _ s2 zero_task s2).
  2: { apply get_task_run. unfold s2, s1; simpl. by rewrite lookup_insert_eq. }
  rewrite (cbind_atomic _ _ s2 (name ++ replicate (16 - length name) 0) s2).
  2: { unfold klift, zero_task. cbn [t_name]. rewrite splice_Ok by (rewrite ?length_replicate; lia).
    change (Z.to_nat 0) with 0%nat. rewrite take_0, Nat.add_0_l, drop_replicate. done. }
  rewrite u8_small by lia.
  unfold init_task, PG_SIZE in *. rewrite u32_small by lia.
  unfold atomic, put_task, kmod, s2, s1, set_k_tasks, set_k_pids; simpl.
  by rewrite insert_insert_eq.
Qed.

(** The PCB of a new kernel thread. *)
Definition new_task (t pid : Z) (name : list Z) (prio : Z) : task :=
  set_t_kstack (t + 3664) (init_task t pid TASK_READY name prio).

Lemma thread_start_run s f ts all name prio function func_arg t pg :
  k_queues s !! thread_ready_list = Some ts -> k_queues s !! thread_all_list = Some all ->
  lock_free s pid_lock -> pids_ok s -> (exists pid, 1 <= pid <= 1024 /\ pid_used s pid = false) ->
  get_kernel_pages 1 (k_pages s) = Ok (t, pg) -> 0 < t <= 2 ^ 32 - 2 * PG_SIZE -> t <> k_main s ->
  unlinked (k_queues s) (general_tag t) -> unlinked (k_queues s) (all_list_tag t) ->
  (length name <= 16)%nat -> 0 <= prio < 256 ->
  exists pid b m, thread_start (S f) name prio function func_arg s
      = Ok (Return t, enqueued t ts all (created t (new_task t pid name prio) m b pg s)) /\
    1 <= pid <= 1024 /\ pid_used s pid = false /\ (forall q, 1 <= q < pid -> pid_used s q = true) /\
    pids_ok (set_k_pids b s) /\
    (forall q, 1 <= q -> pid_used (set_k_pids b s) q = if decide (q = pid) then true else pid_used s q) /\
    frame_at m (t + 3664) function func_arg.
Proof.
  intros Hts Hall Hfree Hpids Hex Hpg Ht Hm Hu Hua Hn Hpr.
  set (s1 := set_k_pages pg s). set (s2 := set_k_tasks (<[t := zero_task]> (k_tasks s1)) s1).
  destruct (allocate_pid_run s2 f Hfree Hpids Hex) as (pid & b & Ha & Hpid & Hfresh & Hleast & Hok & Hused).
  pose proof (init_thread_run s1 f t name prio pid b) as Hinit. change (k_main s1) with (k_main s) in Hinit.
  rewrite (proj2 (Z.eqb_neq _ _) Hm) in Hinit. specialize (Hinit ltac:(lia) Hn ltac:(lia) Hpr Ha).
  set (c := init_task t pid TASK_READY name prio) in *.
  set (s3 := set_k_pids b (set_k_tasks (<[t := c]> (k_tasks s1)) s1)) in *.
  assert (Ek : t_kstack c - 432 = t + 3664) by (cbn; unfold PG_SIZE; lia).
  destruct (thread_create_run s3 t c function func_arg) as (m & Hcr & Hframe); [apply lookup_insert_eq| |].
  { cbn. unfold PG_SIZE in *. lia. }
  rewrite Ek in Hcr, Hframe.
  exists pid, b, m. split; [|by repeat (split; [assumption|])].
  unfold thread_start. rewrite (cbind_atomic _ _ s t s1) by (unfold kpages; by rewrite Hpg).
  rewrite (cbind_return _ _ _ _ _ Hinit), (cbind_atomic _ _ _ _ _ Hcr).
  match goal with |- cbind _ _ ?st = _ => rewrite (enqueue_run st t ts all _ Hts Hall Hu Hua) end. unfold cret, created, with_task, new_task, s3; cbn.
  by rewrite insert_insert_eq.
Qed.

(** [thread_start].  The new thread has a PCB of its own with a fresh pid, the given
    name, priority and time slice, the standard descriptors and no others, and a kernel
    stack inside its page from which [switch_to] returns into
    [kernel_thread(function, func_arg)]; it is READY at the end of the ready list and at
    the end of the list of all threads; the scheduler's invariant holds. *)
Theorem thread_start_spec s ts all f name prio function func_arg t pg :
  sched_ok s -> ready_is s ts -> k_queues s !! thread_all_list = Some all ->
  lock_free s pid_lock -> pids_ok s -> (exists pid, 1 <= pid <= 1024 /\ pid_used s pid = false) ->
  get_kernel_pages 1 (k_pages s) = Ok (t, pg) ->
  (forall a pa, addr_v2p a (k_pages s) = Ok pa -> addr_v2p a pg = Ok pa) ->
  0 < t <= 2 ^ 32 - 2 * PG_SIZE -> t mod PG_SIZE = 0 -> k_tasks s !! t = None -> t <> k_main s ->
  unlinked (k_queues s) (general_tag t) -> unlinked (k_queues s) (all_list_tag t) ->
  (length name <= 16)%nat -> 0 <= prio < 256 ->
  exists s' pid p, thread_start (S f) name prio function func_arg s = Ok (Return t, s') /\
    sched_ok s' /\ ready_is s' (ts ++ [t]) /\
    k_queues s' !! thread_all_list = Some (all ++ [all_list_tag t]) /\
    pid_used s pid = false /\ pid_used s' pid = true /\ k_tasks s' !! t = Some p /\
    p = Task (t + 3664) pid TASK_READY (name ++ replicate (16 - length name) 0) prio prio 0
          [0; 1; 2; -1; -1; -1; -1; -1] 0 (VAddr 0 0 0) 0 (-1) 0 STACK_MAGIC /\
    frame_at (k_stack s') (t_kstack p) function func_arg.
Proof.
  intros [Hc Hs] Hts Hall Hfree Hpids Hex Hpg Hv2p Ht Hal Hnone Hm Hu Hua Hn Hpr.
  assert (Hne : k_cur s <> t) by (intros E; unfold status in Hs; rewrite E, Hnone in Hs; done).
  destruct (thread_start_run s f _ all name prio function func_arg t pg Hts Hall Hfree Hpids Hex Hpg Ht Hm Hu Hua Hn Hpr)
    as (pid & b & m & R & Hpid & Hfresh & _ & _ & Hused & Hframe).
  set (p := new_task t pid name prio) in *. set (s4 := created t p m b pg s) in *.
  set (s5 := set_k_queues (<[thread_ready_list := general_tag <$> (ts ++ [t])]> (k_queues s)) s4).
  assert (Hall5 : k_queues s5 !! thread_all_list = Some all) by (cbn; by rewrite lookup_insert_ne).
  assert (Hua5 : unlinked (k_queues s5) (all_list_tag t)).
  { unfold s5; simpl. eapply unlinked_insert; [done|exact Hts|].
    rewrite fmap_app, elem_of_app. intros [?|Hin]; [done|].
    apply list_elem_of_singleton in Hin. unfold all_list_tag, general_tag in Hin. lia. }
  assert (Hcore5 : core s5).
  { destruct (core_add_ready s t p ts (ts ++ [t])) as [Hc5 _]; auto.
    - unfold status. by rewrite Hnone.
    - split_and!; [lia|done|by left].
    - eapply core_other; [exact Hc5|done|done|done|done|exact Hv2p]. }
  assert (Eq : enqueued t (general_tag <$> ts) all s4 = set_k_queues (<[thread_all_list := all ++ [all_list_tag t]]> (k_queues s5)) s5).
  { unfold enqueued, s5. cbn. by rewrite fmap_app. }
  eexists _, pid, p. split; [exact R|]. rewrite Eq. split_and!.
  - split; [by apply core_all_append|].
    unfold status, s5, s4; simpl. rewrite !lookup_insert_ne by done. exact Hs.
  - unfold ready_is, s5; simpl. by rewrite lookup_insert_ne, lookup_insert_eq.
  - simpl. by rewrite lookup_insert_eq.
  - exact Hfresh.
  - change (pid_used (set_k_pids b s) pid = true). rewrite Hused by lia. by rewrite decide_True.
  - simpl. by rewrite lookup_insert_eq.
  - done.
  - exact Hframe.
Qed.

(** ** File descriptors *)

Lemma fd_install_loop_spec fuel l fd idx :
  Z.of_nat (length l) = MAX_FILES_OPEN_PER_PROC -> 0 <= idx <= MAX_FILES_OPEN_PER_PROC ->
  MAX_FILES_OPEN_PER_PROC - idx < Z.of_nat fuel ->
  (exists i, idx <= i < MAX_FILES_OPEN_PER_PROC /\ rd l i = Ok (-1) /\
     (forall j, idx <= j < i -> rd l j <> Ok (-1)) /\
     fd_install_loop fuel l fd idx = Ok (i, <[Z.to_nat i := i32 fd]> l)) \/
  ((forall j, idx <= j < MAX_FILES_OPEN_PER_PROC -> rd l j <> Ok (-1)) /\
   fd_install_loop fuel l fd idx = Ok (-1, l)).
Proof.
  unfold MAX_FILES_OPEN_PER_PROC. intros Hlen. revert idx.
  induction fuel as [|fuel IH]; intros idx Hidx Hf; [lia|]. simpl.
  unfold MAX_FILES_OPEN_PER_PROC. destruct (Z.ltb_spec idx 8) as [Hlt|Hge].
  2: { right. split; [lia|done]. }
  destruct (rd_lt l idx) as [v Hv]; [lia|]. rewrite Hv. simpl.
  destruct (Z.eqb_spec v (-1)) as [->|Hne].
  - left. exists idx. rewrite wr_Ok by lia. split_and!; try done; lia.
  - rewrite u32_small by lia. destruct (IH (idx + 1)) as [(i & Hi & Hr & Hj & Heq)|[Hj Heq]]; [lia..| |].
    + left. exists i. split_and!; try done; try lia. intros j Hj'.
      destruct (decide (j = idx)) as [->|]; [congruence|apply Hj; lia].
    + right. split; [|done]. intros j Hj'.
      destruct (decide (j = idx)) as [->|]; [congruence|apply Hj; lia].
Qed.

(** [pcb_fd_install] stores the global descriptor in the first free slot of the
    running thread's table after the three standard ones and returns that slot; when all
    are taken it returns -1 and changes nothing. *)
Theorem pcb_fd_install_spec s p fd :
  k_tasks s !! k_cur s = Some p -> Z.of_nat (length (t_fd p)) = MAX_FILES_OPEN_PER_PROC ->
  (exists i, 3 <= i < MAX_FILES_OPEN_PER_PROC /\ rd (t_fd p) i = Ok (-1) /\
     (forall j, 3 <= j < i -> rd (t_fd p) j <> Ok (-1)) /\
     pcb_fd_install fd s = Ok (i, set_k_tasks
       (<[k_cur s := set_t_fd (<[Z.to_nat i := i32 fd]> (t_fd p)) p]> (k_tasks s)) s)) \/
  ((forall j, 3 <= j < MAX_FILES_OPEN_PER_PROC -> rd (t_fd p) j <> Ok (-1)) /\
   pcb_fd_install fd s = Ok (-1, s)).
Proof.
  intros Hp Hlen. unfold pcb_fd_install.
  rewrite (kbind_ok _ _ s (k_cur s) s) by done.
  rewrite (kbind_ok _ _ _ _ _ (get_task_run _ _ _ Hp)).
  destruct (fd_install_loop_spec 6 (t_fd p) fd 3 Hlen) as [(i & Hi & Hr & Hj & Heq)|[Hj Heq]];
    [unfold MAX_FILES_OPEN_PER_PROC; lia..| |].
  - left. exists i. split_and!; try done; try lia.
    by rewrite (kbind_ok _ _ s (i, <[Z.to_nat i := i32 fd]> (t_fd p)) s) by (unfold klift; by rewrite Heq).
  - right. split; [done|].
    rewrite (kbind_ok _ _ s (-1, t_fd p) s) by (unfold klift; by rewrite Heq). simpl.
    unfold put_task, kmod, kbind, kret. do 2 f_equal.
    replace (set_t_fd (t_fd p) p) with p by (by destruct p).
    rewrite insert_id by done. by destruct s.
Qed.

(** ** Parents and children *)

Lemma all_list_entry_tag t : all_list_entry (all_list_tag t) = t.
Proof. unfold all_list_entry, all_list_tag. lia. Qed.

Lemma all_list_tag_inj t t' : all_list_tag t = all_list_tag t' -> t = t'.
Proof. unfold all_list_tag. lia. Qed.

(** A traversal whose callback only looks. *)
Lemma traverse_find s f (g : Z -> bool) xs :
  (forall x, x ∈ xs -> f x s = Ok (g x, s)) ->
  traverse f xs s = Ok (hd 0 (List.filter g xs), s).
Proof.
  induction xs as [|x xs IH]; intros Hf; [done|]. simpl.
  rewrite (kbind_ok _ _ s (g x) s) by (apply Hf; constructor).
  destruct (g x); [done|]. apply IH. intros y Hy. apply Hf. by constructor.
Qed.

(** The predicate of a callback that looks at the PCB. *)
Definition on_task (s : kst P) (g : task -> bool) (tag : Z) : bool :=
  match k_tasks s !! all_list_entry tag with Some p => g p | None => false end.

Lemma q_traversal_find s L ts (g : task -> bool) :
  k_queues s !! L = Some (all_list_tag <$> ts) -> (forall t, t ∈ ts -> is_Some (k_tasks s !! t)) ->
  q_traversal L (fun pelem => p <- get_task (all_list_entry pelem) ;; kret (g p)) s
  = Ok (hd 0 (List.filter (on_task s g) (all_list_tag <$> ts)), s).
Proof.
  intros HL Hts. unfold q_traversal, q_list. rewrite (kbind_ok _ _ s (all_list_tag <$> ts) s).
  2: { by rewrite HL. }
  apply traverse_find. intros x Hx. apply list_elem_of_fmap in Hx as (t & -> & Ht).
  destruct (Hts t Ht) as [p Hp]. unfold on_task. rewrite all_list_entry_tag, Hp.
  by rewrite (kbind_ok _ _ _ _ _ (get_task_run _ _ _ Hp)).
Qed.

(** The adoption of orphans.  [list_traversal] stops at the first element its
    callback accepts, so when a process exits only the first of its children in the list
    of all threads is given to init; the other children keep the pid of the dead parent. *)
Theorem adopts_only_first_child s ts1 c ts2 pid p :
  k_queues s !! thread_all_list = Some (all_list_tag <$> (ts1 ++ c :: ts2)) ->
  (forall t, t ∈ ts1 -> exists q, k_tasks s !! t = Some q /\ t_parent q <> pid) ->
  k_tasks s !! c = Some p -> t_parent p = pid ->
  q_traversal thread_all_list (init_adopt_a_child pid) s
  = Ok (all_list_tag c, set_k_tasks (<[c := set_t_parent 1 p]> (k_tasks s)) s).
Proof.
  intros HL H1 Hc Hpar. unfold q_traversal, q_list.
  rewrite (kbind_ok _ _ s (all_list_tag <$> (ts1 ++ c :: ts2)) s) by (by rewrite HL). clear HL.
  induction ts1 as [|t ts1 IH]; simpl.
  - unfold init_adopt_a_child at 1. rewrite all_list_entry_tag.
    rewrite (kbind_ok _ _ s true (set_k_tasks (<[c := set_t_parent 1 p]> (k_tasks s)) s)); [done|].
    rewrite (kbind_ok _ _ _ _ _ (get_task_run _ _ _ Hc)). by rewrite Hpar, Z.eqb_refl.
  - destruct (H1 t) as (q & Hq & Hne); [constructor|].
    rewrite (kbind_ok _ _ s false s).
    + apply IH. intros t' Ht'. apply H1. by constructor.
    + unfold init_adopt_a_child. rewrite all_list_entry_tag.
      rewrite (kbind_ok _ _ _ _ _ (get_task_run _ _ _ Hq)). by rewrite (proj2 (Z.eqb_neq _ _) Hne).
Qed.

(** The state after a hanging thread was taken out of the kernel. *)
Lemma core_reap s c cp al1 al2 pg b v :
  sched_ok s -> k_tasks s !! c = Some cp -> t_status cp = TASK_HANGING ->
  k_queues s !! thread_all_list = Some (all_list_tag <$> (al1 ++ c :: al2)) ->
  (forall x p a, k_tasks s !! x = Some p -> x <> c ->
     addr_v2p (t_pgdir p) (k_pages s) = Ok a -> addr_v2p (t_pgdir p) pg = Ok a) ->
  let s' := set_k_pids b (set_k_pages pg (set_k_queues
    (<[thread_all_list := all_list_tag <$> (al1 ++ al2)]> (k_queues s))
    (set_k_tasks (<[c := set_t_status TASK_DIED cp]> (k_tasks s)) (set_k_eflags v s)))) in
  sched_ok s' /\ (forall x, x <> c -> status s' x = status s x).
Proof.
  intros [[Hcur (ts & Hr & Hrd) Hrun Hq (sti & Hidle & Hst) Hpages] Hs] Hc Hh Hall Hv2p s'.
  assert (Hsc : status s c = Some TASK_HANGING) by (unfold status; by rewrite Hc, <- Hh).
  assert (Hstat : forall x, status s' x = if decide (c = x) then Some TASK_DIED else status s x).
  { intros x. unfold status, s'; simpl. case_decide as H; [subst x; by rewrite lookup_insert_eq|].
    by rewrite lookup_insert_ne. }
  rewrite fmap_app in Hall. simpl in Hall.
  destruct (queues_ok_take _ _ _ _ _ Hq Hall) as [Hq' _]. rewrite <- fmap_app in Hq'.
  assert (Hunl : forall e, unlinked (k_queues s) e -> unlinked (k_queues s') e).
  { intros e He. unfold s'; simpl. eapply unlinked_insert; [done|exact Hall|].
    rewrite fmap_app, !elem_of_app, elem_of_cons. tauto. }
  assert (Hncur : c <> k_cur s) by congruence.
  assert (Hnid : c <> k_idle s) by (intros ->; naive_solver).
  split; [|intros x Hx; rewrite Hstat; by rewrite decide_False].
  split; [|change (k_cur s') with (k_cur s); rewrite Hstat; by rewrite decide_False].
  split.
  - unfold s'; simpl. by rewrite lookup_insert_ne.
  - exists ts. split; [unfold ready_is, s'; simpl; by rewrite lookup_insert_ne|].
    intros t. rewrite Hstat, Hrd. case_decide; [subst|done]. rewrite Hsc. split; intros [=].
  - intros t. rewrite Hstat. case_decide; [done|]. intros Ht. destruct (Hrun t Ht). auto.
  - exact Hq'.
  - exists sti. change (k_idle s') with (k_idle s). rewrite Hstat, decide_False by done.
    split; [done|]. destruct Hst as [?|[?|[? ?]]]; auto.
  - intros t p. unfold s' at 1; simpl. destruct (decide (c = t)) as [<-|Hne].
    + rewrite lookup_insert_eq. intros [= <-]. destruct (Hpages _ _ Hc) as (? & ? & _).
      split_and!; try done.
    + rewrite lookup_insert_ne by done. intros Hp. destruct (Hpages _ _ Hp) as (? & ? & Hpg).
      split_and!; try done. intros Hd. destruct (Hpg Hd) as [?|[a Ha]]; [by left|right].
      exists a. by apply (Hv2p t p).
Qed.

Lemma thread_exit_run s f c cp ts al1 al2 pg1 pg2 :
  sched_ok s -> ready_is s ts -> k_tasks s !! c = Some cp -> t_status cp = TASK_HANGING ->
  k_queues s !! thread_all_list = Some (all_list_tag <$> (al1 ++ c :: al2)) ->
  c <> k_main s -> lock_free s pid_lock -> pids_ok s -> 1 <= t_pid cp <= 1024 ->
  (if t_pgdir cp =? 0 then Ok (k_pages s) else mfree_kernel_page (t_pgdir cp) 1 (k_pages s)) = Ok pg1 ->
  mfree_kernel_page c 1 pg1 = Ok pg2 ->
  exists b, thread_exit (S f) c false s = Ok (Return tt,
      set_k_pids b (set_k_pages pg2 (set_k_queues
        (<[thread_all_list := all_list_tag <$> (al1 ++ al2)]> (k_queues s))
        (set_k_tasks (<[c := set_t_status TASK_DIED cp]> (k_tasks s))
          (set_k_eflags (k_eflags (intr_off s)) s))))) /\
    (forall q, 1 <= q -> bit_at b (q - 1) = if decide (q = t_pid cp) then false else pid_used s q).
Proof.
  intros [Hcore Hs] Hts Hc Hh Hall Hm Hfree Hpids Hpid Hpg1 Hpg2.
  assert (Hnr : general_tag c ∉ general_tag <$> ts).
  { rewrite tag_in_ready. destruct (core_ready _ Hcore) as (ts0 & Hr0 & Hrd). unfold ready_is in *.
    rewrite Hts in Hr0. injection Hr0 as Hr0.
    apply (list_fmap_eq_inj general_tag general_tag_inj) in Hr0 as <-.
    rewrite Hrd. unfold status. rewrite Hc; simpl. rewrite Hh. by intros [=]. }
  set (cp' := set_t_status TASK_DIED cp).
  set (s0 := set_k_eflags (k_eflags (intr_off s)) s).
  set (s1 := set_k_tasks (<[c := cp']> (k_tasks s)) s0).
  assert (Hp1 : k_tasks s1 !! c = Some cp') by (unfold s1; simpl; by rewrite lookup_insert_eq).
  set (s2 := set_k_pages pg1 s1).
  set (s3 := set_k_queues (<[thread_all_list := all_list_tag <$> (al1 ++ al2)]> (k_queues s)) s2).
  set (s4 := set_k_pages pg2 s3).
  destruct (release_pid_run s4 f (t_pid cp)) as (b & Hrel & _ & Hb); [|exact Hpids|done|].
  { destruct Hfree as (H1 & H2 & H3 & H4). split_and!; try done. unfold s4, s3; simpl.
    by rewrite lookup_insert_ne. }
  exists b. split; [|exact Hb].
  unfold thread_exit. rewrite (cbind_atomic _ _ s (intr_of s) s0).
  2: { unfold s0. rewrite <- intr_off_fields. apply intr_disable_run. }
  rewrite (cbind_atomic _ _ s0 tt s1) by exact (upd_task_run s0 c cp _ Hc).
  rewrite (cbind_atomic _ _ s1 false s1).
  2: { rewrite (q_find_run s1 _ (general_tag <$> ts)) by exact Hts.
    by rewrite bool_decide_eq_false_2. }
  rewrite (cbind_return _ _ s1 tt s1) by done.
  rewrite (cbind_atomic _ _ s1 cp' s1) by (by apply get_task_run).
  change (t_pgdir cp') with (t_pgdir cp).
  rewrite (cbind_return _ _ s1 tt s2).
  2: { destruct (t_pgdir cp =? 0).
    - by injection Hpg1 as <-.
    - unfold atomic, kpages. change (k_pages s1) with (k_pages s). by rewrite Hpg1. }
  rewrite (cbind_atomic _ _ s2 tt s3).
  2: { unfold q_remove, run_queue, kbind. change (k_queues s2) with (k_queues s).
    rewrite fmap_app in Hall. simpl in Hall.
    rewrite (queue_remove _ _ _ _ _ (core_queues _ Hcore) Hall).
    unfold kret, s3. by rewrite fmap_app. }
  rewrite (cbind_atomic _ _ s3 (k_main s) s3) by done.
  rewrite (proj2 (Z.eqb_neq _ _) Hm).
  rewrite (cbind_atomic _ _ s3 tt s4).
  2: { unfold kpages. change (k_pages s3) with pg1. by rewrite Hpg2. }
  rewrite (cbind_atomic _ _ s4 cp' s4) by (by apply get_task_run).
  by rewrite (cbind_return _ _ _ _ _ Hrel).
Qed.

(** The first child, in the order of the list of all threads, that satisfies [g]. *)
Definition first_child (s : kst P) (g : task -> bool) (al1 : list Z) (c : Z) : Prop :=
  (forall t, t ∈ al1 -> on_task s g (all_list_tag t) = false) /\ on_task s g (all_list_tag c) = true.

Definition hanging_child (ppid : Z) (p : task) : bool :=
  (t_parent p =? ppid) && bool_decide (t_status p = TASK_HANGING).

Lemma filter_first s g al1 c al2 :
  first_child s g al1 c ->
  hd 0 (List.filter (on_task s g) (all_list_tag <$> (al1 ++ c :: al2))) = all_list_tag c.
Proof.
  intros [H1 Hc]. induction al1 as [|t al1 IH]; simpl.
  - by rewrite Hc.
  - rewrite H1 by constructor. apply IH. intros t' Ht'. apply H1. by constructor.
Qed.

Lemma filter_none s g al :
  (forall t, t ∈ al -> on_task s g (all_list_tag t) = false) ->
  hd 0 (List.filter (on_task s g) (all_list_tag <$> al)) = 0.
Proof.
  induction al as [|t al IH]; intros H; [done|]. simpl. rewrite H by constructor.
  apply IH. intros t' Ht'. apply H. by constructor.
Qed.

End task.

(** ** A concrete kernel with a pid pool *)

Definition sample_pids : kst unit :=
  set_k_pids (Bitmap 128 (3 :: replicate 127 0)) (set_k_locks {[pid_lock := Lock 0 0]}
    (set_k_semas {[lock_semaphore pid_lock := 1]}
      (set_k_queues (<[sema_waiters (lock_semaphore pid_lock) := []]> (k_queues (sample_kernel 0)))
        (sample_kernel 0)))).

Lemma sample_pids_ok : sched_ok sample_pids.
Proof.
  destruct (sample_ok 0) as [[Hcur (ts & Hr & Hrd) Hrun Hq (sti & Hidle & Hst) Hpages] Hs].
  assert (Hu : forall t, t = 0x1000 \/ t = 0x3000 -> unlinked (k_queues sample_pids) (general_tag t)).
  { intros t Ht. apply (bool_decide_unpack _). destruct Ht as [-> | ->]; by vm_compute. }
  split; [|done]. split.
  - exact Hcur.
  - by exists ts.
  - intros t Ht. destruct (Hrun t Ht) as [-> _]. split; [done|]. apply Hu. by left.
  - apply queues_ok_check, (bool_decide_unpack _). by vm_compute.
  - exists TASK_BLOCKED. split; [by vm_compute|]. right; right. split; [done|]. apply Hu. by right.
  - exact Hpages.
Qed.

Lemma sample_pids_lock : lock_free sample_pids pid_lock.
Proof. by split_and!; vm_compute. Qed.

Lemma sample_pids_pool : pids_ok sample_pids.
Proof.
  split; [|done]. split; simpl; [|lia|lia].
  repeat (apply list.Forall_cons; split; [lia|]). constructor.
Qed.

Lemma sample_pids_free : exists pid, 1 <= pid <= 1024 /\ pid_used sample_pids pid = false.
Proof. exists 3. by vm_compute. Qed.

Lemma pid_pool_spec_witness :
  exists pid s1 s2, allocate_pid 1 sample_pids = Ok (Return pid, s1) /\
    1 <= pid <= 1024 /\ pid_used sample_pids pid = false /\
    (forall q, 1 <= q < pid -> pid_used sample_pids q = true) /\
    (forall q, 1 <= q -> pid_used s1 q = bool_decide (q = pid) || pid_used sample_pids q) /\
    lock_free s1 pid_lock /\ pids_ok s1 /\
    release_pid 1 pid s1 = Ok (Return tt, s2) /\
    (forall q, 1 <= q -> pid_used s2 q = pid_used sample_pids q) /\ lock_free s2 pid_lock /\ pids_ok s2.
Proof.
  apply (pid_pool_spec sample_pids 0); [apply sample_pids_lock|apply sample_pids_pool|apply sample_pids_free].
Defined.

Lemma thread_start_spec_witness :
  exists s' pid p, thread_start 1 [105; 100] 31 0x8000 0 sample_pids = Ok (Return 0xc0100000, s') /\
    sched_ok s' /\ ready_is s' ([0x2000] ++ [0xc0100000]) /\
    k_queues s' !! thread_all_list = Some (map all_list_tag [0x1000; 0x2000; 0x3000; 0x4000]
                                            ++ [all_list_tag 0xc0100000]) /\
    pid_used sample_pids pid = false /\ pid_used s' pid = true /\ k_tasks s' !! 0xc0100000 = Some p /\
    p = Task (0xc0100000 + 3664) pid TASK_READY ([105; 100] ++ replicate 14 0) 31 31 0
          [0; 1; 2; -1; -1; -1; -1; -1] 0 (VAddr 0 0 0) 0 (-1) 0 STACK_MAGIC /\
    frame_at (k_stack s') (t_kstack p) 0x8000 0.
Proof.
  apply (thread_start_spec sample_pids [0x2000] _ 0 [105; 100] 31 0x8000 0 0xc0100000 tt).
  - apply sample_pids_ok.
  - by vm_compute.
  - by vm_compute.
  - apply sample_pids_lock.
  - apply sample_pids_pool.
  - apply sample_pids_free.
  - done.
  - done.
  - by vm_compute.
  - by vm_compute.
  - by vm_compute.
  - by vm_compute.
  - apply (bool_decide_unpack _). by vm_compute.
  - apply (bool_decide_unpack _). by vm_compute.
  - simpl. lia.
  - lia.
Defined.

Lemma pcb_fd_install_spec_witness :
  pcb_fd_install 9 sample_pids = Ok (3, set_k_tasks
    (<[0x1000 := set_t_fd [0; 1; 2; 9; -1; -1; -1; -1] (sample_task TASK_RUNNING 0)]> (k_tasks sample_pids))
    sample_pids).
Proof.
  destruct (pcb_fd_install_spec sample_pids (sample_task TASK_RUNNING 0) 9)
    as [(i & Hi & Hr & Hj & Heq)|[Hj _]]; [by vm_compute|done| |].
  - assert (i = 3) as ->; [|exact Heq].
    destruct (decide (i = 3)); [done|]. by destruct (Hj 3); [lia|].
  - by destruct (Hj 3).
Defined.

Lemma adopts_only_first_child_witness :
  q_traversal thread_all_list (init_adopt_a_child 1) sample_pids
  = Ok (all_list_tag 0x4000,
        set_k_tasks (<[0x4000 := set_t_parent 1 sample_child]> (k_tasks sample_pids)) sample_pids).
Proof.
  apply (adopts_only_first_child sample_pids [0x1000; 0x2000; 0x3000] 0x4000 []); [by vm_compute| |done|done].
  intros t Ht. rewrite !elem_of_cons, elem_of_nil in Ht.
  destruct Ht as [->|[->|[->|[]]]]; by eexists.
Defined.

