(* ===== verification/Memory.v ===== *)
(** * Memory: kernel/memory.c

    Physical page pools, virtual address pools, the page tables (seen through the
    recursive mapping at 0xffc00000), page allocation and the arena allocator behind
    [sys_malloc]/[sys_free].  The state is that of the running thread: [m_user] says
    whether it has a page directory of its own, [m_uvaddr] and [m_udescs] are its
    address pool and block descriptors.  The lock of a pool is its hold count (Sync
    proves what it excludes).  The contents of pages are not modelled except for what
    the allocator keeps there: page tables and arena headers. *)

From S2P Require Import Prelude Bitmap.

Definition PG_SIZE : Z := 4096.
Definition K_HEAP_START : Z := 0xc0100000.
Definition MEM_BITMAP_BASE : Z := 0xc009a000.

Inductive pool_flags : Type := PF_KERNEL | PF_USER.

#[export] Instance pool_flags_eq_dec : EqDecision pool_flags.
Proof. solve_decision. Defined.

Definition PG_P_1 : Z := 1.
Definition PG_RW_W : Z := 2.
Definition PG_US_U : Z := 4.

(** [pool]: the bitmap of its frames, the first frame, its size in bytes. *)
Record pool : Type := Pool { pool_bitmap : bitmap; phy_addr_start : Z; pool_size : Z }.

(** [struct virtual_addr]. *)
Record vaddr_pool : Type := VPool { vaddr_bitmap : bitmap; vaddr_start : Z }.

Definition DESC_CNT : Z := 7.

(** [struct mem_block_desc]: [free_list] by the addresses of its blocks. *)
Record mem_block_desc : Type := MemBlockDesc {
  block_size : Z; block_per_arena : Z; free_list : list Z
}.

(** [struct arena]: the index of its descriptor in the array of its owner, or [NULL]. *)
Record arena : Type := Arena { desc : option Z; a_cnt : Z; large : bool }.
Definition sizeof_arena : Z := 12.

Record mst : Type := MSt {
  m_kpool : pool;
  m_upool : pool;
  m_kvaddr : vaddr_pool;
  m_uvaddr : vaddr_pool;
  m_user : bool;
  m_tables : gmap Z Z;
  m_kdescs : list mem_block_desc;
  m_udescs : list mem_block_desc;
  m_arenas : gmap Z arena;
  m_klock : Z;
  m_ulock : Z
}.

Definition set_m_kpool (v : pool) (s : mst) : mst :=
  MSt v (m_upool s) (m_kvaddr s) (m_uvaddr s) (m_user s) (m_tables s) (m_kdescs s) (m_udescs s) (m_arenas s) (m_klock s) (m_ulock s).
Definition set_m_upool (v : pool) (s : mst) : mst :=
  MSt (m_kpool s) v (m_kvaddr s) (m_uvaddr s) (m_user s) (m_tables s) (m_kdescs s) (m_udescs s) (m_arenas s) (m_klock s) (m_ulock s).
Definition set_m_kvaddr (v : vaddr_pool) (s : mst) : mst :=
  MSt (m_kpool s) (m_upool s) v (m_uvaddr s) (m_user s) (m_tables s) (m_kdescs s) (m_udescs s) (m_arenas s) (m_klock s) (m_ulock s).
Definition set_m_uvaddr (v : vaddr_pool) (s : mst) : mst :=
  MSt (m_kpool s) (m_upool s) (m_kvaddr s) v (m_user s) (m_tables s) (m_kdescs s) (m_udescs s) (m_arenas s) (m_klock s) (m_ulock s).
Definition set_m_user (v : bool) (s : mst) : mst :=
  MSt (m_kpool s) (m_upool s) (m_kvaddr s) (m_uvaddr s) v (m_tables s) (m_kdescs s) (m_udescs s) (m_arenas s) (m_klock s) (m_ulock s).
Definition set_m_tables (v : gmap Z Z) (s : mst) : mst :=
  MSt (m_kpool s) (m_upool s) (m_kvaddr s) (m_uvaddr s) (m_user s) v (m_kdescs s) (m_udescs s) (m_arenas s) (m_klock s) (m_ulock s).
Definition set_m_kdescs (v : list mem_block_desc) (s : mst) : mst :=
  MSt (m_kpool s) (m_upool s) (m_kvaddr s) (m_uvaddr s) (m_user s) (m_tables s) v (m_udescs s) (m_arenas s) (m_klock s) (m_ulock s).
Definition set_m_udescs (v : list mem_block_desc) (s : mst) : mst :=
  MSt (m_kpool s) (m_upool s) (m_kvaddr s) (m_uvaddr s) (m_user s) (m_tables s) (m_kdescs s) v (m_arenas s) (m_klock s) (m_ulock s).
Definition set_m_arenas (v : gmap Z arena) (s : mst) : mst :=
  MSt (m_kpool s) (m_upool s) (m_kvaddr s) (m_uvaddr s) (m_user s) (m_tables s) (m_kdescs s) (m_udescs s) v (m_klock s) (m_ulock s).
Definition set_m_klock (v : Z) (s : mst) : mst :=
  MSt (m_kpool s) (m_upool s) (m_kvaddr s) (m_uvaddr s) (m_user s) (m_tables s) (m_kdescs s) (m_udescs s) (m_arenas s) v (m_ulock s).
Definition set_m_ulock (v : Z) (s : mst) : mst :=
  MSt (m_kpool s) (m_upool s) (m_kvaddr s) (m_uvaddr s) (m_user s) (m_tables s) (m_kdescs s) (m_udescs s) (m_arenas s) (m_klock s) v.

(** ** Address arithmetic *)

Definition PDE_IDX (addr : Z) : Z := Z.shiftr (Z.land addr 0xffc00000) 22.
Definition PTE_IDX (addr : Z) : Z := Z.shiftr (Z.land addr 0x003ff000) 12.

Definition pte_ptr (vaddr : Z) : Z :=
  u32 (u32 (0xffc00000 + Z.shiftr (Z.land vaddr 0xffc00000) 10) + PTE_IDX vaddr * 4).
Definition pde_ptr (vaddr : Z) : Z := u32 (0xfffff000 + PDE_IDX vaddr * 4).

(** ** Page tables *)

(** The words of the page directory and of the page tables, by the address the kernel
    sees them at.  A page table can only be accessed when its directory entry is present;
    an entry nobody has written is 0. *)
Definition table_word (t : gmap Z Z) (a : Z) : Z := default 0 (t !! a).

#[global] Arguments table_word : simpl never.
#[global] Arguments pde_ptr : simpl never.
#[global] Arguments pte_ptr : simpl never.

Definition table_mapped (t : gmap Z Z) (a : Z) : bool :=
  (0xfffff000 <=? a) || Z.odd (table_word t (0xfffff000 + 4 * ((a - 0xffc00000) / PG_SIZE))).

Definition load (a : Z) : KM mst Z := fun s =>
  if table_mapped (m_tables s) a then Ok (table_word (m_tables s) a, s) else Err OutOfBounds.
Definition store (a v : Z) : KM mst unit := fun s =>
  if table_mapped (m_tables s) a then Ok (tt, set_m_tables (<[a := v]> (m_tables s)) s)
  else Err OutOfBounds.

Fixpoint zero_words (n : nat) (a : Z) (t : gmap Z Z) : gmap Z Z :=
  match n with O => t | S n => <[a := 0]> (zero_words n (a + 4) t) end.
(** [memset(page, 0, PG_SIZE)] on a page table. *)
Definition clear_page (a : Z) : KM mst unit := fun s =>
  if table_mapped (m_tables s) a then Ok (tt, set_m_tables (zero_words 1024 a (m_tables s)) s)
  else Err OutOfBounds.

Definition addr_v2p (vaddr : Z) : KM mst Z :=
  e <- load (pte_ptr vaddr) ;;
  kret (u32 (Z.land e 0xfffff000 + Z.land vaddr 0x00000fff)).

(** ** Pools *)

Definition get_pool (pf : pool_flags) : KM mst pool :=
  kreads (match pf with PF_KERNEL => m_kpool | PF_USER => m_upool end).
Definition put_pool (pf : pool_flags) (p : pool) : KM mst unit :=
  kmod (match pf with PF_KERNEL => set_m_kpool p | PF_USER => set_m_upool p end).
Definition pool_bits (pf : pool_flags) (f : bitmap -> outcome bitmap) : KM mst unit :=
  p <- get_pool pf ;;
  b <- klift (f (pool_bitmap p)) ;;
  put_pool pf (Pool b (phy_addr_start p) (pool_size p)).

Definition get_vpool (pf : pool_flags) : KM mst vaddr_pool :=
  kreads (match pf with PF_KERNEL => m_kvaddr | PF_USER => m_uvaddr end).
Definition put_vpool (pf : pool_flags) (p : vaddr_pool) : KM mst unit :=
  kmod (match pf with PF_KERNEL => set_m_kvaddr p | PF_USER => set_m_uvaddr p end).

(** [lock_acquire] and [lock_release] on the lock of a pool, by its holder. *)
Definition pool_lock (pf : pool_flags) : KM mst unit :=
  kmod (fun s => match pf with
    | PF_KERNEL => set_m_klock (m_klock s + 1) s
    | PF_USER => set_m_ulock (m_ulock s + 1) s end).
Definition pool_unlock (pf : pool_flags) : KM mst unit :=
  n <- kreads (match pf with PF_KERNEL => m_klock | PF_USER => m_ulock end) ;;
  ASSERT (0 <? n) ;;;
  kmod (match pf with PF_KERNEL => set_m_klock (n - 1) | PF_USER => set_m_ulock (n - 1) end).

Definition mem_pool_init (bits_mem : Z -> list Z) (all_mem : Z) : KM mst unit :=
  let page_table_size := PG_SIZE * 256 in
  let used_mem := page_table_size + 0x100000 in
  let free_mem := u32 (all_mem - used_mem) in
  let all_free_pages := u16 (free_mem / PG_SIZE) in
  let kernel_free_pages := u16 (all_free_pages / 2) in
  let user_free_pages := u16 (all_free_pages - kernel_free_pages) in
  let kbm_length := kernel_free_pages / 8 in
  let ubm_length := user_free_pages / 8 in
  let kp_start := used_mem in
  let up_start := u32 (kp_start + kernel_free_pages * PG_SIZE) in
  put_pool PF_KERNEL (Pool (Bitmap kbm_length (bits_mem MEM_BITMAP_BASE)) kp_start
    (kernel_free_pages * PG_SIZE)) ;;;
  put_pool PF_USER (Pool (Bitmap ubm_length (bits_mem (u32 (MEM_BITMAP_BASE + kbm_length)))) up_start
    (user_free_pages * PG_SIZE)) ;;;
  pool_bits PF_KERNEL bitmap_init ;;;
  pool_bits PF_KERNEL bitmap_init ;;;
  vb <- klift (bitmap_init
    (Bitmap kbm_length (bits_mem (u32 (MEM_BITMAP_BASE + kbm_length + ubm_length))))) ;;
  put_vpool PF_KERNEL (VPool vb K_HEAP_START) ;;;
  kmod (fun s => set_m_klock 0 (set_m_ulock 0 s)).

(** [while (cnt < pg_cnt) bitmap_set(b, start + cnt++, v)] *)
Fixpoint set_run (n : nat) (b : bitmap) (i v : Z) : outcome bitmap :=
  match n with
  | O => Ok b
  | S n => let? b' := bitmap_set b (u32 i) v in set_run n b' (i + 1) v
  end.

(** 0 is [NULL]. *)
Definition vaddr_get (pf : pool_flags) (pg_cnt : Z) : KM mst Z :=
  vp <- get_vpool pf ;;
  bit_idx_start <- klift (bitmap_scan (vaddr_bitmap vp) pg_cnt) ;;
  if bit_idx_start =? -1 then kret 0
  else
    b <- klift (set_run (Z.to_nat pg_cnt) (vaddr_bitmap vp) bit_idx_start 1) ;;
    put_vpool pf (VPool b (vaddr_start vp)) ;;;
    let va := u32 (vaddr_start vp + bit_idx_start * PG_SIZE) in
    (match pf with
     | PF_KERNEL => kret tt
     | PF_USER => ASSERT (va <? 0xc0000000 - PG_SIZE)
     end) ;;;
    kret va.

Definition vaddr_remove (pf : pool_flags) (vaddr pg_cnt : Z) : KM mst unit :=
  vp <- get_vpool pf ;;
  let bit_idx_start := u32 (vaddr - vaddr_start vp) / PG_SIZE in
  b <- klift (set_run (Z.to_nat pg_cnt) (vaddr_bitmap vp) bit_idx_start 0) ;;
  put_vpool pf (VPool b (vaddr_start vp)).

Definition palloc (pf : pool_flags) : KM mst Z :=
  p <- get_pool pf ;;
  bit_idx <- klift (bitmap_scan (pool_bitmap p) 1) ;;
  if bit_idx =? -1 then kret 0
  else
    pool_bits pf (fun b => bitmap_set b (u32 bit_idx) 1) ;;;
    kret (u32 (bit_idx * PG_SIZE + phy_addr_start p)).

Definition pfree (pg_phy_addr : Z) : KM mst unit :=
  up <- get_pool PF_USER ;;
  kp <- get_pool PF_KERNEL ;;
  if phy_addr_start up <=? pg_phy_addr then
    pool_bits PF_USER (fun b => bitmap_set b (u32 (pg_phy_addr - phy_addr_start up) / PG_SIZE) 0)
  else
    pool_bits PF_KERNEL (fun b => bitmap_set b (u32 (pg_phy_addr - phy_addr_start kp) / PG_SIZE) 0).

(** The same code under another name. *)
Definition free_a_phy_page (pg_phy_addr : Z) : KM mst unit :=
  up <- get_pool PF_USER ;;
  kp <- get_pool PF_KERNEL ;;
  if phy_addr_start up <=? pg_phy_addr then
    pool_bits PF_USER (fun b => bitmap_set b (u32 (pg_phy_addr - phy_addr_start up) / PG_SIZE) 0)
  else
    pool_bits PF_KERNEL (fun b => bitmap_set b (u32 (pg_phy_addr - phy_addr_start kp) / PG_SIZE) 0).

(** ** Mapping pages *)

Definition pg_entry (phyaddr : Z) : Z := Z.lor (Z.lor (Z.lor phyaddr PG_US_U) PG_RW_W) PG_P_1.

Definition page_table_add (vaddr page_phyaddr : Z) : KM mst unit :=
  let pde := pde_ptr vaddr in
  let pte := pte_ptr vaddr in
  d <- load pde ;;
  if negb (Z.land d 1 =? 0) then
    e <- load pte ;;
    ASSERT (Z.land e 1 =? 0) ;;;
    (if Z.land e 1 =? 0 then store pte (pg_entry page_phyaddr) else PANIC)
  else
    pde_phyaddr <- palloc PF_KERNEL ;;
    store pde (pg_entry pde_phyaddr) ;;;
    clear_page (Z.land pte 0xfffff000) ;;;
    e <- load pte ;;
    ASSERT (Z.land e 1 =? 0) ;;;
    store pte (pg_entry page_phyaddr).

Definition page_table_pte_remove (vaddr : Z) : KM mst unit :=
  e <- load (pte_ptr vaddr) ;;
  store (pte_ptr vaddr) (u32 (Z.land e (Z.lnot PG_P_1))).

(** The loop of [malloc_page]: false when the pool is exhausted. *)
Fixpoint map_pages (n : nat) (pf : pool_flags) (vaddr : Z) : KM mst bool :=
  match n with
  | O => kret true
  | S n =>
      page_phyaddr <- palloc pf ;;
      if page_phyaddr =? 0 then kret false
      else page_table_add vaddr page_phyaddr ;;; map_pages n pf (u32 (vaddr + PG_SIZE))
  end.

Definition malloc_page (pf : pool_flags) (pg_cnt : Z) : KM mst Z :=
  ASSERT ((0 <? pg_cnt) && (pg_cnt <? 3840)) ;;;
  vaddr_start <- vaddr_get pf pg_cnt ;;
  if vaddr_start =? 0 then kret 0
  else
    ok <- map_pages (Z.to_nat pg_cnt) pf vaddr_start ;;
    if (ok : bool) then kret vaddr_start else kret 0.

(** The loop of [mfree_page]; [in_pool] is what it asserts of every frame. *)
Fixpoint unmap_pages (n : nat) (in_pool : Z -> bool) (vaddr : Z) : KM mst unit :=
  match n with
  | O => kret tt
  | S n =>
      pg_phy_addr <- addr_v2p vaddr ;;
      ASSERT ((pg_phy_addr mod PG_SIZE =? 0) && in_pool pg_phy_addr) ;;;
      pfree pg_phy_addr ;;;
      page_table_pte_remove vaddr ;;;
      unmap_pages n in_pool (u32 (vaddr + PG_SIZE))
  end.

Definition mfree_page (pf : pool_flags) (vaddr pg_cnt : Z) : KM mst unit :=
  ASSERT ((1 <=? pg_cnt) && (vaddr mod PG_SIZE =? 0)) ;;;
  pg_phy_addr <- addr_v2p vaddr ;;
  ASSERT ((pg_phy_addr mod PG_SIZE =? 0) && (0x102000 <=? pg_phy_addr)) ;;;
  up <- get_pool PF_USER ;;
  kp <- get_pool PF_KERNEL ;;
  (if phy_addr_start up <=? pg_phy_addr then
     unmap_pages (Z.to_nat pg_cnt) (fun a => phy_addr_start up <=? a) vaddr
   else
     unmap_pages (Z.to_nat pg_cnt)
       (fun a => (phy_addr_start kp <=? a) && (a <? phy_addr_start up)) vaddr) ;;;
  vaddr_remove pf vaddr pg_cnt.

Definition get_kernel_pages (pg_cnt : Z) : KM mst Z := malloc_page PF_KERNEL pg_cnt.

Definition get_user_pages (pg_cnt : Z) : KM mst Z :=
  pool_lock PF_USER ;;;
  vaddr <- malloc_page PF_USER pg_cnt ;;
  pool_unlock PF_USER ;;;
  kret vaddr.

Definition get_a_page (pf : pool_flags) (vaddr : Z) : KM mst Z :=
  pool_lock pf ;;;
  user <- kreads m_user ;;
  (if Bool.eqb user (bool_decide (pf = PF_USER)) then
     vp <- get_vpool pf ;;
     let bit_idx := i32 (u32 (vaddr - vaddr_start vp) / PG_SIZE) in
     ASSERT (0 <? bit_idx) ;;;
     b <- klift (bitmap_set (vaddr_bitmap vp) (u32 bit_idx) 1) ;;
     put_vpool pf (VPool b (vaddr_start vp))
   else PANIC) ;;;
  page_phyaddr <- palloc pf ;;
  if page_phyaddr =? 0 then kret 0
  else
    page_table_add vaddr page_phyaddr ;;;
    pool_unlock pf ;;;
    kret vaddr.

Definition get_a_page_without_opvaddrbitmap (pf : pool_flags) (vaddr : Z) : KM mst Z :=
  pool_lock pf ;;;
  page_phyaddr <- palloc pf ;;
  if page_phyaddr =? 0 then pool_unlock pf ;;; kret 0
  else
    page_table_add vaddr page_phyaddr ;;;
    pool_unlock pf ;;;
    kret vaddr.

(** ** Arenas *)

Fixpoint desc_init_loop (n : nat) (block_size : Z) : list mem_block_desc :=
  match n with
  | O => []
  | S n => MemBlockDesc block_size ((PG_SIZE - sizeof_arena) / block_size) []
           :: desc_init_loop n (u16 (block_size * 2))
  end.
Definition block_desc_init : list mem_block_desc := desc_init_loop (Z.to_nat DESC_CNT) 16.

Definition arena2block (a block_size idx : Z) : Z := u32 (a + sizeof_arena + idx * block_size).
Definition block2arena (b : Z) : Z := Z.land b 0xfffff000.

Definition get_descs : KM mst (list mem_block_desc) :=
  kreads (fun s => if m_user s then m_udescs s else m_kdescs s).
Definition put_descs (l : list mem_block_desc) : KM mst unit :=
  kmod (fun s => if m_user s then set_m_udescs l s else set_m_kdescs l s).
Definition get_desc (i : Z) : KM mst mem_block_desc :=
  l <- get_descs ;; klift (rd l i).
Definition put_free_list (i : Z) (fl : list Z) : KM mst unit :=
  l <- get_descs ;;
  d <- klift (rd l i) ;;
  l' <- klift (wr l i (MemBlockDesc (block_size d) (block_per_arena d) fl)) ;;
  put_descs l'.

Definition get_arena (a : Z) : KM mst arena := fun s =>
  match m_arenas s !! a with Some x => Ok (x, s) | None => Err OutOfBounds end.
Definition put_arena (a : Z) (x : arena) : KM mst unit :=
  kmod (fun s => set_m_arenas (<[a := x]> (m_arenas s)) s).

(** [list_append], [list_pop] and [list_remove] on the free list of descriptor [i]. *)
Definition fl_append (i b : Z) : KM mst unit :=
  d <- get_desc i ;;
  if decide (b ∈ free_list d) then kfail ListCorrupt
  else put_free_list i (free_list d ++ [b]).
Definition fl_remove (i b : Z) : KM mst unit :=
  d <- get_desc i ;;
  if decide (b ∈ free_list d) then put_free_list i (List.remove Z.eq_dec b (free_list d))
  else kfail ListCorrupt.
Definition fl_pop (i : Z) : KM mst Z :=
  d <- get_desc i ;;
  match free_list d with
  | [] => kfail ListCorrupt
  | b :: fl => put_free_list i fl ;;; kret b
  end.

(** The first descriptor whose blocks are large enough. *)
Fixpoint find_desc (l : list mem_block_desc) (size desc_idx : Z) : Z :=
  match l with
  | [] => desc_idx
  | d :: l => if size <=? block_size d then desc_idx else find_desc l size (desc_idx + 1)
  end.

(** Cutting a new arena into blocks, and taking one apart. *)
Fixpoint add_blocks (n : nat) (i a block_size block_idx : Z) : KM mst unit :=
  match n with
  | O => kret tt
  | S n =>
      let b := arena2block a block_size block_idx in
      d <- get_desc i ;;
      ASSERT (negb (bool_decide (b ∈ free_list d))) ;;;
      fl_append i b ;;;
      add_blocks n i a block_size (block_idx + 1)
  end.
Fixpoint remove_blocks (n : nat) (i a block_size block_idx : Z) : KM mst unit :=
  match n with
  | O => kret tt
  | S n =>
      let b := arena2block a block_size block_idx in
      d <- get_desc i ;;
      ASSERT (bool_decide (b ∈ free_list d)) ;;;
      fl_remove i b ;;;
      remove_blocks n i a block_size (block_idx + 1)
  end.

Definition sys_malloc (size : Z) : KM mst Z :=
  user <- kreads m_user ;;
  let PF := if (user : bool) then PF_USER else PF_KERNEL in
  mem_pool <- get_pool PF ;;
  if negb ((0 <? size) && (size <? pool_size mem_pool)) then kret 0
  else
    pool_lock PF ;;;
    if 1024 <? size then
      let page_cnt := DIV_ROUND_UP (u32 (size + sizeof_arena)) PG_SIZE in
      a <- malloc_page PF page_cnt ;;
      if negb (a =? 0) then
        put_arena a (Arena None page_cnt true) ;;;
        pool_unlock PF ;;;
        kret (u32 (a + sizeof_arena))
      else
        pool_unlock PF ;;; kret 0
    else
      descs <- get_descs ;;
      let desc_idx := find_desc descs size 0 in
      d <- get_desc desc_idx ;;
      ok <- (if bool_decide (free_list d = []) then
               a <- malloc_page PF 1 ;;
               if a =? 0 then kret false
               else
                 put_arena a (Arena (Some desc_idx) (block_per_arena d) false) ;;;
                 add_blocks (Z.to_nat (block_per_arena d)) desc_idx a (block_size d) 0 ;;;
                 kret true
             else kret true) ;;
      if negb ok then pool_unlock PF ;;; kret 0
      else
        b <- fl_pop desc_idx ;;
        let a := block2arena b in
        x <- get_arena a ;;
        put_arena a (Arena (desc x) (u32 (a_cnt x - 1)) (large x)) ;;;
        pool_unlock PF ;;;
        kret b.

Definition sys_free (ptr : Z) : KM mst unit :=
  ASSERT (negb (ptr =? 0)) ;;;
  user <- kreads m_user ;;
  (if (user : bool) then kret tt else ASSERT (K_HEAP_START <=? ptr)) ;;;
  let PF := if (user : bool) then PF_USER else PF_KERNEL in
  pool_lock PF ;;;
  let a := block2arena ptr in
  x <- get_arena a ;;
  (match desc x with
   | None =>
       if large x then
         mfree_page PF a (a_cnt x) ;;;
         kmod (fun s => set_m_arenas (delete a (m_arenas s)) s)
       else kfail OutOfBounds
   | Some i =>
       fl_append i ptr ;;;
       put_arena a (Arena (desc x) (u32 (a_cnt x + 1)) (large x)) ;;;
       d <- get_desc i ;;
       if u32 (a_cnt x + 1) =? block_per_arena d then
         remove_blocks (Z.to_nat (block_per_arena d)) i a (block_size d) 0 ;;;
         mfree_page PF a 1 ;;;
         kmod (fun s => set_m_arenas (delete a (m_arenas s)) s)
       else kret tt
   end) ;;;
  pool_unlock PF.

(** ** Addresses *)

(** The addresses the kernel maps: everything below the page tables themselves. *)
Definition vpage (v : Z) : Prop := 0 <= v < 0xffc00000 /\ v mod PG_SIZE = 0.

Lemma pde_idx_div v : 0 <= v < 2 ^ 32 -> PDE_IDX v = v / 2 ^ 22.
Proof.
  intros Hv. unfold PDE_IDX. change 0xffc00000 with (Z.shiftl (Z.ones 10) 22).
  rewrite land_field by lia. apply Z.mod_small.
  split; [apply Z.div_pos; lia|apply Z.div_lt_upper_bound; lia].
Qed.

Lemma pde_ptr_eq v : 0 <= v < 2 ^ 32 -> pde_ptr v = 0xfffff000 + 4 * (v / 2 ^ 22).
Proof.
  intros Hv. unfold pde_ptr. rewrite pde_idx_div by done.
  assert (0 <= v / 2 ^ 22 < 1024) by (split; [apply Z.div_pos; lia|apply Z.div_lt_upper_bound; lia]).
  rewrite u32_small; lia.
Qed.

Lemma pte_ptr_eq v : 0 <= v < 2 ^ 32 -> pte_ptr v = 0xffc00000 + 4 * (v / PG_SIZE).
Proof.
  intros Hv. unfold pte_ptr, PTE_IDX, PG_SIZE.
  change 0x003ff000 with (Z.shiftl (Z.ones 10) 12). rewrite land_field by lia.
  change 0xffc00000 with (Z.shiftl (Z.ones 10) 22) at 2. rewrite land_high by lia.
  rewrite Z.shiftr_div_pow2 by lia.
  assert (H1 : 0 <= v / 2 ^ 22 < 1024)
    by (split; [apply Z.div_pos; lia|apply Z.div_lt_upper_bound; lia]).
  rewrite (Z.mod_small (v / 2 ^ 22)) by lia.
  replace (v / 2 ^ 22 * 2 ^ 22 / 2 ^ 10) with (v / 2 ^ 22 * 2 ^ 12).
  2: { replace (v / 2 ^ 22 * 2 ^ 22) with (v / 2 ^ 22 * 2 ^ 12 * 2 ^ 10) by lia.
    by rewrite Z.div_mul by lia. }
  assert (H2 : v / 2 ^ 12 = v / 2 ^ 22 * 2 ^ 10 + (v / 2 ^ 12) mod 2 ^ 10).
  { replace (v / 2 ^ 22) with (v / 2 ^ 12 / 2 ^ 10) by (by rewrite Z.div_div by lia).
    pose proof (Z.div_mod (v / 2 ^ 12) (2 ^ 10) ltac:(lia)). lia. }
  pose proof (Z.mod_pos_bound (v / 2 ^ 12) (2 ^ 10)).
  change 4096 with (2 ^ 12). rewrite (u32_small (0xffc00000 + _)) by lia. rewrite u32_small by lia. lia.
Qed.

(** The recursive mapping.  For every page the kernel maps, [pte_ptr] and [pde_ptr]
    are word addresses in the table area and in the page directory, different pages have
    different entries, and the entry of a page lies in the table its directory entry
    points to (so it can be accessed exactly when that entry is present). *)
Theorem table_pointers v w :
  vpage v -> vpage w ->
  0xffc00000 <= pte_ptr v < 0xfffff000 /\ pte_ptr v mod 4 = 0 /\
  0xfffff000 <= pde_ptr v < 2 ^ 32 /\ pde_ptr v mod 4 = 0 /\
  (pte_ptr v = pte_ptr w -> v = w) /\
  (pde_ptr v = pde_ptr w <-> v / 2 ^ 22 = w / 2 ^ 22) /\
  (forall t, table_mapped t (pte_ptr v) = Z.odd (table_word t (pde_ptr v))).
Proof.
  intros [Hv Hav] [Hw Haw]. unfold PG_SIZE in *.
  assert (Hb : forall x, 0 <= x < 0xffc00000 -> 0 <= x / 4096 < 0xffc00 /\ 0 <= x / 2 ^ 22 < 1023).
  { intros x Hx. split; split; try (apply Z.div_pos; lia); apply Z.div_lt_upper_bound; lia. }
  destruct (Hb v Hv), (Hb w Hw).
  rewrite !pte_ptr_eq, !pde_ptr_eq by lia. unfold PG_SIZE in *. split_and!; try lia.
  - by rewrite Z.mul_comm, Z.mod_add by lia.
  - by rewrite Z.mul_comm, Z.mod_add by lia.
  - intros Heq. pose proof (Z.div_mod v 4096 ltac:(lia)). pose proof (Z.div_mod w 4096 ltac:(lia)). lia.
  - intros t. unfold table_mapped. rewrite (proj2 (Z.leb_gt _ _)) by lia. simpl.
    do 4 f_equal. unfold PG_SIZE.
    replace (0xffc00000 + 4 * (v / 4096) - 0xffc00000) with (4 * (v / 4096)) by lia.
    replace 4096 with (4 * 2 ^ 10) at 2 by lia. rewrite Z.div_mul_cancel_l by lia.
    rewrite Z.div_div by lia. f_equal.
Qed.

(** ** What the page tables map *)

(** The frame a page is mapped to. *)
Definition lookup_page (t : gmap Z Z) (v : Z) : option Z :=
  if Z.odd (table_word t (pde_ptr v)) && Z.odd (table_word t (pte_ptr v))
  then Some (Z.land (table_word t (pte_ptr v)) 0xfffff000) else None.

Lemma land1_odd d : (Z.land d 1 =? 0) = negb (Z.odd d).
Proof. change 1 with (Z.shiftl 1 0) at 1. by rewrite land_shiftl1_eqb, Z.bit0_odd by lia. Qed.

Lemma table_word_eq t a v : table_word (<[a := v]> t) a = v.
Proof. unfold table_word. by rewrite lookup_insert_eq. Qed.

Lemma table_word_ne t a b v : a <> b -> table_word (<[a := v]> t) b = table_word t b.
Proof. intros. unfold table_word. by rewrite lookup_insert_ne. Qed.

Lemma zero_words_other n a t x :
  x < a \/ a + 4 * Z.of_nat n <= x -> table_word (zero_words n a t) x = table_word t x.
Proof.
  revert a. induction n as [|n IH]; intros a Hx; [done|]. simpl.
  rewrite table_word_ne by lia. apply IH. lia.
Qed.

Lemma zero_words_in n a t k :
  0 <= k < Z.of_nat n -> table_word (zero_words n a t) (a + 4 * k) = 0.
Proof.
  revert a k. induction n as [|n IH]; intros a k Hk; [lia|]. simpl.
  destruct (decide (k = 0)) as [->|Hne].
  - rewrite Z.mul_0_r, Z.add_0_r. apply table_word_eq.
  - rewrite table_word_ne by lia. replace (a + 4 * k) with (a + 4 + 4 * (k - 1)) by lia.
    apply IH. lia.
Qed.

#[global] Arguments zero_words : simpl never.

Lemma pg_entry_eq f : 0 <= f < 2 ^ 32 -> f mod PG_SIZE = 0 ->
  Z.odd (pg_entry f) = true /\ Z.land (pg_entry f) 0xfffff000 = f.
Proof.
  intros Hf Ha. unfold PG_SIZE in Ha. unfold pg_entry, PG_US_U, PG_RW_W, PG_P_1.
  rewrite <- !Z.lor_assoc. change (Z.lor 4 (Z.lor 2 1)) with 7.
  rewrite (lor_low f 7 12) by (try exact Ha; lia).
  apply Z.mod_divide in Ha as [q ->]; [|lia]. split.
  - replace (q * 4096 + 7) with (1 + 2 * (q * 2048 + 3)) by lia. by rewrite Z.odd_add_mul_2.
  - change 0xfffff000 with (Z.shiftl (Z.ones 20) 12). rewrite land_high by lia.
    change (2 ^ 12) with 4096. rewrite Z.div_add_l by lia. change (7 / 4096) with 0.
    rewrite Z.mod_small by lia. lia.
Qed.

(** What [table_pointers] gives for two pages. *)
Lemma vpage_div v : vpage v -> 0 <= v / PG_SIZE < 0xffc00 /\ 0 <= v / 2 ^ 22 < 1023 /\ v = PG_SIZE * (v / PG_SIZE).
Proof.
  intros [Hv Ha]. unfold PG_SIZE in *. pose proof (Z.div_mod v 4096 ltac:(lia)). split; [|split].
  - split; [apply Z.div_pos; lia|apply Z.div_lt_upper_bound; lia].
  - split; [apply Z.div_pos; lia|apply Z.div_lt_upper_bound; lia].
  - lia.
Qed.

Lemma pte_range v : vpage v -> 0xffc00000 <= pte_ptr v < 0xfffff000.
Proof.
  intros Hv. destruct (vpage_div v Hv) as (H1 & _). destruct Hv.
  rewrite pte_ptr_eq by lia. lia.
Qed.

Lemma pde_range v : vpage v -> 0xfffff000 <= pde_ptr v < 2 ^ 32.
Proof.
  intros Hv. destruct (vpage_div v Hv) as (_ & H1 & _). destruct Hv.
  rewrite pde_ptr_eq by lia. lia.
Qed.

Lemma pte_inj v w : vpage v -> vpage w -> pte_ptr v = pte_ptr w -> v = w.
Proof.
  intros Hv Hw. destruct (vpage_div v Hv) as (_ & _ & H1), (vpage_div w Hw) as (_ & _ & H2).
  destruct Hv, Hw. rewrite !pte_ptr_eq by lia. lia.
Qed.

Lemma pte_mapped t v : vpage v -> table_mapped t (pte_ptr v) = Z.odd (table_word t (pde_ptr v)).
Proof.
  intros Hv. destruct (vpage_div v Hv) as (H1 & _ & H2). pose proof (pte_range v Hv). destruct Hv.
  unfold table_mapped. rewrite (proj2 (Z.leb_gt _ _)) by lia. simpl.
  rewrite pte_ptr_eq, pde_ptr_eq by lia. unfold PG_SIZE in *. do 4 f_equal.
  replace (0xffc00000 + 4 * (v / 4096) - 0xffc00000) with (4 * (v / 4096)) by lia.
  replace 4096 with (4 * 2 ^ 10) at 2 by lia. rewrite Z.div_mul_cancel_l by lia.
  rewrite Z.div_div by lia. f_equal.
Qed.

Lemma load_pde s v : vpage v -> load (pde_ptr v) s = Ok (table_word (m_tables s) (pde_ptr v), s).
Proof.
  intros Hv. pose proof (pde_range v Hv). unfold load, table_mapped.
  by rewrite (proj2 (Z.leb_le _ _)) by lia.
Qed.

Lemma load_pte s v :
  vpage v -> Z.odd (table_word (m_tables s) (pde_ptr v)) = true ->
  load (pte_ptr v) s = Ok (table_word (m_tables s) (pte_ptr v), s).
Proof. intros Hv Hd. unfold load. by rewrite pte_mapped, Hd by done. Qed.

Lemma store_pte s v x :
  vpage v -> Z.odd (table_word (m_tables s) (pde_ptr v)) = true ->
  store (pte_ptr v) x s = Ok (tt, set_m_tables (<[pte_ptr v := x]> (m_tables s)) s).
Proof. intros Hv Hd. unfold store. by rewrite pte_mapped, Hd by done. Qed.

(** Writing one entry changes the mapping of one page. *)
Lemma lookup_write_pte t v x w :
  vpage v -> vpage w -> Z.odd (table_word t (pde_ptr v)) = true ->
  lookup_page (<[pte_ptr v := x]> t) w
  = if decide (w = v) then (if Z.odd x then Some (Z.land x 0xfffff000) else None) else lookup_page t w.
Proof.
  intros Hv Hw Hd. pose proof (pte_range v Hv). pose proof (pde_range w Hw). unfold lookup_page.
  rewrite (table_word_ne t _ (pde_ptr w)) by lia. case_decide as Heq.
  - subst w. by rewrite Hd, table_word_eq.
  - rewrite table_word_ne; [done|]. intros E. by apply Heq, eq_sym, pte_inj.
Qed.

(** The page table a directory entry brings in is empty. *)
Definition with_table (t : gmap Z Z) (v e : Z) : gmap Z Z :=
  zero_words 1024 (Z.land (pte_ptr v) 0xfffff000) (<[pde_ptr v := e]> t).

Lemma pte_base v : vpage v ->
  Z.land (pte_ptr v) 0xfffff000 = 0xffc00000 + PG_SIZE * (v / 2 ^ 22).
Proof.
  intros Hv. destruct (vpage_div v Hv) as (H1 & H2 & H3). destruct Hv as [Hv Ha].
  rewrite pte_ptr_eq by lia. change 0xfffff000 with (Z.shiftl (Z.ones 20) 12).
  rewrite land_high by lia. unfold PG_SIZE in *.
  assert (E : (0xffc00000 + 4 * (v / 4096)) / 2 ^ 12 = 0xffc00 + v / 2 ^ 22).
  { replace (0xffc00000 + 4 * (v / 4096)) with (4 * (v / 4096) + 0xffc00 * 2 ^ 12) by lia.
    rewrite Z.div_add by lia. replace (4 * (v / 4096) / 2 ^ 12) with (v / 4096 / 2 ^ 10).
    - rewrite Z.div_div by lia. change (4096 * 2 ^ 10) with (2 ^ 22). lia.
    - change (2 ^ 12) with (4 * 2 ^ 10). by rewrite Z.div_mul_cancel_l by lia. }
  rewrite E, Z.mod_small by lia. lia.
Qed.

#[global] Opaque zero_words.

Lemma lookup_with_table t v e w :
  vpage v -> vpage w -> Z.odd (table_word t (pde_ptr v)) = false ->
  lookup_page (with_table t v e) w = lookup_page t w.
Proof.
  intros Hv Hw Hd. destruct (vpage_div v Hv) as (H1 & H2 & H3), (vpage_div w Hw) as (H4 & H5 & H6).
  pose proof (pde_range v Hv). pose proof (pde_range w Hw). pose proof (pte_range w Hw).
  unfold lookup_page, with_table. rewrite pte_base by done.
  rewrite zero_words_other by (unfold PG_SIZE; lia).
  destruct (decide (w / 2 ^ 22 = v / 2 ^ 22)) as [Heq|Hne].
  - assert (Epde : pde_ptr w = pde_ptr v) by (rewrite !pde_ptr_eq by (destruct Hv, Hw; lia); congruence).
    rewrite Epde, Hd, andb_false_l.
    replace (pte_ptr w) with (0xffc00000 + PG_SIZE * (v / 2 ^ 22) + 4 * ((w / 4096) mod 2 ^ 10)).
    + rewrite zero_words_in; [by rewrite andb_false_r|].
      pose proof (Z.mod_pos_bound (w / 4096) (2 ^ 10) ltac:(lia)). lia.
    + rewrite pte_ptr_eq by (destruct Hw; lia). unfold PG_SIZE. rewrite <- Heq.
      pose proof (Z.div_mod (w / 4096) (2 ^ 10) ltac:(lia)) as E.
      rewrite Z.div_div in E by lia. change (4096 * 2 ^ 10) with (2 ^ 22) in E. lia.
  - assert (Epde : pde_ptr v <> pde_ptr w).
    { rewrite !pde_ptr_eq by (destruct Hv, Hw; lia). lia. }
    rewrite table_word_ne by done. rewrite zero_words_other, table_word_ne; [done|lia|].
    rewrite pte_ptr_eq by (destruct Hw; lia). unfold PG_SIZE in *.
    assert (E : w / 2 ^ 22 = w / 4096 / 2 ^ 10) by (by rewrite Z.div_div by lia).
    pose proof (Z.div_mod (w / 4096) (2 ^ 10) ltac:(lia)).
    pose proof (Z.mod_pos_bound (w / 4096) (2 ^ 10) ltac:(lia)). lia.
Qed.

(** ** Pools *)

Definition pool_of (pf : pool_flags) (s : mst) : pool :=
  match pf with PF_KERNEL => m_kpool s | PF_USER => m_upool s end.
Definition with_pool (pf : pool_flags) (p : pool) (s : mst) : mst :=
  match pf with PF_KERNEL => set_m_kpool p s | PF_USER => set_m_upool p s end.

Definition pool_ok (p : pool) : Prop :=
  bitmap_ok (pool_bitmap p) /\ phy_addr_start p mod PG_SIZE = 0 /\
  phy_addr_start p + bit_len (pool_bitmap p) * PG_SIZE <= 2 ^ 32.

(** The two pools are disjoint and above the frames the kernel was loaded to. *)
Record pools_ok (s : mst) : Prop := {
  po_kernel : pool_ok (m_kpool s);
  po_user : pool_ok (m_upool s);
  po_low : 0x102000 <= phy_addr_start (m_kpool s);
  po_order : phy_addr_start (m_kpool s) + bit_len (pool_bitmap (m_kpool s)) * PG_SIZE
             <= phy_addr_start (m_upool s)
}.

(** Frame [f] belongs to the pool, and is in use. *)
Definition in_pool (p : pool) (f : Z) : Prop :=
  phy_addr_start p <= f < phy_addr_start p + bit_len (pool_bitmap p) * PG_SIZE /\ f mod PG_SIZE = 0.
Definition frame_used (p : pool) (f : Z) : bool :=
  bit_at (pool_bitmap p) ((f - phy_addr_start p) / PG_SIZE).

Definition bit_indices (b : bitmap) : list Z := map Z.of_nat (seq 0 (Z.to_nat (bit_len b))).
Definition free_bits (b : bitmap) : list Z := List.filter (fun i => negb (bit_at b i)) (bit_indices b).
(** How many frames of the pool are free. *)
Definition free_count (p : pool) : Z := Z.of_nat (length (free_bits (pool_bitmap p))).

Lemma bit_indices_in b i : In i (bit_indices b) <-> 0 <= i < bit_len b.
Proof.
  unfold bit_indices. rewrite in_map_iff. setoid_rewrite in_seq. split.
  - intros (n & <- & Hn). lia.
  - intros Hi. exists (Z.to_nat i). lia.
Qed.

Lemma bit_indices_nodup b : List.NoDup (bit_indices b).
Proof. apply Finite.Injective_map_NoDup; [intros ???; lia|apply seq_NoDup]. Qed.

(** Setting a free bit leaves one free bit less. *)
Lemma free_bits_set b b' r :
  bit_len b' = bit_len b -> 0 <= r < bit_len b -> bit_at b r = false ->
  (forall j, 0 <= j -> bit_at b' j = if decide (j = r) then true else bit_at b j) ->
  length (free_bits b) = S (length (free_bits b')).
Proof.
  intros Hl Hr Hb Hb'. unfold free_bits, bit_indices. rewrite Hl. fold (bit_indices b).
  assert (Hin : In r (bit_indices b)) by (by apply bit_indices_in).
  pose proof (bit_indices_nodup b) as Hnd.
  assert (Hpos : forall j, In j (bit_indices b) -> 0 <= j) by (intros j Hj%bit_indices_in; lia).
  revert Hin Hnd Hpos. induction (bit_indices b) as [|x l IH]; [done|].
  intros Hin Hnd Hpos. apply List.NoDup_cons_iff in Hnd as [Hx Hnd]. simpl.
  rewrite (Hb' x) by (apply Hpos; by left).
  case_decide as Hd.
  - subst x. rewrite Hb. simpl. f_equal. f_equal. apply List.filter_ext_in. intros j Hj.
    rewrite Hb' by (apply Hpos; by right). by rewrite decide_False by congruence.
  - destruct Hin as [->|Hin]; [done|].
    specialize (IH Hin Hnd (fun j Hj => Hpos j (or_intror Hj))).
    destruct (bit_at b x); simpl; [done|]. by f_equal.
Qed.

Lemma free_count_pos p :
  0 < free_count p -> exists i, 0 <= i < bit_len (pool_bitmap p) /\ bit_at (pool_bitmap p) i = false.
Proof.
  unfold free_count, free_bits. intros H.
  destruct (List.filter _ _) as [|i l] eqn:Hl; [simpl in H; lia|].
  assert (Hi : In i (List.filter (fun i => negb (bit_at (pool_bitmap p) i)) (bit_indices (pool_bitmap p))))
    by (rewrite Hl; by left).
  apply filter_In in Hi as [Hi Hb]. exists i. split; [by apply bit_indices_in|].
  by destruct (bit_at _ _).
Qed.

(** The same pool with another bitmap of the same size. *)
Definition set_bitmap (b : bitmap) (p : pool) : pool := Pool b (phy_addr_start p) (pool_size p).

Lemma pool_bits_run pf s f b :
  f (pool_bitmap (pool_of pf s)) = Ok b ->
  pool_bits pf f s = Ok (tt, with_pool pf (set_bitmap b (pool_of pf s)) s).
Proof.
  intros Hf. unfold pool_bits, get_pool, put_pool, kbind, kreads, klift, kmod.
  destruct pf; simpl in *; by rewrite Hf.
Qed.

(** What [palloc] does to a pool: [f] was free, is used now, and nothing else changed. *)
Definition allocated (p p' : pool) (f : Z) : Prop :=
  in_pool p f /\ frame_used p f = false /\ pool_ok p' /\
  phy_addr_start p' = phy_addr_start p /\ pool_size p' = pool_size p /\
  bit_len (pool_bitmap p') = bit_len (pool_bitmap p) /\ free_count p = free_count p' + 1 /\
  (forall g, in_pool p g -> frame_used p' g = bool_decide (g = f) || frame_used p g).

Lemma palloc_run pf s :
  pool_ok (pool_of pf s) -> 0 < phy_addr_start (pool_of pf s) -> 0 < free_count (pool_of pf s) ->
  exists f p', palloc pf s = Ok (f, with_pool pf p' s) /\ allocated (pool_of pf s) p' f.
Proof.
  intros (Hb & Ha & Hl) Hs Hfree. set (p := pool_of pf s) in *.
  destruct (bitmap_alloc_one _ Hb (free_count_pos _ Hfree))
    as (r & b' & Hscan & Hset & Hr & Hc & _ & Hok' & Hlen & Hlen' & Hb').
  assert (Hbl : bit_len b' = bit_len (pool_bitmap p)) by (unfold bit_len; congruence).
  assert (Hsm : bit_len (pool_bitmap p) < 2 ^ 30).
  { destruct Hb as [_ ? ?]. unfold bit_len. lia. }
  exists (phy_addr_start p + r * PG_SIZE), (set_bitmap b' p). split.
  - unfold palloc. rewrite (kbind_ok _ _ s p s) by (by destruct pf).
    rewrite (kbind_ok _ _ s r s) by (unfold klift; by rewrite Hscan).
    rewrite (proj2 (Z.eqb_neq _ _)) by lia.
    rewrite (kbind_ok _ _ s tt (with_pool pf (set_bitmap b' p) s)).
    2: { apply pool_bits_run. fold p. by rewrite u32_small by lia. }
    unfold kret. do 2 f_equal. unfold PG_SIZE in *. rewrite u32_small; lia.
  - assert (Hdiv : (phy_addr_start p + r * PG_SIZE - phy_addr_start p) / PG_SIZE = r).
    { replace (_ - _) with (r * PG_SIZE) by lia. by apply Z.div_mul. }
    split_and!.
    + split; [unfold PG_SIZE in *; lia|by rewrite Z.mod_add].
    + unfold frame_used. by rewrite Hdiv.
    + split_and!; [done|done|]. simpl. by rewrite Hbl.
    + done.
    + done.
    + done.
    + unfold free_count. simpl. rewrite (free_bits_set _ _ _ Hbl Hr Hc Hb'). lia.
    + intros g [Hg Hga]. unfold frame_used; simpl.
      assert (Hge : g = phy_addr_start p + (g - phy_addr_start p) / PG_SIZE * PG_SIZE).
      { unfold PG_SIZE in *. pose proof (Z.div_mod (g - phy_addr_start p) 4096 ltac:(lia)) as E.
        rewrite Zminus_mod, Hga, Ha in E. change ((0 - 0) mod 4096) with 0 in E. lia. }
      rewrite Hb' by (apply Z.div_pos; unfold PG_SIZE; lia).
      case_decide as Hd.
      * rewrite bool_decide_eq_true_2; [done|]. rewrite Hge, Hd. done.
      * rewrite bool_decide_eq_false_2; [done|]. intros ->. by rewrite Hdiv in Hd.
Qed.

(** ** Mapping runs of pages *)

(** A pool some of whose frames were taken, at most [k] of them. *)
Definition pool_step (p p' : pool) (k : Z) : Prop :=
  pool_ok p' /\ phy_addr_start p' = phy_addr_start p /\
  bit_len (pool_bitmap p') = bit_len (pool_bitmap p) /\ free_count p <= free_count p' + k /\
  (forall g, in_pool p g -> frame_used p g = true -> frame_used p' g = true).

Lemma pool_step_refl p k : pool_ok p -> 0 <= k -> pool_step p p k.
Proof. intros. split_and!; try done. lia. Qed.

Lemma pool_step_trans p1 p2 p3 j k : pool_step p1 p2 j -> pool_step p2 p3 k -> pool_step p1 p3 (j + k).
Proof.
  intros (? & H1 & H2 & ? & Hm1) (? & H3 & H4 & ? & Hm2). split_and!; try congruence; try lia; try done.
  intros g Hg Hu. apply Hm2; [|by apply Hm1]. unfold in_pool in *. by rewrite H1, H2.
Qed.

Lemma allocated_step p p' f : allocated p p' f -> pool_step p p' 1.
Proof.
  intros (_ & _ & Hok & Hs & _ & Hl & Hc & Hu). split_and!; try done; [lia|].
  intros g Hg Hg'. by rewrite Hu, Hg', orb_true_r.
Qed.

Lemma in_pool_step p p' k f : pool_step p p' k -> in_pool p' f <-> in_pool p f.
Proof. intros (_ & H1 & H2 & _). unfold in_pool. by rewrite H1, H2. Qed.

Definition with_maps (t : gmap Z Z) (kp up : pool) (s : mst) : mst :=
  set_m_tables t (set_m_kpool kp (set_m_upool up s)).

Lemma pools_ok_step s t kp up j k :
  pools_ok s -> pool_step (m_kpool s) kp j -> pool_step (m_upool s) up k -> pools_ok (with_maps t kp up s).
Proof.
  intros [? ? ? ?] (? & H1 & H2 & _) (? & H3 & H4 & _). split; simpl; try done.
  - by rewrite H1.
  - by rewrite H1, H2, H3.
Qed.

Lemma page_table_add_run s v f :
  pools_ok s -> vpage v -> lookup_page (m_tables s) v = None ->
  0 <= f < 2 ^ 32 -> f mod PG_SIZE = 0 -> 0 < free_count (m_kpool s) ->
  exists t' kp', page_table_add v f s = Ok (tt, with_maps t' kp' (m_upool s) s) /\
    pool_step (m_kpool s) kp' 1 /\ lookup_page t' v = Some f /\
    (forall w, vpage w -> w <> v -> lookup_page t' w = lookup_page (m_tables s) w).
Proof.
  intros Hok Hv Hnone Hf Hfa Hfree. destruct (pg_entry_eq f Hf Hfa) as [Hodd Hland].
  unfold page_table_add. rewrite (kbind_ok _ _ _ _ _ (load_pde s v Hv)). rewrite land1_odd, negb_involutive.
  destruct (Z.odd (table_word (m_tables s) (pde_ptr v))) eqn:Hd.
  - exists (<[pte_ptr v := pg_entry f]> (m_tables s)), (m_kpool s). split_and!.
    + rewrite (kbind_ok _ _ _ _ _ (load_pte s v Hv Hd)). rewrite land1_odd.
      unfold lookup_page in Hnone. rewrite Hd in Hnone. simpl in Hnone.
      destruct (Z.odd (table_word (m_tables s) (pte_ptr v))); [done|]. simpl.
      rewrite (kbind_ok _ _ _ tt s) by done. rewrite store_pte by done. by destruct s.
    + apply pool_step_refl; [apply Hok|lia].
    + rewrite lookup_write_pte, decide_True, Hodd, Hland by done. done.
    + intros w Hw Hne. by rewrite lookup_write_pte, decide_False.
  - destruct (palloc_run PF_KERNEL s) as (g & kp' & Hpal & Hall);
      [apply Hok|pose proof (po_low _ Hok); simpl; lia|done|].
    rewrite (kbind_ok _ _ _ _ _ Hpal). change (with_pool PF_KERNEL kp' s) with (set_m_kpool kp' s).
    change (pool_of PF_KERNEL s) with (m_kpool s) in Hall.
    destruct (allocated_step _ _ _ Hall) as [Hkok Hkst].
    destruct Hall as ([Hg Hga] & _).
    assert (Hg32 : 0 <= g < 2 ^ 32).
    { destruct (po_kernel _ Hok) as (_ & _ & ?). pose proof (po_low _ Hok). lia. }
    destruct (pg_entry_eq g Hg32 Hga) as [Hgodd _].
    set (s1 := set_m_kpool kp' s).
    set (s2 := set_m_tables (<[pde_ptr v := pg_entry g]> (m_tables s)) s1).
    rewrite (kbind_ok _ _ s1 tt s2).
    2: { unfold store, table_mapped. pose proof (pde_range v Hv). by rewrite (proj2 (Z.leb_le _ _)) by lia. }
    assert (Hd2 : Z.odd (table_word (m_tables s2) (pde_ptr v)) = true).
    { change (m_tables s2) with (<[pde_ptr v := pg_entry g]> (m_tables s)).
      by rewrite table_word_eq. }
    set (t3 := with_table (m_tables s) v (pg_entry g)). set (s3 := set_m_tables t3 s1).
    pose proof (pte_range v Hv). pose proof (pde_range v Hv).
    destruct (vpage_div v Hv) as (Hv1 & Hv2 & Hv3).
    rewrite (kbind_ok _ _ s2 tt s3).
    2: { unfold clear_page. rewrite pte_base by done.
      assert (Hm : table_mapped (m_tables s2) (0xffc00000 + PG_SIZE * (v / 2 ^ 22)) = true).
      { unfold table_mapped. apply orb_true_iff. right.
        replace ((0xffc00000 + PG_SIZE * (v / 2 ^ 22) - 0xffc00000) / PG_SIZE) with (v / 2 ^ 22).
        - rewrite <- pde_ptr_eq by (destruct Hv; lia). done.
        - replace (_ - _) with (v / 2 ^ 22 * PG_SIZE) by lia. by rewrite Z.div_mul. }
      rewrite Hm. unfold s3, t3, with_table. by rewrite pte_base. }
    assert (Hd3 : Z.odd (table_word (m_tables s3) (pde_ptr v)) = true).
    { change (m_tables s3) with t3. unfold t3, with_table. rewrite pte_base by done.
      rewrite zero_words_other by (unfold PG_SIZE in *; lia). by rewrite table_word_eq. }
    pose proof (lookup_with_table (m_tables s) v (pg_entry g) v Hv Hv Hd) as Hl3. fold t3 in Hl3.
    rewrite Hnone in Hl3. unfold lookup_page in Hl3. change (m_tables s3) with t3 in Hd3.
    rewrite Hd3, andb_true_l in Hl3.
    rewrite (kbind_ok _ _ _ _ _ (load_pte s3 v Hv Hd3)). change (m_tables s3) with t3.
    destruct (Z.odd (table_word t3 (pte_ptr v))) eqn:Hodd3; [done|].
    rewrite (kbind_ok _ _ s3 tt s3) by (by rewrite land1_odd, Hodd3).
    rewrite store_pte by done. change (m_tables s3) with t3.
    exists (<[pte_ptr v := pg_entry f]> t3), kp'. split; [by destruct s|]. split; [by split|]. split.
    + rewrite lookup_write_pte, decide_True, Hodd, Hland by done. done.
    + intros w Hw Hne. rewrite lookup_write_pte, decide_False by done.
      by apply lookup_with_table.
Qed.

(** Enough free frames for [n] pages and, in the worst case, [n] page tables. *)
Definition avail (pf : pool_flags) (n : Z) (s : mst) : Prop :=
  match pf with
  | PF_KERNEL => 2 * n <= free_count (m_kpool s)
  | PF_USER => n <= free_count (m_kpool s) /\ n <= free_count (m_upool s)
  end.

(** The [n] pages from [v] on are mapped by [t] to distinct frames that were free in [p]
    and are used in [p']. *)
Definition fresh_run (t : gmap Z Z) (p p' : pool) (v : Z) (n : nat) : Prop :=
  (forall k, 0 <= k < Z.of_nat n -> exists f, lookup_page t (v + k * PG_SIZE) = Some f /\
     in_pool p f /\ frame_used p f = false /\ frame_used p' f = true) /\
  (forall j k, 0 <= j < Z.of_nat n -> 0 <= k < Z.of_nat n ->
     lookup_page t (v + j * PG_SIZE) = lookup_page t (v + k * PG_SIZE) -> j = k).

Definition in_run (v : Z) (n : nat) (w : Z) : Prop := exists k, 0 <= k < Z.of_nat n /\ w = v + k * PG_SIZE.

Lemma map_pages_run n pf v s :
  pools_ok s -> avail pf (Z.of_nat n) s ->
  (forall k, 0 <= k < Z.of_nat n ->
     vpage (v + k * PG_SIZE) /\ lookup_page (m_tables s) (v + k * PG_SIZE) = None) ->
  exists t' kp' up', map_pages n pf v s = Ok (true, with_maps t' kp' up' s) /\
    pool_step (m_kpool s) kp' (2 * Z.of_nat n) /\ pool_step (m_upool s) up' (Z.of_nat n) /\
    fresh_run t' (pool_of pf s) (pool_of pf (with_maps t' kp' up' s)) v n /\
    (forall w, vpage w -> ~ in_run v n w -> lookup_page t' w = lookup_page (m_tables s) w).
Proof.
  revert v s. induction n as [|n IH]; intros v s Hok Hav Hvs.
  { exists (m_tables s), (m_kpool s), (m_upool s). split; [by destruct s|].
    split; [apply pool_step_refl; [apply Hok|lia]|]. split; [apply pool_step_refl; [apply Hok|lia]|].
    split; [split; intros; lia|done]. }
  destruct (Hvs 0) as [Hv Hnone]; [lia|]. rewrite Z.mul_0_l, Z.add_0_r in Hv, Hnone.
  simpl. assert (Hpos : pool_ok (pool_of pf s) /\ 0x102000 <= phy_addr_start (pool_of pf s)
                   /\ 0 < free_count (pool_of pf s)).
  { destruct Hok as [Hk Hu Hl Ho]. destruct Hk as (Hkb & Hk). pose proof (bm_len _ Hkb).
    destruct pf; simpl in *; unfold bit_len, PG_SIZE in *; split_and!; try done; try apply Hk; lia. }
  destruct Hpos as (Hpok & Hlow & Hfree).
  destruct (palloc_run pf s Hpok ltac:(lia) Hfree) as (f & p1 & Hpal & Hall).
  rewrite (kbind_ok _ _ _ _ _ Hpal).
  destruct (Hall) as ([Hf Hfa] & Hfu & _ & _ & _ & _ & _ & Hused).
  assert (Hf32 : 0 < f < 2 ^ 32) by (destruct Hpok as (_ & _ & ?); lia).
  rewrite (proj2 (Z.eqb_neq _ _)) by lia.
  set (s1 := with_pool pf p1 s).
  assert (Hok1 : pools_ok s1 /\ pool_step (m_kpool s) (m_kpool s1) (if decide (pf = PF_KERNEL) then 1 else 0)
    /\ pool_step (m_upool s) (m_upool s1) (if decide (pf = PF_USER) then 1 else 0)).
  { pose proof (allocated_step _ _ _ Hall) as Hst.
    assert (Hs1 : s1 = with_maps (m_tables s) (m_kpool s1) (m_upool s1) s) by (by destruct s, pf).
    assert (Hsteps : pool_step (m_kpool s) (m_kpool s1) (if decide (pf = PF_KERNEL) then 1 else 0)
      /\ pool_step (m_upool s) (m_upool s1) (if decide (pf = PF_USER) then 1 else 0)).
    { destruct pf; simpl in *; split; try done; apply pool_step_refl; try apply Hok; lia. }
    split; [|done]. rewrite Hs1. by eapply pools_ok_step; [|apply Hsteps|apply Hsteps]. }
  destruct Hok1 as (Hok1 & Hk1 & Hu1).
  assert (Ht1 : m_tables s1 = m_tables s) by (by destruct pf).
  destruct (page_table_add_run s1 v f) as (t2 & kp2 & Hadd & Hk2 & Hl2 & Hother2).
  { done. }
  { done. }
  { by rewrite Ht1. }
  { lia. }
  { done. }
  { destruct Hk1 as (_ & _ & _ & Hc & _). destruct pf; repeat case_decide; unfold avail in Hav; try done; lia. }
  rewrite (kbind_ok _ _ _ _ _ Hadd). rewrite Ht1 in Hother2.
  set (s2 := with_maps t2 kp2 (m_upool s1) s1).
  assert (Hok2 : pools_ok s2).
  { eapply (pools_ok_step s1 _ _ _ 1 0); try done. apply pool_step_refl; [apply Hok1|lia]. }
  assert (Hvw : forall k, 0 <= k < Z.of_nat (S n) -> k <> 0 -> v + k * PG_SIZE <> v)
    by (unfold PG_SIZE; lia).
  assert (Hv32 : u32 (v + PG_SIZE) = v + PG_SIZE) by (destruct Hv; unfold PG_SIZE in *; apply u32_small; lia).
  rewrite Hv32.
  assert (Hshift : forall k, v + PG_SIZE + k * PG_SIZE = v + (k + 1) * PG_SIZE) by (unfold PG_SIZE; lia).
  destruct (IH (v + PG_SIZE) s2) as (t' & kp' & up' & Hmap & Hk3 & Hu3 & (Hfr1 & Hfr2) & Hother).
  { done. }
  { destruct Hk1 as (_ & _ & _ & Hc1 & _), Hk2 as (_ & _ & _ & Hc2 & _), Hu1 as (_ & _ & _ & Hc3 & _).
    unfold avail in *. change (m_kpool s2) with kp2. change (m_upool s2) with (m_upool s1).
    destruct pf; repeat case_decide; try done; try split; lia. }
  { intros k Hk. rewrite Hshift. destruct (Hvs (k + 1)) as [H1 H2]; [lia|]. split; [done|].
    change (m_tables s2) with t2. rewrite Hother2; [done|done|]. apply Hvw; lia. }
  exists t', kp', up'. rewrite Hmap. split; [by destruct s, pf|].
  assert (Hks : pool_step (m_kpool s) kp' (2 * Z.of_nat (S n))).
  { change (m_kpool s2) with kp2 in Hk3. pose proof (pool_step_trans _ _ _ _ _ (pool_step_trans _ _ _ _ _ Hk1 Hk2) Hk3) as H.
    destruct H as (? & ? & ? & ? & ?). split_and!; try done. repeat case_decide; try done; lia. }
  assert (Hus : pool_step (m_upool s) up' (Z.of_nat (S n))).
  { change (m_upool s2) with (m_upool s1) in Hu3. pose proof (pool_step_trans _ _ _ _ _ Hu1 Hu3) as H.
    destruct H as (? & ? & ? & ? & ?). split_and!; try done. repeat case_decide; try done; lia. }
  split; [done|]. split; [done|].
  (* the pool the pages come from, before, in the middle and after *)
  set (s' := with_maps t' kp' up' s). set (s2' := with_maps t' kp' up' s2) in *.
  assert (Hpe : pool_of pf s' = pool_of pf s2') by (by destruct pf).
  assert (Hp12 : exists k, pool_step p1 (pool_of pf s2) k).
  { destruct pf; [exists 1; exact Hk2|exists 0; apply pool_step_refl; [apply Hok1|lia]]. }
  destruct Hp12 as [k12 Hp12].
  assert (Hp2' : exists k, pool_step (pool_of pf s2) (pool_of pf s2') k).
  { destruct pf; eexists; [exact Hk3|exact Hu3]. }
  destruct Hp2' as [k2' Hp2'].
  pose proof (allocated_step _ _ _ Hall) as Hp01.
  assert (Hfin : in_pool p1 f) by (apply (in_pool_step _ _ _ _ Hp01); by split).
  assert (Hf1 : frame_used p1 f = true).
  { rewrite Hused by (by split). by rewrite bool_decide_eq_true_2. }
  assert (Hf2 : frame_used (pool_of pf s2) f = true) by (by apply Hp12).
  assert (Hf' : frame_used (pool_of pf s') f = true).
  { rewrite Hpe. apply Hp2'; [|done]. by apply (in_pool_step _ _ _ _ Hp12). }
  assert (Hvout : ~ in_run (v + PG_SIZE) n v) by (intros (k & Hk & E); unfold PG_SIZE in E; lia).
  assert (Hlv : lookup_page t' v = Some f).
  { rewrite Hother by done. exact Hl2. }
  assert (Hrest : forall k, 0 < k < Z.of_nat (S n) -> exists g, lookup_page t' (v + k * PG_SIZE) = Some g /\
     in_pool (pool_of pf s) g /\ frame_used (pool_of pf s) g = false /\ frame_used (pool_of pf s') g = true /\ g <> f).
  { intros k Hk. destruct (Hfr1 (k - 1)) as (g & Hg1 & Hg2 & Hg3 & Hg4); [lia|].
    rewrite Hshift in Hg1. replace (k - 1 + 1) with k in Hg1 by lia.
    assert (Hgin1 : in_pool p1 g) by (by apply (in_pool_step _ _ _ _ Hp12)).
    assert (Hgin0 : in_pool (pool_of pf s) g) by (by apply (in_pool_step _ _ _ _ Hp01)).
    exists g. rewrite Hpe. split_and!; try done.
    - destruct (frame_used (pool_of pf s) g) eqn:E; [|done].
      rewrite (proj2 (proj2 (proj2 (proj2 Hp12)))) in Hg3; [done|done|]. by rewrite Hused, E, orb_true_r.
    - intros ->. congruence. }
  split; [split|].
  - intros k Hk. destruct (decide (k = 0)) as [->|Hne].
    + exists f. rewrite Z.mul_0_l, Z.add_0_r. by split_and!.
    + destruct (Hrest k) as (g & ? & ? & ? & ? & _); [lia|]. by exists g.
  - intros j k Hj Hk E. destruct (decide (j = 0)) as [->|Hj0], (decide (k = 0)) as [->|Hk0]; try done.
    + destruct (Hrest k) as (g & Hg & _ & _ & _ & Hgf); [lia|].
      rewrite Z.mul_0_l, Z.add_0_r in E. congruence.
    + destruct (Hrest j) as (g & Hg & _ & _ & _ & Hgf); [lia|].
      rewrite Z.mul_0_l, Z.add_0_r in E. congruence.
    + assert (j - 1 = k - 1) as E'; [|lia].
      apply Hfr2; try lia. rewrite !Hshift. by replace (j - 1 + 1) with j by lia; replace (k - 1 + 1) with k by lia.
  - intros w Hw Hout. rewrite Hother; [apply Hother2; [done|]|done|].
    + intros ->. apply Hout. exists 0. lia.
    + intros (k & Hk & ->). apply Hout. exists (k + 1). rewrite Hshift. split; [lia|done].
Qed.

(** ** Virtual addresses *)

Lemma set_run_spec n b i (x : bool) :
  bitmap_ok b -> 0 <= i -> i + Z.of_nat n <= Z.of_nat (length (bits b)) * 8 ->
  exists b', set_run n b i (Z.b2z x) = Ok b' /\ bitmap_ok b' /\ btmp_bytes_len b' = btmp_bytes_len b /\
    length (bits b') = length (bits b) /\
    (forall j, 0 <= j ->
       bit_at b' j = if decide (i <= j < i + Z.of_nat n) then x else bit_at b j).
Proof.
  revert b i. induction n as [|n IH]; intros b i Hok Hi Hn.
  - exists b. split_and!; try done. intros j Hj. by rewrite decide_False by lia.
  - destruct (bitmap_set_at b i x Hok) as (b1 & Hset & Hok1 & Hl1 & Hb1 & Hbit1); [lia|].
    destruct (IH b1 (i + 1) Hok1) as (b' & Hrun & Hok' & Hl' & Hb' & Hbit'); [lia|lia|].
    exists b'. simpl. pose proof (bm_small _ Hok). rewrite u32_small by lia. rewrite Hset. simpl.
    split_and!; try done; try congruence. intros j Hj. rewrite Hbit', Hbit1 by lia.
    repeat case_decide; try done; lia.
Qed.

Definition vpool_of (pf : pool_flags) (s : mst) : vaddr_pool :=
  match pf with PF_KERNEL => m_kvaddr s | PF_USER => m_uvaddr s end.
Definition with_vpool (pf : pool_flags) (p : vaddr_pool) (s : mst) : mst :=
  match pf with PF_KERNEL => set_m_kvaddr p s | PF_USER => set_m_uvaddr p s end.

(** The page of bit [i] of a virtual address pool. *)
Definition page_at (vp : vaddr_pool) (i : Z) : Z := vaddr_start vp + i * PG_SIZE.

(** A virtual pool whose free pages are not mapped. *)
Record vpool_ok (vp : vaddr_pool) (t : gmap Z Z) : Prop := {
  vp_bits : bitmap_ok (vaddr_bitmap vp);
  vp_start : 0 < vaddr_start vp /\ vaddr_start vp mod PG_SIZE = 0;
  vp_end : vaddr_start vp + bit_len (vaddr_bitmap vp) * PG_SIZE <= 0xffc00000;
  vp_free : forall i, 0 <= i < bit_len (vaddr_bitmap vp) -> bit_at (vaddr_bitmap vp) i = false ->
    lookup_page t (page_at vp i) = None
}.

Lemma page_at_vpage vp t i :
  vpool_ok vp t -> 0 <= i < bit_len (vaddr_bitmap vp) -> vpage (page_at vp i).
Proof.
  intros [_ [H1 H2] H3 _] Hi. unfold vpage, page_at in *. split; [unfold PG_SIZE in *; lia|].
  by rewrite Z.mod_add.
Qed.

Lemma page_at_shift vp i k : page_at vp i + k * PG_SIZE = page_at vp (i + k).
Proof. unfold page_at. lia. Qed.

(** The pages a user process may be given lie below its stack. *)
Definition below_stack (pf : pool_flags) (v : Z) : Prop := pf = PF_USER -> v < 0xc0000000 - PG_SIZE.

Lemma vaddr_get_run pf n r s :
  vpool_ok (vpool_of pf s) (m_tables s) -> 0 < n ->
  bitmap_scan (vaddr_bitmap (vpool_of pf s)) n = Ok r -> 0 <= r ->
  r + n <= bit_len (vaddr_bitmap (vpool_of pf s)) -> below_stack pf (page_at (vpool_of pf s) r) ->
  exists b, vaddr_get pf n s = Ok (page_at (vpool_of pf s) r,
      with_vpool pf (VPool b (vaddr_start (vpool_of pf s))) s) /\
    bitmap_ok b /\ bit_len b = bit_len (vaddr_bitmap (vpool_of pf s)) /\
    length (bits b) = length (bits (vaddr_bitmap (vpool_of pf s))) /\
    (forall j, 0 <= j -> bit_at b j =
       if decide (r <= j < r + n) then true else bit_at (vaddr_bitmap (vpool_of pf s)) j).
Proof.
  intros [Hb [Hs1 Hs2] He _] Hn Hscan Hr Hrn Hst. set (vp := vpool_of pf s) in *.
  destruct (set_run_spec (Z.to_nat n) (vaddr_bitmap vp) r true Hb Hr) as (b & Hset & Hok & Hl & Hlen & Hbit).
  { pose proof (bm_len _ Hb). unfold bit_len in Hrn. lia. }
  exists b. split_and!; try done.
  - unfold vaddr_get. rewrite (kbind_ok _ _ s vp s) by (by destruct pf).
    rewrite (kbind_ok _ _ s r s) by (unfold klift; by rewrite Hscan).
    rewrite (proj2 (Z.eqb_neq _ _)) by lia.
    rewrite (kbind_ok _ _ s b s) by (unfold klift; change 1 with (Z.b2z true); by rewrite Hset).
    set (s1 := with_vpool pf _ s). rewrite (kbind_ok _ _ s tt s1) by (by destruct pf).
    rewrite u32_small by (unfold PG_SIZE in *; lia).
    rewrite (kbind_ok _ _ s1 tt s1); [done|].
    destruct pf; [done|]. unfold below_stack, page_at in Hst. specialize (Hst eq_refl).
    by rewrite (proj2 (Z.ltb_lt _ _)).
  - unfold bit_len. congruence.
  - intros j Hj. rewrite Hbit by done. by rewrite Z2Nat.id by lia.
Qed.

(** The run of [malloc_page] on a free run of virtual pages, with the state it ends in. *)
Lemma malloc_page_run pf n r s :
  let vp := vpool_of pf s in
  pools_ok s -> vpool_ok vp (m_tables s) -> 0 < n < 3840 -> avail pf n s ->
  bitmap_scan (vaddr_bitmap vp) n = Ok r -> 0 <= r -> r + n <= bit_len (vaddr_bitmap vp) ->
  clear_run (vaddr_bitmap vp) r n -> below_stack pf (page_at vp r) ->
  exists b t' kp' up', let s1 := with_vpool pf (VPool b (vaddr_start vp)) s in let s' := with_maps t' kp' up' s1 in
    malloc_page pf n s = Ok (page_at vp r, s') /\ map_pages (Z.to_nat n) pf (page_at vp r) s1 = Ok (true, s') /\
    pool_step (m_kpool s) kp' (2 * n) /\ pool_step (m_upool s) up' n /\
    fresh_run t' (pool_of pf s) (pool_of pf s') (page_at vp r) (Z.to_nat n) /\
    (forall w, vpage w -> ~ in_run (page_at vp r) (Z.to_nat n) w -> lookup_page t' w = lookup_page (m_tables s) w) /\
    vpool_ok (VPool b (vaddr_start vp)) t' /\
    (forall j, 0 <= j -> bit_at b j = if decide (r <= j < r + n) then true else bit_at (vaddr_bitmap vp) j) /\
    bit_len b = bit_len (vaddr_bitmap vp) /\ length (bits b) = length (bits (vaddr_bitmap vp)).
Proof.
  intros vp Hok Hvp Hn Hav Hscan Hr Hrn Hclear Hst.
  destruct (vaddr_get_run pf n r s Hvp ltac:(lia) Hscan Hr Hrn Hst) as (b & Hget & Hbok & Hbl & Hlen & Hbit).
  fold vp in Hget, Hbl, Hlen, Hbit. set (s1 := with_vpool pf (VPool b (vaddr_start vp)) s) in *.
  assert (Hs1 : m_tables s1 = m_tables s /\ m_kpool s1 = m_kpool s /\ m_upool s1 = m_upool s)
    by (by destruct pf). destruct Hs1 as (Et & Ek & Eu).
  assert (Hok1 : pools_ok s1) by (destruct Hok; by split; rewrite ?Ek, ?Eu).
  assert (Hpo : pool_of pf s1 = pool_of pf s) by (by destruct pf).
  destruct (map_pages_run (Z.to_nat n) pf (page_at vp r) s1)
    as (t' & kp' & up' & Hmap & Hk & Hu & Hfr & Hother).
  { done. }
  { rewrite Z2Nat.id by lia. unfold avail in *. by rewrite Ek, Eu. }
  { intros k Hk. rewrite page_at_shift, Et. split; [eapply page_at_vpage; [done|lia]|].
    apply (vp_free _ _ Hvp); [lia|]. apply Hclear. lia. }
  rewrite Z2Nat.id, Ek, Eu in * by lia. rewrite Et in Hother. rewrite Hpo in Hfr.
  exists b, t', kp', up'. cbv zeta. fold s1. split; [|split; [exact Hmap|split; [exact Hk|split; [exact Hu|split; [exact Hfr|
    split; [exact Hother|split; [|split; [exact Hbit|exact (conj Hbl Hlen)]]]]]]]].
  - unfold malloc_page. rewrite (kbind_ok _ _ s tt s).
    2: { by rewrite !(proj2 (Z.ltb_lt _ _)) by lia. }
    rewrite (kbind_ok _ _ _ _ _ Hget).
    destruct (vp_start _ _ Hvp). rewrite (proj2 (Z.eqb_neq _ _)) by (unfold page_at, PG_SIZE; lia).
    by rewrite (kbind_ok _ _ _ _ _ Hmap).
  - destruct Hvp as [Hb [Hp1 Hp2] He Hfree]. split; simpl; try done.
    + by rewrite Hbl.
    + intros i Hi Hclr. rewrite Hbit in Hclr by lia. case_decide as Hd; [done|]. rewrite Hbl in Hi.
      change (page_at (VPool b (vaddr_start vp)) i) with (page_at vp i).
      rewrite Hother; [by apply Hfree|unfold vpage, page_at; split; [unfold PG_SIZE in *; lia|by rewrite Z.mod_add]|].
      intros (k & Hk' & E). unfold page_at, PG_SIZE in E. lia.
Qed.

(** C15: [malloc_page].  Given a free run of virtual pages (which [bitmap_scan] finds) and
    enough free frames, it maps every page of the run to a frame of its own, taken from
    the right pool and free before; the pages of the run and the frames are marked used,
    every other page keeps its mapping, and the pools stay well formed. *)
Theorem malloc_page_spec pf n r s :
  let vp := vpool_of pf s in
  pools_ok s -> vpool_ok vp (m_tables s) -> 0 < n < 3840 -> avail pf n s ->
  bitmap_scan (vaddr_bitmap vp) n = Ok r -> 0 <= r -> r + n <= bit_len (vaddr_bitmap vp) ->
  clear_run (vaddr_bitmap vp) r n -> below_stack pf (page_at vp r) ->
  exists s', malloc_page pf n s = Ok (page_at vp r, s') /\ pools_ok s' /\
    fresh_run (m_tables s') (pool_of pf s) (pool_of pf s') (page_at vp r) (Z.to_nat n) /\
    (forall w, vpage w -> ~ in_run (page_at vp r) (Z.to_nat n) w ->
       lookup_page (m_tables s') w = lookup_page (m_tables s) w) /\
    vpool_ok (vpool_of pf s') (m_tables s') /\
    (forall j, 0 <= j -> bit_at (vaddr_bitmap (vpool_of pf s')) j =
       if decide (r <= j < r + n) then true else bit_at (vaddr_bitmap vp) j).
Proof.
  intros vp Hok Hvp Hn Hav Hscan Hr Hrn Hclear Hst.
  destruct (malloc_page_run pf n r s Hok Hvp Hn Hav Hscan Hr Hrn Hclear Hst)
    as (b & t' & kp' & up' & E & _ & Hk & Hu & Hfr & Hother & Hvp' & Hbit & _ & _).
  set (s1 := with_vpool pf (VPool b (vaddr_start vp)) s) in *. set (s' := with_maps t' kp' up' s1) in *.
  assert (Hv' : vpool_of pf s' = VPool b (vaddr_start vp)) by (by destruct pf).
  assert (Hs1 : m_kpool s1 = m_kpool s /\ m_upool s1 = m_upool s) by (by destruct pf). destruct Hs1 as (Ek & Eu).
  exists s'. split; [exact E|]. split; [|split; [exact Hfr|split; [exact Hother|rewrite Hv'; by split]]].
  eapply (pools_ok_step s1); [|rewrite Ek; exact Hk|rewrite Eu; exact Hu]. destruct Hok; by split; rewrite ?Ek, ?Eu.
Qed.

(** ** Giving pages back *)

Lemma land_page_range w : 0 <= Z.land w 0xfffff000 < 2 ^ 32.
Proof.
  change 0xfffff000 with (Z.shiftl (Z.ones 20) 12). rewrite land_high by lia.
  pose proof (Z.mod_pos_bound (w / 2 ^ 12) (2 ^ 20) ltac:(lia)). lia.
Qed.

Lemma addr_v2p_run s v f :
  vpage v -> lookup_page (m_tables s) v = Some f -> addr_v2p v s = Ok (f, s).
Proof.
  intros Hv Hl. unfold lookup_page in Hl.
  destruct (Z.odd (table_word (m_tables s) (pde_ptr v))) eqn:Hd; [|done].
  destruct (Z.odd (table_word (m_tables s) (pte_ptr v))); [|done]. injection Hl as Hl.
  unfold addr_v2p. rewrite (kbind_ok _ _ _ _ _ (load_pte s v Hv Hd)). rewrite Hl.
  assert (Hz : Z.land v 0xfff = 0).
  { change 0xfff with (Z.ones 12). rewrite Z.land_ones by lia. apply Hv. }
  rewrite Hz. pose proof (land_page_range (table_word (m_tables s) (pte_ptr v))). rewrite Hl in *.
  unfold kret. do 2 f_equal. rewrite u32_small; lia.
Qed.

Lemma odd_clear e : Z.odd (u32 (Z.land e (Z.lnot PG_P_1))) = false.
Proof.
  rewrite <- Z.bit0_odd. unfold u32. rewrite Z.mod_pow2_bits_low by lia.
  rewrite Z.land_spec. by rewrite andb_false_r.
Qed.

Lemma pte_remove_run s v f :
  vpage v -> lookup_page (m_tables s) v = Some f ->
  exists t', page_table_pte_remove v s = Ok (tt, set_m_tables t' s) /\ lookup_page t' v = None /\
    (forall w, vpage w -> w <> v -> lookup_page t' w = lookup_page (m_tables s) w).
Proof.
  intros Hv Hl. unfold lookup_page in Hl.
  destruct (Z.odd (table_word (m_tables s) (pde_ptr v))) eqn:Hd; [|done].
  eexists. split.
  - unfold page_table_pte_remove. rewrite (kbind_ok _ _ _ _ _ (load_pte s v Hv Hd)).
    by rewrite store_pte.
  - split.
    + by rewrite lookup_write_pte, decide_True, odd_clear by done.
    + intros w Hw Hne. by rewrite lookup_write_pte, decide_False.
Qed.

(** A pool from which exactly the frames in [F] were given back. *)
Definition freed (p p' : pool) (F : Z -> Prop) : Prop :=
  pool_ok p' /\ phy_addr_start p' = phy_addr_start p /\
  bit_len (pool_bitmap p') = bit_len (pool_bitmap p) /\
  (forall g, in_pool p g -> frame_used p' g = true <-> frame_used p g = true /\ ~ F g).

Lemma freed_ext p p' (F G : Z -> Prop) : freed p p' F -> (forall g, F g <-> G g) -> freed p p' G.
Proof. intros (? & ? & ? & U) HFG. do 3 (split; [done|]). intros g Hg. rewrite U by done. by rewrite HFG. Qed.

Lemma in_pool_index p f :
  pool_ok p -> in_pool p f ->
  0 <= (f - phy_addr_start p) / PG_SIZE < bit_len (pool_bitmap p) /\
  f = phy_addr_start p + (f - phy_addr_start p) / PG_SIZE * PG_SIZE.
Proof.
  intros (_ & Ha & _) [Hf Hfa]. unfold PG_SIZE in *. split.
  - split; [apply Z.div_pos; lia|apply Z.div_lt_upper_bound; lia].
  - pose proof (Z.div_mod (f - phy_addr_start p) 4096 ltac:(lia)) as E.
    rewrite Zminus_mod, Hfa, Ha in E. change ((0 - 0) mod 4096) with 0 in E. lia.
Qed.

Lemma pool_low q s : pools_ok s -> 0x102000 <= phy_addr_start (pool_of q s).
Proof.
  intros [(Hb & _) _ Hl Ho]. pose proof (bm_len _ Hb). unfold bit_len, PG_SIZE in *.
  destruct q; simpl; lia.
Qed.

Lemma pfree_run q s f :
  pools_ok s -> in_pool (pool_of q s) f ->
  exists p', pfree f s = Ok (tt, with_pool q p' s) /\ freed (pool_of q s) p' (eq f).
Proof.
  intros Hok Hf.
  assert (Hp : pool_ok (pool_of q s)) by (destruct q; apply Hok).
  destruct (in_pool_index _ _ Hp Hf) as [Hi Hfe].
  set (p := pool_of q s) in *. set (i := (f - phy_addr_start p) / PG_SIZE) in *.
  destruct Hp as (Hb & Ha & Hl).
  destruct (bitmap_set_at (pool_bitmap p) i false Hb) as (b & Hset & Hbok & Hbl & _ & Hbit).
  { pose proof (bm_len _ Hb). unfold bit_len in Hi. lia. }
  assert (Hbl' : bit_len b = bit_len (pool_bitmap p)) by (unfold bit_len; congruence).
  exists (set_bitmap b p). split.
  - unfold pfree. rewrite (kbind_ok _ _ s (m_upool s) s) by done.
    rewrite (kbind_ok _ _ s (m_kpool s) s) by done.
    assert (Hsub : u32 (f - phy_addr_start p) / PG_SIZE = i).
    { unfold i. rewrite u32_small; [done|]. destruct Hf as [Hf _].
      pose proof (pool_low q s Hok) as Hlow. fold p in Hlow. lia. }
    destruct q; simpl in p.
    + rewrite (proj2 (Z.leb_gt _ _)).
      2: { destruct Hf as [Hf _]. pose proof (po_order _ Hok). fold p in H. lia. }
      apply (pool_bits_run PF_KERNEL). fold p. rewrite Hsub. exact Hset.
    + rewrite (proj2 (Z.leb_le _ _)) by apply Hf.
      apply (pool_bits_run PF_USER). fold p. rewrite Hsub. exact Hset.
  - split_and!; try done.
    + split_and!; [done|done|]. simpl. by rewrite Hbl'.
    + intros g Hg. destruct (in_pool_index p g) as [Hgi Hge]; [by split_and!|done|].
      unfold frame_used; simpl. rewrite Hbit by lia. fold i. case_decide as Hd.
      * split; [done|]. intros [_ Hn]. exfalso. apply Hn. rewrite Hge, Hd. exact Hfe.
      * split; [|tauto]. intros Hu. split; [done|]. intros ->. by apply Hd.
Qed.

(** The frames a run of pages is mapped to. *)
Definition run_frames (t : gmap Z Z) (v : Z) (n : nat) (g : Z) : Prop :=
  exists k, 0 <= k < Z.of_nat n /\ lookup_page t (v + k * PG_SIZE) = Some g.

Lemma unmap_pages_run n test q v s :
  pools_ok s ->
  (forall k, 0 <= k < Z.of_nat n -> vpage (v + k * PG_SIZE) /\
     exists f, lookup_page (m_tables s) (v + k * PG_SIZE) = Some f /\ in_pool (pool_of q s) f) ->
  (forall f, in_pool (pool_of q s) f -> test f = true) ->
  exists t' p', unmap_pages n test v s = Ok (tt, set_m_tables t' (with_pool q p' s)) /\
    freed (pool_of q s) p' (run_frames (m_tables s) v n) /\
    (forall k, 0 <= k < Z.of_nat n -> lookup_page t' (v + k * PG_SIZE) = None) /\
    (forall w, vpage w -> ~ in_run v n w -> lookup_page t' w = lookup_page (m_tables s) w).
Proof.
  revert v s. induction n as [|n IH]; intros v s Hok Hvs Htest.
  { exists (m_tables s), (pool_of q s). split; [by destruct s, q|].
    split; [|split; [lia|done]]. split_and!; [destruct q; apply Hok|done|done|].
    intros g Hg. split; [|tauto]. intros Hu. split; [done|]. intros (k & Hk & _). lia. }
  destruct (Hvs 0) as [Hv (f & Hl & Hf)]; [lia|]. rewrite Z.mul_0_l, Z.add_0_r in Hv, Hl.
  simpl. rewrite (kbind_ok _ _ _ _ _ (addr_v2p_run s v f Hv Hl)).
  rewrite (kbind_ok _ _ s tt s).
  2: { rewrite (Htest f Hf). by rewrite (proj2 (Z.eqb_eq _ _)) by apply Hf. }
  destruct (pfree_run q s f Hok Hf) as (p1 & Hpf & Hp1). rewrite (kbind_ok _ _ _ _ _ Hpf).
  set (s1 := with_pool q p1 s). assert (Et1 : m_tables s1 = m_tables s) by (by destruct q).
  destruct (pte_remove_run s1 v f Hv) as (t2 & Hrm & Hl2 & Hother2); [by rewrite Et1|].
  rewrite (kbind_ok _ _ _ _ _ Hrm). set (s2 := set_m_tables t2 s1). rewrite Et1 in Hother2.
  assert (Hv32 : u32 (v + PG_SIZE) = v + PG_SIZE) by (destruct Hv; unfold PG_SIZE in *; apply u32_small; lia).
  rewrite Hv32.
  assert (Hshift : forall k, v + PG_SIZE + k * PG_SIZE = v + (k + 1) * PG_SIZE) by (unfold PG_SIZE; lia).
  assert (Epo : pool_of q s2 = p1) by (by destruct q).
  destruct Hp1 as (Hp1ok & Hp1s & Hp1l & Hp1u).
  assert (Hin : forall g, in_pool p1 g <-> in_pool (pool_of q s) g)
    by (intros g; unfold in_pool; by rewrite Hp1s, Hp1l).
  assert (Hok2 : pools_ok s2).
  { destruct Hok as [Hk Hu Hlo Hor]. destruct q; simpl in *; split; simpl; try done;
      rewrite ?Hp1s, ?Hp1l; done. }
  destruct (IH (v + PG_SIZE) s2) as (t' & p' & Hrun & (Hpok & Hps & Hpl & Hpu) & Hnone & Hother).
  { done. }
  { intros k Hk. rewrite Hshift, Epo. destruct (Hvs (k + 1)) as [H1 (g & H2 & H3)]; [lia|].
    split; [done|]. exists g. split; [|by apply Hin].
    change (m_tables s2) with t2. rewrite Hother2; [done|done|unfold PG_SIZE; lia]. }
  { rewrite Epo. intros g Hg. by apply Htest, Hin. }
  rewrite Epo in *. exists t', p'. rewrite Hrun. split; [by destruct s, q|].
  assert (Hvout : ~ in_run (v + PG_SIZE) n v) by (intros (k & Hk & E); unfold PG_SIZE in E; lia).
  split; [split_and!; try congruence; try done|split].
  - intros g Hg. rewrite Hpu by (by apply Hin). rewrite Hp1u by done. split.
    + intros [[Hu Hne] Hnr]. split; [done|]. intros (k & Hk & Hlk).
      destruct (decide (k = 0)) as [->|Hk0].
      * rewrite Z.mul_0_l, Z.add_0_r in Hlk. congruence.
      * apply Hnr. exists (k - 1). split; [lia|]. rewrite Hshift.
        replace (k - 1 + 1) with k by lia. change (m_tables s2) with t2.
        rewrite Hother2; [done|by apply Hvs|unfold PG_SIZE; lia].
    + intros [Hu Hnr]. split; [split; [done|]|].
      * intros <-. apply Hnr. exists 0. rewrite Z.mul_0_l, Z.add_0_r. split; [lia|done].
      * intros (k & Hk & Hlk). apply Hnr. exists (k + 1). split; [lia|].
        rewrite Hshift in Hlk. change (m_tables s2) with t2 in Hlk.
        rewrite Hother2 in Hlk; [done|apply Hvs; lia|unfold PG_SIZE; lia].
  - intros k Hk. destruct (decide (k = 0)) as [->|Hk0].
    + rewrite Z.mul_0_l, Z.add_0_r. rewrite Hother by done. exact Hl2.
    + specialize (Hnone (k - 1)). rewrite Hshift in Hnone. replace (k - 1 + 1) with k in Hnone by lia.
      apply Hnone. lia.
  - intros w Hw Hout. rewrite Hother; [apply Hother2; [done|]|done|].
    + intros ->. apply Hout. exists 0. lia.
    + intros (k & Hk & ->). apply Hout. exists (k + 1). rewrite Hshift. split; [lia|done].
Qed.

Lemma mfree_page_state pf n i s :
  let vp := vpool_of pf s in
  let v := page_at vp i in
  pools_ok s -> vpool_ok vp (m_tables s) -> 0 < n -> 0 <= i -> i + n <= bit_len (vaddr_bitmap vp) ->
  (forall k, 0 <= k < n -> exists f,
     lookup_page (m_tables s) (v + k * PG_SIZE) = Some f /\ in_pool (pool_of pf s) f) ->
  exists b t' p',
    mfree_page pf v n s = Ok (tt, with_vpool pf (VPool b (vaddr_start vp)) (set_m_tables t' (with_pool pf p' s))) /\
    unmap_pages (Z.to_nat n) (match pf with
      | PF_USER => fun a => phy_addr_start (m_upool s) <=? a
      | PF_KERNEL => fun a => (phy_addr_start (m_kpool s) <=? a) && (a <? phy_addr_start (m_upool s)) end) v s
      = Ok (tt, set_m_tables t' (with_pool pf p' s)) /\
    freed (pool_of pf s) p' (run_frames (m_tables s) v (Z.to_nat n)) /\
    (forall k, 0 <= k < n -> lookup_page t' (v + k * PG_SIZE) = None) /\
    (forall w, vpage w -> ~ in_run v (Z.to_nat n) w -> lookup_page t' w = lookup_page (m_tables s) w) /\
    vpool_ok (VPool b (vaddr_start vp)) t' /\
    (forall j, 0 <= j -> bit_at b j = if decide (i <= j < i + n) then false else bit_at (vaddr_bitmap vp) j) /\
    bit_len b = bit_len (vaddr_bitmap vp) /\ length (bits b) = length (bits (vaddr_bitmap vp)).
Proof.
  intros vp v Hok Hvp Hn Hi Hin Hmap.
  assert (Hvs : forall k, 0 <= k < n -> vpage (v + k * PG_SIZE)).
  { intros k Hk. unfold v. rewrite page_at_shift. eapply page_at_vpage; [done|lia]. }
  destruct (Hmap 0) as (f0 & Hl0 & Hf0); [lia|]. pose proof (Hvs 0 ltac:(lia)) as Hv0.
  rewrite Z.mul_0_l, Z.add_0_r in Hl0, Hv0.
  set (test := match pf with
    | PF_USER => fun a => phy_addr_start (m_upool s) <=? a
    | PF_KERNEL => fun a => (phy_addr_start (m_kpool s) <=? a) && (a <? phy_addr_start (m_upool s)) end).
  destruct (unmap_pages_run (Z.to_nat n) test pf v s Hok) as (t' & p' & Hrun & Hfreed & Hnone & Hother).
  { intros k Hk. split; [apply Hvs; lia|]. apply Hmap. lia. }
  { intros f [Hf _]. pose proof (po_order _ Hok). unfold test. destruct pf; simpl in Hf.
    - apply andb_true_iff. split; [apply Z.leb_le|apply Z.ltb_lt]; lia.
    - apply Z.leb_le. lia. }
  set (s1 := set_m_tables t' (with_pool pf p' s)) in *.
  assert (Ev1 : vpool_of pf s1 = vp) by (by destruct pf).
  destruct (vp_start _ _ Hvp) as [Hst Hsa]. pose proof (vp_end _ _ Hvp) as Hend.
  destruct (set_run_spec (Z.to_nat n) (vaddr_bitmap vp) i false (vp_bits _ _ Hvp) Hi)
    as (b & Hset & Hbok & Hbl & Hlen & Hbit).
  { pose proof (bm_len _ (vp_bits _ _ Hvp)). unfold bit_len in Hin. lia. }
  set (s2 := with_vpool pf (VPool b (vaddr_start vp)) s1).
  assert (Ebl : bit_len b = bit_len (vaddr_bitmap vp)) by (unfold bit_len; congruence).
  exists b, t', p'. fold s1 s2. split; [|split; [exact Hrun|split; [exact Hfreed|split; [|split; [exact Hother|
    split; [|split; [|exact (conj Ebl Hlen)]]]]]]].
  - unfold mfree_page. rewrite (kbind_ok _ _ s tt s).
    2: { rewrite (proj2 (Z.leb_le _ _)) by lia. by rewrite (proj2 (Z.eqb_eq _ _)) by apply Hv0. }
    rewrite (kbind_ok _ _ _ _ _ (addr_v2p_run s v f0 Hv0 Hl0)).
    rewrite (kbind_ok _ _ s tt s).
    2: { rewrite (proj2 (Z.eqb_eq _ _)) by apply Hf0. destruct Hf0 as [Hf0 _].
      pose proof (pool_low pf s Hok). by rewrite (proj2 (Z.leb_le _ _)) by lia. }
    rewrite (kbind_ok _ _ s (m_upool s) s) by done. rewrite (kbind_ok _ _ s (m_kpool s) s) by done.
    rewrite (kbind_ok _ _ s tt s1).
    2: { rewrite <- Hrun. unfold test. destruct Hf0 as [Hf0 _]. pose proof (po_order _ Hok).
      destruct pf; simpl in Hf0.
      - by rewrite (proj2 (Z.leb_gt _ _)) by lia.
      - by rewrite (proj2 (Z.leb_le _ _)) by lia. }
    unfold vaddr_remove. rewrite (kbind_ok _ _ s1 vp s1) by (by destruct pf).
    replace (u32 (v - vaddr_start vp) / PG_SIZE) with i.
    + rewrite (kbind_ok _ _ s1 b s1) by (unfold klift; change 0 with (Z.b2z false); by rewrite Hset).
      by destruct pf.
    + unfold v, page_at. replace (_ - _) with (i * PG_SIZE) by lia.
      rewrite u32_small by (unfold PG_SIZE in *; lia). by rewrite Z.div_mul.
  - intros k Hk. apply Hnone. lia.
  - split; simpl; try done.
    + by rewrite Ebl.
    + intros j Hj Hclr. rewrite Hbit in Hclr by lia. rewrite Ebl in Hj.
      change (page_at (VPool b (vaddr_start vp)) j) with (page_at vp j).
      case_decide as Hd.
      * replace (page_at vp j) with (v + (j - i) * PG_SIZE) by (unfold v, page_at; lia). apply Hnone. lia.
      * rewrite Hother; [by apply (vp_free _ _ Hvp)|eapply page_at_vpage; done|].
        intros (k & Hk & E). unfold v, page_at, PG_SIZE in E. lia.
  - intros j Hj. rewrite Hbit by done. by rewrite Z2Nat.id by lia.
Qed.

Lemma mfree_page_run pf n i s :
  let vp := vpool_of pf s in
  let v := page_at vp i in
  pools_ok s -> vpool_ok vp (m_tables s) -> 0 < n -> 0 <= i -> i + n <= bit_len (vaddr_bitmap vp) ->
  (forall k, 0 <= k < n -> exists f,
     lookup_page (m_tables s) (v + k * PG_SIZE) = Some f /\ in_pool (pool_of pf s) f) ->
  exists s', mfree_page pf v n s = Ok (tt, s') /\
    freed (pool_of pf s) (pool_of pf s') (run_frames (m_tables s) v (Z.to_nat n)) /\
    (forall k, 0 <= k < n -> lookup_page (m_tables s') (v + k * PG_SIZE) = None) /\
    (forall w, vpage w -> ~ in_run v (Z.to_nat n) w ->
       lookup_page (m_tables s') w = lookup_page (m_tables s) w) /\
    vpool_ok (vpool_of pf s') (m_tables s') /\
    (forall j, 0 <= j -> bit_at (vaddr_bitmap (vpool_of pf s')) j =
       if decide (i <= j < i + n) then false else bit_at (vaddr_bitmap vp) j) /\
    (forall q, q <> pf -> pool_of q s' = pool_of q s).
Proof.
  intros vp v Hok Hvp Hn Hi Hin Hmap.
  destruct (mfree_page_state pf n i s Hok Hvp Hn Hi Hin Hmap) as (b & t' & p' & E & _ & Hfr & Hnone & Hother & Hvp' & Hbit & _).
  eexists. split; [exact E|]. destruct pf; cbn; (split; [exact Hfr|split; [exact Hnone|split; [exact Hother|split; [exact Hvp'|
    split; [exact Hbit|intros [] ?; done]]]]]).
Qed.

(** [mfree_page] undoes [malloc_page].  A run of mapped pages whose frames all belong
    to one pool is unmapped: exactly those frames and those virtual pages become free,
    every other page keeps its mapping and the other pool is as it was. *)
Theorem mfree_page_spec pf n i s :
  let vp := vpool_of pf s in
  let v := page_at vp i in
  pools_ok s -> vpool_ok vp (m_tables s) -> 0 < n -> 0 <= i -> i + n <= bit_len (vaddr_bitmap vp) ->
  (forall k, 0 <= k < n -> exists f,
     lookup_page (m_tables s) (v + k * PG_SIZE) = Some f /\ in_pool (pool_of pf s) f) ->
  exists s', mfree_page pf v n s = Ok (tt, s') /\
    freed (pool_of pf s) (pool_of pf s') (run_frames (m_tables s) v (Z.to_nat n)) /\
    (forall k, 0 <= k < n -> lookup_page (m_tables s') (v + k * PG_SIZE) = None) /\
    (forall w, vpage w -> ~ in_run v (Z.to_nat n) w ->
       lookup_page (m_tables s') w = lookup_page (m_tables s) w) /\
    vpool_ok (vpool_of pf s') (m_tables s') /\
    (forall j, 0 <= j -> bit_at (vaddr_bitmap (vpool_of pf s')) j =
       if decide (i <= j < i + n) then false else bit_at (vaddr_bitmap vp) j) /\
    (forall q, q <> pf -> pool_of q s' = pool_of q s).
Proof. exact (mfree_page_run pf n i s). Qed.

(** ** The arena allocator *)

Definition descs_of (s : mst) : list mem_block_desc := if m_user s then m_udescs s else m_kdescs s.
Definition heap_pool (s : mst) : pool_flags := if m_user s then PF_USER else PF_KERNEL.

(** The descriptors as [block_desc_init] leaves them, with some blocks on the free lists. *)
Definition descs_ok (l : list mem_block_desc) : Prop :=
  map (fun d => (block_size d, block_per_arena d)) l
  = map (fun d => (block_size d, block_per_arena d)) block_desc_init.

(** The block size [size] bytes are served from: the smallest power of two from 16 on. *)
Lemma find_desc_spec l size :
  descs_ok l -> 0 < size <= 1024 ->
  exists d, 0 <= find_desc l size 0 < DESC_CNT /\ rd l (find_desc l size 0) = Ok d /\
    block_size d = 2 ^ (4 + find_desc l size 0) /\ size <= block_size d /\
    (16 < block_size d -> block_size d < 2 * size) /\
    block_per_arena d = (PG_SIZE - sizeof_arena) / block_size d /\
    block_per_arena d * block_size d + sizeof_arena <= PG_SIZE /\ 3 <= block_per_arena d.
Proof.
  unfold descs_ok. intros Hl Hsize.
  assert (Hi : map (fun d => (block_size d, block_per_arena d)) block_desc_init
    = [(16, 255); (32, 127); (64, 63); (128, 31); (256, 15); (512, 7); (1024, 3)]) by reflexivity.
  rewrite Hi in Hl. clear Hi.
  destruct l as [|d0 [|d1 [|d2 [|d3 [|d4 [|d5 [|d6 [|]]]]]]]]; try done.
  injection Hl as E0 F0 E1 F1 E2 F2 E3 F3 E4 F4 E5 F5 E6 F6. simpl.
  rewrite E0, E1, E2, E3, E4, E5, E6. unfold PG_SIZE, sizeof_arena, DESC_CNT.
  repeat match goal with |- context [size <=? ?k] => destruct (Z.leb_spec size k) end;
    try lia; eexists; (split; [lia|]); (split; [reflexivity|]);
    rewrite ?E0, ?E1, ?E2, ?E3, ?E4, ?E5, ?E6, ?F0, ?F1, ?F2, ?F3, ?F4, ?F5, ?F6;
    split_and!; try reflexivity; lia.
Qed.

Lemma block_in_arena a bs per k :
  vpage a -> 16 <= bs -> per * bs + sizeof_arena <= PG_SIZE -> 0 <= k < per ->
  arena2block a bs k = a + sizeof_arena + k * bs /\ block2arena (arena2block a bs k) = a.
Proof.
  intros [Ha Hal] Hbs Hper Hk. unfold PG_SIZE, sizeof_arena in *.
  assert (0 <= k * bs /\ k * bs + bs <= 4096 - 12) by nia.
  unfold arena2block, sizeof_arena. rewrite u32_small by lia. split; [done|].
  unfold block2arena. change 0xfffff000 with (Z.shiftl (Z.ones 20) 12). rewrite land_high by lia.
  apply Z.mod_divide in Hal as [q ->]; [|lia]. change (2 ^ 12) with 4096.
  replace (q * 4096 + 12 + k * bs) with (q * 4096 + (12 + k * bs)) by lia.
  rewrite Z.div_add_l, (Z.div_small (12 + k * bs)) by lia. rewrite Z.mod_small; lia.
Qed.

(** The state with another free list for descriptor [i]. *)
Definition with_free (i : Z) (fl : list Z) (s : mst) : mst :=
  let l' := match rd (descs_of s) i with
            | Ok d => <[Z.to_nat i := MemBlockDesc (block_size d) (block_per_arena d) fl]> (descs_of s)
            | Err _ => descs_of s end in
  if m_user s then set_m_udescs l' s else set_m_kdescs l' s.

Lemma get_desc_run s i d : rd (descs_of s) i = Ok d -> get_desc i s = Ok (d, s).
Proof.
  intros H. unfold get_desc, get_descs, kbind, kreads, klift. fold (descs_of s). by rewrite H.
Qed.

Lemma put_free_run s i d fl :
  rd (descs_of s) i = Ok d -> put_free_list i fl s = Ok (tt, with_free i fl s).
Proof.
  intros H. unfold put_free_list, get_descs, kbind, kreads, klift. fold (descs_of s). rewrite H.
  pose proof (rd_inv _ _ _ H) as [Hi Hl]. apply lookup_lt_Some in Hl.
  rewrite wr_Ok by lia. unfold put_descs, kmod, with_free. by rewrite H.
Qed.

Lemma with_free_rd s i d fl :
  rd (descs_of s) i = Ok d ->
  rd (descs_of (with_free i fl s)) i = Ok (MemBlockDesc (block_size d) (block_per_arena d) fl).
Proof.
  intros H. pose proof (rd_inv _ _ _ H) as [Hi Hl]. apply lookup_lt_Some in Hl.
  unfold with_free. rewrite H. unfold descs_of in *. destruct (m_user s) eqn:Hu; simpl; rewrite Hu;
    apply rd_insert_eq; lia.
Qed.

Lemma with_free_twice s i d fl1 fl2 :
  rd (descs_of s) i = Ok d -> with_free i fl2 (with_free i fl1 s) = with_free i fl2 s.
Proof.
  intros H. pose proof (with_free_rd s i d fl1 H) as H1. unfold with_free at 1. rewrite H1.
  unfold with_free in *. rewrite H in *. unfold descs_of in *.
  destruct (m_user s) eqn:Hu; simpl in *; rewrite Hu in *; simpl; unfold set_m_udescs, set_m_kdescs;
    simpl; by rewrite list_insert_insert_eq, Hu.
Qed.

(** The blocks of a new arena, in order. *)
Definition arena_blocks (a bs : Z) (from n : nat) : list Z :=
  map (fun k => a + sizeof_arena + Z.of_nat k * bs) (seq from n).

Lemma add_blocks_run n i a d s from fl :
  rd (descs_of s) i = Ok d -> free_list d = fl -> vpage a -> 16 <= block_size d ->
  block_per_arena d * block_size d + sizeof_arena <= PG_SIZE ->
  Z.of_nat (from + n) <= block_per_arena d ->
  (forall k, (from <= k)%nat -> a + sizeof_arena + Z.of_nat k * block_size d ∉ fl) ->
  add_blocks n i a (block_size d) (Z.of_nat from) s
  = Ok (tt, with_free i (fl ++ arena_blocks a (block_size d) from n) s).
Proof.
  intros Hd Hfl Ha Hbs Hper Hn Hout.
  revert s d from fl Hd Hfl Hbs Hper Hn Hout. induction n as [|n IH]; intros s d from fl Hd Hfl Hbs Hper Hn Hout.
  - simpl. rewrite app_nil_r. unfold kret. do 2 f_equal. unfold with_free. rewrite Hd, <- Hfl.
    pose proof (rd_inv _ _ _ Hd) as [Hi Hl].
    assert (Hd' : MemBlockDesc (block_size d) (block_per_arena d) (free_list d) = d) by (by destruct d).
    rewrite Hd', list_insert_id by done. unfold descs_of. by destruct s, m_user.
  - simpl. destruct (block_in_arena a (block_size d) (block_per_arena d) (Z.of_nat from))
      as [Hb _]; [done|done|done|lia|].
    rewrite Hb. set (b := a + sizeof_arena + Z.of_nat from * block_size d).
    rewrite (kbind_ok _ _ _ _ _ (get_desc_run s i d Hd)). rewrite Hfl.
    assert (Hbn : b ∉ fl) by (by apply Hout).
    rewrite bool_decide_eq_false_2 by done. rewrite (kbind_ok _ _ s tt s) by done.
    rewrite (kbind_ok _ _ s tt (with_free i (fl ++ [b]) s)).
    2: { unfold fl_append. rewrite (kbind_ok _ _ _ _ _ (get_desc_run s i d Hd)). rewrite Hfl.
      rewrite decide_False by done. by apply (put_free_run s i d). }
    set (d1 := MemBlockDesc (block_size d) (block_per_arena d) (fl ++ [b])).
    replace (Z.of_nat from + 1) with (Z.of_nat (S from)) by lia.
    change (block_size d) with (block_size d1).
    rewrite (IH _ d1 (S from) (fl ++ [b])); try done.
    + rewrite (with_free_twice _ _ _ _ _ Hd). by rewrite <- app_assoc.
    + by apply with_free_rd.
    + simpl. lia.
    + intros k Hk. rewrite elem_of_app, list_elem_of_singleton. intros [Hin|Heq].
      * eapply Hout; [|exact Hin]. lia.
      * unfold b in Heq. simpl in Heq. nia.
Qed.

(** What page allocation leaves alone: the heap and the locks. *)
Definition heap_view (s : mst) := (m_user s, m_kdescs s, m_udescs s, m_arenas s, (m_klock s, m_ulock s)).
Definition keeps_heap {A} (m : KM mst A) : Prop :=
  forall s a s', m s = Ok (a, s') -> heap_view s' = heap_view s.

Lemma keeps_bind {A B} (m : KM mst A) (k : A -> KM mst B) :
  keeps_heap m -> (forall a, keeps_heap (k a)) -> keeps_heap (kbind m k).
Proof.
  intros Hm Hk s b s' Hrun. apply kbind_inv in Hrun as (a & s1 & H1 & H2).
  rewrite (Hk a _ _ _ H2). by apply (Hm _ _ _ H1).
Qed.
Lemma keeps_ret {A} (a : A) : keeps_heap (kret a).
Proof. by intros s b s' [= _ ->]. Qed.
Lemma keeps_reads {A} (f : mst -> A) : keeps_heap (kreads f).
Proof. by intros s b s' [= _ ->]. Qed.
Lemma keeps_lift {A} (o : outcome A) : keeps_heap (klift o).
Proof. intros s b s'. unfold klift. destruct o; [|done]. by intros [= _ ->]. Qed.
Lemma keeps_assert c : keeps_heap (ASSERT c).
Proof. intros s b s'. destruct c; [|done]. by intros [= _ ->]. Qed.
Lemma keeps_pool pf p : keeps_heap (put_pool pf p).
Proof. intros s b s' [= _ <-]. by destruct pf. Qed.
Lemma keeps_vpool pf p : keeps_heap (put_vpool pf p).
Proof. intros s b s' [= _ <-]. by destruct pf. Qed.
Lemma keeps_load a : keeps_heap (load a).
Proof. intros s b s'. unfold load. case_match; [|done]. by intros [= _ ->]. Qed.
Lemma keeps_store a v : keeps_heap (store a v).
Proof. intros s b s'. unfold store. case_match; [|done]. by intros [= _ <-]. Qed.
Lemma keeps_clear a : keeps_heap (clear_page a).
Proof. intros s b s'. unfold clear_page. case_match; [|done]. by intros [= _ <-]. Qed.

Lemma keeps_panic {A} : keeps_heap (A := A) PANIC.
Proof. by intros s b s'. Qed.

Create HintDb keeps.
#[export] Hint Resolve keeps_ret keeps_reads keeps_lift keeps_assert keeps_pool keeps_vpool keeps_load
  keeps_store keeps_clear keeps_panic : keeps.
Ltac keeps_tac :=
  repeat (first [ solve [auto with keeps] | apply keeps_bind; [|intros ?] | case_match ]).

Lemma keeps_palloc pf : keeps_heap (palloc pf).
Proof. unfold palloc, pool_bits, get_pool. keeps_tac. Qed.
#[export] Hint Resolve keeps_palloc : keeps.

Lemma keeps_page_table_add v f : keeps_heap (page_table_add v f).
Proof. unfold page_table_add. keeps_tac. Qed.
#[export] Hint Resolve keeps_page_table_add : keeps.

Lemma keeps_map_pages n pf v : keeps_heap (map_pages n pf v).
Proof. revert v. induction n as [|n IH]; intros v; simpl; keeps_tac. Qed.
#[export] Hint Resolve keeps_map_pages : keeps.

Lemma malloc_page_keeps pf n : keeps_heap (malloc_page pf n).
Proof. unfold malloc_page, vaddr_get, get_vpool. keeps_tac. Qed.

(** The hold count of the lock the heap of the running thread takes. *)
Definition locked (s : mst) : mst :=
  if m_user s then set_m_ulock (m_ulock s + 1) s else set_m_klock (m_klock s + 1) s.
Definition locks_ok (s : mst) : Prop := 0 <= m_klock s /\ 0 <= m_ulock s.

Lemma pool_lock_run s : pool_lock (heap_pool s) s = Ok (tt, locked s).
Proof. unfold pool_lock, heap_pool, locked, kmod. by destruct (m_user s). Qed.

(** Releasing the lock of a state that was reached from [locked s]. *)
Lemma pool_unlock_run s s' :
  locks_ok s -> m_user s' = m_user s ->
  (m_klock s', m_ulock s') = (m_klock (locked s), m_ulock (locked s)) ->
  pool_unlock (heap_pool s) s' = Ok (tt, set_m_klock (m_klock s) (set_m_ulock (m_ulock s) s')).
Proof.
  intros [Hk Hu] Hus Hl. unfold pool_unlock, heap_pool, locked in *. unfold kbind, kreads, kmod, ASSERT.
  destruct (m_user s); simpl in *; injection Hl as Hl1 Hl2; rewrite ?Hl1, ?Hl2;
    rewrite (proj2 (Z.ltb_lt _ _)) by lia; unfold kret, set_m_klock, set_m_ulock; simpl;
    rewrite ?Hl1, ?Hl2; repeat f_equal; lia.
Qed.

(** The state with block [b] taken from ([dc = -1]) or given to ([dc = 1]) descriptor [i]. *)
Definition heap_upd (i : Z) (fl : list Z) (a : Z) (x : arena) (dc : Z) (s : mst) : mst :=
  set_m_arenas (<[a := Arena (desc x) (a_cnt x + dc) (large x)]> (m_arenas s)) (with_free i fl s).

Lemma with_free_fields i fl s :
  m_user (with_free i fl s) = m_user s /\ m_arenas (with_free i fl s) = m_arenas s /\
  m_klock (with_free i fl s) = m_klock s /\ m_ulock (with_free i fl s) = m_ulock s.
Proof. unfold with_free. by destruct (m_user s) eqn:H; simpl; rewrite ?H. Qed.

(** The common end of [sys_malloc]: the first free block is handed out. *)
Lemma take_block i d b fl x s :
  rd (descs_of s) i = Ok d -> free_list d = b :: fl ->
  m_arenas s !! block2arena b = Some x -> 0 < a_cnt x < 2 ^ 32 ->
  (b' <- fl_pop i ;;
   x' <- get_arena (block2arena b') ;;
   put_arena (block2arena b') (Arena (desc x') (u32 (a_cnt x' - 1)) (large x')) ;;;
   kret b') s = Ok (b, heap_upd i fl (block2arena b) x (-1) s).
Proof.
  intros Hd Hfl Hx Hc. destruct (with_free_fields i fl s) as (_ & Ha & _).
  rewrite (kbind_ok _ _ s b (with_free i fl s)).
  2: { unfold fl_pop. rewrite (kbind_ok _ _ _ _ _ (get_desc_run s i d Hd)). rewrite Hfl.
    by rewrite (kbind_ok _ _ _ _ _ (put_free_run s i d fl Hd)). }
  rewrite (kbind_ok _ _ _ x (with_free i fl s)) by (unfold get_arena; by rewrite Ha, Hx).
  rewrite u32_small by lia. unfold put_arena, kmod, kbind, kret, heap_upd. by rewrite Ha.
Qed.

(** The situation of [malloc_free_block]: block [b] is the first free one of class [i]. *)
Section OneBlock.
Context (s : mst) (i : Z) (d : mem_block_desc) (b : Z) (fl : list Z) (x : arena).
Let a := block2arena b.
Hypothesis Hlk : locks_ok s.
Hypothesis Hd : rd (descs_of s) i = Ok d.
Hypothesis Hx : m_arenas s !! a = Some x.
Hypothesis Hc : 0 < a_cnt x < block_per_arena d.
Hypothesis Hper256 : block_per_arena d <= 256.

Lemma descs_of_locked : descs_of (locked s) = descs_of s.
Proof. unfold descs_of, locked. by destruct (m_user s) eqn:E; simpl; rewrite E. Qed.

Lemma malloc_block_run size :
  0 < size <= 1024 -> size < pool_size (pool_of (heap_pool s) s) ->
  i = find_desc (descs_of s) size 0 -> free_list d = b :: fl ->
  sys_malloc size s = Ok (b, heap_upd i fl a x (-1) s).
Proof using All.
  intros Hsize Hpool Hi Hfl. pose proof descs_of_locked as Hdl.
  unfold sys_malloc. rewrite (kbind_ok _ _ s (m_user s) s) by done.
  fold (heap_pool s). rewrite (kbind_ok _ _ s (pool_of (heap_pool s) s) s).
  2: { unfold get_pool, kreads. by destruct (heap_pool s). }
  rewrite !(proj2 (Z.ltb_lt _ _)) by lia. change (negb (true && true)) with false. cbv iota.
  rewrite (kbind_ok _ _ _ _ _ (pool_lock_run s)).
  rewrite (proj2 (Z.ltb_ge _ _)) by lia.
  rewrite (kbind_ok _ _ _ (descs_of (locked s)) (locked s)) by done. rewrite Hdl. rewrite <- Hi.
  rewrite (kbind_ok _ _ (locked s) d (locked s)) by (apply get_desc_run; by rewrite Hdl).
  rewrite Hfl. rewrite (kbind_ok _ _ (locked s) true (locked s)) by done. change (negb true) with false. cbv iota.
  assert (Htake := take_block i d b fl x (locked s)).
  rewrite Hdl in Htake. specialize (Htake Hd Hfl).
  assert (Hal : m_arenas (locked s) = m_arenas s) by (unfold locked; by destruct (m_user s)).
  rewrite Hal in Htake. specialize (Htake Hx ltac:(lia)).
  apply kbind_inv in Htake as (b' & s2 & H1 & H2). apply kbind_inv in H2 as (x' & s3 & H2 & H3).
  apply kbind_inv in H3 as (u & s4 & H3 & [= -> ->]).
  rewrite (kbind_ok _ _ _ _ _ H1), (kbind_ok _ _ _ _ _ H2). destruct u. rewrite (kbind_ok _ _ _ _ _ H3).
  destruct (with_free_fields i fl (locked s)) as (Gu & Ga & Gk & Gul).
  rewrite (kbind_ok _ _ _ tt (heap_upd i fl a x (-1) s)); [done|]. rewrite (pool_unlock_run s); [|done| |].
  + unfold heap_upd, with_free. rewrite Hdl. unfold set_m_klock, set_m_ulock, locked.
    destruct s, m_user0; simpl; by rewrite ?Hd.
  + unfold heap_upd. simpl. rewrite Gu. unfold locked. by destruct (m_user s) eqn:E.
  + unfold heap_upd. simpl. by rewrite Gk, Gul.
Qed.

Lemma free_block_run :
  desc x = Some i -> b ∉ fl -> b <> 0 -> (m_user s = false -> K_HEAP_START <= b) ->
  sys_free b (heap_upd i fl a x (-1) s) = Ok (tt, with_free i (fl ++ [b]) s).
Proof using All.
  intros Hdx Hbn Hb0 Hheap. set (s1 := heap_upd i fl a x (-1) s).
  destruct (with_free_fields i fl s) as (Fu & Fa & Fk & Ful).
  assert (Hu1 : m_user s1 = m_user s) by (unfold s1, heap_upd; simpl; by rewrite Fu).
  set (d1 := MemBlockDesc (block_size d) (block_per_arena d) fl).
  set (x1 := Arena (desc x) (a_cnt x + -1) (large x)).
  assert (Hd1 : rd (descs_of (locked s1)) i = Ok d1).
  { replace (descs_of (locked s1)) with (descs_of (with_free i fl s)); [by apply with_free_rd|].
    unfold descs_of, locked. rewrite Hu1, Fu. by destruct (m_user s) eqn:E; simpl; rewrite ?Hu1, ?Fu, ?E. }
  assert (Ha1 : m_arenas (locked s1) = <[a := x1]> (m_arenas s)).
  { unfold locked. rewrite Hu1. destruct (m_user s); unfold s1, heap_upd; cbn [m_arenas set_m_arenas set_m_ulock set_m_klock];
      done. }
  unfold sys_free. rewrite (proj2 (Z.eqb_neq _ _)) by done.
  rewrite (kbind_ok _ _ s1 tt s1) by done. rewrite (kbind_ok _ _ s1 (m_user s1) s1) by done.
  rewrite (kbind_ok _ _ s1 tt s1).
  2: { rewrite Hu1. destruct (m_user s); [done|]. by rewrite (proj2 (Z.leb_le _ _)) by auto. }
  fold (heap_pool s1). rewrite (kbind_ok _ _ _ _ _ (pool_lock_run s1)). fold a.
  rewrite (kbind_ok _ _ (locked s1) x1 (locked s1)).
  2: { unfold get_arena. by rewrite Ha1, lookup_insert_eq. }
  cbn [desc x1]. rewrite Hdx. set (s2 := with_free i (fl ++ [b]) (locked s1)).
  set (s3 := set_m_arenas (<[a := Arena (Some i) (a_cnt x) (large x)]> (m_arenas s2)) s2).
  destruct (with_free_fields i (fl ++ [b]) (locked s1)) as (Gu & Ga & Gk & Gul).
  rewrite (kbind_ok _ _ (locked s1) tt s3).
  2: { rewrite (kbind_ok _ _ (locked s1) tt s2).
    2: { unfold fl_append. rewrite (kbind_ok _ _ _ _ _ (get_desc_run _ i d1 Hd1)). simpl free_list.
      rewrite decide_False by done. by apply (put_free_run _ i d1). }
    replace (a_cnt x1 + 1) with (a_cnt x) by (unfold x1; simpl; lia). rewrite u32_small by lia.
    change (large x1) with (large x).
    rewrite (kbind_ok _ _ s2 tt s3) by done.
    rewrite (kbind_ok _ _ s3 (MemBlockDesc (block_size d1) (block_per_arena d1) (fl ++ [b])) s3).
    - rewrite (proj2 (Z.eqb_neq _ _)); [done|]. unfold d1; simpl; lia.
    - apply get_desc_run. replace (descs_of s3) with (descs_of s2) by done.
      by apply with_free_rd. }
  rewrite (pool_unlock_run s1).
  + do 2 f_equal. unfold s3, s2. rewrite Ga, Ha1, insert_insert_eq.
    assert (Hxx : Arena (Some i) (a_cnt x) (large x) = x) by (rewrite <- Hdx; by destruct x).
    rewrite Hxx, insert_id by done. unfold with_free at 1. rewrite Hd1.
    unfold s1, locked, heap_upd, with_free in *. rewrite Hd in *. unfold descs_of in *.
    destruct s, m_user0; simpl in *; by rewrite list_insert_insert_eq.
  + unfold s1, heap_upd, locks_ok in *. simpl. by rewrite Fk, Ful.
  + unfold s3, s2; simpl. rewrite Gu. unfold locked. by destruct (m_user s1) eqn:E.
  + unfold s3, s2; simpl. by rewrite Gk, Gul.
Qed.
End OneBlock.

(** C14: the block allocator is its own inverse.  While the free list of the right size
    class is not empty, [sys_malloc] of up to 1024 bytes returns its first block: the size
    class is the smallest power of two (at least 16) that holds the request, the arena of
    the block counts one free block less, and the pool's lock is free again.  [sys_free]
    of that block puts it at the end of the free list and restores the arena's count;
    nothing else of the heap has changed. *)
Theorem malloc_free_block s size d b fl x :
  let i := find_desc (descs_of s) size 0 in
  let a := block2arena b in
  0 < size <= 1024 -> size < pool_size (pool_of (heap_pool s) s) -> descs_ok (descs_of s) ->
  locks_ok s -> rd (descs_of s) i = Ok d -> free_list d = b :: fl -> b ∉ fl -> b <> 0 ->
  (m_user s = false -> K_HEAP_START <= b) ->
  m_arenas s !! a = Some x -> desc x = Some i -> 0 < a_cnt x < block_per_arena d ->
  exists s1, sys_malloc size s = Ok (b, s1) /\ s1 = heap_upd i fl a x (-1) s /\
    size <= block_size d /\ block_size d = 2 ^ (4 + i) /\ (16 < block_size d -> block_size d < 2 * size) /\
    sys_free b s1 = Ok (tt, with_free i (fl ++ [b]) s).
Proof.
  intros i a Hsize Hpool Hdescs Hlk Hd Hfl Hbn Hb0 Hheap Hx Hdx Hc.
  destruct (find_desc_spec (descs_of s) size Hdescs Hsize)
    as (d' & Hi & Hd' & Hbs & Hle & Hmin & Hper & Hfit & Hp3). fold i in Hi, Hd', Hbs.
  rewrite Hd in Hd'. injection Hd' as <-.
  assert (Hper256 : block_per_arena d <= 256).
  { assert (16 <= block_size d) by (rewrite Hbs; change 16 with (2 ^ 4); apply Z.pow_le_mono_r; lia).
    unfold PG_SIZE, sizeof_arena in Hfit. nia. }
  exists (heap_upd i fl a x (-1) s). split; [by apply (malloc_block_run s i d)|].
  split_and!; try done. by apply (free_block_run s i d).
Qed.

(** ** Sample states *)

(** Pools of 32 frames, eight kernel pages of which the first is mapped. *)
Definition sample_pages : mst :=
  MSt (Pool (Bitmap 4 [1; 0; 0; 0]) 0x200000 0x20000) (Pool (Bitmap 4 [0; 0; 0; 0]) 0x220000 0x20000)
    (VPool (Bitmap 1 [1]) 0xc0100000) (VPool (Bitmap 1 [0]) 0x8048000) false
    {[ pde_ptr 0xc0100000 := 0x101007; pte_ptr 0xc0100000 := 0x200007 ]}
    block_desc_init block_desc_init ∅ 0 0.

(** The arena of 64-byte blocks in page [0xc0100000], with two free blocks. *)
Definition sample_heap : mst :=
  set_m_arenas {[ 0xc0100000 := Arena (Some 2) 2 false ]}
    (with_free 2 [0xc010000c; 0xc010004c] sample_pages).

Lemma sample_pools : pools_ok sample_pages.
Proof.
  split; unfold pool_ok, bit_len; simpl; repeat split; simpl; try lia; try (unfold PG_SIZE; lia); try done;
    repeat constructor; lia.
Qed.

Lemma sample_vpool : vpool_ok (vpool_of PF_KERNEL sample_pages) (m_tables sample_pages).
Proof.
  assert (H : forallb (fun i => bit_at (Bitmap 1 [1]) i
      || bool_decide (lookup_page (m_tables sample_pages) (0xc0100000 + i * PG_SIZE) = None))
      [0; 1; 2; 3; 4; 5; 6; 7] = true) by (vm_compute; reflexivity).
  split; simpl; try done.
  - repeat split; simpl; try lia; repeat constructor; lia.
  - intros i Hi Hb. unfold bit_len in Hi; simpl in Hi. rewrite forallb_forall in H.
    specialize (H i). rewrite Hb in H. apply (bool_decide_unpack _).
    unfold page_at; simpl vaddr_start. apply Is_true_true, H. simpl. lia.
Qed.

Lemma table_pointers_witness : vpage 0xc0100000 /\ vpage 0xc0400000 /\
  (pte_ptr 0xc0100000 = pte_ptr 0xc0400000 -> 0xc0100000 = 0xc0400000).
Proof.
  assert (H1 : vpage 0xc0100000) by (split; [lia|done]).
  assert (H2 : vpage 0xc0400000) by (split; [lia|done]).
  split; [done|]. split; [done|]. apply (table_pointers _ _ H1 H2).
Defined.

Lemma malloc_page_spec_witness : exists s', malloc_page PF_KERNEL 2 sample_pages = Ok (0xc0101000, s') /\ pools_ok s'.
Proof.
  destruct (malloc_page_spec PF_KERNEL 2 1 sample_pages) as (s' & H & Hp & _).
  - apply sample_pools.
  - apply sample_vpool.
  - lia.
  - unfold avail. vm_compute. done.
  - vm_compute. reflexivity.
  - lia.
  - simpl. unfold bit_len. simpl. lia.
  - intros k Hk. assert (k = 0 \/ k = 1) as [-> | ->] by lia; reflexivity.
  - done.
  - exists s'. split; [exact H|done].
Defined.

Lemma mfree_page_spec_witness : exists s', mfree_page PF_KERNEL 0xc0100000 1 sample_pages = Ok (tt, s') /\
  lookup_page (m_tables s') 0xc0100000 = None.
Proof.
  destruct (mfree_page_spec PF_KERNEL 1 0 sample_pages) as (s' & H & _ & Hl & _).
  - apply sample_pools.
  - apply sample_vpool.
  - lia.
  - lia.
  - simpl. unfold bit_len. simpl. lia.
  - intros k Hk. assert (k = 0) as -> by lia. exists 0x200000. split; [vm_compute; reflexivity|].
    split; [|done]. simpl. unfold bit_len, PG_SIZE. simpl. lia.
  - exists s'. split; [exact H|]. apply (Hl 0). lia.
Defined.

Lemma malloc_free_block_witness : exists s1, sys_malloc 50 sample_heap = Ok (0xc010000c, s1) /\
  sys_free 0xc010000c s1 = Ok (tt, with_free 2 [0xc010004c; 0xc010000c] sample_heap).
Proof.
  destruct (malloc_free_block sample_heap 50 (MemBlockDesc 64 63 [0xc010000c; 0xc010004c]) 0xc010000c
    [0xc010004c] (Arena (Some 2) 2 false)) as (s1 & H & _ & _ & _ & _ & Hf); try done.
  - by rewrite list_elem_of_singleton.
  - exists s1. split; [exact H|exact Hf].
Defined.
