(* ===== verification/Disk.v ===== *)
(** * Disk: the state of the file system and what it needs from below

    The interfaces the file system is written against: a block device ([ide_read],
    [ide_write] of device/ide.c) and the heap ([sys_malloc], [sys_free] of
    kernel/memory.c), each as a class of operations and a class of laws; then the data of
    fs/*.h and the state of the file system.  Inodes and open directories are objects
    named by their address; [f_open] is the list [open_inodes] of the mounted partition,
    [f_fds] and [f_cwd] are [fd_table] and [cwd_inode_nr] of the running thread. *)

From S2P Require Import Prelude Bitmap Interrupt.

(** ** Interfaces *)

Class BlockDev (D : Type) : Type := {
  disk_read : Z -> Z -> D -> outcome (list Z * D);
  disk_write : Z -> list Z -> Z -> D -> outcome D
}.

Definition SECTOR_SIZE : Z := 512.
(** [max_lba] of device/ide.c, plus one. *)
Definition DISK_SECTORS : Z := 163840.

(** The sectors [lba, lba + cnt) of a device, one after the other. *)
Fixpoint sectors_from (sec : Z -> list Z) (lba : Z) (cnt : nat) : list Z :=
  match cnt with O => [] | S cnt => sec lba ++ sectors_from sec (lba + 1) cnt end.
(** What a write of [b] at [lba] makes of sector [x]. *)
Definition sector_after (sec : Z -> list Z) (lba : Z) (b : list Z) (cnt x : Z) : list Z :=
  if decide (lba <= x < lba + cnt) then take 512 (drop (Z.to_nat (512 * (x - lba))) b) else sec x.

(** A device that is ready transfers whole sectors inside of its capacity. *)
Class BlockDevLaws (D : Type) `{!BlockDev D} : Type := {
  sector : D -> Z -> list Z;
  disk_ready : D -> Prop;
  sector_len : forall d x, disk_ready d -> length (sector d x) = 512%nat;
  disk_read_spec : forall d lba cnt, disk_ready d -> 0 <= lba -> 0 < cnt -> lba + cnt <= DISK_SECTORS ->
    exists d', disk_read lba cnt d = Ok (sectors_from (sector d) lba (Z.to_nat cnt), d') /\
      disk_ready d' /\ (forall x, sector d' x = sector d x);
  disk_write_spec : forall d lba b cnt, disk_ready d -> 0 <= lba -> 0 < cnt -> lba + cnt <= DISK_SECTORS ->
    512 * cnt <= Z.of_nat (length b) ->
    exists d', disk_write lba b cnt d = Ok d' /\
      disk_ready d' /\ (forall x, sector d' x = sector_after (sector d) lba b cnt x)
}.

(** The heap of the running thread: the kernel's when its [pgdir] is [NULL] ([heap_user]
    is false), its own otherwise.  [sys_malloc] returns 0 for [NULL]. *)
Class KernelHeap (H : Type) : Type := {
  sys_malloc : Z -> H -> outcome (Z * H);
  sys_free : Z -> H -> outcome H;
  heap_user : H -> bool;
  set_heap_user : bool -> H -> H
}.

(** [live] are the allocated blocks with the heap they are from, [room n] says that [n]
    more blocks can be had.  A block can be freed from the heap it is from. *)
Class KernelHeapLaws (H : Type) `{!KernelHeap H} : Type := {
  live : H -> gmap Z bool;
  room : nat -> H -> Prop;
  sys_malloc_spec : forall n h size, room (S n) h -> 0 < size ->
    exists p h', sys_malloc size h = Ok (p, h') /\ p <> 0 /\ live h !! p = None /\
      live h' = <[p := heap_user h]> (live h) /\ room n h' /\ heap_user h' = heap_user h;
  sys_free_spec : forall n h p, room n h -> p <> 0 -> live h !! p = Some (heap_user h) ->
    exists h', sys_free p h = Ok h' /\ live h' = delete p (live h) /\ room n h' /\
      heap_user h' = heap_user h;
  heap_user_set : forall u h, heap_user (set_heap_user u h) = u;
  live_set : forall u h, live (set_heap_user u h) = live h;
  room_set : forall n u h, room n h -> room n (set_heap_user u h)
}.

(** ** Data *)

(** [struct inode] without its list node. [i_sectors] has 13 entries. *)
Record inode : Type := Inode {
  i_no : Z; i_size : Z; i_open_cnts : Z; write_deny : Z; i_sectors : list Z
}.
Definition sizeof_inode : Z := 76.

(** [struct dir_entry], [struct dir]. *)
Record dir_entry : Type := DirEntry { filename : list Z; de_i_no : Z; f_type : Z }.
Record dir : Type := Dir { d_inode : Z; dir_pos : Z; dir_buf : list Z }.
Definition sizeof_dir : Z := 520.

(** [struct file]; a null [fd_inode] marks a free entry. *)
Record file : Type := File { fd_pos : Z; fd_flag : Z; fd_inode : Z }.

(** [struct super_block] without its padding. *)
Record super_block : Type := SuperBlock {
  magic : Z; sb_sec_cnt : Z; inode_cnt : Z; part_lba_base : Z;
  block_bitmap_lba : Z; block_bitmap_sects : Z; inode_bitmap_lba : Z; inode_bitmap_sects : Z;
  inode_table_lba : Z; inode_table_sects : Z; data_start_lba : Z; root_inode_no : Z; dir_entry_size : Z
}.

(** [struct partition]: its disk is the device, its list of open inodes is [f_open]. *)
Record partition : Type := Partition {
  start_lba : Z; sec_cnt : Z; sb : super_block; block_bitmap : bitmap; inode_bitmap : bitmap
}.

Definition MAX_FILE_OPEN : Z := 32.
Definition MAX_FILE_NAME_LEN : Z := 16.

Record fs (D H : Type) : Type := Fs {
  f_dev : D;
  f_heap : H;
  f_part : partition;
  f_inodes : gmap Z inode;
  f_open : list Z;
  f_files : list file;
  f_dirs : gmap Z dir;
  f_fds : list Z;
  f_cwd : Z;
  f_eflags : Z
}.
Arguments Fs {D H}.
Arguments f_dev {D H} _.
Arguments f_heap {D H} _.
Arguments f_part {D H} _.
Arguments f_inodes {D H} _.
Arguments f_open {D H} _.
Arguments f_files {D H} _.
Arguments f_dirs {D H} _.
Arguments f_fds {D H} _.
Arguments f_cwd {D H} _.
Arguments f_eflags {D H} _.

Definition set_f_dev {D H} (v : D) (s : fs D H) : fs D H :=
  Fs v (f_heap s) (f_part s) (f_inodes s) (f_open s) (f_files s) (f_dirs s) (f_fds s) (f_cwd s) (f_eflags s).
Definition set_f_heap {D H} (v : H) (s : fs D H) : fs D H :=
  Fs (f_dev s) v (f_part s) (f_inodes s) (f_open s) (f_files s) (f_dirs s) (f_fds s) (f_cwd s) (f_eflags s).
Definition set_f_part {D H} (v : partition) (s : fs D H) : fs D H :=
  Fs (f_dev s) (f_heap s) v (f_inodes s) (f_open s) (f_files s) (f_dirs s) (f_fds s) (f_cwd s) (f_eflags s).
Definition set_f_inodes {D H} (v : gmap Z inode) (s : fs D H) : fs D H :=
  Fs (f_dev s) (f_heap s) (f_part s) v (f_open s) (f_files s) (f_dirs s) (f_fds s) (f_cwd s) (f_eflags s).
Definition set_f_open {D H} (v : list Z) (s : fs D H) : fs D H :=
  Fs (f_dev s) (f_heap s) (f_part s) (f_inodes s) v (f_files s) (f_dirs s) (f_fds s) (f_cwd s) (f_eflags s).
Definition set_f_files {D H} (v : list file) (s : fs D H) : fs D H :=
  Fs (f_dev s) (f_heap s) (f_part s) (f_inodes s) (f_open s) v (f_dirs s) (f_fds s) (f_cwd s) (f_eflags s).
Definition set_f_dirs {D H} (v : gmap Z dir) (s : fs D H) : fs D H :=
  Fs (f_dev s) (f_heap s) (f_part s) (f_inodes s) (f_open s) (f_files s) v (f_fds s) (f_cwd s) (f_eflags s).
Definition set_f_fds {D H} (v : list Z) (s : fs D H) : fs D H :=
  Fs (f_dev s) (f_heap s) (f_part s) (f_inodes s) (f_open s) (f_files s) (f_dirs s) v (f_cwd s) (f_eflags s).
Definition set_f_cwd {D H} (v : Z) (s : fs D H) : fs D H :=
  Fs (f_dev s) (f_heap s) (f_part s) (f_inodes s) (f_open s) (f_files s) (f_dirs s) (f_fds s) v (f_eflags s).
Definition set_f_eflags {D H} (v : Z) (s : fs D H) : fs D H :=
  Fs (f_dev s) (f_heap s) (f_part s) (f_inodes s) (f_open s) (f_files s) (f_dirs s) (f_fds s) (f_cwd s) v.

#[export] Program Instance fs_eflags {D H} : HasEflags (fs D H) :=
  {| eflags := f_eflags; set_eflags := set_f_eflags |}.
Next Obligation. done. Qed.
Next Obligation. done. Qed.
Next Obligation. intros D H []. done. Qed.

Definition set_block_bitmap (b : bitmap) (p : partition) : partition :=
  Partition (start_lba p) (sec_cnt p) (sb p) b (inode_bitmap p).
Definition set_inode_bitmap (b : bitmap) (p : partition) : partition :=
  Partition (start_lba p) (sec_cnt p) (sb p) (block_bitmap p) b.
Definition set_i_size (v : Z) (i : inode) : inode := Inode (i_no i) v (i_open_cnts i) (write_deny i) (i_sectors i).
Definition set_i_open_cnts (v : Z) (i : inode) : inode := Inode (i_no i) (i_size i) v (write_deny i) (i_sectors i).
Definition set_write_deny (v : Z) (i : inode) : inode := Inode (i_no i) (i_size i) (i_open_cnts i) v (i_sectors i).
Definition set_i_sectors (v : list Z) (i : inode) : inode := Inode (i_no i) (i_size i) (i_open_cnts i) (write_deny i) v.

(** ** Access to the state *)

Section access.
Context {D H : Type} `{!BlockDev D, !KernelHeap H}.

Definition ide_read (lba cnt : Z) : KM (fs D H) (list Z) := fun s =>
  match disk_read lba cnt (f_dev s) with
  | Ok (b, d) => Ok (b, set_f_dev d s)
  | Err e => Err e
  end.
Definition ide_write (lba : Z) (b : list Z) (cnt : Z) : KM (fs D H) unit := fun s =>
  match disk_write lba b cnt (f_dev s) with
  | Ok d => Ok (tt, set_f_dev d s)
  | Err e => Err e
  end.

Definition malloc (size : Z) : KM (fs D H) Z := fun s =>
  match sys_malloc size (f_heap s) with
  | Ok (p, h) => Ok (p, set_f_heap h s)
  | Err e => Err e
  end.
Definition free (p : Z) : KM (fs D H) unit := fun s =>
  match sys_free p (f_heap s) with
  | Ok h => Ok (tt, set_f_heap h s)
  | Err e => Err e
  end.
(** [cur->pgdir = NULL] and putting it back. *)
Definition get_user : KM (fs D H) bool := kreads (fun s => heap_user (f_heap s)).
Definition put_user (u : bool) : KM (fs D H) unit := kmod (fun s => set_f_heap (set_heap_user u (f_heap s)) s).

(** A use of the buffer at [p]. *)
Definition buffer (p : Z) : KM (fs D H) unit := if p =? 0 then kfail OutOfBounds else kret tt.

Definition get_inode (p : Z) : KM (fs D H) inode := fun s =>
  match f_inodes s !! p with Some i => Ok (i, s) | None => Err OutOfBounds end.
Definition put_inode (p : Z) (i : inode) : KM (fs D H) unit :=
  buffer p ;;; kmod (fun s => set_f_inodes (<[p := i]> (f_inodes s)) s).
Definition upd_inode (p : Z) (f : inode -> inode) : KM (fs D H) unit :=
  i <- get_inode p ;; put_inode p (f i).

Definition get_sb : KM (fs D H) super_block := kreads (fun s => sb (f_part s)).
Definition get_part : KM (fs D H) partition := kreads f_part.
Definition put_part (p : partition) : KM (fs D H) unit := kmod (set_f_part p).

Definition get_file (i : Z) : KM (fs D H) file := fun s =>
  match rd (f_files s) i with Ok f => Ok (f, s) | Err e => Err e end.
Definition put_file (i : Z) (f : file) : KM (fs D H) unit := fun s =>
  match wr (f_files s) i f with Ok l => Ok (tt, set_f_files l s) | Err e => Err e end.

Definition get_dir (p : Z) : KM (fs D H) dir := fun s =>
  match f_dirs s !! p with Some d => Ok (d, s) | None => Err OutOfBounds end.
Definition put_dir (p : Z) (d : dir) : KM (fs D H) unit :=
  buffer p ;;; kmod (fun s => set_f_dirs (<[p := d]> (f_dirs s)) s).

(** [list_push] and [list_remove] on the list of open inodes. *)
Definition open_push (p : Z) : KM (fs D H) unit := fun s =>
  if decide (p ∈ f_open s) then Err ListCorrupt else Ok (tt, set_f_open (p :: f_open s) s).
Definition open_remove (p : Z) : KM (fs D H) unit := fun s =>
  if decide (p ∈ f_open s) then Ok (tt, set_f_open (List.filter (fun q => negb (q =? p)) (f_open s)) s)
  else Err ListCorrupt.
End access.

(** ** Bytes of consecutive sectors *)

Section bytes.
Context (sec : Z -> list Z) (Hsec : forall x, length (sec x) = 512%nat).

Lemma sectors_from_length lba n : length (sectors_from sec lba n) = (512 * n)%nat.
Proof using Hsec.
  revert lba. induction n as [|n IH]; intros lba; [done|]. simpl. rewrite length_app, Hsec, IH. lia.
Qed.

Lemma sectors_from_lookup lba n j :
  (j < 512 * n)%nat ->
  sectors_from sec lba n !! j = sec (lba + Z.of_nat (j / 512)) !! (j mod 512)%nat.
Proof using Hsec.
  revert lba j. induction n as [|n IH]; intros lba j Hj; [lia|]. cbn [sectors_from].
  destruct (decide (j < 512)%nat) as [Hlt|Hge].
  - rewrite lookup_app_l by (rewrite Hsec; done). rewrite Nat.div_small, Nat.mod_small by done.
    do 2 f_equal. lia.
  - rewrite lookup_app_r by (rewrite Hsec; lia). rewrite Hsec, IH by lia.
    assert (E1 : (j / 512 = S ((j - 512) / 512))%nat).
    { replace j with ((j - 512) + 1 * 512)%nat at 1 by lia. rewrite Nat.div_add by lia. lia. }
    assert (E2 : (j mod 512 = (j - 512) mod 512)%nat).
    { replace j with ((j - 512) + 1 * 512)%nat at 1 by lia. by rewrite Nat.Div0.mod_add. }
    rewrite E1, E2. do 2 f_equal. lia.
Qed.

Lemma sectors_from_app lba a b :
  sectors_from sec lba (a + b) = sectors_from sec lba a ++ sectors_from sec (lba + Z.of_nat a) b.
Proof using Type.
  revert lba. induction a as [|a IH]; intros lba; simpl.
  - f_equal. lia.
  - rewrite IH, <- app_assoc. do 3 f_equal. lia.
Qed.

Lemma sectors_from_ext sec' lba n :
  (forall x, lba <= x < lba + Z.of_nat n -> sec' x = sec x) -> sectors_from sec' lba n = sectors_from sec lba n.
Proof using Type.
  revert lba. induction n as [|n IH]; intros lba H; [done|]. simpl.
  rewrite H, IH by (lia || (intros; apply H; lia)). done.
Qed.
End bytes.

Lemma splice_inv {A} (l : list A) off src l' :
  splice l off src = Ok l' -> 0 <= off /\ off + Z.of_nat (length src) <= Z.of_nat (length l) /\
    l' = take (Z.to_nat off) l ++ src ++ drop (Z.to_nat off + length src)%nat l.
Proof. unfold splice. intros. case_decide; naive_solver. Qed.

(** Rewriting bytes of some sectors of a region rewrites them in the region. *)
Lemma sectors_patch sec sec' base n lba k off src buf :
  (forall x, length (sec x) = 512%nat) -> base <= lba -> lba + Z.of_nat k <= base + Z.of_nat n ->
  splice (sectors_from sec lba k) off src = Ok buf ->
  (forall x, sec' x = sector_after sec lba buf (Z.of_nat k) x) ->
  splice (sectors_from sec base n) (512 * (lba - base) + off) src = Ok (sectors_from sec' base n).
Proof.
  intros Hsec Hb Hn Hs Hsec'.
  assert (Hlen := splice_length _ _ _ _ Hs). rewrite sectors_from_length in Hlen by done.
  apply splice_inv in Hs as (Ho & Hol & ->). rewrite sectors_from_length in Hol by done.
  set (q := Z.to_nat (lba - base)). set (r := (n - q - k)%nat).
  assert (En : n = (q + (k + r))%nat) by lia.
  assert (Eq : sectors_from sec' base q = sectors_from sec base q).
  { apply sectors_from_ext. intros x Hx. rewrite Hsec'. unfold sector_after. rewrite decide_False; [done|lia]. }
  assert (Er : sectors_from sec' (lba + Z.of_nat k) r = sectors_from sec (lba + Z.of_nat k) r).
  { apply sectors_from_ext. intros x Hx. rewrite Hsec'. unfold sector_after. rewrite decide_False; [done|lia]. }
  assert (Ek : sectors_from sec' lba k = take (Z.to_nat off) (sectors_from sec lba k) ++ src ++
    drop (Z.to_nat off + length src) (sectors_from sec lba k)).
  { set (buf := _ ++ src ++ _) in *. clearbody buf. clear - Hlen Hsec'.
    assert (H : forall j x b, (j + x = k)%nat -> length b = (512 * x)%nat -> drop (512 * j) buf = b ->
      sectors_from sec' (lba + Z.of_nat j) x = b).
    { intros j x. revert j. induction x as [|x IH]; intros j b Hj Hbl Hd; [by destruct b|].
      simpl. rewrite Hsec'. unfold sector_after. rewrite decide_True by lia.
      replace (Z.to_nat (512 * (lba + Z.of_nat j - lba))) with (512 * j)%nat by lia. rewrite Hd.
      replace (lba + Z.of_nat j + 1) with (lba + Z.of_nat (S j)) by lia.
      rewrite (IH (S j) (drop 512 b)); [apply take_drop|lia|rewrite length_drop; lia|].
      rewrite <- Hd, drop_drop. f_equal. lia. }
    rewrite <- (Z.add_0_r lba). apply (H 0%nat k); [lia|done|done]. }
  rewrite splice_Ok; [|lia|rewrite sectors_from_length by done; lia]. f_equal. rewrite En at 3.
  rewrite !sectors_from_app, Eq. replace (base + Z.of_nat q) with lba by lia. rewrite Ek, Er.
  rewrite En, !sectors_from_app. replace (base + Z.of_nat q) with lba by lia.
  assert (Lq : length (sectors_from sec base q) = (512 * q)%nat) by (by rewrite sectors_from_length).
  assert (Lk : length (sectors_from sec lba k) = (512 * k)%nat) by (by rewrite sectors_from_length).
  replace (Z.to_nat (512 * (lba - base) + off)) with (512 * q + Z.to_nat off)%nat by lia.
  rewrite <- Lq, take_app_add, <- Nat.add_assoc, drop_app_add, take_app_le, drop_app_le by lia.
  by rewrite <- !app_assoc.
Qed.

(** ** The smallest device and heap with these laws, for the closed examples *)

(** Sectors that were never written read as zeros. *)
Definition zero_sector : list Z := replicate 512 0.
Record mem_disk : Type := MemDisk { md_sectors : gmap Z (list Z) }.
Definition md_sector (d : mem_disk) (x : Z) : list Z := default zero_sector (md_sectors d !! x).

Fixpoint md_put (n : nat) (lba : Z) (b : list Z) (m : gmap Z (list Z)) : gmap Z (list Z) :=
  match n with O => m | S n => <[lba := take 512 b]> (md_put n (lba + 1) (drop 512 b) m) end.

#[export] Instance mem_disk_dev : BlockDev mem_disk := {
  disk_read lba cnt d :=
    if decide (0 <= lba /\ 0 < cnt /\ lba + cnt <= DISK_SECTORS)
    then Ok (sectors_from (md_sector d) lba (Z.to_nat cnt), d) else Err AssertFail;
  disk_write lba b cnt d :=
    if decide (0 <= lba /\ 0 < cnt /\ lba + cnt <= DISK_SECTORS)
    then if decide (512 * cnt <= Z.of_nat (length b))
         then Ok (MemDisk (md_put (Z.to_nat cnt) lba b (md_sectors d))) else Err OutOfBounds
    else Err AssertFail
}.

Definition md_ready (d : mem_disk) : Prop := map_Forall (fun _ sec => length sec = 512%nat) (md_sectors d).

Lemma md_put_lookup n lba b m x :
  md_put n lba b m !! x =
  if decide (lba <= x < lba + Z.of_nat n) then Some (take 512 (drop (Z.to_nat (512 * (x - lba))) b)) else m !! x.
Proof.
  revert lba b. induction n as [|n IH]; intros lba b; cbn [md_put].
  - rewrite decide_False; [done|lia].
  - destruct (decide (x = lba)) as [->|Hx].
    + rewrite lookup_insert_eq, decide_True by lia. do 2 f_equal. by rewrite Z.sub_diag.
    + rewrite lookup_insert_ne, IH by done. repeat case_decide; try lia; [|done].
      do 2 f_equal. rewrite drop_drop. f_equal. lia.
Qed.

#[export] Program Instance mem_disk_laws : BlockDevLaws mem_disk := {
  sector := md_sector; disk_ready := md_ready
}.
Next Obligation.
  intros d x Hd. unfold md_sector. destruct (md_sectors d !! x) eqn:E; simpl.
  - by apply (map_Forall_lookup_1 _ _ _ _ Hd E).
  - done.
Qed.
Next Obligation. intros d lba cnt Hd H1 H2 H3. exists d. unfold disk_read; simpl. by rewrite decide_True. Qed.
Next Obligation.
  intros d lba b cnt Hd H1 H2 H3 H4. eexists. unfold disk_write; simpl. rewrite !decide_True by done.
  split; [done|]. split.
  - intros x sec. simpl. rewrite md_put_lookup. case_decide; [|by apply Hd].
    intros [= <-]. rewrite length_take_le; [done|]. rewrite length_drop. lia.
  - intros x. unfold md_sector, sector_after. simpl. rewrite md_put_lookup, Z2Nat.id by lia. by case_decide.
Qed.

(** A heap that hands out ever higher addresses. *)
Record bump_heap : Type := BumpHeap { bh_next : Z; bh_live : gmap Z bool; bh_user : bool }.
#[export] Instance bump_heap_ops : KernelHeap bump_heap := {
  sys_malloc size h := Ok (bh_next h, BumpHeap (bh_next h + size) (<[bh_next h := bh_user h]> (bh_live h)) (bh_user h));
  sys_free p h := match bh_live h !! p with
                  | Some _ => Ok (BumpHeap (bh_next h) (delete p (bh_live h)) (bh_user h))
                  | None => Err AssertFail end;
  heap_user := bh_user;
  set_heap_user u h := BumpHeap (bh_next h) (bh_live h) u
}.
Definition bump_ok (h : bump_heap) : Prop :=
  0 < bh_next h /\ map_Forall (fun p _ => p < bh_next h) (bh_live h).

#[export] Program Instance bump_heap_laws : KernelHeapLaws bump_heap := {
  live := bh_live; room _ := bump_ok
}.
Next Obligation.
  intros n h size [Hn Hl] Hs. eexists _, _. split; [reflexivity|]. simpl. split; [lia|]. split_and!; try done.
  - destruct (bh_live h !! bh_next h) eqn:E; [|done]. apply Hl in E. lia.
  - split; simpl; [lia|]. apply map_Forall_insert_2; simpl; [lia|]. intros p u Hp. apply Hl in Hp. lia.
Qed.
Next Obligation.
  intros n h p [Hn Hl] Hp Hlive. eexists. unfold sys_free; simpl in *. rewrite Hlive. split; [done|].
  split_and!; try done. simpl. split; [done|]. by apply map_Forall_delete.
Qed.
Next Obligation. done. Qed.
Next Obligation. done. Qed.
Next Obligation. done. Qed.
