(* ===== verification/Cstring.v ===== *)
(** * Cstring: lib/string.c

    The memory and string functions of the kernel and of the user programs, on byte
    buffers: a [char *] is a pair of an object (its bytes, as a list) and an offset into
    it, [None] is [NULL].  An access outside of the object is [OutOfBounds].  The
    objects of source and destination are different ones.  [char] is signed (i386), so
    characters are compared as [i8].  The loops take the length of the object as fuel:
    after that many rounds they have left it. *)

From S2P Require Import Prelude.

(** ** The code *)

Definition not_null (p : option Z) : outcome Z :=
  match p with Some o => Ok o | None => Err AssertFail end.

Fixpoint memcpy_loop (len : nat) (dst : list Z) (d : Z) (src : list Z) (s : Z) : outcome (list Z) :=
  match len with
  | O => Ok dst
  | S len =>
      let? v := rd src s in
      let? dst := wr dst d v in
      memcpy_loop len dst (d + 1) src (s + 1)
  end.

Definition memcpy (dst : list Z) (dest : option Z) (src : list Z) (source : option Z) (len : Z) :
    outcome (list Z) :=
  let? d := not_null dest in
  let? s := not_null source in
  memcpy_loop (Z.to_nat len) dst d src s.

Fixpoint memset_loop (len : nat) (dst : list Z) (d val : Z) : outcome (list Z) :=
  match len with
  | O => Ok dst
  | S len => let? dst := wr dst d val in memset_loop len dst (d + 1) val
  end.

Definition memset (dst : list Z) (dest : option Z) (val len : Z) : outcome (list Z) :=
  let? d := not_null dest in
  memset_loop (Z.to_nat len) dst d (u8 val).

Definition bzero (dst : list Z) (dest : option Z) (len : Z) : outcome (list Z) := memset dst dest 0 len.

Fixpoint memcmp_loop (size : nat) (ma : list Z) (a : Z) (mb : list Z) (b : Z) : outcome Z :=
  match size with
  | O => Ok 0
  | S size =>
      let? x := rd ma a in
      let? y := rd mb b in
      if negb (i8 x =? i8 y) then Ok (i8 x - i8 y)
      else memcmp_loop size ma (a + 1) mb (b + 1)
  end.

Definition memcmp (ma : list Z) (a : Z) (mb : list Z) (b : Z) (size : Z) : outcome Z :=
  memcmp_loop (Z.to_nat size) ma a mb b.

Fixpoint strcmp_loop (fuel : nat) (m1 : list Z) (str1 : Z) (m2 : list Z) (str2 : Z) : outcome Z :=
  match fuel with
  | O => Err Diverges
  | S fuel =>
      let? x := rd m1 str1 in
      let? y := rd m2 str2 in
      if (i8 x =? i8 y) && negb (i8 x =? 0) then strcmp_loop fuel m1 (str1 + 1) m2 (str2 + 1)
      else Ok (i8 x - i8 y)
  end.

Definition strcmp (m1 : list Z) (str1 : Z) (m2 : list Z) (str2 : Z) : outcome Z :=
  strcmp_loop (S (length m1)) m1 str1 m2 str2.

Fixpoint strcpy_loop (fuel : nat) (dst : list Z) (dest : Z) (m : list Z) (src : Z) : outcome (list Z) :=
  match fuel with
  | O => Err Diverges
  | S fuel =>
      let? v := rd m src in
      if negb (v =? 0) then
        let? dst := wr dst dest v in
        strcpy_loop fuel dst (dest + 1) m (src + 1)
      else Ok dst
  end.

Definition strcpy (dst : list Z) (dest : option Z) (m : list Z) (src : option Z) : outcome (list Z) :=
  let? d := not_null dest in
  let? s := not_null src in
  strcpy_loop (S (length m)) dst d m s.

(** [while ( *p++);]: the position of the first NUL from [p] on. *)
Fixpoint find_nul (fuel : nat) (m : list Z) (p : Z) : outcome Z :=
  match fuel with
  | O => Err Diverges
  | S fuel => let? v := rd m p in if negb (v =? 0) then find_nul fuel m (p + 1) else Ok p
  end.

Definition strlen (m : list Z) (s : option Z) : outcome Z :=
  let? s := not_null s in
  let? p := find_nul (S (length m)) m s in
  Ok (p - s).

Fixpoint strchr_loop (fuel : nat) (m : list Z) (str ch : Z) : outcome (option Z) :=
  match fuel with
  | O => Err Diverges
  | S fuel =>
      let? v := rd m str in
      if negb (v =? 0) then
        if i8 v =? ch then Ok (Some str) else strchr_loop fuel m (str + 1) ch
      else Ok None
  end.

Definition strchr (m : list Z) (str : option Z) (ch : Z) : outcome (option Z) :=
  let? s := not_null str in
  strchr_loop (S (length m)) m s (u8 ch).

(** The second loop of [strcat]: copies up to and including the NUL. *)
Fixpoint strcat_copy (fuel : nat) (dst : list Z) (str : Z) (m : list Z) (src : Z) : outcome (list Z) :=
  match fuel with
  | O => Err Diverges
  | S fuel =>
      let? v := rd m src in
      let? dst := wr dst str v in
      if negb (v =? 0) then strcat_copy fuel dst (str + 1) m (src + 1) else Ok dst
  end.

Definition strcat (dst : list Z) (dest : option Z) (m : list Z) (src : option Z) : outcome (list Z) :=
  let? d := not_null dest in
  let? s := not_null src in
  let? str := find_nul (S (length dst)) dst d in
  strcat_copy (S (length m)) dst str m s.

Fixpoint strrchr_loop (fuel : nat) (m : list Z) (str ch : Z) (temp : option Z) : outcome (option Z) :=
  match fuel with
  | O => Err Diverges
  | S fuel =>
      let? v := rd m str in
      if negb (v =? 0) then
        strrchr_loop fuel m (str + 1) ch (if i8 v =? ch then Some str else temp)
      else Ok temp
  end.

Definition strrchr (m : list Z) (str : option Z) (ch : Z) : outcome (option Z) :=
  let? s := not_null str in
  strrchr_loop (S (length m)) m s (u8 ch) None.

(** ** Strings in a buffer *)

(** The bytes of a C string. *)
Definition is_text (s : list Z) : Prop := Forall (fun c => 0 < c < 256) s.
(** The NUL-terminated string [s] is stored at offset [o] of [m]. *)
Definition str_at (m : list Z) (o : Z) (s : list Z) : Prop :=
  0 <= o /\ is_text s /\ exists t, drop (Z.to_nat o) m = s ++ 0 :: t.

Lemma rd_drop (m : list Z) o c t : 0 <= o -> drop (Z.to_nat o) m = c :: t -> rd m o = Ok c.
Proof.
  intros Ho Hd. apply rd_Ok; [done|]. pose proof (lookup_drop m (Z.to_nat o) 0) as H.
  rewrite Hd in H. simpl in H. rewrite Nat.add_0_r in H. by symmetry.
Qed.

Lemma drop_next (m : list Z) o c t :
  0 <= o -> drop (Z.to_nat o) m = c :: t -> drop (Z.to_nat (o + 1)) m = t.
Proof.
  intros Ho Hd. replace (Z.to_nat (o + 1)) with (Z.to_nat o + 1)%nat by lia.
  by rewrite <- drop_drop, Hd.
Qed.

Lemma str_at_nil m o : str_at m o [] -> rd m o = Ok 0.
Proof. intros (Ho & _ & t & Hd). by eapply rd_drop. Qed.

Lemma str_at_cons m o c s :
  str_at m o (c :: s) -> rd m o = Ok c /\ 0 < c < 256 /\ str_at m (o + 1) s.
Proof.
  intros (Ho & Hs & t & Hd). apply list.Forall_cons in Hs as [Hc Hs]. split; [by eapply rd_drop|].
  split; [done|]. split; [lia|]. split; [done|]. exists t. by eapply drop_next.
Qed.

Lemma str_at_length m o s : str_at m o s -> (Z.to_nat o + length s < length m)%nat.
Proof.
  intros (Ho & _ & t & Hd). pose proof (length_drop m (Z.to_nat o)) as H.
  rewrite Hd, length_app in H. simpl in H. lia.
Qed.

Lemma find_nul_spec fuel m o s :
  str_at m o s -> (length s < fuel)%nat -> find_nul fuel m o = Ok (o + Z.of_nat (length s)).
Proof.
  revert o s. induction fuel as [|fuel IH]; intros o s Hs Hf; [simpl in Hf; lia|]. simpl.
  destruct s as [|c s].
  - rewrite (str_at_nil _ _ Hs). simpl. f_equal. lia.
  - destruct (str_at_cons _ _ _ _ Hs) as (Hr & Hc & Hs'). rewrite Hr. simpl.
    rewrite (proj2 (Z.eqb_neq _ _)) by lia. simpl. rewrite (IH _ s) by (simpl in *; auto with lia).
    f_equal. simpl. lia.
Qed.

Lemma i8_zero c : 0 <= c < 256 -> i8 c = 0 <-> c = 0.
Proof.
  intros Hc. unfold i8. change (2 ^ 8) with 256. change (2 ^ 7) with 128. split; [|by intros ->].
  intros H. pose proof (Z.div_mod (c + 128) 256 ltac:(lia)). lia.
Qed.

Lemma i8_inj c d : 0 <= c < 256 -> 0 <= d < 256 -> i8 c = i8 d -> c = d.
Proof.
  unfold i8. change (2 ^ 8) with 256. change (2 ^ 7) with 128. intros Hc Hd H.
  pose proof (Z.div_mod (c + 128) 256 ltac:(lia)). pose proof (Z.div_mod (d + 128) 256 ltac:(lia)).
  pose proof (Z.mod_pos_bound (c + 128) 256). lia.
Qed.

Lemma strcmp_loop_spec fuel m1 o1 s1 m2 o2 s2 :
  str_at m1 o1 s1 -> str_at m2 o2 s2 -> (length s1 < fuel)%nat ->
  exists r, strcmp_loop fuel m1 o1 m2 o2 = Ok r /\ (r = 0 <-> s1 = s2).
Proof.
  revert o1 s1 o2 s2. induction fuel as [|fuel IH]; intros o1 s1 o2 s2 H1 H2 Hf; [simpl in Hf; lia|].
  assert (Hb : forall m o s, str_at m o s -> exists c, rd m o = Ok c /\ 0 <= c < 256 /\
    (c = 0 <-> s = []) /\ (forall d t, s = d :: t -> d = c /\ str_at m (o + 1) t)).
  { intros m o [|c s] Hs.
    - exists 0. rewrite (str_at_nil _ _ Hs). split_and!; try done; lia.
    - destruct (str_at_cons _ _ _ _ Hs) as (Hr & Hc & Hs'). exists c. split_and!; try done; try lia.
      + split; [lia|done].
      + intros d t [= <- <-]. done. }
  destruct (Hb _ _ _ H1) as (c & Hr1 & Hc & Hc0 & Hcs), (Hb _ _ _ H2) as (d & Hr2 & Hd & Hd0 & Hds).
  simpl. rewrite Hr1. simpl. rewrite Hr2. simpl.
  destruct (Z.eqb_spec (i8 c) (i8 d)) as [E|E]; simpl.
  - apply i8_inj in E as <-; [|done..]. destruct (Z.eqb_spec (i8 c) 0) as [Ez|Ez]; simpl.
    + apply (proj1 (i8_zero c Hc)) in Ez. exists (i8 c - i8 c). split; [done|]. split; [|lia].
      intros _. transitivity (@nil Z); [tauto|]. symmetry. tauto.
    + destruct s1 as [|c1 t1], s2 as [|d2 t2].
      1-3: exfalso; apply Ez; apply (proj2 (i8_zero c Hc)); first [by apply Hc0|by apply Hd0].
      destruct (Hcs _ _ eq_refl) as [-> Hst1], (Hds _ _ eq_refl) as [-> Hst2].
      destruct (IH _ _ _ _ Hst1 Hst2) as (r & Hr & Hiff); [simpl in Hf; lia|].
      exists r. split; [done|]. rewrite Hiff. split; [by intros ->|by intros [= ->]].
  - eexists. split; [done|]. split; [lia|]. intros ->. exfalso. apply E. f_equal.
    destruct s2 as [|x s2].
    + by rewrite (proj2 Hc0), (proj2 Hd0).
    + destruct (Hcs _ _ eq_refl) as [-> _], (Hds _ _ eq_refl) as [<- _]. done.
Qed.

(** ** The copies *)

Lemma wr_mid (a : list Z) x c v :
  wr (a ++ x :: c) (Z.of_nat (length a)) v = Ok ((a ++ [v]) ++ c).
Proof.
  rewrite wr_Ok by (rewrite length_app; simpl; lia). f_equal.
  rewrite Nat2Z.id, <- (Nat.add_0_r (length a)), insert_app_r, <- app_assoc. done.
Qed.

(** Cutting a buffer at an offset into what lies before, in and behind [n] bytes. *)
Lemma cut_buffer (m : list Z) o n :
  0 <= o -> 0 <= n -> o + n <= Z.of_nat (length m) ->
  exists a b c, m = a ++ b ++ c /\ Z.of_nat (length a) = o /\ Z.of_nat (length b) = n /\
    take (Z.to_nat o) m = a /\ drop (Z.to_nat (o + n)) m = c.
Proof.
  intros Ho Hn Hl. exists (take (Z.to_nat o) m), (take (Z.to_nat n) (drop (Z.to_nat o) m)),
    (drop (Z.to_nat (o + n)) m). split_and!; try done.
  - rewrite Z2Nat.inj_add by lia. rewrite <- drop_drop. by rewrite !take_drop.
  - rewrite length_take_le; lia.
  - rewrite length_take_le; [lia|]. rewrite length_drop. lia.
Qed.

Lemma memcpy_loop_spec n a b c src s :
  length b = n -> 0 <= s -> (Z.to_nat s + n <= length src)%nat ->
  memcpy_loop n (a ++ b ++ c) (Z.of_nat (length a)) src s = Ok (a ++ take n (drop (Z.to_nat s) src) ++ c).
Proof.
  revert a b s. induction n as [|n IH]; intros a b s Hb Hs Hl.
  - by destruct b.
  - destruct b as [|x b]; [done|]. simpl memcpy_loop.
    destruct (drop (Z.to_nat s) src) as [|v t] eqn:Hd.
    { apply (f_equal length) in Hd. rewrite length_drop in Hd. simpl in Hd. lia. }
    rewrite (rd_drop _ _ _ _ Hs Hd). simpl obind. rewrite <- ?app_comm_cons, wr_mid. simpl obind.
    pose proof (IH (a ++ [v]) b (s + 1)) as H. rewrite length_app, (drop_next _ _ _ _ Hs Hd) in H. simpl in H.
    replace (Z.of_nat (length a) + 1) with (Z.of_nat (length a + 1)) by lia.
    rewrite H by (simpl in Hb; lia). by rewrite <- app_assoc.
Qed.

Lemma memset_loop_spec n a b c v :
  length b = n -> memset_loop n (a ++ b ++ c) (Z.of_nat (length a)) v = Ok (a ++ replicate n v ++ c).
Proof.
  revert a b. induction n as [|n IH]; intros a b Hb.
  - by destruct b.
  - destruct b as [|x b]; [done|]. simpl memset_loop. rewrite <- ?app_comm_cons, wr_mid. simpl obind.
    pose proof (IH (a ++ [v]) b) as H. rewrite length_app in H. simpl in H.
    replace (Z.of_nat (length a) + 1) with (Z.of_nat (length a + 1)) by lia.
    rewrite H by (simpl in Hb; lia). by rewrite <- app_assoc.
Qed.

(** The part of [strcpy] and [strcat] behind the offset found: the bytes [b] of the
    destination are replaced by the text. *)
Lemma strcpy_loop_spec fuel a b c m o s :
  str_at m o s -> (length s < fuel)%nat -> length b = length s ->
  strcpy_loop fuel (a ++ b ++ c) (Z.of_nat (length a)) m o = Ok (a ++ s ++ c).
Proof.
  revert a b o s. induction fuel as [|fuel IH]; intros a b o s Hs Hf Hb; [lia|]. simpl strcpy_loop.
  destruct s as [|v s].
  - rewrite (str_at_nil _ _ Hs). simpl. by destruct b.
  - destruct (str_at_cons _ _ _ _ Hs) as (Hr & Hv & Hs'). destruct b as [|x b]; [done|].
    rewrite Hr. simpl obind. rewrite (proj2 (Z.eqb_neq _ _)) by lia. simpl negb. cbv iota.
    rewrite <- ?app_comm_cons, wr_mid. simpl obind.
    pose proof (IH (a ++ [v]) b (o + 1) s Hs') as H. rewrite length_app in H. simpl in H.
    replace (Z.of_nat (length a) + 1) with (Z.of_nat (length a + 1)) by lia.
    rewrite H by (simpl in *; lia). by rewrite <- app_assoc.
Qed.

Lemma strcat_copy_spec fuel a b c m o s :
  str_at m o s -> (length s < fuel)%nat -> length b = S (length s) ->
  strcat_copy fuel (a ++ b ++ c) (Z.of_nat (length a)) m o = Ok (a ++ (s ++ [0]) ++ c).
Proof.
  revert a b o s. induction fuel as [|fuel IH]; intros a b o s Hs Hf Hb; [lia|]. simpl strcat_copy.
  destruct b as [|x b]; [done|]. destruct s as [|v s].
  - rewrite (str_at_nil _ _ Hs). simpl obind. rewrite <- ?app_comm_cons, wr_mid. simpl.
    destruct b; [|done]. by rewrite <- app_assoc.
  - destruct (str_at_cons _ _ _ _ Hs) as (Hr & Hv & Hs').
    rewrite Hr. simpl obind. rewrite <- ?app_comm_cons, wr_mid. simpl obind.
    rewrite (proj2 (Z.eqb_neq _ _)) by lia. simpl negb. cbv iota.
    pose proof (IH (a ++ [v]) b (o + 1) s Hs') as H. rewrite length_app in H. simpl in H.
    replace (Z.of_nat (length a) + 1) with (Z.of_nat (length a + 1)) by lia.
    rewrite H by (simpl in *; lia). by rewrite <- app_assoc.
Qed.

Lemma str_fuel m o s : str_at m o s -> (length s < S (length m))%nat.
Proof. intros H. pose proof (str_at_length _ _ _ H). lia. Qed.

(** [memcpy] and [memset].  Inside of the bounds of both objects they return, and the
    destination is the old one with exactly the [len] bytes at [d] replaced, by the
    source's bytes or by the low byte of [val]. *)
Theorem memcpy_memset_spec dst d src s len val :
  0 <= d -> 0 <= s -> 0 <= len -> d + len <= Z.of_nat (length dst) -> s + len <= Z.of_nat (length src) ->
  (exists r, slice src s len = Ok r /\ memcpy dst (Some d) src (Some s) len = splice dst d r) /\
  memset dst (Some d) val len = fill dst d len (u8 val).
Proof.
  intros Hd Hs Hn Hdl Hsl.
  destruct (cut_buffer dst d len Hd Hn Hdl) as (a & b & c & -> & <- & Hb & Ht & Hc).
  rewrite fill_Ok, Ht, Hc by done. split.
  - rewrite slice_Ok by done. eexists. split; [done|]. unfold memcpy. simpl.
    rewrite (memcpy_loop_spec _ a b c) by lia.
    rewrite splice_Ok; [|done|rewrite length_take_le; [lia|rewrite length_drop; lia]].
    rewrite Ht, length_take_le by (rewrite length_drop; lia).
    by rewrite <- Z2Nat.inj_add, Hc by lia.
  - unfold memset. simpl. apply (memset_loop_spec _ a b c). lia.
Qed.

(** [strcmp] returns zero exactly for equal strings. *)
Theorem strcmp_spec m1 o1 s1 m2 o2 s2 :
  str_at m1 o1 s1 -> str_at m2 o2 s2 ->
  exists r, strcmp m1 o1 m2 o2 = Ok r /\ (r = 0 <-> s1 = s2).
Proof.
  intros H1 H2. apply (strcmp_loop_spec _ _ _ _ _ _ _ H1 H2). by eapply str_fuel.
Qed.

(** [strlen], [strcat] and [strcpy].  [strlen] is the length of the string; [strcat]
    replaces the destination's string by the concatenation, terminated.  [strcpy] copies
    the characters and not the NUL behind them: what the destination held behind the copied
    characters stays. *)
Theorem strlen_strcat_strcpy_spec dst d t m o s :
  str_at dst d t -> str_at m o s -> d + Z.of_nat (length t + length s) < Z.of_nat (length dst) ->
  strlen m (Some o) = Ok (Z.of_nat (length s)) /\
  (exists dst', strcat dst (Some d) m (Some o) = Ok dst' /\ str_at dst' d (t ++ s) /\
     length dst' = length dst /\ take (Z.to_nat d) dst' = take (Z.to_nat d) dst) /\
  strcpy dst (Some d) m (Some o) = splice dst d s.
Proof.
  intros Ht Hs Hl. pose proof (str_fuel _ _ _ Hs) as Hf. split_and!.
  - unfold strlen. cbn [not_null obind]. rewrite (find_nul_spec _ _ _ s) by done. simpl. f_equal. lia.
  - unfold strcat. cbn [not_null obind]. rewrite (find_nul_spec _ _ _ t) by (done || exact (str_fuel _ _ _ Ht)). cbn [obind].
    destruct Ht as (Hd & Htt & u & Hu).
    destruct (cut_buffer dst (d + Z.of_nat (length t)) (Z.of_nat (S (length s)))) as (a & b & c & E & Ha & Hb & Hta & Hc);
      [lia..|].
    rewrite <- Ha, E. rewrite (strcat_copy_spec _ a b c m o s) by (done || lia).
    eexists. split; [done|].
    assert (Ea : a = take (Z.to_nat d) dst ++ t).
    { rewrite <- Hta. rewrite Z2Nat.inj_add by lia. rewrite Nat2Z.id, <- take_take_drop, Hu. f_equal.
      by rewrite take_app_length. }
    assert (Hlt : length (take (Z.to_nat d) dst) = Z.to_nat d) by (rewrite length_take_le; lia).
    assert (Hlen : length dst = (length a + (length b + length c))%nat) by (by rewrite E, !length_app).
    split_and!.
    + split; [done|]. split; [apply Forall_app; by destruct Hs as (_ & ? & _)|].
      exists c. rewrite Ea, <- !app_assoc. by rewrite drop_app_length'.
    + rewrite !length_app. simpl. lia.
    + by rewrite Ea, <- !app_assoc, !take_app_length'.
  - unfold strcpy. cbn [not_null obind]. destruct (cut_buffer dst d (Z.of_nat (length s))) as (a & b & c & E & Ha & Hb & Hta & Hc).
    { by destruct Ht. } { lia. } { lia. }
    destruct Ht as [Hd _]. rewrite splice_Ok by lia. rewrite Hta.
    replace (Z.to_nat d + length s)%nat with (Z.to_nat (d + Z.of_nat (length s))) by lia. rewrite Hc, E, <- Ha.
    by rewrite (strcpy_loop_spec _ a b c m o s) by (done || lia).
Qed.

(** ** Parts of strings *)

Lemma str_at_skip m o a b : str_at m o (a ++ b) -> str_at m (o + Z.of_nat (length a)) b.
Proof.
  revert o. induction a as [|c a IH]; intros o Hs.
  - simpl. by rewrite Z.add_0_r.
  - apply str_at_cons in Hs as (_ & _ & Hs). apply IH in Hs. simpl.
    by replace (o + Z.of_nat (S (length a))) with (o + 1 + Z.of_nat (length a)) by lia.
Qed.

Lemma str_at_head m o s : str_at m o s -> exists c, rd m o = Ok c /\ (c = 0 <-> s = []) /\ (forall d t, s = d :: t -> c = d).
Proof.
  intros Hs. destruct s as [|c s].
  - exists 0. split; [by apply str_at_nil|]. done.
  - apply str_at_cons in Hs as (Hr & Hc & _). exists c. split; [done|]. split; [|by intros d t [= -> _]].
    split; [lia|done].
Qed.

Lemma str_at_app s rest : is_text s -> str_at (s ++ 0 :: rest) 0 s.
Proof. intros Ht. split; [lia|]. split; [done|]. exists rest. done. Qed.

Lemma strcat_run dst t m s : str_at dst 0 t -> str_at m 0 s -> (length t + length s < length dst)%nat ->
  exists dst', strcat dst (Some 0) m (Some 0) = Ok dst' /\ str_at dst' 0 (t ++ s) /\ length dst' = length dst.
Proof.
  intros Ht Hs Hl. destruct (strlen_strcat_strcpy_spec dst 0 t m 0 s Ht Hs) as (_ & (dst' & Hr & Ha & Hlen & _) & _); [lia|].
  by exists dst'.
Qed.

(** A way to see that fixed bytes are a text. *)
Lemma text_check s : forallb (fun c => (0 <? c) && (c <? 256)) s = true -> is_text s.
Proof.
  rewrite forallb_forall. intros H. apply list.Forall_forall. intros c Hc. apply list_elem_of_In in Hc. apply H in Hc. lia.
Qed.

(** A character below 128 is found by [strchr]. *)
Lemma i8_ascii c d : 0 <= c < 256 -> 0 <= d < 128 -> (i8 c =? u8 d) = (c =? d).
Proof.
  intros Hc Hd. unfold i8. rewrite u8_small by lia.
  pose proof (Z.div_mod (c + 2 ^ 7) (2 ^ 8) ltac:(lia)). pose proof (Z.mod_pos_bound (c + 2 ^ 7) (2 ^ 8) ltac:(lia)).
  destruct (Z.eqb_spec ((c + 2 ^ 7) mod 2 ^ 8 - 2 ^ 7) d), (Z.eqb_spec c d); try done; nia.
Qed.

Lemma strcmp_eqb m1 s1 m2 s2 : str_at m1 0 s1 -> str_at m2 0 s2 ->
  exists r, strcmp m1 0 m2 0 = Ok r /\ (r =? 0) = bool_decide (s1 = s2).
Proof.
  intros H1 H2. destruct (strcmp_spec _ _ _ _ _ _ H1 H2) as (r & Hr & Hiff). exists r. split; [done|].
  destruct (Z.eqb_spec r 0); [rewrite bool_decide_true; tauto|rewrite bool_decide_false; tauto].
Qed.

(** ** Sample strings *)

(** The buffer of 8 bytes that holds "/ab" at offset 2, and "ab". *)
Definition sample_buf : list Z := [7; 7; 47; 97; 98; 0; 7; 7; 7; 7].
Definition sample_str : list Z := [97; 98; 0].

Lemma sample_buf_at : str_at sample_buf 2 [47; 97; 98].
Proof. split; [lia|]. split; [repeat constructor; lia|]. by exists [7; 7; 7; 7]. Qed.
Lemma sample_str_at : str_at sample_str 0 [97; 98].
Proof. split; [lia|]. split; [repeat constructor; lia|]. by exists []. Qed.

Lemma memcpy_memset_spec_witness :
  memcpy sample_buf (Some 1) sample_str (Some 0) 2 = splice sample_buf 1 [97; 98] /\
  memset sample_buf (Some 1) 511 2 = fill sample_buf 1 2 255.
Proof.
  destruct (memcpy_memset_spec sample_buf 1 sample_str 0 2 511) as [(r & Hr & Hc) Hm]; try (simpl; lia).
  vm_compute in Hr. injection Hr as <-. by split.
Defined.

Lemma strcmp_spec_witness : exists r, strcmp sample_buf 3 sample_str 0 = Ok r /\ r = 0.
Proof.
  destruct (strcmp_spec sample_buf 3 [97; 98] sample_str 0 [97; 98]) as (r & Hr & Hiff).
  - split; [lia|]. split; [repeat constructor; lia|]. by exists [7; 7; 7; 7].
  - apply sample_str_at.
  - exists r. split; [done|by apply Hiff].
Defined.

Lemma strlen_strcat_strcpy_spec_witness :
  strlen sample_str (Some 0) = Ok 2 /\
  strcpy sample_buf (Some 2) sample_str (Some 0) = splice sample_buf 2 [97; 98].
Proof.
  destruct (strlen_strcat_strcpy_spec sample_buf 2 [47; 97; 98] sample_str 0 [97; 98]) as (Hl & _ & Hc).
  - apply sample_buf_at.
  - apply sample_str_at.
  - simpl. lia.
  - by split.
Defined.
