(* ===== verification/Words.v ===== *)
(** * Words: texts as words between separators

    A text cut at every occurrence of a character: the components of a path between
    slashes, the arguments of a command between blanks. *)

From S2P Require Import Prelude Cstring.

Section words.
Context (sep : Z).

(** The pieces between separators, and the ones of them that are not empty. *)
Fixpoint split_at (s : list Z) : list (list Z) :=
  match s with
  | [] => [[]]
  | c :: s => if c =? sep then [] :: split_at s
              else match split_at s with w :: ws => (c :: w) :: ws | [] => [[c]] end
  end.
Definition words (s : list Z) : list (list Z) :=
  List.filter (fun w => match w with [] => false | _ => true end) (split_at s).

Definition free_of (w : list Z) : Prop := Forall (fun c => c <> sep) w.
Definition at_separator (rest : list Z) : Prop := rest = [] \/ exists r, rest = sep :: r.

Lemma words_sep s : words (sep :: s) = words s.
Proof. unfold words. cbn [split_at]. by rewrite Z.eqb_refl. Qed.

Lemma split_at_word w rest : free_of w -> at_separator rest ->
  split_at (w ++ rest) = match split_at rest with v :: vs => (w ++ v) :: vs | [] => [w] end.
Proof.
  intros Hw Hr. induction w as [|c w IH].
  - simpl. destruct Hr as [->|[r ->]]; [done|]. cbn [split_at]. by rewrite Z.eqb_refl.
  - apply list.Forall_cons in Hw as [Hc Hw]. simpl. rewrite (proj2 (Z.eqb_neq _ _)) by done. rewrite IH by done.
    by destruct (split_at rest).
Qed.

Lemma words_word w rest : free_of w -> w <> [] -> at_separator rest -> words (w ++ rest) = w :: words rest.
Proof.
  intros Hw Hne Hr. unfold words. rewrite split_at_word by done.
  destruct Hr as [->|[r ->]]; cbn [split_at]; rewrite ?Z.eqb_refl, app_nil_r; by destruct w.
Qed.

(** A text is separators, a word, and the rest of the text. *)
Lemma words_shape s :
  exists k w rest, s = replicate k sep ++ w ++ rest /\ free_of w /\ at_separator rest /\
    (w = [] -> rest = []) /\ words s = (match w with [] => [] | _ => w :: words rest end).
Proof.
  induction s as [|c s (k & w & rest & -> & Hw & Hr & He & Hc)].
  - exists 0%nat, [], []. split_and!; try done; [constructor|by left].
  - destruct (decide (c = sep)) as [->|Hne].
    + exists (S k), w, rest. by rewrite words_sep.
    + destruct k as [|k].
      * exists 0%nat, (c :: w), rest. split; [done|]. assert (Hcw : free_of (c :: w)) by (by apply list.Forall_cons).
        split; [done|]. split; [done|]. split; [done|]. by apply (words_word (c :: w) rest).
      * exists 0%nat, [c], (replicate (S k) sep ++ w ++ rest).
        assert (Hc1 : free_of [c]) by (apply list.Forall_cons; by split).
        assert (Hb : at_separator (replicate (S k) sep ++ w ++ rest)) by (right; by eexists).
        split; [done|]. split; [done|]. split; [done|]. split; [done|]. by apply (words_word [c]).
Qed.

(** Induction over the words of a text, by the length of what is left. *)
Lemma words_ind (Q : list Z -> Prop) :
  (forall k, Q (replicate k sep)) ->
  (forall k w rest, free_of w -> w <> [] -> at_separator rest -> Q rest -> Q (replicate k sep ++ w ++ rest)) ->
  forall s, Q s.
Proof.
  intros H0 H1 s. remember (length s) as n eqn:Hn. revert s Hn. induction n as [n IH] using lt_wf_ind. intros s ->.
  destruct (words_shape s) as (k & w & rest & E & Hw & Hr & He & _). destruct w as [|x w].
  - rewrite He, !app_nil_r in E by done. rewrite E. apply H0.
  - rewrite E. apply H1; [done|done|done|]. apply (IH (length rest)); [|done]. rewrite E, !length_app. simpl. lia.
Qed.

Lemma words_seps k s : words (replicate k sep ++ s) = words s.
Proof. induction k as [|k IH]; [done|]. cbn [replicate app]. by rewrite words_sep. Qed.

Lemma words_only_seps k : words (replicate k sep) = [].
Proof. rewrite <- (app_nil_r (replicate k sep)), words_seps. done. Qed.

Lemma words_text s w : is_text s -> w ∈ words s -> w <> [] /\ is_text w.
Proof.
  revert w. induction s as [k|k v rest Hv Hne Hr IH] using words_ind; intros w Ht.
  - rewrite words_only_seps. intros H. by apply elem_of_nil in H.
  - rewrite words_seps, words_word by done. unfold is_text in Ht. rewrite !list.Forall_app in Ht. destruct Ht as (_ & Hvt & Hrt).
    intros [->|Hw]%elem_of_cons; [done|]. by apply IH.
Qed.

Lemma words_count s : (length (words s) <= length s)%nat.
Proof.
  induction s as [k|k v rest Hv Hne Hr IH] using words_ind; [rewrite words_only_seps; simpl; lia|].
  rewrite words_seps, words_word by done. rewrite !length_app. destruct v; [done|]. simpl. lia.
Qed.

Lemma words_free_of s w : w ∈ words s -> free_of w.
Proof.
  revert w. induction s as [k|k v rest Hv Hne Hr IH] using words_ind; intros w.
  - rewrite words_only_seps. intros H. by apply elem_of_nil in H.
  - rewrite words_seps, words_word by done. intros [->|Hw]%elem_of_cons; [done|]. by apply IH.
Qed.
End words.
