(* ===== verification/Inode.v ===== *)
(** * Inode: fs/inode.c, and the bitmaps of fs/file.c

    Inodes on disk (76 bytes each, in consecutive sectors, so that an inode may span two)
    and in memory (one object per open inode, shared by all who opened it), and the inode
    and block bitmaps of the mounted partition.  The parameter [part] of the C functions
    is [cur_part] in every call and is the state's [f_part] here. *)

From S2P Require Import Prelude Bitmap Interrupt Disk.

(** ** Representation on disk *)

(** The first [n] words of a byte array, and the bytes of some words. *)
Fixpoint words (b : list Z) (n : nat) : list Z :=
  match n with O => [] | S n => le_val (take 4 b) :: words (drop 4 b) n end.
Fixpoint word_bytes (l : list Z) : list Z :=
  match l with [] => [] | w :: l => le_bytes 4 w ++ word_bytes l end.

(** [memcpy] of a [struct inode] from a buffer; the last 8 bytes are its list node. *)
Definition inode_of_bytes (b : list Z) : inode :=
  let w := words b 17 in
  Inode (nth 0 w 0) (nth 1 w 0) (nth 2 w 0) (nth 3 w 0) (drop 4 w).
(** [pure_inode]: the open count, [write_deny] and the list node are cleared. *)
Definition pure_bytes (i : inode) : list Z :=
  word_bytes (i_no i :: i_size i :: 0 :: 0 :: i_sectors i) ++ replicate 8 0.

Record inode_position : Type := InodePos { two_sec : bool; sec_lba : Z; off_size : Z }.

Section inode.
Context {D H : Type} `{!BlockDev D, !KernelHeap H}.
Notation M := (KM (fs D H)).

Definition inode_locate (inode_no : Z) : M inode_position :=
  ASSERT (inode_no <? 4096) ;;;
  b <- get_sb ;;
  let off_size := u32 (inode_no * sizeof_inode) in
  let off_sec := off_size / 512 in
  let off_size_in_sec := off_size mod 512 in
  let left_in_sec := 512 - off_size_in_sec in
  kret (InodePos (left_in_sec <? sizeof_inode) (u32 (inode_table_lba b + off_sec)) off_size_in_sec).

Definition pos_sects (pos : inode_position) : Z := if two_sec pos then 2 else 1.

(** [ASSERT(inode_pos.sec_lba <= (part->start_lba + part->sec_cnt))]. *)
Definition assert_in_part (lba : Z) : M unit :=
  p <- get_part ;; ASSERT (lba <=? u32 (start_lba p + sec_cnt p)).

Definition inode_sync (ino : inode) : M unit :=
  let inode_no := u8 (i_no ino) in
  inode_pos <- inode_locate inode_no ;;
  assert_in_part (sec_lba inode_pos) ;;;
  inode_buf <- ide_read (sec_lba inode_pos) (pos_sects inode_pos) ;;
  inode_buf <- klift (splice inode_buf (off_size inode_pos) (pure_bytes ino)) ;;
  ide_write (sec_lba inode_pos) inode_buf (pos_sects inode_pos).

(** The walk over [open_inodes]. *)
Fixpoint find_open (l : list Z) (inode_no : Z) : M (option Z) :=
  match l with
  | [] => kret None
  | p :: l =>
      inode_found <- get_inode p ;;
      if i_no inode_found =? inode_no then kret (Some p) else find_open l inode_no
  end.

(** An allocation from the kernel's heap, whoever runs. *)
Definition kernel_malloc (size : Z) : M Z :=
  bak <- get_user ;;
  put_user false ;;;
  p <- malloc size ;;
  put_user bak ;;;
  kret p.

Definition inode_open (inode_no : Z) : M Z :=
  opens <- kreads f_open ;;
  found <- find_open opens inode_no ;;
  match found with
  | Some p =>
      upd_inode p (fun i => set_i_open_cnts (u32 (i_open_cnts i + 1)) i) ;;;
      kret p
  | None =>
      inode_pos <- inode_locate inode_no ;;
      inode_found <- kernel_malloc sizeof_inode ;;
      inode_buf <- malloc (512 * pos_sects inode_pos) ;;
      data <- ide_read (sec_lba inode_pos) (pos_sects inode_pos) ;;
      buffer inode_buf ;;;
      bytes <- klift (slice data (off_size inode_pos) sizeof_inode) ;;
      put_inode inode_found (inode_of_bytes bytes) ;;;
      open_push inode_found ;;;
      upd_inode inode_found (set_i_open_cnts 1) ;;;
      free inode_buf ;;;
      kret inode_found
  end.

Definition inode_close (p : Z) : M unit :=
  old_status <- intr_disable ;;
  i <- get_inode p ;;
  let cnt := u32 (i_open_cnts i - 1) in
  put_inode p (set_i_open_cnts cnt i) ;;;
  (if cnt =? 0 then
     open_remove p ;;;
     bak <- get_user ;;
     put_user false ;;;
     free p ;;;
     kmod (fun s => set_f_inodes (delete p (f_inodes s)) s) ;;;
     put_user bak
   else kret tt) ;;;
  intr_set_status old_status ;;;
  kret tt.

(** Everything but [i_open_cnts], [write_deny] and the list node is set by [inode_init]
    too, so the value before does not matter. *)
Definition inode_init (inode_no : Z) : inode := Inode inode_no 0 0 0 (replicate 13 0).

Definition inode_delete (inode_no : Z) : M unit :=
  ASSERT (inode_no <? 4096) ;;;
  inode_pos <- inode_locate inode_no ;;
  assert_in_part (sec_lba inode_pos) ;;;
  inode_buf <- ide_read (sec_lba inode_pos) (pos_sects inode_pos) ;;
  inode_buf <- klift (fill inode_buf (off_size inode_pos) sizeof_inode 0) ;;
  ide_write (sec_lba inode_pos) inode_buf (pos_sects inode_pos).

(** ** Bitmaps of the partition *)

Inductive bitmap_type : Type := INODE_BITMAP | BLOCK_BITMAP.

Definition get_bitmap (t : bitmap_type) : M bitmap :=
  kreads (fun s => match t with INODE_BITMAP => inode_bitmap (f_part s) | BLOCK_BITMAP => block_bitmap (f_part s) end).
Definition put_bitmap (t : bitmap_type) (b : bitmap) : M unit :=
  kmod (fun s => set_f_part
    (match t with INODE_BITMAP => set_inode_bitmap b (f_part s)
     | BLOCK_BITMAP => set_block_bitmap b (f_part s) end) s).
Definition set_bit (t : bitmap_type) (i v : Z) : M unit :=
  b <- get_bitmap t ;;
  b' <- klift (bitmap_set b i v) ;;
  put_bitmap t b'.

Definition inode_bitmap_alloc : M Z :=
  b <- get_bitmap INODE_BITMAP ;;
  bit_idx <- klift (bitmap_scan b 1) ;;
  if bit_idx =? -1 then kret (-1)
  else
    set_bit INODE_BITMAP bit_idx 1 ;;;
    kret bit_idx.

Definition block_bitmap_alloc : M Z :=
  b <- get_bitmap BLOCK_BITMAP ;;
  bit_idx <- klift (bitmap_scan b 1) ;;
  if bit_idx =? -1 then kret (-1)
  else
    set_bit BLOCK_BITMAP bit_idx 1 ;;;
    p <- get_sb ;;
    kret (i32 (data_start_lba p + bit_idx)).

Definition bitmap_sync (bit_idx : Z) (btmp : bitmap_type) : M unit :=
  let off_sec := bit_idx / 4096 in
  let off_size := u32 (off_sec * 512) in
  p <- get_sb ;;
  b <- get_bitmap btmp ;;
  let sec_lba := match btmp with
                 | INODE_BITMAP => u32 (inode_bitmap_lba p + off_sec)
                 | BLOCK_BITMAP => u32 (block_bitmap_lba p + off_sec)
                 end in
  bits <- klift (slice (bits b) off_size 512) ;;
  ide_write sec_lba bits 1.

(** The bit of block [blk] cleared, in memory and on disk. *)
Definition release_block (blk : Z) : M unit :=
  p <- get_sb ;;
  let block_bitmap_idx := u32 (blk - data_start_lba p) in
  ASSERT (0 <? block_bitmap_idx) ;;;
  set_bit BLOCK_BITMAP block_bitmap_idx 0 ;;;
  bitmap_sync block_bitmap_idx BLOCK_BITMAP.

Fixpoint release_blocks (l : list Z) : M unit :=
  match l with
  | [] => kret tt
  | blk :: l => (if negb (blk =? 0) then release_block blk else kret tt) ;;; release_blocks l
  end.

Definition inode_release (inode_no : Z) : M unit :=
  inode_to_del <- inode_open inode_no ;;
  i <- get_inode inode_to_del ;;
  ASSERT (i_no i =? inode_no) ;;;
  let direct := take 12 (i_sectors i) in
  i12 <- klift (rd (i_sectors i) 12) ;;
  all_blocks <- (if negb (i12 =? 0) then
                   table <- ide_read i12 1 ;;
                   release_block i12 ;;;
                   kret (direct ++ words table 128)
                 else kret direct) ;;
  release_blocks all_blocks ;;;
  set_bit INODE_BITMAP inode_no 0 ;;;
  bitmap_sync inode_no INODE_BITMAP ;;;
  inode_close inode_to_del.

End inode.

(** ** The inode table *)

Lemma words_app l n b : length l = n -> Forall (fun w => 0 <= w < 2 ^ 32) l -> words (word_bytes l ++ b) n = l.
Proof.
  revert n. induction l as [|w l IH]; intros n Hn Hl; simpl in Hn; subst n; [done|].
  apply list.Forall_cons in Hl as [Hw Hl]. cbn [words word_bytes]. rewrite <- app_assoc.
  rewrite take_app_length', drop_app_length' by (by rewrite le_bytes_length). rewrite le_val_bytes by done.
  by rewrite IH.
Qed.

Lemma word_bytes_length l : length (word_bytes l) = (4 * length l)%nat.
Proof. induction l as [|w l IH]; [done|]. cbn [word_bytes length]. rewrite length_app, le_bytes_length, IH. lia. Qed.

(** The fields of an inode fit the words they are stored in. *)
Record inode_fits (i : inode) : Prop := {
  if_no : 0 <= i_no i < 2 ^ 32;
  if_size : 0 <= i_size i < 2 ^ 32;
  if_sectors : length (i_sectors i) = 13%nat;
  if_words : Forall (fun w => 0 <= w < 2 ^ 32) (i_sectors i)
}.

Lemma inode_bytes_roundtrip i : inode_fits i -> inode_of_bytes (pure_bytes i) = Inode (i_no i) (i_size i) 0 0 (i_sectors i).
Proof.
  intros [Hn Hs Hl Hw]. unfold inode_of_bytes, pure_bytes. rewrite words_app; [done| |].
  - simpl. by rewrite Hl.
  - repeat (apply list.Forall_cons; split; [lia|]). done.
Qed.

Lemma pure_bytes_length i : length (i_sectors i) = 13%nat -> length (pure_bytes i) = 76%nat.
Proof. intros Hl. unfold pure_bytes. rewrite length_app, word_bytes_length. simpl. by rewrite Hl. Qed.

(** Where the parts of the mounted partition lie. *)
Record layout_ok (p : partition) : Prop := {
  ly_block : 0 < block_bitmap_lba (sb p);
  ly_inode : block_bitmap_lba (sb p) + block_bitmap_sects (sb p) <= inode_bitmap_lba (sb p);
  ly_block_sects : 0 < block_bitmap_sects (sb p);
  ly_table : inode_bitmap_lba (sb p) + 1 <= inode_table_lba (sb p);
  ly_data : inode_table_lba (sb p) + 608 <= data_start_lba (sb p);
  ly_end : data_start_lba (sb p) < start_lba p + sec_cnt p;
  ly_disk : start_lba p + sec_cnt p <= DISK_SECTORS;
  ly_start : 0 <= start_lba p
}.

Section inode_properties.
Context {D H : Type} `{!BlockDev D, !KernelHeap H, !BlockDevLaws D, !KernelHeapLaws H}.
Implicit Types (s : fs D H).

Record fs_ok s : Prop := { fo_dev : disk_ready (f_dev s); fo_layout : layout_ok (f_part s) }.

Definition table_lba s : Z := inode_table_lba (sb (f_part s)).
(** The inode table and the 76 bytes of inode [n] in it. *)
Definition inode_table s : list Z := sectors_from (sector (f_dev s)) (table_lba s) 608.
Definition inode_slot s (n : Z) : list Z := take 76 (drop (Z.to_nat (76 * n)) (inode_table s)).

Lemma inode_locate_run s n :
  layout_ok (f_part s) -> 0 <= n < 4096 ->
  exists pos, inode_locate n s = Ok (pos, s) /\
    512 * (sec_lba pos - table_lba s) + off_size pos = 76 * n /\ 0 <= off_size pos < 512 /\
    off_size pos + 76 <= 512 * pos_sects pos /\ 1 <= pos_sects pos <= 2 /\
    table_lba s <= sec_lba pos /\ sec_lba pos + pos_sects pos <= table_lba s + 608.
Proof.
  intros [] Hn. unfold inode_locate. rewrite (kbind_ok _ _ s tt s) by (unfold ASSERT; by rewrite (proj2 (Z.ltb_lt _ _)) by lia).
  rewrite (kbind_ok _ _ s (sb (f_part s)) s) by done. eexists. split; [done|].
  unfold table_lba, pos_sects, sizeof_inode, DISK_SECTORS in *. cbn [sec_lba off_size two_sec].
  rewrite (u32_small (n * 76)) by lia.
  pose proof (Z.div_mod (n * 76) 512 ltac:(lia)). pose proof (Z.mod_pos_bound (n * 76) 512 ltac:(lia)).
  assert (0 <= n * 76 / 512 < 608) by (split; [apply Z.div_pos; lia|apply Z.div_lt_upper_bound; lia]).
  rewrite u32_small by lia. destruct (Z.ltb_spec (512 - (n * 76) mod 512) 76); lia.
Qed.

Lemma ide_read_run s lba cnt :
  disk_ready (f_dev s) -> 0 <= lba -> 0 < cnt -> lba + cnt <= DISK_SECTORS ->
  exists d, ide_read lba cnt s = Ok (sectors_from (sector (f_dev s)) lba (Z.to_nat cnt), set_f_dev d s) /\
    disk_ready d /\ (forall x, sector d x = sector (f_dev s) x).
Proof.
  intros H1 H2 H3 H4. destruct (disk_read_spec _ _ _ H1 H2 H3 H4) as (d & Hr & Hd & Hs).
  exists d. unfold ide_read. by rewrite Hr.
Qed.

Lemma ide_write_run s lba b cnt :
  disk_ready (f_dev s) -> 0 <= lba -> 0 < cnt -> lba + cnt <= DISK_SECTORS -> 512 * cnt <= Z.of_nat (length b) ->
  exists d, ide_write lba b cnt s = Ok (tt, set_f_dev d s) /\
    disk_ready d /\ (forall x, sector d x = sector_after (sector (f_dev s)) lba b cnt x).
Proof.
  intros H1 H2 H3 H4 H5. destruct (disk_write_spec _ _ _ _ H1 H2 H3 H4 H5) as (d & Hr & Hd & Hs).
  exists d. unfold ide_write. by rewrite Hr.
Qed.

(** Rewriting bytes of a few sectors: [ide_read], [memcpy] into the buffer, [ide_write]. *)
Lemma read_modify_write s lba cnt off src :
  disk_ready (f_dev s) -> 0 <= lba -> 0 < cnt -> lba + cnt <= DISK_SECTORS ->
  0 <= off -> off + Z.of_nat (length src) <= 512 * cnt ->
  exists d, (buf <- ide_read lba cnt ;;
             buf <- klift (splice buf off src) ;;
             ide_write lba buf cnt) s = Ok (tt, set_f_dev d s) /\ disk_ready d /\
    (forall x, ~ (lba <= x < lba + cnt) -> sector d x = sector (f_dev s) x) /\
    (forall base n, base <= lba -> lba + cnt <= base + Z.of_nat n ->
       splice (sectors_from (sector (f_dev s)) base n) (512 * (lba - base) + off) src
       = Ok (sectors_from (sector d) base n)).
Proof.
  intros Hd Hl Hc Hm Ho Hos. destruct (ide_read_run s lba cnt Hd Hl Hc Hm) as (d1 & H1 & Hd1 & Hs1).
  assert (Hsec : forall x, length (sector (f_dev s) x) = 512%nat) by (intros; by apply sector_len).
  assert (Hb : exists buf, splice (sectors_from (sector (f_dev s)) lba (Z.to_nat cnt)) off src = Ok buf /\
    512 * cnt <= Z.of_nat (length buf)).
  { rewrite splice_Ok; [|done|rewrite sectors_from_length by done; lia]. eexists. split; [done|].
    rewrite !length_app, length_take, length_drop, sectors_from_length by done. lia. }
  destruct Hb as (buf & Hb & Hbl).
  destruct (ide_write_run (set_f_dev d1 s) lba buf cnt Hd1 Hl Hc Hm Hbl) as (d2 & H2 & Hd2 & Hs2).
  assert (Hs3 : forall x, sector d2 x = sector_after (sector (f_dev s)) lba buf cnt x).
  { intros x. rewrite Hs2. unfold sector_after. by rewrite Hs1. }
  exists d2. split; [|split; [done|split]].
  - rewrite (kbind_ok _ _ _ _ _ H1). rewrite (kbind_ok _ _ _ buf (set_f_dev d1 s)) by (unfold klift; by rewrite Hb).
    rewrite H2. by destruct s.
  - intros x Hx. rewrite Hs3. unfold sector_after. by rewrite decide_False.
  - intros base n H3 H4. apply (sectors_patch _ _ _ _ _ (Z.to_nat cnt) _ _ buf); [done|done|lia|done|].
    intros x. rewrite Hs3. by rewrite Z2Nat.id by lia.
Qed.

Lemma fill_splice {A} (l : list A) off n v : 0 <= n -> fill l off n v = splice l off (replicate (Z.to_nat n) v).
Proof.
  intros Hn. unfold fill, splice. rewrite length_replicate, Z2Nat.id by done.
  destruct (decide (0 <= off)).
  - repeat case_decide; try lia; [|done]. do 4 f_equal. lia.
  - rewrite !decide_False by lia. done.
Qed.

(** The slot of an inode inside of the sectors [inode_locate] found. *)
Lemma slot_in_sectors s n pos :
  disk_ready (f_dev s) ->
  512 * (sec_lba pos - table_lba s) + off_size pos = 76 * n -> 0 <= off_size pos ->
  off_size pos + 76 <= 512 * pos_sects pos -> 1 <= pos_sects pos ->
  table_lba s <= sec_lba pos -> sec_lba pos + pos_sects pos <= table_lba s + 608 ->
  take (Z.to_nat sizeof_inode) (drop (Z.to_nat (off_size pos))
    (sectors_from (sector (f_dev s)) (sec_lba pos) (Z.to_nat (pos_sects pos)))) = inode_slot s n.
Proof.
  intros Hd Hoff Ho Hfit Hk Hlo Hhi. unfold inode_slot, inode_table, sizeof_inode.
  set (q := Z.to_nat (sec_lba pos - table_lba s)). set (k := Z.to_nat (pos_sects pos)).
  replace 608%nat with (q + (k + (608 - q - k)))%nat by lia. rewrite !sectors_from_app.
  replace (table_lba s + Z.of_nat q) with (sec_lba pos) by lia.
  assert (Hl : forall a b, length (sectors_from (sector (f_dev s)) a b) = (512 * b)%nat).
  { intros. apply sectors_from_length. intros. by apply sector_len. }
  replace (Z.to_nat (76 * n)) with (length (sectors_from (sector (f_dev s)) (table_lba s) q) + Z.to_nat (off_size pos))%nat
    by (rewrite Hl; lia).
  rewrite drop_app_add, drop_app_le by (rewrite Hl; lia). rewrite take_app_le; [done|].
  rewrite length_drop, Hl. lia.
Qed.

(** The write back of an inode's slot. *)
Lemma slot_write s n src :
  fs_ok s -> 0 <= n < 4096 -> length src = 76%nat ->
  exists d, (inode_pos <- inode_locate n ;;
             assert_in_part (sec_lba inode_pos) ;;;
             inode_buf <- ide_read (sec_lba inode_pos) (pos_sects inode_pos) ;;
             inode_buf <- klift (splice inode_buf (off_size inode_pos) src) ;;
             ide_write (sec_lba inode_pos) inode_buf (pos_sects inode_pos)) s = Ok (tt, set_f_dev d s) /\
    fs_ok (set_f_dev d s) /\
    (forall m, 0 <= m < 4096 -> inode_slot (set_f_dev d s) m = if decide (m = n) then src else inode_slot s m) /\
    (forall x, ~ (table_lba s <= x < table_lba s + 608) -> sector d x = sector (f_dev s) x).
Proof.
  intros [Hd Hl] Hn Hsrc. destruct (inode_locate_run s n Hl Hn) as (pos & Hloc & Hoff & Ho & Hfit & Hk & Hlo & Hhi).
  pose proof Hl as [L1 L2 L3 L4 L5 L6 L7 L8]. unfold DISK_SECTORS, table_lba in *.
  destruct (read_modify_write s (sec_lba pos) (pos_sects pos) (off_size pos) src)
    as (d & Hrun & Hd2 & Hout & Hin); [done|unfold DISK_SECTORS; lia..|].
  exists d. split; [|split; [by split|split]].
  - rewrite (kbind_ok _ _ _ _ _ Hloc). rewrite (kbind_ok _ _ s tt s); [done|].
    unfold assert_in_part. rewrite (kbind_ok _ _ s (f_part s) s) by done. unfold ASSERT.
    rewrite (proj2 (Z.leb_le _ _)); [done|]. rewrite u32_small by lia. lia.
  - intros m Hm. specialize (Hin (table_lba s) 608%nat ltac:(unfold table_lba; lia) ltac:(unfold table_lba; lia)).
    unfold table_lba in Hin. rewrite Hoff in Hin. unfold inode_slot, inode_table, table_lba. simpl f_part. simpl f_dev.
    assert (Hlen : forall d', disk_ready d' ->
      Z.of_nat (length (sectors_from (sector d') (inode_table_lba (sb (f_part s))) 608)) = 311296).
    { intros d' Hd'. rewrite sectors_from_length, Nat2Z.inj_mul; [done|]. intros. by apply sector_len. }
    assert (Hsl : forall d', disk_ready d' -> slice (sectors_from (sector d') (inode_table_lba (sb (f_part s))) 608) (76 * m) 76
      = Ok (take 76 (drop (Z.to_nat (76 * m)) (sectors_from (sector d') (inode_table_lba (sb (f_part s))) 608)))).
    { intros d' Hd'. rewrite slice_Ok; [done|lia|lia|]. rewrite Hlen by done. lia. }
    pose proof (Hsl d Hd2) as E. case_decide as Hmn.
    + subst m. pose proof (slice_splice _ _ _ _ Hin) as E2. rewrite Hsrc in E2. change (Z.of_nat 76) with 76 in E2.
      rewrite E2 in E. by injection E.
    + rewrite (slice_splice_disjoint _ _ _ _ _ _ Hin) in E by (rewrite Hsrc; lia).
      rewrite Hsl in E by done. by injection E.
  - intros x Hx. apply Hout. unfold table_lba in Hx. lia.
Qed.

(** C12: [inode_sync] writes an inode and nothing else.  Whatever the disk held, it returns,
    the inode's 76 bytes in the inode table (which may span two sectors) become its number,
    size and block table with a clear open count, write lock and list node; every other
    inode of the table and every other sector keep their bytes.  The inode number goes
    through a [uint8_t]: inode 256 is written to the place of inode 0. *)
Theorem inode_sync_spec s i :
  fs_ok s -> length (i_sectors i) = 13%nat ->
  exists d, inode_sync i s = Ok (tt, set_f_dev d s) /\ fs_ok (set_f_dev d s) /\
    (forall n, 0 <= n < 4096 ->
       inode_slot (set_f_dev d s) n = if decide (n = i_no i mod 256) then pure_bytes i else inode_slot s n) /\
    (forall x, ~ (table_lba s <= x < table_lba s + 608) -> sector d x = sector (f_dev s) x).
Proof.
  intros Hok Hi. pose proof (u8_range (i_no i)).
  apply (slot_write s (u8 (i_no i)) (pure_bytes i) Hok); [lia|by apply pure_bytes_length].
Qed.

(** [inode_delete] clears the 76 bytes of the inode and nothing else. *)
Theorem inode_delete_spec s n :
  fs_ok s -> 0 <= n < 4096 ->
  exists d, inode_delete n s = Ok (tt, set_f_dev d s) /\ fs_ok (set_f_dev d s) /\
    (forall m, 0 <= m < 4096 ->
       inode_slot (set_f_dev d s) m = if decide (m = n) then replicate 76 0 else inode_slot s m) /\
    (forall x, ~ (table_lba s <= x < table_lba s + 608) -> sector d x = sector (f_dev s) x).
Proof.
  intros Hok Hn. destruct (slot_write s n (replicate 76 0) Hok Hn eq_refl) as (d & Hrun & Hrest).
  exists d. split; [|done]. unfold inode_delete.
  rewrite (kbind_ok _ _ s tt s) by (unfold ASSERT; by rewrite (proj2 (Z.ltb_lt _ _)) by lia).
  apply kbind_inv in Hrun as (pos & s1 & H1 & Hrun). apply kbind_inv in Hrun as (u & s2 & H2 & Hrun).
  apply kbind_inv in Hrun as (buf & s3 & H3 & Hrun). apply kbind_inv in Hrun as (buf' & s4 & H4 & H5).
  rewrite (kbind_ok _ _ _ _ _ H1), (kbind_ok _ _ _ _ _ H2), (kbind_ok _ _ _ _ _ H3).
  rewrite fill_splice by done. by rewrite (kbind_ok _ _ _ _ _ H4).
Qed.

(** ** Open inodes *)

(** The list of open inodes: objects of the kernel heap, one per inode number. *)
Record opens_ok s : Prop := {
  op_nodup : base.NoDup (f_open s);
  op_object : forall p, p ∈ f_open s -> exists i, f_inodes s !! p = Some i /\ p <> 0 /\
    live (f_heap s) !! p = Some false /\ 0 < i_open_cnts i < 2 ^ 32;
  op_unique : forall p q i j, p ∈ f_open s -> q ∈ f_open s ->
    f_inodes s !! p = Some i -> f_inodes s !! q = Some j -> i_no i = i_no j -> p = q
}.

Lemma get_inode_run s p i : f_inodes s !! p = Some i -> get_inode p s = Ok (i, s).
Proof. unfold get_inode. by intros ->. Qed.

Lemma put_inode_run s p i : p <> 0 -> put_inode p i s = Ok (tt, set_f_inodes (<[p := i]> (f_inodes s)) s).
Proof. intros Hp. unfold put_inode, buffer. by rewrite (proj2 (Z.eqb_neq _ _)). Qed.

Lemma upd_inode_run s p i f :
  p <> 0 -> f_inodes s !! p = Some i -> upd_inode p f s = Ok (tt, set_f_inodes (<[p := f i]> (f_inodes s)) s).
Proof.
  intros Hp Hi. unfold upd_inode. rewrite (kbind_ok _ _ _ _ _ (get_inode_run s p i Hi)). by apply put_inode_run.
Qed.

Lemma find_open_run s l n :
  (forall p, p ∈ l -> exists i, f_inodes s !! p = Some i) ->
  exists r, find_open l n s = Ok (r, s) /\
    match r with
    | Some p => p ∈ l /\ exists i, f_inodes s !! p = Some i /\ i_no i = n
    | None => forall p i, p ∈ l -> f_inodes s !! p = Some i -> i_no i <> n
    end.
Proof.
  induction l as [|p l IH]; intros Hl.
  - exists None. split; [done|]. intros p i Hp. by apply elem_of_nil in Hp.
  - destruct (Hl p) as [i Hi]; [by apply elem_of_cons; left|]. simpl.
    rewrite (kbind_ok _ _ _ _ _ (get_inode_run s p i Hi)). destruct (Z.eqb_spec (i_no i) n) as [E|E].
    + exists (Some p). split; [done|]. split; [by apply elem_of_cons; left|]. eauto.
    + destruct IH as (r & Hr & Hrest); [intros q Hq; apply Hl; by apply elem_of_cons; right|].
      exists r. split; [done|]. destruct r as [q|].
      * destruct Hrest as [Hq Hq2]. split; [by apply elem_of_cons; right|done].
      * intros q j Hq Hj. apply elem_of_cons in Hq as [->|Hq]; [|by eauto]. rewrite Hi in Hj. by injection Hj as <-.
Qed.

Lemma malloc_run s n size :
  room (S n) (f_heap s) -> 0 < size ->
  exists p h, malloc size s = Ok (p, set_f_heap h s) /\ p <> 0 /\ live (f_heap s) !! p = None /\
    live h = <[p := heap_user (f_heap s)]> (live (f_heap s)) /\ room n h /\ heap_user h = heap_user (f_heap s).
Proof.
  intros Hr Hs. destruct (sys_malloc_spec _ _ _ Hr Hs) as (p & h & Hm & Hrest).
  exists p, h. split; [|done]. unfold malloc. by rewrite Hm.
Qed.

Lemma kernel_malloc_run s n size :
  room (S n) (f_heap s) -> 0 < size ->
  exists p h, kernel_malloc size s = Ok (p, set_f_heap h s) /\ p <> 0 /\ live (f_heap s) !! p = None /\
    live h = <[p := false]> (live (f_heap s)) /\ room n h /\ heap_user h = heap_user (f_heap s).
Proof.
  intros Hr Hs. set (s1 := set_f_heap (set_heap_user false (f_heap s)) s).
  destruct (malloc_run s1 n size) as (p & h & Hm & Hp & Hn & Hl & Hr2 & Hu); [by apply room_set|done|].
  unfold s1 in Hn, Hl; simpl in Hn, Hl. rewrite live_set in Hn, Hl. rewrite heap_user_set in Hl.
  exists p, (set_heap_user (heap_user (f_heap s)) h). split; [|split; [done|split; [done|]]].
  - unfold kernel_malloc. rewrite (kbind_ok _ _ s (heap_user (f_heap s)) s) by done.
    rewrite (kbind_ok _ _ s tt s1) by done. by rewrite (kbind_ok _ _ _ _ _ Hm).
  - rewrite live_set, heap_user_set. split; [done|]. split; [by apply room_set|done].
Qed.

Lemma free_run s n p :
  room n (f_heap s) -> p <> 0 -> live (f_heap s) !! p = Some (heap_user (f_heap s)) ->
  exists h, free p s = Ok (tt, set_f_heap h s) /\ live h = delete p (live (f_heap s)) /\ room n h /\
    heap_user h = heap_user (f_heap s).
Proof.
  intros Hr Hp Hl. destruct (sys_free_spec _ _ _ Hr Hp Hl) as (h & Hf & Hrest).
  exists h. split; [|done]. unfold free. by rewrite Hf.
Qed.

Lemma intr_off_fs s : intr_off s = set_f_eflags (f_eflags (intr_off s)) s.
Proof. unfold intr_off. destruct (Z.testbit _ _), s; done. Qed.

(** Closing an inode others still have open, and closing it for the last time. *)
Lemma inode_close_run s p i :
  p <> 0 -> f_inodes s !! p = Some i -> 2 <= i_open_cnts i < 2 ^ 32 ->
  inode_close p s = Ok (tt, set_f_inodes (<[p := set_i_open_cnts (i_open_cnts i - 1) i]> (f_inodes s)) s).
Proof.
  intros Hp Hi Hc. unfold inode_close. rewrite (kbind_ok _ _ _ _ _ (intr_disable_run s)), intr_off_fs.
  set (s0 := set_f_eflags _ s). rewrite (kbind_ok _ _ _ _ _ (get_inode_run s0 p i Hi)).
  rewrite (kbind_ok _ _ _ _ _ (put_inode_run s0 p _ Hp)). rewrite u32_small by lia.
  rewrite (proj2 (Z.eqb_neq _ _)) by lia. set (s1 := set_f_inodes _ s0).
  rewrite (kbind_ok _ _ s1 tt s1) by done. destruct (intr_restore s s1) as [st Hst].
  { unfold s1, s0. by rewrite (intr_off_fs s). }
  rewrite (kbind_ok _ _ _ _ _ Hst). unfold kret, s1, s0. by destruct s.
Qed.

Definition without (p : Z) (l : list Z) : list Z := List.filter (fun q => negb (q =? p)) l.
#[local] Arguments without : simpl never.

Lemma inode_close_last s p i n :
  p <> 0 -> f_inodes s !! p = Some i -> i_open_cnts i = 1 -> p ∈ f_open s ->
  live (f_heap s) !! p = Some false -> room n (f_heap s) ->
  exists h, inode_close p s = Ok (tt, set_f_heap h (set_f_open (without p (f_open s))
      (set_f_inodes (delete p (f_inodes s)) s))) /\
    live h = delete p (live (f_heap s)) /\ room n h /\ heap_user h = heap_user (f_heap s).
Proof.
  intros Hp Hi Hc Hin Hl Hr. unfold inode_close. rewrite (kbind_ok _ _ _ _ _ (intr_disable_run s)), intr_off_fs.
  set (s0 := set_f_eflags _ s). rewrite (kbind_ok _ _ _ _ _ (get_inode_run s0 p i Hi)).
  rewrite (kbind_ok _ _ _ _ _ (put_inode_run s0 p _ Hp)). rewrite Hc. change (u32 (1 - 1)) with 0. rewrite Z.eqb_refl.
  set (s1 := set_f_inodes _ s0). set (s2 := set_f_open (without p (f_open s)) s1).
  set (s3 := set_f_heap (set_heap_user false (f_heap s)) s2).
  destruct (free_run s3 n p) as (h & Hf & Hlh & Hrh & Huh).
  { by apply room_set. } { done. } { unfold s3; simpl. by rewrite live_set, heap_user_set. }
  set (s4 := set_f_heap h s3). set (s5 := set_f_inodes (delete p (f_inodes s4)) s4).
  set (s6 := set_f_heap (set_heap_user (heap_user (f_heap s)) h) s5).
  rewrite (kbind_ok _ _ s1 tt s6).
  2: { rewrite (kbind_ok _ _ s1 tt s2) by (unfold open_remove; by rewrite decide_True).
    rewrite (kbind_ok _ _ s2 (heap_user (f_heap s)) s2) by done. rewrite (kbind_ok _ _ s2 tt s3) by done.
    rewrite (kbind_ok _ _ _ _ _ Hf). by rewrite (kbind_ok _ _ s4 tt s5). }
  destruct (intr_restore s s6) as [st Hst].
  { unfold s6, s5, s4, s3, s2, s1, s0. by rewrite (intr_off_fs s). }
  rewrite (kbind_ok _ _ _ _ _ Hst). exists (set_heap_user (heap_user (f_heap s)) h). split; [|split_and!].
  - unfold kret, s6, s5, s4, s3, s2, s1, s0. do 2 f_equal. destruct s; simpl. by rewrite delete_insert_eq.
  - rewrite live_set, Hlh. unfold s3; simpl. by rewrite live_set.
  - by apply room_set.
  - apply heap_user_set.
Qed.

(** Opening an inode that is open, and one that is not. *)
Lemma inode_open_cached s p i n :
  opens_ok s -> p ∈ f_open s -> f_inodes s !! p = Some i -> i_no i = n -> i_open_cnts i + 1 < 2 ^ 32 ->
  inode_open n s = Ok (p, set_f_inodes (<[p := set_i_open_cnts (i_open_cnts i + 1) i]> (f_inodes s)) s).
Proof.
  intros Hok Hp Hi Hn Hc. unfold inode_open. rewrite (kbind_ok _ _ s (f_open s) s) by done.
  destruct (find_open_run s (f_open s) n) as (r & Hr & Hspec).
  { intros q Hq. destruct (op_object _ Hok q Hq) as (j & Hj & _). eauto. }
  rewrite (kbind_ok _ _ _ _ _ Hr). destruct r as [q|].
  - destruct Hspec as (Hq & j & Hj & Hjn).
    assert (q = p) as -> by (apply (op_unique _ Hok q p j i); congruence). rewrite Hi in Hj. injection Hj as <-.
    destruct (op_object _ Hok p Hp) as (j & Hj & Hp0 & _ & Hcnt). rewrite Hi in Hj. injection Hj as <-.
    rewrite (kbind_ok _ _ _ _ _ (upd_inode_run s p i _ Hp0 Hi)). rewrite u32_small by lia. done.
  - exfalso. by apply (Hspec p i).
Qed.

Definition not_open s (n : Z) : Prop := forall p i, p ∈ f_open s -> f_inodes s !! p = Some i -> i_no i <> n.

Lemma inode_open_fresh s n r :
  fs_ok s -> opens_ok s -> room (S (S r)) (f_heap s) -> 0 <= n < 4096 -> not_open s n ->
  exists p d h, inode_open n s = Ok (p, set_f_heap h (set_f_dev d (set_f_open (p :: f_open s)
      (set_f_inodes (<[p := set_i_open_cnts 1 (inode_of_bytes (inode_slot s n))]> (f_inodes s)) s)))) /\
    p <> 0 /\ live (f_heap s) !! p = None /\ live h = <[p := false]> (live (f_heap s)) /\ room r h /\
    heap_user h = heap_user (f_heap s) /\ disk_ready d /\ (forall x, sector d x = sector (f_dev s) x).
Proof.
  intros [Hd Hly] Hok Hr Hn Hno. destruct (inode_locate_run s n Hly Hn) as (pos & Hloc & Hoff & Ho & Hfit & Hk & Hlo & Hhi).
  pose proof Hly as [L1 L2 L3 L4 L5 L6 L7 L8]. unfold DISK_SECTORS, table_lba in *.
  destruct (find_open_run s (f_open s) n) as (res & Hres & Hspec).
  { intros q Hq. destruct (op_object _ Hok q Hq) as (j & Hj & _). eauto. }
  destruct res as [q|].
  { destruct Hspec as (Hq & j & Hj & Hjn). by destruct (Hno q j). }
  destruct (kernel_malloc_run s _ 76 Hr ltac:(lia)) as (p & h1 & Hm1 & Hp & Hn1 & Hl1 & Hr1 & Hu1).
  set (s1 := set_f_heap h1 s).
  destruct (malloc_run s1 _ (512 * pos_sects pos) Hr1 ltac:(lia)) as (b & h2 & Hm2 & Hb & Hn2 & Hl2 & Hr2 & Hu2).
  set (s2 := set_f_heap h2 s1). unfold s1 in Hl2, Hn2, Hu2; simpl in Hl2, Hn2, Hu2.
  destruct (ide_read_run s2 (sec_lba pos) (pos_sects pos)) as (d & Hrd & Hd2 & Hsec);
    [done|unfold DISK_SECTORS; lia..|]. set (s3 := set_f_dev d s2) in *.
  assert (Hbp : b <> p) by (intros ->; rewrite Hl1, lookup_insert_eq in Hn2; done).
  assert (Hpo : p ∉ f_open s).
  { intros Hin. destruct (op_object _ Hok p Hin) as (j & _ & _ & Hj & _). congruence. }
  set (i := inode_of_bytes (inode_slot s n)). set (s4 := set_f_inodes (<[p := i]> (f_inodes s)) s3).
  set (s5 := set_f_open (p :: f_open s) s4).
  set (s6 := set_f_inodes (<[p := set_i_open_cnts 1 i]> (f_inodes s5)) s5).
  destruct (free_run s6 r b) as (h & Hf & Hlh & Hrh & Huh).
  { done. } { done. } { unfold s6, s5, s4, s3, s2; simpl. by rewrite Hl2, lookup_insert_eq, Hu2. }
  exists p, d, h. split; [|split_and!; try done].
  - unfold inode_open. rewrite (kbind_ok _ _ s (f_open s) s) by done. rewrite (kbind_ok _ _ _ _ _ Hres).
    rewrite (kbind_ok _ _ _ _ _ Hloc). rewrite (kbind_ok _ _ _ _ _ Hm1). fold s1. rewrite (kbind_ok _ _ _ _ _ Hm2).
    rewrite (kbind_ok _ _ _ _ _ Hrd). fold s2 s3.
    rewrite (kbind_ok _ _ s3 tt s3) by (unfold buffer; by rewrite (proj2 (Z.eqb_neq _ _))).
    rewrite (kbind_ok _ _ s3 (inode_slot s n) s3).
    2: { unfold klift. rewrite slice_Ok; [|lia|unfold sizeof_inode; lia|].
      2: { rewrite sectors_from_length by (intros; by apply sector_len). unfold sizeof_inode. lia. }
      do 2 f_equal. apply (slot_in_sectors s n pos); (done || lia). }
    fold i. rewrite (kbind_ok _ _ _ _ _ (put_inode_run s3 p i Hp)). fold s4.
    rewrite (kbind_ok _ _ s4 tt s5) by (unfold open_push; by rewrite decide_False).
    rewrite (kbind_ok _ _ s5 tt s6) by (apply upd_inode_run; [done|apply lookup_insert_eq]).
    rewrite (kbind_ok _ _ _ _ _ Hf). unfold kret, s6, s5, s4, s3, s2, s1. do 2 f_equal.
    destruct s; simpl. by rewrite insert_insert_eq.
  - rewrite Hlh. unfold s6, s5, s4, s3, s2; simpl. rewrite Hl2, delete_insert_id by done. done.
  - rewrite Huh. unfold s6, s5, s4, s3, s2; simpl. congruence.
Qed.

Lemma opens_ok_push s p i d h :
  opens_ok s -> p <> 0 -> live (f_heap s) !! p = None -> live h = <[p := false]> (live (f_heap s)) ->
  not_open s (i_no i) -> 0 < i_open_cnts i < 2 ^ 32 ->
  opens_ok (set_f_heap h (set_f_dev d (set_f_open (p :: f_open s) (set_f_inodes (<[p := i]> (f_inodes s)) s)))).
Proof.
  intros [Hnd Hob Hun] Hp Hfresh Hl Hno Hc.
  assert (Hpo : p ∉ f_open s) by (intros Hin; destruct (Hob p Hin) as (j & _ & _ & Hj & _); congruence).
  split; simpl.
  - by apply list.NoDup_cons.
  - intros q Hq. apply elem_of_cons in Hq as [->|Hq].
    + exists i. by rewrite lookup_insert_eq, Hl, lookup_insert_eq.
    + assert (q <> p) by congruence. rewrite lookup_insert_ne, Hl, lookup_insert_ne by done. by apply Hob.
  - intros q1 q2 i1 i2 H1 H2. apply elem_of_cons in H1 as [->|H1], H2 as [->|H2]; [done|..].
    + assert (q2 <> p) by congruence. rewrite lookup_insert_eq, lookup_insert_ne by done.
      intros [= <-] Hq2 E. by destruct (Hno q2 i2).
    + assert (q1 <> p) by congruence. rewrite lookup_insert_eq, lookup_insert_ne by done.
      intros Hq1 [= <-] E. by destruct (Hno q1 i1).
    + assert (q1 <> p) by congruence. assert (q2 <> p) by congruence. rewrite !lookup_insert_ne by done. eauto.
Qed.

Lemma opens_ok_live s p : opens_ok s -> live (f_heap s) !! p = None -> p ∉ f_open s.
Proof. intros Hok Hn Hin. destruct (op_object _ Hok p Hin) as (j & _ & _ & Hj & _). congruence. Qed.

Lemma without_head p l : p ∉ l -> without p (p :: l) = l.
Proof.
  intros Hp. unfold without. simpl. rewrite Z.eqb_refl. simpl. induction l as [|q l IH]; [done|].
  rewrite not_elem_of_cons in Hp. destruct Hp as [Hq Hl]. simpl. rewrite (proj2 (Z.eqb_neq _ _)) by congruence.
  simpl. by rewrite IH.
Qed.

(** [inode_open] shares.  An inode that is open is found in the list, its count is one
    more, and nothing is read or allocated.  Any other inode is read from its slot of the
    inode table (one or two sectors) into a new object of the kernel's heap, which becomes
    the first of the open inodes with count 1; the read buffer is freed again and the disk
    is unchanged.  The list stays one object per inode number. *)
Theorem inode_open_spec s n r :
  fs_ok s -> opens_ok s -> room (S (S r)) (f_heap s) -> 0 <= n < 4096 ->
  (forall p i, p ∈ f_open s -> f_inodes s !! p = Some i -> i_no i = n -> i_open_cnts i + 1 < 2 ^ 32 ->
     inode_open n s = Ok (p, set_f_inodes (<[p := set_i_open_cnts (i_open_cnts i + 1) i]> (f_inodes s)) s)) /\
  (not_open s n -> i_no (inode_of_bytes (inode_slot s n)) = n ->
     exists p s', inode_open n s = Ok (p, s') /\ fs_ok s' /\ opens_ok s' /\ p ∉ f_open s /\
       f_open s' = p :: f_open s /\
       f_inodes s' = <[p := set_i_open_cnts 1 (inode_of_bytes (inode_slot s n))]> (f_inodes s) /\
       live (f_heap s') = <[p := false]> (live (f_heap s)) /\ heap_user (f_heap s') = heap_user (f_heap s) /\
       (forall x, sector (f_dev s') x = sector (f_dev s) x)).
Proof.
  intros Hfs Hok Hr Hn. split; [intros; by apply inode_open_cached|]. intros Hno Hnum.
  destruct (inode_open_fresh s n r Hfs Hok Hr Hn Hno) as (p & d & h & Hrun & Hp & Hfree & Hl & _ & Hu & Hd & Hs).
  eexists p, _. split; [exact Hrun|]. destruct Hfs. split; [by split|]. split.
  { apply opens_ok_push; [done..| |done]. rewrite <- Hnum in Hno. exact Hno. }
  split; [by apply opens_ok_live|]. done.
Qed.

(** An inode written by [inode_sync] and opened again (after it was closed) is the inode
    that was written: number, size and block table, with open count 1 and no write lock.
    This holds for the inode numbers below 256 that [inode_sync] does not truncate. *)
Theorem inode_sync_open_roundtrip s i r :
  fs_ok s -> opens_ok s -> room (S (S r)) (f_heap s) -> inode_fits i -> i_no i < 256 -> not_open s (i_no i) ->
  exists s1 p s2, inode_sync i s = Ok (tt, s1) /\ inode_open (i_no i) s1 = Ok (p, s2) /\
    f_inodes s2 !! p = Some (Inode (i_no i) (i_size i) 1 0 (i_sectors i)) /\ fs_ok s2 /\ opens_ok s2.
Proof.
  intros Hfs Hok Hr Hi Hlt Hno. destruct (if_no i Hi) as [H0 _]. pose proof (if_sectors i Hi) as Hl.
  destruct (slot_write s (u8 (i_no i)) (pure_bytes i) Hfs) as (d & Hrun & Hfs1 & Hslot & _);
    [pose proof (u8_range (i_no i)); lia|by apply pure_bytes_length|].
  set (s1 := set_f_dev d s) in *. assert (Hok1 : opens_ok s1) by (by destruct Hok).
  assert (E : inode_of_bytes (inode_slot s1 (i_no i)) = Inode (i_no i) (i_size i) 0 0 (i_sectors i)).
  { rewrite Hslot by lia. rewrite u8_small, decide_True by (done || lia). by apply inode_bytes_roundtrip. }
  destruct (inode_open_fresh s1 (i_no i) r) as (p & d2 & h & Hopen & Hp & Hfree & Hlv & _ & _ & Hd2 & _);
    [done|done|done|lia|done|]. rewrite E in Hopen. unfold set_i_open_cnts in Hopen. simpl in Hopen.
  eexists s1, p, _. split; [exact Hrun|]. split; [exact Hopen|]. simpl. rewrite lookup_insert_eq.
  split; [done|]. destruct Hfs1. split; [by split|]. by apply (opens_ok_push s1).
Qed.

(** Opening and closing an inode again is neutral.  Whether or not it was open before, the
    table of open inodes and the heap are what they were: no object leaks, no inode that
    somebody uses is freed. *)
Theorem inode_open_close s n r :
  fs_ok s -> opens_ok s -> room (S (S r)) (f_heap s) -> 0 <= n < 4096 ->
  (forall p i, p ∈ f_open s -> f_inodes s !! p = Some i -> i_open_cnts i + 1 < 2 ^ 32) ->
  (forall p, f_inodes s !! p <> None -> live (f_heap s) !! p <> None) ->
  exists p s1 s2, inode_open n s = Ok (p, s1) /\ inode_close p s1 = Ok (tt, s2) /\
    f_open s2 = f_open s /\ f_inodes s2 = f_inodes s /\ live (f_heap s2) = live (f_heap s) /\
    heap_user (f_heap s2) = heap_user (f_heap s) /\ (forall x, sector (f_dev s2) x = sector (f_dev s) x).
Proof.
  intros Hfs Hok Hr Hn Hcnt Hlive. destruct (find_open_run s (f_open s) n) as (res & _ & Hspec).
  { intros q Hq. destruct (op_object _ Hok q Hq) as (j & Hj & _). eauto. }
  destruct res as [p|].
  - destruct Hspec as (Hp & i & Hi & Hin). destruct (op_object _ Hok p Hp) as (j & Hj & Hp0 & _ & Hc).
    rewrite Hi in Hj. injection Hj as <-. pose proof (Hcnt p i Hp Hi).
    eexists p, _, _. split; [by apply inode_open_cached|]. split.
    { apply (inode_close_run _ p (set_i_open_cnts (i_open_cnts i + 1) i)); [done|apply lookup_insert_eq|simpl; lia]. }
    simpl. rewrite insert_insert_eq. split_and!; try done. rewrite insert_id; [done|]. rewrite Hi. f_equal.
    destruct i; unfold set_i_open_cnts; simpl. f_equal. lia.
  - destruct (inode_open_fresh s n r Hfs Hok Hr Hn Hspec) as (p & d & h & Hrun & Hp & Hfree & Hl & Hr2 & Hu & Hd & Hs).
    destruct (inode_close_last (set_f_heap h (set_f_dev d (set_f_open (p :: f_open s) (set_f_inodes
      (<[p := set_i_open_cnts 1 (inode_of_bytes (inode_slot s n))]> (f_inodes s)) s)))) p
      (set_i_open_cnts 1 (inode_of_bytes (inode_slot s n))) r) as (h2 & Hcl & Hl2 & _ & Hu2).
    { done. } { apply lookup_insert_eq. } { done. } { by apply elem_of_cons; left. }
    { simpl. by rewrite Hl, lookup_insert_eq. } { done. }
    eexists p, _, _. split; [exact Hrun|]. split; [exact Hcl|]. simpl.
    rewrite without_head by (by apply opens_ok_live). split_and!; try done.
    + rewrite delete_insert_id; [done|]. destruct (f_inodes s !! p) eqn:E; [|done]. by destruct (Hlive p); [congruence|].
    + rewrite Hl2. simpl. by rewrite Hl, delete_insert_id.
    + rewrite Hu2. done.
Qed.

(** ** Blocks *)

Definition block_bits s : bitmap := block_bitmap (f_part s).

(** The bitmap covers whole sectors. *)
Definition whole_sectors (b : bitmap) (sects : Z) : Prop :=
  bitmap_ok b /\ btmp_bytes_len b = 512 * sects /\ Z.of_nat (length (bits b)) = btmp_bytes_len b.

Lemma block_alloc_run s :
  bitmap_ok (block_bits s) -> (exists i, 0 <= i < bit_len (block_bits s) /\ bit_at (block_bits s) i = false) ->
  0 <= data_start_lba (sb (f_part s)) -> data_start_lba (sb (f_part s)) + bit_len (block_bits s) < 2 ^ 31 ->
  exists r b, block_bitmap_alloc s = Ok (data_start_lba (sb (f_part s)) + r, set_f_part (set_block_bitmap b (f_part s)) s) /\
    0 <= r < bit_len (block_bits s) /\ bit_at (block_bits s) r = false /\
    (forall j, 0 <= j < r -> bit_at (block_bits s) j = true) /\
    bitmap_ok b /\ btmp_bytes_len b = btmp_bytes_len (block_bits s) /\ length (bits b) = length (bits (block_bits s)) /\
    (forall j, 0 <= j -> bit_at b j = if decide (j = r) then true else bit_at (block_bits s) j).
Proof.
  intros Hok Hex Hd Hmax. destruct (bitmap_alloc_one _ Hok Hex) as (r & b & Hscan & Hset & Hr & Hrest).
  exists r, b. split; [|done]. unfold block_bitmap_alloc. rewrite (kbind_ok _ _ s (block_bits s) s) by done.
  rewrite (kbind_ok _ _ s r s) by (unfold klift; by rewrite Hscan). rewrite (proj2 (Z.eqb_neq _ _)) by lia.
  rewrite (kbind_ok _ _ s tt (set_f_part (set_block_bitmap b (f_part s)) s)).
  2: { unfold set_bit. rewrite (kbind_ok _ _ s (block_bits s) s) by done.
    by rewrite (kbind_ok _ _ s b s) by (unfold klift; by rewrite Hset). }
  unfold kbind, get_sb, kreads, kret. simpl. by rewrite i32_small by lia.
Qed.

Lemma bitmap_sync_block s i :
  fs_ok s -> whole_sectors (block_bits s) (block_bitmap_sects (sb (f_part s))) -> 0 <= i < bit_len (block_bits s) ->
  exists d, bitmap_sync i BLOCK_BITMAP s = Ok (tt, set_f_dev d s) /\ disk_ready d /\
    forall x, sector d x = if decide (x = block_bitmap_lba (sb (f_part s)) + i / 4096)
                           then take 512 (drop (Z.to_nat (512 * (i / 4096))) (bits (block_bits s)))
                           else sector (f_dev s) x.
Proof.
  intros [Hd [L1 L2 L3 L4 L5 L6 L7 L8]] (Hbok & Hlen & Hbits) Hi. unfold bit_len in Hi. pose proof (bm_small _ Hbok).
  unfold DISK_SECTORS in *.
  assert (Hq : 0 <= i / 4096 < block_bitmap_sects (sb (f_part s))).
  { split; [apply Z.div_pos; lia|apply Z.div_lt_upper_bound; lia]. }
  set (part := take 512 (drop (Z.to_nat (512 * (i / 4096))) (bits (block_bits s)))).
  assert (Hpl : length part = 512%nat) by (unfold part; rewrite length_take_le; [done|]; rewrite length_drop; lia).
  destruct (ide_write_run s (block_bitmap_lba (sb (f_part s)) + i / 4096) part 1) as (d & Hw & Hd2 & Hs);
    [done|unfold DISK_SECTORS; lia..|].
  exists d. split; [|split; [done|]].
  - unfold bitmap_sync. rewrite (kbind_ok _ _ s (sb (f_part s)) s) by done.
    rewrite (kbind_ok _ _ s (block_bits s) s) by done. rewrite !u32_small by lia.
    rewrite (kbind_ok _ _ s part s); [done|]. unfold klift. rewrite slice_Ok by lia.
    unfold part. by rewrite (Z.mul_comm 512).
  - intros x. rewrite Hs. unfold sector_after. fold part. repeat case_decide; try lia; [|done].
    subst x. rewrite Z.sub_diag. change (Z.to_nat (512 * 0)) with 0%nat. rewrite drop_0. by apply take_ge; rewrite Hpl.
Qed.

(** Allocating a block.  [block_bitmap_alloc] takes the first free block of the partition
    and returns its sector; [bitmap_sync] then makes the one sector of the disk's block
    bitmap that holds the block's bit equal to the bitmap in memory, and touches no other
    sector. *)
Theorem block_alloc_sync_spec s :
  fs_ok s -> whole_sectors (block_bits s) (block_bitmap_sects (sb (f_part s))) ->
  data_start_lba (sb (f_part s)) + bit_len (block_bits s) < 2 ^ 31 ->
  (exists i, 0 <= i < bit_len (block_bits s) /\ bit_at (block_bits s) i = false) ->
  exists r s1 s2, block_bitmap_alloc s = Ok (data_start_lba (sb (f_part s)) + r, s1) /\
    bitmap_sync r BLOCK_BITMAP s1 = Ok (tt, s2) /\
    0 <= r < bit_len (block_bits s) /\ bit_at (block_bits s) r = false /\
    (forall j, 0 <= j < r -> bit_at (block_bits s) j = true) /\
    (forall j, 0 <= j -> bit_at (block_bits s2) j = if decide (j = r) then true else bit_at (block_bits s) j) /\
    (forall x, sector (f_dev s2) x = if decide (x = block_bitmap_lba (sb (f_part s)) + r / 4096)
       then take 512 (drop (Z.to_nat (512 * (r / 4096))) (bits (block_bits s2))) else sector (f_dev s) x).
Proof.
  intros Hfs (Hbok & Hlen & Hbits) Hmax Hex. pose proof Hfs as [Hd Hly]. pose proof Hly as [L1 L2 L3 L4 L5 L6 L7 L8].
  destruct (block_alloc_run s Hbok Hex ltac:(lia) Hmax) as (r & b & Hrun & Hr & Hfree & Hfirst & Hb & Hbl & Hbs & Hbit).
  set (s1 := set_f_part (set_block_bitmap b (f_part s)) s).
  destruct (bitmap_sync_block s1 r) as (d & Hsync & Hd2 & Hs).
  { split; [done|]. by destruct Hly. }
  { unfold whole_sectors, block_bits, s1 in *; simpl. split; [done|]. lia. }
  { unfold block_bits, s1, bit_len in *; simpl. lia. }
  eexists r, s1, _. split; [exact Hrun|]. split; [exact Hsync|]. done.
Qed.

End inode_properties.

(** ** Sample states *)

(** A partition at sector 2048 with a block bitmap of one sector. *)
Definition sample_sb : super_block := SuperBlock 0x19590318 4000 4096 2048 2050 1 2051 1 2052 608 2660 0 24.
Definition sample_part : partition :=
  Partition 2048 4000 sample_sb (Bitmap 512 (1 :: replicate 511 0)) (Bitmap 512 (1 :: replicate 511 0)).
Definition sample_fs : fs mem_disk bump_heap :=
  Fs (MemDisk ∅) (BumpHeap 0x1000 ∅ true) sample_part ∅ [] (replicate 32 (File 0 0 0)) ∅
    [0; 1; 2; -1; -1; -1; -1; -1] 0 0x202.
Definition sample_inode : inode := Inode 7 1000 3 1 (2661 :: replicate 12 0).

Lemma sample_fs_ok : fs_ok sample_fs.
Proof. split; [apply map_Forall_empty|]. split; simpl; unfold DISK_SECTORS; lia. Qed.
Lemma sample_opens_ok : opens_ok sample_fs.
Proof. split; simpl; [constructor|..]; intros p; intros; exfalso; by eapply elem_of_nil. Qed.
Lemma sample_room n : room n (f_heap sample_fs).
Proof. split; [done|apply map_Forall_empty]. Qed.

Lemma inode_sync_spec_witness : exists d, inode_sync sample_inode sample_fs = Ok (tt, set_f_dev d sample_fs) /\
  inode_slot (set_f_dev d sample_fs) 7 = pure_bytes sample_inode.
Proof.
  destruct (inode_sync_spec sample_fs sample_inode sample_fs_ok eq_refl) as (d & Hrun & _ & Hs & _).
  exists d. split; [exact Hrun|]. rewrite Hs by lia. by rewrite decide_True.
Defined.

Lemma inode_delete_spec_witness : exists d, inode_delete 6 sample_fs = Ok (tt, set_f_dev d sample_fs) /\
  inode_slot (set_f_dev d sample_fs) 6 = replicate 76 0.
Proof.
  destruct (inode_delete_spec sample_fs 6 sample_fs_ok ltac:(lia)) as (d & Hrun & _ & Hs & _).
  exists d. split; [exact Hrun|]. rewrite Hs by lia. by rewrite decide_True.
Defined.

Lemma inode_open_spec_witness : exists p s', inode_open 0 sample_fs = Ok (p, s') /\ f_open s' = [p].
Proof.
  destruct (inode_open_spec sample_fs 0 0 sample_fs_ok sample_opens_ok (sample_room 2) ltac:(lia)) as [_ H].
  destruct H as (p & s' & Hrun & _ & _ & _ & Ho & _).
  - intros p i Hp. by apply elem_of_nil in Hp.
  - vm_compute. reflexivity.
  - by exists p, s'.
Defined.

Lemma inode_sync_open_roundtrip_witness : exists s1 p s2, inode_sync sample_inode sample_fs = Ok (tt, s1) /\
  inode_open 7 s1 = Ok (p, s2) /\ f_inodes s2 !! p = Some (Inode 7 1000 1 0 (2661 :: replicate 12 0)).
Proof.
  destruct (inode_sync_open_roundtrip sample_fs sample_inode 0) as (s1 & p & s2 & H1 & H2 & H3 & _).
  - apply sample_fs_ok.
  - apply sample_opens_ok.
  - apply sample_room.
  - split; simpl; [lia|lia|done|]. repeat constructor; lia.
  - done.
  - intros p i Hp. by apply elem_of_nil in Hp.
  - exists s1, p, s2. split; [exact H1|]. split; [exact H2|exact H3].
Defined.

Lemma inode_open_close_witness : exists p s1 s2, inode_open 3 sample_fs = Ok (p, s1) /\
  inode_close p s1 = Ok (tt, s2) /\ f_open s2 = [].
Proof.
  destruct (inode_open_close sample_fs 3 0 sample_fs_ok sample_opens_ok (sample_room 2) ltac:(lia))
    as (p & s1 & s2 & H1 & H2 & H3 & _).
  - intros p i Hp. by apply elem_of_nil in Hp.
  - done.
  - by exists p, s1, s2.
Defined.

Lemma block_alloc_sync_spec_witness : exists r s1 s2, block_bitmap_alloc sample_fs = Ok (2660 + r, s1) /\
  bitmap_sync r BLOCK_BITMAP s1 = Ok (tt, s2) /\ 0 <= r.
Proof.
  destruct (block_alloc_sync_spec sample_fs sample_fs_ok) as (r & s1 & s2 & H1 & H2 & H3 & _).
  - split; [|done]. split; simpl; try lia. repeat constructor; lia.
  - vm_compute. done.
  - exists 1. vm_compute. split; [split; congruence|reflexivity].
  - exists r, s1, s2. split; [exact H1|]. split; [exact H2|lia].
Defined.
