(* ===== verification/Dir.v ===== *)
(** * Dir: fs/dir.c

    Directories: files of 24-byte entries, 21 to a sector, found through the 12 direct
    blocks and the 128 of the indirect table.  A [struct dir] is an object named by its
    address, the global [root_dir] among them.  A sector buffer is a list of 512 bytes;
    entry [k] of it is at byte [24 * k], as the pointer arithmetic on [struct dir_entry *]
    has it, while [dir_entry_size] of the super block says how many bytes are copied and
    how many entries a sector has. *)

From S2P Require Import Prelude Bitmap Interrupt Disk Inode Cstring.

Definition FT_UNKNOWN : Z := 0.
Definition FT_REGULAR : Z := 1.
Definition FT_DIRECTORY : Z := 2.

(** The address of the global [root_dir]. *)
Definition root_dir : Z := 0xc0010000.

(** ** Entries in a buffer *)

Definition sizeof_dir_entry : Z := 24.
(** The bytes of an entry: [filename] is an array of 16 characters. *)
Definition entry_bytes (e : dir_entry) : list Z := filename e ++ le_bytes 4 (de_i_no e) ++ le_bytes 4 (f_type e).
Definition entry_of_bytes (b : list Z) : dir_entry :=
  DirEntry (take 16 b) (le_val (take 4 (drop 16 b))) (le_val (take 4 (drop 20 b))).

Definition entry_off (k : Z) : Z := sizeof_dir_entry * k.
Definition entry_i_no (buf : list Z) (k : Z) : outcome Z :=
  let? b := slice buf (entry_off k + 16) 4 in Ok (le_val b).
Definition entry_f_type (buf : list Z) (k : Z) : outcome Z :=
  let? b := slice buf (entry_off k + 20) 4 in Ok (le_val b).
Definition name_cmp (buf : list Z) (k : Z) (name : list Z) : outcome Z := strcmp buf (entry_off k) name 0.

(** ["."] and [".."]. *)
Definition dot : list Z := [46; 0].
Definition dotdot : list Z := [46; 46; 0].

(** The loop of [search_dir_entry] over a sector. *)
Fixpoint find_name (n : nat) (k : Z) (buf name : list Z) : outcome (option Z) :=
  match n with
  | O => Ok None
  | S n =>
      let? c := name_cmp buf k name in
      if c =? 0 then Ok (Some k) else find_name n (k + 1) buf name
  end.

(** The loop of [sync_dir_entry] that looks for a free entry. *)
Fixpoint find_free (n : nat) (k : Z) (buf : list Z) : outcome (option Z) :=
  match n with
  | O => Ok None
  | S n =>
      let? t := entry_f_type buf k in
      if t =? FT_UNKNOWN then Ok (Some k) else find_free n (k + 1) buf
  end.

(** The loop of [delete_dir_entry] over a sector: the number of entries other than "." and
    "..", whether "." is there, and the entry of inode [inode_no]. *)
Fixpoint scan_sector (n : nat) (k : Z) (buf : list Z) (inode_no cnt : Z) (first : bool) (found : option Z) :
    outcome (Z * bool * option Z) :=
  match n with
  | O => Ok (cnt, first, found)
  | S n =>
      let? t := entry_f_type buf k in
      if negb (t =? FT_UNKNOWN) then
        let? c1 := name_cmp buf k dot in
        if c1 =? 0 then scan_sector n (k + 1) buf inode_no cnt true found
        else
          let? c2 := name_cmp buf k dotdot in
          if negb (c2 =? 0) then
            let? i := entry_i_no buf k in
            if i =? inode_no then
              let? _ := oassert (match found with None => true | Some _ => false end) in
              scan_sector n (k + 1) buf inode_no (u8 (cnt + 1)) first (Some k)
            else scan_sector n (k + 1) buf inode_no (u8 (cnt + 1)) first found
          else scan_sector n (k + 1) buf inode_no cnt first found
      else scan_sector n (k + 1) buf inode_no cnt first found
  end.

(** The loop of [delete_dir_entry] that counts the indirect blocks: its index never moves. *)
Fixpoint count_indirect (fuel : nat) (all_blocks : list Z) (idx cnt : Z) : outcome Z :=
  match fuel with
  | O => Err Diverges
  | S fuel =>
      if idx <? 140 then
        let? b := rd all_blocks idx in
        count_indirect fuel all_blocks idx (if negb (b =? 0) then u32 (cnt + 1) else cnt)
      else Ok cnt
  end.

(** The loop of [dir_read] over a sector: the entry at directory offset [dir_pos], or the
    offset reached. *)
Fixpoint read_sector (n : nat) (k : Z) (buf : list Z) (pos dir_pos size : Z) : outcome (option Z * Z) :=
  match n with
  | O => Ok (None, pos)
  | S n =>
      let? t := entry_f_type buf k in
      if negb (t =? FT_UNKNOWN) then
        if pos <? dir_pos then read_sector n (k + 1) buf (u32 (pos + size)) dir_pos size
        else
          let? _ := oassert (pos =? dir_pos) in Ok (Some k, pos)
      else read_sector n (k + 1) buf pos dir_pos size
  end.

(** [memcpy(p_de->filename, filename, strlen(filename))] and the other two fields. *)
Definition create_dir_entry (fname : list Z) (o : Z) (inode_no file_types : Z) (p_de : dir_entry) : outcome dir_entry :=
  let? len := strlen fname (Some o) in
  let? _ := oassert (len <=? MAX_FILE_NAME_LEN) in
  let? n := memcpy (filename p_de) (Some 0) fname (Some o) len in
  Ok (DirEntry n inode_no (u8 file_types)).

(** [memset(&new_dir_entry, 0, sizeof(struct dir_entry))]. *)
Definition zero_entry : dir_entry := DirEntry (replicate 16 0) 0 0.

Section dir.
Context {D H : Type} `{!BlockDev D, !KernelHeap H}.
Notation M := (KM (fs D H)).

(** [SECTOR_SIZE / dir_entry_size]. *)
Definition entries_per_sec (b : super_block) : M Z :=
  if dir_entry_size b =? 0 then kfail OutOfBounds else kret (SECTOR_SIZE / dir_entry_size b).

Definition open_root_dir : M unit :=
  b <- get_sb ;;
  p <- inode_open (root_inode_no b) ;;
  kmod (fun s => set_f_dirs (<[root_dir := Dir p 0 (default (replicate 512 0) (dir_buf <$> f_dirs s !! root_dir))]> (f_dirs s)) s).

(** The block numbers of a directory: [i_sectors[0..11]] and the indirect table. *)
Definition dir_blocks (i : inode) : M (list Z) :=
  i12 <- klift (rd (i_sectors i) 12) ;;
  table <- (if negb (i12 =? 0) then t <- ide_read i12 1 ;; kret (words t 128) else kret (replicate 128 0)) ;;
  kret (take 12 (i_sectors i) ++ table).

(** The loop of [search_dir_entry] over the blocks; the result is the sector read and the
    index of the entry. *)
Fixpoint search_blocks (l : list Z) (cnt : Z) (name : list Z) : M (option (list Z * Z)) :=
  match l with
  | [] => kret None
  | blk :: l =>
      if blk =? 0 then search_blocks l cnt name
      else
        buf <- ide_read blk 1 ;;
        k <- klift (find_name (Z.to_nat cnt) 0 buf name) ;;
        match k with
        | Some k => kret (Some (buf, k))
        | None => search_blocks l cnt name
        end
  end.

(** Returns the flag and [*dir_e]. *)
Definition search_dir_entry (pdir : Z) (name : list Z) (dir_e : dir_entry) : M (bool * dir_entry) :=
  all_blocks <- malloc (48 + 512) ;;
  if all_blocks =? 0 then kret (false, dir_e)
  else
    d <- get_dir pdir ;;
    i <- get_inode (d_inode d) ;;
    blocks <- dir_blocks i ;;
    buf <- malloc SECTOR_SIZE ;;
    b <- get_sb ;;
    cnt <- entries_per_sec b ;;
    (if forallb (Z.eqb 0) blocks then kret tt else buffer buf) ;;;
    r <- search_blocks blocks cnt name ;;
    match r with
    | Some (sec, k) =>
        bytes <- klift (slice sec (entry_off k) (dir_entry_size b)) ;;
        e <- klift (splice (entry_bytes dir_e) 0 bytes) ;;
        free buf ;;;
        free all_blocks ;;;
        kret (true, entry_of_bytes e)
    | None =>
        free buf ;;;
        free all_blocks ;;;
        kret (false, dir_e)
    end.

Definition dir_open (inode_no : Z) : M Z :=
  pdir <- malloc sizeof_dir ;;
  p <- inode_open inode_no ;;
  put_dir pdir (Dir p 0 (replicate 512 0)) ;;;
  kret pdir.

Definition dir_close (p : Z) : M unit :=
  if p =? root_dir then kret tt
  else
    d <- get_dir p ;;
    inode_close (d_inode d) ;;;
    free p ;;;
    kmod (fun s => set_f_dirs (delete p (f_dirs s)) s).

(** Block [idx] of the directory's inode at [p]. *)
Definition set_sector (p idx lba : Z) : M unit :=
  i <- get_inode p ;;
  l <- klift (wr (i_sectors i) idx lba) ;;
  put_inode p (set_i_sectors l i).
Definition grow (p n : Z) : M unit := upd_inode p (fun i => set_i_size (u32 (i_size i + n)) i).

(** The bit of a block just allocated, written to disk. *)
Definition sync_new_block (block_lba : Z) : M unit :=
  b <- get_sb ;;
  let block_bitmap_idx := i32 (block_lba - data_start_lba b) in
  ASSERT (negb (block_bitmap_idx =? -1)) ;;;
  bitmap_sync (u32 block_bitmap_idx) BLOCK_BITMAP.

(** [all_blocks + 12] as the indirect table's sector. *)
Definition write_table (p : Z) (all_blocks : list Z) : M unit :=
  i <- get_inode p ;;
  i12 <- klift (rd (i_sectors i) 12) ;;
  ide_write i12 (word_bytes (drop 12 all_blocks)) 1.

(** The new block [block_lba] of a directory put at index [block_idx]; [None] when the block
    for the entries behind a new indirect table could not be had. *)
Definition attach_block (p block_idx block_lba : Z) (all_blocks : list Z) : M (option (list Z)) :=
  b <- get_sb ;;
  if block_idx <? 12 then
    set_sector p block_idx block_lba ;;;
    l <- klift (wr all_blocks block_idx block_lba) ;;
    kret (Some l)
  else if block_idx =? 12 then
    set_sector p 12 block_lba ;;;
    block_lba2 <- block_bitmap_alloc ;;
    if block_lba2 =? -1 then
      set_bit BLOCK_BITMAP (u32 (i32 (block_lba - data_start_lba b))) 0 ;;;
      bitmap_sync (u32 (i32 (block_lba - data_start_lba b))) BLOCK_BITMAP ;;;
      set_sector p 12 0 ;;;
      kret None
    else
      sync_new_block block_lba2 ;;;
      l <- klift (wr all_blocks 12 block_lba2) ;;
      write_table p l ;;;
      kret (Some l)
  else
    l <- klift (wr all_blocks block_idx block_lba) ;;
    write_table p l ;;;
    kret (Some l).

(** The main loop of [sync_dir_entry]; [n] rounds are left. *)
Fixpoint sync_loop (n : nat) (p : Z) (p_de : dir_entry) (block_idx : Z) (all_blocks : list Z) : M bool :=
  match n with
  | O => kret false
  | S n =>
      b <- get_sb ;;
      cnt <- entries_per_sec b ;;
      blk <- klift (rd all_blocks block_idx) ;;
      e <- klift (slice (entry_bytes p_de) 0 (dir_entry_size b)) ;;
      if blk =? 0 then
        block_lba <- block_bitmap_alloc ;;
        if block_lba =? -1 then kret false
        else
          sync_new_block block_lba ;;;
          r <- attach_block p block_idx block_lba all_blocks ;;
          match r with
          | None => kret false
          | Some l =>
              io_buf <- klift (splice (replicate 512 0) 0 e) ;;
              blk' <- klift (rd l block_idx) ;;
              ide_write blk' io_buf 1 ;;;
              grow p (dir_entry_size b) ;;;
              kret true
          end
      else
        io_buf <- ide_read blk 1 ;;
        k <- klift (find_free (Z.to_nat cnt) 0 io_buf) ;;
        match k with
        | Some k =>
            io_buf <- klift (splice io_buf (entry_off k) e) ;;
            ide_write blk io_buf 1 ;;;
            grow p (dir_entry_size b) ;;;
            kret true
        | None =>
            let block_idx := block_idx + 1 in
            if 12 <? block_idx then
              i <- get_inode p ;;
              i12 <- klift (rd (i_sectors i) 12) ;;
              t <- ide_read i12 1 ;;
              sync_loop n p p_de block_idx (take 12 all_blocks ++ words t 128)
            else sync_loop n p p_de block_idx all_blocks
        end
  end.

Definition sync_dir_entry (parent_dir : Z) (p_de : dir_entry) : M bool :=
  d <- get_dir parent_dir ;;
  i <- get_inode (d_inode d) ;;
  b <- get_sb ;;
  cnt <- entries_per_sec b ;;
  ASSERT (i_size i mod dir_entry_size b =? 0) ;;;
  sync_loop 140 (d_inode d) p_de 0 (take 12 (i_sectors i) ++ replicate 128 0).

(** What [delete_dir_entry] does with the sector [block_idx] that holds the entry [found]. *)
Definition delete_found (p block_idx : Z) (all_blocks io_buf : list Z) (cnt : Z) (first : bool) (found : Z) : M unit :=
  b <- get_sb ;;
  blk <- klift (rd all_blocks block_idx) ;;
  ASSERT (1 <=? cnt) ;;;
  (if (cnt =? 1) && negb first then
     let block_bitmap_idx := u32 (blk - data_start_lba b) in
     set_bit BLOCK_BITMAP block_bitmap_idx 0 ;;;
     bitmap_sync block_bitmap_idx BLOCK_BITMAP ;;;
     if block_idx <? 12 then set_sector p block_idx 0
     else
       indirect_blocks <- klift (count_indirect 141 all_blocks 12 0) ;;
       ASSERT (1 <=? indirect_blocks) ;;;
       if 1 <? indirect_blocks then
         l <- klift (wr all_blocks block_idx 0) ;;
         write_table p l
       else
         i <- get_inode p ;;
         i12 <- klift (rd (i_sectors i) 12) ;;
         let idx := u32 (i12 - data_start_lba b) in
         set_bit BLOCK_BITMAP idx 0 ;;;
         bitmap_sync idx BLOCK_BITMAP ;;;
         set_sector p 12 0
   else
     io_buf <- klift (fill io_buf (entry_off found) (dir_entry_size b) 0) ;;
     ide_write blk io_buf 1) ;;;
  i <- get_inode p ;;
  ASSERT (dir_entry_size b <=? i_size i) ;;;
  put_inode p (set_i_size (i_size i - dir_entry_size b) i) ;;;
  inode_sync (set_i_size (i_size i - dir_entry_size b) i).

Fixpoint delete_loop (n : nat) (p inode_no cnt block_idx : Z) (all_blocks : list Z) : M bool :=
  match n with
  | O => kret false
  | S n =>
      blk <- klift (rd all_blocks block_idx) ;;
      if blk =? 0 then delete_loop n p inode_no cnt (block_idx + 1) all_blocks
      else
        io_buf <- ide_read blk 1 ;;
        r <- klift (scan_sector (Z.to_nat cnt) 0 io_buf inode_no 0 false None) ;;
        match r.2 with
        | None => delete_loop n p inode_no cnt (block_idx + 1) all_blocks
        | Some k =>
            delete_found p block_idx all_blocks io_buf r.1.1 r.1.2 k ;;;
            kret true
        end
  end.

Definition delete_dir_entry (pgdir inode_no : Z) : M bool :=
  d <- get_dir pgdir ;;
  i <- get_inode (d_inode d) ;;
  all_blocks <- dir_blocks i ;;
  b <- get_sb ;;
  cnt <- entries_per_sec b ;;
  delete_loop 140 (d_inode d) inode_no cnt 0 all_blocks.

(** Returns the index of the entry in [dir_buf], [None] for [NULL]. *)
Fixpoint read_loop (l : list Z) (p isize cnt pos : Z) : M (option Z) :=
  match l with
  | [] => kret None
  | blk :: l =>
      d <- get_dir p ;;
      b <- get_sb ;;
      if isize <=? dir_pos d then kret None
      else if blk =? 0 then read_loop l p isize cnt pos
      else
        sec <- ide_read blk 1 ;;
        put_dir p (Dir (d_inode d) (dir_pos d) sec) ;;;
        r <- klift (read_sector (Z.to_nat cnt) 0 sec pos (dir_pos d) (dir_entry_size b)) ;;
        match r.1 with
        | Some k =>
            put_dir p (Dir (d_inode d) (u32 (dir_pos d + dir_entry_size b)) sec) ;;;
            kret (Some k)
        | None => read_loop l p isize cnt r.2
        end
  end.

Definition dir_read (p : Z) : M (option Z) :=
  d <- get_dir p ;;
  i <- get_inode (d_inode d) ;;
  blocks <- dir_blocks i ;;
  i12 <- klift (rd (i_sectors i) 12) ;;
  b <- get_sb ;;
  cnt <- entries_per_sec b ;;
  read_loop (if i12 =? 0 then take 12 blocks else blocks) p (i_size i) cnt 0.

Definition dir_is_empty (p : Z) : M bool :=
  d <- get_dir p ;;
  i <- get_inode (d_inode d) ;;
  b <- get_sb ;;
  kret (i_size i =? u32 (dir_entry_size b * 2)).

(** The loop that checks that an empty directory has no other block than its first. *)
Fixpoint assert_no_blocks (n : nat) (l : list Z) (block_idx : Z) : outcome unit :=
  match n with
  | O => Ok tt
  | S n => let? v := rd l block_idx in let? _ := oassert (v =? 0) in assert_no_blocks n l (block_idx + 1)
  end.

Definition dir_remove (parent_dir chile_dir : Z) : M Z :=
  d <- get_dir chile_dir ;;
  i <- get_inode (d_inode d) ;;
  klift (assert_no_blocks 12 (i_sectors i) 1) ;;;
  io_buf <- malloc (SECTOR_SIZE * 2) ;;
  if io_buf =? 0 then kret (-1)
  else
    delete_dir_entry parent_dir (i_no i) ;;;
    i' <- get_inode (d_inode d) ;;
    inode_release (i_no i') ;;;
    free io_buf ;;;
    kret 0.

End dir.

(** ** Entries of a sector *)

(** Entry [k] of a sector is free; its bytes; its name, which ends in them, is [n]. *)
Definition slot_free (sec : list Z) (k : Z) : Prop := le_val (take 4 (drop (Z.to_nat (entry_off k + 20)) sec)) = 0.
Definition slot_bytes (sec : list Z) (k : Z) : list Z := take 24 (drop (Z.to_nat (entry_off k)) sec).
Definition slot_name (sec : list Z) (k : Z) (n : list Z) : Prop :=
  is_text n /\ exists t, slot_bytes sec k = n ++ 0 :: t.
(** Every entry of the sector has a name. *)
Definition named (sec : list Z) : Prop := forall k, 0 <= k < 21 -> exists n, slot_name sec k n.
Definition has_name (sec : list Z) (n : list Z) : Prop := exists k, 0 <= k < 21 /\ slot_name sec k n.

Lemma slot_str sec k n : 0 <= k -> slot_name sec k n -> str_at sec (entry_off k) n.
Proof.
  intros Hk (Ht & t & Hb). split; [unfold entry_off, sizeof_dir_entry; lia|]. split; [done|].
  exists (t ++ drop 24 (drop (Z.to_nat (entry_off k)) sec)).
  rewrite <- (take_drop 24 (drop (Z.to_nat (entry_off k)) sec)) at 1. fold (slot_bytes sec k).
  by rewrite Hb, <- app_assoc.
Qed.

Lemma str_at_unique m o a b : str_at m o a -> str_at m o b -> a = b.
Proof.
  intros Ha Hb.
  destruct (strcmp_loop_spec _ _ _ _ _ _ _ Ha Ha (str_fuel _ _ _ Ha)) as (r & Hr & Hiff).
  destruct (strcmp_loop_spec _ _ _ _ _ _ _ Ha Hb (str_fuel _ _ _ Ha)) as (r2 & Hr2 & Hiff2).
  rewrite Hr in Hr2. injection Hr2 as <-. by apply Hiff2, Hiff.
Qed.

Lemma name_cmp_spec sec k name m n :
  0 <= k -> slot_name sec k m -> str_at name 0 n -> exists r, name_cmp sec k name = Ok r /\ (r = 0 <-> m = n).
Proof. intros Hk Hm%slot_str Hn; [|done]. apply (strcmp_loop_spec _ _ _ _ _ _ _ Hm Hn). by eapply str_fuel. Qed.

Lemma find_name_spec n k sec name nm :
  0 <= k -> (forall j, k <= j < k + Z.of_nat n -> exists m, slot_name sec j m) -> str_at name 0 nm ->
  exists r, find_name n k sec name = Ok r /\
    match r with
    | Some j => k <= j < k + Z.of_nat n /\ slot_name sec j nm /\ forall x, k <= x < j -> ~ slot_name sec x nm
    | None => forall x, k <= x < k + Z.of_nat n -> ~ slot_name sec x nm
    end.
Proof.
  revert k. induction n as [|n IH]; intros k Hk0 Hs Hn.
  - exists None. split; [done|]. intros. lia.
  - destruct (Hs k ltac:(lia)) as [m Hm]. destruct (name_cmp_spec _ _ _ _ _ Hk0 Hm Hn) as (c & Hc & Hiff).
    cbn [find_name]. rewrite Hc. cbn [obind]. destruct (Z.eqb_spec c 0) as [E|E].
    + apply Hiff in E as ->. exists (Some k). split; [done|]. split; [lia|]. split; [done|]. intros. lia.
    + destruct (IH (k + 1)) as (r & Hr & Hspec); [lia|intros; apply Hs; lia|done|].
      assert (Hk : ~ slot_name sec k nm).
      { intros Hk. apply E, Hiff. eapply str_at_unique; by apply slot_str. }
      exists r. split; [done|]. destruct r as [j|].
      * destruct Hspec as (Hj & Hjn & Hx). split; [lia|]. split; [done|]. intros x Hx2.
        destruct (decide (x = k)) as [->|]; [done|]. apply Hx. lia.
      * intros x Hx2. destruct (decide (x = k)) as [->|]; [done|]. apply Hspec. lia.
Qed.

Lemma entry_f_type_run sec k :
  length sec = 512%nat -> 0 <= k < 21 ->
  entry_f_type sec k = Ok (le_val (take 4 (drop (Z.to_nat (entry_off k + 20)) sec))).
Proof.
  intros Hl Hk. unfold entry_f_type. rewrite slice_Ok; [done|..]; unfold entry_off, sizeof_dir_entry; lia.
Qed.

Lemma find_free_spec n k sec :
  length sec = 512%nat -> 0 <= k -> k + Z.of_nat n <= 21 ->
  exists r, find_free n k sec = Ok r /\
    match r with
    | Some j => k <= j < k + Z.of_nat n /\ slot_free sec j /\ forall x, k <= x < j -> ~ slot_free sec x
    | None => forall x, k <= x < k + Z.of_nat n -> ~ slot_free sec x
    end.
Proof.
  intros Hl. revert k. induction n as [|n IH]; intros k Hk Hn.
  - exists None. split; [done|]. intros. lia.
  - cbn [find_free]. rewrite entry_f_type_run by (done || lia). cbn [obind]. unfold FT_UNKNOWN.
    destruct (Z.eqb_spec (le_val (take 4 (drop (Z.to_nat (entry_off k + 20)) sec))) 0) as [E|E].
    + exists (Some k). split; [done|]. split; [lia|]. split; [done|]. intros. lia.
    + destruct (IH (k + 1)) as (r & Hr & Hspec); [lia|lia|]. exists r. split; [done|]. destruct r as [j|].
      * destruct Hspec as (Hj & Hjn & Hx). split; [lia|]. split; [done|]. intros x Hx2.
        destruct (decide (x = k)) as [->|]; [done|]. apply Hx. lia.
      * intros x Hx2. destruct (decide (x = k)) as [->|]; [done|]. apply Hspec. lia.
Qed.

(** A named entry is stored and read back. *)
Record entry_ok (e : dir_entry) (n : list Z) : Prop := {
  en_name : exists pad, filename e = n ++ 0 :: pad;
  en_len : length (filename e) = 16%nat;
  en_text : is_text n;
  en_i_no : 0 <= de_i_no e < 2 ^ 32;
  en_type : 0 < f_type e < 2 ^ 32
}.

Lemma entry_bytes_length e : length (filename e) = 16%nat -> length (entry_bytes e) = 24%nat.
Proof. intros H. unfold entry_bytes. by rewrite !length_app, !le_bytes_length, H. Qed.

Lemma entry_bytes_roundtrip e n : entry_ok e n -> entry_of_bytes (entry_bytes e) = e.
Proof.
  intros [_ Hl _ Hi Ht]. unfold entry_of_bytes, entry_bytes.
  rewrite take_app_length' by done. rewrite (drop_app_length' _ _ 16) by done.
  rewrite take_app_length' by (by rewrite le_bytes_length). rewrite le_val_bytes by done.
  rewrite (app_assoc (filename e)), (drop_app_length' _ _ 20) by (rewrite length_app, le_bytes_length; lia).
  rewrite take_ge by (by rewrite le_bytes_length). rewrite le_val_bytes by lia. by destruct e.
Qed.

(** The entry [e] written to slot [k] of a sector. *)
Lemma write_slot sec k e n :
  length sec = 512%nat -> 0 <= k < 21 -> entry_ok e n ->
  exists sec', splice sec (entry_off k) (entry_bytes e) = Ok sec' /\ length sec' = 512%nat /\
    slot_bytes sec' k = entry_bytes e /\ slot_name sec' k n /\
    (forall j, 0 <= j < 21 -> j <> k -> slot_bytes sec' j = slot_bytes sec j).
Proof.
  intros Hl Hk He. pose proof (entry_bytes_length e (en_len _ _ He)) as Hel.
  assert (Hok : exists sec', splice sec (entry_off k) (entry_bytes e) = Ok sec').
  { rewrite splice_Ok; [by eexists|..]; unfold entry_off, sizeof_dir_entry; lia. }
  destruct Hok as [sec' Hok]. pose proof (splice_length _ _ _ _ Hok) as Hlen. exists sec'.
  split; [done|]. split; [congruence|].
  assert (Hsl : forall l j, length l = 512%nat -> 0 <= j < 21 -> slice l (entry_off j) 24 = Ok (slot_bytes l j)).
  { intros l j H1 H2. rewrite slice_Ok; [done|..]; unfold entry_off, sizeof_dir_entry; lia. }
  assert (Hb : slot_bytes sec' k = entry_bytes e).
  { pose proof (slice_splice _ _ _ _ Hok) as E. rewrite Hel in E. change (Z.of_nat 24) with 24 in E.
    rewrite Hsl in E by (congruence || done). by injection E. }
  split; [done|]. split.
  - destruct (en_name _ _ He) as [pad Hpad]. split; [apply He|]. rewrite Hb. unfold entry_bytes. rewrite Hpad.
    eexists. by rewrite <- !app_assoc.
  - intros j Hj Hne. pose proof (Hsl sec' j) as E. rewrite (slice_splice_disjoint _ _ _ _ _ _ Hok) in E.
    2: { rewrite Hel. unfold entry_off, sizeof_dir_entry. lia. }
    rewrite Hsl in E by done. specialize (E ltac:(congruence) Hj). by injection E.
Qed.

Section dir_properties.
Context {D H : Type} `{!BlockDev D, !KernelHeap H, !BlockDevLaws D, !KernelHeapLaws H}.
Implicit Types (s : fs D H).

(** The super block says that entries have 24 bytes. *)
Definition entry_size_ok s : Prop := dir_entry_size (sb (f_part s)) = 24.
Definition on_disk (lba : Z) : Prop := 0 <= lba < DISK_SECTORS.

(** The block numbers of a directory's inode, the indirect ones as the disk has them. *)
Definition blocks_of s (i : inode) : list Z :=
  take 12 (i_sectors i) ++
  (if decide (nth 12 (i_sectors i) 0 = 0) then replicate 128 0
   else words (sector (f_dev s) (nth 12 (i_sectors i) 0)) 128).

Lemma rd_nth (l : list Z) k : (k < length l)%nat -> rd l (Z.of_nat k) = Ok (nth k l 0).
Proof.
  intros Hk. apply rd_Ok; [lia|]. rewrite Nat2Z.id. rewrite nth_lookup.
  destruct (lookup_lt_is_Some_2 l k Hk) as [v ->]. done.
Qed.

Lemma read_one s lba :
  disk_ready (f_dev s) -> on_disk lba ->
  exists d, ide_read lba 1 s = Ok (sector (f_dev s) lba, set_f_dev d s) /\ disk_ready d /\
    (forall x, sector d x = sector (f_dev s) x).
Proof.
  intros Hd [H1 H2]. destruct (ide_read_run s lba 1 Hd H1) as (d & Hr & Hrest); [lia|lia|].
  change (Z.to_nat 1) with 1%nat in Hr. cbn [sectors_from] in Hr. rewrite app_nil_r in Hr. by exists d.
Qed.

(** The same state but for the registers of the device. *)
Definition same_disk s s' : Prop :=
  exists d, s' = set_f_dev d s /\ disk_ready d /\ (forall x, sector d x = sector (f_dev s) x).

Lemma same_disk_refl s : disk_ready (f_dev s) -> same_disk s s.
Proof. intros Hd. exists (f_dev s). split; [by destruct s|done]. Qed.

Lemma same_disk_trans s1 s2 s3 : same_disk s1 s2 -> same_disk s2 s3 -> same_disk s1 s3.
Proof.
  intros (d1 & -> & _ & H1) (d2 & -> & Hd2 & H2). exists d2. split; [done|]. split; [done|].
  intros x. by rewrite H2, <- H1.
Qed.

Lemma dir_blocks_run s i :
  disk_ready (f_dev s) -> length (i_sectors i) = 13%nat -> on_disk (nth 12 (i_sectors i) 0) ->
  exists s', dir_blocks i s = Ok (blocks_of s i, s') /\ same_disk s s'.
Proof.
  intros Hd Hl Ho. unfold dir_blocks, blocks_of.
  rewrite (kbind_ok _ _ s (nth 12 (i_sectors i) 0) s) by (unfold klift; by rewrite (rd_nth _ 12) by lia).
  destruct (decide (nth 12 (i_sectors i) 0 = 0)) as [->|Hne].
  - eexists. split; [done|]. by apply same_disk_refl.
  - rewrite (proj2 (Z.eqb_neq _ _)) by done. destruct (read_one s _ Hd Ho) as (d & Hr & Hd2 & Hs).
    rewrite (kbind_ok _ _ s (words (sector (f_dev s) (nth 12 (i_sectors i) 0)) 128) (set_f_dev d s)).
    2: { change (negb false) with true. cbv iota. by rewrite (kbind_ok _ _ _ _ _ Hr). }
    eexists. split; [done|]. by exists d.
Qed.

(** Every block of the list is free or a sector of the disk whose names end in it. *)
Definition blocks_named s (l : list Z) : Prop :=
  Forall (fun blk => blk = 0 \/ (on_disk blk /\ named (sector (f_dev s) blk))) l.
(** No block of the list has an entry named [n]. *)
Definition absent s (l : list Z) (n : list Z) : Prop :=
  Forall (fun blk => blk = 0 \/ ~ has_name (sector (f_dev s) blk) n) l.

Lemma search_blocks_run l s name n :
  disk_ready (f_dev s) -> blocks_named s l -> str_at name 0 n ->
  exists r s', search_blocks l 21 name s = Ok (r, s') /\ same_disk s s' /\
    match r with
    | Some (sec, k) => exists l1 blk l2, l = l1 ++ blk :: l2 /\ blk <> 0 /\ sec = sector (f_dev s) blk /\
        absent s l1 n /\ 0 <= k < 21 /\ slot_name sec k n /\ (forall x, 0 <= x < k -> ~ slot_name sec x n)
    | None => absent s l n
    end.
Proof.
  intros Hd Hl Hn. revert s Hd Hl. induction l as [|blk l IH]; intros s Hd Hl.
  - exists None, s. split; [done|]. split; [by apply same_disk_refl|]. constructor.
  - apply list.Forall_cons in Hl as [Hb Hl]. cbn [search_blocks]. destruct (Z.eqb_spec blk 0) as [E|E].
    + destruct (IH s Hd Hl) as (r & s' & Hr & Hsd & Hspec). exists r, s'. split; [done|]. split; [done|].
      destruct r as [[sec k]|].
      * destruct Hspec as (l1 & b & l2 & -> & Hrest). exists (blk :: l1), b, l2.
        destruct Hrest as (? & ? & ? & ?). split_and!; try done; try tauto. by apply list.Forall_cons; auto.
      * by apply list.Forall_cons; auto.
    + destruct Hb as [?|[Ho Hnm]]; [done|]. destruct (read_one s blk Hd Ho) as (d & Hr & Hd2 & Hs).
      rewrite (kbind_ok _ _ _ _ _ Hr).
      destruct (find_name_spec 21 0 (sector (f_dev s) blk) name n) as (r & Hf & Hspec); [lia|exact Hnm|done|].
      rewrite (kbind_ok _ _ _ r (set_f_dev d s)) by (unfold klift; change (Z.to_nat 21) with 21%nat; by rewrite Hf).
      destruct r as [k|].
      * exists (Some (sector (f_dev s) blk, k)), (set_f_dev d s). split; [done|]. split; [by exists d|].
        exists [], blk, l. destruct Hspec as (Hk & Hkn & Hx). split_and!; try done; try lia. constructor.
      * destruct (IH (set_f_dev d s)) as (r & s' & Hr2 & Hsd & Hspec2); [done| |].
        { eapply list.Forall_impl; [exact Hl|]. intros b Hb. simpl. by rewrite Hs. }
        assert (Habs : blk = 0 \/ ~ has_name (sector (f_dev s) blk) n).
        { right. intros (k & Hk & Hkn). by apply (Hspec k). }
        assert (Hconv : forall l', absent (set_f_dev d s) l' n -> absent s l' n).
        { intros l' Hl'. eapply list.Forall_impl; [exact Hl'|]. intros b. simpl. by rewrite Hs. }
        exists r, s'. split; [done|]. split; [eapply same_disk_trans; [by exists d|done]|].
        destruct r as [[sec k]|].
        -- destruct Hspec2 as (l1 & b & l2 & -> & ? & -> & Habs2 & ?). exists (blk :: l1), b, l2. simpl. rewrite Hs in *.
           split_and!; try done; try tauto. apply list.Forall_cons. split; [done|by apply Hconv].
        -- apply list.Forall_cons. split; [done|by apply Hconv].
Qed.

(** Nothing but the registers of the device and the inside of the heap has changed. *)
Definition quiet s s' : Prop :=
  exists d h, s' = set_f_heap h (set_f_dev d s) /\ disk_ready d /\ (forall x, sector d x = sector (f_dev s) x) /\
    live h = live (f_heap s) /\ heap_user h = heap_user (f_heap s).

(** The end of a function: its two buffers are freed. *)
Lemma free_two s0 s1 p q r :
  room r (f_heap s1) -> p <> 0 -> q <> 0 -> heap_user (f_heap s1) = heap_user (f_heap s0) ->
  live (f_heap s0) !! p = None -> <[p := heap_user (f_heap s0)]> (live (f_heap s0)) !! q = None ->
  live (f_heap s1) = <[q := heap_user (f_heap s0)]> (<[p := heap_user (f_heap s0)]> (live (f_heap s0))) ->
  exists h, (forall (A : Type) (a : A), (free q ;;; free p ;;; kret a) s1 = Ok (a, set_f_heap h s1)) /\
    live h = live (f_heap s0) /\ heap_user h = heap_user (f_heap s0).
Proof.
  intros Hr Hp Hq Hu Hlp Hlq Hl.
  destruct (free_run s1 r q) as (h1 & H1 & Hl1 & Hr1 & Hu1); [done|done|by rewrite Hl, lookup_insert_eq, Hu|].
  rewrite Hl, delete_insert_id in Hl1 by done.
  destruct (free_run (set_f_heap h1 s1) r p) as (h2 & H2 & Hl2 & Hr2 & Hu2); [done|done| |].
  { simpl. by rewrite Hl1, lookup_insert_eq, Hu1, Hu. }
  exists h2. split; [|split].
  - intros A a. rewrite (kbind_ok _ _ _ _ _ H1), (kbind_ok _ _ _ _ _ H2). done.
  - rewrite Hl2. simpl. by rewrite Hl1, delete_insert_id.
  - rewrite Hu2. simpl. congruence.
Qed.

(** A directory that can be read. *)
Record dir_ok s (pdir : Z) (d : dir) (i : inode) : Prop := {
  do_dir : f_dirs s !! pdir = Some d;
  do_inode : f_inodes s !! d_inode d = Some i;
  do_sectors : length (i_sectors i) = 13%nat;
  do_table : on_disk (nth 12 (i_sectors i) 0);
  do_named : blocks_named s (blocks_of s i);
  do_size : entry_size_ok s;
  do_dev : disk_ready (f_dev s)
}.

Lemma entries_per_sec_run s : entry_size_ok s -> entries_per_sec (sb (f_part s)) s = Ok (21, s).
Proof. intros He. unfold entries_per_sec. by rewrite He. Qed.

Lemma search_dir_entry_run s pdir d i name n dir_e r :
  dir_ok s pdir d i -> room (S (S r)) (f_heap s) -> str_at name 0 n -> length (filename dir_e) = 16%nat ->
  exists s', quiet s s' /\
    ((exists l1 blk l2 k, blocks_of s i = l1 ++ blk :: l2 /\ blk <> 0 /\ absent s l1 n /\ 0 <= k < 21 /\
        slot_name (sector (f_dev s) blk) k n /\ (forall x, 0 <= x < k -> ~ slot_name (sector (f_dev s) blk) x n) /\
        search_dir_entry pdir name dir_e s = Ok ((true, entry_of_bytes (slot_bytes (sector (f_dev s) blk) k)), s')) \/
     (absent s (blocks_of s i) n /\ search_dir_entry pdir name dir_e s = Ok ((false, dir_e), s'))).
Proof.
  intros [Hdir Hino Hlen Htab Hnm Hsz Hdev] Hroom Hn He.
  destruct (malloc_run s _ (48 + 512) Hroom ltac:(lia)) as (p & h1 & Hm1 & Hp & Hf1 & Hl1 & Hr1 & Hu1).
  set (s1 := set_f_heap h1 s).
  destruct (dir_blocks_run s1 i Hdev Hlen Htab) as (s2 & Hb & (d2 & -> & Hd2 & Hs2)).
  change (blocks_of s1 i) with (blocks_of s i) in Hb. set (s2 := set_f_dev d2 s1) in *.
  destruct (malloc_run s2 _ SECTOR_SIZE Hr1 ltac:(done)) as (q & h3 & Hm3 & Hq & Hf3 & Hl3 & Hr3 & Hu3).
  simpl in Hf3, Hl3, Hu3. set (s3 := set_f_heap h3 s2).
  destruct (search_blocks_run (blocks_of s i) s3 name n Hd2) as (res & s4 & Hsb & (d4 & -> & Hd4 & Hs4) & Hspec).
  { eapply list.Forall_impl; [exact Hnm|]. intros b Hb2. simpl. by rewrite Hs2. }
  { done. }
  set (s4 := set_f_dev d4 s3) in *.
  destruct (free_two s s4 p q r) as (h & Hfree & Hlh & Huh).
  { done. } { done. } { done. } { simpl. congruence. } { done. } { by rewrite <- Hl1. } { simpl. by rewrite Hl3, Hl1, Hu1. }
  exists (set_f_heap h s4). split.
  { exists d4, h. split; [by destruct s|]. split; [done|]. split; [|done]. intros x. by rewrite Hs4, Hs2. }
  assert (Habs : forall l, absent s3 l n -> absent s l n).
  { intros l Hl. eapply list.Forall_impl; [exact Hl|]. intros b. simpl. by rewrite Hs2. }
  assert (Hprefix : forall v, (match res with
      | Some (sec, k) =>
          bytes <- klift (slice sec (entry_off k) (dir_entry_size (sb (f_part s)))) ;;
          e <- klift (splice (entry_bytes dir_e) 0 bytes) ;;
          free q ;;; free p ;;; kret (true, entry_of_bytes e)
      | None => free q ;;; free p ;;; kret (false, dir_e) end) s4 = v ->
    search_dir_entry pdir name dir_e s = v).
  { intros v <-. unfold search_dir_entry. rewrite (kbind_ok _ _ _ _ _ Hm1), (proj2 (Z.eqb_neq _ _)) by done. fold s1.
    rewrite (kbind_ok _ _ s1 d s1) by (unfold get_dir; simpl; by rewrite Hdir).
    rewrite (kbind_ok _ _ s1 i s1) by (unfold get_inode; simpl; by rewrite Hino).
    rewrite (kbind_ok _ _ _ _ _ Hb). rewrite (kbind_ok _ _ _ _ _ Hm3). fold s3.
    rewrite (kbind_ok _ _ s3 (sb (f_part s)) s3) by done.
    rewrite (kbind_ok _ _ s3 21 s3) by (exact (entries_per_sec_run s3 Hsz)).
    rewrite (kbind_ok _ _ s3 tt s3) by (destruct (forallb _ _); [done|]; unfold buffer; by rewrite (proj2 (Z.eqb_neq _ _))).
    by rewrite (kbind_ok _ _ _ _ _ Hsb). }
  destruct res as [[sec k]|].
  - destruct Hspec as (l1 & blk & l2 & Hl & Hblk & Hse & Ha & Hk & Hkn & Hx). left.
    assert (sec = sector (f_dev s) blk) as -> by (rewrite Hse; exact (Hs2 blk)). clear Hse.
    exists l1, blk, l2, k. split_and!; try done; try lia; [by apply Habs|].
    apply Hprefix. rewrite Hsz.
    assert (Hsec : length (sector (f_dev s) blk) = 512%nat) by (by apply sector_len).
    set (b := slot_bytes (sector (f_dev s) blk) k).
    assert (Hbl : length b = 24%nat).
    { unfold b, slot_bytes. rewrite length_take_le; [done|]. rewrite length_drop. unfold entry_off, sizeof_dir_entry. lia. }
    rewrite (kbind_ok _ _ s4 b s4).
    2: { unfold klift. rewrite slice_Ok; [done|..]; unfold entry_off, sizeof_dir_entry; lia. }
    rewrite (kbind_ok _ _ s4 b s4).
    2: { unfold klift. rewrite splice_Ok; [|lia|rewrite entry_bytes_length by done; lia]. change (Z.to_nat 0) with 0%nat.
      rewrite take_0, drop_ge by (rewrite entry_bytes_length by done; lia). by rewrite app_nil_r. }
    apply Hfree.
  - right. split; [by apply Habs|]. apply Hprefix, Hfree.
Qed.

(** C3: [search_dir_entry] finds the first entry of that name.  It goes through the direct
    blocks and then the indirect ones, in each through the 21 entries in order; the result
    is the first entry with exactly that name, and "not found" says that no block has one.
    The disk, the directory and the heap (its two buffers are freed) stay as they were. *)
Theorem search_dir_entry_spec s pdir d i name n dir_e r :
  dir_ok s pdir d i -> room (S (S r)) (f_heap s) -> str_at name 0 n -> length (filename dir_e) = 16%nat ->
  exists s' res, search_dir_entry pdir name dir_e s = Ok (res, s') /\ quiet s s' /\
    (res.1 = true <-> exists blk, blk ∈ blocks_of s i /\ blk <> 0 /\ has_name (sector (f_dev s) blk) n) /\
    (res.1 = true -> exists l1 blk l2 k, blocks_of s i = l1 ++ blk :: l2 /\ absent s l1 n /\ 0 <= k < 21 /\
        slot_name (sector (f_dev s) blk) k n /\ (forall x, 0 <= x < k -> ~ slot_name (sector (f_dev s) blk) x n) /\
        res.2 = entry_of_bytes (slot_bytes (sector (f_dev s) blk) k)) /\
    (res.1 = false -> res.2 = dir_e).
Proof.
  intros Hok Hr Hn He. destruct (search_dir_entry_run s pdir d i name n dir_e r Hok Hr Hn He)
    as (s' & Hq & [(l1 & blk & l2 & k & Hl & Hblk & Ha & Hk & Hkn & Hx & Hrun)|[Ha Hrun]]).
  - eexists s', _. split; [exact Hrun|]. split; [done|]. split; [|split; [|done]]; simpl.
    + split; [|done]. intros _. exists blk. rewrite Hl. split; [|split; [done|by exists k]].
      apply elem_of_app. right. by apply elem_of_cons; left.
    + intros _. by exists l1, blk, l2, k.
  - eexists s', _. split; [exact Hrun|]. split; [done|]. split; [|split; [done|done]]. simpl.
    split; [done|]. intros (blk & Hin & Hne & Hhas). unfold absent in Ha. rewrite list.Forall_forall in Ha.
    by destruct (Ha blk Hin).
Qed.

(** ** Adding an entry *)

(** Block [blk] of a directory has no free entry. *)
Definition block_full s (blk : Z) : Prop :=
  blk <> 0 /\ on_disk blk /\ forall k, 0 <= k < 21 -> ~ slot_free (sector (f_dev s) blk) k.
(** Its first free entry is [k]. *)
Definition first_free s (blk k : Z) : Prop :=
  blk <> 0 /\ on_disk blk /\ 0 <= k < 21 /\ slot_free (sector (f_dev s) blk) k /\
  forall x, 0 <= x < k -> ~ slot_free (sector (f_dev s) blk) x.

Lemma find_free_block s blk :
  disk_ready (f_dev s) ->
  (block_full s blk -> find_free 21 0 (sector (f_dev s) blk) = Ok None) /\
  (forall k, first_free s blk k -> find_free 21 0 (sector (f_dev s) blk) = Ok (Some k)).
Proof.
  intros Hd. destruct (find_free_spec 21 0 (sector (f_dev s) blk)) as (r & Hr & Hspec); [by apply sector_len|lia|lia|].
  split.
  - intros (_ & _ & Hf). rewrite Hr. destruct r as [k|]; [|done]. destruct Hspec as (Hk & Hfree & _).
    exfalso. apply (Hf k); [lia|done].
  - intros k (_ & _ & Hk & Hfree & Hx). rewrite Hr. destruct r as [k'|].
    + destruct Hspec as (Hk' & Hfree' & Hx'). destruct (Z.lt_trichotomy k k') as [Hlt|[->|Hlt]]; [|done|].
      * exfalso. apply (Hx' k); [lia|done].
      * exfalso. apply (Hx k'); [lia|done].
    + exfalso. apply (Hspec k); [lia|done].
Qed.

Lemma write_one s lba b :
  disk_ready (f_dev s) -> on_disk lba -> length b = 512%nat ->
  exists d, ide_write lba b 1 s = Ok (tt, set_f_dev d s) /\ disk_ready d /\
    (forall x, sector d x = if decide (x = lba) then b else sector (f_dev s) x).
Proof.
  intros Hd [H1 H2] Hb. destruct (ide_write_run s lba b 1 Hd H1) as (d & Hw & Hd2 & Hs); [lia|lia|lia|].
  exists d. split; [done|]. split; [done|]. intros x. rewrite Hs. unfold sector_after. repeat case_decide; try lia; [|done].
  subst x. rewrite Z.sub_diag. change (Z.to_nat (512 * 0)) with 0%nat. rewrite drop_0. by apply take_ge; rewrite Hb.
Qed.

Lemma sync_loop_run rounds s p i e n (m j : nat) B k sec' :
  disk_ready (f_dev s) -> entry_size_ok s -> f_inodes s !! p = Some i -> p <> 0 -> length B = 140%nat ->
  (m <= j < 12)%nat -> (j - m < rounds)%nat -> entry_ok e n ->
  (forall x, (m <= x < j)%nat -> block_full s (nth x B 0)) -> first_free s (nth j B 0) k ->
  splice (sector (f_dev s) (nth j B 0)) (entry_off k) (entry_bytes e) = Ok sec' ->
  exists d, sync_loop rounds p e (Z.of_nat m) B s =
      Ok (true, set_f_inodes (<[p := set_i_size (u32 (i_size i + 24)) i]> (f_inodes s)) (set_f_dev d s)) /\
    disk_ready d /\ (forall x, sector d x = if decide (x = nth j B 0) then sec' else sector (f_dev s) x).
Proof.
  intros Hd Hsz Hi Hp HB Hmj Hr He. revert s m Hd Hsz Hi Hmj Hr.
  induction rounds as [|rounds IH]; intros s m Hd Hsz Hi Hmj Hr Hfull Hfree Hsec; [lia|]. cbn [sync_loop].
  rewrite (kbind_ok _ _ s (sb (f_part s)) s) by done. rewrite (kbind_ok _ _ _ _ _ (entries_per_sec_run s Hsz)).
  rewrite (kbind_ok _ _ s (nth m B 0) s) by (unfold klift; by rewrite (rd_nth B m) by lia).
  pose proof (entry_bytes_length e (en_len _ _ He)) as Hel.
  rewrite (kbind_ok _ _ s (entry_bytes e) s).
  2: { unfold klift. rewrite Hsz, slice_Ok by lia. change (Z.to_nat 0) with 0%nat. change (Z.to_nat 24) with 24%nat.
    by rewrite drop_0, take_ge by lia. }
  destruct (decide (m = j)) as [->|Hne].
  - destruct Hfree as (Hb & Ho & Hk & Hfr & Hx). rewrite (proj2 (Z.eqb_neq _ _)) by done.
    destruct (read_one s _ Hd Ho) as (d1 & Hrd & Hd1 & Hs1). rewrite (kbind_ok _ _ _ _ _ Hrd).
    destruct (find_free_block s (nth j B 0) Hd) as [_ Hff].
    rewrite (kbind_ok _ _ _ (Some k) (set_f_dev d1 s)).
    2: { unfold klift. change (Z.to_nat 21) with 21%nat. by rewrite (Hff k). }
    rewrite (kbind_ok _ _ _ sec' (set_f_dev d1 s)) by (unfold klift; by rewrite Hsec).
    destruct (write_one (set_f_dev d1 s) (nth j B 0) sec') as (d2 & Hw & Hd2 & Hs2); [done|done| |].
    { rewrite (splice_length _ _ _ _ Hsec). by apply sector_len. }
    rewrite (kbind_ok _ _ _ _ _ Hw). exists d2. split; [|split; [done|]].
    + unfold grow. rewrite (kbind_ok _ _ _ tt _) by (by apply upd_inode_run). by rewrite Hsz.
    + intros x. rewrite Hs2. simpl. by rewrite Hs1.
  - destruct (Hfull m ltac:(lia)) as (Hb & Ho & Hno). rewrite (proj2 (Z.eqb_neq _ _)) by done.
    destruct (read_one s _ Hd Ho) as (d1 & Hrd & Hd1 & Hs1). rewrite (kbind_ok _ _ _ _ _ Hrd).
    destruct (find_free_block s (nth m B 0) Hd) as [Hff _].
    rewrite (kbind_ok _ _ _ None (set_f_dev d1 s)).
    2: { unfold klift. change (Z.to_nat 21) with 21%nat. by rewrite Hff by (apply Hfull; lia). }
    rewrite (proj2 (Z.ltb_ge _ _)) by lia. replace (Z.of_nat m + 1) with (Z.of_nat (S m)) by lia.
    destruct (IH (set_f_dev d1 s) (S m)) as (d2 & Hrun & Hd2 & Hs2); try done; try lia.
    { intros x Hx. unfold block_full. simpl. rewrite Hs1. apply Hfull. lia. }
    { unfold first_free. simpl. by rewrite Hs1. }
    { simpl. by rewrite Hs1. }
    exists d2. split; [exact Hrun|]. split; [done|]. intros x. rewrite Hs2. simpl. by rewrite Hs1.
Qed.

Lemma sync_dir_entry_run s pdir d i e n (j : nat) k sec' :
  dir_ok s pdir d i -> d_inode d <> 0 -> i_size i mod 24 = 0 -> entry_ok e n -> (j < 12)%nat ->
  (forall x, (x < j)%nat -> block_full s (nth x (i_sectors i) 0)) -> first_free s (nth j (i_sectors i) 0) k ->
  splice (sector (f_dev s) (nth j (i_sectors i) 0)) (entry_off k) (entry_bytes e) = Ok sec' ->
  exists dv, sync_dir_entry pdir e s =
      Ok (true, set_f_inodes (<[d_inode d := set_i_size (u32 (i_size i + 24)) i]> (f_inodes s)) (set_f_dev dv s)) /\
    disk_ready dv /\
    (forall x, sector dv x = if decide (x = nth j (i_sectors i) 0) then sec' else sector (f_dev s) x).
Proof.
  intros [Hdir Hino Hlen Htab Hnm Hsz Hdev] Hp Hmod He Hj Hfull Hfree Hsec.
  assert (Hnth : forall x, (x < 12)%nat -> nth x (take 12 (i_sectors i) ++ replicate 128 0) 0 = nth x (i_sectors i) 0).
  { intros x Hx. rewrite app_nth1 by (rewrite length_take; lia). rewrite !nth_lookup, lookup_take_lt by lia. done. }
  unfold sync_dir_entry. rewrite (kbind_ok _ _ s d s) by (unfold get_dir; by rewrite Hdir).
  rewrite (kbind_ok _ _ s i s) by (unfold get_inode; by rewrite Hino).
  rewrite (kbind_ok _ _ s (sb (f_part s)) s) by done. rewrite (kbind_ok _ _ _ _ _ (entries_per_sec_run s Hsz)).
  rewrite (kbind_ok _ _ s tt s) by (unfold ASSERT; by rewrite Hsz, (proj2 (Z.eqb_eq _ _))).
  rewrite <- (Hnth j) in Hfree, Hsec |- * by lia.
  apply (sync_loop_run 140 s (d_inode d) i e n 0 j _ k sec'); try done; try lia.
  - rewrite length_app, length_take, length_replicate. lia.
  - intros x Hx. rewrite Hnth by lia. apply Hfull. lia.
Qed.

(** C4: [sync_dir_entry] puts an entry into the first free place.  When the direct blocks
    before block [j] are full and block [j] has a free entry, the entry's 24 bytes are
    written to the first free one, every other entry of every sector keeps its bytes, no
    block is allocated and the directory's size grows by one entry. *)
Theorem sync_dir_entry_spec s pdir d i e n (j : nat) k :
  dir_ok s pdir d i -> d_inode d <> 0 -> i_size i mod 24 = 0 -> entry_ok e n -> (j < 12)%nat ->
  (forall x, (x < j)%nat -> block_full s (nth x (i_sectors i) 0)) -> first_free s (nth j (i_sectors i) 0) k ->
  exists dv, sync_dir_entry pdir e s =
      Ok (true, set_f_inodes (<[d_inode d := set_i_size (u32 (i_size i + 24)) i]> (f_inodes s)) (set_f_dev dv s)) /\
    disk_ready dv /\
    slot_bytes (sector dv (nth j (i_sectors i) 0)) k = entry_bytes e /\
    (forall x, 0 <= x < 21 -> x <> k ->
       slot_bytes (sector dv (nth j (i_sectors i) 0)) x = slot_bytes (sector (f_dev s) (nth j (i_sectors i) 0)) x) /\
    (forall x, x <> nth j (i_sectors i) 0 -> sector dv x = sector (f_dev s) x).
Proof.
  intros Hok Hp Hmod He Hj Hfull Hfree.
  destruct (write_slot (sector (f_dev s) (nth j (i_sectors i) 0)) k e n) as (sec' & Hsec & _ & Hb & _ & Hother).
  { apply sector_len, (do_dev _ _ _ _ Hok). } { by destruct Hfree as (_ & _ & ? & _). } { done. }
  destruct (sync_dir_entry_run s pdir d i e n j k sec' Hok Hp Hmod He Hj Hfull Hfree Hsec) as (dv & Hrun & Hd & Hs).
  exists dv. split; [exact Hrun|]. split; [done|]. rewrite Hs, decide_True by done. split_and!; try done.
  intros x Hx. by rewrite Hs, decide_False.
Qed.

(** C5: adding an entry and looking it up.  An entry whose name the directory does not have
    yet, added with [sync_dir_entry] to a directory with a free place in a direct block, is
    found by [search_dir_entry] under its name, with its inode number and type. *)
Theorem dir_add_lookup s pdir d i e n (j : nat) k name dir_e r :
  dir_ok s pdir d i -> d_inode d <> 0 -> i_size i mod 24 = 0 -> entry_ok e n -> (j < 12)%nat ->
  (forall x, (x < j)%nat -> block_full s (nth x (i_sectors i) 0)) -> first_free s (nth j (i_sectors i) 0) k ->
  nth 12 (i_sectors i) 0 <> nth j (i_sectors i) 0 -> absent s (blocks_of s i) n ->
  room (S (S r)) (f_heap s) -> str_at name 0 n -> length (filename dir_e) = 16%nat ->
  exists s1 s2, sync_dir_entry pdir e s = Ok (true, s1) /\
    search_dir_entry pdir name dir_e s1 = Ok ((true, e), s2) /\ quiet s1 s2.
Proof.
  intros Hok Hp Hmod He Hj Hfull Hfree Hne Habs Hroom Hn Hde.
  set (blk := nth j (i_sectors i) 0) in *. pose proof (do_dev _ _ _ _ Hok) as Hdev.
  destruct (write_slot (sector (f_dev s) blk) k e n) as (sec' & Hsec & _ & Hb & Hkn & Hother).
  { by apply sector_len. } { by destruct Hfree as (_ & _ & ? & _). } { done. }
  destruct (sync_dir_entry_run s pdir d i e n j k sec' Hok Hp Hmod He Hj Hfull Hfree Hsec) as (dv & Hrun & Hd & Hs).
  fold blk in Hs. set (i' := set_i_size (u32 (i_size i + 24)) i) in *.
  set (s1 := set_f_inodes (<[d_inode d := i']> (f_inodes s)) (set_f_dev dv s)) in *.
  assert (Hblk : forall x, x <> blk -> sector dv x = sector (f_dev s) x) by (intros; by rewrite Hs, decide_False).
  assert (Hnew : sector dv blk = sec') by (by rewrite Hs, decide_True).
  destruct Hfree as (Hb0 & Hbo & Hk & _). destruct Hok as [Hdir Hino Hlen Htab Hnm Hsz _].
  assert (Hblocks : blocks_of s1 i' = blocks_of s i).
  { unfold blocks_of, i', s1. cbn [i_sectors set_i_size f_dev set_f_inodes set_f_dev].
    destruct (decide _); [done|]. by rewrite Hblk. }
  assert (Hin : blk ∈ blocks_of s i).
  { unfold blocks_of. apply elem_of_app. left. apply (list_elem_of_lookup_2 _ j). rewrite lookup_take_lt by done.
    unfold blk. rewrite nth_lookup.
    destruct (lookup_lt_is_Some_2 (i_sectors i) j ltac:(lia)) as [v ->]. done. }
  assert (Hold : forall x m y, 0 <= y < 21 -> slot_name (sector dv x) y m -> (x = blk /\ y = k) \/ slot_name (sector (f_dev s) x) y m).
  { intros x m y Hy Hm. destruct (decide (x = blk)) as [->|]; [|right; by rewrite <- Hblk].
    destruct (decide (y = k)) as [->|]; [by left|]. right. rewrite Hnew in Hm. unfold slot_name in *. by rewrite <- Hother. }
  assert (Hok1 : dir_ok s1 pdir d i').
  { split; try done.
    - simpl. by rewrite lookup_insert_eq.
    - rewrite Hblocks. eapply list.Forall_impl; [exact Hnm|]. intros x [?|[Ho Hx]]; [by left|right]. split; [done|].
      intros y Hy. simpl. destruct (decide (x = blk)) as [->|Hxb]; [|rewrite Hblk by done; by apply Hx].
      rewrite Hnew. destruct (decide (y = k)) as [->|Hyk]; [by exists n|]. destruct (Hx y Hy) as [m Hm]. exists m.
      unfold slot_name in *. by rewrite Hother. }
  destruct (search_dir_entry_run s1 pdir d i' name n dir_e r Hok1 Hroom Hn Hde)
    as (s2 & Hq & [(l1 & x & l2 & y & Hl & Hx0 & _ & Hy & Hyn & _ & Hsr)|[Ha _]]).
  - exists s1, s2. split; [exact Hrun|]. split; [|done]. rewrite Hsr. do 3 f_equal.
    simpl in Hyn. destruct (Hold x n y Hy Hyn) as [[-> ->]|Hyn'].
    + simpl. rewrite Hnew, Hb. by eapply entry_bytes_roundtrip.
    + exfalso. rewrite Hblocks in Hl. unfold absent in Habs. rewrite Hl, list.Forall_app, list.Forall_cons in Habs.
      destruct Habs as (_ & [?|Hno] & _); [done|]. apply Hno. by exists y.
  - exfalso. unfold absent in Ha. rewrite Hblocks, list.Forall_forall in Ha. destruct (Ha blk Hin) as [?|Hno]; [done|].
    apply Hno. exists k. split; [done|]. simpl. by rewrite Hnew.
Qed.

(** [delete_dir_entry] hangs on an indirect block.  When the entry to delete is the only
    one of a block behind the indirect table (and "." is not in it), the loop that counts
    the indirect blocks never advances its index: whatever number of rounds it is given, it
    has not ended. *)
Theorem delete_indirect_hangs fuel all_blocks cnt :
  length all_blocks = 140%nat -> count_indirect fuel all_blocks 12 cnt = Err Diverges.
Proof.
  intros Hl. revert cnt. induction fuel as [|fuel IH]; intros cnt; [done|]. cbn [count_indirect].
  change (12 <? 140) with true. cbv iota. rewrite (rd_nth _ 12) by lia. apply IH.
Qed.

End dir_properties.

(** ** A sample directory *)

Lemma text_prefix b : Forall (fun c => 0 <= c < 256) b -> 0 ∈ b -> exists n t, b = n ++ 0 :: t /\ is_text n.
Proof.
  induction b as [|c b IH]; intros Hb Hin; [by apply elem_of_nil in Hin|].
  apply list.Forall_cons in Hb as [Hc Hb]. destruct (decide (c = 0)) as [->|Hne].
  - exists [], b. split; [done|constructor].
  - apply elem_of_cons in Hin as [?|Hin]; [done|]. destruct (IH Hb Hin) as (n & t & -> & Hn).
    exists (c :: n), t. split; [done|]. apply list.Forall_cons. split; [lia|done].
Qed.

Lemma named_check sec :
  forallb (fun k => let b := slot_bytes sec (Z.of_nat k) in
                    forallb (fun c => (0 <=? c) && (c <? 256)) b && existsb (Z.eqb 0) b) (seq 0 21) = true ->
  named sec.
Proof.
  intros Hc k Hk. rewrite forallb_forall in Hc. specialize (Hc (Z.to_nat k)). rewrite Z2Nat.id in Hc by lia.
  apply andb_prop in Hc as [H1 H2]; [|apply in_seq; lia].
  destruct (text_prefix (slot_bytes sec k)) as (n & t & Hb & Hn).
  - apply list.Forall_forall. intros c Hin. rewrite forallb_forall in H1. specialize (H1 c).
    rewrite <- list_elem_of_In in H1. apply H1 in Hin. lia.
  - apply existsb_exists in H2 as (c & Hin & E). apply Z.eqb_eq in E as <-. by apply list_elem_of_In.
  - exists n. split; [done|]. by exists t.
Qed.

(** The root directory of [sample_fs], with its two entries, open at [0x2000]. *)
Definition sample_dir_sector : list Z :=
  entry_bytes (DirEntry (46 :: replicate 15 0) 0 2) ++ entry_bytes (DirEntry (46 :: 46 :: replicate 14 0) 0 2)
  ++ replicate 464 0.
Definition sample_root : inode := Inode 0 48 1 0 (2660 :: replicate 12 0).
Definition sample_dir_fs : fs mem_disk bump_heap :=
  Fs (MemDisk {[2660 := sample_dir_sector]}) (BumpHeap 0x3000 {[0x2000 := false]} true) sample_part
    {[0x2000 := sample_root]} [0x2000] (replicate 32 (File 0 0 0)) {[root_dir := Dir 0x2000 0 (replicate 512 0)]}
    [0; 1; 2; -1; -1; -1; -1; -1] 0 0x202.
(** A file "ab" with inode 7. *)
Definition sample_entry : dir_entry := DirEntry (97 :: 98 :: replicate 14 0) 7 1.

Lemma sample_dev_ready : disk_ready (f_dev sample_dir_fs).
Proof. apply map_Forall_singleton. reflexivity. Qed.

Lemma sample_dir_ok : dir_ok sample_dir_fs root_dir (Dir 0x2000 0 (replicate 512 0)) sample_root.
Proof.
  split; try done.
  - unfold blocks_named.
    assert (Hb : blocks_of sample_dir_fs sample_root = 2660 :: replicate 139 0) by (vm_compute; reflexivity).
    rewrite Hb. apply list.Forall_cons. split.
    + right. split; [done|]. apply named_check. vm_compute. reflexivity.
    + apply Forall_replicate. by left.
  - apply sample_dev_ready.
Qed.

Lemma sample_entry_ok : entry_ok sample_entry [97; 98].
Proof. split; simpl; try lia; try done; [by exists (replicate 13 0)|]. repeat constructor; lia. Qed.

Lemma sample_dir_room n : room n (f_heap sample_dir_fs).
Proof. split; [done|]. apply map_Forall_singleton. done. Qed.

Lemma sample_name : str_at [97; 98; 0] 0 [97; 98].
Proof. split; [lia|]. split; [repeat constructor; lia|by exists []]. Qed.

Lemma sample_first_free : first_free sample_dir_fs 2660 2.
Proof.
  split; [done|]. split; [done|]. split; [lia|]. split; [reflexivity|].
  intros x Hx. assert (x = 0 \/ x = 1) as [-> | ->] by lia; unfold slot_free; vm_compute; done.
Qed.

Lemma search_dir_entry_spec_witness : exists s' res,
  search_dir_entry root_dir [46; 46; 0] zero_entry sample_dir_fs = Ok (res, s') /\ quiet sample_dir_fs s'.
Proof.
  destruct (search_dir_entry_spec sample_dir_fs root_dir (Dir 0x2000 0 (replicate 512 0)) sample_root [46; 46; 0] [46; 46]
    zero_entry 0 sample_dir_ok (sample_dir_room 2)) as (s' & res & H1 & H2 & _).
  - split; [lia|]. split; [repeat constructor; lia|by exists []].
  - done.
  - by exists s', res.
Defined.

Lemma sync_dir_entry_spec_witness : exists s1, sync_dir_entry root_dir sample_entry sample_dir_fs = Ok (true, s1).
Proof.
  destruct (sync_dir_entry_spec sample_dir_fs root_dir (Dir 0x2000 0 (replicate 512 0)) sample_root sample_entry [97; 98]
    0%nat 2 sample_dir_ok) as (dv & H1 & _).
  - done.
  - done.
  - apply sample_entry_ok.
  - lia.
  - intros x Hx. lia.
  - apply sample_first_free.
  - eexists. exact H1.
Defined.

Lemma sample_absent : absent sample_dir_fs (blocks_of sample_dir_fs sample_root) [97; 98].
Proof.
  assert (Hb : blocks_of sample_dir_fs sample_root = 2660 :: replicate 139 0) by (vm_compute; reflexivity).
  unfold absent. rewrite Hb. apply list.Forall_cons. split; [right|apply Forall_replicate; by left].
  intros (k & Hk & _ & t & Ht).
  assert (Hf : forallb (fun k => negb (bool_decide (take 2 (slot_bytes (sector (f_dev sample_dir_fs) 2660) (Z.of_nat k)) = [97; 98])))
    (seq 0 21) = true) by (vm_compute; reflexivity).
  rewrite forallb_forall in Hf. specialize (Hf (Z.to_nat k)). rewrite Z2Nat.id in Hf by lia.
  rewrite Ht in Hf. change (take 2 ([97; 98] ++ 0 :: t)) with [97; 98] in Hf.
  rewrite bool_decide_eq_true_2 in Hf by done. discriminate Hf. apply in_seq. lia.
Qed.

Lemma dir_add_lookup_witness : exists s1 s2, sync_dir_entry root_dir sample_entry sample_dir_fs = Ok (true, s1) /\
  search_dir_entry root_dir [97; 98; 0] zero_entry s1 = Ok ((true, sample_entry), s2).
Proof.
  destruct (dir_add_lookup sample_dir_fs root_dir (Dir 0x2000 0 (replicate 512 0)) sample_root sample_entry [97; 98]
    0%nat 2 [97; 98; 0] zero_entry 0 sample_dir_ok) as (s1 & s2 & H1 & H2 & _).
  - done.
  - done.
  - apply sample_entry_ok.
  - lia.
  - intros x Hx. lia.
  - apply sample_first_free.
  - done.
  - apply sample_absent.
  - apply sample_dir_room.
  - apply sample_name.
  - done.
  - by exists s1, s2.
Defined.

Lemma delete_indirect_hangs_witness : count_indirect 1000 (replicate 140 1) 12 0 = Err Diverges.
Proof. apply delete_indirect_hangs. reflexivity. Defined.
