(* ===== verification/File.v ===== *)
(** * File: fs/file.c

    The system-wide file table and the four operations on open files.  A [struct file *]
    is an index into [file_table]; the data of a read is returned next to the C result,
    the data of a write is a list the code reads from.  [all_blocks] is the array of 140
    block numbers the functions fill as far as they need it ([sys_malloc] clears it).  The
    loops over the data take as fuel the number of sectors the data can touch. *)

From S2P Require Import Prelude Bitmap Interrupt Disk Inode Cstring Sched Task Dir.

Definition BLOCK_SIZE : Z := 512.
Definition O_WRONLY : Z := 1.
Definition O_RDWR : Z := 2.
Definition O_CREAT : Z := 4.

(** [flag & bit]. *)
Definition has_flag (flag bit : Z) : bool := negb (Z.land flag bit =? 0).

Section file.
Context {D H : Type} `{!BlockDev D, !KernelHeap H}.
Notation M := (KM (fs D H)).

Fixpoint free_slot (n : nat) (fd_idx : Z) : M Z :=
  match n with
  | O => kret fd_idx
  | S n =>
      f <- get_file fd_idx ;;
      if fd_inode f =? 0 then kret fd_idx else free_slot n (fd_idx + 1)
  end.

Definition get_free_slot_in_global : M Z :=
  fd_idx <- free_slot 29 3 ;;
  if fd_idx =? MAX_FILE_OPEN then kret (-1) else kret fd_idx.

(** [pcb_fd_install] on the descriptors of the running thread. *)
Definition install (fd_idx : Z) : M Z :=
  l <- kreads f_fds ;;
  r <- klift (fd_install_loop 6 l fd_idx 3) ;;
  kmod (set_f_fds r.2) ;;;
  kret r.1.

(** [rollback:] of [file_create], from case 2 and from case 1 on. *)
Definition rollback1 (inode_no io_buf : Z) : M Z :=
  set_bit INODE_BITMAP inode_no 0 ;;;
  free io_buf ;;;
  kret (-1).
Definition rollback2 (new_file_inode inode_no io_buf : Z) : M Z :=
  free new_file_inode ;;;
  kmod (fun s => set_f_inodes (delete new_file_inode (f_inodes s)) s) ;;;
  rollback1 inode_no io_buf.

Definition file_create (parent_dir : Z) (fname : list Z) (o : Z) (flag : Z) : M Z :=
  io_buf <- malloc 1024 ;;
  if io_buf =? 0 then kret (-1)
  else
    inode_no <- inode_bitmap_alloc ;;
    if inode_no =? -1 then kret (-1)
    else
      cur_pagedir_bak <- get_user ;;
      put_user false ;;;
      new_file_inode <- malloc sizeof_inode ;;
      if new_file_inode =? 0 then rollback1 inode_no io_buf
      else
        put_user cur_pagedir_bak ;;;
        put_inode new_file_inode (inode_init inode_no) ;;;
        fd_idx <- get_free_slot_in_global ;;
        if fd_idx =? -1 then rollback2 new_file_inode inode_no io_buf
        else
          put_file fd_idx (File 0 flag new_file_inode) ;;;
          upd_inode new_file_inode (set_write_deny 0) ;;;
          new_dir_entry <- klift (create_dir_entry fname o inode_no FT_REGULAR zero_entry) ;;
          ok <- sync_dir_entry parent_dir new_dir_entry ;;
          if negb (ok : bool) then
            put_file fd_idx (File 0 0 0) ;;;
            rollback2 new_file_inode inode_no io_buf
          else
            d <- get_dir parent_dir ;;
            pi <- get_inode (d_inode d) ;;
            inode_sync pi ;;;
            ni <- get_inode new_file_inode ;;
            inode_sync ni ;;;
            bitmap_sync inode_no INODE_BITMAP ;;;
            open_push new_file_inode ;;;
            upd_inode new_file_inode (set_i_open_cnts 1) ;;;
            free io_buf ;;;
            install fd_idx.

Definition file_open (inode_no flag : Z) : M Z :=
  fd_idx <- get_free_slot_in_global ;;
  if fd_idx =? -1 then kret (-1)
  else
    p <- inode_open inode_no ;;
    put_file fd_idx (File 0 flag p) ;;;
    if has_flag flag O_RDWR || has_flag flag O_WRONLY then
      old_status <- intr_disable ;;
      i <- get_inode p ;;
      if write_deny i =? 0 then
        put_inode p (set_write_deny 1 i) ;;;
        intr_set_status old_status ;;;
        install fd_idx
      else
        intr_set_status old_status ;;;
        kret (-1)
    else install fd_idx.

Definition file_close (f : Z) : M Z :=
  fl <- get_file f ;;
  upd_inode (fd_inode fl) (set_write_deny 0) ;;;
  inode_close (fd_inode fl) ;;;
  put_file f (File (fd_pos fl) (fd_flag fl) 0) ;;;
  kret 0.

(** ** Writing *)

(** The block [blk] just allocated, its bit taken to be at [blk - base] and written. *)
Definition sync_alloc (blk base : Z) : M unit := bitmap_sync (u32 (blk - base)) BLOCK_BITMAP.

(** The three loops that allocate blocks up to [will]; [None] is a failed allocation. *)
Fixpoint alloc_direct (n : nat) (p block_idx will : Z) (all_blocks : list Z) : M (option (list Z)) :=
  match n with
  | O => kfail Diverges
  | S n =>
      if block_idx <? will then
        b <- get_sb ;;
        block_lba <- block_bitmap_alloc ;;
        if block_lba =? -1 then kret None
        else
          i <- get_inode p ;;
          v <- klift (rd (i_sectors i) block_idx) ;;
          ASSERT (v =? 0) ;;;
          set_sector p block_idx block_lba ;;;
          l <- klift (wr all_blocks block_idx block_lba) ;;
          sync_alloc block_lba (block_bitmap_lba b) ;;;
          alloc_direct n p (block_idx + 1) will l
      else kret (Some all_blocks)
  end.

Fixpoint alloc_mixed (n : nat) (p block_idx will : Z) (all_blocks : list Z) : M (option (list Z)) :=
  match n with
  | O => kfail Diverges
  | S n =>
      if block_idx <? will then
        b <- get_sb ;;
        block_lba <- block_bitmap_alloc ;;
        if block_lba =? -1 then kret None
        else
          (if block_idx <? 12 then
             i <- get_inode p ;;
             v <- klift (rd (i_sectors i) block_idx) ;;
             ASSERT (v =? 0) ;;;
             set_sector p block_idx block_lba
           else kret tt) ;;;
          l <- klift (wr all_blocks block_idx block_lba) ;;
          sync_alloc block_lba (block_bitmap_lba b) ;;;
          alloc_mixed n p (block_idx + 1) will l
      else kret (Some all_blocks)
  end.

Fixpoint alloc_indirect (n : nat) (block_idx will : Z) (all_blocks : list Z) : M (option (list Z)) :=
  match n with
  | O => kfail Diverges
  | S n =>
      if block_idx <? will then
        b <- get_sb ;;
        block_lba <- block_bitmap_alloc ;;
        if block_lba =? -1 then kret None
        else
          l <- klift (wr all_blocks block_idx block_lba) ;;
          sync_alloc block_lba (data_start_lba b) ;;;
          alloc_indirect n (block_idx + 1) will l
      else kret (Some all_blocks)
  end.

(** [ide_read(indirect_block_table, all_blocks + 12)]. *)
Definition read_table (table : Z) (all_blocks : list Z) : M (list Z) :=
  t <- ide_read table 1 ;; kret (take 12 all_blocks ++ words t 128).
(** [ide_write(indirect_block_table, all_blocks + 12)]. *)
Definition store_table (table : Z) (all_blocks : list Z) : M unit :=
  ide_write table (word_bytes (drop 12 all_blocks)) 1.
(** [all_blocks[k] = i_sectors[k]]. *)
Definition copy_block (i : inode) (k : Z) (all_blocks : list Z) : outcome (list Z) :=
  let? v := rd (i_sectors i) k in wr all_blocks k v.

(** The blocks a write needs, allocated where they are missing. *)
Definition collect_blocks (p has will : Z) : M (option (list Z)) :=
  let zeros := replicate 140 0 in
  b <- get_sb ;;
  i <- get_inode p ;;
  i12 <- klift (rd (i_sectors i) 12) ;;
  let add_blocks := u32 (will - has) in
  if add_blocks =? 0 then
    if will <=? 12 then l <- klift (copy_block i (has - 1) zeros) ;; kret (Some l)
    else
      ASSERT (negb (i12 =? 0)) ;;;
      l <- read_table i12 zeros ;;
      kret (Some l)
  else if will <=? 12 then
    v <- klift (rd (i_sectors i) (has - 1)) ;;
    ASSERT (negb (v =? 0)) ;;;
    l <- klift (wr zeros (has - 1) v) ;;
    alloc_direct 140 p has will l
  else if (has <=? 12) && (12 <? will) then
    l <- klift (copy_block i (has - 1) zeros) ;;
    block_lba <- block_bitmap_alloc ;;
    if block_lba =? -1 then kret None
    else
      ASSERT (i12 =? 0) ;;;
      set_sector p 12 block_lba ;;;
      sync_alloc block_lba (block_bitmap_lba b) ;;;
      r <- alloc_mixed 141 p has will l ;;
      match r with
      | None => kret None
      | Some l => store_table block_lba l ;;; kret (Some l)
      end
  else if 12 <? has then
    ASSERT (negb (i12 =? 0)) ;;;
    l <- read_table i12 zeros ;;
    r <- alloc_indirect 141 has will l ;;
    match r with
    | None => kret None
    | Some l => store_table i12 l ;;; kret (Some l)
    end
  else kret (Some zeros).

(** [while (bytes_written < count)]. *)
Fixpoint write_loop (n : nat) (f : Z) (buf all_blocks : list Z) (written count size_left : Z) (first : bool) : M Z :=
  match n with
  | O => kfail Diverges
  | S n =>
      if written <? count then
        fl <- get_file f ;;
        i <- get_inode (fd_inode fl) ;;
        let sec_idx := i_size i / BLOCK_SIZE in
        sec_lba <- klift (rd all_blocks sec_idx) ;;
        let sec_off_bytes := i_size i mod BLOCK_SIZE in
        let sec_left_bytes := BLOCK_SIZE - sec_off_bytes in
        let chunk_size := if size_left <? sec_left_bytes then size_left else sec_left_bytes in
        io_buf <- (if first then ide_read sec_lba 1 else kret (replicate 512 0)) ;;
        src <- klift (slice buf written chunk_size) ;;
        io_buf <- klift (splice io_buf sec_off_bytes src) ;;
        ide_write sec_lba io_buf 1 ;;;
        put_inode (fd_inode fl) (set_i_size (u32 (i_size i + chunk_size)) i) ;;;
        put_file f (File (u32 (fd_pos fl + chunk_size)) (fd_flag fl) (fd_inode fl)) ;;;
        write_loop n f buf all_blocks (u32 (written + chunk_size)) count (u32 (size_left - chunk_size)) false
      else kret written
  end.

(** [n] rounds are enough for [count] bytes. *)
Definition rounds (count : Z) : nat := Z.to_nat (count / BLOCK_SIZE + 3).

Definition file_write (f : Z) (buf : list Z) (count : Z) : M Z :=
  fl <- get_file f ;;
  let p := fd_inode fl in
  i <- get_inode p ;;
  if BLOCK_SIZE * 140 <? u32 (i_size i + count) then kret (-1)
  else
    io_buf <- malloc 512 ;;
    if io_buf =? 0 then kret (-1)
    else
      blocks <- malloc (140 * 4) ;;
      if blocks =? 0 then kret (-1)
      else
        v0 <- klift (rd (i_sectors i) 0) ;;
        b <- get_sb ;;
        ok <- (if v0 =? 0 then
                 block_lba <- block_bitmap_alloc ;;
                 if block_lba =? -1 then kret false
                 else
                   set_sector p 0 block_lba ;;;
                   ASSERT (negb (u32 (block_lba - data_start_lba b) =? 0)) ;;;
                   sync_alloc block_lba (data_start_lba b) ;;;
                   kret true
               else kret true) ;;
        if negb (ok : bool) then kret (-1)
        else
          let file_has_used_blocks := i_size i / BLOCK_SIZE + 1 in
          let file_will_use_blocks := u32 (i_size i + count) / BLOCK_SIZE + 1 in
          ASSERT (file_will_use_blocks <=? 140) ;;;
          r <- collect_blocks p file_has_used_blocks file_will_use_blocks ;;
          match r with
          | None => kret (-1)
          | Some all_blocks =>
              fl <- get_file f ;;
              put_file f (File (u32 (i_size i - 1)) (fd_flag fl) (fd_inode fl)) ;;;
              written <- write_loop (rounds count) f buf all_blocks 0 count count true ;;
              i' <- get_inode p ;;
              inode_sync i' ;;;
              free blocks ;;;
              free io_buf ;;;
              kret (i32 written)
          end.

(** ** Reading *)

(** [while (block_idx <= end) all_blocks[block_idx] = i_sectors[block_idx]]. *)
Fixpoint copy_blocks (n : nat) (i : inode) (k last : Z) (all_blocks : list Z) : outcome (list Z) :=
  match n with
  | O => Err Diverges
  | S n =>
      if k <=? last then
        let? l := copy_block i k all_blocks in
        copy_blocks n i (k + 1) last l
      else Ok all_blocks
  end.

Definition blocks_to_read (i : inode) (start last : Z) : M (list Z) :=
  let zeros := replicate 140 0 in
  i12 <- klift (rd (i_sectors i) 12) ;;
  if last =? start then
    if last <? 12 then klift (copy_block i last zeros)
    else read_table i12 zeros
  else if last <? 12 then klift (copy_blocks 14 i start last zeros)
  else if (start <? 12) && (12 <=? last) then
    l <- klift (copy_blocks 14 i start 11 zeros) ;;
    ASSERT (negb (i12 =? 0)) ;;;
    read_table i12 l
  else
    ASSERT (negb (i12 =? 0)) ;;;
    read_table i12 zeros.

(** [while (bytes_read < size)]; [out] is what was copied to the caller's buffer. *)
Fixpoint read_file_loop (n : nat) (f : Z) (all_blocks : list Z) (out : list Z) (bytes_read size size_left : Z) :
    M (Z * list Z) :=
  match n with
  | O => kfail Diverges
  | S n =>
      if bytes_read <? size then
        fl <- get_file f ;;
        let sec_idx := fd_pos fl / BLOCK_SIZE in
        sec_lba <- klift (rd all_blocks sec_idx) ;;
        let sec_off_bytes := fd_pos fl mod BLOCK_SIZE in
        let sec_left_bytes := BLOCK_SIZE - sec_off_bytes in
        let chunk_size := if size_left <? sec_left_bytes then size_left else sec_left_bytes in
        io_buf <- ide_read sec_lba 1 ;;
        chunk <- klift (slice io_buf sec_off_bytes chunk_size) ;;
        put_file f (File (u32 (fd_pos fl + chunk_size)) (fd_flag fl) (fd_inode fl)) ;;;
        read_file_loop n f all_blocks (out ++ chunk) (u32 (bytes_read + chunk_size)) size (u32 (size_left - chunk_size))
      else kret (bytes_read, out)
  end.

(** The C result and the bytes written to the caller's buffer. *)
Definition file_read (f : Z) (count : Z) : M (Z * list Z) :=
  fl <- get_file f ;;
  i <- get_inode (fd_inode fl) ;;
  let over := i_size i <? u32 (fd_pos fl + count) in
  let size := if over then u32 (i_size i - fd_pos fl) else count in
  if over && (size =? 0) then kret (-1, [])
  else
    io_buf <- malloc BLOCK_SIZE ;;
    if io_buf =? 0 then kret (-1, [])
    else
      blocks <- malloc (140 * 4) ;;
      if blocks =? 0 then kret (-1, [])
      else
        let block_read_start_idx := fd_pos fl / BLOCK_SIZE in
        let block_read_end_idx := u32 (fd_pos fl + size) / BLOCK_SIZE in
        ASSERT ((block_read_start_idx <? 139) && (block_read_end_idx <? 139)) ;;;
        all_blocks <- blocks_to_read i block_read_start_idx block_read_end_idx ;;
        r <- read_file_loop (rounds size) f all_blocks [] 0 size size ;;
        free blocks ;;;
        free io_buf ;;;
        kret (i32 r.1, r.2).

End file.

(** ** The bytes of a file *)

Fixpoint blocks_bytes (sec : Z -> list Z) (l : list Z) : list Z :=
  match l with [] => [] | blk :: l => sec blk ++ blocks_bytes sec l end.

Lemma blocks_bytes_take sec l q off c :
  (forall x, length (sec x) = 512%nat) -> (q < length l)%nat -> (off + c <= 512)%nat ->
  take c (drop (512 * q + off) (blocks_bytes sec l)) = take c (drop off (sec (nth q l 0))).
Proof.
  intros Hs. revert q. induction l as [|b l IH]; intros q Hq Hc; [simpl in Hq; lia|].
  cbn [blocks_bytes]. destruct q as [|q].
  - rewrite Nat.mul_0_r, Nat.add_0_l, drop_app_le by (rewrite Hs; lia). cbn [nth].
    apply take_app_le. rewrite length_drop, Hs. lia.
  - replace (512 * S q + off)%nat with (length (sec b) + (512 * q + off))%nat by (rewrite Hs; lia).
    rewrite drop_app_add. cbn [nth]. apply IH; simpl in Hq; lia.
Qed.

Lemma blocks_bytes_length sec l :
  (forall x, length (sec x) = 512%nat) -> length (blocks_bytes sec l) = (512 * length l)%nat.
Proof. intros Hs. induction l as [|b l IH]; [done|]. simpl. rewrite length_app, Hs, IH. lia. Qed.

Lemma words_length b n : length (words b n) = n.
Proof. revert b. induction n as [|n IH]; intros b; simpl; auto. Qed.

Lemma blocks_bytes_ext sec sec' l : (forall x, sec' x = sec x) -> blocks_bytes sec' l = blocks_bytes sec l.
Proof. intros Hs. induction l as [|b l IH]; [done|]. simpl. by rewrite Hs, IH. Qed.

Section file_properties.
Context {D H : Type} `{!BlockDev D, !KernelHeap H, !BlockDevLaws D, !KernelHeapLaws H}.
Implicit Types (s : fs D H).

(** The contents of the file of inode [i]. *)
Definition content s (i : inode) : list Z :=
  take (Z.to_nat (i_size i)) (blocks_bytes (sector (f_dev s)) (blocks_of s i)).

Lemma blocks_of_length s i : length (i_sectors i) = 13%nat -> length (blocks_of s i) = 140%nat.
Proof.
  intros Hl. unfold blocks_of. rewrite length_app, length_take, Hl. destruct (decide _).
  - by rewrite length_replicate.
  - by rewrite words_length.
Qed.

(** File [f] is open on inode [i], whose blocks are on the disk as far as it has data. *)
Record file_ok s (f : Z) (fl : file) (i : inode) : Prop := {
  fk_file : rd (f_files s) f = Ok fl;
  fk_inode : f_inodes s !! fd_inode fl = Some i;
  fk_sectors : length (i_sectors i) = 13%nat;
  fk_table : on_disk (nth 12 (i_sectors i) 0);
  fk_indirect : 12 * 512 <= i_size i -> nth 12 (i_sectors i) 0 <> 0;
  fk_blocks : forall k : nat, 512 * Z.of_nat k < i_size i -> on_disk (nth k (blocks_of s i) 0);
  fk_dev : disk_ready (f_dev s)
}.

Lemma get_file_run s f fl : rd (f_files s) f = Ok fl -> get_file f s = Ok (fl, s).
Proof. unfold get_file. by intros ->. Qed.

Lemma put_file_run s f fl fl' :
  rd (f_files s) f = Ok fl -> put_file f fl' s = Ok (tt, set_f_files (<[Z.to_nat f := fl']> (f_files s)) s).
Proof.
  intros Hf. apply rd_inv in Hf as [H0 Hl]. unfold put_file. rewrite wr_Ok; [done|].
  apply lookup_lt_Some in Hl. lia.
Qed.

Definition with_pos (f : Z) (fl : file) (pos : Z) (s : fs D H) : fs D H :=
  set_f_files (<[Z.to_nat f := File pos (fd_flag fl) (fd_inode fl)]> (f_files s)) s.

Lemma rd_with_pos s f fl pos :
  rd (f_files s) f = Ok fl -> rd (f_files (with_pos f fl pos s)) f = Ok (File pos (fd_flag fl) (fd_inode fl)).
Proof.
  intros Hf. apply rd_inv in Hf as [H0 Hl]. apply rd_insert_eq. apply lookup_lt_Some in Hl. lia.
Qed.

(** One round of the loop: the bytes up to the end of the sector or of the request. *)
Lemma read_file_loop_run n s f fl L B out br size left :
  disk_ready (f_dev s) -> rd (f_files s) f = Ok fl -> length L = 140%nat -> length B = 140%nat ->
  0 <= fd_pos fl -> 0 <= left -> 0 <= br -> left = size - br -> fd_pos fl + left <= 140 * 512 -> size < 2 ^ 32 ->
  (left = 0 -> (0 < n)%nat) -> (0 < left -> fd_pos fl mod 512 + left + 512 <= 512 * Z.of_nat n) ->
  (forall k : nat, fd_pos fl - 512 < 512 * Z.of_nat k < fd_pos fl + left -> nth k B 0 = nth k L 0 /\ on_disk (nth k L 0)) ->
  exists d, read_file_loop n f B out br size left s
    = Ok ((size, out ++ take (Z.to_nat left) (drop (Z.to_nat (fd_pos fl)) (blocks_bytes (sector (f_dev s)) L))),
          set_f_dev d (with_pos f fl (fd_pos fl + left) s)) /\
    disk_ready d /\ (forall x, sector d x = sector (f_dev s) x).
Proof.
  intros Hd Hf HL HB Hp Hl Hbr Hleft Hmax Hsz. revert s fl out br left Hd Hf Hp Hl Hbr Hleft Hmax.
  induction n as [|n IH]; intros s fl out br left Hd Hf Hp Hl Hbr Hleft Hmax Hn0 Hn Hblk.
  { exfalso. pose proof (Z.mod_pos_bound (fd_pos fl) 512). destruct (decide (left = 0)) as [E|E]; [specialize (Hn0 E)|]; lia. }
  cbn [read_file_loop]. destruct (Z.ltb_spec br size) as [Hlt|Hge].
  2: { exists (f_dev s). assert (left = 0) as -> by lia. split; [|done]. change (Z.to_nat 0) with 0%nat.
    rewrite take_0, app_nil_r, Z.add_0_r. replace br with size by lia. do 2 f_equal. unfold with_pos.
    apply rd_inv in Hf as [_ Hf]. rewrite list_insert_id; [by destruct s|]. rewrite Hf. by destruct fl. }
  rewrite (kbind_ok _ _ _ _ _ (get_file_run s f fl Hf)). set (q := Z.to_nat (fd_pos fl / 512)).
  pose proof (Z.div_mod (fd_pos fl) 512 ltac:(lia)) as Hdm. pose proof (Z.mod_pos_bound (fd_pos fl) 512 ltac:(lia)) as Hmb.
  assert (0 <= fd_pos fl / 512) by (apply Z.div_pos; lia).
  assert (Hq : (q < 140)%nat) by lia.
  destruct (Hblk q ltac:(lia)) as [HBq Hqd]. unfold BLOCK_SIZE.
  rewrite (kbind_ok _ _ s (nth q L 0) s).
  2: { unfold klift. replace (fd_pos fl / 512) with (Z.of_nat q) by lia. rewrite rd_nth by lia. by rewrite HBq. }
  set (off := fd_pos fl mod 512) in *.
  set (c := if left <? 512 - off then left else 512 - off).
  assert (Hc : 0 < c <= left /\ off + c <= 512 /\ (c = left \/ off + c = 512)).
  { unfold c. destruct (Z.ltb_spec left (512 - off)); lia. }
  destruct (read_one s _ Hd Hqd) as (d & Hr & Hd2 & Hs). rewrite (kbind_ok _ _ _ _ _ Hr).
  set (chunk := take (Z.to_nat c) (drop (Z.to_nat off) (sector (f_dev s) (nth q L 0)))).
  assert (Hsl : forall x, length (sector (f_dev s) x) = 512%nat) by (intros; by apply sector_len).
  rewrite (kbind_ok _ _ _ chunk (set_f_dev d s)).
  2: { unfold klift. rewrite slice_Ok; [done|lia|lia|rewrite Hsl; lia]. }
  rewrite (kbind_ok _ _ _ tt (set_f_dev d (with_pos f fl (fd_pos fl + c) s))).
  2: { rewrite (put_file_run _ f fl) by done. rewrite u32_small by lia. done. }
  rewrite (u32_small (br + c)), (u32_small (left - c)) by lia.
  destruct (IH (set_f_dev d (with_pos f fl (fd_pos fl + c) s)) (File (fd_pos fl + c) (fd_flag fl) (fd_inode fl))
    (out ++ chunk) (br + c) (left - c)) as (d2 & Hrun & Hd3 & Hs2); simpl; try done; try lia.
  { by apply rd_with_pos. }
  { intros Hpos. assert (E : (fd_pos fl + c) mod 512 = 0); [|lia]. replace (fd_pos fl + c) with ((fd_pos fl / 512 + 1) * 512) by lia.
    by apply Z.mod_mul. }
  { intros k Hk. apply Hblk. lia. }
  exists d2. split; [|split; [done|]].
  - rewrite Hrun. simpl f_dev. do 2 f_equal; [f_equal|].
    + rewrite <- app_assoc. f_equal. rewrite (blocks_bytes_ext _ _ _ Hs).
      replace (Z.to_nat left) with (Z.to_nat c + Z.to_nat (left - c))%nat by lia.
      rewrite <- take_take_drop, drop_drop. f_equal.
      * unfold chunk. rewrite <- (blocks_bytes_take _ L q (Z.to_nat off)) by (done || lia).
        do 2 f_equal. lia.
      * cbn [fd_pos]. by replace (Z.to_nat (fd_pos fl + c)) with (Z.to_nat (fd_pos fl) + Z.to_nat c)%nat by lia.
    + unfold with_pos. simpl. rewrite list_insert_insert_eq. replace (fd_pos fl + c + (left - c)) with (fd_pos fl + left) by lia. by destruct s.
  - intros x. rewrite Hs2. simpl. apply Hs.
Qed.

Lemma nth_insert (l : list Z) k v x :
  (k < length l)%nat -> nth x (<[k := v]> l) 0 = if decide (x = k) then v else nth x l 0.
Proof.
  intros Hk. rewrite !nth_lookup. case_decide as E.
  - subst x. by rewrite list_lookup_insert_eq.
  - by rewrite list_lookup_insert_ne.
Qed.

Lemma blocks_of_direct s i k : length (i_sectors i) = 13%nat -> (k < 12)%nat -> nth k (blocks_of s i) 0 = nth k (i_sectors i) 0.
Proof.
  intros Hl Hk. unfold blocks_of. rewrite app_nth1 by (rewrite length_take; lia).
  by rewrite !nth_lookup, lookup_take_lt by lia.
Qed.

(** The table read behind the direct blocks agrees with [blocks_of]. *)
Lemma blocks_of_table s i (l : list Z) k :
  length (i_sectors i) = 13%nat -> length l = 140%nat -> nth 12 (i_sectors i) 0 <> 0 ->
  let B := take 12 l ++ words (sector (f_dev s) (nth 12 (i_sectors i) 0)) 128 in
  length B = 140%nat /\ ((12 <= k)%nat -> nth k B 0 = nth k (blocks_of s i) 0) /\
  ((k < 12)%nat -> nth k B 0 = nth k l 0).
Proof.
  intros Hl Hll H12. cbv zeta. split; [|split].
  - rewrite length_app, length_take, words_length, Hll. done.
  - intros Hk. unfold blocks_of. rewrite decide_False by done.
    rewrite !app_nth2 by (rewrite length_take; lia). by rewrite !length_take, Hl, Hll.
  - intros Hk. rewrite app_nth1 by (rewrite length_take; lia). by rewrite !nth_lookup, lookup_take_lt by lia.
Qed.

Lemma copy_block_run i (k : nat) l :
  (k < length (i_sectors i))%nat -> (k < length l)%nat ->
  copy_block i (Z.of_nat k) l = Ok (<[k := nth k (i_sectors i) 0]> l).
Proof.
  intros H1 H2. unfold copy_block. rewrite rd_nth by done. cbn [obind]. rewrite wr_Ok by lia. by rewrite Nat2Z.id.
Qed.

Lemma copy_blocks_run n i (k last : nat) l :
  (last < length (i_sectors i))%nat -> length l = 140%nat -> (last < 140)%nat -> (last + 1 - k < n)%nat ->
  exists l', copy_blocks n i (Z.of_nat k) (Z.of_nat last) l = Ok l' /\ length l' = 140%nat /\
    forall x, nth x l' 0 = if decide (k <= x <= last)%nat then nth x (i_sectors i) 0 else nth x l 0.
Proof.
  revert k l. induction n as [|n IH]; intros k l H1 H2 H3 Hn; [lia|]. cbn [copy_blocks].
  destruct (Z.leb_spec (Z.of_nat k) (Z.of_nat last)) as [Hle|Hgt].
  - rewrite copy_block_run by lia. cbn [obind]. replace (Z.of_nat k + 1) with (Z.of_nat (S k)) by lia.
    destruct (IH (S k) (<[k := nth k (i_sectors i) 0]> l)) as (l' & Hr & Hl' & Hx); try done; try lia.
    { by rewrite length_insert. }
    exists l'. split; [done|]. split; [done|]. intros x. rewrite Hx, nth_insert by lia. repeat case_decide; try lia; by subst.
  - exists l. split; [done|]. split; [done|]. intros x. rewrite decide_False; [done|lia].
Qed.

Lemma read_table_run s i l :
  disk_ready (f_dev s) -> on_disk (nth 12 (i_sectors i) 0) ->
  exists d, read_table (nth 12 (i_sectors i) 0) l s
    = Ok (take 12 l ++ words (sector (f_dev s) (nth 12 (i_sectors i) 0)) 128, set_f_dev d s) /\
    disk_ready d /\ (forall x, sector d x = sector (f_dev s) x).
Proof.
  intros Hd Ho. destruct (read_one s _ Hd Ho) as (d & Hr & Hd2 & Hs). exists d. split; [|done].
  unfold read_table. by rewrite (kbind_ok _ _ _ _ _ Hr).
Qed.

Lemma blocks_to_read_run s i (a b : nat) :
  disk_ready (f_dev s) -> length (i_sectors i) = 13%nat -> on_disk (nth 12 (i_sectors i) 0) ->
  (a <= b)%nat -> (b < 139)%nat -> ((12 <= b)%nat -> nth 12 (i_sectors i) 0 <> 0) ->
  exists B s', blocks_to_read i (Z.of_nat a) (Z.of_nat b) s = Ok (B, s') /\ same_disk s s' /\ length B = 140%nat /\
    forall k, (a <= k <= b)%nat -> nth k B 0 = nth k (blocks_of s i) 0.
Proof.
  intros Hd Hl Ho Hab Hb H12. unfold blocks_to_read. cbv zeta.
  set (zeros := replicate 140 0). assert (Hz : length zeros = 140%nat) by done. clearbody zeros. rewrite (kbind_ok _ _ s (nth 12 (i_sectors i) 0) s) by (unfold klift; by rewrite (rd_nth _ 12) by lia).
  assert (Hdir : forall l : list Z, length l = 140%nat -> (forall k, (a <= k <= b)%nat -> nth k l 0 = nth k (i_sectors i) 0) ->
    (b < 12)%nat -> exists B s', (kret l : KM (fs D H) (list Z)) s = Ok (B, s') /\ same_disk s s' /\ length B = 140%nat /\
      forall k, (a <= k <= b)%nat -> nth k B 0 = nth k (blocks_of s i) 0).
  { intros l Hll Hk Hb12. exists l, s. split; [done|]. split; [by apply same_disk_refl|]. split; [done|].
    intros k Hk2. rewrite blocks_of_direct by (done || lia). by apply Hk. }
  assert (Htab : forall l : list Z, length l = 140%nat -> (12 <= b)%nat ->
    (forall k, (a <= k < 12)%nat -> nth k l 0 = nth k (i_sectors i) 0) ->
    exists B s', read_table (nth 12 (i_sectors i) 0) l s = Ok (B, s') /\ same_disk s s' /\ length B = 140%nat /\
      forall k, (a <= k <= b)%nat -> nth k B 0 = nth k (blocks_of s i) 0).
  { intros l Hll Hb12 Hk. destruct (read_table_run s i l Hd Ho) as (d & Hr & Hd2 & Hs). eexists _, _. split; [exact Hr|].
    split; [by exists d|]. split; [by apply (blocks_of_table s i l 0%nat); auto|]. intros k Hk2.
    destruct (blocks_of_table s i l k Hl Hll (H12 Hb12)) as (_ & Hhi & Hlo). destruct (decide (k < 12)%nat) as [Hk12|Hk12].
    - rewrite Hlo, Hk, blocks_of_direct by (done || lia). done.
    - apply Hhi. lia. }
  destruct (Z.eqb_spec (Z.of_nat b) (Z.of_nat a)) as [E|E]; [|destruct (Z.ltb_spec (Z.of_nat b) 12) as [Hlt|Hge]].
  - assert (b = a) as -> by lia. destruct (Z.ltb_spec (Z.of_nat a) 12) as [Hlt|Hge].
    + unfold klift. rewrite copy_block_run by lia. apply Hdir; [by rewrite length_insert| |lia].
      intros k Hk. rewrite nth_insert by lia. rewrite decide_True by lia. f_equal. lia.
    + apply Htab; [done|lia|]. intros. lia.
  - destruct (copy_blocks_run 14 i a b zeros) as (l & Hr & Hll & Hx); try lia. unfold klift. rewrite Hr.
    apply Hdir; [done| |lia]. intros k Hk. by rewrite Hx, decide_True.
  - rewrite (proj2 (Z.leb_le 12 _)) by lia. destruct (Z.ltb_spec (Z.of_nat a) 12) as [Ha|Ha]; cbn [andb].
    + destruct (copy_blocks_run 14 i a 11 zeros) as (l & Hr & Hll & Hx); try lia.
      rewrite (kbind_ok _ _ s l s) by (unfold klift; change 11 with (Z.of_nat 11); by rewrite Hr).
      rewrite (kbind_ok _ _ s tt s) by (unfold ASSERT; by rewrite (proj2 (Z.eqb_neq _ _)) by (apply H12; lia)).
      apply Htab; [done|lia|]. intros k Hk. by rewrite Hx, decide_True by lia.
    + rewrite (kbind_ok _ _ s tt s) by (unfold ASSERT; by rewrite (proj2 (Z.eqb_neq _ _)) by (apply H12; lia)).
      apply Htab; [done|lia|]. intros. lia.
Qed.

(** C2: [file_read] reads the file.  From position [pos] it returns the next bytes of the
    file's contents, as many as were asked for and are left, moves the position behind
    them, and has no other effect: the disk, the inode and the heap are unchanged.  At
    the end of the file it returns -1.  (Files of up to 139 blocks; the assertion on the
    block index stops longer ones.) *)
Theorem file_read_spec s f fl i count r :
  file_ok s f fl i -> room (S (S r)) (f_heap s) -> 0 <= fd_pos fl <= i_size i -> i_size i < 139 * 512 ->
  0 <= count -> fd_pos fl + count < 2 ^ 32 ->
  let n := Z.min count (i_size i - fd_pos fl) in
  (fd_pos fl = i_size i -> 0 < count -> file_read f count s = Ok ((-1, []), s)) /\
  (0 < n -> exists s', quiet (with_pos f fl (fd_pos fl + n) s) s' /\
     file_read f count s = Ok ((n, take (Z.to_nat n) (drop (Z.to_nat (fd_pos fl)) (content s i))), s')).
Proof.
  intros [Hf Hi Hl Ho H12 Hblk Hd] Hroom Hp Hmax Hc Hwrap n.
  assert (Hpre : get_file f s = Ok (fl, s) /\ get_inode (fd_inode fl) s = Ok (i, s)).
  { split; [by apply get_file_run|by apply get_inode_run]. }
  destruct Hpre as [Hgf Hgi]. split.
  - intros Hpe Hc0. unfold file_read. rewrite (kbind_ok _ _ _ _ _ Hgf), (kbind_ok _ _ _ _ _ Hgi).
    rewrite (u32_small (fd_pos fl + count)) by lia. rewrite (proj2 (Z.ltb_lt _ _)) by lia.
    rewrite u32_small by lia. rewrite (proj2 (Z.eqb_eq _ _)) by lia. done.
  - intros Hn. assert (Hnb : n <= i_size i - fd_pos fl /\ n <= count /\ (n < count -> n = i_size i - fd_pos fl)) by (unfold n; lia).
    clearbody n.
    destruct (malloc_run s _ 512 Hroom ltac:(lia)) as (p & h1 & Hm1 & Hp0 & Hf1 & Hl1 & Hr1 & Hu1).
    set (s1 := set_f_heap h1 s).
    destruct (malloc_run s1 _ (140 * 4) Hr1 ltac:(lia)) as (q & h2 & Hm2 & Hq0 & Hf2 & Hl2 & Hr2 & Hu2).
    simpl in Hf2, Hl2, Hu2. set (s2 := set_f_heap h2 s1).
    set (a := Z.to_nat (fd_pos fl / 512)). set (b := Z.to_nat ((fd_pos fl + n) / 512)).
    pose proof (Z.div_mod (fd_pos fl) 512 ltac:(lia)). pose proof (Z.mod_pos_bound (fd_pos fl) 512 ltac:(lia)).
    pose proof (Z.div_mod (fd_pos fl + n) 512 ltac:(lia)). pose proof (Z.mod_pos_bound (fd_pos fl + n) 512 ltac:(lia)).
    assert (0 <= fd_pos fl / 512) by (apply Z.div_pos; lia). assert (0 <= (fd_pos fl + n) / 512) by (apply Z.div_pos; lia).
    assert (Ha : Z.of_nat a = fd_pos fl / 512) by lia. assert (Hb : Z.of_nat b = (fd_pos fl + n) / 512) by lia.
    destruct (blocks_to_read_run s2 i a b) as (B & s3 & Hbr & (d3 & -> & Hd3 & Hs3) & HB & Hnth); try done; try lia.
    set (s3 := set_f_dev d3 s2) in *.
    assert (Hblocks : blocks_of s2 i = blocks_of s i) by done. rewrite Hblocks in Hnth.
    destruct (read_file_loop_run (rounds n) s3 f fl (blocks_of s i) B [] 0 n n) as (d4 & Hrl & Hd4 & Hs4); try done; try lia.
    { by apply blocks_of_length. }
    { intros _. unfold rounds, BLOCK_SIZE. pose proof (Z.div_mod n 512 ltac:(lia)). pose proof (Z.mod_pos_bound n 512 ltac:(lia)).
      assert (0 <= n / 512) by (apply Z.div_pos; lia). lia. }
    { intros k Hk. split; [apply Hnth; lia|]. apply Hblk. lia. }
    set (s4 := set_f_dev d4 (with_pos f fl (fd_pos fl + n) s3)) in *.
    destruct (free_two s s4 p q r) as (h & Hfree & Hlh & Huh); try done.
    { simpl. congruence. } { by rewrite <- Hl1. } { simpl. by rewrite Hl2, Hl1, Hu1. }
    exists (set_f_heap h s4). split.
    { exists d4, h. split; [by destruct s|]. split; [done|]. split; [|done]. intros x. rewrite Hs4. simpl. apply Hs3. }
    unfold file_read. rewrite (kbind_ok _ _ _ _ _ Hgf), (kbind_ok _ _ _ _ _ Hgi).
    rewrite (u32_small (fd_pos fl + count)) by lia.
    set (size := if i_size i <? fd_pos fl + count then _ else _).
    assert (size = n) as -> by (unfold size; destruct (Z.ltb_spec (i_size i) (fd_pos fl + count)); rewrite ?u32_small by lia; lia).
    rewrite (proj2 (Z.eqb_neq n 0)), andb_false_r by lia.
    rewrite (kbind_ok _ _ _ _ _ Hm1), (proj2 (Z.eqb_neq p 0)) by done. fold s1.
    rewrite (kbind_ok _ _ _ _ _ Hm2), (proj2 (Z.eqb_neq q 0)) by done. fold s2. unfold BLOCK_SIZE.
    rewrite u32_small by lia. rewrite !(proj2 (Z.ltb_lt _ _)) by lia.
    rewrite (kbind_ok _ _ s2 tt s2) by done. rewrite <- Ha, <- Hb. rewrite (kbind_ok _ _ _ _ _ Hbr).
    rewrite (kbind_ok _ _ _ _ _ Hrl). cbn [fst snd]. rewrite i32_small by lia. rewrite Hfree. do 3 f_equal.
    rewrite app_nil_l, (blocks_bytes_ext _ _ _ Hs3). unfold content. simpl f_dev.
    rewrite skipn_firstn_comm, take_take. f_equal. lia.
Qed.

(** ** Appending inside of the last block *)

Lemma splice_take (sec src : list Z) off sec' :
  splice sec off src = Ok sec' ->
  take (Z.to_nat off + length src) sec' = take (Z.to_nat off) sec ++ src.
Proof.
  intros Hs. apply splice_inv in Hs as (Ho & Hl & ->). rewrite app_assoc. rewrite take_app_length'; [done|].
  rewrite length_app, length_take. lia.
Qed.

(** The first [q] whole sectors and [off] bytes of the next. *)
Lemma blocks_bytes_prefix sec l q off :
  (forall x, length (sec x) = 512%nat) -> (q < length l)%nat -> (off <= 512)%nat ->
  take (512 * q + off) (blocks_bytes sec l) = blocks_bytes sec (take q l) ++ take off (sec (nth q l 0)).
Proof.
  intros Hs. revert q. induction l as [|b l IH]; intros q Hq Ho; [simpl in Hq; lia|]. cbn [blocks_bytes].
  destruct q as [|q].
  - rewrite Nat.mul_0_r, Nat.add_0_l, take_app_le by (rewrite Hs; lia). done.
  - replace (512 * S q + off)%nat with (length (sec b) + (512 * q + off))%nat by (rewrite Hs; lia).
    rewrite take_app_add, IH by (simpl in Hq; lia). cbn [take blocks_bytes nth]. by rewrite app_assoc.
Qed.

Lemma blocks_bytes_change sec sec' l :
  (forall x, x ∈ l -> sec' x = sec x) -> blocks_bytes sec' l = blocks_bytes sec l.
Proof.
  induction l as [|b l IH]; intros Hs; [done|]. simpl. rewrite Hs by (by apply elem_of_cons; left). f_equal.
  apply IH. intros x Hx. apply Hs. by apply elem_of_cons; right.
Qed.

(** The blocks of the file lie outside of the inode table and are different ones. *)
Record blocks_apart s (i : inode) : Prop := {
  ba_table : forall k : nat, (k < 12)%nat -> 512 * Z.of_nat k <= i_size i ->
    ~ (table_lba s <= nth k (i_sectors i) 0 < table_lba s + 608);
  ba_distinct : forall j k : nat, (j < 12)%nat -> (k < 12)%nat -> 512 * Z.of_nat j <= i_size i -> 512 * Z.of_nat k <= i_size i ->
    nth j (i_sectors i) 0 = nth k (i_sectors i) 0 -> j = k
}.

Lemma write_loop_one n s f fl i B buf count blk sec' :
  disk_ready (f_dev s) -> rd (f_files s) f = Ok fl -> f_inodes s !! fd_inode fl = Some i -> fd_inode fl <> 0 ->
  (1 < n)%nat -> 0 < count -> i_size i mod 512 + count < 512 -> 0 <= i_size i -> i_size i + count < 2 ^ 32 ->
  rd B (i_size i / 512) = Ok blk -> on_disk blk -> count <= Z.of_nat (length buf) ->
  splice (sector (f_dev s) blk) (i_size i mod 512) (take (Z.to_nat count) buf) = Ok sec' ->
  exists d, write_loop n f buf B 0 count count true s =
      Ok (count, set_f_dev d (with_pos f fl (u32 (fd_pos fl + count))
        (set_f_inodes (<[fd_inode fl := set_i_size (i_size i + count) i]> (f_inodes s)) s))) /\
    disk_ready d /\ (forall x, sector d x = if decide (x = blk) then sec' else sector (f_dev s) x).
Proof.
  intros Hd Hf Hi Hp Hn Hc Hoff Hsz Hwrap HB Ho Hbuf Hsec. destruct n as [|[|n]]; [lia|lia|]. cbn [write_loop].
  rewrite (proj2 (Z.ltb_lt 0 count)) by lia. unfold BLOCK_SIZE.
  rewrite (kbind_ok _ _ _ _ _ (get_file_run s f fl Hf)), (kbind_ok _ _ _ _ _ (get_inode_run s _ i Hi)).
  rewrite (kbind_ok _ _ s blk s) by (unfold klift; by rewrite HB).
  rewrite (proj2 (Z.ltb_lt count _)) by lia.
  destruct (read_one s blk Hd Ho) as (d1 & Hr & Hd1 & Hs1). rewrite (kbind_ok _ _ _ _ _ Hr).
  set (s1 := set_f_dev d1 s).
  rewrite (kbind_ok _ _ s1 (take (Z.to_nat count) buf) s1).
  2: { unfold klift. rewrite slice_Ok by lia. change (Z.to_nat 0) with 0%nat. by rewrite drop_0. }
  rewrite (kbind_ok _ _ s1 sec' s1) by (unfold klift; by rewrite Hsec).
  destruct (write_one s1 blk sec') as (d2 & Hw & Hd2 & Hs2); [done|done| |].
  { rewrite (splice_length _ _ _ _ Hsec). by apply sector_len. }
  rewrite (kbind_ok _ _ _ _ _ Hw). set (s2 := set_f_dev d2 s1). rewrite (u32_small (i_size i + count)) by lia.
  rewrite (kbind_ok _ _ _ _ _ (put_inode_run s2 _ _ Hp)). set (s3 := set_f_inodes _ s2).
  rewrite (kbind_ok _ _ _ _ _ (put_file_run s3 f fl _ Hf)). rewrite Z.add_0_l, (u32_small count) by lia.
  rewrite (proj2 (Z.ltb_ge count count)) by lia. exists d2. split; [by destruct s|]. split; [done|].
  intros x. rewrite Hs2. simpl. by rewrite Hs1.
Qed.

Lemma content_direct s i (q off : nat) :
  disk_ready (f_dev s) -> length (i_sectors i) = 13%nat -> (q < 12)%nat -> (off <= 512)%nat -> 
  i_size i = 512 * Z.of_nat q + Z.of_nat off ->
  content s i = blocks_bytes (sector (f_dev s)) (take q (i_sectors i)) ++ take off (sector (f_dev s) (nth q (i_sectors i) 0)).
Proof.
  intros Hd Hl Hq Ho Hsz. unfold content. replace (Z.to_nat (i_size i)) with (512 * q + off)%nat by lia.
  rewrite blocks_bytes_prefix; [|intros; by apply sector_len|rewrite blocks_of_length by done; lia|done].
  rewrite blocks_of_direct by done. do 2 f_equal. unfold blocks_of. rewrite take_app_le by (rewrite length_take; lia).
  rewrite take_take. f_equal. lia.
Qed.

(** No block is missing: the one that is written to is collected. *)
Lemma collect_last s p i (q : nat) :
  f_inodes s !! p = Some i -> length (i_sectors i) = 13%nat -> (q < 12)%nat -> i_size i / 512 = Z.of_nat q ->
  collect_blocks p (i_size i / 512 + 1) (i_size i / 512 + 1) s
  = Ok (Some (<[q := nth q (i_sectors i) 0]> (replicate 140 0)), s).
Proof.
  intros Hi Hl Hq Hsz. unfold collect_blocks. rewrite (kbind_ok _ _ s (sb (f_part s)) s) by done.
  rewrite (kbind_ok _ _ _ _ _ (get_inode_run s p i Hi)).
  rewrite (kbind_ok _ _ s (nth 12 (i_sectors i) 0) s) by (unfold klift; by rewrite (rd_nth _ 12) by lia).
  rewrite Z.sub_diag. change (u32 0 =? 0) with true. cbv iota. rewrite Hsz.
  rewrite (proj2 (Z.leb_le _ _)) by lia. replace (Z.of_nat q + 1 - 1) with (Z.of_nat q) by lia.
  rewrite (kbind_ok _ _ s (<[q := nth q (i_sectors i) 0]> (replicate 140 0)) s); [done|].
  unfold klift. by rewrite copy_block_run by (rewrite ?length_replicate; lia).
Qed.


End file_properties.

(** ** A sample file *)

(** A file of three bytes, open for reading and writing as entry 3 of the file table. *)
Definition sample_data : list Z := [97; 98; 99] ++ replicate 509 0.
Definition sample_file_inode : inode := Inode 7 3 1 1 (2661 :: replicate 12 0).
Definition sample_open : file := File 0 2 0x2100.
Definition sample_file_fs : fs mem_disk bump_heap :=
  Fs (MemDisk {[2661 := sample_data]}) (BumpHeap 0x3000 {[0x2100 := false]} true) sample_part
    {[0x2100 := sample_file_inode]} [0x2100] (<[3%nat := sample_open]> (replicate 32 (File 0 0 0))) ∅
    [0; 1; 2; 3; -1; -1; -1; -1] 0 0x202.

Lemma sample_file_ready : disk_ready (f_dev sample_file_fs).
Proof. apply map_Forall_singleton. reflexivity. Qed.

Lemma sample_file_ok : file_ok sample_file_fs 3 sample_open sample_file_inode.
Proof.
  split; try done.
  - intros k Hk. simpl in Hk. assert (k = 0%nat) as -> by lia. split; vm_compute; done.
  - apply sample_file_ready.
Qed.

Lemma sample_file_room n : room n (f_heap sample_file_fs).
Proof. split; [done|]. apply map_Forall_singleton. done. Qed.

Lemma file_read_spec_witness : exists s', file_read 3 10 sample_file_fs = Ok ((3, [97; 98; 99]), s').
Proof.
  destruct (file_read_spec sample_file_fs 3 sample_open sample_file_inode 10 0 sample_file_ok (sample_file_room 2)) as [_ H];
    try (simpl; lia).
  destruct H as (s' & _ & Hrun); [simpl; lia|]. exists s'. rewrite Hrun. vm_compute. reflexivity.
Defined.

