(* ===== verification/Path.v ===== *)
(** * Path: the path names of fs/fs.c

    [path_parse], [path_depth_cnt] and the search of a file along its path.  A path is a
    byte buffer and an offset; the array [name] of 16 characters is a list that cannot
    grow, so a longer component is an access out of bounds.  [path_depth_cnt] reads its
    array before it has set it when the path has no component: [stack_name] is what the
    stack holds there. *)

From S2P Require Import Prelude Bitmap Interrupt Disk Inode Cstring Words Dir.

Definition MAX_PATH_LEN : Z := 512.
Definition slash : Z := 47.

(** [while ( *(++pathname) == '/');] *)
Fixpoint skip_slashes (n : nat) (m : list Z) (o : Z) : outcome Z :=
  match n with
  | O => Err Diverges
  | S n =>
      let? c := rd m (o + 1) in
      if c =? slash then skip_slashes n m (o + 1) else Ok (o + 1)
  end.

(** The loop that copies a component to [name_store]. *)
Fixpoint copy_component (n : nat) (m : list Z) (o : Z) (name : list Z) (k : Z) : outcome (Z * list Z) :=
  match n with
  | O => Err Diverges
  | S n =>
      let? c := rd m o in
      if negb (c =? slash) && negb (c =? 0) then
        let? name := wr name k c in
        copy_component n m (o + 1) name (k + 1)
      else Ok (o, name)
  end.

(** The rest of the path ([None] for [NULL]) and the array [name_store]. *)
Definition path_parse (m : list Z) (pathname : Z) (name_store : list Z) : outcome (option Z * list Z) :=
  let? c := rd m pathname in
  let? o := (if c =? slash then skip_slashes (S (length m)) m pathname else Ok pathname) in
  let? r := copy_component (S (length m)) m o name_store 0 in
  let? c := rd m r.1 in
  Ok (if c =? 0 then None else Some r.1, r.2).

Definition no_name : list Z := replicate 16 0.

(** The loop of [path_depth_cnt]. *)
Fixpoint depth_loop (n : nat) (m : list Z) (p : option Z) (name : list Z) (depth : Z) : outcome Z :=
  match n with
  | O => Err Diverges
  | S n =>
      let? c := rd name 0 in
      if negb (c =? 0) then
        let depth := u32 (depth + 1) in
        let? name := fill name 0 MAX_FILE_NAME_LEN 0 in
        match p with
        | Some o =>
            let? r := path_parse m o name in
            depth_loop n m r.1 r.2 depth
        | None => depth_loop n m None name depth
        end
      else Ok depth
  end.

Definition path_depth_cnt (stack_name m : list Z) (pathname : Z) : outcome Z :=
  let? r := path_parse m pathname stack_name in
  let? d := depth_loop (S (S (length m))) m r.1 r.2 0 in
  Ok (i32 d).

(** [struct path_search_record]. *)
Record path_search_record : Type := SearchRecord {
  searched_path : list Z; parent_dir : Z; file_type : Z
}.
(** [memset(&searched_record, 0, sizeof(struct path_search_record))]. *)
Definition empty_record : path_search_record := SearchRecord (replicate 512 0) 0 0.

Definition s_root : list Z := [47; 0].
Definition s_root_dot : list Z := [47; 46; 0].
Definition s_root_dotdot : list Z := [47; 46; 46; 0].

(** [!strcmp(pathname, "/") || !strcmp(pathname, "/.") || !strcmp(pathname, "/..")]. *)
Definition is_root (pathname : list Z) : outcome bool :=
  let? a := strcmp pathname 0 s_root 0 in
  if a =? 0 then Ok true else
  let? b := strcmp pathname 0 s_root_dot 0 in
  if b =? 0 then Ok true else
  let? c := strcmp pathname 0 s_root_dotdot 0 in
  Ok (c =? 0).

(** [strcat(searched_path, "/"); strcat(searched_path, name)]. *)
Definition append_component (path name : list Z) : outcome (list Z) :=
  let? len := strlen path (Some 0) in
  let? _ := oassert (len <? 512) in
  let? p := strcat path (Some 0) s_root (Some 0) in
  strcat p (Some 0) name (Some 0).

Section search.
Context {D H : Type} `{!BlockDev D, !KernelHeap H}.
Notation M := (KM (fs D H)).

(** What the loop of [search_file] ends with: a [return] in it, or its condition. *)
Inductive search_end : Type :=
| Found (inode_no : Z) (r : path_search_record)
| Exhausted (r : path_search_record) (parent_inode_no : Z) (dir_e : dir_entry).

Fixpoint search_loop (n : nat) (m : list Z) (sub_path : option Z) (name : list Z) (pdir parent_inode_no : Z)
    (dir_e : dir_entry) (r : path_search_record) : M search_end :=
  match n with
  | O => kfail Diverges
  | S n =>
      c <- klift (rd name 0) ;;
      if negb (c =? 0) then
        path <- klift (append_component (searched_path r) name) ;;
        let r := SearchRecord path (parent_dir r) (file_type r) in
        found <- search_dir_entry pdir name dir_e ;;
        let dir_e := found.2 in
        if (found.1 : bool) then
          name <- klift (fill name 0 MAX_FILE_NAME_LEN 0) ;;
          p <- klift (match sub_path with
                      | Some o => path_parse m o name
                      | None => Ok (None, name) end) ;;
          if f_type dir_e =? FT_DIRECTORY then
            d <- get_dir pdir ;;
            i <- get_inode (d_inode d) ;;
            dir_close pdir ;;;
            pdir' <- dir_open (de_i_no dir_e) ;;
            search_loop n m p.1 p.2 pdir' (i_no i) dir_e (SearchRecord (searched_path r) pdir' (file_type r))
          else if f_type dir_e =? FT_REGULAR then
            kret (Found (i32 (de_i_no dir_e)) (SearchRecord (searched_path r) (parent_dir r) FT_REGULAR))
          else search_loop n m p.1 p.2 pdir parent_inode_no dir_e r
        else kret (Found (-1) r)
      else kret (Exhausted r parent_inode_no dir_e)
  end.

(** The inode number or -1, and the record.  [stack_e] is what the stack held in [dir_e],
    which nothing writes when the path has no component. *)
Definition search_file (stack_e : dir_entry) (pathname : list Z) (r : path_search_record) : M (Z * path_search_record) :=
  root <- klift (is_root pathname) ;;
  if (root : bool) then
    path <- klift (wr (searched_path r) 0 0) ;;
    kret (0, SearchRecord path root_dir FT_DIRECTORY)
  else
    path_len <- klift (strlen pathname (Some 0)) ;;
    c <- klift (rd pathname 0) ;;
    ASSERT ((c =? slash) && (1 <? path_len) && (path_len <? MAX_PATH_LEN)) ;;;
    p <- klift (path_parse pathname 0 no_name) ;;
    e <- search_loop (S (S (length pathname))) pathname p.1 p.2 root_dir 0 stack_e
           (SearchRecord (searched_path r) root_dir FT_UNKNOWN) ;;
    match e with
    | Found inode_no r => kret (inode_no, r)
    | Exhausted r parent_inode_no dir_e =>
        dir_close (parent_dir r) ;;;
        pdir <- dir_open parent_inode_no ;;
        kret (i32 (de_i_no dir_e), SearchRecord (searched_path r) pdir FT_DIRECTORY)
    end.

End search.

(** ** The components of a path *)

(** The reference: what is between the slashes, without the empty pieces. *)
Notation components := (words slash).
Notation no_slash := (free_of slash).
Notation at_boundary := (at_separator slash).
Notation path_shape := (words_shape slash).
Notation components_slash := (words_sep slash).
Notation components_word := (words_word slash).
Notation components_text := (words_text slash).
Notation components_length := (words_count slash).
Notation components_no_slash := (words_free_of slash).

Lemma skip_slashes_spec n m o k t :
  str_at m o (replicate (S k) slash ++ t) -> (forall c u, t = c :: u -> c <> slash) -> (k < n)%nat ->
  skip_slashes n m o = Ok (o + Z.of_nat (S k)).
Proof.
  revert o k. induction n as [|n IH]; intros o k Hs Ht Hn; [lia|]. cbn [skip_slashes].
  pose proof (str_at_cons _ _ _ _ Hs) as (_ & _ & Hs1). destruct k as [|k].
  - destruct (str_at_head _ _ _ Hs1) as (c & Hr & Hc0 & Hc). rewrite Hr. cbn [obind].
    rewrite (proj2 (Z.eqb_neq _ _)); [f_equal; lia|]. destruct t as [|d u].
    + assert (c = 0) as -> by tauto. done.
    + rewrite (Hc d u) by done. by eapply Ht.
  - pose proof (str_at_cons _ _ _ _ Hs1) as (Hr & _ & _). rewrite Hr. cbn [obind]. rewrite Z.eqb_refl.
    rewrite (IH (o + 1) k) by (done || lia). f_equal. lia.
Qed.

Lemma copy_component_spec n m o w rest a b c :
  str_at m o (w ++ rest) -> no_slash w -> at_boundary rest -> length b = length w -> (length w < n)%nat ->
  copy_component n m o (a ++ b ++ c) (Z.of_nat (length a)) = Ok (o + Z.of_nat (length w), a ++ w ++ c).
Proof.
  revert o w a b. induction n as [|n IH]; intros o w a b Hs Hw Hr Hb Hn; [lia|]. cbn [copy_component].
  destruct w as [|x w].
  - destruct (str_at_head _ _ _ Hs) as (d & Hrd & Hd0 & Hd). rewrite Hrd. cbn [obind]. simpl in Hd, Hd0.
    assert (Hf : negb (d =? slash) && negb (d =? 0) = false).
    { destruct Hr as [->|[r ->]].
      - assert (d = 0) as -> by tauto. done.
      - rewrite (Hd slash r) by done. done. }
    rewrite Hf. destruct b; [|done]. simpl. do 2 f_equal. lia.
  - apply list.Forall_cons in Hw as [Hx Hw]. destruct b as [|y b]; [done|].
    apply str_at_cons in Hs as (Hrd & Hx0 & Hs). rewrite Hrd. cbn [obind].
    rewrite !(proj2 (Z.eqb_neq _ _)) by (done || lia). cbn [negb andb]. rewrite <- ?app_comm_cons, wr_mid. cbn [obind].
    replace (Z.of_nat (length a) + 1) with (Z.of_nat (length (a ++ [x]))) by (rewrite length_app; simpl; lia).
    rewrite (IH (o + 1) w (a ++ [x]) b) by (done || (simpl in *; lia)). rewrite <- app_assoc. simpl. do 2 f_equal. lia.
Qed.

(** [path_parse] takes the first component off a path. *)
Lemma path_parse_run m o s name :
  str_at m o s ->
  match components s with
  | [] => path_parse m o name = Ok (None, name)
  | w :: ws =>
      Z.of_nat (length w) <= Z.of_nat (length name) ->
      exists p, path_parse m o name = Ok (p, w ++ drop (length w) name) /\
        match p with
        | None => ws = []
        | Some o' => exists rest, str_at m o' rest /\ components rest = ws /\ (length rest < length s)%nat
        end
  end.
Proof.
  intros Hs. destruct (path_shape s) as (k & w & rest & -> & Hw & Hr & He & Hc). rewrite Hc.
  assert (Hhead : forall c u, w ++ rest = c :: u -> c <> slash).
  { intros c u E. destruct w as [|x w]; [by rewrite He in E by done|]. injection E as -> _. by apply list.Forall_cons in Hw as [? _]. }
  assert (Hstart : (let? c := rd m o in (if c =? slash then skip_slashes (S (length m)) m o else Ok o))
    = Ok (o + Z.of_nat k)).
  { destruct k as [|k].
    - destruct (str_at_head _ _ _ Hs) as (c & Hrd & Hc0 & Hcd). rewrite Hrd. cbn [obind replicate app] in *.
      rewrite (proj2 (Z.eqb_neq _ _)); [f_equal; lia|]. destruct (w ++ rest) as [|d u] eqn:E.
      + assert (c = 0) as -> by tauto. done.
      + rewrite (Hcd d u) by done. by eapply Hhead.
    - pose proof (str_at_cons _ _ _ _ Hs) as (Hrd & _ & _). rewrite Hrd. cbn [obind]. rewrite Z.eqb_refl.
      apply (skip_slashes_spec _ _ _ _ (w ++ rest)); [done|done|]. apply str_fuel in Hs. rewrite length_app, length_replicate in Hs. lia. }
  pose proof (str_at_skip _ _ _ _ Hs) as Hs1. rewrite length_replicate in Hs1.
  assert (Hpre : forall v, (let? r := copy_component (S (length m)) m (o + Z.of_nat k) name 0 in
      let? c := rd m r.1 in Ok (if c =? 0 then None else Some r.1, r.2)) = v -> path_parse m o name = v).
  { intros v <-. unfold path_parse. destruct (rd m o) as [c|e] eqn:Hrd; [|done]. cbn [obind] in *. by rewrite Hstart. }
  assert (Hcopy : Z.of_nat (length w) <= Z.of_nat (length name) ->
    copy_component (S (length m)) m (o + Z.of_nat k) name 0 = Ok (o + Z.of_nat k + Z.of_nat (length w), w ++ drop (length w) name)).
  { intros Hl. rewrite <- (take_drop (length w) name) at 1.
    apply (copy_component_spec _ _ _ w rest [] (take (length w) name)); [done..| |].
    - rewrite length_take. lia.
    - apply str_fuel in Hs1. rewrite length_app in Hs1. lia. }
  destruct w as [|x w].
  - apply Hpre. rewrite Hcopy by (simpl; lia). cbn [obind fst snd]. rewrite He in Hs1 by done. simpl.
    rewrite Z.add_0_r, (str_at_nil _ _ Hs1). cbn [obind]. by rewrite drop_0.
  - intros Hl. pose proof (str_at_skip _ _ _ _ Hs1) as Hs2. destruct (str_at_head _ _ _ Hs2) as (c & Hrd & Hc0 & Hcd).
    set (o' := o + Z.of_nat k + Z.of_nat (length (x :: w))) in *.
    exists (if c =? 0 then None else Some o'). split.
    + apply Hpre. rewrite Hcopy by done. cbn [obind fst snd]. fold o'. rewrite Hrd. done.
    + destruct (Z.eqb_spec c 0) as [E|E].
      * apply Hc0 in E as ->. done.
      * exists rest. split; [done|]. split; [done|]. rewrite !length_app. simpl. lia.
Qed.

(** Every component fits into an array of 16 characters. *)
Definition short_components (s : list Z) : Prop := Forall (fun w => (length w <= 16)%nat) (components s).

(** The first character of the array tells whether there was a component. *)
Lemma name_array w : w <> [] -> is_text w -> (length w <= 16)%nat ->
  length (w ++ drop (length w) no_name) = 16%nat /\ exists c, rd (w ++ drop (length w) no_name) 0 = Ok c /\ c <> 0.
Proof.
  intros Hne Ht Hl. split.
  - rewrite length_app, length_drop. change (length no_name) with 16%nat. lia.
  - destruct w as [|c w]; [done|]. apply list.Forall_cons in Ht as [Hc _]. exists c. split; [done|lia].
Qed.

Lemma depth_loop_run n m s p name c depth :
  is_text s -> short_components s ->
  match p with Some o => str_at m o s | None => s = [] end ->
  length name = 16%nat -> rd name 0 = Ok c -> c <> 0 -> (length (components s) + 1 < n)%nat ->
  0 <= depth -> depth + 1 + Z.of_nat (length (components s)) < 2 ^ 32 ->
  depth_loop n m p name depth = Ok (depth + 1 + Z.of_nat (length (components s))).
Proof.
  revert s p name c depth. induction n as [|n IH]; intros s p name c depth Ht Hsh Hp Hl Hc Hc0 Hn Hd Hmax; [lia|].
  cbn [depth_loop]. rewrite Hc. cbn [obind]. rewrite (proj2 (Z.eqb_neq _ _)) by done. cbn [negb].
  rewrite u32_small by lia. unfold MAX_FILE_NAME_LEN. rewrite fill_Ok by lia. cbn [obind].
  change (Z.to_nat 0) with 0%nat. rewrite take_0, drop_ge by lia. cbn [app]. rewrite app_nil_r.
  change (replicate (Z.to_nat 16) 0) with no_name.
  assert (Hend : forall p', depth_loop n m p' no_name (depth + 1) = Ok (depth + 1)).
  { intros p'. destruct n as [|n']; [lia|]. done. }
  destruct p as [o|].
  2: { subst s. rewrite Hend. simpl. f_equal. lia. }
  pose proof (path_parse_run m o s no_name Hp) as Hpp. destruct (components s) as [|w ws] eqn:Hcomp.
  - rewrite Hpp. cbn [obind fst snd]. rewrite Hend. simpl. f_equal. lia.
  - assert (Hw : w <> [] /\ is_text w) by (apply (components_text s); [done|]; rewrite Hcomp; by apply elem_of_cons; left).
    unfold short_components in Hsh. rewrite Hcomp, list.Forall_cons in Hsh. destruct Hsh as [Hw16 Hws].
    destruct Hpp as (p' & Hrun & Hp'); [change (length no_name) with 16%nat; lia|]. rewrite Hrun. cbn [obind fst snd].
    destruct (name_array w (proj1 Hw) (proj2 Hw) Hw16) as (Hnl & c' & Hc' & Hc0').
    assert (Hrest : exists s', is_text s' /\ short_components s' /\ components s' = ws /\
      match p' with Some o' => str_at m o' s' | None => s' = [] end).
    { destruct p' as [o'|].
      - destruct Hp' as (rest & Hrs & <- & _). exists rest. split; [by destruct Hrs as (_ & ? & _)|]. done.
      - subst ws. exists []. split; [constructor|]. split; [constructor|done]. }
    destruct Hrest as (s' & Ht' & Hsh' & <- & Hs'). simpl in Hn, Hmax.
    rewrite (IH s' p' _ c') by (done || lia). simpl. f_equal. lia.
Qed.

(** [path_parse] takes off one component.  On a path with no component left it returns
    NULL and leaves the array alone; otherwise the array starts with the first component
    (what it held behind it stays) and the result is NULL or the rest of the path, whose
    components are the other ones. *)
Theorem path_parse_spec m o s name w ws :
  str_at m o s ->
  (components s = [] -> path_parse m o name = Ok (None, name)) /\
  (components s = w :: ws -> (length w <= length name)%nat ->
     exists p, path_parse m o name = Ok (p, w ++ drop (length w) name) /\
       (p = None -> ws = []) /\
       (forall o', p = Some o' -> exists rest, str_at m o' rest /\ components rest = ws)).
Proof.
  intros Hs. pose proof (path_parse_run m o s name Hs) as H. split; intros Hc.
  - by rewrite Hc in H.
  - intros Hl. rewrite Hc in H. destruct H as (p & Hrun & Hp); [lia|]. exists p. split; [done|]. destruct p as [o'|].
    + destruct Hp as (rest & H1 & H2 & _). split; [done|]. intros o2 [= <-]. by exists rest.
    + by split.
Qed.

(** [path_depth_cnt] counts the components: it returns, and its result is the number of
    non-empty pieces between the slashes, for every path whose components fit the array
    of 16 characters and that has one at all. *)
Theorem path_depth_cnt_spec stack_name m o s :
  str_at m o s -> length stack_name = 16%nat -> short_components s -> components s <> [] ->
  Z.of_nat (length m) < 2 ^ 31 ->
  path_depth_cnt stack_name m o = Ok (Z.of_nat (length (components s))).
Proof.
  intros Hs Hl Hsh Hne Hm. pose proof (path_parse_run m o s stack_name Hs) as Hpp.
  pose proof (str_fuel _ _ _ Hs) as Hf. pose proof (components_length s) as Hcl.
  destruct (components s) as [|w ws] eqn:Hcomp; [done|].
  assert (Hw : w <> [] /\ is_text w).
  { apply (components_text s); [by destruct Hs as (_ & ? & _)|]. rewrite Hcomp. by apply elem_of_cons; left. }
  pose proof Hsh as Hsh0. unfold short_components in Hsh0. rewrite Hcomp, list.Forall_cons in Hsh0. destruct Hsh0 as [Hw16 Hws].
  destruct Hpp as (p & Hrun & Hp); [rewrite Hl; lia|]. unfold path_depth_cnt. rewrite Hrun. cbn [obind fst snd].
  assert (Hrest : exists s', is_text s' /\ short_components s' /\ components s' = ws /\
    match p with Some o' => str_at m o' s' | None => s' = [] end).
  { destruct p as [o'|].
    - destruct Hp as (rest & Hrs & <- & _). exists rest. split; [by destruct Hrs as (_ & ? & _)|]. done.
    - subst ws. exists []. split; [constructor|]. split; [constructor|done]. }
  destruct Hrest as (s' & Ht' & Hsh' & <- & Hs'). simpl in Hcl.
  assert (Hhead : exists c, rd (w ++ drop (length w) stack_name) 0 = Ok c /\ c <> 0).
  { destruct Hw as [Hwn Hwt]. destruct w as [|c w]; [done|]. apply list.Forall_cons in Hwt as [Hc _]. exists c. split; [done|lia]. }
  destruct Hhead as (c & Hc & Hc0).
  rewrite (depth_loop_run _ m s' p _ c 0).
  - cbn [obind]. rewrite i32_small by lia. f_equal. simpl. lia.
  - done.
  - done.
  - done.
  - rewrite length_app, length_drop. lia.
  - done.
  - done.
  - lia.
  - lia.
  - lia.
Qed.

(** ** The text of a path *)

(** The components [ws] with a slash before each. *)
Definition rendered (ws : list (list Z)) : list Z := concat (map (cons slash) ws).

Lemma rendered_snoc ws w : rendered (ws ++ [w]) = rendered ws ++ slash :: w.
Proof. unfold rendered. rewrite map_app, concat_app. simpl. by rewrite app_nil_r. Qed.

Lemma rendered_cons w ws : rendered (w :: ws) = slash :: w ++ rendered ws.
Proof. done. Qed.

Lemma i8_slash c : 0 < c < 256 -> (i8 c =? u8 slash) = (c =? slash).
Proof. intros Hc. apply i8_ascii; unfold slash; lia. Qed.

Lemma strrchr_step fuel m o c s temp :
  str_at m o (c :: s) ->
  strrchr_loop (S fuel) m o (u8 slash) temp
  = strrchr_loop fuel m (o + 1) (u8 slash) (if c =? slash then Some o else temp) /\ str_at m (o + 1) s.
Proof.
  intros Hs. destruct (str_at_cons _ _ _ _ Hs) as (Hr & Hc & Hs'). split; [|done].
  cbn [strrchr_loop]. rewrite Hr. cbn [obind]. rewrite (proj2 (Z.eqb_neq c 0)) by lia.
  change (negb false) with true. cbv iota. by rewrite i8_slash.
Qed.

Lemma strrchr_none fuel m o s temp :
  str_at m o s -> no_slash s -> (length s < fuel)%nat -> strrchr_loop fuel m o (u8 slash) temp = Ok temp.
Proof.
  revert o s. induction fuel as [|fuel IH]; intros o s Hs Hn Hf; [lia|]. destruct s as [|c s].
  - cbn [strrchr_loop]. by rewrite (str_at_nil _ _ Hs).
  - apply list.Forall_cons in Hn as [Hc Hn]. destruct (strrchr_step fuel m o c s temp Hs) as [-> Hs'].
    rewrite (proj2 (Z.eqb_neq _ _) Hc). apply (IH _ s); [done|done|simpl in Hf; lia].
Qed.

Lemma strrchr_last fuel m o s w temp :
  str_at m o (s ++ slash :: w) -> no_slash w -> (length (s ++ slash :: w) < fuel)%nat ->
  strrchr_loop fuel m o (u8 slash) temp = Ok (Some (o + Z.of_nat (length s))).
Proof.
  revert o s temp. induction fuel as [|fuel IH]; intros o s temp Hs Hn Hf; [lia|]. destruct s as [|c s].
  - destruct (strrchr_step fuel m o slash w temp Hs) as [-> Hs']. simpl in Hf.
    rewrite Z.eqb_refl, (strrchr_none _ _ _ w) by (done || lia). do 2 f_equal. simpl. lia.
  - destruct (strrchr_step fuel m o c (s ++ slash :: w) temp Hs) as [-> Hs']. simpl in Hf.
    rewrite (IH _ s) by (done || lia). do 2 f_equal. simpl length. lia.
Qed.

Definition path_word (w : list Z) : Prop := is_text w /\ no_slash w.

Lemma rendered_text ws : Forall path_word ws -> is_text (rendered ws).
Proof.
  induction 1 as [|w ws [Hw _] _ IH]; [by constructor|]. unfold rendered, is_text. simpl.
  constructor; [unfold slash; lia|]. apply list.Forall_app. split; [exact Hw|exact IH].
Qed.

Lemma components_words s : is_text s -> Forall path_word (components s).
Proof.
  intros Hs. apply list.Forall_forall. intros w Hw.
  split; [by apply (components_text s)|by apply (components_no_slash s)].
Qed.

(** ** A sample path *)

(** The path "//ab/c". *)
Definition sample_path : list Z := [47; 47; 97; 98; 47; 99; 0].
Lemma sample_path_at : str_at sample_path 0 [47; 47; 97; 98; 47; 99].
Proof. split; [lia|]. split; [repeat constructor; lia|by exists []]. Qed.

Lemma path_parse_spec_witness : exists p, path_parse sample_path 0 no_name = Ok (p, [97; 98] ++ drop 2 no_name).
Proof.
  destruct (path_parse_spec sample_path 0 [47; 47; 97; 98; 47; 99] no_name [97; 98] [[99]] sample_path_at) as [_ H].
  destruct H as (p & Hrun & _); [reflexivity|simpl; lia|]. by exists p.
Defined.

Lemma path_depth_cnt_spec_witness : path_depth_cnt (replicate 16 85) sample_path 0 = Ok 2.
Proof.
  apply (path_depth_cnt_spec (replicate 16 85) sample_path 0 [47; 47; 97; 98; 47; 99]).
  - apply sample_path_at.
  - reflexivity.
  - repeat constructor; simpl; lia.
  - done.
  - simpl. lia.
Defined.
