(* ===== verification/Format.v ===== *)
(** * Format: making and mounting a file system (fs/fs.c)

    [partition_format] lays a file system out on a partition, [mount_partition] makes it
    the current one, [filesys_init] does both for the disk's partitions.  The parameter
    [part] of the C functions is an argument here; the buffers a superblock passes
    through are lists of bytes, [pad] is what the stack held in its padding.  The theorems
    state that what is mounted after formatting is what the rest of the file system
    takes for granted. *)

From S2P Require Import Prelude Bitmap Interrupt Disk Inode Cstring Dir.

Definition MAX_FILES_PER_PART : Z := 4096.
Definition BITS_PER_SECTOR : Z := 4096.
Definition FS_MAGIC : Z := 0x19590318.

(** ** The superblock in a sector *)

Definition sb_words (b : super_block) : list Z :=
  [magic b; sb_sec_cnt b; inode_cnt b; part_lba_base b; block_bitmap_lba b; block_bitmap_sects b;
   inode_bitmap_lba b; inode_bitmap_sects b; inode_table_lba b; inode_table_sects b; data_start_lba b;
   root_inode_no b; dir_entry_size b].
Definition sb_bytes (pad : list Z) (b : super_block) : list Z := word_bytes (sb_words b) ++ pad.
Definition sb_of_bytes (l : list Z) : super_block :=
  let w := words l 13 in
  SuperBlock (nth 0 w 0) (nth 1 w 0) (nth 2 w 0) (nth 3 w 0) (nth 4 w 0) (nth 5 w 0) (nth 6 w 0)
    (nth 7 w 0) (nth 8 w 0) (nth 9 w 0) (nth 10 w 0) (nth 11 w 0) (nth 12 w 0).

(** ** Layout *)

Definition inode_bitmap_sects_of : Z := DIV_ROUND_UP MAX_FILES_PER_PART BITS_PER_SECTOR.
Definition inode_table_sects_of : Z := DIV_ROUND_UP (sizeof_inode * MAX_FILES_PER_PART) SECTOR_SIZE.
Definition free_sects (p : partition) : Z :=
  u32 (sec_cnt p - (1 + 1 + inode_bitmap_sects_of + inode_table_sects_of)).
Definition block_bitmap_bit_len (p : partition) : Z :=
  u32 (free_sects p - DIV_ROUND_UP (free_sects p) BITS_PER_SECTOR).

Definition format_sb (p : partition) : super_block :=
  let block_bitmap_sects := DIV_ROUND_UP (block_bitmap_bit_len p) BITS_PER_SECTOR in
  let block_bitmap_lba := u32 (start_lba p + 2) in
  let inode_bitmap_lba := u32 (block_bitmap_lba + block_bitmap_sects) in
  let inode_table_lba := u32 (inode_bitmap_lba + inode_bitmap_sects_of) in
  SuperBlock FS_MAGIC (sec_cnt p) MAX_FILES_PER_PART (start_lba p) block_bitmap_lba block_bitmap_sects
    inode_bitmap_lba inode_bitmap_sects_of inode_table_lba inode_table_sects_of
    (u32 (inode_table_lba + inode_table_sects_of)) 0 sizeof_dir_entry.

(** ** What is written *)

(** [buf[0] |= 1]. *)
Definition mark_first (buf : list Z) : outcome (list Z) :=
  let? v := rd buf 0 in wr buf 0 (Z.lor v 1).

Fixpoint clear_bits (n : nat) (buf : list Z) (byte bit_idx last_bit : Z) : outcome (list Z) :=
  match n with
  | O => Err Diverges
  | S n =>
      if bit_idx <=? last_bit then
        let? v := rd buf byte in
        let? buf := wr buf byte (u8 (Z.land v (Z.lnot (Z.shiftl 1 bit_idx)))) in
        clear_bits n buf byte (u8 (bit_idx + 1)) last_bit
      else Ok buf
  end.

Definition block_bitmap_buf (buf : list Z) (bit_len : Z) : outcome (list Z) :=
  let? buf := mark_first buf in
  let block_bitmap_last_byte := bit_len / 8 in
  let block_bitmap_last_bit := bit_len mod 8 in
  let last_size := u32 (SECTOR_SIZE - block_bitmap_last_byte mod SECTOR_SIZE) in
  let? buf := fill buf block_bitmap_last_byte last_size 255 in
  clear_bits 9 buf block_bitmap_last_byte 0 block_bitmap_last_bit.

(** The inode of the root directory: [i_size], [i_no] and [i_sectors[0]]. *)
Definition root_inode_buf (buf : list Z) (b : super_block) : outcome (list Z) :=
  let? buf := splice buf 4 (le_bytes 4 (u32 (dir_entry_size b * 2))) in
  let? buf := splice buf 0 (le_bytes 4 0) in
  splice buf 16 (le_bytes 4 (data_start_lba b)).

(** The entries [.] and [..] at the start of a directory's first block. *)
Definition dot_entries (buf : list Z) (self parent : Z) : outcome (list Z) :=
  let? buf := splice buf 0 [46] in
  let? buf := splice buf 16 (le_bytes 4 self) in
  let? buf := splice buf 20 (le_bytes 4 FT_DIRECTORY) in
  let? buf := splice buf 24 [46; 46] in
  let? buf := splice buf 40 (le_bytes 4 parent) in
  splice buf 44 (le_bytes 4 FT_DIRECTORY).

(** A partition with its name. *)
Record named_part : Type := NamedPart { part_name : list Z; part_of : partition }.

Section format.
Context {D H : Type} `{!BlockDev D, !KernelHeap H}.
Notation M := (KM (fs D H)).

Definition partition_format (pad : list Z) (part : partition) : M unit :=
  let sb := format_sb part in
  ide_write (u32 (start_lba part + 1)) (sb_bytes pad sb) 1 ;;;
  let sects := if inode_bitmap_sects sb <=? block_bitmap_sects sb then block_bitmap_sects sb else inode_bitmap_sects sb in
  let buf_size := u32 ((if inode_table_sects sb <=? sects then sects else inode_table_sects_of) * SECTOR_SIZE) in
  buf <- malloc buf_size ;;
  buffer buf ;;;
  let zero := replicate (Z.to_nat buf_size) 0 in
  b <- klift (block_bitmap_buf zero (block_bitmap_bit_len part)) ;;
  ide_write (block_bitmap_lba sb) b (block_bitmap_sects sb) ;;;
  b <- klift (mark_first zero) ;;
  ide_write (inode_bitmap_lba sb) b (inode_bitmap_sects sb) ;;;
  b <- klift (root_inode_buf zero sb) ;;
  ide_write (inode_table_lba sb) b (inode_table_sects sb) ;;;
  b <- klift (dot_entries zero 0 0) ;;
  ide_write (data_start_lba sb) b 1 ;;;
  free buf.

(** The body of [mount_partition] for the partition with the right name. *)
Definition mount_found (part : partition) : M unit :=
  sb_buf <- malloc SECTOR_SIZE ;;
  sb_mem <- malloc 512 ;;
  (if sb_mem =? 0 then free sb_buf ;;; PANIC else kret tt) ;;;
  ASSERT (negb (sb_buf =? 0)) ;;;
  data <- ide_read (u32 (start_lba part + 1)) 1 ;;
  let sb := sb_of_bytes data in
  let blen := u32 (block_bitmap_sects sb * SECTOR_SIZE) in
  p <- malloc blen ;;
  (if p =? 0 then PANIC else kret tt) ;;;
  block_bits <- ide_read (block_bitmap_lba sb) (block_bitmap_sects sb) ;;
  let ilen := u32 (inode_bitmap_sects sb * SECTOR_SIZE) in
  p <- malloc ilen ;;
  (if p =? 0 then PANIC else kret tt) ;;;
  inode_bits <- ide_read (inode_bitmap_lba sb) (inode_bitmap_sects sb) ;;
  put_part (Partition (start_lba part) (sec_cnt part) sb (Bitmap blen block_bits) (Bitmap ilen inode_bits)) ;;;
  kmod (set_f_open []) ;;;
  free sb_buf.

(** [mount_partition(pelem, arg)]. *)
Definition mount_partition (elem : named_part) (name : list Z) : M bool :=
  c <- klift (strcmp (part_name elem) 0 name 0) ;;
  if c =? 0 then mount_found (part_of elem) ;;; kret true else kret false.

(** [list_traversal(&partition_list, mount_partition, name)]. *)
Fixpoint mount_loop (l : list named_part) (name : list Z) : M bool :=
  match l with
  | [] => kret false
  | p :: l => r <- mount_partition p name ;; if (r : bool) then kret true else mount_loop l name
  end.

(** The partitions of the slave disk of the first channel: those with sectors and without
    a file system are formatted. *)
Fixpoint format_loop (pad : list Z) (parts : list partition) : M unit :=
  match parts with
  | [] => kret tt
  | part :: parts =>
      (if negb (sec_cnt part =? 0) then
         sb_buf <- ide_read (u32 (start_lba part + 1)) 1 ;;
         if magic (sb_of_bytes sb_buf) =? FS_MAGIC then kret tt else partition_format pad part
       else kret tt) ;;;
      format_loop pad parts
  end.

(** [fd_inode = NULL] in the whole file table. *)
Fixpoint clear_files (n : nat) (fd_idx : Z) : M unit :=
  match n with
  | O => kret tt
  | S n =>
      fl <- get_file fd_idx ;;
      put_file fd_idx (File (fd_pos fl) (fd_flag fl) 0) ;;;
      clear_files n (fd_idx + 1)
  end.

Definition default_part : list Z := [115; 100; 98; 49; 0; 0; 0; 0].

(** [part_idx] is not reset, so that whatever [channel_cnt] is, only the twelve partitions
    [parts] of the first channel's slave are looked at. *)
Definition filesys_init (channel_cnt : Z) (pad : list Z) (parts : list partition) (partition_list : list named_part) : M unit :=
  sb_buf <- malloc 512 ;;
  (if sb_buf =? 0 then PANIC else kret tt) ;;;
  (if 0 <? channel_cnt then format_loop pad parts else kret tt) ;;;
  free sb_buf ;;;
  found <- mount_loop partition_list default_part ;;
  (if (found : bool) then kret tt else kfail OutOfBounds) ;;;
  open_root_dir ;;;
  clear_files 32 0.
End format.

(** ** The numbers of the layout *)

Lemma div_round_up_bits x : 0 < x < 2 ^ 31 ->
  4096 * (DIV_ROUND_UP x BITS_PER_SECTOR - 1) < x <= 4096 * DIV_ROUND_UP x BITS_PER_SECTOR.
Proof.
  intros Hx. unfold DIV_ROUND_UP, BITS_PER_SECTOR. rewrite (u32_small (x + 4096)) by lia.
  rewrite u32_small by lia. pose proof (Z.div_mod (x + 4096 - 1) 4096 ltac:(lia)).
  pose proof (Z.mod_pos_bound (x + 4096 - 1) 4096 ltac:(lia)). lia.
Qed.

(** A partition a file system can be put on: on the disk, and with room for the inode table
    and some blocks. *)
Record format_fits (p : partition) : Prop := {
  ff_start : 0 <= start_lba p;
  ff_room : 700 <= sec_cnt p;
  ff_disk : start_lba p + sec_cnt p <= DISK_SECTORS
}.

Definition fmt_sects (p : partition) : Z := block_bitmap_sects (format_sb p).
Definition fmt_bits (p : partition) : Z := block_bitmap_bit_len p.

Lemma format_numbers p : format_fits p ->
  format_sb p = SuperBlock FS_MAGIC (sec_cnt p) 4096 (start_lba p) (start_lba p + 2) (fmt_sects p)
    (start_lba p + 2 + fmt_sects p) 1 (start_lba p + 3 + fmt_sects p) 608 (start_lba p + 611 + fmt_sects p) 0 24 /\
  0 < fmt_sects p <= 40 /\ 8 <= fmt_bits p /\ 4096 * (fmt_sects p - 1) < fmt_bits p <= 4096 * fmt_sects p /\
  start_lba p + 611 + fmt_sects p + fmt_bits p <= start_lba p + sec_cnt p.
Proof.
  intros [Hs Hr Hd]. unfold fmt_sects, fmt_bits, format_sb, block_bitmap_bit_len, free_sects, DISK_SECTORS in *.
  cbn [block_bitmap_sects]. change inode_bitmap_sects_of with 1. change inode_table_sects_of with 608.
  rewrite (u32_small (sec_cnt p - _)) by lia. set (f := sec_cnt p - (1 + 1 + 1 + 608)).
  pose proof (div_round_up_bits f ltac:(lia)) as H1. set (s1 := DIV_ROUND_UP f _) in *.
  assert (Hf : f = sec_cnt p - 611) by (unfold f; lia). clearbody f s1.
  rewrite (u32_small (f - s1)) by lia. pose proof (div_round_up_bits (f - s1) ltac:(lia)) as H2.
  set (s2 := DIV_ROUND_UP (f - s1) _) in *. clearbody s2. rewrite !u32_small by lia.
  split_and!; try lia. f_equal; lia.
Qed.

(** ** The block bitmap *)

Lemma clear_bits_run n buf byte k last v :
  0 <= byte -> buf !! Z.to_nat byte = Some v -> 0 <= v < 256 -> 0 <= k <= last + 1 -> last < 8 ->
  last + 1 - k < Z.of_nat n ->
  exists v', clear_bits n buf byte k last = Ok (<[Z.to_nat byte := v']> buf) /\ 0 <= v' < 256 /\
    forall j, 0 <= j -> Z.testbit v' j = Z.testbit v j && negb ((k <=? j) && (j <=? last)).
Proof.
  revert buf k v. induction n as [|n IH]; intros buf k v Hb Hv Hr Hk Hl Hn; [lia|]. cbn [clear_bits].
  destruct (Z.leb_spec k last).
  - unfold obind. rewrite (rd_Ok _ _ _ Hb Hv). apply lookup_lt_Some in Hv as Hlt. rewrite wr_Ok by lia.
    set (w := u8 _). assert (Hw : forall j, 0 <= j -> Z.testbit w j = Z.testbit v j && negb (j =? k)).
    { intros j Hj. unfold w, u8. destruct (Z.lt_ge_cases j 8).
      - rewrite Z.mod_pow2_bits_low, Z.land_spec, Z.lnot_spec, shiftl1_testbit by lia.
        f_equal. f_equal. destruct (Z.eqb_spec j k); [by rewrite bool_decide_eq_true_2|by rewrite bool_decide_eq_false_2].
      - rewrite Z.mod_pow2_bits_high by lia. assert (Z.testbit v j = false) as ->; [|done].
        rewrite <- (Z.mod_small v (2 ^ 8)) by lia. by apply Z.mod_pow2_bits_high. }
    rewrite u8_small by lia.
    destruct (IH (<[Z.to_nat byte := w]> buf) (k + 1) w) as (v' & Hrun & Hv' & Hbits); try lia.
    { by apply list_lookup_insert_eq. } { apply u8_range. }
    exists v'. rewrite Hrun, list_insert_insert_eq. split; [done|]. split; [done|].
    intros j Hj. rewrite Hbits, Hw by done. rewrite <- andb_assoc. f_equal.
    destruct (Z.eqb_spec j k), (Z.leb_spec (k + 1) j), (Z.leb_spec k j), (Z.leb_spec j last); simpl; lia.
  - exists v. rewrite list_insert_id by done. split; [done|]. split; [done|]. intros j Hj.
    destruct (Z.leb_spec k j), (Z.leb_spec j last); simpl; rewrite ?andb_true_r; try done; lia.
Qed.

Definition zeros (n : nat) : list Z := replicate n 0.

(** The bitmap marks the root directory's block and everything behind bit [bl]. *)
Lemma block_bitmap_buf_run n bl :
  8 <= bl < 2 ^ 20 -> 512 * (bl / 8 / 512 + 1) <= Z.of_nat n ->
  exists b, block_bitmap_buf (zeros n) bl = Ok b /\ length b = n /\ Forall (fun v => 0 <= v < 256) b /\
    forall i, 0 <= i < 8 * (512 * (bl / 8 / 512 + 1)) ->
      exists v, b !! Z.to_nat (i / 8) = Some v /\ Z.testbit v (i mod 8) = bool_decide (i = 0 \/ bl < i).
Proof.
  intros Hbl Hn. unfold block_bitmap_buf, mark_first, obind, zeros, SECTOR_SIZE.
  assert (H0 : 1 <= bl / 8) by (apply Z.div_le_lower_bound; lia).
  pose proof (Z.div_mod bl 8 ltac:(lia)) as Hd8. pose proof (Z.mod_pos_bound bl 8 ltac:(lia)) as Hm8.
  set (lb := bl / 8) in *. set (lm := bl mod 8) in *.
  pose proof (Z.div_mod lb 512 ltac:(lia)) as Hd5. pose proof (Z.mod_pos_bound lb 512 ltac:(lia)) as Hm5.
  set (q := lb / 512) in *. set (m := lb mod 512) in *. clearbody lb lm q m.
  rewrite (rd_Ok _ 0 0) by (lia || apply lookup_replicate_2; lia).
  change (Z.lor 0 1) with 1. rewrite wr_Ok by (rewrite length_replicate; lia).
  set (b1 := <[Z.to_nat 0 := 1]> _). assert (L1 : length b1 = n) by (unfold b1; by rewrite length_insert, length_replicate).
  rewrite u32_small by lia. rewrite fill_Ok by (rewrite ?L1; lia).
  set (b2 := take _ b1 ++ _).
  assert (L2 : length b2 = n) by (unfold b2; rewrite !length_app, length_take, length_replicate, length_drop, L1; lia).
  assert (G2 : b2 !! Z.to_nat lb = Some 255).
  { unfold b2. rewrite lookup_app_r by (rewrite length_take, L1; lia). rewrite length_take, L1.
    rewrite lookup_app_l by (rewrite length_replicate; lia). apply lookup_replicate_2. lia. }
  destruct (clear_bits_run 9 b2 lb 0 lm 255) as (v & Hrun & Hv & Hbits); [lia..|done|lia|lia|lia|lia|].
  exists (<[Z.to_nat lb := v]> b2). split; [done|]. split; [by rewrite length_insert|].
  assert (Fb : Forall (fun v => 0 <= v < 256) b2).
  { unfold b2. apply list.Forall_app. split; [apply Forall_take|apply list.Forall_app; split; [|apply Forall_drop]].
    - unfold b1. apply Forall_insert; [|lia]. by apply Forall_replicate.
    - by apply Forall_replicate.
    - unfold b1. apply Forall_insert; [|lia]. by apply Forall_replicate. }
  split; [by apply Forall_insert|]. intros i Hi.
  pose proof (Z.div_mod i 8 ltac:(lia)) as Hdi. pose proof (Z.mod_pos_bound i 8 ltac:(lia)) as Hmi.
  set (iq := i / 8) in *. set (im := i mod 8) in *. clearbody iq im.
  destruct (Z.lt_trichotomy iq lb) as [Hlt|[Heq|Hgt]].
  - rewrite list_lookup_insert_ne by lia. unfold b2. rewrite lookup_app_l by (rewrite length_take, L1; lia).
    rewrite lookup_take_lt by lia. unfold b1. destruct (decide (iq = 0)) as [->|].
    + rewrite list_lookup_insert_eq by (rewrite length_replicate; lia). exists 1. split; [done|].
      rewrite testbit_1. apply bool_decide_ext. lia.
    + rewrite list_lookup_insert_ne by lia. rewrite lookup_replicate_2 by lia. exists 0. split; [done|].
      rewrite Z.bits_0. symmetry. apply bool_decide_eq_false. lia.
  - subst iq. rewrite list_lookup_insert_eq by lia. exists v. split; [done|]. rewrite Hbits by lia.
    change 255 with (Z.ones 8). rewrite Z.ones_spec_low by lia. rewrite andb_true_l.
    rewrite (proj2 (Z.leb_le 0 im)) by lia. rewrite andb_true_l.
    destruct (Z.leb_spec im lm); [symmetry; apply bool_decide_eq_false|symmetry; apply bool_decide_eq_true]; lia.
  - rewrite list_lookup_insert_ne by lia. unfold b2.
    rewrite lookup_app_r by (rewrite length_take, L1; lia). rewrite length_take, L1.
    rewrite lookup_app_l by (rewrite length_replicate; lia). rewrite lookup_replicate_2 by lia. exists 255.
    split; [done|]. change 255 with (Z.ones 8). rewrite Z.ones_spec_low by lia.
    symmetry. apply bool_decide_eq_true. lia.
Qed.

(** ** The other buffers *)

Lemma splice_take_first {A} (l : list A) off src l' k :
  splice l off src = Ok l' -> off + Z.of_nat (length src) <= Z.of_nat k -> (k <= length l)%nat ->
  splice (take k l) off src = Ok (take k l') /\ drop k l' = drop k l.
Proof.
  intros H Hk Hl. apply splice_inv in H as (Ho & Hb & ->). split.
  - rewrite splice_Ok by (rewrite ?length_take; lia). f_equal. rewrite take_take, Nat.min_l by lia.
    rewrite take_app_ge by (rewrite length_take; lia). f_equal. rewrite length_take, Nat.min_l by lia.
    rewrite take_app_ge by lia. f_equal. rewrite skipn_firstn_comm. f_equal. lia.
  - rewrite drop_app_ge by (rewrite length_take; lia). rewrite length_take, Nat.min_l by lia.
    rewrite drop_app_ge by lia. rewrite drop_drop. f_equal. lia.
Qed.

(** One [splice] of a run of [memcpy]s, followed on the first [m] elements as well: [L] is
    the length of what it writes to. *)
Ltac splice_step L k m :=
  match goal with
  | |- context [splice ?l k ?src] =>
      let b := fresh "b" in let E := fresh "E" in
      destruct (splice l k src) as [b|] eqn:E;
      [|rewrite splice_Ok in E by (rewrite ?le_bytes_length; simpl length; lia); discriminate E];
      let L1 := fresh "L" in assert (L1 := splice_length _ _ _ _ E); rewrite L in L1;
      let D := fresh "D" in destruct (splice_take_first _ _ _ _ m E) as [-> D];
      [rewrite ?le_bytes_length; simpl length; lia|lia|]
  end.

Lemma take_zeros k n : (k <= n)%nat -> take k (zeros n) = zeros k.
Proof. intros. unfold zeros. rewrite take_replicate. f_equal. lia. Qed.
Lemma drop_zeros k n : drop k (zeros n) = zeros (n - k).
Proof. unfold zeros. by rewrite drop_replicate. Qed.

Lemma mark_first_run n : (1 <= n)%nat -> mark_first (zeros n) = Ok (1 :: zeros (n - 1)).
Proof. intros. destruct n as [|n]; [lia|]. unfold zeros, mark_first, obind. simpl replicate. by rewrite Nat.sub_0_r. Qed.

Definition root_inode (b : super_block) : inode := Inode 0 48 0 0 (data_start_lba b :: replicate 12 0).

Lemma root_inode_buf_run n b :
  dir_entry_size b = 24 -> (76 <= n)%nat -> root_inode_buf (zeros n) b = Ok (pure_bytes (root_inode b) ++ zeros (n - 76)).
Proof.
  intros E Hn. assert (Hshort : root_inode_buf (zeros 76) b = Ok (pure_bytes (root_inode b))).
  { unfold root_inode_buf. rewrite E. reflexivity. }
  rewrite <- (take_zeros 76 n) in Hshort by done. rewrite <- (drop_zeros 76 n). revert Hshort.
  unfold root_inode_buf, obind. rewrite E. assert (L : length (zeros n) = n) by (unfold zeros; apply length_replicate).
  splice_step L 4 76%nat. splice_step L0 0 76%nat. splice_step L1 16 76%nat.
  intros [= <-]. by rewrite <- D, <- D0, <- D1, take_drop.
Qed.

(** A directory sector with just [.] and [..]. *)
Definition dot_entry (self : Z) : dir_entry := DirEntry (46 :: replicate 15 0) self FT_DIRECTORY.
Definition dotdot_entry (parent : Z) : dir_entry := DirEntry (46 :: 46 :: replicate 14 0) parent FT_DIRECTORY.
Definition dot_sector (self parent : Z) : list Z :=
  entry_bytes (dot_entry self) ++ entry_bytes (dotdot_entry parent) ++ zeros 464.

Lemma dot_entries_run n self parent :
  (512 <= n)%nat -> exists b, dot_entries (zeros n) self parent = Ok b /\ take 512 b = dot_sector self parent /\ length b = n.
Proof.
  intros Hn. assert (Hshort : dot_entries (zeros 512) self parent = Ok (dot_sector self parent)) by reflexivity.
  rewrite <- (take_zeros 512 n) in Hshort by done. revert Hshort.
  unfold dot_entries, obind. assert (L : length (zeros n) = n) by (unfold zeros; apply length_replicate).
  splice_step L 0 512%nat. splice_step L0 16 512%nat. splice_step L1 20 512%nat.
  splice_step L2 24 512%nat. splice_step L3 40 512%nat. splice_step L4 44 512%nat.
  intros [= H]. by exists b4.
Qed.

(** ** Regions of the disk *)

(** [sec'] is the disk [sec] after a write: what was written, and what was not. *)
Lemma region_written sec sec' lba b c n :
  (forall x, sec' x = sector_after sec lba b c x) -> c = Z.of_nat n -> (512 * n <= length b)%nat ->
  sectors_from sec' lba n = take (512 * n) b.
Proof.
  intros Hw -> Hb. assert (H : forall m k, (k + m = n)%nat ->
    sectors_from sec' (lba + Z.of_nat k) m = take (512 * m) (drop (512 * k) b)).
  { induction m as [|m IH]; intros k Hk; [by rewrite Nat.mul_0_r|]. cbn [sectors_from].
    replace (lba + Z.of_nat k + 1) with (lba + Z.of_nat (S k)) by lia. rewrite IH by lia.
    rewrite Hw. unfold sector_after at 1. rewrite decide_True by lia.
    replace (Z.to_nat (512 * (lba + Z.of_nat k - lba))) with (512 * k)%nat by lia.
    replace (512 * S m)%nat with (512 + 512 * m)%nat by lia. rewrite <- take_take_drop, drop_drop.
    do 2 f_equal. f_equal. lia. }
  specialize (H n 0%nat eq_refl). by rewrite Z.add_0_r, drop_0 in H.
Qed.

Lemma region_kept sec sec' lba b c base n :
  (forall x, sec' x = sector_after sec lba b c x) ->
  base + Z.of_nat n <= lba \/ lba + c <= base -> sectors_from sec' base n = sectors_from sec base n.
Proof. intros Hw Hd. apply sectors_from_ext. intros x Hx. rewrite Hw. unfold sector_after. rewrite decide_False; [done|lia]. Qed.

Lemma sectors_from_one sec lba : sectors_from sec lba 1 = sec lba.
Proof. simpl. apply app_nil_r. Qed.

Section format_properties.
Context {D H : Type} `{!BlockDev D, !KernelHeap H, !BlockDevLaws D, !KernelHeapLaws H}.
Implicit Types (s : fs D H) (p : partition).

(** What a formatted partition looks like. *)
Record formatted (pad : list Z) p (sec : Z -> list Z) (bbits : list Z) : Prop := {
  fm_super : sec (start_lba p + 1) = sb_bytes pad (format_sb p);
  fm_blocks : sectors_from sec (start_lba p + 2) (Z.to_nat (fmt_sects p)) = bbits;
  fm_blocks_len : Z.of_nat (length bbits) = 512 * fmt_sects p;
  fm_blocks_bytes : Forall (fun v => 0 <= v < 256) bbits;
  fm_block_bits : forall i, 0 <= i < 4096 * fmt_sects p ->
    bit_at (Bitmap (512 * fmt_sects p) bbits) i = bool_decide (i = 0 \/ fmt_bits p < i);
  fm_inodes : sec (start_lba p + 2 + fmt_sects p) = 1 :: zeros 511;
  fm_table : sectors_from sec (start_lba p + 3 + fmt_sects p) 608
    = pure_bytes (root_inode (format_sb p)) ++ zeros (Z.to_nat 311220);
  fm_root : sec (start_lba p + 611 + fmt_sects p) = dot_sector 0 0
}.

Lemma sb_bytes_length pad b : length pad = 460%nat -> length (sb_bytes pad b) = 512%nat.
Proof. intros. unfold sb_bytes. rewrite length_app, word_bytes_length. simpl. lia. Qed.

(** The five writes of [partition_format]. *)
Lemma format_writes s p sbb bb ib tb eb :
  format_fits p -> disk_ready (f_dev s) -> length sbb = 512%nat -> Z.of_nat (length bb) = 311296 ->
  Z.of_nat (length ib) = 311296 -> Z.of_nat (length tb) = 311296 -> Z.of_nat (length eb) = 311296 ->
  exists s1 s2 s3 s4 d,
    ide_write (start_lba p + 1) sbb 1 s = Ok (tt, s1) /\
    (forall h, ide_write (start_lba p + 2) bb (fmt_sects p) (set_f_heap h s1) = Ok (tt, set_f_heap h s2)) /\
    (forall h, ide_write (start_lba p + 2 + fmt_sects p) ib 1 (set_f_heap h s2) = Ok (tt, set_f_heap h s3)) /\
    (forall h, ide_write (start_lba p + 3 + fmt_sects p) tb 608 (set_f_heap h s3) = Ok (tt, set_f_heap h s4)) /\
    (forall h, ide_write (start_lba p + 611 + fmt_sects p) eb 1 (set_f_heap h s4) = Ok (tt, set_f_heap h (set_f_dev d s))) /\
    f_heap s1 = f_heap s /\ disk_ready d /\
    sector d (start_lba p + 1) = sbb /\
    sectors_from (sector d) (start_lba p + 2) (Z.to_nat (fmt_sects p)) = take (512 * Z.to_nat (fmt_sects p)) bb /\
    sector d (start_lba p + 2 + fmt_sects p) = take 512 ib /\
    sectors_from (sector d) (start_lba p + 3 + fmt_sects p) 608 = tb /\
    sector d (start_lba p + 611 + fmt_sects p) = take 512 eb /\
    (forall x, ~ (start_lba p + 1 <= x <= start_lba p + 611 + fmt_sects p) -> sector d x = sector (f_dev s) x).
Proof.
  intros Hf Hd Lsb Lb Li Lt Le. destruct (format_numbers p Hf) as (_ & Hs & Hb & Hbs & Hend).
  pose proof Hf as [F1 F2 F3]. unfold DISK_SECTORS in *.
  destruct (disk_write_spec (f_dev s) (start_lba p + 1) sbb 1) as (d1 & W1 & R1 & S1); [done|unfold DISK_SECTORS; lia..|].
  destruct (disk_write_spec d1 (start_lba p + 2) bb (fmt_sects p)) as (d2 & W2 & R2 & S2); [done|unfold DISK_SECTORS; lia..|].
  destruct (disk_write_spec d2 (start_lba p + 2 + fmt_sects p) ib 1) as (d3 & W3 & R3 & S3); [done|unfold DISK_SECTORS; lia..|].
  destruct (disk_write_spec d3 (start_lba p + 3 + fmt_sects p) tb 608) as (d4 & W4 & R4 & S4); [done|unfold DISK_SECTORS; lia..|].
  destruct (disk_write_spec d4 (start_lba p + 611 + fmt_sects p) eb 1) as (d5 & W5 & R5 & S5); [done|unfold DISK_SECTORS; lia..|].
  exists (set_f_dev d1 s), (set_f_dev d2 s), (set_f_dev d3 s), (set_f_dev d4 s), d5.
  unfold ide_write. simpl f_dev. rewrite W1, W2, W3, W4, W5. split_and!; try done.
  - rewrite <- (sectors_from_one (sector d5)), (region_kept _ _ _ _ _ _ _ S5), (region_kept _ _ _ _ _ _ _ S4),
      (region_kept _ _ _ _ _ _ _ S3), (region_kept _ _ _ _ _ _ _ S2) by lia.
    rewrite (region_written _ _ _ _ _ 1%nat S1) by lia. apply take_ge. lia.
  - rewrite (region_kept _ _ _ _ _ _ _ S5), (region_kept _ _ _ _ _ _ _ S4), (region_kept _ _ _ _ _ _ _ S3) by lia.
    apply (region_written _ _ _ _ _ _ S2); lia.
  - rewrite <- (sectors_from_one (sector d5)), (region_kept _ _ _ _ _ _ _ S5), (region_kept _ _ _ _ _ _ _ S4) by lia.
    apply (region_written _ _ _ _ _ 1%nat S3); lia.
  - rewrite (region_kept _ _ _ _ _ _ _ S5) by lia. rewrite (region_written _ _ _ _ _ 608%nat S4) by lia. apply take_ge. lia.
  - rewrite <- (sectors_from_one (sector d5)). apply (region_written _ _ _ _ _ 1%nat S5); lia.
  - intros x Hx. rewrite S5. unfold sector_after.
    rewrite decide_False, S4 by lia. unfold sector_after. rewrite decide_False, S3 by lia. unfold sector_after.
    rewrite decide_False, S2 by lia. unfold sector_after. rewrite decide_False, S1 by lia. unfold sector_after.
    by rewrite decide_False by lia.
Qed.

Lemma obind_ok {A B} (m : outcome A) (k : A -> outcome B) a : m = Ok a -> obind m k = k a.
Proof. by intros ->. Qed.

Lemma klift_run {A} (m : outcome A) a s : m = Ok a -> klift m s = Ok (a, s).
Proof. unfold klift. by intros ->. Qed.

Lemma partition_format_run pad p s n :
  format_fits p -> disk_ready (f_dev s) -> room (S n) (f_heap s) -> length pad = 460%nat ->
  exists d h bb, partition_format pad p s = Ok (tt, set_f_heap h (set_f_dev d s)) /\
    disk_ready d /\ formatted pad p (sector d) bb /\
    (forall x, ~ (start_lba p + 1 <= x <= start_lba p + 611 + fmt_sects p) -> sector d x = sector (f_dev s) x) /\
    live h = live (f_heap s) /\ room n h /\ heap_user h = heap_user (f_heap s).
Proof.
  intros Hf Hd Hr Hpad. destruct (format_numbers p Hf) as (Esb & Hs & Hb & Hbs & Hend).
  pose proof Hf as [F1 F2 F3]. unfold DISK_SECTORS in *.
  pose proof (Z.div_mod (fmt_bits p) 8 ltac:(lia)) as Hd8. pose proof (Z.mod_pos_bound (fmt_bits p) 8 ltac:(lia)).
  assert (Hq : fmt_sects p - 1 <= fmt_bits p / 8 / 512 <= fmt_sects p).
  { split; [apply Z.div_le_lower_bound; lia|apply Z.div_le_upper_bound; lia]. }
  remember (Z.to_nat 311296) as N eqn:EN. assert (HN : Z.of_nat N = 311296) by lia.
  destruct (block_bitmap_buf_run N (fmt_bits p)) as (bb & Hbb & Lbb & Fbb & Bits); [lia|lia|].
  assert (Hib := mark_first_run (N) ltac:(lia)).
  assert (Htb := root_inode_buf_run (N) (format_sb p) ltac:(by rewrite Esb) ltac:(lia)).
  destruct (dot_entries_run (N) 0 0) as (eb & Heb & Teb & Leb); [lia|].
  set (tb := pure_bytes _ ++ _) in *. set (ib := 1 :: _) in *.
  assert (Ltb : length tb = N).
  { unfold tb. rewrite length_app, pure_bytes_length by done. unfold zeros. rewrite length_replicate. lia. }
  assert (Lib : length ib = N) by (unfold ib, zeros; rewrite length_cons, length_replicate; lia).
  destruct (format_writes s p (sb_bytes pad (format_sb p)) bb ib tb eb) as
    (s1 & s2 & s3 & s4 & d & W1 & W2 & W3 & W4 & W5 & Hh1 & Rd & G1 & G2 & G3 & G4 & G5 & Gout);
    [exact Hf|exact Hd|by apply sb_bytes_length|lia..|].
  destruct (malloc_run s1 n 311296) as (q & h1 & Hm & Hq0 & Hlive & Hl1 & Hr1 & Hu1); [by rewrite Hh1|lia|].
  destruct (free_run (set_f_heap h1 (set_f_dev d s)) n q) as (h2 & Hfree & Hl2 & Hr2 & Hu2); [done|done| |].
  { simpl. by rewrite Hl1, Hu1, lookup_insert_eq. }
  exists d, h2, (take (512 * Z.to_nat (fmt_sects p)) bb). split; [|split; [done|split; [|split; [done|]]]].
  - unfold partition_format. rewrite Esb. cbn [inode_bitmap_sects block_bitmap_sects inode_table_sects block_bitmap_lba
      inode_bitmap_lba inode_table_lba data_start_lba]. rewrite <- Esb. change inode_table_sects_of with 608.
    rewrite (u32_small (start_lba p + 1)) by lia. rewrite (kbind_ok _ _ _ _ _ W1).
    rewrite (proj2 (Z.leb_le 1 _)) by lia. rewrite (proj2 (Z.leb_gt 608 _)) by lia.
    change (u32 (608 * SECTOR_SIZE)) with 311296. rewrite (kbind_ok _ _ _ _ _ Hm).
    rewrite (kbind_ok _ _ _ tt (set_f_heap h1 s1)) by (unfold buffer; by rewrite (proj2 (Z.eqb_neq _ _) Hq0)).
    fold (fmt_bits p). rewrite <- EN. change (replicate N 0) with (zeros N).
    rewrite (kbind_ok _ _ _ _ _ (klift_run _ _ _ Hbb)), (kbind_ok _ _ _ _ _ (W2 h1)).
    rewrite (kbind_ok _ _ _ _ _ (klift_run _ _ _ Hib)), (kbind_ok _ _ _ _ _ (W3 h1)).
    rewrite (kbind_ok _ _ _ _ _ (klift_run _ _ _ Htb)), (kbind_ok _ _ _ _ _ (W4 h1)).
    rewrite (kbind_ok _ _ _ _ _ (klift_run _ _ _ Heb)), (kbind_ok _ _ _ _ _ (W5 h1)).
    rewrite Hfree. by destruct s.
  - assert (Lt : length (take (512 * Z.to_nat (fmt_sects p)) bb) = (512 * Z.to_nat (fmt_sects p))%nat)
      by (rewrite length_take; lia).
    split; [exact G1|exact G2| | | | | |].
    + rewrite Lt. lia.
    + by apply Forall_take.
    + intros i Hi. pose proof (Z.div_mod i 8 ltac:(lia)). pose proof (Z.mod_pos_bound i 8 ltac:(lia)).
      unfold bit_at. cbn [bits]. rewrite lookup_take_lt by lia.
      destruct (Bits i) as (v & -> & ->); [|done]. lia.
    + rewrite G3. unfold ib. rewrite firstn_cons. by rewrite take_zeros by lia.
    + rewrite G4. unfold tb. by replace (N - 76)%nat with (Z.to_nat 311220) by lia.
    + by rewrite G5.
  - rewrite Hl2. simpl. rewrite Hl1, Hh1. rewrite Hh1 in Hlive. split_and!; [|done|by rewrite Hu2; simpl; rewrite Hu1, Hh1].
    by rewrite delete_insert_id.
Qed.

(** ** Mounting *)

Lemma sb_roundtrip pad b :
  Forall (fun w => 0 <= w < 2 ^ 32) (sb_words b) -> sb_of_bytes (sb_bytes pad b) = b.
Proof. intros Hw. unfold sb_of_bytes, sb_bytes. rewrite words_app by done. by destruct b. Qed.

Lemma format_sb_roundtrip pad p : format_fits p -> sb_of_bytes (sb_bytes pad (format_sb p)) = format_sb p.
Proof.
  intros Hf. destruct (format_numbers p Hf) as (E & Hs & Hb & Hbs & Hend). destruct Hf. unfold DISK_SECTORS in *.
  apply sb_roundtrip. rewrite E. set (k := fmt_sects p) in *. clearbody k. unfold sb_words, FS_MAGIC. cbn.
  repeat (apply list.Forall_cons; split; [lia|]). by apply list.Forall_nil.
Qed.

Definition mounted p (bb : list Z) : partition :=
  Partition (start_lba p) (sec_cnt p) (format_sb p) (Bitmap (512 * fmt_sects p) bb) (Bitmap 512 (1 :: zeros 511)).

Lemma mount_found_run pad p s bb n :
  format_fits p -> disk_ready (f_dev s) -> formatted pad p (sector (f_dev s)) bb -> room (4 + n) (f_heap s) ->
  exists d h, mount_found p s = Ok (tt, set_f_heap h (set_f_dev d (set_f_open [] (set_f_part (mounted p bb) s)))) /\
    disk_ready d /\ (forall x, sector d x = sector (f_dev s) x) /\
    (live (f_heap s) ⊆ live h) /\ room n h /\ heap_user h = heap_user (f_heap s).
Proof.
  intros Hf Hd [G1 G2 G3 _ _ G4 _ _] Hr. destruct (format_numbers p Hf) as (Esb & Hs & Hb & Hbs & Hend).
  pose proof Hf as [F1 F2 F3]. unfold DISK_SECTORS in *.
  destruct (malloc_run s _ SECTOR_SIZE Hr) as (q1 & h1 & M1 & N1 & L1 & E1 & R1 & U1); [done|].
  set (s1 := set_f_heap h1 s) in *.
  destruct (malloc_run s1 _ 512 R1) as (q2 & h2 & M2 & N2 & L2 & E2 & R2 & U2); [done|].
  set (s2 := set_f_heap h2 s1) in *.
  destruct (ide_read_run s2 (start_lba p + 1) 1) as (d1 & I1 & D1 & S1); [done|unfold DISK_SECTORS; lia..|].
  set (s3 := set_f_dev d1 s2) in *.
  destruct (malloc_run s3 _ (fmt_sects p * 512) R2) as (q3 & h3 & M3 & N3 & L3 & E3 & R3 & U3); [lia|].
  set (s4 := set_f_heap h3 s3) in *.
  destruct (ide_read_run s4 (start_lba p + 2) (fmt_sects p)) as (d2 & I2 & D2 & S2); [done|unfold DISK_SECTORS; lia..|].
  set (s5 := set_f_dev d2 s4) in *.
  destruct (malloc_run s5 _ 512 R3) as (q4 & h4 & M4 & N4 & L4 & E4 & R4 & U4); [lia|].
  set (s6 := set_f_heap h4 s5) in *.
  destruct (ide_read_run s6 (start_lba p + 2 + fmt_sects p) 1) as (d3 & I3 & D3 & S3); [done|unfold DISK_SECTORS; lia..|].
  set (s7 := set_f_dev d3 s6) in *. set (s8 := set_f_part (mounted p bb) s7). set (s9 := set_f_open [] s8).
  assert (Elive : live h4 = <[q4:=heap_user h3]> (<[q3:=heap_user h2]> (<[q2:=heap_user h1]>
    (<[q1:=heap_user (f_heap s)]> (live (f_heap s)))))) by (rewrite E4; simpl; rewrite E3; simpl; rewrite E2; simpl; by rewrite E1).
  simpl f_heap in *. assert (live h1 !! q1 = Some (heap_user (f_heap s))) as K1 by (rewrite E1; apply lookup_insert_eq).
  assert (q2 <> q1) by (intros ->; congruence).
  assert (live h2 !! q1 = Some (heap_user (f_heap s))) as K2 by (by rewrite E2, lookup_insert_ne).
  assert (q3 <> q1) by (intros ->; congruence).
  assert (live h3 !! q1 = Some (heap_user (f_heap s))) as K3 by (by rewrite E3, lookup_insert_ne).
  assert (q4 <> q1) by (intros ->; congruence).
  destruct (free_run s9 n q1) as (h5 & Hfree & L5 & R5 & U5); [done|done| |].
  { simpl. rewrite E4, lookup_insert_ne by done. rewrite K3. f_equal. congruence. }
  exists d3, h5. split; [|split; [done|split; [|split; [|split]]]].
  - unfold mount_found. rewrite (kbind_ok _ _ _ _ _ M1), (kbind_ok _ _ _ _ _ M2).
    rewrite (kbind_ok _ _ s2 tt s2) by (by rewrite (proj2 (Z.eqb_neq _ _) N2)).
    rewrite (kbind_ok _ _ s2 tt s2) by (by rewrite (proj2 (Z.eqb_neq _ _) N1)).
    rewrite u32_small by lia. rewrite (kbind_ok _ _ _ _ _ I1).
    change (Z.to_nat 1) with 1%nat. rewrite sectors_from_one. change (sector (f_dev s2)) with (sector (f_dev s)).
    rewrite G1, format_sb_roundtrip by done. rewrite Esb. cbn [inode_bitmap_sects block_bitmap_sects block_bitmap_lba inode_bitmap_lba].
    rewrite <- Esb. unfold SECTOR_SIZE. rewrite !u32_small by lia. rewrite (kbind_ok _ _ _ _ _ M3).
    rewrite (kbind_ok _ _ s4 tt s4) by (by rewrite (proj2 (Z.eqb_neq _ _) N3)). rewrite (kbind_ok _ _ _ _ _ I2).
    change (1 * 512) with 512. rewrite (kbind_ok _ _ _ _ _ M4).
    rewrite (kbind_ok _ _ s6 tt s6) by (by rewrite (proj2 (Z.eqb_neq _ _) N4)). rewrite (kbind_ok _ _ _ _ _ I3).
    change (Z.to_nat 1) with 1%nat. rewrite sectors_from_one.
    change (f_dev s6) with d2. change (f_dev s4) with d1. rewrite S2, S1. simpl f_dev. rewrite G4.
    rewrite (sectors_from_ext (sector (f_dev s)) (sector d1)) by (intros; by rewrite S1). rewrite G2.
    rewrite (kbind_ok _ _ s7 tt s8). 2: { unfold s8, mounted, put_part, kmod. by rewrite (Z.mul_comm (fmt_sects p)). }
    rewrite (kbind_ok _ _ s8 tt s9) by done. rewrite Hfree. by destruct s.
  - intros x. rewrite S3. simpl. rewrite S2. simpl. by rewrite S1.
  - rewrite L5. simpl. rewrite Elive. apply map_subseteq_spec. intros q u Hq.
    assert (q <> q1) by (intros ->; congruence). rewrite lookup_delete_ne by done.
    assert (live h1 !! q = Some u) by (by rewrite E1, lookup_insert_ne). assert (q <> q2) by (intros ->; congruence).
    assert (live h2 !! q = Some u) by (by rewrite E2, lookup_insert_ne). assert (q <> q3) by (intros ->; congruence).
    assert (live h3 !! q = Some u) by (by rewrite E3, lookup_insert_ne). assert (q <> q4) by (intros ->; congruence).
    by rewrite !lookup_insert_ne.
  - done.
  - rewrite U5. simpl. congruence.
Qed.

(** ** The start of the file system *)

Lemma mounted_ok p bb : format_fits p -> layout_ok (mounted p bb).
Proof.
  intros Hf. destruct (format_numbers p Hf) as (E & Hs & Hb & Hbs & Hend). destruct Hf.
  split; unfold mounted; cbn [sb start_lba sec_cnt]; rewrite ?E; cbn; change (DIV_ROUND_UP (block_bitmap_bit_len p) BITS_PER_SECTOR) with (fmt_sects p); lia.
Qed.

Definition closed (f : file) : file := File (fd_pos f) (fd_flag f) 0.

Lemma clear_files_run n k s :
  Z.of_nat (length (f_files s)) = Z.of_nat n + Z.of_nat k ->
  clear_files n (Z.of_nat k) s = Ok (tt, set_f_files (take k (f_files s) ++ map closed (drop k (f_files s))) s).
Proof.
  revert k s. induction n as [|n IH]; intros k s Hl; cbn [clear_files].
  - rewrite (take_ge _ k), (drop_ge _ k) by lia. simpl. rewrite app_nil_r. by destruct s.
  - destruct (lookup_lt_is_Some_2 (f_files s) k) as [fl Hfl]; [lia|].
    assert (Hget : get_file (Z.of_nat k) s = Ok (fl, s)).
    { unfold get_file. by rewrite (rd_Ok _ _ fl) by (lia || by rewrite Nat2Z.id). }
    rewrite (kbind_ok _ _ _ _ _ Hget). set (s1 := set_f_files (<[k := closed fl]> (f_files s)) s).
    rewrite (kbind_ok _ _ s tt s1). 2: { unfold put_file. by rewrite wr_Ok, Nat2Z.id by lia. }
    replace (Z.of_nat k + 1) with (Z.of_nat (S k)) by lia. rewrite IH by (unfold s1; simpl; rewrite length_insert; lia).
    unfold s1. cbn [f_files set_f_files]. change (set_f_files ?v (set_f_files _ s)) with (set_f_files v s). do 3 f_equal.
    rewrite (drop_S (f_files s) fl k Hfl). cbn [map]. rewrite drop_insert_lt by lia.
    rewrite (take_S_r _ _ (closed fl)) by (apply list_lookup_insert_eq; lia).
    rewrite take_insert_ge by lia. by rewrite <- app_assoc.
Qed.

Lemma format_loop_empty pad parts s : Forall (fun q => sec_cnt q = 0) parts -> format_loop pad parts s = Ok (tt, s).
Proof. induction 1 as [|q parts Hq _ IH]; [done|]. cbn [format_loop]. by rewrite Hq. Qed.

Lemma data_start_format p : format_fits p -> data_start_lba (format_sb p) = start_lba p + 611 + fmt_sects p.
Proof. intros Hf. destruct (format_numbers p Hf) as [E _]. by rewrite E. Qed.

Lemma root_inode_fits p : format_fits p -> inode_fits (root_inode (format_sb p)).
Proof.
  intros Hf. destruct (format_numbers p Hf) as (_ & Hs & Hb & Hbs & Hend). split; [done|done|done|].
  unfold root_inode. rewrite data_start_format by done. destruct Hf. unfold DISK_SECTORS in *. cbn [i_sectors].
  apply list.Forall_cons. split; [lia|by apply Forall_replicate].
Qed.

(** The disk with a new file system: formatted, mounted, nothing open. *)
Lemma fresh_fs_ok pad p s bb :
  format_fits p -> disk_ready (f_dev s) -> formatted pad p (sector (f_dev s)) bb -> f_part s = mounted p bb ->
  fs_ok s /\ whole_sectors (block_bits s) (block_bitmap_sects (sb (f_part s))) /\
  inode_slot s 0 = pure_bytes (root_inode (format_sb p)).
Proof.
  intros Hf Hd [_ _ G3 G4 G5 _ G6 _] Hp. destruct (format_numbers p Hf) as (E & Hs & Hb & Hbs & Hend). split; [|split].
  - split; [done|]. rewrite Hp. by apply mounted_ok.
  - unfold block_bits. rewrite Hp. unfold mounted, whole_sectors. cbn [block_bitmap sb btmp_bytes_len bits].
    split; [|by rewrite G3]. split; cbn [bits btmp_bytes_len]; [done|lia|lia].
  - unfold inode_slot, inode_table, table_lba. rewrite Hp. unfold mounted. cbn [sb]. rewrite E at 1. cbn [inode_table_lba].
    rewrite G6. change (Z.to_nat (76 * 0)) with 0%nat. rewrite drop_0. by apply take_app_length'.
Qed.

End format_properties.

(** ** An example *)

Lemma sample_format_fits : format_fits sample_part.
Proof. by split. Qed.

