(* ===== verification/Ioqueue.v ===== *)
(** * Ioqueue: device/ioqueue.c

    The ring buffers of the keyboard and of the pipes: 2048 bytes, a lock, and at most one
    waiting producer and consumer.  [ring_get] and [ring_put] are the buffer's part of
    [ioq_getchar] and [ioq_putchar]; [contents] is the queue a ring stands for.  The
    functions themselves run on the state of Sched, where a caller can be put to sleep;
    the queue at address [q] has its lock at [q]. *)

From S2P Require Import Prelude Bitmap Interrupt DList Sched Sync.

Definition bufsize : Z := 2048.

Record ioqueue : Type := IoQueue { producer : Z; consumer : Z; buf : list Z; head : Z; tail : Z }.

Definition set_producer (v : Z) (q : ioqueue) : ioqueue := IoQueue v (consumer q) (buf q) (head q) (tail q).
Definition set_consumer (v : Z) (q : ioqueue) : ioqueue := IoQueue (producer q) v (buf q) (head q) (tail q).

(** ** The ring *)

Definition next_pos (pos : Z) : Z := i32 (Z.rem (i32 (pos + 1)) bufsize).
Definition ring_full (q : ioqueue) : bool := next_pos (head q) =? tail q.
Definition ring_empty (q : ioqueue) : bool := head q =? tail q.

Definition ring_get (q : ioqueue) : outcome (Z * ioqueue) :=
  let? byte := rd (buf q) (tail q) in
  Ok (byte, IoQueue (producer q) (consumer q) (buf q) (head q) (next_pos (tail q))).

Definition ring_put (byte : Z) (q : ioqueue) : outcome ioqueue :=
  let? b := wr (buf q) (head q) byte in
  Ok (IoQueue (producer q) (consumer q) b (next_pos (head q)) (tail q)).

Definition ioq_length (q : ioqueue) : Z :=
  if tail q <=? head q then u32 (head q - tail q) else u32 (bufsize - (tail q - head q)).

(** ** The functions of ioqueue.c *)

(** Where the queues are kept; the page tables do not depend on them. *)
Class IoqStore (P : Type) `{!KernelPages P} : Type := {
  ioqueues : P -> gmap Z ioqueue;
  set_ioqueues : gmap Z ioqueue -> P -> P;
  ioqueues_set : forall v p, ioqueues (set_ioqueues v p) = v;
  addr_v2p_set : forall a v p, addr_v2p a (set_ioqueues v p) = addr_v2p a p
}.

Section ioqueue.
Context {P : Type} `{!KernelPages P, !IoqStore P}.

Definition get_ioq (ioq : Z) : KM (kst P) ioqueue := fun s =>
  match ioqueues (k_pages s) !! ioq with Some q => Ok (q, s) | None => Err OutOfBounds end.
Definition put_ioq (ioq : Z) (q : ioqueue) : KM (kst P) unit :=
  kmod (fun s => set_k_pages (set_ioqueues (<[ioq := q]> (ioqueues (k_pages s))) (k_pages s)) s).

Definition ioqueue_init (ioq : Z) : KM (kst P) unit :=
  lock_init ioq ;;;
  q <- get_ioq ioq ;;
  put_ioq ioq (IoQueue 0 0 (buf q) 0 0).

Definition assert_intr_off : KM (kst P) unit :=
  st <- intr_get_status ;; ASSERT (bool_decide (st = INTR_OFF)).

Definition ioq_full (ioq : Z) : KM (kst P) bool :=
  assert_intr_off ;;; q <- get_ioq ioq ;; kret (ring_full q).
Definition ioq_empty (ioq : Z) : KM (kst P) bool :=
  assert_intr_off ;;; q <- get_ioq ioq ;; kret (ring_empty q).

(** The [waiter] of [ioq_wait] and [wakeup] is the field [producer] or [consumer]. *)
Inductive waiter : Type := Producer | Consumer.
Definition get_waiter (w : waiter) (q : ioqueue) : Z := match w with Producer => producer q | Consumer => consumer q end.
Definition set_waiter (w : waiter) (t : Z) (q : ioqueue) : ioqueue :=
  match w with Producer => set_producer t q | Consumer => set_consumer t q end.

Definition ioq_wait (ioq : Z) (w : waiter) : CM (kst P) unit :=
  atomic (q <- get_ioq ioq ;;
          ASSERT (get_waiter w q =? 0) ;;;
          cur <- running_thread ;;
          put_ioq ioq (set_waiter w cur q)) ;~;
  thread_block TASK_BLOCKED.

Definition wakeup (ioq : Z) (w : waiter) : KM (kst P) unit :=
  q <- get_ioq ioq ;;
  ASSERT (negb (get_waiter w q =? 0)) ;;;
  thread_unblock (get_waiter w q) ;;;
  q <- get_ioq ioq ;;
  put_ioq ioq (set_waiter w 0 q).

(** [while (test(ioq)) { lock_acquire; ioq_wait; lock_release }]; the fuel bounds the
    number of times the thread is woken to find the queue as it was. *)
Fixpoint wait_loop (fuel : nat) (test : Z -> KM (kst P) bool) (ioq : Z) (w : waiter) : CM (kst P) unit :=
  match fuel with
  | O => atomic (kfail Diverges)
  | S fuel =>
      blocked <~ atomic (test ioq) ;;
      if (blocked : bool) then
        lock_acquire (S fuel) ioq ;~;
        ioq_wait ioq w ;~;
        atomic (lock_release ioq) ;~;
        wait_loop fuel test ioq w
      else cret tt
  end.

(** Taking the byte out and waking the producer, and the other way round. *)
Definition take_byte (ioq : Z) : KM (kst P) Z :=
  q <- get_ioq ioq ;;
  r <- klift (ring_get q) ;;
  put_ioq ioq r.2 ;;;
  (if negb (producer q =? 0) then wakeup ioq Producer else kret tt) ;;;
  kret r.1.
Definition add_byte (ioq byte : Z) : KM (kst P) unit :=
  q <- get_ioq ioq ;;
  q' <- klift (ring_put byte q) ;;
  put_ioq ioq q' ;;;
  (if negb (consumer q =? 0) then wakeup ioq Consumer else kret tt).

Definition ioq_getchar (fuel : nat) (ioq : Z) : CM (kst P) Z :=
  atomic assert_intr_off ;~;
  wait_loop fuel ioq_empty ioq Consumer ;~;
  atomic (take_byte ioq).

Definition ioq_putchar (fuel : nat) (ioq byte : Z) : CM (kst P) unit :=
  atomic assert_intr_off ;~;
  wait_loop fuel ioq_full ioq Producer ;~;
  atomic (add_byte ioq byte).
End ioqueue.

(** ** The ring as a queue *)

Record ring_ok (q : ioqueue) : Prop := {
  rg_buf : length (buf q) = Z.to_nat bufsize;
  rg_head : 0 <= head q < bufsize;
  rg_tail : 0 <= tail q < bufsize
}.

(** The [i]-th byte from the tail on, and all of them. *)
Definition ring_at (q : ioqueue) (i : nat) : Z :=
  default 0 (buf q !! Z.to_nat ((tail q + Z.of_nat i) mod bufsize)).
Definition contents (q : ioqueue) : list Z := map (ring_at q) (seq 0 (Z.to_nat (ioq_length q))).

Lemma next_pos_mod p : 0 <= p < bufsize -> next_pos p = (p + 1) mod bufsize.
Proof.
  unfold bufsize. intros Hp. unfold next_pos, bufsize. rewrite (i32_small (p + 1)) by lia. rewrite Z.rem_mod_nonneg by lia.
  pose proof (Z.mod_pos_bound (p + 1) 2048 ltac:(lia)). by rewrite i32_small by lia.
Qed.

Lemma ring_length_mod q : ring_ok q -> ioq_length q = (head q - tail q) mod bufsize.
Proof.
  intros [_ Hh Ht]. unfold ioq_length, bufsize in *. destruct (Z.leb_spec (tail q) (head q)); rewrite u32_small by lia.
  - by rewrite Z.mod_small by lia.
  - apply (Z.mod_unique _ _ (-1)); lia.
Qed.

Lemma ring_length_bound q : ring_ok q -> 0 <= ioq_length q < bufsize.
Proof. intros Hq. rewrite ring_length_mod by done. by apply Z.mod_pos_bound. Qed.

Lemma contents_length q : ring_ok q -> Z.of_nat (length (contents q)) = ioq_length q.
Proof. intros Hq. pose proof (ring_length_bound q Hq). unfold contents. rewrite length_map, length_seq. lia. Qed.

Lemma ring_empty_spec q : ring_ok q -> ring_empty q = bool_decide (contents q = []).
Proof.
  intros Hq. pose proof (contents_length q Hq) as Hl. unfold ring_empty.
  assert (ioq_length q = 0 <-> head q = tail q) as H.
  { destruct Hq as [_ Hh Ht]. unfold ioq_length, bufsize in *.
    destruct (Z.leb_spec (tail q) (head q)); rewrite u32_small by lia; lia. }
  destruct (Z.eqb_spec (head q) (tail q)); symmetry; [apply bool_decide_eq_true|apply bool_decide_eq_false].
  - apply nil_length_inv. lia.
  - intros E. rewrite E in Hl. simpl in Hl. lia.
Qed.

Lemma ring_full_spec q : ring_ok q -> ring_full q = bool_decide (ioq_length q = bufsize - 1).
Proof.
  intros [_ Hh Ht]. unfold ring_full. rewrite next_pos_mod by done. unfold ioq_length, bufsize in *.
  assert (E : (head q + 1) mod 2048 = if decide (head q = 2047) then 0 else head q + 1).
  { case_decide as Hd; [by rewrite Hd|]. rewrite Z.mod_small by lia. done. }
  rewrite E. destruct (Z.leb_spec (tail q) (head q)); rewrite u32_small by lia; case_decide;
    match goal with |- (?a =? ?b) = _ => destruct (Z.eqb_spec a b) end;
    symmetry; try (apply bool_decide_eq_true; lia); apply bool_decide_eq_false; lia.
Qed.

Lemma seq_map_S {A} (f : nat -> A) n : map f (seq 0 (S n)) = f 0%nat :: map (fun i => f (S i)) (seq 0 n).
Proof. simpl. f_equal. rewrite <- seq_shift, map_map. done. Qed.

Lemma mod_step a i : ((a + 1) mod bufsize + i) mod bufsize = (a + (1 + i)) mod bufsize.
Proof. unfold bufsize. rewrite Zplus_mod_idemp_l. f_equal. lia. Qed.

(** Reading takes the first byte of the queue, *)
Lemma ring_get_run q b l :
  ring_ok q -> contents q = b :: l -> exists q', ring_get q = Ok (b, q') /\ ring_ok q' /\ contents q' = l /\
    producer q' = producer q /\ consumer q' = consumer q.
Proof.
  intros Hq Hc. pose proof (contents_length q Hq) as Hl. pose proof (ring_length_bound q Hq) as Hb.
  rewrite Hc in Hl. simpl in Hl. destruct (Hq) as [Lb Hh Ht]. unfold ring_get.
  destruct (rd_lt (buf q) (tail q)) as [v Hv]; [unfold bufsize in *; lia|]. rewrite Hv. simpl.
  set (q' := IoQueue _ _ _ _ _). assert (Hq' : ring_ok q').
  { split; [done|done|]. simpl. rewrite next_pos_mod by done. by apply Z.mod_pos_bound. }
  assert (El : ioq_length q' = ioq_length q - 1).
  { rewrite ring_length_mod in Hl, Hb by done. rewrite !ring_length_mod by done. simpl. rewrite next_pos_mod by done.
    rewrite Zminus_mod_idemp_r. replace (head q - (tail q + 1)) with (head q - tail q - 1) by lia.
    rewrite <- Zminus_mod_idemp_l. apply Z.mod_small. lia. }
  unfold contents in Hc. replace (Z.to_nat (ioq_length q)) with (S (Z.to_nat (ioq_length q'))) in Hc by lia.
  rewrite seq_map_S in Hc. injection Hc as Hb0 Hl0. exists q'. split; [|split; [done|split; [|done]]].
  - do 2 f_equal. rewrite <- Hb0. unfold ring_at. simpl. rewrite Z.add_0_r, Z.mod_small by done.
    apply rd_inv in Hv as [_ Hv]. by rewrite Hv.
  - rewrite <- Hl0. unfold contents. apply map_ext. intros i. unfold ring_at. simpl.
    rewrite next_pos_mod, mod_step by done. do 4 f_equal. lia.
Qed.

(** and writing adds one at the end as long as fewer than 2047 bytes are in the queue. *)
Lemma ring_put_run q b :
  ring_ok q -> Z.of_nat (length (contents q)) + 1 < bufsize ->
  exists q', ring_put b q = Ok q' /\ ring_ok q' /\ contents q' = contents q ++ [b] /\
    producer q' = producer q /\ consumer q' = consumer q.
Proof.
  intros Hq Hroom. rewrite contents_length in Hroom by done. pose proof (ring_length_bound q Hq) as Hb.
  destruct (Hq) as [Lb Hh Ht]. unfold ring_put. rewrite wr_Ok by (unfold bufsize in *; lia). simpl.
  set (q' := IoQueue _ _ _ _ _). assert (Hq' : ring_ok q').
  { split; simpl; [by rewrite length_insert| |done]. rewrite next_pos_mod by done. by apply Z.mod_pos_bound. }
  assert (El : ioq_length q' = ioq_length q + 1).
  { rewrite ring_length_mod in Hroom, Hb by done. rewrite !ring_length_mod by done. simpl. rewrite next_pos_mod by done.
    rewrite Zminus_mod_idemp_l. replace (head q + 1 - tail q) with (head q - tail q + 1) by lia.
    rewrite <- Zplus_mod_idemp_l. apply Z.mod_small. lia. }
  exists q'. split; [done|]. split; [done|]. split; [|done].
  unfold contents. rewrite El. replace (Z.to_nat (ioq_length q + 1)) with (Z.to_nat (ioq_length q) + 1)%nat by lia.
  rewrite seq_app, map_app. simpl.
  assert (Hpos : forall i, 0 <= i <= ioq_length q -> (tail q + i) mod bufsize = head q -> i = ioq_length q).
  { intros i Hi E. rewrite ring_length_mod by done. rewrite <- E, Zminus_mod_idemp_l.
    replace (tail q + i - tail q) with i by lia. symmetry. apply Z.mod_small. lia. }
  f_equal.
  - apply map_ext_in. intros i Hi. apply in_seq in Hi. unfold ring_at. simpl. rewrite list_lookup_insert_ne; [done|].
    pose proof (Z.mod_pos_bound (tail q + Z.of_nat i) bufsize ltac:(done)).
    intros E. assert (Z.of_nat i = ioq_length q) by (apply Hpos; lia). lia.
  - f_equal. unfold ring_at. simpl. rewrite Z2Nat.id by lia.
    assert (E : (tail q + ioq_length q) mod bufsize = head q).
    { rewrite ring_length_mod by done. rewrite Zplus_mod_idemp_r. replace (tail q + (head q - tail q)) with (head q) by lia.
      by apply Z.mod_small. }
    rewrite E, list_lookup_insert_eq; [done|]. unfold bufsize in *. lia.
Qed.

(** ** Readers and writers *)

Section ioqueue_properties.
Context {P : Type} `{!KernelPages P, !IoqStore P}.
Implicit Types (s : kst P) (ioq : Z) (q : ioqueue).

Definition with_ring ioq q s : kst P :=
  set_k_pages (set_ioqueues (<[ioq := q]> (ioqueues (k_pages s))) (k_pages s)) s.
Definition ring_is s ioq q : Prop := ioqueues (k_pages s) !! ioq = Some q.

Lemma get_ioq_run s ioq q : ring_is s ioq q -> get_ioq ioq s = Ok (q, s).
Proof. unfold ring_is, get_ioq. by intros ->. Qed.
Lemma put_ioq_run s ioq q : put_ioq ioq q s = Ok (tt, with_ring ioq q s).
Proof. done. Qed.
Lemma with_ring_is s ioq q : ring_is (with_ring ioq q s) ioq q.
Proof. unfold ring_is, with_ring. simpl. by rewrite ioqueues_set, lookup_insert_eq. Qed.

Lemma core_with_ring s ioq q : core s -> core (with_ring ioq q s).
Proof.
  intros [H1 H2 H3 H4 H5 H6]. split; try done. intros t p Hp. destruct (H6 t p Hp) as (? & ? & Hpg).
  split_and!; try done. intros Hd. destruct (Hpg Hd) as [|[pa Hpa]]; [by left|right].
  exists pa. simpl. by rewrite addr_v2p_set.
Qed.
Lemma sched_ok_with_ring s ioq q : sched_ok s -> sched_ok (with_ring ioq q s).
Proof. intros [H1 H2]. split; [by apply core_with_ring|done]. Qed.

Lemma assert_intr_off_run s : intr_of s = INTR_OFF -> assert_intr_off s = Ok (tt, s).
Proof.
  intros Hoff. unfold assert_intr_off. rewrite (kbind_ok _ _ _ _ _ (intr_get_status_run s)). by rewrite Hoff.
Qed.

Lemma test_run s ioq q :
  intr_of s = INTR_OFF -> ring_is s ioq q ->
  ioq_empty ioq s = Ok (ring_empty q, s) /\ ioq_full ioq s = Ok (ring_full q, s).
Proof.
  intros Hoff Hq. unfold ioq_empty, ioq_full.
  split; by rewrite (kbind_ok _ _ _ _ _ (assert_intr_off_run s Hoff)), (kbind_ok _ _ _ _ _ (get_ioq_run _ _ _ Hq)).
Qed.

Lemma wait_loop_pass (test : Z -> KM (kst P) bool) s ioq w f :
  test ioq s = Ok (false, s) -> wait_loop (S f) test ioq w s = Ok (Return tt, s).
Proof. intros Ht. cbn [wait_loop]. by rewrite (cbind_atomic _ _ _ _ _ Ht). Qed.

(** Waking the waiting thread, if there is one. *)
Definition woken s ts t p : kst P := unblocked t p (general_tag <$> ts) s.

Lemma wakeup_run s ioq w q ts p :
  ring_is s ioq q -> get_waiter w q <> 0 -> ready_is s ts -> k_tasks s !! get_waiter w q = Some p ->
  may_block (t_status p) = true -> unlinked (k_queues s) (general_tag (get_waiter w q)) ->
  wakeup ioq w s = Ok (tt, with_ring ioq (set_waiter w 0 q) (woken s ts (get_waiter w q) p)).
Proof.
  intros Hq Hw Hr Hp Hb Hu. unfold wakeup. rewrite (kbind_ok _ _ _ _ _ (get_ioq_run _ _ _ Hq)).
  rewrite (kbind_ok _ _ s tt s) by (by rewrite (proj2 (Z.eqb_neq _ _) Hw)).
  rewrite (kbind_ok _ _ _ _ _ (thread_unblock_run s _ p _ Hp Hb Hr Hu)).
  exact (kbind_ok _ _ (woken s ts _ p) _ _ (get_ioq_run (woken s ts _ p) ioq q Hq)).
Qed.

(** The thread woken is the first ready one, and the scheduler's state stays well formed. *)
Lemma wakeup_ok s ioq w q ts p :
  sched_ok s -> ring_is s ioq q -> get_waiter w q <> 0 -> ready_is s ts -> k_tasks s !! get_waiter w q = Some p ->
  may_block (t_status p) = true -> unlinked (k_queues s) (general_tag (get_waiter w q)) ->
  exists s', wakeup ioq w s = Ok (tt, s') /\ ring_is s' ioq (set_waiter w 0 q) /\ sched_ok s' /\
    ready_is s' (get_waiter w q :: ts) /\ k_cur s' = k_cur s /\ status s' (get_waiter w q) = Some TASK_READY.
Proof.
  intros Hsok Hq Hw Hr Hp Hb Hu. eexists. split; [by apply (wakeup_run s ioq w q ts p)|].
  destruct (core_make_ready s (get_waiter w q) p (set_t_status TASK_READY p) ts (get_waiter w q :: ts)) as (H1 & H2 & H3); auto.
  { apply Hsok. } { split; by intros E; rewrite E in Hb. }
  split; [apply with_ring_is|]. split; [|split; [exact H2|split; [done|]]].
  - apply sched_ok_with_ring. split; [done|]. change (status (woken s ts (get_waiter w q) p) (k_cur s) = Some TASK_RUNNING).
    unfold woken, unblocked. rewrite H3; [apply Hsok|]. intros E. destruct Hsok as [_ Hs]. rewrite E in Hs.
    unfold status in Hs. rewrite Hp in Hs. injection Hs as Hs. by rewrite Hs in Hb.
  - unfold status. simpl. by rewrite lookup_insert_eq.
Qed.

(** The end of [ioq_getchar]: nobody waits to write, or one thread does. *)
Lemma take_byte_run s ioq q b l :
  ring_is s ioq q -> ring_ok q -> contents q = b :: l -> producer q = 0 ->
  exists q', take_byte ioq s = Ok (b, with_ring ioq q' s) /\ ring_ok q' /\ contents q' = l /\ producer q' = 0.
Proof.
  intros Hq Hok Hc Hp. destruct (ring_get_run q b l Hok Hc) as (q' & Hg & Hok' & Hc' & Hp' & _).
  exists q'. split; [|split_and!; try done; by rewrite Hp']. unfold take_byte.
  rewrite (kbind_ok _ _ _ _ _ (get_ioq_run _ _ _ Hq)). rewrite (kbind_ok _ _ s (b, q') s) by (unfold klift; by rewrite Hg).
  rewrite (kbind_ok _ _ s tt (with_ring ioq q' s)) by done. by rewrite Hp.
Qed.

(** A reader of a queue that has a byte.  [ioq_getchar], called with interrupts off, does
    not wait: it returns the first byte of the queue and leaves the others in order.  When
    a writer waits for room it becomes the first ready thread and no longer waits; nothing
    else changes. *)
Theorem ioq_getchar_ready s ioq q b l f :
  sched_ok s -> intr_of s = INTR_OFF -> ring_is s ioq q -> ring_ok q -> contents q = b :: l ->
  (producer q = 0 -> exists q', ioq_getchar (S f) ioq s = Ok (Return b, with_ring ioq q' s) /\
     ring_ok q' /\ contents q' = l) /\
  (forall ts p, producer q <> 0 -> ready_is s ts -> k_tasks s !! producer q = Some p -> may_block (t_status p) = true ->
     unlinked (k_queues s) (general_tag (producer q)) ->
     exists q' s', ioq_getchar (S f) ioq s = Ok (Return b, s') /\ ring_is s' ioq q' /\ ring_ok q' /\ contents q' = l /\
       producer q' = 0 /\ sched_ok s' /\ ready_is s' (producer q :: ts) /\ k_cur s' = k_cur s /\
       status s' (producer q) = Some TASK_READY).
Proof.
  intros Hsok Hoff Hq Hok Hc.
  assert (Hrun : forall r, take_byte ioq s = Ok r -> ioq_getchar (S f) ioq s = Ok (Return r.1, r.2)).
  { intros [a s'] Ht. unfold ioq_getchar. rewrite (cbind_atomic _ _ _ _ _ (assert_intr_off_run s Hoff)).
    rewrite (cbind_return _ _ s tt s).
    - unfold atomic. by rewrite Ht.
    - apply wait_loop_pass. destruct (test_run s ioq q Hoff Hq) as [-> _]. rewrite ring_empty_spec by done.
      by rewrite Hc. }
  split.
  - intros Hp. destruct (take_byte_run s ioq q b l Hq Hok Hc Hp) as (q' & Ht & Hok' & Hc' & _).
    exists q'. split; [|done]. by apply (Hrun (b, _)).
  - intros ts p Hp Hr Htask Hmb Hu.
    destruct (ring_get_run q b l Hok Hc) as (q' & Hg & Hok' & Hc' & Hp' & _).
    pose proof (wakeup_ok (with_ring ioq q' s) ioq Producer q' ts p (sched_ok_with_ring s ioq q' Hsok) (with_ring_is _ _ _)) as Hw.
    simpl in Hw. rewrite Hp' in Hw. destruct (Hw Hp Hr Htask Hmb Hu) as (s' & Hrunw & H1 & H2 & H3 & H4 & H5).
    exists (set_producer 0 q'), s'. split; [|by split_and!; try done; destruct Hok'].
    apply (Hrun (b, s')). unfold take_byte. rewrite (kbind_ok _ _ _ _ _ (get_ioq_run _ _ _ Hq)).
    rewrite (kbind_ok _ _ s (b, q') s) by (unfold klift; by rewrite Hg).
    rewrite (kbind_ok _ _ s tt (with_ring ioq q' s)) by done. rewrite (proj2 (Z.eqb_neq _ _) Hp). by rewrite (kbind_ok _ _ _ _ _ Hrunw).
Qed.

(** The same for a byte put in: nobody waits to read, or one thread does. *)
Lemma putchar_ready s ioq q b f r :
  intr_of s = INTR_OFF -> ring_is s ioq q -> ring_ok q -> Z.of_nat (length (contents q)) + 1 < bufsize ->
  add_byte ioq b s = Ok r -> ioq_putchar (S f) ioq b s = Ok (Return r.1, r.2).
Proof.
  intros Hoff Hq Hok Hroom Hr. unfold ioq_putchar. rewrite (cbind_atomic _ _ _ _ _ (assert_intr_off_run s Hoff)).
  rewrite (cbind_return _ _ s tt s).
  - unfold atomic. rewrite Hr. by destruct r.
  - apply wait_loop_pass. destruct (test_run s ioq q Hoff Hq) as [_ ->]. rewrite ring_full_spec by done.
    rewrite contents_length in Hroom by done.
    do 2 f_equal. apply bool_decide_eq_false. lia.
Qed.

Lemma add_byte_run s ioq q b :
  ring_is s ioq q -> ring_ok q -> Z.of_nat (length (contents q)) + 1 < bufsize -> consumer q = 0 ->
  exists q', add_byte ioq b s = Ok (tt, with_ring ioq q' s) /\ ring_ok q' /\ contents q' = contents q ++ [b].
Proof.
  intros Hq Hok Hroom Hc. destruct (ring_put_run q b Hok Hroom) as (q' & Hg & Hok' & Hc' & _ & Hcons).
  exists q'. split; [|done]. unfold add_byte. rewrite (kbind_ok _ _ _ _ _ (get_ioq_run _ _ _ Hq)).
  rewrite (kbind_ok _ _ s q' s) by (unfold klift; by rewrite Hg).
  rewrite (kbind_ok _ _ s tt (with_ring ioq q' s)) by done. by rewrite Hc.
Qed.

Lemma add_byte_wakes s ioq q b ts p :
  sched_ok s -> ring_is s ioq q -> ring_ok q -> Z.of_nat (length (contents q)) + 1 < bufsize -> consumer q <> 0 ->
  ready_is s ts -> k_tasks s !! consumer q = Some p -> may_block (t_status p) = true ->
  unlinked (k_queues s) (general_tag (consumer q)) ->
  exists q' s', add_byte ioq b s = Ok (tt, s') /\ ring_is s' ioq q' /\ ring_ok q' /\ contents q' = contents q ++ [b] /\
    consumer q' = 0 /\ sched_ok s' /\ ready_is s' (consumer q :: ts) /\ k_cur s' = k_cur s /\
    status s' (consumer q) = Some TASK_READY.
Proof.
  intros Hsok Hq Hok Hroom Hc Hr Htask Hmb Hu. destruct (ring_put_run q b Hok Hroom) as (q' & Hg & Hok' & Hc' & _ & Hcons).
  pose proof (wakeup_ok (with_ring ioq q' s) ioq Consumer q' ts p (sched_ok_with_ring s ioq q' Hsok) (with_ring_is _ _ _)) as Hw.
  simpl in Hw. rewrite Hcons in Hw. destruct (Hw Hc Hr Htask Hmb Hu) as (s' & Hrunw & H1 & H2 & H3 & H4 & H5).
  exists (set_consumer 0 q'), s'. split; [|by split_and!; try done; destruct Hok'].
  unfold add_byte. rewrite (kbind_ok _ _ _ _ _ (get_ioq_run _ _ _ Hq)).
  rewrite (kbind_ok _ _ s q' s) by (unfold klift; by rewrite Hg).
  rewrite (kbind_ok _ _ s tt (with_ring ioq q' s)) by done. rewrite (proj2 (Z.eqb_neq _ _) Hc). exact Hrunw.
Qed.

Lemma sched_ok_held s L d : sched_ok s -> sched_ok (held L d s).
Proof. by intros [[] ?]. Qed.

(** The lock given back. *)
Definition released ioq s : kst P :=
  set_k_locks (<[ioq := Lock 0 0]> (k_locks s)) (set_k_semas (<[lock_semaphore ioq := 1]> (k_semas s)) s).

Lemma release_run s ioq :
  k_locks s !! ioq = Some (Lock (k_cur s) 1) -> k_semas s !! lock_semaphore ioq = Some 0 ->
  k_queues s !! sema_waiters (lock_semaphore ioq) = Some [] ->
  lock_release ioq s = Ok (tt, released ioq s).
Proof.
  intros Hl Hv Hw. assert (held ioq 1 (released ioq s) = s) as E.
  { unfold held, released. destruct s. unfold set_k_locks, set_k_semas. simpl in *. f_equal.
    - by rewrite insert_insert_eq, insert_id.
    - by rewrite insert_insert_eq, insert_id. }
  rewrite <- E at 1. apply release_last; simpl; [apply lookup_insert_eq|apply lookup_insert_eq|done].
Qed.

Definition queue_free s ioq : Prop := k_locks s !! ioq = Some (Lock 0 0) /\ k_semas s !! lock_semaphore ioq = Some 1.
Definition queue_held s ioq : Prop :=
  k_locks s !! ioq = Some (Lock (k_cur s) 1) /\ k_semas s !! lock_semaphore ioq = Some 0 /\
  k_queues s !! sema_waiters (lock_semaphore ioq) = Some [].

Lemma wait_loop_blocks (test : Z -> KM (kst P) bool) s ioq q w ts f :
  sched_ok s -> intr_of s = INTR_OFF -> ready_is s ts -> k_cur s <> 0 -> ring_is s ioq q -> queue_free s ioq ->
  test ioq s = Ok (true, s) -> get_waiter w q = 0 ->
  exists s' k, wait_loop (S (S f)) test ioq w s = Ok (Suspended k, s') /\ sched_ok s' /\ k_cur s' = hd (k_idle s) ts /\
    ring_is s' ioq (set_waiter w (k_cur s) q) /\ k_locks s' !! ioq = Some (Lock (k_cur s) 1) /\
    (k_cur s' <> k_cur s -> status s' (k_cur s) = Some TASK_BLOCKED) /\
    forall s2, intr_of s2 = INTR_OFF -> queue_held s2 ioq -> test ioq (released ioq s2) = Ok (false, released ioq s2) ->
      k s2 = Ok (Return tt, released ioq s2).
Proof.
  intros Hok Hoff Hts Hc Hq [Hl Hv] Htest Hw0. set (s0 := held ioq 1 s).
  set (s1 := with_ring ioq (set_waiter w (k_cur s) q) s0).
  assert (Hok1 : sched_ok s1) by (apply sched_ok_with_ring, sched_ok_held, Hok).
  destruct (core_block s1 TASK_BLOCKED Hok1 eq_refl (fun _ => eq_refl)) as (p & Hp & Hcore).
  destruct (thread_block_run s1 ts TASK_BLOCKED p Hp eq_refl Hts Hcore)
    as (s' & k & H1 & H2 & H3 & H4 & H5 & H6 & H7 & _ & H8).
  eexists s', _. split.
  { cbn [wait_loop]. rewrite (cbind_atomic _ _ _ _ _ Htest).
    rewrite (cbind_return _ _ _ _ _ (acquire_free s ioq (S f) Hl Hv Hc)). fold s0.
    apply cbind_suspended. unfold ioq_wait. rewrite (cbind_atomic _ _ s0 tt s1); [exact H1|].
    rewrite (kbind_ok _ _ _ _ _ (get_ioq_run s0 ioq q Hq)).
    rewrite (kbind_ok _ _ s0 tt s0) by (by rewrite Hw0). by rewrite (kbind_ok _ _ s0 (k_cur s) s0). }
  split_and!; try done.
  - unfold ring_is. rewrite (fr_pages _ _ H7). exact (with_ring_is s0 ioq _).
  - rewrite (fr_locks _ _ H7). simpl. apply lookup_insert_eq.
  - intros s2 Hoff2 (Hl2 & Hv2 & Hq2) Ht2. change (cbind ?m ?g s2) with (cbind m g s2).
    rewrite (cbind_return _ _ s2 tt s2).
    2: { rewrite H8. change (intr_of s1) with (intr_of s). rewrite Hoff. unfold resume_with. by rewrite intr_off_idemp. }
    rewrite (cbind_atomic _ _ s2 tt (released ioq s2)) by (by apply release_run). by apply wait_loop_pass.
Qed.

(** A reader of an empty queue and a writer to a full one wait.  The caller takes the
    queue's lock, becomes its waiter, is marked BLOCKED and gives the processor to the next
    ready thread; the queue's bytes are kept.  When it is switched to again and the queue
    has a byte, the reader gives the lock back and returns the first byte. *)
Theorem ioq_wait_spec s ioq q ts f :
  sched_ok s -> intr_of s = INTR_OFF -> ready_is s ts -> k_cur s <> 0 -> ring_is s ioq q -> ring_ok q ->
  queue_free s ioq ->
  (contents q = [] -> consumer q = 0 ->
     exists s' k, ioq_getchar (S (S f)) ioq s = Ok (Suspended k, s') /\ sched_ok s' /\ k_cur s' = hd (k_idle s) ts /\
       ring_is s' ioq (set_consumer (k_cur s) q) /\ k_locks s' !! ioq = Some (Lock (k_cur s) 1) /\
       (k_cur s' <> k_cur s -> status s' (k_cur s) = Some TASK_BLOCKED) /\
       forall s2 q2 b l, intr_of s2 = INTR_OFF -> queue_held s2 ioq -> ring_is s2 ioq q2 -> ring_ok q2 ->
         contents q2 = b :: l -> producer q2 = 0 ->
         exists q3, k s2 = Ok (Return b, with_ring ioq q3 (released ioq s2)) /\ contents q3 = l) /\
  (Z.of_nat (length (contents q)) = bufsize - 1 -> producer q = 0 -> forall byte,
     exists s' k, ioq_putchar (S (S f)) ioq byte s = Ok (Suspended k, s') /\ sched_ok s' /\ k_cur s' = hd (k_idle s) ts /\
       ring_is s' ioq (set_producer (k_cur s) q) /\ k_locks s' !! ioq = Some (Lock (k_cur s) 1) /\
       (k_cur s' <> k_cur s -> status s' (k_cur s) = Some TASK_BLOCKED)).
Proof.
  intros Hok Hoff Hts Hc Hq Hrg Hfree. destruct (test_run s ioq q Hoff Hq) as [Te Tf]. split.
  - intros He Hw. rewrite ring_empty_spec, He in Te by done.
    destruct (wait_loop_blocks ioq_empty s ioq q Consumer ts f Hok Hoff Hts Hc Hq Hfree Te Hw)
      as (s' & k & H1 & H2 & H3 & H4 & H5 & H6 & H7).
    eexists s', _. split.
    { unfold ioq_getchar. rewrite (cbind_atomic _ _ _ _ _ (assert_intr_off_run s Hoff)). by apply cbind_suspended. }
    do 5 (split; [done|]). intros s2 q2 b l Hoff2 Hh2 Hq2 Hrg2 Hc2 Hp2.
    destruct (test_run (released ioq s2) ioq q2 Hoff2 Hq2) as [Te2 _]. rewrite ring_empty_spec, Hc2 in Te2 by done.
    destruct (take_byte_run (released ioq s2) ioq q2 b l Hq2 Hrg2 Hc2 Hp2) as (q3 & Ht & _ & Hc3 & _).
    exists q3. split; [|done]. rewrite (cbind_return _ _ s2 tt (released ioq s2)) by (by apply H7).
    unfold atomic. by rewrite Ht.
  - intros Hlen Hw byte. rewrite ring_full_spec in Tf by done. rewrite <- contents_length, Hlen in Tf by done.
    rewrite bool_decide_eq_true_2 in Tf by done.
    destruct (wait_loop_blocks ioq_full s ioq q Producer ts f Hok Hoff Hts Hc Hq Hfree Tf Hw)
      as (s' & k & H1 & H2 & H3 & H4 & H5 & H6 & _).
    eexists s', _. split; [|done].
    unfold ioq_putchar. rewrite (cbind_atomic _ _ _ _ _ (assert_intr_off_run s Hoff)). by apply cbind_suspended.
Qed.
End ioqueue_properties.

(** ** An example: a queue at 0x9000 *)

#[export] Instance queue_pages : KernelPages (gmap Z ioqueue) := {|
  get_kernel_pages := fun _ p => Ok (0xc0100000, p);
  mfree_kernel_page := fun _ _ p => Ok p;
  addr_v2p := fun a _ => Ok a
|}.
#[export] Program Instance queue_store : IoqStore (gmap Z ioqueue) := {|
  ioqueues := id; set_ioqueues := fun v _ => v
|}.
Next Obligation. done. Qed.
Next Obligation. done. Qed.

Definition sample_ring (bytes : list Z) : ioqueue :=
  IoQueue 0 0 (bytes ++ replicate (2048 - length bytes) 0) (Z.of_nat (length bytes)) 0.

Definition sample_ioq (q : ioqueue) : kst (gmap Z ioqueue) :=
  let s := sample_lock (Lock 0 0) 1 [] in
  KSt (k_eflags s) (k_cur s) (k_tasks s) (k_queues s) (k_semas s) (k_locks s) (k_stack s) (k_idle s) (k_main s)
    (k_pids s) {[0x9000 := q]} (k_cr3 s) (k_esp0 s) (k_jiffies s).

Lemma sample_ioq_ok q : sched_ok (sample_ioq q).
Proof.
  destruct (sample_lock_ok (Lock 0 0) 1 []) as [[H1 H2 H3 H4 H5 H6] Hs]; [by left|].
  split; [|done]. by split.
Qed.

Lemma sample_ring_ok bytes : Z.of_nat (length bytes) < 2048 -> ring_ok (sample_ring bytes).
Proof.
  intros Hl. split; cbn [buf head tail sample_ring]; unfold bufsize; [|lia|lia].
  rewrite length_app, length_replicate. lia.
Qed.

Lemma ioq_getchar_ready_witness : exists q',
  ioq_getchar 1 0x9000 (sample_ioq (sample_ring [97; 98])) =
    Ok (Return 97, with_ring 0x9000 q' (sample_ioq (sample_ring [97; 98]))) /\ contents q' = [98].
Proof.
  destruct (ioq_getchar_ready (sample_ioq (sample_ring [97; 98])) 0x9000 (sample_ring [97; 98]) 97 [98] 0)
    as [H _]; [apply sample_ioq_ok|done|done|by apply sample_ring_ok|by vm_compute|].
  destruct (H eq_refl) as (q' & H1 & _ & H2). by exists q'.
Defined.

Lemma ioq_wait_spec_witness : exists s' k,
  ioq_getchar 2 0x9000 (sample_ioq (sample_ring [])) = Ok (Suspended k, s') /\ k_cur s' = 0x2000 /\
  status s' 0x1000 = Some TASK_BLOCKED.
Proof.
  destruct (ioq_wait_spec (sample_ioq (sample_ring [])) 0x9000 (sample_ring []) [0x2000] 0) as [H _];
    [apply sample_ioq_ok|done|by vm_compute|done|done|by apply sample_ring_ok|by split; vm_compute|].
  destruct (H ltac:(by vm_compute) eq_refl) as (s' & k & H1 & _ & H3 & _ & _ & H6 & _).
  exists s', k. split; [exact H1|]. split; [exact H3|]. apply H6. by rewrite H3.
Defined.
