(* ===== verification/Pipe.v ===== *)
(** * Pipe: shell/pipe.c and fd_local2global of fs/fs.c

    The interface the character side of the file system calls go through (the queues of
    device/ioqueue.c, the keyboard's among them, the kernel pages pipes live in, the
    console), the state with both sides, and pipes.  An entry of [file_table] is a pipe
    when its [fd_flag] is [PIPE_FLAG]; its [fd_inode] is then the address of a queue, its
    [fd_pos] the number of descriptors. *)

From S2P Require Import Prelude Bitmap Interrupt DList Sched Task Ioqueue Disk Inode File.

Definition PIPE_FLAG : Z := 5.

(** ** The interface *)

(** [ioqueue_init], [ioq_length], [ioq_getchar], [ioq_putchar] of ioqueue.c, the address of
    [kbd_buf], [get_kernel_pages(1)] and [mfree_page(PF_KERNEL, page, 1)] of memory.c, and
    the console. *)
Class CharIo (C : Type) : Type := {
  char_init : Z -> C -> outcome C;
  char_length : Z -> C -> outcome Z;
  char_get : Z -> C -> outcome (Z * C);
  char_put : Z -> Z -> C -> outcome C;
  kbd_buf : Z;
  get_kernel_page : C -> outcome (Z * C);
  free_kernel_page : Z -> C -> outcome C;
  console_put_str : list Z -> C -> C
}.

(** What is in a queue, first byte first; a queue holds at most 2047 bytes, and reading one
    that has a byte, or writing one that has room, does not wait. *)
Class CharIoLaws (C : Type) `{!CharIo C} : Type := {
  queue_of : C -> Z -> option (list Z);
  char_init_spec : forall q c, q <> 0 -> exists c', char_init q c = Ok c' /\
    queue_of c' q = Some [] /\ (forall q', q' <> q -> queue_of c' q' = queue_of c q');
  char_length_spec : forall q c l, queue_of c q = Some l -> char_length q c = Ok (Z.of_nat (length l));
  queue_bound : forall q c l, queue_of c q = Some l -> Z.of_nat (length l) < bufsize;
  char_get_spec : forall q c b l, queue_of c q = Some (b :: l) -> exists c', char_get q c = Ok (b, c') /\
    queue_of c' q = Some l /\ (forall q', q' <> q -> queue_of c' q' = queue_of c q');
  char_put_spec : forall q c b l, queue_of c q = Some l -> Z.of_nat (length l) + 1 < bufsize ->
    exists c', char_put q b c = Ok c' /\
    queue_of c' q = Some (l ++ [b]) /\ (forall q', q' <> q -> queue_of c' q' = queue_of c q')
}.

(** ** The state *)

Record vfs (D H C : Type) : Type := Vfs { v_fs : fs D H; v_io : C }.
Arguments Vfs {D H C}.
Arguments v_fs {D H C} _.
Arguments v_io {D H C} _.

Section pipe.
Context {D H C : Type} `{!BlockDev D, !KernelHeap H, !CharIo C}.
Notation M := (KM (fs D H)).
Notation V := (KM (vfs D H C)).

(** Running an operation of the file system, or of the character side. *)
Definition in_fs {A} (m : M A) : V A := fun s =>
  match m (v_fs s) with Ok (a, f) => Ok (a, Vfs f (v_io s)) | Err e => Err e end.
Definition in_io {A} (m : C -> outcome (A * C)) : V A := fun s =>
  match m (v_io s) with Ok (a, c) => Ok (a, Vfs (v_fs s) c) | Err e => Err e end.
Definition do_io (m : C -> outcome C) : V unit := fun s =>
  match m (v_io s) with Ok c => Ok (tt, Vfs (v_fs s) c) | Err e => Err e end.

(** The index in the file table of a descriptor of the running thread. *)
Definition fd_local2global (local_fd : Z) : M Z :=
  l <- kreads f_fds ;;
  globa_idx <- klift (rd l local_fd) ;;
  ASSERT ((0 <=? globa_idx) && (globa_idx <? MAX_FILES_OPEN_PER_PROC)) ;;;
  kret globa_idx.

Definition is_pipe (local_fd : Z) : M bool :=
  global_fd <- fd_local2global local_fd ;;
  f <- get_file global_fd ;;
  kret (fd_flag f =? PIPE_FLAG).

(** The two descriptors are returned with the result. *)
Definition sys_pipe : V (Z * Z * Z) :=
  global_fd <- in_fs get_free_slot_in_global ;;
  page <- in_io get_kernel_page ;;
  f <- in_fs (get_file global_fd) ;;
  in_fs (put_file global_fd (File (fd_pos f) (fd_flag f) page)) ;;;
  do_io (char_init page) ;;;
  if page =? 0 then kret (-1, 0, 0)
  else
    in_fs (put_file global_fd (File 2 PIPE_FLAG page)) ;;;
    fd0 <- in_fs (install global_fd) ;;
    fd1 <- in_fs (install global_fd) ;;
    kret (0, fd0, fd1).

(** The queue of a pipe's descriptor. *)
Definition pipe_queue (fd : Z) : M Z :=
  global_fd <- fd_local2global fd ;;
  f <- get_file global_fd ;;
  kret (fd_inode f).

Fixpoint pipe_get (n : nat) (ioq : Z) (buffer : list Z) : V (list Z) :=
  match n with
  | O => kret buffer
  | S n => b <- in_io (char_get ioq) ;; pipe_get n ioq (buffer ++ [b])
  end.

(** The number of bytes read, and the bytes. *)
Definition pipe_read (fd count : Z) : V (Z * list Z) :=
  ioq <- in_fs (pipe_queue fd) ;;
  ioq_len <- in_io (fun c => let? n := char_length ioq c in Ok (n, c)) ;;
  let size := if count <? ioq_len then count else ioq_len in
  buffer <- pipe_get (Z.to_nat size) ioq [] ;;
  kret (size, buffer).

Fixpoint pipe_put (n : nat) (ioq : Z) (buf : list Z) (o : Z) : V unit :=
  match n with
  | O => kret tt
  | S n =>
      b <- klift (rd buf o) ;;
      do_io (char_put ioq b) ;;;
      pipe_put n ioq buf (o + 1)
  end.

Definition pipe_write (fd : Z) (buf : list Z) (o count : Z) : V Z :=
  ioq <- in_fs (pipe_queue fd) ;;
  len <- in_io (fun c => let? n := char_length ioq c in Ok (n, c)) ;;
  let ioq_left := u32 (bufsize - len) in
  let size := if count <? ioq_left then count else ioq_left in
  pipe_put (Z.to_nat size) ioq buf o ;;;
  kret size.

Definition sys_fd_redirect (old_local_fd new_local_fd : Z) : M unit :=
  l <- kreads f_fds ;;
  v <- klift (if new_local_fd <? 3 then Ok new_local_fd else rd l new_local_fd) ;;
  l <- klift (wr l old_local_fd (i32 v)) ;;
  kmod (set_f_fds l).
End pipe.

(** ** Writing and reading a pipe *)

Section pipe_properties.
Context {D H C : Type} `{!BlockDev D, !KernelHeap H, !CharIo C, !CharIoLaws C}.
Implicit Types (s : vfs D H C) (fd q : Z).

Definition set_io (c : C) s : vfs D H C := Vfs (v_fs s) c.

(** Descriptor [fd] of the running thread is an end of the pipe whose queue is at [q]. *)
Definition pipe_fd (f : fs D H) fd q : Prop := exists g fl,
  rd (f_fds f) fd = Ok g /\ 0 <= g < MAX_FILES_OPEN_PER_PROC /\ rd (f_files f) g = Ok fl /\
  fd_flag fl = PIPE_FLAG /\ fd_inode fl = q.

Lemma fd_local2global_run (f : fs D H) fd g :
  rd (f_fds f) fd = Ok g -> 0 <= g < MAX_FILES_OPEN_PER_PROC -> fd_local2global fd f = Ok (g, f).
Proof.
  intros Hg Hb. unfold fd_local2global. rewrite (kbind_ok _ _ f (f_fds f) f) by done.
  rewrite (kbind_ok _ _ f g f) by (unfold klift; by rewrite Hg). unfold ASSERT.
  by rewrite (proj2 (Z.leb_le _ _)), (proj2 (Z.ltb_lt _ _)) by lia.
Qed.

Lemma pipe_fd_run (f : fs D H) fd q :
  pipe_fd f fd q -> is_pipe fd f = Ok (true, f) /\ pipe_queue fd f = Ok (q, f).
Proof.
  intros (g & fl & Hg & Hb & Hfl & Hpf & Hq). unfold is_pipe, pipe_queue.
  pose proof (fd_local2global_run f fd g Hg Hb) as E1. pose proof (get_file_run f g fl Hfl) as E2.
  rewrite !(kbind_ok _ _ _ _ _ E1), !(kbind_ok _ _ _ _ _ E2). rewrite Hpf. subst q. done.
Qed.

Lemma in_fs_run {A} (m : KM (fs D H) A) s a f : m (v_fs s) = Ok (a, f) -> in_fs m s = Ok (a, Vfs f (v_io s)).
Proof. unfold in_fs. by intros ->. Qed.
Lemma in_fs_id {A} (m : KM (fs D H) A) s a : m (v_fs s) = Ok (a, v_fs s) -> in_fs m s = Ok (a, s).
Proof. intros Hm. rewrite (in_fs_run _ _ _ _ Hm). by destruct s. Qed.

Lemma pipe_put_run n q buf o s l :
  queue_of (v_io s) q = Some l -> 0 <= o -> o + Z.of_nat n <= Z.of_nat (length buf) ->
  Z.of_nat (length l) + Z.of_nat n < bufsize ->
  exists c, pipe_put n q buf o s = Ok (tt, set_io c s) /\
    queue_of c q = Some (l ++ take n (drop (Z.to_nat o) buf)) /\
    (forall q', q' <> q -> queue_of c q' = queue_of (v_io s) q').
Proof.
  revert o s l. induction n as [|n IH]; intros o s l Hq Ho Hb Hr; cbn [pipe_put].
  - exists (v_io s). rewrite take_0, app_nil_r. split; [by destruct s|done].
  - destruct (lookup_lt_is_Some_2 buf (Z.to_nat o)) as [b Hb0]; [lia|].
    rewrite (kbind_ok _ _ s b s) by (unfold klift; by rewrite (rd_Ok _ _ _ Ho Hb0)).
    destruct (char_put_spec q (v_io s) b l Hq) as (c & Hc & Hqc & Hoth); [lia|].
    rewrite (kbind_ok _ _ s tt (set_io c s)) by (unfold do_io; by rewrite Hc).
    destruct (IH (o + 1) (set_io c s) (l ++ [b])) as (c2 & H1 & H2 & H3);
      [done|lia|lia|rewrite length_app; simpl; lia|].
    exists c2. split; [done|]. split.
    + rewrite H2, <- app_assoc. do 2 f_equal. rewrite (drop_S buf b (Z.to_nat o) Hb0). simpl. do 3 f_equal. lia.
    + intros q' Hq'. rewrite H3 by done. by apply Hoth.
Qed.

Lemma pipe_get_run n q acc s l1 l2 :
  queue_of (v_io s) q = Some (l1 ++ l2) -> length l1 = n ->
  exists c, pipe_get n q acc s = Ok (acc ++ l1, set_io c s) /\ queue_of c q = Some l2 /\
    (forall q', q' <> q -> queue_of c q' = queue_of (v_io s) q').
Proof.
  revert acc s l1. induction n as [|n IH]; intros acc s l1 Hq Hl; cbn [pipe_get].
  - destruct l1; [|done]. exists (v_io s). rewrite app_nil_r. split; [by destruct s|done].
  - destruct l1 as [|b l1]; [done|]. injection Hl as Hl.
    destruct (char_get_spec q (v_io s) b (l1 ++ l2) Hq) as (c & Hc & Hqc & Hoth).
    rewrite (kbind_ok _ _ s b (set_io c s)) by (unfold in_io; by rewrite Hc).
    destruct (IH (acc ++ [b]) (set_io c s) l1 Hqc Hl) as (c2 & H1 & H2 & H3).
    exists c2. rewrite H1, <- app_assoc. split; [done|]. split; [done|].
    intros q' Hq'. rewrite H3 by done. by apply Hoth.
Qed.

Lemma pipe_write_run fd q buf o count s l :
  pipe_fd (v_fs s) fd q -> queue_of (v_io s) q = Some l -> 0 <= o -> 0 <= count ->
  o + count <= Z.of_nat (length buf) -> Z.of_nat (length l) + count < bufsize ->
  exists c, pipe_write fd buf o count s = Ok (count, set_io c s) /\
    queue_of c q = Some (l ++ take (Z.to_nat count) (drop (Z.to_nat o) buf)) /\
    (forall q', q' <> q -> queue_of c q' = queue_of (v_io s) q').
Proof.
  intros Hfd Hq Ho Hc Hb Hr. destruct (pipe_fd_run _ _ _ Hfd) as [_ Hpq]. unfold pipe_write, bufsize in *.
  rewrite (kbind_ok _ _ _ _ _ (in_fs_id _ _ _ Hpq)).
  rewrite (kbind_ok _ _ s (Z.of_nat (length l)) s).
  2: { unfold in_io. rewrite (char_length_spec _ _ _ Hq). by destruct s. }
  rewrite u32_small by lia. rewrite (proj2 (Z.ltb_lt _ _)) by lia.
  destruct (pipe_put_run (Z.to_nat count) q buf o s l Hq Ho) as (c & H1 & H2); [lia|unfold bufsize; lia|].
  exists c. by rewrite (kbind_ok _ _ _ _ _ H1).
Qed.

Lemma pipe_read_run fd q count s l :
  pipe_fd (v_fs s) fd q -> queue_of (v_io s) q = Some l -> 0 <= count ->
  exists c, pipe_read fd count s = Ok ((Z.min count (Z.of_nat (length l)), take (Z.to_nat count) l), set_io c s) /\
    queue_of c q = Some (drop (Z.to_nat count) l) /\
    (forall q', q' <> q -> queue_of c q' = queue_of (v_io s) q').
Proof.
  intros Hfd Hq Hc. destruct (pipe_fd_run _ _ _ Hfd) as [_ Hpq]. unfold pipe_read.
  rewrite (kbind_ok _ _ _ _ _ (in_fs_id _ _ _ Hpq)).
  rewrite (kbind_ok _ _ s (Z.of_nat (length l)) s).
  2: { unfold in_io. rewrite (char_length_spec _ _ _ Hq). by destruct s. }
  replace (if count <? Z.of_nat (length l) then count else Z.of_nat (length l)) with (Z.min count (Z.of_nat (length l)))
    by (destruct (Z.ltb_spec count (Z.of_nat (length l))); lia).
  rewrite <- (take_drop (Z.to_nat count) l) in Hq.
  destruct (pipe_get_run (Z.to_nat (Z.min count (Z.of_nat (length l)))) q [] s _ _ Hq) as (c & H1 & H2).
  { rewrite length_take. lia. }
  exists c. by rewrite (kbind_ok _ _ _ _ _ H1).
Qed.

(** ** A new pipe *)

Lemma free_slot_run (f : fs D H) n k g :
  k <= g < k + Z.of_nat n -> (exists fl, rd (f_files f) g = Ok fl /\ fd_inode fl = 0) ->
  (forall j, k <= j < g -> exists fl, rd (f_files f) j = Ok fl /\ fd_inode fl <> 0) ->
  free_slot n k f = Ok (g, f).
Proof.
  revert k. induction n as [|n IH]; intros k Hk (fl & Hfl & H0) Hj; [lia|]. cbn [free_slot].
  destruct (decide (k = g)) as [->|Hne].
  - rewrite (kbind_ok _ _ _ _ _ (get_file_run _ _ _ Hfl)). by rewrite H0.
  - destruct (Hj k) as (fk & Hfk & Hn); [lia|]. rewrite (kbind_ok _ _ _ _ _ (get_file_run _ _ _ Hfk)).
    rewrite (proj2 (Z.eqb_neq _ _) Hn). apply IH; [lia|by exists fl|]. intros j Hjr. apply Hj. lia.
Qed.

(** [fd] is the descriptor [pcb_fd_install] takes. *)
Definition first_free_fd (l : list Z) fd : Prop :=
  3 <= fd < MAX_FILES_OPEN_PER_PROC /\ rd l fd = Ok (-1) /\ forall j, 3 <= j < fd -> rd l j <> Ok (-1).

Lemma install_run (f : fs D H) g fd :
  Z.of_nat (length (f_fds f)) = MAX_FILES_OPEN_PER_PROC -> first_free_fd (f_fds f) fd -> 0 <= g < 32 ->
  install g f = Ok (fd, set_f_fds (<[Z.to_nat fd := g]> (f_fds f)) f).
Proof.
  intros Hl (Hfd & Hfree & Hfirst) Hg. unfold install. rewrite (kbind_ok _ _ f (f_fds f) f) by done.
  destruct (fd_install_loop_spec 6 (f_fds f) g 3 Hl) as [(i & Hi & Hr & Hj & Heq)|[Hj _]];
    [unfold MAX_FILES_OPEN_PER_PROC; lia..| |].
  - assert (i = fd) as ->.
    { destruct (Z.lt_trichotomy i fd) as [Hlt|[|Hgt]]; [|done|].
      - exfalso. apply (Hfirst i); [lia|done].
      - exfalso. apply (Hj fd); [lia|done]. }
    rewrite i32_small in Heq by lia.
    by rewrite (kbind_ok _ _ f (fd, <[Z.to_nat fd := g]> (f_fds f)) f) by (unfold klift; by rewrite Heq).
  - exfalso. apply (Hj fd); [lia|done].
Qed.
End pipe_properties.

(** ** The rings of ioqueue.c as the character side *)

#[export] Instance ring_ok_dec q : Decision (ring_ok q).
Proof.
  refine (cast_if (decide (length (buf q) = Z.to_nat bufsize /\ 0 <= head q < bufsize /\ 0 <= tail q < bufsize))).
  - abstract (destruct_and?; by split).
  - abstract (intros []; tauto).
Defined.

(** Queues at addresses; pages are taken from [cs_next] up.  A call that would put its
    caller to sleep has no result here. *)
Record char_state : Type := CharState { cs_queues : gmap Z ioqueue; cs_next : Z; cs_text : list Z }.

Definition cs_queue (q : Z) (c : char_state) : outcome ioqueue :=
  match cs_queues c !! q with Some r => Ok r | None => Err OutOfBounds end.
Definition cs_put (q : Z) (r : ioqueue) (c : char_state) : char_state :=
  CharState (<[q := r]> (cs_queues c)) (cs_next c) (cs_text c).

#[export] Instance char_state_io : CharIo char_state := {|
  char_init q c := if q =? 0 then Err OutOfBounds else Ok (cs_put q (IoQueue 0 0 (replicate 2048 0) 0 0) c);
  char_length q c := let? r := cs_queue q c in Ok (ioq_length r);
  char_get q c := let? r := cs_queue q c in
    if ring_empty r then Err Diverges else let? p := ring_get r in Ok (p.1, cs_put q p.2 c);
  char_put q b c := let? r := cs_queue q c in
    if ring_full r then Err Diverges else let? r := ring_put b r in Ok (cs_put q r c);
  kbd_buf := 0x8000;
  get_kernel_page c := Ok (cs_next c, CharState (cs_queues c) (cs_next c + 4096) (cs_text c));
  free_kernel_page q c := Ok (CharState (delete q (cs_queues c)) (cs_next c) (cs_text c));
  console_put_str str c := CharState (cs_queues c) (cs_next c) (cs_text c ++ str)
|}.

Definition cs_queue_of (c : char_state) (q : Z) : option (list Z) :=
  match cs_queues c !! q with Some r => if decide (ring_ok r) then Some (contents r) else None | None => None end.

Lemma cs_queue_of_inv c q l : cs_queue_of c q = Some l -> exists r, cs_queues c !! q = Some r /\ ring_ok r /\ l = contents r.
Proof. unfold cs_queue_of. intros. repeat case_match; naive_solver. Qed.
Lemma cs_queue_of_put c q r : ring_ok r -> cs_queue_of (cs_put q r c) q = Some (contents r).
Proof. intros Hr. unfold cs_queue_of. simpl. by rewrite lookup_insert_eq, decide_True. Qed.
Lemma cs_queue_of_other c q r q' : q' <> q -> cs_queue_of (cs_put q r c) q' = cs_queue_of c q'.
Proof. intros Hq. unfold cs_queue_of. simpl. by rewrite lookup_insert_ne. Qed.

#[export] Program Instance char_state_laws : CharIoLaws char_state := {| queue_of := cs_queue_of |}.
Next Obligation.
  intros q c Hq. eexists. simpl. rewrite (proj2 (Z.eqb_neq _ _) Hq). split; [done|]. split.
  - rewrite cs_queue_of_put by (by split). done.
  - intros. by apply cs_queue_of_other.
Qed.
Next Obligation.
  intros q c l (r & Hr & Hok & ->)%cs_queue_of_inv. simpl. unfold cs_queue. rewrite Hr. simpl.
  by rewrite contents_length.
Qed.
Next Obligation.
  intros q c l (r & Hr & Hok & ->)%cs_queue_of_inv. rewrite contents_length by done. by apply ring_length_bound.
Qed.
Next Obligation.
  intros q c b l (r & Hr & Hok & E)%cs_queue_of_inv. destruct (ring_get_run r b l Hok (eq_sym E)) as (r' & Hg & Hok' & Hc & _).
  eexists. simpl. unfold cs_queue. rewrite Hr. simpl. rewrite ring_empty_spec, <- E by done. simpl. rewrite Hg. simpl.
  split; [done|]. split; [by rewrite cs_queue_of_put, Hc|]. intros. by apply cs_queue_of_other.
Qed.
Next Obligation.
  intros q c b l (r & Hr & Hok & ->)%cs_queue_of_inv Hroom.
  destruct (ring_put_run r b Hok Hroom) as (r' & Hg & Hok' & Hc & _).
  eexists. simpl. unfold cs_queue. rewrite Hr. simpl. rewrite ring_full_spec by done.
  rewrite contents_length in Hroom by done. rewrite bool_decide_eq_false_2 by lia. rewrite Hg. simpl.
  split; [done|]. split; [by rewrite cs_queue_of_put, Hc|]. intros. by apply cs_queue_of_other.
Qed.
