(* ===== verification/Fs.v ===== *)
(** * Fs: the system calls of fs/fs.c

    Each system call on the file system, with every path it takes.  A path is the object
    the pointer points to, a byte list with a NUL; a result and what is written through a
    pointer argument are returned together.  [garbage] is what the stack held in the
    arrays and structs the code reads before it writes them.  Messages of [printk] are
    left out, what a call itself prints on the console is not. *)

From Stdlib Require Import Ascii String.
From S2P Require Import Prelude Bitmap Interrupt DList Sched Task Ioqueue Disk Inode Cstring Dir File Path Format Pipe.
Close Scope string_scope.

(** The uninitialised locals: [name] in the calls of [path_depth_cnt] and [dir_e]. *)
Record garbage : Type := Garbage { g_name : list Z; g_name2 : list Z; g_entry : dir_entry }.

Definition SEEK_SET : Z := 1.
Definition SEEK_CUR : Z := 2.
Definition SEEK_END : Z := 3.

Record stat : Type := Stat { st_ino : Z; st_size : Z; st_filetype : Z }.

Definition bytes_of (t : string) : list Z := map (fun a => Z.of_N (N_of_ascii a)) (list_ascii_of_string t).
Definition no_write_permission : list Z :=
  bytes_of "sys_write: not allowed to write file without flag O_RDWR or O_WRONLY".

(** [strrchr(s, '/') + 1], an offset into [s]. *)
Definition last_component (m : list Z) : outcome Z :=
  let? p := strrchr m (Some 0) slash in
  match p with Some o => Ok (o + 1) | None => Err OutOfBounds end.

(** [pathname[strlen(pathname) - 1] == '/']. *)
Definition ends_with_slash (pathname : list Z) : outcome bool :=
  let? len := strlen pathname (Some 0) in
  let? c := rd pathname (len - 1) in
  Ok (c =? slash).

Section fs.
Context {D H C : Type} `{!BlockDev D, !KernelHeap H, !CharIo C}.
Notation M := (KM (fs D H)).
Notation V := (KM (vfs D H C)).

(** ** Opening and closing *)

Definition sys_open (g : garbage) (pathname : list Z) (flags : Z) : M Z :=
  dirpath <- klift (ends_with_slash pathname) ;;
  if (dirpath : bool) then kret (-1)
  else
    ASSERT (flags <=? 7) ;;;
    pathname_depth <- klift (path_depth_cnt (g_name g) pathname 0) ;;
    r <- search_file (g_entry g) pathname empty_record ;;
    let inode_no := r.1 in
    let searched_record := r.2 in
    let found := negb (inode_no =? -1) in
    if file_type searched_record =? FT_DIRECTORY then
      dir_close (parent_dir searched_record) ;;;
      kret (-1)
    else
      path_search_depth <- klift (path_depth_cnt (g_name2 g) (searched_path searched_record) 0) ;;
      if negb (pathname_depth =? path_search_depth) then
        dir_close (parent_dir searched_record) ;;;
        kret (-1)
      else if negb found && negb (has_flag flags O_CREAT) then
        dir_close (parent_dir searched_record) ;;;
        kret (-1)
      else if found && has_flag flags O_CREAT then
        dir_close (parent_dir searched_record) ;;;
        kret (-1)
      else if has_flag flags O_CREAT then
        o <- klift (last_component pathname) ;;
        fd <- file_create (parent_dir searched_record) pathname o flags ;;
        dir_close (parent_dir searched_record) ;;;
        kret fd
      else file_open (u32 inode_no) flags.

Definition close_pipe (_fd : Z) : V unit :=
  f <- in_fs (get_file _fd) ;;
  let f := File (u32 (fd_pos f - 1)) (fd_flag f) (fd_inode f) in
  in_fs (put_file _fd f) ;;;
  if fd_pos f =? 0 then
    do_io (free_kernel_page (fd_inode f)) ;;;
    in_fs (put_file _fd (File (fd_pos f) (fd_flag f) 0))
  else kret tt.

Definition sys_close (fd : Z) : V Z :=
  if 2 <? fd then
    _fd <- in_fs (fd_local2global fd) ;;
    pipe <- in_fs (is_pipe fd) ;;
    ret <- (if (pipe : bool) then close_pipe _fd ;;; kret 0 else in_fs (file_close _fd)) ;;
    in_fs (l <- kreads f_fds ;; l <- klift (wr l fd (-1)) ;; kmod (set_f_fds l)) ;;;
    kret ret
  else kret (-1).

Definition sys_create (g : garbage) (pathname : list Z) : V Z :=
  dirpath <- klift (ends_with_slash pathname) ;;
  if (dirpath : bool) then kret (-1)
  else
    pathname_depth <- klift (path_depth_cnt (g_name g) pathname 0) ;;
    r <- in_fs (search_file (g_entry g) pathname empty_record) ;;
    let searched_record := r.2 in
    if negb (r.1 =? -1) then kret (-1)
    else
      path_search_depth <- klift (path_depth_cnt (g_name2 g) (searched_path searched_record) 0) ;;
      if negb (pathname_depth =? path_search_depth) then
        in_fs (dir_close (parent_dir searched_record)) ;;;
        kret (-1)
      else
        o <- klift (last_component pathname) ;;
        fd <- in_fs (file_create (parent_dir searched_record) pathname o O_CREAT) ;;
        in_fs (dir_close (parent_dir searched_record)) ;;;
        sys_close fd ;;;
        kret 0.

(** ** Reading, writing, seeking *)

(** The text [console_put_str] prints: up to the NUL. *)
Definition printed (m : list Z) : outcome (list Z) :=
  let? n := strlen m (Some 0) in Ok (take (Z.to_nat n) m).

Definition write_console (buf : list Z) (o count : Z) : V Z :=
  tmp_buf <- klift (memcpy (replicate 1024 0) (Some 0) buf (Some o) count) ;;
  str <- klift (printed tmp_buf) ;;
  do_io (fun c => Ok (console_put_str str c)) ;;;
  kret (i32 count).

Definition write_pipe (fd : Z) (buf : list Z) (o count : Z) : V Z :=
  n <- pipe_write fd buf o count ;; kret (i32 n).

Definition write_file (_fd : Z) (buf : list Z) (o count : Z) : V Z :=
  wr_file <- in_fs (get_file _fd) ;;
  if has_flag (fd_flag wr_file) O_WRONLY || has_flag (fd_flag wr_file) O_RDWR then
    n <- in_fs (file_write _fd (drop (Z.to_nat o) buf) count) ;; kret (i32 n)
  else
    do_io (fun c => Ok (console_put_str no_write_permission c)) ;;;
    kret (-1).

(** [buf] is the object [buf] from [o] on. *)
Definition sys_write (fd : Z) (buf : list Z) (o count : Z) : V Z :=
  if fd <? 0 then kret (-1)
  else if fd =? 1 then
    pipe <- in_fs (is_pipe fd) ;;
    if (pipe : bool) then write_pipe fd buf o count else write_console buf o count
  else
    pipe <- in_fs (is_pipe fd) ;;
    if (pipe : bool) then write_pipe fd buf o count
    else
      _fd <- in_fs (fd_local2global fd) ;;
      write_file _fd buf o count.

(** The loop over the keyboard; [n] bytes are left to read. *)
Fixpoint read_keyboard (n : nat) (m : list Z) (buffer bytes_read : Z) : V (Z * list Z) :=
  match n with
  | O => kret (bytes_read, m)
  | S n =>
      c <- klift (rd m (buffer - 1)) ;;
      if c =? 10 then kret (bytes_read, m)
      else
        b <- in_io (char_get kbd_buf) ;;
        m <- klift (wr m buffer b) ;;
        read_keyboard n m (buffer + 1) (u32 (bytes_read + 1))
  end.

Definition read_pipe (fd : Z) (m : list Z) (o count : Z) : V (Z * list Z) :=
  r <- pipe_read fd count ;;
  m <- klift (splice m o r.2) ;;
  kret (i32 r.1, m).

(** [buf] is the object [m] from [o] on; the bytes read are returned in it. *)
Definition sys_read (fd : Z) (m : list Z) (o count : Z) : V (Z * list Z) :=
  if (fd <? 0) || (fd =? 1) || (fd =? 2) then kret (-1, m)
  else if fd =? 0 then
    pipe <- in_fs (is_pipe fd) ;;
    if (pipe : bool) then read_pipe fd m o count
    else
      r <- read_keyboard (Z.to_nat count) m o 0 ;;
      kret (if r.1 =? 0 then -1 else i32 r.1, r.2)
  else
    pipe <- in_fs (is_pipe fd) ;;
    if (pipe : bool) then read_pipe fd m o count
    else
      _fd <- in_fs (fd_local2global fd) ;;
      r <- in_fs (file_read _fd count) ;;
      m <- klift (splice m o r.2) ;;
      kret (i32 r.1, m).

Definition sys_lseek (fd offset whence : Z) : M Z :=
  if fd <? 0 then kret (-1)
  else
    ASSERT ((0 <? whence) && (whence <? 4)) ;;;
    _fd <- fd_local2global fd ;;
    pf <- get_file _fd ;;
    i <- get_inode (fd_inode pf) ;;
    let file_size := i32 (i_size i) in
    let new_pos := if whence =? SEEK_SET then offset
                   else if whence =? SEEK_CUR then i32 (i32 (fd_pos pf) + offset)
                   else i32 (file_size + offset) in
    if (new_pos <? 0) || (i32 (file_size - 1) <? new_pos) then kret (-1)
    else
      put_file _fd (File new_pos (fd_flag pf) (fd_inode pf)) ;;;
      kret new_pos.
(** ** Removing a file *)

(** The entry of the file table for inode [inode_no]; 32 when there is none.  The
    [fd_inode] of a pipe is no inode. *)
Fixpoint find_in_table (n : nat) (file_idx inode_no : Z) : M Z :=
  match n with
  | O => kret file_idx
  | S n =>
      f <- get_file file_idx ;;
      if fd_inode f =? 0 then find_in_table n (file_idx + 1) inode_no
      else
        i <- get_inode (fd_inode f) ;;
        if i_no i =? u32 inode_no then kret file_idx else find_in_table n (file_idx + 1) inode_no
  end.

Definition sys_unlink (g : garbage) (pathname : list Z) : M Z :=
  len <- klift (strlen pathname (Some 0)) ;;
  ASSERT (len <? MAX_PATH_LEN) ;;;
  r <- search_file (g_entry g) pathname empty_record ;;
  let inode_no := r.1 in
  let searched_record := r.2 in
  ASSERT (negb (inode_no =? 0)) ;;;
  if inode_no =? -1 then
    dir_close (parent_dir searched_record) ;;;
    kret (-1)
  else if file_type searched_record =? FT_DIRECTORY then
    dir_close (parent_dir searched_record) ;;;
    kret (-1)
  else
    file_idx <- find_in_table 32 0 inode_no ;;
    if file_idx <? MAX_FILE_OPEN then
      dir_close (parent_dir searched_record) ;;;
      kret (-1)
    else
      ASSERT (file_idx =? MAX_FILE_OPEN) ;;;
      io_buf <- malloc (SECTOR_SIZE + SECTOR_SIZE) ;;
      if io_buf =? 0 then
        dir_close (parent_dir searched_record) ;;;
        kret (-1)
      else
        delete_dir_entry (parent_dir searched_record) (u32 inode_no) ;;;
        inode_release (u32 inode_no) ;;;
        free io_buf ;;;
        dir_close (parent_dir searched_record) ;;;
        kret 0.

(** ** Directories *)

(** [rollback:] of [sys_mkdir], from case 1 and from case 2 on. *)
Definition mkdir_rollback1 (io_buf pdir : Z) : M Z :=
  dir_close pdir ;;;
  free io_buf ;;;
  kret (-1).
Definition mkdir_rollback2 (io_buf pdir inode_no : Z) : M Z :=
  set_bit INODE_BITMAP inode_no 0 ;;;
  mkdir_rollback1 io_buf pdir.

(** [sys_mkdir] once the inode is allocated. *)
Definition mkdir_at (io_buf pdir : Z) (path : list Z) (o inode_no : Z) : M Z :=
  block_lba <- block_bitmap_alloc ;;
  if block_lba =? -1 then mkdir_rollback2 io_buf pdir inode_no
  else
    b <- get_sb ;;
    let block_bitmap_idx := u32 (block_lba - data_start_lba b) in
    ASSERT (negb (block_bitmap_idx =? 0)) ;;;
    bitmap_sync block_bitmap_idx BLOCK_BITMAP ;;;
    d <- get_dir pdir ;;
    pi <- get_inode (d_inode d) ;;
    buf <- klift (dot_entries (replicate 1024 0) inode_no (i_no pi)) ;;
    ide_write (u32 block_lba) buf 1 ;;;
    let new_dir_inode := Inode inode_no (u32 (2 * dir_entry_size b)) 0 0 (u32 block_lba :: replicate 12 0) in
    new_dir_entry <- klift (create_dir_entry path o inode_no FT_DIRECTORY zero_entry) ;;
    ok <- sync_dir_entry pdir new_dir_entry ;;
    if negb (ok : bool) then mkdir_rollback2 io_buf pdir inode_no
    else
      pi <- get_inode (d_inode d) ;;
      inode_sync pi ;;;
      inode_sync new_dir_inode ;;;
      bitmap_sync (u32 inode_no) INODE_BITMAP ;;;
      free io_buf ;;;
      dir_close pdir ;;;
      kret 0.

Definition sys_mkdir (g : garbage) (pathname : list Z) : M Z :=
  io_buf <- malloc (SECTOR_SIZE * 2) ;;
  if io_buf =? 0 then kret (-1)
  else
    r <- search_file (g_entry g) pathname empty_record ;;
    let search_record := r.2 in
    if negb (r.1 =? -1) then mkdir_rollback1 io_buf (parent_dir search_record)
    else
      pathname_depth <- klift (path_depth_cnt (g_name g) pathname 0) ;;
      path_searched_depth <- klift (path_depth_cnt (g_name2 g) (searched_path search_record) 0) ;;
      if negb (pathname_depth =? path_searched_depth) then mkdir_rollback1 io_buf (parent_dir search_record)
      else
        o <- klift (last_component (searched_path search_record)) ;;
        inode_no <- inode_bitmap_alloc ;;
        if inode_no =? -1 then mkdir_rollback1 io_buf (parent_dir search_record)
        else mkdir_at io_buf (parent_dir search_record) (searched_path search_record) o inode_no.

(** The address of the [struct dir], 0 for [NULL]. *)
Definition sys_opendir (g : garbage) (name : list Z) : M Z :=
  len <- klift (strlen name (Some 0)) ;;
  ASSERT (len <? MAX_PATH_LEN) ;;;
  c0 <- klift (rd name 0) ;;
  root <- klift (if c0 =? slash then let? c1 := rd name 1 in Ok ((c1 =? 0) || (c1 =? 46)) else Ok false) ;;
  if (root : bool) then kret root_dir
  else
    r <- search_file (g_entry g) name empty_record ;;
    ret <- (if r.1 =? -1 then kret 0
            else if file_type r.2 =? FT_REGULAR then kret 0
            else if file_type r.2 =? FT_DIRECTORY then dir_open (u32 r.1)
            else kret 0) ;;
    dir_close (parent_dir r.2) ;;;
    kret ret.

Definition sys_closedir (pdir : Z) : M Z :=
  if negb (pdir =? 0) then dir_close pdir ;;; kret 0 else kret (-1).

Definition sys_readdir (pdir : Z) : M (option Z) :=
  ASSERT (negb (pdir =? 0)) ;;;
  dir_read pdir.

Definition sys_rewinddir (pdir : Z) : M unit :=
  d <- get_dir pdir ;;
  put_dir pdir (Dir (d_inode d) 0 (dir_buf d)).

Definition sys_rmdir (g : garbage) (pathname : list Z) : M Z :=
  r <- search_file (g_entry g) pathname empty_record ;;
  let inode_no := r.1 in
  let searched_record := r.2 in
  ASSERT (negb (inode_no =? 0)) ;;;
  retval <- (if inode_no =? -1 then kret (-1)
             else if file_type searched_record =? FT_REGULAR then kret (-1)
             else
               pdir <- dir_open (u32 inode_no) ;;
               empty <- dir_is_empty pdir ;;
               retval <- (if negb (empty : bool) then kret (-1)
                          else
                            e <- dir_remove (parent_dir searched_record) pdir ;;
                            kret (if e =? 0 then 0 else -1)) ;;
               dir_close pdir ;;;
               kret retval) ;;
  dir_close (parent_dir searched_record) ;;;
  kret retval.

(** ** The working directory *)

Definition get_parent_dir_inode_nr (child_inode_nr : Z) : M Z :=
  p <- inode_open child_inode_nr ;;
  i <- get_inode p ;;
  block_lba <- klift (rd (i_sectors i) 0) ;;
  b <- get_sb ;;
  ASSERT (data_start_lba b <=? block_lba) ;;;
  inode_close p ;;;
  io_buf <- ide_read block_lba 1 ;;
  no <- klift (entry_i_no io_buf 1) ;;
  ASSERT (no <? 4096) ;;;
  ty <- klift (entry_f_type io_buf 1) ;;
  ASSERT (ty =? FT_DIRECTORY) ;;;
  kret no.

(** The entry of inode [c_inode_nr] in a sector. *)
Fixpoint find_child_entry (n : nat) (k : Z) (io_buf : list Z) (c_inode_nr : Z) : outcome (option Z) :=
  match n with
  | O => Ok None
  | S n =>
      let? no := entry_i_no io_buf k in
      if no =? c_inode_nr then Ok (Some k) else find_child_entry n (k + 1) io_buf c_inode_nr
  end.

Fixpoint child_name_loop (blocks : list Z) (cnt c_inode_nr : Z) (path : list Z) : M (option (list Z)) :=
  match blocks with
  | [] => kret None
  | blk :: blocks =>
      if blk =? 0 then child_name_loop blocks cnt c_inode_nr path
      else
        io_buf <- ide_read blk 1 ;;
        k <- klift (find_child_entry (Z.to_nat cnt) 0 io_buf c_inode_nr) ;;
        match k with
        | Some k =>
            path <- klift (strcat path (Some 0) s_root (Some 0)) ;;
            path <- klift (strcat path (Some 0) io_buf (Some (entry_off k))) ;;
            kret (Some path)
        | None => child_name_loop blocks cnt c_inode_nr path
        end
  end.

(** The path with the child's name appended, [None] for -1. *)
Definition get_child_dir_name (p_inode_nr c_inode_nr : Z) (path : list Z) : M (option (list Z)) :=
  p <- inode_open p_inode_nr ;;
  i <- get_inode p ;;
  all_blocks <- dir_blocks i ;;
  inode_close p ;;;
  b <- get_sb ;;
  cnt <- entries_per_sec b ;;
  child_name_loop all_blocks cnt c_inode_nr path.

(** The loop up to the root: the path of the names met, last component first. *)
Fixpoint cwd_loop (n : nat) (child_inode_nr : Z) (full_path_reverse : list Z) : M (option (list Z)) :=
  match n with
  | O => kfail Diverges
  | S n =>
      if child_inode_nr =? 0 then kret (Some full_path_reverse)
      else
        parent_inode_nr <- get_parent_dir_inode_nr child_inode_nr ;;
        r <- get_child_dir_name parent_inode_nr child_inode_nr full_path_reverse ;;
        match r with
        | None => kret None
        | Some full_path_reverse => cwd_loop n parent_inode_nr full_path_reverse
        end
  end.

(** The components copied to [buf] from the last one on. *)
Fixpoint reverse_loop (n : nat) (full_path_reverse buf : list Z) : outcome (list Z) :=
  match n with
  | O => Err Diverges
  | S n =>
      let? last_slash := strrchr full_path_reverse (Some 0) slash in
      match last_slash with
      | None => Ok buf
      | Some o =>
          let? len := strlen buf (Some 0) in
          let? buf := strcpy buf (Some (u16 len)) full_path_reverse (Some o) in
          let? full_path_reverse := wr full_path_reverse o 0 in
          reverse_loop n full_path_reverse buf
      end
  end.

(** [buf] as it is afterwards, [None] for a returned [NULL]. *)
Definition sys_getcwd (buf : list Z) (size : Z) : M (option (list Z)) :=
  io_buf <- malloc SECTOR_SIZE ;;
  if io_buf =? 0 then kret None
  else
    child_inode_nr <- kreads f_cwd ;;
    ASSERT ((0 <=? child_inode_nr) && (child_inode_nr <? 4096)) ;;;
    if child_inode_nr =? 0 then
      buf <- klift (let? b := wr buf 0 slash in wr b 1 0) ;;
      kret (Some buf)
    else
      buf <- klift (memset buf (Some 0) 0 size) ;;
      r <- cwd_loop 514 child_inode_nr (replicate 512 0) ;;
      match r with
      | None =>
          free io_buf ;;;
          kret None
      | Some full_path_reverse =>
          len <- klift (strlen full_path_reverse (Some 0)) ;;
          ASSERT (len <=? size) ;;;
          buf <- klift (reverse_loop 513 full_path_reverse buf) ;;
          free io_buf ;;;
          kret (Some buf)
      end.

Definition sys_chdir (g : garbage) (path : list Z) : M Z :=
  r <- search_file (g_entry g) path empty_record ;;
  ret <- (if negb (r.1 =? -1) then
            if file_type r.2 =? FT_DIRECTORY then
              kmod (set_f_cwd r.1) ;;;
              kret 0
            else kret (-1)
          else kret (-1)) ;;
  dir_close (parent_dir r.2) ;;;
  kret ret.

(** The result and [*buf]. *)
Definition sys_stat (g : garbage) (path : list Z) (buf : stat) : M (Z * stat) :=
  root <- klift (is_root path) ;;
  if (root : bool) then
    d <- get_dir root_dir ;;
    i <- get_inode (d_inode d) ;;
    kret (0, Stat 0 (i_size i) FT_DIRECTORY)
  else
    r <- search_file (g_entry g) path empty_record ;;
    res <- (if negb (r.1 =? -1) then
              p <- inode_open (u32 r.1) ;;
              i <- get_inode p ;;
              inode_close p ;;;
              kret (0, Stat (u32 r.1) (i_size i) (file_type r.2))
            else kret (-1, buf)) ;;
    dir_close (parent_dir r.2) ;;;
    kret res.
End fs.
