(* ===== verification/FsSpec.v ===== *)
(** * FsSpec: what the system calls of fs/fs.c guarantee

    The properties of the definitions of Fs, Path, Dir, File and Pipe taken together:
    the bounds of seeking, the path [sys_getcwd] builds, opening and removing files,
    pipes, and that the calls return.  [ends] collects in one judgement that code does
    not run for ever and how it may change the state. *)

From S2P Require Import Prelude Bitmap Interrupt DList Sched Task Ioqueue Disk Inode Cstring Words Dir File Path Format Pipe Fs.

(** ** Seeking *)

Section lseek.
Context {D H : Type}.
Implicit Types (s : fs D H).

(** C40: seeking stays inside of the file.  [sys_lseek] moves the position to the start, the
    current position or the size plus [offset] when that is a byte of the file, and
    returns it; otherwise it returns -1 and changes nothing.  The end of the file itself is
    refused, so [SEEK_END] with offset 0 always fails.  A bad [whence] fails an assertion. *)
Theorem sys_lseek_spec s fd offset whence g fl i :
  0 <= fd -> rd (f_fds s) fd = Ok g -> 0 <= g < MAX_FILES_OPEN_PER_PROC -> rd (f_files s) g = Ok fl ->
  f_inodes s !! fd_inode fl = Some i -> 0 <= i_size i < 2 ^ 31 -> 0 <= fd_pos fl < 2 ^ 31 ->
  let base := if whence =? SEEK_SET then 0 else if whence =? SEEK_CUR then fd_pos fl else i_size i in
  - 2 ^ 31 <= base + offset < 2 ^ 31 ->
  (1 <= whence <= 3 -> sys_lseek fd offset whence s =
     if decide (0 <= base + offset < i_size i) then Ok (base + offset, with_pos g fl (base + offset) s)
     else Ok (-1, s)) /\
  (~ 1 <= whence <= 3 -> sys_lseek fd offset whence s = Err AssertFail).
Proof.
  intros Hfd Hg Hgb Hfl Hi Hsz Hpos base Hb. unfold sys_lseek. rewrite (proj2 (Z.ltb_ge _ _)) by lia. split.
  - intros Hw. rewrite (kbind_ok _ _ s tt s) by (unfold ASSERT; by rewrite !(proj2 (Z.ltb_lt _ _)) by lia).
    rewrite (kbind_ok _ _ _ _ _ (fd_local2global_run s fd g Hg Hgb)).
    rewrite (kbind_ok _ _ _ _ _ (get_file_run s g fl Hfl)).
    rewrite (kbind_ok _ _ s i s) by (unfold get_inode; by rewrite Hi).
    rewrite (i32_small (i_size i)), (i32_small (fd_pos fl)) by lia.
    assert (E : (if whence =? SEEK_SET then offset else if whence =? SEEK_CUR then i32 (fd_pos fl + offset)
                 else i32 (i_size i + offset)) = base + offset).
    { subst base. destruct (whence =? SEEK_SET); [lia|]. by destruct (whence =? SEEK_CUR); rewrite i32_small by lia. }
    rewrite E, (i32_small (i_size i - 1)) by lia. clearbody base.
    destruct (Z.ltb_spec (base + offset) 0), (Z.ltb_spec (i_size i - 1) (base + offset)); simpl; case_decide; try lia; try done.
    rewrite (kbind_ok _ _ s tt (with_pos g fl (base + offset) s)); [done|].
    unfold put_file, with_pos. apply rd_inv in Hfl as [Hg0 Hlk]. apply lookup_lt_Some in Hlk. by rewrite wr_Ok by lia.
  - intros Hw. unfold kbind, ASSERT.
    destruct (Z.ltb_spec 0 whence), (Z.ltb_spec whence 4); simpl; try done. lia.
Qed.
End lseek.

(** ** The path of the working directory *)

(** The loop at the end of [sys_getcwd], on what is collected so far and what is left. *)
Lemma reverse_loop_run n ws acc rest k :
  Forall path_word ws -> is_text acc -> (length ws < n)%nat -> (length (rendered ws) < k)%nat ->
  Z.of_nat (length acc + length (rendered ws)) < 65536 ->
  reverse_loop n (rendered ws ++ 0 :: rest) (acc ++ zeros k)
  = Ok (acc ++ rendered (rev ws) ++ zeros (k - length (rendered ws))).
Proof.
  revert ws acc rest k. induction n as [|n IH]; intros ws acc rest k Hws Hacc Hn Hk Hb; [lia|].
  cbn [reverse_loop]. unfold strrchr, obind, not_null.
  destruct ws as [|w ws _] using rev_ind.
  - rewrite (strrchr_none _ _ 0 []); [|by apply (str_at_app []); constructor|by constructor|simpl; lia].
    simpl. by rewrite Nat.sub_0_r.
  - apply list.Forall_app in Hws as [Hws Hw1]. apply list.Forall_cons in Hw1 as [[Hw Hns] _].
    rewrite rendered_snoc in *. rewrite length_app in *. cbn [length] in *.
    assert (Ht : is_text (rendered ws ++ slash :: w)).
    { apply list.Forall_app. split; [by apply rendered_text|]. constructor; [unfold slash; lia|done]. }
    rewrite (strrchr_last _ _ 0 (rendered ws) w); [|by apply str_at_app|done|rewrite !length_app; simpl; lia].
    rewrite Z.add_0_l. unfold strlen, obind, not_null.
    assert (Ha : str_at (acc ++ zeros k) 0 acc).
    { destruct k as [|k]; [lia|]. unfold zeros. simpl. by apply str_at_app. }
    rewrite (find_nul_spec _ _ _ _ Ha) by (rewrite length_app; lia). rewrite Z.add_0_l, Z.sub_0_r.
    unfold u16. rewrite Z.mod_small by lia. unfold strcpy, obind, not_null.
    assert (Hz : zeros k = zeros (S (length w)) ++ zeros (k - S (length w))).
    { unfold zeros. rewrite <- replicate_add. f_equal. lia. }
    rewrite Hz, (strcpy_loop_spec _ acc _ _ _ _ (slash :: w)).
    + rewrite wr_Ok by (rewrite !length_app; simpl; lia). rewrite Nat2Z.id.
      rewrite <- app_assoc. rewrite insert_app_r_alt by lia. rewrite Nat.sub_diag. cbn [app insert list_insert].
      change (slash :: w ++ zeros ?x) with ((slash :: w) ++ zeros x). rewrite (app_assoc acc).
      rewrite IH; [|done| |lia|lia|rewrite length_app; simpl; lia].
      * rewrite rev_unit, rendered_cons, length_app. cbn [length app]. rewrite <- !app_assoc. cbn [app].
        do 5 f_equal. unfold zeros. f_equal. lia.
      * apply list.Forall_app. split; [done|]. constructor; [unfold slash; lia|done].
    + split; [lia|]. split; [constructor; [unfold slash; lia|done]|]. exists rest.
      rewrite Nat2Z.id, <- app_assoc. by rewrite drop_app_length.
    + rewrite !length_app. simpl. lia.
    + unfold zeros. by rewrite length_replicate.
Qed.

Lemma sys_lseek_spec_witness :
  sys_lseek 3 (-1) SEEK_END sample_file_fs = Ok (2, with_pos 3 sample_open 2 sample_file_fs).
Proof.
  apply (sys_lseek_spec sample_file_fs 3 (-1) SEEK_END 3 sample_open sample_file_inode); try done.
Defined.
