(* ===== verification/Returns.v ===== *)
(** * Returns: that the code of the file system returns, and what it leaves alone

    [ends ok R m]: a run of [m] ends in a state related to the first one by [R], or with a
    fault [ok] allows; with [ok] all faults but [Diverges] it says that no loop of [m] runs
    out of fuel, with [ok] everything it is a frame property.  The judgement is closed
    under the monad's operations; the lemmas below give it for the functions of Inode, Dir
    and Path that look things up, and the frame for those that allocate. *)

From S2P Require Import Prelude Bitmap Interrupt DList Sched Task Ioqueue Disk Inode Cstring Words Dir File Path Format Pipe Fs.

#[local] Set Default Proof Using "Type*".

(** ** The judgement *)

Definition ends {S A} (ok : fault -> Prop) (R : S -> S -> Prop) (m : KM S A) : Prop :=
  forall s, match m s with Ok (_, s') => R s s' | Err e => ok e end.

Definition terminating (e : fault) : Prop := e <> Diverges.
Definition any_fault (e : fault) : Prop := True.
(** Every fault but the exhaustion of fuel is allowed. *)
Class Sane (ok : fault -> Prop) : Prop := sane : forall e, e <> Diverges -> ok e.
#[export] Instance sane_terminating : Sane terminating.
Proof. intros e He. exact He. Qed.
#[export] Instance sane_any : Sane any_fault.
Proof. done. Qed.

(** A pure computation that does not run out of fuel. *)
Definition fin {A} (o : outcome A) : Prop := o <> Err Diverges.

Section ends_rules.
Context {S : Type} (ok : fault -> Prop) `{!Sane ok} (R : S -> S -> Prop) `{!PreOrder R}.

Lemma ends_ret {A} (a : A) : ends ok R (kret a).
Proof. intros s. change (R s s). reflexivity. Qed.
Lemma ends_bind {A B} (m : KM S A) (k : A -> KM S B) : ends ok R m -> (forall a, ends ok R (k a)) -> ends ok R (kbind m k).
Proof.
  intros Hm Hk s. specialize (Hm s). unfold kbind. destruct (m s) as [[a s1]|e]; [|done].
  specialize (Hk a s1). destruct (k a s1) as [[b s2]|e]; [|done]. by transitivity s1.
Qed.
Lemma ends_reads {A} (f : S -> A) : ends ok R (kreads f).
Proof. intros s. change (R s s). reflexivity. Qed.
Lemma ends_mod (f : S -> S) : (forall s, R s (f s)) -> ends ok R (kmod f).
Proof. intros Hf s. apply Hf. Qed.
Lemma ends_fail {A} e : e <> Diverges -> ends ok R (kfail e : KM S A).
Proof. intros He s. by apply sane. Qed.
Lemma ends_lift {A} (o : outcome A) : fin o -> ends ok R (klift o).
Proof. intros Ho s. unfold klift. destruct o as [a|e]; [reflexivity|]. apply sane. intros ->. by apply Ho. Qed.
Lemma ends_ASSERT c : ends ok R (ASSERT c).
Proof. unfold ASSERT. destruct c; [apply ends_ret|by apply ends_fail]. Qed.
Lemma ends_PANIC {A} : ends ok R (PANIC : KM S A).
Proof. by apply ends_fail. Qed.
End ends_rules.

Lemma ends_weaken {S A} ok (R R' : S -> S -> Prop) (m : KM S A) :
  ends ok R m -> (forall s s', R s s' -> R' s s') -> ends ok R' m.
Proof. intros Hm HR s. specialize (Hm s). destruct (m s) as [[a s']|e]; auto. Qed.

(** ** Pure computations *)

Section fin_rules.
Context {A B : Type}.
Lemma fin_ok (a : A) : fin (Ok a).
Proof. done. Qed.
Lemma fin_err e : e <> Diverges -> fin (Err e : outcome A).
Proof. by intros He [= ->]. Qed.
Lemma fin_bind (m : outcome A) (k : A -> outcome B) : fin m -> (forall a, fin (k a)) -> fin (obind m k).
Proof. intros Hm Hk. destruct m as [a|e]; [apply Hk|]. intros [= ->]. by apply Hm. Qed.
Lemma fin_rd (l : list A) i : fin (rd l i).
Proof. unfold rd. repeat case_match; by intros ?. Qed.
Lemma fin_wr (l : list A) i v : fin (wr l i v).
Proof. unfold wr. case_match; by intros ?. Qed.
Lemma fin_splice (l : list A) o src : fin (splice l o src).
Proof. unfold splice. case_match; by intros ?. Qed.
Lemma fin_slice (l : list A) o n : fin (slice l o n).
Proof. unfold slice. case_match; by intros ?. Qed.
Lemma fin_fill (l : list A) o n v : fin (fill l o n v).
Proof. unfold fill. case_match; by intros ?. Qed.
End fin_rules.
Lemma fin_oassert c : fin (oassert c).
Proof. by destruct c. Qed.
Lemma fin_not_null p : fin (not_null p).
Proof. by destruct p. Qed.

Create HintDb ends.
#[export] Hint Resolve fin_ok fin_rd fin_wr fin_splice fin_slice fin_fill fin_oassert fin_not_null : ends.

Ltac fin_tac :=
  repeat first
    [ solve [eauto with ends]
    | apply fin_bind; [|intros ?]
    | apply fin_err; discriminate
    | match goal with
      | |- fin (if ?b then _ else _) => destruct b
      | |- fin (match ?x with _ => _ end) => destruct x
      end ].

(** A read that succeeds is inside of the object. *)
Lemma rd_bound {A} (l : list A) i v : rd l i = Ok v -> 0 <= i < Z.of_nat (length l).
Proof. intros (Hi & Hl)%rd_inv. apply lookup_lt_Some in Hl. lia. Qed.

(** The loops over an object stop at its end at the latest: one round of fuel more than it
    has bytes is enough. *)
Ltac fin_loop IH :=
  repeat first
    [ done
    | match goal with |- fin (match ?o with Ok _ => _ | Err _ => _ end) =>
        let E := fresh "E" in destruct o eqn:E;
        [try apply rd_bound in E|let H := fresh in intros H; injection H as ->; by apply (fin_rd _ _) in E] end
    | match goal with |- fin (if ?b then _ else _) => destruct b end
    | apply IH; lia ].

Definition in_reach (m : list Z) (p : Z) (fuel : nat) : Prop :=
  (0 < fuel)%nat /\ (p < 0 \/ Z.of_nat (length m) - p < Z.of_nat fuel).

Section fin_strings.
Implicit Types (m : list Z).

Lemma fin_find_nul fuel m p : in_reach m p fuel -> fin (find_nul fuel m p).
Proof.
  unfold in_reach. revert p. induction fuel as [|fuel IH]; intros p Hp; [lia|]. cbn [find_nul]. unfold obind. fin_loop IH.
Qed.
Lemma fin_strcmp_loop fuel m1 p1 m2 p2 : in_reach m1 p1 fuel -> fin (strcmp_loop fuel m1 p1 m2 p2).
Proof.
  unfold in_reach. revert p1 p2. induction fuel as [|fuel IH]; intros p1 p2 Hp; [lia|]. cbn [strcmp_loop]. unfold obind.
  fin_loop IH.
Qed.
Lemma fin_strcat_copy fuel dst str m p : in_reach m p fuel -> fin (strcat_copy fuel dst str m p).
Proof.
  unfold in_reach. revert dst str p. induction fuel as [|fuel IH]; intros dst str p Hp; [lia|]. cbn [strcat_copy]. unfold obind.
  destruct (rd m p) eqn:E; [|intros [= ->]; by apply fin_rd in E]. apply rd_bound in E.
  destruct (wr dst str _) eqn:E2; [|intros [= ->]; by apply fin_wr in E2]. fin_loop IH.
Qed.
Lemma fin_strcpy_loop fuel dst d m p : in_reach m p fuel -> fin (strcpy_loop fuel dst d m p).
Proof.
  unfold in_reach. revert dst d p. induction fuel as [|fuel IH]; intros dst d p Hp; [lia|]. cbn [strcpy_loop]. unfold obind.
  destruct (rd m p) eqn:E; [|intros [= ->]; by apply fin_rd in E]. apply rd_bound in E. destruct (negb _); [|done].
  destruct (wr dst d _) eqn:E2; [|intros [= ->]; by apply fin_wr in E2]. fin_loop IH.
Qed.
Lemma fin_strrchr_loop fuel m p ch temp : in_reach m p fuel -> fin (strrchr_loop fuel m p ch temp).
Proof.
  unfold in_reach. revert p temp. induction fuel as [|fuel IH]; intros p temp Hp; [lia|]. cbn [strrchr_loop]. unfold obind.
  destruct (rd m p) eqn:E; [|intros [= ->]; by apply fin_rd in E]. apply rd_bound in E.
  destruct (negb _); [apply IH; lia|done].
Qed.

Lemma in_reach_all m p : 0 <= p \/ p < 0 -> in_reach m p (S (length m)).
Proof. unfold in_reach. lia. Qed.
Lemma fin_strlen m p : fin (strlen m p).
Proof. unfold strlen. destruct p as [p|]; [|done]. cbn [obind not_null]. apply fin_bind; [apply fin_find_nul, in_reach_all; lia|done]. Qed.
Lemma fin_strcmp m1 p1 m2 p2 : fin (strcmp m1 p1 m2 p2).
Proof. apply fin_strcmp_loop, in_reach_all. lia. Qed.
Lemma fin_strcat m1 p1 m2 p2 : fin (strcat m1 p1 m2 p2).
Proof.
  unfold strcat. destruct p1 as [p1|], p2 as [p2|]; try done. cbn [obind not_null].
  apply fin_bind; [apply fin_find_nul, in_reach_all; lia|]. intros a. apply fin_strcat_copy, in_reach_all. lia.
Qed.
Lemma fin_strcpy m1 p1 m2 p2 : fin (strcpy m1 p1 m2 p2).
Proof. unfold strcpy. destruct p1, p2; try done. cbn [obind not_null]. apply fin_strcpy_loop, in_reach_all. lia. Qed.
Lemma fin_strrchr m p ch : fin (strrchr m p ch).
Proof. unfold strrchr. destruct p; [|done]. cbn [obind not_null]. apply fin_strrchr_loop, in_reach_all. lia. Qed.
Lemma fin_memcpy dst d src o len : fin (memcpy dst d src o len).
Proof.
  unfold memcpy. destruct d as [d|], o as [o|]; try done. cbn [obind not_null]. revert dst d o.
  induction (Z.to_nat len) as [|n IH]; intros; [done|]. cbn [memcpy_loop]. fin_tac.
Qed.
Lemma fin_memset dst d v len : fin (memset dst d v len).
Proof.
  unfold memset. destruct d as [d|]; [|done]. cbn [obind not_null]. revert dst d.
  induction (Z.to_nat len) as [|n IH]; intros; [done|]. cbn [memset_loop]. fin_tac.
Qed.

(** ** Paths *)

Lemma skip_slashes_bound n m o r : skip_slashes n m o = Ok r -> o < r < Z.of_nat (length m).
Proof.
  revert o. induction n as [|n IH]; intros o; [done|]. cbn [skip_slashes]. unfold obind.
  destruct (rd m (o + 1)) eqn:E; [|done]. apply rd_bound in E. destruct (_ =? slash).
  - intros Hr%IH. lia.
  - intros [= <-]. lia.
Qed.
Lemma fin_skip_slashes n m o : in_reach m (o + 1) n -> fin (skip_slashes n m o).
Proof.
  unfold in_reach. revert o. induction n as [|n IH]; intros o Hp; [lia|]. cbn [skip_slashes]. unfold obind. fin_loop IH.
Qed.

Lemma copy_component_bound n m o name k r : copy_component n m o name k = Ok r -> o <= r.1 < Z.of_nat (length m).
Proof.
  revert o name k. induction n as [|n IH]; intros o name k; [done|]. cbn [copy_component]. unfold obind.
  destruct (rd m o) eqn:E; [|done]. apply rd_bound in E. destruct (negb _ && negb _).
  - destruct (wr name k _); [|done]. intros Hr%IH. lia.
  - intros [= <-]. simpl. lia.
Qed.
Lemma fin_copy_component n m o name k : in_reach m o n -> fin (copy_component n m o name k).
Proof.
  unfold in_reach. revert o name k. induction n as [|n IH]; intros o name k Hp; [lia|]. cbn [copy_component]. unfold obind.
  destruct (rd m o) eqn:E; [|intros [= ->]; by apply fin_rd in E]. apply rd_bound in E. destruct (negb _ && negb _); [|done].
  destruct (wr name k _) eqn:E2; [|intros [= ->]; by apply fin_wr in E2]. apply IH. lia.
Qed.

Lemma fin_path_parse m o name : fin (path_parse m o name).
Proof.
  unfold path_parse. apply fin_bind; [apply fin_rd|]. intros c. apply fin_bind.
  { destruct (c =? slash); [apply fin_skip_slashes; unfold in_reach; lia|done]. }
  intros p. apply fin_bind; [apply fin_copy_component, in_reach_all; lia|]. intros r. fin_tac.
Qed.

(** Each call moves on in the path. *)
Lemma path_parse_progress m o name o' name' :
  path_parse m o name = Ok (Some o', name') -> 0 <= o /\ o < o' < Z.of_nat (length m).
Proof.
  unfold path_parse, obind. destruct (rd m o) as [c|] eqn:E; [|done]. pose proof (rd_bound _ _ _ E) as Hb.
  assert (Hcopy : forall n p k, o <= p -> (o < p \/ (p = o /\ c <> slash)) -> forall r, copy_component (S n) m p name k = Ok r ->
    rd m r.1 <> Ok 0 -> o < r.1).
  { intros n p k Hp Hor r Hr Hz. destruct Hor as [Hlt|[-> Hc]].
    - apply copy_component_bound in Hr. lia.
    - cbn [copy_component] in Hr. unfold obind in Hr. rewrite E in Hr. rewrite (proj2 (Z.eqb_neq _ _) Hc) in Hr.
      destruct (Z.eqb_spec c 0) as [->|].
      + simpl in Hr. injection Hr as <-. simpl in Hz. by rewrite E in Hz.
      + simpl in Hr. destruct (wr name k c); [|done]. apply copy_component_bound in Hr. lia. }
  destruct (if c =? slash then skip_slashes _ _ _ else _) as [p|] eqn:Ep; [|done].
  destruct (copy_component _ m p name 0) as [r|] eqn:Er; [|done].
  destruct (rd m r.1) as [c2|] eqn:E2; [|done]. destruct (Z.eqb_spec c2 0) as [->|Hc2]; [done|]. intros [= <- _].
  split; [lia|]. split; [|apply rd_bound in E2; lia]. eapply (Hcopy _ p 0); [..|exact Er|].
  - destruct (Z.eqb_spec c slash); [apply skip_slashes_bound in Ep; lia|injection Ep as ->; lia].
  - destruct (Z.eqb_spec c slash) as [->|]; [apply skip_slashes_bound in Ep; lia|injection Ep as ->; by right].
  - rewrite E2. congruence.
Qed.

(** Fuel for the loops over a path that is at [p] with a component in [name]. *)
Definition path_fuel m (p : option Z) (name : list Z) (n : nat) : Prop :=
  (rd name 0 = Ok 0 /\ (1 <= n)%nat) \/
  match p with Some o => o < Z.of_nat (length m) /\ Z.of_nat (length m) - o + 2 <= Z.of_nat n | None => (2 <= n)%nat end.

Lemma fill_zero name name' : fill name 0 MAX_FILE_NAME_LEN 0 = Ok name' -> rd name' 0 = Ok 0.
Proof. unfold fill. case_decide; [|done]. intros [= <-]. by apply rd_Ok. Qed.

(** The fuel left after a component. *)
Lemma path_fuel_next m p name n name0 p' name' :
  path_fuel m p name (S n) -> rd name 0 <> Ok 0 -> rd name0 0 = Ok 0 ->
  (match p with Some o => path_parse m o name0 | None => Ok (None, name0) end) = Ok (p', name') -> path_fuel m p' name' n.
Proof.
  intros [[? _]|Hf] Hn H0; [done|]. destruct p as [o|].
  - intros Hp. right. destruct p' as [o'|].
    + apply path_parse_progress in Hp. lia.
    + unfold path_parse, obind in Hp. destruct (rd m o) eqn:E; [|done]. apply rd_bound in E. lia.
  - intros [= <- <-]. left. split; [done|lia].
Qed.

Lemma path_fuel_start m name p name' : path_parse m 0 name = Ok (p, name') -> path_fuel m p name' (S (S (length m))).
Proof.
  intros Hp. right. destruct p as [o|]; [apply path_parse_progress in Hp; lia|lia].
Qed.

Lemma fin_depth_loop n m p name depth : path_fuel m p name n -> fin (depth_loop n m p name depth).
Proof.
  revert p name depth. induction n as [|n IH]; intros p name depth Hf.
  { exfalso. destruct Hf as [[_ ?]|Hf]; [lia|]. destruct p; lia. }
  cbn [depth_loop]. unfold obind at 1. destruct (rd name 0) as [c|] eqn:E; [|intros [= ->]; by apply fin_rd in E].
  destruct (Z.eqb_spec c 0) as [->|Hc]; [done|]. simpl negb. cbv iota.
  unfold obind at 1. destruct (fill name 0 _ 0) as [name0|] eqn:E2; [|intros [= ->]; by apply fin_fill in E2].
  apply fill_zero in E2. pose proof (path_fuel_next m p name n name0) as Hnext. rewrite E in Hnext.
  destruct p as [o|].
  - unfold obind. destruct (path_parse m o name0) as [[p' name']|] eqn:E3; [|intros [= ->]; by apply fin_path_parse in E3].
    apply IH, Hnext; [done|congruence|done|done].
  - apply IH, Hnext; [done|congruence|done|done].
Qed.
Lemma fin_path_depth_cnt name m : fin (path_depth_cnt name m 0).
Proof.
  unfold path_depth_cnt, obind. destruct (path_parse m 0 name) as [[p name']|] eqn:E; [|intros [= ->]; by apply fin_path_parse in E].
  destruct (depth_loop _ _ _ _ _) eqn:E2; [done|]. intros [= ->]. revert E2. apply fin_depth_loop.
  exact (path_fuel_start _ _ _ _ E).
Qed.
End fin_strings.
#[export] Hint Resolve fin_strlen fin_strcmp fin_strcat fin_strcpy fin_strrchr fin_memcpy fin_memset fin_path_parse
  fin_path_depth_cnt : ends.

(** ** The file system *)

(** The device and the heap only have faults that are allowed. *)
Class Returning (ok : fault -> Prop) (D H : Type) `{!BlockDev D, !KernelHeap H} : Prop := {
  returning_read : forall lba n (d : D) e, disk_read lba n d = Err e -> ok e;
  returning_write : forall lba b n (d : D) e, disk_write lba b n d = Err e -> ok e;
  returning_malloc : forall n (h : H) e, sys_malloc n h = Err e -> ok e;
  returning_free : forall p (h : H) e, sys_free p h = Err e -> ok e
}.

#[export] Instance returning_any D H `{!BlockDev D, !KernelHeap H} : Returning any_fault D H.
Proof. by split. Qed.
#[export] Instance returning_mem_disk : Returning terminating mem_disk bump_heap.
Proof.
  split; intros *; unfold disk_read, disk_write, sys_malloc, sys_free; simpl; repeat case_match; intros; simplify_eq; discriminate.
Qed.

(** The file table, the descriptors and the working directory. *)
Definition same_tables {D H} (s s' : fs D H) : Prop :=
  f_files s' = f_files s /\ f_fds s' = f_fds s /\ f_cwd s' = f_cwd s.
#[export] Instance same_tables_preorder D H : PreOrder (@same_tables D H).
Proof. split; [by intros s|]. unfold same_tables. intros x y z. intuition congruence. Qed.

(** Proves [ends] by following the code. *)
Ltac ends_step :=
  lazymatch goal with
  | |- ends _ _ (kbind _ _) => apply ends_bind; [try typeclasses eauto..| |intros ?]
  | |- ends _ _ (kret _) => apply ends_ret; typeclasses eauto
  | |- ends _ _ (kreads _) => apply ends_reads; typeclasses eauto
  | |- ends _ _ (klift _) => apply ends_lift; [typeclasses eauto..|solve [fin_tac]]
  | |- ends _ _ (ASSERT _) => apply ends_ASSERT; typeclasses eauto
  | |- ends _ _ PANIC => apply ends_PANIC; typeclasses eauto
  | |- ends _ _ (kfail _) => apply ends_fail; [typeclasses eauto..|discriminate]
  | |- ends _ _ (if ?b then _ else _) => destruct b
  | |- ends _ _ (match ?x with _ => _ end) => destruct x
  | |- ends _ _ (let _ := _ in _) => cbv zeta
  end.
Ltac ends_tac :=
  repeat first [solve [eauto with ends] | ends_step | apply ends_mod; [typeclasses eauto..|intros ?; solve [repeat split]]].

Section ends_fs.
Context (ok : fault -> Prop) {Hok : Sane ok} {D H : Type} `{!BlockDev D, !KernelHeap H} {Hret : Returning ok D H}.
Notation tame := (ends ok (@same_tables D H)).

Lemma allowed e : e <> Diverges -> ok e.
Proof. apply Hok. Qed.

Lemma ends_ide_read lba n : tame (ide_read lba n).
Proof. intros s. unfold ide_read. destruct (disk_read _ _ _) as [[b d]|e] eqn:E; [done|]. by eapply returning_read. Qed.
Lemma ends_ide_write lba b n : tame (ide_write lba b n).
Proof. intros s. unfold ide_write. destruct (disk_write _ _ _ _) as [d|e] eqn:E; [done|]. by eapply returning_write. Qed.
Lemma ends_malloc n : tame (malloc n).
Proof. intros s. unfold malloc. destruct (sys_malloc _ _) as [[b d]|e] eqn:E; [done|]. by eapply returning_malloc. Qed.
Lemma ends_free p : tame (free p).
Proof. intros s. unfold free. destruct (sys_free _ _) as [d|e] eqn:E; [done|]. by eapply returning_free. Qed.
Lemma ends_buffer p : tame (buffer p).
Proof. unfold buffer. ends_tac. Qed.
Lemma ends_get_user : tame get_user.
Proof. unfold get_user. ends_tac. Qed.
Lemma ends_put_user u : tame (put_user u).
Proof. unfold put_user. ends_tac. Qed.
Lemma ends_get_inode p : tame (get_inode p).
Proof. intros s. unfold get_inode. destruct (_ !! _); [repeat split|by apply allowed]. Qed.
Lemma ends_put_inode p i : tame (put_inode p i).
Proof. unfold put_inode, buffer. ends_tac. Qed.
Lemma ends_upd_inode p f : tame (upd_inode p f).
Proof. unfold upd_inode. ends_step; [apply ends_get_inode|apply ends_put_inode]. Qed.
Lemma ends_get_sb : tame get_sb.
Proof. unfold get_sb. ends_tac. Qed.
Lemma ends_get_part : tame get_part.
Proof. unfold get_part. ends_tac. Qed.
Lemma ends_put_part p : tame (put_part p).
Proof. unfold put_part. ends_tac. Qed.
Lemma ends_get_dir p : tame (get_dir p).
Proof. intros s. unfold get_dir. destruct (_ !! _); [repeat split|by apply allowed]. Qed.
Lemma ends_put_dir p d : tame (put_dir p d).
Proof. unfold put_dir, buffer. ends_tac. Qed.
Lemma ends_get_file i : tame (get_file i).
Proof. intros s. unfold get_file, rd. repeat case_match; simplify_eq; try (by apply allowed); repeat split. Qed.
Lemma ends_open_push p : tame (open_push p).
Proof. intros s. unfold open_push. destruct (decide _); [by apply allowed|repeat split]. Qed.
Lemma ends_open_remove p : tame (open_remove p).
Proof. intros s. unfold open_remove. destruct (decide _); [repeat split|by apply allowed]. Qed.
Lemma ends_intr_disable : tame intr_disable.
Proof. intros s. rewrite intr_disable_run. unfold intr_off. by destruct (Z.testbit _ _). Qed.
Lemma ends_intr_set_status st : tame (intr_set_status st).
Proof.
  intros s. destruct st; simpl; rewrite ?intr_disable_run, ?intr_enable_run; unfold intr_off, intr_on;
    by destruct (Z.testbit _ _).
Qed.
End ends_fs.
#[export] Hint Resolve ends_ide_read ends_ide_write ends_malloc ends_free ends_buffer ends_get_user ends_put_user
  ends_get_inode ends_put_inode ends_upd_inode ends_get_sb ends_get_part ends_put_part ends_get_dir ends_put_dir
  ends_get_file ends_open_push ends_open_remove ends_intr_disable ends_intr_set_status : ends.

(** ** Inodes and directories *)

Section ends_inodes.
Context (ok : fault -> Prop) {Hok : Sane ok} {D H : Type} `{!BlockDev D, !KernelHeap H} {Hret : Returning ok D H}.
Notation tame := (ends ok (@same_tables D H)).

Lemma ends_inode_locate no : tame (inode_locate no).
Proof. unfold inode_locate. ends_tac. Qed.
Lemma ends_kernel_malloc n : tame (kernel_malloc n).
Proof. unfold kernel_malloc. ends_tac. Qed.
Lemma ends_find_open l no : tame (find_open l no).
Proof. induction l as [|p l IH]; cbn [find_open]; ends_tac. Qed.
Lemma ends_inode_open no : tame (inode_open no).
Proof.
  unfold inode_open.
  ends_step; [ends_tac|]. ends_step; [apply ends_find_open|]. ends_step; [ends_tac|].
  repeat first [apply ends_inode_locate | apply ends_kernel_malloc | ends_step | solve [eauto with ends]].
Qed.
Lemma ends_inode_close p : tame (inode_close p).
Proof. unfold inode_close. ends_tac. Qed.
Lemma ends_dir_blocks i : tame (dir_blocks i).
Proof. unfold dir_blocks. ends_tac. Qed.
Lemma ends_entries_per_sec b : tame (entries_per_sec b).
Proof. unfold entries_per_sec. ends_tac. Qed.

Lemma fin_find_name n k buf name : fin (find_name n k buf name).
Proof. revert k. induction n as [|n IH]; intros k; cbn [find_name]; unfold name_cmp; fin_tac. Qed.
Lemma fin_find_child_entry n k buf no : fin (find_child_entry n k buf no).
Proof. revert k. induction n as [|n IH]; intros k; cbn [find_child_entry]; unfold entry_i_no; fin_tac. Qed.

Lemma ends_search_blocks l cnt name : tame (search_blocks l cnt name).
Proof. pose proof fin_find_name. induction l as [|b l IH]; cbn [search_blocks]; ends_tac. Qed.
Lemma ends_search_dir_entry p name e : tame (search_dir_entry p name e).
Proof.
  unfold search_dir_entry. pose proof ends_dir_blocks. pose proof ends_search_blocks. pose proof ends_entries_per_sec.
  ends_tac.
Qed.
Lemma ends_dir_open no : tame (dir_open no).
Proof. unfold dir_open. pose proof ends_inode_open. ends_tac. Qed.
Lemma ends_dir_close p : tame (dir_close p).
Proof. unfold dir_close. pose proof ends_inode_close. ends_tac. Qed.
End ends_inodes.
#[export] Hint Resolve ends_inode_locate ends_kernel_malloc ends_find_open ends_inode_open ends_inode_close ends_dir_blocks
  ends_entries_per_sec ends_search_blocks ends_search_dir_entry ends_dir_open ends_dir_close fin_find_name fin_find_child_entry : ends.

(** ** Paths *)

Section ends_paths.
Context (ok : fault -> Prop) {Hok : Sane ok} {D H : Type} `{!BlockDev D, !KernelHeap H} {Hret : Returning ok D H}.
Notation tame := (ends ok (@same_tables D H)).

Lemma fin_is_root path : fin (is_root path).
Proof. unfold is_root. fin_tac. Qed.
Lemma fin_append_component path name : fin (append_component path name).
Proof. unfold append_component. fin_tac. Qed.
Lemma fin_next_component (p : option Z) m name :
  fin (match p with Some o => path_parse m o name | None => Ok (None, name) end).
Proof. fin_tac. Qed.

(** What is known of the result of a pure computation. *)
Lemma ends_lift_bind {A B} (o : outcome A) (k : A -> KM (fs D H) B) :
  fin o -> (forall a, o = Ok a -> tame (k a)) -> tame (kbind (klift o) k).
Proof.
  intros Ho Hk s. unfold kbind, klift. destruct o as [a|e].
  - apply (Hk a eq_refl s).
  - apply Hok. intros ->. by apply Ho.
Qed.

Lemma ends_search_loop n m p name pdir parent e r :
  path_fuel m p name n -> tame (search_loop n m p name pdir parent e r).
Proof.
  pose proof fin_append_component. pose proof fin_next_component.
  revert p name pdir parent e r. induction n as [|n IH]; intros p name pdir parent e r Hf.
  { exfalso. destruct Hf as [[_ ?]|Hf]; [lia|]. destruct p; lia. }
  cbn [search_loop]. apply ends_lift_bind; [ends_tac|]. intros c Hc. destruct (Z.eqb_spec c 0) as [->|Hc0]; [apply ends_ret; typeclasses eauto|].
  cbn [negb]. ends_step; [ends_tac|]. ends_step; [ends_tac|]. destruct a0 as [found e1]. cbn [fst snd].
  destruct found; [|ends_tac]. apply ends_lift_bind; [fin_tac|]. intros name0 Hname0.
  apply ends_lift_bind; [fin_tac|]. intros [p' name'] Hp'. cbn [fst snd].
  assert (path_fuel m p' name' n) as Hn.
  { apply (path_fuel_next m p name n name0 p' name'); [done|rewrite Hc; congruence|by apply fill_zero in Hname0|done]. }
  ends_tac.
Qed.

Lemma ends_search_file e path r : tame (search_file e path r).
Proof.
  unfold search_file. pose proof fin_is_root. ends_step; [ends_tac|].
  ends_step; [ends_tac|]. do 3 (ends_step; [ends_tac|]).
  apply ends_lift_bind; [fin_tac|]. intros [p name] Hp. ends_step; [apply ends_search_loop; exact (path_fuel_start _ _ _ _ Hp)|ends_tac].
Qed.
End ends_paths.
#[export] Hint Resolve fin_is_root fin_append_component ends_search_file : ends.

(** ** The working directory *)

Section cwd_strings.
Implicit Types (m : list Z).

(** The first [k] bytes are no NUL. *)
Definition lead m (k : nat) : Prop := forall i, 0 <= i < Z.of_nat k -> exists v, rd m i = Ok v /\ v <> 0.

Lemma lead_bound m k : lead m k -> (k <= length m)%nat.
Proof.
  intros Hk. destruct k as [|k]; [lia|]. destruct (Hk (Z.of_nat k)) as (v & Hv & _); [lia|]. apply rd_bound in Hv. lia.
Qed.

Lemma wr_keeps m i v m' : wr m i v = Ok m' ->
  length m' = length m /\ rd m' i = Ok v /\ forall j, j <> i -> rd m' j = rd m j.
Proof.
  intros [Hb ->]%wr_inv. rewrite length_insert. split; [done|]. split; [by apply rd_insert_eq|].
  intros j Hj. apply rd_insert_ne; [lia|done].
Qed.

Lemma strcat_copy_keeps fuel dst p m o dst' : strcat_copy fuel dst p m o = Ok dst' ->
  length dst' = length dst /\ rd dst' p = rd m o /\ forall j, j < p -> rd dst' j = rd dst j.
Proof.
  revert dst p o. induction fuel as [|fuel IH]; intros dst p o; [done|]. cbn [strcat_copy]. unfold obind.
  destruct (rd m o) as [v|] eqn:Ev; [|done]. destruct (wr dst p v) as [dst1|] eqn:Ew; [|done].
  apply wr_keeps in Ew as (Hl & Hp & Hlt).
  destruct (negb (v =? 0)); [intros (Hl2 & _ & Hlt2)%IH|intros [= <-]].
  - split; [congruence|]. split; [rewrite Hlt2 by lia; congruence|]. intros j Hj. rewrite Hlt2, Hlt by lia. done.
  - split; [done|]. split; [congruence|]. intros j Hj. apply Hlt. lia.
Qed.

Lemma find_nul_inv fuel m q p : find_nul fuel m q = Ok p ->
  q <= p /\ rd m p = Ok 0 /\ forall i, q <= i < p -> exists v, rd m i = Ok v /\ v <> 0.
Proof.
  revert q. induction fuel as [|fuel IH]; intros q; [done|]. cbn [find_nul]. unfold obind.
  destruct (rd m q) as [v|] eqn:Ev; [|done]. destruct (Z.eqb_spec v 0) as [->|Hv]; cbn [negb].
  - intros [= <-]. split; [lia|]. split; [done|]. intros i Hi. lia.
  - intros (Hq & H0 & Hi)%IH. split; [lia|]. split; [done|]. intros i Hb. destruct (decide (i = q)) as [->|]; [by exists v|].
    apply Hi. lia.
Qed.

(** Appending a string keeps what there is, and makes it longer when the string is not empty. *)
Lemma strcat_lead m src o m' k : strcat m (Some 0) src (Some o) = Ok m' -> lead m k ->
  length m' = length m /\ lead m' k /\ forall v, rd src o = Ok v -> v <> 0 -> lead m' (S k).
Proof.
  unfold strcat, not_null, obind. destruct (find_nul _ m 0) as [p|] eqn:Ep; [|done].
  apply find_nul_inv in Ep as (Hp & H0 & Hlt). intros (Hl & Hv & Hk)%strcat_copy_keeps Hlead.
  assert (Hkp : Z.of_nat k <= p).
  { destruct (Z.le_gt_cases (Z.of_nat k) p); [done|]. destruct (Hlead p) as (v & Hrv & Hv0); [lia|]. congruence. }
  split; [done|]. split.
  - intros i Hi. rewrite Hk by lia. by apply Hlead.
  - intros v Hsrc Hv0 i Hi. destruct (decide (i = p)) as [->|]; [exists v; split; congruence|].
    rewrite Hk by lia. apply Hlt. lia.
Qed.

Lemma strrchr_before fuel m q ch temp o : strrchr_loop fuel m q ch temp = Ok (Some o) ->
  temp = Some o \/ (q <= o /\ forall i, q <= i <= o -> rd m i <> Ok 0).
Proof.
  revert q temp. induction fuel as [|fuel IH]; intros q temp; [done|]. cbn [strrchr_loop]. unfold obind.
  destruct (rd m q) as [v|] eqn:Ev; [|done]. destruct (Z.eqb_spec v 0) as [->|Hv]; cbn [negb].
  - intros [= ->]. by left.
  - assert (Hq : rd m q <> Ok 0) by congruence. intros [Ht|[Hqo Hi]]%IH.
    + destruct (i8 v =? ch); [injection Ht as <-|by left]. right. split; [lia|]. intros i Hb. by replace i with q by lia.
    + right. split; [lia|]. intros i Hb. destruct (decide (i = q)) as [->|]; [done|]. apply Hi. lia.
Qed.

(** Each round of the last loop of [sys_getcwd] ends the string earlier. *)
Lemma fin_reverse_loop n m buf p : rd m p = Ok 0 -> p < Z.of_nat n -> 0 <= p -> fin (reverse_loop n m buf).
Proof.
  revert m buf p. induction n as [|n IH]; intros m buf p H0 Hn Hp; [lia|]. cbn [reverse_loop]. unfold obind at 1.
  destruct (strrchr m (Some 0) slash) as [[o|]|] eqn:E; [|done|intros [= ->]; by apply fin_strrchr in E].
  unfold strrchr, not_null, obind in E. apply strrchr_before in E as [|[Ho Hi]]; [done|].
  assert (o < p). { destruct (Z.le_gt_cases p o); [|lia]. exfalso. by apply (Hi p). }
  apply fin_bind; [ends_tac|]. intros len. apply fin_bind; [fin_tac|]. intros buf'. unfold obind.
  destruct (wr m o 0) as [m'|] eqn:Ew; [|intros [= ->]; by apply fin_wr in Ew].
  apply wr_keeps in Ew as (_ & Hr & _). apply (IH _ _ o); [done|lia|done].
Qed.
End cwd_strings.

(** ** The calls that look things up *)

(** The file table and the descriptors; [sys_chdir] changes the working directory. *)
Definition same_files {D H} (s s' : fs D H) : Prop := f_files s' = f_files s /\ f_fds s' = f_fds s.
#[export] Instance same_files_preorder D H : PreOrder (@same_files D H).
Proof. split; [by intros s|]. unfold same_files. intros x y z. intuition congruence. Qed.

Section ends_calls.
Context (ok : fault -> Prop) {Hok : Sane ok} {D H : Type} `{!BlockDev D, !KernelHeap H} {Hret : Returning ok D H}.
Notation tame := (ends ok (@same_tables D H)).

(** The rest is tame for the results the first part can have. *)
Lemma ends_bind_known {A B} (m : KM (fs D H) A) (k : A -> KM (fs D H) B) :
  tame m -> (forall s a s', m s = Ok (a, s') -> tame (k a)) -> tame (kbind m k).
Proof.
  intros Hm Hk s. specialize (Hm s). unfold kbind. destruct (m s) as [[a s1]|e] eqn:E; [|done].
  specialize (Hk s a s1 E s1). destruct (k a s1) as [[b s2]|e]; [|done]. by transitivity s1.
Qed.

Lemma ends_get_parent no : tame (get_parent_dir_inode_nr no).
Proof. unfold get_parent_dir_inode_nr, entry_i_no, entry_f_type. ends_tac. Qed.

Lemma ends_child_name_loop l cnt no path : tame (child_name_loop l cnt no path).
Proof. induction l as [|b l IH]; cbn [child_name_loop]; ends_tac. Qed.
Lemma ends_get_child p no path : tame (get_child_dir_name p no path).
Proof. unfold get_child_dir_name. pose proof ends_child_name_loop. ends_tac. Qed.

(** The name of a child is appended after a slash. *)
Lemma child_name_grows l cnt no path (s : fs D H) path' s' k :
  child_name_loop l cnt no path s = Ok (Some path', s') -> lead path k -> length path' = length path /\ lead path' (S k).
Proof.
  revert s. induction l as [|b l IH]; intros s; cbn [child_name_loop]; [done|]. case_match; [apply IH|].
  intros (io_buf & s1 & _ & (k1 & s2 & _ & Hrun)%kbind_inv)%kbind_inv. destruct k1 as [k1|]; [|by apply (IH s2)].
  apply kbind_inv in Hrun as (p1 & s3 & H1 & (p2 & s4 & H2 & H3)%kbind_inv). injection H3 as <- <-.
  unfold klift in H1, H2. destruct (strcat path _ _ _) as [q1|] eqn:E1; [|done]. injection H1 as <- <-.
  destruct (strcat q1 _ _ _) as [q2|] eqn:E2; [|done]. injection H2 as <- <-. intros Hl.
  destruct (strcat_lead _ _ _ _ _ E1 Hl) as (Hl1 & _ & Hg). specialize (Hg slash eq_refl ltac:(done)).
  destruct (strcat_lead _ _ _ _ _ E2 Hg) as (Hl2 & Hg2 & _). split; [congruence|done].
Qed.
Lemma get_child_grows p no path (s : fs D H) path' s' k :
  get_child_dir_name p no path s = Ok (Some path', s') -> lead path k -> length path' = length path /\ lead path' (S k).
Proof.
  unfold get_child_dir_name. do 6 (intros (? & ? & _ & Hrun)%kbind_inv; revert Hrun). apply child_name_grows.
Qed.

(** Every round makes the path longer, and it does not outgrow its buffer. *)
Lemma ends_cwd_loop n no path k : lead path k -> (length path < n + k)%nat -> tame (cwd_loop n no path).
Proof.
  revert no path k. induction n as [|n IH]; intros no path k Hk Hn; [apply lead_bound in Hk; lia|].
  cbn [cwd_loop]. destruct (no =? 0); [ends_tac|]. ends_step; [apply ends_get_parent|].
  apply ends_bind_known; [apply ends_get_child|]. intros s [path'|] s' Hrun; [|ends_tac].
  destruct (get_child_grows _ _ _ _ _ _ k Hrun Hk) as [Hl Hlead]. apply (IH _ _ (S k) Hlead). lia.
Qed.
Lemma cwd_loop_length n no path (s : fs D H) path' s' : cwd_loop n no path s = Ok (Some path', s') -> length path' = length path.
Proof.
  revert no path s. induction n as [|n IH]; intros no path s; [done|]. cbn [cwd_loop]. case_match; [by intros [= -> _]|].
  intros (no' & s1 & _ & (p' & s2 & Hc & Hr)%kbind_inv)%kbind_inv. destruct p' as [p'|]; [|done].
  apply IH in Hr. eapply (get_child_grows _ _ _ _ _ _ 0) in Hc as [Hc _]; [congruence|]. intros i Hi. lia.
Qed.

Lemma ends_sys_getcwd buf size : tame (sys_getcwd buf size).
Proof.
  unfold sys_getcwd. ends_step; [ends_tac|]. ends_step; [ends_tac|].
  ends_step; [ends_tac|]. ends_step; [ends_tac|]. ends_step; [ends_tac|]. ends_step; [ends_tac|].
  apply ends_bind_known; [apply (ends_cwd_loop _ _ _ 0); [intros i Hi; lia|rewrite length_replicate; lia]|].
  intros s [path|] s' Hp; [|ends_tac]. apply cwd_loop_length in Hp. rewrite length_replicate in Hp.
  apply (ends_lift_bind ok); [ends_tac|]. intros len Hlen. ends_step; [ends_tac|]. ends_step; [|ends_tac].
  apply ends_lift; [typeclasses eauto..|]. unfold strlen, not_null, obind in Hlen.
  destruct (find_nul _ path 0) as [p|] eqn:E; [|done]. apply find_nul_inv in E as (H0 & Hr & _).
  apply (fin_reverse_loop _ _ _ p Hr); [apply rd_bound in Hr; lia|done].
Qed.

Lemma ends_sys_opendir g name : tame (sys_opendir g name).
Proof. unfold sys_opendir. ends_tac. Qed.
Lemma ends_sys_stat g path buf : tame (sys_stat g path buf).
Proof. unfold sys_stat. ends_tac. Qed.
Lemma ends_sys_closedir p : tame (sys_closedir p).
Proof. unfold sys_closedir. ends_tac. Qed.
End ends_calls.

Section calls_return.
Context {D H : Type} `{!BlockDev D, !KernelHeap H} {Hret : Returning terminating D H}.

Lemma ends_sys_chdir g path : ends terminating (@same_files D H) (sys_chdir g path).
Proof.
  assert (Hw : forall A (m : KM (fs D H) A), ends terminating same_tables m -> ends terminating same_files m).
  { intros A m Hm. apply (ends_weaken _ _ _ _ Hm). by intros s s' (? & ? & _). }
  pose proof sane_terminating. unfold sys_chdir. apply ends_bind; [typeclasses eauto..|apply Hw; ends_tac|intros r].
  apply ends_bind; [typeclasses eauto..| |intros ret].
  - destruct (negb _); [|apply ends_ret; typeclasses eauto]. destruct (_ =? _); [|apply ends_ret; typeclasses eauto].
    apply ends_bind; [typeclasses eauto..| |intros _; apply ends_ret; typeclasses eauto]. apply ends_mod; first [typeclasses eauto|intros s; by split].
  - apply Hw. ends_tac.
Qed.

(** C27: looking something up always returns.  For every path, every state of the disk and of
    the kernel, [sys_opendir], [sys_stat], [sys_getcwd] and [sys_chdir] either return or stop
    at an assertion or a bad access, but no loop of theirs runs for ever: not the ones over
    the components of the path (with any number of slashes), not the search of the
    directories, not the climb to the root, which an overlong path ends even when the
    directories form a cycle.  The file table and the descriptors are left as they were, and
    except by [sys_chdir] so is the working directory. *)
Theorem lookups_return g path buf size st :
  ends terminating (@same_tables D H) (sys_opendir g path) /\
  ends terminating (@same_tables D H) (sys_stat g path st) /\
  ends terminating (@same_tables D H) (sys_getcwd buf size) /\
  ends terminating (@same_files D H) (sys_chdir g path).
Proof.
  split_and!; [apply ends_sys_opendir|apply ends_sys_stat|apply ends_sys_getcwd|apply ends_sys_chdir]; typeclasses eauto.
Qed.
End calls_return.

(** The in-memory disk and heap return. *)
Lemma lookups_return_witness :
  exists e s', sys_chdir (Garbage no_name no_name zero_entry) sample_path sample_dir_fs = Ok (e, s') /\
    f_files s' = f_files sample_dir_fs /\ f_fds s' = f_fds sample_dir_fs /\ e = -1.
Proof.
  pose proof (lookups_return (Garbage no_name no_name zero_entry) sample_path [] 0 (Stat 0 0 0)) as (_ & _ & _ & Hc).
  specialize (Hc sample_dir_fs). destruct (sys_chdir _ _ _) as [[e s']|e] eqn:E; [|vm_compute in E; discriminate].
  exists e, s'. destruct Hc as [Hf Hd]. split; [done|]. split; [done|]. split; [done|]. vm_compute in E. injection E as <- _. done.
Defined.
