(* ===== verification/CleanPath.v ===== *)
(** * CleanPath: the clean absolute path of a command's argument

    [wash_path] and [make_clear_abs_path] of shell/buildin_cmd.c, which take "." and ".."
    out of a path and put the working directory before a relative one, against a reference
    on lists of components.  A [char *] is an object and an offset into it, as in Cstring;
    a failed [assert] of a user program, which prints and never returns, is the fault
    [AssertFail]. *)

From S2P Require Import Prelude Bitmap Interrupt DList Sched Task Ioqueue Disk Inode Cstring Words Dir File Path Format Pipe Fs.

#[local] Set Default Proof Using "Type*".

(** ** The code *)

(** [".."]: the last component of [new_abs_path] is cut off. *)
Definition drop_last (new_abs_path : list Z) : outcome (list Z) :=
  let? slash_ptr := strrchr new_abs_path (Some 0) slash in
  match slash_ptr with
  | None => Err OutOfBounds
  | Some o => if negb (o =? 0) then wr new_abs_path o 0 else wr new_abs_path (o + 1) 0
  end.

(** A name that is not ".." nor "." is appended. *)
Definition append_name (new_abs_path name : list Z) : outcome (list Z) :=
  let? c := strcmp dot 0 name 0 in
  if negb (c =? 0) then
    let? r := strcmp new_abs_path 0 s_root 0 in
    let? new_abs_path := (if negb (r =? 0) then strcat new_abs_path (Some 0) s_root (Some 0) else Ok new_abs_path) in
    strcat new_abs_path (Some 0) name (Some 0)
  else Ok new_abs_path.

Fixpoint wash_loop (n : nat) (old_abs_path : list Z) (sub_path : option Z) (name new_abs_path : list Z) : outcome (list Z) :=
  match n with
  | O => Err Diverges
  | S n =>
      let? c := rd name 0 in
      if negb (c =? 0) then
        let? up := strcmp dotdot 0 name 0 in
        let? new_abs_path := (if up =? 0 then drop_last new_abs_path else append_name new_abs_path name) in
        let? name := fill name 0 MAX_FILE_NAME_LEN 0 in
        let? p := (match sub_path with
                   | Some o => path_parse old_abs_path o name
                   | None => Ok (None, name) end) in
        wash_loop n old_abs_path p.1 p.2 new_abs_path
      else Ok new_abs_path
  end.

(** [new_abs_path] as it is afterwards. *)
Definition wash_path (old_abs_path new_abs_path : list Z) : outcome (list Z) :=
  let? c := rd old_abs_path 0 in
  let? _ := oassert (c =? slash) in
  let? p := path_parse old_abs_path 0 no_name in
  let? c := rd p.2 0 in
  if c =? 0 then
    let? new_abs_path := wr new_abs_path 0 slash in
    wr new_abs_path 1 0
  else
    let? new_abs_path := wr new_abs_path 0 0 in
    let? new_abs_path := strcat new_abs_path (Some 0) s_root (Some 0) in
    wash_loop (S (S (length old_abs_path))) old_abs_path p.1 p.2 new_abs_path.

Section shell.
Context {U : Type}.
Notation M := (KM U).
(** The system call [getcwd]. *)
Context (getcwd : list Z -> Z -> M (option (list Z))).

(** The buffer [abs_path] after the working directory is put into it: all zeros when
    [getcwd] fails. *)
Definition cwd_prefix : M (list Z) :=
  let abs_path := replicate 512 0 in
  cwd <- getcwd abs_path MAX_PATH_LEN ;;
  match cwd with
  | None => kret abs_path
  | Some abs_path =>
      c0 <- klift (rd abs_path 0) ;;
      c1 <- klift (rd abs_path 1) ;;
      if (c0 =? slash) && (c1 =? 0) then kret abs_path
      else klift (strcat abs_path (Some 0) s_root (Some 0))
  end.

(** [final_path] as it is afterwards. *)
Definition make_clear_abs_path (path final_path : list Z) : M (list Z) :=
  c <- klift (rd path 0) ;;
  abs_path <- (if negb (c =? slash) then cwd_prefix else kret (replicate 512 0)) ;;
  abs_path <- klift (strcat abs_path (Some 0) path (Some 0)) ;;
  klift (wash_path abs_path final_path).
End shell.

(** ** The reference *)

(** A component applied to the list of directories from the root: ".." leaves the last one
    (at the root it stays there), "." stays, everything else goes into it. *)
Definition clean_step (acc : list (list Z)) (w : list Z) : list (list Z) :=
  if decide (w = [46; 46]) then removelast acc else if decide (w = [46]) then acc else acc ++ [w].
Definition clean (ws : list (list Z)) : list (list Z) := fold_left clean_step ws [].

(** The absolute path of a list of directories. *)
Definition canon (ws : list (list Z)) : list Z := match ws with [] => [slash] | _ => rendered ws end.

Lemma removelast_snoc {A} (l : list A) x : removelast (l ++ [x]) = l.
Proof. by rewrite removelast_app, app_nil_r. Qed.

Lemma canon_snoc ws w : canon (ws ++ [w]) = rendered ws ++ slash :: w.
Proof. rewrite <- rendered_snoc. by destruct ws. Qed.

Lemma canon_text ws : Forall path_word ws -> is_text (canon ws).
Proof. intros Hw. destruct ws; [constructor; [unfold slash; lia|constructor]|by apply rendered_text]. Qed.

Lemma canon_length ws : (length (canon ws) <= S (length (rendered ws)))%nat.
Proof. destruct ws; simpl; lia. Qed.

(** A buffer of [cap] bytes with the path of [acc]. *)
Definition holds_path (b : list Z) (cap : nat) (acc : list (list Z)) : Prop :=
  str_at b 0 (canon acc) /\ length b = cap.

(** What a component is. *)
Definition component (w : list Z) : Prop := path_word w /\ w <> [].

Lemma component_words ws : Forall component ws -> Forall path_word ws.
Proof. intros H. apply (list.Forall_impl _ _ _ H). by intros w [? _]. Qed.

(** Cutting a string at a NUL written into it. *)
Lemma str_at_cut b s t : str_at b 0 (s ++ t) -> exists b', wr b (Z.of_nat (length s)) 0 = Ok b' /\
  str_at b' 0 s /\ length b' = length b.
Proof.
  intros (_ & Ht & r & Hd). change (drop (Z.to_nat 0) b) with b in Hd. subst b. rewrite <- app_assoc.
  eexists. rewrite wr_Ok by (rewrite !length_app; simpl; lia). split; [done|]. rewrite length_insert. split; [|done].
  apply list.Forall_app in Ht as [Hs _]. rewrite Nat2Z.id, insert_app_r_alt, Nat.sub_diag by lia.
  destruct t as [|c t]; by apply str_at_app.
Qed.

Lemma drop_last_run b cap acc : Forall path_word acc -> holds_path b cap acc ->
  exists b', drop_last b = Ok b' /\ holds_path b' cap (removelast acc).
Proof.
  intros Hw [Hs Hl]. unfold drop_last, strrchr, not_null. cbn [obind].
  pose proof (str_fuel _ _ _ Hs) as Hf. destruct acc as [|w ws _] using rev_ind.
  - rewrite (strrchr_last _ _ 0 [] []) by (done || constructor). cbn [obind].
    destruct (str_at_cut b [slash] []) as (b' & Hr & Hs' & Hl'); [done|]. exists b'. split; [exact Hr|]. split; [done|congruence].
  - rewrite removelast_snoc. rewrite canon_snoc in Hs, Hf. apply list.Forall_app in Hw as [Hw Hw1].
    apply list.Forall_cons in Hw1 as [[_ Hns] _]. rewrite (strrchr_last _ _ 0 (rendered ws) w) by done. cbn [obind].
    rewrite Z.add_0_l. destruct ws as [|w0 ws].
    + change (canon []) with [slash] in *. destruct (str_at_cut b [slash] w) as (b' & Hr & Hs' & Hl'); [done|].
      exists b'. split; [exact Hr|]. split; [done|congruence].
    + destruct (str_at_cut b (rendered (w0 :: ws)) (slash :: w)) as (b' & Hr & Hs' & Hl'); [done|]. exists b'.
      rewrite (proj2 (Z.eqb_neq _ _)) by (rewrite rendered_cons; simpl; lia). split; [exact Hr|]. split; [done|congruence].
Qed.

Lemma root_at : str_at s_root 0 [slash].
Proof. by apply (str_at_app [slash] []); repeat constructor. Qed.
Lemma dot_at : str_at dot 0 [46].
Proof. by apply (str_at_app [46] []); repeat constructor. Qed.
Lemma dotdot_at : str_at dotdot 0 [46; 46].
Proof. by apply (str_at_app [46; 46] []); repeat constructor. Qed.

Lemma append_name_run b cap acc name w : Forall component acc -> holds_path b cap acc -> str_at name 0 w -> w <> [] ->
  w <> [46; 46] -> (length (rendered acc) + S (length w) < cap)%nat ->
  exists b', append_name b name = Ok b' /\ holds_path b' cap (clean_step acc w).
Proof.
  intros Hc [Hs Hl] Hn Hne Hup Hroom. unfold append_name, clean_step. rewrite decide_False by done.
  destruct (strcmp_eqb _ _ _ _ dot_at Hn) as (r & -> & Hr). cbn [obind]. rewrite Hr.
  destruct (decide (w = [46])) as [->|Hd]; [by exists b|]. rewrite bool_decide_false by congruence. cbn [negb].
  destruct (strcmp_eqb _ _ _ _ Hs root_at) as (r2 & -> & Hr2). cbn [obind]. rewrite Hr2.
  assert (Hstep : exists b1, (if negb (bool_decide (canon acc = [slash])) then strcat b (Some 0) s_root (Some 0) else Ok b) = Ok b1 /\
    str_at b1 0 (rendered acc ++ [slash]) /\ length b1 = cap).
  { destruct acc as [|w0 ws]; [by exists b|]. apply list.Forall_cons in Hc as [[_ Hw0] _]. rewrite bool_decide_false.
    - destruct (strcat_run b _ _ _ Hs root_at) as (b1 & Hrun & Hs1 & Hl1); [simpl in *; lia|]. exists b1.
      split; [exact Hrun|]. split; [done|congruence].
    - cbn [canon]. rewrite rendered_cons. intros [= E]. by destruct w0. }
  destruct Hstep as (b1 & -> & Hs1 & Hl1). cbn [obind].
  destruct (strcat_run b1 _ _ _ Hs1 Hn) as (b2 & Hrun & Hs2 & Hl2); [rewrite length_app; simpl; lia|]. exists b2.
  split; [exact Hrun|]. split; [|congruence]. rewrite canon_snoc. by rewrite <- app_assoc in Hs2.
Qed.

(** The array [name] with a component, which leaves room for the NUL. *)
Lemma name_at w : is_text w -> (length w < 16)%nat -> str_at (w ++ drop (length w) no_name) 0 w.
Proof.
  intros Ht Hl. unfold no_name. rewrite drop_replicate. replace (16 - length w)%nat with (S (15 - length w)) by lia.
  by apply str_at_app.
Qed.

Definition fits (w : list Z) : Prop := (length w < 16)%nat.

Lemma clean_step_room acc w : Forall component acc -> component w ->
  Forall component (clean_step acc w) /\ (length (rendered (clean_step acc w)) <= length (rendered acc) + S (length w))%nat.
Proof.
  intros Ha Hw. unfold clean_step. case_decide; [|case_decide; [split; [done|lia]|]].
  - destruct acc as [|v ws _] using rev_ind; [split; [done|simpl; lia]|]. rewrite removelast_snoc, rendered_snoc, length_app.
    split; [by apply list.Forall_app in Ha as [? _]|lia].
  - rewrite rendered_snoc, length_app. split; [apply list.Forall_app; split; [done|by constructor]|simpl; lia].
Qed.

Lemma wash_loop_run n m s p w acc b cap :
  is_text s -> Forall fits (w :: components s) -> component w ->
  match p with Some o => str_at m o s | None => s = [] end ->
  Forall component acc -> holds_path b cap acc -> (length (components s) + 1 < n)%nat ->
  (length (rendered acc) + length (rendered (w :: components s)) < cap)%nat ->
  exists b', wash_loop n m p (w ++ drop (length w) no_name) b = Ok b' /\
    holds_path b' cap (fold_left clean_step (w :: components s) acc).
Proof.
  revert s p w acc b. induction n as [|n IH]; intros s p w acc b Ht Hf Hw Hp Ha Hb Hn Hroom; [lia|].
  apply list.Forall_cons in Hf as [Hfw Hfs]. pose proof Hw as Hw0. destruct Hw0 as [[Hwt Hwn] Hwe].
  pose proof (name_at w Hwt Hfw) as Hname. destruct (name_array w Hwe Hwt) as (Hl16 & c & Hc & Hc0); [unfold fits in Hfw; lia|].
  rewrite rendered_cons, length_cons, length_app in Hroom.
  destruct (clean_step_room acc w Ha Hw) as [Ha' Hroom'].
  cbn [wash_loop]. rewrite Hc. cbn [obind]. rewrite (proj2 (Z.eqb_neq _ _)) by done. cbn [negb].
  destruct (strcmp_eqb _ _ _ _ dotdot_at Hname) as (r & -> & Hr). cbn [obind]. rewrite Hr.
  assert (Hstep : exists b1, (if bool_decide ([46; 46] = w) then drop_last b else append_name b (w ++ drop (length w) no_name)) = Ok b1 /\
    holds_path b1 cap (clean_step acc w)).
  { case_bool_decide as E.
    - subst w. apply (drop_last_run b cap acc (component_words _ Ha) Hb).
    - apply (append_name_run b cap acc _ w Ha Hb Hname Hwe); [congruence|lia]. }
  destruct Hstep as (b1 & -> & Hb1). cbn [obind]. unfold MAX_FILE_NAME_LEN. rewrite fill_Ok by lia. cbn [obind].
  change (Z.to_nat 0) with 0%nat. rewrite take_0, drop_ge by lia. cbn [app]. rewrite app_nil_r.
  change (replicate (Z.to_nat 16) 0) with no_name.
  assert (Hend : forall p', wash_loop n m p' no_name b1 = Ok b1) by (intros p'; destruct n as [|n']; [lia|done]).
  destruct p as [o|].
  2: { subst s. exists b1. split; [apply Hend|done]. }
  pose proof (path_parse_run m o s no_name Hp) as Hpp. pose proof (components_words s Ht) as Hcw.
  destruct (components s) as [|v ws] eqn:Hcomp.
  { rewrite Hpp. cbn [obind fst snd]. exists b1. split; [apply Hend|done]. }
  pose proof Hfs as Hfs0. apply list.Forall_cons in Hfs0 as [Hfv _]. apply list.Forall_cons in Hcw as [Hvw _].
  assert (Hv : component v) by (split; [done|]; apply (components_text s v Ht); rewrite Hcomp; by apply elem_of_cons; left).
  destruct Hpp as (p' & Hrun & Hp'); [change (length no_name) with 16%nat; unfold fits in Hfv; lia|].
  rewrite Hrun. cbn [obind fst snd].
  assert (Hrest : exists s', is_text s' /\ components s' = ws /\ match p' with Some o' => str_at m o' s' | None => s' = [] end).
  { destruct p' as [o'|]; [|by exists []; subst ws; split; [constructor|]].
    destruct Hp' as (rest & Hrs & <- & _). exists rest. split; [by destruct Hrs as (_ & ? & _)|done]. }
  destruct Hrest as (s' & Ht' & <- & Hs').
  destruct (IH s' p' v (clean_step acc w) b1) as (b' & Hrun' & Hb'); try done; [simpl in Hn; lia|simpl in Hroom; simpl; lia|].
  exists b'. split; [exact Hrun'|exact Hb'].
Qed.

Lemma str_at_first (b : list Z) v : (0 < length b)%nat -> exists b', wr b 0 v = Ok b' /\ length b' = length b /\ exists t, b' = v :: t.
Proof.
  intros Hl. rewrite wr_Ok by lia. eexists. split; [done|]. rewrite length_insert. split; [done|].
  destruct b as [|c t]; [simpl in Hl; lia|]. by exists t.
Qed.

Lemma wash_path_run m s b :
  str_at m 0 (slash :: s) -> Forall fits (components s) -> (2 <= length b)%nat ->
  (length (rendered (components s)) < length b)%nat ->
  exists b', wash_path m b = Ok b' /\ holds_path b' (length b) (clean (components s)).
Proof.
  intros Hs Hf H2 Hroom. unfold wash_path. destruct (str_at_cons _ _ _ _ Hs) as (Hr & _ & _). rewrite Hr. cbn [obind].
  rewrite Z.eqb_refl. cbn [oassert obind]. pose proof (path_parse_run m 0 _ no_name Hs) as Hpp.
  rewrite components_slash in Hpp. pose proof Hs as (_ & Ht & _). apply list.Forall_cons in Ht as [_ Ht]. pose proof (components_words s Ht) as Hcw.
  destruct (str_at_first b 0) as (b1 & Hb1 & Hl1 & t1 & E1); [lia|].
  destruct (str_at_first b slash) as (b2 & Hb2 & Hl2 & t2 & E2); [lia|].
  destruct (components s) as [|w ws] eqn:Hcomp.
  - rewrite Hpp. cbn [obind fst snd]. change (rd no_name 0) with (Ok 0). cbn [obind]. cbn [Z.eqb]. rewrite Hb2. cbn [obind].
    rewrite wr_Ok by lia. eexists. split; [done|]. split; [|by rewrite length_insert]. subst b2. destruct t2 as [|c t2]; [simpl in Hl2; lia|].
    by apply (str_at_app [slash]); repeat constructor.
  - pose proof Hf as Hf0. apply list.Forall_cons in Hf0 as [Hfw _]. apply list.Forall_cons in Hcw as [Hw _].
    assert (Hwc : component w) by (split; [done|]; apply (components_text s w Ht); rewrite Hcomp; by apply elem_of_cons; left).
    destruct Hpp as (p & Hrun & Hp); [change (length no_name) with 16%nat; unfold fits in Hfw; lia|]. rewrite Hrun. cbn [obind fst snd].
    destruct (name_array w (proj2 Hwc) (proj1 Hw)) as (_ & c & Hc & Hc0); [unfold fits in Hfw; lia|]. rewrite Hc. cbn [obind].
    rewrite (proj2 (Z.eqb_neq _ _)) by done. rewrite Hb1. cbn [obind].
    assert (Hb1s : str_at b1 0 []) by (subst b1; by apply (str_at_app []); constructor).
    destruct (strcat_run b1 _ _ _ Hb1s root_at) as (b3 & Hrun3 & Hs3 & Hl3); [simpl; lia|]. rewrite Hrun3. cbn [obind].
    assert (Hrest' : exists s' : list Z, is_text s' /\ components s' = ws /\ (length s' <= length s)%nat /\
      match p with Some o => str_at m o s' | None => s' = [] end).
    { destruct p as [o|]; [|by exists []; subst ws; split; [constructor|]; split; [done|]; split; [simpl; lia|]].
      destruct Hp as (r & Hrs & <- & Hlt). exists r. split; [by destruct Hrs as (_ & ? & _)|]. simpl in Hlt. split; [done|]. split; [lia|done]. }
    destruct Hrest' as (s' & Ht' & Hws & Hlen' & Hs'). subst ws.
    destruct (wash_loop_run (S (S (length m))) m s' p w [] b3 (length b)) as (b' & Hrun' & Hb'); try done.
    + split; [done|congruence].
    + pose proof (components_length s'). apply str_fuel in Hs. simpl in Hs. lia.
    + exists b'. split; [exact Hrun'|exact Hb'].
Qed.

(** The lengths and components of texts put together. *)
Lemma rendered_components_length (s : list Z) : (length (rendered (components s)) <= S (length s))%nat.
Proof.
  remember (length s) as n eqn:Hn. revert s Hn. induction n as [n IH] using lt_wf_ind. intros s ->.
  destruct (path_shape s) as (k & w & rest & E & Hw & Hr & He & Hc). rewrite Hc. destruct w as [|c w]; [simpl; lia|].
  rewrite rendered_cons, length_cons, length_app.
  assert (length (rendered (components rest)) <= length rest)%nat.
  { destruct Hr as [->|[r ->]]; [done|]. rewrite components_slash. simpl. apply (IH (length r)); [|done].
    rewrite E, !length_app. simpl. lia. }
  rewrite E, !length_app. lia.
Qed.

Lemma components_app ws t : Forall component ws -> components (rendered ws ++ slash :: t) = ws ++ components t.
Proof.
  induction 1 as [|w ws [[_ Hn] Hne] Hws IH]; [done|]. rewrite rendered_cons. cbn [app].
  rewrite components_slash, <- app_assoc, components_word; [by rewrite IH|done|done|].
  right. destruct ws as [|v ws]; [by exists t|]. rewrite rendered_cons. by eexists.
Qed.

Lemma clean_plain ws : Forall (fun w => w <> [46] /\ w <> [46; 46]) ws -> clean ws = ws.
Proof.
  unfold clean. induction ws as [|w ws IH] using rev_ind; [done|]. intros Hw. apply list.Forall_app in Hw as [Hws Hw].
  apply list.Forall_cons in Hw as [[H1 H2] _]. rewrite fold_left_app, IH by done. simpl. unfold clean_step.
  by rewrite !decide_False by done.
Qed.

Section make_clear.
Context {U : Type} (getcwd : list Z -> Z -> KM U (option (list Z))).

Lemma rd_head m c (t : list Z) : str_at m 0 (c :: t) -> rd m 0 = Ok c.
Proof. intros Hs. by apply str_at_cons in Hs as (? & _). Qed.

Lemma zeros_at : str_at (replicate 512 0) 0 [].
Proof. by apply (str_at_app [] (replicate 511 0)); constructor. Qed.

Lemma cwd_prefix_run s s' cwd ws :
  getcwd (replicate 512 0) MAX_PATH_LEN s = Ok (Some cwd, s') -> holds_path cwd 512 ws -> Forall component ws ->
  (length (rendered ws) < 511)%nat ->
  exists b, cwd_prefix getcwd s = Ok (b, s') /\ str_at b 0 (rendered ws ++ [slash]) /\ length b = 512%nat.
Proof.
  intros Hcwd [Hs Hl] Hws Hroom. unfold cwd_prefix. cbv zeta. rewrite (kbind_ok _ _ _ _ _ Hcwd).
  destruct ws as [|w ws].
  - cbn [canon] in Hs. destruct (str_at_cons _ _ _ _ Hs) as (H0 & _ & H1). apply str_at_nil in H1. change (0 + 1) with 1 in H1.
    rewrite (kbind_ok _ _ s' slash s') by (unfold klift; by rewrite H0).
    rewrite (kbind_ok _ _ s' 0 s') by (unfold klift; by rewrite H1). by exists cwd.
  - apply list.Forall_cons in Hws as [[[Ht Hn] Hne] _]. cbn [canon] in Hs. pose proof Hs as Hs1. destruct w as [|c w]; [done|].
    rewrite rendered_cons in Hs1. destruct (str_at_cons _ _ _ _ Hs1) as (H0 & _ & H1). cbn [app] in H1.
    destruct (str_at_cons _ _ _ _ H1) as (H1r & Hc & _). change (0 + 1) with 1 in H1r.
    rewrite (kbind_ok _ _ s' slash s') by (unfold klift; by rewrite H0).
    rewrite (kbind_ok _ _ s' c s') by (unfold klift; by rewrite H1r). rewrite (proj2 (Z.eqb_neq c 0)) by lia. cbn [andb].
    destruct (strcat_run cwd _ _ _ Hs root_at) as (b & Hb & Hbs & Hbl); [cbn [length]; lia|]. exists b.
    split; [unfold klift; by rewrite Hb|]. split; [done|congruence].
Qed.

Lemma make_clear_run s path t final :
  str_at path 0 t -> t <> [] -> Forall fits (components t) -> length final = 512%nat ->
  (hd_error t = Some slash -> (length t < 512)%nat ->
   exists final', make_clear_abs_path getcwd path final s = Ok (final', s) /\
     holds_path final' 512 (clean (components t))) /\
  (forall s' cwd ws, hd_error t <> Some slash ->
   getcwd (replicate 512 0) MAX_PATH_LEN s = Ok (Some cwd, s') -> holds_path cwd 512 ws ->
   Forall component ws -> Forall fits ws -> Forall (fun w => w <> [46] /\ w <> [46; 46]) ws ->
   (length (rendered ws) + 1 + length t < 512)%nat ->
   exists final', make_clear_abs_path getcwd path final s = Ok (final', s') /\
     holds_path final' 512 (fold_left clean_step (components t) ws)).
Proof.
  intros Hs Hne Hf Hl. unfold make_clear_abs_path. destruct t as [|c t]; [done|]. pose proof (rd_head _ _ _ Hs) as Hc.
  rewrite (kbind_ok _ _ s c s) by (unfold klift; by rewrite Hc). split.
  - intros [= ->] Hlen. rewrite Z.eqb_refl. cbn [negb].
    rewrite (kbind_ok _ _ s (replicate 512 0) s) by done.
    destruct (strcat_run (replicate 512 0) [] path _ zeros_at Hs) as (b & Hb & Hbs & Hbl); [rewrite length_replicate; exact Hlen|].
    rewrite (kbind_ok _ _ s b s) by (unfold klift; by rewrite Hb). rewrite components_slash in *.
    pose proof (rendered_components_length t). simpl in Hlen.
    destruct (wash_path_run b t final Hbs Hf) as (f' & Hrun & Hh); [lia|lia|]. exists f'. rewrite Hl in Hh.
    split; [unfold klift; by rewrite Hrun|done].
  - intros s' cwd ws Hh Hcwd Hhold Hws Hfws Hplain Hroom. rewrite (proj2 (Z.eqb_neq c slash)) by (intros ->; by apply Hh). cbn [negb].
    destruct (cwd_prefix_run s s' cwd ws Hcwd Hhold Hws) as (b & Hb & Hbs & Hbl); [lia|]. rewrite (kbind_ok _ _ _ _ _ Hb).
    destruct (strcat_run b _ path _ Hbs Hs) as (b2 & Hb2 & Hbs2 & Hbl2); [rewrite length_app; simpl in *; lia|].
    rewrite (kbind_ok _ _ s' b2 s') by (unfold klift; by rewrite Hb2). rewrite <- app_assoc in Hbs2. cbn [app] in Hbs2.
    assert (Hcomp : components (rendered ws ++ slash :: c :: t) = ws ++ components (c :: t)) by (by apply components_app).
    assert (Hshape : exists u, rendered ws ++ slash :: c :: t = slash :: u) by (destruct ws; [by eexists|rewrite rendered_cons; by eexists]).
    destruct Hshape as (u & Eu). rewrite Eu in *. rewrite components_slash in Hcomp.
    assert (Hlen : (length u <= length (rendered ws) + 1 + length t)%nat).
    { apply (f_equal length) in Eu. rewrite length_app in Eu. simpl in Eu. lia. }
    pose proof (rendered_components_length u). simpl in Hroom.
    destruct (wash_path_run b2 u final Hbs2) as (f' & Hrun & Hh'); [rewrite Hcomp; by apply list.Forall_app|lia|lia|].
    exists f'. split; [unfold klift; by rewrite Hrun|]. rewrite Hl, Hcomp in Hh'. unfold clean in Hh'. rewrite fold_left_app in Hh'.
    fold (clean ws) in Hh'. by rewrite (clean_plain ws Hplain) in Hh'.
Qed.

(** C28: [make_clear_abs_path] computes the clean absolute path.  An absolute path becomes the
    path of its components with every "." dropped and every ".." undoing the component before
    it (".." at the root stays at the root), a relative one the path reached by its components
    from the working directory [ws]; the result has no empty component, no trailing slash, no
    "." and no "..", and "/" is the only path with none.  The bounds of the buffers hold when
    every component is shorter than 16 characters and the path before cleaning fits 512. *)
Theorem make_clear_abs_path_spec s path t final :
  str_at path 0 t -> t <> [] -> Forall fits (components t) -> length final = 512%nat ->
  (hd_error t = Some slash -> (length t < 512)%nat ->
   exists final', make_clear_abs_path getcwd path final s = Ok (final', s) /\
     holds_path final' 512 (clean (components t))) /\
  (forall s' cwd ws, hd_error t <> Some slash ->
   getcwd (replicate 512 0) MAX_PATH_LEN s = Ok (Some cwd, s') -> holds_path cwd 512 ws ->
   Forall component ws -> Forall fits ws -> Forall (fun w => w <> [46] /\ w <> [46; 46]) ws ->
   (length (rendered ws) + 1 + length t < 512)%nat ->
   exists final', make_clear_abs_path getcwd path final s = Ok (final', s') /\
     holds_path final' 512 (fold_left clean_step (components t) ws)).
Proof. apply make_clear_run. Qed.
End make_clear.

(** "/a/./b/../c" becomes "/a/c". *)
Definition sample_dirty : list Z := [47; 97; 47; 46; 47; 98; 47; 46; 46; 47; 99; 0].
Lemma make_clear_abs_path_spec_witness :
  exists final', make_clear_abs_path sys_getcwd sample_dirty (replicate 512 1) sample_dir_fs = Ok (final', sample_dir_fs) /\
    str_at final' 0 [47; 97; 47; 99].
Proof.
  destruct (make_clear_abs_path_spec sys_getcwd sample_dir_fs sample_dirty (removelast sample_dirty) (replicate 512 1)) as [Ha _].
  - by apply (str_at_app (removelast sample_dirty) []); repeat constructor.
  - done.
  - repeat constructor; unfold fits; simpl; lia.
  - done.
  - destruct Ha as (f' & Hrun & [Hs _]); [done|simpl; lia|]. exists f'. split; [exact Hrun|exact Hs].
Defined.
