(* ===== verification/Stdio.v ===== *)
(** * Stdio: formatted output of lib/stdio.c

    [itoa], [vsprintf] and [sprintf] on byte buffers as in Cstring, [printf] of user programs
    on top of the write call and [printk] of the kernel on top of the console, against a
    reference that renders a format as a text.  An argument is a 32-bit word; [object] gives
    the string a [%s] argument points to. *)

From S2P Require Import Prelude Cstring.

#[local] Set Default Proof Using "Type*".

(** ** The code *)

(** The digit the remainder [m] is written as. *)
Definition digit_char (m : Z) : Z := if m <? 10 then u8 (m + 48) else u8 (m - 10 + 65).

(** The recursion ends when the quotient is zero: [n] bounds its depth. *)
Fixpoint itoa (n : nat) (value : Z) (buf : list Z) (buf_ptr : Z) (base : Z) : outcome (list Z * Z) :=
  match n with
  | O => Err Diverges
  | S n =>
      let m := value mod base in
      let i := value / base in
      let? r := (if negb (i =? 0) then itoa n i buf buf_ptr base else Ok (buf, buf_ptr)) in
      let? buf := wr r.1 r.2 (digit_char m) in
      Ok (buf, r.2 + 1)
  end.

(** [va_arg]: the next word, and what is left. *)
Definition va_arg (ap : list Z) : outcome (Z * list Z) :=
  match ap with [] => Err OutOfBounds | w :: ap => Ok (w, ap) end.

(** What the format's loop works on. *)
Record out_state : Type := OutState { o_buf : list Z; o_ptr : Z; o_args : list Z }.

Section vsprintf.
Context (object : Z -> outcome (list Z)).

Definition emit (c : Z) (st : out_state) : outcome out_state :=
  let? buf := wr (o_buf st) (o_ptr st) c in
  Ok (OutState buf (o_ptr st + 1) (o_args st)).

Definition emit_number (value base : Z) (st : out_state) : outcome out_state :=
  let? r := itoa 32 value (o_buf st) (o_ptr st) base in
  Ok (OutState r.1 r.2 (o_args st)).

(** The [switch] on the character behind a '%'; the flag tells whether the case goes on to
    the character behind it. *)
Definition convert (index_char : Z) (st : out_state) : outcome (out_state * bool) :=
  if index_char =? 115 then
    let? a := va_arg (o_args st) in
    let? arg_str := object a.1 in
    let? buf := strcpy (o_buf st) (Some (o_ptr st)) arg_str (Some 0) in
    let? len := strlen arg_str (Some 0) in
    Ok (OutState buf (o_ptr st + len) a.2, true)
  else if index_char =? 99 then
    let? a := va_arg (o_args st) in
    let? st := emit (u8 a.1) (OutState (o_buf st) (o_ptr st) a.2) in
    Ok (st, true)
  else if index_char =? 100 then
    let? a := va_arg (o_args st) in
    let st := OutState (o_buf st) (o_ptr st) a.2 in
    let arg_int := i32 a.1 in
    let? r := (if arg_int <? 0 then let? st := emit 45 st in Ok (i32 (0 - arg_int), st) else Ok (arg_int, st)) in
    let? st := emit_number (u32 r.1) 10 r.2 in
    Ok (st, true)
  else if index_char =? 120 then
    let? a := va_arg (o_args st) in
    let? st := emit_number (u32 (i32 a.1)) 16 (OutState (o_buf st) (o_ptr st) a.2) in
    Ok (st, true)
  else Ok (st, false).

(** [index_ptr] is an offset into [format], and [index_char] the character there. *)
Fixpoint vsprintf_loop (n : nat) (format : list Z) (index_ptr index_char : Z) (st : out_state) : outcome out_state :=
  match n with
  | O => Err Diverges
  | S n =>
      if negb (index_char =? 0) then
        if negb (index_char =? 37) then
          let? st := emit index_char st in
          let? c := rd format (index_ptr + 1) in
          vsprintf_loop n format (index_ptr + 1) c st
        else
          let? c := rd format (index_ptr + 1) in
          let? r := convert c st in
          if (r.2 : bool) then
            let? c := rd format (index_ptr + 2) in
            vsprintf_loop n format (index_ptr + 2) c r.1
          else vsprintf_loop n format (index_ptr + 1) c r.1
      else Ok st
  end.

(** The buffer and the result. *)
Definition vsprintf (str format : list Z) (ap : list Z) : outcome (list Z * Z) :=
  let? c := rd format 0 in
  let? st := vsprintf_loop (S (length format)) format 0 c (OutState str 0 ap) in
  let? len := strlen (o_buf st) (Some 0) in
  Ok (o_buf st, len).

Definition sprintf (buf format : list Z) (args : list Z) : outcome (list Z * Z) := vsprintf buf format args.

(** The text [printf] and [printk] hand on. *)
Definition print_buf (format args : list Z) : outcome (list Z) :=
  let? r := vsprintf (replicate 1024 0) format args in Ok r.1.
End vsprintf.

(** ** Numerals *)

(** The reference: the digits of a number, the first one first. *)
Fixpoint digits (n : nat) (base v : Z) : list Z :=
  match n with
  | O => []
  | S n => (if v / base =? 0 then [] else digits n base (v / base)) ++ [digit_char (v mod base)]
  end.
Definition numeral (base v : Z) : list Z := digits 32 base v.

(** Reading a digit, and a numeral. *)
Definition digit_of (c : Z) : option Z :=
  if (48 <=? c) && (c <=? 57) then Some (c - 48) else if (65 <=? c) && (c <=? 70) then Some (c - 55) else None.
Definition read_step (base : Z) (acc : option Z) (c : Z) : option Z :=
  v ← acc; d ← digit_of c; if decide (d < base) then Some (v * base + d) else None.
Definition read_numeral (base : Z) (s : list Z) : option Z := fold_left (read_step base) s (Some 0).

Section numerals.
Context (base : Z) (Hbase : 2 <= base <= 16).

Lemma digit_char_read m : 0 <= m < base -> digit_of (digit_char m) = Some m /\ 0 < digit_char m < 256.
Proof.
  intros Hm. unfold digit_char, digit_of. destruct (Z.ltb_spec m 10); rewrite u8_small by lia.
  - rewrite !(proj2 (Z.leb_le _ _)) by lia. cbn [andb]. split; [f_equal; lia|lia].
  - rewrite (proj2 (Z.leb_gt (m - 10 + 65) 57)), andb_false_r by lia. rewrite !(proj2 (Z.leb_le _ _)) by lia. cbn [andb].
    split; [f_equal; lia|lia].
Qed.

Lemma digits_read n v : 0 <= v < base ^ Z.of_nat n -> read_numeral base (digits n base v) = Some v.
Proof.
  unfold read_numeral. revert v. induction n as [|n IH]; intros v Hv.
  - simpl in *. f_equal. lia.
  - cbn [digits]. rewrite fold_left_app. pose proof (Z.mod_pos_bound v base ltac:(lia)) as Hm.
    destruct (digit_char_read _ Hm) as [Hd _]. pose proof (Z.div_mod v base ltac:(lia)) as Hdiv.
    assert (Hq : 0 <= v / base < base ^ Z.of_nat n).
    { split; [apply Z.div_pos; lia|]. apply Z.div_lt_upper_bound; [lia|]. rewrite Nat2Z.inj_succ, Z.pow_succ_r in Hv by lia. lia. }
    assert (E : fold_left (read_step base) (if v / base =? 0 then [] else digits n base (v / base)) (Some 0) = Some (v / base)).
    { destruct (Z.eqb_spec (v / base) 0) as [->|]; [done|by apply IH]. }
    rewrite E. cbn [fold_left]. unfold read_step. simpl. rewrite Hd. simpl. rewrite decide_True by lia. f_equal. lia.
Qed.

Lemma digits_length n v : (length (digits n base v) <= n)%nat.
Proof.
  revert v. induction n as [|n IH]; intros v; [done|]. cbn [digits]. rewrite length_app.
  destruct (v / base =? 0); [simpl; lia|]. specialize (IH (v / base)). simpl. lia.
Qed.

Lemma digits_text n v : 0 <= v -> is_text (digits n base v).
Proof.
  revert v. induction n as [|n IH]; intros v Hv; [constructor|]. cbn [digits]. apply list.Forall_app. split.
  - destruct (_ =? _); [constructor|]. apply IH, Z.div_pos; lia.
  - constructor; [|done]. apply digit_char_read, Z.mod_pos_bound. lia.
Qed.

(** [itoa] writes the digits behind what there is. *)
Lemma itoa_run n v a b : 0 <= v < base ^ Z.of_nat n -> (0 < n)%nat -> (length (digits n base v) <= length b)%nat ->
  itoa n v (a ++ b) (Z.of_nat (length a)) base
  = Ok (a ++ digits n base v ++ drop (length (digits n base v)) b, Z.of_nat (length (a ++ digits n base v))).
Proof.
  revert v a b. induction n as [|n IH]; intros v a b Hv Hn Hl; [lia|]. cbn [itoa]. cbn [digits] in Hl |- *.
  pose proof (Z.div_mod v base ltac:(lia)) as Hdiv. pose proof (Z.mod_pos_bound v base ltac:(lia)) as Hm.
  assert (Hq : 0 <= v / base < base ^ Z.of_nat n).
  { split; [apply Z.div_pos; lia|]. apply Z.div_lt_upper_bound; [lia|]. rewrite Nat2Z.inj_succ, Z.pow_succ_r in Hv by lia. lia. }
  set (hi := if v / base =? 0 then [] else digits n base (v / base)) in *. rewrite length_app in Hl. simpl in Hl.
  assert (E : (if negb (v / base =? 0) then itoa n (v / base) (a ++ b) (Z.of_nat (length a)) base else Ok (a ++ b, Z.of_nat (length a)))
    = Ok ((a ++ hi) ++ drop (length hi) b, Z.of_nat (length (a ++ hi)))).
  { unfold hi in *. destruct (Z.eqb_spec (v / base) 0) as [E|E]; cbn [negb].
    - by rewrite app_nil_r.
    - rewrite IH; [by rewrite app_assoc|done| |lia]. destruct n; [simpl in Hq; lia|lia]. }
  rewrite E. cbn [obind fst snd]. destruct (drop (length hi) b) as [|x t] eqn:Ed.
  { apply (f_equal length) in Ed. rewrite length_drop in Ed. simpl in Ed. lia. }
  rewrite wr_mid. cbn [obind]. rewrite (length_app hi). cbn [length]. rewrite <- drop_drop, Ed.
  rewrite <- !app_assoc. do 2 f_equal. rewrite !length_app. simpl. lia.
Qed.
End numerals.

(** ** The reference *)

Section render.
Context (strings : Z -> option (list Z)).

(** A word as [%d] shows it. *)
Definition decimal (w : Z) : list Z :=
  let v := i32 w in if v <? 0 then 45 :: numeral 10 (- v) else numeral 10 v.

(** The text of a format; [None] when an argument is missing or is no string. *)
Fixpoint render (format args : list Z) : option (list Z) :=
  match format with
  | [] => Some []
  | c :: format =>
      if c =? 37 then
        match format with
        | [] => Some []
        | d :: tail =>
            if d =? 115 then
              match args with w :: args => t ← strings w; app t <$> render tail args | [] => None end
            else if d =? 99 then
              match args with w :: args => app [u8 w] <$> render tail args | [] => None end
            else if d =? 100 then
              match args with w :: args => app (decimal w) <$> render tail args | [] => None end
            else if d =? 120 then
              match args with w :: args => app (numeral 16 (u32 w)) <$> render tail args | [] => None end
            else render format args
        end
      else app [c] <$> render format args
  end.
End render.

(** ** The code renders the format *)

Section vsprintf_proofs.
Context (object : Z -> outcome (list Z)) (strings : Z -> option (list Z)).
Context (Hobj : forall w t, strings w = Some t -> exists m, object w = Ok m /\ str_at m 0 t).

(** [out] is written, [rest] is the buffer behind it. *)
Definition outputs (out rest : list Z) (args : list Z) : out_state :=
  OutState (out ++ rest) (Z.of_nat (length out)) args.
(** The state after [text] is put out. *)
Definition extended (out text rest args : list Z) : out_state := outputs (out ++ text) (drop (length text) rest) args.

Lemma extended_app out t1 t2 rest args :
  extended (out ++ t1) t2 (drop (length t1) rest) args = extended out (t1 ++ t2) rest args.
Proof. unfold extended. by rewrite drop_drop, length_app, app_assoc. Qed.

Lemma extended_eq out text rest args :
  extended out text rest args = OutState (out ++ text ++ drop (length text) rest) (Z.of_nat (length (out ++ text))) args.
Proof. unfold extended, outputs. by rewrite app_assoc. Qed.

Lemma emit_run c out rest args : (0 < length rest)%nat -> emit c (outputs out rest args) = Ok (extended out [c] rest args).
Proof.
  intros Hl. destruct rest as [|x rest]; [simpl in Hl; lia|]. unfold emit, outputs. cbn [o_buf o_ptr o_args].
  rewrite wr_mid. cbn [obind]. rewrite extended_eq. rewrite <- app_assoc. cbn [length drop app]. rewrite drop_0. do 2 f_equal.
  rewrite length_app. simpl. lia.
Qed.

Lemma emit_number_run v base out rest args : 2 <= base <= 16 -> 0 <= v < 2 ^ 32 -> (length (numeral base v) <= length rest)%nat ->
  emit_number v base (outputs out rest args) = Ok (extended out (numeral base v) rest args).
Proof.
  intros Hb Hv Hl. unfold emit_number, outputs. cbn [o_buf o_ptr o_args]. rewrite itoa_run; [|lia| |lia|done].
  - cbn [obind fst snd]. by rewrite extended_eq.
  - split; [lia|]. apply (Z.lt_le_trans _ (2 ^ 32)); [lia|]. apply Z.pow_le_mono_l. lia.
Qed.

(** The text of a conversion, and the arguments left. *)
Definition converted (d : Z) (args : list Z) : option (list Z * list Z) :=
  match args with
  | [] => None
  | w :: args =>
      if d =? 115 then t ← strings w; Some (t, args)
      else if d =? 99 then Some ([u8 w], args)
      else if d =? 100 then Some (decimal w, args)
      else if d =? 120 then Some (numeral 16 (u32 w), args) else None
  end.
Definition conversion (d : Z) : bool := (d =? 115) || (d =? 99) || (d =? 100) || (d =? 120).

Lemma convert_run d out rest args t args' :
  converted d args = Some (t, args') -> (length t <= length rest)%nat ->
  convert object d (outputs out rest args) = Ok (extended out t rest args', true).
Proof.
  unfold converted, convert. destruct args as [|w args]; [done|]. cbn [va_arg o_args outputs obind fst snd].
  fold (outputs out rest args). cbv zeta.
  destruct (d =? 115); [|destruct (d =? 99); [|destruct (d =? 100); [|destruct (d =? 120)]]].
  - intros Ht Hl. destruct (strings w) as [t'|] eqn:Ew; [|done]. injection Ht as -> <-.
    destruct (Hobj w t Ew) as (m & -> & Hm). cbn [obind]. unfold strcpy, strlen, not_null. cbn [obind o_buf o_ptr outputs].
    rewrite <- (take_drop (length t) rest) at 1. rewrite (strcpy_loop_spec _ out (take (length t) rest) _ m 0 t);
      [|done|by apply str_fuel in Hm|by rewrite length_take_le].
    cbn [obind]. rewrite (find_nul_spec _ _ _ t) by (done || by apply str_fuel in Hm). cbn [obind].
    rewrite extended_eq, length_app. do 3 f_equal. lia.
  - intros [= <- <-] Hl. cbn [o_buf o_ptr outputs]. fold (outputs out rest args). simpl in Hl. rewrite emit_run by lia. done.
  - intros [= <- <-] Hl. unfold decimal in *. cbn [o_buf o_ptr outputs]. fold (outputs out rest args). pose proof (i32_range w) as Hw.
    destruct (Z.ltb_spec (i32 w) 0) as [Hneg|Hpos].
    + cbn [length] in Hl. rewrite emit_run by lia. cbn [obind fst snd].
      assert (E : u32 (i32 (0 - i32 w)) = - i32 w) by (rewrite u32_i32, u32_small; lia). rewrite E. unfold extended at 1.
      rewrite emit_number_run by (rewrite ?length_drop; cbn [length]; lia). cbn [obind].
      change 1%nat with (length [45]). rewrite extended_app. done.
    + cbn [obind fst snd]. rewrite u32_small by lia. rewrite emit_number_run by lia. done.
  - intros [= <- <-] Hl. cbn [o_buf o_ptr outputs]. fold (outputs out rest args). rewrite u32_i32.
    pose proof (u32_range w). rewrite emit_number_run by lia. done.
  - done.
Qed.

Lemma convert_other d st : conversion d = false -> convert object d st = Ok (st, false).
Proof. unfold conversion, convert. by destruct (d =? 115), (d =? 99), (d =? 100), (d =? 120). Qed.

Lemma render_conversion d tail args text : conversion d = true -> render strings (37 :: d :: tail) args = Some text ->
  exists t args' text', converted d args = Some (t, args') /\ render strings tail args' = Some text' /\ text = t ++ text'.
Proof.
  unfold conversion, converted. cbn [render]. rewrite Z.eqb_refl. destruct args as [|w args].
  { destruct (d =? 115), (d =? 99), (d =? 100), (d =? 120); done. }
  destruct (d =? 115); [|destruct (d =? 99); [|destruct (d =? 100); [|destruct (d =? 120); [|done]]]]; intros _ Ht.
  - destruct (strings w) as [t|]; [|done]. simpl in Ht. destruct (render strings tail args) eqn:E; [|done].
    injection Ht as <-. by eexists _, _, _.
  - destruct (render strings tail args) eqn:E; [|done]; injection Ht as <-; by eexists _, _, _.
  - destruct (render strings tail args) eqn:E; [|done]; injection Ht as <-; by eexists _, _, _.
  - destruct (render strings tail args) eqn:E; [|done]; injection Ht as <-; by eexists _, _, _.
Qed.

Lemma format_loop_run n fm o f c out rest args text :
  str_at fm o f -> rd fm o = Ok c -> (length f < n)%nat -> render strings f args = Some text ->
  (length text <= length rest)%nat ->
  exists args', vsprintf_loop object n fm o c (outputs out rest args) = Ok (extended out text rest args').
Proof.
  revert o f c out rest args text. induction n as [|n IH]; intros o f c out rest args text Hs Hc Hn Hr Hl; [lia|].
  cbn [vsprintf_loop]. destruct f as [|c' f].
  { rewrite (str_at_nil _ _ Hs) in Hc. injection Hc as <-. injection Hr as <-. exists args. cbn [Z.eqb negb].
    rewrite extended_eq. cbn [length drop app]. by rewrite app_nil_r, drop_0. }
  destruct (str_at_cons _ _ _ _ Hs) as (Hc' & Hcr & Hs1). rewrite Hc in Hc'. injection Hc' as <-.
  rewrite (proj2 (Z.eqb_neq c 0)) by lia. cbn [negb]. destruct (str_at_head _ _ _ Hs1) as (c1 & Hc1 & Hc1z & Hc1d).
  destruct (Z.eqb_spec c 37) as [->|Hp]; cbn [negb].
  - rewrite Hc1. cbn [obind]. destruct (conversion c1) eqn:Econv.
    + destruct f as [|d f]; [assert (c1 = 0) as -> by tauto; done|]. rewrite (Hc1d d f eq_refl) in *.
      destruct (render_conversion d f args text Econv Hr) as (t & args' & text' & Hct & Hr' & ->).
      rewrite length_app in Hl. rewrite (convert_run d out rest args t args' Hct) by lia. cbn [obind fst snd].
      destruct (str_at_cons _ _ _ _ Hs1) as (_ & _ & Hs2). replace (o + 1 + 1) with (o + 2) in Hs2 by lia.
      destruct (str_at_head _ _ _ Hs2) as (c2 & Hc2 & _). rewrite Hc2. cbn [obind].
      destruct (IH (o + 2) f c2 (out ++ t) (drop (length t) rest) args' text') as (a & Ha); try done.
      * cbn [length] in Hn. lia.
      * rewrite length_drop. lia.
      * exists a. unfold extended at 1. rewrite Ha. by rewrite extended_app.
    + rewrite (convert_other c1) by done. cbn [obind fst snd].
      destruct (IH (o + 1) f c1 out rest args text) as (a & Ha); try done.
      * cbn [length] in Hn. lia.
      * destruct f as [|d f]; [done|]. rewrite (Hc1d d f eq_refl) in Econv. cbn [render] in Hr. rewrite Z.eqb_refl in Hr.
        unfold conversion in Econv. destruct (d =? 115), (d =? 99), (d =? 100), (d =? 120); try done.
      * by exists a.
  - cbn [render] in Hr. rewrite (proj2 (Z.eqb_neq c 37)) in Hr by done.
    destruct (render strings f args) as [text'|] eqn:Er; [|done]. injection Hr as <-. cbn [length] in Hl.
    rewrite emit_run by lia. cbn [obind]. rewrite Hc1. cbn [obind].
    destruct (IH (o + 1) f c1 (out ++ [c]) (drop (length [c]) rest) args text') as (a & Ha); try done.
    + cbn [length] in Hn. lia.
    + rewrite length_drop. cbn [length]. lia.
    + exists a. unfold extended at 1. rewrite Ha. by rewrite extended_app.
Qed.

Lemma vsprintf_run fm f str args text :
  str_at fm 0 f -> render strings f args = Some text -> (length text < length str)%nat -> is_text text ->
  rd str (Z.of_nat (length text)) = Ok 0 ->
  vsprintf object str fm args = Ok (text ++ drop (length text) str, Z.of_nat (length text)).
Proof.
  intros Hs Hr Hl Ht H0. unfold vsprintf. destruct (str_at_head _ _ _ Hs) as (c & Hc & _). rewrite Hc. cbn [obind].
  destruct (format_loop_run (S (length fm)) fm 0 f c [] str args text Hs Hc) as (a & Ha); [|done|lia|].
  { apply str_fuel in Hs. exact Hs. }
  change (OutState str 0 args) with (outputs [] str args). rewrite Ha. cbn [obind]. rewrite extended_eq. cbn [o_buf app].
  apply rd_inv in H0 as [_ H0]. rewrite Nat2Z.id in H0. apply drop_S in H0.
  unfold strlen, not_null. cbn [obind]. rewrite (find_nul_spec _ _ _ text).
  - cbn [obind]. by rewrite Z.sub_0_r.
  - rewrite H0. by apply str_at_app.
  - rewrite length_app. lia.
Qed.

Lemma print_buf_run fm f args text :
  str_at fm 0 f -> render strings f args = Some text -> is_text text -> (length text < 1024)%nat ->
  exists rest, print_buf object fm args = Ok (text ++ 0 :: rest) /\ str_at (text ++ 0 :: rest) 0 text.
Proof.
  intros Hs Hr Ht Hl. exists (replicate (1023 - length text) 0). split; [|by apply str_at_app]. unfold print_buf.
  rewrite (vsprintf_run fm f (replicate 1024 0) args text Hs Hr); [|by rewrite length_replicate|done|].
  - cbn [obind fst]. rewrite drop_replicate. by replace (1024 - length text)%nat with (S (1023 - length text)) by lia.
  - apply rd_Ok; [lia|]. rewrite Nat2Z.id. by apply lookup_replicate_2.
Qed.

End vsprintf_proofs.

(** [itoa] round trip.  For the bases 2 to 16 and every 32-bit value it returns after at
    most 32 digits, having written exactly the numeral of the value, and reading that numeral
    gives the value back. *)
Theorem itoa_roundtrip base v a b :
  2 <= base <= 16 -> 0 <= v < 2 ^ 32 -> (32 <= length b)%nat ->
  exists ds, itoa 32 v (a ++ b) (Z.of_nat (length a)) base = Ok (a ++ ds ++ drop (length ds) b, Z.of_nat (length (a ++ ds))) /\
    (length ds <= 32)%nat /\ is_text ds /\ read_numeral base ds = Some v.
Proof.
  intros Hb Hv Hl. assert (Hv' : 0 <= v < base ^ Z.of_nat 32).
  { split; [lia|]. apply (Z.lt_le_trans _ (2 ^ 32)); [lia|]. apply Z.pow_le_mono_l. lia. }
  exists (digits 32 base v). pose proof (digits_length base Hb 32 v). split; [apply itoa_run; lia|].
  split; [done|]. split; [apply digits_text; lia|by apply digits_read].
Qed.

Lemma itoa_roundtrip_witness : exists ds b, itoa 32 255 (replicate 40 0) 0 16 = Ok (ds ++ b, Z.of_nat (length ds)) /\
  read_numeral 16 ds = Some 255.
Proof.
  destruct (itoa_roundtrip 16 255 [] (replicate 40 0)) as (ds & Hrun & _ & _ & Hr); [lia|lia|rewrite length_replicate; lia|].
  exists ds, (drop (length ds) (replicate 40 0)). split; [exact Hrun|exact Hr].
Defined.

(** "%s=%d,%x" of "ab", -7 and 255. *)
Definition sample_format : list Z := [37; 115; 61; 37; 100; 44; 37; 120; 0].
Definition sample_object (w : Z) : outcome (list Z) := if w =? 4096 then Ok sample_str else Err OutOfBounds.
Definition sample_strings (w : Z) : option (list Z) := if w =? 4096 then Some [97; 98] else None.

