(* ===== verification/Screen.v ===== *)
(** * Screen: the text screen of lib/kernel/print.c and the console of device/console.c

    The video memory of 80 by 25 cells (a character in the low byte, its colours in the
    high one), the cursor, and the bytes written to the ports of the CRT controller, the
    newest first.  A [char] argument is a byte; the code compares it as a signed number. *)

From S2P Require Import Prelude Bitmap Interrupt DList Sched Sync Cstring Stdio.

#[local] Set Default Proof Using "Type*".

Record screen : Type := Screen { video_memory : list Z; cursor_x : Z; cursor_y : Z; ports : list (Z * Z) }.

Definition set_video (v : list Z) (s : screen) : screen := Screen v (cursor_x s) (cursor_y s) (ports s).
Definition set_x (v : Z) (s : screen) : screen := Screen (video_memory s) v (cursor_y s) (ports s).
Definition set_y (v : Z) (s : screen) : screen := Screen (video_memory s) (cursor_x s) v (ports s).
Definition set_ports (v : list (Z * Z)) (s : screen) : screen := Screen (video_memory s) (cursor_x s) (cursor_y s) v.

Definition rc_black : Z := 0.
Definition rc_white : Z := 15.
Definition attribute_byte : Z := Z.lor (Z.shiftl 0 4) (Z.land 15 0x0f).
Definition blank : Z := Z.lor 0x20 (Z.shiftl attribute_byte 8).

Notation SM := (KM screen).

Definition outb (port value : Z) : SM unit := kmod (fun s => set_ports ((port, u8 value) :: ports s) s).
Definition put_cell (i v : Z) : SM unit :=
  m <- kreads video_memory ;; m <- klift (wr m i v) ;; kmod (set_video m).

Definition set_cursor : SM unit :=
  x <- kreads cursor_x ;;
  y <- kreads cursor_y ;;
  let cursorLocation := u16 (y * 80 + x) in
  outb 0x3d4 0x0e ;;;
  outb 0x3d5 (Z.shiftr cursorLocation 8) ;;;
  outb 0x3d4 0x0f ;;;
  outb 0x3d5 (Z.land cursorLocation 0xff).

(** [video_memory[i] = blank] for [n] cells from [i] on. *)
Fixpoint blank_loop (n : nat) (i : Z) : SM unit :=
  match n with
  | O => kret tt
  | S n => put_cell i blank ;;; blank_loop n (i + 1)
  end.

Definition cls_screen : SM unit :=
  blank_loop (80 * 25) 0 ;;;
  kmod (set_x 0) ;;;
  kmod (set_y 0) ;;;
  set_cursor.

Fixpoint move_up_loop (n : nat) (i : Z) : SM unit :=
  match n with
  | O => kret tt
  | S n =>
      m <- kreads video_memory ;;
      v <- klift (rd m (i + 80)) ;;
      put_cell i v ;;;
      move_up_loop n (i + 1)
  end.

Definition scroll : SM unit :=
  y <- kreads cursor_y ;;
  if 25 <=? y then
    move_up_loop (24 * 80) 0 ;;;
    blank_loop 80 (24 * 80) ;;;
    kmod (set_y 24)
  else kret tt.

Definition put_char_color (c back fore : Z) : SM unit :=
  let c := i8 c in
  let back_color := u8 back in
  let fore_color := u8 fore in
  let attribute_byte := u8 (Z.lor (Z.shiftl back_color 4) (Z.land fore_color 0x0f)) in
  let attribute := u16 (Z.shiftl attribute_byte 8) in
  x <- kreads cursor_x ;;
  y <- kreads cursor_y ;;
  (if (c =? 8) && negb (x =? 0) then
     let x := u8 (x - 1) in
     kmod (set_x x) ;;;
     put_cell (y * 80 + x) (u16 back)
   else if c =? 9 then kmod (set_x (u8 (Z.land (x + 8) (Z.lnot 7))))
   else if c =? 13 then kmod (set_x 0) ;;; kmod (set_y (u8 (y + 1)))
   else if c =? 10 then kmod (set_x 0) ;;; kmod (set_y (u8 (y + 1)))
   else if 32 <=? c then
     put_cell (y * 80 + x) (u16 (Z.lor c attribute)) ;;;
     kmod (set_x (u8 (x + 1)))
   else kret tt) ;;;
  x <- kreads cursor_x ;;
  y <- kreads cursor_y ;;
  (if 80 <=? x then kmod (set_x 0) ;;; kmod (set_y (u8 (y + 1))) else kret tt) ;;;
  scroll ;;;
  set_cursor.

(** The loop of the functions that print a string, from offset [p] of [cstr] on. *)
Fixpoint put_loop (n : nat) (cstr : list Z) (p back fore : Z) : SM unit :=
  match n with
  | O => kfail Diverges
  | S n =>
      c <- klift (rd cstr p) ;;
      if negb (c =? 0) then
        put_char_color c back fore ;;;
        put_loop n cstr (p + 1) back fore
      else kret tt
  end.

Definition put_str (cstr : list Z) : SM unit := put_loop (S (length cstr)) cstr 0 rc_black rc_white.
Definition put_str_color (cstr : list Z) (back fore : Z) : SM unit := put_loop (S (length cstr)) cstr 0 back fore.
Definition console_write_color (cstr : list Z) (back fore : Z) : SM unit := put_loop (S (length cstr)) cstr 0 back fore.

(** The digits of [n] put into [arr] from [i] on, the last one first; their number is
    returned. *)
Fixpoint digit_loop (fuel : nat) (n base : Z) (arr : list Z) (i : Z) : outcome (list Z * Z) :=
  match fuel with
  | O => Err Diverges
  | S fuel =>
      if negb (n =? 0) then
        let? arr := wr arr i (n mod base) in
        digit_loop fuel (n / base) base arr (i + 1)
      else Ok (arr, i)
  end.

(** The loop over [j], from [j] = [n] - 1 down, with what it does to a digit. *)
Fixpoint number_loop (pr : Z -> SM unit) (n : nat) (arr : list Z) : SM unit :=
  match n with
  | O => kret tt
  | S j =>
      d <- klift (rd arr (Z.of_nat j)) ;;
      pr d ;;;
      number_loop pr j arr
  end.
Definition hex_digit (d : Z) : SM unit :=
  if d <=? 9 then put_char_color (d + 48) rc_black rc_white else put_char_color (65 + d - 10) rc_black rc_white.
Definition dec_digit (d : Z) : SM unit := put_char_color (d + 48) rc_black rc_white.

(** [arr] is what the stack held in the array. *)
Definition put_int (arr : list Z) (n : Z) : SM unit :=
  if n =? 0 then put_char_color 48 rc_black rc_white
  else
    r <- klift (digit_loop 33 n 16 arr 0) ;;
    number_loop hex_digit (Z.to_nat r.2) r.1.
Definition console_write_dec (arr : list Z) (n : Z) : SM unit :=
  if n =? 0 then put_char_color 48 rc_black rc_white
  else
    r <- klift (digit_loop 33 n 10 arr 0) ;;
    number_loop dec_digit (Z.to_nat r.2) r.1.

Definition put_char (c : Z) : SM unit := put_char_color c rc_black rc_white.

(** ** Loops over the video memory *)

Lemma put_cell_run i v s : 0 <= i < Z.of_nat (length (video_memory s)) ->
  put_cell i v s = Ok (tt, set_video (<[Z.to_nat i := v]> (video_memory s)) s).
Proof.
  intros Hi. unfold put_cell. rewrite (kbind_ok _ _ s (video_memory s) s) by done.
  by rewrite (kbind_ok _ _ s (<[Z.to_nat i := v]> (video_memory s)) s) by (unfold klift; by rewrite wr_Ok).
Qed.

Lemma set_video_twice a b s : set_video a (set_video b s) = set_video a s.
Proof. done. Qed.
Lemma set_video_id s : set_video (video_memory s) s = s.
Proof. by destruct s. Qed.

Lemma insert_cut {A} (l : list A) i x : (i < length l)%nat -> <[i := x]> l = take i l ++ x :: drop (S i) l.
Proof. intros. by rewrite insert_take_drop. Qed.

Lemma blank_loop_run n i s : (i + n <= length (video_memory s))%nat ->
  blank_loop n (Z.of_nat i) s
  = Ok (tt, set_video (take i (video_memory s) ++ replicate n blank ++ drop (i + n) (video_memory s)) s).
Proof.
  revert i s. induction n as [|n IH]; intros i s Hl; cbn [blank_loop].
  - cbn [replicate app]. by rewrite Nat.add_0_r, take_drop, set_video_id.
  - rewrite (kbind_ok _ _ _ _ _ (put_cell_run (Z.of_nat i) blank s ltac:(lia))). rewrite Nat2Z.id.
    replace (Z.of_nat i + 1) with (Z.of_nat (S i)) by lia. rewrite IH by (cbn [video_memory set_video]; rewrite length_insert; lia).
    cbn [video_memory set_video]. rewrite set_video_twice. do 3 f_equal. rewrite insert_cut by lia.
    assert (Hl1 : length (take i (video_memory s)) = i) by (rewrite length_take; lia).
    rewrite take_app_ge, drop_app_ge, Hl1 by lia. replace (S i - i)%nat with 1%nat by lia.
    replace (S i + n - i)%nat with (S n) by lia. cbn [take drop replicate app]. rewrite take_0, drop_drop, <- app_assoc. cbn [app].
    by replace (S i + n)%nat with (i + S n)%nat by lia.
Qed.

Lemma move_up_loop_run n i s : (i + 80 + n <= length (video_memory s))%nat ->
  move_up_loop n (Z.of_nat i) s
  = Ok (tt, set_video (take i (video_memory s) ++ take n (drop (i + 80) (video_memory s)) ++ drop (i + n) (video_memory s)) s).
Proof.
  revert i s. induction n as [|n IH]; intros i s Hl; cbn [move_up_loop].
  - rewrite take_0. cbn [app]. by rewrite Nat.add_0_r, take_drop, set_video_id.
  - rewrite (kbind_ok _ _ s (video_memory s) s) by done.
    destruct (lookup_lt_is_Some_2 (video_memory s) (i + 80)) as [v Hv]; [lia|].
    rewrite (kbind_ok _ _ s v s) by (unfold klift; rewrite (rd_Ok _ _ v); [done|lia|by replace (Z.to_nat (Z.of_nat i + 80)) with (i + 80)%nat by lia]).
    rewrite (kbind_ok _ _ _ _ _ (put_cell_run (Z.of_nat i) v s ltac:(lia))). rewrite Nat2Z.id.
    replace (Z.of_nat i + 1) with (Z.of_nat (S i)) by lia. rewrite IH by (cbn [video_memory set_video]; rewrite length_insert; lia).
    cbn [video_memory set_video]. rewrite set_video_twice. do 3 f_equal. rewrite insert_cut by lia.
    assert (Hl1 : length (take i (video_memory s)) = i) by (rewrite length_take; lia).
    rewrite take_app_ge, !drop_app_ge, Hl1 by lia. replace (S i - i)%nat with 1%nat by lia.
    replace (S i + n - i)%nat with (S n) by lia. replace (S i + 80 - i)%nat with 81%nat by lia. cbn [take drop app].
    rewrite take_0, !drop_drop, <- app_assoc. cbn [app]. rewrite (drop_S _ _ _ Hv). cbn [take app].
    replace (S i + 80)%nat with (S (i + 80)) by lia. by replace (S i + n)%nat with (i + S n)%nat by lia.
Qed.

(** ** The reference: a terminal *)

(** The cells from the top left, and the column and row the next character goes to. *)
Record term : Type := Term { cells : list Z; col : Z; row : Z }.
Definition term_of (s : screen) : term := Term (video_memory s) (cursor_x s) (cursor_y s).

(** A full line ends, and the lines move up when there is none left. *)
Definition advance (t : term) : term :=
  let t := if 80 <=? col t then Term (cells t) 0 (row t + 1) else t in
  if 25 <=? row t then Term (drop 80 (cells t) ++ replicate 80 blank) (col t) 24 else t.

Definition cell (c back fore : Z) : Z := c + 256 * (16 * back + fore).

(** A character of a text: a backspace takes the last one of the line away, a tab goes to
    the next column that is a multiple of eight, a carriage return and a newline both start
    a line, what can be printed is, and the rest (also the bytes from 128 on) is ignored. *)
Definition typed (back fore : Z) (t : term) (c : Z) : term :=
  if (c =? 8) && (0 <? col t) then
    Term (<[Z.to_nat (80 * row t + (col t - 1)) := back]> (cells t)) (col t - 1) (row t)
  else if c =? 9 then advance (Term (cells t) (8 * (col t / 8) + 8) (row t))
  else if (c =? 13) || (c =? 10) then advance (Term (cells t) 0 (row t + 1))
  else if (32 <=? c) && (c <? 128) then
    advance (Term (<[Z.to_nat (80 * row t + col t) := cell c back fore]> (cells t)) (col t + 1) (row t))
  else t.

(** The cursor the CRT controller was told: the high byte in its register 14 and the low one
    in register 15. *)
Definition crt_cursor (l : list (Z * Z)) : option Z :=
  match l with
  | (0x3d5, lo) :: (0x3d4, 0x0f) :: (0x3d5, hi) :: (0x3d4, 0x0e) :: _ => Some (256 * hi + lo)
  | _ => None
  end.

Record screen_ok (s : screen) : Prop := {
  so_video : length (video_memory s) = 2000%nat;
  so_x : 0 <= cursor_x s < 80;
  so_y : 0 <= cursor_y s < 25
}.

Lemma set_cursor_run s : screen_ok s ->
  exists l, set_cursor s = Ok (tt, set_ports l s) /\ crt_cursor l = Some (80 * cursor_y s + cursor_x s).
Proof.
  intros [_ Hx Hy]. unfold set_cursor.
  rewrite (kbind_ok _ _ s (cursor_x s) s) by done. rewrite (kbind_ok _ _ s (cursor_y s) s) by done.
  eexists. split; [reflexivity|]. cbn [crt_cursor ports set_ports].
  assert (E : u16 (cursor_y s * 80 + cursor_x s) = cursor_y s * 80 + cursor_x s) by (apply u16_small; lia). rewrite E.
  set (v := cursor_y s * 80 + cursor_x s). assert (Hv : 0 <= v < 65536) by lia.
  change (Z.land v 0xff) with (Z.land v (Z.ones 8)). rewrite Z.land_ones, Z.shiftr_div_pow2 by lia.
  pose proof (Z.div_mod v 256 ltac:(lia)). pose proof (Z.mod_pos_bound v 256 ltac:(lia)).
  change (2 ^ 8) with 256 in *. rewrite !u8_small by (try split; try apply Z.div_pos; try apply Z.div_lt_upper_bound; lia).
  f_equal. lia.
Qed.

(** What is done behind every character. *)
Definition after_char : SM unit :=
  x <- kreads cursor_x ;;
  y <- kreads cursor_y ;;
  (if 80 <=? x then kmod (set_x 0) ;;; kmod (set_y (u8 (y + 1))) else kret tt) ;;;
  scroll ;;;
  set_cursor.

Lemma scroll_run s : length (video_memory s) = 2000%nat -> 0 <= cursor_x s < 80 -> 0 <= cursor_y s <= 25 ->
  exists s', scroll s = Ok (tt, s') /\ screen_ok s' /\ ports s' = ports s /\
    term_of s' = (if 25 <=? cursor_y s then Term (drop 80 (video_memory s) ++ replicate 80 blank) (cursor_x s) 24 else term_of s).
Proof.
  intros Hl Hx Hy. unfold scroll. rewrite (kbind_ok _ _ s (cursor_y s) s) by done.
  destruct (Z.leb_spec 25 (cursor_y s)) as [H25|]; [|by exists s; split; [done|]; split; [split; lia|]].
  pose proof (move_up_loop_run (24 * 80) 0 s ltac:(lia)) as Hm. rewrite (kbind_ok _ _ _ _ _ Hm).
  cbn [take app Nat.add] in *. remember (24 * 80)%nat as k eqn:Ek. change (Z.of_nat 0) with 0 in *.
  set (m := take k (drop 80 (video_memory s)) ++ drop k (video_memory s)) in *.
  assert (Hlm : length (take k (drop 80 (video_memory s))) = k) by (rewrite length_take, length_drop; lia).
  assert (Hm0 : length m = 2000%nat) by (unfold m; rewrite length_app, Hlm, length_drop; lia).
  replace (24 * 80) with (Z.of_nat k) by lia.
  pose proof (blank_loop_run 80 k (set_video m s)) as Hb. cbn [video_memory set_video] in Hb.
  rewrite (kbind_ok _ _ _ _ _ (Hb ltac:(lia))). eexists. split; [reflexivity|].
  assert (E : take k m ++ replicate 80 blank ++ drop (k + 80) m = drop 80 (video_memory s) ++ replicate 80 blank).
  { unfold m. rewrite take_app_le, take_take, Nat.min_id by lia. rewrite (take_ge (drop 80 _)) by (rewrite length_drop; lia).
    f_equal. rewrite drop_ge, app_nil_r; [done|]. rewrite length_app, !length_drop. lia. }
  split; [split; [|done|simpl; lia]|].
  - change (length (take k m ++ replicate 80 blank ++ drop (k + 80) m) = 2000%nat). rewrite E, length_app, length_drop, length_replicate. lia.
  - split; [done|]. unfold term_of. cbn [video_memory cursor_x cursor_y set_y set_video]. by rewrite E.
Qed.

Lemma after_char_run s : length (video_memory s) = 2000%nat -> 0 <= cursor_x s <= 80 -> 0 <= cursor_y s <= 25 ->
  (cursor_y s = 25 -> cursor_x s < 80) ->
  exists s', after_char s = Ok (tt, s') /\ screen_ok s' /\ term_of s' = advance (term_of s) /\
    crt_cursor (ports s') = Some (80 * cursor_y s' + cursor_x s').
Proof.
  intros Hl Hx Hy Hxy. unfold after_char.
  rewrite (kbind_ok _ _ s (cursor_x s) s) by done. rewrite (kbind_ok _ _ s (cursor_y s) s) by done.
  set (s1 := if 80 <=? cursor_x s then set_y (u8 (cursor_y s + 1)) (set_x 0 s) else s).
  rewrite (kbind_ok _ _ s tt s1) by (unfold s1; by destruct (80 <=? cursor_x s)).
  assert (H1 : video_memory s1 = video_memory s /\ 0 <= cursor_x s1 < 80 /\ 0 <= cursor_y s1 <= 25 /\
    term_of s1 = (if 80 <=? cursor_x s then Term (video_memory s) 0 (cursor_y s + 1) else term_of s)).
  { unfold s1. destruct (Z.leb_spec 80 (cursor_x s)); [|split_and!; done || lia].
    unfold term_of. cbn [video_memory cursor_x cursor_y set_x set_y]. rewrite u8_small by lia. split_and!; done || lia. }
  destruct H1 as (Hv1 & Hx1 & Hy1 & Ht1).
  destruct (scroll_run s1) as (s2 & Hrun & Hok & Hp & Ht); [congruence|done|done|]. rewrite (kbind_ok _ _ _ _ _ Hrun).
  destruct (set_cursor_run s2 Hok) as (l & Hc & Hcrt). exists (set_ports l s2). split; [exact Hc|].
  split; [by destruct Hok|]. split; [|exact Hcrt]. change (term_of (set_ports l s2)) with (term_of s2). rewrite Ht, Ht1.
  unfold advance. change (col (term_of s)) with (cursor_x s). rewrite Hv1.
  assert (Ecy : cursor_y s1 = row (if 80 <=? cursor_x s then Term (video_memory s) 0 (cursor_y s + 1) else term_of s)) by (by rewrite <- Ht1).
  assert (Ecx : cursor_x s1 = col (if 80 <=? cursor_x s then Term (video_memory s) 0 (cursor_y s + 1) else term_of s)) by (by rewrite <- Ht1).
  rewrite Ecy, Ecx. by destruct (80 <=? cursor_x s).
Qed.

(** ** Characters and strings *)

Definition is_color (v : Z) : Prop := 0 <= v < 16.

Lemma cell_word c back fore : 0 <= c < 128 -> is_color back -> is_color fore ->
  u16 (Z.lor c (u16 (Z.shiftl (u8 (Z.lor (Z.shiftl (u8 back) 4) (Z.land (u8 fore) 0x0f))) 8))) = cell c back fore.
Proof.
  intros Hc Hb Hf. unfold is_color, cell in *. rewrite (u8_small back), (u8_small fore) by lia.
  rewrite !Z.shiftl_mul_pow2 by lia. change 0x0f with (Z.ones 4). rewrite Z.land_ones, (Z.mod_small fore) by lia.
  rewrite (lor_low _ fore 4); [|lia|by apply Z.mod_mul|lia]. change (2 ^ 4) with 16.
  rewrite u8_small by lia. rewrite (u16_small (_ * _)) by (change (2 ^ 8) with 256; lia).
  rewrite Z.lor_comm, (lor_low _ c 8); [|lia|by apply Z.mod_mul|lia]. change (2 ^ 8) with 256.
  rewrite u16_small by lia. lia.
Qed.

Lemma tab_stop x : 0 <= x < 80 -> u8 (Z.land (x + 8) (Z.lnot 7)) = 8 * (x / 8) + 8.
Proof.
  intros Hx. change (Z.lnot 7) with (Z.lnot (Z.ones 3)). rewrite <- Z.ldiff_land, Z.ldiff_ones_r by lia.
  rewrite Z.shiftl_mul_pow2, Z.shiftr_div_pow2 by lia. change (2 ^ 3) with 8.
  replace (x + 8) with (x + 1 * 8) by lia. rewrite Z.div_add by lia.
  pose proof (Z.div_mod x 8 ltac:(lia)). pose proof (Z.mod_pos_bound x 8 ltac:(lia)). rewrite u8_small by lia. lia.
Qed.

Lemma i8_cases c : 0 <= c < 256 -> (c < 128 /\ i8 c = c) \/ (128 <= c /\ i8 c < 0).
Proof. unfold i8. change (2 ^ 8) with 256. change (2 ^ 7) with 128. intros Hc.
  pose proof (Z.div_mod (c + 128) 256 ltac:(lia)). pose proof (Z.mod_pos_bound (c + 128) 256 ltac:(lia)).
  destruct (Z.lt_ge_cases c 128); [left|right]; nia.
Qed.

Lemma put_char_color_run s c back fore : screen_ok s -> 0 <= c < 256 -> is_color back -> is_color fore ->
  exists s', put_char_color c back fore s = Ok (tt, s') /\ screen_ok s' /\
    term_of s' = typed back fore (term_of s) c /\ crt_cursor (ports s') = Some (80 * cursor_y s' + cursor_x s').
Proof.
  intros [Hl Hx Hy] Hc Hb Hf. unfold put_char_color.
  rewrite (kbind_ok _ _ s (cursor_x s) s) by done. rewrite (kbind_ok _ _ s (cursor_y s) s) by done.
  fold after_char. unfold typed. change (col (term_of s)) with (cursor_x s). change (row (term_of s)) with (cursor_y s).
  change (cells (term_of s)) with (video_memory s).
  assert (Hstep : forall m s1, m s = Ok (tt, s1) -> length (video_memory s1) = 2000%nat -> 0 <= cursor_x s1 <= 80 ->
    0 <= cursor_y s1 <= 25 -> (cursor_y s1 = 25 -> cursor_x s1 < 80) ->
    exists s', (m ;;; after_char) s = Ok (tt, s') /\ screen_ok s' /\ term_of s' = advance (term_of s1) /\
      crt_cursor (ports s') = Some (80 * cursor_y s' + cursor_x s')).
  { intros m s1 Hm H1 H2 H3 H4. rewrite (kbind_ok _ _ _ _ _ Hm). by apply after_char_run. }
  assert (Hstay : forall t, 0 <= col t < 80 -> 0 <= row t < 25 -> advance t = t).
  { intros t Ht1 Ht2. unfold advance. rewrite (proj2 (Z.leb_gt 80 _)) by lia. by rewrite (proj2 (Z.leb_gt 25 _)) by lia. }
  destruct (i8_cases c Hc) as [[Hlt ->]|[Hge Hneg]].
  2: { rewrite (proj2 (Z.eqb_neq (i8 c) 8)), (proj2 (Z.eqb_neq (i8 c) 9)), (proj2 (Z.eqb_neq (i8 c) 13)),
         (proj2 (Z.eqb_neq (i8 c) 10)), (proj2 (Z.leb_gt 32 (i8 c))) by lia.
       rewrite (proj2 (Z.eqb_neq c 8)), (proj2 (Z.eqb_neq c 9)), (proj2 (Z.eqb_neq c 13)), (proj2 (Z.eqb_neq c 10)),
         (proj2 (Z.ltb_ge c 128)) by lia. cbn [andb orb]. rewrite andb_false_r.
       destruct (Hstep (kret tt) s eq_refl Hl) as (s' & Hrun & Hok & Ht & Hp); [lia..|]. exists s'.
       rewrite Hstay in Ht by (simpl; lia). done. }
  replace (negb (cursor_x s =? 0)) with (0 <? cursor_x s)
    by (destruct (Z.eqb_spec (cursor_x s) 0), (Z.ltb_spec 0 (cursor_x s)); simpl; lia || done).
  destruct ((c =? 8) && (0 <? cursor_x s)) eqn:E8.
  { apply andb_prop in E8 as [_ Hx0%Z.ltb_lt]. rewrite u8_small by lia.
    set (s1 := set_video (<[Z.to_nat (cursor_y s * 80 + (cursor_x s - 1)) := u16 back]> (video_memory s)) (set_x (cursor_x s - 1) s)).
    destruct (Hstep (kmod (set_x (cursor_x s - 1)) ;;; put_cell (cursor_y s * 80 + (cursor_x s - 1)) (u16 back)) s1)
      as (s' & Hrun & Hok & Ht & Hp).
    - rewrite (kbind_ok _ _ s tt (set_x (cursor_x s - 1) s)) by done. apply put_cell_run. simpl. lia.
    - simpl. rewrite length_insert. done.
    - simpl. lia.
    - simpl. lia.
    - simpl. lia.
    - exists s'. split; [exact Hrun|]. split; [done|]. split; [|done]. rewrite Ht, Hstay by (simpl; lia).
      unfold term_of, s1. cbn [video_memory cursor_x cursor_y set_x set_video]. unfold is_color in Hb. rewrite u16_small by lia.
      by replace (cursor_y s * 80 + (cursor_x s - 1)) with (80 * cursor_y s + (cursor_x s - 1)) by lia. }
  destruct (c =? 9).
  { rewrite tab_stop by done. pose proof (Z.div_mod (cursor_x s) 8 ltac:(lia)). pose proof (Z.mod_pos_bound (cursor_x s) 8 ltac:(lia)).
    apply (Hstep _ (set_x (8 * (cursor_x s / 8) + 8) s)); simpl; try done; try lia. }
  assert (Hnl : exists s', (kmod (set_x 0) ;;; kmod (set_y (u8 (cursor_y s + 1)))) s = Ok (tt, set_y (u8 (cursor_y s + 1)) (set_x 0 s)) /\
    ((kmod (set_x 0) ;;; kmod (set_y (u8 (cursor_y s + 1)))) ;;; after_char) s = Ok (tt, s') /\ screen_ok s' /\
    term_of s' = advance (Term (video_memory s) 0 (cursor_y s + 1)) /\ crt_cursor (ports s') = Some (80 * cursor_y s' + cursor_x s')).
  { destruct (Hstep (kmod (set_x 0) ;;; kmod (set_y (u8 (cursor_y s + 1)))) (set_y (u8 (cursor_y s + 1)) (set_x 0 s)))
      as (s' & Hrun & Hok & Ht & Hp);
      [done|done|simpl; lia|simpl; rewrite u8_small by lia; lia|simpl; lia|].
    exists s'. split_and!; try done. rewrite Ht. unfold term_of. cbn [video_memory cursor_x cursor_y set_x set_y]. by rewrite u8_small by lia. }
  destruct Hnl as (sn & _ & Hn1 & Hn2 & Hn3 & Hn4).
  destruct (c =? 13); [by exists sn|]. destruct (c =? 10); [by exists sn|]. cbn [orb].
  rewrite (proj2 (Z.ltb_lt c 128)), andb_true_r by lia. destruct (Z.leb_spec 32 c).
  - rewrite cell_word by (done || lia).
    set (s1 := set_x (u8 (cursor_x s + 1)) (set_video (<[Z.to_nat (cursor_y s * 80 + cursor_x s) := cell c back fore]> (video_memory s)) s)).
    destruct (Hstep (put_cell (cursor_y s * 80 + cursor_x s) (cell c back fore) ;;; kmod (set_x (u8 (cursor_x s + 1)))) s1)
      as (s' & Hrun & Hok & Ht & Hp).
    + rewrite (kbind_ok _ _ s tt _ (put_cell_run (cursor_y s * 80 + cursor_x s) (cell c back fore) s ltac:(lia))). reflexivity.
    + simpl. rewrite length_insert. done.
    + simpl. rewrite u8_small by lia. lia.
    + simpl. lia.
    + simpl. lia.
    + exists s'. split; [exact Hrun|]. split; [done|]. split; [|done]. rewrite Ht. unfold term_of, s1.
      cbn [video_memory cursor_x cursor_y set_x set_video]. rewrite u8_small by lia.
      by replace (cursor_y s * 80 + cursor_x s) with (80 * cursor_y s + cursor_x s) by lia.
  - destruct (Hstep (kret tt) s eq_refl Hl) as (s' & Hrun & Hok & Ht & Hp); [lia..|]. exists s'.
    rewrite Hstay in Ht by (simpl; lia). done.
Qed.

Definition shows (back fore : Z) (t : list Z) (s s' : screen) : Prop :=
  screen_ok s' /\ term_of s' = fold_left (typed back fore) t (term_of s) /\
  (t <> [] -> crt_cursor (ports s') = Some (80 * cursor_y s' + cursor_x s')).

Lemma shows_nil back fore s : screen_ok s -> shows back fore [] s s.
Proof. by split. Qed.

(** One character, then what [k] shows. *)
Lemma shows_step back fore c t (k : SM unit) s : screen_ok s -> 0 <= c < 256 -> is_color back -> is_color fore ->
  (forall s1, screen_ok s1 -> crt_cursor (ports s1) = Some (80 * cursor_y s1 + cursor_x s1) ->
     exists s', k s1 = Ok (tt, s') /\ shows back fore t s1 s' /\ crt_cursor (ports s') = Some (80 * cursor_y s' + cursor_x s')) ->
  exists s', (put_char_color c back fore ;;; k) s = Ok (tt, s') /\ shows back fore (c :: t) s s' /\
    crt_cursor (ports s') = Some (80 * cursor_y s' + cursor_x s').
Proof.
  intros Hs Hc Hb Hf Hk. destruct (put_char_color_run s c back fore Hs Hc Hb Hf) as (s1 & Hrun & Hs1 & Ht & Hp).
  destruct (Hk s1 Hs1 Hp) as (s' & Hr & (Hs' & Ht' & _) & Hp'). exists s'. rewrite (kbind_ok _ _ _ _ _ Hrun).
  split; [exact Hr|]. split; [|done]. split; [done|]. split; [|done]. cbn [fold_left]. by rewrite <- Ht.
Qed.

(** A string, on a screen the controller knows the cursor of. *)
Definition in_step (s : screen) : Prop := crt_cursor (ports s) = Some (80 * cursor_y s + cursor_x s).

Lemma put_loop_run n m p t back fore s : str_at m p t -> (length t < n)%nat -> is_color back -> is_color fore ->
  screen_ok s -> exists s', put_loop n m p back fore s = Ok (tt, s') /\ shows back fore t s s' /\ (in_step s -> in_step s').
Proof.
  revert p t s. induction n as [|n IH]; intros p t s Hs Hn Hb Hf Hok; [lia|]. cbn [put_loop]. destruct t as [|c t].
  - rewrite (kbind_ok _ _ s 0 s) by (unfold klift; by rewrite (str_at_nil _ _ Hs)). exists s. by split_and!; [|apply shows_nil|].
  - destruct (str_at_cons _ _ _ _ Hs) as (Hr & Hc & Hs1). rewrite (kbind_ok _ _ s c s) by (unfold klift; by rewrite Hr).
    rewrite (proj2 (Z.eqb_neq c 0)) by lia. cbn [negb length] in *.
    destruct (shows_step back fore c t (put_loop n m (p + 1) back fore) s Hok) as (s' & Hrun & Hsh & Hp); [lia|done|done| |].
    + intros s1 Hs1' Hp1. destruct (IH (p + 1) t s1 Hs1) as (s' & Hrun & Hsh & Hp); try done; [lia|].
      exists s'. split; [done|]. split; [done|by apply Hp].
    + by exists s'.
Qed.

(** ** Numbers *)

(** The digits, the last one first. *)
Fixpoint low_digits (n : nat) (base v : Z) : list Z :=
  match n with
  | O => []
  | S n => if v =? 0 then [] else v mod base :: low_digits n base (v / base)
  end.

Section numbers.
Context (base : Z) (Hbase : 2 <= base <= 16).

Lemma low_digits_numeral n v : 0 < v -> digits n base v = map digit_char (rev (low_digits n base v)).
Proof.
  revert v. induction n as [|n IH]; intros v Hv; [done|]. cbn [digits low_digits].
  rewrite (proj2 (Z.eqb_neq v 0)) by lia. cbn [rev]. rewrite map_app. cbn [map]. f_equal.
  destruct (Z.eqb_spec (v / base) 0) as [->|E].
  - by destruct n.
  - apply IH. pose proof (Z.div_pos v base ltac:(lia) ltac:(lia)). lia.
Qed.

Lemma low_digits_length n v k : 0 <= v < base ^ Z.of_nat k -> (length (low_digits n base v) <= k)%nat.
Proof.
  revert v k. induction n as [|n IH]; intros v k Hv; [simpl; lia|]. cbn [low_digits].
  destruct (Z.eqb_spec v 0); [simpl; lia|]. destruct k as [|k]; [simpl in Hv; lia|]. cbn [length].
  apply le_n_S, IH. split; [apply Z.div_pos; lia|]. apply Z.div_lt_upper_bound; [lia|].
  rewrite Nat2Z.inj_succ, Z.pow_succ_r in Hv by lia. lia.
Qed.

Lemma low_digits_bound n v : 0 <= v -> Forall (fun d => 0 <= d < base) (low_digits n base v).
Proof.
  revert v. induction n as [|n IH]; intros v Hv; [constructor|]. cbn [low_digits]. destruct (v =? 0); [constructor|].
  constructor; [apply Z.mod_pos_bound; lia|]. apply IH, Z.div_pos; lia.
Qed.

Lemma digit_loop_run n v a rest : 0 <= v < base ^ Z.of_nat n -> (length (low_digits n base v) <= length rest)%nat ->
  digit_loop (S n) v base (a ++ rest) (Z.of_nat (length a))
  = Ok (a ++ low_digits n base v ++ drop (length (low_digits n base v)) rest, Z.of_nat (length (a ++ low_digits n base v))).
Proof.
  revert v a rest. induction n as [|n IH]; intros v a rest Hv Hl.
  - assert (v = 0) as -> by (simpl in Hv; lia). cbn [digit_loop low_digits length drop app]. by rewrite drop_0, app_nil_r.
  - remember (S n) as n1 eqn:En. cbn [digit_loop]. subst n1. cbn [low_digits] in Hl |- *. destruct (Z.eqb_spec v 0) as [->|Hv0]; cbn [negb].
    + cbn [length drop app]. by rewrite drop_0, app_nil_r.
    + destruct rest as [|x rest]; [simpl in Hl; lia|]. rewrite wr_mid. cbn [obind].
      replace (Z.of_nat (length a) + 1) with (Z.of_nat (length (a ++ [v mod base]))) by (rewrite length_app; simpl; lia).
      cbn [length] in Hl. rewrite IH; [|split; [apply Z.div_pos; lia|]; apply Z.div_lt_upper_bound; [lia|]; rewrite Nat2Z.inj_succ, Z.pow_succ_r in Hv by lia; lia|lia].
      cbn [length drop]. by rewrite <- !app_assoc.
Qed.
End numbers.

Lemma hex_digit_char d : 0 <= d < 16 -> hex_digit d = put_char_color (digit_char d) rc_black rc_white.
Proof.
  intros Hd. unfold hex_digit, digit_char. destruct (Z.leb_spec d 9).
  - by rewrite (proj2 (Z.ltb_lt d 10)), u8_small by lia.
  - rewrite (proj2 (Z.ltb_ge d 10)), u8_small by lia. f_equal. lia.
Qed.
Lemma dec_digit_char d : 0 <= d < 10 -> dec_digit d = put_char_color (digit_char d) rc_black rc_white.
Proof. intros Hd. unfold dec_digit, digit_char. by rewrite (proj2 (Z.ltb_lt d 10)), u8_small by lia. Qed.

(** Printing the digits from the last one of the array down. *)
Lemma number_loop_run base pr l rest s : 2 <= base <= 16 ->
  (forall d, 0 <= d < base -> pr d = put_char_color (digit_char d) rc_black rc_white) ->
  Forall (fun d => 0 <= d < base) l -> screen_ok s ->
  exists s', number_loop pr (length l) (l ++ rest) s = Ok (tt, s') /\
    shows rc_black rc_white (map digit_char (rev l)) s s' /\ (in_step s -> in_step s').
Proof.
  intros Hb Hpr. revert rest s. induction l as [|d l IH] using rev_ind; intros rest s Hl Hs.
  { exists s. by split_and!; [|apply shows_nil|]. }
  apply list.Forall_app in Hl as [Hl Hd]. apply list.Forall_cons in Hd as [Hd _].
  rewrite length_app. cbn [length]. rewrite Nat.add_1_r. cbn [number_loop]. rewrite rev_unit. cbn [map].
  rewrite (kbind_ok _ _ s d s).
  2: { unfold klift. rewrite (rd_Ok _ _ d); [done|lia|]. rewrite Nat2Z.id, lookup_app_l by (rewrite length_app; simpl; lia).
       by rewrite lookup_app_r, Nat.sub_diag. }
  rewrite (Hpr d Hd). destruct (digit_char_read base Hb d Hd) as [_ Hdc].
  destruct (shows_step rc_black rc_white (digit_char d) (map digit_char (rev l)) (number_loop pr (length l) ((l ++ [d]) ++ rest)) s Hs)
    as (s' & Hrun & Hsh & Hp); [lia|done|done| |by exists s'].
  intros s1 Hs1 Hp1. rewrite <- app_assoc. destruct (IH ([d] ++ rest) s1 Hl Hs1) as (s' & Hrun & Hsh & Hp).
  exists s'. split; [exact Hrun|]. split; [done|by apply Hp].
Qed.

Lemma put_number_run base pr arr n s : 10 <= base <= 16 ->
  (forall d, 0 <= d < base -> pr d = put_char_color (digit_char d) rc_black rc_white) ->
  length arr = 16%nat -> 0 < n < 2 ^ 32 -> screen_ok s ->
  exists s', (r <- klift (digit_loop 33 n base arr 0) ;; number_loop pr (Z.to_nat r.2) r.1) s = Ok (tt, s') /\
    shows rc_black rc_white (numeral base n) s s'.
Proof.
  intros Hb Hpr Hl Hn Hs. assert (Hn32 : 0 <= n < base ^ Z.of_nat 32).
  { split; [lia|]. apply (Z.lt_le_trans _ (2 ^ 32)); [lia|]. apply Z.pow_le_mono_l. lia. }
  assert (Hlen : (length (low_digits 32 base n) <= 10)%nat).
  { apply low_digits_length; [lia|]. split; [lia|]. apply (Z.lt_le_trans _ (10 ^ Z.of_nat 10)); [change (10 ^ Z.of_nat 10) with 10000000000; lia|].
    apply Z.pow_le_mono_l. lia. }
  pose proof (digit_loop_run base ltac:(lia) 32 n [] arr Hn32 ltac:(lia)) as Hd. cbn [app length] in Hd. change (Z.of_nat 0) with 0 in Hd.
  unfold numeral. rewrite (low_digits_numeral base ltac:(lia) 32 n) by lia.
  pose proof (low_digits_bound base ltac:(lia) 32 n ltac:(lia)) as Hbd. remember (low_digits 32 base n) as l eqn:El.
  rewrite (kbind_ok _ _ s _ s) by (unfold klift; rewrite Hd; reflexivity). cbn [fst snd]. rewrite Nat2Z.id.
  destruct (number_loop_run base pr l (drop (length l) arr) s ltac:(lia) Hpr Hbd Hs) as (s' & Hrun & Hsh & _).
  exists s'. split; [exact Hrun|exact Hsh].
Qed.

(** ** The properties *)


(** Printing a number shows its numeral: [put_int] in base 16 and [console_write_dec] in
    base 10 show for every 32-bit number the digits that [itoa] writes for it, without
    leaving their array of 16 digits. *)
Theorem put_int_numeral arr n s :
  length arr = 16%nat -> 0 <= n < 2 ^ 32 -> screen_ok s ->
  (exists s', put_int arr n s = Ok (tt, s') /\ screen_ok s' /\
     term_of s' = fold_left (typed rc_black rc_white) (numeral 16 n) (term_of s)) /\
  (exists s', console_write_dec arr n s = Ok (tt, s') /\ screen_ok s' /\
     term_of s' = fold_left (typed rc_black rc_white) (numeral 10 n) (term_of s)).
Proof.
  intros Hl Hn Hs. unfold put_int, console_write_dec. destruct (Z.eqb_spec n 0) as [->|Hn0].
  - destruct (put_char_color_run s 48 rc_black rc_white Hs) as (s' & Hrun & Hok & Ht & _); [lia|done|done|].
    split; exists s'; split_and!; done.
  - destruct (put_number_run 16 hex_digit arr n s) as (s1 & Hr1 & H1 & T1 & _); [lia|apply hex_digit_char|done|lia|done|].
    destruct (put_number_run 10 dec_digit arr n s) as (s2 & Hr2 & H2 & T2 & _); [lia|apply dec_digit_char|done|lia|done|].
    split; [by exists s1|by exists s2].
Qed.

(** An empty screen. *)
Definition sample_screen : screen := Screen (replicate 2000 blank) 78 24 [].
Lemma sample_screen_ok : screen_ok sample_screen.
Proof. split; [apply length_replicate|simpl; lia|simpl; lia]. Qed.

Lemma put_int_numeral_witness : exists s', put_int (replicate 16 0) 48879 sample_screen = Ok (tt, s') /\ col (term_of s') = 2.
Proof.
  destruct (put_int_numeral (replicate 16 0) 48879 sample_screen) as [(s' & Hrun & _ & Ht) _]; [done|lia|apply sample_screen_ok|].
  exists s'. split; [exact Hrun|]. rewrite Ht. vm_compute. reflexivity.
Defined.
