(* ===== verification/Irq.v ===== *)
(** * Irq: the interrupt controller, the vector table and the descriptor tables at start-up

    What kernel/interrupt.c, device/timer.c and userprog/tss.c program before the first
    interrupt comes: the gates of the IDT, the table of handlers behind them, the two 8259
    controllers, counter 0 of the 8253 and the task state segment.  The bytes written to
    ports are the list [ports] of Screen's state, the newest first; what the controllers
    make of them is read off that list by their documented programming sequence. *)

From Stdlib Require Import Ascii String.
From S2P Require Import Prelude Bitmap Interrupt DList Sched Sync Cstring Stdio Screen.
Close Scope string_scope.

#[local] Set Default Proof Using "Type*".

(** ** The code *)

(** A string literal with its NUL. *)
Definition lit (t : string) : list Z := map (fun a => Z.of_N (N_of_ascii a)) (list_ascii_of_string t) ++ [0].

#[local] Arguments lit : simpl never.

(** The functions in [idt_table]: [general_intr_handler], [intr_timer_handler],
    [intr_keyboard_handler] and [intr_hd_handler]. *)
Inductive intr_handler : Type :=
| h_none | h_general | h_timer | h_keyboard | h_disk.
#[export] Instance intr_handler_eq_dec : EqDecision intr_handler.
Proof. solve_decision. Defined.

(** The static data of interrupt.c and tss.c, the GDT and the descriptor registers. *)
Record machine : Type := Machine {
  m_screen : screen;
  idt : list gate_desc;
  idt_table : list intr_handler;
  intr_name : list (list Z);
  gdt : list gdt_desc;
  tss : list Z;
  idtr : Z;
  gdtr : Z;
  tr : Z
}.
Definition set_m_screen (v : screen) (m : machine) : machine :=
  Machine v (idt m) (idt_table m) (intr_name m) (gdt m) (tss m) (idtr m) (gdtr m) (tr m).
Definition set_idt (v : list gate_desc) (m : machine) : machine :=
  Machine (m_screen m) v (idt_table m) (intr_name m) (gdt m) (tss m) (idtr m) (gdtr m) (tr m).
Definition set_idt_table (v : list intr_handler) (m : machine) : machine :=
  Machine (m_screen m) (idt m) v (intr_name m) (gdt m) (tss m) (idtr m) (gdtr m) (tr m).
Definition set_intr_name (v : list (list Z)) (m : machine) : machine :=
  Machine (m_screen m) (idt m) (idt_table m) v (gdt m) (tss m) (idtr m) (gdtr m) (tr m).
Definition set_gdt (v : list gdt_desc) (m : machine) : machine :=
  Machine (m_screen m) (idt m) (idt_table m) (intr_name m) v (tss m) (idtr m) (gdtr m) (tr m).
Definition set_tss (v : list Z) (m : machine) : machine :=
  Machine (m_screen m) (idt m) (idt_table m) (intr_name m) (gdt m) v (idtr m) (gdtr m) (tr m).
Definition set_idtr (v : Z) (m : machine) : machine :=
  Machine (m_screen m) (idt m) (idt_table m) (intr_name m) (gdt m) (tss m) v (gdtr m) (tr m).
Definition set_gdtr (v : Z) (m : machine) : machine :=
  Machine (m_screen m) (idt m) (idt_table m) (intr_name m) (gdt m) (tss m) (idtr m) v (tr m).
Definition set_tr (v : Z) (m : machine) : machine :=
  Machine (m_screen m) (idt m) (idt_table m) (intr_name m) (gdt m) (tss m) (idtr m) (gdtr m) v.

Notation MM := (KM machine).

Definition screen_op {A} (f : KM screen A) : MM A := fun m =>
  match f (m_screen m) with Ok (a, v) => Ok (a, set_m_screen v m) | Err e => Err e end.
Definition put (t : string) : MM unit := screen_op (put_str (lit t)).
Definition newline : string := String "010" "".
Definition line (t : string) : MM unit := put (t ++ newline)%string.
Definition out (port value : Z) : MM unit := screen_op (outb port value).

Definition PIC_M_CTRL : Z := 0x20.
Definition PIC_M_DATA : Z := 0x21.
Definition PIC_S_CTRL : Z := 0xa0.
Definition PIC_S_DATA : Z := 0xa1.

Definition pic_init : MM unit :=
  out PIC_M_CTRL 0x11 ;;;
  out PIC_M_DATA 0x20 ;;;
  out PIC_M_DATA 0x04 ;;;
  out PIC_M_DATA 0x01 ;;;
  out PIC_S_CTRL 0x11 ;;;
  out PIC_S_DATA 0x28 ;;;
  out PIC_S_DATA 0x02 ;;;
  out PIC_S_DATA 0x01 ;;;
  out PIC_M_DATA 0xf8 ;;;
  out PIC_S_DATA 0xbf ;;;
  line "   pic_init done".

(** The message and the address of a page fault; the value returned tells whether the
    interrupted code goes on, [false] is the endless loop at the end.  [cr2] is the
    register, [arr] what the array of [put_int] held. *)
Definition general_intr_handler (cr2 : Z) (arr : list Z) (vec_nr : Z) : MM bool :=
  if (vec_nr =? 0x27) || (vec_nr =? 0x2f) then kret true
  else
    line "!!!!!   excetion message begin   !!!!!" ;;;
    put "        " ;;;
    names <- kreads intr_name ;;
    name <- klift (rd names vec_nr) ;;
    screen_op (put_str name) ;;;
    (if vec_nr =? 14 then
       put (newline ++ "page fault addr is ")%string ;;;
       screen_op (put_int arr cr2)
     else kret tt) ;;;
    line (newline ++ "!!!!!   excetion message end    !!!!!")%string ;;;
    kret false.

Fixpoint default_handlers (n : nat) (i : Z) : MM unit :=
  match n with
  | O => kret tt
  | S n =>
      m <- kget ;;
      t <- klift (wr (idt_table m) i h_general) ;;
      kmod (set_idt_table t) ;;;
      names <- klift (wr (intr_name m) i (lit "unknow")) ;;
      kmod (set_intr_name names) ;;;
      default_handlers n (i + 1)
  end.

Definition exception_names : list (Z * string) :=
  [(0, "#DE Divide Error"); (1, "#DB Debug Exception"); (2, "NMI Interrupt"); (3, "#BP Breakpoint Exception");
   (4, "#OF Overflow Exception"); (5, "#BR BOUND Range Exceeded Exception"); (6, "#UD Invalid Opcode Exception");
   (7, "#NM Device Not Available Exception"); (8, "#DF Double Fault Exception"); (9, "Coprocessor Segment Overrun");
   (10, "#TS Invalid TSS Exception"); (11, "#NP Segment Not Present"); (12, "#SS Stack Fault Exception");
   (13, "#GP General Protection Exception"); (14, "#PF Page-Fault Exception"); (16, "#MF x87 FPU Floating-Point Error");
   (17, "#AC Alignment Check Exception"); (18, "#MC Machine-Check Exception"); (19, "#XF SIMD Floating-Point Exception")]%string.

Fixpoint name_exceptions (l : list (Z * string)) : MM unit :=
  match l with
  | [] => kret tt
  | (i, t) :: l =>
      names <- kreads intr_name ;;
      names <- klift (wr names i (lit t)) ;;
      kmod (set_intr_name names) ;;;
      name_exceptions l
  end.

Definition exception_init : MM unit :=
  default_handlers (Z.to_nat IDT_DESC_CNT) 0 ;;;
  name_exceptions exception_names.

(** The words at [intr_entry_table] and the entry of the system call (kernel.asm), and the
    addresses of the tables. *)
Record image : Type := Image { entry_table : list Z; syscall_handler : Z; idt_addr : Z; tss_addr : Z }.

Definition sizeof_idt : Z := 8 * IDT_DESC_CNT.

Definition idt_init (im : image) : MM unit :=
  line "idt_init start" ;;;
  g <- kreads idt ;;
  g <- klift (idt_desc_init (entry_table im) (syscall_handler im) g) ;;
  kmod (set_idt g) ;;;
  line "   idt_desc_init done" ;;;
  exception_init ;;;
  pic_init ;;;
  kmod (set_idtr 0) ;;;
  let idt_operand := Z.lor (sizeof_idt - 1) (Z.shiftl (u32 (idt_addr im)) 16) in
  kmod (set_idtr idt_operand) ;;;
  line "idt_init done".

Definition register_handler (vector_no : Z) (function : intr_handler) : MM unit :=
  t <- kreads idt_table ;;
  t <- klift (wr t (u8 vector_no) function) ;;
  kmod (set_idt_table t).

(** *** The timer chip *)

Definition IRQ0_FREQUENCY : Z := 100.
Definition INPUT_FREQUENCY : Z := 1193180.
Definition COUNTER0_VALUE : Z := INPUT_FREQUENCY / IRQ0_FREQUENCY.
Definition COUNTER0_PORT : Z := 0x40.
Definition COUNTER0_NO : Z := 0.
Definition COUNTER_MODE : Z := 2.
Definition READ_WRITE_LATCH : Z := 3.
Definition PIT_CONTROL_PORT : Z := 0x43.

Definition frequency_set (counter_port counter_on rwl counter_mode counter_value : Z) : MM unit :=
  let pit := u8 (Z.lor (Z.lor (Z.shiftl counter_on 6) (Z.shiftl rwl 4)) (Z.shiftl counter_mode 1)) in
  out PIT_CONTROL_PORT pit ;;;
  out counter_port (u8 counter_value) ;;;
  out counter_port (Z.shiftr (u8 counter_value) 8).

Definition timer_init : MM unit :=
  line "time_init start" ;;;
  frequency_set COUNTER0_PORT COUNTER0_NO READ_WRITE_LATCH COUNTER_MODE (u16 COUNTER0_VALUE) ;;;
  register_handler 0x20 h_timer ;;;
  line "timer_init done".

(** *** The task state segment *)

(** The words of [struct tss] that are set; the segment has [tss_size] bytes. *)
Definition off_ss0 : Z := 2.
Definition off_io_base : Z := 26.

Definition tss_init (im : image) : MM unit :=
  line "tss_init start" ;;;
  kmod (set_tss (replicate (Z.to_nat (tss_size / 4)) 0)) ;;;
  t <- kreads tss ;;
  t <- klift (wr t off_ss0 SELECTOR_K_STACK) ;;
  t <- klift (wr t off_io_base tss_size) ;;
  kmod (set_tss t) ;;;
  g <- kreads gdt ;;
  g <- klift (gdt_entries (tss_addr im) g) ;;
  kmod (set_gdt g) ;;;
  let gdt_operand := Z.lor (7 * 8 - 1) (Z.shiftl (u32 0xc0000900) 16) in
  kmod (set_gdtr gdt_operand) ;;;
  kmod (set_tr SELECTOR_TSS) ;;;
  line "tss_init and ltr done".

(** ** What the controllers make of the bytes *)

(** A write to a port of the 8259s or of the 8253. *)
Definition device_port (w : Z * Z) : bool :=
  existsb (Z.eqb w.1) [PIC_M_CTRL; PIC_M_DATA; PIC_S_CTRL; PIC_S_DATA; COUNTER0_PORT; PIT_CONTROL_PORT].

(** The writes to these devices in a list of writes, the oldest first. *)
Definition device_log (l : list (Z * Z)) : list (Z * Z) := rev (List.filter device_port l).

(** An 8259: the word it expects next at its data port (2 to 4 are initialisation command
    words, 0 the mask), the first word, the base vector, the wiring of master and slave,
    and the mask. *)
Record pic : Type := Pic { expects : Z; icw1 : Z; vector_base : Z; wiring : Z; imr : Z }.

Definition pic_write (ctrl data : Z) (p : pic) (w : Z * Z) : pic :=
  let v := w.2 in
  if w.1 =? ctrl then (if Z.testbit v 4 then Pic 2 v (vector_base p) (wiring p) 0 else p)
  else if w.1 =? data then
    if expects p =? 2 then
      Pic (if Z.testbit (icw1 p) 1 then (if Z.testbit (icw1 p) 0 then 4 else 0) else 3) (icw1 p) (Z.land v 0xf8) (wiring p) (imr p)
    else if expects p =? 3 then Pic (if Z.testbit (icw1 p) 0 then 4 else 0) (icw1 p) (vector_base p) v (imr p)
    else if expects p =? 4 then Pic 0 (icw1 p) (vector_base p) (wiring p) (imr p)
    else Pic 0 (icw1 p) (vector_base p) (wiring p) v
  else p.

Definition pic_after (ctrl data : Z) (log : list (Z * Z)) (p : pic) : pic := fold_left (pic_write ctrl data) log p.

(** The vector the processor gets when line [irq] of the pair [m], [s] is raised, if any:
    the line must not be masked, and a line of the slave comes through the master's line
    the slave is wired to. *)
Definition irq_vector (m s : pic) (irq : Z) : option Z :=
  if negb ((expects m =? 0) && (expects s =? 0)) then None
  else if irq <? 8 then
    if Z.testbit (imr m) irq || Z.testbit (wiring m) irq then None else Some (vector_base m + irq)
  else
    if Z.testbit (imr s) (irq - 8) || Z.testbit (imr m) (wiring s) || negb (Z.testbit (wiring m) (wiring s)) then None
    else Some (vector_base s + (irq - 8)).

(** Counter 0 of an 8253: the low byte it has got, and its divisor; 0 stands for 65536. *)
Record pit : Type := Pit { low_byte : option Z; divisor : Z }.

Definition pit_write (p : pit) (w : Z * Z) : pit :=
  if w.1 =? PIT_CONTROL_PORT then (if Z.land w.2 0xf0 =? 0x30 then Pit None (divisor p) else p)
  else if w.1 =? COUNTER0_PORT then
    match low_byte p with
    | None => Pit (Some w.2) (divisor p)
    | Some l => Pit None (let v := l + 256 * w.2 in if v =? 0 then 65536 else v)
    end
  else p.
Definition pit_after (log : list (Z * Z)) (p : pit) : pit := fold_left pit_write log p.

(** ** Printing does not touch the devices *)

Definition quiet {A} (f : KM screen A) : Prop := forall s a s',
  f s = Ok (a, s') -> List.filter device_port (ports s') = List.filter device_port (ports s).

Lemma quiet_ret {A} (a : A) : quiet (kret a).
Proof. by intros s b s' [= _ <-]. Qed.
Lemma quiet_fail {A} e : quiet (@kfail screen A e).
Proof. by intros s b s'. Qed.
Lemma quiet_bind {A B} (f : KM screen A) (k : A -> KM screen B) : quiet f -> (forall a, quiet (k a)) -> quiet (kbind f k).
Proof.
  intros Hf Hk s b s' H. apply kbind_inv in H as (a & s1 & H1 & H2). rewrite (Hk _ _ _ _ H2). by eapply Hf.
Qed.
Lemma quiet_reads {A} (g : screen -> A) : quiet (kreads g).
Proof. by intros s b s' [= _ <-]. Qed.
Lemma quiet_lift {A} (o : outcome A) : quiet (klift o).
Proof. intros s b s'. unfold klift. destruct o; [|done]. by intros [= _ <-]. Qed.
Lemma quiet_mod (g : screen -> screen) : (forall s, ports (g s) = ports s) -> quiet (kmod g).
Proof. intros Hg s b s' [= _ <-]. by rewrite Hg. Qed.
Lemma quiet_outb p v : device_port (p, u8 v) = false -> quiet (outb p v).
Proof. intros Hp s b s' [= _ <-]. cbn [ports set_ports List.filter]. by rewrite Hp. Qed.

Create HintDb quiet.
#[export] Hint Resolve quiet_ret quiet_fail quiet_reads quiet_lift : quiet.
#[export] Hint Extern 1 (quiet (kmod _)) => apply quiet_mod; by intros [] : quiet.
#[export] Hint Extern 1 (quiet (kbind _ _)) => apply quiet_bind; [|intros ?] : quiet.
#[export] Hint Extern 1 (quiet (if ?b then _ else _)) => destruct b : quiet.
#[export] Hint Extern 1 (quiet (outb _ _)) => apply quiet_outb; reflexivity : quiet.
#[export] Hint Extern 1 (quiet (put_cell _ _)) => unfold put_cell : quiet.
#[export] Hint Extern 1 (quiet set_cursor) => unfold set_cursor : quiet.
#[export] Hint Extern 1 (quiet scroll) => unfold scroll : quiet.
#[export] Hint Extern 1 (quiet (put_char_color _ _ _)) => unfold put_char_color; cbv zeta : quiet.

Lemma quiet_blank n i : quiet (blank_loop n i).
Proof. revert i. induction n; intros i; cbn [blank_loop]; auto 20 with quiet. Qed.
Lemma quiet_move n i : quiet (move_up_loop n i).
Proof. revert i. induction n; intros i; cbn [move_up_loop]; auto 20 with quiet. Qed.
#[export] Hint Resolve quiet_blank quiet_move : quiet.

Lemma quiet_char c back fore : quiet (put_char_color c back fore).
Proof. auto 40 with quiet. Qed.
Lemma quiet_loop n t p back fore : quiet (put_loop n t p back fore).
Proof. revert p. pose proof quiet_char. induction n; intros p; cbn [put_loop]; auto 20 with quiet. Qed.

(** ** Runs *)

Definition good (t : string) : bool :=
  forallb (fun a => (0 <? Z.of_N (N_of_ascii a)) && (Z.of_N (N_of_ascii a) <? 256)) (list_ascii_of_string t).

Lemma lit_str t : good t = true -> exists u, str_at (lit t) 0 u.
Proof.
  intros H. exists (map (fun a => Z.of_N (N_of_ascii a)) (list_ascii_of_string t)). split; [lia|]. split.
  - unfold good in H. rewrite forallb_forall in H. apply List.Forall_forall. intros c Hc.
    apply in_map_iff in Hc as (a & <- & Ha%H). lia.
  - by exists [].
Qed.

(** [f] returns [a], leaves the screen in order and writes [log] to the devices. *)
Definition does {A} (f : MM A) (a : A) (log : list (Z * Z)) : Prop := forall m, screen_ok (m_screen m) ->
  exists v, f m = Ok (a, set_m_screen v m) /\ screen_ok v /\
    device_log (ports v) = device_log (ports (m_screen m)) ++ log.

Lemma does_bind {A B} (f : MM A) (k : A -> MM B) a b l1 l2 :
  does f a l1 -> does (k a) b l2 -> does (kbind f k) b (l1 ++ l2).
Proof.
  intros Hf Hk m Hm. destruct (Hf m Hm) as (v1 & H1 & Hv1 & L1).
  destruct (Hk (set_m_screen v1 m) Hv1) as (v2 & H2 & Hv2 & L2). exists v2.
  rewrite (kbind_ok _ _ _ _ _ H1), H2. split; [done|]. split; [done|]. rewrite L2. cbn. by rewrite L1, app_assoc.
Qed.

Lemma does_str m0 u : str_at m0 0 u -> does (screen_op (put_str m0)) tt [].
Proof.
  intros Hu m Hm. destruct (put_loop_run (S (length m0)) m0 0 u rc_black rc_white (m_screen m) Hu) as (v & Hv & (Hok & _) & _);
    [by apply str_fuel in Hu|done|done|done|].
  exists v. unfold screen_op, put_str. rewrite Hv. split; [done|]. split; [done|].
  unfold device_log. by rewrite (quiet_loop _ _ _ _ _ _ _ _ Hv), app_nil_r.
Qed.

Lemma does_put t : good t = true -> does (put t) tt [].
Proof. intros [u Hu]%lit_str. by eapply does_str. Qed.

Lemma does_out p v : device_port (p, u8 v) = true -> does (out p v) tt [(p, u8 v)].
Proof.
  intros Hp m Hm. eexists. split; [reflexivity|]. split; [by destruct Hm|].
  unfold device_log. cbn [ports set_ports List.filter]. by rewrite Hp.
Qed.

Ltac does_all :=
  repeat lazymatch goal with
    | |- does (kbind _ _) _ _ => eapply does_bind; [|cbv beta]
    | |- does (out _ _) _ _ => apply does_out; reflexivity
    | |- does (line _) _ _ => apply does_put; reflexivity
    end.

Definition pic_words : list (Z * Z) :=
  [(PIC_M_CTRL, 0x11); (PIC_M_DATA, 0x20); (PIC_M_DATA, 4); (PIC_M_DATA, 1);
   (PIC_S_CTRL, 0x11); (PIC_S_DATA, 0x28); (PIC_S_DATA, 2); (PIC_S_DATA, 1);
   (PIC_M_DATA, 0xf8); (PIC_S_DATA, 0xbf)].

Lemma pic_init_run : does pic_init tt pic_words.
Proof.
  assert (H : exists l, does pic_init tt l /\ l = pic_words) by (eexists; split; [unfold pic_init; does_all|reflexivity]).
  by destruct H as (l & H & <-).
Qed.

Definition pit_words : list (Z * Z) := [(PIT_CONTROL_PORT, 0x34); (COUNTER0_PORT, 0x9b); (COUNTER0_PORT, 0)].

Lemma frequency_run : does (frequency_set COUNTER0_PORT COUNTER0_NO READ_WRITE_LATCH COUNTER_MODE (u16 COUNTER0_VALUE)) tt pit_words.
Proof.
  assert (H : exists l, does (frequency_set COUNTER0_PORT COUNTER0_NO READ_WRITE_LATCH COUNTER_MODE (u16 COUNTER0_VALUE)) tt l /\ l = pit_words)
    by (eexists; split; [unfold frequency_set; does_all|reflexivity]).
  by destruct H as (l & H & <-).
Qed.

(** The loop fills both tables. *)
Lemma default_handlers_run n i m :
  0 <= i -> i + Z.of_nat n <= Z.of_nat (length (idt_table m)) -> i + Z.of_nat n <= Z.of_nat (length (intr_name m)) ->
  exists t names, default_handlers n i m = Ok (tt, set_intr_name names (set_idt_table t m)) /\
    length t = length (idt_table m) /\ length names = length (intr_name m) /\
    (forall j, t !! j = if decide (i <= Z.of_nat j < i + Z.of_nat n) then Some h_general else idt_table m !! j) /\
    (forall j, names !! j = if decide (i <= Z.of_nat j < i + Z.of_nat n) then Some (lit "unknow") else intr_name m !! j).
Proof.
  revert i m. induction n as [|n IH]; intros i m Hi Ht Hn; cbn [default_handlers].
  { exists (idt_table m), (intr_name m). split; [by destruct m|]. do 2 (split; [done|]).
    split; intros j; rewrite decide_False; done || lia. }
  set (m1 := set_intr_name (<[Z.to_nat i := lit "unknow"]> (intr_name m)) (set_idt_table (<[Z.to_nat i := h_general]> (idt_table m)) m)).
  destruct (IH (i + 1) m1) as (t & names & H & L1 & L2 & H1 & H2); [lia|cbn; rewrite length_insert; lia..|].
  exists t, names.
  change (idt_table m1) with (<[Z.to_nat i := h_general]> (idt_table m)) in *.
  change (intr_name m1) with (<[Z.to_nat i := lit "unknow"]> (intr_name m)) in *. rewrite length_insert in L1. rewrite length_insert in L2. split; [|split; [done|split; [done|]]].
  - rewrite (kbind_ok _ _ m m m) by done.
    rewrite (kbind_ok _ _ m (<[Z.to_nat i := h_general]> (idt_table m)) m) by (unfold klift; by rewrite wr_Ok by lia).
    set (m2 := set_idt_table (<[Z.to_nat i := h_general]> (idt_table m)) m).
    rewrite (kbind_ok _ _ m tt m2) by done.
    rewrite (kbind_ok _ _ m2 (<[Z.to_nat i := lit "unknow"]> (intr_name m)) m2) by (unfold klift; by rewrite wr_Ok by lia).
    rewrite (kbind_ok _ _ m2 tt m1) by done. rewrite H. by destruct m.
  - assert (Hj : forall {A} (x : A) (l : list A) j, i < Z.of_nat (length l) ->
      (if decide (i + 1 <= Z.of_nat j < i + 1 + Z.of_nat n) then Some x else <[Z.to_nat i := x]> l !! j) =
      (if decide (i <= Z.of_nat j < i + Z.of_nat (S n)) then Some x else l !! j)).
    { intros A x l j Hl. destruct (decide (Z.of_nat j = i)) as [<-|Hne].
      - rewrite decide_False, decide_True, Nat2Z.id by lia. apply list_lookup_insert_eq. lia.
      - rewrite list_lookup_insert_ne by lia. repeat case_decide; done || lia. }
    split; intros j; [rewrite H1|rewrite H2]; apply Hj; lia.
Qed.

Definition handler_names : list (list Z) :=
  fold_left (fun l e => <[Z.to_nat e.1 := lit e.2]> l) exception_names (replicate 129 (lit "unknow")).

Lemma full_table {A} (l : list A) n x : length l = n ->
  (forall j, l !! j = if decide (0 <= Z.of_nat j < 0 + Z.of_nat n) then Some x else None) -> l = replicate n x.
Proof.
  intros Hl H. apply list_eq. intros j. rewrite H. destruct (decide (j < n)%nat).
  - rewrite decide_True by lia. symmetry. by apply lookup_replicate_2.
  - rewrite decide_False by lia. symmetry. apply lookup_replicate_None. lia.
Qed.

Lemma exception_init_run m : length (idt_table m) = 129%nat -> length (intr_name m) = 129%nat ->
  exception_init m = Ok (tt, set_intr_name handler_names (set_idt_table (replicate 129 h_general) m)).
Proof.
  intros Ht Hn. unfold exception_init. change (Z.to_nat IDT_DESC_CNT) with 129%nat.
  destruct (default_handlers_run 129 0 m) as (t & names & H & L1 & L2 & H1 & H2); [lia|lia|lia|].
  assert (t = replicate 129 h_general) as ->.
  { apply full_table; [lia|]. intros j. rewrite H1. case_decide; [done|]. apply lookup_ge_None. lia. }
  assert (names = replicate 129 (lit "unknow")) as ->.
  { apply full_table; [lia|]. intros j. rewrite H2. case_decide; [done|]. apply lookup_ge_None. lia. }
  rewrite (kbind_ok _ _ _ _ _ H). destruct m. vm_compute. reflexivity.
Qed.

(** ** Start-up *)

(** The tables have the sizes they are declared with, the entry points are addresses. *)
Record tables_ok (im : image) (m : machine) : Prop := {
  tb_screen : screen_ok (m_screen m);
  tb_idt : Z.of_nat (length (idt m)) = IDT_DESC_CNT;
  tb_table : Z.of_nat (length (idt_table m)) = IDT_DESC_CNT;
  tb_names : Z.of_nat (length (intr_name m)) = IDT_DESC_CNT;
  tb_entries : Z.of_nat (length (entry_table im)) = IDT_DESC_CNT /\ Forall (fun f => 0 <= f < 2 ^ 32) (entry_table im);
  tb_handler : 0 <= syscall_handler im < 2 ^ 32
}.

(** The gates of [g] lead to the entry points, only 0x80 can be called from ring 3. *)
Definition gates_ok (im : image) (g : list gate_desc) : Prop :=
  forall i, 0 <= i < IDT_DESC_CNT -> exists d, rd g i = Ok d /\ gate_present d = true /\
    (if decide (i = 128) then gate_offset d = syscall_handler im /\ gate_dpl d = 3
     else rd (entry_table im) i = Ok (gate_offset d) /\ gate_dpl d = 0).

Definition idt_operand (im : image) : Z := Z.lor (sizeof_idt - 1) (Z.shiftl (u32 (idt_addr im)) 16).

Lemma set_screen_tables v m : idt (set_m_screen v m) = idt m /\ idt_table (set_m_screen v m) = idt_table m /\
  intr_name (set_m_screen v m) = intr_name m.
Proof. done. Qed.

Lemma idt_init_run im m : tables_ok im m ->
  exists v g, idt_init im m = Ok (tt, set_idtr (idt_operand im)
      (set_intr_name handler_names (set_idt_table (replicate 129 h_general) (set_idt g (set_m_screen v m))))) /\
    screen_ok v /\ device_log (ports v) = device_log (ports (m_screen m)) ++ pic_words /\ gates_ok im g.
Proof.
  intros [Hs Hi Ht Hn [He Hef] Hh]. unfold IDT_DESC_CNT in *.
  destruct (does_put ("idt_init start" ++ newline)%string eq_refl m Hs) as (v1 & R1 & S1 & L1). rewrite app_nil_r in L1.
  destruct (idt_desc_init_spec (entry_table im) (syscall_handler im) (idt m)) as (g & Hg & _ & Hgs); try done.
  destruct (does_put ("   idt_desc_init done" ++ newline)%string eq_refl (set_idt g (set_m_screen v1 m)) S1) as (v2 & R2 & S2 & L2).
  set (m2 := set_m_screen v2 (set_idt g (set_m_screen v1 m))) in *. rewrite app_nil_r in L2.
  set (m3 := set_intr_name handler_names (set_idt_table (replicate 129 h_general) m2)).
  destruct (pic_init_run m3 S2) as (v4 & R4 & S4 & L4).
  set (m4 := set_idtr (idt_operand im) (set_idtr 0 (set_m_screen v4 m3))).
  destruct (does_put ("idt_init done" ++ newline)%string eq_refl m4 S4) as (v5 & R5 & S5 & L5). rewrite app_nil_r in L5.
  exists v5, g. split; [|split; [exact S5|split; [|exact Hgs]]].
  - unfold idt_init, line. rewrite (kbind_ok _ _ _ _ _ R1).
    rewrite (kbind_ok _ _ (set_m_screen v1 m) (idt m) (set_m_screen v1 m)) by done.
    rewrite (kbind_ok _ _ (set_m_screen v1 m) g (set_m_screen v1 m)) by (unfold klift; by rewrite Hg).
    rewrite (kbind_ok _ _ (set_m_screen v1 m) tt (set_idt g (set_m_screen v1 m))) by done.
    rewrite (kbind_ok _ _ _ _ _ R2).
    rewrite (kbind_ok _ _ m2 tt m3) by (apply exception_init_run; cbn; lia).
    rewrite (kbind_ok _ _ _ _ _ R4).
    rewrite (kbind_ok _ _ (set_m_screen v4 m3) tt (set_idtr 0 (set_m_screen v4 m3))) by done. cbv zeta.
    rewrite (kbind_ok _ _ (set_idtr 0 (set_m_screen v4 m3)) tt m4) by done. rewrite R5. by destruct m.
  - rewrite L5. change (device_log (ports (m_screen m4))) with (device_log (ports v4)). rewrite L4.
    change (device_log (ports (m_screen m3))) with (device_log (ports v2)). by rewrite L2; cbn; rewrite L1.
Qed.

Lemma register_handler_run vec h m : 0 <= vec < 256 -> vec < Z.of_nat (length (idt_table m)) ->
  register_handler vec h m = Ok (tt, set_idt_table (<[Z.to_nat vec := h]> (idt_table m)) m).
Proof.
  intros Hv Hl. unfold register_handler. rewrite (kbind_ok _ _ m (idt_table m) m) by done.
  rewrite u8_small by lia. rewrite (kbind_ok _ _ m (<[Z.to_nat vec := h]> (idt_table m)) m); [done|].
  unfold klift. by rewrite wr_Ok by lia.
Qed.

Lemma timer_init_run m : screen_ok (m_screen m) -> 0x20 < Z.of_nat (length (idt_table m)) ->
  exists v, timer_init m = Ok (tt, set_m_screen v (set_idt_table (<[32%nat := h_timer]> (idt_table m)) m)) /\
    screen_ok v /\ device_log (ports v) = device_log (ports (m_screen m)) ++ pit_words.
Proof.
  intros Hs Hl. destruct (does_put ("time_init start" ++ newline)%string eq_refl m Hs) as (v1 & R1 & S1 & L1).
  destruct (frequency_run (set_m_screen v1 m) S1) as (v2 & R2 & S2 & L2).
  set (m2 := set_m_screen v2 (set_m_screen v1 m)) in *.
  set (m3 := set_idt_table (<[32%nat := h_timer]> (idt_table m)) m2).
  destruct (does_put ("timer_init done" ++ newline)%string eq_refl m3 S2) as (v3 & R3 & S3 & L3).
  exists v3. split; [|split; [done|]].
  - unfold timer_init, line. rewrite (kbind_ok _ _ _ _ _ R1), (kbind_ok _ _ _ _ _ R2).
    rewrite (kbind_ok _ _ m2 tt m3) by (apply (register_handler_run 0x20 h_timer m2); [lia|exact Hl]).
    rewrite R3. by destruct m.
  - rewrite L3, app_nil_r. change (device_log (ports (m_screen m3))) with (device_log (ports v2)). rewrite L2.
    change (device_log (ports (m_screen (set_m_screen v1 m)))) with (device_log (ports v1)). by rewrite L1, app_nil_r.
Qed.

(** The lines that are let through, and their handlers. *)
Definition device_lines : list (Z * intr_handler) := [(0, h_timer); (1, h_keyboard); (14, h_disk)].

(** The vector of a line of the two controllers after the writes [log], whatever they were
    programmed to before. *)
Definition line_vector (log : list (Z * Z)) (p q : pic) (irq : Z) : option Z :=
  irq_vector (pic_after PIC_M_CTRL PIC_M_DATA log p) (pic_after PIC_S_CTRL PIC_S_DATA log q) irq.

Lemma line_vectors log p q irq : 0 <= irq < 16 ->
  line_vector ((log ++ pic_words) ++ pit_words) p q irq =
  if decide (irq ∈ device_lines.*1) then Some (0x20 + irq) else None.
Proof.
  unfold line_vector, pic_after. rewrite !fold_left_app.
  generalize (fold_left (pic_write PIC_M_CTRL PIC_M_DATA) log p) as p1.
  generalize (fold_left (pic_write PIC_S_CTRL PIC_S_DATA) log q) as q1. intros q1 p1.
  change (fold_left (pic_write PIC_M_CTRL PIC_M_DATA) pit_words (fold_left (pic_write PIC_M_CTRL PIC_M_DATA) pic_words p1))
    with (Pic 0 0x11 0x20 4 0xf8).
  change (fold_left (pic_write PIC_S_CTRL PIC_S_DATA) pit_words (fold_left (pic_write PIC_S_CTRL PIC_S_DATA) pic_words q1))
    with (Pic 0 0x11 0x28 2 0xbf).
  intros Hi. revert irq Hi. apply (below_forall 16 (fun irq => irq_vector (Pic 0 0x11 0x20 4 0xf8) (Pic 0 0x11 0x28 2 0xbf) irq =
    if decide (irq ∈ device_lines.*1) then Some (0x20 + irq) else None)).
  repeat constructor.
Qed.


(** The frequency of the timer.  [timer_init] programs counter 0 of the 8253 to divide by
    155, not by [COUNTER0_VALUE]: the high byte is always 0.  The clock ticks 7697 times a
    second, the constant says 100. *)
Theorem timer_divisor m p : screen_ok (m_screen m) -> 0x20 < Z.of_nat (length (idt_table m)) ->
  exists m', timer_init m = Ok (tt, m') /\
    divisor (pit_after (device_log (ports (m_screen m'))) p) = 155 /\
    INPUT_FREQUENCY / 155 = 7697 /\ INPUT_FREQUENCY / COUNTER0_VALUE = IRQ0_FREQUENCY.
Proof.
  intros Hs Hl. destruct (timer_init_run m Hs Hl) as (v & R & _ & L). eexists. split; [exact R|]. split; [|done].
  cbn [m_screen set_m_screen]. rewrite L. unfold pit_after. rewrite fold_left_app.
  generalize (fold_left pit_write (device_log (ports (m_screen m))) p). intros [l d]. reflexivity.
Qed.

(** *** The segments *)

(** The descriptor a selector names. *)
Definition selected (g : list gdt_desc) (selector : Z) : outcome gdt_desc := rd g (Z.shiftr selector 3).

(** [tss_init] leaves the task register on a descriptor of the TSS, which has the kernel's
    stack segment and no I/O bitmap; the user selectors name flat segments of ring 3, and
    the limit of the GDT covers the seven descriptors. *)
Theorem tss_init_spec im m :
  screen_ok (m_screen m) -> 0 <= tss_addr im < 2 ^ 32 -> 7 <= Z.of_nat (length (gdt m)) ->
  exists m' d4 d5 d6, tss_init im m = Ok (tt, m') /\
    selected (gdt m') (tr m') = Ok d4 /\ selected (gdt m') SELECTOR_U_CODE = Ok d5 /\ selected (gdt m') SELECTOR_U_DATA = Ok d6 /\
    (desc_base d4 = tss_addr im /\ desc_limit d4 = tss_size - 1 /\ desc_dpl d4 = 0) /\
    (desc_base d5 = 0 /\ desc_limit d5 = 0xfffff /\ desc_dpl d5 = 3) /\
    (desc_base d6 = 0 /\ desc_limit d6 = 0xfffff /\ desc_dpl d6 = 3) /\
    (forall i, i < 4 \/ 6 < i -> rd (gdt m') i = rd (gdt m) i) /\
    gdtr m' = 7 * 8 - 1 + Z.shiftl 0xc0000900 16 /\
    rd (tss m') off_ss0 = Ok SELECTOR_K_STACK /\ rd (tss m') off_io_base = Ok tss_size.
Proof.
  intros Hs Ha Hl. destruct (does_put ("tss_init start" ++ newline)%string eq_refl m Hs) as (v1 & R1 & S1 & _).
  destruct (gdt_entries_spec (tss_addr im) (gdt m) Ha Hl) as (g & d4 & d5 & d6 & Hg & H4 & H5 & H6 & D4 & D5 & D6 & Ho).
  set (t := <[26%nat := tss_size]> (<[2%nat := SELECTOR_K_STACK]> (replicate 27 0))).
  set (m2 := set_tr SELECTOR_TSS (set_gdtr (Z.lor (7 * 8 - 1) (Z.shiftl (u32 0xc0000900) 16)) (set_gdt g (set_tss t (set_m_screen v1 m))))).
  destruct (does_put ("tss_init and ltr done" ++ newline)%string eq_refl m2 S1) as (v2 & R2 & _ & _).
  exists (set_m_screen v2 m2), d4, d5, d6. split; [|do 3 (split; [assumption|]); split; [exact D4|split; [exact D5|split; [exact D6|split; [exact Ho|by repeat split]]]]].
  unfold tss_init, line. rewrite (kbind_ok _ _ _ _ _ R1).
  set (s1 := set_tss (replicate (Z.to_nat (tss_size / 4)) 0) (set_m_screen v1 m)).
  rewrite (kbind_ok _ _ (set_m_screen v1 m) tt s1) by done.
  rewrite (kbind_ok _ _ s1 (replicate 27 0) s1) by done.
  rewrite (kbind_ok _ _ s1 (<[2%nat := SELECTOR_K_STACK]> (replicate 27 0)) s1) by done.
  rewrite (kbind_ok _ _ s1 t s1) by done.
  set (s2 := set_tss t (set_m_screen v1 m)). rewrite (kbind_ok _ _ s1 tt s2) by done.
  rewrite (kbind_ok _ _ s2 (gdt m) s2) by done.
  rewrite (kbind_ok _ _ s2 g s2) by (unfold klift; by rewrite Hg).
  rewrite (kbind_ok _ _ s2 tt (set_gdt g s2)) by done. cbv zeta.
  rewrite (kbind_ok _ _ (set_gdt g s2) tt (set_gdtr (Z.lor (7 * 8 - 1) (Z.shiftl (u32 0xc0000900) 16)) (set_gdt g s2))) by done.
  match goal with |- kbind _ _ ?s = _ => rewrite (kbind_ok _ _ s tt m2) by done end. exact R2.
Qed.

(** *** An unexpected interrupt *)

(** [f] prints [text] and changes nothing else. *)
Definition prints {A} (f : MM A) (a : A) (text : list Z) : Prop := forall m, screen_ok (m_screen m) ->
  exists v, f m = Ok (a, set_m_screen v m) /\ screen_ok v /\
    term_of v = fold_left (typed rc_black rc_white) text (term_of (m_screen m)).

Lemma prints_bind {A B} (f : MM A) (k : A -> MM B) a b t1 t2 :
  prints f a t1 -> prints (k a) b t2 -> prints (kbind f k) b (t1 ++ t2).
Proof.
  intros Hf Hk m Hm. destruct (Hf m Hm) as (v1 & H1 & S1 & T1).
  destruct (Hk (set_m_screen v1 m) S1) as (v2 & H2 & S2 & T2). exists v2.
  rewrite (kbind_ok _ _ _ _ _ H1), H2. split; [done|]. split; [done|]. rewrite T2, fold_left_app. cbn. by rewrite T1.
Qed.

Lemma prints_str m0 u : str_at m0 0 u -> prints (screen_op (put_str m0)) tt u.
Proof.
  intros Hu m Hm. destruct (put_loop_run (S (length m0)) m0 0 u rc_black rc_white (m_screen m) Hu) as (v & Hv & (Hok & Ht & _) & _);
    [by apply str_fuel in Hu|done|done|done|].
  exists v. unfold screen_op, put_str. by rewrite Hv.
Qed.

(** The characters of a literal. *)
Definition chars (t : string) : list Z := map (fun a => Z.of_N (N_of_ascii a)) (list_ascii_of_string t).

Lemma lit_chars t : good t = true -> str_at (lit t) 0 (chars t).
Proof.
  intros H. split; [lia|]. split; [|by exists []].
  unfold good in H. rewrite forallb_forall in H. apply List.Forall_forall. intros c Hc.
  apply in_map_iff in Hc as (a & <- & Ha%H). lia.
Qed.

Lemma prints_put t : good t = true -> prints (put t) tt (chars t).
Proof. intros H. by apply prints_str, lit_chars. Qed.

Lemma prints_ret {A} (a : A) : prints (kret a) a [].
Proof. intros m Hm. exists (m_screen m). by destruct m. Qed.

Definition exception_message (name : list Z) (vec cr2 : Z) : list Z :=
  chars ("!!!!!   excetion message begin   !!!!!" ++ newline) ++ chars "        " ++ name ++
  (if vec =? 14 then chars (newline ++ "page fault addr is ") ++ numeral 16 cr2 else []) ++
  chars (newline ++ "!!!!!   excetion message end    !!!!!" ++ newline).

(** The general handler ignores the two spurious interrupts; for every other vector it shows
    the name of the exception, for a page fault the address too, and does not return. *)
Theorem general_intr_handler_spec m arr cr2 vec name :
  screen_ok (m_screen m) -> length arr = 16%nat -> 0 <= cr2 < 2 ^ 32 ->
  (exists s, rd (intr_name m) vec = Ok s /\ str_at s 0 name) ->
  if (vec =? 0x27) || (vec =? 0x2f) then general_intr_handler cr2 arr vec m = Ok (true, m)
  else exists v, general_intr_handler cr2 arr vec m = Ok (false, set_m_screen v m) /\
    term_of v = fold_left (typed rc_black rc_white) (exception_message name vec cr2) (term_of (m_screen m)).
Proof.
  intros Hs Ha Hc (str & Hname & Hstr). unfold general_intr_handler. destruct (_ || _); [done|].
  assert (Hnum : prints (screen_op (put_int arr cr2)) tt (numeral 16 cr2)).
  { intros m1 Hm1. destruct (put_int_numeral arr cr2 (m_screen m1) Ha Hc Hm1) as [(v & R & S & T) _].
    exists v. unfold screen_op. by rewrite R. }
  assert (Hfault : prints (if vec =? 14 then put (newline ++ "page fault addr is ")%string ;;; screen_op (put_int arr cr2) else kret tt) tt
    (if vec =? 14 then chars (newline ++ "page fault addr is ") ++ numeral 16 cr2 else [])).
  { destruct (vec =? 14); [|apply prints_ret]. eapply prints_bind; [by apply prints_put|exact Hnum]. }
  destruct (prints_bind _ (fun _ => put "        ") _ _ _ _
    (prints_put ("!!!!!   excetion message begin   !!!!!" ++ newline)%string eq_refl) (prints_put "        " eq_refl) m Hs) as (v1 & R1 & S1 & T1).
  set (m1 := set_m_screen v1 m) in *.
  destruct (prints_bind _ (fun _ => (if vec =? 14 then put (newline ++ "page fault addr is ")%string ;;; screen_op (put_int arr cr2) else kret tt) ;;;
      line (newline ++ "!!!!!   excetion message end    !!!!!")%string ;;; kret false) _ _ _ _
    (prints_str _ _ Hstr) (prints_bind _ _ _ _ _ _ Hfault (prints_bind _ _ _ _ _ _
      (prints_put (newline ++ "!!!!!   excetion message end    !!!!!" ++ newline)%string eq_refl) (prints_ret false))) m1 S1) as (v2 & R2 & _ & T2).
  exists v2. split.
  - apply kbind_inv in R1 as ([] & m0 & R0 & R1). unfold line at 1. rewrite (kbind_ok _ _ _ _ _ R0), (kbind_ok _ _ _ _ _ R1).
    rewrite (kbind_ok _ _ m1 (intr_name m) m1) by done.
    rewrite (kbind_ok _ _ m1 str m1) by (unfold klift; by rewrite Hname). rewrite R2. by destruct m.
  - rewrite T2. cbn [m_screen m1 set_m_screen]. rewrite T1, <- fold_left_app. unfold exception_message.
    by rewrite <- !app_assoc, app_nil_r.
Qed.

(** ** A machine at start *)

Definition start_image : image := Image (replicate 129 0xc0001000) 0xc0001800 0xc0005000 0xc0006000.
Definition start_machine : machine :=
  Machine sample_screen (replicate 129 (GateDesc 0 0 0 0 0)) (replicate 129 h_none) (replicate 129 [])
    (replicate 7 (GdtDesc 0 0 0 0 0 0)) (replicate 27 0) 0 0 0.

Lemma start_tables : tables_ok start_image start_machine.
Proof.
  split; [apply sample_screen_ok|done|done|done| |done]. split; [done|]. apply Forall_replicate. lia.
Qed.


Lemma timer_divisor_witness : exists m', timer_init start_machine = Ok (tt, m') /\
  divisor (pit_after (device_log (ports (m_screen m'))) (Pit None 0)) = 155.
Proof.
  destruct (timer_divisor start_machine (Pit None 0)) as (m' & R & H & _).
  - apply sample_screen_ok.
  - cbn [idt_table start_machine]. rewrite length_replicate. lia.
  - exists m'. split; [exact R|exact H].
Defined.

Lemma tss_init_spec_witness : exists m' d, tss_init start_image start_machine = Ok (tt, m') /\
  selected (gdt m') (tr m') = Ok d /\ desc_base d = 0xc0006000.
Proof.
  destruct (tss_init_spec start_image start_machine) as (m' & d4 & d5 & d6 & R & H4 & _ & _ & (D4 & _) & _).
  - apply sample_screen_ok.
  - cbn. lia.
  - cbn [gdt start_machine]. rewrite length_replicate. lia.
  - exists m', d4. split; [exact R|]. split; [exact H4|exact D4].
Defined.
