(* ===== verification/Timer.v ===== *)
(** * Timer: sleeping (device/timer.c)

    A thread that sleeps gives the processor away until enough ticks have passed.  The chip's
    programming is in Irq, the tick's handler in Sched.  The loop takes fuel: the number of
    times the thread may be switched to before it returns. *)

From S2P Require Import Prelude Bitmap Interrupt DList Sched Sync Irq.

#[local] Set Default Proof Using "Type*".

Definition mil_seconds_per_intr : Z := 1000 / IRQ0_FREQUENCY.

Section sleep.
Context {P : Type} `{!KernelPages P}.
Implicit Types (s x : kst P).

(** [while (ticks - start_ticks < sleep_ticks) thread_yield();] *)
Fixpoint sleep_loop (fuel : nat) (start_ticks sleep_ticks : Z) : CM (kst P) unit :=
  match fuel with
  | O => fun _ => Err Diverges
  | S fuel =>
      ticks <~ atomic (kreads k_jiffies) ;;
      if u32 (ticks - start_ticks) <? sleep_ticks then
        thread_yield ;~;
        sleep_loop fuel start_ticks sleep_ticks
      else cret tt
  end.

Definition tisks_to_sleep (fuel : nat) (sleep_ticks : Z) : CM (kst P) unit :=
  start_ticks <~ atomic (kreads k_jiffies) ;;
  sleep_loop fuel start_ticks sleep_ticks.

Definition mtime_sleep (fuel : nat) (m_seconds : Z) : CM (kst P) unit :=
  let sleep_ticks := DIV_ROUND_UP m_seconds mil_seconds_per_intr in
  atomic (ASSERT (0 <? sleep_ticks)) ;~;
  tisks_to_sleep fuel sleep_ticks.

Definition stime_sleep (fuel : nat) (s_seconds : Z) : CM (kst P) unit :=
  let sleep_ticks := DIV_ROUND_UP (u32 (s_seconds * 1000)) mil_seconds_per_intr in
  atomic (ASSERT (0 <? sleep_ticks)) ;~;
  tisks_to_sleep fuel sleep_ticks.

(** ** A thread that is switched to again and again *)

(** The run [r] goes on in the states [xs], one after the other, each time it was switched
    out. *)
Fixpoint resumed {A} (xs : list (kst P)) (r : outcome (co (kst P) A * kst P)) : outcome (co (kst P) A * kst P) :=
  match xs with
  | [] => r
  | x :: xs => match r with Ok (Suspended k, _) => resumed xs (k x) | _ => r end
  end.

(** The thread [t] is on the processor. *)
Definition on_cpu (t : Z) s : Prop := sched_ok s /\ k_cur s = t.

(** The state with the interrupt status [st]. *)
Definition with_status (st : intr_status) s : kst P := match st with INTR_ON => intr_on s | INTR_OFF => intr_off s end.

Lemma with_status_of st s : intr_of (with_status st s) = st.
Proof.
  destruct st; cbn; [apply intr_off_of|]. unfold intr_on, intr_of. destruct (Z.testbit (eflags s) 9) eqn:E; [by rewrite E|].
  rewrite eflags_set, Z.lor_spec. change (Z.testbit EFLAGS_IF 9) with true. by rewrite orb_true_r.
Qed.

Lemma with_status_eflags st s : exists e, with_status st s = set_k_eflags e s.
Proof.
  destruct st; cbn; [eexists; apply intr_off_fields|]. unfold intr_on. destruct (Z.testbit _ _); [|by eexists].
  exists (k_eflags s). by destruct s.
Qed.

Lemma on_cpu_status t st s : on_cpu t s -> on_cpu t (with_status st s).
Proof. intros [H1 H2]. destruct (with_status_eflags st s) as [e ->]. split; [by apply sched_ok_eflags|done]. Qed.

Lemma yield_run s : sched_ok s ->
  exists s' k, thread_yield s = Ok (Suspended k, s') /\ sched_ok s' /\ forall x, k x = Ok (Return tt, with_status (intr_of s) x).
Proof.
  intros [Hc Hr]. destruct (core_ready _ Hc) as (ts & Hts & _). destruct (core_cur _ Hc) as [p Hp].
  destruct (core_running _ Hc _ Hr) as [_ Hu].
  assert (Hpr : t_status p = TASK_RUNNING) by (unfold status in Hr; rewrite Hp in Hr; by injection Hr).
  set (s0 := set_k_eflags (k_eflags (intr_off s)) s).
  destruct (core_make_ready s0 (k_cur s) p (set_t_status TASK_READY p) ts (ts ++ [k_cur s])) as (Hc1 & Hr1 & Hst1);
    try done; [by apply core_eflags|rewrite Hpr; split; done|by right|].
  rewrite fmap_app in Hc1, Hst1.
  set (s1 := set_k_queues (<[thread_ready_list := (general_tag <$> ts) ++ [general_tag (k_cur s)]]> (k_queues s0)) s0).
  set (s2 := set_k_tasks (<[k_cur s := set_t_status TASK_READY p]> (k_tasks s1)) s1).
  destruct (pick_next_spec s2 (ts ++ [k_cur s])) as (s' & ts' & R & Ok' & _); [exact Hc1| |unfold ready_is; cbn; by rewrite lookup_insert_eq, fmap_app|].
  { unfold intr_of. cbn. by rewrite intr_off_kbit. }
  set (rest := fun _ : unit => atomic (S := kst P) (intr_set_status (intr_of s)) ;~; cret tt).
  exists s', (cbind (cret tt) rest). split; [|split; [exact Ok'|intros x; apply resume_run]].
  unfold thread_yield. rewrite (cbind_atomic _ _ s (k_cur s) s) by done.
  rewrite (cbind_atomic _ _ _ _ _ (intr_disable_run s)), intr_off_fields.
  rewrite (cbind_atomic _ _ s0 false s0).
  2: { rewrite (q_find_run s0 _ _ _ Hts). rewrite bool_decide_eq_false_2; [done|]. intros Hin.
    by apply (linked_not_unlinked _ _ _ _ Hts Hin). }
  rewrite (cbind_atomic _ _ s0 tt s0) by done.
  rewrite (cbind_atomic _ _ s0 tt _ (q_append_run s0 _ _ _ Hts Hu)).
  rewrite (cbind_atomic _ _ s1 tt _ (upd_task_run s1 (k_cur s) p _ Hp)).
  apply cbind_suspended. unfold schedule. by rewrite (cbind_atomic _ _ _ _ _ R).
Qed.

(** One round of the loop when there are ticks left to sleep. *)
Lemma sleep_round f start n s :
  sched_ok s -> u32 (k_jiffies s - start) < n ->
  exists s' k, sleep_loop (S f) start n s = Ok (Suspended k, s') /\ sched_ok s' /\
    forall x, k x = sleep_loop f start n (with_status (intr_of s) x).
Proof.
  intros Hs Hn. destruct (yield_run s Hs) as (s' & k & R & Ok' & Hk). cbn [sleep_loop].
  rewrite (cbind_atomic _ _ s (k_jiffies s) s) by done. rewrite (proj2 (Z.ltb_lt _ _) Hn).
  eexists s', _. split; [by apply cbind_suspended|]. split; [exact Ok'|]. intros x. cbn beta. unfold cbind.
  by rewrite Hk.
Qed.

Lemma sleep_end f start n s : n <= u32 (k_jiffies s - start) -> sleep_loop (S f) start n s = Ok (Return tt, s).
Proof.
  intros Hn. cbn [sleep_loop]. rewrite (cbind_atomic _ _ s (k_jiffies s) s) by done. by rewrite (proj2 (Z.ltb_ge _ _) Hn).
Qed.

Lemma sleep_loop_run t start n xs f s :
  on_cpu t s -> Forall (on_cpu t) xs -> u32 (k_jiffies s - start) < n ->
  Forall (fun x => u32 (k_jiffies x - start) < n) xs -> (length xs < f)%nat ->
  exists k s', resumed xs (sleep_loop f start n s) = Ok (Suspended k, s') /\ sched_ok s' /\
    forall x, k x = sleep_loop (f - length xs - 1) start n (with_status (intr_of s) x).
Proof.
  revert f s. induction xs as [|x xs IH]; intros f s [Hs Ht] Hxs Hn Hall Hf; (destruct f as [|f]; [cbn in Hf; lia|]).
  - destruct (sleep_round f start n s Hs Hn) as (s' & k & R & Ok' & Hk). exists k, s'. split; [exact R|]. split; [exact Ok'|].
    intros x. rewrite Hk. cbn [length]. by replace (S f - 0 - 1)%nat with f by lia.
  - destruct (sleep_round f start n s Hs Hn) as (s' & k & R & _ & Hk).
    apply list.Forall_cons in Hxs as [Hx Hxs]. apply list.Forall_cons in Hall as [Hxn Hall].
    destruct (with_status_eflags (intr_of s) x) as [e He].
    destruct (IH f (with_status (intr_of s) x)) as (k' & s2 & R2 & Ok2 & Hk2).
    + by apply on_cpu_status.
    + done.
    + by rewrite He.
    + done.
    + cbn in Hf. lia.
    + exists k', s2. cbn [resumed]. rewrite R, Hk. split; [exact R2|]. split; [exact Ok2|].
      intros y. rewrite Hk2, with_status_of. cbn [length]. by replace (f - length xs - 1)%nat with (S f - S (length xs) - 1)%nat by lia.
Qed.

(** [n] ticks of sleep: the thread stays switched out as long as fewer than [n] ticks have
    passed where it is switched to, and returns the first time [n] have. *)
Definition sleeps (n : Z) (m : CM (kst P) unit) (f : nat) s : Prop := forall xs,
  Forall (on_cpu (k_cur s)) xs -> Forall (fun x => u32 (k_jiffies x - k_jiffies s) < n) xs -> (S (length xs) < f)%nat ->
  (exists k s', resumed xs (m s) = Ok (Suspended k, s') /\ sched_ok s') /\
  forall x, on_cpu (k_cur s) x -> n <= u32 (k_jiffies x - k_jiffies s) ->
    resumed (xs ++ [x]) (m s) = Ok (Return tt, with_status (intr_of s) x).

Lemma resumed_app {A} xs ys (r : outcome (co (kst P) A * kst P)) : resumed (xs ++ ys) r = resumed ys (resumed xs r).
Proof.
  revert r. induction xs as [|x xs IH]; intros r; [done|]. cbn [app resumed].
  destruct r as [[[a|k] s]|e]; [by destruct ys|apply IH|by destruct ys].
Qed.

Lemma tisks_to_sleep_run f n s : sched_ok s -> 0 < n -> sleeps n (tisks_to_sleep f n) f s.
Proof.
  intros Hs Hn xs Hxs Hall Hf. unfold tisks_to_sleep. rewrite (cbind_atomic _ _ s (k_jiffies s) s) by done.
  destruct (sleep_loop_run (k_cur s) (k_jiffies s) n xs f s) as (k & s' & R & Ok' & Hk); try done.
  - rewrite Z.sub_diag. exact Hn.
  - lia.
  - split; [by exists k, s'|]. intros x Hx Hge. rewrite resumed_app, R. cbn [resumed]. rewrite Hk.
    destruct (f - length xs - 1)%nat as [|f'] eqn:E; [lia|]. apply sleep_end.
    by destruct (with_status_eflags (intr_of s) x) as [e ->].
Qed.

(** C23: sleeping.  [mtime_sleep] of 1 to 2^32 - 10 milliseconds returns the first time the
    thread is switched to after the ticks of so many milliseconds, rounded up, have passed,
    also when the tick counter wraps around in between, and never before; the interrupt
    status is as it was.  For 0 and for the values from 2^32 - 9 on, whose rounding up
    overflows, the assertion fails. *)
Theorem mtime_sleep_spec s f ms : sched_ok s -> 0 <= ms < 2 ^ 32 ->
  if decide (1 <= ms <= 2 ^ 32 - 10)
  then exists n, ms <= 10 * n < ms + 10 /\ sleeps n (mtime_sleep f ms) f s
  else mtime_sleep f ms s = Err AssertFail.
Proof.
  intros Hs Hms. unfold mtime_sleep. change mil_seconds_per_intr with 10. unfold DIV_ROUND_UP.
  assert (Hu : u32 (u32 (ms + 10) - 1) = u32 (ms + 10 - 1)) by (unfold u32; apply Zminus_mod_idemp_l).
  case_decide as Hd.
  - rewrite Hu, u32_small by lia. pose proof (Z.div_mod (ms + 10 - 1) 10). pose proof (Z.mod_pos_bound (ms + 10 - 1) 10).
    set (n := (ms + 10 - 1) / 10) in *. exists n. split; [lia|].
    assert (Hn : 0 < n) by lia. rewrite (proj2 (Z.ltb_lt _ _) Hn).
    intros xs. rewrite (cbind_atomic _ _ s tt s) by done. by apply tisks_to_sleep_run.
  - assert (E : u32 (u32 (ms + 10) - 1) / 10 = 0).
    { rewrite Hu. destruct (decide (ms = 0)) as [->|]; [done|]. unfold u32.
      rewrite <- (Z_mod_plus_full _ (-1)), Z.mod_small by lia. apply Z.div_small. lia. }
    rewrite E. reflexivity.
Qed.

(** The same for seconds, whose milliseconds are counted modulo 2^32. *)
Theorem stime_sleep_spec s f sec : sched_ok s -> 0 < sec <= 4294966 ->
  sleeps (100 * sec) (stime_sleep f sec) f s.
Proof.
  intros Hs Hsec. unfold stime_sleep. change mil_seconds_per_intr with 10. unfold DIV_ROUND_UP.
  rewrite (u32_small (sec * 1000)), (u32_small (sec * 1000 + 10)), u32_small by lia.
  replace ((sec * 1000 + 10 - 1) / 10) with (100 * sec) by (rewrite <- (Z.div_unique_pos (sec * 1000 + 10 - 1) 10 (100 * sec) 9); lia).
  rewrite (proj2 (Z.ltb_lt 0 (100 * sec))) by lia.
  intros xs. rewrite (cbind_atomic _ _ s tt s) by done. apply tisks_to_sleep_run; [done|lia].
Qed.
End sleep.

(** The thread at 0x1000 sleeps 15 milliseconds: a tick and the next one. *)
Lemma mtime_sleep_spec_witness :
  resumed [set_k_jiffies 0 (sample_kernel 3); set_k_jiffies 1 (sample_kernel 3)]
    (mtime_sleep 3 15 (set_k_jiffies (2 ^ 32 - 1) (sample_kernel 3)))
  = Ok (Return tt, with_status (intr_of (sample_kernel 3)) (set_k_jiffies 1 (sample_kernel 3))).
Proof.
  assert (Hok : forall v, sched_ok (set_k_jiffies v (sample_kernel 3))).
  { intros v. destruct (sample_ok 3) as [Hc Hr]. split; [|exact Hr]. destruct Hc. by split. }
  pose proof (mtime_sleep_spec (set_k_jiffies (2 ^ 32 - 1) (sample_kernel 3)) 3 15 (Hok _)) as H.
  destruct H as (n & Hn & Hs); [lia|]. assert (n = 2) as -> by lia.
  destruct (Hs [set_k_jiffies 0 (sample_kernel 3)]) as [_ H].
  - apply list.Forall_cons. split; [split; [apply Hok|done]|by apply list.Forall_nil].
  - apply list.Forall_cons. split; [by vm_compute|by apply list.Forall_nil].
  - cbn. lia.
  - apply (H (set_k_jiffies 1 (sample_kernel 3))); [split; [apply Hok|done]|by vm_compute].
Defined.
