(* ===== verification/Console.v ===== *)
(** * Console: device/console.c

    The text screen behind a lock: every function takes it, prints and gives it back.  The
    screen is kept with the rest of the kernel's memory; the thread can be put to sleep
    where it waits for the lock. *)

From S2P Require Import Prelude Bitmap Interrupt DList Sched Sync Cstring Stdio Screen.

#[local] Set Default Proof Using "Type*".

(** Where the screen is kept; the page tables do not depend on it. *)
Class ScreenStore (P : Type) `{!KernelPages P} : Type := {
  screen_of : P -> screen;
  set_screen : screen -> P -> P;
  screen_of_set : forall v p, screen_of (set_screen v p) = v;
  set_screen_twice : forall v w p, set_screen v (set_screen w p) = set_screen v p
}.

Section console.
Context {P : Type} `{!KernelPages P, !ScreenStore P}.
(** The address of the static [console_lock]. *)
Context (console_lock : Z).

Definition on_screen {A} (m : KM screen A) : KM (kst P) A := fun s =>
  match m (screen_of (k_pages s)) with
  | Ok (a, v) => Ok (a, set_k_pages (set_screen v (k_pages s)) s)
  | Err e => Err e
  end.

Definition console_init : KM (kst P) unit := lock_init console_lock.
Definition console_acquire (fuel : nat) : CM (kst P) unit := lock_acquire fuel console_lock.
Definition console_release : KM (kst P) unit := lock_release console_lock.

Definition console_put_str (fuel : nat) (str : list Z) : CM (kst P) unit :=
  console_acquire fuel ;~;
  atomic (on_screen (put_str str)) ;~;
  atomic console_release.

Definition console_put_char (fuel : nat) (char_asci : Z) : CM (kst P) unit :=
  console_acquire fuel ;~;
  atomic (on_screen (put_char char_asci)) ;~;
  atomic console_release.

Definition console_put_int (fuel : nat) (arr : list Z) (num : Z) : CM (kst P) unit :=
  console_acquire fuel ;~;
  atomic (on_screen (put_int arr num)) ;~;
  atomic console_release.

Definition console_str_color (fuel : nat) (c : list Z) (fore : Z) : CM (kst P) unit :=
  console_acquire fuel ;~;
  atomic (on_screen (put_str_color c rc_black fore)) ;~;
  atomic console_release.

Definition sys_putchar (fuel : nat) (c : Z) : CM (kst P) unit := console_put_char fuel c.

(** [printk]: the format rendered to a buffer of 1024 bytes. *)
Definition printk (fuel : nat) (object : Z -> outcome (list Z)) (format args : list Z) : CM (kst P) unit :=
  buf <~ atomic (klift (print_buf object format args)) ;;
  console_put_str fuel buf.
End console.

(** ** What is printed *)

Section console_properties.
Context {P : Type} `{!KernelPages P, !ScreenStore P}.
Context (console_lock : Z).
Implicit Types (s : kst P).

Definition with_screen (v : screen) s : kst P := set_k_pages (set_screen v (k_pages s)) s.

(** Nobody has the console or waits for it. *)
Record console_free s : Prop := {
  cf_lock : k_locks s !! console_lock = Some (Lock 0 0);
  cf_sema : k_semas s !! lock_semaphore console_lock = Some 1;
  cf_wait : k_queues s !! sema_waiters (lock_semaphore console_lock) = Some [];
  cf_cur : k_cur s <> 0
}.

(** Printing with the lock held, and giving it back. *)
Lemma console_run {A} (m : KM screen A) a v f s :
  console_free s -> m (screen_of (k_pages s)) = Ok (a, v) ->
  (console_acquire console_lock (S f) ;~; atomic (on_screen m) ;~; atomic (console_release console_lock)) s
  = Ok (Return tt, with_screen v s).
Proof.
  intros [Hl Hs Hw Hc] Hm. unfold console_acquire, console_release.
  rewrite (cbind_return _ _ _ _ _ (acquire_free s console_lock f Hl Hs Hc)).
  rewrite (cbind_atomic _ _ _ a (held console_lock 1 (with_screen v s))).
  2: { unfold on_screen, held. cbn [k_pages set_k_locks set_k_semas]. by rewrite Hm. }
  unfold atomic. by rewrite (release_last (with_screen v s) console_lock Hl Hs Hw).
Qed.

Lemma console_put_str_run f m t s :
  console_free s -> screen_ok (screen_of (k_pages s)) -> str_at m 0 t ->
  exists v, console_put_str console_lock (S f) m s = Ok (Return tt, with_screen v s) /\ screen_ok v /\
    term_of v = fold_left (typed rc_black rc_white) t (term_of (screen_of (k_pages s))).
Proof.
  intros Hf Hok Hs. destruct (put_loop_run (S (length m)) m 0 t rc_black rc_white (screen_of (k_pages s)) Hs)
    as (v & Hrun & (H1 & H2 & _) & _); try done; [by apply str_fuel in Hs|].
  exists v. split; [|done]. by apply (console_run (put_str m) tt v f s).
Qed.

(** [printk] puts the rendered format on the screen.  When the console is free, the call
    returns, the screen shows the text the format and its arguments stand for (cut nowhere as
    long as it is shorter than the buffer of 1024 bytes), nothing else of the kernel's state
    has changed, and the console is free again. *)
Theorem printk_spec (object : Z -> outcome (list Z)) (strings : Z -> option (list Z)) f fm fs args text s :
  (forall w t, strings w = Some t -> exists m, object w = Ok m /\ str_at m 0 t) ->
  console_free s -> screen_ok (screen_of (k_pages s)) ->
  str_at fm 0 fs -> render strings fs args = Some text -> is_text text -> (length text < 1024)%nat ->
  exists v, printk console_lock (S f) object fm args s = Ok (Return tt, with_screen v s) /\
    console_free (with_screen v s) /\ screen_ok v /\
    term_of v = fold_left (typed rc_black rc_white) text (term_of (screen_of (k_pages s))).
Proof.
  intros Hobj Hf Hok Hfm Hr Ht Hl. unfold printk.
  destruct (print_buf_run object strings Hobj fm fs args text Hfm Hr Ht Hl) as (rest & Hv & Hstr).
  rewrite (cbind_atomic _ _ s (text ++ 0 :: rest) s) by (unfold klift; by rewrite Hv).
  destruct (console_put_str_run f (text ++ 0 :: rest) text s Hf Hok Hstr) as (v & Hrun & Hv1 & Hv2).
  exists v. split; [exact Hrun|]. by destruct Hf.
Qed.
End console_properties.

(** A kernel whose only memory is the screen. *)
#[export] Instance sample_screen_pages : KernelPages screen :=
  {| get_kernel_pages _ p := Ok (0, p); mfree_kernel_page _ _ p := Ok p; addr_v2p a _ := Ok a |}.
#[export] Program Instance sample_screen_store : ScreenStore screen := {| screen_of p := p; set_screen v _ := v |}.
Solve All Obligations with done.

Definition sample_console : kst screen :=
  let s := sample_lock (Lock 0 0) 1 [] in
  KSt (k_eflags s) (k_cur s) (k_tasks s) (k_queues s) (k_semas s) (k_locks s) (k_stack s) (k_idle s) (k_main s)
    (k_pids s) sample_screen (k_cr3 s) (k_esp0 s) (k_jiffies s).

Lemma printk_spec_witness : exists v,
  printk 0x9000 1 sample_object sample_format [4096; u32 (-7); 255] sample_console = Ok (Return tt, with_screen v sample_console) /\
  col (term_of v) = 6.
Proof.
  destruct (printk_spec 0x9000 sample_object sample_strings 0 sample_format (removelast sample_format) [4096; u32 (-7); 255]
    [97; 98; 61; 45; 55; 44; 70; 70] sample_console) as (v & Hrun & _ & _ & Ht).
  - intros w t. unfold sample_strings, sample_object. destruct (w =? 4096); [|done]. intros [= <-].
    exists sample_str. split; [done|apply sample_str_at].
  - split; [reflexivity|reflexivity|reflexivity|discriminate].
  - apply sample_screen_ok.
  - apply (str_at_app (removelast sample_format) []). repeat constructor.
  - vm_compute. reflexivity.
  - repeat constructor.
  - simpl. lia.
  - exists v. split; [exact Hrun|]. rewrite Ht. vm_compute. reflexivity.
Defined.
