(* ===== verification/Keyboard.v ===== *)
(** * Keyboard: device/keyboard.c

    The keys that are held, the decoding of a scan code into a character and the handler of
    the keyboard's interrupt, which puts the character into the ring buffer the readers
    take it from.  The byte read from the keyboard's port is an argument. *)

From S2P Require Import Prelude Bitmap Interrupt DList Sched Sync Ioqueue.

#[local] Set Default Proof Using "Type*".

(** ** The code *)

Definition shift_l_make : Z := 0x2a.
Definition shift_r_make : Z := 0x36.
Definition alt_l_make : Z := 0x38.
Definition alt_r_make : Z := 0xe038.
Definition ctrl_l_make : Z := 0x1d.
Definition ctrl_r_make : Z := 0xe01d.
Definition caps_lock_make : Z := 0x3a.

Record keyboard : Type := Keyboard {
  ctrl_status : bool; shift_status : bool; alt_status : bool; caps_lock_status : bool; ext_scancode : bool
}.
Definition set_ctrl (b : bool) (k : keyboard) : keyboard :=
  Keyboard b (shift_status k) (alt_status k) (caps_lock_status k) (ext_scancode k).
Definition set_shift (b : bool) (k : keyboard) : keyboard :=
  Keyboard (ctrl_status k) b (alt_status k) (caps_lock_status k) (ext_scancode k).
Definition set_alt (b : bool) (k : keyboard) : keyboard :=
  Keyboard (ctrl_status k) (shift_status k) b (caps_lock_status k) (ext_scancode k).
Definition set_caps (b : bool) (k : keyboard) : keyboard :=
  Keyboard (ctrl_status k) (shift_status k) (alt_status k) b (ext_scancode k).
Definition set_ext (b : bool) (k : keyboard) : keyboard :=
  Keyboard (ctrl_status k) (shift_status k) (alt_status k) (caps_lock_status k) b.

(** The characters of a key alone and with shift, by scan code. *)
Definition keymap : list (Z * Z) :=
  [(0, 0); (27, 27);
   (49, 33); (50, 64); (51, 35); (52, 36); (53, 37); (54, 94); (55, 38); (56, 42); (57, 40); (48, 41); (45, 95); (61, 43);
   (8, 8); (9, 9);
   (113, 81); (119, 87); (101, 69); (114, 82); (116, 84); (121, 89); (117, 85); (105, 73); (111, 79); (112, 80);
   (91, 123); (93, 125); (10, 10); (0, 0);
   (97, 65); (115, 83); (100, 68); (102, 70); (103, 71); (104, 72); (106, 74); (107, 75); (108, 76);
   (59, 58); (39, 34); (96, 126); (0, 0); (92, 124);
   (122, 90); (120, 88); (99, 67); (118, 86); (98, 66); (110, 78); (109, 77);
   (44, 60); (46, 62); (47, 63); (0, 0); (42, 42); (0, 0); (32, 32); (0, 0)].

(** Whether the scan code is of a key with two symbols that is no letter. *)
Definition two_symbols (scancode : Z) : bool :=
  (scancode <? 0x0e) || (scancode =? 0x29) || (scancode =? 0x1a) || (scancode =? 0x1b) || (scancode =? 0x2b) ||
  (scancode =? 0x27) || (scancode =? 0x28) || (scancode =? 0x33) || (scancode =? 0x34) || (scancode =? 0x35).

Definition shifted (scancode : Z) (shift_down_last caps_down_last : bool) : bool :=
  if two_symbols scancode then shift_down_last
  else if shift_down_last && caps_down_last then false
  else shift_down_last || caps_down_last.

(** A key is released. *)
Definition break_event (make_code : Z) (k : keyboard) : keyboard :=
  if (make_code =? ctrl_l_make) || (make_code =? ctrl_r_make) then set_ctrl false k
  else if (make_code =? shift_l_make) || (make_code =? shift_r_make) then set_shift false k
  else if (make_code =? alt_l_make) || (make_code =? alt_r_make) then set_alt false k
  else k.

(** A key without a character is pressed. *)
Definition control_event (scancode : Z) (k : keyboard) : keyboard :=
  if (scancode =? ctrl_l_make) || (scancode =? ctrl_r_make) then set_ctrl true k
  else if (scancode =? shift_l_make) || (scancode =? shift_r_make) then set_shift true k
  else if (scancode =? alt_l_make) || (scancode =? alt_r_make) then set_alt true k
  else if scancode =? caps_lock_make then set_caps (negb (caps_lock_status k)) k
  else k.

(** The keys held after the byte [port], and the character to be put into the buffer. *)
Definition key_event (port : Z) (k : keyboard) : outcome (keyboard * option Z) :=
  let ctrl_down_last := ctrl_status k in
  let shift_down_last := shift_status k in
  let caps_down_last := caps_lock_status k in
  if port =? 0xe0 then Ok (set_ext true k, None)
  else
    let scancode := if ext_scancode k then Z.lor 0xe000 port else port in
    let k := if ext_scancode k then set_ext false k else k in
    if negb (Z.land scancode 0x80 =? 0) then
      let make_code := Z.land scancode 0xff7f in
      Ok (break_event make_code k, None)
    else if ((0 <? scancode) && (scancode <? 0x3b)) || (scancode =? alt_r_make) || (scancode =? ctrl_r_make) then
      let shift := shifted scancode shift_down_last caps_down_last in
      let scancode := Z.land scancode 0xff in
      let? e := rd keymap scancode in
      let cur_char := if shift then e.2 else e.1 in
      if negb (cur_char =? 0) then
        let cur_char := if ctrl_down_last && ((cur_char =? 108) || (cur_char =? 117)) then i8 (cur_char - 97) else cur_char in
        Ok (k, Some cur_char)
      else Ok (control_event scancode k, None)
    else Ok (k, None).

Section handler.
Context {P : Type} `{!KernelPages P, !IoqStore P}.
(** The address of [kbd_buf]. *)
Context (kbd_buf : Z).

(** The handler, with the keys held before and after. *)
Definition intr_keyboard_handler (fuel : nat) (port : Z) (k : keyboard) : CM (kst P) keyboard :=
  r <~ atomic (klift (key_event port k)) ;;
  match r.2 with
  | Some cur_char =>
      full <~ atomic (ioq_full kbd_buf) ;;
      if negb (full : bool) then ioq_putchar fuel kbd_buf cur_char ;~; cret r.1 else cret r.1
  | None => cret r.1
  end.

(** The keys nobody holds, and the empty buffer. *)
Definition no_keys : keyboard := Keyboard false false false false false.
Definition keyboard_init : KM (kst P) keyboard := ioqueue_init kbd_buf ;;; kret no_keys.
End handler.

(** ** The reference *)

Inductive modifier : Type := Ctrl | Shift | Alt | Caps.

(** The modifier of a key; the right control and alt keys send 0xe0 before the code of the
    left ones. *)
Definition modifier_of (ext : bool) (make : Z) : option modifier :=
  if make =? 0x1d then Some Ctrl
  else if make =? 0x38 then Some Alt
  else if ext then None
  else if (make =? 0x2a) || (make =? 0x36) then Some Shift
  else if make =? 0x3a then Some Caps
  else None.

Definition is_letter (c : Z) : bool := (97 <=? c) && (c <=? 122).

(** The character of a key: of the two symbols of a letter key the second one when exactly one
    of shift and caps lock is on, of any other key when shift is held; control with l and u
    gives the codes the shell knows. *)
Definition key_char (k : keyboard) (make : Z) : option Z :=
  e ← keymap !! Z.to_nat make;
  if e.1 =? 0 then None
  else
    let up := if is_letter e.1 then xorb (shift_status k) (caps_lock_status k) else shift_status k in
    let c := if up then e.2 else e.1 in
    Some (if ctrl_status k && ((c =? 108) || (c =? 117)) then c - 97 else c).

Definition key_ref (port : Z) (k : keyboard) : keyboard * option Z :=
  if port =? 0xe0 then (set_ext true k, None)
  else
    let pressed := port <? 128 in
    let k' := set_ext false k in
    match modifier_of (ext_scancode k) (port mod 128) with
    | Some Ctrl => (set_ctrl pressed k', None)
    | Some Shift => (set_shift pressed k', None)
    | Some Alt => (set_alt pressed k', None)
    | Some Caps => (if pressed then set_caps (negb (caps_lock_status k)) k' else k', None)
    | None => (k', if pressed && negb (ext_scancode k) then key_char k (port mod 128) else None)
    end.

#[export] Instance keyboard_eq_dec : EqDecision keyboard.
Proof. solve_decision. Defined.

(** All bytes and all states of the keys. *)
Definition all_bools (f : bool -> bool) : bool := f true && f false.
Lemma all_bools_spec f : all_bools f = true -> forall b, f b = true.
Proof. unfold all_bools. intros [H1 H2]%andb_prop [|]; done. Qed.

Definition agrees (port : Z) (k : keyboard) : bool :=
  match key_event port k with
  | Ok r => bool_decide (r = key_ref port k)
  | Err _ => false
  end.
Definition agrees_at (port : Z) : bool :=
  all_bools (fun c => all_bools (fun s => all_bools (fun a => all_bools (fun l => all_bools (fun e =>
    agrees port (Keyboard c s a l e)))))).
Lemma agree_all port k : 0 <= port < 256 -> agrees port k = true.
Proof.
  intros Hp. assert (H : agrees_at port = true).
  { apply (below_forallb 256 agrees_at); [vm_compute; reflexivity|lia]. }
  destruct k as [c s a l e]. unfold agrees_at in H.
  apply (all_bools_spec _ (all_bools_spec _ (all_bools_spec _ (all_bools_spec _ (all_bools_spec _ H c) s) a) l) e).
Qed.

Lemma key_event_run port k : 0 <= port < 256 -> key_event port k = Ok (key_ref port k).
Proof.
  intros Hp. pose proof (agree_all port k Hp) as H. unfold agrees in H. destruct (key_event port k) as [r|]; [|done].
  apply bool_decide_eq_true in H. by rewrite H.
Qed.

(** C35: decoding.  For every byte the keyboard can send and every state of the keys the code
    finds the same modifiers held and the same character as the reference: a modifier is held
    from its press to its release, caps lock changes with every press, 0xe0 only concerns the
    next byte and hides every key but the right control and alt keys, and the character of a
    key is chosen by shift and, for letters only, caps lock.  The array of characters is
    never read out of its bounds. *)
Theorem key_event_spec port k : 0 <= port < 256 -> key_event port k = Ok (key_ref port k).
Proof. apply key_event_run. Qed.

Lemma key_event_spec_witness : key_event 0x1e (Keyboard false true false true false) = Ok (Keyboard false true false true false, Some 97).
Proof. etransitivity; [apply key_event_spec; lia|reflexivity]. Defined.

(** ** The handler *)

Section handler_properties.
Context {P : Type} `{!KernelPages P, !IoqStore P}.
Implicit Types (s : kst P) (q : ioqueue).

Lemma handler_run s kbd_buf q port k f r :
  0 <= port < 256 -> intr_of s = INTR_OFF -> ring_is s kbd_buf q -> ring_ok q ->
  (match (key_ref port k).2 with
   | Some c => if bool_decide (Z.of_nat (length (contents q)) + 1 < bufsize) then add_byte kbd_buf c s = Ok (tt, r) else r = s
   | None => r = s end) ->
  intr_keyboard_handler kbd_buf (S f) port k s = Ok (Return (key_ref port k).1, r).
Proof.
  intros Hp Hoff Hq Hok Hr. unfold intr_keyboard_handler.
  rewrite (cbind_atomic _ _ s (key_ref port k) s) by (unfold klift; by rewrite key_event_run).
  destruct ((key_ref port k).2) as [c|]; [|by subst r]. destruct (test_run s kbd_buf q Hoff Hq) as [_ Hfull].
  rewrite (cbind_atomic _ _ _ _ _ Hfull). rewrite ring_full_spec by done.
  pose proof (ring_length_bound q Hok) as Hb. pose proof (contents_length q Hok) as Hlen.
  case_bool_decide as Hroom.
  - rewrite bool_decide_false by lia. cbn [negb].
    by rewrite (cbind_return _ _ _ _ _ (putchar_ready s kbd_buf q c f (tt, r) Hoff Hq Hok Hroom Hr)).
  - rewrite bool_decide_true by lia. by subst r.
Qed.

(** The keyboard's interrupt.  The handler, which runs with interrupts off, always returns
    to the code it interrupted: it never waits.  It appends the character of the key to the
    buffer, if the key has one and the buffer has room for it; when it is full the character
    is lost and nothing changes.  A thread waiting for a character becomes the first ready
    one. *)
Theorem keyboard_handler_spec s kbd_buf q port k f :
  sched_ok s -> intr_of s = INTR_OFF -> ring_is s kbd_buf q -> ring_ok q -> 0 <= port < 256 ->
  let room := Z.of_nat (length (contents q)) + 1 < bufsize in
  ((key_ref port k).2 = None \/ ~ room ->
   intr_keyboard_handler kbd_buf (S f) port k s = Ok (Return (key_ref port k).1, s)) /\
  (forall c, (key_ref port k).2 = Some c -> room -> consumer q = 0 ->
   exists q', intr_keyboard_handler kbd_buf (S f) port k s = Ok (Return (key_ref port k).1, with_ring kbd_buf q' s) /\
     ring_ok q' /\ contents q' = contents q ++ [c]) /\
  (forall c ts p, (key_ref port k).2 = Some c -> room -> consumer q <> 0 -> ready_is s ts ->
   k_tasks s !! consumer q = Some p -> may_block (t_status p) = true -> unlinked (k_queues s) (general_tag (consumer q)) ->
   exists q' s', intr_keyboard_handler kbd_buf (S f) port k s = Ok (Return (key_ref port k).1, s') /\
     ring_is s' kbd_buf q' /\ ring_ok q' /\ contents q' = contents q ++ [c] /\ consumer q' = 0 /\ sched_ok s' /\
     ready_is s' (consumer q :: ts) /\ k_cur s' = k_cur s /\ status s' (consumer q) = Some TASK_READY).
Proof.
  intros Hsok Hoff Hq Hok Hp room.
  assert (Hrun := handler_run s kbd_buf q port k f). split_and!.
  - intros Hno. apply (Hrun s Hp Hoff Hq Hok). destruct (key_ref port k).2 as [c|]; [|done].
    rewrite bool_decide_false; [done|]. destruct Hno as [|Hno]; [done|exact Hno].
  - intros c Hc Hroom Hcons. destruct (add_byte_run s kbd_buf q c Hq Hok Hroom Hcons) as (q' & Ha & Hok' & Hc').
    exists q'. split; [|done]. apply (Hrun _ Hp Hoff Hq Hok). rewrite Hc. by rewrite bool_decide_true.
  - intros c ts p Hc Hroom Hcons Hr Ht Hm Hu.
    destruct (add_byte_wakes s kbd_buf q c ts p Hsok Hq Hok Hroom Hcons Hr Ht Hm Hu) as (q' & s' & Ha & Hrest).
    exists q', s'. split; [|exact Hrest]. apply (Hrun _ Hp Hoff Hq Hok). rewrite Hc. by rewrite bool_decide_true.
Qed.
End handler_properties.

(** The a key with shift held. *)
Lemma keyboard_handler_spec_witness : exists q',
  intr_keyboard_handler 0x9000 1 0x1e (set_shift true no_keys) (sample_ioq (sample_ring [104])) =
    Ok (Return (set_shift true no_keys), with_ring 0x9000 q' (sample_ioq (sample_ring [104]))) /\ contents q' = [104; 65].
Proof.
  destruct (keyboard_handler_spec (sample_ioq (sample_ring [104])) 0x9000 (sample_ring [104]) 0x1e (set_shift true no_keys) 0)
    as (_ & H & _); [apply sample_ioq_ok|reflexivity|reflexivity|by apply sample_ring_ok|lia|].
  destruct (H 65 eq_refl) as (q' & H1 & _ & H2); [by vm_compute|reflexivity|]. exists q'. split; [exact H1|].
  rewrite H2. by vm_compute.
Defined.
