(* ===== verification/Syscall.v ===== *)
(** * Syscall: from the call of a user program to the kernel's function

    The stubs of lib/user/syscall.c, the numbers of lib/user/syscall.h, the table of
    userprog/syscall_init.c and the entry of [int 0x80], which calls the table's entry with
    the registers as arguments.  A function of the kernel is its name with the types of its
    parameters; what it does is in the files on memory, processes and files. *)

From S2P Require Import Prelude.

(** ** Numbers and functions *)

Inductive SYSCALL_NR : Type :=
| SYS_GETPID | SYS_WRITE | SYS_MALLOC | SYS_FREE | SYS_FORK | SYS_READ | SYS_PUTCHAR | SYS_CLEAR | SYS_GETCWD
| SYS_OPEN | SYS_CLOSE | SYS_LSEEK | SYS_UNLINK | SYS_MKDIR | SYS_OPENDIR | SYS_CLOSEDIR | SYS_CHDIR | SYS_RMDIR
| SYS_READDIR | SYS_REWINDDIR | SYS_STAT | SYS_PS | SYS_PUT_COLOR | SYS_CREAT | SYS_EXECV | SYS_EXIT | SYS_WAIT
| SYS_PIPE | SYS_FD_REDIRECT | SYS_HELP.

(** The value of an enumerator. *)
Definition nr (n : SYSCALL_NR) : Z :=
  match n with
  | SYS_GETPID => 0 | SYS_WRITE => 1 | SYS_MALLOC => 2 | SYS_FREE => 3 | SYS_FORK => 4 | SYS_READ => 5
  | SYS_PUTCHAR => 6 | SYS_CLEAR => 7 | SYS_GETCWD => 8 | SYS_OPEN => 9 | SYS_CLOSE => 10 | SYS_LSEEK => 11
  | SYS_UNLINK => 12 | SYS_MKDIR => 13 | SYS_OPENDIR => 14 | SYS_CLOSEDIR => 15 | SYS_CHDIR => 16 | SYS_RMDIR => 17
  | SYS_READDIR => 18 | SYS_REWINDDIR => 19 | SYS_STAT => 20 | SYS_PS => 21 | SYS_PUT_COLOR => 22 | SYS_CREAT => 23
  | SYS_EXECV => 24 | SYS_EXIT => 25 | SYS_WAIT => 26 | SYS_PIPE => 27 | SYS_FD_REDIRECT => 28 | SYS_HELP => 29
  end.

(** The functions of the kernel in the table. *)
Inductive kernel_function : Type :=
| sys_getpid | sys_write | sys_malloc | sys_free | sys_fork | sys_read | sys_putchar | cls_screen | sys_getcwd
| sys_open | sys_close | sys_lseek | sys_unlink | sys_mkdir | sys_opendir | sys_closedir | sys_chdir | sys_rmdir
| sys_readdir | sys_rewinddir | sys_stat | sys_ps | console_str_color | sys_create | sys_execv | sys_exit | sys_wait
| sys_pipe | sys_fd_redirect | sys_help.
#[export] Instance kernel_function_eq_dec : EqDecision kernel_function.
Proof. solve_decision. Defined.

(** The parameters of a function: words, and the [uint8_t] ones, of which the callee only
    looks at the low byte of the word on the stack. *)
Inductive param : Type := Word | Byte.
Definition params (f : kernel_function) : list param :=
  match f with
  | sys_getpid | sys_fork | cls_screen | sys_ps | sys_help => []
  | sys_malloc | sys_free | sys_close | sys_unlink | sys_mkdir | sys_opendir | sys_closedir | sys_chdir | sys_rmdir
  | sys_readdir | sys_rewinddir | sys_create | sys_exit | sys_wait | sys_pipe => [Word]
  | sys_putchar => [Byte]
  | sys_getcwd | sys_stat | console_str_color | sys_execv | sys_fd_redirect => [Word; Word]
  | sys_open => [Word; Byte]
  | sys_write | sys_read => [Word; Word; Word]
  | sys_lseek => [Word; Word; Byte]
  end.
Definition convert_param (p : param) (w : Z) : Z := match p with Word => u32 w | Byte => u8 w end.

(** ** The table *)

Definition syscall_nr : Z := 32.

(** The stores of [syscall_init], in order. *)
Definition stores : list (SYSCALL_NR * kernel_function) :=
  [(SYS_GETPID, sys_getpid); (SYS_WRITE, sys_write); (SYS_MALLOC, sys_malloc); (SYS_FREE, sys_free); (SYS_FORK, sys_fork);
   (SYS_READ, sys_read); (SYS_PUTCHAR, sys_putchar); (SYS_CLEAR, cls_screen); (SYS_GETCWD, sys_getcwd); (SYS_OPEN, sys_open);
   (SYS_CLOSE, sys_close); (SYS_LSEEK, sys_lseek); (SYS_UNLINK, sys_unlink); (SYS_MKDIR, sys_mkdir); (SYS_OPENDIR, sys_opendir);
   (SYS_CLOSEDIR, sys_closedir); (SYS_CHDIR, sys_chdir); (SYS_RMDIR, sys_rmdir); (SYS_READDIR, sys_readdir);
   (SYS_REWINDDIR, sys_rewinddir); (SYS_STAT, sys_stat); (SYS_PS, sys_ps); (SYS_PUT_COLOR, console_str_color);
   (SYS_CREAT, sys_create); (SYS_EXECV, sys_execv); (SYS_EXIT, sys_exit); (SYS_WAIT, sys_wait); (SYS_PIPE, sys_pipe);
   (SYS_FD_REDIRECT, sys_fd_redirect); (SYS_HELP, sys_help)].

Fixpoint store_all (l : list (SYSCALL_NR * kernel_function)) (table : list (option kernel_function)) :
    outcome (list (option kernel_function)) :=
  match l with
  | [] => Ok table
  | (n, f) :: l => let? table := wr table (nr n) (Some f) in store_all l table
  end.
Definition syscall_init (table : list (option kernel_function)) : outcome (list (option kernel_function)) :=
  store_all stores table.

(** ** The entry *)

Record regs : Type := Regs { eax : Z; ebx : Z; ecx : Z; edx : Z }.

(** [int 0x80]: the function called and its arguments. *)
Definition syscall_handler (table : list (option kernel_function)) (r : regs) : outcome (kernel_function * list Z) :=
  let? f := rd table (eax r) in
  match f with
  | None => Err OutOfBounds
  | Some f => Ok (f, zip_with convert_param (params f) [ebx r; ecx r; edx r])
  end.

(** ** The stubs *)

Definition _syscall0 (n : SYSCALL_NR) (r : regs) : regs := Regs (nr n) (ebx r) (ecx r) (edx r).
Definition _syscall1 (n : SYSCALL_NR) (arg1 : Z) (r : regs) : regs := Regs (nr n) arg1 (ecx r) (edx r).
Definition _syscall2 (n : SYSCALL_NR) (arg1 arg2 : Z) (r : regs) : regs := Regs (nr n) arg1 arg2 (edx r).
Definition _syscall3 (n : SYSCALL_NR) (arg1 arg2 arg3 : Z) (r : regs) : regs := Regs (nr n) arg1 arg2 arg3.

(** An argument of one byte only sets the low byte of its register. *)
Definition low_byte (old v : Z) : Z := old - old mod 256 + u8 v.

(** A call of a user program, with its arguments. *)
Inductive user_call : Type :=
| getpid | write (fd buf count : Z) | malloc (size : Z) | free (ptr : Z) | fork | read (fd buf count : Z)
| putchar (char_asci : Z) | clear | getcwd (buf size : Z) | open (pathname flag : Z) | close (fd : Z)
| lseek (fd offset whence : Z) | unlink (pathname : Z) | mkdir (pathname : Z) | opendir (name : Z) | closedir (dir : Z)
| rmdir (pathname : Z) | readdir (dir : Z) | rewinddir (dir : Z) | stat (path buf : Z) | chdir (path : Z) | ps
| put_color (str color : Z) | create (pathname : Z) | execv (path argv : Z) | exit (status : Z) | wait (status : Z)
| pipe (pipefd : Z) | fd_redirect (old_local_fd new_local_fd : Z) | help.

(** The registers at the trap. *)
Definition trap (c : user_call) (r : regs) : regs :=
  match c with
  | getpid => _syscall0 SYS_GETPID r
  | write fd buf count => _syscall3 SYS_WRITE fd buf count r
  | malloc size => _syscall1 SYS_MALLOC size r
  | free ptr => _syscall1 SYS_FREE ptr r
  | fork => _syscall0 SYS_FORK r
  | read fd buf count => _syscall3 SYS_READ fd buf count r
  | putchar c => _syscall1 SYS_PUTCHAR (low_byte (ebx r) c) r
  | clear => _syscall0 SYS_CLEAR r
  | getcwd buf size => _syscall2 SYS_GETCWD buf size r
  | open pathname flag => _syscall2 SYS_OPEN pathname (low_byte (ecx r) flag) r
  | close fd => _syscall1 SYS_CLOSE fd r
  | lseek fd offset whence => _syscall3 SYS_LSEEK fd offset (low_byte (edx r) whence) r
  | unlink pathname => _syscall1 SYS_UNLINK pathname r
  | mkdir pathname => _syscall1 SYS_MKDIR pathname r
  | opendir name => _syscall1 SYS_OPENDIR name r
  | closedir dir => _syscall1 SYS_CLOSEDIR dir r
  | rmdir pathname => _syscall1 SYS_RMDIR pathname r
  | readdir dir => _syscall1 SYS_READDIR dir r
  | rewinddir dir => _syscall1 SYS_REWINDDIR dir r
  | stat path buf => _syscall2 SYS_STAT path buf r
  | chdir path => _syscall1 SYS_CHDIR path r
  | ps => _syscall0 SYS_PS r
  | put_color str color => _syscall2 SYS_PUT_COLOR str color r
  | create pathname => _syscall1 SYS_CREAT pathname r
  | execv path argv => _syscall2 SYS_EXECV path argv r
  | exit status => _syscall1 SYS_EXIT status r
  | wait status => _syscall1 SYS_WAIT status r
  | pipe pipefd => _syscall1 SYS_PIPE pipefd r
  | fd_redirect old_fd new_fd => _syscall2 SYS_FD_REDIRECT old_fd new_fd r
  | help => _syscall0 SYS_HELP r
  end.

(** ** What a call means *)

(** The function of the kernel a call is for, with the arguments as the caller gave them
    (a byte where the stub's parameter is one). *)
Definition meaning (c : user_call) : kernel_function * list Z :=
  match c with
  | getpid => (sys_getpid, []) | write fd buf count => (sys_write, [u32 fd; u32 buf; u32 count])
  | malloc size => (sys_malloc, [u32 size]) | free ptr => (sys_free, [u32 ptr]) | fork => (sys_fork, [])
  | read fd buf count => (sys_read, [u32 fd; u32 buf; u32 count]) | putchar c => (sys_putchar, [u8 c])
  | clear => (cls_screen, []) | getcwd buf size => (sys_getcwd, [u32 buf; u32 size])
  | open pathname flag => (sys_open, [u32 pathname; u8 flag]) | close fd => (sys_close, [u32 fd])
  | lseek fd offset whence => (sys_lseek, [u32 fd; u32 offset; u8 whence]) | unlink p => (sys_unlink, [u32 p])
  | mkdir p => (sys_mkdir, [u32 p]) | opendir p => (sys_opendir, [u32 p]) | closedir d => (sys_closedir, [u32 d])
  | rmdir p => (sys_rmdir, [u32 p]) | readdir d => (sys_readdir, [u32 d]) | rewinddir d => (sys_rewinddir, [u32 d])
  | stat p b => (sys_stat, [u32 p; u32 b]) | chdir p => (sys_chdir, [u32 p]) | ps => (sys_ps, [])
  | put_color s c => (console_str_color, [u32 s; u32 c]) | create p => (sys_create, [u32 p])
  | execv p a => (sys_execv, [u32 p; u32 a]) | exit s => (sys_exit, [u32 s]) | wait s => (sys_wait, [u32 s])
  | pipe p => (sys_pipe, [u32 p]) | fd_redirect o n => (sys_fd_redirect, [u32 o; u32 n]) | help => (sys_help, [])
  end.

Lemma u8_low_byte old v : u8 (low_byte old v) = u8 v.
Proof.
  unfold low_byte, u8. change (2 ^ 8) with 256. pose proof (Z.div_mod old 256 ltac:(lia)).
  replace (old - old mod 256 + v mod 256) with (v mod 256 + old / 256 * 256) by lia.
  by rewrite Z.mod_add, Z.mod_mod by lia.
Qed.

(** The table [syscall_init] builds, whatever its array held before. *)
Definition filled (old : list (option kernel_function)) : list (option kernel_function) :=
  map (fun e => Some e.2) stores ++ drop 30 old.

Lemma syscall_init_run old : Z.of_nat (length old) = syscall_nr -> syscall_init old = Ok (filled old).
Proof.
  unfold syscall_nr. intros Hl. do 32 (destruct old as [|? old]; [simpl in Hl; lia|]). destruct old; [|simpl in Hl; lia].
  reflexivity.
Qed.

(** A system call reaches its function.  Whatever the table held before [syscall_init] and
    the registers before the stub, the trap of every call of a user program calls the function
    of the kernel that the call is for, with the caller's arguments in their order, the bytes
    among them unharmed by what else was in the register; the numbers 30 and 31 are nobody's,
    and no function has two numbers. *)
Theorem syscall_reaches_kernel old c r :
  Z.of_nat (length old) = syscall_nr ->
  exists table, syscall_init old = Ok table /\ syscall_handler table (trap c r) = Ok (meaning c) /\
    NoDup (take 30 table) /\ drop 30 table = drop 30 old.
Proof.
  intros Hl. exists (filled old). split; [by apply syscall_init_run|]. split; [|split].
  - unfold syscall_handler. destruct c; cbn [trap _syscall0 _syscall1 _syscall2 _syscall3 eax ebx ecx edx nr];
      match goal with |- context [rd ?l ?i] => let v := eval hnf in (rd l i) in change (rd l i) with v end;
      cbn [snd obind zip_with params convert_param meaning]; by rewrite ?u8_low_byte.
  - change (take 30 (filled old)) with (map (fun e : SYSCALL_NR * kernel_function => Some e.2) stores).
    refine (bool_decide_unpack (NoDup (map (fun e : SYSCALL_NR * kernel_function => Some e.2) stores)) _). vm_compute. done.
  - by unfold filled.
Qed.

Lemma syscall_reaches_kernel_witness : exists table, syscall_init (replicate 32 None) = Ok table /\
  syscall_handler table (trap (open 0x1000 6) (Regs 1 2 0x3ff 4)) = Ok (sys_open, [0x1000; 6]).
Proof.
  destruct (syscall_reaches_kernel (replicate 32 None) (open 0x1000 6) (Regs 1 2 0x3ff 4)) as (t & H1 & H2 & _); [done|].
  exists t. split; [exact H1|]. rewrite H2. reflexivity.
Defined.
