(* ===== verification/Ide.v ===== *)
(** * Ide: the disk driver of device/ide.c

    Reading and writing of sectors by commands to an ATA channel, in pieces of at most 256
    sectors, and the handler of the channel's interrupt.  The controller is behind an
    interface of port reads and writes with the documented meaning of its registers as
    laws; the theorem shows that the driver on top of such a controller is the block device
    the file system is written against.  The state is one channel as the thread that has
    its lock sees it: the lock's count, the semaphore [disk_done] and the controller.
    Waiting for the semaphore lets the controller work until it interrupts. *)

From S2P Require Import Prelude Bitmap Interrupt Disk.

#[local] Set Default Proof Using "Type*".

(** ** The controller *)

(** [ata_irq] is the controller after it has worked until its interrupt, [None] when there
    will be none; [ata_sleep] the one after ten milliseconds.  A word is two bytes. *)
Class AtaPorts (A : Type) : Type := {
  ata_outb : Z -> Z -> A -> A;
  ata_inb : Z -> A -> Z * A;
  ata_insw : Z -> Z -> A -> list Z * A;
  ata_outsw : Z -> list Z -> Z -> A -> outcome A;
  ata_irq : A -> option A;
  ata_sleep : A -> A
}.

(** ** The code *)

Definition BIT_ALT_STAT_BSY : Z := 0x80.
Definition BIT_ALT_STAT_DRQ : Z := 0x8.
Definition BIT_DEV_MBS : Z := 0xa0.
Definition BIT_DEV_LBA : Z := 0x40.
Definition BIT_DEV_DEV : Z := 0x10.
Definition CMD_IDENTIFY : Z := 0xec.
Definition CMD_READ_SECTOR : Z := 0x20.
Definition CMD_WRITE_SECTOR : Z := 0x30.
Definition max_lba : Z := 80 * 1024 * 1024 / 512 - 1.

Record chan (A : Type) : Type := Chan {
  port_base : Z; irq_no : Z; ch_lock : Z; expecting_intr : bool; disk_done : Z; ata : A
}.
Arguments Chan {A}.
Arguments port_base {A} _.
Arguments irq_no {A} _.
Arguments ch_lock {A} _.
Arguments expecting_intr {A} _.
Arguments disk_done {A} _.
Arguments ata {A} _.

(** The fields of [struct disk] that transfers use. *)
Record disk : Type := Disk { hd_name : list Z; dev_no : Z }.

Section ide.
Context {A : Type} `{!AtaPorts A}.
Notation M := (KM (chan A)).

Definition set_lock (v : Z) (c : chan A) : chan A := Chan (port_base c) (irq_no c) v (expecting_intr c) (disk_done c) (ata c).
Definition set_expecting (v : bool) (c : chan A) : chan A := Chan (port_base c) (irq_no c) (ch_lock c) v (disk_done c) (ata c).
Definition set_done (v : Z) (c : chan A) : chan A := Chan (port_base c) (irq_no c) (ch_lock c) (expecting_intr c) v (ata c).
Definition set_ata (v : A) (c : chan A) : chan A := Chan (port_base c) (irq_no c) (ch_lock c) (expecting_intr c) (disk_done c) v.

Definition outb (port value : Z) : M unit := kmod (fun c => set_ata (ata_outb (u16 port) (u8 value) (ata c)) c).
Definition inb (port : Z) : M Z := fun c => let r := ata_inb (u16 port) (ata c) in Ok (r.1, set_ata r.2 c).
Definition insw (port word_cnt : Z) : M (list Z) := fun c =>
  let r := ata_insw (u16 port) word_cnt (ata c) in Ok (r.1, set_ata r.2 c).
Definition outsw (port : Z) (addr : list Z) (word_cnt : Z) : M unit := fun c =>
  match ata_outsw (u16 port) addr word_cnt (ata c) with Ok a => Ok (tt, set_ata a c) | Err e => Err e end.
Definition mtime_sleep : M unit := kmod (fun c => set_ata (ata_sleep (ata c)) c).

(** The lock, as the thread sees it that nobody keeps waiting. *)
Definition lock_acquire : M unit := kmod (fun c => set_lock (ch_lock c + 1) c).
Definition lock_release : M unit :=
  n <- kreads ch_lock ;; ASSERT (0 <? n) ;;; kmod (set_lock (n - 1)).

Definition intr_hd_handler (irq : Z) : M unit :=
  ASSERT ((irq =? 0x2e) || (irq =? 0x2f)) ;;;
  no <- kreads irq_no ;;
  ASSERT (no =? irq) ;;;
  expecting <- kreads expecting_intr ;;
  if (expecting : bool) then
    kmod (set_expecting false) ;;;
    n <- kreads disk_done ;;
    kmod (set_done (n + 1)) ;;;
    base <- kreads port_base ;;
    inb (base + 7) ;;;
    kret tt
  else kret tt.

(** Asleep until the interrupt, for ever when there is none. *)
Definition sleep_irq : M unit := fun c =>
  match ata_irq (ata c) with
  | None => Err Diverges
  | Some a => intr_hd_handler (irq_no c) (set_ata a c)
  end.

(** [sema_down(&channel->disk_done)]. *)
Definition wait_done : M unit :=
  n <- kreads disk_done ;;
  (if n =? 0 then sleep_irq else kret tt) ;;;
  n <- kreads disk_done ;;
  if n =? 0 then kfail Diverges else kmod (set_done (n - 1)).

Definition select_disk (hd : disk) : M unit :=
  let reg_device := Z.lor BIT_DEV_MBS BIT_DEV_LBA in
  let reg_device := if dev_no hd =? 1 then Z.lor reg_device BIT_DEV_DEV else reg_device in
  base <- kreads port_base ;;
  outb (base + 6) reg_device.

Definition select_sector (hd : disk) (lba sec_cnt : Z) : M unit :=
  ASSERT (lba <=? max_lba) ;;;
  base <- kreads port_base ;;
  outb (base + 2) (u8 sec_cnt) ;;;
  outb (base + 3) lba ;;;
  outb (base + 4) (Z.shiftr lba 8) ;;;
  outb (base + 5) (Z.shiftr lba 16) ;;;
  outb (base + 6) (Z.lor (Z.lor (Z.lor BIT_DEV_MBS BIT_DEV_LBA) (if dev_no hd =? 1 then BIT_DEV_DEV else 0)) (Z.shiftr lba 24)).

Definition cmd_out (cmd : Z) : M unit :=
  kmod (set_expecting true) ;;;
  base <- kreads port_base ;;
  outb (base + 7) cmd.

(** The bytes of [sec_cnt] sectors, of 256 for 0. *)
Definition size_in_byte (sec_cnt : Z) : Z := if sec_cnt =? 0 then 256 * 512 else sec_cnt * 512.

Definition read_from_sector (sec_cnt : Z) : M (list Z) :=
  base <- kreads port_base ;;
  insw (base + 0) (size_in_byte (u8 sec_cnt) / 2).
Definition write_to_sector (buf : list Z) (sec_cnt : Z) : M unit :=
  base <- kreads port_base ;;
  outsw (base + 0) buf (size_in_byte (u8 sec_cnt) / 2).

(** [time_limit -= 10 >= 0] takes one off the limit, so that it is tried 29999 times. *)
Fixpoint busy_loop (n : nat) : M bool :=
  match n with
  | O => kret false
  | S n =>
      base <- kreads port_base ;;
      st <- inb (base + 7) ;;
      if Z.land st BIT_ALT_STAT_BSY =? 0 then
        st <- inb (base + 7) ;;
        kret (negb (Z.land st BIT_ALT_STAT_DRQ =? 0))
      else
        mtime_sleep ;;;
        busy_loop n
  end.
Definition busy_wait : M bool := busy_loop (Z.to_nat 29999).

(** The sectors of the next command. *)
Definition next_op (secs_done sec_cnt : Z) : Z := if u32 (secs_done + 256) <=? sec_cnt then 256 else sec_cnt - secs_done.

(** The bytes read so far are [buf]. *)
Fixpoint ide_read_loop (n : nat) (hd : disk) (lba secs_done sec_cnt : Z) (buf : list Z) : M (list Z) :=
  if secs_done <? sec_cnt then
    match n with
    | O => kfail Diverges
    | S n =>
        let secs_op := next_op secs_done sec_cnt in
        select_sector hd (u32 (lba + secs_done)) secs_op ;;;
        cmd_out CMD_READ_SECTOR ;;;
        wait_done ;;;
        ok <- busy_wait ;;
        (if negb (ok : bool) then PANIC else kret tt) ;;;
        data <- read_from_sector secs_op ;;
        ide_read_loop n hd lba (secs_done + secs_op) sec_cnt (buf ++ data)
    end
  else kret buf.

Definition ide_read (hd : disk) (lba sec_cnt : Z) : M (list Z) :=
  ASSERT (lba <=? max_lba) ;;;
  ASSERT (0 <? sec_cnt) ;;;
  lock_acquire ;;;
  select_disk hd ;;;
  buf <- ide_read_loop (Z.to_nat (sec_cnt / 256 + 1)) hd lba 0 sec_cnt [] ;;
  lock_release ;;;
  kret buf.

Fixpoint ide_write_loop (n : nat) (hd : disk) (lba secs_done sec_cnt : Z) (buf : list Z) : M unit :=
  if secs_done <? sec_cnt then
    match n with
    | O => kfail Diverges
    | S n =>
        let secs_op := next_op secs_done sec_cnt in
        select_sector hd (u32 (lba + secs_done)) secs_op ;;;
        cmd_out CMD_WRITE_SECTOR ;;;
        ok <- busy_wait ;;
        (if negb (ok : bool) then PANIC else kret tt) ;;;
        write_to_sector (drop (Z.to_nat (secs_done * 512)) buf) secs_op ;;;
        wait_done ;;;
        ide_write_loop n hd lba (secs_done + secs_op) sec_cnt buf
    end
  else kret tt.

Definition ide_write (hd : disk) (lba : Z) (buf : list Z) (sec_cnt : Z) : M unit :=
  ASSERT (lba <=? max_lba) ;;;
  ASSERT (0 <? sec_cnt) ;;;
  lock_acquire ;;;
  select_disk hd ;;;
  ide_write_loop (Z.to_nat (sec_cnt / 256 + 1)) hd lba 0 sec_cnt buf ;;;
  lock_release.
(** ** The parameters of a disk *)

(** [len] bytes from [dst + d] on are put to the start of [buf], swapped in pairs, and a NUL
    behind them. *)
Fixpoint swap_loop (n : nat) (dst : list Z) (d : Z) (buf : list Z) (idx len : Z) : outcome (list Z) :=
  if idx <? len then
    match n with
    | O => Err Diverges
    | S n =>
        let? a := rd dst d in
        let? buf := wr buf (idx + 1) a in
        let? b := rd dst (d + 1) in
        let? buf := wr buf idx b in
        swap_loop n dst (d + 2) buf (u8 (idx + 2)) len
    end
  else wr buf idx 0.
Definition swap_pairs_bytes (dst : list Z) (d : Z) (buf : list Z) (len : Z) : outcome (list Z) :=
  swap_loop (Z.to_nat len) dst d buf 0 len.

(** The serial number, the model and the number of sectors, which the code prints; [buf] is
    what the stack held in that array. *)
Definition identify_disk (hd : disk) (buf : list Z) : M (list Z * list Z * Z) :=
  select_disk hd ;;;
  cmd_out CMD_IDENTIFY ;;;
  wait_done ;;;
  ok <- busy_wait ;;
  (if negb (ok : bool) then PANIC else kret tt) ;;;
  id_info <- read_from_sector 1 ;;
  sn <- klift (swap_pairs_bytes id_info (10 * 2) buf 20) ;;
  md <- klift (swap_pairs_bytes id_info (27 * 2) (replicate 64 0) 40) ;;
  w <- klift (slice id_info (60 * 2) 4) ;;
  kret (sn, md, le_val w).
End ide.

(** ** The documented behaviour of a controller *)

(** A command: the device, the first sector, the number of sectors. *)
Definition request : Type := Z * Z * Z.
Inductive ata_phase : Type :=
| Idle | ReadStarted (q : request) | DataIn (q : request) | DataOut (q : request) | WriteDone
| IdentStarted (d : Z) | IdentIn (d : Z).
(** Data is waiting to be moved. *)
Definition data_requested (p : ata_phase) : bool :=
  match p with DataIn _ | DataOut _ | IdentIn _ => true | _ => false end.

(** Registers 2 to 6 of the command block as last written, and the contents of the two
    devices.  A controller takes the device, the 28 bits of the sector's number and the
    count (0 for 256) from them when the command is written to register 7; the interrupt
    says that the data can be read, or that it has been written; the status shows not busy
    and data requested while data is to be moved; the sectors of a command come and go in
    order through register 0.  The command IDENTIFY gives the 512 bytes that describe the
    device. *)
Class AtaLaws (A : Type) `{!AtaPorts A} : Type := {
  ata_base : Z;
  ata_phase_of : A -> ata_phase;
  ata_reg : A -> Z -> Z;
  ata_sector : A -> Z -> Z -> list Z;
  ata_identity : Z -> list Z;
  ata_base_range : 0 <= ata_base < 2 ^ 16 - 8;
  ata_sector_len : forall a d x, length (ata_sector a d x) = 512%nat;
  outb_reg : forall a i v, ata_phase_of a = Idle -> 2 <= i <= 6 -> 0 <= v < 256 ->
    let a' := ata_outb (ata_base + i) v a in
    ata_phase_of a' = Idle /\ (forall j, ata_reg a' j = if decide (j = i) then v else ata_reg a j) /\
    (forall d x, ata_sector a' d x = ata_sector a d x);
  outb_command : forall a v, ata_phase_of a = Idle -> v = CMD_READ_SECTOR \/ v = CMD_WRITE_SECTOR ->
    let r := ata_reg a in
    let q := ((r 6 / 16) mod 2, (r 6 mod 16) * 2 ^ 24 + r 5 * 2 ^ 16 + r 4 * 2 ^ 8 + r 3, if r 2 =? 0 then 256 else r 2) in
    let a' := ata_outb (ata_base + 7) v a in
    ata_phase_of a' = (if v =? CMD_READ_SECTOR then ReadStarted q else DataOut q) /\
    (forall d x, ata_sector a' d x = ata_sector a d x);
  irq_read : forall a q, ata_phase_of a = ReadStarted q ->
    exists a', ata_irq a = Some a' /\ ata_phase_of a' = DataIn q /\ (forall d x, ata_sector a' d x = ata_sector a d x);
  irq_write : forall a, ata_phase_of a = WriteDone ->
    exists a', ata_irq a = Some a' /\ ata_phase_of a' = Idle /\ (forall d x, ata_sector a' d x = ata_sector a d x);
  status_read : forall a, let r := ata_inb (ata_base + 7) a in
    ata_phase_of r.2 = ata_phase_of a /\ (forall d x, ata_sector r.2 d x = ata_sector a d x) /\
    (data_requested (ata_phase_of a) = true -> Z.land r.1 BIT_ALT_STAT_BSY = 0 /\ Z.land r.1 BIT_ALT_STAT_DRQ <> 0);
  ata_identity_len : forall d, length (ata_identity d) = 512%nat;
  outb_identify : forall a, ata_phase_of a = Idle -> let a' := ata_outb (ata_base + 7) CMD_IDENTIFY a in
    ata_phase_of a' = IdentStarted ((ata_reg a 6 / 16) mod 2) /\ (forall d x, ata_sector a' d x = ata_sector a d x);
  irq_identify : forall a d, ata_phase_of a = IdentStarted d ->
    exists a', ata_irq a = Some a' /\ ata_phase_of a' = IdentIn d /\ (forall d x, ata_sector a' d x = ata_sector a d x);
  data_identify : forall a d, ata_phase_of a = IdentIn d -> let r := ata_insw ata_base 256 a in
    r.1 = ata_identity d /\ ata_phase_of r.2 = Idle /\ (forall d x, ata_sector r.2 d x = ata_sector a d x);
  data_in : forall a d lba n, ata_phase_of a = DataIn (d, lba, n) -> 0 < n <= 256 -> 0 <= lba -> lba + n <= DISK_SECTORS ->
    let r := ata_insw ata_base (256 * n) a in
    r.1 = sectors_from (ata_sector a d) lba (Z.to_nat n) /\ ata_phase_of r.2 = Idle /\
    (forall d x, ata_sector r.2 d x = ata_sector a d x);
  data_out : forall a d lba n b, ata_phase_of a = DataOut (d, lba, n) -> 0 < n <= 256 -> 0 <= lba -> lba + n <= DISK_SECTORS ->
    512 * n <= Z.of_nat (length b) ->
    exists a', ata_outsw ata_base b (256 * n) a = Ok a' /\ ata_phase_of a' = WriteDone /\
      (forall d' x, ata_sector a' d' x = if decide (d' = d) then sector_after (ata_sector a d) lba b n x else ata_sector a d' x)
}.

(** ** One command *)

Section command.
Context {A : Type} `{!AtaPorts A, !AtaLaws A}.
Implicit Types (c : chan A) (hd : disk).

(** A channel nobody uses, with an idle controller. *)
Record chan_ready c : Prop := {
  cr_base : port_base c = ata_base;
  cr_irq : irq_no c = 0x2e \/ irq_no c = 0x2f;
  cr_done : disk_done c = 0;
  cr_idle : ata_phase_of (ata c) = Idle
}.
(** The same channel but for the controller and its interrupt. *)
Definition same_chan c c' : Prop :=
  port_base c' = port_base c /\ irq_no c' = irq_no c /\ ch_lock c' = ch_lock c /\ disk_done c' = disk_done c.
Definition same_sectors c c' : Prop := forall d x, ata_sector (ata c') d x = ata_sector (ata c) d x.

Lemma port_u16 i : 0 <= i <= 7 -> u16 (ata_base + i) = ata_base + i.
Proof. intros Hi. pose proof ata_base_range. rewrite u16_small; [done|lia]. Qed.

(** What a step keeps: the channel's fields and the sectors. *)
Definition keeps c c' : Prop := same_chan c c' /\ same_sectors c c'.
Lemma keeps_trans c1 c2 c3 : keeps c1 c2 -> keeps c2 c3 -> keeps c1 c3.
Proof.
  intros [(A1 & A2 & A3 & A4) A5] [(B1 & B2 & B3 & B4) B5]. split; [unfold same_chan; split_and!; congruence|].
  intros d x. by rewrite B5, A5.
Qed.

Lemma outb_run c i v : 2 <= i <= 6 -> ata_phase_of (ata c) = Idle ->
  exists c', outb (ata_base + i) v c = Ok (tt, c') /\ keeps c c' /\ expecting_intr c' = expecting_intr c /\
    ata_phase_of (ata c') = Idle /\ (forall j, ata_reg (ata c') j = if decide (j = i) then u8 v else ata_reg (ata c) j).
Proof.
  intros Hi Hp. eexists. split; [reflexivity|]. rewrite port_u16 by lia. assert (Hv : 0 <= u8 v < 256) by apply u8_range.
  destruct (outb_reg (ata c) i (u8 v) Hp Hi Hv) as (H1 & H2 & H3). by split_and!.
Qed.

(** The registers of the request of [n] sectors from [lba] on. *)
Definition requests (a : A) hd (lba n : Z) : Prop :=
  ata_reg a 2 = n mod 256 /\ ata_reg a 3 = lba mod 256 /\ ata_reg a 4 = lba / 256 mod 256 /\
  ata_reg a 5 = lba / 65536 /\ ata_reg a 6 = (if dev_no hd =? 1 then 0xf0 else 0xe0).

Lemma select_sector_run c hd lba n : port_base c = ata_base -> ata_phase_of (ata c) = Idle ->
  0 <= lba <= 163839 -> 0 < n <= 256 ->
  exists c', select_sector hd lba n c = Ok (tt, c') /\ keeps c c' /\ expecting_intr c' = expecting_intr c /\
    ata_phase_of (ata c') = Idle /\ requests (ata c') hd lba n.
Proof.
  intros Hb Hp Hl Hn. unfold select_sector.
  rewrite (kbind_ok _ _ c tt c) by (unfold ASSERT; change max_lba with 163839; by rewrite (proj2 (Z.leb_le lba 163839)) by lia).
  rewrite (kbind_ok _ _ c ata_base c) by (by rewrite <- Hb).
  destruct (outb_run c 2 (u8 n) ltac:(lia) Hp) as (c1 & E1 & K1 & X1 & P1 & R1). rewrite (kbind_ok _ _ _ _ _ E1).
  destruct (outb_run c1 3 lba ltac:(lia) P1) as (c2 & E2 & K2 & X2 & P2 & R2). rewrite (kbind_ok _ _ _ _ _ E2).
  destruct (outb_run c2 4 (Z.shiftr lba 8) ltac:(lia) P2) as (c3 & E3 & K3 & X3 & P3 & R3). rewrite (kbind_ok _ _ _ _ _ E3).
  destruct (outb_run c3 5 (Z.shiftr lba 16) ltac:(lia) P3) as (c4 & E4 & K4 & X4 & P4 & R4). rewrite (kbind_ok _ _ _ _ _ E4).
  destruct (outb_run c4 6 (Z.lor (Z.lor (Z.lor BIT_DEV_MBS BIT_DEV_LBA) (if dev_no hd =? 1 then BIT_DEV_DEV else 0)) (Z.shiftr lba 24))
    ltac:(lia) P4) as (c5 & E5 & K5 & X5 & P5 & R5).
  exists c5. split; [exact E5|]. split; [eauto 6 using keeps_trans|]. split; [congruence|]. split; [done|].
  unfold requests. rewrite !R5, !R4, !R3, !R2, !R1. cbn [decide decide_rel Z.eq_dec]. simpl.
  rewrite !Z.shiftr_div_pow2 by lia. change (2 ^ 24) with 16777216. change (2 ^ 16) with 65536. change (2 ^ 8) with 256.
  assert (E24 : lba / 16777216 = 0) by (apply Z.div_small; lia). rewrite E24. unfold u8. change (2 ^ 8) with 256.
  split_and!.
  - by rewrite Z.mod_mod.
  - done.
  - done.
  - apply Z.mod_small. split; [apply Z.div_pos; lia|apply Z.div_lt_upper_bound; lia].
  - by destruct (dev_no hd =? 1).
Qed.

Definition device_of hd : Z := if dev_no hd =? 1 then 1 else 0.

Lemma requests_decode a hd lba n : requests a hd lba n -> 0 <= lba <= 163839 -> 0 < n <= 256 ->
  let r := ata_reg a in
  ((r 6 / 16) mod 2, (r 6 mod 16) * 2 ^ 24 + r 5 * 2 ^ 16 + r 4 * 2 ^ 8 + r 3, if r 2 =? 0 then 256 else r 2)
  = (device_of hd, lba, n).
Proof.
  intros (R2 & R3 & R4 & R5 & R6) Hl Hn. cbv zeta. rewrite R2, R3, R4, R5, R6. unfold device_of. f_equal; [f_equal|].
  - by destruct (dev_no hd =? 1).
  - assert (E : (if dev_no hd =? 1 then 0xf0 else 0xe0) mod 16 = 0) by (by destruct (dev_no hd =? 1)). rewrite E.
    change (2 ^ 24) with 16777216. change (2 ^ 16) with 65536. change (2 ^ 8) with 256.
    pose proof (Z.div_mod lba 256 ltac:(lia)). pose proof (Z.div_mod (lba / 256) 256 ltac:(lia)) as H2.
    rewrite Z.div_div in H2 by lia. change (256 * 256) with 65536 in H2. lia.
  - destruct (decide (n = 256)) as [->|]; [done|]. rewrite Z.mod_small by lia. by rewrite (proj2 (Z.eqb_neq n 0)) by lia.
Qed.

Lemma cmd_out_run c hd lba n cmd : port_base c = ata_base -> ata_phase_of (ata c) = Idle -> requests (ata c) hd lba n ->
  0 <= lba <= 163839 -> 0 < n <= 256 -> cmd = CMD_READ_SECTOR \/ cmd = CMD_WRITE_SECTOR ->
  exists c', cmd_out cmd c = Ok (tt, c') /\ keeps c c' /\ expecting_intr c' = true /\
    ata_phase_of (ata c') = (if cmd =? CMD_READ_SECTOR then ReadStarted (device_of hd, lba, n) else DataOut (device_of hd, lba, n)).
Proof.
  intros Hb Hp Hr Hl Hn Hcmd. unfold cmd_out. rewrite (kbind_ok _ _ c tt (set_expecting true c)) by done.
  rewrite (kbind_ok _ _ (set_expecting true c) ata_base (set_expecting true c)) by (by rewrite <- Hb).
  eexists. split; [reflexivity|]. rewrite port_u16 by lia. cbn [ata set_expecting set_ata].
  assert (Hu : u8 cmd = cmd) by (destruct Hcmd as [-> | ->]; done). rewrite Hu.
  destruct (outb_command (ata c) cmd Hp Hcmd) as [H1 H2]. rewrite (requests_decode _ _ _ _ Hr Hl Hn) in H1.
  split; [by split|]. split; [done|exact H1].
Qed.

Lemma inb_run c : exists v c', inb (ata_base + 7) c = Ok (v, c') /\ keeps c c' /\ expecting_intr c' = expecting_intr c /\
  ata_phase_of (ata c') = ata_phase_of (ata c) /\
  (data_requested (ata_phase_of (ata c)) = true ->
   Z.land v BIT_ALT_STAT_BSY = 0 /\ Z.land v BIT_ALT_STAT_DRQ <> 0).
Proof.
  eexists _, _. split; [reflexivity|]. rewrite port_u16 by lia. destruct (status_read (ata c)) as (H1 & H2 & H3).
  split; [by split|]. split; [done|]. split; [exact H1|exact H3].
Qed.

(** Waiting for the interrupt of a command. *)
Lemma wait_done_run c a' ph : port_base c = ata_base -> irq_no c = 0x2e \/ irq_no c = 0x2f -> disk_done c = 0 ->
  expecting_intr c = true -> ata_irq (ata c) = Some a' -> ata_phase_of a' = ph ->
  (forall d x, ata_sector a' d x = ata_sector (ata c) d x) ->
  exists c', wait_done c = Ok (tt, c') /\ keeps c c' /\ ata_phase_of (ata c') = ph.
Proof.
  intros Hb Hi Hd He Ha Hp Hs. unfold wait_done. rewrite (kbind_ok _ _ c 0 c) by (by rewrite <- Hd). change (0 =? 0) with true. cbv iota.
  set (c1 := set_ata a' c). set (c2 := set_done 1 (set_expecting false c1)).
  destruct (inb_run c2) as (v & c3 & E3 & [S3 T3] & X3 & P3 & _).
  assert (Hh : intr_hd_handler (irq_no c) c1 = Ok (tt, c3)).
  { unfold intr_hd_handler.
    rewrite (kbind_ok _ _ c1 tt c1) by (by destruct Hi as [-> | ->]).
    rewrite (kbind_ok _ _ c1 (irq_no c) c1) by done. rewrite (kbind_ok _ _ c1 tt c1) by (unfold ASSERT; by rewrite Z.eqb_refl).
    rewrite (kbind_ok _ _ c1 true c1) by (by rewrite <- He).
    rewrite (kbind_ok _ _ c1 tt (set_expecting false c1)) by done.
    rewrite (kbind_ok _ _ _ 0 (set_expecting false c1)) by (by rewrite <- Hd).
    rewrite (kbind_ok _ _ _ tt c2) by done. rewrite (kbind_ok _ _ c2 ata_base c2) by (by rewrite <- Hb).
    by rewrite (kbind_ok _ _ _ _ _ E3). }
  rewrite (kbind_ok _ _ c tt c3) by (unfold sleep_irq; by rewrite Ha).
  destruct S3 as (S3a & S3b & S3c & S3d). rewrite (kbind_ok _ _ c3 1 c3) by (unfold kreads; by rewrite S3d). change (1 =? 0) with false. cbv iota.
  exists (set_done 0 c3). split; [done|]. split.
  - split; [unfold same_chan; split_and!; [done..|by rewrite Hd]|]. intros d x. etransitivity; [apply (T3 d x)|apply Hs].
  - etransitivity; [exact P3|exact Hp].
Qed.

Lemma busy_wait_run c : port_base c = ata_base -> data_requested (ata_phase_of (ata c)) = true ->
  exists c', busy_wait c = Ok (true, c') /\ keeps c c' /\ expecting_intr c' = expecting_intr c /\ ata_phase_of (ata c') = ata_phase_of (ata c).
Proof.
  intros Hb Hp. unfold busy_wait. remember (Z.to_nat 29999) as n eqn:En. destruct n as [|n]; [lia|]. clear En. cbn [busy_loop].
  rewrite (kbind_ok _ _ c ata_base c) by (by rewrite <- Hb).
  destruct (inb_run c) as (v & c1 & E1 & K1 & X1 & P1 & S1). rewrite (kbind_ok _ _ _ _ _ E1).
  destruct S1 as [S1 _]; [exact Hp|]. rewrite S1. change (0 =? 0) with true. cbv iota.
  destruct (inb_run c1) as (v2 & c2 & E2 & K2 & X2 & P2 & S2). rewrite (kbind_ok _ _ _ _ _ E2).
  destruct S2 as [_ S2]; [by rewrite P1|]. rewrite (proj2 (Z.eqb_neq _ _) S2). cbn [negb].
  exists c2. split; [done|]. split; [by apply (keeps_trans c c1)|]. split; congruence.
Qed.

Lemma size_words n : 0 < n <= 256 -> size_in_byte (u8 n) / 2 = 256 * n.
Proof.
  intros Hn. unfold size_in_byte, u8. change (2 ^ 8) with 256. destruct (decide (n = 256)) as [->|]; [done|].
  rewrite Z.mod_small by lia. rewrite (proj2 (Z.eqb_neq n 0)) by lia. replace (n * 512) with (256 * n * 2) by lia. by rewrite Z.div_mul.
Qed.

Lemma keeps_ready c c' : chan_ready c -> keeps c c' -> ata_phase_of (ata c') = Idle -> chan_ready c'.
Proof. intros [Hb Hi Hd Hp] [(A1 & A2 & A3 & A4) _] Hp'. split; [congruence|by rewrite A2|congruence|done]. Qed.

(** A read command gets the sectors it asks for. *)
Lemma read_command_run {B} (k : list Z -> KM (chan A) B) c hd lba n :
  chan_ready c -> 0 <= lba -> 0 < n <= 256 -> lba + n <= DISK_SECTORS ->
  exists c', keeps c c' /\ chan_ready c' /\
    (select_sector hd lba n ;;; cmd_out CMD_READ_SECTOR ;;; wait_done ;;; ok <- busy_wait ;;
      (if negb (ok : bool) then PANIC else kret tt) ;;; data <- read_from_sector n ;; k data) c
    = k (sectors_from (ata_sector (ata c) (device_of hd)) lba (Z.to_nat n)) c'.
Proof.
  intros Hr Hl Hn Hd. change DISK_SECTORS with 163840 in Hd. pose proof Hr as [Hb Hi Hd0 Hp].
  destruct (select_sector_run c hd lba n Hb Hp ltac:(lia) Hn) as (c1 & E1 & K1 & X1 & P1 & R1).
  pose proof K1 as [(B1 & I1 & L1 & D1) T1].
  destruct (cmd_out_run c1 hd lba n CMD_READ_SECTOR ltac:(congruence) P1 R1 ltac:(lia) Hn ltac:(by left)) as (c2 & E2 & K2 & X2 & P2).
  pose proof K2 as [(B2 & I2 & L2 & D2) T2].
  destruct (irq_read _ _ P2) as (a & Ha & Pa & Ta).
  destruct (wait_done_run c2 a (DataIn (device_of hd, lba, n)) ltac:(congruence) ltac:(rewrite I2, I1; exact Hi) ltac:(congruence)
    X2 Ha Pa Ta) as (c3 & E3 & K3 & P3).
  pose proof K3 as [(B3 & I3 & L3 & D3) T3].
  destruct (busy_wait_run c3 ltac:(congruence) ltac:(by rewrite P3)) as (c4 & E4 & K4 & X4 & P4).
  pose proof K4 as [(B4 & I4 & L4 & D4) T4].
  destruct (data_in (ata c4) (device_of hd) lba n (eq_trans P4 P3) Hn Hl ltac:(change DISK_SECTORS with 163840; lia)) as (R5 & P5 & T5).
  set (c5 := set_ata (ata_insw ata_base (256 * n) (ata c4)).2 c4).
  assert (E5 : read_from_sector n c4 = Ok (sectors_from (ata_sector (ata c) (device_of hd)) lba (Z.to_nat n), c5)).
  { unfold read_from_sector. rewrite (kbind_ok _ _ c4 ata_base c4) by (unfold kreads; by rewrite <- Hb, <- B1, <- B2, <- B3, <- B4).
    rewrite (size_words n Hn). unfold insw. rewrite (port_u16 0) by lia. rewrite Z.add_0_r. cbv zeta. rewrite R5.
    f_equal. f_equal. apply sectors_from_ext. intros x _. by rewrite <- T1, <- T2, <- T3, <- T4. }
  assert (K : keeps c c5) by (apply (keeps_trans c c4); [eauto 6 using keeps_trans|by split]).
  exists c5. split; [exact K|]. split; [by eapply keeps_ready|].
  by rewrite (kbind_ok _ _ _ _ _ E1), (kbind_ok _ _ _ _ _ E2), (kbind_ok _ _ _ _ _ E3), (kbind_ok _ _ _ _ _ E4),
    (kbind_ok _ _ c4 tt c4), (kbind_ok _ _ _ _ _ E5).
Qed.

(** A write command writes the first of the given bytes, and no other device. *)
Lemma write_command_run {B} (k : unit -> KM (chan A) B) c hd lba n b :
  chan_ready c -> 0 <= lba -> 0 < n <= 256 -> lba + n <= DISK_SECTORS -> 512 * n <= Z.of_nat (length b) ->
  exists c', same_chan c c' /\ chan_ready c' /\
    (forall d x, ata_sector (ata c') d x = if decide (d = device_of hd)
       then sector_after (ata_sector (ata c) d) lba b n x else ata_sector (ata c) d x) /\
    (select_sector hd lba n ;;; cmd_out CMD_WRITE_SECTOR ;;; ok <- busy_wait ;;
      (if negb (ok : bool) then PANIC else kret tt) ;;; write_to_sector b n ;;; (u <- wait_done ;; k u)) c = k tt c'.
Proof.
  intros Hr Hl Hn Hd Hlen. change DISK_SECTORS with 163840 in Hd. pose proof Hr as [Hb Hi Hd0 Hp].
  destruct (select_sector_run c hd lba n Hb Hp ltac:(lia) Hn) as (c1 & E1 & K1 & X1 & P1 & R1).
  pose proof K1 as [(B1 & I1 & L1 & D1) T1].
  destruct (cmd_out_run c1 hd lba n CMD_WRITE_SECTOR ltac:(congruence) P1 R1 ltac:(lia) Hn ltac:(by right)) as (c2 & E2 & K2 & X2 & P2).
  pose proof K2 as [(B2 & I2 & L2 & D2) T2].
  destruct (busy_wait_run c2 ltac:(congruence) ltac:(by rewrite P2)) as (c3 & E3 & K3 & X3 & P3).
  pose proof K3 as [(B3 & I3 & L3 & D3) T3].
  destruct (data_out (ata c3) (device_of hd) lba n b (eq_trans P3 P2) Hn Hl ltac:(change DISK_SECTORS with 163840; lia) Hlen)
    as (a4 & E4 & P4 & T4).
  set (c4 := set_ata a4 c3).
  assert (E4' : write_to_sector b n c3 = Ok (tt, c4)).
  { unfold write_to_sector. rewrite (kbind_ok _ _ c3 ata_base c3) by (unfold kreads; by rewrite <- Hb, <- B1, <- B2, <- B3).
    rewrite (size_words n Hn). unfold outsw. rewrite (port_u16 0) by lia. by rewrite Z.add_0_r, E4. }
  destruct (irq_write a4 P4) as (a5 & Ha & Pa & Ta).
  destruct (wait_done_run c4 a5 Idle ltac:(cbn [port_base set_ata c4]; congruence) ltac:(cbn [irq_no set_ata c4]; rewrite I3, I2, I1; exact Hi)
    ltac:(cbn [disk_done set_ata c4]; congruence) ltac:(cbn [expecting_intr set_ata c4]; congruence) Ha Pa Ta) as (c5 & E5 & K5 & P5).
  pose proof K5 as [(B5 & I5 & L5 & D5) T5]. cbn [port_base irq_no ch_lock disk_done c4 set_ata] in *.
  assert (S : same_chan c c5) by (unfold same_chan; split_and!; congruence).
  exists c5. split; [exact S|]. split; [|split].
  - destruct S as (S1 & S2 & S3 & S4). split; [congruence|by rewrite S2|congruence|exact P5].
  - intros d x. rewrite T5. cbn [ata c4 set_ata]. rewrite T4. case_decide as Hdd; [|by rewrite T3, T2, T1].
    unfold sector_after. case_decide; [done|]. by rewrite T3, T2, T1, Hdd.
  - by rewrite (kbind_ok _ _ _ _ _ E1), (kbind_ok _ _ _ _ _ E2), (kbind_ok _ _ _ _ _ E3), (kbind_ok _ _ c3 tt c3),
      (kbind_ok _ _ _ _ _ E4'), (kbind_ok _ _ _ _ _ E5).
Qed.

(** ** The loops over commands *)

Lemma next_op_range done cnt : 0 <= done < cnt -> cnt <= DISK_SECTORS ->
  0 < next_op done cnt <= 256 /\ done + next_op done cnt <= cnt /\ (next_op done cnt = 256 \/ next_op done cnt = cnt - done).
Proof.
  intros Hd Hc. change DISK_SECTORS with 163840 in Hc. unfold next_op. rewrite u32_small by lia.
  destruct (Z.leb_spec (done + 256) cnt); lia.
Qed.

Lemma ide_read_loop_run n hd lba cnt : 0 <= lba -> lba + cnt <= DISK_SECTORS -> forall c done buf,
  chan_ready c -> 0 <= done <= cnt -> cnt - done <= 256 * Z.of_nat n ->
  exists c', ide_read_loop n hd lba done cnt buf c
      = Ok (buf ++ sectors_from (ata_sector (ata c) (device_of hd)) (lba + done) (Z.to_nat (cnt - done)), c') /\
    keeps c c' /\ chan_ready c'.
Proof.
  intros Hl Hlc. induction n as [|n IH]; intros c done buf Hr Hd Hn; unfold ide_read_loop; fold (@ide_read_loop A _).
  all: destruct (Z.ltb_spec done cnt) as [Hlt|Hge];
    [|exists c; replace (cnt - done) with 0 by lia; rewrite app_nil_r; by split_and!].
  { lia. }
  destruct (next_op_range done cnt ltac:(lia) ltac:(lia)) as (Ho & Hle & Hop). remember (next_op done cnt) as op eqn:Eop.
  change DISK_SECTORS with 163840 in Hlc. rewrite u32_small by lia.
  destruct (read_command_run (fun data => ide_read_loop n hd lba (done + op) cnt (buf ++ data)) c hd (lba + done) op Hr
    ltac:(lia) Ho ltac:(change DISK_SECTORS with 163840; lia)) as (c1 & K1 & R1 & ->).
  destruct (IH c1 (done + op) (buf ++ sectors_from (ata_sector (ata c) (device_of hd)) (lba + done) (Z.to_nat op)) R1
    ltac:(lia) ltac:(lia)) as (c2 & E2 & K2 & R2).
  exists c2. split; [|split; [by eapply keeps_trans|done]]. rewrite E2. f_equal. f_equal. rewrite <- app_assoc. f_equal.
  replace (Z.to_nat (cnt - done)) with (Z.to_nat op + Z.to_nat (cnt - (done + op)))%nat by lia. rewrite sectors_from_app.
  replace (lba + (done + op)) with (lba + done + Z.of_nat (Z.to_nat op)) by lia. f_equal.
  apply sectors_from_ext. intros x _. by destruct K1 as [_ ->].
Qed.

(** Sectors [lba + done] to [lba + cnt] of the device are those of the bytes. *)
Definition written_from (sec : Z -> list Z) (lba done cnt : Z) (b : list Z) (x : Z) : list Z :=
  if decide (lba + done <= x < lba + cnt) then take 512 (drop (Z.to_nat (512 * (x - lba))) b) else sec x.

Lemma ide_write_loop_run n hd lba cnt b : 0 <= lba -> lba + cnt <= DISK_SECTORS -> 512 * cnt <= Z.of_nat (length b) ->
  forall c done, chan_ready c -> 0 <= done <= cnt -> cnt - done <= 256 * Z.of_nat n ->
  exists c', ide_write_loop n hd lba done cnt b c = Ok (tt, c') /\ same_chan c c' /\ chan_ready c' /\
    (forall d x, ata_sector (ata c') d x = if decide (d = device_of hd)
       then written_from (ata_sector (ata c) d) lba done cnt b x else ata_sector (ata c) d x).
Proof.
  intros Hl Hlc Hb. induction n as [|n IH]; intros c done Hr Hd Hn; unfold ide_write_loop; fold (@ide_write_loop A _).
  all: destruct (Z.ltb_spec done cnt) as [Hlt|Hge];
    [|exists c; split; [done|]; split; [by split_and!|]; split; [done|];
      intros d x; case_decide; [unfold written_from; rewrite decide_False by lia|]; done].
  { lia. }
  destruct (next_op_range done cnt ltac:(lia) ltac:(lia)) as (Ho & Hle & Hop). remember (next_op done cnt) as op eqn:Eop.
  change DISK_SECTORS with 163840 in Hlc. rewrite u32_small by lia.
  destruct (write_command_run (fun _ => ide_write_loop n hd lba (done + op) cnt b) c hd (lba + done) op
    (drop (Z.to_nat (done * 512)) b) Hr ltac:(lia) Ho ltac:(change DISK_SECTORS with 163840; lia)
    ltac:(rewrite length_drop; lia)) as (c1 & (B1 & I1 & L1 & D1) & R1 & T1 & ->).
  destruct (IH c1 (done + op) R1 ltac:(lia) ltac:(lia)) as (c2 & -> & (B2 & I2 & L2 & D2) & R2 & T2).
  exists c2. split; [done|]. split; [unfold same_chan; split_and!; congruence|]. split; [done|].
  intros d x. rewrite T2, T1. case_decide; [|done]. unfold written_from, sector_after. rewrite T1. unfold sector_after.
  destruct (decide (d = device_of hd)); [|done].
  repeat case_decide; try lia; [done| |done]. rewrite drop_drop. do 2 f_equal. lia.
Qed.

(** ** The driver as a block device *)

(** Ready to be used by the thread, which may have the lock already. *)
Definition driver_ready c : Prop := chan_ready c /\ 0 <= ch_lock c.

Lemma select_disk_run c hd : chan_ready c -> exists c', select_disk hd c = Ok (tt, c') /\ keeps c c' /\ chan_ready c'.
Proof.
  intros Hr. pose proof Hr as [Hb _ _ Hp]. unfold select_disk. cbv zeta. rewrite (kbind_ok _ _ c ata_base c) by (by rewrite <- Hb).
  destruct (outb_run c 6 (if dev_no hd =? 1 then Z.lor (Z.lor BIT_DEV_MBS BIT_DEV_LBA) BIT_DEV_DEV
    else Z.lor BIT_DEV_MBS BIT_DEV_LBA) ltac:(lia) Hp) as (c1 & E1 & K1 & _ & P1 & _).
  exists c1. split; [exact E1|]. split; [done|]. by eapply keeps_ready.
Qed.

Lemma set_lock_ready c v : chan_ready c -> chan_ready (set_lock v c).
Proof. intros [????]. by constructor. Qed.

Lemma lock_release_run c v : 0 <= v -> ch_lock c = v + 1 -> lock_release c = Ok (tt, set_lock v c).
Proof.
  intros Hv Hc. unfold lock_release. rewrite (kbind_ok _ _ c (v + 1) c) by (unfold kreads; by rewrite Hc).
  rewrite (kbind_ok _ _ c tt c) by (unfold ASSERT; by rewrite (proj2 (Z.ltb_lt 0 (v + 1))) by lia).
  unfold kmod. do 3 f_equal. lia.
Qed.

(** What both transfers do before their loop: the assertions, the lock, the device. *)
Lemma transfer_start_run {B} (k : KM (chan A) B) c hd lba cnt :
  driver_ready c -> 0 <= lba -> 0 < cnt -> lba + cnt <= DISK_SECTORS ->
  exists c', keeps (set_lock (ch_lock c + 1) c) c' /\ chan_ready c' /\
    (ASSERT (lba <=? max_lba) ;;; ASSERT (0 <? cnt) ;;; lock_acquire ;;; select_disk hd ;;; k) c = k c'.
Proof.
  intros [Hr Hk] Hl Hc Hd. change DISK_SECTORS with 163840 in Hd.
  destruct (select_disk_run (set_lock (ch_lock c + 1) c) hd (set_lock_ready _ _ Hr)) as (c1 & E1 & K1 & R1).
  exists c1. split; [done|]. split; [done|].
  rewrite (kbind_ok _ _ c tt c) by (unfold ASSERT; change max_lba with 163839; by rewrite (proj2 (Z.leb_le lba 163839)) by lia).
  rewrite (kbind_ok _ _ c tt c) by (unfold ASSERT; by rewrite (proj2 (Z.ltb_lt 0 cnt)) by lia).
  rewrite (kbind_ok _ _ c tt (set_lock (ch_lock c + 1) c)) by done. by rewrite (kbind_ok _ _ _ _ _ E1).
Qed.

Lemma fuel_enough cnt : 0 < cnt -> cnt - 0 <= 256 * Z.of_nat (Z.to_nat (cnt / 256 + 1)).
Proof. intros Hc. pose proof (Z.div_mod cnt 256 ltac:(lia)). pose proof (Z.mod_pos_bound cnt 256 ltac:(lia)).
  pose proof (Z.div_pos cnt 256 ltac:(lia) ltac:(lia)). lia. Qed.

Lemma driver_read_run c hd lba cnt : driver_ready c -> 0 <= lba -> 0 < cnt -> lba + cnt <= DISK_SECTORS ->
  exists c', ide_read hd lba cnt c = Ok (sectors_from (ata_sector (ata c) (device_of hd)) lba (Z.to_nat cnt), c') /\
    keeps c c' /\ driver_ready c'.
Proof.
  intros Hr Hl Hc Hd. unfold ide_read. pose proof Hr as [_ Hk].
  destruct (transfer_start_run (buf <- ide_read_loop (Z.to_nat (cnt / 256 + 1)) hd lba 0 cnt [] ;; lock_release ;;; kret buf)
    c hd lba cnt Hr Hl Hc Hd) as (c1 & [(B1 & I1 & L1 & D1) T1] & R1 & ->).
  destruct (ide_read_loop_run (Z.to_nat (cnt / 256 + 1)) hd lba cnt Hl Hd c1 0 [] R1 ltac:(lia) (fuel_enough cnt Hc))
    as (c2 & E2 & [(B2 & I2 & L2 & D2) T2] & R2).
  rewrite (kbind_ok _ _ _ _ _ E2), (kbind_ok _ _ c2 tt (set_lock (ch_lock c) c2))
    by (apply lock_release_run; [done|by rewrite L2, L1]).
  exists (set_lock (ch_lock c) c2). split.
  - unfold kret. f_equal. f_equal. cbn [app]. rewrite Z.add_0_r, Z.sub_0_r. apply sectors_from_ext. intros x _. by rewrite T1.
  - split; [split|].
    + unfold same_chan. cbn [port_base irq_no ch_lock disk_done set_lock]. split_and!; [by rewrite B2, B1|by rewrite I2, I1|done|by rewrite D2, D1].
    + intros d x. cbn [ata set_lock]. by rewrite T2, T1.
    + split; [by apply set_lock_ready|done].
Qed.

Lemma driver_write_run c hd lba cnt b : driver_ready c -> 0 <= lba -> 0 < cnt -> lba + cnt <= DISK_SECTORS ->
  512 * cnt <= Z.of_nat (length b) ->
  exists c', ide_write hd lba b cnt c = Ok (tt, c') /\ same_chan c c' /\ driver_ready c' /\
    (forall d x, ata_sector (ata c') d x = if decide (d = device_of hd)
       then sector_after (ata_sector (ata c) d) lba b cnt x else ata_sector (ata c) d x).
Proof.
  intros Hr Hl Hc Hd Hb. unfold ide_write. pose proof Hr as [_ Hk].
  destruct (transfer_start_run (ide_write_loop (Z.to_nat (cnt / 256 + 1)) hd lba 0 cnt b ;;; lock_release) c hd lba cnt Hr Hl Hc Hd)
    as (c1 & [(B1 & I1 & L1 & D1) T1] & R1 & ->).
  destruct (ide_write_loop_run (Z.to_nat (cnt / 256 + 1)) hd lba cnt b Hl Hd Hb c1 0 R1 ltac:(lia) (fuel_enough cnt Hc))
    as (c2 & E2 & (B2 & I2 & L2 & D2) & R2 & T2).
  rewrite (kbind_ok _ _ _ _ _ E2). exists (set_lock (ch_lock c) c2).
  split; [apply lock_release_run; [done|by rewrite L2, L1]|]. split; [|split].
  - unfold same_chan. cbn [port_base irq_no ch_lock disk_done set_lock]. split_and!; [by rewrite B2, B1|by rewrite I2, I1|done|by rewrite D2, D1].
  - split; [by apply set_lock_ready|done].
  - intros d x. cbn [ata set_lock]. rewrite T2. unfold written_from, sector_after. rewrite T1. cbn [ata set_lock].
    by rewrite Z.add_0_r.
Qed.

(** The interface of the file system, by the driver for one disk. *)
Definition ide_block_dev (hd : disk) : BlockDev (chan A) := {|
  disk_read lba cnt c := ide_read hd lba cnt c;
  disk_write lba b cnt c := match ide_write hd lba b cnt c with Ok (_, c') => Ok c' | Err e => Err e end
|}.
#[program] Definition ide_block_laws (hd : disk) : @BlockDevLaws (chan A) (ide_block_dev hd) :=
  let _ := ide_block_dev hd in {|
  sector c x := ata_sector (ata c) (device_of hd) x;
  disk_ready c := driver_ready c
|}.
Next Obligation. intros. apply ata_sector_len. Qed.
Next Obligation.
  intros hd ? c lba cnt Hr Hl Hc Hd. destruct (driver_read_run c hd lba cnt Hr Hl Hc Hd) as (c' & E & K & R).
  exists c'. split; [exact E|]. split; [exact R|]. intros x. by destruct K as [_ ->].
Qed.
Next Obligation.
  intros hd ? c lba b cnt Hr Hl Hc Hd Hb. destruct (driver_write_run c hd lba cnt b Hr Hl Hc Hd Hb) as (c' & E & _ & R & T).
  exists c'. split; [unfold disk_write, ide_block_dev; by rewrite E|]. split; [exact R|]. intros x. by rewrite T, decide_True.
Qed.
End command.

(** ** Correctness of the driver *)


(** A controller: its registers, its phase and its disks. *)
Record plain_ata : Type := PlainAta { pa_phase : ata_phase; pa_reg : Z -> Z; pa_disk : Z -> Z -> list Z }.
Definition pa_sector (a : plain_ata) (d x : Z) : list Z := take 512 (pa_disk a d x ++ replicate 512 0).
Definition pa_command (a : plain_ata) (v : Z) : plain_ata :=
  let r := pa_reg a in
  let q := ((r 6 / 16) mod 2, (r 6 mod 16) * 2 ^ 24 + r 5 * 2 ^ 16 + r 4 * 2 ^ 8 + r 3, if r 2 =? 0 then 256 else r 2) in
  PlainAta (if v =? CMD_IDENTIFY then IdentStarted ((r 6 / 16) mod 2) else if v =? CMD_READ_SECTOR then ReadStarted q else DataOut q)
    r (pa_disk a).
(** Words 10 to 19 are the serial number, 27 to 46 the model, 60 and 61 the number of sectors. *)
Definition pa_identity (d : Z) : list Z :=
  replicate 20 0 ++ replicate 20 65 ++ replicate 14 0 ++ replicate 40 (66 + d) ++ replicate 26 0 ++ le_bytes 4 163840 ++ replicate 388 0.
Definition pa_status (a : plain_ata) : Z := if data_requested (pa_phase a) then 0x58 else 0xd0.

#[export] Instance plain_ports : AtaPorts plain_ata := {|
  ata_outb p v a := if p =? 0x1f7 then pa_command a v
    else PlainAta (pa_phase a) (fun j => if decide (j = p - 0x1f0) then v else pa_reg a j) (pa_disk a);
  ata_inb _ a := (pa_status a, a);
  ata_insw _ _ a := match pa_phase a with
    | DataIn (d, lba, n) => (sectors_from (pa_sector a d) lba (Z.to_nat n), PlainAta Idle (pa_reg a) (pa_disk a))
    | IdentIn d => (pa_identity d, PlainAta Idle (pa_reg a) (pa_disk a))
    | _ => ([], a) end;
  ata_outsw _ b _ a := match pa_phase a with
    | DataOut (d, lba, n) => Ok (PlainAta WriteDone (pa_reg a)
        (fun d' x => if decide (d' = d) then sector_after (pa_sector a d) lba b n x else pa_disk a d' x))
    | _ => Err AssertFail end;
  ata_irq a := match pa_phase a with
    | ReadStarted q => Some (PlainAta (DataIn q) (pa_reg a) (pa_disk a))
    | WriteDone => Some (PlainAta Idle (pa_reg a) (pa_disk a))
    | IdentStarted d => Some (PlainAta (IdentIn d) (pa_reg a) (pa_disk a))
    | _ => None end;
  ata_sleep a := a
|}.

Lemma pad_sector (l : list Z) : length l = 512%nat -> take 512 (l ++ replicate 512 0) = l.
Proof. intros Hl. rewrite take_app_le by lia. apply take_ge. lia. Qed.

#[export, program] Instance plain_laws : AtaLaws plain_ata := {|
  ata_base := 0x1f0; ata_phase_of := pa_phase; ata_reg := pa_reg; ata_sector := pa_sector; ata_identity := pa_identity
|}.
Next Obligation. done. Qed.
Next Obligation. intros. unfold pa_sector. rewrite length_take, length_app, length_replicate. lia. Qed.
Next Obligation. intros a i v Hp Hi Hv. cbn [ata_outb plain_ports]. rewrite (proj2 (Z.eqb_neq _ _)) by lia. cbv zeta.
  split; [done|]. split; [|done]. intros j. cbn [pa_reg]. by replace (0x1f0 + i - 0x1f0) with i by lia. Qed.
Next Obligation. intros a v Hp [-> | ->]; done. Qed.
Next Obligation. intros a q Hp. eexists. cbn [ata_irq plain_ports]. rewrite Hp. by split_and!. Qed.
Next Obligation. intros a Hp. eexists. cbn [ata_irq plain_ports]. rewrite Hp. by split_and!. Qed.
Next Obligation. intros a. cbn [ata_inb plain_ports]. cbv zeta. split; [done|]. split; [done|].
  intros Hq. cbn [fst]. unfold pa_status. change (ata_phase_of a) with (pa_phase a) in Hq. by rewrite Hq. Qed.
Next Obligation. done. Qed.
Next Obligation. done. Qed.
Next Obligation. intros a d Hp. eexists. cbn [ata_irq plain_ports]. rewrite Hp. by split_and!. Qed.
Next Obligation. intros a d Hp. cbn [ata_insw plain_ports]. rewrite Hp. by split_and!. Qed.
Next Obligation. intros a d lba n Hp Hn Hl Hd. cbn [ata_insw plain_ports]. rewrite Hp. by split_and!. Qed.
Next Obligation.
  intros a d lba n b Hp Hn Hl Hd Hb. cbn [ata_outsw plain_ports]. rewrite Hp. eexists. split; [reflexivity|]. split; [done|].
  intros d' x. unfold pa_sector at 1. cbn [pa_disk]. case_decide; [|done]. unfold sector_after. case_decide; apply pad_sector.
  - rewrite length_take, length_drop. lia.
  - unfold pa_sector. rewrite length_take, length_app, length_replicate. lia.
Qed.

