(* ===== verification/Shell.v ===== *)
(** * Shell: the command line of shell/shell.c and the commands of shell/buildin_cmd.c

    The shell is a user program: its global buffers and its [argv] are the state here, the
    kernel is behind an interface of system calls.  A [char *] of [argv] points into
    [cmd_line] or to [final_path].  Reading a line is shown to be line editing, parsing it
    to be cutting it into words, and the commands on paths to give the kernel nothing but
    clean absolute paths. *)

From Stdlib Require Import Ascii String.
From S2P Require Import Prelude Bitmap Interrupt DList Sched Task Ioqueue Disk Inode Cstring Words Dir File Path Format Pipe Fs CleanPath Stdio.
Close Scope string_scope.

#[local] Set Default Proof Using "Type*".

Definition cmd_len : Z := 128.
Definition MAX_ARG_NR : Z := 16.
Definition stdin_no : Z := 0.

(** ** The system calls *)

(** [u_read] returns the result and the bytes put into the buffer; [u_pipe] the result and
    the two descriptors; [u_wait] the pid and the status.  [u_execv] returns [None] when
    the process runs another program from there on; [u_fork] is what one process sees. *)
Class ShellCalls (U : Type) : Type := {
  u_read : Z -> Z -> KM U (Z * list Z);
  u_write : Z -> list Z -> Z -> KM U Z;
  u_putchar : Z -> KM U unit;
  u_clear : KM U unit;
  u_ps : KM U unit;
  u_help : KM U unit;
  u_getcwd : list Z -> Z -> KM U (option (list Z));
  u_chdir : list Z -> KM U Z;
  u_mkdir : list Z -> KM U Z;
  u_create : list Z -> KM U Z;
  u_rmdir : list Z -> KM U Z;
  u_unlink : list Z -> KM U Z;
  u_stat : list Z -> stat -> KM U (Z * stat);
  u_opendir : list Z -> KM U Z;
  u_rewinddir : Z -> KM U unit;
  u_readdir : Z -> KM U (option dir_entry);
  u_closedir : Z -> KM U Z;
  u_fork : KM U Z;
  u_wait : KM U (Z * Z);
  u_execv : list Z -> list (list Z) -> KM U (option Z);
  u_pipe : KM U (Z * Z * Z);
  u_fd_redirect : Z -> Z -> KM U unit;
  u_close : Z -> KM U Z
}.

(** ** The program's data *)

(** A pointer into [cmd_line], or the one to [final_path]. *)
Inductive pointer : Type := InLine (o : Z) | InPath.

Record shell (U : Type) : Type := Shell {
  cmd_line : list Z; final_path : list Z; cwd_cache : list Z; argv : list (option pointer); kernel : U
}.
Arguments Shell {U}.
Arguments cmd_line {U} _.
Arguments final_path {U} _.
Arguments cwd_cache {U} _.
Arguments argv {U} _.
Arguments kernel {U} _.

(** What is given to [printf] after the format. *)
Inductive print_arg : Type := Num (w : Z) | Str (b : list Z).

Definition cstr (t : string) : list Z := bytes_of t ++ [0].
Definition cline (t : string) : list Z := bytes_of t ++ [10; 0].

Section shell.
Context {U : Type} `{!ShellCalls U}.
Notation M := (KM (shell U)).

Definition set_line (b : list Z) (s : shell U) : shell U := Shell b (final_path s) (cwd_cache s) (argv s) (kernel s).
Definition set_path (b : list Z) (s : shell U) : shell U := Shell (cmd_line s) b (cwd_cache s) (argv s) (kernel s).
Definition set_cwd (b : list Z) (s : shell U) : shell U := Shell (cmd_line s) (final_path s) b (argv s) (kernel s).
Definition set_argv (a : list (option pointer)) (s : shell U) : shell U := Shell (cmd_line s) (final_path s) (cwd_cache s) a (kernel s).

Definition call {A} (m : KM U A) : M A := fun s =>
  match m (kernel s) with
  | Ok (a, k) => Ok (a, Shell (cmd_line s) (final_path s) (cwd_cache s) (argv s) k)
  | Err e => Err e
  end.

(** A string argument is the word that says which one it is. *)
Definition arg_word (i : nat) (a : print_arg) : Z := match a with Num w => w | Str _ => Z.of_nat i end.
Definition arg_object (args : list print_arg) (w : Z) : outcome (list Z) :=
  match args !! Z.to_nat w with Some (Str b) => Ok b | _ => Err OutOfBounds end.

Definition printf (format : list Z) (args : list print_arg) : M Z :=
  buf <- klift (print_buf (arg_object args) format (imap arg_word args)) ;;
  n <- klift (strlen buf (Some 0)) ;;
  call (u_write 1 buf n).

(** What [p] points to. *)
Definition target (p : pointer) : M (list Z) :=
  match p with InLine o => m <- kreads cmd_line ;; kret (drop (Z.to_nat o) m) | InPath => kreads final_path end.
(** [argv\[i\]], which must not be [NULL] where it is used. *)
Definition arg (i : Z) : M (list Z) :=
  l <- kreads argv ;;
  p <- klift (rd l i) ;;
  match p with Some p => target p | None => kfail OutOfBounds end.

(** ** Reading a line *)

Definition print_prompt : M unit :=
  c <- kreads cwd_cache ;;
  printf (cstr "[rabbit@localhost %s]$ ") [Str c] ;;;
  kret tt.

Definition store (pos v : Z) : M unit :=
  m <- kreads cmd_line ;;
  m <- klift (wr m pos v) ;;
  kmod (set_line m).

(** [while (buf != pos)] of Ctrl-U. *)
Fixpoint erase_loop (n : nat) (pos : Z) : M Z :=
  match n with
  | O => kret pos
  | S n =>
      call (u_putchar 8) ;;;
      store pos 0 ;;;
      erase_loop n (pos - 1)
  end.

(** The key at [pos] is handled: the new position, [None] at the end of the line. *)
Definition key (pos : Z) : M (option Z) :=
  m <- kreads cmd_line ;;
  c <- klift (rd m pos) ;;
  if (c =? 10) || (c =? 13) then
    store pos 0 ;;;
    call (u_putchar 10) ;;;
    kret None
  else if c =? 8 then
    m <- kreads cmd_line ;;
    c0 <- klift (rd m 0) ;;
    if negb (c0 =? 8) then
      call (u_putchar 8) ;;;
      kret (Some (pos - 1))
    else kret (Some pos)
  else if c =? 108 - 97 then
    store pos 0 ;;;
    call u_clear ;;;
    print_prompt ;;;
    m <- kreads cmd_line ;;
    printf (cstr "%s") [Str m] ;;;
    kret (Some pos)
  else if c =? 117 - 97 then
    pos <- erase_loop (Z.to_nat pos) pos ;;
    kret (Some pos)
  else
    call (u_putchar c) ;;;
    kret (Some (pos + 1)).

Definition too_long : list Z := cline "readline: can`t find enter_key in the cmd_line, max num of char is 128".

(** [read(stdin_no, pos, 1)]. *)
Definition read_one (pos : Z) : M Z :=
  r <- call (u_read stdin_no 1) ;;
  m <- kreads cmd_line ;;
  m <- klift (splice m pos r.2) ;;
  kmod (set_line m) ;;;
  kret r.1.

(** [readline(cmd_line, count)]; [n] bounds the keys. *)
Fixpoint readline (n : nat) (pos count : Z) : M unit :=
  match n with
  | O => kfail Diverges
  | S n =>
      r <- read_one pos ;;
      if negb (r =? -1) && (pos <? count) then
        next <- key pos ;;
        match next with
        | None => kret tt
        | Some pos => readline n pos count
        end
      else
        printf too_long [] ;;;
        kret tt
  end.

(** ** Cutting a line into words *)

Fixpoint skip_token (n : nat) (m : list Z) (next token : Z) : outcome Z :=
  match n with
  | O => Err Diverges
  | S n =>
      let? c := rd m next in
      if c =? token then skip_token n m (next + 1) token else Ok next
  end.
Fixpoint word_end (n : nat) (m : list Z) (next token : Z) : outcome Z :=
  match n with
  | O => Err Diverges
  | S n =>
      let? c := rd m next in
      if negb (c =? 0) && negb (c =? token) then word_end n m (next + 1) token else Ok next
  end.

Fixpoint clear_argv (n : nat) (argv : list (option pointer)) (arg_idx : Z) : outcome (list (option pointer)) :=
  match n with
  | O => Ok argv
  | S n =>
      let? argv := wr argv arg_idx None in
      clear_argv n argv (arg_idx + 1)
  end.

(** The number of words, the pointers to them and the line with its words ended. *)
Fixpoint parse_loop (n : nat) (m : list Z) (next : Z) (argv : list (option pointer)) (argc token : Z) :
  outcome (Z * list (option pointer) * list Z) :=
  match n with
  | O => Err Diverges
  | S n =>
      let? c := rd m next in
      if c =? 0 then Ok (argc, argv, m) else
      let? next := skip_token (S (length m)) m next token in
      let? c := rd m next in
      if c =? 0 then Ok (argc, argv, m) else
      let? argv := wr argv argc (Some (InLine next)) in
      let? next := word_end (S (length m)) m next token in
      let? c := rd m next in
      let? p := (if negb (c =? 0) then let? m := wr m next 0 in Ok (m, next + 1) else Ok (m, next)) in
      if MAX_ARG_NR <? argc then Ok (-1, argv, p.1)
      else parse_loop n p.1 p.2 argv (argc + 1) token
  end.

(** [cmd_parse(cmd_line + o, argv, token)]. *)
Definition cmd_parse (o token : Z) : M Z :=
  a <- kreads argv ;;
  a <- klift (clear_argv (Z.to_nat MAX_ARG_NR) a 0) ;;
  m <- kreads cmd_line ;;
  r <- klift (parse_loop (S (length m)) m o a 0 token) ;;
  kmod (set_argv r.1.2) ;;;
  kmod (set_line r.2) ;;;
  kret r.1.1.

(** ** The commands *)

Definition clear_final (path : list Z) : M unit :=
  f <- kreads final_path ;;
  f <- call (make_clear_abs_path u_getcwd path f) ;;
  kmod (set_path f).

(** The common shape of the commands on one path: the messages for a wrong number of
    arguments and for a failure, and the system call. *)
Definition path_command (op : list Z -> KM U Z) (usage failed : list Z) (argc : Z) : M Z :=
  if negb (argc =? 2) then
    printf usage [] ;;;
    kret (-1)
  else
    a <- arg 1 ;;
    clear_final a ;;;
    f <- kreads final_path ;;
    r <- klift (strcmp s_root 0 f 0) ;;
    if negb (r =? 0) then
      rc <- call (op f) ;;
      if rc =? 0 then kret 0
      else
        a <- arg 1 ;;
        printf failed [Str a] ;;;
        kret (-1)
    else kret (-1).

Definition buildin_mkdir (argc : Z) : M Z :=
  path_command u_mkdir (cline "mkdir: only support 1 argument!") (cline "mkdir: create directory %s failed.") argc.
Definition buildin_touch (argc : Z) : M Z :=
  path_command u_create (cline "mkdir: only support 1 argument!") (cline "mkdir: create directory %s failed.") argc.
Definition buildin_rmdir (argc : Z) : M Z :=
  path_command u_rmdir (cline "rmdir: only support 1 argument!") (cline "rmdir: remove %s failed.") argc.
Definition buildin_rm (argc : Z) : M Z :=
  path_command u_unlink (cline "rm: only support 1 argument!") (cline "rm: delete %s failed.") argc.

Definition buildin_pwd (argc : Z) : M unit :=
  if negb (argc =? 1) then printf (cline "pwd: too many arguments") [] ;;; kret tt
  else
    f <- kreads final_path ;;
    r <- call (u_getcwd f MAX_PATH_LEN) ;;
    match r with
    | Some f =>
        kmod (set_path f) ;;;
        printf (cline "%s") [Str f] ;;;
        kret tt
    | None => printf (cline "pwd: get current work directory failed.") [] ;;; kret tt
    end.

(** Whether the result is not [NULL].  Without an argument the path is a slash and the
    character '0' before whatever [final_path] holds. *)
Definition buildin_cd (argc : Z) : M bool :=
  if 2 <? argc then printf (cline "cd: only support 1 argument!") [] ;;; kret false
  else
    (if argc =? 1 then
       f <- kreads final_path ;;
       f <- klift (wr f 0 slash) ;;
       f <- klift (wr f 1 48) ;;
       kmod (set_path f)
     else a <- arg 1 ;; clear_final a) ;;;
    f <- kreads final_path ;;
    r <- call (u_chdir f) ;;
    if r =? -1 then printf (cline "cd: no such directory: %s") [Str f] ;;; kret false
    else kret true.

Definition buildin_ps (argc : Z) : M unit :=
  if negb (argc =? 1) then printf (cline "ps: no argument support!") [] ;;; kret tt else call u_ps.
Definition buildin_clear (argc : Z) : M unit :=
  if negb (argc =? 1) then printf (cline "clear: no argument support!") [] ;;; kret tt else call u_clear.
Definition buildin_help : M unit := call u_help.

(** The options of [ls] from the argument [arg_idx] on: whether the listing is long and the
    path, [None] when the command ends here. *)
Fixpoint ls_options (n : nat) (arg_idx argc : Z) (long_info : bool) (pathname : option (list Z)) :
  M (option (bool * option (list Z))) :=
  if arg_idx <? argc then
    match n with
    | O => kfail Diverges
    | S n =>
        a <- arg arg_idx ;;
        c <- klift (rd a 0) ;;
        if c =? 45 then
          l <- klift (strcmp (cstr "-l") 0 a 0) ;;
          if l =? 0 then ls_options n (arg_idx + 1) argc true pathname
          else
            h <- klift (strcmp (cstr "-h") 0 a 0) ;;
            if h =? 0 then
              printf (bytes_of "usage: -l list all infomation about the file." ++ [10] ++ bytes_of "-h for help" ++ [10] ++
                cline "list all files in the current dirctory if no option") [] ;;;
              kret None
            else
              printf (bytes_of "ls: invalid option %s" ++ [10] ++ cline "Try `ls -h' for more information.") [Str a] ;;;
              kret None
        else match pathname with
             | None => ls_options n (arg_idx + 1) argc long_info (Some a)
             | Some _ => printf (cline "ls: only support one path") [] ;;; kret None
             end
    end
  else kret (Some (long_info, pathname)).

(** The entries of a directory with their inode, size and name; [false] when the command
    ends here, with the directory left open. *)
Fixpoint ls_long (n : nat) (d : Z) (sub_pathname : list Z) (pathname_len : Z) : M bool :=
  match n with
  | O => kfail Diverges
  | S n =>
      e <- call (u_readdir d) ;;
      match e with
      | None => kret true
      | Some e =>
          let ftype := if f_type e =? FT_REGULAR then 45 else 100 in
          sub_pathname <- klift (wr sub_pathname pathname_len 0) ;;
          sub_pathname <- klift (strcat sub_pathname (Some 0) (filename e) (Some 0)) ;;
          r <- call (u_stat sub_pathname (Stat 0 0 0)) ;;
          if r.1 =? -1 then
            printf (cline "ls: cannot access %s: No such file or directory") [Str (filename e)] ;;;
            kret false
          else
            printf (cline "%c %d %d %s") [Num ftype; Num (de_i_no e); Num (st_size r.2); Str (filename e)] ;;;
            ls_long n d sub_pathname pathname_len
      end
  end.

(** The names of a directory's entries. *)
Fixpoint ls_short (n : nat) (d : Z) : M unit :=
  match n with
  | O => kfail Diverges
  | S n =>
      e <- call (u_readdir d) ;;
      match e with
      | None => kret tt
      | Some e =>
          printf (cstr "%s ") [Str (filename e)] ;;;
          ls_short n d
      end
  end.

Definition ls_directory (n : nat) (long_info : bool) (pathname : list Z) (st : stat) : M unit :=
  d <- call (u_opendir pathname) ;;
  pathname_len <- klift (strlen pathname (Some 0)) ;;
  sub_pathname <- klift (memcpy (replicate 512 0) (Some 0) pathname (Some 0) pathname_len) ;;
  c <- klift (rd sub_pathname (pathname_len - 1)) ;;
  p <- (if negb (c =? slash) then
          sub_pathname <- klift (wr sub_pathname pathname_len slash) ;;
          kret (sub_pathname, pathname_len + 1)
        else kret (sub_pathname, pathname_len)) ;;
  call (u_rewinddir d) ;;;
  ok <- (if long_info then
           printf (cline "total: %d") [Num (st_size st)] ;;;
           ls_long n d p.1 p.2
         else
           ls_short n d ;;;
           printf [10; 0] [] ;;;
           kret true) ;;
  if (ok : bool) then call (u_closedir d) ;;; kret tt else kret tt.

(** [n] bounds the entries of a directory. *)
Definition buildin_ls (n : nat) (argc : Z) : M unit :=
  o <- ls_options (Z.to_nat argc) 1 argc false None ;;
  match o with
  | None => kret tt
  | Some (long_info, pathname) =>
      known <- (match pathname with
        | None =>
            f <- kreads final_path ;;
            r <- call (u_getcwd f MAX_PATH_LEN) ;;
            match r with
            | Some f => kmod (set_path f) ;;; kret true
            | None => printf (cline "ls: getcwd for default path failed") [] ;;; kret false
            end
        | Some a => clear_final a ;;; kret true
        end) ;;
      if negb (known : bool) then kret tt else
      f <- kreads final_path ;;
      r <- call (u_stat f (Stat 0 0 0)) ;;
      if r.1 =? -1 then printf (cline "ls: cannot access %s: No such file or directory") [Str f] ;;; kret tt
      else if st_filetype r.2 =? FT_DIRECTORY then ls_directory n long_info f r.2
      else if long_info then
        printf (cline "- %d %d %s") [Num (st_ino r.2); Num (st_size r.2); Str (drop 1 f)] ;;;
        kret tt
      else
        printf (cline "%s") [Str (drop 1 f)] ;;;
        kret tt
  end.

(** ** Running a line *)

(** [strcmp(name, argv\[0\]) == 0]. *)
Definition is_command (name : string) : M bool :=
  a <- arg 0 ;;
  r <- klift (strcmp (cstr name) 0 a 0) ;;
  kret (r =? 0).

(** Every pointer of [argv] followed, up to the first [NULL]. *)
Fixpoint strings_of (l : list (option pointer)) : M (list (list Z)) :=
  match l with
  | Some p :: l => a <- target p ;; r <- strings_of l ;; kret (a :: r)
  | _ => kret []
  end.

(** A program from the disk, in a process of its own; [false] when this process has become
    that program. *)
Definition run_program : M bool :=
  pid <- call u_fork ;;
  here <- (if negb (pid =? 0) then
      w <- call u_wait ;;
      (if w.1 =? -1 then PANIC else kret tt) ;;;
      printf [10; 0] [] ;;;
      printf (cline "child_pid %d, it's status: %d") [Num w.1; Num w.2] ;;;
      kret true
    else
      a <- arg 0 ;;
      clear_final a ;;;
      l <- kreads argv ;;
      l <- klift (wr l 0 (Some InPath)) ;;
      kmod (set_argv l) ;;;
      f <- kreads final_path ;;
      r <- call (u_stat f (Stat 0 0 0)) ;;
      if r.1 =? -1 then
        printf (cline "my_shell: cannot access %s,No such file or directory") [Str f] ;;;
        kret true
      else
        args <- strings_of l ;;
        e <- call (u_execv f args) ;;
        kret (match e with None => false | Some _ => true end)) ;;
  if (here : bool) then
    l <- kreads argv ;;
    l <- klift (clear_argv (Z.to_nat MAX_ARG_NR) l 0) ;;
    kmod (set_argv l) ;;;
    kret true
  else kret false.

(** [cd] goes on to clear [MAX_PATH_LEN] bytes of [cwd_cache]. *)
Definition run_cd (argc : Z) : M unit :=
  ok <- buildin_cd argc ;;
  if (ok : bool) then
    c <- kreads cwd_cache ;;
    c <- klift (fill c 0 MAX_PATH_LEN 0) ;;
    f <- kreads final_path ;;
    c <- klift (strcpy c (Some 0) f (Some 0)) ;;
    kmod (set_cwd c)
  else kret tt.

(** The commands by their names, in the order they are tried. *)
Definition commands (n : nat) (argc : Z) : list (string * M unit) := [
  ("ls"%string, buildin_ls n argc);
  ("cd"%string, run_cd argc);
  ("cd"%string, buildin_cd argc ;;; kret tt);
  ("ps"%string, buildin_ps argc);
  ("clear"%string, buildin_clear argc);
  ("mkdir"%string, buildin_mkdir argc ;;; kret tt);
  ("rmdir"%string, buildin_rmdir argc ;;; kret tt);
  ("rm"%string, buildin_rm argc ;;; kret tt);
  ("touch"%string, buildin_touch argc ;;; kret tt);
  ("pwd"%string, buildin_pwd argc);
  ("help"%string, buildin_help)].

Fixpoint dispatch (l : list (string * M unit)) : M bool :=
  match l with
  | [] => run_program
  | (name, m) :: l =>
      hit <- is_command name ;;
      if (hit : bool) then m ;;; kret true else dispatch l
  end.

Definition cmd_exectue (n : nat) (argc : Z) : M bool := dispatch (commands n (u32 argc)).

(** Parsing the string at [o] and running it. *)
Definition run_at (n : nat) (o : Z) : M bool :=
  argc <- cmd_parse o 32 ;;
  cmd_exectue n argc.

Definition find_bar (o : Z) : M (option Z) :=
  m <- kreads cmd_line ;;
  klift (strchr m (Some o) 124).

(** The commands between the first bar and the last, then the offset of the last one. *)
Fixpoint middle (fuel n : nat) (each_cmd : Z) : M (option Z) :=
  match fuel with
  | O => kfail Diverges
  | S fuel =>
      p <- find_bar each_cmd ;;
      match p with
      | None => kret (Some each_cmd)
      | Some p =>
          store p 0 ;;;
          here <- run_at n each_cmd ;;
          if (here : bool) then middle fuel n (p + 1) else kret None
      end
  end.

Definition pipeline (n : nat) (pipe_symbol : Z) : M bool :=
  r <- call u_pipe ;;
  let fd := if r.1.1 =? -1 then (-1, -1) else (r.1.2, r.2) in
  call (u_fd_redirect 1 (u32 fd.2)) ;;;
  store pipe_symbol 0 ;;;
  here <- run_at n 0 ;;
  if negb (here : bool) then kret false else
  call (u_fd_redirect 0 (u32 fd.1)) ;;;
  m <- kreads cmd_line ;;
  last <- middle (S (length m)) n (pipe_symbol + 1) ;;
  match last with
  | None => kret false
  | Some last =>
      call (u_fd_redirect 1 1) ;;;
      here <- run_at n last ;;
      if negb (here : bool) then kret false else
      call (u_fd_redirect 0 0) ;;;
      call (u_close fd.1) ;;;
      call (u_close fd.2) ;;;
      kret true
  end.

(** One round of [my_shell]: [keys] bounds the keys of the line, [n] the entries of a
    directory. *)
Definition shell_round (keys n : nat) : M bool :=
  print_prompt ;;;
  f <- kreads final_path ;;
  f <- klift (fill f 0 MAX_PATH_LEN 0) ;;
  kmod (set_path f) ;;;
  m <- kreads cmd_line ;;
  m <- klift (fill m 0 cmd_len 0) ;;
  kmod (set_line m) ;;;
  readline keys 0 cmd_len ;;;
  m <- kreads cmd_line ;;
  c <- klift (rd m 0) ;;
  if c =? 0 then kret true
  else
    p <- find_bar 0 ;;
    match p with
    | Some p => pipeline n p
    | None =>
        argc <- cmd_parse 0 32 ;;
        if argc =? -1 then
          printf (cline "num of arguments exceed %d") [Num MAX_ARG_NR] ;;;
          kret true
        else cmd_exectue n argc
    end.

(** [my_shell], as many rounds as there is fuel for. *)
Fixpoint shell_rounds (rounds keys n : nat) : M bool :=
  match rounds with
  | O => kfail Diverges
  | S rounds =>
      here <- shell_round keys n ;;
      if (here : bool) then shell_rounds rounds keys n else kret false
  end.
Definition my_shell (rounds keys n : nat) : M bool :=
  c <- kreads cwd_cache ;;
  c <- klift (wr c 0 slash) ;;
  kmod (set_cwd c) ;;;
  shell_rounds rounds keys n.
End shell.
