(* ===== verification/ShellSpec.v ===== *)
(** * ShellSpec: what the command line promises

    The keys typed before Enter are edited into a line; the line is cut into its words; the
    commands on a path hand the kernel its clean absolute form and never the root. *)

From Stdlib Require Import Ascii String.
From S2P Require Import Prelude Bitmap Interrupt DList Sched Task Ioqueue Disk Inode Cstring Words Dir File Path Format Pipe Fs CleanPath Stdio Shell.
Close Scope string_scope.

#[local] Set Default Proof Using "Type*".

(** ** The terminal *)

(** Keys come one by one, and printing leaves those still to come alone. *)
Class TerminalLaws (U : Type) `{!ShellCalls U} : Type := {
  keys : U -> list Z;
  read_key : forall u k ks, keys u = k :: ks -> exists u', u_read stdin_no 1 u = Ok ((1, [k]), u') /\ keys u' = ks;
  putchar_keys : forall c u, exists u', u_putchar c u = Ok (tt, u') /\ keys u' = keys u;
  clear_keys : forall u, exists u', u_clear u = Ok (tt, u') /\ keys u' = keys u;
  write_keys : forall b n u, exists r u', u_write 1 b n u = Ok (r, u') /\ keys u' = keys u
}.

(** ** Line editing, the reference *)

Definition is_enter (k : Z) : bool := (k =? 10) || (k =? 13).
(** Backspace takes the last character away, Ctrl-U all of them, Ctrl-L none. *)
Definition edit (l : list Z) (k : Z) : list Z :=
  if k =? 8 then removelast l else if k =? 11 then l else if k =? 20 then [] else l ++ [k].
Definition edited (ks : list Z) : list Z := fold_left edit ks [].
(** The line always leaves room for another key. *)
Fixpoint fits_line (l ks : list Z) : Prop :=
  match ks with [] => True | k :: ks => (length (edit l k) < 128)%nat /\ fits_line (edit l k) ks end.

Definition plain_key (c : Z) : Prop := 0 < c < 256 /\ c <> 8.
Definition typed_key (k : Z) : Prop := 0 < k < 256 /\ is_enter k = false.

Lemma edit_plain l k : Forall plain_key l -> typed_key k -> Forall plain_key (edit l k).
Proof.
  intros Hl [Hk _]. unfold edit. destruct (Z.eqb_spec k 8); [|destruct (k =? 11); [done|destruct (k =? 20); [done|]]].
  - destruct l as [|x l] using rev_ind; [done|]. rewrite removelast_snoc. by apply list.Forall_app in Hl as [? _].
  - apply list.Forall_app. split; [done|]. constructor; [by split|by constructor].
Qed.

Lemma plain_text l : Forall plain_key l -> is_text l.
Proof. intros Hl. eapply list.Forall_impl; [exact Hl|]. by intros c [? _]. Qed.

(** ** Reading a line *)

(** Fixed texts. *)
Ltac text := apply text_check; vm_compute; reflexivity.

Lemma cstr_at t : is_text (bytes_of t) -> str_at (cstr t) 0 (bytes_of t).
Proof. intros Ht. by apply (str_at_app (bytes_of t) []). Qed.

Lemma cline_at t : is_text (bytes_of t ++ [10]) -> str_at (cline t) 0 (bytes_of t ++ [10]).
Proof. intros Ht. unfold cline. change [10; 0] with ([10] ++ [0]). rewrite app_assoc. by apply (str_at_app (bytes_of t ++ [10]) []). Qed.

Section readline.
Context {U : Type} `{!ShellCalls U, !TerminalLaws U}.
Implicit Types (s : shell U) (l : list Z).

Lemma call_run {A} (m : KM U A) a u s : m (kernel s) = Ok (a, u) ->
  call m s = Ok (a, Shell (cmd_line s) (final_path s) (cwd_cache s) (argv s) u).
Proof. intros H. unfold call. by rewrite H. Qed.

(** The same program with another line and kernel. *)
Definition same_prog s s' : Prop := final_path s' = final_path s /\ cwd_cache s' = cwd_cache s /\ argv s' = argv s.
(** It has the same keys before it as well. *)
Definition quiet s s' : Prop := same_prog s s' /\ keys (kernel s') = keys (kernel s).

Lemma quiet_trans s1 s2 s3 : quiet s1 s2 -> quiet s2 s3 -> quiet s1 s3.
Proof. intros [(A1 & A2 & A3) A4] [(B1 & B2 & B3) B4]. split; [unfold same_prog; split_and!|]; congruence. Qed.

Lemma putchar_run c s : exists s', call (u_putchar c) s = Ok (tt, s') /\ quiet s s' /\ cmd_line s' = cmd_line s.
Proof. destruct (putchar_keys c (kernel s)) as (u & Hu & Hk). eexists. by rewrite (call_run _ _ _ _ Hu). Qed.

Lemma clear_run s : exists s', call u_clear s = Ok (tt, s') /\ quiet s s' /\ cmd_line s' = cmd_line s.
Proof. destruct (clear_keys (kernel s)) as (u & Hu & Hk). eexists. by rewrite (call_run _ _ _ _ Hu). Qed.

Lemma store_run pos v m s : wr (cmd_line s) pos v = Ok m -> store pos v s = Ok (tt, set_line m s).
Proof. intros H. unfold store. rewrite (kbind_ok _ _ s (cmd_line s) s) by done. by rewrite (kbind_ok _ _ s m s) by (unfold klift; by rewrite H). Qed.

Lemma set_line_quiet m s : quiet s (set_line m s).
Proof. by split. Qed.

(** A format with at most one string is printed. *)
Lemma printf_run fm f b t text s :
  str_at fm 0 f -> str_at b 0 t -> render (fun w => if w =? 0 then Some t else None) f [0] = Some text ->
  is_text text -> (length text < 1024)%nat ->
  exists r s', printf fm [Str b] s = Ok (r, s') /\ quiet s s' /\ cmd_line s' = cmd_line s.
Proof.
  intros Hf Hb Hr Ht Hl. unfold printf.
  destruct (print_buf_run (arg_object [Str b]) (fun w => if w =? 0 then Some t else None)) with (fm := fm) (f := f) (args := [0])
    (text := text) as (rest & E & Hs); try done.
  { intros w t' Hw. destruct (Z.eqb_spec w 0) as [->|]; [|done]. injection Hw as <-. by exists b. }
  change (imap arg_word [Str b]) with [0]. rewrite (kbind_ok _ _ s (text ++ 0 :: rest) s) by (unfold klift; by rewrite E).
  rewrite (kbind_ok _ _ s (Z.of_nat (length text)) s).
  - destruct (write_keys (text ++ 0 :: rest) (Z.of_nat (length text)) (kernel s)) as (r & u & Hu & Hk).
    exists r. eexists. by rewrite (call_run _ _ _ _ Hu).
  - unfold klift, strlen, not_null. cbn [obind]. rewrite (find_nul_spec _ _ _ _ Hs) by (apply str_fuel in Hs; exact Hs).
    cbn [obind]. by rewrite Z.add_0_l, Z.sub_0_r.
Qed.

Definition has_cwd s : Prop := exists cwd, str_at (cwd_cache s) 0 cwd /\ (length cwd < 64)%nat.

Lemma has_cwd_quiet s s' : has_cwd s -> quiet s s' -> has_cwd s'.
Proof. intros (cwd & ?) [(_ & E & _) _]. exists cwd. by rewrite E. Qed.

Lemma print_prompt_run s : has_cwd s -> exists s', print_prompt s = Ok (tt, s') /\ quiet s s' /\ cmd_line s' = cmd_line s.
Proof.
  intros (cwd & Hc & Hl). unfold print_prompt. rewrite (kbind_ok _ _ s (cwd_cache s) s) by done.
  destruct (printf_run (cstr "[rabbit@localhost %s]$ ") (bytes_of "[rabbit@localhost %s]$ ") (cwd_cache s) cwd
    (bytes_of "[rabbit@localhost " ++ cwd ++ bytes_of "]$ ") s) as (r & s' & E & Q & L).
  - apply cstr_at. text.
  - exact Hc.
  - reflexivity.
  - unfold is_text. rewrite !list.Forall_app. split; [text|]. split; [by destruct Hc as (_ & ? & _)|text].
  - rewrite !length_app. change (length (bytes_of "[rabbit@localhost ")) with 18%nat. change (length (bytes_of "]$ ")) with 3%nat. lia.
  - exists s'. rewrite (kbind_ok _ _ _ _ _ E). split; [reflexivity|]. split; assumption.
Qed.

(** The line so far is [l], the position behind it. *)
Definition line_is (l : list Z) s : Prop := take (length l) (cmd_line s) = l /\ length (cmd_line s) = 128%nat /\ has_cwd s.

Lemma line_cut l s : line_is l s -> cmd_line s = l ++ drop (length l) (cmd_line s).
Proof. intros (E & _). rewrite <- E at 1. by rewrite take_drop. Qed.

Lemma line_is_quiet l s s' : line_is l s -> quiet s s' -> cmd_line s' = cmd_line s -> line_is l s'.
Proof. intros (H1 & H2 & H3) Q E. unfold line_is. rewrite E. split; [done|]. split; [done|]. by eapply has_cwd_quiet. Qed.

(** A byte stored at the end of the line does not change it. *)
Lemma store_line l m v s : line_is l s -> (length l < 128)%nat -> wr (cmd_line s) (Z.of_nat (length l)) v = Ok m ->
  line_is l (set_line m s).
Proof.
  intros (H1 & H2 & H3) Hl Hw. apply wr_inv in Hw as [_ ->]. rewrite Nat2Z.id. unfold line_is. cbn [cmd_line set_line].
  split; [by rewrite take_insert_ge by lia|]. split; [by rewrite length_insert|done].
Qed.

Lemma store_end l v s : line_is l s -> (length l < 128)%nat ->
  exists s', store (Z.of_nat (length l)) v s = Ok (tt, s') /\ quiet s s' /\ line_is l s' /\
    exists rest, cmd_line s' = l ++ v :: rest.
Proof.
  intros Hl Hlen. pose proof Hl as (H1 & H2 & H3).
  assert (Hw : wr (cmd_line s) (Z.of_nat (length l)) v = Ok (<[length l := v]> (cmd_line s))).
  { rewrite wr_Ok by lia. by rewrite Nat2Z.id. }
  exists (set_line (<[length l := v]> (cmd_line s)) s). rewrite (store_run _ _ _ _ Hw).
  split; [done|]. split; [by apply set_line_quiet|]. split; [by eapply store_line|].
  exists (drop (S (length l)) (cmd_line s)). cbn [cmd_line set_line]. rewrite insert_take_drop by lia. by rewrite H1.
Qed.

Lemma erase_loop_run n s : (n < 128)%nat -> length (cmd_line s) = 128%nat -> has_cwd s ->
  exists s', erase_loop n (Z.of_nat n) s = Ok (0, s') /\ quiet s s' /\ length (cmd_line s') = 128%nat.
Proof.
  revert s. induction n as [|n IH]; intros s Hn Hl Hc; [by exists s|]. cbn [erase_loop].
  destruct (putchar_run 8 s) as (s1 & E1 & Q1 & L1). rewrite (kbind_ok _ _ _ _ _ E1).
  assert (Hw : wr (cmd_line s1) (Z.of_nat (S n)) 0 = Ok (<[S n := 0]> (cmd_line s1))).
  { rewrite wr_Ok by (rewrite L1, Hl; lia). by rewrite Nat2Z.id. }
  rewrite (kbind_ok _ _ _ _ _ (store_run _ _ _ _ Hw)). replace (Z.of_nat (S n) - 1) with (Z.of_nat n) by lia.
  destruct (IH (set_line (<[S n := 0]> (cmd_line s1)) s1)) as (s2 & E2 & Q2 & L2).
  - lia.
  - cbn [cmd_line set_line]. by rewrite length_insert, L1.
  - by apply (has_cwd_quiet s).
  - exists s2. split; [exact E2|]. split; [|done]. by apply (quiet_trans s s1).
Qed.

(** One key. *)
Lemma key_run l k s : Forall plain_key l -> typed_key k -> line_is l s -> (length l < 128)%nat ->
  rd (cmd_line s) (Z.of_nat (length l)) = Ok k ->
  exists s', key (Z.of_nat (length l)) s = Ok (Some (Z.of_nat (length (edit l k))), s') /\ quiet s s' /\ line_is (edit l k) s'.
Proof.
  intros Hl [Hk He] Hline Hlen Hrd. unfold key. rewrite (kbind_ok _ _ s (cmd_line s) s) by done.
  rewrite (kbind_ok _ _ s k s) by (unfold klift; by rewrite Hrd). unfold is_enter in He. rewrite He. unfold edit.
  pose proof Hline as (H1 & H2 & H3). destruct (Z.eqb_spec k 8) as [->|H8].
  - rewrite (kbind_ok _ _ s (cmd_line s) s) by done. destruct l as [|x l].
    + rewrite (kbind_ok _ _ s 8 s) by (unfold klift; change (Z.of_nat (length [])) with 0 in Hrd; by rewrite Hrd). by exists s.
    + rewrite (line_cut _ _ Hline). rewrite (kbind_ok _ _ s x s) by done. apply list.Forall_cons in Hl as [[_ Hx] _].
      rewrite (proj2 (Z.eqb_neq _ _) Hx). cbn [negb].
      destruct (putchar_run 8 s) as (s1 & E1 & Q1 & L1). rewrite (kbind_ok _ _ _ _ _ E1). exists s1.
      assert (Hr : length (x :: l) = S (length (removelast (x :: l)))).
      { destruct (x :: l) as [|y l'] eqn:E using rev_ind; [done|]. rewrite removelast_snoc, length_app. simpl. lia. }
      split; [unfold kret; do 3 f_equal; lia|]. split; [done|]. split; [|by rewrite L1; split; [|eapply has_cwd_quiet]].
      rewrite L1. rewrite (line_cut _ _ Hline). destruct (x :: l) as [|y l'] eqn:E using rev_ind; [done|].
      rewrite removelast_snoc, <- app_assoc. by rewrite take_app_length.
  - change (108 - 97) with 11. change (117 - 97) with 20. destruct (Z.eqb_spec k 11) as [->|H11].
    + destruct (store_end l 0 s Hline Hlen) as (s1 & E1 & Q1 & Hl1 & rest & Hrest). rewrite (kbind_ok _ _ _ _ _ E1).
      destruct (clear_run s1) as (s2 & E2 & Q2 & L2). rewrite (kbind_ok _ _ _ _ _ E2).
      destruct (print_prompt_run s2) as (s3 & E3 & Q3 & L3).
      { eapply has_cwd_quiet; [|exact Q2]. by destruct Hl1 as (_ & _ & ?). }
      rewrite (kbind_ok _ _ _ _ _ E3), (kbind_ok _ _ s3 (cmd_line s3) s3) by done.
      destruct (printf_run (cstr "%s") (bytes_of "%s") (cmd_line s3) l l s3) as (r & s4 & E4 & Q4 & L4).
      * apply cstr_at. text.
      * rewrite L3, L2, Hrest. apply str_at_app. by apply plain_text.
      * cbv -[app]. by rewrite app_nil_r.
      * by apply plain_text.
      * lia.
      * rewrite (kbind_ok _ _ _ _ _ E4). exists s4. split; [reflexivity|]. assert (Q : quiet s1 s4) by eauto using quiet_trans.
        split; [by apply (quiet_trans s s1)|]. apply (line_is_quiet l s1); [done|done|congruence].
    + destruct (Z.eqb_spec k 20) as [->|H20].
      * rewrite Nat2Z.id. destruct (erase_loop_run (length l) s Hlen H2 H3) as (s1 & E1 & Q1 & L1).
        rewrite (kbind_ok _ _ _ _ _ E1). exists s1. split; [reflexivity|]. split; [done|]. split; [done|]. split; [done|].
        by eapply has_cwd_quiet.
      * destruct (putchar_run k s) as (s1 & E1 & Q1 & L1). rewrite (kbind_ok _ _ _ _ _ E1). exists s1.
        split; [unfold kret; do 3 f_equal; rewrite length_app; simpl; lia|]. split; [done|].
        split; [|split; [by rewrite L1|by eapply has_cwd_quiet]].
        rewrite L1, length_app. simpl. apply rd_inv in Hrd as [_ Hrd]. rewrite Nat2Z.id in Hrd.
        rewrite Nat.add_1_r, (take_S_r _ _ k) by done. by rewrite H1.
Qed.

(** A key is read to the end of the line. *)
Lemma read_one_run c ks l s : line_is l s -> (length l < 128)%nat -> keys (kernel s) = c :: ks ->
  exists s', read_one (Z.of_nat (length l)) s = Ok (1, s') /\
    same_prog s s' /\ keys (kernel s') = ks /\ line_is l s' /\ rd (cmd_line s') (Z.of_nat (length l)) = Ok c.
Proof.
  intros (H1 & H2 & H3) Hlen Hkeys. destruct (read_key (kernel s) c ks Hkeys) as (u & Hu & Hk). unfold read_one.
  rewrite (kbind_ok _ _ _ _ _ (call_run _ _ _ _ Hu)). set (s1 := Shell _ _ _ _ u).
  rewrite (kbind_ok _ _ s1 (cmd_line s) s1) by done. cbn [snd].
  rewrite (kbind_ok _ _ s1 (take (length l) (cmd_line s) ++ [c] ++ drop (length l + 1) (cmd_line s)) s1).
  2: { unfold klift. rewrite splice_Ok by (cbn [length]; lia). by rewrite Nat2Z.id. }
  rewrite H1. eexists. split; [reflexivity|]. split; [done|]. split; [exact Hk|]. split.
  - unfold line_is. cbn [cmd_line set_line]. rewrite take_app_length, !length_app, length_drop, H2. cbn [length].
    split; [done|]. split; [lia|done].
  - cbn [cmd_line set_line]. apply rd_Ok; [lia|]. rewrite Nat2Z.id. by rewrite lookup_app_r, Nat.sub_diag by lia.
Qed.

(** There is room for the key. *)
Lemma read_ok l : (length l < 128)%nat -> negb (1 =? -1) && (Z.of_nat (length l) <? cmd_len) = true.
Proof. intros Hl. change (negb (1 =? -1)) with true. apply Z.ltb_lt. unfold cmd_len. lia. Qed.

(** Enter ends the line. *)
Lemma enter_run enter l s : is_enter enter = true -> line_is l s -> (length l < 128)%nat -> is_text l ->
  rd (cmd_line s) (Z.of_nat (length l)) = Ok enter ->
  exists s', key (Z.of_nat (length l)) s = Ok (None, s') /\ quiet s s' /\ length (cmd_line s') = 128%nat /\ str_at (cmd_line s') 0 l.
Proof.
  intros He Hline Hlen Ht Hrd. unfold key. rewrite (kbind_ok _ _ s (cmd_line s) s) by done.
  rewrite (kbind_ok _ _ s enter s) by (unfold klift; by rewrite Hrd). unfold is_enter in He. rewrite He.
  destruct (store_end l 0 s Hline Hlen) as (s1 & E1 & Q1 & (_ & L1 & _) & rest & Hrest). rewrite (kbind_ok _ _ _ _ _ E1).
  destruct (putchar_run 10 s1) as (s2 & E2 & Q2 & L2). rewrite (kbind_ok _ _ _ _ _ E2). exists s2.
  split; [reflexivity|]. split; [by apply (quiet_trans s s1)|]. split; [congruence|]. rewrite L2, Hrest. by apply str_at_app.
Qed.

(** [readline] on the keys before Enter. *)
Lemma readline_run ks enter rest n l s : Forall plain_key l -> Forall typed_key ks -> is_enter enter = true ->
  line_is l s -> (length l < 128)%nat -> fits_line l ks -> keys (kernel s) = ks ++ enter :: rest -> (length ks < n)%nat ->
  exists s', readline n (Z.of_nat (length l)) cmd_len s = Ok (tt, s') /\ same_prog s s' /\ keys (kernel s') = rest /\
    length (cmd_line s') = 128%nat /\ str_at (cmd_line s') 0 (fold_left edit ks l).
Proof.
  revert l s n. induction ks as [|k ks IH]; intros l s n Hp Hks Hent Hline Hlen Hfit Hkeys Hn; (destruct n as [|n]; [simpl in Hn; lia|]);
    cbn [readline app fold_left] in *.
  - destruct (read_one_run enter rest l s Hline Hlen Hkeys) as (s1 & E1 & (A1 & A2 & A3) & A4 & A5 & A6).
    rewrite (kbind_ok _ _ _ _ _ E1), (read_ok l Hlen).
    destruct (enter_run enter l s1 Hent A5 Hlen (plain_text l Hp) A6) as (s2 & E2 & [(B1 & B2 & B3) B4] & L2 & S2).
    rewrite (kbind_ok _ _ _ _ _ E2). exists s2. split; [reflexivity|]. split; [unfold same_prog; split_and!; congruence|].
    split; [congruence|]. by split.
  - apply list.Forall_cons in Hks as [Hk Hks]. destruct Hfit as [Hf Hfit]. simpl in Hn.
    destruct (read_one_run k _ l s Hline Hlen Hkeys) as (s1 & E1 & (A1 & A2 & A3) & A4 & A5 & A6).
    rewrite (kbind_ok _ _ _ _ _ E1), (read_ok l Hlen).
    destruct (key_run l k s1 Hp Hk A5 Hlen A6) as (s2 & E2 & [(B1 & B2 & B3) B4] & L2). rewrite (kbind_ok _ _ _ _ _ E2).
    destruct (IH (edit l k) s2 n (edit_plain _ _ Hp Hk) Hks Hent L2 Hf Hfit ltac:(congruence) ltac:(lia)) as (s3 & E3 & (C1 & C2 & C3) & R).
    exists s3. split; [exact E3|]. split; [unfold same_prog; split_and!; congruence|exact R].
Qed.

(** The key behind a full line is stored past the buffer. *)
Lemma readline_overrun_run ks k x rest n l s : Forall plain_key l -> Forall typed_key (ks ++ [k]) ->
  line_is l s -> (length l < 128)%nat -> fits_line l ks -> length (fold_left edit (ks ++ [k]) l) = 128%nat ->
  keys (kernel s) = (ks ++ [k]) ++ x :: rest -> (S (length ks) < n)%nat ->
  readline n (Z.of_nat (length l)) cmd_len s = Err OutOfBounds.
Proof.
  revert l s n. induction ks as [|k' ks IH]; intros l s n Hp Hks Hline Hlen Hfit Hfull Hkeys Hn; (destruct n as [|n]; [simpl in Hn; lia|]);
    cbn [readline app fold_left] in *; apply list.Forall_cons in Hks as [Hk Hks].
  - destruct (read_one_run k _ l s Hline Hlen Hkeys) as (s1 & E1 & (A1 & A2 & A3) & A4 & A5 & A6).
    rewrite (kbind_ok _ _ _ _ _ E1), (read_ok l Hlen).
    destruct (key_run l k s1 Hp Hk A5 Hlen A6) as (s2 & E2 & [(B1 & B2 & B3) B4] & (L1 & L2 & L3)). rewrite (kbind_ok _ _ _ _ _ E2).
    destruct n as [|n]; [simpl in Hn; lia|]. cbn [readline]. unfold kbind at 1, read_one.
    destruct (read_key (kernel s2) x rest (eq_trans B4 A4)) as (u & Hu & _). rewrite (kbind_ok _ _ _ _ _ (call_run _ _ _ _ Hu)).
    cbv [kbind kreads klift]. cbn [snd cmd_line]. unfold splice. rewrite decide_False by (cbn [length]; lia). done.
  - destruct Hfit as [Hf Hfit]. simpl in Hn.
    destruct (read_one_run k' _ l s Hline Hlen Hkeys) as (s1 & E1 & (A1 & A2 & A3) & A4 & A5 & A6).
    rewrite (kbind_ok _ _ _ _ _ E1), (read_ok l Hlen).
    destruct (key_run l k' s1 Hp Hk A5 Hlen A6) as (s2 & E2 & [(B1 & B2 & B3) B4] & L2). rewrite (kbind_ok _ _ _ _ _ E2).
    apply (IH (edit l k') s2 n (edit_plain _ _ Hp Hk)); [done..|congruence|lia].
Qed.

(** C29: [readline] is a line editor.  For every sequence of keys that leaves the line room at
    each step, it returns at the Enter key with the NUL-terminated line the keys edit:
    backspace has taken away the last character and does nothing on an empty line, Ctrl-U has
    taken away all, Ctrl-L none; the keys after Enter are left for the next line and no other
    buffer of the shell has changed.  A line of 128 characters is one too long: the next key,
    Enter included, is stored behind the buffer before the length is looked at. *)
Theorem readline_spec ks enter rest n s :
  Forall typed_key ks -> length (cmd_line s) = 128%nat -> has_cwd s -> (S (length ks) < n)%nat ->
  keys (kernel s) = ks ++ enter :: rest ->
  (is_enter enter = true -> fits_line [] ks ->
   exists s', readline n 0 cmd_len s = Ok (tt, s') /\ same_prog s s' /\ keys (kernel s') = rest /\
     length (cmd_line s') = 128%nat /\ str_at (cmd_line s') 0 (edited ks)) /\
  (forall ks' k, ks = ks' ++ [k] -> fits_line [] ks' -> length (edited ks) = 128%nat -> readline n 0 cmd_len s = Err OutOfBounds).
Proof.
  intros Hks Hlen Hc Hn Hkeys. assert (Hl : line_is [] s) by done. split.
  - intros He Hfit. apply (readline_run ks enter rest n [] s); try done; [simpl; lia|lia].
  - intros ks' k -> Hfit Hfull. rewrite length_app in Hn. simpl in Hn.
    apply (readline_overrun_run ks' k enter rest n [] s); try done; [simpl; lia|lia].
Qed.
End readline.

(** ** Cutting a line into words *)

Section parse.
Context (token : Z) (Htok : 0 < token < 256).

Lemma skip_token_run n m o k t :
  str_at m o (replicate k token ++ t) -> (forall c u, t = c :: u -> c <> token) -> (k < n)%nat ->
  skip_token n m o token = Ok (o + Z.of_nat k).
Proof.
  revert o k. induction n as [|n IH]; intros o k Hs Ht Hn; [lia|]. cbn [skip_token]. destruct k as [|k].
  - destruct (str_at_head _ _ _ Hs) as (c & Hr & Hc0 & Hc). rewrite Hr. cbn [obind]. rewrite Z.add_0_r.
    rewrite (proj2 (Z.eqb_neq _ _)); [done|]. destruct t as [|d u].
    + assert (c = 0) as -> by tauto. lia.
    + rewrite (Hc d u) by done. by eapply Ht.
  - cbn [replicate app] in Hs. destruct (str_at_cons _ _ _ _ Hs) as (Hr & _ & Hs1). rewrite Hr. cbn [obind]. rewrite Z.eqb_refl.
    rewrite (IH (o + 1) k) by (done || lia). f_equal. lia.
Qed.

Lemma word_end_run n m o w rest :
  str_at m o (w ++ rest) -> free_of token w -> at_separator token rest -> (length w < n)%nat ->
  word_end n m o token = Ok (o + Z.of_nat (length w)).
Proof.
  revert o w. induction n as [|n IH]; intros o w Hs Hw Hr Hn; [lia|]. cbn [word_end]. destruct w as [|x w].
  - destruct (str_at_head _ _ _ Hs) as (d & Hrd & Hd0 & Hd). rewrite Hrd. cbn [obind]. rewrite Z.add_0_r.
    destruct Hr as [->|[r ->]].
    + assert (d = 0) as -> by (by apply Hd0). done.
    + rewrite (Hd token r) by done. rewrite Z.eqb_refl. by rewrite andb_false_r.
  - apply list.Forall_cons in Hw as [Hx Hw]. cbn [app] in Hs. destruct (str_at_cons _ _ _ _ Hs) as (Hrd & Hx0 & Hs1). rewrite Hrd. cbn [obind].
    rewrite !(proj2 (Z.eqb_neq _ _)) by (done || lia). cbn [negb andb]. simpl in Hn.
    rewrite (IH (o + 1) w) by (done || lia). f_equal. simpl. lia.
Qed.

Lemma parse_end n m o argv argc : str_at m o [] -> parse_loop (S n) m o argv argc token = Ok (argc, argv, m).
Proof. intros Hs. cbn [parse_loop]. by rewrite (str_at_nil _ _ Hs). Qed.

Lemma parse_blanks n m o k argv argc : str_at m o (replicate k token) -> parse_loop (S n) m o argv argc token = Ok (argc, argv, m).
Proof.
  intros Hs. destruct k as [|k]; [by apply parse_end|]. cbn [parse_loop]. pose proof (str_fuel _ _ _ Hs) as Hf. rewrite length_replicate in Hf.
  destruct (str_at_cons _ _ _ _ Hs) as (Hr & _ & _). rewrite Hr. cbn [obind]. rewrite (proj2 (Z.eqb_neq _ _)) by lia.
  rewrite (skip_token_run _ m o (S k) []) by (done || (rewrite app_nil_r; done) || lia). cbn [obind].
  pose proof (str_at_skip m o (replicate (S k) token) []) as He. rewrite length_replicate, app_nil_r in He.
  by rewrite (str_at_nil _ _ (He Hs)).
Qed.

(** One word: its pointer is stored when there is room for it, and it is ended. *)
Lemma parse_word n pre k w rest post argv argc :
  is_text (replicate k token ++ w ++ rest) -> free_of token w -> w <> [] -> at_separator token rest -> 0 <= argc ->
  parse_loop (S n) (pre ++ (replicate k token ++ w ++ rest) ++ 0 :: post) (Z.of_nat (length pre)) argv argc token
  = let? argv := wr argv argc (Some (InLine (Z.of_nat (length pre + k)))) in
    if MAX_ARG_NR <? argc then Ok (-1, argv, pre ++ replicate k token ++ w ++ 0 :: drop 1 (rest ++ 0 :: post))
    else match rest with
         | [] => parse_loop n (pre ++ replicate k token ++ w ++ 0 :: post) (Z.of_nat (length pre + k + length w)) argv (argc + 1) token
         | _ :: r => parse_loop n ((pre ++ replicate k token ++ w ++ [0]) ++ r ++ 0 :: post)
             (Z.of_nat (length (pre ++ replicate k token ++ w ++ [0]))) argv (argc + 1) token
         end.
Proof.
  intros Ht Hw Hne Hr Hargc. set (m := pre ++ _ ++ 0 :: post). set (o := Z.of_nat (length pre)).
  assert (Hs : str_at m o (replicate k token ++ w ++ rest)).
  { split; [lia|]. split; [done|]. exists post. unfold m, o. by rewrite Nat2Z.id, drop_app_length. }
  pose proof (str_fuel _ _ _ Hs) as Hf. rewrite !length_app, length_replicate in Hf.
  assert (Hs1 : str_at m (o + Z.of_nat k) (w ++ rest)).
  { pose proof (str_at_skip m o (replicate k token) (w ++ rest)) as He. rewrite length_replicate in He. by apply He. }
  pose proof (str_at_skip _ _ _ _ Hs1) as Hs2. cbn [parse_loop].
  destruct (str_at_head _ _ _ Hs) as (c & Hc & Hc0 & _). rewrite Hc. cbn [obind].
  rewrite (proj2 (Z.eqb_neq c 0)) by (intros E; apply Hc0 in E; destruct k, w; done).
  rewrite (skip_token_run _ m o k (w ++ rest)); [|done| |lia].
  2: { intros d u E. destruct w as [|x w]; [done|]. injection E as <- _. by apply list.Forall_cons in Hw as [? _]. }
  cbn [obind]. destruct (str_at_head _ _ _ Hs1) as (d & Hd & Hd0 & _). rewrite Hd. cbn [obind].
  rewrite (proj2 (Z.eqb_neq d 0)) by (intros E; apply Hd0 in E; by destruct w).
  replace (o + Z.of_nat k) with (Z.of_nat (length pre + k)) in * by (unfold o; lia).
  destruct (wr argv argc _) as [argv'|e]; [|done]. cbn [obind]. rewrite (word_end_run _ m _ w rest) by (done || lia). cbn [obind].
  destruct (str_at_head _ _ _ Hs2) as (x & Hx & Hx0 & Hxr). rewrite Hx. cbn [obind].
  replace (Z.of_nat (length pre + k) + Z.of_nat (length w)) with (Z.of_nat (length pre + k + length w)) in * by lia.
  destruct rest as [|y r].
  - rewrite (proj2 Hx0 eq_refl). change (0 =? 0) with true. cbn [negb obind fst snd]. unfold m. rewrite app_nil_r, <- !app_assoc. cbn [app drop].
    by destruct (MAX_ARG_NR <? argc).
  - destruct Hr as [|[r' [= -> ->]]]; [done|]. rewrite (Hxr _ _ eq_refl), (proj2 (Z.eqb_neq token 0)) by lia. cbn [negb].
    assert (Hwr : wr m (Z.of_nat (length pre + k + length w)) 0 = Ok ((pre ++ replicate k token ++ w ++ [0]) ++ r' ++ 0 :: post)).
    { unfold m. replace (pre ++ (replicate k token ++ w ++ token :: r') ++ 0 :: post)
        with ((pre ++ replicate k token ++ w) ++ token :: (r' ++ 0 :: post)) by (rewrite <- !app_assoc; done).
      replace (Z.of_nat (length pre + k + length w)) with (Z.of_nat (length (pre ++ replicate k token ++ w)))
        by (rewrite !length_app, length_replicate; lia).
      rewrite wr_mid. f_equal. rewrite <- !app_assoc. done. }
    rewrite Hwr. cbn [obind fst snd]. destruct (MAX_ARG_NR <? argc).
    + f_equal. f_equal. rewrite <- !app_assoc. done.
    + f_equal. rewrite !length_app, length_replicate. cbn [length]. lia.
Qed.

(** [argv] with the pointers [offs] from [argc] on. *)
Definition with_words (argv : list (option pointer)) (argc : Z) (offs : list Z) : list (option pointer) :=
  take (Z.to_nat argc) argv ++ map (fun o => Some (InLine o)) offs ++ drop (Z.to_nat argc + length offs) argv.

Lemma with_words_nil argv argc : with_words argv argc [] = argv.
Proof. unfold with_words. cbn [map app length]. by rewrite Nat.add_0_r, take_drop. Qed.

Lemma with_words_cons argv argc o offs : 0 <= argc < Z.of_nat (length argv) ->
  with_words (<[Z.to_nat argc := Some (InLine o)]> argv) (argc + 1) offs = with_words argv argc (o :: offs).
Proof.
  intros Ha. unfold with_words. replace (Z.to_nat (argc + 1)) with (S (Z.to_nat argc)) by lia.
  rewrite (take_S_r _ _ (Some (InLine o))) by (rewrite list_lookup_insert_eq; [done|lia]).
  rewrite take_insert_ge, drop_insert_lt by lia. rewrite <- app_assoc. cbn [map app length]. do 3 f_equal. f_equal. lia.
Qed.

(** The string [w] is at [p], not before [o]. *)
Definition word_at (m : list Z) (o p : Z) (w : list Z) : Prop := o <= p /\ str_at m p w.

Lemma parse_loop_run s : is_text s -> forall n pre post argv argc,
  length argv = 16%nat -> 0 <= argc -> (length s < n)%nat ->
  if decide (argc + Z.of_nat (length (words token s)) <= 16) then
    exists tail offs, parse_loop n (pre ++ s ++ 0 :: post) (Z.of_nat (length pre)) argv argc token
        = Ok (argc + Z.of_nat (length (words token s)), with_words argv argc offs, pre ++ tail) /\
      length tail = length (s ++ 0 :: post) /\ Forall2 (word_at (pre ++ tail) (Z.of_nat (length pre))) offs (words token s)
  else words token s <> [] -> argc <= 16 ->
    parse_loop n (pre ++ s ++ 0 :: post) (Z.of_nat (length pre)) argv argc token = Err OutOfBounds.
Proof.
  remember (length s) as N eqn:HN. revert s HN. induction N as [N IH] using lt_wf_ind. intros s -> Ht n pre post argv argc Hl Ha Hn.
  destruct n as [|n]; [lia|]. destruct (words_shape token s) as (k & w & rest & E & Hw & Hr & He & Hws).
  assert (Hs : str_at (pre ++ s ++ 0 :: post) (Z.of_nat (length pre)) s).
  { split; [lia|]. split; [done|]. exists post. by rewrite Nat2Z.id, drop_app_length. }
  destruct w as [|x w].
  - rewrite Hws. cbn [length]. rewrite He, !app_nil_r in E by done. case_decide; [|done]. exists (s ++ 0 :: post), [].
    rewrite with_words_nil, Z.add_0_r. rewrite E in Hs |- *. rewrite (parse_blanks n _ _ k) by done. by split_and!.
  - rewrite Hws. cbn [length]. rewrite E in Ht, Hs |- *.
    rewrite (parse_word n pre k (x :: w) rest post argv argc) by done.
    assert (Hk : length s = (k + S (length w) + length rest)%nat) by (rewrite E, !length_app, length_replicate; simpl; lia).
    destruct (decide (argc < 16)) as [Hroom|Hfull].
    2: { case_decide; [lia|]. intros _ Hle. unfold wr. by rewrite decide_False by lia. }
    rewrite wr_Ok by lia. cbn [obind]. rewrite (proj2 (Z.ltb_ge MAX_ARG_NR argc)) by (unfold MAX_ARG_NR; lia).
    set (argv' := <[Z.to_nat argc := Some (InLine (Z.of_nat (length pre + k)))]> argv).
    assert (Hl' : length argv' = 16%nat) by (unfold argv'; by rewrite length_insert).
    assert (Hfirst : forall t, word_at (pre ++ replicate k token ++ (x :: w) ++ 0 :: t) (Z.of_nat (length pre))
        (Z.of_nat (length pre + k)) (x :: w)).
    { intros t. split; [lia|]. split; [lia|]. split; [|exists t].
      - unfold is_text in Ht. rewrite !list.Forall_app in Ht. by destruct Ht as (_ & ? & _).
      - rewrite Nat2Z.id, drop_app_add, drop_app, drop_replicate, length_replicate, Nat.sub_diag. done. }
    destruct Hr as [->|[r ->]].
    + change (words token []) with (@nil (list Z)). cbn [length]. rewrite decide_True by lia. destruct n as [|n]; [simpl in Hn; lia|].
      rewrite parse_end.
      2: { destruct (Hfirst post) as [_ Hf]. rewrite <- (app_nil_r (x :: w)) in Hf at 2. apply str_at_skip in Hf.
           by rewrite <- Nat2Z.inj_add in Hf. }
      exists (replicate k token ++ (x :: w) ++ 0 :: post), [Z.of_nat (length pre + k)].
      split; [|split; [rewrite !length_app; simpl; lia|by constructor]].
      f_equal. f_equal. f_equal. rewrite <- with_words_cons by lia. by rewrite with_words_nil.
    + rewrite words_sep. unfold is_text in Ht. rewrite !list.Forall_app in Ht. destruct Ht as (_ & _ & Hrt). apply list.Forall_cons in Hrt as [_ Hrt].
      pose proof (IH (length r) ltac:(simpl in Hk; lia) r eq_refl Hrt n (pre ++ replicate k token ++ (x :: w) ++ [0]) post argv' (argc + 1) Hl'
        ltac:(lia) ltac:(simpl in Hk; lia)) as IHr.
      replace (argc + Z.of_nat (S (length (words token r)))) with (argc + 1 + Z.of_nat (length (words token r))) by lia.
      case_decide as Hd.
      * destruct IHr as (tail & offs & Erun & Elen & Hall). exists (replicate k token ++ (x :: w) ++ 0 :: tail), (Z.of_nat (length pre + k) :: offs).
        assert (Eapp : (pre ++ replicate k token ++ (x :: w) ++ [0]) ++ tail = pre ++ replicate k token ++ (x :: w) ++ 0 :: tail)
          by (rewrite <- !app_assoc; done).
        rewrite Erun, Eapp in *. split; [|split].
        -- f_equal. f_equal. f_equal. unfold argv'. by rewrite with_words_cons by lia.
        -- rewrite !length_app in *. cbn [length] in *. lia.
        -- constructor; [apply Hfirst|]. revert Hall. apply Forall2_impl. intros p v [Hp Hv].
           rewrite !length_app in Hp. split; [lia|done].
      * intros _ _. apply IHr; [|lia]. intros Enil. rewrite Enil in Hd. simpl in Hd. lia.
Qed.
End parse.

Lemma clear_argv_run n pre rest : (n <= length rest)%nat ->
  clear_argv n (pre ++ rest) (Z.of_nat (length pre)) = Ok (pre ++ replicate n None ++ drop n rest).
Proof.
  revert pre rest. induction n as [|n IH]; intros pre rest Hn; [done|]. destruct rest as [|p rest]; [simpl in Hn; lia|].
  cbn [clear_argv]. rewrite wr_Ok by (rewrite length_app; simpl; lia). cbn [obind]. rewrite Nat2Z.id, insert_app_r_alt by lia.
  rewrite Nat.sub_diag. cbn [insert list_insert]. simpl in Hn.
  replace (pre ++ None :: rest) with ((pre ++ [None]) ++ rest) by (rewrite <- app_assoc; done).
  replace (Z.of_nat (length pre) + 1) with (Z.of_nat (length (pre ++ [None]))) by (rewrite length_app; simpl; lia).
  rewrite IH by lia. f_equal. rewrite <- app_assoc. done.
Qed.

Section cmd_parse.
Context {U : Type} `{!ShellCalls U}.
Implicit Types s : shell U.

(** C30: [cmd_parse] cuts a command into its words.  For a string of up to 16 words between
    separators it returns their number, with pointers to them in the front of [argv], each to
    a NUL-terminated string that is the word, and the rest of [argv] is [NULL]; nothing before
    the string has changed.  With more words than that it writes behind [argv]: the check for
    too many comes after the store. *)
Theorem cmd_parse_spec token o t s : 0 < token < 256 ->
  str_at (cmd_line s) o t -> length (argv s) = 16%nat ->
  ((length (words token t) <= 16)%nat ->
   exists s' offs, cmd_parse o token s = Ok (Z.of_nat (length (words token t)), s') /\
     argv s' = map (fun p => Some (InLine p)) offs ++ replicate (16 - length (words token t)) None /\
     Forall2 (str_at (cmd_line s')) offs (words token t) /\
     length (cmd_line s') = length (cmd_line s) /\ take (Z.to_nat o) (cmd_line s') = take (Z.to_nat o) (cmd_line s) /\
     s' = Shell (cmd_line s') (final_path s) (cwd_cache s) (argv s') (kernel s)) /\
  ((16 < length (words token t))%nat -> cmd_parse o token s = Err OutOfBounds).
Proof.
  intros Htok Hs Hl. pose proof (str_at_length _ _ _ Hs) as Hlen. destruct Hs as (Ho & Ht & post & Hd).
  assert (Hm : cmd_line s = take (Z.to_nat o) (cmd_line s) ++ t ++ 0 :: post) by (by rewrite <- Hd, take_drop).
  assert (Hpre : length (take (Z.to_nat o) (cmd_line s)) = Z.to_nat o) by (rewrite length_take; lia).
  assert (Hclear : clear_argv 16 (argv s) 0 = Ok (replicate 16 None)).
  { pose proof (clear_argv_run 16 [] (argv s) ltac:(lia)) as Hc. rewrite drop_ge, app_nil_r in Hc by lia. exact Hc. }
  pose proof (parse_loop_run token Htok t Ht (S (length (cmd_line s))) (take (Z.to_nat o) (cmd_line s)) post (replicate 16 None) 0
    ltac:(by rewrite length_replicate) ltac:(lia) ltac:(lia)) as Hrun.
  rewrite <- Hm, Hpre, Z2Nat.id in Hrun by done. unfold cmd_parse.
  rewrite (kbind_ok _ _ s (argv s) s) by done. change (Z.to_nat MAX_ARG_NR) with 16%nat.
  rewrite (kbind_ok _ _ s (replicate 16 None) s) by (unfold klift; by rewrite Hclear).
  rewrite (kbind_ok _ _ s (cmd_line s) s) by done. split; intros Hn.
  - rewrite decide_True in Hrun by lia. destruct Hrun as (tail & offs & E & Et & Hall).
    rewrite Z.add_0_l in E. pose proof (Forall2_length Hall) as Hoffs.
    rewrite (kbind_ok _ _ s _ s) by (unfold klift; rewrite E; reflexivity). eexists _, offs. split; [reflexivity|].
    cbn [fst snd cmd_line argv final_path cwd_cache kernel set_line set_argv]. split; [|split; [|split; [|split; [|done]]]].
    + unfold with_words. by rewrite Hoffs, drop_replicate.
    + revert Hall. apply Forall2_impl. by intros p w [_ ?].
    + apply (f_equal length) in Hm. rewrite length_app in Hm. by rewrite length_app, Et.
    + by rewrite <- Hpre at 1; rewrite take_app_length.
  - rewrite decide_False in Hrun by lia. unfold kbind at 1, klift. rewrite Hrun; [done| |lia].
    intros E. rewrite E in Hn. simpl in Hn. lia.
Qed.
End cmd_parse.

(** ** The commands on a path *)

Section path_commands.
Context {U : Type} `{!ShellCalls U, !TerminalLaws U}.
Implicit Types s : shell U.

(** The clean absolute path the argument [t] stands for, from the root or from the working
    directory; [k'] is the kernel after it was asked for the latter. *)
Definition resolves s (t : list Z) (ws : list (list Z)) (k' : U) : Prop :=
  t <> [] /\ is_text t /\ Forall fits (components t) /\
  ((hd_error t = Some slash /\ (length t < 512)%nat /\ ws = clean (components t) /\ k' = kernel s) \/
   (exists cwd ds, hd_error t <> Some slash /\ u_getcwd (replicate 512 0) MAX_PATH_LEN (kernel s) = Ok (Some cwd, k') /\
      holds_path cwd 512 ds /\ Forall component ds /\ Forall fits ds /\ Forall (fun w => w <> [46] /\ w <> [46; 46]) ds /\
      (length (rendered ds) + 1 + length t < 512)%nat /\ ws = fold_left clean_step (components t) ds)).

Lemma clean_component acc w : Forall component acc -> component w -> Forall component (clean_step acc w).
Proof.
  intros Ha Hw. unfold clean_step. repeat case_decide; [|done|by apply list.Forall_app; split; [|constructor]].
  destruct acc as [|x acc] using rev_ind; [done|]. rewrite removelast_snoc. by apply list.Forall_app in Ha as [? _].
Qed.

Lemma clean_components t acc : is_text t -> Forall component acc -> Forall component (fold_left clean_step (components t) acc).
Proof.
  intros Ht. assert (Hc : Forall component (components t)).
  { apply list.Forall_forall. intros w Hw. destruct (components_text t w Ht Hw) as [Hne Hwt].
    split; [split; [done|by apply (components_no_slash t)]|done]. }
  revert acc. induction Hc as [|w ws Hw _ IH]; intros acc Ha; [done|]. cbn [fold_left]. apply IH. by apply clean_component.
Qed.

Lemma resolves_component s t ws k' : resolves s t ws k' -> Forall component ws.
Proof.
  intros (_ & Ht & _ & [(_ & _ & -> & _)|(cwd & ds & _ & _ & _ & Hds & _ & _ & _ & ->)]); by apply clean_components.
Qed.

Lemma canon_root ws : Forall component ws -> canon ws = [slash] -> ws = [].
Proof.
  intros Hw Hc. destruct ws as [|w ws]; [done|]. apply list.Forall_cons in Hw as [[_ Hne] _]. cbn [canon] in Hc. rewrite rendered_cons in Hc.
  injection Hc as Hc. by destruct w.
Qed.

Lemma clear_final_run a t ws k' s : str_at a 0 t -> length (final_path s) = 512%nat -> resolves s t ws k' ->
  exists f, clear_final a s = Ok (tt, Shell (cmd_line s) f (cwd_cache s) (argv s) k') /\ holds_path f 512 ws.
Proof.
  intros Ha Hl (Hne & Ht & Hf & Hcase). unfold clear_final. rewrite (kbind_ok _ _ s (final_path s) s) by done.
  destruct (make_clear_run u_getcwd (kernel s) a t (final_path s) Ha Hne Hf Hl) as [Habs Hrel].
  assert (Hrun : exists f, make_clear_abs_path u_getcwd a (final_path s) (kernel s) = Ok (f, k') /\ holds_path f 512 ws).
  { destruct Hcase as [(Hh & Hlt & -> & ->)|(cwd & ds & Hh & Hcwd & H1 & H2 & H3 & H4 & H5 & ->)]; [by apply Habs|by eapply Hrel]. }
  destruct Hrun as (f & Hrun & Hhold). exists f. split; [|done]. by rewrite (kbind_ok _ _ _ _ _ (call_run _ _ _ _ Hrun)).
Qed.

Lemma arg_run i p s a : rd (argv s) i = Ok (Some p) -> target p s = Ok (a, s) -> arg i s = Ok (a, s).
Proof.
  intros Hp Ha. unfold arg. rewrite (kbind_ok _ _ s (argv s) s) by done. rewrite (kbind_ok _ _ s (Some p) s) by (unfold klift; by rewrite Hp).
  done.
Qed.

Lemma path_command_run op usage failed ff s o t ws k' :
  rd (argv s) 1 = Ok (Some (InLine o)) -> str_at (drop (Z.to_nat o) (cmd_line s)) 0 t ->
  length (final_path s) = 512%nat -> resolves s t ws k' ->
  str_at failed 0 ff ->
  (exists text, render (fun w => if w =? 0 then Some t else None) ff [0] = Some text /\ is_text text /\ (length text < 1024)%nat) ->
  exists f, holds_path f 512 ws /\
    let s1 := Shell (cmd_line s) f (cwd_cache s) (argv s) k' in
    (ws = [] -> path_command op usage failed 2 s = Ok (-1, s1)) /\
    (ws <> [] -> forall r k2, op f k' = Ok (r, k2) -> exists s2, path_command op usage failed 2 s = Ok (if r =? 0 then 0 else -1, s2) /\
       same_prog s1 s2 /\ cmd_line s2 = cmd_line s /\ keys (kernel s2) = keys k2 /\ (r = 0 -> kernel s2 = k2)).
Proof.
  intros Hp Ha Hl Hres Hff (text & Hr & Ht & Hlt). destruct (clear_final_run _ t ws k' s Ha Hl Hres) as (f & Hrun & Hhold).
  exists f. split; [done|]. intros s1. unfold path_command. change (negb (2 =? 2)) with false. cbv iota.
  set (a := drop (Z.to_nat o) (cmd_line s)) in *.
  assert (Harg : arg 1 s = Ok (a, s)) by (by apply (arg_run 1 (InLine o))).
  rewrite (kbind_ok _ _ _ _ _ Harg), (kbind_ok _ _ _ _ _ Hrun), (kbind_ok _ _ s1 f s1) by done.
  destruct (strcmp_eqb s_root [slash] f (canon ws) root_at) as (r & Hcmp & Hz); [by destruct Hhold|].
  rewrite (kbind_ok _ _ s1 r s1) by (unfold klift; by rewrite Hcmp). rewrite Hz. split.
  - intros ->. by rewrite bool_decide_true.
  - intros Hne rc k2 Hop. rewrite bool_decide_false by (intros E; apply Hne, canon_root; [by eapply resolves_component|done]). cbn [negb].
    rewrite (kbind_ok _ _ _ _ _ (call_run (op f) rc k2 s1 Hop)). set (s2 := Shell _ _ _ _ k2). destruct (Z.eqb_spec rc 0) as [->|Hrc].
    + exists s2. by split_and!.
    + assert (Harg2 : arg 1 s2 = Ok (a, s2)) by (by apply (arg_run 1 (InLine o))). rewrite (kbind_ok _ _ _ _ _ Harg2).
      destruct (printf_run failed ff a t text s2 Hff Ha Hr Ht Hlt) as (r' & s3 & E3 & [Q3 K3] & L3).
      rewrite (kbind_ok _ _ _ _ _ E3). exists s3. split; [reflexivity|]. split; [done|]. split; [by rewrite L3|]. by split.
Qed.

(** The commands with the system calls they stand for. *)
Definition path_commands : list ((list Z -> KM U Z) * (Z -> KM (shell U) Z)) :=
  [(u_mkdir, buildin_mkdir); (u_create, buildin_touch); (u_rmdir, buildin_rmdir); (u_unlink, buildin_rm)].

(** [mkdir], [touch], [rmdir] and [rm] act on the clean absolute path of their argument.
    For an argument that stands for the directories [ws] from the root (an absolute path, or
    one taken from the working directory), the system call of the command is made once, on a
    buffer with the path of [ws]; the command returns 0 when it returns 0, and -1 with a message
    otherwise.  When the argument comes to the root, the kernel is not called and the result
    is -1. *)
Theorem path_commands_spec op cmd s o t ws k' :
  (op, cmd) ∈ path_commands ->
  rd (argv s) 1 = Ok (Some (InLine o)) -> str_at (drop (Z.to_nat o) (cmd_line s)) 0 t ->
  length (final_path s) = 512%nat -> resolves s t ws k' ->
  exists f, holds_path f 512 ws /\
    let s1 := Shell (cmd_line s) f (cwd_cache s) (argv s) k' in
    (ws = [] -> cmd 2 s = Ok (-1, s1)) /\
    (ws <> [] -> forall r k2, op f k' = Ok (r, k2) -> exists s2, cmd 2 s = Ok (if r =? 0 then 0 else -1, s2) /\
       same_prog s1 s2 /\ cmd_line s2 = cmd_line s /\ keys (kernel s2) = keys k2 /\ (r = 0 -> kernel s2 = k2)).
Proof.
  intros Hin Hp Ha Hl Hres. assert (Ht : is_text t) by (by destruct Hres as (_ & ? & _)).
  assert (Hlt : (length t < 512)%nat) by (destruct Hres as (_ & _ & _ & [(_ & ? & _)|(? & ? & _ & _ & _ & _ & _ & _ & ? & _)]); lia).
  unfold path_commands in Hin. rewrite !elem_of_cons, elem_of_nil in Hin.
  destruct Hin as [[= -> ->]|[[= -> ->]|[[= -> ->]|[[= -> ->]|[]]]]];
    (eapply path_command_run; [exact Hp|exact Ha|exact Hl|exact Hres|apply cline_at; text|]).
  1, 2: exists (bytes_of "mkdir: create directory " ++ t ++ bytes_of " failed." ++ [10]).
  3: exists (bytes_of "rmdir: remove " ++ t ++ bytes_of " failed." ++ [10]).
  4: exists (bytes_of "rm: delete " ++ t ++ bytes_of " failed." ++ [10]).
  all: split; [reflexivity|]; unfold is_text; rewrite !list.Forall_app; split; [split; [text|split; [done|split; text]]|].
  all: rewrite !length_app; remember (length t) as lt; vm_compute length; simpl; lia.
Qed.
End path_commands.

(** ** A sample kernel *)

(** It has keys to be read, and remembers the paths it was asked to make. *)
Record toy : Type := Toy { toy_keys : list Z; toy_made : list (list Z) }.

#[export] Instance toy_calls : ShellCalls toy := {|
  u_read _ _ u := match toy_keys u with k :: ks => Ok ((1, [k]), Toy ks (toy_made u)) | [] => Ok ((-1, []), u) end;
  u_write _ _ n u := Ok (n, u);
  u_putchar _ u := Ok (tt, u);
  u_clear u := Ok (tt, u);
  u_ps u := Ok (tt, u);
  u_help u := Ok (tt, u);
  u_getcwd b _ u := Ok (Some (slash :: 0 :: drop 2 b), u);
  u_chdir _ u := Ok (0, u);
  u_mkdir p u := Ok (0, Toy (toy_keys u) (p :: toy_made u));
  u_create p u := Ok (0, Toy (toy_keys u) (p :: toy_made u));
  u_rmdir _ u := Ok (-1, u);
  u_unlink _ u := Ok (-1, u);
  u_stat _ st u := Ok ((-1, st), u);
  u_opendir _ u := Ok (0, u);
  u_rewinddir _ u := Ok (tt, u);
  u_readdir _ u := Ok (None, u);
  u_closedir _ u := Ok (0, u);
  u_fork u := Ok (1, u);
  u_wait u := Ok ((1, 0), u);
  u_execv _ _ u := Ok (Some (-1), u);
  u_pipe u := Ok ((0, 3, 4), u);
  u_fd_redirect _ _ u := Ok (tt, u);
  u_close _ u := Ok (0, u)
|}.

#[export, program] Instance toy_laws : TerminalLaws toy := {| keys := toy_keys |}.
Next Obligation. intros u k ks Hk. eexists. cbn [u_read toy_calls]. by rewrite Hk. Qed.
Next Obligation. intros c u. by exists u. Qed.
Next Obligation. intros u. by exists u. Qed.
Next Obligation. intros b n u. by exists n, u. Qed.

Definition sample_shell (keys : list Z) (line : list Z) : shell toy :=
  Shell (line ++ replicate (128 - length line) 0) (replicate 512 0) (slash :: replicate 63 0) (replicate 16 None) (Toy keys []).

Lemma sample_cwd keys line : has_cwd (sample_shell keys line).
Proof. exists [slash]. split; [|simpl; lia]. apply (str_at_app [slash] (replicate 62 0)). by repeat constructor. Qed.

(** The keys "lx", backspace, "s", Enter. *)
Lemma readline_spec_witness : exists s',
  readline 10 0 cmd_len (sample_shell [108; 120; 8; 115; 10] []) = Ok (tt, s') /\ str_at (cmd_line s') 0 (bytes_of "ls").
Proof.
  destruct (readline_spec [108; 120; 8; 115] 10 [] 10 (sample_shell [108; 120; 8; 115; 10] [])) as [H _].
  - repeat constructor; lia.
  - reflexivity.
  - apply sample_cwd.
  - simpl. lia.
  - reflexivity.
  - destruct H as (s' & E & _ & _ & _ & Hs); [reflexivity|repeat split; simpl; lia|]. exists s'. split; [exact E|exact Hs].
Defined.

(** "  mkdir a/../b": two words. *)
Definition sample_command : list Z := bytes_of "  mkdir a/../b".

Lemma sample_command_at keys : str_at (cmd_line (sample_shell keys sample_command)) 0 sample_command.
Proof. apply (str_at_app sample_command (replicate 113 0)). text. Qed.

Lemma cmd_parse_spec_witness : exists s', cmd_parse 0 32 (sample_shell [] sample_command) = Ok (2, s').
Proof.
  destruct (cmd_parse_spec 32 0 sample_command (sample_shell [] sample_command)) as [H _].
  - lia.
  - apply sample_command_at.
  - reflexivity.
  - destruct H as (s' & offs & E & _); [vm_compute; lia|]. exists s'. exact E.
Defined.

Definition sample_mkdir : shell toy :=
  Shell (bytes_of "mkdir" ++ [0] ++ bytes_of "/a/../b" ++ replicate 115 0) (replicate 512 0) (slash :: replicate 63 0)
    ([Some (InLine 0); Some (InLine 6)] ++ replicate 14 None) (Toy [] []).

Lemma path_commands_spec_witness : exists f s2, holds_path f 512 [[98]] /\ buildin_mkdir 2 sample_mkdir = Ok (0, s2) /\ toy_made (kernel s2) = [f].
Proof.
  destruct (path_commands_spec u_mkdir buildin_mkdir sample_mkdir 6 (bytes_of "/a/../b") [[98]] (Toy [] [])) as (f & Hf & _ & H).
  - left.
  - reflexivity.
  - apply (str_at_app (bytes_of "/a/../b") (replicate 114 0)). text.
  - reflexivity.
  - split; [done|]. split; [text|]. split; [repeat constructor; unfold fits; simpl; lia|]. left.
    split; [reflexivity|]. split; [vm_compute; lia|]. split; reflexivity.
  - destruct (H ltac:(done) 0 (Toy [] [f]) eq_refl) as (s2 & E & _ & _ & _ & Hk). exists f, s2.
    split; [exact Hf|]. split; [exact E|]. by rewrite (Hk eq_refl).
Defined.
