(* ===== verification/Partition.v ===== *)
(** * Partition: the partitions of a disk, partition_scan of device/ide.c

    The four entries of the partition table in sector 0, and the chain of extended boot
    records from which logical partitions are read.  The disk and the heap are behind their
    interfaces.  The scan is shown to record exactly the partitions a well-formed disk has,
    in order, and to give back every buffer. *)

From Stdlib Require Import Ascii String.
From S2P Require Import Prelude Bitmap Interrupt Disk Cstring Stdio.
Close Scope string_scope.

#[local] Set Default Proof Using "Type*".

(** ** Data *)

(** The part of [struct partition] that the scan fills in. *)
Record part : Type := Part { pt_start : Z; pt_cnt : Z; pt_name : list Z }.
(** An element of [partition_list]: a primary or a logical partition of the disk. *)
Inductive part_ref : Type := RPrim (i : Z) | RLogic (i : Z).

(** [struct partition_table_entry], as far as it is used. *)
Record entry : Type := Entry { fs_type : Z; e_start : Z; e_cnt : Z }.
#[export] Instance entry_eq_dec : EqDecision entry.
Proof. solve_decision. Defined.

(** The indices, the arrays of the disk and the list of partitions. *)
Record parts : Type := Parts {
  p_no : Z; l_no : Z; prim_parts : list part; logic_parts : list part; partition_list : list part_ref
}.

Record scan (D H : Type) : Type := Scan { sc_dev : D; sc_heap : H; ext_lba_base : Z; sc_parts : parts }.
Arguments Scan {D H}.
Arguments sc_dev {D H} _.
Arguments sc_heap {D H} _.
Arguments ext_lba_base {D H} _.
Arguments sc_parts {D H} _.

(** Entry [i] of the table of a boot sector. *)
Definition entry_at (bs : list Z) (i : Z) : outcome entry :=
  let o := 446 + 16 * i in
  let? t := rd bs (o + 4) in
  let? st := slice bs (o + 8) 4 in
  let? n := slice bs (o + 12) 4 in
  Ok (Entry t (le_val st) (le_val n)).

Definition part_format : list Z := [37; 115; 37; 100; 0].

(** ** The code *)

Section scan.
Context {D H : Type} `{!BlockDev D, !KernelHeap H}.
Notation M := (KM (scan D H)).
(** [hd->name]. *)
Context (hd_name : list Z).

Definition set_dev (d : D) (s : scan D H) : scan D H := Scan d (sc_heap s) (ext_lba_base s) (sc_parts s).
Definition set_heap (h : H) (s : scan D H) : scan D H := Scan (sc_dev s) h (ext_lba_base s) (sc_parts s).
Definition set_base (b : Z) (s : scan D H) : scan D H := Scan (sc_dev s) (sc_heap s) b (sc_parts s).
Definition set_parts (p : parts) (s : scan D H) : scan D H := Scan (sc_dev s) (sc_heap s) (ext_lba_base s) p.

Definition malloc (size : Z) : M Z := fun s =>
  match sys_malloc size (sc_heap s) with Ok (p, h) => Ok (p, set_heap h s) | Err e => Err e end.
Definition free (p : Z) : M unit := fun s =>
  match sys_free p (sc_heap s) with Ok h => Ok (tt, set_heap h s) | Err e => Err e end.
Definition read_sector (lba : Z) : M (list Z) := fun s =>
  match disk_read lba 1 (sc_dev s) with Ok (b, d) => Ok (b, set_dev d s) | Err e => Err e end.

Definition name_object (w : Z) : outcome (list Z) := if w =? 0 then Ok hd_name else Err OutOfBounds.

(** An element of [prim_parts] or [logic_parts] is filled in. *)
Definition fill_part (l : list part) (i start cnt no : Z) : outcome (list part) :=
  let? p := match l !! Z.to_nat i with Some p => Ok p | None => Err OutOfBounds end in
  let? r := sprintf name_object (pt_name p) part_format [0; no] in
  wr l i (Part start cnt r.1).

Definition add_primary (ext_lab : Z) (e : entry) : M unit :=
  p <- kreads sc_parts ;;
  l <- klift (fill_part (prim_parts p) (p_no p) (u32 (ext_lab + e_start e)) (e_cnt e) (p_no p + 1)) ;;
  kmod (set_parts (Parts (u8 (p_no p + 1)) (l_no p) l (logic_parts p) (partition_list p ++ [RPrim (p_no p)]))) ;;;
  ASSERT (u8 (p_no p + 1) <? 4).

(** Whether there are enough. *)
Definition add_logical (ext_lab : Z) (e : entry) : M bool :=
  p <- kreads sc_parts ;;
  l <- klift (fill_part (logic_parts p) (l_no p) (u32 (ext_lab + e_start e)) (e_cnt e) (l_no p + 5)) ;;
  kmod (set_parts (Parts (p_no p) (u8 (l_no p + 1)) (prim_parts p) l (partition_list p ++ [RLogic (l_no p)]))) ;;;
  kret (8 <=? u8 (l_no p + 1)).

(** The entries from [i] on; [true] when the function returns among them. *)
Fixpoint scan_entries (rec : Z -> M unit) (n : nat) (i : Z) (bs : list Z) (ext_lab : Z) : M bool :=
  match n with
  | O => kret false
  | S n =>
      e <- klift (entry_at bs i) ;;
      if fs_type e =? 5 then
        base <- kreads ext_lba_base ;;
        (if negb (base =? 0) then rec (u32 (e_start e + base))
         else
           kmod (set_base (i32 (e_start e))) ;;;
           rec (e_start e)) ;;;
        scan_entries rec n (i + 1) bs ext_lab
      else if negb (fs_type e =? 0) then
        if ext_lab =? 0 then
          add_primary ext_lab e ;;;
          scan_entries rec n (i + 1) bs ext_lab
        else
          stop <- add_logical ext_lab e ;;
          if (stop : bool) then kret true else scan_entries rec n (i + 1) bs ext_lab
      else scan_entries rec n (i + 1) bs ext_lab
  end.

(** [n] bounds the depth of the recursion. *)
Fixpoint partition_scan (n : nat) (ext_lab : Z) : M unit :=
  match n with
  | O => kfail Diverges
  | S n =>
      bs <- malloc 512 ;;
      (if bs =? 0 then kfail OutOfBounds else kret tt) ;;;
      sec <- read_sector ext_lab ;;
      stop <- scan_entries (partition_scan n) 4 0 sec ext_lab ;;
      if (stop : bool) then kret tt else free bs
  end.
End scan.

(** ** The reference *)

(** What a table describes, in the order it is found. *)
Inductive found : Type := FPrim (start cnt : Z) | FLogic (start cnt : Z).

Section spec.
Context (hd_text : list Z).

(** The name field of partition [no]. *)
Definition name_field (no : Z) : list Z :=
  let t := hd_text ++ decimal no in t ++ replicate (8 - length t) 0.

Definition record_found (p : parts) (f : found) : parts :=
  match f with
  | FPrim st c =>
      Parts (p_no p + 1) (l_no p) (<[Z.to_nat (p_no p) := Part st c (name_field (p_no p + 1))]> (prim_parts p)) (logic_parts p)
        (partition_list p ++ [RPrim (p_no p)])
  | FLogic st c =>
      Parts (p_no p) (l_no p + 1) (prim_parts p) (<[Z.to_nat (l_no p) := Part st c (name_field (l_no p + 5))]> (logic_parts p))
        (partition_list p ++ [RLogic (l_no p)])
  end.

Definition is_prim (f : found) : bool := match f with FPrim _ _ => true | FLogic _ _ => false end.

(** The boot sector [lba] has the four entries [es]. *)
Definition has_table (sec : Z -> list Z) (lba : Z) (es : list entry) : Prop :=
  0 <= lba < DISK_SECTORS /\ length es = 4%nat /\
  forall i e, es !! i = Some e -> entry_at (sec lba) (Z.of_nat i) = Ok e /\ 0 <= e_start e < 2 ^ 31.

Definition empty_entry (e : entry) : Prop := fs_type e = 0.
Definition normal_entry (e : entry) : Prop := fs_type e <> 0 /\ fs_type e <> 5.

(** The chain of extended boot records from [lba] on: each has one logical partition and,
    but for the last, the way to the next, from the start [base] of the whole. *)
Inductive chain (sec : Z -> list Z) (base : Z) : Z -> list found -> Prop :=
| chain_last lba e es : has_table sec lba (e :: es) -> normal_entry e -> Forall empty_entry es ->
    chain sec base lba [FLogic (u32 (lba + e_start e)) (e_cnt e)]
| chain_next lba e x es fs : has_table sec lba (e :: x :: es) -> normal_entry e -> fs_type x = 5 -> Forall empty_entry es ->
    u32 (e_start x + base) <> 0 -> chain sec base (u32 (e_start x + base)) fs ->
    chain sec base lba (FLogic (u32 (lba + e_start e)) (e_cnt e) :: fs).

(** The entries of sector 0: primary partitions and at most one extended one. *)
Inductive describes (sec : Z -> list Z) : bool -> list entry -> list found -> Prop :=
| describes_nil b : describes sec b [] []
| describes_empty b e es fs : empty_entry e -> describes sec b es fs -> describes sec b (e :: es) fs
| describes_primary b e es fs : normal_entry e -> describes sec b es fs -> describes sec b (e :: es) (FPrim (u32 (e_start e)) (e_cnt e) :: fs)
| describes_extended e es fs1 fs2 : fs_type e = 5 -> 0 < e_start e -> chain sec (e_start e) (e_start e) fs1 ->
    describes sec false es fs2 -> describes sec true (e :: es) (fs1 ++ fs2).
End spec.

Lemma decimal_small n : 0 <= n < 13 -> (length (decimal n) <= 2)%nat /\ is_text (decimal n).
Proof.
  intros Hn. assert (Hall : forallb (fun n => let d := decimal n in (length d <=? 2)%nat && forallb (fun c => (0 <? c) && (c <? 256)) d)
    (map Z.of_nat (seq 0 13)) = true) by (vm_compute; reflexivity).
  rewrite forallb_forall in Hall. specialize (Hall n). destruct (andb_prop _ _ (Hall ltac:(apply in_map_iff; exists (Z.to_nat n);
    split; [lia|apply in_seq; lia]))) as [H1 H2].
  split; [by apply Nat.leb_le|by apply text_check].
Qed.

Definition blank_part (p : part) : Prop := pt_name p = replicate 8 0.

Lemma blank_at (l : list part) i : 0 <= i < Z.of_nat (length l) -> Forall blank_part (drop (Z.to_nat i) l) ->
  exists p, l !! Z.to_nat i = Some p /\ blank_part p.
Proof.
  intros Hi Hb. destruct (lookup_lt_is_Some_2 l (Z.to_nat i)) as [p Hp]; [lia|]. exists p. split; [done|].
  rewrite list.Forall_lookup in Hb. apply (Hb 0%nat). by rewrite lookup_drop, Nat.add_0_r.
Qed.

(** The entries [es] are those from [i] on. *)
Definition entries_at (bs : list Z) (i : Z) (es : list entry) : Prop :=
  forall j e, es !! j = Some e -> entry_at bs (i + Z.of_nat j) = Ok e.

Lemma entries_cons bs i e es : entries_at bs i (e :: es) -> entry_at bs i = Ok e /\ entries_at bs (i + 1) es.
Proof.
  intros He. split; [rewrite <- (Z.add_0_r i); by apply (He 0%nat)|].
  intros j x Hx. replace (i + 1 + Z.of_nat j) with (i + Z.of_nat (S j)) by lia. by apply He.
Qed.

(** ** The scan records the reference *)

Section scan_proofs.
Context {D H : Type} `{!BlockDev D, !BlockDevLaws D, !KernelHeap H, !KernelHeapLaws H}.
Context (hd_name hd_text : list Z) (Hname : str_at hd_name 0 hd_text) (Hshort : (length hd_text <= 5)%nat).
Context (sec : Z -> list Z).
Implicit Types s : scan D H.

(** Room for what is to come: the indices are those of the arrays, whose elements from
    there on are blank. *)
Record room_for (p : parts) (np nl : nat) : Prop := {
  rf_prim : 0 <= p_no p /\ p_no p + Z.of_nat np < 4 /\ length (prim_parts p) = 4%nat /\
    Forall blank_part (drop (Z.to_nat (p_no p)) (prim_parts p));
  rf_logic : 0 <= l_no p /\ l_no p + Z.of_nat nl < 8 /\ length (logic_parts p) = 8%nat /\
    Forall blank_part (drop (Z.to_nat (l_no p)) (logic_parts p))
}.

Lemma fill_part_run l i start cnt no p : l !! Z.to_nat i = Some p -> blank_part p -> 0 <= i -> 0 <= no < 13 ->
  fill_part hd_name l i start cnt no = Ok (<[Z.to_nat i := Part start cnt (name_field hd_text no)]> l).
Proof.
  intros Hp Hb Hi Hno. unfold fill_part. rewrite Hp. cbn [obind]. unfold blank_part in Hb. rewrite Hb.
  destruct (decimal_small no Hno) as [Hd Hdt].
  assert (Hl : (length (hd_text ++ decimal no) <= 7)%nat) by (rewrite length_app; lia).
  rewrite (vsprintf_run (name_object hd_name) (fun w => if w =? 0 then Some hd_text else None)) with (f := [37; 115; 37; 100])
    (text := hd_text ++ decimal no).
  - cbn [obind fst]. rewrite wr_Ok by (apply lookup_lt_Some in Hp; lia). unfold name_field. cbv zeta.
    by rewrite drop_replicate.
  - intros w t Hw. unfold name_object. destruct (w =? 0); [|done]. injection Hw as <-. by exists hd_name.
  - apply (str_at_app [37; 115; 37; 100] []). by apply text_check.
  - simpl. by rewrite app_nil_r.
  - rewrite length_replicate. lia.
  - apply list.Forall_app. split; [by destruct Hname as (_ & ? & _)|done].
  - apply rd_Ok; [lia|]. rewrite Nat2Z.id. apply lookup_replicate_2. lia.
Qed.

(** What a scan of [np] primary and [nl] logical partitions with [r] buffers needs. *)
Record scan_ready s (np nl r : nat) : Prop := {
  sr_dev : disk_ready (sc_dev s);
  sr_sec : forall x, sector (sc_dev s) x = sec x;
  sr_room : room r (sc_heap s);
  sr_parts : room_for (sc_parts s) np nl
}.
Definition same_heap s s' : Prop := live (sc_heap s') = live (sc_heap s) /\ heap_user (sc_heap s') = heap_user (sc_heap s).

(** A piece of the scan: it leaves the heap as it was and gives [p] and [b]. *)
Definition ends_as {A} (m : KM (scan D H) A) s (a : A) (p : parts) (b : Z) (np nl r : nat) : Prop :=
  exists s', m s = Ok (a, s') /\ same_heap s s' /\ scan_ready s' np nl r /\ sc_parts s' = p /\ ext_lba_base s' = b.

Lemma ends_as_seq {A B} (m : KM (scan D H) A) (k : A -> KM (scan D H) B) s a b p1 e1 np1 nl1 r1 p2 e2 np2 nl2 r2 :
  ends_as m s a p1 e1 np1 nl1 r1 ->
  (forall s1, scan_ready s1 np1 nl1 r1 -> sc_parts s1 = p1 -> ext_lba_base s1 = e1 -> ends_as (k a) s1 b p2 e2 np2 nl2 r2) ->
  ends_as (x <- m ;; k x) s b p2 e2 np2 nl2 r2.
Proof.
  intros (s1 & E1 & [A1 A2] & R1 & P1 & B1) Hk. destruct (Hk s1 R1 P1 B1) as (s2 & E2 & [A3 A4] & R2 & P2 & B2).
  exists s2. rewrite (kbind_ok _ _ _ _ _ E1). split; [done|]. split; [split; congruence|]. done.
Qed.

Lemma room_for_prim p np nl st c : room_for p (S np) nl -> room_for (record_found hd_text p (FPrim st c)) np nl.
Proof.
  intros [(H1 & H2 & H3 & H4) H5]. constructor; [|done]. cbn [record_found p_no prim_parts]. split; [lia|]. split; [lia|].
  split; [by rewrite length_insert|]. replace (Z.to_nat (p_no p + 1)) with (S (Z.to_nat (p_no p))) by lia.
  rewrite drop_insert_lt by lia. rewrite <- Nat.add_1_r, <- drop_drop. by apply Forall_drop.
Qed.
Lemma room_for_logic p np nl st c : room_for p np (S nl) -> room_for (record_found hd_text p (FLogic st c)) np nl.
Proof.
  intros [H5 (H1 & H2 & H3 & H4)]. constructor; [done|]. cbn [record_found l_no logic_parts]. split; [lia|]. split; [lia|].
  split; [by rewrite length_insert|]. replace (Z.to_nat (l_no p + 1)) with (S (Z.to_nat (l_no p))) by lia.
  rewrite drop_insert_lt by lia. rewrite <- Nat.add_1_r, <- drop_drop. by apply Forall_drop.
Qed.

Lemma add_primary_run e s np nl r : scan_ready s (S np) nl r ->
  ends_as (add_primary hd_name 0 e) s tt (record_found hd_text (sc_parts s) (FPrim (u32 (e_start e)) (e_cnt e))) (ext_lba_base s) np nl r.
Proof.
  intros [R1 R2 R3 R4]. pose proof R4 as [(H1 & H2 & H3 & H4) _]. unfold add_primary.
  destruct (blank_at (prim_parts (sc_parts s)) (p_no (sc_parts s))) as (p & Hp & Hb); [lia|done|].
  eexists. rewrite (kbind_ok _ _ s (sc_parts s) s) by done. rewrite Z.add_0_l.
  rewrite (kbind_ok _ _ s _ s) by (unfold klift; rewrite (fill_part_run _ _ _ _ _ p) by (done || lia); reflexivity).
  unfold kmod, kbind, ASSERT. rewrite u8_small by lia. rewrite (proj2 (Z.ltb_lt _ 4)) by lia.
  split; [reflexivity|]. split; [done|]. split; [|done]. constructor; [done|done|done|]. by apply room_for_prim.
Qed.

Lemma add_logical_run lba e s np nl r : scan_ready s np (S nl) r ->
  ends_as (add_logical hd_name lba e) s false (record_found hd_text (sc_parts s) (FLogic (u32 (lba + e_start e)) (e_cnt e))) (ext_lba_base s) np nl r.
Proof.
  intros [R1 R2 R3 R4]. pose proof R4 as [_ (H1 & H2 & H3 & H4)]. unfold add_logical.
  destruct (blank_at (logic_parts (sc_parts s)) (l_no (sc_parts s))) as (p & Hp & Hb); [lia|done|].
  eexists. rewrite (kbind_ok _ _ s (sc_parts s) s) by done.
  rewrite (kbind_ok _ _ s _ s) by (unfold klift; rewrite (fill_part_run _ _ _ _ _ p) by (done || lia); reflexivity).
  unfold kmod, kbind, kret. rewrite u8_small by lia. rewrite (proj2 (Z.leb_gt 8 _)) by lia.
  split; [reflexivity|]. split; [done|]. split; [|done]. constructor; [done|done|done|]. by apply room_for_logic.
Qed.

Lemma scan_empty rec bs es i lba s np nl r : entries_at bs i es -> Forall empty_entry es -> scan_ready s np nl r ->
  ends_as (scan_entries hd_name rec (length es) i bs lba) s false (sc_parts s) (ext_lba_base s) np nl r.
Proof.
  revert i. induction es as [|e es IH]; intros i He Hn Hr; [by exists s|]. apply entries_cons in He as [He Hes].
  apply list.Forall_cons in Hn as [Hn Hns]. cbn [length scan_entries]. destruct (IH (i + 1) Hes Hns Hr) as (s' & E & R).
  exists s'. split; [|exact R]. rewrite (kbind_ok _ _ s e s) by (unfold klift; by rewrite He). rewrite Hn. exact E.
Qed.

Lemma ends_as_other {A} (m : KM (scan D H) A) s a p b np nl r :
  ends_as m s a p b np nl r -> forall m', m' s = m s -> ends_as m' s a p b np nl r.
Proof. intros (s' & E & R) m' Em. exists s'. by rewrite Em. Qed.

(** A scan takes a buffer, reads its sector, goes through the entries and gives it back. *)
Lemma partition_scan_frame (Q : Z -> Prop) n lba es s np nl r p np' nl' r' : has_table sec lba es -> scan_ready s np nl (S r) ->
  (forall s1, scan_ready s1 np nl r -> sc_parts s1 = sc_parts s -> ext_lba_base s1 = ext_lba_base s ->
   exists b, Q b /\ ends_as (scan_entries hd_name (partition_scan hd_name n) 4 0 (sec lba) lba) s1 false p b np' nl' r') ->
  exists b, Q b /\ ends_as (partition_scan hd_name (S n) lba) s tt p b np' nl' r'.
Proof.
  intros ([Hl Hld] & _ & _) [R1 R2 R3 R4] Hbody. cbn [partition_scan].
  destruct (sys_malloc_spec r (sc_heap s) 512 R3 ltac:(lia)) as (q & h & Hm & Hq & Hfree & Hlive & Hroom & Huser).
  set (s1 := set_heap h s). assert (E1 : malloc 512 s = Ok (q, s1)) by (unfold malloc; by rewrite Hm).
  destruct (disk_read_spec (sc_dev s1) lba 1 R1 Hl ltac:(lia) ltac:(lia)) as (d & Hrd & Hdr & Hds).
  set (s2 := set_dev d s1). assert (E2 : read_sector lba s1 = Ok (sec lba, s2)).
  { unfold read_sector. rewrite Hrd. change (Z.to_nat 1) with 1%nat. cbn [sectors_from]. rewrite app_nil_r. by rewrite R2. }
  destruct (Hbody s2) as (b & Qb & s3 & E3 & [A1 A2] & [Q1 Q2 Q3 Q4] & P3 & B3); [constructor; [done| |done|done]; intros x; by rewrite Hds|done|done|].
  assert (Hown : live (sc_heap s3) !! q = Some (heap_user (sc_heap s3))).
  { rewrite A1, A2. cbn [sc_heap s2 set_dev s1 set_heap]. by rewrite Hlive, lookup_insert_eq, Huser. }
  destruct (sys_free_spec r' (sc_heap s3) q Q3 Hq Hown) as (h' & Hf & Hlive' & Hroom' & Huser').
  exists b. split; [exact Qb|]. exists (set_heap h' s3). rewrite (kbind_ok _ _ _ _ _ E1), (proj2 (Z.eqb_neq q 0)) by done.
  rewrite (kbind_ok _ _ s1 tt s1) by done. rewrite (kbind_ok _ _ _ _ _ E2), (kbind_ok _ _ _ _ _ E3).
  split; [unfold free; by rewrite Hf|]. split; [split|by split].
  - cbn [sc_heap set_heap]. rewrite Hlive', A1. cbn [sc_heap s2 set_dev s1 set_heap]. rewrite Hlive. by rewrite delete_insert_id.
  - cbn [sc_heap set_heap]. rewrite Huser', A2. exact Huser.
Qed.

Lemma table_entries lba es : has_table sec lba es -> length es = 4%nat /\ entries_at (sec lba) 0 es.
Proof. intros (_ & Hl & He). split; [done|]. intros j e Hj. rewrite Z.add_0_l. by apply He. Qed.

Lemma entry_run {B} bs i es e (k : entry -> KM (scan D H) B) s : entries_at bs i (e :: es) ->
  (x <- klift (entry_at bs i) ;; k x) s = k e s.
Proof. intros He. apply entries_cons in He as [He _]. by rewrite (kbind_ok _ _ s e s) by (unfold klift; by rewrite He). Qed.

Lemma base_run {B} b s (k : Z -> KM (scan D H) B) : ext_lba_base s = b -> (x <- kreads ext_lba_base ;; k x) s = k b s.
Proof. intros <-. done. Qed.

Lemma chain_run base lba fs : chain sec base lba fs -> base <> 0 -> lba <> 0 ->
  forall n s np nl r, (length fs <= n)%nat -> ext_lba_base s = base -> scan_ready s np (length fs + nl) (length fs + r) ->
  ends_as (partition_scan hd_name n lba) s tt (fold_left (record_found hd_text) fs (sc_parts s)) base np nl r.
Proof.
  intros Hc Hbase. induction Hc as [lba e es Ht [He0 He5] Hes|lba e x es fs Ht [He0 He5] Hx Hes Hnz Hc IH]; intros Hlba n s np nl r Hn Hb Hr;
    (destruct n as [|n]; [simpl in Hn; lia|]); destruct (table_entries _ _ Ht) as [Hlen Hent]; cbn [length] in *.
  - destruct (partition_scan_frame (eq base) n lba _ s np (1 + nl) r (fold_left (record_found hd_text) [FLogic (u32 (lba + e_start e)) (e_cnt e)] (sc_parts s)) np nl r Ht Hr) as (b & <- & Hend); [|exact Hend].
    intros s1 Hr1 Hp1 Hb1. exists base. split; [done|]. replace 4%nat with (length (e :: es)).
    cbn [length scan_entries]. eapply ends_as_other; [|apply (entry_run _ _ es e); exact Hent].
    cbv beta. rewrite (proj2 (Z.eqb_neq _ _) He5), (proj2 (Z.eqb_neq _ _) He0), (proj2 (Z.eqb_neq _ _) Hlba). cbn [negb fold_left].
    eapply ends_as_seq; [by apply add_logical_run|]. intros s2 Hr2 Hp2 Hb2. cbv beta iota.
    apply entries_cons in Hent as [_ Hent]. rewrite <- Hp1, <- Hp2. rewrite <- Hb, <- Hb1, <- Hb2. by apply scan_empty.
  - destruct (partition_scan_frame (eq base) n lba _ s np (S (length fs) + nl) (length fs + r) (fold_left (record_found hd_text) (FLogic (u32 (lba + e_start e)) (e_cnt e) :: fs) (sc_parts s)) np nl r Ht Hr) as (b & <- & Hend); [|exact Hend].
    intros s1 Hr1 Hp1 Hb1. exists base. split; [done|].
    replace 4%nat with (length (e :: x :: es)).
    cbn [length scan_entries]. eapply ends_as_other; [|apply (entry_run _ _ (x :: es) e); exact Hent].
    cbv beta. rewrite (proj2 (Z.eqb_neq _ _) He5), (proj2 (Z.eqb_neq _ _) He0), (proj2 (Z.eqb_neq _ _) Hlba). cbn [negb fold_left].
    eapply ends_as_seq; [by apply add_logical_run|]. intros s2 Hr2 Hp2 Hb2. cbv beta iota.
    apply entries_cons in Hent as [_ Hent]. eapply ends_as_other; [|apply (entry_run _ _ es x); exact Hent]. cbv beta. rewrite Hx, Z.eqb_refl.
    eapply ends_as_other; [|apply (base_run base s2); congruence]. rewrite (proj2 (Z.eqb_neq _ _) Hbase). cbn [negb].
    eapply ends_as_seq; [apply (IH Hnz n s2 np nl r); [lia|congruence|exact Hr2]|]. intros s3 Hr3 Hp3 Hb3. cbv beta.
    apply entries_cons in Hent as [_ Hent]. rewrite <- Hp1, <- Hp2, <- Hp3, <- Hb3. by apply scan_empty.
Qed.

(** How many of each kind are found. *)
Definition primaries (fs : list found) : nat := length (List.filter is_prim fs).
Definition logicals (fs : list found) : nat := length (List.filter (fun f => negb (is_prim f)) fs).

Lemma chain_logicals base lba fs : chain sec base lba fs -> primaries fs = 0%nat /\ logicals fs = length fs.
Proof. unfold primaries, logicals. induction 1 as [|??????????? [IH1 IH2]]; cbn [List.filter is_prim negb length]; [done|]. by rewrite IH1, IH2. Qed.
Lemma counts_app fs1 fs2 : primaries (fs1 ++ fs2) = (primaries fs1 + primaries fs2)%nat /\
  logicals (fs1 ++ fs2) = (logicals fs1 + logicals fs2)%nat.
Proof. unfold primaries, logicals. by rewrite !List.filter_app, !length_app. Qed.

(** The table of sector 0, from entry [i] on. *)
Lemma describes_run b es fs : describes sec b es fs -> forall n i s np nl r,
  entries_at (sec 0) i es -> Forall (fun e => 0 <= e_start e < 2 ^ 31) es -> (length fs <= n)%nat -> (b = true -> ext_lba_base s = 0) ->
  scan_ready s (primaries fs + np) (logicals fs + nl) (logicals fs + r) ->
  exists e', ends_as (scan_entries hd_name (partition_scan hd_name n) (length es) i (sec 0) 0) s false
    (fold_left (record_found hd_text) fs (sc_parts s)) e' np nl r.
Proof.
  intros Hd n. induction Hd as [b|b e es fs He Hd IH|b e es fs [He0 He5] Hd IH|e es fs1 fs2 He Hst Hc Hd IH];
    intros i s np nl r Hent Hrange Hn Hb Hr; [by exists (ext_lba_base s), s|..];
    apply list.Forall_cons in Hrange as [Hre Hrange]; cbn [length scan_entries];
    pose proof (entries_cons _ _ _ _ Hent) as [_ Hes].
  - destruct (IH (i + 1) s np nl r Hes Hrange Hn Hb Hr) as (e' & Hrun). exists e'.
    eapply ends_as_other; [|apply (entry_run _ _ es e); exact Hent]. cbv beta. unfold empty_entry in He. rewrite He. exact Hrun.
  - cbn [length] in Hn. change (primaries (FPrim (u32 (e_start e)) (e_cnt e) :: fs)) with (S (primaries fs)) in Hr.
    change (logicals (FPrim (u32 (e_start e)) (e_cnt e) :: fs)) with (logicals fs) in Hr.
    destruct (add_primary_run e s (primaries fs + np) (logicals fs + nl) (logicals fs + r) Hr) as (s1 & E1 & A1 & R1 & P1 & B1).
    destruct (IH (i + 1) s1 np nl r Hes Hrange ltac:(lia) ltac:(intros Eb; rewrite B1; by apply Hb) R1) as (e' & s2 & E2 & A2 & R2 & P2 & B2).
    exists e'. eapply ends_as_other; [|apply (entry_run _ _ es e); exact Hent]. cbv beta.
    rewrite (proj2 (Z.eqb_neq _ _) He5), (proj2 (Z.eqb_neq _ _) He0). change (0 =? 0) with true. cbn [negb].
    exists s2. rewrite (kbind_ok _ _ _ _ _ E1). split; [exact E2|]. split; [destruct A1, A2; split; congruence|].
    split; [done|]. split; [|done]. by rewrite P2, P1.
  - destruct (chain_logicals _ _ _ Hc) as [Hp1 Hl1]. destruct (counts_app fs1 fs2) as [Hpa Hla]. rewrite length_app in Hn.
    rewrite Hpa, Hla, Hp1, Hl1, <- !Nat.add_assoc in Hr.
    assert (Hbase : i32 (e_start e) = e_start e) by (apply i32_small; lia).
    set (s0 := set_base (e_start e) s).
    destruct (chain_run (e_start e) (e_start e) fs1 Hc ltac:(lia) ltac:(lia) n s0 (0 + (primaries fs2 + np)) (logicals fs2 + nl) (logicals fs2 + r)
      ltac:(lia) eq_refl) as (s1 & E1 & A1 & R1 & P1 & B1); [by destruct Hr|].
    destruct (IH (i + 1) s1 np nl r Hes Hrange ltac:(lia) ltac:(done) R1) as (e' & s2 & E2 & A2 & R2 & P2 & B2).
    exists e'. eapply ends_as_other; [|apply (entry_run _ _ es e); exact Hent]. cbv beta. rewrite He, Z.eqb_refl.
    eapply ends_as_other; [|apply (base_run 0 s); by apply Hb]. change (negb (0 =? 0)) with false. cbv iota.
    exists s2. rewrite Hbase. unfold kbind at 1. rewrite (kbind_ok _ _ s tt s0) by done. rewrite E1.
    change (same_heap s s1) in A1. split; [exact E2|]. split; [destruct A1, A2; split; congruence|]. split; [done|]. split; [|done].
    by rewrite P2, P1, fold_left_app.
Qed.
End scan_proofs.

Lemma partition_scan_run {D H} `{!BlockDev D, !BlockDevLaws D, !KernelHeap H, !KernelHeapLaws H}
  (hd_name hd_text : list Z) (s : scan D H) es fs n r :
  str_at hd_name 0 hd_text -> (length hd_text <= 5)%nat ->
  disk_ready (sc_dev s) -> has_table (sector (sc_dev s)) 0 es -> describes (sector (sc_dev s)) true es fs ->
  ext_lba_base s = 0 -> room_for (sc_parts s) (primaries fs) (logicals fs) -> room (S (logicals fs + r)) (sc_heap s) ->
  (length fs <= n)%nat ->
  exists s', partition_scan hd_name (S n) 0 s = Ok (tt, s') /\
    sc_parts s' = fold_left (record_found hd_text) fs (sc_parts s) /\
    live (sc_heap s') = live (sc_heap s) /\ room r (sc_heap s') /\
    disk_ready (sc_dev s') /\ (forall x, sector (sc_dev s') x = sector (sc_dev s) x).
Proof.
  intros Hname Hshort Hdev Ht Hd Hbase Hroom Hheap Hn. destruct (table_entries _ _ _ Ht) as [Hlen Hent].
  assert (Hrange : Forall (fun e => 0 <= e_start e < 2 ^ 31) es).
  { apply list.Forall_lookup. intros i e Hi. by apply Ht in Hi as [_ ?]. }
  assert (Hr : scan_ready (sector (sc_dev s)) s (primaries fs) (logicals fs) (S (logicals fs + r))) by (by constructor).
  destruct (partition_scan_frame hd_name hd_text Hname Hshort (sector (sc_dev s)) (fun _ => True) n 0 es s (primaries fs) (logicals fs) (logicals fs + r)
    (fold_left (record_found hd_text) fs (sc_parts s)) 0 0 r Ht Hr) as (b & _ & s' & E & [H1 _] & [R1 R2 R3 _] & P & _).
  - intros s1 Hr1 Hp1 Hb1. rewrite <- Hp1, <- Hlen.
    destruct (describes_run hd_name hd_text Hname Hshort (sector (sc_dev s)) true es fs Hd n 0 s1 0 0 r Hent Hrange Hn) as (b & Hend);
      [intros _; congruence|by rewrite !Nat.add_0_r|]. by exists b.
  - exists s'. by split_and!.
Qed.

(** C31: scanning a disk finds its partitions.  When sector 0 describes the partitions [fs],
    primary ones and those of one chain of extended boot records, at most 3 and at most 7 of
    them, the scan returns; it has filled in exactly the elements of [prim_parts] and
    [logic_parts] for them, each with its absolute first sector, its size and its name (the
    disk's name and 1 and up, or 5 and up), and put them on [partition_list] in the order of the
    tables; every buffer is given back and no sector has changed.  The depth of the recursion is
    the number of logical partitions. *)
Theorem partition_scan_spec {D H} `{!BlockDev D, !BlockDevLaws D, !KernelHeap H, !KernelHeapLaws H}
  (hd_name hd_text : list Z) (s : scan D H) es fs n r :
  str_at hd_name 0 hd_text -> (length hd_text <= 5)%nat ->
  disk_ready (sc_dev s) -> has_table (sector (sc_dev s)) 0 es -> describes (sector (sc_dev s)) true es fs ->
  ext_lba_base s = 0 -> room_for (sc_parts s) (primaries fs) (logicals fs) -> room (S (logicals fs + r)) (sc_heap s) ->
  (length fs <= n)%nat ->
  exists s', partition_scan hd_name (S n) 0 s = Ok (tt, s') /\
    sc_parts s' = fold_left (record_found hd_text) fs (sc_parts s) /\
    live (sc_heap s') = live (sc_heap s) /\ room r (sc_heap s') /\
    disk_ready (sc_dev s') /\ (forall x, sector (sc_dev s') x = sector (sc_dev s) x).
Proof. exact (partition_scan_run hd_name hd_text s es fs n r). Qed.

(** A disk "sdb" with a primary partition of 4000 sectors at 63, and an extended one at 5000
    with a logical partition. *)
Definition table_bytes (es : list (Z * Z * Z)) : list Z :=
  concat (map (fun e => replicate 4 0 ++ e.1.1 :: replicate 3 0 ++ le_bytes 4 e.1.2 ++ le_bytes 4 e.2) es).
Definition boot_sector (es : list (Z * Z * Z)) : list Z :=
  replicate 446 0 ++ table_bytes es ++ replicate (66 - length (table_bytes es)) 0.
Definition sample_table_disk : mem_disk := MemDisk
  {[ 0 := boot_sector [(0x83, 63, 4000); (5, 5000, 900)]; 5000 := boot_sector [(0x83, 63, 800)] ]}.
Definition no_entry : entry := Entry 0 0 0.
Definition sample_scan : scan mem_disk bump_heap :=
  Scan sample_table_disk (BumpHeap 4096 ∅ false) 0
    (Parts 0 0 (replicate 4 (Part 0 0 (replicate 8 0))) (replicate 8 (Part 0 0 (replicate 8 0))) []).
Definition sample_name : list Z := [115; 100; 98; 0; 0; 0; 0; 0].

Lemma table_check sec lba es : 0 <= lba < DISK_SECTORS -> length es = 4%nat ->
  forallb (fun i => bool_decide (entry_at (sec lba) (Z.of_nat i) = match es !! i with Some e => Ok e | None => Err OutOfBounds end) &&
    match es !! i with Some e => (0 <=? e_start e) && (e_start e <? 2 ^ 31) | None => true end) (seq 0 4) = true ->
  has_table sec lba es.
Proof.
  intros Hl Hlen Hall. split; [done|]. split; [done|]. intros i e Hi. rewrite forallb_forall in Hall.
  pose proof (lookup_lt_Some _ _ _ Hi). specialize (Hall i ltac:(apply in_seq; lia)). rewrite Hi in Hall.
  apply andb_prop in Hall as [H1 H2]. apply bool_decide_eq_true in H1. split; [done|lia].
Qed.

Lemma partition_scan_spec_witness : exists s', partition_scan sample_name 3 0 sample_scan = Ok (tt, s') /\
  partition_list (sc_parts s') = [RPrim 0; RLogic 0].
Proof.
  destruct (partition_scan_spec sample_name [115; 100; 98] sample_scan
    [Entry 0x83 63 4000; Entry 5 5000 900; no_entry; no_entry] [FPrim 63 4000; FLogic 5063 800] 2 0) as (s' & E & P & _).
  - apply (str_at_app [115; 100; 98] (replicate 4 0)). by apply text_check.
  - simpl. lia.
  - intros x l Hx. unfold sample_scan, sample_table_disk in Hx. cbn [sc_dev md_sectors] in Hx.
    apply lookup_insert_Some in Hx as [[_ <-]|[_ Hx]]; [reflexivity|]. apply lookup_singleton_Some in Hx as [_ <-]. reflexivity.
  - apply table_check; [change DISK_SECTORS with 163840; lia|reflexivity|vm_compute; reflexivity].
  - apply (describes_primary _ true (Entry 0x83 63 4000)); [done|].
    apply (describes_extended _ (Entry 5 5000 900) _ [FLogic 5063 800] []); [done|simpl; lia| |by repeat constructor].
    apply (chain_last _ 5000 5000 (Entry 0x83 63 800) [no_entry; no_entry; no_entry]); [|done|by repeat constructor].
    apply table_check; [change DISK_SECTORS with 163840; lia|reflexivity|vm_compute; reflexivity].
  - reflexivity.
  - constructor; (split; [vm_compute; done|]); (split; [vm_compute; done|]); (split; [reflexivity|]); by repeat constructor.
  - split; [simpl; lia|]. apply map_Forall_empty.
  - simpl. lia.
  - exists s'. split; [exact E|]. by rewrite P.
Defined.
