(* ===== verification/IdeInit.v ===== *)
(** * IdeInit: finding the disks, ide_init of device/ide.c

    The channels get their ports and interrupts, their disks are identified and the second
    disk of each channel is scanned for partitions.  The driver is Ide's, on one controller,
    the scan is Partition's, on the block device the driver is; the text of [printk] is
    collected. *)

From Stdlib Require Import Ascii String.
From S2P Require Import Prelude Bitmap Interrupt Disk Cstring Stdio Ide Partition.
Close Scope string_scope.

#[local] Set Default Proof Using "Type*".

(** ** The state *)

(** The disk's place on the channel, its name and its partitions. *)
Record drive : Type := Drive { dr_no : Z; dr_name : list Z; dr_prim : list part; dr_logic : list part }.

(** [struct ide_channel]. *)
Record ide_channel (A : Type) : Type := IdeChannel { ic_name : list Z; ic_chan : chan A; ic_devices : list drive }.
Arguments IdeChannel {A}.
Arguments ic_name {A} _.
Arguments ic_chan {A} _.
Arguments ic_devices {A} _.

(** An element of [partition_list]: the channel, the disk and the partition in it. *)
Definition part_at : Type := Z * Z * part_ref.

Record ide_state (A H : Type) : Type := IdeState {
  is_channels : list (ide_channel A); is_channel_cnt : Z; is_heap : H; is_base : Z; is_p_no : Z; is_l_no : Z;
  is_list : list part_at; is_handlers : list Z; is_out : list Z
}.
Arguments IdeState {A H}.
Arguments is_channels {A H} _.
Arguments is_channel_cnt {A H} _.
Arguments is_heap {A H} _.
Arguments is_base {A H} _.
Arguments is_p_no {A H} _.
Arguments is_l_no {A H} _.
Arguments is_list {A H} _.
Arguments is_handlers {A H} _.
Arguments is_out {A H} _.

(** ** The code *)

Section ide_init.
Context {A H : Type} `{!AtaPorts A, !KernelHeap H}.
Notation M := (KM (ide_state A H)).
Implicit Types s : ide_state A H.

Definition set_channels (v : list (ide_channel A)) s : ide_state A H :=
  IdeState v (is_channel_cnt s) (is_heap s) (is_base s) (is_p_no s) (is_l_no s) (is_list s) (is_handlers s) (is_out s).
Definition set_channel_cnt (v : Z) s : ide_state A H :=
  IdeState (is_channels s) v (is_heap s) (is_base s) (is_p_no s) (is_l_no s) (is_list s) (is_handlers s) (is_out s).
Definition set_list (v : list part_at) s : ide_state A H :=
  IdeState (is_channels s) (is_channel_cnt s) (is_heap s) (is_base s) (is_p_no s) (is_l_no s) v (is_handlers s) (is_out s).
Definition set_handlers (v : list Z) s : ide_state A H :=
  IdeState (is_channels s) (is_channel_cnt s) (is_heap s) (is_base s) (is_p_no s) (is_l_no s) (is_list s) v (is_out s).
Definition set_out (v : list Z) s : ide_state A H :=
  IdeState (is_channels s) (is_channel_cnt s) (is_heap s) (is_base s) (is_p_no s) (is_l_no s) (is_list s) (is_handlers s) v.
Definition set_numbers (p l : Z) s : ide_state A H :=
  IdeState (is_channels s) (is_channel_cnt s) (is_heap s) (is_base s) p l (is_list s) (is_handlers s) (is_out s).
Definition set_heap_base (h : H) (b : Z) s : ide_state A H :=
  IdeState (is_channels s) (is_channel_cnt s) h b (is_p_no s) (is_l_no s) (is_list s) (is_handlers s) (is_out s).

(** A string literal. *)
Definition str (t : string) : list Z := map (fun a => Z.of_N (N_of_ascii a)) (list_ascii_of_string t).

(** An argument is a number, or a string by its place among [strs]. *)
Definition strings_at (strs : list (list Z)) (w : Z) : outcome (list Z) :=
  match strs !! Z.to_nat w with Some m => Ok m | None => Err OutOfBounds end.
Definition printk_text (format : list Z) (strs : list (list Z)) (args : list Z) : M unit :=
  buf <- klift (print_buf (strings_at strs) format args) ;;
  n <- klift (strlen buf (Some 0)) ;;
  kmod (fun s => set_out (is_out s ++ take (Z.to_nat n) buf) s).

Definition get_channel (no : Z) : M (ide_channel A) := fun s =>
  match is_channels s !! Z.to_nat no with Some c => Ok (c, s) | None => Err OutOfBounds end.
Definition put_channel (no : Z) (c : ide_channel A) : M unit :=
  l <- kreads is_channels ;; l <- klift (wr l no c) ;; kmod (set_channels l).
Definition on_chan {B} (no : Z) (m : KM (chan A) B) : M B :=
  c <- get_channel no ;;
  r <- klift (m (ic_chan c)) ;;
  put_channel no (IdeChannel (ic_name c) r.2 (ic_devices c)) ;;;
  kret r.1.
Definition get_drive (no dev : Z) : M drive :=
  c <- get_channel no ;; klift (match ic_devices c !! Z.to_nat dev with Some d => Ok d | None => Err OutOfBounds end).
Definition put_drive (no dev : Z) (d : drive) : M unit :=
  c <- get_channel no ;; l <- klift (wr (ic_devices c) dev d) ;; put_channel no (IdeChannel (ic_name c) (ic_chan c) l).

(** The driver's view of a drive. *)
Definition disk_of (d : drive) : disk := Ide.Disk (dr_name d) (dr_no d).

(** [identify_disk] of Ide with what it prints; [buf] is what the stack held. *)
Definition identify (no dev : Z) (buf : list Z) : M unit :=
  d <- get_drive no dev ;;
  r <- on_chan no (identify_disk (disk_of d) buf) ;;
  printk_text (str "disk %s info:" ++ [10] ++ str "SN: %s" ++ [10; 0]) [dr_name d; r.1.1] [0; 1] ;;;
  printk_text (str "MODULE: %s" ++ [10; 0]) [r.1.2] [0] ;;;
  printk_text (str "SECTORS: %d" ++ [10; 0]) [] [r.2] ;;;
  printk_text (str "CAPACITY: %dMB" ++ [10; 0]) [] [u32 (r.2 * 512) / 1024 / 1024].

(** [partition_scan(hd, 0)]; [n] bounds the depth of its recursion. *)
Definition scan_disk (n : nat) (no dev : Z) : M unit :=
  c <- get_channel no ;;
  d <- get_drive no dev ;;
  fun s =>
    let dev_ops := ide_block_dev (disk_of d) in
    match partition_scan (dr_name d) n 0
      (Scan (ic_chan c) (is_heap s) (is_base s) (Parts (is_p_no s) (is_l_no s) (dr_prim d) (dr_logic d) [])) with
    | Err e => Err e
    | Ok (_, sc) =>
        let p := sc_parts sc in
        (put_channel no (IdeChannel (ic_name c) (sc_dev sc) (ic_devices c)) ;;;
         put_drive no dev (Drive (dr_no d) (dr_name d) (prim_parts p) (logic_parts p)) ;;;
         kmod (fun s => set_numbers (p_no p) (l_no p)
           (set_list (is_list s ++ map (fun r => (no, dev, r)) (partition_list p)) (set_heap_base (sc_heap sc) (ext_lba_base sc) s)))) s
    end.

(** The body of the loop over the disks of a channel. *)
Definition init_device (n : nat) (no dev : Z) (buf : list Z) : M unit :=
  d <- get_drive no dev ;;
  name <- klift (sprintf (fun _ => Err OutOfBounds) (dr_name d) (str "sd%c" ++ [0]) [97 + no * 2 + dev]) ;;
  put_drive no dev (Drive dev name.1 (dr_prim d) (dr_logic d)) ;;;
  identify no dev buf ;;;
  (if negb (dev =? 0) then scan_disk n no dev else kret tt) ;;;
  kmod (set_numbers 0 0).

(** The body of the loop over the channels. *)
Definition init_channel (n : nat) (no : Z) (buf : list Z) : M unit :=
  c <- get_channel no ;;
  name <- klift (sprintf (fun _ => Err OutOfBounds) (ic_name c) (str "ide%d" ++ [0]) [no]) ;;
  let k := ic_chan c in
  let k := if no =? 0 then Chan 0x1f0 (0x20 + 14) (ch_lock k) (expecting_intr k) (disk_done k) (ata k)
           else if no =? 1 then Chan 0x170 (0x20 + 15) (ch_lock k) (expecting_intr k) (disk_done k) (ata k) else k in
  put_channel no (IdeChannel name.1 (Chan (port_base k) (irq_no k) 0 false 0 (ata k)) (ic_devices c)) ;;;
  kmod (fun s => set_handlers (is_handlers s ++ [irq_no k]) s) ;;;
  init_device n no 0 buf ;;;
  init_device n no 1 buf.

Fixpoint channels_loop (k : nat) (n : nat) (no : Z) (buf : list Z) : M unit :=
  match k with
  | O => kret tt
  | S k => init_channel n no buf ;;; channels_loop k n (u8 (no + 1)) buf
  end.

(** [partition_info], for the element [r] of the list. *)
Definition partition_info (r : part_at) : M unit :=
  d <- get_drive r.1.1 r.1.2 ;;
  p <- klift (match r.2 with
    | RPrim i => match dr_prim d !! Z.to_nat i with Some p => Ok p | None => Err OutOfBounds end
    | RLogic i => match dr_logic d !! Z.to_nat i with Some p => Ok p | None => Err OutOfBounds end
    end) ;;
  printk_text (str " %s start_lba:0x%x, sec_cnt:0x%x" ++ [10; 0]) [pt_name p] [0; pt_start p; pt_cnt p].

Fixpoint info_loop (l : list part_at) : M unit :=
  match l with [] => kret tt | r :: l => partition_info r ;;; info_loop l end.

(** [hd_cnt] is the byte at 0x475. *)
Definition ide_init (n : nat) (hd_cnt : Z) (buf : list Z) : M unit :=
  printk_text (str "ide_init start" ++ [10; 0]) [] [] ;;;
  ASSERT (0 <? hd_cnt) ;;;
  kmod (set_list []) ;;;
  kmod (set_channel_cnt (u8 (DIV_ROUND_UP hd_cnt 2))) ;;;
  cnt <- kreads is_channel_cnt ;;
  channels_loop (Z.to_nat cnt) n 0 buf ;;;
  printk_text ([10] ++ str "all partition info" ++ [10; 0]) [] [] ;;;
  l <- kreads is_list ;;
  info_loop l ;;;
  printk_text (str "ide_init done" ++ [10; 0]) [] [].
End ide_init.

(** ** Printing *)

Lemma decimal_text w : is_text (decimal w) /\ (length (decimal w) <= 33)%nat.
Proof.
  unfold decimal. pose proof (i32_range w). pose proof (digits_length 10 ltac:(lia) 32) as Hl.
  destruct (Z.ltb_spec (i32 w) 0) as [Hn|Hn].
  - split; [constructor; [lia|apply digits_text; lia]|cbn [length]; specialize (Hl (- i32 w)); unfold numeral; lia].
  - split; [apply digits_text; lia|specialize (Hl (i32 w)); unfold numeral; lia].
Qed.

Lemma hex_text w : is_text (numeral 16 (u32 w)) /\ (length (numeral 16 (u32 w)) <= 32)%nat.
Proof. pose proof (u32_range w). split; [apply digits_text; lia|apply digits_length; lia]. Qed.

(** The strings of a call are stored, and its pieces are what [render_pieces] asks for. *)
Ltac strings_ok := repeat first [apply List.Forall2_nil | apply List.Forall2_cons; [assumption|]].
Ltac pieces_ok := repeat first [apply List.Forall_nil
  | apply List.Forall_cons; [first [exact Logic.I | reflexivity | split; [reflexivity|assumption]]|]].

(** A format in pieces: text, a string, a decimal and a hexadecimal number. *)
Inductive piece : Type := PLit (l : list Z) | PStr (w : Z) (t : list Z) | PDec (w : Z) | PHex (w : Z).
Definition piece_format (p : piece) : list Z :=
  match p with PLit l => l | PStr _ _ => [37; 115] | PDec _ => [37; 100] | PHex _ => [37; 120] end.
Definition piece_args (p : piece) : list Z := match p with PLit _ => [] | PStr w _ | PDec w | PHex w => [w] end.
Definition piece_text (p : piece) : list Z :=
  match p with PLit l => l | PStr _ t => t | PDec w => decimal w | PHex w => numeral 16 (u32 w) end.
(** A bound of the text's length. *)
Definition piece_size (p : piece) : nat :=
  match p with PLit l => length l | PStr _ t => length t | PDec _ => 33 | PHex _ => 32 end.
Definition format_of (ps : list piece) : list Z := concat (map piece_format ps).
Definition args_of (ps : list piece) : list Z := concat (map piece_args ps).
Definition text_of (ps : list piece) : list Z := concat (map piece_text ps).
Definition piece_ok (strings : Z -> option (list Z)) (p : piece) : Prop :=
  match p with
  | PLit l => forallb (fun c => (0 <? c) && (c <? 256) && negb (c =? 37)) l = true
  | PStr w t => strings w = Some t /\ is_text t
  | _ => True
  end.

Lemma render_lit strings l f args : forallb (fun c => (0 <? c) && (c <? 256) && negb (c =? 37)) l = true ->
  render strings (l ++ f) args = app l <$> render strings f args.
Proof.
  induction l as [|c l IH]; cbn [app forallb].
  - intros _. by destruct (render strings f args).
  - intros [[Hr Hc]%andb_true_iff Hl]%andb_true_iff. cbn [render]. destruct (c =? 37); [done|]. rewrite (IH Hl).
    by destruct (render strings f args).
Qed.

Lemma render_pieces strings ps : Forall (piece_ok strings) ps ->
  render strings (format_of ps) (args_of ps) = Some (text_of ps) /\ is_text (text_of ps) /\
  (length (text_of ps) <= sum_list_with piece_size ps)%nat.
Proof.
  induction 1 as [|p ps Hp Hps (IH & It & Il)]; [by split_and!; [|constructor|]|].
  unfold format_of, args_of, text_of in *. cbn [map concat sum_list_with]. rewrite length_app.
  destruct p as [l|w t|w|w]; cbn [piece_format piece_args piece_text piece_size piece_ok app] in *.
  - rewrite render_lit, IH by done. split; [done|]. split; [|lia]. apply list.Forall_app. split; [|done].
    apply text_check. rewrite forallb_forall in *. intros c Hc. specialize (Hp c Hc). lia.
  - destruct Hp as [Hw Ht]. cbn [render]. change (37 =? 37) with true. change (115 =? 115) with true. cbv iota.
    rewrite Hw. cbn [mbind option_bind]. rewrite IH. split; [done|]. split; [by apply list.Forall_app|lia].
  - destruct (decimal_text w) as [Tw Lw]. cbn [render]. change (37 =? 37) with true. change (100 =? 115) with false.
    change (100 =? 99) with false. change (100 =? 100) with true. cbv iota. rewrite IH. split; [done|]. split; [by apply list.Forall_app|lia].
  - destruct (hex_text w) as [Tw Lw]. cbn [render]. change (37 =? 37) with true. change (120 =? 115) with false.
    change (120 =? 99) with false. change (120 =? 100) with false. change (120 =? 120) with true. cbv iota. rewrite IH.
    split; [done|]. split; [by apply list.Forall_app|lia].
Qed.

Section printing.
Context {A H : Type} `{!AtaPorts A, !KernelHeap H}.
Implicit Types s : ide_state A H.

(** Only the text has become longer. *)
Definition printed s s' : Prop := exists t, s' = set_out (is_out s ++ t) s.

Lemma printed_trans s1 s2 s3 : printed s1 s2 -> printed s2 s3 -> printed s1 s3.
Proof. intros [t1 ->] [t2 ->]. exists (t1 ++ t2). cbn. by rewrite app_assoc. Qed.

Lemma printk_run ps strs texts s :
  Forall2 (fun m t => str_at m 0 t) strs texts -> Forall (piece_ok (fun w => texts !! Z.to_nat w)) ps ->
  is_text (format_of ps) -> (sum_list_with piece_size ps < 1024)%nat ->
  exists s', printk_text (format_of ps ++ [0]) strs (args_of ps) s = Ok (tt, s') /\ printed s s'.
Proof.
  intros Hs Hps Hf Hl. unfold printk_text. destruct (render_pieces _ ps Hps) as (Hr & Ht & Hn).
  destruct (print_buf_run (strings_at strs) (fun w => texts !! Z.to_nat w)) with (fm := format_of ps ++ [0]) (f := format_of ps)
    (args := args_of ps) (text := text_of ps) as (rest & R & Hst); [|by apply (str_at_app _ [])|done|done|lia|].
  - intros w u Hw. unfold strings_at. destruct (Forall2_lookup_r _ _ _ _ _ Hs Hw) as (m & -> & Hm). by exists m.
  - rewrite (kbind_ok _ _ s (text_of ps ++ 0 :: rest) s) by (unfold klift; by rewrite R).
    assert (E : strlen (text_of ps ++ 0 :: rest) (Some 0) = Ok (Z.of_nat (length (text_of ps)))).
    { unfold strlen. cbn [not_null obind]. rewrite (find_nul_spec _ _ _ (text_of ps)) by (done || by apply str_fuel in Hst).
      cbn [obind]. f_equal. lia. }
    rewrite (kbind_ok _ _ s (Z.of_nat (length (text_of ps))) s) by (unfold klift; by rewrite E).
    eexists. split; [reflexivity|]. by eexists.
Qed.
End printing.

(** ** Identification *)

(** Pairs of bytes, each the other way round. *)
Fixpoint swapped (l : list Z) : list Z :=
  match l with a :: b :: l => b :: a :: swapped l | _ => [] end.

Lemma swap_loop_run k n dst d pre mid x post l rest :
  length l = (2 * k)%nat -> length mid = (2 * k)%nat -> (k <= n)%nat -> (length pre + 2 * k < 256)%nat ->
  0 <= d -> drop (Z.to_nat d) dst = l ++ rest ->
  swap_loop n dst d (pre ++ mid ++ x :: post) (Z.of_nat (length pre)) (Z.of_nat (length pre + 2 * k))
  = Ok (pre ++ swapped l ++ 0 :: post).
Proof.
  revert n d pre mid l. induction k as [|k IH]; intros n d pre mid l Hl Hm Hn Hp Hd Hdst.
  - destruct l; [|done]. destruct mid; [|done]. rewrite Nat.mul_0_r, Nat.add_0_r. destruct n; cbn [swap_loop app swapped];
      rewrite Z.ltb_irrefl, wr_mid, <- app_assoc; done.
  - destruct l as [|a [|b l]]; [cbn in Hl; lia..|]. destruct mid as [|x0 [|x1 mid]]; [cbn in Hm; lia..|]. destruct n as [|n]; [lia|].
    cbn [swap_loop]. rewrite (proj2 (Z.ltb_lt _ _)) by lia. rewrite (rd_drop _ _ _ _ Hd Hdst). cbn [obind].
    assert (Hd1 : drop (Z.to_nat (d + 1)) dst = b :: (l ++ rest)) by (eapply drop_next; done).
    assert (Hd2 : drop (Z.to_nat (d + 2)) dst = l ++ rest).
    { replace (d + 2) with (d + 1 + 1) by lia. eapply drop_next; [lia|done]. }
    pose proof (wr_mid (pre ++ [x0]) x1 (mid ++ x :: post) a) as W1. rewrite length_app in W1. cbn [length] in W1.
    replace (Z.of_nat (length pre + 1)) with (Z.of_nat (length pre) + 1) in W1 by lia. rewrite <- !app_assoc in W1. cbn [app] in W1 |- *.
    rewrite W1. cbn [obind]. rewrite (rd_drop dst (d + 1) b (l ++ rest) ltac:(lia) Hd1). cbn [obind]. rewrite wr_mid. cbn [obind].
    rewrite u8_small by lia. specialize (IH n (d + 2) (pre ++ [b; a]) mid l). rewrite length_app in IH. cbn [length] in *.
    replace (Z.of_nat (length pre) + 2) with (Z.of_nat (length pre + 2)) by lia.
    replace (length pre + 2 * S k)%nat with (length pre + 2 + 2 * k)%nat by lia.
    etrans; [|etrans; [apply IH; try done; lia|]].
    + by rewrite <- !app_assoc.
    + cbn [swapped]. by rewrite <- !app_assoc.
Qed.

Lemma swapped_text l : is_text l -> is_text (swapped l).
Proof.
  assert (G : forall n l, (length l <= n)%nat -> is_text l -> is_text (swapped l)); [|by apply (G (length l))].
  clear l. induction n as [|n IH]; intros [|a [|b l]] Hl Ht; try (by constructor); cbn in Hl; [lia|].
  cbn [swapped]. apply list.Forall_cons in Ht as [Ha Ht]. apply list.Forall_cons in Ht as [Hb Ht].
  repeat constructor; try lia. apply IH; [lia|done].
Qed.

Lemma swapped_length l : (length (swapped l) <= length l)%nat.
Proof.
  assert (G : forall n l, (length l <= n)%nat -> (length (swapped l) <= length l)%nat); [|by apply (G (length l))].
  clear l. induction n as [|n IH]; intros [|a [|b l]] Hl; cbn in *; try lia. specialize (IH l ltac:(lia)). lia.
Qed.

(** The swapped bytes and a NUL at the start of the buffer. *)
Lemma swap_pairs_run (dst : list Z) (d : Z) (buf : list Z) k :
  0 <= d -> (Z.to_nat d + 2 * k <= length dst)%nat -> (2 * k < length buf)%nat -> (2 * k < 256)%nat -> length buf = 64%nat ->
  is_text (take (2 * k) (drop (Z.to_nat d) dst)) ->
  exists r, swap_pairs_bytes dst d buf (Z.of_nat (2 * k)) = Ok r /\ str_at r 0 (swapped (take (2 * k) (drop (Z.to_nat d) dst))).
Proof.
  intros Hd Hl Hb Hk _ Ht. unfold swap_pairs_bytes. rewrite Nat2Z.id. set (l := take (2 * k) (drop (Z.to_nat d) dst)) in *.
  destruct (drop (2 * k) buf) as [|x post] eqn:Ed; [apply (f_equal length) in Ed; rewrite length_drop in Ed; cbn in Ed; lia|].
  exists (swapped l ++ 0 :: post). split; [|apply str_at_app; by apply swapped_text].
  rewrite <- (take_drop (2 * k) buf), Ed.
  apply (swap_loop_run k (2 * k) dst d [] (take (2 * k) buf) x post l (drop (2 * k) (drop (Z.to_nat d) dst))).
  - unfold l. rewrite length_take, length_drop. lia.
  - rewrite length_take. lia.
  - lia.
  - cbn. lia.
  - done.
  - unfold l. by rewrite take_drop.
Qed.

Section identify.
Context {A : Type} `{!AtaPorts A, !AtaLaws A}.

Definition serial (d : Z) : list Z := take 20 (drop 20 (ata_identity d)).
Definition model (d : Z) : list Z := take 40 (drop 54 (ata_identity d)).
(** The texts of the identification have no NUL. *)
Definition ident_ok (d : Z) : Prop := is_text (serial d) /\ is_text (model d).

Lemma select_register c hd : chan_ready c ->
  exists c', select_disk hd c = Ok (tt, c') /\ keeps c c' /\ chan_ready c' /\ (ata_reg (ata c') 6 / 16) mod 2 = device_of hd.
Proof.
  intros Hr. pose proof Hr as [Hb _ _ Hp]. unfold select_disk. cbv zeta. rewrite (kbind_ok _ _ c ata_base c) by (by rewrite <- Hb).
  destruct (outb_run c 6 (if dev_no hd =? 1 then Z.lor (Z.lor BIT_DEV_MBS BIT_DEV_LBA) BIT_DEV_DEV
    else Z.lor BIT_DEV_MBS BIT_DEV_LBA) ltac:(lia) Hp) as (c1 & E1 & K1 & _ & P1 & G1).
  exists c1. split; [exact E1|]. split; [done|]. split; [by eapply keeps_ready|].
  rewrite G1, decide_True by done. unfold device_of. by destruct (dev_no hd =? 1).
Qed.

Lemma identify_disk_run c hd buf : chan_ready c -> length buf = 64%nat -> ident_ok (device_of hd) ->
  exists sn md w c', identify_disk hd buf c = Ok ((sn, md, w), c') /\ keeps c c' /\ chan_ready c' /\
    str_at sn 0 (swapped (serial (device_of hd))) /\ str_at md 0 (swapped (model (device_of hd))).
Proof.
  intros Hr Hbuf [Hsn Hmd]. destruct (select_register c hd Hr) as (c1 & E1 & K1 & R1 & G1). pose proof R1 as [B1 I1 D1 P1].
  unfold identify_disk. rewrite (kbind_ok _ _ _ _ _ E1).
  set (c2 := set_ata (ata_outb (ata_base + 7) CMD_IDENTIFY (ata c1)) (set_expecting true c1)).
  rewrite (kbind_ok _ _ c1 tt c2).
  2: { unfold cmd_out. rewrite (kbind_ok _ _ c1 tt (set_expecting true c1)) by done.
    rewrite (kbind_ok _ _ _ ata_base (set_expecting true c1)) by (by rewrite <- B1).
    unfold outb, kmod. rewrite port_u16 by lia. done. }
  destruct (outb_identify (ata c1) P1) as [P2 T2]. rewrite G1 in P2.
  destruct (irq_identify (ata c2) (device_of hd) P2) as (a3 & Ha & P3 & T3).
  destruct (wait_done_run c2 a3 (IdentIn (device_of hd)) B1 I1 D1 eq_refl Ha P3 T3) as (c3 & E3 & K3 & Q3).
  rewrite (kbind_ok _ _ _ _ _ E3).
  assert (K2 : keeps c1 c2) by (split; [by split|exact T2]). pose proof (keeps_trans _ _ _ K2 K3) as K13.
  destruct K13 as [(A1 & A2 & A3 & A4) A5].
  assert (B3 : port_base c3 = ata_base) by (by rewrite A1).
  assert (Q3' : data_requested (ata_phase_of (ata c3)) = true) by (by rewrite Q3).
  destruct (busy_wait_run c3 B3 Q3') as (c4 & E4 & K4 & _ & P4).
  rewrite (kbind_ok _ _ _ _ _ E4). cbn [negb]. rewrite (kbind_ok _ _ c4 tt c4) by done.
  pose proof K4 as [(A1' & A2' & A3' & A4') A5'].
  destruct (data_identify (ata c4) (device_of hd) (eq_trans P4 Q3)) as (R5 & P5 & T5).
  set (c5 := set_ata (ata_insw ata_base 256 (ata c4)).2 c4).
  rewrite (kbind_ok _ _ c4 (ata_identity (device_of hd)) c5).
  2: { unfold read_from_sector. rewrite (kbind_ok _ _ c4 ata_base c4) by (unfold kreads; by rewrite A1', A1, B1).
    change (size_in_byte (u8 1) / 2) with 256. unfold insw. rewrite (port_u16 0) by lia. rewrite Z.add_0_r. cbv zeta. by rewrite R5. }
  pose proof (ata_identity_len (device_of hd)) as Hlen.
  destruct (swap_pairs_run (ata_identity (device_of hd)) 20 buf 10) as (sn & Esn & Hs1);
    [lia|change (Z.to_nat 20) with 20%nat; lia|lia|lia|done|exact Hsn|].
  change (Z.of_nat (2 * 10)) with 20 in Esn. rewrite (kbind_ok _ _ c5 sn c5) by (unfold klift; change (10 * 2) with 20; by rewrite Esn).
  destruct (swap_pairs_run (ata_identity (device_of hd)) 54 (replicate 64 0) 20) as (md & Emd & Hs2);
    [lia|change (Z.to_nat 54) with 54%nat; lia|rewrite length_replicate; lia|lia|done|exact Hmd|].
  change (Z.of_nat (2 * 20)) with 40 in Emd. rewrite (kbind_ok _ _ c5 md c5) by (unfold klift; change (27 * 2) with 54; by rewrite Emd).
  rewrite slice_Ok by lia.
  exists sn, md. eexists. exists c5. split; [reflexivity|].
  assert (K : keeps c c5).
  { eapply keeps_trans; [exact K1|]. eapply keeps_trans; [exact (conj (conj A1 (conj A2 (conj A3 A4))) A5)|].
    eapply keeps_trans; [exact K4|]. split; [by split|exact T5]. }
  split; [exact K|]. split; [exact (keeps_ready c c5 Hr K P5)|]. split; [exact Hs1|exact Hs2].
Qed.
End identify.

(** What a disk describes depends on its sectors alone. *)
Section sectors_ext.
Context (sec sec' : Z -> list Z) (E : forall x, sec' x = sec x).

Lemma has_table_ext lba es : has_table sec lba es -> has_table sec' lba es.
Proof. intros (H1 & H2 & H3). split; [done|]. split; [done|]. intros i e Hi. rewrite E. by apply H3. Qed.

Lemma boot_chain_ext base lba fs : chain sec base lba fs -> chain sec' base lba fs.
Proof. induction 1; [eapply chain_last; eauto using has_table_ext|]. eapply chain_next; eauto using has_table_ext. Qed.

Lemma describes_ext b es fs : describes sec b es fs -> describes sec' b es fs.
Proof. induction 1; try (by constructor). apply describes_extended; eauto using boot_chain_ext. Qed.
End sectors_ext.

(** ** A channel *)

Section channel.
Context {A H : Type} `{!AtaPorts A, !AtaLaws A, !KernelHeap H, !KernelHeapLaws H}.
Implicit Types s : ide_state A H.

Definition with_chan (c : chan A) (ch : ide_channel A) : ide_channel A := IdeChannel (ic_name ch) c (ic_devices ch).

Lemma on_chan_run {B} (m : KM (chan A) B) b c ch rest s : m (ic_chan ch) = Ok (b, c) ->
  on_chan 0 m (set_channels (ch :: rest) s) = Ok (b, set_channels (with_chan c ch :: rest) s).
Proof.
  intros Hm. unfold on_chan. rewrite (kbind_ok _ _ (set_channels (ch :: rest) s) ch (set_channels (ch :: rest) s)) by done.
  rewrite (kbind_ok _ _ _ (b, c) (set_channels (ch :: rest) s)) by (unfold klift; by rewrite Hm). done.
Qed.

Lemma get_drive_run ch rest dev d s : ic_devices ch !! Z.to_nat dev = Some d ->
  get_drive 0 dev (set_channels (ch :: rest) s) = Ok (d, set_channels (ch :: rest) s).
Proof.
  intros Hd. unfold get_drive. rewrite (kbind_ok _ _ _ ch (set_channels (ch :: rest) s)) by done. unfold klift. by rewrite Hd.
Qed.

Lemma put_drive_run ch rest dev d s : 0 <= dev < Z.of_nat (length (ic_devices ch)) ->
  put_drive 0 dev d (set_channels (ch :: rest) s)
  = Ok (tt, set_channels (IdeChannel (ic_name ch) (ic_chan ch) (<[Z.to_nat dev := d]> (ic_devices ch)) :: rest) s).
Proof.
  intros Hd. unfold put_drive. rewrite (kbind_ok _ _ _ ch (set_channels (ch :: rest) s)) by done.
  rewrite (kbind_ok _ _ _ (<[Z.to_nat dev := d]> (ic_devices ch)) (set_channels (ch :: rest) s)) by (unfold klift; by rewrite wr_Ok). done.
Qed.

(** Four lines of text for a disk that has been identified. *)
Lemma identify_run ch rest dev d nm buf s :
  ic_devices ch !! Z.to_nat dev = Some d -> str_at (dr_name d) 0 nm -> (length nm <= 7)%nat ->
  chan_ready (ic_chan ch) -> length buf = 64%nat -> ident_ok (device_of (disk_of d)) ->
  exists c s', identify 0 dev buf (set_channels (ch :: rest) s) = Ok (tt, s') /\
    printed (set_channels (with_chan c ch :: rest) s) s' /\ keeps (ic_chan ch) c /\ chan_ready c.
Proof.
  intros Hd Hnm Hlen Hr Hbuf Hid. unfold identify. rewrite (kbind_ok _ _ _ _ _ (get_drive_run ch rest dev d s Hd)).
  destruct (identify_disk_run (ic_chan ch) (disk_of d) buf Hr Hbuf Hid) as (sn & md & w & c & E & K & R & Hsn & Hmd).
  rewrite (kbind_ok _ _ _ _ _ (on_chan_run _ _ _ ch rest s E)). cbn [fst snd].
  set (s0 := set_channels (with_chan c ch :: rest) s). destruct Hid as [Ts Tm].
  set (sns := swapped (serial (device_of (disk_of d)))) in *. set (mds := swapped (model (device_of (disk_of d)))) in *.
  assert (Ls : (length sns <= 20)%nat) by (etrans; [apply swapped_length|unfold serial; rewrite length_take; lia]).
  assert (Lm : (length mds <= 40)%nat) by (etrans; [apply swapped_length|unfold model; rewrite length_take; lia]).
  assert (Tn : is_text nm) by apply Hnm.
  assert (Tss : is_text sns) by (by apply swapped_text). assert (Tms : is_text mds) by (by apply swapped_text).
  destruct (printk_run [PLit (str "disk "); PStr 0 nm; PLit (str " info:" ++ [10] ++ str "SN: "); PStr 1 sns; PLit [10]]
    [dr_name d; sn] [nm; sns] s0) as (s1 & R1 & P1);
    [solve [strings_ok]|solve [pieces_ok]|by apply text_check|cbn; lia|].
  rewrite (kbind_ok _ _ s0 tt s1) by exact R1.
  destruct (printk_run [PLit (str "MODULE: "); PStr 0 mds; PLit [10]] [md] [mds] s1) as (s2 & R2 & P2);
    [solve [strings_ok]|solve [pieces_ok]|by apply text_check|cbn; lia|].
  rewrite (kbind_ok _ _ s1 tt s2) by exact R2.
  destruct (printk_run [PLit (str "SECTORS: "); PDec w; PLit [10]] [] [] s2) as (s3 & R3 & P3);
    [solve [strings_ok]|solve [pieces_ok]|by apply text_check|cbn; lia|].
  rewrite (kbind_ok _ _ s2 tt s3) by exact R3.
  destruct (printk_run [PLit (str "CAPACITY: "); PDec (u32 (w * 512) / 1024 / 1024); PLit (str "MB" ++ [10])] [] [] s3) as (s4 & R4 & P4);
    [solve [strings_ok]|solve [pieces_ok]|by apply text_check|cbn; lia|].
  exists c, s4. split; [exact R4|]. split; [|by split]. eauto using printed_trans.
Qed.

(** The driver for one disk of the channel [c0], whose other disk nobody touches. *)
#[program] Definition channel_laws (hd : disk) (c0 : chan A) : @BlockDevLaws (chan A) (ide_block_dev hd) :=
  let _ := ide_block_dev hd in {|
  sector c x := ata_sector (ata c) (device_of hd) x;
  disk_ready c := driver_ready c /\ same_chan c0 c /\
    forall d x, d <> device_of hd -> ata_sector (ata c) d x = ata_sector (ata c0) d x
|}.
Next Obligation. intros. apply ata_sector_len. Qed.
Next Obligation.
  intros hd c0 ? c lba cnt (Hr & Hs & Hd) Hl Hc Hcnt. destruct (driver_read_run c hd lba cnt Hr Hl Hc Hcnt) as (c' & E & [K1 K2] & R).
  exists c'. split; [exact E|]. split; [|intros x; apply K2]. split; [done|]. split.
  - destruct Hs as (S1 & S2 & S3 & S4), K1 as (T1 & T2 & T3 & T4). unfold same_chan. by rewrite T1, T2, T3, T4.
  - intros d x Hdx. rewrite K2. by apply Hd.
Qed.
Next Obligation.
  intros hd c0 ? c lba b cnt (Hr & Hs & Hd) Hl Hc Hcnt Hb. destruct (driver_write_run c hd lba cnt b Hr Hl Hc Hcnt Hb) as (c' & E & K1 & R & T).
  exists c'. split; [unfold disk_write, ide_block_dev; by rewrite E|]. split; [|intros x; by rewrite T, decide_True]. split; [done|]. split.
  - destruct Hs as (S1 & S2 & S3 & S4), K1 as (T1 & T2 & T3 & T4). unfold same_chan. by rewrite T1, T2, T3, T4.
  - intros d x Hdx. rewrite T, decide_False by done. by apply Hd.
Qed.

(** The parts of a disk in which [fs] was found. *)
Definition found_parts (nm : list Z) (d : drive) (fs : list found) : parts :=
  fold_left (record_found nm) fs (Parts 0 0 (dr_prim d) (dr_logic d) []).

Lemma scan_disk_run n ch rest d0 d nm es fs r s :
  ic_devices ch = [d0; d] -> dr_no d = 1 -> str_at (dr_name d) 0 nm -> (length nm <= 5)%nat ->
  driver_ready (ic_chan ch) -> is_base s = 0 -> is_p_no s = 0 -> is_l_no s = 0 ->
  has_table (ata_sector (ata (ic_chan ch)) 1) 0 es -> describes (ata_sector (ata (ic_chan ch)) 1) true es fs ->
  room_for (Parts 0 0 (dr_prim d) (dr_logic d) []) (primaries fs) (logicals fs) -> room (S (logicals fs + r)) (is_heap s) ->
  (length fs <= n)%nat ->
  let p := found_parts nm d fs in
  exists c h b, scan_disk (S n) 0 1 (set_channels (ch :: rest) s)
    = Ok (tt, set_numbers (p_no p) (l_no p) (set_list (is_list s ++ map (fun r => (0, 1, r)) (partition_list p))
        (set_heap_base h b (set_channels (IdeChannel (ic_name ch) c [d0; Drive 1 (dr_name d) (prim_parts p) (logic_parts p)] :: rest) s)))) /\
    live h = live (is_heap s) /\ room r h /\ driver_ready c /\ keeps (ic_chan ch) c.
Proof.
  intros Hdev Hno Hnm Hshort Hr Hb Hpn Hln Ht Hd Hroom Hheap Hn p.
  assert (Hdo : device_of (disk_of d) = 1) by (unfold device_of, disk_of; cbn; by rewrite Hno).
  destruct (@partition_scan_run (chan A) H (ide_block_dev (disk_of d)) (channel_laws (disk_of d) (ic_chan ch)) _ _ (dr_name d) nm
    (Scan (ic_chan ch) (is_heap s) (is_base s) (Parts (is_p_no s) (is_l_no s) (dr_prim d) (dr_logic d) [])) es fs n r)
    as (sc & E & P & L & R & (D1 & D2 & D3) & Sx).
  { exact Hnm. }
  { exact Hshort. }
  { split; [exact Hr|]. split; [by (split; [|split; [|split]])|done]. }
  { cbn. by rewrite Hdo. }
  { cbn. by rewrite Hdo. }
  { exact Hb. }
  { cbn [sc_parts]. by rewrite Hpn, Hln. }
  { exact Hheap. }
  { exact Hn. }
  cbn [sc_dev sc_heap ext_lba_base sc_parts sector disk_ready channel_laws] in *.
  rewrite Hpn, Hln in P. fold (found_parts nm d fs) in P. fold p in P.
  exists (sc_dev sc), (sc_heap sc), (ext_lba_base sc). split; [|split; [exact L|split; [exact R|split; [exact D1|split; [exact D2|]]]]].
  - unfold scan_disk. rewrite (kbind_ok _ _ (set_channels (ch :: rest) s) ch (set_channels (ch :: rest) s)) by done.
      rewrite (kbind_ok _ _ _ d (set_channels (ch :: rest) s)) by (apply get_drive_run; by rewrite Hdev).
      change (is_heap (set_channels (ch :: rest) s)) with (is_heap s). change (is_base (set_channels (ch :: rest) s)) with (is_base s).
      change (is_p_no (set_channels (ch :: rest) s)) with (is_p_no s). change (is_l_no (set_channels (ch :: rest) s)) with (is_l_no s).
      rewrite E, P. set (ch1 := IdeChannel (ic_name ch) (sc_dev sc) (ic_devices ch)).
      rewrite (kbind_ok _ _ _ tt (set_channels (ch1 :: rest) s)) by done.
      rewrite (kbind_ok _ _ _ _ _ (put_drive_run ch1 rest 1 _ s ltac:(cbn; rewrite Hdev; cbn; lia))).
      cbn [ch1 ic_name ic_chan ic_devices]. rewrite Hdev, Hno. done.
  - intros dd x. destruct (decide (dd = 1)) as [->|Hne]; [by rewrite <- Hdo|]. apply D3. by rewrite Hdo.
Qed.

Definition sda : list Z := str "sda" ++ replicate 5 0.
Definition sdb : list Z := str "sdb" ++ replicate 5 0.
Definition named_drive (no : Z) (nm : list Z) (d : drive) : drive := Drive no nm (dr_prim d) (dr_logic d).

Lemma drive_name dev : dev = 0 \/ dev = 1 ->
  sprintf (fun _ => Err OutOfBounds) (replicate 8 0) (str "sd%c" ++ [0]) [97 + 0 * 2 + dev]
  = Ok (if dev =? 0 then sda else sdb, 3).
Proof. intros [-> | ->]; reflexivity. Qed.

Lemma sd_str : str_at sda 0 (str "sda") /\ str_at sdb 0 (str "sdb").
Proof. split; apply (str_at_app _ (replicate 4 0)), text_check; reflexivity. Qed.

(** The master is identified and left alone. *)
Lemma init_master_run n nm c d0 d1 rest buf s :
  dr_name d0 = replicate 8 0 -> chan_ready c -> length buf = 64%nat -> ident_ok 0 ->
  exists c' t, init_device n 0 0 buf (set_channels (IdeChannel nm c [d0; d1] :: rest) s)
    = Ok (tt, set_numbers 0 0 (set_out t (set_channels (IdeChannel nm c' [named_drive 0 sda d0; d1] :: rest) s))) /\
    keeps c c' /\ chan_ready c'.
Proof.
  intros Hnm Hr Hbuf Hid. unfold init_device. set (s0 := set_channels (IdeChannel nm c [d0; d1] :: rest) s).
  rewrite (kbind_ok _ _ s0 d0 s0) by done.
  rewrite (kbind_ok _ _ s0 (sda, 3) s0) by (unfold klift; rewrite Hnm, (drive_name 0) by (by left); done). cbn [fst].
  set (ch := IdeChannel nm c [named_drive 0 sda d0; d1]). rewrite (kbind_ok _ _ s0 tt (set_channels (ch :: rest) s)) by done.
  destruct (identify_run ch rest 0 (named_drive 0 sda d0) (str "sda") buf s) as (c' & s1 & R1 & [t ->] & K & C);
    [done|apply sd_str|by apply Nat.leb_le|exact Hr|exact Hbuf|exact Hid|].
  rewrite (kbind_ok _ _ _ _ _ R1). exists c'. eexists. split; [reflexivity|by split].
Qed.

(** The slave is identified and scanned. *)
Lemma init_slave_run n nm c d0 d1 es fs r rest buf s :
  dr_name d1 = replicate 8 0 -> chan_ready c -> 0 <= ch_lock c -> length buf = 64%nat -> ident_ok 1 ->
  is_base s = 0 -> is_p_no s = 0 -> is_l_no s = 0 ->
  has_table (ata_sector (ata c) 1) 0 es -> describes (ata_sector (ata c) 1) true es fs ->
  room_for (Parts 0 0 (dr_prim d1) (dr_logic d1) []) (primaries fs) (logicals fs) -> room (S (logicals fs + r)) (is_heap s) ->
  (length fs <= n)%nat ->
  let p := found_parts (str "sdb") d1 fs in
  exists c' t h b, init_device (S n) 0 1 buf (set_channels (IdeChannel nm c [d0; d1] :: rest) s)
    = Ok (tt, set_numbers 0 0 (set_list (is_list s ++ map (fun r => (0, 1, r)) (partition_list p)) (set_heap_base h b
        (set_out t (set_channels (IdeChannel nm c' [d0; Drive 1 sdb (prim_parts p) (logic_parts p)] :: rest) s))))) /\
    keeps c c' /\ driver_ready c' /\ live h = live (is_heap s) /\ room r h.
Proof.
  intros Hnm Hr Hk Hbuf Hid Hb Hp Hl Ht Hd Hroom Hheap Hn p. unfold init_device. set (s0 := set_channels (IdeChannel nm c [d0; d1] :: rest) s).
  rewrite (kbind_ok _ _ s0 d1 s0) by done.
  rewrite (kbind_ok _ _ s0 (sdb, 3) s0) by (unfold klift; rewrite Hnm, (drive_name 1) by (by right); done). cbn [fst].
  set (ch := IdeChannel nm c [d0; named_drive 1 sdb d1]). rewrite (kbind_ok _ _ s0 tt (set_channels (ch :: rest) s)) by done.
  destruct (identify_run ch rest 1 (named_drive 1 sdb d1) (str "sdb") buf s) as (c1 & s1 & R1 & [t ->] & [K1 T1] & C1);
    [done|apply sd_str|by apply Nat.leb_le|exact Hr|exact Hbuf|exact Hid|].
  rewrite (kbind_ok _ _ _ _ _ R1). change (negb (1 =? 0)) with true. cbv iota.
  set (t1 := is_out (set_channels (with_chan c1 ch :: rest) s) ++ t).
  change (set_out t1 (set_channels (with_chan c1 ch :: rest) s)) with (set_channels (with_chan c1 ch :: rest) (set_out t1 s)).
  destruct (scan_disk_run n (with_chan c1 ch) rest d0 (named_drive 1 sdb d1) (str "sdb") es fs r (set_out t1 s))
    as (c2 & h & b & R2 & L2 & M2 & D2 & K2); try assumption.
  - reflexivity.
  - reflexivity.
  - apply sd_str.
  - by apply Nat.leb_le.
  - split; [exact C1|]. destruct K1 as (_ & _ & K1 & _). change (0 <= ch_lock c1). by rewrite K1.
  - eapply has_table_ext; [|exact Ht]. intros x. apply T1.
  - eapply describes_ext; [|exact Hd]. intros x. apply T1.
  - rewrite (kbind_ok _ _ _ _ _ R2). exists c2, t1, h, b. split; [reflexivity|]. split; [|by split_and!].
    eapply keeps_trans; [exact (conj K1 T1)|exact K2].
Qed.
End channel.

(** ** The list that is printed *)

(** Every element of the list is a partition with a name. *)
Definition named_part (p : parts) (r : part_ref) : Prop :=
  exists pt t, match r with RPrim i => prim_parts p !! Z.to_nat i | RLogic i => logic_parts p !! Z.to_nat i end = Some pt /\
    str_at (pt_name pt) 0 t /\ (length t <= 7)%nat.

Lemma name_field_str nm no : is_text nm -> (length nm <= 5)%nat -> 0 <= no < 13 ->
  exists t, str_at (name_field nm no) 0 t /\ (length t <= 7)%nat.
Proof.
  intros Ht Hl Hno. destruct (decimal_small no Hno) as [Hd Hdt]. exists (nm ++ decimal no). unfold name_field. cbv zeta.
  assert (Hlen : (length (nm ++ decimal no) <= 7)%nat) by (rewrite length_app; lia). split; [|done].
  replace (8 - length (nm ++ decimal no))%nat with (S (7 - length (nm ++ decimal no))) by lia.
  apply str_at_app, list.Forall_app. by split.
Qed.

(** Entry [i] of [l] when element [j] is given a name. *)
Lemma named_insert (l : list part) i j st c nm no : is_text nm -> (length nm <= 5)%nat -> 0 <= no < 13 -> 0 <= j < Z.of_nat (length l) ->
  (i = j \/ exists pt t, l !! Z.to_nat i = Some pt /\ str_at (pt_name pt) 0 t /\ (length t <= 7)%nat) ->
  exists pt t, <[Z.to_nat j := Part st c (name_field nm no)]> l !! Z.to_nat i = Some pt /\ str_at (pt_name pt) 0 t /\ (length t <= 7)%nat.
Proof.
  intros Ht Hl Hno Hj Hi. destruct (decide (Z.to_nat i = Z.to_nat j)) as [->|Hne].
  - destruct (name_field_str nm no Ht Hl Hno) as (t & H1 & H2). exists (Part st c (name_field nm no)), t.
    split; [|by split]. apply list_lookup_insert_eq. lia.
  - destruct Hi as [->|(pt & t & H1 & H2)]; [done|]. exists pt, t. by rewrite list_lookup_insert_ne.
Qed.

Lemma record_named nm p f np nl : is_text nm -> (length nm <= 5)%nat ->
  room_for p (primaries [f] + np) (logicals [f] + nl) -> Forall (named_part p) (partition_list p) ->
  Forall (named_part (record_found nm p f)) (partition_list (record_found nm p f)).
Proof.
  intros Ht Hl [(P1 & P2 & P3 & _) (L1 & L2 & L3 & _)] Hp. destruct f as [st c|st c]; cbn in P2, L2; cbn [record_found partition_list];
    (apply list.Forall_app; split; [|apply List.Forall_cons; [|apply List.Forall_nil]]).
  - eapply Forall_impl; [|exact Hp]. intros [i|i] Hi; [|exact Hi]. apply named_insert; [done|done|lia|lia|by right].
  - apply named_insert; [done|done|lia|lia|by left].
  - eapply Forall_impl; [|exact Hp]. intros [i|i] Hi; [exact Hi|]. apply named_insert; [done|done|lia|lia|by right].
  - apply named_insert; [done|done|lia|lia|by left].
Qed.

Lemma found_named nm fs p : is_text nm -> (length nm <= 5)%nat -> room_for p (primaries fs) (logicals fs) ->
  Forall (named_part p) (partition_list p) ->
  Forall (named_part (fold_left (record_found nm) fs p)) (partition_list (fold_left (record_found nm) fs p)).
Proof.
  intros Ht Hl. revert p. induction fs as [|f fs IH]; intros p Hr Hp; [exact Hp|]. cbn [fold_left]. apply IH.
  - destruct f; [apply (room_for_prim (nm ++ [0]) nm)|apply (room_for_logic (nm ++ [0]) nm)]; try done; by apply (str_at_app nm []).
  - apply (record_named nm p f (primaries fs) (logicals fs) Ht Hl); [|exact Hp]. destruct f; exact Hr.
Qed.

Section info.
Context {A H : Type} `{!AtaPorts A, !KernelHeap H}.
Implicit Types s : ide_state A H.

Lemma info_run nm c d0 p rest r s : named_part p r ->
  let L := IdeChannel nm c [d0; Drive 1 sdb (prim_parts p) (logic_parts p)] :: rest in
  exists t, partition_info (0, 1, r) (set_channels L s) = Ok (tt, set_channels L (set_out t s)).
Proof.
  intros (pt & t & Hr & Ht & Hl) L. unfold partition_info. cbn [fst snd].
  rewrite (kbind_ok _ _ _ (Drive 1 sdb (prim_parts p) (logic_parts p)) (set_channels L s)) by done.
  rewrite (kbind_ok _ _ _ pt (set_channels L s)) by (destruct r; unfold klift; cbn [dr_prim dr_logic]; by rewrite Hr).
  assert (Htx : is_text t) by apply Ht.
  destruct (printk_run [PLit [32]; PStr 0 t; PLit (str " start_lba:0x"); PHex (pt_start pt); PLit (str ", sec_cnt:0x"); PHex (pt_cnt pt); PLit [10]]
    [pt_name pt] [t] (set_channels L s)) as (s' & R & [u ->]); [solve [strings_ok]|solve [pieces_ok]|by apply text_check|cbn; lia|].
  eexists. exact R.
Qed.

Lemma info_loop_run nm c d0 p rest l s : Forall (named_part p) l ->
  let L := IdeChannel nm c [d0; Drive 1 sdb (prim_parts p) (logic_parts p)] :: rest in
  exists t, info_loop (map (fun r => (0, 1, r)) l) (set_channels L s) = Ok (tt, set_channels L (set_out t s)).
Proof.
  intros Hl L. revert s. induction Hl as [|r l Hr Hl IH]; intros s; cbn [map info_loop]; [by exists (is_out s); destruct s|].
  destruct (info_run nm c d0 p rest r s Hr) as (t1 & R1). fold L in R1. rewrite (kbind_ok _ _ _ _ _ R1).
  destruct (IH (set_out t1 s)) as (t2 & R2). exists t2. exact R2.
Qed.
End info.

(** ** The whole of it *)

(** A disk nothing is known about. *)
Definition blank_drive : drive :=
  Drive 0 (replicate 8 0) (replicate 4 (Part 0 0 (replicate 8 0))) (replicate 8 (Part 0 0 (replicate 8 0))).

Lemma blank_room np nl : (np < 4)%nat -> (nl < 8)%nat -> room_for (Parts 0 0 (dr_prim blank_drive) (dr_logic blank_drive) []) np nl.
Proof. intros Hp Hl. split; cbn; (split; [lia|]; split; [lia|]; split; [reflexivity|]); repeat (apply List.Forall_cons; [reflexivity|]); apply List.Forall_nil. Qed.

(** The first channel, and with up to two disks the only one. *)
Lemma first_channel_run {A H} `{!AtaPorts A, !AtaLaws A, !KernelHeap H, !KernelHeapLaws H}
  n buf (k : chan A) rest (s : ide_state A H) es fs r :
  length buf = 64%nat -> ata_base = 0x1f0 -> ata_phase_of (ata k) = Idle -> ident_ok 0 -> ident_ok 1 ->
  is_channels s = IdeChannel (replicate 8 0) k [blank_drive; blank_drive] :: rest ->
  is_base s = 0 -> is_list s = [] ->
  has_table (ata_sector (ata k) 1) 0 es -> describes (ata_sector (ata k) 1) true es fs ->
  (primaries fs < 4)%nat -> (logicals fs < 8)%nat -> (length fs <= n)%nat -> room (S (logicals fs + r)) (is_heap s) ->
  let p := found_parts (str "sdb") blank_drive fs in
  exists c t h b, channels_loop (Z.to_nat 1) (S n) 0 buf s
    = Ok (tt, set_channels (IdeChannel (str "ide0" ++ replicate 4 0) c
        [named_drive 0 sda blank_drive; Drive 1 sdb (prim_parts p) (logic_parts p)] :: rest)
        (set_handlers (is_handlers s ++ [0x2e]) (set_numbers 0 0 (set_list (map (fun r => (0, 1, r)) (partition_list p))
          (set_heap_base h b (set_out t s)))))) /\
    driver_ready c /\ keeps (Chan 0x1f0 0x2e 0 false 0 (ata k)) c /\ live h = live (is_heap s) /\ room r h.
Proof.
  intros Hbuf Hbase Hidle Hid0 Hid1 Hch Hb Hlist Ht Hd Hnp Hnl Hn Hheap p.
  set (c0 := Chan 0x1f0 0x2e 0 false 0 (ata k)). set (s1 := set_handlers (is_handlers s ++ [0x2e]) s).
  set (nm := str "ide0" ++ replicate 4 0).
  assert (Hc0 : chan_ready c0) by (split; [by rewrite Hbase|by left|done|exact Hidle]).
  destruct (init_master_run (S n) nm c0 blank_drive blank_drive rest buf s1) as (c1 & t2 & R2 & K2 & C2); [done|done|done|done|].
  pose proof K2 as [(_ & _ & Kl & _) T2].
  destruct (init_slave_run n nm c1 (named_drive 0 sda blank_drive) blank_drive es fs r rest buf (set_numbers 0 0 (set_out t2 s1)))
    as (c2 & t3 & h & b & R3 & K3 & D3 & Lh & Rh).
  { done. } { exact C2. } { rewrite Kl. cbn. lia. } { exact Hbuf. } { exact Hid1. } { exact Hb. } { done. } { done. }
  { eapply has_table_ext; [|exact Ht]. intros x. apply T2. }
  { eapply describes_ext; [|exact Hd]. intros x. apply T2. }
  { by apply blank_room. } { exact Hheap. } { exact Hn. }
  exists c2, t3, h, b. split; [|split; [exact D3|split; [by eapply keeps_trans|by split]]].
  change (Z.to_nat 1) with 1%nat. cbn [channels_loop]. erewrite kbind_ok; [reflexivity|].
  unfold init_channel. rewrite (kbind_ok _ _ s (IdeChannel (replicate 8 0) k [blank_drive; blank_drive]) s).
  2: { unfold get_channel. by rewrite Hch. }
  rewrite (kbind_ok _ _ s (nm, 4) s) by done. cbv zeta. cbn [fst ic_chan ic_devices].
  rewrite (kbind_ok _ _ s tt (set_channels (IdeChannel nm c0 [blank_drive; blank_drive] :: rest) s)).
  2: { unfold put_channel, kreads, kbind, klift. rewrite Hch. reflexivity. }
  rewrite (kbind_ok _ _ _ tt (set_channels (IdeChannel nm c0 [blank_drive; blank_drive] :: rest) s1)) by done.
  rewrite (kbind_ok _ _ _ _ _ R2). etrans; [exact R3|].
  change (is_list (set_numbers 0 0 (set_out t2 s1))) with (is_list s). by rewrite Hlist.
Qed.


(** Two disks, the second with a primary and a logical partition. *)
Definition two_disks : plain_ata :=
  PlainAta Idle (fun _ => 0) (fun d x => if d =? 1 then default [] (md_sectors sample_table_disk !! x) else []).
Definition cold_ide : ide_state plain_ata bump_heap :=
  IdeState [IdeChannel (replicate 8 0) (Chan 0 0 0 false 0 two_disks) [blank_drive; blank_drive];
            IdeChannel (replicate 8 0) (Chan 0 0 0 false 0 two_disks) [blank_drive; blank_drive]]
    0 (BumpHeap 4096 ∅ false) 0 0 0 [] [] [].

