(* ===== verification/Spaces.v ===== *)
(** * Spaces: what fork and process creation need of the address spaces

    The interface between the process code (userprog/fork.c, userprog/process.c) and the
    page allocator and page tables (kernel/memory.c).  An address space is named by the
    physical address of its page directory, the value of [cr3]; user pages lie below
    0xc0000000, the kernel's pages are the same in every space.  [AddressSpaces] has the
    operations, [AddressSpacesLaws] what they promise: the theorems of Process, Fork and Boot
    are proved from the laws.  The small instance at the end is the one the witnesses
    evaluate; PageDirs proves the laws of the page tables and pools of Memory. *)

From S2P Require Import Prelude Bitmap Interrupt DList Sched.

Definition KERNEL_BASE : Z := 0xc0000000.

(** Processes do not use the first megabyte, which the directory of the boot loader maps to
    itself.  The kernel's heap begins behind the pages of its image, a megabyte as well. *)
Definition USER_BASE : Z := 0x100000.
Definition HEAP_BASE : Z := 0xc0100000.

Definition user_page (va : Z) : Prop := USER_BASE <= va < KERNEL_BASE /\ va mod PG_SIZE = 0.
Definition kernel_page (va : Z) : Prop := KERNEL_BASE <= va < 0xffc00000 /\ va mod PG_SIZE = 0.

(** The byte of the address bitmap [v] that has the bit of page [i], and its page. *)
Definition bit_byte (v : virtual_addr) (i : Z) : Z := va_bits v + i / 8.
Definition page_of (a : Z) : Z := a - a mod PG_SIZE.

(** [sp_page p d va] are the bytes of the page at [va] in the space of directory [d], when
    it is mapped; [sp_set_page] writes a whole page; [sp_user_page] is
    [get_a_page_without_opvaddrbitmap(PF_USER, va)], [sp_own_page d v va] is
    [get_a_page(PF_USER, va)] of a process with the addresses [v], [sp_page_dir] is
    [create_page_dir()], all run with [d] in [cr3]; [sp_init_descs] is [block_desc_init] on the [u_block_desc]
    of a PCB. *)
Class AddressSpaces (P : Type) : Type := {
  sp_page : P -> Z -> Z -> option (list Z);
  sp_set_page : Z -> Z -> list Z -> P -> outcome P;
  sp_user_page : Z -> Z -> P -> outcome (Z * P);
  sp_own_page : Z -> virtual_addr -> Z -> P -> outcome (Z * P);
  sp_page_dir : Z -> P -> outcome (Z * P);
  sp_init_descs : Z -> P -> P
}.

(** The [n] pages from [a] on. *)
Definition pages_from (a : Z) (n : nat) : list Z := (fun k => a + Z.of_nat k * PG_SIZE) <$> seq 0 n.

Definition zero_page : list Z := replicate (Z.to_nat PG_SIZE) 0.

Lemma zero_page_length : Z.of_nat (length zero_page) = PG_SIZE.
Proof. unfold zero_page. rewrite length_replicate. apply Z2Nat.id. unfold PG_SIZE. lia. Qed.

Lemma pages_from_elem a n k : 0 <= k < Z.of_nat n -> a + k * PG_SIZE ∈ pages_from a n.
Proof.
  intros Hk. unfold pages_from. apply list_elem_of_fmap. exists (Z.to_nat k).
  split; [by rewrite Z2Nat.id by lia|]. apply elem_of_seq. lia.
Qed.

Lemma pages_from_inv a n va : va ∈ pages_from a n -> exists k, 0 <= k < Z.of_nat n /\ va = a + k * PG_SIZE.
Proof. unfold pages_from. intros (k & -> & Hk%elem_of_seq)%list_elem_of_fmap. exists (Z.of_nat k). lia. Qed.

Lemma pages_from_S a n : pages_from a (S n) = a :: pages_from (a + PG_SIZE) n.
Proof.
  unfold pages_from. cbn [seq]. rewrite fmap_cons, <- fmap_S_seq, <- list_fmap_compose. f_equal; [lia|].
  apply list_fmap_ext. intros i x _. cbn. lia.
Qed.

Lemma pages_from_head a n : (0 < n)%nat -> a ∈ pages_from a n.
Proof. intros Hn. rewrite <- (Z.add_0_r a) at 1. rewrite <- (Z.mul_0_l PG_SIZE). apply pages_from_elem. lia. Qed.

Lemma single_page a va : va ∈ pages_from a (Z.to_nat 1) <-> va = a.
Proof.
  split; [|intros ->; apply pages_from_head; lia]. intros (k & Hk & ->)%pages_from_inv.
  assert (k = 0) by lia. subst. lia.
Qed.

(** The page an address of a run of pages lies in. *)
Lemma page_base a i n :
  a mod PG_SIZE = 0 -> 0 <= i < Z.of_nat n * PG_SIZE -> a + i - (a + i) mod PG_SIZE ∈ pages_from a n.
Proof.
  unfold PG_SIZE. intros Ha Hi.
  replace (a + i - (a + i) mod 4096) with (a + i / 4096 * 4096).
  - apply pages_from_elem. split; [by apply Z.div_pos; lia|]. apply Z.div_lt_upper_bound; lia.
  - rewrite Zplus_mod, Ha, Z.add_0_l, Zmod_mod. pose proof (Z_div_mod_eq_full i 4096). lia.
Qed.

(** ** What an operation leaves alone *)

(** From [p] to [p'] only the pages in [F] changed, every directory lives on, and no
    address got another translation. *)
Record keeps {P : Type} `{!KernelPages P, !AddressSpaces P} (live : P -> Z -> Prop)
    (v2p : P -> Z -> Z -> Prop) (p p' : P) (F : Z -> Z -> Prop) : Prop := {
  kp_page : forall d va, live p d -> ~ F d va -> sp_page p' d va = sp_page p d va;
  kp_live : forall d, live p d -> live p' d;
  kp_v2p : forall a f, v2p p a f -> v2p p' a f
}.

(** [v2p_at p a f]: the kernel's page [a] is mapped to the frame [f].
    [spaces_ok p ns u]: [p] is consistent, and the kernel requests of [ns] pages each and
    [u] more user pages can be served. *)
Class AddressSpacesLaws (P : Type) `{!KernelPages P, !AddressSpaces P} : Type := {
  dir_live : P -> Z -> Prop;
  v2p_at : P -> Z -> Z -> Prop;
  spaces_ok : P -> list Z -> Z -> Prop;
  sp_page_length : forall p ns u d va bs, spaces_ok p ns u -> sp_page p d va = Some bs ->
    Z.of_nat (length bs) = PG_SIZE;
  sp_v2p : forall p ns u a f, spaces_ok p ns u -> v2p_at p a f -> addr_v2p a p = Ok f;
  sp_kernel_shared : forall p ns u d d' va, spaces_ok p ns u -> dir_live p d -> dir_live p d' ->
    kernel_page va -> sp_page p d va = sp_page p d' va;
  sp_set_user : forall p ns u d va old bs, spaces_ok p ns u -> dir_live p d -> user_page va ->
    sp_page p d va = Some old -> Z.of_nat (length bs) = PG_SIZE ->
    exists p', sp_set_page d va bs p = Ok p' /\ spaces_ok p' ns u /\ sp_page p' d va = Some bs /\
      keeps dir_live v2p_at p p' (fun d' va' => d' = d /\ va' = va);
  sp_set_kernel : forall p ns u d va old bs, spaces_ok p ns u -> dir_live p d -> kernel_page va ->
    sp_page p d va = Some old -> Z.of_nat (length bs) = PG_SIZE ->
    exists p', sp_set_page d va bs p = Ok p' /\ spaces_ok p' ns u /\
      (forall d', dir_live p d' -> sp_page p' d' va = Some bs) /\
      keeps dir_live v2p_at p p' (fun _ va' => va' = va);
  sp_get_user : forall p ns u d va, spaces_ok p ns u -> dir_live p d -> user_page va -> 0 < va -> 0 < u ->
    sp_page p d va = None ->
    exists p' bs, sp_user_page d va p = Ok (va, p') /\ spaces_ok p' ns (u - 1) /\
      sp_page p' d va = Some bs /\ keeps dir_live v2p_at p p' (fun d' va' => d' = d /\ va' = va);
  sp_get_own : forall p ns u d v va i bs b, spaces_ok p ns u -> dir_live p d -> user_page va -> 0 < u ->
    0 <= va_start v -> va = va_start v + i * PG_SIZE -> 0 < i < 8 * va_bytes_len v ->
    kernel_page (page_of (bit_byte v i)) -> sp_page p d (page_of (bit_byte v i)) = Some bs ->
    rd bs (bit_byte v i mod PG_SIZE) = Ok b -> 0 <= b < 256 -> sp_page p d va = None ->
    exists p' pg, sp_own_page d v va p = Ok (va, p') /\ spaces_ok p' ns (u - 1) /\ sp_page p' d va = Some pg /\
      (forall d', dir_live p d' -> sp_page p' d' (page_of (bit_byte v i)) =
         Some (<[Z.to_nat (bit_byte v i mod PG_SIZE) := Z.lor b (Z.shiftl 1 (i mod 8))]> bs)) /\
      keeps dir_live v2p_at p p' (fun d' va' => d' = d /\ va' = va \/ va' = page_of (bit_byte v i));
  sp_get_kernel : forall p n ns u, spaces_ok p (n :: ns) u -> 0 < n ->
    exists a p', get_kernel_pages n p = Ok (a, p') /\ spaces_ok p' ns u /\
      (forall va, va ∈ pages_from a (Z.to_nat n) -> kernel_page va /\ 0 < va /\
         (forall d, dir_live p d -> sp_page p d va = None /\ sp_page p' d va = Some zero_page) /\
         (forall f, ~ v2p_at p va f)) /\
      keeps dir_live v2p_at p p' (fun _ va => va ∈ pages_from a (Z.to_nat n));
  sp_heap : forall p n ns u a p', spaces_ok p (n :: ns) u -> 0 < n -> get_kernel_pages n p = Ok (a, p') -> HEAP_BASE <= a;
  sp_new_dir : forall p ns u d, spaces_ok p (1 :: ns) u -> dir_live p d ->
    exists a p' d', sp_page_dir d p = Ok (a, p') /\ spaces_ok p' ns u /\ kernel_page a /\
      v2p_at p' a d' /\ ~ dir_live p d' /\ dir_live p' d' /\
      (forall va, user_page va -> sp_page p' d' va = None) /\
      (forall d, dir_live p d -> sp_page p d a = None) /\ (forall f, ~ v2p_at p a f) /\
      keeps dir_live v2p_at p p' (fun _ va => va = a);
  sp_free_kernel : forall p ns u d a old, spaces_ok p ns u -> dir_live p d -> kernel_page a -> HEAP_BASE <= a ->
    sp_page p d a = Some old ->
    exists p', mfree_kernel_page a 1 p = Ok p' /\ spaces_ok p' ns u /\
      (forall d va, dir_live p d -> va <> a -> sp_page p' d va = sp_page p d va) /\
      (forall d, dir_live p d -> dir_live p' d) /\
      (forall va f, va <> a -> v2p_at p va f -> v2p_at p' va f);
  sp_descs : forall p ns u c, spaces_ok p ns u ->
    spaces_ok (sp_init_descs c p) ns u /\ keeps dir_live v2p_at p (sp_init_descs c p) (fun _ _ => False)
}.

Section keeps.
Context {P : Type} `{!KernelPages P, !AddressSpaces P}.
Variables (live : P -> Z -> Prop) (v2p : P -> Z -> Z -> Prop).
Implicit Types (p : P) (F G : Z -> Z -> Prop).

Lemma keeps_refl p F : keeps live v2p p p F.
Proof. by split. Qed.

Lemma keeps_weaken p p' F G : keeps live v2p p p' F -> (forall d va, F d va -> G d va) -> keeps live v2p p p' G.
Proof. intros [H1 H2 H3] HFG. split; auto. Qed.

Lemma spaces_keeps_trans p1 p2 p3 F : keeps live v2p p1 p2 F -> keeps live v2p p2 p3 F -> keeps live v2p p1 p3 F.
Proof.
  intros [A1 A2 A3] [B1 B2 B3]. split; auto.
  intros d va Hd HF. rewrite (B1 d va (A2 d Hd) HF). auto.
Qed.
End keeps.

Section laws.
Context {P : Type} `{!KernelPages P, !AddressSpaces P, !AddressSpacesLaws P}.
Implicit Types (p : P).

Lemma kp_user p p' F d va :
  keeps dir_live v2p_at p p' F -> dir_live p d -> user_page va -> (forall d v, F d v -> ~ user_page v) ->
  sp_page p' d va = sp_page p d va.
Proof. intros K Hd Hu HF. apply (kp_page _ _ _ _ _ K); [done|]. intros H. by apply (HF d va). Qed.

Lemma keeps_mapped p p' F d va x :
  keeps dir_live v2p_at p p' F -> dir_live p d -> (forall v, F d v -> sp_page p d v = None) ->
  sp_page p d va = Some x -> sp_page p' d va = Some x.
Proof.
  intros K Hd HF Hx. rewrite (kp_page _ _ _ _ _ K); [done..|]. intros Hf. apply HF in Hf. congruence.
Qed.
End laws.

(** ** Copying pages *)

Section copy.
Context {P : Type} `{!KernelPages P, !AddressSpaces P}.

(** The byte at address [a] of the active space. *)
Definition byte_at (a : Z) : KM (kst P) Z := fun s =>
  match sp_page (k_pages s) (k_cr3 s) (a - a mod PG_SIZE) with
  | Some bs => match rd bs (a mod PG_SIZE) with Ok v => Ok (v, s) | Err e => Err e end
  | None => Err OutOfBounds
  end.

(** [memcpy(dst, src, PG_SIZE)] and [memcpy(dst, src, n * PG_SIZE)] between pages of the
    active space: a page that is not mapped faults. *)
Definition copy_page (dst src : Z) : KM (kst P) unit := fun s =>
  match sp_page (k_pages s) (k_cr3 s) src with
  | Some bs =>
      match sp_set_page (k_cr3 s) dst bs (k_pages s) with
      | Ok p => Ok (tt, set_k_pages p s)
      | Err e => Err e
      end
  | None => Err OutOfBounds
  end.
Fixpoint copy_pages (n : nat) (dst src : Z) : KM (kst P) unit :=
  match n with
  | O => kret tt
  | S n => copy_page dst src ;;; copy_pages n (dst + PG_SIZE) (src + PG_SIZE)
  end.

Lemma byte_at_run s a bs v :
  sp_page (k_pages s) (k_cr3 s) (a - a mod PG_SIZE) = Some bs -> rd bs (a mod PG_SIZE) = Ok v ->
  byte_at a s = Ok (v, s).
Proof. intros H1 H2. unfold byte_at. by rewrite H1, H2. Qed.

Lemma copy_page_run s dst src bs p :
  sp_page (k_pages s) (k_cr3 s) src = Some bs -> sp_set_page (k_cr3 s) dst bs (k_pages s) = Ok p ->
  copy_page dst src s = Ok (tt, set_k_pages p s).
Proof. intros H1 H2. unfold copy_page. by rewrite H1, H2. Qed.
End copy.

(** ** A small instance

    Kernel pages are handed out one behind the other and mapped to themselves, a user page
    is whatever was written to it. *)

Record small : Type := Small {
  sm_user : gmap (Z * Z) (list Z);
  sm_kernel : gmap Z (list Z);
  sm_next : Z;
  sm_dirs : list Z
}.

Fixpoint sm_zero (n : nat) (a : Z) (m : gmap Z (list Z)) : gmap Z (list Z) :=
  match n with O => m | S n => <[a := zero_page]> (sm_zero n (a + PG_SIZE) m) end.

#[export] Instance small_pages : KernelPages small := {|
  get_kernel_pages n p := Ok (sm_next p,
    Small (sm_user p) (sm_zero (Z.to_nat n) (sm_next p) (sm_kernel p)) (sm_next p + n * PG_SIZE) (sm_dirs p));
  mfree_kernel_page a n p := Ok (Small (sm_user p) (delete a (sm_kernel p)) (sm_next p) (sm_dirs p));
  addr_v2p a p := Ok a
|}.

#[export] Instance small_spaces : AddressSpaces small := {|
  sp_page p d va :=
    if decide (KERNEL_BASE <= va) then (if decide (d ∈ sm_dirs p) then sm_kernel p !! va else None)
    else sm_user p !! (d, va);
  sp_set_page d va bs p :=
    if decide (KERNEL_BASE <= va) then Ok (Small (sm_user p) (<[va := bs]> (sm_kernel p)) (sm_next p) (sm_dirs p))
    else Ok (Small (<[(d, va) := bs]> (sm_user p)) (sm_kernel p) (sm_next p) (sm_dirs p));
  sp_user_page d va p := Ok (va, Small (<[(d, va) := zero_page]> (sm_user p)) (sm_kernel p) (sm_next p) (sm_dirs p));
  sp_own_page d v va p :=
    let i := (va - va_start v) / PG_SIZE in
    match sm_kernel p !! page_of (bit_byte v i) with
    | Some bs =>
        let? b := rd bs (bit_byte v i mod PG_SIZE) in
        let? bs := wr bs (bit_byte v i mod PG_SIZE) (Z.lor b (Z.shiftl 1 (i mod 8))) in
        Ok (va, Small (<[(d, va) := zero_page]> (sm_user p)) (<[page_of (bit_byte v i) := bs]> (sm_kernel p)) (sm_next p) (sm_dirs p))
    | None => Err OutOfBounds
    end;
  sp_page_dir d p := Ok (sm_next p, Small (sm_user p) (sm_kernel p) (sm_next p + PG_SIZE) (sm_next p :: sm_dirs p));
  sp_init_descs c p := p
|}.

Fixpoint pages_needed (ns : list Z) : Z := match ns with [] => 0 | n :: ns => Z.max 0 n + pages_needed ns end.

Record small_ok (p : small) (ns : list Z) : Prop := {
  so_next : HEAP_BASE <= sm_next p /\ sm_next p mod PG_SIZE = 0;
  so_room : sm_next p + pages_needed ns * PG_SIZE <= 0xffc00000;
  so_kernel : forall a bs, sm_kernel p !! a = Some bs -> a < sm_next p /\ Z.of_nat (length bs) = PG_SIZE;
  so_user : forall d a bs, sm_user p !! (d, a) = Some bs -> d < sm_next p /\ Z.of_nat (length bs) = PG_SIZE;
  so_dirs : forall d, d ∈ sm_dirs p -> d < sm_next p
}.

Lemma pages_needed_pos ns : 0 <= pages_needed ns.
Proof. induction ns; cbn; lia. Qed.

Lemma sm_zero_lookup n a m x :
  sm_zero n a m !! x = (if decide (x ∈ pages_from a n) then Some zero_page else m !! x).
Proof.
  revert a. induction n as [|n IH]; intros a; cbn [sm_zero]; [done|].
  rewrite pages_from_S. destruct (decide (x = a)) as [->|Hne].
  - rewrite lookup_insert_eq, decide_True by (by left). done.
  - rewrite lookup_insert_ne, IH by done. destruct (decide (x ∈ pages_from (a + PG_SIZE) n)).
    + by rewrite decide_True by (by right).
    + rewrite decide_False; [done|]. by intros [?|?]%elem_of_cons.
Qed.

Lemma small_step p ns user kernel next dirs ns' :
  small_ok p ns -> sm_next p <= next -> next mod PG_SIZE = 0 ->
  next + pages_needed ns' * PG_SIZE <= 0xffc00000 ->
  (forall a bs, kernel !! a = Some bs -> a < next /\ Z.of_nat (length bs) = PG_SIZE) ->
  (forall d a bs, user !! (d, a) = Some bs -> d < next /\ Z.of_nat (length bs) = PG_SIZE) ->
  (forall d, d ∈ dirs -> d < next) -> small_ok (Small user kernel next dirs) ns'.
Proof. intros [[H1 _] _ _ _ _] H2 H3 H4 H5 H6 H7. split; cbn; try done. split; [lia|done]. Qed.

Definition small_live (p : small) (d : Z) : Prop := d ∈ sm_dirs p.
Definition small_v2p (p : small) (a f : Z) : Prop := f = a /\ a < sm_next p.

Lemma small_set_user p ns d va old bs :
  small_ok p ns -> small_live p d -> user_page va -> sp_page p d va = Some old -> Z.of_nat (length bs) = PG_SIZE ->
  exists p', sp_set_page d va bs p = Ok p' /\ small_ok p' ns /\ sp_page p' d va = Some bs /\
    keeps small_live small_v2p p p' (fun d' va' => d' = d /\ va' = va).
Proof.
  intros Hok Hd [Hu _] Hold Hlen. pose proof Hok as [H1 H2 H3 H4 H5]. cbn in *.
  rewrite !decide_False in * by lia. eexists. split; [done|]. split; [|split].
  - eapply small_step; try done; [apply H1|]. cbn. intros d' a x. destruct (decide ((d', a) = (d, va))) as [[= -> ->]|Hne].
    + rewrite lookup_insert_eq. intros [= <-]. split; [by apply H5|done].
    + rewrite lookup_insert_ne by congruence. apply H4.
  - cbn. rewrite decide_False by lia. apply lookup_insert_eq.
  - split; [|done..]. cbn. intros d' v Hd' Hne. case_decide; [done|].
    rewrite lookup_insert_ne; [done|]. intros [= -> ->]. by apply Hne.
Qed.

Lemma small_set_kernel p ns d va old bs :
  small_ok p ns -> small_live p d -> kernel_page va -> sp_page p d va = Some old -> Z.of_nat (length bs) = PG_SIZE ->
  exists p', sp_set_page d va bs p = Ok p' /\ small_ok p' ns /\
    (forall d', small_live p d' -> sp_page p' d' va = Some bs) /\
    keeps small_live small_v2p p p' (fun _ va' => va' = va).
Proof.
  intros Hok Hd [[Hk _] _] Hold Hlen. pose proof Hok as [H1 H2 H3 H4 H5]. cbn in *.
  rewrite !decide_True in * by done. eexists. split; [done|]. split; [|split].
  - eapply small_step; try done; [apply H1|]. cbn. intros a x. destruct (decide (a = va)) as [->|Hne].
    + rewrite lookup_insert_eq. intros [= <-]. split; [by eapply H3|done].
    + rewrite lookup_insert_ne by done. apply H3.
  - intros d' Hd'. cbn. rewrite !decide_True by done. apply lookup_insert_eq.
  - split; [|done..]. cbn. intros d' v Hd' Hne. by rewrite lookup_insert_ne.
Qed.

Lemma small_get_user p ns d va :
  small_ok p ns -> small_live p d -> user_page va -> sp_page p d va = None ->
  exists p' bs, sp_user_page d va p = Ok (va, p') /\ small_ok p' ns /\ sp_page p' d va = Some bs /\
    keeps small_live small_v2p p p' (fun d' va' => d' = d /\ va' = va).
Proof.
  intros Hok Hd [Hu _] _. pose proof Hok as [H1 H2 H3 H4 H5]. cbn in *.
  eexists _, zero_page. split; [done|]. split; [|split].
  - eapply small_step; try done; [apply H1|]. cbn. intros d' a x. destruct (decide ((d', a) = (d, va))) as [[= -> ->]|Hne].
    + rewrite lookup_insert_eq. intros [= <-]. split; [by apply H5|apply zero_page_length].
    + rewrite lookup_insert_ne by congruence. apply H4.
  - cbn. rewrite decide_False by lia. apply lookup_insert_eq.
  - split; [|done..]. cbn. intros d' v Hd' Hne. case_decide; [done|].
    rewrite lookup_insert_ne; [done|]. intros [= -> ->]. by apply Hne.
Qed.

Lemma small_get_own p ns d v va i bs b :
  small_ok p ns -> small_live p d -> user_page va -> va = va_start v + i * PG_SIZE ->
  kernel_page (page_of (bit_byte v i)) -> sp_page p d (page_of (bit_byte v i)) = Some bs ->
  rd bs (bit_byte v i mod PG_SIZE) = Ok b ->
  exists p' pg, sp_own_page d v va p = Ok (va, p') /\ small_ok p' ns /\ sp_page p' d va = Some pg /\
    (forall d', small_live p d' -> sp_page p' d' (page_of (bit_byte v i)) =
       Some (<[Z.to_nat (bit_byte v i mod PG_SIZE) := Z.lor b (Z.shiftl 1 (i mod 8))]> bs)) /\
    keeps small_live small_v2p p p' (fun d' va' => d' = d /\ va' = va \/ va' = page_of (bit_byte v i)).
Proof.
  intros Hok Hd [Hu _] Eva [[Hk _] _] Hbs Hb. pose proof Hok as [H1 H2 H3 H4 H5].
  assert (Ei : (va - va_start v) / PG_SIZE = i) by (symmetry; apply (Z.div_unique_exact _ PG_SIZE); [done|lia]).
  cbn in Hbs. rewrite !decide_True in Hbs by done. set (a := page_of (bit_byte v i)) in *.
  set (o := bit_byte v i mod PG_SIZE) in *. set (b' := Z.lor b (Z.shiftl 1 (i mod 8))).
  assert (Hwr : wr bs o b' = Ok (<[Z.to_nat o := b']> bs)).
  { apply wr_Ok. apply rd_inv in Hb as [? Hl]. apply lookup_lt_Some in Hl. lia. }
  exists (Small (<[(d, va) := zero_page]> (sm_user p)) (<[a := <[Z.to_nat o := b']> bs]> (sm_kernel p)) (sm_next p) (sm_dirs p)), zero_page.
  split_and!.
  - cbn [sp_own_page small_spaces]. rewrite Ei. fold a o. rewrite Hbs, Hb. cbn [obind]. fold b'. by rewrite Hwr.
  - eapply small_step; try done; [apply H1| |].
    + intros x y. destruct (decide (x = a)) as [->|Hne]; [rewrite lookup_insert_eq|rewrite lookup_insert_ne by done; apply H3].
      intros [= <-]. rewrite length_insert. by eapply H3.
    + intros d' x y. destruct (decide ((d', x) = (d, va))) as [[= -> ->]|Hne].
      * rewrite lookup_insert_eq. intros [= <-]. split; [by apply H5|apply zero_page_length].
      * rewrite lookup_insert_ne by congruence. apply H4.
  - cbn. rewrite decide_False by lia. apply lookup_insert_eq.
  - intros d' Hd'. cbn. rewrite !decide_True by done. apply lookup_insert_eq.
  - split; [|done..]. intros d' x Hd' Hne. cbn. case_decide.
    + case_decide; [|done]. rewrite lookup_insert_ne; [done|]. intros <-. apply Hne. by right.
    + rewrite lookup_insert_ne; [done|]. intros [= -> ->]. apply Hne. by left.
Qed.

Lemma small_get_kernel p n ns :
  small_ok p (n :: ns) -> 0 < n ->
  exists a p', get_kernel_pages n p = Ok (a, p') /\ small_ok p' ns /\
    (forall va, va ∈ pages_from a (Z.to_nat n) -> kernel_page va /\ 0 < va /\
       (forall d, small_live p d -> sp_page p d va = None /\ sp_page p' d va = Some zero_page) /\
       (forall f, ~ small_v2p p va f)) /\
    keeps small_live small_v2p p p' (fun _ va => va ∈ pages_from a (Z.to_nat n)).
Proof.
  intros Hok Hn. pose proof Hok as [[H0 H1] H2 H3 H4 H5]. cbn [pages_needed] in H2. pose proof (pages_needed_pos ns).
  assert (Hmod : (sm_next p + n * PG_SIZE) mod PG_SIZE = 0) by (rewrite Z.mod_add by done; exact H1).
  assert (Hz : PG_SIZE = 4096) by done.
  eexists _, _. split; [done|]. split; [|split].
  - apply (small_step p (n :: ns)); cbn; [exact Hok|lia|exact Hmod|lia| | |].
    + intros a x. rewrite sm_zero_lookup. case_decide as Hin.
      * intros [= <-]. apply pages_from_inv in Hin as (k & Hk & ->). split; [nia|apply zero_page_length].
      * intros Hx. apply H3 in Hx as [? ?]. split; [nia|done].
    + intros d a x Hx. apply H4 in Hx as [? ?]. split; [nia|done].
    + intros d Hd. apply H5 in Hd. nia.
  - intros va Hva. pose proof Hva as (k & Hk & E)%pages_from_inv.
    assert (Hva' : kernel_page va).
    { unfold kernel_page, KERNEL_BASE, HEAP_BASE in *. subst va. split; [nia|]. by rewrite Z.mod_add. }
    split; [done|]. split; [unfold kernel_page, KERNEL_BASE in Hva'; lia|]. split.
    + intros d Hd. cbn. rewrite !(decide_True _ _ (proj1 (proj1 Hva'))), !(decide_True _ _ Hd). split.
      * destruct (sm_kernel p !! va) as [x|] eqn:Hx; [|done]. apply H3 in Hx as [Hx _]. nia.
      * by rewrite sm_zero_lookup, decide_True.
    + intros f [_ Hf]. nia.
  - split.
    + intros d va Hd Hva. cbn. repeat case_decide; try done. by rewrite sm_zero_lookup, decide_False.
    + done.
    + intros a f [-> Ha]. split; [done|]. cbn. nia.
Qed.

Lemma small_new_dir p ns d :
  small_ok p (1 :: ns) -> small_live p d ->
  exists a p' d', sp_page_dir d p = Ok (a, p') /\ small_ok p' ns /\ kernel_page a /\
    small_v2p p' a d' /\ ~ small_live p d' /\ small_live p' d' /\
    (forall va, user_page va -> sp_page p' d' va = None) /\
    (forall d, small_live p d -> sp_page p d a = None) /\ (forall f, ~ small_v2p p a f) /\
    keeps small_live small_v2p p p' (fun _ va => va = a).
Proof.
  intros Hok Hd. pose proof Hok as [[H0 H1] H2 H3 H4 H5]. cbn [pages_needed] in H2. pose proof (pages_needed_pos ns).
  assert (Hz : PG_SIZE = 4096) by done.
  exists (sm_next p). eexists _, (sm_next p). split; [done|]. split_and!.
  - apply (small_step p (1 :: ns)); cbn; [exact Hok|lia| |lia| | |].
    + by rewrite <- (Z.mul_1_l PG_SIZE) at 1; rewrite Z.mod_add.
    + intros a x Hx. apply H3 in Hx as [? ?]. split; [lia|done].
    + intros d' a x Hx. apply H4 in Hx as [? ?]. split; [lia|done].
    + intros d' [->|Hd']%elem_of_cons; [lia|]. apply H5 in Hd'. lia.
  - unfold kernel_page, KERNEL_BASE, HEAP_BASE in *. split; [lia|done].
  - split; [done|]. cbn. lia.
  - intros Hl. apply H5 in Hl. lia.
  - by left.
  - intros va [Hva _]. cbn. rewrite decide_False by lia.
    destruct (sm_user p !! (sm_next p, va)) as [x|] eqn:Hx; [|done]. apply H4 in Hx as [? _]. lia.
  - intros d' Hd'. cbn. rewrite decide_True by (unfold KERNEL_BASE, HEAP_BASE in *; lia). case_decide; [|done].
    destruct (sm_kernel p !! sm_next p) as [x|] eqn:Hx; [|done]. apply H3 in Hx as [? _]. lia.
  - intros f [_ Hf]. lia.
  - split.
    + intros d' va Hd' _. cbn. case_decide; [|done]. rewrite !decide_True; [done|exact Hd'|by right].
    + intros d' Hd'. by right.
    + intros a f [-> Ha]. split; [done|]. cbn. lia.
Qed.

Lemma small_free p ns d a old :
  small_ok p ns -> small_live p d -> kernel_page a -> sp_page p d a = Some old ->
  exists p', mfree_kernel_page a 1 p = Ok p' /\ small_ok p' ns /\
    (forall d va, small_live p d -> va <> a -> sp_page p' d va = sp_page p d va) /\
    (forall d, small_live p d -> small_live p' d) /\
    (forall va f, va <> a -> small_v2p p va f -> small_v2p p' va f).
Proof.
  intros Hok Hd Ha Hold. pose proof Hok as [H1 H2 H3 H4 H5]. eexists. split; [done|]. split_and!; try done.
  - apply (small_step p ns); cbn; try done; [apply H1|]. intros x bs. destruct (decide (x = a)) as [->|Hne].
    + by rewrite lookup_delete_eq.
    + rewrite lookup_delete_ne by done. apply H3.
  - intros d' va Hd' Hne. cbn. by rewrite lookup_delete_ne.
Qed.

#[export] Instance small_laws : AddressSpacesLaws small.
Proof.
  unshelve econstructor.
  - exact small_live.
  - exact small_v2p.
  - exact (fun p ns u => small_ok p ns).
  - intros p ns u d va bs [_ _ H1 H2 _]. cbn. repeat case_decide; intros E; [by eapply H1|done|by eapply H2].
  - intros p ns u a f _ [-> _]. done.
  - intros p ns u d d' va _ Hd Hd' [Hk _]. cbn. by repeat case_decide; try lia.
  - intros p ns u. apply small_set_user.
  - intros p ns u. apply small_set_kernel.
  - intros p ns u d va Hok Hd Hva _ _. by apply small_get_user.
  - intros p ns u d v va i bs b Hok Hd Hva _ _ E _ Hk Hbs Hb _ _. by apply small_get_own.
  - intros p n ns u. apply small_get_kernel.
  - intros p n ns u a p' [[H _] _ _ _ _] _ [= <- <-]. exact H.
  - intros p ns u. apply small_new_dir.
  - intros p ns u d a old Hok Hd Ha _. by apply small_free.
  - intros p ns u c Hok. split; [exact Hok|]. by split.
Defined.
