(* ===== verification/Process.v ===== *)
(** * Process: the creation of user processes (userprog/process.c)

    [process_execute] makes a thread with an address space of its own; the first thing it
    runs is [start_process], which builds the interrupt frame that [intr_exit] leaves the
    kernel with.  Page directories and pages are behind [AddressSpaces] (Spaces);
    [page_dir_activate] and [process_activate] are in Sched. *)

From S2P Require Import Prelude Bitmap Interrupt DList Sched Sync Task Spaces.

Definition default_prio : Z := 20.
Definition USER_STACK3_VADDR : Z := 0xc0000000 - 0x1000.
Definition USER_VADDR_START : Z := 0x8048000.
Definition EFLAGS_MBS : Z := Z.shiftl 1 1.
Definition EFLAGS_IF_1 : Z := Z.shiftl 1 9.
Definition EFLAGS_IOPL_0 : Z := Z.shiftl 0 12.

(** The bytes of the bitmap of a process's addresses, and its pages. *)
Definition user_btmp_bytes : Z := (0xc0000000 - USER_VADDR_START) / PG_SIZE / 8.
Definition bitmap_pg_cnt : Z := DIV_ROUND_UP user_btmp_bytes PG_SIZE.

(** The address of [start_process]: any value. *)
Definition start_process_addr : Z := 0xc0001700.

Section process.
Context {P : Type} `{!KernelPages P, !AddressSpaces P}.

(** [memset] of [n] bytes from [a] on to 0 in the active space: [bitmap_init]. *)
Definition set_byte (a v : Z) : KM (kst P) unit := fun s =>
  match sp_page (k_pages s) (k_cr3 s) (page_of a) with
  | Some bs =>
      match wr bs (a mod PG_SIZE) v with
      | Ok bs' =>
          match sp_set_page (k_cr3 s) (page_of a) bs' (k_pages s) with
          | Ok p => Ok (tt, set_k_pages p s)
          | Err e => Err e
          end
      | Err e => Err e
      end
  | None => Err OutOfBounds
  end.
Fixpoint clear_bytes (n : nat) (a : Z) : KM (kst P) unit :=
  match n with O => kret tt | S n => set_byte a 0 ;;; clear_bytes n (a + 1) end.

Definition create_user_vaddr_bitmap (user_prog : Z) : KM (kst P) unit :=
  upd_task user_prog (fun p => set_t_vaddr (VAddr (va_bits (t_vaddr p)) (va_bytes_len (t_vaddr p)) USER_VADDR_START) p) ;;;
  bits <- kpages (get_kernel_pages bitmap_pg_cnt) ;;
  upd_task user_prog (fun p => set_t_vaddr (VAddr bits (va_bytes_len (t_vaddr p)) (va_start (t_vaddr p))) p) ;;;
  upd_task user_prog (fun p => set_t_vaddr (VAddr (va_bits (t_vaddr p)) user_btmp_bytes (va_start (t_vaddr p))) p) ;;;
  p <- get_task user_prog ;;
  clear_bytes (Z.to_nat (va_bytes_len (t_vaddr p))) (va_bits (t_vaddr p)).

Definition process_execute (fuel : nat) (filename : Z) (name : list Z) : CM (kst P) unit :=
  thread <~ atomic (kpages (get_kernel_pages 1)) ;;
  init_thread fuel thread name default_prio ;~;
  atomic (create_user_vaddr_bitmap thread) ;~;
  atomic (thread_create thread start_process_addr filename) ;~;
  s <~ atomic kget ;;
  pgdir <~ atomic (kpages (sp_page_dir (k_cr3 s))) ;;
  atomic (upd_task thread (set_t_pgdir pgdir)) ;~;
  atomic (kpages (fun p => Ok (tt, sp_init_descs thread p))) ;~;
  old_status <~ atomic intr_disable ;;
  f <~ atomic (q_find thread_ready_list (general_tag thread)) ;;
  atomic (ASSERT (negb f)) ;~;
  atomic (q_append thread_ready_list (general_tag thread)) ;~;
  a <~ atomic (q_find thread_all_list (all_list_tag thread)) ;;
  atomic (ASSERT (negb a)) ;~;
  atomic (q_append thread_all_list (all_list_tag thread)) ;~;
  atomic (intr_set_status old_status) ;~;
  cret tt.

(** The address of the frame [intr_exit] runs on; [self_kstack] points to 32-bit words. *)
Definition start_process (filename : Z) : KM (kst P) Z :=
  cur <- running_thread ;;
  upd_task cur (fun p => set_t_kstack (u32 (t_kstack p + 4 * sizeof_thread_stack)) p) ;;;
  p <- get_task cur ;;
  let proc_stack := t_kstack p in
  put_word (proc_stack + 4) 0 ;;;
  put_word (proc_stack + 8) 0 ;;;
  put_word (proc_stack + 12) 0 ;;;
  put_word (proc_stack + 16) 0 ;;;
  put_word (proc_stack + 20) 0 ;;;
  put_word (proc_stack + 24) 0 ;;;
  put_word (proc_stack + 28) 0 ;;;
  put_word (proc_stack + 32) 0 ;;;
  put_word (proc_stack + 36) 0 ;;;
  put_word (proc_stack + 44) SELECTOR_U_DATA ;;;
  put_word (proc_stack + 48) SELECTOR_U_DATA ;;;
  put_word (proc_stack + 40) SELECTOR_U_DATA ;;;
  put_word (proc_stack + 56) filename ;;;
  put_word (proc_stack + 60) SELECTOR_U_CODE ;;;
  put_word (proc_stack + 64) (Z.lor (Z.lor EFLAGS_IOPL_0 EFLAGS_MBS) EFLAGS_IF_1) ;;;
  s <- kget ;;
  stack <- kpages (sp_own_page (k_cr3 s) (t_vaddr p) USER_STACK3_VADDR) ;;
  put_word (proc_stack + 68) (u32 (stack + PG_SIZE)) ;;;
  put_word (proc_stack + 72) SELECTOR_U_DATA ;;;
  kret proc_stack.
End process.

Lemma bitmap_pages : bitmap_pg_cnt = 23.
Proof. reflexivity. Qed.
Lemma user_btmp_bytes_eq : user_btmp_bytes = 94199.
Proof. reflexivity. Qed.

(** ** Creating the process *)

Section creation.
Context {P : Type} `{!KernelPages P, !AddressSpaces P, !AddressSpacesLaws P}.
Implicit Types (s : kst P) (p : P).

Lemma page_of_mod a : page_of a mod PG_SIZE = 0.
Proof. unfold page_of. rewrite Zminus_mod, Zmod_mod, Z.sub_diag. done. Qed.

(** Clearing bytes of pages that are zero already. *)
Lemma clear_bytes_run n a p dp ns u :
  spaces_ok p ns u -> dir_live p dp ->
  (forall i, 0 <= i < Z.of_nat n -> kernel_page (page_of (a + i)) /\ sp_page p dp (page_of (a + i)) = Some zero_page) ->
  exists p', (forall s, k_pages s = p -> k_cr3 s = dp -> clear_bytes n a s = Ok (tt, set_k_pages p' s)) /\
    spaces_ok p' ns u /\ keeps dir_live v2p_at p p' (fun _ _ => False).
Proof.
  revert a p. induction n as [|n IH]; intros a p Hok Hd Hp; cbn [clear_bytes].
  { exists p. split_and!; [by intros [] ? ?; cbn in *; subst|done|apply keeps_refl]. }
  destruct (Hp 0) as [Hk Hz]; [lia|]. rewrite Z.add_0_r in Hk, Hz.
  destruct (sp_set_kernel p ns u dp (page_of a) zero_page zero_page Hok Hd Hk Hz zero_page_length) as (p1 & R1 & Ok1 & B1 & K1).
  assert (K : keeps dir_live v2p_at p p1 (fun _ _ => False)).
  { destruct K1 as [E1 E2 E3]. split; [|done..]. intros d va Hd' _.
    destruct (decide (va = page_of a)) as [->|Hne]; [|by apply E1].
    rewrite (B1 d Hd'), <- Hz. by eapply sp_kernel_shared. }
  destruct (IH (a + 1) p1 Ok1) as (p2 & R2 & Ok2 & K2).
  - by apply (kp_live _ _ _ _ _ K1).
  - intros i Hi. replace (a + 1 + i) with (a + (i + 1)) by lia. destruct (Hp (i + 1)) as [H1 H2]; [lia|].
    split; [done|]. rewrite (kp_page _ _ _ _ _ K); [done..|by intros []].
  - exists p2. split; [|split; [done|by eapply spaces_keeps_trans]].
    intros s Es Ec. assert (Hm : 0 <= a mod PG_SIZE < PG_SIZE) by (apply Z.mod_pos_bound; done).
    rewrite (kbind_ok _ _ s tt (set_k_pages p1 s)).
    + by rewrite (R2 (set_k_pages p1 s)).
    + unfold set_byte. rewrite Es, Ec, Hz. rewrite wr_Ok by (rewrite zero_page_length; lia).
      assert (Hins : <[Z.to_nat (a mod PG_SIZE) := 0]> zero_page = zero_page).
      { apply list_insert_id, lookup_replicate_2. unfold PG_SIZE in *. lia. }
      by rewrite Hins, R1.
Qed.

Lemma create_bitmap_run s t c dp ns u :
  spaces_ok (k_pages s) (bitmap_pg_cnt :: ns) u -> k_cr3 s = dp -> dir_live (k_pages s) dp -> t_vaddr c = VAddr 0 0 0 ->
  exists vb p', create_user_vaddr_bitmap t (with_task t c s)
      = Ok (tt, with_task t (set_t_vaddr (VAddr vb user_btmp_bytes USER_VADDR_START) c) (set_k_pages p' s)) /\
    spaces_ok p' ns u /\
    (forall va, va ∈ pages_from vb (Z.to_nat bitmap_pg_cnt) -> kernel_page va /\ sp_page (k_pages s) dp va = None /\
       forall d, dir_live (k_pages s) d -> sp_page p' d va = Some zero_page) /\
    keeps dir_live v2p_at (k_pages s) p' (fun _ va => va ∈ pages_from vb (Z.to_nat bitmap_pg_cnt)).
Proof.
  intros Hok Hcr Hd Hc. destruct (sp_get_kernel _ _ _ _ Hok) as (vb & p1 & R1 & Ok1 & B1 & K1); [done|].
  assert (Hal : vb mod PG_SIZE = 0) by (apply (B1 vb); apply pages_from_head; rewrite bitmap_pages; lia).
  destruct (clear_bytes_run (Z.to_nat user_btmp_bytes) vb p1 dp ns u Ok1) as (p2 & R2 & Ok2 & K2).
  { by apply (kp_live _ _ _ _ _ K1). }
  { intros i Hi. destruct (B1 (page_of (vb + i))) as (? & _ & Hz & _).
    - apply page_base; [done|]. rewrite bitmap_pages, user_btmp_bytes_eq in *. unfold PG_SIZE. lia.
    - split; [done|]. by apply Hz. }
  exists vb, p2. split; [|split; [done|split]].
  - assert (U : forall f q s', upd_task t f (with_task t q s') = Ok (tt, with_task t (f q) s')).
    { intros f q s'. rewrite (upd_task_run _ _ q) by apply lookup_insert_eq. unfold with_task. cbn. by rewrite insert_insert_eq. }
    unfold create_user_vaddr_bitmap. rewrite (kbind_ok _ _ _ _ _ (U _ c s)). rewrite Hc.
    rewrite (kbind_ok _ _ _ vb (with_task t (set_t_vaddr (VAddr 0 0 USER_VADDR_START) c) (set_k_pages p1 s))).
    2: { unfold kpages. cbn [k_pages with_task set_k_tasks]. by rewrite R1. }
    rewrite (kbind_ok _ _ _ _ _ (U _ _ _)), (kbind_ok _ _ _ _ _ (U _ _ _)).
    match goal with |- kbind _ _ (with_task t ?q ?st) = _ =>
      rewrite (kbind_ok _ _ (with_task t q st) q (with_task t q st)) by (apply get_task_run, lookup_insert_eq) end.
    cbn [t_vaddr set_t_vaddr va_bits va_bytes_len va_start]. by rewrite R2.
  - intros va Hva. destruct (B1 va Hva) as (Kv & _ & Hz & _). split; [done|]. split; [by apply Hz|].
    intros d Hd'. rewrite (kp_page _ _ _ _ _ K2); [by apply Hz|by apply (kp_live _ _ _ _ _ K1)|by intros []].
  - eapply spaces_keeps_trans; [exact K1|]. eapply keeps_weaken; [exact K2|]. naive_solver.
Qed.

(** A kernel that can create processes: it runs in the space [dp], a pid is free, and the
    pages that are not mapped are in no queue. *)
Record can_create s (dp : Z) (ts all : list Z) : Prop := {
  cc_cr3 : k_cr3 s = dp;
  cc_live : dir_live (k_pages s) dp;
  cc_pids : lock_free s pid_lock /\ pids_ok s /\ (exists pid, 1 <= pid <= 1024 /\ pid_used s pid = false);
  cc_main : k_main s = 0 \/ is_Some (sp_page (k_pages s) dp (k_main s));
  cc_queues : k_queues s !! thread_ready_list = Some ts /\ k_queues s !! thread_all_list = Some all /\
    (forall t, kernel_page t -> sp_page (k_pages s) dp t = None ->
       unlinked (k_queues s) (general_tag t) /\ unlinked (k_queues s) (all_list_tag t))
}.

Definition process_task (t pid pgdir vb : Z) (name : list Z) : task :=
  Task (t + 3664) pid TASK_READY (name ++ replicate (16 - length name) 0) default_prio default_prio 0
    [0; 1; 2; -1; -1; -1; -1; -1] pgdir (VAddr vb user_btmp_bytes USER_VADDR_START) 0 (-1) 0 STACK_MAGIC.

(** What the new process has: an empty address bitmap, and a directory of its own with no
    user page; nothing changed in the other spaces. *)
Record fresh_process (p0 p : P) (pgdir dc vb : Z) : Prop := {
  fp_dir : pgdir <> 0 /\ v2p_at p pgdir dc /\ dir_live p dc /\ ~ dir_live p0 dc;
  fp_empty : forall va, user_page va -> sp_page p dc va = None;
  fp_bits : forall va, va ∈ pages_from vb (Z.to_nat bitmap_pg_cnt) -> kernel_page va /\ sp_page p dc va = Some zero_page;
  fp_others : forall d va, dir_live p0 d -> user_page va -> dir_live p d /\ sp_page p d va = sp_page p0 d va
}.

Lemma intr_tail s s' :
  k_eflags s' = k_eflags (intr_off s) ->
  (atomic (intr_set_status (intr_of s)) ;~; cret tt) s' = Ok (Return tt, set_k_eflags (k_eflags s) s').
Proof. intros H. change (eflags s' = eflags (intr_off s)) in H. destruct (intr_restore s s' H) as [st R]. by rewrite (cbind_atomic _ _ _ _ _ R). Qed.

Lemma process_pages (p0 p1 p2 p3 p4 : P) ns u dp dc t pgdir vb :
  dir_live p0 dp -> kernel_page t -> kernel_page pgdir ->
  keeps dir_live v2p_at p0 p1 (fun _ va => va ∈ pages_from t (Z.to_nat 1)) ->
  (forall va, va ∈ pages_from vb (Z.to_nat bitmap_pg_cnt) -> kernel_page va /\ sp_page p1 dp va = None /\
     forall d, dir_live p1 d -> sp_page p2 d va = Some zero_page) ->
  keeps dir_live v2p_at p1 p2 (fun _ va => va ∈ pages_from vb (Z.to_nat bitmap_pg_cnt)) ->
  spaces_ok p3 ns u ->
  v2p_at p3 pgdir dc -> ~ dir_live p2 dc -> dir_live p3 dc -> (forall va, user_page va -> sp_page p3 dc va = None) ->
  (forall d, dir_live p2 d -> sp_page p2 d pgdir = None) ->
  keeps dir_live v2p_at p2 p3 (fun _ va => va = pgdir) ->
  keeps dir_live v2p_at p3 p4 (fun _ _ => False) -> fresh_process p0 p4 pgdir dc vb.
Proof.
  intros Hd Kt Kd K1 Bv K2 Ok3 Hv Hnl Hl Hnew Hnp K3 K4.
  assert (L : forall d, dir_live p0 d -> dir_live p2 d) by (intros d ?; by apply (kp_live _ _ _ _ _ K2), (kp_live _ _ _ _ _ K1)).
  assert (Ku : forall v, kernel_page v -> ~ user_page v) by (unfold kernel_page, user_page; lia).
  assert (E34 : forall d va, dir_live p3 d -> sp_page p4 d va = sp_page p3 d va).
  { intros d va ?. rewrite (kp_page _ _ _ _ _ K4); [done..|by intros []]. }
  split.
  - split_and!; [unfold kernel_page, KERNEL_BASE in Kd; lia|by apply (kp_v2p _ _ _ _ _ K4)|by apply (kp_live _ _ _ _ _ K4)|auto].
  - intros va Hva. rewrite E34 by done. by apply Hnew.
  - intros va Hva. destruct (Bv va Hva) as (Kv & _ & Hz). split; [done|]. rewrite E34 by done.
    assert (Hp2 : sp_page p2 dp va = Some zero_page) by (by apply Hz, (kp_live _ _ _ _ _ K1)).
    rewrite (sp_kernel_shared _ _ _ dc dp va Ok3 Hl) by (done || by apply (kp_live _ _ _ _ _ K3), L).
    rewrite (kp_page _ _ _ _ _ K3 dp va (L _ Hd)); [done|]. intros ->. rewrite (Hnp dp (L _ Hd)) in Hp2. done.
  - intros d va Hd' Hva. split; [by apply (kp_live _ _ _ _ _ K4), (kp_live _ _ _ _ _ K3), L|].
    rewrite E34 by (by apply (kp_live _ _ _ _ _ K3), L).
    rewrite (kp_user _ _ _ d va K3) by (auto; intros _ v ->; auto).
    rewrite (kp_user _ _ _ d va K2); [|by apply (kp_live _ _ _ _ _ K1)|done|intros _ v Hin; by apply Ku, Bv].
    apply (kp_user _ _ _ d va K1); [done..|]. intros _ v ->%single_page. auto.
Qed.

(** What the kernel itself sees of the new process: the page [t] of its PCB is new, what was
    mapped stays mapped, and the smallest free pid is taken. *)
Record process_made s (p : P) (dp t pid : Z) (b : bitmap) : Prop := {
  pm_page : kernel_page t /\ sp_page (k_pages s) dp t = None /\ is_Some (sp_page p dp t);
  pm_kept : forall va x, sp_page (k_pages s) dp va = Some x -> sp_page p dp va = Some x;
  pm_live : dir_live p dp;
  pm_pid : 1 <= pid <= 1024 /\ pid_used s pid = false /\ (forall q, 1 <= q < pid -> pid_used s q = true);
  pm_pids : pids_ok (set_k_pids b s) /\
    (forall q, 1 <= q -> pid_used (set_k_pids b s) q = if decide (q = pid) then true else pid_used s q)
}.

Lemma process_mapped s (p1 p2 p3 p4 : P) dp t pid b vb pgdir :
  dir_live (k_pages s) dp -> kernel_page t ->
  (forall va, va ∈ pages_from t (Z.to_nat 1) -> kernel_page va /\ 0 < va /\
     (forall d, dir_live (k_pages s) d -> sp_page (k_pages s) d va = None /\ sp_page p1 d va = Some zero_page) /\
     (forall f, ~ v2p_at (k_pages s) va f)) ->
  keeps dir_live v2p_at (k_pages s) p1 (fun _ va => va ∈ pages_from t (Z.to_nat 1)) ->
  (forall va, va ∈ pages_from vb (Z.to_nat bitmap_pg_cnt) -> kernel_page va /\ sp_page p1 dp va = None /\
     forall d, dir_live p1 d -> sp_page p2 d va = Some zero_page) ->
  keeps dir_live v2p_at p1 p2 (fun _ va => va ∈ pages_from vb (Z.to_nat bitmap_pg_cnt)) ->
  (forall d, dir_live p2 d -> sp_page p2 d pgdir = None) ->
  keeps dir_live v2p_at p2 p3 (fun _ va => va = pgdir) ->
  keeps dir_live v2p_at p3 p4 (fun _ _ => False) ->
  1 <= pid <= 1024 -> pid_used s pid = false -> (forall q, 1 <= q < pid -> pid_used s q = true) ->
  pids_ok (set_k_pids b s) ->
  (forall q, 1 <= q -> pid_used (set_k_pids b s) q = if decide (q = pid) then true else pid_used s q) ->
  process_made s p4 dp t pid b.
Proof.
  intros Hd Kt B1 K1 B2 K2 Hnp K3 K4 Hpid Hf Hl Hok Hu.
  destruct (B1 t) as (_ & _ & Nt & _); [by apply single_page|]. destruct (Nt dp Hd) as [Nt0 Nt1].
  pose proof (kp_live _ _ _ _ _ K1 _ Hd) as D1. pose proof (kp_live _ _ _ _ _ K2 _ D1) as D2.
  pose proof (kp_live _ _ _ _ _ K3 _ D2) as D3.
  assert (Hk : forall va x, sp_page p1 dp va = Some x -> sp_page p4 dp va = Some x).
  { intros va x H1. eapply (keeps_mapped _ _ _ _ va x K4); [done|by intros v []|].
    eapply (keeps_mapped _ _ _ _ va x K3); [done|by intros v ->; apply Hnp|].
    eapply (keeps_mapped _ _ _ _ va x K2); [done|intros v Hv; by apply B2|done]. }
  split.
  - split; [done|]. split; [done|]. exists zero_page. by apply Hk.
  - intros va x H1. apply Hk. eapply (keeps_mapped _ _ _ _ va x K1); [done|intros v Hv; by apply B1|done].
  - by apply (kp_live _ _ _ _ _ K4).
  - done.
  - done.
Qed.

Lemma process_execute_run s dp filename name f ns u ts all :
  can_create s dp ts all -> spaces_ok (k_pages s) (1 :: bitmap_pg_cnt :: 1 :: ns) u -> (length name <= 16)%nat ->
  exists t pid vb pgdir dc m b p, process_execute (S f) filename name s
      = Ok (Return tt, enqueued t ts all (created t (process_task t pid pgdir vb name) m b p s)) /\
    process_made s p dp t pid b /\ frame_at m (t + 3664) start_process_addr filename /\
    fresh_process (k_pages s) p pgdir dc vb /\ spaces_ok p ns u.
Proof.
  intros [Hcr Hd (Hfree & Hpids & Hex) Hmain (Hts & Hall & Hunl)] Hok Hn.
  destruct (sp_get_kernel _ _ _ _ Hok) as (t & p1 & R1 & Ok1 & B1 & K1); [done|].
  destruct (B1 t) as (Kt & Ht0 & Nt & _); [by apply single_page|]. destruct (Nt dp Hd) as [Nt0 _].
  destruct (Hunl t Kt Nt0) as [Ur Ua]. pose proof Kt as [Kt1 _]. unfold KERNEL_BASE in Kt1.
  set (s1 := set_k_pages p1 s). set (s2 := set_k_tasks (<[t := zero_task]> (k_tasks s1)) s1).
  destruct (allocate_pid_run s2 f Hfree Hpids Hex) as (pid & b & Ha & Hpid & Hfresh & Hleast & Hpok & Hused).
  set (c0 := init_task t pid TASK_READY name default_prio).
  set (s3 := set_k_pids b s1).
  assert (Hinit : init_thread (S f) t name default_prio s1 = Ok (Return tt, with_task t c0 s3)).
  { pose proof (init_thread_run s1 f t name default_prio pid b) as Hi. change (k_main s1) with (k_main s) in Hi.
    assert (Hm : t <> k_main s) by (destruct Hmain as [->|[mb Hmain]]; [lia|intros ->; congruence]).
    rewrite (proj2 (Z.eqb_neq _ _) Hm) in Hi. apply Hi; try done; unfold PG_SIZE; lia. }
  destruct (create_bitmap_run s3 t c0 dp (1 :: ns) u) as (vb & p2 & R2 & Ok2 & B2 & K2); try done.
  { by apply (kp_live _ _ _ _ _ K1). }
  set (c1 := set_t_vaddr (VAddr vb user_btmp_bytes USER_VADDR_START) c0) in *.
  destruct (thread_create_run (with_task t c1 (set_k_pages p2 s3)) t c1 start_process_addr filename) as (m & R3 & Hframe).
  { apply lookup_insert_eq. }
  { cbn. unfold PG_SIZE. lia. }
  destruct (sp_new_dir p2 ns u dp Ok2) as (pgdir & p3 & dc & R4 & Ok3 & Kd & Hv & Hnl & Hl & Hnew & Hnp & _ & K3).
  { by apply (kp_live _ _ _ _ _ K2), (kp_live _ _ _ _ _ K1). }
  destruct (sp_descs p3 ns u t Ok3) as [Ok4 K4]. set (p4 := sp_init_descs t p3) in *.
  assert (E3664 : t + PG_SIZE - 432 = t + 3664) by (unfold PG_SIZE; lia).
  exists t, pid, vb, pgdir, dc, m, b, p4. split; [|split; [|split; [|split; [|exact Ok4]]]].
  2: { eapply (process_mapped s p1 p2 p3 p4 dp t pid b vb pgdir); done. }
  2: { cbn in Hframe. by rewrite E3664 in Hframe. }
  2: { by eapply (process_pages (k_pages s) p1 p2 p3 p4 ns u dp dc t pgdir vb). }
  set (c2 := set_t_kstack (t + 3664) c1).
  set (s4 := set_k_stack m (set_k_pages p2 s3)).
  assert (Hcreate : thread_create t start_process_addr filename (with_task t c1 (set_k_pages p2 s3)) = Ok (tt, with_task t c2 s4)).
  { rewrite R3. change (t_kstack c1) with (t + PG_SIZE). rewrite E3664. unfold with_task, s4. cbn. by rewrite insert_insert_eq. }
  unfold process_execute. rewrite (cbind_atomic _ _ s t s1) by (unfold kpages; by rewrite R1).
  rewrite (cbind_return _ _ _ _ _ Hinit), (cbind_atomic _ _ _ _ _ R2), (cbind_atomic _ _ _ _ _ Hcreate).
  rewrite (cbind_atomic _ _ (with_task t c2 s4) (with_task t c2 s4) (with_task t c2 s4)) by done.
  rewrite (cbind_atomic _ _ (with_task t c2 s4) pgdir (with_task t c2 (set_k_pages p3 s4))).
  2: { unfold kpages. change (k_pages (with_task t c2 s4)) with p2. change (k_cr3 (with_task t c2 s4)) with (k_cr3 s).
    by rewrite Hcr, R4. }
  rewrite cbind_upd.
  set (c3 := set_t_pgdir pgdir c2). set (s5 := set_k_pages p4 s4).
  rewrite (cbind_atomic _ _ (with_task t c3 (set_k_pages p3 s4)) tt (with_task t c3 s5)) by done.
  rewrite (cbind_atomic _ _ _ _ _ (intr_disable_run (with_task t c3 s5))), intr_off_fields.
  set (s6 := set_k_eflags (k_eflags (intr_off (with_task t c3 s5))) (with_task t c3 s5)).
  rewrite (enqueue_run s6 t ts all _ Hts Hall Ur Ua).
  rewrite (intr_tail (with_task t c3 s5) (enqueued t ts all s6)) by done.
  reflexivity.
Qed.

(** ** Entering user mode *)

(** The frame [intr_exit] leaves the kernel with: general registers 0, the user segments, the
    program's first instruction with interrupts on, the stack at the end of user space. *)
Definition user_frame (m : gmap Z Z) (top filename : Z) : Prop :=
  (forall o, o ∈ [4; 8; 12; 16; 20; 24; 28; 32; 36] -> m !! (top + o) = Some 0) /\
  (forall o, o ∈ [40; 44; 48; 72] -> m !! (top + o) = Some SELECTOR_U_DATA) /\
  m !! (top + 56) = Some filename /\ m !! (top + 60) = Some SELECTOR_U_CODE /\
  m !! (top + 64) = Some 0x202 /\ m !! (top + 68) = Some 0xc0000000.

(** The words [start_process] writes. *)
Definition frame_words (k filename : Z) (m : gmap Z Z) : gmap Z Z :=
  <[k + 72 := SELECTOR_U_DATA]> (<[k + 68 := 0xc0000000]> (<[k + 64 := 0x202]> (<[k + 60 := SELECTOR_U_CODE]>
  (<[k + 56 := filename]> (<[k + 40 := SELECTOR_U_DATA]> (<[k + 48 := SELECTOR_U_DATA]> (<[k + 44 := SELECTOR_U_DATA]>
  (<[k + 36 := 0]> (<[k + 32 := 0]> (<[k + 28 := 0]> (<[k + 24 := 0]> (<[k + 20 := 0]> (<[k + 16 := 0]>
  (<[k + 12 := 0]> (<[k + 8 := 0]> (<[k + 4 := 0]> m)))))))))))))))).

Lemma frame_words_at k filename m : user_frame (frame_words k filename m) k filename.
Proof.
  unfold frame_words. split; [|split].
  - intros o Ho. repeat (apply elem_of_cons in Ho as [->|Ho];
      [repeat (rewrite lookup_insert_ne by lia); apply lookup_insert_eq|]). by apply not_elem_of_nil in Ho.
  - intros o Ho. repeat (apply elem_of_cons in Ho as [->|Ho];
      [repeat (rewrite lookup_insert_ne by lia); apply lookup_insert_eq|]). by apply not_elem_of_nil in Ho.
  - split_and!; repeat (rewrite lookup_insert_ne by lia); apply lookup_insert_eq.
Qed.

Lemma kbind_put_word {A} a v m s (k : unit -> KM (kst P) A) :
  kbind (put_word a v) k (set_k_stack m s) = k tt (set_k_stack (<[a := v]> m) s).
Proof. reflexivity. Qed.

Lemma start_process_run s t q dc vb filename ns u :
  k_cur s = t -> k_tasks s !! t = Some q -> 0 <= t_kstack q < 2 ^ 32 - 128 ->
  t_vaddr q = VAddr vb user_btmp_bytes USER_VADDR_START -> k_cr3 s = dc ->
  spaces_ok (k_pages s) ns u -> 0 < u -> dir_live (k_pages s) dc ->
  (forall va, va ∈ pages_from vb (Z.to_nat bitmap_pg_cnt) -> kernel_page va /\ sp_page (k_pages s) dc va = Some zero_page) ->
  sp_page (k_pages s) dc USER_STACK3_VADDR = None ->
  exists p' m', start_process filename s = Ok (t_kstack q + 128,
      with_task t (set_t_kstack (t_kstack q + 128) q) (set_k_pages p' (set_k_stack m' s))) /\
    user_frame m' (t_kstack q + 128) filename /\ spaces_ok p' ns (u - 1) /\
    is_Some (sp_page p' dc USER_STACK3_VADDR) /\
    keeps dir_live v2p_at (k_pages s) p' (fun d va => d = dc /\ va = USER_STACK3_VADDR \/ kernel_page va).
Proof.
  intros Hcur Hq Hk Hv Hcr Hok Hu Hd Hbits Hnone.
  set (v := VAddr vb user_btmp_bytes USER_VADDR_START) in *.
  assert (Ei : bit_byte v 753591 = vb + 94198) by reflexivity.
  assert (Hal : vb mod PG_SIZE = 0) by (apply (Hbits vb); apply pages_from_head; rewrite bitmap_pages; lia).
  assert (Hin : page_of (vb + 94198) ∈ pages_from vb (Z.to_nat bitmap_pg_cnt)).
  { apply page_base; [done|]. rewrite bitmap_pages. unfold PG_SIZE. lia. }
  destruct (Hbits _ Hin) as [Kb Hz]. pose proof (Z.mod_pos_bound (vb + 94198) PG_SIZE ltac:(done)) as Hm.
  destruct (sp_get_own (k_pages s) ns u dc v USER_STACK3_VADDR 753591 zero_page 0 Hok Hd) as (p' & pg & R & Ok' & Hpg & _ & K);
    try (rewrite Ei); try done.
  { apply rd_Ok; [lia|]. apply lookup_replicate_2. unfold PG_SIZE in *. lia. }
  set (k := t_kstack q + 128). set (q1 := set_t_kstack k q).
  exists p', (frame_words k filename (k_stack s)). split; [|split; [apply frame_words_at|split; [exact Ok'|split; [by exists pg|]]]].
  - unfold start_process. rewrite (kbind_ok _ _ s t s) by (unfold running_thread, kreads; by rewrite Hcur).
    set (s1 := with_task t q1 s). rewrite (kbind_ok _ _ s tt s1).
    2: { rewrite (upd_task_run _ _ q) by done. unfold sizeof_thread_stack. rewrite u32_small by lia. done. }
    rewrite (kbind_ok _ _ s1 q1 s1) by (apply get_task_run, lookup_insert_eq). cbn [t_kstack q1 set_t_kstack].
    assert (E1 : s1 = set_k_stack (k_stack s) s1) by (by destruct s). rewrite E1. rewrite !kbind_put_word.
    match goal with |- kbind _ _ (set_k_stack ?m _) = _ => set (m1 := m) end.
    set (s2 := set_k_stack m1 s1).
    rewrite (kbind_ok _ _ s2 s2 s2) by done.
    rewrite (kbind_ok _ _ s2 USER_STACK3_VADDR (set_k_pages p' s2)); [reflexivity|].
    unfold kpages. change (t_vaddr q1) with (t_vaddr q). rewrite Hv.
    change (k_cr3 s2) with (k_cr3 s). change (k_pages s2) with (k_pages s). by rewrite Hcr, R.
  - eapply keeps_weaken; [exact K|]. intros d va [?| ->]; [by left|right]. by rewrite Ei.
Qed.

End creation.

(** ** The first process *)

Definition boot_pages : small := Small ∅ {[ 0xc009e000 := zero_page ]} 0xc0100000 [0x100000].
Definition boot_task : task :=
  Task 0xc009ff00 1 TASK_RUNNING (replicate 16 0) 31 31 0 [0; 1; 2; -1; -1; -1; -1; -1] 0 (VAddr 0 0 0) 0 (-1) 0 STACK_MAGIC.
Definition boot_kernel : kst small :=
  KSt 0 0xc009e000 {[ 0xc009e000 := boot_task ]}
    {[ thread_ready_list := []; thread_all_list := [all_list_tag 0xc009e000];
       sema_waiters (lock_semaphore pid_lock) := [] ]}
    {[ lock_semaphore pid_lock := 1 ]} {[ pid_lock := Lock 0 0 ]} ∅ 0 0xc009e000
    (Bitmap 128 (1 :: replicate 127 0)) boot_pages 0x100000 0 0.

Lemma boot_pages_ok : small_ok boot_pages [1; bitmap_pg_cnt; 1].
Proof.
  split; cbn [sm_next sm_user sm_kernel sm_dirs boot_pages].
  - done.
  - by vm_compute.
  - intros a bs [<- <-]%lookup_singleton_Some. split; [lia|apply zero_page_length].
  - intros d a bs H. by rewrite lookup_empty in H.
  - intros d ->%list_elem_of_singleton. lia.
Qed.

Lemma boot_can_create : can_create boot_kernel 0x100000 [] [all_list_tag 0xc009e000].
Proof.
  split.
  - done.
  - by left.
  - split; [by split_and!; vm_compute|]. split; [|by exists 2; vm_compute].
    split; [|done]. split; simpl; [|lia|lia]. repeat (apply list.Forall_cons; split; [lia|]). constructor.
  - right. by eexists.
  - split; [done|]. split; [done|]. intros t [_ Kt] Ht.
    assert (Hne : t <> 0xc009e000) by (intros ->; by vm_compute in Ht).
    unfold PG_SIZE in Kt. pose proof (Z_div_mod_eq_full t 4096) as Hdiv. rewrite Kt in Hdiv.
    split; intros L xs HL; cbn in HL; rewrite !lookup_insert_Some, lookup_singleton_Some in HL;
      destruct HL as [[<- <-]|[_ [[<- <-]|[_ [<- <-]]]]];
      rewrite nodes_elem; unfold general_tag, all_list_tag, head_of, tail_of, sema_waiters, lock_semaphore,
        thread_ready_list, thread_all_list, pid_lock in *; rewrite ?list_elem_of_singleton, ?elem_of_nil; lia.
Qed.

