(* ===== verification/Boot.v ===== *)
(** * Boot: thread_init of thread/thread.c

    The start of the thread system: the lists, the lock and the map of the pids, the first
    process, the main thread, which has been running without a PCB, and the idle thread.
    The theorem is the base of the invariant of Threads. *)

From Stdlib Require Import Ascii String.
From S2P Require Import Prelude Bitmap Interrupt DList Sched Sync Threads Task Cstring Stdio Screen Console Irq Spaces Process.
Close Scope string_scope.

#[local] Set Default Proof Using "Type*".

(** The addresses of the global [pid_lock], which nothing but [thread_init] uses, and of the
    functions [init] and [idle]. *)
Definition global_pid_lock : Z := 0xc0001040.
Definition init_addr : Z := 0xc0001800.
Definition idle_addr : Z := 0xc0001900.

Section code.
Context {P : Type} `{!KernelPages P, !ScreenStore P, !AddressSpaces P}.

Definition q_init (L : Z) : KM (kst P) unit := run_queue (OpInit L) ;;; kret tt.

Definition make_main_thread (fuel : nat) : CM (kst P) unit :=
  main_thread <~ atomic running_thread ;;
  atomic (kmod (set_k_main main_thread)) ;~;
  init_thread fuel main_thread (chars "main") 31 ;~;
  f <~ atomic (q_find thread_all_list (all_list_tag main_thread)) ;;
  atomic (ASSERT (negb f)) ;~;
  atomic (q_append thread_all_list (all_list_tag main_thread)).

Definition thread_init (fuel : nat) : CM (kst P) unit :=
  atomic (on_screen (put_str (lit ("thread_init start" ++ newline)))) ;~;
  atomic (q_init thread_ready_list) ;~;
  atomic (q_init thread_all_list) ;~;
  atomic (lock_init global_pid_lock) ;~;
  atomic pid_pool_init ;~;
  process_execute fuel init_addr (chars "init") ;~;
  make_main_thread fuel ;~;
  idle_thread <~ thread_start fuel (chars "idle") 10 idle_addr 0 ;;
  atomic (kmod (set_k_idle idle_thread)) ;~;
  atomic (on_screen (put_str (lit ("thread_init done" ++ newline)))).
End code.

(** Where the screen is kept does not matter to the pages. *)
Class ScreenSpaces (P : Type) `{!KernelPages P, !ScreenStore P, !AddressSpaces P, !AddressSpacesLaws P} : Prop := {
  scr_in_order : forall p ns u, spaces_ok p ns u -> screen_ok (screen_of p);
  scr_spaces : forall p ns u v, spaces_ok p ns u -> screen_ok v ->
    spaces_ok (set_screen v p) ns u /\ keeps dir_live v2p_at p (set_screen v p) (fun _ _ => False)
}.

(** ** Queues without elements *)

Lemma unlinked_new qs L e : unlinked qs e -> e <> head_of L -> e <> tail_of L -> unlinked (<[L := []]> qs) e.
Proof.
  intros Hu H1 H2 L' xs. destruct (decide (L' = L)) as [->|]; [|rewrite lookup_insert_ne by done; apply Hu].
  rewrite lookup_insert_eq. intros [= <-]. rewrite nodes_elem, elem_of_nil. tauto.
Qed.

Lemma queues_ok_new qs L : queues_ok qs -> unlinked qs (head_of L) -> unlinked qs (tail_of L) -> queues_ok (<[L := []]> qs).
Proof.
  intros [H1 H2] Uh Ut.
  assert (Hn : forall L' xs a, qs !! L' = Some xs -> a ∈ nodes L' xs -> a ∉ nodes L []).
  { intros L' xs a HL Ha. rewrite nodes_elem, elem_of_nil. intros [->|[[]| ->]]; [by eapply Uh|by eapply Ut]. }
  split.
  - intros L' xs. destruct (decide (L' = L)) as [->|]; [|rewrite lookup_insert_ne by done; apply H1].
    rewrite lookup_insert_eq. intros [= <-]. unfold nodes, head_of, tail_of. cbn.
    apply list.NoDup_cons. split; [rewrite list_elem_of_singleton; lia|apply list.NoDup_singleton].
  - intros L1 L2 xs ys a. destruct (decide (L1 = L)) as [->|N1], (decide (L2 = L)) as [->|N2];
      rewrite ?lookup_insert_eq, ?lookup_insert_ne by done; [done| | |apply H2].
    + intros [= <-] HL Ha Hb. by destruct (Hn _ _ _ HL Hb Ha).
    + intros HL [= <-] Ha Hb. by destruct (Hn _ _ _ HL Ha Hb).
Qed.

Lemma q_init_run {P} (s : kst P) L : unlinked (k_queues s) (head_of L) -> unlinked (k_queues s) (tail_of L) ->
  q_init L s = Ok (tt, set_k_queues (<[L := []]> (k_queues s)) s).
Proof.
  intros Uh Ut. unfold q_init. rewrite (kbind_ok _ _ s 0 (set_k_queues (<[L := []]> (k_queues s)) s)); [done|].
  unfold run_queue. cbn [queue_op]. by rewrite decide_True by done.
Qed.

(** ** The state before and after the lists are initialised *)

Section boot.
Context {P : Type} `{!KernelPages P, !ScreenStore P, !AddressSpaces P, !AddressSpacesLaws P, !ScreenSpaces P}.
Implicit Types (s : kst P) (p : P) (qs : queues).

Definition boot_lists : list Z :=
  [thread_ready_list; thread_all_list; sema_waiters (lock_semaphore global_pid_lock); sema_waiters (lock_semaphore pid_lock)].
Definition boot_queues (qs : queues) : queues := foldl (fun q L => <[L := []]> q) qs boot_lists.

(** The nodes of [t] can be linked. *)
Definition tags_free qs (t : Z) : Prop := unlinked qs (general_tag t) /\ unlinked qs (all_list_tag t).

(** The kernel as the loader left it, with what the other components have initialised: no
    thread, every list empty, every lock free.  The code runs on the page of the main
    thread's PCB; it and the page of the static data are mapped. *)
Record fresh_kernel s (dp : Z) : Prop := {
  fk_space : k_cr3 s = dp /\ dir_live (k_pages s) dp;
  fk_main : k_main s = 0 /\ kernel_page (k_cur s) /\ is_Some (sp_page (k_pages s) dp (k_cur s));
  fk_data : is_Some (sp_page (k_pages s) dp 0xc0001000) /\ k_cur s <> 0xc0001000;
  fk_tasks : k_tasks s = ∅;
  fk_queues : queues_ok (k_queues s) /\ forall L xs, k_queues s !! L = Some xs -> xs = [];
  fk_tags : forall t, kernel_page t -> t = k_cur s \/ sp_page (k_pages s) dp t = None -> tags_free (k_queues s) t;
  fk_lists : forall L, L ∈ boot_lists -> unlinked (k_queues s) (head_of L) /\ unlinked (k_queues s) (tail_of L);
  fk_semas : forall ps v, k_semas s !! ps = Some v -> v = 1 /\ k_queues s !! sema_waiters ps = Some [];
  fk_locks : forall L l, k_locks s !! L = Some l -> l = Lock 0 0 /\ k_semas s !! lock_semaphore L = Some 1;
  fk_pids : bitmap_ok (k_pids s) /\ 128 <= Z.of_nat (length (bits (k_pids s)))
}.

Definition boot_pids (b : bitmap) : bitmap := Bitmap 128 (replicate 128 0 ++ drop 128 (bits b)).

(** The state in front of [process_execute]. *)
Definition lists_made (v : screen) s : kst P :=
  set_k_pages (set_screen v (k_pages s)) (set_k_pids (boot_pids (k_pids s))
    (set_k_locks (<[pid_lock := Lock 0 0]> (<[global_pid_lock := Lock 0 0]> (k_locks s)))
    (set_k_semas (<[lock_semaphore pid_lock := 1]> (<[lock_semaphore global_pid_lock := 1]> (k_semas s)))
    (set_k_queues (boot_queues (k_queues s)) s)))).

Lemma lock_init_run s L : let W := sema_waiters (lock_semaphore L) in
  unlinked (k_queues s) (head_of W) -> unlinked (k_queues s) (tail_of W) ->
  lock_init L s = Ok (tt, set_k_locks (<[L := Lock 0 0]> (k_locks s)) (set_k_semas (<[lock_semaphore L := 1]> (k_semas s))
    (set_k_queues (<[W := []]> (k_queues s)) s))).
Proof.
  intros W Uh Ut. unfold lock_init, sema_init. set (s1 := set_k_locks (<[L := Lock 0 0]> (k_locks s)) s).
  rewrite (kbind_ok _ _ s tt s1) by done.
  set (s2 := set_k_semas (<[lock_semaphore L := 1]> (k_semas s1)) s1).
  rewrite (kbind_ok _ _ s1 tt s2) by done. exact (q_init_run s2 W Uh Ut).
Qed.

Lemma boot_lists_elem L : L ∈ boot_lists <->
  L = 0xc0001000 \/ L = 0xc0001010 \/ L = 0xc0001048 \/ L = 0xc0001028.
Proof.
  unfold boot_lists, sema_waiters, lock_semaphore, thread_ready_list, thread_all_list, global_pid_lock, pid_lock.
  rewrite !elem_of_cons, elem_of_nil. split; [intros [?|[?|[?|[?|[]]]]]; lia|intros [?|[?|[?|?]]]; lia].
Qed.

(** A node that lies in none of the four lists stays free. *)
Lemma unlinked_boot qs e : unlinked qs e -> (forall L, L ∈ boot_lists -> e <> head_of L /\ e <> tail_of L) ->
  unlinked (boot_queues qs) e.
Proof.
  intros Hu He. assert (H : forall l, (forall L, L ∈ l -> e <> head_of L /\ e <> tail_of L) -> forall q, unlinked q e ->
    unlinked (foldl (fun q L => <[L := []]> q) q l) e).
  { intros l. induction l as [|L l IH]; intros Hl q Hq; [exact Hq|]. cbn [foldl].
    destruct (Hl L) as [? ?]; [by left|]. apply IH; [intros L' HL'; apply Hl; by right|by apply unlinked_new]. }
  by apply H.
Qed.

Lemma boot_inits {A} s dp (f : screen -> outcome (unit * screen)) v (k : CM (kst P) A) :
  fresh_kernel s dp -> f (screen_of (k_pages s)) = Ok (tt, v) ->
  (atomic (on_screen f) ;~; atomic (q_init thread_ready_list) ;~; atomic (q_init thread_all_list) ;~;
   atomic (lock_init global_pid_lock) ;~; atomic pid_pool_init ;~; k) s = k (lists_made v s).
Proof.
  intros [_ _ _ _ _ _ Hl _ _ [Hb Hlen]] Hf.
  assert (U : forall q l L, (forall e, e ∈ [head_of L; tail_of L] -> unlinked q e /\ forall L', L' ∈ l -> e <> head_of L' /\ e <> tail_of L') ->
    unlinked (foldl (fun q L => <[L := []]> q) q l) (head_of L) /\ unlinked (foldl (fun q L => <[L := []]> q) q l) (tail_of L)).
  { intros q l L H. assert (G : forall e, e ∈ [head_of L; tail_of L] -> unlinked (foldl (fun q L => <[L := []]> q) q l) e).
    { intros e He. destruct (H e He) as [Hu Hne]. clear H He. revert q Hu. induction l as [|L' l IH]; intros q Hu; [exact Hu|].
      cbn [foldl]. destruct (Hne L') as [? ?]; [by left|]. apply IH; [intros L2 H2; apply Hne; by right|by apply unlinked_new]. }
    split; apply G; [by left|by right; left]. }
  assert (V : forall l L, L ∈ boot_lists -> (forall L', L' ∈ l -> L' ∈ boot_lists /\ L' <> L) ->
    unlinked (foldl (fun q L => <[L := []]> q) (k_queues s) l) (head_of L) /\ unlinked (foldl (fun q L => <[L := []]> q) (k_queues s) l) (tail_of L)).
  { intros l L HL Hd. apply U. intros e He. destruct (Hl L HL) as [Uh Ut].
    apply elem_of_cons in He as [->|He]; [|apply list_elem_of_singleton in He as ->]; (split; [done|]);
      intros L' HL'; destruct (Hd L' HL') as [Hb' Hne]; rewrite boot_lists_elem in HL, Hb'; unfold head_of, tail_of; lia. }
  rewrite (cbind_atomic _ _ s tt (set_k_pages (set_screen v (k_pages s)) s)) by (unfold on_screen; by rewrite Hf).
  set (s0 := set_k_pages (set_screen v (k_pages s)) s).
  destruct (V [] thread_ready_list) as [R1 R2]; [rewrite boot_lists_elem; by left|by intros L' ?%elem_of_nil|].
  rewrite (cbind_atomic _ _ _ _ _ (q_init_run s0 _ R1 R2)).
  match goal with |- cbind _ _ ?x = _ => set (s1 := x) end.
  destruct (V [thread_ready_list] thread_all_list) as [A1 A2]; [rewrite boot_lists_elem; auto| |].
  { intros L' ->%list_elem_of_singleton. rewrite boot_lists_elem. split; [by left|done]. }
  rewrite (cbind_atomic _ _ _ _ _ (q_init_run s1 _ A1 A2)).
  match goal with |- cbind _ _ ?x = _ => set (s2 := x) end.
  destruct (V [thread_ready_list; thread_all_list] (sema_waiters (lock_semaphore global_pid_lock))) as [G1 G2]; [rewrite boot_lists_elem; auto| |].
  { intros L' [->| ->%list_elem_of_singleton]%elem_of_cons; rewrite boot_lists_elem; (split; [auto|done]). }
  rewrite (cbind_atomic _ _ _ _ _ (lock_init_run s2 _ G1 G2)).
  match goal with |- cbind _ _ ?x = _ => set (s3 := x) end.
  destruct (V [thread_ready_list; thread_all_list; sema_waiters (lock_semaphore global_pid_lock)] (sema_waiters (lock_semaphore pid_lock)))
    as [L1 L2]; [rewrite boot_lists_elem; auto| |].
  { intros L' [->|[->| ->%list_elem_of_singleton]%elem_of_cons]%elem_of_cons; rewrite boot_lists_elem; (split; [auto|done]). }
  rewrite (cbind_atomic _ _ s3 tt (lists_made v s)); [done|].
  unfold pid_pool_init. rewrite (kbind_ok _ _ s3 s3 s3) by done.
  rewrite (kbind_ok _ _ s3 (boot_pids (k_pids s)) s3).
  2: { unfold klift, bitmap_init. cbn [bits btmp_bytes_len]. change (k_pids s3) with (k_pids s).
    by rewrite fill_Ok by lia. }
  rewrite (kbind_ok _ _ s3 tt (set_k_pids (boot_pids (k_pids s)) s3)) by done.
  rewrite (lock_init_run (set_k_pids (boot_pids (k_pids s)) s3) pid_lock L1 L2). reflexivity.
Qed.

(** ** The three threads *)

Definition enqueue_q qs t (ts al : list Z) : queues :=
  <[thread_all_list := al ++ [all_list_tag t]]> (<[thread_ready_list := ts ++ [general_tag t]]> qs).

Lemma tags_distinct t u : t mod PG_SIZE = 0 -> u mod PG_SIZE = 0 -> t <> u ->
  general_tag t <> general_tag u /\ general_tag t <> all_list_tag u /\ all_list_tag t <> general_tag u /\ all_list_tag t <> all_list_tag u.
Proof.
  unfold general_tag, all_list_tag, PG_SIZE. intros Ht Hu Hne.
  pose proof (Z_div_mod_eq_full t 4096). pose proof (Z_div_mod_eq_full u 4096). lia.
Qed.

Lemma tags_insert qs t L xs e : tags_free qs t -> qs !! L = Some xs -> e <> general_tag t -> e <> all_list_tag t ->
  tags_free (<[L := xs ++ [e]]> qs) t.
Proof.
  intros [H1 H2] HL N1 N2. split; (eapply unlinked_insert; [done|exact HL|]);
    rewrite elem_of_app, list_elem_of_singleton; intros [?|?]; congruence.
Qed.

Lemma tags_enqueue qs t u ts al : tags_free qs t -> qs !! thread_ready_list = Some ts -> qs !! thread_all_list = Some al ->
  t mod PG_SIZE = 0 -> u mod PG_SIZE = 0 -> t <> u -> tags_free (enqueue_q qs u ts al) t.
Proof.
  intros H Hr Ha Mt Mu Hne. destruct (tags_distinct t u Mt Mu Hne) as (?&?&?&?). unfold enqueue_q.
  apply tags_insert; [apply tags_insert; auto|by rewrite lookup_insert_ne|auto..].
Qed.

Lemma queues_ok_enqueue qs t ts al : queues_ok qs -> tags_free qs t ->
  qs !! thread_ready_list = Some ts -> qs !! thread_all_list = Some al -> queues_ok (enqueue_q qs t ts al).
Proof.
  intros Hq [H1 H2] Hr Ha. apply queues_ok_append; [by apply queues_ok_append|by rewrite lookup_insert_ne|].
  eapply unlinked_insert; [exact H2|exact Hr|]. rewrite elem_of_app, list_elem_of_singleton. intros [?|E]; [done|].
  unfold all_list_tag, general_tag in E. lia.
Qed.

Lemma boot_queues_ok s dp : fresh_kernel s dp -> queues_ok (boot_queues (k_queues s)).
Proof.
  intros [_ _ _ _ [Hq _] _ Hl _ _ _]. unfold boot_queues, boot_lists. cbn [foldl].
  repeat (apply queues_ok_new; [|repeat (apply unlinked_new; [|discriminate|discriminate])..]); [done|..];
    apply Hl; rewrite boot_lists_elem; unfold thread_ready_list, thread_all_list, global_pid_lock, pid_lock, sema_waiters, lock_semaphore; lia.
Qed.

Lemma boot_queues_at s L : (L ∈ boot_lists -> boot_queues (k_queues s) !! L = Some []) /\
  (L ∉ boot_lists -> boot_queues (k_queues s) !! L = k_queues s !! L).
Proof.
  unfold boot_queues. assert (H : forall l (q : queues), (L ∈ l \/ q !! L = Some [] -> foldl (fun q L => <[L := []]> q) q l !! L = Some []) /\
    (L ∉ l -> foldl (fun q L => <[L := []]> q) q l !! L = q !! L)).
  { intros l. induction l as [|L' l IH]; intros q; cbn [foldl].
    - split; [by intros [?%elem_of_nil|?]|done].
    - destruct (IH (<[L' := []]> q)) as [H1 H2]. rewrite elem_of_cons. split.
      + intros [[->|Hin]|Hq]; apply H1; [right; apply lookup_insert_eq|by left|right].
        destruct (decide (L' = L)) as [->|]; [apply lookup_insert_eq|by rewrite lookup_insert_ne].
      + intros Hn. rewrite H2 by tauto. apply lookup_insert_ne. intros ->. tauto. }
  split; intros HL; apply (H boot_lists); auto.
Qed.

Lemma boot_tags s dp t : fresh_kernel s dp -> kernel_page t -> t <> 0xc0001000 -> tags_free (k_queues s) t ->
  tags_free (boot_queues (k_queues s)) t.
Proof.
  intros Hf [_ Mt] Hne [H1 H2]. unfold PG_SIZE in Mt. pose proof (Z_div_mod_eq_full t 4096) as E. rewrite Mt in E.
  split; apply unlinked_boot; try done; intros L; rewrite boot_lists_elem; unfold general_tag, all_list_tag, head_of, tail_of; lia.
Qed.

Lemma boot_pids_ok (b : bitmap) : bitmap_ok b -> 128 <= Z.of_nat (length (bits b)) ->
  bitmap_ok (boot_pids b) /\ forall q, 1 <= q <= 1024 -> bit_at (boot_pids b) (q - 1) = false.
Proof.
  intros [H1 H2 H3] Hl. assert (E : length (bits (boot_pids b)) = length (bits b)).
  { cbn [bits boot_pids]. rewrite length_app, length_replicate, length_drop. lia. }
  split; [split|].
  - change (bits (boot_pids b)) with (replicate 128 0 ++ drop 128 (bits b)). apply list.Forall_app. split; [by apply Forall_replicate|by apply list.Forall_drop].
  - cbn [btmp_bytes_len boot_pids]. lia.
  - by rewrite E.
  - intros q Hq. unfold bit_at, boot_pids. cbn [bits]. rewrite lookup_app_l.
    + rewrite lookup_replicate_2; [|]. apply Z.testbit_0_l.
      assert ((q - 1) / 8 < 128) by (apply Z.div_lt_upper_bound; lia). assert (0 <= (q - 1) / 8) by (apply Z.div_pos; lia). lia.
    + rewrite length_replicate. assert ((q - 1) / 8 < 128) by (apply Z.div_lt_upper_bound; lia). assert (0 <= (q - 1) / 8) by (apply Z.div_pos; lia). lia.
Qed.

Lemma make_main_run s f al :
  k_cur s <> 0 -> 0 <= k_cur s <= 2 ^ 32 - 2 * PG_SIZE -> k_queues s !! thread_all_list = Some al ->
  unlinked (k_queues s) (all_list_tag (k_cur s)) ->
  lock_free s pid_lock -> pids_ok s -> (exists pid, 1 <= pid <= 1024 /\ pid_used s pid = false) ->
  exists pid b, make_main_thread (S f) s = Ok (Return tt,
      set_k_queues (<[thread_all_list := al ++ [all_list_tag (k_cur s)]]> (k_queues s)) (set_k_pids b
        (set_k_tasks (<[k_cur s := init_task (k_cur s) pid TASK_RUNNING (chars "main") 31]> (k_tasks s)) (set_k_main (k_cur s) s)))) /\
    1 <= pid <= 1024 /\ pid_used s pid = false /\ (forall q, 1 <= q < pid -> pid_used s q = true) /\
    pids_ok (set_k_pids b s) /\
    (forall q, 1 <= q -> pid_used (set_k_pids b s) q = if decide (q = pid) then true else pid_used s q).
Proof.
  intros Hc Hr Hal Hu Hfree Hok Hex. set (M := k_cur s) in *. set (s1 := set_k_main M s).
  set (s2 := set_k_tasks (<[M := zero_task]> (k_tasks s1)) s1).
  destruct (allocate_pid_run s2 f Hfree Hok Hex) as (pid & b & Ha & Hpid & Hfresh & Hleast & Hpok & Hused).
  exists pid, b. split; [|by repeat (split; [assumption|])].
  pose proof (init_thread_run s1 f M (chars "main") 31 pid b Hc ltac:(cbn; lia) Hr ltac:(lia) Ha) as Hi.
  change (k_main s1) with M in Hi. rewrite Z.eqb_refl in Hi.
  unfold make_main_thread. rewrite (cbind_atomic _ _ s M s) by done. rewrite (cbind_atomic _ _ s tt s1) by done.
  rewrite (cbind_return _ _ _ _ _ Hi). set (s3 := set_k_pids b _).
  rewrite (cbind_atomic _ _ s3 false s3).
  2: { rewrite (q_find_run s3 _ al) by exact Hal. rewrite bool_decide_eq_false_2; [done|].
    intros Hin. exact (linked_not_unlinked _ _ _ _ Hal Hin Hu). }
  rewrite (cbind_atomic _ _ s3 tt s3) by done. unfold atomic. by rewrite (q_append_run s3 _ _ _ Hal Hu).
Qed.

Lemma keeps_screen (p : P) ns u v d va : spaces_ok p ns u -> screen_ok v -> dir_live p d ->
  sp_page (set_screen v p) d va = sp_page p d va.
Proof. intros Hok Hv Hd. destruct (scr_spaces p ns u v Hok Hv) as [_ K]. apply (kp_page _ _ _ _ _ K); [done|by intros []]. Qed.

Lemma lists_can_create s dp v ns u : fresh_kernel s dp -> spaces_ok (k_pages s) ns u -> screen_ok v ->
  can_create (lists_made v s) dp [] [].
Proof.
  intros Hf Hok Hv. pose proof Hf as [[Hcr Hd] [Hm [Km HM]] [Hdata Hne] Ht [Hq Hnil] Htags _ _ _ [Hb Hlen]].
  destruct (scr_spaces _ _ _ v Hok Hv) as [_ K].
  assert (Hlists : forall L, L ∈ boot_lists -> boot_queues (k_queues s) !! L = Some []) by (intros L; apply boot_queues_at).
  destruct (boot_pids_ok _ Hb Hlen) as [Bok Bfree].
  split.
  - exact Hcr.
  - by apply (kp_live _ _ _ _ _ K).
  - split; [|split; [by split|exists 1; split; [lia|by apply Bfree]]].
    split; [apply lookup_insert_eq|]. split; [apply lookup_insert_eq|].
    split; [apply Hlists; rewrite boot_lists_elem; unfold sema_waiters, lock_semaphore, pid_lock; lia|].
    change (k_cur s <> 0). unfold kernel_page, KERNEL_BASE in Km. lia.
  - by left.
  - split; [apply Hlists; rewrite boot_lists_elem; by left|].
    split; [apply Hlists; rewrite boot_lists_elem; auto|].
    intros t Kt Hnt. change (sp_page (set_screen v (k_pages s)) dp t = None) in Hnt. rewrite (keeps_screen _ _ _ _ _ _ Hok Hv Hd) in Hnt.
    apply (boot_tags s dp t Hf Kt); [|by apply Htags; auto].
    intros ->. rewrite Hnt in Hdata. by destruct Hdata.
Qed.

(** ** The state of the started kernel *)

Definition started s (i M d : Z) (ci cm cd : task) (p : P) (b : bitmap) (m : gmap Z Z) (v : screen) : kst P :=
  KSt (k_eflags s) M (<[d := cd]> (<[M := cm]> (<[i := ci]> ∅)))
    (<[thread_all_list := [all_list_tag i; all_list_tag M; all_list_tag d]]>
       (<[thread_ready_list := [general_tag i; general_tag d]]> (boot_queues (k_queues s))))
    (<[lock_semaphore pid_lock := 1]> (<[lock_semaphore global_pid_lock := 1]> (k_semas s)))
    (<[pid_lock := Lock 0 0]> (<[global_pid_lock := Lock 0 0]> (k_locks s)))
    m d M b (set_screen v p) (k_cr3 s) (k_esp0 s) (k_jiffies s).

Lemma started_queues qs i M d :
  queues_ok (boot_queues qs) -> boot_queues qs !! thread_ready_list = Some [] -> boot_queues qs !! thread_all_list = Some [] ->
  tags_free (boot_queues qs) i -> tags_free (boot_queues qs) M -> tags_free (boot_queues qs) d ->
  i mod PG_SIZE = 0 -> M mod PG_SIZE = 0 -> d mod PG_SIZE = 0 -> i <> M -> i <> d -> M <> d ->
  let Q := <[thread_all_list := [all_list_tag i; all_list_tag M; all_list_tag d]]>
       (<[thread_ready_list := [general_tag i; general_tag d]]> (boot_queues qs)) in
  queues_ok Q /\ unlinked Q (general_tag M).
Proof.
  intros Hq Hr Ha Ti TM Td Mi MM Md N1 N2 N3 Q.
  destruct (tags_distinct i M Mi MM N1) as (?&?&?&?). destruct (tags_distinct i d Mi Md N2) as (?&?&?&?).
  destruct (tags_distinct M d MM Md N3) as (?&?&?&?).
  set (Q2 := enqueue_q (boot_queues qs) i [] []).
  assert (R2 : Q2 !! thread_ready_list = Some [general_tag i]) by (unfold Q2, enqueue_q; by rewrite lookup_insert_ne, lookup_insert_eq).
  assert (A2 : Q2 !! thread_all_list = Some [all_list_tag i]) by apply lookup_insert_eq.
  set (Q3 := <[thread_all_list := [all_list_tag i] ++ [all_list_tag M]]> Q2).
  assert (R3 : Q3 !! thread_ready_list = Some [general_tag i]) by (unfold Q3; by rewrite lookup_insert_ne).
  assert (A3 : Q3 !! thread_all_list = Some ([all_list_tag i; all_list_tag M])) by apply lookup_insert_eq.
  assert (TM2 : tags_free Q2 M) by (apply tags_enqueue; auto).
  assert (Td2 : tags_free Q2 d) by (apply tags_enqueue; auto).
  assert (Td3 : tags_free Q3 d) by (apply tags_insert; auto).
  assert (HQ3 : queues_ok Q3) by (apply queues_ok_append; [by apply queues_ok_enqueue|done|apply TM2]).
  assert (EQ : enqueue_q Q3 d [general_tag i] [all_list_tag i; all_list_tag M] = Q).
  { unfold enqueue_q, Q, Q3, Q2, enqueue_q. cbn [app].
    rewrite (insert_insert_ne _ thread_ready_list thread_all_list) by done.
    rewrite insert_insert_eq, (insert_insert_ne _ thread_ready_list thread_all_list), insert_insert_eq by done.
    by rewrite insert_insert_eq. }
  split; rewrite <- EQ.
  - by apply queues_ok_enqueue.
  - assert (TM3 : unlinked Q3 (general_tag M)).
    { eapply unlinked_insert; [apply TM2|exact A2|]. rewrite elem_of_app, !list_elem_of_singleton.
      intros [->|E]; [done|]. unfold general_tag, all_list_tag in E. lia. }
    assert (HM4 : unlinked (<[thread_ready_list := [general_tag i] ++ [general_tag d]]> Q3) (general_tag M)).
    { eapply unlinked_insert; [exact TM3|exact R3|]. rewrite elem_of_app, (list_elem_of_singleton _ (general_tag d)).
      intros [?|?]; [done|congruence]. }
    eapply unlinked_insert; [exact HM4|by rewrite lookup_insert_ne|].
    rewrite elem_of_app, (list_elem_of_singleton _ (all_list_tag d)). intros [?|?]; [done|congruence].
Qed.

(** The state is consistent when the three PCBs are as they should be. *)
Lemma started_consistent s dp i d ci cm cd p b m v ns u :
  fresh_kernel s dp -> let M := k_cur s in
  tags_free (boot_queues (k_queues s)) i -> tags_free (boot_queues (k_queues s)) M -> tags_free (boot_queues (k_queues s)) d ->
  kernel_page i -> kernel_page d -> i <> M -> i <> d -> M <> d ->
  t_status ci = TASK_READY -> t_status cm = TASK_RUNNING -> t_status cd = TASK_READY ->
  t_magic ci = STACK_MAGIC -> t_magic cm = STACK_MAGIC -> t_magic cd = STACK_MAGIC ->
  t_pgdir cm = 0 -> t_pgdir cd = 0 -> spaces_ok (set_screen v p) ns u ->
  (exists f, v2p_at (set_screen v p) (t_pgdir ci) f) ->
  consistent (started s i M d ci cm cd p b m v).
Proof.
  intros Hf M Ti TM Td Ki Kd N1 N2 N3 Si Sm Sd Gi Gm Gd Pm Pd Hok [pa Hpa].
  pose proof Hf as [_ [_ [KM _]] _ _ [Hq Hnil] _ _ Hsem Hlk _].
  assert (Hpos : forall t, kernel_page t -> t <> 0 /\ t mod PG_SIZE = 0) by (unfold kernel_page, KERNEL_BASE; intros t [? ?]; split; [lia|done]).
  destruct (Hpos i Ki) as [Zi Mi], (Hpos M KM) as [ZM MM], (Hpos d Kd) as [Zd Md].
  assert (HL : forall L, L ∈ boot_lists -> boot_queues (k_queues s) !! L = Some []) by (intros L; apply boot_queues_at).
  destruct (started_queues (k_queues s) i M d) as [HQ HMu]; auto; try (apply HL; rewrite boot_lists_elem; auto).
  { by eapply boot_queues_ok. }
  set (s' := started s i M d ci cm cd p b m v).
  assert (St : forall t st, status s' t = Some st <->
    t = d /\ st = TASK_READY \/ t = M /\ st = TASK_RUNNING \/ t = i /\ st = TASK_READY).
  { intros t st. unfold status, s', started. cbn [k_tasks].
    destruct (decide (t = d)) as [->|]; [rewrite lookup_insert_eq; cbn; rewrite Sd; naive_solver|rewrite lookup_insert_ne by done].
    destruct (decide (t = M)) as [->|]; [rewrite lookup_insert_eq; cbn; rewrite Sm; naive_solver|rewrite lookup_insert_ne by done].
    destruct (decide (t = i)) as [->|]; [rewrite lookup_insert_eq; cbn; rewrite Si; naive_solver|rewrite lookup_insert_ne, lookup_empty by done].
    naive_solver. }
  assert (Hw : forall ps, ps ∈ dom (k_semas s') -> sema_waiters ps <> thread_ready_list /\ sema_waiters ps <> thread_all_list /\
    boot_queues (k_queues s) !! sema_waiters ps = Some []).
  { intros ps Hps. destruct (decide (sema_waiters ps ∈ [sema_waiters (lock_semaphore global_pid_lock); sema_waiters (lock_semaphore pid_lock)])) as [Hin|Hout].
    - split; [|split]; [..|apply HL; by right; right];
        apply elem_of_cons in Hin as [->| ->%list_elem_of_singleton]; done.
    - assert (Hs : exists w, k_semas s !! ps = Some w).
      { apply elem_of_dom in Hps as [w Hw]. unfold s', started in Hw. cbn [k_semas] in Hw.
        rewrite !elem_of_cons in Hout. rewrite !lookup_insert_ne in Hw; [by exists w|intros <-; tauto..]. }
      destruct Hs as [w Hw]. destruct (Hsem _ _ Hw) as [_ Hqw].
      assert (Hnb : sema_waiters ps ∉ boot_lists).
      { intros Hin. destruct (fk_lists _ _ Hf _ Hin) as [Hu _]. apply (Hu _ _ Hqw). rewrite nodes_elem. by left. }
      pose proof (proj2 (boot_queues_at s (sema_waiters ps)) Hnb) as Hb. rewrite boot_lists_elem in Hnb.
      unfold thread_ready_list, thread_all_list. split; [tauto|]. split; [tauto|]. by rewrite Hb. }
  assert (Hcore : core s').
  { split.
    - exists cm. unfold s', started. cbn. by rewrite lookup_insert_ne, lookup_insert_eq by done.
    - exists [i; d]. split; [unfold ready_is, s', started; cbn [k_queues]; by rewrite lookup_insert_ne, lookup_insert_eq|].
      intros t. rewrite St, !elem_of_cons, elem_of_nil. naive_solver.
    - intros t Ht. apply St in Ht as [[_ ?]|[[-> _]|[_ ?]]]; done.
    - exact HQ.
    - exists TASK_READY. split; [apply St; by left|auto].
    - intros t q Hq'. unfold s', started in Hq'. cbn [k_tasks] in Hq'.
      rewrite !lookup_insert_Some, lookup_empty in Hq'. destruct Hq' as [[<- <-]|[_ [[<- <-]|[_ [[<- <-]|[_ ?]]]]]]; [..|done].
      + split; [done|]. split; [done|]. intros _. by left.
      + split; [done|]. split; [done|]. intros _. by left.
      + split; [done|]. split; [done|]. intros _. right. exists pa. by apply (sp_v2p _ _ _ _ _ Hok). }
  split.
  - split; [exact Hcore|]. apply St. auto.
  - done.
  - done.
  - done.
  - intros ps w. unfold s', started. cbn [k_semas]. rewrite !lookup_insert_Some.
    intros [[_ <-]|[_ [[_ <-]|[_ Hw']]]]; [auto|auto|]. right. by apply (Hsem _ _ Hw').
  - intros ps Hps. destruct (Hw ps Hps) as (W1 & W2 & W3). split; [exact W1|]. exists [].
    split; [unfold s', started; cbn [k_queues]; by rewrite !lookup_insert_ne by congruence|by intros t ?%elem_of_nil].
  - intros L l. unfold s', started. cbn [k_locks k_semas]. rewrite !lookup_insert_Some.
    intros HLk. exists 1. split.
    + destruct HLk as [[<- _]|[_ [[<- _]|[_ HLk]]]]; [apply lookup_insert_eq|by rewrite lookup_insert_ne, lookup_insert_eq by done|].
      destruct (Hlk _ _ HLk) as [_ Hs1]. destruct (decide (lock_semaphore pid_lock = lock_semaphore L)) as [->|]; [apply lookup_insert_eq|].
      rewrite lookup_insert_ne by done. destruct (decide (lock_semaphore global_pid_lock = lock_semaphore L)) as [->|]; [apply lookup_insert_eq|].
      by rewrite lookup_insert_ne.
    + intros _. destruct HLk as [[_ <-]|[_ [[_ <-]|[_ HLk]]]]; [done|done|]. by apply (Hlk _ _ HLk).
  - intros t q. unfold s', started. cbn [k_tasks]. rewrite !lookup_insert_Some, lookup_empty.
    intros [[<- <-]|[_ [[<- <-]|[_ [[<- <-]|[_ ?]]]]]]; done.
Qed.

Lemma print_run t s ns u : good t = true -> spaces_ok (k_pages s) ns u ->
  exists v, put_str (lit t) (screen_of (k_pages s)) = Ok (tt, v) /\ screen_ok v /\
    spaces_ok (set_screen v (k_pages s)) ns u /\ keeps dir_live v2p_at (k_pages s) (set_screen v (k_pages s)) (fun _ _ => False).
Proof.
  intros Ht%lit_chars Hok. destruct (put_loop_run (S (length (lit t))) (lit t) 0 (chars t) rc_black rc_white (screen_of (k_pages s)) Ht)
    as (v & R & (Hv & _) & _); [by apply str_fuel in Ht|done|done|by eapply scr_in_order|].
  exists v. split; [exact R|]. split; [exact Hv|]. by eapply scr_spaces.
Qed.

(** What the first process and the main thread leave for the idle thread. *)
Lemma first_threads s dp f ns u :
  fresh_kernel s dp -> spaces_ok (k_pages s) (1 :: bitmap_pg_cnt :: 1 :: 1 :: ns) u -> let M := k_cur s in
  exists v i vb pgdir dc m p b, (forall (k : CM (kst P) unit),
    (atomic (on_screen (put_str (lit ("thread_init start" ++ newline)))) ;~; atomic (q_init thread_ready_list) ;~;
     atomic (q_init thread_all_list) ;~; atomic (lock_init global_pid_lock) ;~; atomic pid_pool_init ;~;
     process_execute (S f) init_addr (chars "init") ;~; make_main_thread (S f) ;~; k) s =
    k (set_k_queues (<[thread_all_list := [all_list_tag i; all_list_tag M]]> (enqueue_q (boot_queues (k_queues s)) i [] []))
       (set_k_main M (set_k_pids b (set_k_tasks (<[M := init_task M 2 TASK_RUNNING (chars "main") 31]> (<[i := process_task i 1 pgdir vb (chars "init")]> ∅))
         (set_k_stack m (set_k_pages p (lists_made v s)))))))) /\
    kernel_page i /\ i <> M /\ tags_free (boot_queues (k_queues s)) i /\ spaces_ok p (1 :: ns) u /\
    (forall va x, sp_page (k_pages s) dp va = Some x -> sp_page p dp va = Some x) /\ dir_live p dp /\ is_Some (sp_page p dp i) /\
    v2p_at p pgdir dc /\ pids_ok (set_k_pids b s) /\
    (forall q, 1 <= q <= 1024 -> pid_used (set_k_pids b s) q = bool_decide (q = 1 \/ q = 2)).
Proof.
  intros Hf Hok M. pose proof Hf as [[Hcr Hd] [Hm [KM [xM HM]]] [[xd Hdata] Hne] Ht [Hq Hnil] Htags _ _ _ [Hb Hlen]].
  destruct (print_run ("thread_init start" ++ newline)%string s _ _ eq_refl Hok) as (v & R1 & Hv & Ok1 & K1).
  set (s1 := lists_made v s). pose proof (lists_can_create s dp v _ _ Hf Hok Hv) as Hcan.
  destruct (process_execute_run s1 dp init_addr (chars "init") f (1 :: ns) u [] [] Hcan Ok1 ltac:(cbn; lia))
    as (i & pid & vb & pgdir & dc & m & b & p & R2 & Made & _ & Fresh & Ok2).
  destruct Made as [(Ki & Ni & Mi) Kept Live (Hpid & _ & Hleast) [Pok Pused]].
  assert (Hpage : forall va, sp_page (set_screen v (k_pages s)) dp va = sp_page (k_pages s) dp va).
  { intros va. by eapply keeps_screen. }
  change (k_pages s1) with (set_screen v (k_pages s)) in Ni, Kept. rewrite Hpage in Ni.
  assert (Hfree1 : forall q, 1 <= q <= 1024 -> pid_used s1 q = false) by (apply boot_pids_ok; done).
  assert (pid = 1) as ->.
  { destruct (decide (pid = 1)) as [|Hp]; [done|]. specialize (Hleast 1 ltac:(lia)). by rewrite Hfree1 in Hleast by lia. }
  assert (HiM : i <> M) by (intros E; rewrite E in Ni; unfold M in Ni; congruence).
  assert (Hi0 : i <> 0xc0001000) by (intros E; rewrite E in Ni; congruence).
  assert (Ti : tags_free (boot_queues (k_queues s)) i) by (eapply boot_tags; eauto).
  assert (TM : tags_free (boot_queues (k_queues s)) M) by (eapply boot_tags; eauto).
  set (ci := process_task i 1 pgdir vb (chars "init")) in *.
  set (s2 := enqueued i [] [] (created i ci m b p s1)) in *.
  assert (HL : forall L, L ∈ boot_lists -> boot_queues (k_queues s) !! L = Some []) by (intros L; apply boot_queues_at).
  assert (Hr : boot_queues (k_queues s) !! thread_ready_list = Some []) by (apply HL; rewrite boot_lists_elem; auto).
  assert (Ha : boot_queues (k_queues s) !! thread_all_list = Some []) by (apply HL; rewrite boot_lists_elem; auto).
  unfold kernel_page, KERNEL_BASE in KM.
  destruct (make_main_run s2 f [all_list_tag i]) as (pid2 & b2 & R3 & Hpid2 & Hf2 & Hl2 & Pok2 & Pu2).
  { change (k_cur s2) with M. unfold M. lia. }
  { change (k_cur s2) with M. unfold M, PG_SIZE. lia. }
  { apply lookup_insert_eq. }
  { change (unlinked (enqueue_q (boot_queues (k_queues s)) i [] []) (all_list_tag M)).
    apply tags_enqueue; auto; [apply KM|apply Ki]. }
  { destruct (cc_pids _ _ _ _ Hcan) as [(F1 & F2 & F3 & F4) _]. split; [exact F1|]. split; [exact F2|]. split; [|exact F4].
    change (enqueue_q (boot_queues (k_queues s)) i [] [] !! sema_waiters (lock_semaphore pid_lock) = Some []).
    unfold enqueue_q. by rewrite !lookup_insert_ne. }
  { exact Pok. }
  { exists 2. split; [lia|]. change (pid_used (set_k_pids b s1) 2 = false). rewrite Pused by lia. by rewrite decide_False, Hfree1 by lia. }
  assert (Pu : forall q, 1 <= q <= 1024 -> pid_used s2 q = bool_decide (q = 1)).
  { intros q Hq'. change (pid_used s2 q) with (pid_used (set_k_pids b s1) q). rewrite Pused by lia.
    destruct (decide (q = 1)) as [->|]; [done|]. rewrite Hfree1 by lia. symmetry. by apply bool_decide_eq_false_2. }
  assert (pid2 = 2) as ->.
  { destruct (decide (pid2 = 1)) as [->|]; [by rewrite Pu in Hf2 by lia|]. destruct (decide (pid2 = 2)) as [|]; [done|].
    specialize (Hl2 2 ltac:(lia)). by rewrite Pu in Hl2 by lia. }
  exists v, i, vb, pgdir, dc, m, p, b2. split; [|split; [done|split; [done|split; [done|split; [done|split; [|split; [done|split; [done|split; [apply Fresh|split; [exact Pok2|]]]]]]]]]].
  - intros k. rewrite (boot_inits s dp _ v _ Hf R1). rewrite (cbind_return _ _ _ _ _ R2), (cbind_return _ _ _ _ _ R3).
    f_equal. unfold s2, enqueued, created, with_task, s1, lists_made, enqueue_q. cbn. rewrite Ht, !insert_insert_eq.
    reflexivity.
  - intros va x Hx. apply Kept. by rewrite Hpage.
  - intros q Hq'. change (pid_used (set_k_pids b2 s2) q = bool_decide (q = 1 \/ q = 2)). rewrite Pu2, Pu by lia.
    destruct (decide (q = 2)) as [->|]; [done|]. apply bool_decide_ext. naive_solver.
Qed.

(** The run of [thread_init], with the state it ends in. *)
Lemma thread_init_run s dp f ns u :
  fresh_kernel s dp -> spaces_ok (k_pages s) (1 :: bitmap_pg_cnt :: 1 :: 1 :: ns) u ->
  exists i d s', thread_init (S f) s = Ok (Return tt, s') /\ consistent s' /\
    k_cur s' = k_cur s /\ k_main s' = k_cur s /\ k_idle s' = d /\
    k_queues s' !! thread_ready_list = Some (general_tag <$> [i; d]) /\
    k_queues s' !! thread_all_list = Some (all_list_tag <$> [i; k_cur s; d]) /\
    t_pid <$> k_tasks s' !! i = Some 1 /\ t_pid <$> k_tasks s' !! k_cur s = Some 2 /\ t_pid <$> k_tasks s' !! d = Some 3 /\
    status s' (k_cur s) = Some TASK_RUNNING /\ frame_at (k_stack s') (d + 3664) idle_addr 0 /\ spaces_ok (k_pages s') ns u.
Proof.
  intros Hf Hok. set (M := k_cur s).
  destruct (first_threads s dp f ns u Hf Hok) as (v & i & vb & pgdir & dc & m & p & b & R1 & Ki & NiM & Ti & Ok1 & Kept & Live & [xi Mi] & Hpg & Pok & Pu).
  pose proof Hf as [_ [_ [KM [xM HM]]] [[xd Hdata] _] _ _ Htags _ _ _ _].
  destruct (sp_get_kernel p 1 ns u Ok1) as (d & p2 & R2 & Ok2 & B2 & K2); [done|].
  destruct (B2 d) as (Kd & Hd0 & Nd & _); [by apply single_page|]. destruct (Nd dp Live) as [Nd0 _].
  assert (Hnone : sp_page (k_pages s) dp d = None).
  { destruct (sp_page (k_pages s) dp d) as [x|] eqn:E; [|done]. apply Kept in E. congruence. }
  assert (NdM : M <> d) by (intros E; rewrite <- E in Hnone; unfold M in Hnone; congruence).
  assert (Nid : i <> d) by (intros E; rewrite E in Mi; congruence).
  assert (Nd1 : d <> 0xc0001000) by (intros E; rewrite E in Hnone; congruence).
  assert (Td : tags_free (boot_queues (k_queues s)) d) by (eapply boot_tags; eauto).
  assert (TM : tags_free (boot_queues (k_queues s)) M) by (eapply boot_tags; eauto; by destruct (fk_data _ _ Hf)).
  assert (HL : forall L, L ∈ boot_lists -> boot_queues (k_queues s) !! L = Some []) by (intros L; apply boot_queues_at).
  assert (Hr : boot_queues (k_queues s) !! thread_ready_list = Some []) by (apply HL; rewrite boot_lists_elem; auto).
  assert (Ha : boot_queues (k_queues s) !! thread_all_list = Some []) by (apply HL; rewrite boot_lists_elem; auto).
  set (Q2 := enqueue_q (boot_queues (k_queues s)) i [] []) in R1.
  set (cm := init_task M 2 TASK_RUNNING (chars "main") 31) in R1. set (ci := process_task i 1 pgdir vb (chars "init")) in R1.
  set (s3 := set_k_queues (<[thread_all_list := [all_list_tag i; all_list_tag M]]> Q2)
    (set_k_main M (set_k_pids b (set_k_tasks (<[M := cm]> (<[i := ci]> ∅)) (set_k_stack m (set_k_pages p (lists_made v s))))))).
  change (k_cur s) with M in R1. fold s3 in R1.
  destruct (tags_distinct M d (proj2 KM) (proj2 Kd) NdM) as (?&?&?&?).
  assert (T3 : tags_free (k_queues s3) d).
  { apply (tags_insert Q2 d thread_all_list [all_list_tag i] (all_list_tag M)); auto; [|by apply lookup_insert_eq].
    apply tags_enqueue; auto; [apply Kd|apply Ki]. }
  destruct (thread_start_run s3 f [general_tag i] [all_list_tag i; all_list_tag M] (chars "idle") 10 idle_addr 0 d p2)
    as (pid & b3 & m3 & R3 & Hpid & Hf3 & Hl3 & _ & _ & Hframe).
  { unfold s3, Q2, enqueue_q. cbn [k_queues set_k_queues]. by rewrite !lookup_insert_ne, lookup_insert_eq by done. }
  { apply lookup_insert_eq. }
  { split; [apply lookup_insert_eq|]. split; [apply lookup_insert_eq|].
    split; [|change (M <> 0); unfold kernel_page, KERNEL_BASE in KM; unfold M; lia].
    unfold s3, Q2, enqueue_q. cbn [k_queues set_k_queues]. rewrite !lookup_insert_ne by done. apply HL. rewrite boot_lists_elem. auto. }
  { exact Pok. }
  { exists 3. split; [lia|]. change (pid_used (set_k_pids b s) 3 = false). by rewrite Pu by lia. }
  { exact R2. }
  { unfold kernel_page in Kd. unfold PG_SIZE in *. lia. }
  { change (d <> M). congruence. }
  { apply T3. }
  { apply T3. }
  { cbn. lia. }
  { lia. }
  set (s4 := enqueued d [general_tag i] [all_list_tag i; all_list_tag M] (created d (new_task d pid (chars "idle") 10) m3 b3 p2 s3)) in R3.
  assert (Pu3 : forall q, 1 <= q <= 1024 -> pid_used s3 q = bool_decide (q = 1 \/ q = 2)) by exact Pu.
  set (s5 := set_k_idle d s4).
  destruct (print_run ("thread_init done" ++ newline)%string s5 ns u eq_refl Ok2) as (v2 & R4 & Hv2 & Ok4 & K4).
  set (cd := new_task d pid (chars "idle") 10) in *.
  assert (EQ : k_queues s5 = <[thread_all_list := [all_list_tag i; all_list_tag M; all_list_tag d]]>
    (<[thread_ready_list := [general_tag i; general_tag d]]> (boot_queues (k_queues s)))).
  { change (enqueue_q (<[thread_all_list := [all_list_tag i; all_list_tag M]]> Q2) d [general_tag i] [all_list_tag i; all_list_tag M] = 
      <[thread_all_list := [all_list_tag i; all_list_tag M; all_list_tag d]]>
        (<[thread_ready_list := [general_tag i; general_tag d]]> (boot_queues (k_queues s)))).
    unfold Q2, enqueue_q. cbn [app].
    rewrite (insert_insert_ne _ thread_ready_list thread_all_list) by done.
    rewrite !insert_insert_eq, (insert_insert_ne _ thread_ready_list thread_all_list) by done. by rewrite !insert_insert_eq. }
  assert (Hst : set_k_pages (set_screen v2 p2) s5 = started s i M d ci cm cd p2 b3 m3 v2).
  { unfold started. rewrite <- EQ. reflexivity. }
  assert (Hfin : thread_init (S f) s = Ok (Return tt, started s i M d ci cm cd p2 b3 m3 v2)).
  { unfold thread_init. etrans; [apply R1|]. etrans; [apply (cbind_return _ _ _ _ _ R3)|].
    etrans; [apply (cbind_atomic _ _ s4 tt s5); reflexivity|]. rewrite <- Hst.
    unfold atomic, on_screen. rewrite R4.
    reflexivity. }
  assert (pid = 3) as Epid.
  { destruct (decide (pid = 1 \/ pid = 2)) as [Hp|Hp]; [by destruct Hp as [->| ->]; rewrite Pu3 in Hf3 by lia|].
    destruct (decide (3 < pid)) as [Hp3|]; [specialize (Hl3 3 ltac:(lia)); by rewrite Pu3 in Hl3 by lia|lia]. }
  exists i, d, (started s i M d ci cm cd p2 b3 m3 v2). split; [exact Hfin|]. split.
  { eapply started_consistent; try done.
    exists dc. apply (kp_v2p _ _ _ _ _ K4). by apply (kp_v2p _ _ _ _ _ K2). }
  do 3 (split; [done|]). unfold started. cbn [k_queues k_tasks k_stack k_pages].
  split; [by rewrite lookup_insert_ne, lookup_insert_eq|]. split; [by rewrite lookup_insert_eq|].
  split; [by rewrite !lookup_insert_ne, lookup_insert_eq by done|].
  split; [by rewrite lookup_insert_ne, lookup_insert_eq by done|].
  split; [rewrite lookup_insert_eq; cbn; by rewrite Epid|].
  split; [unfold status; cbn [k_tasks]; by rewrite lookup_insert_ne, lookup_insert_eq by done|].
  split; [exact Hframe|exact Ok4].
Qed.

(** C17: the start of the threads.  From a kernel without threads [thread_init] returns, fails
    no assertion, and leaves the invariant of Threads true: the first process, the main
    thread and the idle thread have the pids 1, 2 and 3 and are linked in the list of all
    threads in this order; the main thread goes on running, the other two are READY, and the
    idle thread's stack makes its first switch call [idle]. *)
Theorem thread_init_consistent s dp f ns u :
  fresh_kernel s dp -> spaces_ok (k_pages s) (1 :: bitmap_pg_cnt :: 1 :: 1 :: ns) u ->
  exists i d s', thread_init (S f) s = Ok (Return tt, s') /\ consistent s' /\
    k_cur s' = k_cur s /\ k_main s' = k_cur s /\ k_idle s' = d /\
    k_queues s' !! thread_ready_list = Some (general_tag <$> [i; d]) /\
    k_queues s' !! thread_all_list = Some (all_list_tag <$> [i; k_cur s; d]) /\
    t_pid <$> k_tasks s' !! i = Some 1 /\ t_pid <$> k_tasks s' !! k_cur s = Some 2 /\ t_pid <$> k_tasks s' !! d = Some 3 /\
    status s' (k_cur s) = Some TASK_RUNNING /\ frame_at (k_stack s') (d + 3664) idle_addr 0 /\ spaces_ok (k_pages s') ns u.
Proof. exact (thread_init_run s dp f ns u). Qed.
End boot.

(** ** Pages with a screen *)

Section with_screen.
Context {P : Type} `{!KernelPages P, !AddressSpaces P, !AddressSpacesLaws P}.

Definition beside {A} (f : P -> outcome (A * P)) (p : P * screen) : outcome (A * (P * screen)) :=
  match f p.1 with Ok (a, q) => Ok (a, (q, p.2)) | Err e => Err e end.
Definition beside_set (f : P -> outcome P) (p : P * screen) : outcome (P * screen) :=
  match f p.1 with Ok q => Ok (q, p.2) | Err e => Err e end.

#[export] Instance screen_kernel_pages : KernelPages (P * screen) := {|
  get_kernel_pages n := beside (get_kernel_pages n);
  mfree_kernel_page a n := beside_set (mfree_kernel_page a n);
  addr_v2p a p := addr_v2p a p.1
|}.
#[export] Program Instance screen_store_pair : ScreenStore (P * screen) :=
  {| screen_of p := p.2; set_screen v p := (p.1, v) |}.
Solve All Obligations with done.
#[export] Instance screen_address_spaces : AddressSpaces (P * screen) := {|
  sp_page p := sp_page p.1;
  sp_set_page d va bs := beside_set (sp_set_page d va bs);
  sp_user_page d va := beside (sp_user_page d va);
  sp_own_page d v va := beside (sp_own_page d v va);
  sp_page_dir d := beside (sp_page_dir d);
  sp_init_descs c p := (sp_init_descs c p.1, p.2)
|}.

Lemma keeps_beside (p p' : P) (v : screen) F : keeps dir_live v2p_at p p' F ->
  keeps (fun p d => dir_live p.1 d) (fun p a f => v2p_at p.1 a f) (p, v) (p', v) F.
Proof. by intros [H1 H2 H3]. Qed.

#[export] Instance screen_laws : AddressSpacesLaws (P * screen).
Proof.
  refine {| dir_live p d := dir_live p.1 d; v2p_at p a f := v2p_at p.1 a f;
    spaces_ok p ns u := spaces_ok p.1 ns u /\ screen_ok p.2 |}.
  - intros [p v] ns u d va bs [Hok _]. by apply (sp_page_length p ns u).
  - intros [p v] ns u a f [Hok _]. by apply (sp_v2p p ns u).
  - intros [p v] ns u d d' va [Hok _]. by apply (sp_kernel_shared p ns u).
  - intros [p v] ns u d va old bs [Hok Hs] Hd Hu Ho Hl. destruct (sp_set_user p ns u d va old bs Hok Hd Hu Ho Hl) as (p' & R & Ok' & B & K).
    exists (p', v). unfold sp_set_page, screen_address_spaces, beside_set. cbn [fst snd]. rewrite R. split; [done|]. split; [done|].
    split; [exact B|by apply keeps_beside].
  - intros [p v] ns u d va old bs [Hok Hs] Hd Hu Ho Hl. destruct (sp_set_kernel p ns u d va old bs Hok Hd Hu Ho Hl) as (p' & R & Ok' & B & K).
    exists (p', v). unfold sp_set_page, screen_address_spaces, beside_set. cbn [fst snd]. rewrite R. split; [done|]. split; [done|].
    split; [exact B|by apply keeps_beside].
  - intros [p v] ns u d va [Hok Hs] Hd Hu Hva Hn Ho. destruct (sp_get_user p ns u d va Hok Hd Hu Hva Hn Ho) as (p' & bs & R & Ok' & B & K).
    exists (p', v), bs. unfold sp_user_page, screen_address_spaces, beside. cbn [fst snd]. rewrite R. split; [done|]. split; [done|].
    split; [exact B|by apply keeps_beside].
  - intros [p v] ns u d w va i bs b [Hok Hs] Hd Hu Hn Hst Hva Hi Hk Hp Hb Hr Ho.
    destruct (sp_get_own p ns u d w va i bs b Hok Hd Hu Hn Hst Hva Hi Hk Hp Hb Hr Ho) as (p' & pg & R & Ok' & B & B2 & K).
    exists (p', v), pg. unfold sp_own_page, screen_address_spaces, beside. cbn [fst snd]. rewrite R. split; [done|]. split; [done|].
    split; [exact B|]. split; [exact B2|by apply keeps_beside].
  - intros [p v] n ns u [Hok Hs] Hn. destruct (sp_get_kernel p n ns u Hok Hn) as (a & p' & R & Ok' & B & K).
    exists a, (p', v). unfold get_kernel_pages, screen_kernel_pages, beside. cbn [fst snd]. rewrite R. split; [done|]. split; [done|].
    split; [exact B|by apply keeps_beside].
  - intros [p v] n ns u a [p' v'] [Hok Hs] Hn R. apply (sp_heap p n ns u a p' Hok Hn).
    unfold get_kernel_pages, screen_kernel_pages, beside in R. cbn [fst snd] in R.
    destruct (get_kernel_pages n p) as [[]|]; [|done]. by injection R as -> -> _.
  - intros [p v] ns u d [Hok Hs] Hd. destruct (sp_new_dir p ns u d Hok Hd) as (a & p' & d' & R & Ok' & Ka & Hv & Hn & Hl & Hu & Hnp & Hnv & K).
    exists a, (p', v), d'. unfold sp_page_dir, screen_address_spaces, beside. cbn [fst snd]. rewrite R.
    do 2 (split; [done|]). do 6 (split; [assumption|]). split; [assumption|by apply keeps_beside].
  - intros [p v] ns u d a old [Hok Hs] Hd Hk Hh Ho. destruct (sp_free_kernel p ns u d a old Hok Hd Hk Hh Ho) as (p' & R & Ok' & B1 & B2 & B3).
    exists (p', v). unfold mfree_kernel_page, screen_kernel_pages, beside_set. cbn [fst snd]. rewrite R. by do 4 (split; [done|]).
  - intros [p v] ns u c [Hok Hs]. destruct (sp_descs p ns u c Hok) as [Ok' K]. split; [by split|]. by apply keeps_beside.
Defined.

#[export] Instance screen_spaces_pair : ScreenSpaces (P * screen).
Proof.
  split.
  - by intros [p v] ns u [_ H].
  - intros [p v] ns u w [Hok _] Hw. split; [by split|]. by split.
Qed.
End with_screen.

(** ** A kernel to be started *)

Definition bare_pages : small * screen :=
  (Small ∅ (<[ 0xc009e000 := zero_page ]> {[ 0xc0001000 := zero_page ]}) 0xc0100000 [0x100000], sample_screen).
(** A kernel without threads, [main] running on the stack of the boot loader. *)
Definition bare_kernel {P} (p : P) : kst P :=
  KSt 0 0xc009e000 ∅ ∅ ∅ ∅ ∅ 0 0 (Bitmap 0 (replicate 129 0)) p 0x100000 0 0.

Lemma bare_pages_ok : spaces_ok bare_pages [1; bitmap_pg_cnt; 1; 1] 1.
Proof.
  split; [|apply sample_screen_ok]. split; cbn [sm_next sm_user sm_kernel sm_dirs bare_pages fst].
  - done.
  - by vm_compute.
  - intros a bs [[<- <-]|[_ [<- <-]%lookup_singleton_Some]]%lookup_insert_Some; (split; [lia|apply zero_page_length]).
  - intros d a bs H. by rewrite lookup_empty in H.
  - intros d ->%list_elem_of_singleton. lia.
Qed.

Lemma bare_fresh {P} `{!KernelPages P, !AddressSpaces P, !AddressSpacesLaws P} (p : P) :
  dir_live p 0x100000 -> is_Some (sp_page p 0x100000 0xc0001000) -> is_Some (sp_page p 0x100000 0xc009e000) ->
  fresh_kernel (bare_kernel p) 0x100000.
Proof.
  intros Hd Hdata Hmain.
  assert (U : forall e, unlinked (∅ : queues) e) by (intros e L xs H; by destruct (lookup_empty_Some _ _ H)).
  split.
  - split; [done|exact Hd].
  - split; [done|]. split; [by split|exact Hmain].
  - split; [exact Hdata|done].
  - done.
  - split; [|intros L xs H; by destruct (lookup_empty_Some _ _ H)].
    split; [intros L xs H|intros L1 L2 xs ys a H]; by destruct (lookup_empty_Some _ _ H).
  - intros t _ _. split; apply U.
  - intros L _. split; apply U.
  - intros ps v H. by destruct (lookup_empty_Some _ _ H).
  - intros L l H. by destruct (lookup_empty_Some _ _ H).
  - split; [|cbn [k_pids bare_kernel bits]; rewrite length_replicate; lia].
    split; cbn [k_pids bare_kernel bits btmp_bytes_len]; [by apply Forall_replicate|rewrite length_replicate; lia|by rewrite length_replicate].
Qed.

Lemma bare_pages_fresh : fresh_kernel (bare_kernel bare_pages) 0x100000.
Proof. apply bare_fresh; [by left|by eexists|by eexists]. Qed.

Lemma thread_init_consistent_witness :
  exists i d s', thread_init 1 (bare_kernel bare_pages) = Ok (Return tt, s') /\ consistent s' /\
    k_cur s' = 0xc009e000 /\ k_main s' = 0xc009e000 /\ k_idle s' = d /\
    k_queues s' !! thread_ready_list = Some (general_tag <$> [i; d]) /\
    k_queues s' !! thread_all_list = Some (all_list_tag <$> [i; 0xc009e000; d]) /\
    t_pid <$> k_tasks s' !! i = Some 1 /\ t_pid <$> k_tasks s' !! 0xc009e000 = Some 2 /\ t_pid <$> k_tasks s' !! d = Some 3 /\
    status s' 0xc009e000 = Some TASK_RUNNING /\ frame_at (k_stack s') (d + 3664) idle_addr 0 /\ spaces_ok (k_pages s') [] 1.
Proof. exact (thread_init_consistent (bare_kernel bare_pages) 0x100000 0 [] 1 bare_pages_fresh bare_pages_ok). Defined.
