(* ===== verification/Fork.v ===== *)
(** * Fork: userprog/fork.c

    [sys_fork]: the child gets a copy of the parent's PCB page and kernel stack, of its
    address bitmap, and of every user page the bitmap names, in a page directory of its
    own; its kernel stack is made to return 0 from the system call.  The pages are behind
    [AddressSpaces] (Spaces), the counts of the open files behind [OpenFiles]. *)

From Stdlib Require Import Ascii String.
From S2P Require Import Prelude Bitmap Interrupt DList Sched Sync Task Cstring Spaces Process.
Close Scope string_scope.

(** [update_inode_open_cnts] on the descriptors of the child (FdTable). *)
Class OpenFiles (P : Type) : Type := { inherit_files : list Z -> P -> outcome P }.

(** The address of [intr_exit]: any value. *)
Definition intr_exit : Z := 0xc0001600.

Definition fork_suffix : list Z :=
  map (fun a => Z.of_N (N_of_ascii a)) (list_ascii_of_string "_fork") ++ [0].

(** [struct intr_stack] at the top of the page of a PCB, and the offset of [eax]. *)
Definition intr_0_stack (t : Z) : Z := u32 (u32 (t + PG_SIZE) - sizeof_intr_stack).
Definition off_eax : Z := 32.

Section fork.
Context {P : Type} `{!KernelPages P, !AddressSpaces P, !OpenFiles P}.

(** The words of the kernel stack in the page [src], copied to the page [dst]: word [i]
    of the [n] first. *)
Fixpoint copy_words (n : nat) (dst src : Z) (m : gmap Z Z) : gmap Z Z :=
  match n with
  | O => m
  | S n =>
      let m := copy_words n dst src m in
      match m !! (src + 4 * Z.of_nat n) with
      | Some v => <[dst + 4 * Z.of_nat n := v]> m
      | None => delete (dst + 4 * Z.of_nat n) m
      end
  end.

(** [memcpy(child_thread, parent_thread, PG_SIZE)]: the PCB is at the start of the page,
    the kernel stack grows down from its end. *)
Definition copy_pcb (child_thread parent_thread : Z) : KM (kst P) unit :=
  p <- get_task parent_thread ;;
  put_task child_thread p ;;;
  kmod (fun s => set_k_stack (copy_words (Z.to_nat (PG_SIZE / 4)) child_thread parent_thread (k_stack s)) s).

(** The two tags of the copy are cleared: the child is in no queue. *)
Definition copy_pcb_vaddrbitmap_stack0 (fuel : nat) (child_thread parent_thread : Z) : CM (kst P) Z :=
  atomic (copy_pcb child_thread parent_thread) ;~;
  pid <~ fork_pid fuel ;;
  atomic (upd_task child_thread (set_t_pid pid)) ;~;
  atomic (upd_task child_thread (set_t_elapsed 0)) ;~;
  atomic (upd_task child_thread (set_t_status TASK_READY)) ;~;
  atomic (upd_task child_thread (fun c => set_t_ticks (t_priority c) c)) ;~;
  parent <~ atomic (get_task parent_thread) ;;
  atomic (upd_task child_thread (set_t_parent (t_pid parent))) ;~;
  atomic (kpages (fun p => Ok (tt, sp_init_descs child_thread p))) ;~;
  vaddr_btmp <~ atomic (kpages (get_kernel_pages bitmap_pg_cnt)) ;;
  child <~ atomic (get_task child_thread) ;;
  atomic (copy_pages (Z.to_nat bitmap_pg_cnt) vaddr_btmp (va_bits (t_vaddr child))) ;~;
  atomic (upd_task child_thread (fun c =>
    set_t_vaddr (VAddr vaddr_btmp (va_bytes_len (t_vaddr c)) (va_start (t_vaddr c))) c)) ;~;
  name <~ atomic (klift (strcat (t_name child) (Some 0) fork_suffix (Some 0))) ;;
  atomic (upd_task child_thread (set_t_name name)) ;~;
  cret 0.

(** One page of the parent, through the kernel's page [buf_page]. *)
Definition copy_user_page (child_thread parent_thread buf_page prog_vaddr : Z) : KM (kst P) unit :=
  copy_page buf_page prog_vaddr ;;;
  page_dir_activate child_thread ;;;
  s <- kget ;;
  kpages (sp_user_page (k_cr3 s) prog_vaddr) ;;;
  copy_page prog_vaddr buf_page ;;;
  page_dir_activate parent_thread.

(** The loop over the bits of a byte, [n] of which are left. *)
Fixpoint copy_bits (n : nat) (child_thread parent_thread buf_page vaddr_btmp vaddr_start idx_byte idx_bit : Z)
  : KM (kst P) unit :=
  match n with
  | O => kret tt
  | S n =>
      b <- byte_at (vaddr_btmp + idx_byte) ;;
      (if negb (Z.land (Z.shiftl BITMAP_MASK idx_bit) b =? 0) then
         copy_user_page child_thread parent_thread buf_page
           (u32 ((idx_byte * 8 + idx_bit) * PG_SIZE + vaddr_start))
       else kret tt) ;;;
      copy_bits n child_thread parent_thread buf_page vaddr_btmp vaddr_start idx_byte (idx_bit + 1)
  end.

(** The loop over the bytes of the bitmap. *)
Fixpoint copy_bytes (n : nat) (child_thread parent_thread buf_page vaddr_btmp vaddr_start idx_byte : Z)
  : KM (kst P) unit :=
  match n with
  | O => kret tt
  | S n =>
      b <- byte_at (vaddr_btmp + idx_byte) ;;
      (if negb (b =? 0) then
         copy_bits 8 child_thread parent_thread buf_page vaddr_btmp vaddr_start idx_byte 0
       else kret tt) ;;;
      copy_bytes n child_thread parent_thread buf_page vaddr_btmp vaddr_start (idx_byte + 1)
  end.

Definition copy_body_stack3 (child_thread parent_thread buf_page : Z) : KM (kst P) unit :=
  parent <- get_task parent_thread ;;
  let vaddr_btmp := va_bits (t_vaddr parent) in
  let btmp_bytes_len := va_bytes_len (t_vaddr parent) in
  let vaddr_start := va_start (t_vaddr parent) in
  copy_bytes (Z.to_nat btmp_bytes_len) child_thread parent_thread buf_page vaddr_btmp vaddr_start 0.

Definition build_child_stack (child_thread : Z) : KM (kst P) Z :=
  let stack := intr_0_stack child_thread in
  put_word (stack + off_eax) 0 ;;;
  put_word (stack - 4) intr_exit ;;;
  put_word (stack - 16) 0 ;;;
  put_word (stack - 20) 0 ;;;
  put_word (stack - 8) 0 ;;;
  put_word (stack - 12) 0 ;;;
  upd_task child_thread (set_t_kstack (stack - 20)) ;;;
  kret 0.

Definition copy_process (fuel : nat) (child_thread parent_thread : Z) : CM (kst P) Z :=
  buf_page <~ atomic (kpages (get_kernel_pages 1)) ;;
  if buf_page =? 0 then cret (-1)
  else
    r <~ copy_pcb_vaddrbitmap_stack0 fuel child_thread parent_thread ;;
    if r =? -1 then cret (-1)
    else
      s <~ atomic kget ;;
      pgdir <~ atomic (kpages (sp_page_dir (k_cr3 s))) ;;
      atomic (upd_task child_thread (set_t_pgdir pgdir)) ;~;
      if pgdir =? 0 then cret (-1)
      else
        atomic (copy_body_stack3 child_thread parent_thread buf_page) ;~;
        atomic (build_child_stack child_thread) ;~;
        child <~ atomic (get_task child_thread) ;;
        atomic (kpages (fun p => let? p' := inherit_files (t_fd child) p in Ok (tt, p'))) ;~;
        atomic (kpages (fun p => let? p' := mfree_kernel_page buf_page 1 p in Ok (tt, p'))) ;~;
        cret 0.

Definition sys_fork (fuel : nat) : CM (kst P) Z :=
  parent_thread <~ atomic running_thread ;;
  child_thread <~ atomic (kpages (get_kernel_pages 1)) ;;
  if child_thread =? 0 then cret (-1)
  else
    r <~ copy_process fuel child_thread parent_thread ;;
    if r =? -1 then cret (-1)
    else
      f <~ atomic (q_find thread_ready_list (general_tag child_thread)) ;;
      atomic (ASSERT (negb f)) ;~;
      atomic (q_append thread_ready_list (general_tag child_thread)) ;~;
      a <~ atomic (q_find thread_all_list (all_list_tag child_thread)) ;;
      atomic (ASSERT (negb a)) ;~;
      atomic (q_append thread_all_list (all_list_tag child_thread)) ;~;
      child <~ atomic (get_task child_thread) ;;
      cret (t_pid child).
End fork.

(** ** The body and the user stack *)

(** The user pages the bitmap of a process names: byte [idx] of it, the [n] bits from
    [bit] on, and all bytes. *)
Fixpoint bit_pages (n : nat) (start b idx bit : Z) : list Z :=
  match n with
  | O => []
  | S n =>
      (if negb (Z.land (Z.shiftl BITMAP_MASK bit) b =? 0)
       then [u32 ((idx * 8 + bit) * PG_SIZE + start)] else [])
      ++ bit_pages n start b idx (bit + 1)
  end.
Fixpoint named_pages (bytes : list Z) (start idx : Z) : list Z :=
  match bytes with
  | [] => []
  | b :: bytes => bit_pages 8 start b idx 0 ++ named_pages bytes start (idx + 1)
  end.

Section body.
Context {P : Type} `{!KernelPages P, !AddressSpaces P, !OpenFiles P, !AddressSpacesLaws P}.
Implicit Types (s : kst P) (p : P).

(** From [p] to [p'] the pages [l] of the space [dp] were copied to the space [dc],
    through the kernel's page [buf]; nothing else changed. *)
Record copied (dc dp buf : Z) (p p' : P) (l : list Z) : Prop := {
  cp_keeps : keeps dir_live v2p_at p p' (fun d va => va = buf \/ d = dc /\ va ∈ l);
  cp_pages : forall va, va ∈ l -> sp_page p' dc va = sp_page p dp va
}.

(** The bytes of the bitmap as they can be read in the space [d]. *)
Definition bitmap_at (p : P) (d a : Z) (bytes : list Z) : Prop :=
  forall i, 0 <= i < Z.of_nat (length bytes) -> exists bs,
    sp_page p d (a + i - (a + i) mod PG_SIZE) = Some bs /\ rd bs ((a + i) mod PG_SIZE) = rd bytes i.

(** The parent runs, [child] and [parent] have page directories at [dc] and [dp], and the
    bitmap of the parent lies in kernel pages other than [buf]. *)
Record forking (s : kst P) (child parent dc dp buf : Z) : Prop := {
  fk_cr3 : k_cr3 s = dp;
  fk_child : exists c, k_tasks s !! child = Some c /\ t_pgdir c <> 0 /\ v2p_at (k_pages s) (t_pgdir c) dc;
  fk_parent : exists q, k_tasks s !! parent = Some q /\ t_pgdir q <> 0 /\ v2p_at (k_pages s) (t_pgdir q) dp;
  fk_ne : dc <> dp;
  fk_live : dir_live (k_pages s) dc /\ dir_live (k_pages s) dp;
  fk_buf : kernel_page buf /\ is_Some (sp_page (k_pages s) dp buf)
}.

Lemma copied_nil dc dp buf p : copied dc dp buf p p [].
Proof. split; [apply keeps_refl|]. intros va Hva. by apply not_elem_of_nil in Hva. Qed.

Lemma user_not_kernel va buf : user_page va -> kernel_page buf -> va <> buf.
Proof. unfold user_page, kernel_page. lia. Qed.

Lemma copied_app dc dp buf p1 p2 p3 l1 l2 :
  dc <> dp -> dir_live p1 dc -> dir_live p1 dp -> kernel_page buf ->
  (forall va, va ∈ l1 ++ l2 -> user_page va) -> NoDup (l1 ++ l2) ->
  copied dc dp buf p1 p2 l1 -> copied dc dp buf p2 p3 l2 -> copied dc dp buf p1 p3 (l1 ++ l2).
Proof.
  intros Hne Hdc Hdp Hb Hu Hnd [K1 P1] [K2 P2]. apply list.NoDup_app in Hnd as (_ & Hdis & _).
  assert (Hnb : forall va, va ∈ l1 ++ l2 -> va <> buf) by (intros; by apply user_not_kernel; auto).
  split.
  - eapply spaces_keeps_trans; (eapply keeps_weaken; [eassumption|]); intros d va [?|[? ?]]; [by left| |by left|];
      right; split; [done| |done|]; apply elem_of_app; tauto.
  - intros va [Hva|Hva]%elem_of_app.
    + rewrite (kp_page _ _ _ _ _ K2 dc va); [by apply P1|by apply (kp_live _ _ _ _ _ K1)|].
      intros [->|[_ H2]]; [|by apply (Hdis va)]. apply (Hnb buf); [|done]. apply elem_of_app; by left.
    + rewrite (P2 va Hva). apply (kp_page _ _ _ _ _ K1); [done|].
      intros [->|[? _]]; [|done]. apply (Hnb buf); [|done]. apply elem_of_app; by right.
Qed.

Lemma forking_keeps s p' child parent dc dp buf l :
  kernel_page buf -> (forall va, va ∈ l -> user_page va) -> is_Some (sp_page p' dp buf) ->
  forking s child parent dc dp buf -> copied dc dp buf (k_pages s) p' l ->
  forking (set_k_pages p' s) child parent dc dp buf.
Proof.
  intros Hb Hu Hbuf [H1 (c & H2 & H3 & H4) (q & H5 & H6 & H7) H8 [H9 H10] _] [[K1 K2 K3] _].
  split; try done; [exists c|exists q|]; auto.
Qed.

Lemma page_dir_activate_run s t c d :
  k_tasks s !! t = Some c -> t_pgdir c <> 0 -> addr_v2p (t_pgdir c) (k_pages s) = Ok d ->
  page_dir_activate t s = Ok (tt, set_k_cr3 d s).
Proof.
  intros Ht Hn Hv. unfold page_dir_activate. rewrite (kbind_ok _ _ _ _ _ (get_task_run _ _ _ Ht)).
  rewrite (proj2 (Z.eqb_neq _ _) Hn). rewrite (kbind_ok _ _ s d s); [done|].
  unfold kbind, kget, klift. by rewrite Hv.
Qed.

(** One page. *)
Lemma copy_user_page_run s child parent dc dp buf va bs ns u :
  forking s child parent dc dp buf -> spaces_ok (k_pages s) ns u -> 0 < u -> user_page va -> 0 < va ->
  sp_page (k_pages s) dp va = Some bs -> sp_page (k_pages s) dc va = None ->
  exists p', copy_user_page child parent buf va s = Ok (tt, set_k_pages p' s) /\
    spaces_ok p' ns (u - 1) /\ copied dc dp buf (k_pages s) p' [va] /\ is_Some (sp_page p' dp buf).
Proof.
  intros [Hcr (c & Hc & Hcn & Hcv) (q & Hq & Hqn & Hqv) Hne [Hdc Hdp] [Hb [old Hold]]] Hok Hu Hva Hva0 Hbs Hnone.
  pose proof (user_not_kernel va buf Hva Hb) as Hvb.
  pose proof (sp_page_length _ _ _ _ _ _ Hok Hbs) as Hlen.
  destruct (sp_set_kernel _ _ _ dp buf old bs Hok Hdp Hb Hold Hlen) as (p1 & R1 & Ok1 & B1 & K1).
  pose proof (kp_live _ _ _ _ _ K1) as L1.
  destruct (sp_get_user p1 ns u dc va Ok1 (L1 _ Hdc) Hva Hva0 Hu) as (p2 & bs2 & R2 & Ok2 & B2 & K2).
  { by rewrite (kp_page _ _ _ _ _ K1). }
  pose proof (kp_live _ _ _ _ _ K2) as L2.
  destruct (sp_set_user p2 ns (u - 1) dc va bs2 bs Ok2) as (p3 & R3 & Ok3 & B3 & K3); auto.
  assert (Hbuf2 : forall d, dir_live (k_pages s) d -> sp_page p2 d buf = Some bs).
  { intros d Hd. rewrite (kp_page _ _ _ _ _ K2) by (auto; intros [_ ?]; congruence). by apply B1. }
  exists p3. split; [|split; [done|split]].
  - unfold copy_user_page.
    rewrite (kbind_ok _ _ s tt (set_k_pages p1 s)) by (apply (copy_page_run _ _ _ bs); by rewrite Hcr).
    set (s1 := set_k_pages p1 s).
    rewrite (kbind_ok _ _ s1 tt (set_k_cr3 dc s1)).
    2: { apply (page_dir_activate_run _ _ c); [done..|]. apply (sp_v2p _ _ _ _ _ Ok1). by apply (kp_v2p _ _ _ _ _ K1). }
    rewrite (kbind_ok _ _ (set_k_cr3 dc s1) (set_k_cr3 dc s1) (set_k_cr3 dc s1)) by done.
    rewrite (kbind_ok _ _ (set_k_cr3 dc s1) va (set_k_pages p2 (set_k_cr3 dc s1))).
    2: { unfold kpages. simpl. by rewrite R2. }
    rewrite (kbind_ok _ _ (set_k_pages p2 (set_k_cr3 dc s1)) tt (set_k_pages p3 (set_k_cr3 dc s1))).
    2: { refine (copy_page_run (set_k_pages p2 (set_k_cr3 dc s1)) va buf bs p3 _ _); simpl; [by apply Hbuf2|done]. }
    rewrite (page_dir_activate_run _ parent q dp).
    + destruct s; simpl in *. by subst.
    + done.
    + done.
    + apply (sp_v2p _ _ _ _ _ Ok3), (kp_v2p _ _ _ _ _ K3), (kp_v2p _ _ _ _ _ K2), (kp_v2p _ _ _ _ _ K1). exact Hqv.
  - split.
    + eapply spaces_keeps_trans; [eapply keeps_weaken; [exact K1|]; naive_solver|].
      eapply spaces_keeps_trans; (eapply keeps_weaken; [eassumption|]); intros d v [-> ->]; right; split;
        [done|by apply list_elem_of_singleton|done|by apply list_elem_of_singleton].
    + intros v ->%list_elem_of_singleton. congruence.
  - exists bs. rewrite (kp_page _ _ _ _ _ K3) by (auto; intros [? _]; congruence). by apply Hbuf2.
Qed.

(** What the loops over the bitmap need: its bytes, in kernel pages that are not [buf],
    and of each page still to copy that the parent has it and the child does not. *)
Record body_ok (p : P) (dc dp buf a : Z) (bytes l : list Z) : Prop := {
  bo_bits : bitmap_at p dp a bytes;
  bo_apart : forall i, 0 <= i < Z.of_nat (length bytes) ->
    kernel_page (a + i - (a + i) mod PG_SIZE) /\ a + i - (a + i) mod PG_SIZE <> buf;
  bo_pages : forall va, va ∈ l -> user_page va /\ 0 < va /\ is_Some (sp_page p dp va) /\ sp_page p dc va = None;
  bo_nodup : NoDup l
}.

Lemma body_ok_step p p' dc dp buf a bytes l1 l2 :
  dc <> dp -> dir_live p dc -> dir_live p dp -> kernel_page buf ->
  body_ok p dc dp buf a bytes (l1 ++ l2) -> copied dc dp buf p p' l1 -> body_ok p' dc dp buf a bytes l2.
Proof.
  intros Hne Hdc Hdp Hb [B1 B2 B3 B4] [K _].
  apply list.NoDup_app in B4 as (_ & Hdis & Hnd). split; [|done| |done].
  - intros i Hi. destruct (B1 i Hi) as (bs & E1 & E2). exists bs. split; [|done].
    destruct (B2 i Hi) as [? ?]. rewrite (kp_page _ _ _ _ _ K); [done..|]. naive_solver.
  - intros va Hva. destruct (B3 va) as (U & ? & (bs & Hs) & Hn); [apply elem_of_app; by right|].
    pose proof (user_not_kernel va buf U Hb) as Hvb. split_and!; try done.
    + exists bs. rewrite (kp_page _ _ _ _ _ K); [done..|]. naive_solver.
    + rewrite (kp_page _ _ _ _ _ K); [done..|]. intros [?|[_ ?]]; [done|]. by apply (Hdis va).
Qed.

Section loops.
Variables (child parent dc dp buf a : Z) (bytes : list Z) (ns : list Z).

(** [m] copies the pages [l]. *)
Definition copier (m : KM (kst P) unit) (l : list Z) : Prop :=
  forall s rest u, forking s child parent dc dp buf ->
    spaces_ok (k_pages s) ns (Z.of_nat (length l) + u) -> 0 <= u ->
    body_ok (k_pages s) dc dp buf a bytes (l ++ rest) ->
    exists p', m s = Ok (tt, set_k_pages p' s) /\ spaces_ok p' ns u /\
      copied dc dp buf (k_pages s) p' l /\ is_Some (sp_page p' dp buf).

Lemma copier_nil : copier (kret tt) [].
Proof.
  intros s rest u F Hok Hu _. exists (k_pages s). split; [by destruct s|]. split; [exact Hok|].
  split; [apply copied_nil|apply F].
Qed.

Lemma copier_seq m1 m2 l1 l2 : copier m1 l1 -> copier m2 l2 -> copier (m1 ;;; m2) (l1 ++ l2).
Proof.
  intros H1 H2 s rest u F Hok Hu B. destruct (fk_live _ _ _ _ _ _ F) as [Hdc Hdp].
  pose proof (fk_ne _ _ _ _ _ _ F) as Hne. destruct (fk_buf _ _ _ _ _ _ F) as [Hb _].
  rewrite length_app, Nat2Z.inj_add, <- Z.add_assoc in Hok. rewrite <- app_assoc in B.
  destruct (H1 s (l2 ++ rest) (Z.of_nat (length l2) + u) F Hok) as (p1 & R1 & Ok1 & C1 & B1); [lia|done|].
  assert (Hl : forall va, va ∈ l1 ++ l2 -> user_page va).
  { intros va Hva. apply (bo_pages _ _ _ _ _ _ _ B). rewrite app_assoc. apply elem_of_app. by left. }
  assert (F1 : forking (set_k_pages p1 s) child parent dc dp buf).
  { apply (forking_keeps s p1 _ _ _ _ _ l1); try done. intros va Hva. apply Hl, elem_of_app. by left. }
  destruct (H2 (set_k_pages p1 s) rest u F1 Ok1 Hu) as (p2 & R2 & Ok2 & C2 & B2).
  { by apply (body_ok_step (k_pages s) p1 dc dp buf a bytes l1). }
  exists p2. split; [|split; [done|split; [|done]]].
  - rewrite (kbind_ok _ _ _ _ _ R1). exact R2.
  - apply (copied_app _ _ _ _ p1); try done.
    pose proof (bo_nodup _ _ _ _ _ _ _ B) as Hnd. rewrite app_assoc in Hnd.
    by apply list.NoDup_app in Hnd as [? _].
Qed.

Lemma copier_one va : copier (copy_user_page child parent buf va) [va].
Proof.
  intros s rest u F Hok Hu B.
  destruct (bo_pages _ _ _ _ _ _ _ B va) as (U & U0 & [bs Hs] & Hn); [by left|].
  destruct (copy_user_page_run s child parent dc dp buf va bs ns (1 + u) F Hok) as (p' & R & Ok' & C & B');
    try done; [lia|]. exists p'. split_and!; try done. by replace u with (1 + u - 1) by lia.
Qed.

Lemma copier_byte idx b k l :
  rd bytes idx = Ok b -> copier (k b) l -> copier (v <- byte_at (a + idx) ;; k v) l.
Proof.
  intros Hb Hk s rest u F Hok Hu B. apply rd_inv in Hb as [H0 Hi].
  assert (Hr : 0 <= idx < Z.of_nat (length bytes)).
  { apply lookup_lt_Some in Hi. lia. }
  destruct (bo_bits _ _ _ _ _ _ _ B idx Hr) as (bs & E1 & E2).
  rewrite (kbind_ok _ _ s b s); [by apply (Hk s rest u)|].
  apply (byte_at_run _ _ bs); [by rewrite (fk_cr3 _ _ _ _ _ _ F)|]. rewrite E2. by apply rd_Ok.
Qed.

Lemma copier_bits n start idx b bit :
  rd bytes idx = Ok b ->
  copier (copy_bits n child parent buf a start idx bit) (bit_pages n start b idx bit).
Proof.
  intros Hb. revert bit. induction n as [|n IH]; intros bit; cbn [copy_bits bit_pages]; [apply copier_nil|].
  apply copier_byte with (1 := Hb). apply copier_seq; [|apply IH].
  destruct (negb _); [apply copier_one|apply copier_nil].
Qed.

Lemma bit_pages_zero n start idx bit : bit_pages n start 0 idx bit = [].
Proof.
  revert bit. induction n as [|n IH]; intros bit; cbn [bit_pages]; [done|]. by rewrite Z.land_0_r, IH.
Qed.

Lemma copier_bytes l start idx :
  (forall i b, l !! i = Some b -> rd bytes (idx + Z.of_nat i) = Ok b) ->
  copier (copy_bytes (length l) child parent buf a start idx) (named_pages l start idx).
Proof.
  revert idx. induction l as [|b l IH]; intros idx Hl; cbn [copy_bytes length named_pages]; [apply copier_nil|].
  assert (Hb : rd bytes idx = Ok b) by (rewrite <- (Z.add_0_r idx); by apply (Hl 0%nat)).
  apply copier_byte with (1 := Hb). apply copier_seq.
  - destruct (Z.eqb_spec b 0) as [->|Hne]; [rewrite bit_pages_zero; apply copier_nil|].
    by apply copier_bits.
  - apply IH. intros i v Hi. replace (idx + 1 + Z.of_nat i) with (idx + Z.of_nat (S i)) by lia. by apply Hl.
Qed.
End loops.

(** Copying the process.  The child ends up with a copy of every user page the
    parent's address bitmap names, byte for byte and in frames of its own; every other
    page of every address space, the parent's included, is what it was (the transfer page
    [buf] apart), and the parent's page directory is active again.  The loops end without
    a fault when the allocator can serve one page for each bit that is set. *)
Lemma copy_body_run s child parent dc dp buf q bytes ns u :
  let l := named_pages bytes (va_start (t_vaddr q)) 0 in
  forking s child parent dc dp buf -> k_tasks s !! parent = Some q ->
  va_bytes_len (t_vaddr q) = Z.of_nat (length bytes) -> 0 <= u ->
  spaces_ok (k_pages s) ns (Z.of_nat (length l) + u) ->
  body_ok (k_pages s) dc dp buf (va_bits (t_vaddr q)) bytes l ->
  exists p', copy_body_stack3 child parent buf s = Ok (tt, set_k_pages p' s) /\ spaces_ok p' ns u /\
    (forall va, va ∈ l -> sp_page p' dc va = sp_page (k_pages s) dp va) /\
    (forall d va, dir_live (k_pages s) d -> va <> buf -> ~ (d = dc /\ va ∈ l) ->
       sp_page p' d va = sp_page (k_pages s) d va) /\
    (forall d, dir_live (k_pages s) d -> dir_live p' d) /\
    (forall a f, v2p_at (k_pages s) a f -> v2p_at p' a f) /\ is_Some (sp_page p' dp buf).
Proof.
  intros l F Hq Hlen Hu Hok B. unfold copy_body_stack3.
  rewrite (kbind_ok _ _ s q s) by (by apply get_task_run). cbv zeta. rewrite Hlen, Nat2Z.id.
  destruct (copier_bytes child parent dc dp buf (va_bits (t_vaddr q)) bytes ns bytes
    (va_start (t_vaddr q)) 0) with (s := s) (rest := @nil Z) (u := u)
    as (p' & R & Ok' & [K C] & B'); try done.
  - intros i b Hi. apply rd_Ok; [lia|]. by rewrite Z.add_0_l, Nat2Z.id.
  - by rewrite app_nil_r.
  - exists p'. split_and!; try done; [|apply K|apply K].
    intros d va Hd H1 H2. apply (kp_page _ _ _ _ _ K); [done|]. tauto.
Qed.
End body.

(** ** The PCB, the kernel stack and the bitmap *)

Section copies.
Context {P : Type} `{!KernelPages P, !AddressSpaces P, !OpenFiles P, !AddressSpacesLaws P}.
Implicit Types (s : kst P) (p : P).

Lemma copy_words_out n dst src m a :
  (forall k, (k < n)%nat -> a <> dst + 4 * Z.of_nat k) -> copy_words n dst src m !! a = m !! a.
Proof.
  induction n as [|n IH]; intros Ha; cbn [copy_words]; [done|].
  assert (a <> dst + 4 * Z.of_nat n) by (apply Ha; lia).
  destruct (copy_words n dst src m !! (src + 4 * Z.of_nat n)) as [v|];
    [rewrite lookup_insert_ne by done|rewrite lookup_delete_ne by done]; apply IH; auto with lia.
Qed.

Lemma copy_words_in n dst src m k :
  dst + 4 * Z.of_nat n <= src \/ src + 4 * Z.of_nat n <= dst -> (k < n)%nat ->
  copy_words n dst src m !! (dst + 4 * Z.of_nat k) = m !! (src + 4 * Z.of_nat k).
Proof.
  intros Hd. induction n as [|n IH]; intros Hk; [lia|]. cbn [copy_words].
  assert (Hsrc : copy_words n dst src m !! (src + 4 * Z.of_nat n) = m !! (src + 4 * Z.of_nat n)).
  { apply copy_words_out. intros j Hj. lia. }
  destruct (decide (k = n)) as [->|Hne].
  - rewrite Hsrc. destruct (m !! (src + 4 * Z.of_nat n)); [apply lookup_insert_eq|apply lookup_delete_eq].
  - rewrite Hsrc. destruct (m !! (src + 4 * Z.of_nat n));
      [rewrite lookup_insert_ne by lia|rewrite lookup_delete_ne by lia]; apply IH; lia.
Qed.

(** [memcpy] of [n] pages between kernel pages that do not overlap. *)
Lemma copy_pages_run n dst src p dp ns u :
  spaces_ok p ns u -> dir_live p dp ->
  (forall va, va ∈ pages_from dst n -> kernel_page va /\ va ∉ pages_from src n /\ is_Some (sp_page p dp va)) ->
  (forall va, va ∈ pages_from src n -> is_Some (sp_page p dp va)) ->
  exists p', (forall s, k_pages s = p -> k_cr3 s = dp -> copy_pages n dst src s = Ok (tt, set_k_pages p' s)) /\
    spaces_ok p' ns u /\ keeps dir_live v2p_at p p' (fun _ va => va ∈ pages_from dst n) /\
    (forall d k, dir_live p d -> 0 <= k < Z.of_nat n ->
       sp_page p' d (dst + k * PG_SIZE) = sp_page p dp (src + k * PG_SIZE)).
Proof.
  revert dst src p. induction n as [|n IH]; intros dst src p Hok Hd Hdst Hsrc; cbn [copy_pages].
  { exists p. split_and!; [by intros [] ? ?; cbn in *; subst|done|apply keeps_refl|lia]. }
  rewrite !pages_from_S in *. assert (Hn : PG_SIZE = 4096) by done.
  destruct (Hdst dst) as (Kd & Nd & old & Hold); [by left|].
  destruct (Hsrc src) as (bs & Hbs); [by left|].
  destruct (sp_set_kernel _ _ _ _ _ _ bs Hok Hd Kd Hold) as (p1 & R1 & Ok1 & B1 & K1).
  { by eapply sp_page_length. }
  assert (Hk1 : forall va, va <> dst -> sp_page p1 dp va = sp_page p dp va).
  { intros va Hva. by apply (kp_page _ _ _ _ _ K1). }
  assert (Hdn : dst ∉ pages_from (dst + PG_SIZE) n).
  { intros (k & Hk & E)%pages_from_inv. nia. }
  destruct (IH (dst + PG_SIZE) (src + PG_SIZE) p1 Ok1) as (p2 & R2 & Ok2 & K2 & B2).
  - by apply (kp_live _ _ _ _ _ K1).
  - intros va Hva. destruct (Hdst va) as (? & Hnin & Hs); [by right|]. split; [done|].
    split; [intros Hin; apply Hnin; by right|]. rewrite Hk1 by (intros ->; done). done.
  - intros va Hva. rewrite Hk1; [apply Hsrc; by right|]. intros ->. apply Nd. by right.
  - exists p2. split; [|split; [done|split]].
    + intros s <- <-. rewrite (kbind_ok _ _ s tt (set_k_pages p1 s)) by (by apply (copy_page_run _ _ _ bs)).
      by rewrite (R2 (set_k_pages p1 s)).
    + eapply spaces_keeps_trans; (eapply keeps_weaken; [eassumption|]); cbn; intros d va Hva;
        [subst; by left|by right].
    + intros d k Hd' Hk. destruct (decide (k = 0)) as [->|Hk0].
      * rewrite !Z.mul_0_l, !Z.add_0_r. rewrite (kp_page _ _ _ _ _ K2); [|by apply (kp_live _ _ _ _ _ K1)|done].
        rewrite B1 by done. by rewrite Hbs.
      * replace (dst + k * PG_SIZE) with (dst + PG_SIZE + (k - 1) * PG_SIZE) by lia.
        rewrite B2; [|by apply (kp_live _ _ _ _ _ K1)|lia].
        replace (src + PG_SIZE + (k - 1) * PG_SIZE) with (src + k * PG_SIZE) by lia.
        apply Hk1. intros E. apply Nd. rewrite <- E. right.
        replace (src + k * PG_SIZE) with (src + PG_SIZE + (k - 1) * PG_SIZE) by lia. apply pages_from_elem. lia.
Qed.
End copies.

(** ** sys_fork *)

Section fork_properties.
Context {P : Type} `{!KernelPages P, !AddressSpaces P, !OpenFiles P, !AddressSpacesLaws P}.
Implicit Types (s : kst P) (p : P).

(** The child's PCB: the parent's, with a pid, a name, a directory, a bitmap and a stack
    of its own. *)
Definition child_task (child pid pgdir bits : Z) (name : list Z) (q : task) : task :=
  Task (child + PG_SIZE - sizeof_intr_stack - 20) pid TASK_READY name (t_priority q) (t_priority q) 0
    (t_fd q) pgdir (VAddr bits (va_bytes_len (t_vaddr q)) (va_start (t_vaddr q)))
    (t_cwd q) (t_pid q) (t_exit q) (t_magic q).

(** A parent that can fork: it runs in the space [dp], a pid is free, its name leaves room
    for the suffix, its address bitmap is in kernel pages and names only pages it has. *)
Record can_fork s (parent dp : Z) (q : task) (bytes text l : list Z) : Prop := {
  cf_cur : k_cur s = parent;
  cf_task : k_tasks s !! parent = Some q;
  cf_cr3 : k_cr3 s = dp;
  cf_dir : t_pgdir q <> 0 /\ v2p_at (k_pages s) (t_pgdir q) dp /\ dir_live (k_pages s) dp;
  cf_pids : lock_free s pid_lock /\ pids_ok s /\ (exists pid, 1 <= pid <= 1024 /\ pid_used s pid = false);
  cf_name : str_at (t_name q) 0 text /\ (length text + 5 < length (t_name q))%nat;
  cf_len : va_bytes_len (t_vaddr q) = Z.of_nat (length bytes) /\ Z.of_nat (length bytes) <= bitmap_pg_cnt * PG_SIZE;
  cf_bits : forall va, va ∈ pages_from (va_bits (t_vaddr q)) (Z.to_nat bitmap_pg_cnt) ->
    kernel_page va /\ is_Some (sp_page (k_pages s) dp va);
  cf_bytes : bitmap_at (k_pages s) dp (va_bits (t_vaddr q)) bytes;
  cf_pages : forall va, va ∈ l -> user_page va /\ 0 < va /\ is_Some (sp_page (k_pages s) dp va);
  cf_nodup : NoDup l;
  cf_pcb : kernel_page parent /\ is_Some (sp_page (k_pages s) dp parent);
  cf_queues : is_Some (k_queues s !! thread_ready_list) /\ is_Some (k_queues s !! thread_all_list) /\
    (forall t, kernel_page t -> sp_page (k_pages s) dp t = None ->
       unlinked (k_queues s) (general_tag t) /\ unlinked (k_queues s) (all_list_tag t))
}.

Lemma suffix_at : str_at fork_suffix 0 [95; 102; 111; 114; 107].
Proof. split; [done|]. split; [apply text_check; reflexivity|]. exists []. reflexivity. Qed.

Lemma copy_pcb_task_run s child parent q :
  k_tasks s !! parent = Some q ->
  copy_pcb child parent s
  = Ok (tt, with_task child q (set_k_stack (copy_words (Z.to_nat (PG_SIZE / 4)) child parent (k_stack s)) s)).
Proof.
  intros Hq. unfold copy_pcb. rewrite (kbind_ok _ _ s q s) by (by apply get_task_run).
  rewrite (kbind_ok _ _ s tt (with_task child q s)) by done. unfold kmod, with_task. same_state.
Qed.

(** The PCB, the name and the bitmap. *)
Lemma copy_pcb_run s child parent dp q m text f ns u :
  copy_pcb child parent s = Ok (tt, with_task child q (set_k_stack m s)) ->
  spaces_ok (k_pages s) (bitmap_pg_cnt :: ns) u -> k_cr3 s = dp -> dir_live (k_pages s) dp ->
  k_tasks s !! parent = Some q -> child <> parent ->
  lock_free s pid_lock -> pids_ok s -> (exists pid, 1 <= pid <= 1024 /\ pid_used s pid = false) ->
  str_at (t_name q) 0 text -> (length text + 5 < length (t_name q))%nat ->
  (forall va, va ∈ pages_from (va_bits (t_vaddr q)) (Z.to_nat bitmap_pg_cnt) ->
     kernel_page va /\ is_Some (sp_page (k_pages s) dp va)) ->
  exists pid b p' vb name,
    copy_pcb_vaddrbitmap_stack0 (S f) child parent s = Ok (Return 0, created child
      (set_t_kstack (t_kstack q) (child_task child pid (t_pgdir q) vb name q)) m b p' s) /\
    1 <= pid <= 1024 /\ pid_used s pid = false /\ spaces_ok p' ns u /\
    str_at name 0 (text ++ [95; 102; 111; 114; 107]) /\ length name = length (t_name q) /\
    keeps dir_live v2p_at (k_pages s) p' (fun _ va => va ∈ pages_from vb (Z.to_nat bitmap_pg_cnt)) /\
    (forall va, va ∈ pages_from vb (Z.to_nat bitmap_pg_cnt) -> kernel_page va /\
       sp_page (k_pages s) dp va = None /\ is_Some (sp_page p' dp va)) /\
    (forall d k, dir_live (k_pages s) d -> 0 <= k < bitmap_pg_cnt ->
       sp_page p' d (vb + k * PG_SIZE) = sp_page (k_pages s) dp (va_bits (t_vaddr q) + k * PG_SIZE)).
Proof.
  intros Hcopy Hok Hcr Hd Hq Hne Hfree Hpids Hex Htext Hlen Hbits.
  set (s0 := with_task child q (set_k_stack m s)).
  destruct (allocate_pid_run s0 f Hfree Hpids Hex) as (pid & b & Ha & Hpid & Hfresh & _ & _ & _).
  set (s1 := with_task child q (set_k_pids b (set_k_stack m s))).
  destruct (sp_descs _ _ _ child Hok) as [Ok1 K1]. set (p1 := sp_init_descs child (k_pages s)) in *.
  destruct (sp_get_kernel _ _ _ _ Ok1) as (vb & p2 & R2 & Ok2 & B2 & K2); [done|].
  assert (Hdst : forall va, va ∈ pages_from vb (Z.to_nat bitmap_pg_cnt) -> kernel_page va /\
    sp_page (k_pages s) dp va = None /\ sp_page p2 dp va = Some zero_page).
  { intros va Hva. destruct (B2 va Hva) as (? & ? & Hn & _). destruct (Hn dp) as [N1 N2].
    { by apply (kp_live _ _ _ _ _ K1). }
    split_and!; [done| |done]. rewrite <- N1. symmetry. apply (kp_page _ _ _ _ _ K1); naive_solver. }
  assert (Hpg2 : forall d va, dir_live (k_pages s) d -> va ∉ pages_from vb (Z.to_nat bitmap_pg_cnt) ->
    sp_page p2 d va = sp_page (k_pages s) d va).
  { intros d va Hd' Hva. rewrite (kp_page _ _ _ _ _ K2); [|by apply (kp_live _ _ _ _ _ K1)|done].
    apply (kp_page _ _ _ _ _ K1); [done|by intros []]. }
  assert (Hsrc : forall va, va ∈ pages_from (va_bits (t_vaddr q)) (Z.to_nat bitmap_pg_cnt) ->
    va ∉ pages_from vb (Z.to_nat bitmap_pg_cnt)).
  { intros va Hva Hin. destruct (Hbits va Hva) as [_ [x Hx]]. destruct (Hdst va Hin) as (_ & E & _). congruence. }
  destruct (copy_pages_run (Z.to_nat bitmap_pg_cnt) vb (va_bits (t_vaddr q)) p2 dp ns u Ok2)
    as (p3 & R3 & Ok3 & K3 & B3).
  { by apply (kp_live _ _ _ _ _ K2), (kp_live _ _ _ _ _ K1). }
  { intros va Hva. destruct (Hdst va Hva) as (? & _ & E). rewrite E. split; [done|].
    split; [|done]. intros Hin. by apply (Hsrc va). }
  { intros va Hva. rewrite Hpg2 by auto. by apply Hbits. }
  destruct (strcat_run _ _ _ _ Htext suffix_at) as (name & Hname & Hat & Hnl); [done|].
  exists pid, b, p3, vb, name. split_and!; try done; try lia.
  - unfold copy_pcb_vaddrbitmap_stack0.
    rewrite (cbind_atomic _ _ s tt s0).
    2: { exact Hcopy. }
    rewrite (cbind_return _ _ s0 pid s1).
    2: { unfold fork_pid. rewrite Ha. unfold s0, s1, with_task. same_state. }
    unfold s1. rewrite !cbind_upd.
    match goal with |- cbind _ _ ?st = _ => rewrite (cbind_atomic _ _ st q st) end.
    2: { apply get_task_run. cbn. by rewrite lookup_insert_ne. }
    rewrite cbind_upd.
    match goal with |- cbind _ _ (with_task child ?c ?st) = _ =>
      rewrite (cbind_atomic _ _ (with_task child c st) tt (with_task child c (set_k_pages p1 st))) by done;
      rewrite (cbind_atomic _ _ (with_task child c (set_k_pages p1 st)) vb (with_task child c (set_k_pages p2 st)))
    end.
    2: { unfold kpages. cbn [k_pages with_task set_k_tasks set_k_pages]. by rewrite R2. }
    rewrite cbind_get.
    match goal with |- cbind _ _ (with_task child ?c (set_k_pages p2 ?st)) = _ =>
      rewrite (cbind_atomic _ _ (with_task child c (set_k_pages p2 st)) tt (with_task child c (set_k_pages p3 st)))
    end.
    2: { unfold atomic. apply R3; [done|exact Hcr]. }
    rewrite cbind_upd.
    match goal with |- cbind _ _ ?st = _ => rewrite (cbind_atomic _ _ st name st) end.
    2: { unfold klift. cbn [t_name set_t_vaddr set_t_parent set_t_ticks set_t_status set_t_elapsed set_t_pid]. by rewrite Hname. }
    rewrite cbind_upd. unfold cret, created. do 2 f_equal.
  - eapply spaces_keeps_trans; [eapply keeps_weaken; [exact K1|]; naive_solver|].
    eapply spaces_keeps_trans; [exact K2|exact K3].
  - intros va Hva. destruct (Hdst va Hva) as (Kv & Nv & Ev). split_and!; [done..|].
    destruct (pages_from_inv _ _ _ Hva) as (k & Hk & ->).
    rewrite B3 by (done || by apply (kp_live _ _ _ _ _ K2), (kp_live _ _ _ _ _ K1)).
    assert (Hin : va_bits (t_vaddr q) + k * PG_SIZE ∈ pages_from (va_bits (t_vaddr q)) (Z.to_nat bitmap_pg_cnt)).
    { by apply pages_from_elem. }
    rewrite Hpg2 by auto. by apply Hbits.
  - intros d k Hd' Hk. rewrite B3; [|by apply (kp_live _ _ _ _ _ K2), (kp_live _ _ _ _ _ K1)|by rewrite bitmap_pages in *].
    assert (Hin : va_bits (t_vaddr q) + k * PG_SIZE ∈ pages_from (va_bits (t_vaddr q)) (Z.to_nat bitmap_pg_cnt)).
    { apply pages_from_elem. by rewrite bitmap_pages in *. }
    apply Hpg2; auto.
Qed.

(** The frame [switch_to] pops, below the interrupt frame with 0 in [eax]. *)
Definition child_frame (m : gmap Z Z) (top : Z) : Prop :=
  m !! (top + off_eax) = Some 0 /\ m !! (top - 4) = Some intr_exit /\ m !! (top - 8) = Some 0 /\
  m !! (top - 12) = Some 0 /\ m !! (top - 16) = Some 0 /\ m !! (top - 20) = Some 0.

Lemma build_child_stack_run child c m b p s :
  kernel_page child ->
  let top := child + PG_SIZE - sizeof_intr_stack in
  exists m', build_child_stack child (created child c m b p s)
    = Ok (0, created child (set_t_kstack (top - 20) c) m' b p s) /\ child_frame m' top /\
    (forall a, top <= a -> a <> top + off_eax -> m' !! a = m !! a).
Proof.
  intros [Hc _] top. unfold build_child_stack. unfold KERNEL_BASE in Hc.
  assert (E : intr_0_stack child = top).
  { unfold top, intr_0_stack, sizeof_intr_stack, PG_SIZE in *. by rewrite !u32_small by (rewrite ?u32_small by lia; lia). }
  rewrite E. clearbody top. clear E Hc.
  set (m' := <[top - 12 := 0]> (<[top - 8 := 0]> (<[top - 20 := 0]> (<[top - 16 := 0]>
    (<[top - 4 := intr_exit]> (<[top + off_eax := 0]> m)))))).
  exists m'. assert (Ho : off_eax = 32) by done. split; [|split].
  - unfold build_child_stack. unfold put_word, kbind, kmod. rewrite (upd_task_run _ _ c) by (cbn; apply lookup_insert_eq).
    unfold kret, created, with_task, m'. cbn. by rewrite insert_insert_eq.
  - unfold child_frame, m'. rewrite Ho.
    split_and!; repeat (rewrite lookup_insert_ne by lia); apply lookup_insert_eq.
  - intros a H1 H2. unfold m'. by repeat (rewrite lookup_insert_ne by lia).
Qed.

(** What [update_inode_open_cnts] promises: it does not touch the pages. *)
Definition inherits (fds : list Z) : Prop := forall p ns u, spaces_ok p ns u ->
  exists p', inherit_files fds p = Ok p' /\ spaces_ok p' ns u /\ keeps dir_live v2p_at p p' (fun _ _ => False).

Lemma bitmap_head a : a ∈ pages_from a (Z.to_nat bitmap_pg_cnt).
Proof. apply pages_from_head. rewrite bitmap_pages. lia. Qed.

(** The child just before its pages are copied: [p0] are the pages at the call, [p] now. *)
Record prepared (p0 p : P) (dp dc buf pgdir vb : Z) (q : task) (bytes l : list Z) : Prop := {
  pr_dir : pgdir <> 0 /\ v2p_at p pgdir dc /\ dir_live p dc /\ ~ dir_live p0 dc;
  pr_live : forall d, dir_live p0 d -> dir_live p d;
  pr_v2p : forall a f, v2p_at p0 a f -> v2p_at p a f;
  pr_body : body_ok p dc dp buf (va_bits (t_vaddr q)) bytes l;
  pr_user : forall d va, dir_live p0 d -> user_page va -> sp_page p d va = sp_page p0 d va;
  pr_new : forall va, user_page va -> sp_page p dc va = None;
  pr_buf : kernel_page buf /\ is_Some (sp_page p dp buf) /\ pgdir <> buf;
  pr_bits : bitmap_at p dc vb bytes;
  pr_vb : forall i, 0 <= i < Z.of_nat (length bytes) ->
    kernel_page (vb + i - (vb + i) mod PG_SIZE) /\ vb + i - (vb + i) mod PG_SIZE <> buf
}.

Lemma prepare s parent dp q bytes text l p1 p2 p3 buf vb pgdir dc ns u :
  can_fork s parent dp q bytes text l ->
  (* the transfer page *)
  kernel_page buf -> sp_page (k_pages s) dp buf = None -> sp_page p1 dp buf = Some zero_page ->
  keeps dir_live v2p_at (k_pages s) p1 (fun _ va => va = buf) ->
  (* the bitmap *)
  keeps dir_live v2p_at p1 p2 (fun _ va => va ∈ pages_from vb (Z.to_nat bitmap_pg_cnt)) ->
  (forall va, va ∈ pages_from vb (Z.to_nat bitmap_pg_cnt) -> kernel_page va /\
     sp_page p1 dp va = None /\ is_Some (sp_page p2 dp va)) ->
  (forall d k, dir_live p1 d -> 0 <= k < bitmap_pg_cnt ->
     sp_page p2 d (vb + k * PG_SIZE) = sp_page p1 dp (va_bits (t_vaddr q) + k * PG_SIZE)) ->
  (* the page directory *)
  spaces_ok p3 ns u -> pgdir <> 0 -> v2p_at p3 pgdir dc -> ~ dir_live p2 dc -> dir_live p3 dc ->
  (forall va, user_page va -> sp_page p3 dc va = None) ->
  (forall d, dir_live p2 d -> sp_page p2 d pgdir = None) -> ~ user_page pgdir ->
  keeps dir_live v2p_at p2 p3 (fun _ va => va = pgdir) ->
  prepared (k_pages s) p3 dp dc buf pgdir vb q bytes l.
Proof.
  intros [_ _ _ (Hq0 & Hv2p & Hd0) _ _ (Hlen & Hle) Hbits Hbytes Hpages Hnd _ _]
    Kb Nb Sb K1 K2 Bvb Cvb Ok3 Hn0 Hv Hnl Hl Hnew Hnp Hnu K3.
  pose proof (kp_live _ _ _ _ _ K1) as L1. pose proof (kp_live _ _ _ _ _ K2) as L2.
  pose proof (kp_live _ _ _ _ _ K3) as L3.
  assert (F2 : forall v, v ∈ pages_from vb (Z.to_nat bitmap_pg_cnt) -> sp_page p1 dp v = None) by (intros; by apply Bvb).
  assert (F3 : forall v, v = pgdir -> sp_page p2 dp v = None) by (intros v ->; by auto).
  assert (S1 : forall va x, sp_page (k_pages s) dp va = Some x -> sp_page p1 dp va = Some x).
  { intros va x. apply (keeps_mapped _ _ _ _ _ _ K1 Hd0). intros v ->. done. }
  assert (S2 : forall va x, sp_page p1 dp va = Some x -> sp_page p3 dp va = Some x).
  { intros va x Hx. apply (keeps_mapped _ _ _ _ _ _ K3 (L2 _ (L1 _ Hd0)) F3).
    by apply (keeps_mapped _ _ _ _ _ _ K2 (L1 _ Hd0) F2). }
  assert (Hal : va_bits (t_vaddr q) mod PG_SIZE = 0) by (apply (Hbits (va_bits (t_vaddr q))), bitmap_head).
  assert (Hbase : forall a i, a mod PG_SIZE = 0 -> 0 <= i < Z.of_nat (length bytes) ->
    a + i - (a + i) mod PG_SIZE ∈ pages_from a (Z.to_nat bitmap_pg_cnt)).
  { intros a i Ha Hi. apply page_base; [done|]. rewrite bitmap_pages in *. lia. }
  assert (Hvb : vb mod PG_SIZE = 0) by (apply (Bvb vb), bitmap_head).
  assert (Hnbuf : forall va, va ∈ pages_from vb (Z.to_nat bitmap_pg_cnt) -> va <> buf) by (intros va Hva ->; apply F2 in Hva; congruence).
  split.
  - split_and!; try done. intros Hd. by apply Hnl, L2, L1.
  - auto.
  - intros a f Ha. by apply (kp_v2p _ _ _ _ _ K3), (kp_v2p _ _ _ _ _ K2), (kp_v2p _ _ _ _ _ K1).
  - split; [| | |exact Hnd].
    + intros i Hi. destruct (Hbytes i Hi) as (x & E1 & E2). exists x. split; [by apply S2, S1|done].
    + intros i Hi. pose proof (Hbase _ i Hal Hi) as Hin. destruct (Hbits _ Hin) as [? [x Hx]]. split; [done|congruence].
    + intros va Hva. destruct (Hpages va Hva) as (Hu & ? & [x Hx]). split_and!; try done; [|by apply Hnew].
      exists x. by apply S2, S1.
  - intros d va Hd Hu. rewrite (kp_user _ _ _ d va K3), (kp_user _ _ _ d va K2), (kp_user _ _ _ d va K1); auto.
    + intros _ v ->. unfold user_page, kernel_page in *. lia.
    + intros _ v Hin. destruct (Bvb v Hin) as [Kv _]. unfold user_page, kernel_page in *. lia.
    + by intros _ v ->.
  - exact Hnew.
  - split_and!; [done|exists zero_page; by apply S2|]. intros ->. specialize (F3 _ eq_refl).
    rewrite (keeps_mapped _ _ _ _ _ _ K2 (L1 _ Hd0) F2 Sb) in F3. done.
  - intros i Hi. destruct (Hbytes i Hi) as (x & E1 & E2). exists x.
    pose proof (Hbase vb i Hvb Hi) as Hin.
    assert (E3 : exists k, 0 <= k < bitmap_pg_cnt /\ vb + i - (vb + i) mod PG_SIZE = vb + k * PG_SIZE /\
      va_bits (t_vaddr q) + i - (va_bits (t_vaddr q) + i) mod PG_SIZE = va_bits (t_vaddr q) + k * PG_SIZE).
    { exists (i / PG_SIZE). unfold PG_SIZE in *. rewrite bitmap_pages in *.
      rewrite (Zplus_mod vb), (Zplus_mod (va_bits _)), Hal, Hvb, !Z.add_0_l, !Zmod_mod.
      pose proof (Z_div_mod_eq_full i 4096). pose proof (Z.mod_pos_bound i 4096). lia. }
    destruct E3 as (k & Hk & E3 & E4). rewrite E4 in E1. rewrite E3 in *. destruct (Bvb _ Hin) as (Kv & _ & _).
    split.
    + rewrite (sp_kernel_shared _ _ _ dc dp _ Ok3) by auto.
      rewrite (kp_page _ _ _ _ _ K3); [rewrite Cvb by auto; by apply S1|by auto|].
      intros E. destruct (Bvb _ Hin) as (_ & _ & [y Hy]). rewrite E, F3 in Hy by done. done.
    + rewrite <- E2. f_equal. rewrite (Zplus_mod vb), (Zplus_mod (va_bits _)), Hal, Hvb. done.
  - intros i Hi. pose proof (Hbase vb i Hvb Hi) as Hin. split; [by apply Bvb|by apply Hnbuf].
Qed.

(** What the pages [p] of the kernel are after a fork, those at the call being [p0]: the
    child's space [dc] has the parent's pages [l] and no others, its address bitmap is the
    parent's, and the user pages of every other space are what they were. *)
Record fork_pages (p0 p : P) (dp dc pgdir vb : Z) (bytes l : list Z) : Prop := {
  fp_dir : v2p_at p pgdir dc /\ dir_live p dc /\ ~ dir_live p0 dc;
  fp_child : forall va, user_page va -> sp_page p dc va = if decide (va ∈ l) then sp_page p0 dp va else None;
  fp_bits : bitmap_at p dc vb bytes;
  fp_others : forall d va, dir_live p0 d -> user_page va -> dir_live p d /\ sp_page p d va = sp_page p0 d va
}.

Lemma fork_finish s child parent dp dc buf pgdir vb q c m b p p0 bytes l u :
  prepared p0 p dp dc buf pgdir vb q bytes l -> spaces_ok p [] (Z.of_nat (length l) + u) -> 0 <= u ->
  l = named_pages bytes (va_start (t_vaddr q)) 0 -> HEAP_BASE <= buf ->
  k_cr3 s = dp -> k_tasks s !! parent = Some q -> child <> parent -> kernel_page child ->
  t_pgdir q <> 0 /\ v2p_at p0 (t_pgdir q) dp /\ dir_live p0 dp -> va_bytes_len (t_vaddr q) = Z.of_nat (length bytes) ->
  t_pgdir c = pgdir -> inherits (t_fd c) ->
  let top := child + PG_SIZE - sizeof_intr_stack in
  exists m' p', (copy_body_stack3 child parent buf ;;;
      build_child_stack child ;;;
      c' <- get_task child ;;
      kpages (fun p => let? p' := inherit_files (t_fd c') p in Ok (tt, p')) ;;;
      kpages (fun p => let? p' := mfree_kernel_page buf 1 p in Ok (tt, p')) ;;;
      kret 0) (created child c m b p s) = Ok (0, created child (set_t_kstack (top - 20) c) m' b p' s) /\
    spaces_ok p' [] u /\ fork_pages p0 p' dp dc pgdir vb bytes l /\ child_frame m' top /\
    (forall a, top <= a -> a <> top + off_eax -> m' !! a = m !! a).
Proof.
  intros [(Hn0 & Hv & Hdc & Hndc) Hlive Hv2p Hbody Huser Hnew (Kb & Sb & Hpb) Hbits Hvb] Hok Hu -> Hheap Hcr Hq Hne Hkc
    (Hq0 & Hqv & Hdp) Hlen Hc Hinh top.
  set (l := named_pages bytes (va_start (t_vaddr q)) 0) in *.
  set (s1 := created child c m b p s).
  destruct (copy_body_run s1 child parent dc dp buf q bytes [] u) as (p1 & R1 & Ok1 & C1 & O1 & L1 & V1 & B1); try done.
  { split; try done; [by exists c; split_and!; [apply lookup_insert_eq|congruence|rewrite Hc]| |congruence|auto].
    exists q. split_and!; [by cbn; rewrite lookup_insert_ne|done|by apply Hv2p]. }
  { cbn. by rewrite lookup_insert_ne. }
  destruct (build_child_stack_run child c m b p1 s Hkc) as (m' & R2 & Hframe & Hrest).
  destruct (Hinh p1 [] u Ok1) as (p2 & R3 & Ok2 & K2).
  assert (Hdp1 : dir_live p1 dp) by auto.
  destruct B1 as [old Hold].
  destruct (sp_free_kernel p2 [] u dp buf old Ok2) as (p3 & R4 & Ok3 & N3 & L3 & V3); [by apply (kp_live _ _ _ _ _ K2)|done|done| |].
  { rewrite (kp_page _ _ _ _ _ K2); [done|done|by intros []]. }
  assert (Hp3 : forall d va, dir_live p d -> va <> buf -> ~ (d = dc /\ va ∈ l) -> sp_page p3 d va = sp_page p d va).
  { intros d va Hd Hvb1 Hl. rewrite N3; [|by apply (kp_live _ _ _ _ _ K2), L1|done].
    rewrite (kp_page _ _ _ _ _ K2); [by apply O1|by apply L1|by intros []]. }
  exists m', p3. split_and!; try done.
  - rewrite (kbind_ok _ _ s1 tt (created child c m b p1 s)) by exact R1.
    rewrite (kbind_ok _ _ _ _ _ R2). set (s2 := created child (set_t_kstack (top - 20) c) m' b p1 s).
    rewrite (kbind_ok _ _ s2 (set_t_kstack (top - 20) c) s2) by (apply get_task_run; apply lookup_insert_eq).
    rewrite (kbind_ok _ _ s2 tt (created child (set_t_kstack (top - 20) c) m' b p2 s)).
    2: { unfold kpages. change (k_pages s2) with p1. change (t_fd (set_t_kstack (top - 20) c)) with (t_fd c). by rewrite R3. }
    set (s3 := created child (set_t_kstack (top - 20) c) m' b p2 s).
    rewrite (kbind_ok _ _ s3 tt (created child (set_t_kstack (top - 20) c) m' b p3 s)); [done|].
    unfold kpages. change (k_pages s3) with p2. by rewrite R4.
  - assert (Hub : forall va, user_page va -> va <> buf) by (intros; by apply user_not_kernel).
    split.
    + split_and!; [|by apply L3, (kp_live _ _ _ _ _ K2), L1|done].
      apply V3; [done|]. by apply (kp_v2p _ _ _ _ _ K2), V1.
    + intros va Hva. case_decide as Hin.
      * rewrite N3; [|by apply (kp_live _ _ _ _ _ K2), L1|by apply Hub].
        rewrite (kp_page _ _ _ _ _ K2); [|by apply L1|by intros []]. rewrite C1 by done. by apply Huser.
      * rewrite Hp3; [by apply Hnew|done|by apply Hub|]. by intros [_ ?].
    + intros i Hi. destruct (Hbits i Hi) as (x & E1 & E2). exists x. split; [|done].
      destruct (Hvb i Hi) as [Hk Hb]. rewrite Hp3; [done..|]. intros [_ Hin].
      apply (bo_pages _ _ _ _ _ _ _ Hbody) in Hin as [Hin _]. unfold user_page, kernel_page in *. lia.
    + intros d va Hd Hva. split; [by apply L3, (kp_live _ _ _ _ _ K2), L1, Hlive|].
      rewrite Hp3; [by apply Huser|by apply Hlive|by apply Hub|]. intros [-> _]. done.
Qed.

Lemma cbind_atomic_kbind {A B} (m : KM (kst P) A) (f : A -> CM (kst P) B) (k : A -> KM (kst P) B) s :
  (forall a s', f a s' = atomic (k a) s') -> cbind (atomic m) f s = atomic (kbind m k) s.
Proof. intros H. unfold cbind, atomic, kbind. destruct (m s) as [[a s']|e]; [apply H|done]. Qed.

Lemma copy_pcb_stack s child parent q :
  k_tasks s !! parent = Some q -> kernel_page child -> kernel_page parent -> child <> parent ->
  exists m, copy_pcb child parent s = Ok (tt, with_task child q (set_k_stack m s)) /\
    (forall o, 0 <= o < PG_SIZE -> o mod 4 = 0 -> m !! (child + o) = k_stack s !! (parent + o)).
Proof.
  intros Hq [_ Hc] [_ Hp] Hne. eexists. split; [by apply copy_pcb_task_run|]. intros o Ho Hmod.
  replace o with (4 * Z.of_nat (Z.to_nat (o / 4))).
  2: { rewrite Z2Nat.id by (apply Z.div_pos; lia). pose proof (Z_div_mod_eq_full o 4). lia. }
  apply copy_words_in.
  - change (PG_SIZE / 4) with 1024. rewrite Z2Nat.id by lia.
    unfold PG_SIZE in *. pose proof (Z_div_mod_eq_full child 4096). pose proof (Z_div_mod_eq_full parent 4096). lia.
  - change (PG_SIZE / 4) with 1024.
    assert (o / 4 < 1024) by (unfold PG_SIZE in *; apply Z.div_lt_upper_bound; lia).
    assert (0 <= o / 4) by (apply Z.div_pos; lia). lia.
Qed.

(** The child as [sys_fork] leaves it, and the rest of the kernel. *)
Record fork_result s (child parent dp : Z) (q : task) (bytes text l : list Z) (pid : Z) (c : task)
    (m : gmap Z Z) (p : P) : Prop := {
  fr_child : exists pgdir vb name dc, c = child_task child pid pgdir vb name q /\
    str_at name 0 (text ++ [95; 102; 111; 114; 107]) /\
    fork_pages (k_pages s) p dp dc pgdir vb bytes l;
  fr_pid : 1 <= pid <= 1024 /\ pid_used s pid = false;
  fr_frame : child_frame m (child + PG_SIZE - sizeof_intr_stack);
  fr_stack : forall o, PG_SIZE - sizeof_intr_stack <= o < PG_SIZE -> o mod 4 = 0 ->
    o <> PG_SIZE - sizeof_intr_stack + off_eax -> m !! (child + o) = k_stack s !! (parent + o)
}.

Lemma copy_process_run s child parent dp q bytes text l f u :
  can_fork s parent dp q bytes text l -> l = named_pages bytes (va_start (t_vaddr q)) 0 ->
  spaces_ok (k_pages s) [1; bitmap_pg_cnt; 1] (Z.of_nat (length l) + u) -> 0 <= u ->
  inherits (t_fd q) -> kernel_page child -> child <> parent ->
  exists pid c m b p, copy_process (S f) child parent s = Ok (Return 0, created child c m b p s) /\
    spaces_ok p [] u /\ fork_result s child parent dp q bytes text l pid c m p.
Proof.
  intros Hcan Hl Hok Hu Hinh Kc Hne. pose proof Hcan as
    [_ Hq Hcr (Hq0 & Hqv & Hdp) (Hfree & Hpids & Hex) (Htext & Htl) (Hlen & Hle) Hbits Hbytes Hpages Hnd [Kp Hpp] _].
  destruct (sp_get_kernel _ _ _ _ Hok) as (buf & p1 & R1 & Ok1 & B1 & K1); [done|].
  destruct (B1 buf) as (Kb & Hb0 & Nb & _); [by apply single_page|]. destruct (Nb dp Hdp) as [Nb0 Sb].
  pose proof (sp_heap _ _ _ _ _ _ Hok ltac:(done) R1) as Hheap.
  assert (K1' : keeps dir_live v2p_at (k_pages s) p1 (fun _ va => va = buf)).
  { eapply keeps_weaken; [exact K1|]. intros d va. apply single_page. }
  set (s1 := set_k_pages p1 s).
  destruct (copy_pcb_stack s1 child parent q Hq Kc Kp Hne) as (m & R0 & Hm).
  destruct (copy_pcb_run s1 child parent dp q m text f [1] (Z.of_nat (length l) + u) R0 Ok1 Hcr (kp_live _ _ _ _ _ K1 _ Hdp)
    Hq Hne Hfree Hpids Hex Htext Htl) as (pid & b & p2 & vb & name & R2 & Hpid & Hfr & Ok2 & Hname & _ & K2 & B2 & C2).
  { intros va Hva. destruct (Hbits va Hva) as [? [x Hx]]. split; [done|]. exists x.
    apply (keeps_mapped _ _ _ _ _ _ K1' Hdp); [by intros v ->|done]. }
  set (c1 := set_t_kstack (t_kstack q) (child_task child pid (t_pgdir q) vb name q)) in *.
  destruct (sp_new_dir p2 [] (Z.of_nat (length l) + u) dp Ok2) as
    (pgdir & p3 & dc & R3 & Ok3 & Kd & Hv & Hnl & Hl3 & Hnew & Hnp & _ & K3).
  { by apply (kp_live _ _ _ _ _ K2), (kp_live _ _ _ _ _ K1). }
  assert (Hpgdir : pgdir <> 0) by (unfold kernel_page, KERNEL_BASE in Kd; lia).
  assert (Hprep : prepared (k_pages s) p3 dp dc buf pgdir vb q bytes l).
  { eapply (prepare s parent dp q bytes text l p1 p2 p3); try eassumption.
    unfold user_page, kernel_page in *. lia. }
  destruct (fork_finish s child parent dp dc buf pgdir vb q (set_t_pgdir pgdir c1) m b p3 (k_pages s) bytes l u)
    as (m' & p' & R4 & Ok4 & Hfp & Hframe & Hrest); try done.
  eexists pid, _, m', b, p'. split; [|split; [exact Ok4|]].
  - unfold copy_process. rewrite (cbind_atomic _ _ s buf s1).
    2: { unfold kpages. by rewrite R1. }
    rewrite (proj2 (Z.eqb_neq _ _)) by lia.
    rewrite (cbind_return _ _ _ _ _ R2). change (0 =? -1) with false. cbv iota.
    set (s2 := created child c1 m b p2 s1).
    rewrite (cbind_atomic _ _ s2 s2 s2) by done.
    rewrite (cbind_atomic _ _ s2 pgdir (created child c1 m b p3 s)).
    2: { unfold kpages. change (k_pages s2) with p2. change (k_cr3 s2) with (k_cr3 s). rewrite Hcr, R3. reflexivity. }
    unfold created. rewrite cbind_upd. rewrite (proj2 (Z.eqb_neq _ _) Hpgdir).
    rewrite (cbind_atomic_kbind _ _ (fun _ => build_child_stack child ;;;
      c' <- get_task child ;;
      kpages (fun p => let? p' := inherit_files (t_fd c') p in Ok (tt, p')) ;;;
      kpages (fun p => let? p' := mfree_kernel_page buf 1 p in Ok (tt, p')) ;;;
      kret 0)).
    + unfold atomic. unfold created in R4. by rewrite R4.
    + intros _ s3. apply cbind_atomic_kbind. intros _ s4. apply cbind_atomic_kbind. intros c' s5.
      apply cbind_atomic_kbind. intros _ s6. by apply cbind_atomic_kbind.
  - split; try done.
    + exists pgdir, vb, name, dc. split_and!; [done..|]. exact Hfp.
    + intros o Ho Hmod Hne'. rewrite Hrest by lia. apply Hm; [|done]. unfold sizeof_intr_stack, PG_SIZE in *. lia.
Qed.

(** A new page of the kernel leaves the parent able to fork. *)
Lemma can_fork_step s parent dp q bytes text l p1 child :
  can_fork s parent dp q bytes text l -> sp_page (k_pages s) dp child = None ->
  keeps dir_live v2p_at (k_pages s) p1 (fun _ va => va = child) ->
  can_fork (set_k_pages p1 s) parent dp q bytes text l.
Proof.
  intros [Hcur Hq Hcr (Hq0 & Hqv & Hdp) Hpids Hname Hlen Hbits Hbytes Hpages Hnd [Kp [x Hx]] (Hr & Ha & Hunl)] Hnone K1.
  assert (Hold : forall va y, sp_page (k_pages s) dp va = Some y -> sp_page p1 dp va = Some y).
  { intros va y. apply (keeps_mapped _ _ _ _ _ _ K1 Hdp). by intros v ->. }
  split; try done.
  - split_and!; [done|by apply (kp_v2p _ _ _ _ _ K1)|by apply (kp_live _ _ _ _ _ K1)].
  - intros va Hva. destruct (Hbits va Hva) as [? [y Hy]]. split; [done|]. exists y. by apply Hold.
  - intros i Hi. destruct (Hbytes i Hi) as (y & E1 & E2). exists y. split; [by apply Hold|done].
  - intros va Hva. destruct (Hpages va Hva) as (? & ? & [y Hy]). split_and!; [done..|]. exists y. by apply Hold.
  - split; [done|]. exists x. by apply Hold.
  - split_and!; [done..|]. intros t Kt Ht. apply Hunl; [done|].
    destruct (sp_page (k_pages s) dp t) as [y|] eqn:E; [|done]. apply Hold in E. cbn in Ht. congruence.
Qed.

Lemma fork_result_back s child parent dp q bytes text l pid c m p p1 :
  dir_live (k_pages s) dp -> kernel_page child ->
  keeps dir_live v2p_at (k_pages s) p1 (fun _ va => va = child) ->
  fork_result (set_k_pages p1 s) child parent dp q bytes text l pid c m p ->
  fork_result s child parent dp q bytes text l pid c m p.
Proof.
  intros Hdp Kc K1 [(pgdir & vb & name & dc & E & Hn & [Hd Hch Hb Ho]) Hp Hf Hst]. split; try done.
  assert (Hback : forall d va, dir_live (k_pages s) d -> user_page va -> sp_page p1 d va = sp_page (k_pages s) d va).
  { intros d va Hd' Hva. apply (kp_user _ _ _ d va K1); [done..|]. intros _ v ->.
    unfold user_page, kernel_page in *. lia. }
  exists pgdir, vb, name, dc. split_and!; [done..|]. split; [|intros va Hva|done|].
  - destruct Hd as (? & ? & Hnd'). split_and!; [done..|]. intros Hd'. by apply Hnd', (kp_live _ _ _ _ _ K1).
  - rewrite Hch by done. case_decide; [|done]. by apply Hback.
  - intros d va Hd' Hva. destruct (Ho d va) as [? E']; [by apply (kp_live _ _ _ _ _ K1)|done|].
    split; [done|]. rewrite E'. by apply Hback.
Qed.

(** C7: fork.  When the pid pool, the page allocator and the name of the parent have room,
    [sys_fork] returns a pid that was free.  The child is READY at the end of the ready
    list and of the list of all threads, with a PCB that differs from the parent's in the
    pid, the parent's pid, the times, the name, the page directory, the bitmap and the
    stack; its frame returns to [intr_exit] with 0 in [eax] and the parent's registers
    otherwise.  In its own address space it has exactly the pages the parent's bitmap
    names, with the parent's bytes; the user pages of the parent and of every other
    process, the parent's PCB and the running thread are unchanged. *)
Theorem sys_fork_spec s parent dp q bytes text f u ts all :
  let l := named_pages bytes (va_start (t_vaddr q)) 0 in
  can_fork s parent dp q bytes text l -> inherits (t_fd q) ->
  spaces_ok (k_pages s) [1; 1; bitmap_pg_cnt; 1] (Z.of_nat (length l) + u) -> 0 <= u ->
  k_queues s !! thread_ready_list = Some ts -> k_queues s !! thread_all_list = Some all ->
  exists child pid c m b p, sys_fork (S f) s = Ok (Return pid,
      set_k_queues (<[thread_all_list := all ++ [all_list_tag child]]>
        (<[thread_ready_list := ts ++ [general_tag child]]> (k_queues s))) (created child c m b p s)) /\
    child <> parent /\ spaces_ok p [] u /\ fork_result s child parent dp q bytes text l pid c m p.
Proof.
  intros l Hcan Hinh Hok Hu Hts Hall. pose proof Hcan as
    [Hcur Hq _ (_ & _ & Hdp) _ _ _ _ _ _ _ [Kp [x Hx]] (_ & _ & Hunl)].
  destruct (sp_get_kernel _ _ _ _ Hok) as (child & p1 & R1 & Ok1 & B1 & K1); [done|].
  destruct (B1 child) as (Kc & Hc0 & Nc & _); [by apply single_page|]. destruct (Nc dp Hdp) as [Nc0 _].
  assert (K1' : keeps dir_live v2p_at (k_pages s) p1 (fun _ va => va = child)).
  { eapply keeps_weaken; [exact K1|]. intros d va. apply single_page. }
  assert (Hne : child <> parent) by (intros ->; congruence).
  destruct (Hunl child Kc Nc0) as [Ur Ua].
  set (s1 := set_k_pages p1 s).
  destruct (copy_process_run s1 child parent dp q bytes text l f u (can_fork_step _ _ _ _ _ _ _ _ _ Hcan Nc0 K1'))
    as (pid & c & m & b & p & R2 & Ok2 & Hres); try done.
  exists child, pid, c, m, b, p. split; [|split; [done|split; [done|by eapply fork_result_back]]].
  unfold sys_fork. rewrite (cbind_atomic _ _ s parent s) by (unfold running_thread, kreads; by rewrite Hcur).
  rewrite (cbind_atomic _ _ s child s1) by (unfold kpages; by rewrite R1).
  rewrite (proj2 (Z.eqb_neq _ _)) by lia. rewrite (cbind_return _ _ _ _ _ R2).
  change (0 =? -1) with false. cbv iota.
  destruct (fr_child _ _ _ _ _ _ _ _ _ _ _ _ Hres) as (pgdir & vb & name & dc & -> & _).
  rewrite (enqueue_run (created child _ m b p s1) child ts all _ Hts Hall Ur Ua).
  match goal with |- cbind _ _ ?st = _ => rewrite (cbind_atomic _ _ st _ st (get_task_run st child _ (lookup_insert_eq _ _ _))) end.
  reflexivity.
Qed.
End fork_properties.

(** ** A shell that forks *)

#[export] Instance small_files : OpenFiles small := {| inherit_files _ p := Ok p |}.

(** Two user pages, at 0x8048000 and 0x804a000, named by the first byte of the bitmap. *)
Definition shell_pages : small :=
  Small {[ (0xc0101000, 0x8048000) := replicate (Z.to_nat PG_SIZE) 1; (0xc0101000, 0x804a000) := replicate (Z.to_nat PG_SIZE) 2 ]}
    (<[0xc0100000 := zero_page]> (<[0xc0102000 := 5 :: replicate 4095 0]> (sm_zero 22 0xc0103000 ∅)))
    0xc0119000 [0xc0101000].

Definition shell_task : task :=
  Task 0xc0100f00 7 TASK_RUNNING ([115; 104] ++ replicate 14 0) 31 5 9 [0; 1; 2; -1; -1; -1; -1; -1] 0xc0101000
    (VAddr 0xc0102000 1 USER_VADDR_START) 0 1 0 STACK_MAGIC.

Definition shell_kernel : kst small :=
  KSt 0 0xc0100000 {[ 0xc0100000 := shell_task ]}
    {[ thread_ready_list := []; thread_all_list := [all_list_tag 0xc0100000];
       sema_waiters (lock_semaphore pid_lock) := [] ]}
    {[ lock_semaphore pid_lock := 1 ]} {[ pid_lock := Lock 0 0 ]} {[ 0xc0100ff8 := 0x23; 0xc0100fdc := 7 ]}
    0 0 (Bitmap 128 (3 :: replicate 127 0)) shell_pages 0xc0101000 0 0.

Lemma shell_pages_ok : small_ok shell_pages [1; 1; bitmap_pg_cnt; 1].
Proof.
  split; cbn [sm_next sm_user sm_kernel sm_dirs shell_pages].
  - done.
  - by vm_compute.
  - intros a bs. rewrite lookup_insert_Some. intros [[<- <-]|[_ H]]; [split; [lia|apply zero_page_length]|].
    rewrite lookup_insert_Some in H. destruct H as [[<- <-]|[_ H]].
    { split; [lia|]. cbn [length]. rewrite length_replicate. done. }
    rewrite sm_zero_lookup in H. case_decide as Hin; [|by rewrite lookup_empty in H]. injection H as <-.
    apply pages_from_inv in Hin as (k & Hk & ->). split; [unfold PG_SIZE; lia|apply zero_page_length].
  - intros d a bs. rewrite lookup_insert_Some, lookup_singleton_Some.
    intros [[[= <- <-] <-]|[_ [[= <- <-] <-]]]; (split; [lia|]); rewrite length_replicate; done.
  - intros d ->%list_elem_of_singleton. lia.
Qed.

Lemma shell_can_fork :
  can_fork shell_kernel 0xc0100000 0xc0101000 shell_task [5] [115; 104] (named_pages [5] USER_VADDR_START 0).
Proof.
  assert (E : named_pages [5] USER_VADDR_START 0 = [0x8048000; 0x804a000]) by reflexivity.
  rewrite E. split; try done.
  - split_and!; [done|done|by left].
  - split_and!; [by split_and!; vm_compute| |by exists 3; vm_compute].
    split; [|done]. split; simpl; [|lia|lia]. repeat (apply list.Forall_cons; split; [lia|]). constructor.
  - split; [|cbn; lia]. split; [done|]. split; [apply text_check; reflexivity|]. by exists (replicate 13 0).
  - intros va Hva. pose proof Hva as (k & Hk & Ek)%pages_from_inv. rewrite bitmap_pages in Hk.
    split; [unfold kernel_page, KERNEL_BASE, PG_SIZE in *; cbn in Ek; split; [lia|subst va; rewrite Z.mod_add by lia; done]|].
    unfold sp_page, small_spaces, shell_kernel, shell_pages. cbn [k_pages sm_dirs sm_kernel].
    rewrite decide_True by (unfold KERNEL_BASE, PG_SIZE in *; cbn in Ek; lia).
    rewrite decide_True by (by left). rewrite lookup_insert_ne by (unfold PG_SIZE in *; cbn in Ek; lia).
    destruct (decide (va = 0xc0102000)) as [->|Hne]; [by eexists|].
    rewrite lookup_insert_ne, sm_zero_lookup, decide_True; [by eexists| |done].
    replace va with (0xc0103000 + (k - 1) * PG_SIZE) by (unfold PG_SIZE in *; cbn in Ek; lia).
    apply pages_from_elem. cbn in Ek. unfold PG_SIZE in *. lia.
  - intros i Hi. cbn [length] in Hi. assert (i = 0) as -> by lia.
    exists (5 :: replicate 4095 0). split; vm_compute; reflexivity.
  - intros va Hva. apply elem_of_cons in Hva as [->| ->%list_elem_of_singleton];
      (split; [split; [split; [done|reflexivity]|reflexivity]|split; [lia|by eexists]]).
  - apply (bool_decide_unpack _). by vm_compute.
  - split; [by eexists|]. split; [by eexists|]. intros t [_ Kt] Ht.
    assert (Hne : t <> 0xc0100000) by (intros ->; by vm_compute in Ht).
    unfold PG_SIZE in Kt. pose proof (Z_div_mod_eq_full t 4096) as Hdiv. rewrite Kt in Hdiv.
    split; intros L xs HL; cbn in HL; rewrite !lookup_insert_Some, lookup_singleton_Some in HL;
      destruct HL as [[<- <-]|[_ [[<- <-]|[_ [<- <-]]]]];
      rewrite nodes_elem; unfold general_tag, all_list_tag, head_of, tail_of, sema_waiters, lock_semaphore,
        thread_ready_list, thread_all_list, pid_lock in *; rewrite ?list_elem_of_singleton, ?elem_of_nil; lia.
Qed.

Lemma sys_fork_spec_witness :
  exists child pid c m b p, sys_fork 1 shell_kernel = Ok (Return pid,
      set_k_queues (<[thread_all_list := [all_list_tag 0xc0100000] ++ [all_list_tag child]]>
        (<[thread_ready_list := [] ++ [general_tag child]]> (k_queues shell_kernel))) (created child c m b p shell_kernel)) /\
    child <> 0xc0100000 /\ spaces_ok p [] 0 /\
    fork_result shell_kernel child 0xc0100000 0xc0101000 shell_task [5] [115; 104]
      (named_pages [5] USER_VADDR_START 0) pid c m p.
Proof.
  apply (sys_fork_spec shell_kernel 0xc0100000 0xc0101000 shell_task [5] [115; 104] 0 0 [] _).
  - exact shell_can_fork.
  - intros p ns u Hok. exists p. split; [reflexivity|]. split; [exact Hok|]. by split.
  - exact shell_pages_ok.
  - lia.
  - reflexivity.
  - reflexivity.
Defined.
