(* ===== verification/Types.v ===== *)
(** * Types: the kernel's data keeps its C types

    The models compute with unbounded integers and write the conversions of C out.  This file
    shows that no conversion is missing in the code of the threads: a field of a PCB, a
    semaphore, a lock or a word of a kernel stack never holds a value its C type has not, in
    whatever order threads are created, forked, scheduled, blocked, exited and waited for.
    The transition system is the one of Threads with the calls of Task, Process and Fork. *)

From S2P Require Import Prelude Bitmap Interrupt DList Sched Sync Threads Task Cstring Spaces Process Fork.

(** ** The values of lib/stdint.h *)

Definition uint8_t (v : Z) : Prop := 0 <= v < 2 ^ 8.
Definition int8_t (v : Z) : Prop := - 2 ^ 7 <= v < 2 ^ 7.
Definition int16_t (v : Z) : Prop := - 2 ^ 15 <= v < 2 ^ 15.
Definition uint32_t (v : Z) : Prop := 0 <= v < 2 ^ 32.
Definition int32_t (v : Z) : Prop := - 2 ^ 31 <= v < 2 ^ 31.

Lemma uint8_u8 v : uint8_t (u8 v).
Proof. apply Z.mod_pos_bound. lia. Qed.
Lemma uint32_u32 v : uint32_t (u32 v).
Proof. apply Z.mod_pos_bound. lia. Qed.
Lemma int8_i8 v : int8_t (i8 v).
Proof. unfold int8_t, i8. pose proof (Z.mod_pos_bound (v + 2 ^ 7) (2 ^ 8)). lia. Qed.
Lemma int16_i16 v : int16_t (i16 v).
Proof. unfold int16_t, i16. pose proof (Z.mod_pos_bound (v + 2 ^ 15) (2 ^ 16)). lia. Qed.
Lemma int32_i32 v : int32_t (i32 v).
Proof. unfold int32_t, i32. pose proof (Z.mod_pos_bound (v + 2 ^ 31) (2 ^ 32)). lia. Qed.

Create HintDb ctypes discriminated.
#[export] Hint Resolve uint8_u8 uint32_u32 int8_i8 int16_i16 int32_i32 : ctypes.
#[export] Hint Extern 2 (uint8_t _) => (unfold uint8_t; lia) : ctypes.
#[export] Hint Extern 2 (uint32_t _) => (unfold uint32_t; lia) : ctypes.
#[export] Hint Extern 2 (int16_t _) => (unfold int16_t; lia) : ctypes.

(** lib/stdint.c: a pointer and an integer of 32 bits are the same word. *)
Definition voidptrTouint32 (value : Z) : Z := u32 value.
Definition uint32ToVoidptr (value : Z) : Z := u32 value.

Lemma voidptr_roundtrip v : uint32_t v -> uint32ToVoidptr (voidptrTouint32 v) = v /\ voidptrTouint32 (uint32ToVoidptr v) = v.
Proof. unfold uint32_t, voidptrTouint32, uint32ToVoidptr. intros Hv. by rewrite !u32_small by (rewrite ?u32_small by lia; lia). Qed.

(** An array of [n] values of a type. *)
Definition array_of (ty : Z -> Prop) (n : nat) (l : list Z) : Prop := length l = n /\ Forall ty l.

(** [struct task_struct] of thread/thread.h. *)
Record task_typed (p : task) : Prop := {
  ty_kstack : uint32_t (t_kstack p);
  ty_pid : int16_t (t_pid p);
  ty_name : array_of uint8_t 16 (t_name p);
  ty_priority : uint8_t (t_priority p);
  ty_ticks : uint8_t (t_ticks p);
  ty_elapsed : uint32_t (t_elapsed p);
  ty_fd : array_of int32_t 8 (t_fd p);
  ty_pgdir : uint32_t (t_pgdir p);
  ty_bits : uint32_t (va_bits (t_vaddr p));
  ty_len : uint32_t (va_bytes_len (t_vaddr p));
  ty_start : uint32_t (va_start (t_vaddr p));
  ty_cwd : uint32_t (t_cwd p);
  ty_parent : int16_t (t_parent p);
  ty_exit : int8_t (t_exit p);
  ty_magic : uint32_t (t_magic p)
}.

(** ** What the pages promise: addresses are 32-bit *)

(** [pages_typed] is the part of the page allocator's invariant that gives it. *)
Class PageTypes (P : Type) `{!KernelPages P, !AddressSpaces P, !OpenFiles P, !ProcessResources P} : Type := {
  pages_typed : P -> Prop;
  pt_get : forall n p a p', pages_typed p -> get_kernel_pages n p = Ok (a, p') ->
    uint32_t a /\ a mod PG_SIZE = 0 /\ pages_typed p';
  pt_free : forall a n p p', pages_typed p -> mfree_kernel_page a n p = Ok p' -> pages_typed p';
  pt_v2p : forall a p f, pages_typed p -> uint32_t a -> addr_v2p a p = Ok f -> uint32_t f;
  pt_set : forall d va bs p p', pages_typed p -> sp_set_page d va bs p = Ok p' -> pages_typed p';
  pt_user : forall d va p a p', pages_typed p -> sp_user_page d va p = Ok (a, p') -> pages_typed p';
  pt_own : forall d v va p a p', pages_typed p -> sp_own_page d v va p = Ok (a, p') -> pages_typed p';
  pt_dir : forall d p a p', pages_typed p -> sp_page_dir d p = Ok (a, p') -> uint32_t a /\ pages_typed p';
  pt_descs : forall c p, pages_typed p -> pages_typed (sp_init_descs c p);
  pt_files : forall fds p p', pages_typed p -> inherit_files fds p = Ok p' -> pages_typed p';
  pt_release : forall q p p', pages_typed p -> release_resources q p = Ok p' -> pages_typed p'
}.

Section types.
Context {P : Type} `{!KernelPages P, !AddressSpaces P, !OpenFiles P, !ProcessResources P, !PageTypes P}.
Implicit Types (s : kst P).

(** The address of a thread is a pointer, to a typed PCB. *)
Record state_typed (s : kst P) : Prop := {
  st_tasks : map_Forall (fun t p => uint32_t t /\ task_typed p) (k_tasks s);
  st_semas : map_Forall (fun _ v => uint8_t v) (k_semas s);
  st_locks : map_Forall (fun _ l => uint32_t (holder l) /\ uint32_t (holder_repeat_nr l)) (k_locks s);
  st_stack : map_Forall (fun _ v => uint32_t v) (k_stack s);
  st_cur : uint32_t (k_cur s);
  st_cr3 : uint32_t (k_cr3 s);
  st_esp0 : uint32_t (k_esp0 s);
  st_jiffies : uint32_t (k_jiffies s);
  st_pages : pages_typed (k_pages s)
}.

(** ** Code that keeps the types *)

(** The result of [m] satisfies [Q]. *)
Definition kt {A} (m : KM (kst P) A) (Q : A -> Prop) : Prop :=
  forall s a s', state_typed s -> m s = Ok (a, s') -> state_typed s' /\ Q a.

(** The same of code that may be switched out, wherever it is. *)
Inductive ct {A} (Q : A -> Prop) : CM (kst P) A -> Prop :=
| ct_intro m :
    (forall s a s', state_typed s -> m s = Ok (Return a, s') -> state_typed s' /\ Q a) ->
    (forall s k s', state_typed s -> m s = Ok (Suspended k, s') -> state_typed s') ->
    (forall s k s', state_typed s -> m s = Ok (Suspended k, s') -> ct Q k) ->
    ct Q m.

Lemma kt_ret {A} (a : A) (Q : A -> Prop) : Q a -> kt (kret a) Q.
Proof. intros HQ s b s' Hs [= <- <-]. by split. Qed.

Lemma kt_bind {A B} (R : A -> Prop) (Q : B -> Prop) m f : kt m R -> (forall a, R a -> kt (f a) Q) -> kt (kbind m f) Q.
Proof.
  intros Hm Hf s b s' Hs (a & s1 & E & E')%kbind_inv. destruct (Hm _ _ _ Hs E). by apply (Hf a) with s1.
Qed.

Lemma kt_weaken {A} (R Q : A -> Prop) m : kt m R -> (forall a, R a -> Q a) -> kt m Q.
Proof. intros Hm HQ s a s' Hs E. destruct (Hm _ _ _ Hs E). auto. Qed.

Lemma kt_fail {A} e (Q : A -> Prop) : kt (kfail e) Q.
Proof. intros s a s' _ H. discriminate H. Qed.

Lemma kt_PANIC {A} (Q : A -> Prop) : kt PANIC Q.
Proof. apply kt_fail. Qed.

Lemma kt_ASSERT c : kt (ASSERT c) (fun _ => True).
Proof. intros s a s' Hs. unfold ASSERT. destruct c; intros H; inversion H; subst. exact (conj Hs I). Qed.

Lemma kt_lift {A} (m : outcome A) (Q : A -> Prop) : (forall a, m = Ok a -> Q a) -> kt (klift m) Q.
Proof. intros HQ s a s' Hs. unfold klift. destruct m; [|done]. intros [= <- <-]. auto. Qed.

Lemma kt_reads {A} (f : kst P -> A) (Q : A -> Prop) : (forall s, state_typed s -> Q (f s)) -> kt (kreads f) Q.
Proof. intros HQ s a s' Hs [= <- <-]. auto. Qed.

Lemma kt_get : kt kget state_typed.
Proof. intros s a s' Hs [= <- <-]. exact (conj Hs Hs). Qed.

Lemma kt_mod f : (forall s, state_typed s -> state_typed (f s)) -> kt (kmod f) (fun _ => True).
Proof. intros Hf s a s' Hs [= <- <-]. auto. Qed.

Lemma ct_intro_run {A} (Q : A -> Prop) m :
  (forall s, state_typed s ->
    match m s with
    | Ok (Return a, s') => state_typed s' /\ Q a
    | Ok (Suspended k, s') => state_typed s' /\ ct Q k
    | Err _ => True
    end) -> ct Q m.
Proof.
  intros H. constructor; intros s a s' Hs E; specialize (H s Hs); rewrite E in H; [exact H|exact (proj1 H)|exact (proj2 H)].
Qed.

Lemma ct_run {A} (Q : A -> Prop) m s : ct Q m -> state_typed s ->
  match m s with
  | Ok (Return a, s') => state_typed s' /\ Q a
  | Ok (Suspended k, s') => state_typed s' /\ ct Q k
  | Err _ => True
  end.
Proof.
  intros [m' H1 H2 H3] Hs. destruct (m' s) as [[[a|k] s']|e] eqn:E; [exact (H1 _ _ _ Hs E)| |exact I].
  exact (conj (H2 _ _ _ Hs E) (H3 _ _ _ Hs E)).
Qed.

Lemma ct_bind {A B} (R : A -> Prop) (Q : B -> Prop) m f : ct R m -> (forall a, R a -> ct Q (f a)) -> ct Q (cbind m f).
Proof.
  intros Hm Hf. induction Hm as [m H1 H2 _ IH]. apply ct_intro_run. intros s Hs. unfold cbind.
  destruct (m s) as [[[a|k] s1]|e] eqn:E; cbn [co_bind]; [| |exact I].
  - destruct (H1 _ _ _ Hs E) as [Hs1 Ha]. exact (ct_run _ _ _ (Hf _ Ha) Hs1).
  - exact (conj (H2 _ _ _ Hs E) (IH _ _ _ Hs E)).
Qed.

Lemma ct_atomic {A} (m : KM (kst P) A) (Q : A -> Prop) : kt m Q -> ct Q (atomic m).
Proof.
  intros Hm. apply ct_intro_run. intros s Hs. unfold atomic. destruct (m s) as [[a s1]|e] eqn:E; [|exact I].
  exact (Hm _ _ _ Hs E).
Qed.

Lemma ct_ret {A} (a : A) (Q : A -> Prop) : Q a -> ct Q (cret a).
Proof. intros HQ. apply ct_intro_run. intros s Hs. exact (conj Hs HQ). Qed.

Lemma ct_suspend : ct (fun _ => True) suspend.
Proof. apply ct_intro_run. intros s Hs. split; [exact Hs|]. apply ct_ret. exact I. Qed.

Lemma ct_weaken {A} (R Q : A -> Prop) m : ct R m -> (forall a, R a -> Q a) -> ct Q m.
Proof.
  intros Hm HQ. induction Hm as [m H1 H2 _ IH]. constructor; [|exact H2|exact IH].
  intros s a s' Hs E. destruct (H1 _ _ _ Hs E). auto.
Qed.

(** ** The accesses to the state *)

Lemma typed_tasks m s : map_Forall (fun t p => uint32_t t /\ task_typed p) m -> state_typed s -> state_typed (set_k_tasks m s).
Proof. intros Hm []. by constructor. Qed.
Lemma typed_semas m s : map_Forall (fun _ v => uint8_t v) m -> state_typed s -> state_typed (set_k_semas m s).
Proof. intros Hm []. by constructor. Qed.
Lemma typed_locks m s :
  map_Forall (fun _ l => uint32_t (holder l) /\ uint32_t (holder_repeat_nr l)) m -> state_typed s -> state_typed (set_k_locks m s).
Proof. intros Hm []. by constructor. Qed.
Lemma typed_stack m s : map_Forall (fun _ v => uint32_t v) m -> state_typed s -> state_typed (set_k_stack m s).
Proof. intros Hm []. by constructor. Qed.
Lemma typed_pages p s : pages_typed p -> state_typed s -> state_typed (set_k_pages p s).
Proof. intros Hm []. by constructor. Qed.
Lemma typed_eflags v s : state_typed s -> state_typed (set_k_eflags v s).
Proof. intros []. by constructor. Qed.
Lemma typed_queues v s : state_typed s -> state_typed (set_k_queues v s).
Proof. intros []. by constructor. Qed.
Lemma typed_pids v s : state_typed s -> state_typed (set_k_pids v s).
Proof. intros []. by constructor. Qed.
Lemma typed_cur v s : uint32_t v -> state_typed s -> state_typed (set_k_cur v s).
Proof. intros Hv []. by constructor. Qed.
Lemma typed_cr3 v s : uint32_t v -> state_typed s -> state_typed (set_k_cr3 v s).
Proof. intros Hv []. by constructor. Qed.
Lemma typed_esp0 v s : uint32_t v -> state_typed s -> state_typed (set_k_esp0 v s).
Proof. intros Hv []. by constructor. Qed.
Lemma typed_jiffies v s : uint32_t v -> state_typed s -> state_typed (set_k_jiffies v s).
Proof. intros Hv []. by constructor. Qed.

Lemma kt_running : kt running_thread uint32_t.
Proof. apply kt_reads. by intros s []. Qed.

Lemma kt_get_task t : kt (get_task t) (fun p => uint32_t t /\ task_typed p).
Proof.
  intros s p s' Hs. unfold get_task. destruct (k_tasks s !! t) as [q|] eqn:E; [|discriminate].
  intros [= <- <-]. split; [exact Hs|]. exact (st_tasks _ Hs _ _ E).
Qed.

Lemma kt_put_task t p : uint32_t t -> task_typed p -> kt (put_task t p) (fun _ => True).
Proof. intros Ht Hp. apply kt_mod. intros s Hs. apply typed_tasks; [|exact Hs]. apply map_Forall_insert_2; [by split|apply Hs]. Qed.

Lemma kt_upd_task t f : (forall p, task_typed p -> task_typed (f p)) -> kt (upd_task t f) (fun _ => uint32_t t).
Proof.
  intros Hf. eapply kt_bind; [apply kt_get_task|]. intros p [Ht Hp].
  eapply kt_weaken; [apply kt_put_task; auto|]. intros; exact Ht.
Qed.

Lemma kt_run_queue op : kt (run_queue op) (fun _ => True).
Proof.
  intros s r s' Hs. unfold run_queue. destruct (queue_op (k_queues s) op) as [[qs x]|]; [|discriminate].
  intros [= <- <-]. split; [by apply typed_queues|exact I].
Qed.

Lemma kt_q_list L : kt (q_list L) (fun _ => True).
Proof. intros s r s' Hs. unfold q_list. destruct (k_queues s !! L); [|discriminate]. intros [= <- <-]. by split. Qed.

Lemma kt_get_value psema : kt (get_value psema) uint8_t.
Proof.
  intros s v s' Hs. unfold get_value. destruct (k_semas s !! psema) as [x|] eqn:E; [|discriminate].
  intros [= <- <-]. split; [exact Hs|]. exact (st_semas _ Hs _ _ E).
Qed.
Lemma kt_set_value psema v : uint8_t v -> kt (set_value psema v) (fun _ => True).
Proof. intros Hv. apply kt_mod. intros s Hs. apply typed_semas; [|exact Hs]. apply map_Forall_insert_2; [exact Hv|apply Hs]. Qed.

Lemma kt_get_lock L : kt (get_lock L) (fun l => uint32_t (holder l) /\ uint32_t (holder_repeat_nr l)).
Proof.
  intros s v s' Hs. unfold get_lock. destruct (k_locks s !! L) as [x|] eqn:E; [|discriminate].
  intros [= <- <-]. split; [exact Hs|]. exact (st_locks _ Hs _ _ E).
Qed.
Lemma kt_put_lock L h n : uint32_t h -> uint32_t n -> kt (put_lock L (Lock h n)) (fun _ => True).
Proof. intros Hh Hn. apply kt_mod. intros s Hs. apply typed_locks; [|exact Hs]. apply map_Forall_insert_2; [by split|apply Hs]. Qed.

Lemma kt_put_word a v : uint32_t v -> kt (put_word a v) (fun _ => True).
Proof. intros Hv. apply kt_mod. intros s Hs. apply typed_stack; [|exact Hs]. apply map_Forall_insert_2; [exact Hv|apply Hs]. Qed.

(** What is done to the pages. *)
Lemma kt_kpages {A} (f : P -> outcome (A * P)) (Q : A -> Prop) :
  (forall p a p', pages_typed p -> f p = Ok (a, p') -> pages_typed p' /\ Q a) -> kt (kpages f) Q.
Proof.
  intros Hf s a s' Hs. unfold kpages. destruct (f (k_pages s)) as [[b p]|] eqn:E; [|discriminate]. intros [= <- <-].
  destruct (Hf _ _ _ (st_pages _ Hs) E). split; [by apply typed_pages|assumption].
Qed.

Lemma kt_kpages_step (f : P -> outcome P) :
  (forall p p', pages_typed p -> f p = Ok p' -> pages_typed p') ->
  kt (kpages (fun p => let? p' := f p in Ok (tt, p'))) (fun _ => True).
Proof.
  intros Hf. apply kt_kpages. intros p [] p' Hp. destruct (f p) as [q|] eqn:E; cbn; [|discriminate].
  intros [= <-]. split; [by eapply Hf|exact I].
Qed.

Lemma kt_get_pages n : kt (kpages (get_kernel_pages n)) (fun a => uint32_t a /\ a mod PG_SIZE = 0).
Proof. apply kt_kpages. intros p a p' Hp E. destruct (pt_get _ _ _ _ Hp E) as (? & ? & ?). auto. Qed.
Lemma kt_free_page a : kt (kpages (fun p => let? p' := mfree_kernel_page a 1 p in Ok (tt, p'))) (fun _ => True).
Proof. apply kt_kpages_step. intros p p'. apply pt_free. Qed.
Lemma kt_page_dir d : kt (kpages (sp_page_dir d)) uint32_t.
Proof. apply kt_kpages. intros p a p' Hp E. destruct (pt_dir _ _ _ _ Hp E). auto. Qed.
Lemma kt_user_page d va : kt (kpages (sp_user_page d va)) (fun _ => True).
Proof. apply kt_kpages. intros p a p' Hp E. split; [exact (pt_user _ _ _ _ _ Hp E)|exact I]. Qed.
Lemma kt_own_page d v va : kt (kpages (sp_own_page d v va)) (fun _ => True).
Proof. apply kt_kpages. intros p a p' Hp E. split; [exact (pt_own _ _ _ _ _ _ Hp E)|exact I]. Qed.
Lemma kt_descs c : kt (kpages (fun p => Ok (tt, sp_init_descs c p))) (fun _ => True).
Proof. apply kt_kpages. intros p a p' Hp [= <- <-]. split; [by apply pt_descs|exact I]. Qed.
Lemma kt_files fds : kt (kpages (fun p => let? p' := inherit_files fds p in Ok (tt, p'))) (fun _ => True).
Proof. apply kt_kpages_step. intros p p'. apply pt_files. Qed.
Lemma kt_release q : kt (kpages (fun p => let? p' := release_resources q p in Ok (tt, p'))) (fun _ => True).
Proof. apply kt_kpages_step. intros p p'. apply pt_release. Qed.
End types.

(** ** A tactic for the code

    [typed] goes through a definition: it takes binds apart, splits the cases and closes
    the accesses by their lemmas. *)

#[export] Hint Resolve kt_fail kt_PANIC kt_ASSERT kt_get kt_running kt_get_task kt_upd_task kt_run_queue kt_q_list kt_get_value
  kt_get_lock kt_get_pages kt_free_page kt_page_dir kt_user_page kt_own_page kt_descs kt_files kt_release
  ct_suspend : ctypes.
#[export] Hint Resolve kt_put_task kt_set_value kt_put_lock kt_put_word : ctypes.
#[export] Hint Constants Opaque : ctypes.
#[export] Hint Variables Opaque : ctypes.

Ltac typed_values :=
  cbv beta in *;
  repeat match goal with
  | H : _ /\ _ |- _ => destruct H
  | H : task_typed ?p |- _ => is_var p; destruct p; destruct H
  | H : state_typed ?s |- _ => is_var s; destruct s; destruct H
  | l : lock |- _ => destruct l
  end; cbn in *.

#[export] Hint Extern 1 (task_typed _) => (typed_values; constructor; cbn; auto 3 with ctypes) : ctypes.

Ltac typed_leaf :=
  first
  [ exact I
  | assumption
  | solve [auto 3 with ctypes]
  | solve [typed_values; auto 4 with ctypes]
  | solve [intros; typed_values; constructor; cbn; auto 4 with ctypes]
  | solve [typed_values; split; auto 4 with ctypes] ].

Ltac typed :=
  lazymatch goal with
  | |- forall _, _ => intros ?; typed
  | |- ct _ (cbind (A := unit) _ _) => apply (ct_bind (fun _ => True)); [typed|intros ? _; typed]
  | |- ct _ (cbind (A := bool) _ _) => apply (ct_bind (fun _ => True)); [typed|intros ? _; typed]
  | |- ct _ (cbind _ _) => eapply ct_bind; [solve [typed]|typed]
  | |- kt (kbind (A := unit) _ _) _ => apply (kt_bind (fun _ => True)); [typed|intros ? _; typed]
  | |- kt (kbind (A := bool) _ _) _ => apply (kt_bind (fun _ => True)); [typed|intros ? _; typed]
  | |- kt (kbind _ _) _ => eapply kt_bind; [solve [typed]|typed]
  | |- ct _ (if ?b then _ else _) => destruct b; typed
  | |- kt (if ?b then _ else _) _ => destruct b; typed
  | |- ct _ (let _ := _ in _) => cbv zeta; typed
  | |- kt (let _ := _ in _) _ => cbv zeta; typed
  | |- ct _ (cret _) => apply ct_ret; typed_leaf
  | |- kt (kret _) _ => apply kt_ret; typed_leaf
  | |- ct _ (atomic _) => apply ct_atomic; typed
  | |- kt _ (fun _ => True) => first [typed_leaf | eapply kt_weaken; [solve [typed_leaf]|intros; exact I]]
  | |- ct _ (fun _ => True) => first [typed_leaf | eapply ct_weaken; [solve [typed_leaf]|intros; exact I]]
  | |- _ => typed_leaf
  end.

Section scheduler.
Context {P : Type} `{!KernelPages P, !AddressSpaces P, !OpenFiles P, !ProcessResources P, !PageTypes P}.
Implicit Types (s : kst P).

Lemma kt_q_append L e : kt (P := P) (q_append L e) (fun _ => True).
Proof. unfold q_append. typed. Qed.
Lemma kt_q_push L e : kt (P := P) (q_push L e) (fun _ => True).
Proof. unfold q_push. typed. Qed.
Lemma kt_q_remove e : kt (P := P) (q_remove e) (fun _ => True).
Proof. unfold q_remove. typed. Qed.
Lemma kt_q_pop L : kt (P := P) (q_pop L) (fun _ => True).
Proof. unfold q_pop. typed. Qed.
Lemma kt_q_find L e : kt (P := P) (q_find L e) (fun _ => True).
Proof. unfold q_find. typed. Qed.
Lemma kt_q_empty L : kt (P := P) (q_empty L) (fun _ => True).
Proof. unfold q_empty. typed. Qed.

Lemma kt_flag {A} (m : KM (kst P) A) :
  (forall s a s', m s = Ok (a, s') -> exists v, s' = set_k_eflags v s) -> kt m (fun _ => True).
Proof. intros H s a s' Hs E. destruct (H _ _ _ E) as [v ->]. split; [by apply typed_eflags|exact I]. Qed.

Lemma eflags_same s : exists v, s = set_k_eflags v s.
Proof. exists (k_eflags s). by destruct s. Qed.

Lemma kt_disable : kt (P := P) intr_disable (fun _ => True).
Proof.
  apply kt_flag. intros s a s'. unfold intr_disable, kbind, intr_get_status, kreads, cli, kmod, kret.
  destruct (_ =? 0); intros [= _ <-]; [apply eflags_same|by eexists].
Qed.
Lemma kt_enable : kt (P := P) intr_enable (fun _ => True).
Proof.
  apply kt_flag. intros s a s'. unfold intr_enable, kbind, intr_get_status, kreads, sti, kmod, kret.
  destruct (_ =? 0); intros [= _ <-]; [by eexists|apply eflags_same].
Qed.
Lemma kt_set_status st : kt (P := P) (intr_set_status st) (fun _ => True).
Proof. destruct st; [apply kt_disable|apply kt_enable]. Qed.
Lemma kt_get_status : kt (P := P) intr_get_status (fun _ => True).
Proof. by apply kt_reads. Qed.
End scheduler.

#[export] Hint Resolve kt_q_append kt_q_push kt_q_remove kt_q_pop kt_q_find kt_q_empty kt_disable kt_enable kt_set_status
  kt_get_status : ctypes.

Section threads.
Context {P : Type} `{!KernelPages P, !AddressSpaces P, !OpenFiles P, !ProcessResources P, !PageTypes P}.
Implicit Types (s : kst P).

Lemma kt_thread_unblock t : kt (P := P) (thread_unblock t) (fun _ => True).
Proof. unfold thread_unblock. typed. Qed.

Lemma kt_page_dir_activate t : kt (P := P) (page_dir_activate t) (fun _ => uint32_t t).
Proof.
  unfold page_dir_activate. eapply kt_bind; [apply kt_get_task|]. intros p [Ht Hp].
  apply (kt_bind uint32_t).
  - destruct (t_pgdir p =? 0); [apply kt_ret; auto with ctypes|].
    apply (kt_bind state_typed); [apply kt_get|]. intros s Hs. apply kt_lift. intros a Ha.
    exact (pt_v2p _ _ _ (st_pages _ Hs) (ty_pgdir _ Hp) Ha).
  - intros a Ha. eapply kt_weaken; [apply kt_mod; intros s; by apply typed_cr3|]. intros; exact Ht.
Qed.

Lemma kt_process_activate t : kt (P := P) (process_activate t) (fun _ => uint32_t t).
Proof.
  unfold process_activate. apply (kt_bind (fun _ => True)); [apply kt_ASSERT|]. intros _ _.
  eapply kt_bind; [apply kt_page_dir_activate|]. cbv beta. intros _ Ht.
  eapply kt_bind; [apply kt_get_task|]. intros p [_ Hp]. destruct (t_pgdir p =? 0); [by apply kt_ret|].
  eapply kt_weaken; [apply kt_mod; intros s; apply typed_esp0; auto with ctypes|]. intros; exact Ht.
Qed.


Lemma kt_requeue t : kt (P := P) (requeue t) (fun _ => True).
Proof. unfold requeue. typed. Qed.

Lemma kt_wake_idle : kt (P := P) wake_idle (fun _ => True).
Proof.
  unfold wake_idle. apply (kt_bind (fun _ => True)); [typed|]. intros empty _.
  apply (kt_bind (fun _ => True)); [by apply kt_reads|]. intros t _. destruct empty; [apply kt_thread_unblock|typed].
Qed.

Lemma kt_dispatch : kt (P := P) dispatch (fun _ => True).
Proof.
  unfold dispatch. apply (kt_bind (fun _ => True)); [typed|]. intros tag _. cbv zeta.
  apply (kt_bind (fun _ => True)); [typed|]. intros _ _.
  eapply kt_bind; [apply kt_process_activate|]. cbv beta. intros _ Ht. apply kt_mod. intros s. by apply typed_cur.
Qed.

Lemma ct_schedule : ct (P := P) (fun _ => True) schedule.
Proof. pose proof kt_requeue. pose proof kt_wake_idle. pose proof kt_dispatch. unfold schedule, pick_next. typed. Qed.
End threads.

#[export] Hint Resolve kt_thread_unblock kt_page_dir_activate kt_process_activate ct_schedule : ctypes.

Section synchronisation.
Context {P : Type} `{!KernelPages P, !AddressSpaces P, !OpenFiles P, !ProcessResources P, !PageTypes P}.
Implicit Types (s : kst P).

Lemma ct_thread_block st : ct (P := P) (fun _ => True) (thread_block st).
Proof. unfold thread_block. typed. Qed.
Lemma ct_thread_yield : ct (P := P) (fun _ => True) thread_yield.
Proof. unfold thread_yield. typed. Qed.

Lemma ct_timer_handler : ct (P := P) (fun _ => True) intr_timer_handler.
Proof.
  unfold intr_timer_handler. eapply ct_bind; [typed|]. cbv beta. intros t Ht. eapply ct_bind; [typed|]. cbv beta. intros p [_ Hp].
  apply (ct_bind (fun _ => True)); [typed|]. intros _ _. apply (ct_bind (fun _ => True)); [typed|]. intros _ _.
  apply (ct_bind (fun _ => True)); [|intros _ _; typed].
  apply ct_atomic, kt_mod. intros s. apply typed_jiffies. auto with ctypes.
Qed.

Lemma ct_down_loop fuel psema : ct (P := P) (fun _ => True) (down_loop fuel psema).
Proof. pose proof ct_thread_block. induction fuel; cbn [down_loop]; typed. Qed.
Lemma ct_take_semaphore psema st : ct (P := P) (fun _ => True) (take_semaphore psema st).
Proof. unfold take_semaphore. typed. Qed.
Lemma ct_sema_down fuel psema : ct (P := P) (fun _ => True) (sema_down fuel psema).
Proof. pose proof ct_down_loop. pose proof ct_take_semaphore. unfold sema_down. typed. Qed.
Lemma kt_sema_up psema : kt (P := P) (sema_up psema) (fun _ => True).
Proof. unfold sema_up. typed. Qed.
Lemma kt_sema_init psema v : kt (P := P) (sema_init psema v) (fun _ => True).
Proof. unfold sema_init. typed. Qed.
End synchronisation.

#[export] Hint Resolve ct_thread_block ct_thread_yield ct_timer_handler ct_sema_down kt_sema_up kt_sema_init : ctypes.

(** ** The life of a thread *)

Section tasks.
Context {P : Type} `{!KernelPages P, !AddressSpaces P, !OpenFiles P, !ProcessResources P, !PageTypes P}.
Implicit Types (s : kst P).

Lemma kt_lock_init L : kt (P := P) (lock_init L) (fun _ => True).
Proof. unfold lock_init. typed. Qed.
Lemma ct_lock_acquire fuel L : ct (P := P) (fun _ => True) (lock_acquire fuel L).
Proof. unfold lock_acquire. typed. Qed.
Lemma kt_lock_release L : kt (P := P) (lock_release L) (fun _ => True).
Proof. unfold lock_release. typed. Qed.
Lemma ct_timer : ct (P := P) (fun _ => True) timer_interrupt.
Proof.
  unfold timer_interrupt. apply (ct_bind (fun _ => True)); [by apply ct_atomic, kt_reads|]. intros f _.
  apply (ct_bind (fun _ => True)); [apply ct_atomic, kt_flag; intros s a s' [= _ <-]; by eexists|]. intros _ _.
  apply (ct_bind (fun _ => True)); [apply ct_timer_handler|]. intros _ _.
  apply ct_atomic, kt_mod. intros s. apply typed_eflags.
Qed.
Lemma ct_idle_round : ct (P := P) (fun _ => True) idle_round.
Proof.
  unfold idle_round. apply (ct_bind (fun _ => True)); [apply ct_thread_block|]. intros _ _.
  apply ct_atomic, kt_flag. intros s a s' [= _ <-]. by eexists.
Qed.

(** The pid map is the business of Bitmap. *)
Lemma kt_pids (f : bitmap -> outcome bitmap) :
  kt (P := P) (s <- kget ;; b <- klift (f (k_pids s)) ;; kmod (set_k_pids b)) (fun _ => True).
Proof.
  eapply kt_bind; [apply kt_get|]. intros s Hs. apply (kt_bind (fun _ => True)); [by apply kt_lift|]. intros b _.
  apply kt_mod. intros s'. apply typed_pids.
Qed.

Lemma ct_allocate_pid fuel : ct (P := P) int16_t (allocate_pid fuel).
Proof.
  pose proof ct_lock_acquire. pose proof kt_lock_release.
  unfold allocate_pid. apply (ct_bind (fun _ => True)); [typed|]. intros _ _.
  apply (ct_bind (fun _ => True)); [apply ct_atomic; eapply kt_bind; [apply kt_get|intros; by apply kt_lift]|]. intros i _.
  apply (ct_bind (fun _ => True)); [|intros _ _; typed]. apply ct_atomic, (kt_pids (fun b => bitmap_set b (u32 i) 1)).
Qed.

Lemma ct_release_pid fuel pid : ct (P := P) (fun _ => True) (release_pid fuel pid).
Proof.
  pose proof ct_lock_acquire. pose proof kt_lock_release.
  unfold release_pid. apply (ct_bind (fun _ => True)); [typed|]. intros _ _.
  apply (ct_bind (fun _ => True)); [|intros _ _; typed]. apply ct_atomic, (kt_pids (fun b => bitmap_set b (u32 _) 0)).
Qed.

Lemma zero_typed : task_typed zero_task.
Proof.
  constructor; cbn; try (unfold uint32_t, int16_t, uint8_t, int8_t; lia); (split; [done|]);
    repeat constructor; unfold uint8_t, int32_t; lia.
Qed.

Lemma array_splice ty n l off src l' : splice l off src = Ok l' -> array_of ty n l -> Forall ty src -> array_of ty n l'.
Proof.
  unfold splice. case_decide as H; [|discriminate]. intros [= <-] [Hl Ht] Hs. split.
  - rewrite !length_app, length_take, length_drop. lia.
  - apply Forall_app. split; [by apply Forall_take|]. apply Forall_app. split; [exact Hs|by apply Forall_drop].
Qed.

Lemma ct_init_thread fuel t name prio : uint32_t t -> Forall uint8_t name ->
  ct (P := P) (fun _ => True) (init_thread fuel t name prio).
Proof.
  intros Ht Hn. unfold init_thread. apply (ct_bind (fun _ => True)).
  { apply ct_atomic. destruct (t =? 0); [apply kt_fail|]. apply kt_put_task; [done|apply zero_typed]. }
  intros _ _. eapply ct_bind; [apply ct_allocate_pid|]. intros pid Hpid.
  apply (ct_bind (fun _ => True)); [by apply ct_atomic, kt_reads|]. intros mt _.
  eapply ct_bind; [apply ct_atomic, kt_get_task|]. intros p [_ Hp].
  apply (ct_bind (array_of uint8_t 16)).
  { apply ct_atomic, kt_lift. intros l Hl. apply (array_splice _ _ _ _ _ _ Hl); [apply Hp|done]. }
  intros nm Hnm. apply ct_atomic, kt_put_task; [exact Ht|].
  destruct p, Hp; constructor; cbn in *; auto with ctypes; try (unfold uint32_t, int16_t, STACK_MAGIC; lia).
  split; [done|]. repeat constructor; unfold int32_t; lia.
Qed.

Lemma kt_thread_create t function arg : uint32_t function -> uint32_t arg ->
  kt (P := P) (thread_create t function arg) (fun _ => True).
Proof. intros Hf Ha. unfold thread_create, kernel_thread. typed. Qed.

Lemma ct_thread_start fuel name prio function arg : Forall uint8_t name -> uint32_t function -> uint32_t arg ->
  ct (P := P) (fun _ => True) (thread_start fuel name prio function arg).
Proof.
  intros Hn Hf Ha. pose proof kt_thread_create. unfold thread_start.
  eapply ct_bind; [apply ct_atomic, kt_get_pages|]. intros t [Ht _].
  apply (ct_bind (fun _ => True)); [by apply ct_init_thread|]. intros _ _. typed.
Qed.

Lemma fd_install_typed fuel l fd_idx i r l' :
  fd_install_loop fuel l fd_idx i = Ok (r, l') -> array_of int32_t 8 l -> array_of int32_t 8 l'.
Proof.
  revert i. induction fuel as [|fuel IH]; intros i; cbn [fd_install_loop]; [discriminate|].
  destruct (i <? _); [|by intros [= _ <-]]. destruct (rd l i) as [v|]; cbn; [|discriminate].
  destruct (v =? -1); [|apply IH]. unfold wr. case_decide; cbn; [|discriminate]. intros [= _ <-] [Hl Ht].
  split; [by rewrite length_insert|]. apply Forall_insert; auto with ctypes.
Qed.

Lemma kt_fd_install fd_idx : kt (P := P) (pcb_fd_install fd_idx) (fun _ => True).
Proof.
  unfold pcb_fd_install. eapply kt_bind; [apply kt_running|]. intros t Ht.
  eapply kt_bind; [apply kt_get_task|]. intros p [_ Hp].
  apply (kt_bind (fun r : Z * list Z => array_of int32_t 8 r.2)).
  { apply kt_lift. intros [r l] E. by apply (fd_install_typed _ _ _ _ _ _ E), Hp. }
  intros [r l] Hr. apply (kt_bind (fun _ => True)); [|intros _ _; by apply kt_ret].
  apply kt_put_task; [exact Ht|]. destruct p, Hp; constructor; assumption.
Qed.

Lemma kt_traverse f L : (forall x, kt (P := P) (f x) (fun _ => True)) -> kt (P := P) (q_traversal L f) (fun _ => True).
Proof.
  intros Hf. unfold q_traversal. apply (kt_bind (fun _ => True)); [typed|]. intros xs _.
  induction xs as [|x xs IH]; cbn [traverse]; typed.
Qed.

Lemma kt_pid_check pid x : kt (P := P) (pid_check pid x) (fun _ => True).
Proof. unfold pid_check. typed. Qed.
Lemma kt_find_child pid x : kt (P := P) (find_child pid x) (fun _ => True).
Proof. unfold find_child. typed. Qed.
Lemma kt_find_hanging pid x : kt (P := P) (find_hanging_child pid x) (fun _ => True).
Proof. unfold find_hanging_child. typed. Qed.
Lemma kt_adopt pid x : kt (P := P) (init_adopt_a_child pid x) (fun _ => True).
Proof. unfold init_adopt_a_child. typed. Qed.

Lemma kt_pid2thread pid : kt (P := P) (pid2thread pid) (fun _ => True).
Proof. pose proof kt_traverse. pose proof kt_pid_check. unfold pid2thread. typed. Qed.

Lemma ct_thread_exit fuel t b : ct (P := P) (fun _ => True) (thread_exit fuel t b).
Proof.
  pose proof ct_release_pid. unfold thread_exit. apply (ct_bind (fun _ => True)); [typed|]. intros _ _.
  do 2 (apply (ct_bind (fun _ => True)); [typed|]; intros ? _).
  apply (ct_bind (fun _ => True)); [typed|]. intros _ _. eapply ct_bind; [typed|]. cbv beta. intros p _.
  do 2 (apply (ct_bind (fun _ => True)); [typed|]; intros _ _).
  apply (ct_bind (fun _ => True)); [by apply ct_atomic, kt_reads|]. intros m _. typed.
Qed.

Lemma ct_sys_wait fuel : ct (P := P) (fun r => int16_t r.1 /\ from_option int8_t True r.2) (sys_wait fuel).
Proof.
  unfold sys_wait. eapply ct_bind; [typed|]. cbv beta. intros t Ht. induction fuel as [|fuel IH]; cbn [wait_loop]; [typed|].
  eapply ct_bind; [typed|]. cbv beta. intros p Hp.
  apply (ct_bind (fun _ => True)); [apply ct_atomic, kt_traverse, kt_find_hanging|]. intros c _. destruct (negb _).
  - cbv zeta. eapply ct_bind; [typed|]. cbv beta. intros q [_ Hq].
    apply (ct_bind (fun _ => True)); [apply ct_thread_exit|]. intros _ _. apply ct_ret. split; [apply int16_i16|apply Hq].
  - apply (ct_bind (fun _ => True)); [apply ct_atomic, kt_traverse, kt_find_child|]. intros d _.
    destruct (d =? 0); [apply ct_ret; split; [unfold int16_t; cbn; lia|exact I]|].
    apply (ct_bind (fun _ => True)); [typed|]. intros _ _. exact IH.
Qed.

Lemma ct_sys_exit v : ct (P := P) (fun _ => True) (sys_exit v).
Proof.
  pose proof kt_pid2thread. pose proof kt_traverse. pose proof kt_adopt. unfold sys_exit.
  eapply ct_bind; [typed|]. cbv beta. intros t Ht. apply (ct_bind (fun _ => True)); [typed|]. intros _ _.
  eapply ct_bind; [typed|]. cbv beta. intros c Hc. apply (ct_bind (fun _ => True)); [typed|]. intros _ _.
  eapply ct_bind; [typed|]. cbv beta. intros a _. apply (ct_bind (fun _ => True)); [typed|]. intros _ _.
  eapply ct_bind; [typed|]. cbv beta. intros c' _. eapply ct_bind; [typed|]. cbv beta. intros pt _.
  eapply ct_bind; [typed|]. cbv beta. intros pq _. typed.
Qed.
End tasks.

#[export] Hint Resolve ct_thread_exit kt_thread_create ct_allocate_pid : ctypes.

(** ** Processes *)

Section processes.
Context {P : Type} `{!KernelPages P, !AddressSpaces P, !OpenFiles P, !ProcessResources P, !PageTypes P}.
Implicit Types (s : kst P).

Lemma kt_set_byte a v : kt (P := P) (set_byte a v) (fun _ => True).
Proof.
  intros s r s' Hs. unfold set_byte. destruct (sp_page _ _ _); [|discriminate]. destruct (wr _ _ _); [|discriminate].
  destruct (sp_set_page _ _ _ _) as [p|] eqn:E; [|discriminate]. intros [= <- <-]. split; [|exact I].
  apply typed_pages; [|exact Hs]. exact (pt_set _ _ _ _ _ (st_pages _ Hs) E).
Qed.
Lemma kt_clear_bytes n a : kt (P := P) (clear_bytes n a) (fun _ => True).
Proof. pose proof kt_set_byte. revert a. induction n; intros a; cbn [clear_bytes]; typed. Qed.

Lemma kt_copy_page dst src : kt (P := P) (copy_page dst src) (fun _ => True).
Proof.
  intros s r s' Hs. unfold copy_page. destruct (sp_page _ _ _); [|discriminate].
  destruct (sp_set_page _ _ _ _) as [p|] eqn:E; [|discriminate]. intros [= <- <-]. split; [|exact I].
  apply typed_pages; [|exact Hs]. exact (pt_set _ _ _ _ _ (st_pages _ Hs) E).
Qed.
Lemma kt_copy_pages n dst src : kt (P := P) (copy_pages n dst src) (fun _ => True).
Proof. pose proof kt_copy_page. revert dst src. induction n; intros dst src; cbn [copy_pages]; typed. Qed.

Lemma kt_byte_at a : kt (P := P) (byte_at a) (fun _ => True).
Proof.
  intros s v s' Hs. unfold byte_at. destruct (sp_page _ _ _); [|discriminate]. destruct (rd _ _); [|discriminate].
  intros [= <- <-]. by split.
Qed.

Lemma kt_create_bitmap t : kt (P := P) (create_user_vaddr_bitmap t) (fun _ => True).
Proof.
  unfold create_user_vaddr_bitmap. apply (kt_bind (fun _ => True)).
  { eapply kt_weaken; [apply kt_upd_task|done]. intros [] []. constructor; cbn in *; auto with ctypes.
    unfold uint32_t, USER_VADDR_START. lia. }
  intros _ _. eapply kt_bind; [apply kt_get_pages|]. intros a [Ha _]. apply (kt_bind (fun _ => True)); [typed|].
  intros _ _. apply (kt_bind (fun _ => True)).
  { eapply kt_weaken; [apply kt_upd_task|done]. intros [] []. constructor; cbn in *; auto with ctypes.
    rewrite user_btmp_bytes_eq. unfold uint32_t. lia. }
  intros _ _. eapply kt_bind; [apply kt_get_task|]. intros p _. apply kt_clear_bytes.
Qed.

Lemma ct_kget {B} (f : kst P -> CM (kst P) B) (Q : B -> Prop) :
  (forall s, state_typed s -> ct Q (f s)) -> ct Q (cbind (atomic kget) f).
Proof. intros Hf. eapply ct_bind; [apply ct_atomic, kt_get|exact Hf]. Qed.

Lemma ct_process_execute fuel filename name : uint32_t filename -> Forall uint8_t name ->
  ct (P := P) (fun _ => True) (process_execute fuel filename name).
Proof.
  intros Hf Hn. assert (Ha : uint32_t start_process_addr) by (unfold uint32_t, start_process_addr; lia).
  pose proof kt_create_bitmap. unfold process_execute.
  eapply ct_bind; [apply ct_atomic, kt_get_pages|]. intros t [Ht _].
  apply (ct_bind (fun _ => True)); [by apply ct_init_thread|]. intros _ _.
  do 2 (apply (ct_bind (fun _ => True)); [typed|]; intros _ _).
  apply ct_kget. intros s _. eapply ct_bind; [apply ct_atomic, kt_page_dir|]. intros d Hd. typed.
Qed.

Lemma ct_start_process filename : uint32_t filename -> kt (P := P) (start_process filename) (fun _ => True).
Proof.
  intros Hf. unfold start_process. eapply kt_bind; [apply kt_running|]. intros t Ht.
  apply (kt_bind (fun _ => True)); [typed|]. intros _ _. eapply kt_bind; [apply kt_get_task|]. intros p _. cbv zeta.
  assert (H1 : uint32_t SELECTOR_U_DATA) by (by vm_compute). assert (H2 : uint32_t SELECTOR_U_CODE) by (by vm_compute).
  assert (H3 : uint32_t (Z.lor (Z.lor EFLAGS_IOPL_0 EFLAGS_MBS) EFLAGS_IF_1)) by (by vm_compute).
  do 15 (apply (kt_bind (fun _ => True)); [typed|]; intros _ _).
  apply (kt_bind state_typed); [apply kt_get|]. intros s _. apply (kt_bind (fun _ => True)); [apply kt_own_page|].
  intros a _. typed.
Qed.

Lemma copy_words_typed n dst src m :
  map_Forall (fun _ v => uint32_t v) m -> map_Forall (fun _ v => uint32_t v) (copy_words n dst src m).
Proof.
  intros Hm. induction n as [|n IH]; cbn [copy_words]; [exact Hm|].
  destruct (copy_words n dst src m !! _) as [v|] eqn:E; [|by apply map_Forall_delete].
  apply map_Forall_insert_2; [exact (IH _ _ E)|exact IH].
Qed.

Lemma kt_copy_pcb child parent : uint32_t child -> kt (P := P) (copy_pcb child parent) (fun _ => True).
Proof.
  intros Hc. unfold copy_pcb. eapply kt_bind; [apply kt_get_task|]. intros p [_ Hp].
  apply (kt_bind (fun _ => True)); [by apply kt_put_task|]. intros _ _. apply kt_mod. intros s Hs.
  apply typed_stack; [|exact Hs]. apply copy_words_typed, Hs.
Qed.

Lemma kt_copy_user_page child parent buf va : kt (P := P) (copy_user_page child parent buf va) (fun _ => True).
Proof.
  pose proof kt_copy_page. unfold copy_user_page. do 2 (apply (kt_bind (fun _ => True)); [typed|]; intros _ _).
  apply (kt_bind state_typed); [apply kt_get|]. intros s _. apply (kt_bind (fun _ => True)); [apply kt_user_page|]. typed.
Qed.

Lemma kt_copy_bits n child parent buf b st i j : kt (P := P) (copy_bits n child parent buf b st i j) (fun _ => True).
Proof.
  pose proof kt_copy_user_page. revert j. induction n; intros j; cbn [copy_bits]; [typed|].
  apply (kt_bind (fun _ => True)); [apply kt_byte_at|]. typed.
Qed.
Lemma kt_copy_bytes n child parent buf b st i : kt (P := P) (copy_bytes n child parent buf b st i) (fun _ => True).
Proof.
  pose proof kt_copy_bits. revert i. induction n; intros i; cbn [copy_bytes]; [typed|].
  apply (kt_bind (fun _ => True)); [apply kt_byte_at|]. typed.
Qed.

Lemma wr_array ty n l i v l' : wr l i v = Ok l' -> array_of ty n l -> ty v -> array_of ty n l'.
Proof. intros [_ ->]%wr_inv [Hl Ht] Hv. split; [by rewrite length_insert|by apply Forall_insert]. Qed.

Lemma rd_typed (ty : Z -> Prop) l i v : rd l i = Ok v -> Forall ty l -> ty v.
Proof. intros [_ E]%rd_inv Hl. exact (proj1 (list.Forall_lookup ty l) Hl _ _ E). Qed.

Lemma strcat_copy_typed ty n fuel dst o m i dst' :
  strcat_copy fuel dst o m i = Ok dst' -> Forall ty m -> array_of ty n dst -> array_of ty n dst'.
Proof.
  intros E Hm. revert dst o i E. induction fuel as [|fuel IH]; intros dst o i; cbn [strcat_copy]; [discriminate|].
  destruct (rd m i) as [v|] eqn:Ev; cbn [obind]; [|discriminate]. destruct (wr dst o v) as [d|] eqn:Ew; cbn [obind]; [|discriminate].
  intros E Hd. pose proof (wr_array _ _ _ _ _ _ Ew Hd (rd_typed _ _ _ _ Ev Hm)) as Hd'.
  destruct (negb (v =? 0)); [by apply IH in E|by injection E as <-].
Qed.

Lemma strcat_typed ty n dst m l : strcat dst (Some 0) m (Some 0) = Ok l -> Forall ty m -> array_of ty n dst -> array_of ty n l.
Proof.
  unfold strcat, not_null. cbn [obind]. destruct (find_nul _ _ _) as [p|]; cbn [obind]; [|discriminate]. apply strcat_copy_typed.
Qed.

Lemma ct_copy_pcb fuel child parent : uint32_t child ->
  ct (P := P) (fun _ => True) (copy_pcb_vaddrbitmap_stack0 fuel child parent).
Proof.
  intros Hc. pose proof kt_copy_pcb. pose proof kt_copy_pages. unfold copy_pcb_vaddrbitmap_stack0, fork_pid.
  apply (ct_bind (fun _ => True)); [typed|]. intros _ _. eapply ct_bind; [apply ct_allocate_pid|]. intros pid Hpid.
  do 4 (apply (ct_bind (fun _ => True)); [typed|]; intros _ _).
  eapply ct_bind; [apply ct_atomic, kt_get_task|]. intros p [_ Hp].
  do 2 (apply (ct_bind (fun _ => True)); [typed|]; intros _ _).
  eapply ct_bind; [apply ct_atomic, kt_get_pages|]. intros a [Ha _].
  eapply ct_bind; [apply ct_atomic, kt_get_task|]. intros q [_ Hq].
  do 2 (apply (ct_bind (fun _ => True)); [typed|]; intros _ _).
  apply (ct_bind (array_of uint8_t 16)).
  { apply ct_atomic, kt_lift. intros l Hl. apply (strcat_typed _ _ _ _ _ Hl); [|apply Hq].
    repeat constructor; unfold uint8_t; lia. }
  intros nm Hnm. apply (ct_bind (fun _ => True)); [typed|]. intros _ _. by apply ct_ret.
Qed.

(** The frame of [switch_to] lies below the one of the interrupt, in the page of the child. *)
Lemma kstack_typed t : uint32_t t -> t mod PG_SIZE = 0 -> uint32_t (intr_0_stack t - 20).
Proof.
  unfold uint32_t, intr_0_stack, PG_SIZE, sizeof_intr_stack, u32. intros Ht Hm. Z.to_euclidean_division_equations. lia.
Qed.

Lemma kt_build_stack t : uint32_t t -> t mod PG_SIZE = 0 -> kt (P := P) (build_child_stack t) (fun _ => True).
Proof.
  intros Ht Hm. assert (Hi : uint32_t intr_exit) by (unfold uint32_t, intr_exit; lia).
  assert (Hk : uint32_t (intr_0_stack t - 20)) by (by apply kstack_typed).
  unfold build_child_stack. cbv zeta. generalize dependent (intr_0_stack t). intros st Hk.
  do 6 (apply (kt_bind (fun _ => True)); [typed|]; intros _ _). typed.
Qed.

Lemma ct_copy_process fuel child parent : uint32_t child -> child mod PG_SIZE = 0 ->
  ct (P := P) (fun _ => True) (copy_process fuel child parent).
Proof.
  intros Hc Hm. unfold copy_process. eapply ct_bind; [apply ct_atomic, kt_get_pages|]. intros buf _.
  destruct (buf =? 0); [typed|]. apply (ct_bind (fun _ => True)); [by apply ct_copy_pcb|]. intros r _.
  destruct (r =? -1); [typed|]. apply ct_kget. intros s _. eapply ct_bind; [apply ct_atomic, kt_page_dir|]. intros d Hd.
  apply (ct_bind (fun _ => True)); [typed|]. intros _ _. destruct (d =? 0); [typed|].
  apply (ct_bind (fun _ => True)).
  { apply ct_atomic. unfold copy_body_stack3. eapply kt_bind; [apply kt_get_task|]. intros p _. apply kt_copy_bytes. }
  intros _ _. apply (ct_bind (fun _ => True)); [by apply ct_atomic, kt_build_stack|]. intros _ _.
  eapply ct_bind; [apply ct_atomic, kt_get_task|]. intros c _. typed.
Qed.

Lemma ct_sys_fork fuel : ct (P := P) int16_t (sys_fork fuel).
Proof.
  assert (H1 : int16_t (-1)) by (unfold int16_t; lia). unfold sys_fork. eapply ct_bind; [apply ct_atomic, kt_running|].
  intros parent _. eapply ct_bind; [apply ct_atomic, kt_get_pages|]. intros child [Hc Hm].
  destruct (child =? 0); [by apply ct_ret|]. apply (ct_bind (fun _ => True)); [by apply ct_copy_process|]. intros r _.
  destruct (r =? -1); [by apply ct_ret|]. do 6 (apply (ct_bind (fun _ => True)); [typed|]; intros ? _).
  eapply ct_bind; [apply ct_atomic, kt_get_task|]. intros c [_ Hct]. apply ct_ret, Hct.
Qed.
End processes.

(** ** The kernel *)

Section kernel.
Context {P : Type} `{!KernelPages P, !AddressSpaces P, !OpenFiles P, !ProcessResources P, !PageTypes P}.
Implicit Types (s : kst P) (c : config (P := P)).

(** What the running thread may do: the calls of Threads and those that begin and end the
    life of threads and processes.  A name is an array of [char]s; the other arguments are
    pointers, or of any value where the code converts them. *)
Inductive kernel_call (s : kst P) : CM (kst P) unit -> Prop :=
| KThread m : call s m -> kernel_call s m
| KSemaInit psema v : kernel_call s (atomic (sema_init psema v))
| KLockInit L : kernel_call s (atomic (lock_init L))
| KStart fuel name prio function arg : Forall uint8_t name -> uint32_t function -> uint32_t arg ->
    kernel_call s (thread_start fuel name prio function arg ;~; cret tt)
| KExecute fuel filename name : uint32_t filename -> Forall uint8_t name ->
    kernel_call s (process_execute fuel filename name)
| KStartProcess filename : uint32_t filename -> kernel_call s (atomic (start_process filename) ;~; cret tt)
| KFork fuel : kernel_call s (sys_fork fuel ;~; cret tt)
| KExit v : kernel_call s (sys_exit v)
| KWait fuel : kernel_call s (sys_wait fuel ;~; cret tt)
| KInstall fd_idx : kernel_call s (atomic (pcb_fd_install fd_idx ;;; kret tt)).

Definition next_code (c : config) (m : CM (kst P) unit) : Prop :=
  match c_rest c !! k_cur (c_state c) with Some k => m = k | None => kernel_call (c_state c) m end.

Inductive kernel_step : config -> config -> Prop :=
| KReturn c m s : next_code c m -> m (c_state c) = Ok (Return tt, s) ->
    kernel_step c (Cfg s (delete (k_cur (c_state c)) (c_rest c)))
| KSwitch c m k s : next_code c m -> m (c_state c) = Ok (Suspended k, s) ->
    kernel_step c (Cfg s (<[k_cur (c_state c) := k]> (c_rest c))).

Lemma ct_call s m : call s m -> ct (P := P) (fun _ => True) m.
Proof.
  intros []; auto with ctypes.
  - apply ct_timer.
  - apply ct_idle_round.
  - apply ct_atomic. auto with ctypes.
  - apply ct_atomic. auto with ctypes.
  - apply ct_lock_acquire.
  - apply ct_atomic, kt_lock_release.
  - apply ct_atomic. typed.
Qed.

Lemma ct_drop {A} (R : A -> Prop) m : ct (P := P) R m -> ct (P := P) (fun _ => True) (m ;~; cret tt).
Proof. intros Hm. eapply ct_bind; [exact Hm|]. intros a _. by apply ct_ret. Qed.

Lemma ct_kernel_call s m : kernel_call s m -> ct (P := P) (fun _ => True) m.
Proof.
  intros [m' Hm|psema v|L|fuel name prio f a H1 H2 H3|fuel f name H1 H2|f H|fuel|v|fuel|i].
  - by eapply ct_call.
  - apply ct_atomic, kt_sema_init.
  - apply ct_atomic, kt_lock_init.
  - eapply ct_drop. by apply ct_thread_start.
  - by apply ct_process_execute.
  - eapply ct_drop, ct_atomic. by apply ct_start_process.
  - eapply ct_drop, ct_sys_fork.
  - apply ct_sys_exit.
  - eapply ct_drop, ct_sys_wait.
  - apply ct_atomic. eapply kt_bind; [apply kt_fd_install|]. intros r _. by apply kt_ret.
Qed.

(** Every suspended thread goes on with code that keeps the types. *)
Definition config_typed (c : config) : Prop :=
  state_typed (c_state c) /\ map_Forall (fun _ k => ct (fun _ => True) k) (c_rest c).

Lemma step_typed c c' : kernel_step c c' -> config_typed c -> config_typed c'.
Proof.
  intros Hstep [Hs Hr].
  assert (Hn : forall m, next_code c m -> ct (P := P) (fun _ => True) m).
  { intros m. unfold next_code. destruct (c_rest c !! _) as [k|] eqn:E; [intros ->; exact (Hr _ _ E)|apply ct_kernel_call]. }
  destruct Hstep as [c m s Hm E|c m k s Hm E]; pose proof (ct_run _ _ _ (Hn _ Hm) Hs) as H; rewrite E in H; destruct H as [H1 H2].
  - split; [exact H1|]. by apply map_Forall_delete.
  - split; [exact H1|]. by apply map_Forall_insert_2.
Qed.

End kernel.

(** ** A thread that exits with a status of more than 8 bits *)

#[export] Instance no_spaces : AddressSpaces unit := {|
  sp_page p d va := Some zero_page;
  sp_set_page d va bs p := Ok p;
  sp_user_page d va p := Ok (va, p);
  sp_own_page d v va p := Ok (va, p);
  sp_page_dir d p := Ok (0xc0200000, p);
  sp_init_descs c p := p
|}.
#[export] Instance no_files : OpenFiles unit := {| inherit_files _ p := Ok p |}.
#[export] Instance no_resources : ProcessResources unit := {| release_resources _ p := Ok p |}.
#[export] Program Instance no_page_types : PageTypes unit := {| pages_typed _ := True |}.
Next Obligation. intros n p a p' _ [= <- <-]. unfold uint32_t. split; [lia|]. by split. Qed.
Next Obligation. done. Qed.
Next Obligation. by intros a p f _ Ha [= <-]. Qed.
Next Obligation. done. Qed.
Next Obligation. done. Qed.
Next Obligation. done. Qed.
Next Obligation. intros d p a p' _ [= <- <-]. unfold uint32_t. split; [lia|done]. Qed.
Next Obligation. done. Qed.
Next Obligation. done. Qed.
Next Obligation. done. Qed.

Definition sample_exiting : kst unit :=
  set_k_tasks (<[0x1000 := set_t_parent 1 (sample_task TASK_RUNNING 5)]> (k_tasks sample_pids)) sample_pids.
Definition sample_exited : config := after (sys_exit 300) (Cfg sample_exiting ∅).

Lemma sample_task_typed st ticks : uint8_t ticks -> task_typed (sample_task st ticks).
Proof.
  intros Ht. constructor; try done; cbn; try (unfold uint32_t, int16_t, uint8_t, int8_t, STACK_MAGIC; lia);
    (split; [done|]); repeat constructor; unfold uint8_t, int32_t; lia.
Qed.

Lemma sample_exiting_typed : state_typed sample_exiting.
Proof.
  constructor; try (cbn; unfold uint32_t; lia); try apply map_Forall_empty; try exact I.
  - cbn [sample_exiting set_k_tasks k_tasks]. apply map_Forall_insert_2.
    + split; [unfold uint32_t; lia|]. destruct (sample_task_typed TASK_RUNNING 5 ltac:(unfold uint8_t; lia)).
      constructor; try assumption.
    + intros t p Hp%(sample_tasks 0). unfold uint32_t.
      destruct Hp as [[-> ->]|[[-> ->]|[[-> ->]|[-> ->]]]]; (split; [lia|]); try (apply sample_task_typed; unfold uint8_t; lia).
      destruct (sample_task_typed TASK_HANGING 10 ltac:(unfold uint8_t; lia)).
      constructor; try assumption; cbn; unfold int16_t, int8_t; lia.
  - intros x v. cbn. intros [<- <-]%lookup_singleton_Some. unfold uint8_t. lia.
  - intros x l. cbn. intros [<- <-]%lookup_singleton_Some. unfold uint32_t. cbn. lia.
Qed.

Lemma sample_exit_step : kernel_step (Cfg sample_exiting ∅) sample_exited.
Proof.
  unfold sample_exited, after. destruct (sys_exit 300 (c_state (Cfg sample_exiting ∅))) as [[[[]|k] s]|e] eqn:E.
  - apply KReturn with (sys_exit 300); [apply KExit|exact E].
  - apply KSwitch with (sys_exit 300); [apply KExit|exact E].
  - apply (f_equal (fun r => match r with Ok _ => true | Err _ => false end)) in E. vm_compute in E. discriminate E.
Qed.

