(* ===== verification/FdTable.v ===== *)
(** * FdTable: the open files of a process across fork, exec and exit

    [update_inode_open_cnts] of userprog/fork.c and the loop that closes the descriptors
    of a process, which userprog/wait_exit.c and userprog/exec.c both have.  An entry of
    the global file table has no count of its own: a pipe counts its descriptors in
    [fd_pos], a file only in its inode. *)

From S2P Require Import Prelude Bitmap Interrupt DList Sched Task Disk Inode Dir File Pipe Fs.

Section fd_table.
Context {D H C : Type} `{!BlockDev D, !KernelHeap H, !CharIo C}.
Notation M := (KM (fs D H)).
Notation V := (KM (vfs D H C)).

(** The loop over the descriptors of the child, whose table is a copy of the running
    thread's, which [is_pipe] looks at; [n] descriptors are left. *)
Fixpoint open_cnts_loop (n : nat) (fd_table : list Z) (local_fd : Z) : M unit :=
  match n with
  | O => kret tt
  | S n =>
      global_fd <- klift (rd fd_table local_fd) ;;
      (if global_fd =? -1 then kret tt
       else
         pipe <- is_pipe local_fd ;;
         f <- get_file global_fd ;;
         if (pipe : bool) then put_file global_fd (File (u32 (fd_pos f + 1)) (fd_flag f) (fd_inode f))
         else upd_inode (fd_inode f) (fun i => set_i_open_cnts (u32 (i_open_cnts i + 1)) i)) ;;;
      open_cnts_loop n fd_table (local_fd + 1)
  end.
Definition update_inode_open_cnts (fd_table : list Z) : M unit :=
  open_cnts_loop (Z.to_nat (MAX_FILES_OPEN_PER_PROC - 3)) fd_table 3.

(** Closing the descriptors from [fd_idx] on, [n] of them. *)
Fixpoint close_loop (n : nat) (fd_idx : Z) : V unit :=
  match n with
  | O => kret tt
  | S n =>
      l <- in_fs (kreads f_fds) ;;
      v <- klift (rd l fd_idx) ;;
      (if v =? -1 then kret tt
       else
         pipe <- in_fs (is_pipe fd_idx) ;;
         if (pipe : bool) then
           global_fd <- in_fs (fd_local2global fd_idx) ;;
           close_pipe global_fd
         else sys_close fd_idx ;;; kret tt) ;;;
      close_loop n (fd_idx + 1)
  end.
Definition close_files : V unit := close_loop (Z.to_nat (MAX_FILES_OPEN_PER_PROC - 3)) 3.

(** ** Pipes keep their count *)

(** How often [i] is in [l], and the file table with the counts of [l] added. *)
Definition count (i : Z) (l : list Z) : Z := Z.of_nat (length (List.filter (Z.eqb i) l)).
Definition counted (l : list Z) (fl : list file) : list file :=
  imap (fun i f => File (fd_pos f + count (Z.of_nat i) l) (fd_flag f) (fd_inode f)) fl.

Lemma count_cons i g l : count i (g :: l) = count i l + (if decide (i = g) then 1 else 0).
Proof.
  unfold count. cbn [List.filter]. destruct (Z.eqb_spec i g) as [->|Hne].
  - rewrite decide_True by done. cbn [length]. lia.
  - rewrite decide_False by done. lia.
Qed.

Lemma count_perm i l l' : l ≡ₚ l' -> count i l = count i l'.
Proof. induction 1; rewrite ?count_cons in *; lia. Qed.

Lemma count_bound i l : 0 <= count i l <= Z.of_nat (length l).
Proof. unfold count. pose proof (List.filter_length_le (Z.eqb i) l). lia. Qed.

Lemma counted_lookup l fl g f :
  0 <= g -> fl !! Z.to_nat g = Some f ->
  counted l fl !! Z.to_nat g = Some (File (fd_pos f + count g l) (fd_flag f) (fd_inode f)).
Proof. intros Hg Hf. unfold counted. rewrite list_lookup_imap, Hf. cbn. by rewrite Z2Nat.id. Qed.

Lemma counted_nil fl : counted [] fl = fl.
Proof.
  unfold counted. apply list_eq. intros i. rewrite list_lookup_imap.
  destruct (fl !! i) as [[]|]; [|done]. cbn. by rewrite Z.add_0_r.
Qed.

Lemma counted_perm l l' fl : l ≡ₚ l' -> counted l fl = counted l' fl.
Proof.
  intros Hp. unfold counted. apply list_eq. intros i. rewrite !list_lookup_imap.
  by rewrite (count_perm _ _ _ Hp).
Qed.

(** Adding one to the count of slot [g], and taking it off. *)
Lemma counted_insert l fl g f z :
  0 <= g -> fl !! Z.to_nat g = Some f -> z = fd_pos f + count g (g :: l) ->
  <[Z.to_nat g := File z (fd_flag f) (fd_inode f)]> (counted l fl) = counted (g :: l) fl.
Proof.
  intros Hg Hf ->. apply list_eq. intros i. unfold counted. rewrite list_lookup_imap.
  destruct (decide (i = Z.to_nat g)) as [->|Hne].
  - rewrite list_lookup_insert_eq by (rewrite length_imap; by eapply lookup_lt_Some).
    rewrite Hf. cbn. by rewrite Z2Nat.id.
  - rewrite list_lookup_insert_ne by done. rewrite list_lookup_imap.
    destruct (fl !! i) as [h|]; [|done]. cbn. rewrite count_cons, decide_False by lia. by rewrite Z.add_0_r.
Qed.

Lemma counted_remove l fl g f z :
  0 <= g -> fl !! Z.to_nat g = Some f -> z = fd_pos f + count g l ->
  <[Z.to_nat g := File z (fd_flag f) (fd_inode f)]> (counted (g :: l) fl) = counted l fl.
Proof.
  intros Hg Hf ->. rewrite <- (counted_insert l fl g f _ Hg Hf eq_refl), list_insert_insert_eq.
  apply list_insert_id. by apply counted_lookup.
Qed.

(** The open descriptors from [k] on, by their slots. *)
Definition open_from (fds : list Z) (k : nat) : list Z := List.filter (fun g => negb (g =? -1)) (drop k fds).

Lemma open_from_step fds k g : fds !! k = Some g ->
  open_from fds k = (if g =? -1 then [] else [g]) ++ open_from fds (S k).
Proof.
  intros Hk. unfold open_from. rewrite (drop_S _ _ _ Hk). cbn [List.filter]. by destruct (g =? -1).
Qed.

Lemma open_from_end fds k : (length fds <= k)%nat -> open_from fds k = [].
Proof. intros Hk. unfold open_from. by rewrite drop_ge. Qed.

(** All descriptors from 3 on that are open are pipes, with room in their counts. *)
Record pipes_only (fds : list Z) (fl : list file) : Prop := {
  po_length : length fds = 8%nat;
  po_pipe : forall k g, (3 <= k)%nat -> fds !! k = Some g -> g <> -1 -> 0 <= g < MAX_FILES_OPEN_PER_PROC /\
    exists f, fl !! Z.to_nat g = Some f /\ fd_flag f = PIPE_FLAG /\ 1 <= fd_pos f < 2 ^ 32 - 8
}.

Lemma slot_run (s : fs D H) fds fl l k g :
  f_files s = counted l fl -> f_fds s = fds -> pipes_only fds fl -> (3 <= k)%nat -> fds !! k = Some g -> g <> -1 ->
  exists f, fl !! Z.to_nat g = Some f /\ 1 <= fd_pos f < 2 ^ 32 - 8 /\ 0 <= g /\
    fd_local2global (Z.of_nat k) s = Ok (g, s) /\ is_pipe (Z.of_nat k) s = Ok (true, s) /\
    get_file g s = Ok (File (fd_pos f + count g l) (fd_flag f) (fd_inode f), s).
Proof.
  intros Hf Hfds [_ Hp] Hk Hg Hn. destruct (Hp k g Hk Hg Hn) as (Hr & f & Hl & Hflag & Hpos).
  assert (E1 : fd_local2global (Z.of_nat k) s = Ok (g, s)).
  { unfold fd_local2global, kbind, kreads, klift, ASSERT. rewrite Hfds, (rd_Ok _ _ g) by (lia || by rewrite Nat2Z.id).
    rewrite (proj2 (Z.leb_le 0 g)), (proj2 (Z.ltb_lt g _)) by lia. done. }
  assert (E2 : get_file g s = Ok (File (fd_pos f + count g l) (fd_flag f) (fd_inode f), s)).
  { unfold get_file. rewrite Hf, (rd_Ok _ _ (File (fd_pos f + count g l) (fd_flag f) (fd_inode f))); [done|lia|].
    apply counted_lookup; [lia|done]. }
  exists f. split_and!; try done; try lia.
  unfold is_pipe. rewrite (kbind_ok _ _ _ _ _ E1), (kbind_ok _ _ _ _ _ E2). cbn. by rewrite Hflag.
Qed.

Lemma put_counted (s : fs D H) l l' fl g f z :
  f_files s = counted l fl -> 0 <= g -> fl !! Z.to_nat g = Some f ->
  <[Z.to_nat g := File z (fd_flag f) (fd_inode f)]> (counted l fl) = counted l' fl ->
  put_file g (File z (fd_flag f) (fd_inode f)) s = Ok (tt, set_f_files (counted l' fl) s).
Proof.
  intros Hf Hg Hl E. unfold put_file. rewrite Hf, wr_Ok; [by rewrite E|].
  apply lookup_lt_Some in Hl. unfold counted. rewrite length_imap. lia.
Qed.

Lemma open_cnts_run n (s : fs D H) fds fl l k :
  pipes_only fds fl -> f_files s = counted l fl -> f_fds s = fds -> (3 <= k)%nat -> (n + k = 8)%nat ->
  (length l + n < 6)%nat ->
  open_cnts_loop n fds (Z.of_nat k) s = Ok (tt, set_f_files (counted (open_from fds k ++ l) fl) s).
Proof.
  intros Hp. revert s l k. induction n as [|n IH]; intros s l k Hf Hfds Hk Hnk Hl; cbn [open_cnts_loop].
  { rewrite open_from_end by (rewrite (po_length _ _ Hp); lia). cbn [app]. rewrite <- Hf. by destruct s. }
  destruct (lookup_lt_is_Some_2 fds k) as [g Hg]; [rewrite (po_length _ _ Hp); lia|].
  rewrite (kbind_ok _ _ s g s) by (unfold klift; by rewrite (rd_Ok _ _ g) by (lia || by rewrite Nat2Z.id)).
  rewrite (open_from_step _ _ _ Hg). replace (Z.of_nat k + 1) with (Z.of_nat (S k)) by lia.
  destruct (Z.eqb_spec g (-1)) as [->|Hn].
  { rewrite (kbind_ok _ _ s tt s) by done. apply IH; try done; lia. }
  destruct (slot_run s fds fl l k g Hf Hfds Hp Hk Hg Hn) as (f & Hfl & Hpos & Hg0 & _ & E2 & E3).
  pose proof (count_bound g l).
  rewrite (kbind_ok _ _ s tt (set_f_files (counted (g :: l) fl) s)).
  - rewrite (IH _ (g :: l)); [|done|done|lia|lia|cbn [length]; lia]. do 2 f_equal.
    rewrite (counted_perm (open_from fds (S k) ++ g :: l) (g :: open_from fds (S k) ++ l)); [by destruct s|].
    symmetry. apply Permutation_middle.
  - rewrite (kbind_ok _ _ _ _ _ E2), (kbind_ok _ _ _ _ _ E3). cbn [fd_pos fd_flag fd_inode].
    rewrite u32_small by lia. apply (put_counted s l); try done. apply counted_insert; try done.
    rewrite count_cons, decide_True by done. lia.
Qed.

Lemma close_loop_run n (s : vfs D H C) fds fl l k :
  pipes_only fds fl -> f_files (v_fs s) = counted (open_from fds k ++ l) fl -> f_fds (v_fs s) = fds ->
  (3 <= k)%nat -> (n + k = 8)%nat -> (length l + n < 6)%nat ->
  close_loop n (Z.of_nat k) s = Ok (tt, Vfs (set_f_files (counted l fl) (v_fs s)) (v_io s)).
Proof.
  intros Hp. revert s k. induction n as [|n IH]; intros s k Hf Hfds Hk Hnk Hl; cbn [close_loop].
  { rewrite open_from_end in Hf by (rewrite (po_length _ _ Hp); lia). cbn [app] in Hf. rewrite <- Hf.
    by destruct s as [[] ?]. }
  destruct (lookup_lt_is_Some_2 fds k) as [g Hg]; [rewrite (po_length _ _ Hp); lia|].
  rewrite (kbind_ok _ _ s fds s) by (unfold in_fs, kreads; rewrite Hfds; by destruct s).
  rewrite (kbind_ok _ _ s g s) by (unfold klift; by rewrite (rd_Ok _ _ g) by (lia || by rewrite Nat2Z.id)).
  replace (Z.of_nat k + 1) with (Z.of_nat (S k)) by lia.
  pose proof (open_from_step _ _ _ Hg) as Hstep.
  destruct (Z.eqb_spec g (-1)) as [Eg|Hn]; rewrite Hstep in Hf.
  { rewrite (kbind_ok _ _ s tt s) by done. apply IH; try done; lia. }
  destruct (slot_run (v_fs s) fds fl _ k g Hf Hfds Hp Hk Hg Hn) as (f & Hfl & Hpos & Hg0 & E1 & E2 & E3).
  cbn [app] in Hf, E3. set (r := open_from fds (S k) ++ l) in *. pose proof (count_bound g r) as Hc.
  assert (Hr : (length r <= 5)%nat).
  { unfold r, open_from. rewrite length_app.
    pose proof (List.filter_length_le (fun g => negb (g =? -1)) (drop (S k) fds)) as Hlen.
    rewrite length_drop, (po_length _ _ Hp) in Hlen. lia. }
  set (s1 := Vfs (set_f_files (counted r fl) (v_fs s)) (v_io s)).
  rewrite (kbind_ok _ _ s tt s1); [rewrite IH; [done|done|done|lia|lia|lia]|].
  rewrite (kbind_ok _ _ s true s) by (unfold in_fs; rewrite E2; by destruct s).
  rewrite (kbind_ok _ _ s g s) by (unfold in_fs; rewrite E1; by destruct s).
  unfold close_pipe. rewrite (kbind_ok _ _ s _ s) by (unfold in_fs; rewrite E3; by destruct s).
  cbn [fd_pos fd_flag fd_inode]. rewrite count_cons, decide_True by done. rewrite u32_small by lia.
  rewrite (kbind_ok _ _ s tt s1).
  - rewrite (proj2 (Z.eqb_neq _ 0)) by lia. done.
  - unfold in_fs. rewrite (put_counted (v_fs s) (g :: r) r fl g f); try done.
    apply counted_remove; try done. lia.
Qed.

(** C11: pipes across fork and exit.  For a process whose open descriptors are pipes,
    [update_inode_open_cnts] in fork counts each of them for the child, and when the child
    closes its descriptors (in exit, or before exec) every count is back where it was: no
    pipe the parent still has is freed, and nothing else of the file system changes. *)
Theorem fork_exit_pipes (s : vfs D H C) :
  pipes_only (f_fds (v_fs s)) (f_files (v_fs s)) ->
  let fds := f_fds (v_fs s) in
  let s1 := Vfs (set_f_files (counted (open_from fds 3) (f_files (v_fs s))) (v_fs s)) (v_io s) in
  in_fs (update_inode_open_cnts fds) s = Ok (tt, s1) /\ close_files s1 = Ok (tt, s).
Proof.
  intros Hp fds s1. split.
  - unfold in_fs, update_inode_open_cnts. change (Z.to_nat (MAX_FILES_OPEN_PER_PROC - 3)) with 5%nat.
    change (open_cnts_loop 5 fds 3) with (open_cnts_loop 5 fds (Z.of_nat 3)).
    rewrite (open_cnts_run 5 (v_fs s) fds (f_files (v_fs s)) [] 3); try done; try (cbn [length]; lia).
    + by rewrite app_nil_r.
    + by rewrite counted_nil.
  - unfold close_files. change (Z.to_nat (MAX_FILES_OPEN_PER_PROC - 3)) with 5%nat.
    change (close_loop 5 3) with (close_loop 5 (Z.of_nat 3)).
    rewrite (close_loop_run 5 s1 fds (f_files (v_fs s)) [] 3); try done; try (cbn [length]; lia).
    + rewrite counted_nil. unfold s1. by destruct s as [[] ?].
    + by rewrite app_nil_r.
Qed.
End fd_table.

(** A process with the two ends of the pipe in slot 3, and a third descriptor for it. *)
Definition sample_pipe_fs : vfs mem_disk bump_heap char_state :=
  Vfs (set_f_fds [0; 1; 2; 3; 3; -1; 3; -1]
        (set_f_files (replicate 3 (File 0 0 0) ++ File 3 PIPE_FLAG 0xc0200000 :: replicate 28 (File 0 0 0)) sample_dir_fs))
      (CharState ∅ 0 []).

Lemma sample_pipes_only : pipes_only (f_fds (v_fs sample_pipe_fs)) (f_files (v_fs sample_pipe_fs)).
Proof.
  split; [done|]. intros k g Hk Hg Hn.
  assert (Hin : k = 3%nat \/ k = 4%nat \/ k = 6%nat).
  { pose proof (lookup_lt_Some _ _ _ Hg) as Hlt. cbn in Hlt.
    destruct (decide (k = 5%nat)) as [->|]; [by injection Hg as <-|].
    destruct (decide (k = 7%nat)) as [->|]; [by injection Hg as <-|]. lia. }
  assert (g = 3) as -> by (by destruct Hin as [-> |[-> | ->]]; injection Hg).
  split; [unfold MAX_FILES_OPEN_PER_PROC; lia|]. eexists. split; [reflexivity|]. split; [done|]. cbn. lia.
Qed.

Lemma fork_exit_pipes_witness :
  let s1 := Vfs (set_f_files (counted [3; 3; 3] (f_files (v_fs sample_pipe_fs))) (v_fs sample_pipe_fs)) (CharState ∅ 0 []) in
  in_fs (update_inode_open_cnts [0; 1; 2; 3; 3; -1; 3; -1]) sample_pipe_fs = Ok (tt, s1) /\
  close_files s1 = Ok (tt, sample_pipe_fs).
Proof. exact (fork_exit_pipes sample_pipe_fs sample_pipes_only). Defined.
