(* ===== verification/Exec.v ===== *)
(** * Exec: userprog/exec.c

    Loading an ELF file into the address space of the running process and entering it.
    The page tables and pools are those of Memory; the bytes of user space are a map from
    virtual addresses, and writing one needs its page mapped; the files are behind
    [ProgramFiles], which the file system calls of Fs and FdTable implement. *)

From S2P Require Import Prelude Bitmap Memory Cstring.

(** ** The files a program is loaded from *)

(** [sys_open], [sys_lseek], [sys_read] (the value returned and the bytes stored),
    [sys_close], and the loop of [proc_clean] that closes the descriptors from 3 on. *)
Class ProgramFiles (F : Type) : Type := {
  ex_open : list Z -> Z -> F -> outcome (Z * F);
  ex_lseek : Z -> Z -> Z -> F -> outcome (Z * F);
  ex_read : Z -> Z -> F -> outcome (Z * list Z * F);
  ex_close : Z -> F -> outcome (Z * F);
  ex_close_files : F -> outcome F
}.

(** [ex_named f path] is the content of the file [path] names, [ex_fd f fd] the content of
    the file open at [fd] and the position in it. *)
Class ProgramFilesLaws (F : Type) `{!ProgramFiles F} : Type := {
  ex_named : F -> list Z -> option (list Z);
  ex_fd : F -> Z -> option (list Z * Z);
  ex_open_spec : forall f path, match ex_named f path with
    | Some data => exists fd f', ex_open path 0 f = Ok (fd, f') /\ 2 < fd /\ ex_fd f' fd = Some (data, 0)
    | None => exists f', ex_open path 0 f = Ok (-1, f')
    end;
  ex_lseek_spec : forall f fd data pos off, ex_fd f fd = Some (data, pos) ->
    0 <= off < Z.of_nat (length data) -> exists f', ex_lseek fd off 1 f = Ok (off, f') /\
      ex_fd f' fd = Some (data, off);
  ex_lseek_end : forall f fd data pos off, ex_fd f fd = Some (data, pos) ->
    off < 0 \/ Z.of_nat (length data) <= off -> ex_lseek fd off 1 f = Ok (-1, f);
  ex_read_spec : forall f fd data pos n, ex_fd f fd = Some (data, pos) -> 0 <= pos -> 0 < n ->
    let m := Z.min n (Z.of_nat (length data) - pos) in
    exists f', ex_read fd n f = Ok (if 0 <? m then m else -1, take (Z.to_nat m) (drop (Z.to_nat pos) data), f') /\
      ex_fd f' fd = Some (data, pos + Z.max 0 m);
  ex_close_spec : forall f fd data pos, ex_fd f fd = Some (data, pos) ->
    exists f', ex_close fd f = Ok (0, f') /\ ex_fd f' fd = None;
  ex_close_files_spec : forall f, exists f', ex_close_files f = Ok f' /\
    forall path, ex_named f' path = ex_named f path
}.

(** ** userprog/elf.h *)

Record Elf32_Ehdr : Type := Ehdr {
  e_ident : list Z; e_type : Z; e_machine : Z; e_version : Z; e_entry : Z; e_phoff : Z; e_shoff : Z;
  e_flags : Z; e_ehsize : Z; e_phentsize : Z; e_phnum : Z; e_shentsize : Z; e_shnum : Z; e_shstrndx : Z
}.
Record Elf32_Phdr : Type := Phdr {
  p_type : Z; p_offset : Z; p_vaddr : Z; p_paddr : Z; p_filesz : Z; p_memsz : Z; p_flags : Z; p_align : Z
}.
Definition sizeof_ehdr : Z := 52.
Definition sizeof_phdr : Z := 32.
Definition PT_LOAD : Z := 1.

(** The [n] bytes of a field at offset [o] of a struct that was read. *)
Definition field (b : list Z) (o n : nat) : Z := le_val (take n (drop o b)).

Definition ehdr_of (b : list Z) : Elf32_Ehdr :=
  Ehdr (take 16 b) (field b 16 2) (field b 18 2) (field b 20 4) (field b 24 4) (field b 28 4) (field b 32 4)
    (field b 36 4) (field b 40 2) (field b 42 2) (field b 44 2) (field b 46 2) (field b 48 2) (field b 50 2).
Definition phdr_of (b : list Z) : Elf32_Phdr :=
  Phdr (field b 0 4) (field b 4 4) (field b 8 4) (field b 12 4) (field b 16 4) (field b 20 4) (field b 24 4) (field b 28 4).

(** ["\177ELF\1\1\1"]. *)
Definition elf_magic : list Z := [127; 69; 76; 70; 1; 1; 1].

(** ** The state *)

(** The running thread is the PCB at [x_cur], its name [x_name] (16 bytes), the words of
    its kernel stack [x_stack]. *)
Record est (F : Type) : Type := ESt {
  x_mem : mst; x_bytes : gmap Z Z; x_files : F; x_cur : Z; x_name : list Z; x_stack : gmap Z Z
}.
Arguments ESt {F}.
Arguments x_mem {F} _.
Arguments x_bytes {F} _.
Arguments x_files {F} _.
Arguments x_cur {F} _.
Arguments x_name {F} _.
Arguments x_stack {F} _.

Section exec.
Context {F : Type} `{!ProgramFiles F}.
Notation X := (KM (est F)).

Definition set_mem (m : mst) (s : est F) : est F := ESt m (x_bytes s) (x_files s) (x_cur s) (x_name s) (x_stack s).
Definition set_bytes (b : gmap Z Z) (s : est F) : est F := ESt (x_mem s) b (x_files s) (x_cur s) (x_name s) (x_stack s).
Definition set_files (f : F) (s : est F) : est F := ESt (x_mem s) (x_bytes s) f (x_cur s) (x_name s) (x_stack s).
Definition set_name (n : list Z) (s : est F) : est F := ESt (x_mem s) (x_bytes s) (x_files s) (x_cur s) n (x_stack s).
Definition set_stack (m : gmap Z Z) (s : est F) : est F := ESt (x_mem s) (x_bytes s) (x_files s) (x_cur s) (x_name s) m.

Definition in_mem {A} (m : KM mst A) : X A := fun s =>
  match m (x_mem s) with Ok (a, v) => Ok (a, set_mem v s) | Err e => Err e end.
Definition in_files {A} (m : F -> outcome (A * F)) : X A := fun s =>
  match m (x_files s) with Ok (a, f) => Ok (a, set_files f s) | Err e => Err e end.

(** Storing bytes at a user address, page by page faults included. *)
Fixpoint store_bytes (bs : list Z) (a : Z) : X unit :=
  match bs with
  | [] => kret tt
  | b :: bs => fun s =>
      match lookup_page (m_tables (x_mem s)) (a - a mod PG_SIZE) with
      | Some _ => store_bytes bs (u32 (a + 1)) (set_bytes (<[a := b]> (x_bytes s)) s)
      | None => Err OutOfBounds
      end
  end.

(** [sys_read] into a local struct, and into user memory. *)
Definition read_struct (fd n : Z) : X (Z * list Z) := in_files (ex_read fd n).
Definition read_user (fd vaddr n : Z) : X Z :=
  r <- in_files (ex_read fd n) ;;
  store_bytes r.2 vaddr ;;;
  kret r.1.

(** ** Loading *)

(** [!( *pde & 1) || !( *pte & 1)]: the entry of the table is read only when there is one. *)
Definition page_absent (vaddr_page : Z) : X bool :=
  pde <- in_mem (load (pde_ptr vaddr_page)) ;;
  if Z.land pde 1 =? 0 then kret true
  else pte <- in_mem (load (pte_ptr vaddr_page)) ;; kret (Z.land pte 1 =? 0).

(** The loop that maps the pages of a segment, [n] of which are left. *)
Fixpoint map_segment (n : nat) (vaddr_page : Z) : X bool :=
  match n with
  | O => kret true
  | S n =>
      absent <- page_absent vaddr_page ;;
      ok <- (if (absent : bool) then
               a <- in_mem (get_a_page PF_USER vaddr_page) ;; kret (negb (a =? 0))
             else kret true) ;;
      if (ok : bool) then map_segment n (u32 (vaddr_page + PG_SIZE)) else kret false
  end.

Definition occupy_pages (filesz vaddr : Z) : Z :=
  let size_in_first_page := u32 (PG_SIZE - Z.land vaddr 0xfff) in
  if size_in_first_page <? filesz then u32 (DIV_ROUND_UP (u32 (filesz - size_in_first_page)) PG_SIZE + 1) else 1.

Definition segment_load (fd offset filesz vaddr : Z) : X bool :=
  let vaddr_first_page := Z.land vaddr 0xfffff000 in
  ok <- map_segment (Z.to_nat (occupy_pages filesz vaddr)) vaddr_first_page ;;
  if (ok : bool) then
    in_files (ex_lseek fd (i32 offset) 1) ;;;
    read_user fd vaddr filesz ;;;
    kret true
  else kret false.

(** The loop over the program headers, [n] of which are left. *)
Fixpoint load_headers (n : nat) (fd prog_header_offset prog_header_size : Z) : X bool :=
  match n with
  | O => kret true
  | S n =>
      in_files (ex_lseek fd (i32 prog_header_offset) 1) ;;;
      r <- read_struct fd prog_header_size ;;
      if negb (r.1 =? prog_header_size) then kret false
      else
        let prog_header := phdr_of r.2 in
        ok <- (if p_type prog_header =? PT_LOAD then
                 segment_load fd (p_offset prog_header) (p_filesz prog_header) (p_vaddr prog_header)
               else kret true) ;;
        if (ok : bool) then load_headers n fd (u32 (prog_header_offset + prog_header_size)) prog_header_size
        else kret false
  end.

Definition elf_ok (b : list Z) : outcome bool :=
  let elf_header := ehdr_of b in
  let? d := memcmp b 0 elf_magic 0 7 in
  Ok ((d =? 0) && (e_type elf_header =? 2) && (e_machine elf_header =? 3) && (e_version elf_header =? 1)
      && negb (1024 <? e_phnum elf_header) && (e_phentsize elf_header =? sizeof_phdr)).

Definition load_open (fd : Z) : X Z :=
  r <- read_struct fd sizeof_ehdr ;;
  if negb (r.1 =? sizeof_ehdr) then kret (-1)
  else
    good <- klift (elf_ok r.2) ;;
    if negb good then kret (-1)
    else
      let elf_header := ehdr_of r.2 in
      ok <- load_headers (Z.to_nat (e_phnum elf_header)) fd (e_phoff elf_header) (e_phentsize elf_header) ;;
      kret (if (ok : bool) then i32 (e_entry elf_header) else -1).

Definition load (pathname : list Z) : X Z :=
  fd <- in_files (ex_open pathname 0) ;;
  if fd =? -1 then kret (-1)
  else
    ret <- load_open fd ;;
    in_files (ex_close fd) ;;;
    kret ret.

(** ** Entering the program *)

Definition proc_clean : X unit :=
  in_mem (kmod (fun m => set_m_udescs
    (map (fun d => MemBlockDesc (block_size d) (block_per_arena d) []) (m_udescs m)) m)) ;;;
  in_files (fun f => let? f' := ex_close_files f in Ok (tt, f')).

(** [while (argv[argc]) argc++], the array ending in the last element it is given. *)
Fixpoint count_args (fuel : nat) (argv : list Z) (argc : Z) : outcome Z :=
  match fuel with
  | O => Err Diverges
  | S fuel =>
      let? p := rd argv argc in
      if p =? 0 then Ok argc else count_args fuel argv (u32 (argc + 1))
  end.

Definition put_word (a v : Z) : X unit := kmod (fun s => set_stack (<[a := v]> (x_stack s)) s).

(** [argv_ptr] is the address of [argv].  [None]: the process has left through [intr_exit]
    into the program; [Some (-1)]: the call returns. *)
Definition sys_execv (path : list Z) (argv_ptr : Z) (argv : list Z) : X (option Z) :=
  argc <- klift (count_args (S (length argv)) argv 0) ;;
  proc_clean ;;;
  entry_point <- load path ;;
  if entry_point =? -1 then kret (Some (-1))
  else
    s <- kget ;;
    name <- klift (memcpy (x_name s) (Some 0) path (Some 0) 16) ;;
    name <- klift (wr name 15 0) ;;
    kmod (set_name name) ;;;
    let intr_0_stack := u32 (u32 (x_cur s + PG_SIZE) - 76) in
    put_word (intr_0_stack + 20) argv_ptr ;;;
    put_word (intr_0_stack + 28) argc ;;;
    put_word (intr_0_stack + 56) (u32 entry_point) ;;;
    put_word (intr_0_stack + 68) 0xc0000000 ;;;
    kret None.
End exec.

(** ** Mapping the pages of a segment *)

(** The memory of a user process whose allocator can still map [k] pages. *)
Record mem_ok (m : mst) (k : Z) : Prop := {
  mo_user : m_user m = true;
  mo_pools : pools_ok m;
  mo_lock : 0 <= m_ulock m;
  mo_bits : bitmap_ok (vaddr_bitmap (m_uvaddr m));
  mo_start : 0 <= vaddr_start (m_uvaddr m) /\ vaddr_start (m_uvaddr m) mod PG_SIZE = 0 /\
    vaddr_start (m_uvaddr m) + bit_len (vaddr_bitmap (m_uvaddr m)) * PG_SIZE <= 0xffc00000;
  mo_free : k <= free_count (m_kpool m) /\ k <= free_count (m_upool m)
}.

(** The pages [get_a_page] can map: those of the address pool but its first one. *)
Definition in_uvaddr (m : mst) (v : Z) : Prop :=
  vaddr_start (m_uvaddr m) < v < vaddr_start (m_uvaddr m) + bit_len (vaddr_bitmap (m_uvaddr m)) * PG_SIZE /\
  v mod PG_SIZE = 0.

(** [m'] maps every page [m] maps to the same frame, and has the same address pool. *)
Definition maps_more (m m' : mst) : Prop :=
  (forall w f, vpage w -> lookup_page (m_tables m) w = Some f -> lookup_page (m_tables m') w = Some f) /\
  (forall v, in_uvaddr m v -> in_uvaddr m' v).

Lemma maps_more_refl m : maps_more m m.
Proof. by split. Qed.

Lemma maps_more_trans m1 m2 m3 : maps_more m1 m2 -> maps_more m2 m3 -> maps_more m1 m3.
Proof. intros [A1 A2] [B1 B2]. split; auto. Qed.

Lemma in_uvaddr_vpage m k v : mem_ok m k -> in_uvaddr m v -> vpage v.
Proof. intros [_ _ _ _ (? & ? & ?) _] [? ?]. split; [lia|done]. Qed.

Lemma mem_ok_less m k j : mem_ok m k -> j <= k -> mem_ok m j.
Proof. intros [? ? ? ? ? [? ?]] Hj. split; try done. lia. Qed.

Lemma get_a_page_run m v k :
  mem_ok m k -> 0 < k -> in_uvaddr m v -> lookup_page (m_tables m) v = None ->
  exists m', get_a_page PF_USER v m = Ok (v, m') /\ mem_ok m' (k - 1) /\
    is_Some (lookup_page (m_tables m') v) /\ maps_more m m'.
Proof.
  intros Hok Hk Hin Hnone. pose proof (in_uvaddr_vpage _ _ _ Hok Hin) as Hv.
  destruct Hok as [Hu Hp Hl Hb (Hs0 & Hs1 & Hs2) [Hfk Hfu]]. destruct Hin as [Hr Hmod].
  set (start := vaddr_start (m_uvaddr m)) in *. set (bm := vaddr_bitmap (m_uvaddr m)) in *.
  set (i := (v - start) / PG_SIZE).
  assert (Hi : 0 < i < bit_len bm /\ v = start + i * PG_SIZE).
  { unfold i, PG_SIZE in *. pose proof (Z_div_mod_eq_full v 4096). pose proof (Z_div_mod_eq_full start 4096).
    replace ((v - start) / 4096) with (v / 4096 - start / 4096); [nia|].
    apply Z.div_unique_exact; lia. }
  assert (Hlen : bit_len bm <= Z.of_nat (length (bits bm)) * 8) by (unfold bit_len; destruct Hb; lia).
  destruct (bitmap_set_at bm i true Hb) as (b' & Hset & Hb' & Hbl & _ & _); [lia|]. change (Z.b2z true) with 1 in Hset.
  set (m1 := set_m_uvaddr (VPool b' start) (set_m_ulock (m_ulock m + 1) m)).
  assert (Hp1 : pools_ok m1) by (by destruct Hp; split).
  destruct (palloc_run PF_USER m1) as (f & up & Hpal & Hall).
  { apply Hp1. } { apply Z.lt_le_trans with 0x102000; [lia|]. by apply (pool_low PF_USER). } { cbn. lia. }
  destruct (allocated_step _ _ _ Hall) as [Hup Hups]. destruct Hall as ([Hf Hfm] & _).
  set (m2 := with_pool PF_USER up m1) in *.
  assert (Hf32 : 0 < f < 2 ^ 32).
  { pose proof (pool_low PF_USER _ Hp1) as Hlow. destruct (po_user _ Hp1) as (_ & _ & Hend). cbn in *. lia. }
  assert (Hp2 : pools_ok m2).
  { apply (pools_ok_step m1 (m_tables m1) (m_kpool m1) up 0 1 Hp1); [apply pool_step_refl; [apply Hp1|lia]|by split]. }
  destruct (page_table_add_run m2 v f Hp2 Hv Hnone) as (t & kp & Hadd & Hkp & Hlk & Hother); [lia|done|cbn; lia|].
  set (m3 := with_maps t kp (m_upool m2) m2) in *.
  exists (set_m_ulock (m_ulock m) m3). split; [|split; [|split]].
  - unfold get_a_page. rewrite (kbind_ok _ _ m tt (set_m_ulock (m_ulock m + 1) m)) by done.
    set (m0 := set_m_ulock (m_ulock m + 1) m). rewrite (kbind_ok _ _ m0 true m0) by (unfold kreads, m0; cbn; by rewrite Hu).
    rewrite bool_decide_eq_true_2 by done. cbn [Bool.eqb].
    rewrite (kbind_ok _ _ m0 tt m1).
    2: { rewrite (kbind_ok _ _ m0 (m_uvaddr m) m0) by done. fold start.
      rewrite (u32_small (v - start)) by lia. fold i.
      rewrite (i32_small i) by (unfold bit_len in *; destruct Hb; lia).
      rewrite (proj2 (Z.ltb_lt 0 i)) by lia. rewrite (kbind_ok _ _ m0 tt m0) by done.
      rewrite (kbind_ok _ _ m0 b' m0) by (unfold klift; fold bm; rewrite u32_small by (unfold bit_len in *; destruct Hb; lia); by rewrite Hset).
      done. }
    rewrite (kbind_ok _ _ _ _ _ Hpal). rewrite (proj2 (Z.eqb_neq f 0)) by lia.
    rewrite (kbind_ok _ _ _ _ _ Hadd).
    unfold pool_unlock. rewrite (kbind_ok _ _ m3 tt (set_m_ulock (m_ulock m) m3)); [done|].
    rewrite (kbind_ok _ _ m3 (m_ulock m + 1) m3) by done.
    rewrite (proj2 (Z.ltb_lt 0 _)) by lia. rewrite (kbind_ok _ _ m3 tt m3) by done.
    unfold kmod. do 2 f_equal. f_equal. lia.
  - split; try done.
    + pose proof (pools_ok_step m2 t kp (m_upool m2) 1 0 Hp2 Hkp) as Hp3.
      destruct Hp3 as [? ? ? ?]; [apply pool_step_refl; [apply Hp2|lia]|]. by split.
    + cbn. split_and!; [done|done|]. unfold bit_len in *. rewrite Hbl. fold bm. lia.
    + cbn. destruct Hkp as (_ & _ & _ & ? & _). destruct Hups as (_ & _ & ? & _). cbn in *. lia.
  - exists f. exact Hlk.
  - split; [|intros w [Hw ?]; split; [|done]; cbn; unfold bit_len in *; rewrite Hbl; exact Hw].
    intros w g Hw Hg. cbn. rewrite Hother; [exact Hg|done|]. intros ->. congruence.
Qed.

Section loading.
Context {F : Type} `{!ProgramFiles F}.
Implicit Types (s : est F).

Lemma in_mem_run {A} (f : KM mst A) s a m : f (x_mem s) = Ok (a, m) -> in_mem f s = Ok (a, set_mem m s).
Proof. intros H. unfold in_mem. by rewrite H. Qed.

Lemma set_mem_same s : set_mem (x_mem s) s = s.
Proof. by destruct s. Qed.

(** Whether [v] is mapped is what the two loads of [segment_load] see. *)
Lemma absent_run s v :
  vpage v -> page_absent v s = Ok (bool_decide (lookup_page (m_tables (x_mem s)) v = None), s).
Proof.
  intros Hv. unfold page_absent.
  rewrite (kbind_ok _ _ _ _ _ (in_mem_run _ _ _ _ (load_pde (x_mem s) v Hv))), set_mem_same, land1_odd.
  unfold lookup_page. destruct (Z.odd (table_word (m_tables (x_mem s)) (pde_ptr v))) eqn:Hd; cbn [negb andb].
  - rewrite (kbind_ok _ _ _ _ _ (in_mem_run _ _ _ _ (load_pte (x_mem s) v Hv Hd))), set_mem_same, land1_odd.
    unfold kret. by destruct (Z.odd (table_word (m_tables (x_mem s)) (pte_ptr v))).
  - done.
Qed.

Definition can_map (m : mst) (v : Z) : Prop :=
  vpage v /\ (is_Some (lookup_page (m_tables m) v) \/ in_uvaddr m v).

Lemma can_map_more m m' v : maps_more m m' -> can_map m v -> can_map m' v.
Proof. intros [H1 H2] [Hv [[f Hf]|Hin]]; split; auto. left. exists f. auto. Qed.

Lemma map_segment_run n v s k :
  mem_ok (x_mem s) k -> Z.of_nat n <= k ->
  (forall j, 0 <= j < Z.of_nat n -> can_map (x_mem s) (v + j * PG_SIZE)) ->
  exists m', map_segment n v s = Ok (true, set_mem m' s) /\ mem_ok m' (k - Z.of_nat n) /\
    maps_more (x_mem s) m' /\
    (forall j, 0 <= j < Z.of_nat n -> is_Some (lookup_page (m_tables m') (v + j * PG_SIZE))).
Proof.
  revert v s k. induction n as [|n IH]; intros v s k Hok Hn Hmap; cbn [map_segment].
  { exists (x_mem s). rewrite set_mem_same. split_and!; [done| |apply maps_more_refl|lia].
    by replace (k - Z.of_nat 0) with k by lia. }
  destruct (Hmap 0) as [Hv Hc]; [lia|]. rewrite Z.mul_0_l, Z.add_0_r in *.
  assert (Hnext : u32 (v + PG_SIZE) = v + PG_SIZE) by (apply u32_small; unfold PG_SIZE; destruct Hv; lia).
  rewrite (kbind_ok _ _ _ _ _ (absent_run s v Hv)).
  assert (Hone : exists m1, (if bool_decide (lookup_page (m_tables (x_mem s)) v = None) then
      a <- in_mem (get_a_page PF_USER v) ;; kret (negb (a =? 0)) else kret true) s = Ok (true, set_mem m1 s) /\
      mem_ok m1 (k - 1) /\ maps_more (x_mem s) m1 /\ is_Some (lookup_page (m_tables m1) v)).
  { case_bool_decide as Hnone.
    - destruct Hc as [[f Hf]|Hin]; [congruence|].
      destruct (get_a_page_run _ v k Hok) as (m1 & R & Ok1 & Hs & Hm); [lia|done|done|].
      exists m1. split_and!; try done. rewrite (kbind_ok _ _ _ _ _ (in_mem_run _ _ _ _ R)).
      rewrite (proj2 (Z.eqb_neq v 0)); [done|]. destruct (mo_start _ _ Hok) as [? _]. destruct Hin. lia.
    - exists (x_mem s). rewrite set_mem_same. split_and!; [done|by eapply mem_ok_less; [done|lia]|apply maps_more_refl|].
      by destruct (lookup_page (m_tables (x_mem s)) v). }
  destruct Hone as (m1 & R1 & Ok1 & M1 & [f1 S1]). rewrite (kbind_ok _ _ _ _ _ R1), Hnext.
  destruct (IH (v + PG_SIZE) (set_mem m1 s) (k - 1)) as (m2 & R2 & Ok2 & M2 & S2); [done|lia| |].
  { intros j Hj. apply (can_map_more (x_mem s)); [done|].
    replace (v + PG_SIZE + j * PG_SIZE) with (v + (j + 1) * PG_SIZE) by lia. apply Hmap. lia. }
  exists m2. split_and!.
  - exact R2.
  - by replace (k - Z.of_nat (S n)) with (k - 1 - Z.of_nat n) by lia.
  - by eapply maps_more_trans.
  - intros j Hj. destruct (decide (j = 0)) as [->|Hj0].
    + rewrite Z.mul_0_l, Z.add_0_r. exists f1. by apply M2.
    + replace (v + j * PG_SIZE) with (v + PG_SIZE + (j - 1) * PG_SIZE) by lia. apply S2. lia.
Qed.

(** ** Bytes *)

(** The memory [m] with [bs] stored from [a] on. *)
Fixpoint stored (bs : list Z) (a : Z) (m : gmap Z Z) : gmap Z Z :=
  match bs with [] => m | b :: bs => stored bs (a + 1) (<[a := b]> m) end.

Lemma stored_other bs a m x : x < a \/ a + Z.of_nat (length bs) <= x -> stored bs a m !! x = m !! x.
Proof.
  revert a m. induction bs as [|b bs IH]; intros a m Hx; cbn [stored length] in *; [done|].
  rewrite IH by lia. apply lookup_insert_ne. lia.
Qed.

Lemma stored_at bs a m i : 0 <= i < Z.of_nat (length bs) -> stored bs a m !! (a + i) = bs !! Z.to_nat i.
Proof.
  revert a m i. induction bs as [|b bs IH]; intros a m i Hi; cbn [stored length] in *; [lia|].
  destruct (decide (i = 0)) as [->|Hne].
  - rewrite Z.add_0_r, stored_other by lia. apply lookup_insert_eq.
  - replace (a + i) with (a + 1 + (i - 1)) by lia. rewrite IH by lia.
    replace (Z.to_nat i) with (S (Z.to_nat (i - 1))) by lia. done.
Qed.

Lemma store_bytes_run bs a s :
  0 <= a -> a + Z.of_nat (length bs) < 2 ^ 32 ->
  (forall i, 0 <= i < Z.of_nat (length bs) ->
     is_Some (lookup_page (m_tables (x_mem s)) (a + i - (a + i) mod PG_SIZE))) ->
  store_bytes bs a s = Ok (tt, set_bytes (stored bs a (x_bytes s)) s).
Proof.
  revert a s. induction bs as [|b bs IH]; intros a s Ha Hend Hmap; cbn [store_bytes stored].
  { by destruct s. }
  cbn [length] in *. destruct (Hmap 0) as [f Hf]; [lia|]. rewrite Z.add_0_r in Hf. rewrite Hf.
  rewrite u32_small by lia. rewrite IH; [done|lia|lia|]. intros i Hi. cbn [x_mem set_bytes].
  replace (a + 1 + i) with (a + (i + 1)) by lia. apply Hmap. lia.
Qed.

(** The page of each byte of a segment is one of the [occupy_pages] the loop maps. *)
Lemma occupy_pages_eq filesz vaddr :
  0 <= vaddr -> 0 < filesz -> vaddr + filesz <= 0xc0000000 ->
  Z.land vaddr 0xfffff000 = vaddr - vaddr mod PG_SIZE /\
  occupy_pages filesz vaddr = (vaddr mod PG_SIZE + filesz + (PG_SIZE - 1)) / PG_SIZE.
Proof.
  intros Hv Hf He. assert (Hoff : Z.land vaddr 0xfff = vaddr mod PG_SIZE).
  { change 0xfff with (Z.ones 12). rewrite Z.land_ones by lia. done. }
  pose proof (Z.mod_pos_bound vaddr PG_SIZE) as Hb. pose proof (Z_div_mod_eq_full vaddr PG_SIZE) as Hd. split.
  - change 0xfffff000 with (Z.shiftl (Z.ones 20) 12). rewrite land_high by lia. change (2 ^ 12) with PG_SIZE.
    rewrite (Z.mod_small (vaddr / PG_SIZE)); [lia|]. split; [by apply Z.div_pos|].
    apply Z.div_lt_upper_bound; unfold PG_SIZE; lia.
  - unfold occupy_pages. rewrite Hoff. unfold PG_SIZE in *. set (o := vaddr mod 4096) in *. rewrite (u32_small (4096 - o)) by lia.
    destruct (Z.ltb_spec (4096 - o) filesz).
    + unfold DIV_ROUND_UP. rewrite (u32_small (filesz - _)) by lia. rewrite (u32_small (filesz - _ + _)) by lia.
      rewrite (u32_small (filesz - _ + _ - _)) by lia.
      replace (o + filesz + (4096 - 1)) with (filesz - (4096 - o) + 4096 - 1 + 1 * 4096) by lia.
      rewrite Z.div_add by lia. apply u32_small.
      assert (0 <= (filesz - (4096 - o) + 4096 - 1) / 4096) by (apply Z.div_pos; lia).
      assert ((filesz - (4096 - o) + 4096 - 1) / 4096 < 2 ^ 31) by (apply Z.div_lt_upper_bound; lia). lia.
    + apply Z.div_unique with (r := o + filesz - 1); lia.
Qed.

Lemma segment_page vaddr filesz i :
  0 <= vaddr -> 0 < filesz -> vaddr + filesz <= 0xc0000000 -> 0 <= i < filesz ->
  exists j, 0 <= j < occupy_pages filesz vaddr /\
    vaddr + i - (vaddr + i) mod PG_SIZE = Z.land vaddr 0xfffff000 + j * PG_SIZE.
Proof.
  intros Hv Hf He Hi. destruct (occupy_pages_eq filesz vaddr Hv Hf He) as [-> ->].
  unfold PG_SIZE in *. pose proof (Z.mod_pos_bound vaddr 4096). pose proof (Z_div_mod_eq_full vaddr 4096).
  pose proof (Z.mod_pos_bound (vaddr + i) 4096). pose proof (Z_div_mod_eq_full (vaddr + i) 4096).
  exists ((vaddr + i) / 4096 - vaddr / 4096). split; [|lia].
  split; [assert (vaddr / 4096 <= (vaddr + i) / 4096) by (apply Z.div_le_mono; lia); lia|].
  assert (Hlt : (vaddr + i) / 4096 - vaddr / 4096 + 1 <= (vaddr mod 4096 + filesz + (4096 - 1)) / 4096); [|lia].
  apply Z.div_le_lower_bound; lia.
Qed.
End loading.

(** ** Loading a program *)

Section loaded.
Context {F : Type} `{!ProgramFiles F, !ProgramFilesLaws F}.
Implicit Types (s : est F) (h : Elf32_Phdr).

(** The bytes of a segment in the file, and the memory with the segments of [hs] loaded. *)
Definition segment_bytes (data : list Z) h : list Z :=
  take (Z.to_nat (p_filesz h)) (drop (Z.to_nat (p_offset h)) data).
Fixpoint image (data : list Z) (hs : list Elf32_Phdr) (m : gmap Z Z) : gmap Z Z :=
  match hs with
  | [] => m
  | h :: hs => image data hs (if p_type h =? PT_LOAD then stored (segment_bytes data h) (p_vaddr h) m else m)
  end.
Fixpoint image_pages (hs : list Elf32_Phdr) : Z :=
  match hs with
  | [] => 0
  | h :: hs => (if p_type h =? PT_LOAD then occupy_pages (p_filesz h) (p_vaddr h) else 0) + image_pages hs
  end.

(** The pages of a segment. *)
Definition segment_page_at h (j : Z) : Z := Z.land (p_vaddr h) 0xfffff000 + j * PG_SIZE.

(** A segment that lies in the file and in user space, where its pages can be mapped. *)
Record segment_ok (data : list Z) (m : mst) h : Prop := {
  sg_size : 0 < p_filesz h;
  sg_addr : 0 <= p_vaddr h /\ p_vaddr h + p_filesz h <= 0xc0000000;
  sg_file : 0 <= p_offset h /\ p_offset h + p_filesz h <= Z.of_nat (length data);
  sg_map : forall j, 0 <= j < occupy_pages (p_filesz h) (p_vaddr h) -> can_map m (segment_page_at h j)
}.

Definition mapped_segment (m : mst) h : Prop :=
  forall j, 0 <= j < occupy_pages (p_filesz h) (p_vaddr h) -> is_Some (lookup_page (m_tables m) (segment_page_at h j)).

Lemma segment_ok_more data m m' h : maps_more m m' -> segment_ok data m h -> segment_ok data m' h.
Proof. intros Hm [? ? ? Hc]. split; try done. intros j Hj. eapply can_map_more; [done|by apply Hc]. Qed.

Lemma mapped_more data m m' h : maps_more m m' -> segment_ok data m h -> mapped_segment m h -> mapped_segment m' h.
Proof.
  intros [Hm _] Hok Hs j Hj. destruct (Hs j Hj) as [f Hf]. exists f. apply Hm; [|done].
  by apply (sg_map _ _ _ Hok).
Qed.

Lemma in_files_run {A} (g : F -> outcome (A * F)) s a f : g (x_files s) = Ok (a, f) -> in_files g s = Ok (a, set_files f s).
Proof. intros H. unfold in_files. by rewrite H. Qed.

Lemma segment_bytes_length data m h :
  segment_ok data m h -> Z.of_nat (length (segment_bytes data h)) = p_filesz h.
Proof.
  intros [? ? ? _]. unfold segment_bytes. rewrite length_take_le; [lia|]. rewrite length_drop. lia.
Qed.

Lemma occupy_pages_pos data m h : segment_ok data m h -> 0 < occupy_pages (p_filesz h) (p_vaddr h).
Proof.
  intros [Hsz [H0 He] _ _]. destruct (segment_page (p_vaddr h) (p_filesz h) 0 H0 Hsz He) as (j & Hj & _); lia.
Qed.

Lemma segment_load_run s h fd data pos k :
  mem_ok (x_mem s) k -> occupy_pages (p_filesz h) (p_vaddr h) <= k -> segment_ok data (x_mem s) h ->
  Z.of_nat (length data) < 2 ^ 31 -> ex_fd (x_files s) fd = Some (data, pos) ->
  exists m f pos', segment_load fd (p_offset h) (p_filesz h) (p_vaddr h) s
    = Ok (true, set_bytes (stored (segment_bytes data h) (p_vaddr h) (x_bytes s)) (set_files f (set_mem m s))) /\
    mem_ok m (k - occupy_pages (p_filesz h) (p_vaddr h)) /\ maps_more (x_mem s) m /\ mapped_segment m h /\
    ex_fd f fd = Some (data, pos').
Proof.
  intros Hok Hk Hseg Hlen Hfd. pose proof Hseg as [Hsz [H0 He] [Ho Hoe] Hmap].
  pose proof (occupy_pages_pos _ _ _ Hseg) as Hpos.
  destruct (map_segment_run (Z.to_nat (occupy_pages (p_filesz h) (p_vaddr h))) (Z.land (p_vaddr h) 0xfffff000) s k Hok)
    as (m & R1 & Ok1 & M1 & S1); [lia|intros j Hj; apply Hmap; lia|]. rewrite Z2Nat.id in Ok1, S1 by lia.
  destruct (ex_lseek_spec _ _ _ _ (p_offset h) Hfd) as (f1 & R2 & Hfd1); [lia|].
  destruct (ex_read_spec f1 fd data (p_offset h) (p_filesz h) Hfd1 Ho Hsz) as (f2 & R3 & Hfd2).
  rewrite Z.min_l in R3, Hfd2 by lia. rewrite (proj2 (Z.ltb_lt 0 _) Hsz) in R3.
  exists m, f2, (p_offset h + Z.max 0 (p_filesz h)). split; [|done].
  unfold segment_load. rewrite (kbind_ok _ _ _ _ _ R1).
  rewrite (kbind_ok _ _ (set_mem m s) (p_offset h) (set_files f1 (set_mem m s))).
  2: { apply in_files_run. rewrite i32_small by lia. exact R2. }
  set (s1 := set_files f1 (set_mem m s)). set (s2 := set_files f2 (set_mem m s)).
  rewrite (kbind_ok _ _ s1 (p_filesz h) (set_bytes (stored (segment_bytes data h) (p_vaddr h) (x_bytes s)) s2)); [done|].
  unfold read_user. rewrite (kbind_ok _ _ s1 (p_filesz h, segment_bytes data h) s2) by exact (in_files_run _ s1 _ f2 R3).
  cbn [fst snd]. rewrite (kbind_ok _ _ s2 tt (set_bytes (stored (segment_bytes data h) (p_vaddr h) (x_bytes s)) s2)); [done|].
  apply (store_bytes_run (segment_bytes data h) (p_vaddr h) s2); [done| |].
  - rewrite (segment_bytes_length _ _ _ Hseg). lia.
  - rewrite (segment_bytes_length _ _ _ Hseg). intros i Hi.
    destruct (segment_page (p_vaddr h) (p_filesz h) i H0 Hsz He Hi) as (j & Hj & ->). by apply S1.
Qed.

(** The program headers of a file: [n] of them from offset [o] on. *)
Fixpoint headers (n : nat) (data : list Z) (o : Z) : list Elf32_Phdr :=
  match n with
  | O => []
  | S n => phdr_of (take 32 (drop (Z.to_nat o) data)) :: headers n data (o + sizeof_phdr)
  end.

Definition loadable (data : list Z) (m : mst) (hs : list Elf32_Phdr) : Prop :=
  forall h, h ∈ hs -> p_type h = PT_LOAD -> segment_ok data m h.

Lemma loadable_more data m m' h hs : maps_more m m' -> loadable data m (h :: hs) -> loadable data m' hs.
Proof. intros Hm Hl h' Hin Ht. eapply segment_ok_more; [done|]. apply Hl; [by right|done]. Qed.

Lemma image_pages_pos data m hs : loadable data m hs -> 0 <= image_pages hs.
Proof.
  induction hs as [|h hs IH]; intros Hl; cbn [image_pages]; [lia|].
  assert (0 <= image_pages hs) by (apply IH; intros x Hx; apply Hl; by right).
  destruct (Z.eqb_spec (p_type h) PT_LOAD) as [Ht|]; [|lia].
  assert (0 < occupy_pages (p_filesz h) (p_vaddr h)) by (eapply occupy_pages_pos, Hl; [by left|done]). lia.
Qed.

(** The state after reading a struct of [n] bytes at [o]. *)
Lemma seek_read s fd data pos o n :
  ex_fd (x_files s) fd = Some (data, pos) -> 0 <= o -> 0 < n -> o + n <= Z.of_nat (length data) ->
  Z.of_nat (length data) < 2 ^ 31 ->
  exists f1 f2, in_files (ex_lseek fd (i32 o) 1) s = Ok (o, set_files f1 s) /\
    read_struct fd n (set_files f1 s) = Ok (n, take (Z.to_nat n) (drop (Z.to_nat o) data), set_files f2 s) /\
    ex_fd f2 fd = Some (data, o + n).
Proof.
  intros Hfd Ho Hn Hon Hlen. destruct (ex_lseek_spec _ _ _ _ o Hfd) as (f1 & R1 & Hfd1); [lia|].
  destruct (ex_read_spec f1 fd data o n Hfd1 Ho Hn) as (f2 & R2 & Hfd2).
  rewrite Z.min_l in R2, Hfd2 by lia. rewrite (proj2 (Z.ltb_lt 0 n) Hn) in R2. rewrite Z.max_r in Hfd2 by lia.
  exists f1, f2. split; [|split; [|done]].
  - apply in_files_run. rewrite i32_small by lia. exact R1.
  - exact (in_files_run _ (set_files f1 s) _ f2 R2).
Qed.

Lemma load_headers_run n s fd data pos o k :
  mem_ok (x_mem s) k -> image_pages (headers n data o) <= k -> loadable data (x_mem s) (headers n data o) ->
  Z.of_nat (length data) < 2 ^ 31 -> ex_fd (x_files s) fd = Some (data, pos) ->
  0 <= o -> o + Z.of_nat n * sizeof_phdr <= Z.of_nat (length data) ->
  exists m f pos', load_headers n fd o sizeof_phdr s
    = Ok (true, set_bytes (image data (headers n data o) (x_bytes s)) (set_files f (set_mem m s))) /\
    mem_ok m (k - image_pages (headers n data o)) /\ maps_more (x_mem s) m /\
    (forall h, h ∈ headers n data o -> p_type h = PT_LOAD -> mapped_segment m h) /\
    ex_fd f fd = Some (data, pos').
Proof.
  assert (Hz : sizeof_phdr = 32) by done. revert s pos o k. induction n as [|n IH]; intros s pos o k Hok Hk Hl Hlen Hfd Ho Hon; cbn [headers load_headers image image_pages] in *.
  { exists (x_mem s), (x_files s), pos. split_and!; [by destruct s|by rewrite Z.sub_0_r|apply maps_more_refl| |done].
    intros h Hh. by apply not_elem_of_nil in Hh. }
  destruct (seek_read s fd data pos o sizeof_phdr Hfd Ho) as (f1 & f2 & R1 & R2 & Hfd2); [lia|lia|done|].
  rewrite (kbind_ok _ _ _ _ _ R1), (kbind_ok _ _ _ _ _ R2). cbn [fst snd].
  rewrite Z.eqb_refl. cbn [negb]. change (Z.to_nat sizeof_phdr) with 32%nat.
  set (h := phdr_of (take 32 (drop (Z.to_nat o) data))) in *. set (hs := headers n data (o + sizeof_phdr)) in *.
  rewrite (u32_small (o + sizeof_phdr)) by lia. set (s1 := set_files f2 s).
  assert (Hrest : 0 <= image_pages hs) by (apply (image_pages_pos data (x_mem s)); intros x Hx; apply Hl; by right).
  assert (Hone : exists m f pos', (if p_type h =? PT_LOAD then segment_load fd (p_offset h) (p_filesz h) (p_vaddr h) else kret true) s1
    = Ok (true, set_bytes (if p_type h =? PT_LOAD then stored (segment_bytes data h) (p_vaddr h) (x_bytes s) else x_bytes s)
        (set_files f (set_mem m s))) /\
    mem_ok m (k - (if p_type h =? PT_LOAD then occupy_pages (p_filesz h) (p_vaddr h) else 0)) /\
    maps_more (x_mem s) m /\ (p_type h = PT_LOAD -> mapped_segment m h) /\ ex_fd f fd = Some (data, pos')).
  { destruct (Z.eqb_spec (p_type h) PT_LOAD) as [Ht|Hne].
    - assert (Hseg : segment_ok data (x_mem s1) h) by (apply Hl; [by left|done]).
      destruct (segment_load_run s1 h fd data (o + sizeof_phdr) k Hok) as (m & f & pos' & R & ? & ? & ? & ?); try done.
      { fold hs in Hk. lia. }
      by exists m, f, pos'.
    - exists (x_mem s), f2, (o + sizeof_phdr). split_and!; [by destruct s|by rewrite Z.sub_0_r|apply maps_more_refl|done|done]. }
  destruct Hone as (m1 & f3 & pos1 & R3 & Ok1 & M1 & S1 & Hfd3). rewrite (kbind_ok _ _ _ _ _ R3).
  cbv beta iota.
  match type of R3 with _ = Ok (true, ?st) => set (s2 := st) in * end.
  destruct (IH s2 pos1 (o + sizeof_phdr) (k - (if p_type h =? PT_LOAD then occupy_pages (p_filesz h) (p_vaddr h) else 0)))
    as (m & f & pos' & R & Ok2 & M2 & S2 & Hfd4); try done; try lia.
  { fold hs. lia. }
  { fold hs. apply (loadable_more data (x_mem s) _ h); [exact M1|exact Hl]. }
  fold hs in R, Ok2, S2.
  exists m, f, pos'. split_and!; try done.
  - by rewrite Z.sub_add_distr.
  - by eapply maps_more_trans.
  - intros h' [->|Hin]%elem_of_cons Ht; [|by apply S2].
    apply (mapped_more data m1); [done| |by apply S1]. eapply segment_ok_more; [exact M1|]. apply Hl; [by left|done].
Qed.

(** What [load] asks of a header: the first seven bytes, an executable (2) for the i386
    (3), version 1, at most 1024 program headers of 32 bytes. *)
Definition i386_executable (data : list Z) : Prop :=
  take 7 data = elf_magic /\ le_val (take 2 (drop 16 data)) = 2 /\ le_val (take 2 (drop 18 data)) = 3 /\
  le_val (take 4 (drop 20 data)) = 1 /\ le_val (take 2 (drop 44 data)) <= 1024 /\
  le_val (take 2 (drop 42 data)) = 32.

Definition is_byte (c : Z) : Prop := 0 <= c < 256.

Lemma memcmp_equal n (a b : list Z) k :
  Forall is_byte a -> Forall is_byte b ->
  (k + n <= length a)%nat -> (k + n <= length b)%nat ->
  exists d, memcmp_loop n a (Z.of_nat k) b (Z.of_nat k) = Ok d /\
    (d = 0 <-> take n (drop k a) = take n (drop k b)).
Proof.
  intros Fa Fb. revert k. induction n as [|n IH]; intros k Ha Hb; cbn [memcmp_loop]; [by exists 0|].
  destruct (lookup_lt_is_Some_2 a k) as [x Hx]; [lia|]. destruct (lookup_lt_is_Some_2 b k) as [y Hy]; [lia|].
  rewrite (rd_Ok a _ x), (rd_Ok b _ y) by (lia || by rewrite Nat2Z.id). cbn [obind].
  rewrite (drop_S _ _ _ Hx), (drop_S _ _ _ Hy). cbn [take].
  pose proof (proj1 (list.Forall_lookup _ _) Fa _ _ Hx) as Bx. pose proof (proj1 (list.Forall_lookup _ _) Fb _ _ Hy) as By.
  assert (Hxy : i8 x = i8 y <-> x = y) by (split; [by apply i8_inj|by intros ->]).
  destruct (Z.eqb_spec (i8 x) (i8 y)) as [E|Hne]; cbn [negb]; [apply Hxy in E as ->|].
  - replace (Z.of_nat k + 1) with (Z.of_nat (S k)) by lia. destruct (IH (S k)) as (d & -> & Hd); [lia..|].
    exists d. split; [done|]. rewrite Hd. split; [by intros ->|by intros [= ->]].
  - eexists. split; [done|]. split; [lia|]. intros [= ? _]. tauto.
Qed.

Lemma field_take data o n : (o + n <= 52)%nat -> field (take 52 data) o n = le_val (take n (drop o data)).
Proof. intros H. unfold field. rewrite skipn_firstn_comm, take_take, Nat.min_l by lia. done. Qed.

Lemma elf_ok_spec data : Forall is_byte data -> 52 <= Z.of_nat (length data) ->
  exists b, elf_ok (take 52 data) = Ok b /\ (b = true <-> i386_executable data).
Proof.
  intros Hby Hlen. unfold elf_ok, memcmp.
  destruct (memcmp_equal 7 (take 52 data) elf_magic 0) as (d & R & Hd);
    [by apply list.Forall_take|repeat (apply list.Forall_cons; split; [unfold is_byte; lia|]); constructor|rewrite length_take; lia|done|].
  change (Z.of_nat 0) with 0 in R. change (Z.to_nat 7) with 7%nat. rewrite R. cbn [obind].
  eexists. split; [done|]. rewrite !drop_0, take_take, Nat.min_l in Hd by lia.
  unfold ehdr_of. cbn [e_type e_machine e_version e_phnum e_phentsize]. rewrite !field_take by lia.
  unfold i386_executable, sizeof_phdr. rewrite !andb_true_iff, negb_true_iff, !Z.eqb_eq, Z.ltb_ge, Hd. tauto.
Qed.

(** A program file: an ELF header [load] accepts, program headers inside the file, and
    segments that can be loaded into the memory [m]. *)
Record program (data : list Z) (m : mst) (h : Elf32_Ehdr) (hs : list Elf32_Phdr) : Prop := {
  pg_header : h = ehdr_of (take 52 data);
  pg_headers : hs = headers (Z.to_nat (e_phnum h)) data (e_phoff h);
  pg_length : 52 <= Z.of_nat (length data) < 2 ^ 31;
  pg_elf : Forall is_byte data /\ i386_executable data;
  pg_table : 0 <= e_phoff h /\ 0 <= e_phnum h /\ e_phoff h + e_phnum h * sizeof_phdr <= Z.of_nat (length data);
  pg_entry : 0 <= e_entry h < 2 ^ 32 - 1;
  pg_loadable : loadable data m hs
}.

Lemma read_header s fd data :
  ex_fd (x_files s) fd = Some (data, 0) -> 52 <= Z.of_nat (length data) ->
  exists f, read_struct fd sizeof_ehdr s = Ok (sizeof_ehdr, take 52 data, set_files f s) /\
    ex_fd f fd = Some (data, 52).
Proof.
  intros Hfd Hlen. destruct (ex_read_spec (x_files s) fd data 0 sizeof_ehdr Hfd) as (f & R & Hfd'); [done..|].
  unfold sizeof_ehdr in *. rewrite Z.sub_0_r, Z.min_l in R, Hfd' by lia. rewrite drop_0 in R.
  exists f. split; [|done]. exact (in_files_run _ s _ f R).
Qed.

Lemma load_run s path data (h : Elf32_Ehdr) hs k :
  ex_named (x_files s) path = Some data -> program data (x_mem s) h hs ->
  mem_ok (x_mem s) k -> image_pages hs <= k ->
  exists m f, load path s = Ok (i32 (e_entry h), set_bytes (image data hs (x_bytes s)) (set_files f (set_mem m s))) /\
    mem_ok m (k - image_pages hs) /\ maps_more (x_mem s) m /\
    (forall p, p ∈ hs -> p_type p = PT_LOAD -> mapped_segment m p).
Proof.
  intros Hname [Hh Hhs [Hlen Hlt] [Hby Helf] (Ho & Hn & Hend) _ Hl] Hok Hk.
  pose proof (ex_open_spec (x_files s) path) as Hopen. rewrite Hname in Hopen.
  destruct Hopen as (fd & f0 & R0 & Hfd & Hat).
  set (s0 := set_files f0 s). destruct (read_header s0 fd data Hat Hlen) as (f1 & R1 & Hat1).
  set (s1 := set_files f1 s).
  assert (Hsz : e_phentsize h = sizeof_phdr).
  { destruct Helf as (_ & _ & _ & _ & _ & E). rewrite Hh. cbn [ehdr_of e_phentsize]. by rewrite field_take by lia. }
  destruct (elf_ok_spec data Hby Hlen) as (b & Hb & Hbt). rewrite (proj2 Hbt Helf) in Hb.
  destruct (load_headers_run (Z.to_nat (e_phnum h)) s1 fd data 52 (e_phoff h) k Hok)
    as (m & f & pos & R2 & Ok2 & M2 & S2 & Hat2); [by rewrite <- Hhs|by rewrite <- Hhs|done|done|done|by rewrite Z2Nat.id|].
  rewrite <- Hhs in R2, Ok2, S2.
  destruct (ex_close_spec f fd data pos Hat2) as (f3 & R3 & _).
  exists m, f3. split; [|done]. unfold load.
  rewrite (kbind_ok _ _ _ _ _ (in_files_run _ s fd f0 R0)). rewrite (proj2 (Z.eqb_neq fd (-1))) by lia.
  set (s2 := set_bytes (image data hs (x_bytes s)) (set_files f (set_mem m s))).
  rewrite (kbind_ok _ _ s0 (i32 (e_entry h)) s2).
  - rewrite (kbind_ok _ _ _ _ _ (in_files_run _ s2 0 f3 R3)). done.
  - unfold load_open. rewrite (kbind_ok _ _ s0 _ _ R1). cbn [fst snd]. rewrite Z.eqb_refl. cbn [negb].
    rewrite (kbind_ok _ _ s1 true s1) by (unfold klift; by rewrite Hb). cbn [negb]. cbv zeta. rewrite <- Hh, Hsz.
    by rewrite (kbind_ok _ _ s1 true s2) by exact R2.
Qed.

(** The file is not there, is too short, or has a header [load] does not accept. *)
Definition not_loadable (f : F) (path : list Z) : Prop :=
  match ex_named f path with
  | None => True
  | Some data => Z.of_nat (length data) < 52 \/ Forall is_byte data /\ ~ i386_executable data
  end.

(** C9: programs that cannot be loaded.  When the file does not exist, has fewer bytes
    than an ELF header, or its header is not that of a 32-bit little-endian executable for
    the i386, [load] returns -1; the memory of the process, its pages and its bytes, is
    what it was, and a file that was opened is closed again. *)
Theorem load_rejects s path :
  not_loadable (x_files s) path ->
  exists f, load path s = Ok (-1, set_files f s) /\
    (forall data, ex_named (x_files s) path = Some data ->
       exists fd f0, ex_open path 0 (x_files s) = Ok (fd, f0) /\ ex_fd f fd = None).
Proof.
  intros Hbad. pose proof (ex_open_spec (x_files s) path) as Hopen. unfold not_loadable in Hbad. unfold load.
  destruct (ex_named (x_files s) path) as [data|].
  - destruct Hopen as (fd & f0 & R0 & Hfd & Hat). set (s0 := set_files f0 s).
    assert (Hread : exists f pos, load_open fd s0 = Ok (-1, set_files f s0) /\ ex_fd f fd = Some (data, pos)).
    { unfold load_open. destruct (decide (52 <= Z.of_nat (length data))) as [Hlen|Hlen].
      - destruct Hbad as [?|[Hby Helf]]; [lia|]. destruct (elf_ok_spec data Hby Hlen) as (b & Hb & Hbt).
        assert (b = false) as -> by (by destruct b; [destruct Helf; apply Hbt|]). destruct (read_header s0 fd data Hat Hlen) as (f1 & R1 & Hat1).
        exists f1, 52. split; [|done]. rewrite (kbind_ok _ _ s0 _ _ R1). cbn [fst snd]. rewrite Z.eqb_refl. cbn [negb].
        by rewrite (kbind_ok _ _ (set_files f1 s0) false (set_files f1 s0)) by (unfold klift; by rewrite Hb).
      - destruct (ex_read_spec (x_files s0) fd data 0 sizeof_ehdr Hat) as (f1 & R1 & Hat1); [done..|].
        exists f1. eexists. split; [|exact Hat1].
        rewrite (kbind_ok _ _ s0 _ _ (in_files_run _ s0 _ f1 R1)). cbn [fst snd]. unfold sizeof_ehdr.
        rewrite Z.sub_0_r, Z.min_r by lia. rewrite (proj2 (Z.eqb_neq _ 52)); [done|]. destruct (0 <? Z.of_nat (length data)); lia. }
    destruct Hread as (f1 & pos & R1 & Hat1). destruct (ex_close_spec f1 fd data pos Hat1) as (f2 & R2 & Hat2).
    exists f2. split.
    + rewrite (kbind_ok _ _ _ _ _ (in_files_run _ s fd f0 R0)). rewrite (proj2 (Z.eqb_neq fd (-1))) by lia.
      rewrite (kbind_ok _ _ _ _ _ R1). by rewrite (kbind_ok _ _ _ _ _ (in_files_run _ (set_files f1 s0) 0 f2 R2)).
    + intros d _. by exists fd, f0.
  - destruct Hopen as (f0 & R0). exists f0. split; [|done].
    by rewrite (kbind_ok _ _ _ _ _ (in_files_run _ s (-1) f0 R0)).
Qed.

(** ** Entering a program *)

Lemma count_args_run ptrs rest n :
  Forall (fun p => p <> 0) ptrs -> (length ptrs < n)%nat -> Z.of_nat n < 2 ^ 32 ->
  forall pre, Z.of_nat (length pre + n) < 2 ^ 32 ->
  count_args n (pre ++ ptrs ++ 0 :: rest) (Z.of_nat (length pre)) = Ok (Z.of_nat (length pre + length ptrs)).
Proof.
  revert ptrs. induction n as [|n IH]; intros ptrs Hp Hlen Hn pre Hpre; [lia|]. cbn [count_args].
  assert (Hrd : forall p l, rd (pre ++ p :: l) (Z.of_nat (length pre)) = Ok p).
  { intros p l. apply rd_Ok; [lia|]. rewrite Nat2Z.id. by apply list_lookup_middle. }
  destruct ptrs as [|p ptrs]; cbn [app length] in *.
  - rewrite Hrd. cbn [obind]. by rewrite Nat.add_0_r.
  - rewrite Hrd. cbn [obind]. apply list.Forall_cons in Hp as [Hp0 Hp].
    rewrite (proj2 (Z.eqb_neq p 0) Hp0). rewrite u32_small by lia.
    replace (pre ++ p :: ptrs ++ 0 :: rest) with ((pre ++ [p]) ++ ptrs ++ 0 :: rest) by (by rewrite <- app_assoc).
    replace (Z.of_nat (length pre) + 1) with (Z.of_nat (length (pre ++ [p]))) by (rewrite length_app; cbn; lia).
    rewrite IH by (rewrite ?length_app; cbn [length]; lia || done). do 2 f_equal. rewrite length_app. cbn. lia.
Qed.

Definition clean_descs (m : mst) : mst :=
  set_m_udescs (map (fun d => MemBlockDesc (block_size d) (block_per_arena d) []) (m_udescs m)) m.

Lemma clean_ok m k : mem_ok m k -> mem_ok (clean_descs m) k.
Proof. intros [H1 [? ? ? ?] H3 H4 H5 H6]. by split. Qed.

Lemma name_run (name path : list Z) :
  length name = 16%nat -> (16 <= length path)%nat ->
  exists n', memcpy name (Some 0) path (Some 0) 16 = Ok n' /\ wr n' 15 0 = Ok (take 15 path ++ [0]).
Proof.
  intros Hn Hp. exists (take 16 path). split.
  - pose proof (memcpy_loop_spec 16 [] name [] path 0 Hn) as R. cbn [app] in R. rewrite app_nil_r in R.
    unfold memcpy. cbn [not_null obind]. change (Z.to_nat 16) with 16%nat.
    change (Z.of_nat (length (@nil Z))) with 0 in R. rewrite R by (cbn; lia). cbn. by rewrite app_nil_r, drop_0.
  - assert (Hlen : length (take 16 path) = 16%nat) by (rewrite length_take_le; lia).
    rewrite wr_Ok by lia. f_equal. change (Z.to_nat 15) with 15%nat.
    destruct (lookup_lt_is_Some_2 path 15) as [c Hc]; [lia|].
    rewrite (take_S_r _ _ _ Hc). rewrite insert_app_r_alt by (rewrite length_take_le; lia).
    rewrite length_take_le by lia. done.
Qed.


(** The first page of user space.  [get_a_page] asserts that the page's index in the
    address bitmap is not 0, so loading a segment at the start of user space, which is
    where command/program.ld puts the programs, stops the kernel when that page is not
    mapped yet. *)
Theorem segment_at_start_asserts s fd offset filesz :
  let v := vaddr_start (m_uvaddr (x_mem s)) in
  m_user (x_mem s) = true -> vpage v -> v + filesz <= 0xc0000000 -> 0 < filesz ->
  lookup_page (m_tables (x_mem s)) v = None ->
  segment_load fd offset filesz v s = Err AssertFail.
Proof.
  intros v Hu Hv He Hf Hnone. destruct Hv as [Hr Hm].
  destruct (occupy_pages_eq filesz v) as [Hland _]; [lia..|].
  assert (Hpos : 0 < occupy_pages filesz v).
  { destruct (segment_page v filesz 0) as (j & Hj & _); lia. }
  unfold segment_load. fold v. rewrite Hland, Hm, Z.sub_0_r. unfold kbind at 1.
  destruct (Z.to_nat (occupy_pages filesz v)) as [|n] eqn:En; [lia|]. cbn [map_segment].
  rewrite (kbind_ok _ _ _ _ _ (absent_run s v (conj Hr Hm))), Hnone. cbn [bool_decide decide_rel].
  rewrite bool_decide_eq_true_2 by done. unfold kbind at 1 2. unfold in_mem.
  assert (Hget : get_a_page PF_USER v (x_mem s) = Err AssertFail); [|by rewrite Hget].
  unfold get_a_page. rewrite (kbind_ok _ _ (x_mem s) tt (set_m_ulock (m_ulock (x_mem s) + 1) (x_mem s))) by done.
  set (m0 := set_m_ulock (m_ulock (x_mem s) + 1) (x_mem s)).
  rewrite (kbind_ok _ _ m0 true m0) by (unfold kreads, m0; cbn; by rewrite Hu).
  rewrite bool_decide_eq_true_2 by done. cbn [Bool.eqb]. unfold kbind at 1.
  rewrite (kbind_ok _ _ m0 (m_uvaddr (x_mem s)) m0) by done. fold v.
  rewrite Z.sub_diag. reflexivity.
Qed.
End loaded.

(** ** A small file system and a small program *)

Record shelf : Type := Shelf { sh_files : list (list Z * list Z); sh_open : gmap Z (list Z * Z); sh_next : Z }.

Definition shelf_find (f : shelf) (path : list Z) : option (list Z) :=
  match List.find (fun e => bool_decide (e.1 = path)) (sh_files f) with Some e => Some e.2 | None => None end.

#[export] Instance shelf_files : ProgramFiles shelf := {|
  ex_open path flags f := match shelf_find f path with
    | Some data => Ok (Z.max 3 (sh_next f), Shelf (sh_files f) (<[Z.max 3 (sh_next f) := (data, 0)]> (sh_open f)) (sh_next f + 1))
    | None => Ok (-1, f) end;
  ex_lseek fd off whence f := match sh_open f !! fd with
    | Some (data, pos) =>
        if decide (0 <= off < Z.of_nat (length data)) then Ok (off, Shelf (sh_files f) (<[fd := (data, off)]> (sh_open f)) (sh_next f))
        else Ok (-1, f)
    | None => Err OutOfBounds end;
  ex_read fd n f := match sh_open f !! fd with
    | Some (data, pos) => let m := Z.min n (Z.of_nat (length data) - pos) in
        Ok (if 0 <? m then m else -1, take (Z.to_nat m) (drop (Z.to_nat pos) data),
            Shelf (sh_files f) (<[fd := (data, pos + Z.max 0 m)]> (sh_open f)) (sh_next f))
    | None => Err OutOfBounds end;
  ex_close fd f := Ok (0, Shelf (sh_files f) (delete fd (sh_open f)) (sh_next f));
  ex_close_files f := Ok f
|}.

#[export] Program Instance shelf_laws : ProgramFilesLaws shelf :=
  {| ex_named := shelf_find; ex_fd f fd := sh_open f !! fd |}.
Next Obligation.
  intros f path. cbn. destruct (shelf_find f path) as [data|]; [|by eexists].
  do 2 eexists. split; [reflexivity|]. split; [lia|]. cbn. apply lookup_insert_eq.
Qed.
Next Obligation.
  intros f fd data pos off Hf Ho. cbn. rewrite Hf, decide_True by done. eexists. split; [done|]. cbn. apply lookup_insert_eq.
Qed.
Next Obligation. intros f fd data pos off Hf Ho. cbn. rewrite Hf, decide_False by lia. done. Qed.
Next Obligation. intros f fd data pos n Hf _ _. cbn. rewrite Hf. eexists. split; [done|]. cbn. apply lookup_insert_eq. Qed.
Next Obligation. intros f fd data pos _. cbn. eexists. split; [done|]. cbn. apply lookup_delete_eq. Qed.
Next Obligation. intros f. by exists f. Qed.

(** A program of four bytes at 0x8049000. *)
Definition sample_elf : list Z :=
  elf_magic ++ replicate 9 0 ++ le_bytes 2 2 ++ le_bytes 2 3 ++ le_bytes 4 1 ++ le_bytes 4 0x8049000 ++ le_bytes 4 52 ++
  le_bytes 4 0 ++ le_bytes 4 0 ++ le_bytes 2 52 ++ le_bytes 2 32 ++ le_bytes 2 1 ++ le_bytes 2 0 ++ le_bytes 2 0 ++ le_bytes 2 0 ++
  le_bytes 4 1 ++ le_bytes 4 84 ++ le_bytes 4 0x8049000 ++ le_bytes 4 0 ++ le_bytes 4 4 ++ le_bytes 4 4 ++ le_bytes 4 5 ++
  le_bytes 4 4096 ++ [0x31; 0xc0; 0xcd; 0x80].
Definition sample_path : list Z := [47; 98; 105; 110] ++ replicate 12 0.

Definition sample_process : est shelf :=
  ESt (set_m_user true sample_pages) ∅ (Shelf [(sample_path, sample_elf); ([47; 120], [1; 2])] ∅ 3) 0xc0100000 (replicate 16 0) ∅.
Definition sample_ehdr : Elf32_Ehdr := ehdr_of (take 52 sample_elf).

Lemma bytes_check l : forallb (fun c => (0 <=? c) && (c <? 256)) l = true -> Forall is_byte l.
Proof.
  induction l as [|c l IH]; cbn; [done|]. intros [[?%Z.leb_le ?%Z.ltb_lt]%andb_true_iff ?]%andb_true_iff.
  apply list.Forall_cons. split; [by split|auto].
Qed.

Lemma sample_mem_ok : mem_ok (x_mem sample_process) 1.
Proof.
  split; try done; [by destruct sample_pools; split|].
  split; cbn; [repeat constructor; lia|lia|lia].
Qed.

Lemma sample_program : program sample_elf (x_mem sample_process) sample_ehdr (headers 1 sample_elf 52).
Proof.
  split; try reflexivity; [by vm_compute| |by vm_compute|by vm_compute|].
  { split.
    - apply bytes_check. vm_compute. reflexivity.
    - unfold i386_executable. split_and!; try reflexivity. vm_compute. discriminate. }
  intros h Hh Ht. cbn [headers] in Hh. apply list_elem_of_singleton in Hh as ->.
  split; [by vm_compute|by vm_compute|by vm_compute|].
  assert (E : occupy_pages (p_filesz (phdr_of (take 32 (drop (Z.to_nat 52) sample_elf))))
    (p_vaddr (phdr_of (take 32 (drop (Z.to_nat 52) sample_elf)))) = 1) by (vm_compute; reflexivity).
  rewrite E. intros j Hj. assert (j = 0) as -> by lia.
  assert (E2 : segment_page_at (phdr_of (take 32 (drop (Z.to_nat 52) sample_elf))) 0 = 0x8049000) by (vm_compute; reflexivity).
  rewrite E2. split; [by split; [lia|vm_compute]|]. right. split; [by vm_compute|by vm_compute].
Qed.

Lemma load_rejects_witness :
  exists f, load [47; 120] sample_process = Ok (-1, set_files f sample_process) /\
    (forall data, ex_named (x_files sample_process) [47; 120] = Some data ->
       exists fd f0, ex_open [47; 120] 0 (x_files sample_process) = Ok (fd, f0) /\ ex_fd f fd = None).
Proof. apply (load_rejects sample_process [47; 120]). vm_compute. by left. Defined.


Lemma segment_at_start_asserts_witness :
  segment_load 3 84 4 (vaddr_start (m_uvaddr (x_mem sample_process))) sample_process = Err AssertFail.
Proof.
  apply (segment_at_start_asserts sample_process 3 84 4); [reflexivity|by split; vm_compute|cbn; lia|lia|reflexivity].
Defined.
