(* ===== verification/Release.v ===== *)
(** * Release: what an exiting process gives back (userprog/wait_exit.c)

    [realease_prog_resource]: the frames of the process's user pages and of their page
    tables, the pages of its address bitmap, and its open files.  The memory is Memory's, the
    descriptors are closed behind [ProgramFiles] (FdTable has the loop).  The thread that is
    released is the running one, so that its directory, which the code reads at
    [release_thread->pgdir], is the one seen at 0xfffff000. *)

From S2P Require Import Prelude Bitmap Memory Exec.
From S2P Require Sched Task.

#[local] Set Default Proof Using "Type*".

(** ** The code *)

(** The loop over the entries of a page table, [n] of which are left. *)
Fixpoint free_ptes (n : nat) (first_pte_vaddr_in_pde pte_idx : Z) : KM mst unit :=
  match n with
  | O => kret tt
  | S n =>
      pte <- Memory.load (u32 (first_pte_vaddr_in_pde + 4 * pte_idx)) ;;
      (if Z.land pte 1 =? 0 then kret tt
       else free_a_phy_page (Z.land pte 0xfffff000)) ;;;
      free_ptes n first_pte_vaddr_in_pde (u16 (pte_idx + 1))
  end.

(** The loop over the entries of the directory. *)
Fixpoint free_pdes (n : nat) (pde_idx : Z) : KM mst unit :=
  match n with
  | O => kret tt
  | S n =>
      pde <- Memory.load (u32 (0xfffff000 + 4 * pde_idx)) ;;
      (if Z.land pde 1 =? 0 then kret tt
       else
         free_ptes 1024 (pte_ptr (u32 (pde_idx * 0x400000))) 0 ;;;
         free_a_phy_page (Z.land pde 0xfffff000)) ;;;
      free_pdes n (u16 (pde_idx + 1))
  end.

Section release.
Context {F : Type} `{!ProgramFiles F}.

Definition on_mem {A} (m : KM mst A) : KM (mst * F) A := fun s =>
  match m s.1 with Ok (a, v) => Ok (a, (v, s.2)) | Err e => Err e end.

Definition realease_prog_resource (release_thread : Sched.task) : KM (mst * F) unit :=
  on_mem (free_pdes 768 0) ;;;
  let bitmap_pg_cnt := Sched.va_bytes_len (Sched.t_vaddr release_thread) / PG_SIZE in
  let user_vaddr_pool_bitmap := Sched.va_bits (Sched.t_vaddr release_thread) in
  on_mem (mfree_page PF_KERNEL user_vaddr_pool_bitmap bitmap_pg_cnt) ;;;
  (fun s => match ex_close_files s.2 with Ok f => Ok (tt, (s.1, f)) | Err e => Err e end).

(** What [sys_exit] of Task calls. *)
#[export] Instance memory_resources : Task.ProcessResources (mst * F) := {|
  Task.release_resources t s := match realease_prog_resource t s with Ok (_, s') => Ok s' | Err e => Err e end
|}.
End release.

(** ** Frames given back *)

Lemma freed_refl p : pool_ok p -> freed p p (fun _ => False).
Proof. intros Hp. split; [done|]. do 2 (split; [done|]). tauto. Qed.

Lemma freed_trans p p1 p2 (F G H : Z -> Prop) : freed p p1 F -> freed p1 p2 G ->
  (forall g, H g <-> F g \/ G g) -> freed p p2 H.
Proof.
  intros (O1 & S1 & L1 & U1) (O2 & S2 & L2 & U2) HH. split; [done|]. split; [congruence|]. split; [congruence|].
  intros g Hg. rewrite U2, U1, HH by (try done; unfold in_pool in *; by rewrite S1, L1). tauto.
Qed.

Lemma freed_in_pool p p' F f : freed p p' F -> in_pool p' f <-> in_pool p f.
Proof. intros (_ & S & L & _). unfold in_pool. by rewrite S, L. Qed.

(** The state with other pools. *)
Definition with_pools (kp up : pool) (s : mst) : mst := set_m_kpool kp (set_m_upool up s).

Lemma pools_freed s kp up F G : pools_ok s -> freed (m_kpool s) kp F -> freed (m_upool s) up G -> pools_ok (with_pools kp up s).
Proof.
  intros [_ _ Hl Ho] (K1 & K2 & K3 & _) (U1 & U2 & _ & _). split; cbn; [done|done|congruence|]. by rewrite K2, K3, U2.
Qed.

Lemma free_user_run s kp up f G : pools_ok (with_pools kp up s) -> freed (m_upool s) up G -> in_pool (m_upool s) f ->
  exists up', free_a_phy_page f (with_pools kp up s) = Ok (tt, with_pools kp up' s) /\
    freed (m_upool s) up' (fun g => G g \/ g = f).
Proof.
  intros Hok HG Hf. destruct (pfree_run PF_USER (with_pools kp up s) f Hok) as (up' & R & HF).
  { by apply (freed_in_pool _ _ _ _ HG). }
  exists up'. split; [exact R|]. eapply freed_trans; [exact HG|exact HF|]. intros g. split; intros [?| ->]; auto.
Qed.

Lemma free_kernel_run s kp up f G : pools_ok (with_pools kp up s) -> freed (m_kpool s) kp G -> in_pool (m_kpool s) f ->
  exists kp', free_a_phy_page f (with_pools kp up s) = Ok (tt, with_pools kp' up s) /\
    freed (m_kpool s) kp' (fun g => G g \/ g = f).
Proof.
  intros Hok HG Hf. destruct (pfree_run PF_KERNEL (with_pools kp up s) f Hok) as (kp' & R & HF).
  { by apply (freed_in_pool _ _ _ _ HG). }
  exists kp'. split; [exact R|]. eapply freed_trans; [exact HG|exact HF|]. intros g. split; intros [?| ->]; auto.
Qed.

(** ** The two loops *)

(** Page [k] of the 4 MB of directory entry [d], and the frame of its page table. *)
Definition user_page_at (d k : Z) : Z := d * 0x400000 + k * PG_SIZE.
Definition dir_entry (t : gmap Z Z) (d : Z) : Z := table_word t (0xfffff000 + 4 * d).

Lemma user_vpage d k : 0 <= d < 768 -> 0 <= k < 1024 ->
  vpage (user_page_at d k) /\ pde_ptr (user_page_at d k) = 0xfffff000 + 4 * d /\
  pte_ptr (user_page_at d k) = 0xffc00000 + 4096 * d + 4 * k.
Proof.
  intros Hd Hk. unfold user_page_at, PG_SIZE. split; [|split].
  - split; [lia|]. unfold PG_SIZE. rewrite Zplus_mod, Z_mod_mult, Z.add_0_r, Zmod_mod.
    replace (d * 0x400000) with (d * 1024 * 4096) by lia. apply Z_mod_mult.
  - rewrite pde_ptr_eq by lia. do 2 f_equal. symmetry. apply Z.div_unique with (k * 4096); lia.
  - rewrite pte_ptr_eq by lia. unfold PG_SIZE. replace (d * 0x400000 + k * 4096) with ((d * 1024 + k) * 4096) by lia.
    rewrite Z.div_mul by lia. lia.
Qed.

Lemma some_eq_iff (a b : Z) : Some a = Some b <-> b = a.
Proof. split; congruence. Qed.

Lemma none_eq_iff (b : Z) : None = Some b <-> False.
Proof. split; [discriminate|tauto]. Qed.

Lemma free_ptes_run n d k s kp up F G :
  0 <= d < 768 -> 0 <= k -> k + Z.of_nat n <= 1024 -> pools_ok s -> Z.odd (dir_entry (m_tables s) d) = true ->
  freed (m_kpool s) kp F -> freed (m_upool s) up G ->
  (forall j f, 0 <= j < 1024 -> lookup_page (m_tables s) (user_page_at d j) = Some f -> in_pool (m_upool s) f) ->
  exists up', free_ptes n (0xffc00000 + 4096 * d) k (with_pools kp up s) = Ok (tt, with_pools kp up' s) /\
    freed (m_upool s) up' (fun g => G g \/ exists j, k <= j < k + Z.of_nat n /\ lookup_page (m_tables s) (user_page_at d j) = Some g).
Proof.
  intros Hd Hk Hn Hs Hodd HF HG Hin. revert k up G Hk Hn HG. induction n as [|n IH]; intros k up G Hk Hn HG; cbn [free_ptes].
  { exists up. split; [done|]. eapply freed_ext; [exact HG|]. intros g. split; [by left|]. intros [?|(j & ? & _)]; [done|lia]. }
  destruct (user_vpage d k Hd) as (Hv & Epd & Ept); [lia|]. set (s1 := with_pools kp up s).
  assert (Hs1 : pools_ok s1) by (by eapply pools_freed).
  rewrite <- Ept. assert (Hr : 0 <= pte_ptr (user_page_at d k) < 2 ^ 32) by lia. rewrite (u32_small (pte_ptr _)) by lia.
  assert (Hpd : Z.odd (table_word (m_tables s1) (pde_ptr (user_page_at d k))) = true) by (rewrite Epd; exact Hodd).
  rewrite (kbind_ok _ _ _ _ _ (load_pte s1 _ Hv Hpd)).
  change (m_tables s1) with (m_tables s). rewrite land1_odd. unfold u16. rewrite Z.mod_small by lia.
  assert (Hlook : lookup_page (m_tables s) (user_page_at d k) =
    if Z.odd (table_word (m_tables s) (pte_ptr (user_page_at d k))) then Some (Z.land (table_word (m_tables s) (pte_ptr (user_page_at d k))) 0xfffff000) else None).
  { unfold lookup_page. change (m_tables s1) with (m_tables s) in Hpd. by rewrite Hpd. }
  assert (Hset : forall (f : option Z) g, lookup_page (m_tables s) (user_page_at d k) = f ->
    (exists j, k <= j < k + Z.of_nat (S n) /\ lookup_page (m_tables s) (user_page_at d j) = Some g) <->
    f = Some g \/ exists j, k + 1 <= j < k + 1 + Z.of_nat n /\ lookup_page (m_tables s) (user_page_at d j) = Some g).
  { intros f g <-. split.
    - intros (j & Hj & E). destruct (decide (j = k)) as [->|]; [by left|right; exists j; split; [lia|done]].
    - intros [E|(j & Hj & E)]; [exists k; split; [lia|done]|exists j; split; [lia|done]]. }
  destruct (Z.odd (table_word (m_tables s) (pte_ptr (user_page_at d k)))); cbn [negb].
  - destruct (free_user_run s kp up _ G Hs1 HG (Hin k _ ltac:(lia) Hlook)) as (up1 & R1 & HG1).
    rewrite (kbind_ok _ _ _ _ _ R1). destruct (IH (k + 1) up1 _ ltac:(lia) ltac:(lia) HG1) as (up2 & R2 & HG2).
    exists up2. split; [exact R2|]. eapply freed_ext; [exact HG2|]. intros g. rewrite (Hset _ g Hlook), some_eq_iff. tauto.
  - rewrite (kbind_ok _ _ s1 tt s1) by done. destruct (IH (k + 1) up G ltac:(lia) ltac:(lia) HG) as (up2 & R2 & HG2).
    exists up2. split; [exact R2|]. eapply freed_ext; [exact HG2|]. intros g. rewrite (Hset _ g Hlook), none_eq_iff. tauto.
Qed.

(** The frames of the user pages below directory entry [d], and of their page tables. *)
Definition user_frames (t : gmap Z Z) (d0 d1 : Z) (g : Z) : Prop :=
  exists d k, d0 <= d < d1 /\ 0 <= k < 1024 /\ lookup_page t (user_page_at d k) = Some g.
Definition table_frames (t : gmap Z Z) (d0 d1 : Z) (g : Z) : Prop :=
  exists d, d0 <= d < d1 /\ Z.odd (dir_entry t d) = true /\ g = Z.land (dir_entry t d) 0xfffff000.

(** User pages are mapped to frames of the user pool, page tables are in the kernel's. *)
Record user_space_ok (s : mst) : Prop := {
  us_pages : forall d k f, 0 <= d < 768 -> 0 <= k < 1024 -> lookup_page (m_tables s) (user_page_at d k) = Some f -> in_pool (m_upool s) f;
  us_tables : forall d, 0 <= d < 768 -> Z.odd (dir_entry (m_tables s) d) = true ->
    in_pool (m_kpool s) (Z.land (dir_entry (m_tables s) d) 0xfffff000)
}.

Lemma user_frames_step t d n g : user_frames t d (d + Z.of_nat (S n)) g <->
  (exists k, 0 <= k < 1024 /\ lookup_page t (user_page_at d k) = Some g) \/ user_frames t (d + 1) (d + 1 + Z.of_nat n) g.
Proof.
  split.
  - intros (d' & k & Hd & Hk & E). destruct (decide (d' = d)) as [->|]; [left; by exists k|right; exists d', k; split; [lia|done]].
  - intros [(k & Hk & E)|(d' & k & Hd & E)]; [exists d, k; split; [lia|done]|exists d', k; split; [lia|done]].
Qed.

Lemma table_frames_step t d n g : table_frames t d (d + Z.of_nat (S n)) g <->
  (Z.odd (dir_entry t d) = true /\ g = Z.land (dir_entry t d) 0xfffff000) \/ table_frames t (d + 1) (d + 1 + Z.of_nat n) g.
Proof.
  split.
  - intros (d' & Hd & E). destruct (decide (d' = d)) as [->|]; [by left|right; exists d'; split; [lia|done]].
  - intros [E|(d' & Hd & E)]; [exists d; split; [lia|done]|exists d'; split; [lia|done]].
Qed.

Lemma absent_entry t d k : 0 <= d < 768 -> 0 <= k < 1024 -> Z.odd (dir_entry t d) = false -> lookup_page t (user_page_at d k) = None.
Proof. intros Hd Hk Ho. destruct (user_vpage d k Hd Hk) as (_ & E & _). unfold lookup_page. unfold dir_entry in Ho. by rewrite E, Ho. Qed.

Lemma free_pdes_run n d s kp up F G :
  0 <= d -> d + Z.of_nat n <= 768 -> pools_ok s -> user_space_ok s ->
  freed (m_kpool s) kp F -> freed (m_upool s) up G ->
  exists kp' up', free_pdes n d (with_pools kp up s) = Ok (tt, with_pools kp' up' s) /\
    freed (m_kpool s) kp' (fun g => F g \/ table_frames (m_tables s) d (d + Z.of_nat n) g) /\
    freed (m_upool s) up' (fun g => G g \/ user_frames (m_tables s) d (d + Z.of_nat n) g).
Proof.
  intros Hd Hn Hs Hu. revert d kp up F G Hd Hn. induction n as [|n IH]; intros d kp up F G Hd Hn HF HG; cbn [free_pdes].
  { exists kp, up. split; [done|]. split; (eapply freed_ext; [eassumption|]); intros g; (split; [by left|]).
    - intros [?|(d' & ? & _)]; [done|lia].
    - intros [?|(d' & k & ? & _)]; [done|lia]. }
  set (s1 := with_pools kp up s). assert (Hs1 : pools_ok s1) by (by eapply pools_freed).
  destruct (user_vpage d 0 ltac:(lia) ltac:(lia)) as (Hv & Epd & Ept).
  rewrite <- Epd, (u32_small (pde_ptr _)) by lia. rewrite (kbind_ok _ _ _ _ _ (load_pde s1 _ Hv)).
  change (m_tables s1) with (m_tables s). rewrite Epd. fold (dir_entry (m_tables s) d).
  rewrite land1_odd. unfold u16. rewrite (Z.mod_small (d + 1)) by lia.
  destruct (Z.odd (dir_entry (m_tables s) d)) eqn:Ho; cbn [negb].
  - assert (Ev : u32 (d * 0x400000) = user_page_at d 0) by (unfold user_page_at; rewrite u32_small by lia; lia).
    rewrite Ev, Ept. replace (0xffc00000 + 4096 * d + 4 * 0) with (0xffc00000 + 4096 * d) by lia.
    destruct (free_ptes_run 1024 d 0 s kp up F G) as (up1 & R1 & HG1); try done; [lia|intros j f Hj; apply (us_pages _ Hu); lia|].
    assert (Hs2 : pools_ok (with_pools kp up1 s)) by (by eapply pools_freed).
    destruct (free_kernel_run s kp up1 _ F Hs2 HF (us_tables _ Hu d ltac:(lia) Ho)) as (kp1 & R2 & HF1).
    rewrite (kbind_ok _ _ s1 tt (with_pools kp1 up1 s)) by (by rewrite (kbind_ok _ _ _ _ _ R1)).
    destruct (IH (d + 1) kp1 up1 _ _ ltac:(lia) ltac:(lia) HF1 HG1) as (kp2 & up2 & R3 & HF2 & HG2).
    exists kp2, up2. split; [exact R3|]. split.
    + eapply freed_ext; [exact HF2|]. intros g. rewrite table_frames_step, Ho. assert (true = true) as Htt by reflexivity. tauto.
    + eapply freed_ext; [exact HG2|]. intros g. rewrite user_frames_step. change (0 + Z.of_nat 1024) with 1024. tauto.
  - rewrite (kbind_ok _ _ s1 tt s1) by done.
    destruct (IH (d + 1) kp up F G ltac:(lia) ltac:(lia) HF HG) as (kp2 & up2 & R2 & HF2 & HG2).
    exists kp2, up2. split; [exact R2|]. split.
    + eapply freed_ext; [exact HF2|]. intros g. rewrite table_frames_step, Ho. assert (~ false = true) as Hff by done. tauto.
    + eapply freed_ext; [exact HG2|]. intros g. rewrite user_frames_step.
      assert (Hno : ~ exists k, 0 <= k < 1024 /\ lookup_page (m_tables s) (user_page_at d k) = Some g).
      { intros (k & Hk & E). rewrite absent_entry in E by (done || lia). done. }
      tauto.
Qed.

(** ** The whole of it *)

Lemma free_user_space_run s : pools_ok s -> user_space_ok s ->
  exists kp up, free_pdes 768 0 s = Ok (tt, with_pools kp up s) /\
    freed (m_kpool s) kp (table_frames (m_tables s) 0 768) /\ freed (m_upool s) up (user_frames (m_tables s) 0 768).
Proof.
  intros Hs Hu. pose proof (freed_refl _ (po_kernel _ Hs)) as HK. pose proof (freed_refl _ (po_user _ Hs)) as HU.
  destruct (free_pdes_run 768 0 s _ _ _ _ ltac:(lia) ltac:(lia) Hs Hu HK HU) as (kp & up & R & HF & HG).
  exists kp, up. split; [|split].
  - transitivity (free_pdes 768 0 (with_pools (m_kpool s) (m_upool s) s)); [by destruct s|exact R].
  - eapply freed_ext; [exact HF|]. intros g. change (0 + Z.of_nat 768) with 768. tauto.
  - eapply freed_ext; [exact HG|]. intros g. change (0 + Z.of_nat 768) with 768. tauto.
Qed.


(** ** A small process *)

(** One user page, at 0x8048000, and an address bitmap of a page and a bit. *)
Definition exiting_pages : mst :=
  MSt (Pool (Bitmap 4 [15; 0; 0; 0]) 0x200000 0x20000) (Pool (Bitmap 4 [1; 0; 0; 0]) 0x220000 0x20000)
    (VPool (Bitmap 1 [3]) 0xc0100000) (VPool (Bitmap 1 [1]) 0x8048000) true
    (<[pde_ptr 0xc0100000 := 0x101007]> (<[pte_ptr 0xc0100000 := 0x200007]> (<[pte_ptr 0xc0101000 := 0x201007]>
      (<[pde_ptr 0x8048000 := 0x202007]> {[ pte_ptr 0x8048000 := 0x220007 ]}))))
    block_desc_init block_desc_init ∅ 0 0.

Definition exiting_task : Sched.task :=
  Sched.set_t_vaddr (Sched.VAddr 0xc0100000 4097 0x8048000) Task.zero_task.

Lemma exiting_pools : pools_ok exiting_pages.
Proof.
  split; unfold pool_ok, bit_len; simpl; repeat split; simpl; try lia; try (unfold PG_SIZE; lia); try done;
    repeat constructor; lia.
Qed.

Lemma exiting_entries d : 0 <= d < 768 -> Z.odd (dir_entry (m_tables exiting_pages) d) = true -> d = 32.
Proof.
  intros Hd Ho.
  assert (H : forallb (fun d => negb (Z.odd (dir_entry (m_tables exiting_pages) d)) || (d =? 32))
    (map Z.of_nat (seq 0 768)) = true) by (vm_compute; reflexivity).
  rewrite forallb_forall in H. specialize (H d). rewrite Ho in H. apply Z.eqb_eq, H.
  apply in_map_iff. exists (Z.to_nat d). split; [lia|]. apply in_seq. lia.
Qed.

Lemma exiting_user_space : user_space_ok exiting_pages.
Proof.
  split.
  - intros d k f Hd Hk E. destruct (Z.odd (dir_entry (m_tables exiting_pages) d)) eqn:Ho;
      [|by rewrite absent_entry in E].
    apply exiting_entries in Ho as ->; [|done].
    assert (H : forallb (fun k => match lookup_page (m_tables exiting_pages) (user_page_at 32 k) with
      | Some f => f =? 0x220000 | None => true end) (map Z.of_nat (seq 0 1024)) = true) by (vm_compute; reflexivity).
    rewrite forallb_forall in H. specialize (H k). rewrite E in H. assert (f = 0x220000) as ->.
    { apply Z.eqb_eq, H. apply in_map_iff. exists (Z.to_nat k). split; [lia|]. apply in_seq. lia. }
    split; [|done]. cbn. unfold bit_len, PG_SIZE. cbn. lia.
  - intros d Hd Ho. apply exiting_entries in Ho as ->; [|done].
    replace (Z.land _ _) with 0x202000 by (vm_compute; reflexivity).
    split; [|done]. cbn. unfold bit_len, PG_SIZE. cbn. lia.
Qed.

Lemma exiting_addresses : vpool_ok (m_kvaddr exiting_pages) (m_tables exiting_pages).
Proof.
  assert (H : forallb (fun i => bit_at (Bitmap 1 [3]) i
      || bool_decide (lookup_page (m_tables exiting_pages) (0xc0100000 + i * PG_SIZE) = None))
      [0; 1; 2; 3; 4; 5; 6; 7] = true) by (vm_compute; reflexivity).
  split.
  - repeat split; simpl; try lia; repeat constructor; lia.
  - by split.
  - by vm_compute.
  - intros i Hi Hb. unfold bit_len in Hi; simpl in Hi. rewrite forallb_forall in H.
    specialize (H i). change (bit_at (Bitmap 1 [3]) i = false) in Hb. rewrite Hb in H. apply (bool_decide_unpack _).
    unfold page_at; simpl vaddr_start. apply Is_true_true, H. simpl. lia.
Qed.

