(* ===== verification/Ps.v ===== *)
(** * Ps: the list of tasks, the pid and the help text

    [sys_ps] of thread/thread.c with [pad_print] and [elem2thread_info], and [sys_getpid] and
    [sys_help] of userprog/syscall_init.c.  The output of [sys_ps] goes to descriptor 1 by
    [sys_write], which is behind [StdOut]: its instance is the screen.  [pad_print] looks at
    its pointer through the format, so that its argument here is the memory it points to. *)

From Stdlib Require Import Ascii String.
From S2P Require Import Prelude Bitmap Interrupt DList Sched Sync Task Cstring Stdio Screen Console.
From S2P Require Irq.
Close Scope string_scope.

#[local] Set Default Proof Using "Type*".

(** ** Standard output *)

(** [sys_write(stdout_no, buf, count)]. *)
Class StdOut (P : Type) : Type := std_write : list Z -> Z -> P -> outcome (Z * P).

(** [shown t p p']: going from [p] to [p'] the text [t] was put out. *)
Class StdOutLaws (P : Type) `{!StdOut P} : Type := {
  std_ok : P -> Prop;
  shown : list Z -> P -> P -> Prop;
  std_write_spec : forall m t p, std_ok p -> is_text t -> Z.of_nat (length t) < 1024 -> take (length t) m = t ->
    exists p', std_write m (Z.of_nat (length t)) p = Ok (Z.of_nat (length t), p') /\ std_ok p' /\ shown t p p';
  shown_nil : forall p, std_ok p -> shown [] p p;
  shown_app : forall t1 t2 p p1 p2, shown t1 p p1 -> shown t2 p1 p2 -> shown (t1 ++ t2) p p2
}.

(** ** The code *)

(** A string literal without its NUL. *)
Definition text (t : string) : list Z := map (fun a => Z.of_N (N_of_ascii a)) (list_ascii_of_string t).
#[global] Arguments text : simpl never.

Definition format_s : list Z := [37; 115; 0].
Definition format_d : list Z := [37; 100; 0].
Definition format_x : list Z := [37; 120; 0].

(** The loop that fills [buf] up with blanks. *)
Fixpoint pad_loop (n : nat) (buf : list Z) (out_pad_0idx buf_len : Z) : outcome (list Z) :=
  match n with
  | O => Err Diverges
  | S n =>
      if out_pad_0idx <? buf_len then
        let? buf := wr buf out_pad_0idx 32 in
        pad_loop n buf (u8 (out_pad_0idx + 1)) buf_len
      else Ok buf
  end.

Section ps.
Context {P : Type} `{!KernelPages P, !StdOut P}.
Notation K := (KM (kst P)).

Definition write_out (buf : list Z) (count : Z) : K Z := kpages (std_write buf count).

(** The buffer is returned. *)
Definition pad_print (buf : list Z) (buf_len : Z) (ptr : list Z) (format : ascii) : K (list Z) :=
  buf <- klift (memset buf (Some 0) 0 buf_len) ;;
  r <- klift
    (match format with
     | "s"%char => sprintf (fun _ => Ok ptr) buf format_s [0]
     | "d"%char => sprintf (fun _ => Err OutOfBounds) buf format_d [u32 (i16 (le_val (take 2 ptr)))]
     | "x"%char => sprintf (fun _ => Err OutOfBounds) buf format_x [le_val (take 4 ptr)]
     | _ => Ok (buf, 0)
     end) ;;
  buf <- klift (pad_loop (S (length buf)) r.1 (u8 r.2) buf_len) ;;
  write_out buf (buf_len - 1) ;;;
  kret buf.

Definition status_name (st : task_status) : list Z :=
  match st with
  | TASK_RUNNING => text "RUNNING"
  | TASK_READY => text "READY"
  | TASK_BLOCKED => text "BLOCKED"
  | TASK_WAITING => text "WAITING"
  | TASK_HANGING => text "HANGING"
  | TASK_DIED => text "DIED"
  end.

(** The end of [elem2thread_info]. *)
Definition name_line (out_pad : list Z) (pthread : task) : K bool :=
  out_pad <- klift (memset out_pad (Some 0) 0 16) ;;
  len <- klift (strlen (t_name pthread) (Some 0)) ;;
  ASSERT (len <? 17) ;;;
  out_pad <- klift (memcpy out_pad (Some 0) (t_name pthread) (Some 0) len) ;;
  out_pad <- klift (strcat out_pad (Some 0) [10; 0] (Some 0)) ;;
  count <- klift (strlen out_pad (Some 0)) ;;
  write_out out_pad count ;;;
  kret false.

Definition elem2thread_info (pelem : Z) : K bool :=
  pthread <- get_task (all_list_entry pelem) ;;
  let out_pad := replicate 16 0 in
  out_pad <- pad_print out_pad 16 (le_bytes 2 (u16 (t_pid pthread))) "d" ;;
  out_pad <- (if t_parent pthread =? -1 then pad_print out_pad 16 (text "NULL" ++ [0]) "s"
              else pad_print out_pad 16 (le_bytes 2 (u16 (t_parent pthread))) "d") ;;
  out_pad <- pad_print out_pad 16 (status_name (t_status pthread) ++ [0]) "s" ;;
  out_pad <- pad_print out_pad 16 (le_bytes 4 (t_elapsed pthread)) "x" ;;
  name_line out_pad pthread.

Definition ps_title : list Z :=
  text "PID            PPID           STAT           TICKS          COMMAND" ++ [10].

Definition sys_ps : K unit :=
  count <- klift (strlen (ps_title ++ [0]) (Some 0)) ;;
  write_out (ps_title ++ [0]) count ;;;
  q_traversal thread_all_list elem2thread_info ;;;
  kret tt.

Definition sys_getpid : K Z := t <- running_thread ;; p <- get_task t ;; kret (u32 (t_pid p)).
End ps.

(** ** userprog/syscall_init.c *)

Definition help_text : list Z :=
  text " buildin commands:" ++ [10] ++
  text "       ls: show directory or file information" ++ [10] ++
  text "       cd: change current work directory" ++ [10] ++
  text "       mkdir: create a directory" ++ [10] ++
  text "       rmdir: remove a empty directory" ++ [10] ++
  text "       rm: remove a regular file" ++ [10] ++
  text "       pwd: show current work directory" ++ [10] ++
  text "       ps: show process information" ++ [10] ++
  text "       clear: clear screen" ++ [10] ++
  text " shortcut key:" ++ [10] ++
  text "       ctrl+l: clear screen" ++ [10] ++
  text "       ctrl+u: clear input" ++ [10; 10].

Definition sys_help {P} `{!KernelPages P, !ScreenStore P} (console_lock : Z) (fuel : nat) : CM (kst P) unit :=
  printk console_lock fuel (fun _ => Err OutOfBounds) (help_text ++ [0]) [].

(** ** A column *)

(** The reference: [t] with blanks up to the width of a column. *)
Definition column (t : list Z) : list Z := t ++ replicate (15 - length t) 32.

(** The row of a task. *)
Definition columns (q : task) : list Z :=
  column (decimal (i16 (t_pid q))) ++
  column (if t_parent q =? -1 then text "NULL" else decimal (i16 (t_parent q))) ++
  column (status_name (t_status q)) ++
  column (numeral 16 (t_elapsed q)).
Definition ps_row (nm : list Z) (q : task) : list Z := columns q ++ nm ++ [10].

Lemma digits_bound base n k v : 2 <= base -> 0 <= v < base ^ Z.of_nat k -> (0 < k)%nat -> (length (digits n base v) <= k)%nat.
Proof.
  intros Hb. revert v k. induction n as [|n IH]; intros v k Hv Hk; cbn [digits]; [cbn; lia|].
  rewrite length_app. cbn [length]. destruct (Z.eqb_spec (v / base) 0) as [E|E]; [cbn; lia|].
  destruct k as [|k]; [lia|]. assert (Hq : 0 <= v / base < base ^ Z.of_nat k).
  { split; [apply Z.div_pos; lia|]. apply Z.div_lt_upper_bound; [lia|]. rewrite Nat2Z.inj_succ, Z.pow_succ_r in Hv by lia. lia. }
  destruct k as [|k]; [cbn in Hq; lia|]. specialize (IH (v / base) (S k) Hq ltac:(lia)). lia.
Qed.

Lemma decimal_short x : - 32768 <= x < 32768 -> (length (decimal x) <= 6)%nat /\ is_text (decimal x).
Proof.
  intros Hx. unfold decimal. rewrite i32_small by lia. assert (Hp : 10 ^ Z.of_nat 5 = 100000) by reflexivity.
  destruct (Z.ltb_spec x 0) as [Hn|Hn].
  - split; [|constructor; [lia|apply digits_text; lia]].
    cbn [length]. apply le_n_S. apply (digits_bound 10 32 5); [lia|rewrite Hp; lia|lia].
  - split; [|apply digits_text; lia]. etrans; [apply (digits_bound 10 32 5); [lia|rewrite Hp; lia|lia]|lia].
Qed.

Lemma hex_short v : 0 <= v < 2 ^ 32 -> (length (numeral 16 v) <= 8)%nat /\ is_text (numeral 16 v).
Proof.
  intros Hv. split; [|apply digits_text; lia]. apply (digits_bound 16 32 8); [lia| |lia].
  change (16 ^ Z.of_nat 8) with (2 ^ 32). lia.
Qed.

Lemma i16_range x : - 32768 <= i16 x < 32768.
Proof. unfold i16. pose proof (Z.mod_pos_bound (x + 2 ^ 15) (2 ^ 16) ltac:(lia)). lia. Qed.

Lemma i16_u16 x : i16 (u16 x) = i16 x.
Proof. unfold i16, u16. by rewrite Zplus_mod_idemp_l. Qed.

Lemma pid_bytes x : u32 (i16 (le_val (take 2 (le_bytes 2 (u16 x))))) = u32 (i16 x).
Proof.
  rewrite firstn_all2 by (rewrite le_bytes_length; lia).
  rewrite le_val_bytes by exact (Z.mod_pos_bound x 65536 eq_refl). by rewrite i16_u16.
Qed.

Lemma word_bytes x : 0 <= x < 2 ^ 32 -> le_val (take 4 (le_bytes 4 x)) = x.
Proof. intros Hx. rewrite firstn_all2 by (rewrite le_bytes_length; lia). apply le_val_bytes. change (256 ^ Z.of_nat 4) with (2 ^ 32). lia. Qed.

Lemma pad_loop_run n t k : (k < n)%nat -> (length t + k <= 255)%nat -> forall rest, length rest = k ->
  pad_loop n (t ++ rest) (Z.of_nat (length t)) (Z.of_nat (length t + k)) = Ok (t ++ replicate k 32).
Proof.
  revert t k. induction n as [|n IH]; intros t k Hn Hk rest Hr; [lia|]. cbn [pad_loop]. destruct k as [|k].
  { rewrite (proj2 (Z.ltb_ge _ _)) by lia. by destruct rest. }
  rewrite (proj2 (Z.ltb_lt _ _)) by lia. destruct rest as [|x rest]; [done|]. injection Hr as Hr.
  rewrite wr_mid. cbn [obind]. specialize (IH (t ++ [32]) k ltac:(lia)). rewrite length_app in IH. cbn [length] in IH.
  rewrite u8_small by lia. replace (Z.of_nat (length t) + 1) with (Z.of_nat (length t + 1)) by lia.
  replace (length t + S k)%nat with (length t + 1 + k)%nat by lia.
  etrans; [exact (IH ltac:(lia) rest Hr)|]. by rewrite <- app_assoc.
Qed.

Lemma column_length t : (length t <= 15)%nat -> length (column t) = 15%nat.
Proof. intros Ht. unfold column. rewrite length_app, length_replicate. lia. Qed.

Lemma column_text t : is_text t -> is_text (column t).
Proof. intros Ht. apply list.Forall_app. split; [exact Ht|]. apply Forall_replicate. lia. Qed.

(** What a conversion into the cleared buffer leaves. *)
Definition converted16 (t : list Z) : outcome (list Z * Z) := Ok (t ++ replicate (16 - length t) 0, Z.of_nat (length t)).

Lemma sprintf16 object strings fm f args t :
  (forall w u, strings w = Some u -> exists m, object w = Ok m /\ str_at m 0 u) ->
  str_at fm 0 f -> render strings f args = Some t -> (length t <= 15)%nat -> is_text t ->
  sprintf object (replicate 16 0) fm args = converted16 t.
Proof.
  intros Ho Hf Hr Hl Ht. unfold sprintf, converted16.
  rewrite (vsprintf_run object strings Ho fm f (replicate 16 0) args t Hf Hr); [| |exact Ht|].
  - by rewrite drop_replicate.
  - rewrite length_replicate. lia.
  - apply rd_Ok; [lia|]. rewrite Nat2Z.id. apply lookup_replicate_2. lia.
Qed.

Section ps_properties.
Context {P : Type} `{!KernelPages P, !StdOut P, !StdOutLaws P}.
Implicit Types (s : kst P).

(** The buffer is cleared. *)
Lemma memset16 buf : length buf = 16%nat -> memset buf (Some 0) 0 16 = Ok (replicate 16 0).
Proof.
  intros Hb. unfold memset. cbn [obind not_null]. change (u8 0) with 0. change (Z.to_nat 16) with 16%nat.
  pose proof (memset_loop_spec 16 [] buf [] 0 Hb) as E. rewrite !app_nil_r in E. exact E.
Qed.

Lemma write_out_run s m t : std_ok (k_pages s) -> is_text t -> Z.of_nat (length t) < 1024 -> take (length t) m = t ->
  exists p, write_out m (Z.of_nat (length t)) s = Ok (Z.of_nat (length t), set_k_pages p s) /\
    std_ok p /\ shown t (k_pages s) p.
Proof.
  intros Hok Ht Hl Hm. destruct (std_write_spec m t (k_pages s) Hok Ht Hl Hm) as (p & R & H1 & H2).
  exists p. split; [by apply kpages_run|by split].
Qed.

Lemma pad_print_run s buf ptr f t :
  std_ok (k_pages s) -> length buf = 16%nat -> (length t <= 15)%nat -> is_text t ->
  match f with
  | "s"%char => sprintf (fun _ => Ok ptr) (replicate 16 0) format_s [0]
  | "d"%char => sprintf (fun _ => Err OutOfBounds) (replicate 16 0) format_d [u32 (i16 (le_val (take 2 ptr)))]
  | "x"%char => sprintf (fun _ => Err OutOfBounds) (replicate 16 0) format_x [le_val (take 4 ptr)]
  | _ => Ok (replicate 16 0, 0)
  end = converted16 t ->
  exists buf' p, pad_print buf 16 ptr f s = Ok (buf', set_k_pages p s) /\ length buf' = 16%nat /\
    std_ok p /\ shown (column t) (k_pages s) p.
Proof.
  intros Hok Hb Ht Htx Hc. unfold pad_print. rewrite (kbind_ok _ _ s (replicate 16 0) s) by (unfold klift; by rewrite memset16).
  rewrite (kbind_ok _ _ s (t ++ replicate (16 - length t) 0, Z.of_nat (length t)) s) by (unfold klift; by rewrite Hc).
  set (b := t ++ replicate (16 - length t) 32).
  rewrite (kbind_ok _ _ s b s).
  2: { unfold klift. cbn [fst snd]. rewrite u8_small by lia. rewrite length_replicate.
    pose proof (pad_loop_run 17 t (16 - length t) ltac:(lia) ltac:(lia) (replicate (16 - length t) 0)) as E.
    replace (Z.of_nat (length t + (16 - length t))) with 16 in E by lia. rewrite E by apply length_replicate. done. }
  assert (Eb : b = column t ++ [32]).
  { unfold b, column. rewrite <- app_assoc. f_equal. replace (16 - length t)%nat with (15 - length t + 1)%nat by lia.
    by rewrite replicate_add. }
  destruct (write_out_run s b (column t) Hok (column_text t Htx)) as (p & R & Hp1 & Hp2).
  { rewrite column_length by done. lia. }
  { rewrite Eb. by rewrite take_app_length. }
  rewrite column_length in R by done. exists b, p. split; [|split; [|by split]].
  - rewrite (kbind_ok _ _ s 15 (set_k_pages p s)) by exact R. done.
  - rewrite Eb, length_app, column_length by done. done.
Qed.

Lemma pad_text s buf t m :
  std_ok (k_pages s) -> length buf = 16%nat -> (length t <= 15)%nat -> str_at m 0 t ->
  exists buf' p, pad_print buf 16 m "s" s = Ok (buf', set_k_pages p s) /\ length buf' = 16%nat /\
    std_ok p /\ shown (column t) (k_pages s) p.
Proof.
  intros Hok Hb Ht Hm. assert (Htx : is_text t) by apply Hm. apply pad_print_run; [done..|].
  apply (sprintf16 _ (fun _ => Some t) _ [37; 115]); [|by apply (str_at_app [37; 115] []); repeat constructor| |done|done].
  - intros w u [= <-]. by exists m.
  - cbn. by rewrite app_nil_r.
Qed.

Lemma pad_pid s buf x :
  std_ok (k_pages s) -> length buf = 16%nat ->
  exists buf' p, pad_print buf 16 (le_bytes 2 (u16 x)) "d" s = Ok (buf', set_k_pages p s) /\ length buf' = 16%nat /\
    std_ok p /\ shown (column (decimal (i16 x))) (k_pages s) p.
Proof.
  intros Hok Hb. destruct (decimal_short (i16 x) (i16_range x)) as [Hl Htx]. apply pad_print_run; [done|done|lia|done|].
  rewrite pid_bytes. apply (sprintf16 _ (fun _ => None) _ [37; 100]); [done|by apply (str_at_app [37; 100] []); repeat constructor| |lia|done].
  cbn. unfold decimal. rewrite i32_u32. by rewrite app_nil_r.
Qed.

Lemma pad_ticks s buf x :
  std_ok (k_pages s) -> length buf = 16%nat -> 0 <= x < 2 ^ 32 ->
  exists buf' p, pad_print buf 16 (le_bytes 4 x) "x" s = Ok (buf', set_k_pages p s) /\ length buf' = 16%nat /\
    std_ok p /\ shown (column (numeral 16 x)) (k_pages s) p.
Proof.
  intros Hok Hb Hx. destruct (hex_short x Hx) as [Hl Htx]. apply pad_print_run; [done|done|lia|done|].
  rewrite word_bytes by done. apply (sprintf16 _ (fun _ => None) _ [37; 120]); [done|by apply (str_at_app [37; 120] []); repeat constructor| |lia|done].
  change (Some (numeral 16 (u32 x) ++ []) = Some (numeral 16 x)). by rewrite u32_small, app_nil_r by lia.
Qed.

(** A task whose name is [nm]; the newline that is added must have room in 16 bytes. *)
Record named (q : task) (nm : list Z) : Prop := {
  nm_str : str_at (t_name q) 0 nm;
  nm_room : (length nm <= 14)%nat;
  nm_ticks : 0 <= t_elapsed q < 2 ^ 32
}.

Lemma strlen_str m nm : str_at m 0 nm -> strlen m (Some 0) = Ok (Z.of_nat (length nm)).
Proof.
  intros Hs. unfold strlen. cbn [not_null obind]. rewrite (find_nul_spec _ _ _ nm) by (done || by apply str_fuel in Hs).
  cbn [obind]. f_equal. lia.
Qed.

(** The name is copied into the cleared buffer. *)
Lemma name_copied m nm : str_at m 0 nm -> (length nm <= 15)%nat ->
  memcpy (replicate 16 0) (Some 0) m (Some 0) (Z.of_nat (length nm)) = Ok (nm ++ 0 :: replicate (15 - length nm) 0).
Proof.
  intros Hs Hr. unfold memcpy. cbn [obind not_null]. rewrite Nat2Z.id. pose proof (str_at_length _ _ _ Hs) as Hlen.
  destruct Hs as (_ & _ & rest & Hd). change (m = nm ++ 0 :: rest) in Hd.
  pose proof (memcpy_loop_spec (length nm) [] (replicate (length nm) 0) (replicate (16 - length nm) 0) m 0) as E.
  cbn [app length] in E. change (Z.of_nat 0) with 0 in E. rewrite <- replicate_add in E.
  replace (length nm + (16 - length nm))%nat with 16%nat in E by lia.
  rewrite E; [|by rewrite length_replicate|lia|lia]. change (drop (Z.to_nat 0) m) with m. rewrite Hd, take_app_length.
  by replace (16 - length nm)%nat with (S (15 - length nm)) by lia.
Qed.

Lemma name_line_run s buf q nm : length buf = 16%nat -> std_ok (k_pages s) -> named q nm ->
  exists p, name_line buf q s = Ok (false, set_k_pages p s) /\
  std_ok p /\ shown (nm ++ [10]) (k_pages s) p.
Proof.
  intros Hb Hok [Hs Hr _]. unfold name_line. assert (Htx : is_text nm) by apply Hs.
  assert (Hnl : is_text (nm ++ [10])) by (apply list.Forall_app; split; [done|repeat constructor]).
  rewrite (kbind_ok _ _ s (replicate 16 0) s) by (unfold klift; by rewrite memset16).
  rewrite (kbind_ok _ _ s (Z.of_nat (length nm)) s) by (unfold klift; by rewrite (strlen_str _ _ Hs)).
  rewrite (kbind_ok _ _ s tt s) by (by rewrite (proj2 (Z.ltb_lt _ _)) by lia).
  rewrite (kbind_ok _ _ s (nm ++ 0 :: replicate (15 - length nm) 0) s) by (unfold klift; by rewrite (name_copied _ nm) by (done || lia)).
  destruct (strcat_run (nm ++ 0 :: replicate (15 - length nm) 0) nm [10; 0] [10]) as (d & R & Hd & _).
  { by apply str_at_app. }
  { apply (str_at_app [10] []). repeat constructor. }
  { rewrite length_app. cbn [length]. rewrite length_replicate. lia. }
  rewrite (kbind_ok _ _ s d s) by (unfold klift; by rewrite R).
  rewrite (kbind_ok _ _ s (Z.of_nat (length (nm ++ [10]))) s) by (unfold klift; by rewrite (strlen_str _ _ Hd)).
  destruct (write_out_run s d (nm ++ [10]) Hok Hnl) as (p & R2 & Hp1 & Hp2).
  { rewrite length_app. cbn [length]. lia. }
  { destruct Hd as (_ & _ & rest & Hd). change (d = (nm ++ [10]) ++ 0 :: rest) in Hd. by rewrite Hd, take_app_length. }
  exists p. split; [|by split]. by rewrite (kbind_ok _ _ _ _ _ R2).
Qed.

Lemma status_short st : is_text (status_name st) /\ (length (status_name st) <= 7)%nat.
Proof. destruct st; (split; [apply text_check; reflexivity|apply Nat.leb_le; reflexivity]). Qed.

Lemma columns_run s t q : k_tasks s !! t = Some q -> 0 <= t_elapsed q < 2 ^ 32 -> std_ok (k_pages s) ->
  exists b p, elem2thread_info (all_list_tag t) s = name_line b q (set_k_pages p s) /\ length b = 16%nat /\ std_ok p /\
    shown (columns q) (k_pages s) p.
Proof.
  intros Hq Hn Hok. unfold elem2thread_info. rewrite all_list_entry_tag.
  rewrite (kbind_ok _ _ _ _ _ (get_task_run _ _ _ Hq)). cbv zeta.
  destruct (pad_pid s (replicate 16 0) (t_pid q) Hok) as (b1 & p1 & R1 & L1 & O1 & S1); [done|].
  rewrite (kbind_ok _ _ _ _ _ R1). set (s1 := set_k_pages p1 s) in *.
  assert (H2 : exists b2 p2, (if t_parent q =? -1 then pad_print b1 16 (text "NULL" ++ [0]) "s"
      else pad_print b1 16 (le_bytes 2 (u16 (t_parent q))) "d") s1 = Ok (b2, set_k_pages p2 s1) /\ length b2 = 16%nat /\ std_ok p2 /\
    shown (column (if t_parent q =? -1 then text "NULL" else decimal (i16 (t_parent q)))) p1 p2).
  { destruct (t_parent q =? -1); [|by apply (pad_pid s1)]. apply (pad_text s1); [done|done|apply Nat.leb_le; reflexivity|].
    apply (str_at_app (text "NULL") []). apply text_check. reflexivity. }
  destruct H2 as (b2 & p2 & R2 & L2 & O2 & S2). rewrite (kbind_ok _ _ _ _ _ R2). set (s2 := set_k_pages p2 s1) in *.
  destruct (status_short (t_status q)) as [Hst Hsl].
  destruct (pad_text s2 b2 (status_name (t_status q)) (status_name (t_status q) ++ [0])) as (b3 & p3 & R3 & L3 & O3 & S3);
    [done|done|lia|by apply (str_at_app _ [])|].
  rewrite (kbind_ok _ _ _ _ _ R3). set (s3 := set_k_pages p3 s2) in *.
  destruct (pad_ticks s3 b3 (t_elapsed q)) as (b4 & p4 & R4 & L4 & O4 & S4); [done|done|exact Hn|].
  rewrite (kbind_ok _ _ _ _ _ R4). exists b4, p4. split; [reflexivity|]. split; [exact L4|]. split; [exact O4|].
  eapply shown_app; [exact S1|]. eapply shown_app; [exact S2|]. by eapply shown_app.
Qed.

Lemma row_run s t q nm : k_tasks s !! t = Some q -> named q nm -> std_ok (k_pages s) ->
  exists p, elem2thread_info (all_list_tag t) s = Ok (false, set_k_pages p s) /\ std_ok p /\
    shown (ps_row nm q) (k_pages s) p.
Proof.
  intros Hq Hn Hok. destruct (columns_run s t q Hq (nm_ticks _ _ Hn) Hok) as (b & p4 & R4 & L4 & O4 & S4).
  destruct (name_line_run (set_k_pages p4 s) b q nm L4 O4 Hn) as (p5 & R5 & O5 & S5).
  exists p5. rewrite R4. split; [exact R5|]. split; [exact O5|]. unfold ps_row. by eapply shown_app.
Qed.

(** The rows of the threads [ts], whose names are [nms]. *)
Definition ps_rows (tasks : gmap Z task) (ts : list Z) (nms : list (list Z)) : list Z :=
  concat (zip_with (fun t nm => ps_row nm (default zero_task (tasks !! t))) ts nms).

Lemma rows_run ts nms s : Forall2 (fun t nm => exists q, k_tasks s !! t = Some q /\ named q nm) ts nms -> std_ok (k_pages s) ->
  exists p, traverse elem2thread_info (all_list_tag <$> ts) s = Ok (0, set_k_pages p s) /\ std_ok p /\
    shown (ps_rows (k_tasks s) ts nms) (k_pages s) p.
Proof.
  intros Hts. remember (k_tasks s) as tk eqn:Htk. revert s Htk. induction Hts as [|t nm ts nms (q & Hq & Hn) Hts IH]; intros s Htk Hok.
  - exists (k_pages s). split; [by destruct s|]. split; [done|]. by apply shown_nil.
  - rewrite Htk in Hq. destruct (row_run s t q nm Hq Hn Hok) as (p1 & R1 & O1 & S1).
    destruct (IH (set_k_pages p1 s) Htk O1) as (p2 & R2 & O2 & S2).
    exists p2. split; [|split; [exact O2|]].
    + rewrite fmap_cons. cbn [traverse]. rewrite (kbind_ok _ _ _ _ _ R1). exact R2.
    + unfold ps_rows. cbn [zip_with concat]. rewrite Htk, Hq at 1. cbn [default from_option].
      eapply shown_app; [exact S1|]. exact S2.
Qed.


(** A name of 15 characters, which fits into [name] with its NUL, passes the assertion and
    overflows the 16 bytes of [out_pad]: the newline is put at its end and the NUL behind it. *)
Theorem ps_name_overflows s t q nm :
  k_tasks s !! t = Some q -> str_at (t_name q) 0 nm -> length nm = 15%nat -> 0 <= t_elapsed q < 2 ^ 32 -> std_ok (k_pages s) ->
  elem2thread_info (all_list_tag t) s = Err OutOfBounds.
Proof.
  intros Hq Hs Hl Ht Hok. destruct (columns_run s t q Hq Ht Hok) as (b & p & -> & Lb & _). set (s1 := set_k_pages p s).
  unfold name_line. rewrite (kbind_ok _ _ s1 (replicate 16 0) s1) by (unfold klift; by rewrite memset16).
  rewrite (kbind_ok _ _ s1 15 s1) by (unfold klift; by rewrite (strlen_str _ _ Hs), Hl).
  rewrite (kbind_ok _ _ s1 tt s1) by done.
  rewrite (kbind_ok _ _ s1 (nm ++ [0]) s1).
  2: { unfold klift. pose proof (name_copied _ _ Hs ltac:(lia)) as E. rewrite Hl in E. change (Z.of_nat 15) with 15 in E.
    by rewrite E. }
  assert (Hn : str_at (nm ++ [0]) 0 nm) by (apply (str_at_app nm []), Hs).
  assert (E : strcat (nm ++ [0]) (Some 0) [10; 0] (Some 0) = Err OutOfBounds).
  { unfold strcat. cbn [not_null obind]. rewrite (find_nul_spec _ _ _ nm) by (done || by apply str_fuel in Hn).
    cbn [obind length strcat_copy]. change (rd [10; 0] 0) with (@Ok Z 10). cbn [obind]. rewrite Z.add_0_l, wr_mid. cbn [obind].
    change (10 =? 0) with false. cbn [negb]. change (rd [10; 0] (0 + 1)) with (@Ok Z 0). cbn [obind].
    unfold wr. rewrite decide_False; [done|]. rewrite !length_app. cbn [length]. lia. }
  unfold kbind at 1, klift at 1. by rewrite E.
Qed.
End ps_properties.

(** ** The screen *)

(** [sys_write] of Fs on the console: up to 1023 bytes copied to a cleared buffer. *)
Definition screen_write (buf : list Z) (count : Z) (v : screen) : outcome (Z * screen) :=
  let? tmp_buf := memcpy (replicate 1024 0) (Some 0) buf (Some 0) count in
  match put_str tmp_buf v with Ok (_, v') => Ok (i32 count, v') | Err e => Err e end.

#[export] Instance screen_stdout : StdOut screen := screen_write.

Lemma screen_write_run m t v : screen_ok v -> is_text t -> Z.of_nat (length t) < 1024 -> take (length t) m = t ->
  exists v', screen_write m (Z.of_nat (length t)) v = Ok (Z.of_nat (length t), v') /\ screen_ok v' /\
    term_of v' = fold_left (typed rc_black rc_white) t (term_of v).
Proof.
  intros Hv Ht Hl Hm. unfold screen_write, memcpy. cbn [not_null obind]. rewrite Nat2Z.id.
  assert (Hlm : (length t <= length m)%nat) by (rewrite <- Hm at 1; rewrite length_take; lia).
  pose proof (memcpy_loop_spec (length t) [] (replicate (length t) 0) (replicate (1024 - length t) 0) m 0) as E.
  cbn [app] in E. change (Z.of_nat (@length Z [])) with 0 in E. rewrite <- replicate_add in E.
  replace (length t + (1024 - length t))%nat with 1024%nat in E by lia.
  rewrite E; [|by rewrite length_replicate|lia|lia]. change (drop (Z.to_nat 0) m) with m. rewrite Hm. cbn [obind].
  assert (Hs : str_at (t ++ replicate (1024 - length t) 0) 0 t).
  { replace (1024 - length t)%nat with (S (1023 - length t)) by lia. by apply str_at_app. }
  destruct (put_loop_run (S (length (t ++ replicate (1024 - length t) 0))) _ 0 t rc_black rc_white v Hs)
    as (v' & Hrun & (H1 & H2 & _) & _); try done; [by apply str_fuel in Hs|].
  exists v'. unfold put_str. rewrite Hrun. rewrite i32_small by lia. done.
Qed.

#[export] Program Instance screen_stdout_laws : StdOutLaws screen :=
  {| std_ok := screen_ok; shown t v v' := screen_ok v' /\ term_of v' = fold_left (typed rc_black rc_white) t (term_of v) |}.
Next Obligation.
  intros m t v Hv Ht Hl Hm. destruct (screen_write_run m t v Hv Ht Hl Hm) as (v' & R & H1 & H2). by exists v'.
Qed.
Next Obligation. done. Qed.
Next Obligation. intros t1 t2 v v1 v2 [_ E1] [H2 E2]. split; [done|]. by rewrite fold_left_app, <- E1. Qed.

(** Two threads, main and a hanging child of it. *)
Definition ps_task (st : task_status) (pid parent ticks : Z) (nm : list Z) : task :=
  Task 0 pid st (nm ++ replicate (16 - length nm) 0) 10 10 ticks [0; 1; 2; -1; -1; -1; -1; -1] 0 (VAddr 0 0 0) 0 parent 0
    STACK_MAGIC.
Definition ps_kernel : kst screen :=
  KSt 0 0x1000
    {[0x1000 := ps_task TASK_RUNNING 1 (-1) 255 (text "main"); 0x2000 := ps_task TASK_HANGING 2 1 10 (text "init")]}
    {[thread_all_list := all_list_tag <$> [0x1000; 0x2000]]}
    ∅ ∅ ∅ 0 0x1000 (Bitmap 0 []) sample_screen 0x100000 0 0.


Lemma ps_name_overflows_witness :
  elem2thread_info (all_list_tag 0x3000)
    (set_k_tasks {[0x3000 := ps_task TASK_READY 3 1 0 (text "fifteen_letters")]} ps_kernel) = Err OutOfBounds.
Proof.
  apply (ps_name_overflows _ _ (ps_task TASK_READY 3 1 0 (text "fifteen_letters")) (text "fifteen_letters")).
  - reflexivity.
  - split; [lia|]. split; [apply text_check; reflexivity|]. by exists [].
  - reflexivity.
  - cbn. lia.
  - apply sample_screen_ok.
Defined.
