(* ===== verification/UserProg.v ===== *)
(** * UserProg: programs that only make system calls

    command/cat.c, command/pipe_test.c, command/prog_no_arg.c, user_spin of lib/user/assert.c,
    and [init] and [load_user_code] of kernel/main.c.  A program is a function of the kernel
    behind the calls of [ShellCalls] and [UserCalls]; its result is the status it ends with,
    given to [exit] or returned from [main] to command/start.asm, which hands it to [exit].
    What the calls promise a program is [UserLaws]. *)

From Stdlib Require Import Ascii String.
From S2P Require Import Prelude Bitmap Interrupt DList Sched Disk Inode Cstring Dir File Path Pipe Fs CleanPath Stdio Shell ShellSpec.
Close Scope string_scope.

#[local] Set Default Proof Using "Type*".

(** ** The code *)

(** The calls the shell does not make.  [u_malloc] gives the address of the block, [NULL]
    being 0; what is in it is an argument of the program. *)
Class UserCalls (U : Type) : Type := {
  u_open : list Z -> Z -> KM U Z;
  u_malloc : Z -> KM U Z;
  u_free : Z -> KM U unit;
  u_getpid : KM U Z
}.

Definition O_RDINLY : Z := 0.

(** A character array of [n] bytes, initialised with [t]. *)
Definition char_array (n : nat) (t : list Z) : list Z := t ++ replicate (n - length t) 0.

Section programs.
Context {U : Type} `{!ShellCalls U, !UserCalls U}.

(** [printf]. *)
Definition print (format : list Z) (args : list print_arg) : KM U Z :=
  buf <- klift (print_buf (arg_object args) format (imap arg_word args)) ;;
  n <- klift (strlen buf (Some 0)) ;;
  u_write 1 buf n.

(** [user_spin] prints and loops. *)
Definition spin_format : list Z :=
  [10; 10; 10; 10] ++ bytes_of "filename %s" ++ [10] ++ bytes_of "line %d" ++ [10] ++ bytes_of "function %s" ++ [10]
  ++ cline "condition %s".
Definition user_spin (filename : list Z) (line : Z) (func condition : list Z) : KM U unit :=
  print spin_format [Str filename; Num line; Str func; Str condition] ;;;
  kfail AssertFail.

(** [read(fd, buf, count)]: what is read comes to the start of [buf]. *)
Definition read_into (fd : Z) (buf : list Z) (count : Z) : KM U (Z * list Z) :=
  r <- u_read fd count ;;
  buf <- klift (splice buf 0 r.2) ;;
  kret (r.1, buf).

(** The loop of [cat]. *)
Fixpoint cat_loop (n : nat) (fd : Z) (buf : list Z) (buf_size : Z) : KM U (list Z) :=
  match n with
  | O => kfail Diverges
  | S n =>
      r <- read_into fd buf buf_size ;;
      if r.1 =? -1 then kret r.2
      else
        u_write 1 r.2 r.1 ;;;
        cat_loop n fd r.2 buf_size
  end.

(** The path [cat] opens. *)
Definition cat_path (arg1 : list Z) : KM U (list Z) :=
  let abs_path := replicate 512 0 in
  c <- klift (rd arg1 0) ;;
  if negb (c =? 47) then
    r <- u_getcwd abs_path 512 ;;
    let abs_path := default abs_path r in
    abs_path <- klift (strcat abs_path (Some 0) [47; 0] (Some 0)) ;;
    klift (strcat abs_path (Some 0) arg1 (Some 0))
  else klift (strcpy abs_path (Some 0) arg1 (Some 0)).

(** [junk] is what [malloc] gives, [n] bounds the chunks of the file. *)
Definition cat (n : nat) (argc : Z) (argv : list (list Z)) (junk : list Z) : KM U Z :=
  if 2 <? argc then
    print (bytes_of "cat: only support 1 argument." ++ [10] ++ cline "eg: cat filename") [] ;;;
    kret (-2)
  else if argc =? 1 then
    r <- read_into 0 (replicate 512 0) 512 ;;
    print (cline "%s") [Str r.2] ;;;
    kret 0
  else
    let buf_size := 1024 in
    buf <- u_malloc buf_size ;;
    if buf =? 0 then
      print (cline "cat: malloc memory failed") [] ;;;
      kret (-11)
    else
      arg1 <- klift (match argv !! 1%nat with Some a => Ok a | None => Err OutOfBounds end) ;;
      abs_path <- cat_path arg1 ;;
      fd <- u_open abs_path O_RDINLY ;;
      if fd =? -1 then
        print (cline "cat: open: open %s failed") [Str arg1] ;;;
        kret (-1)
      else
        cat_loop n fd junk buf_size ;;;
        u_free buf ;;;
        u_close fd ;;;
        kret 66.

(** [pipe_test]: [u_fork] says which of the two processes this is. *)
Definition pipe_message : list Z := cstr "Hi, my son, I love you!".
Definition pipe_father (fd0 fd1 : Z) : KM U Z :=
  u_close fd0 ;;;
  len <- u_write fd1 pipe_message 24 ;;
  print (cline "write len:%d") [Num len] ;;;
  pid <- u_getpid ;;
  print ([10] ++ cline "I`m father, my pid is %d") [Num pid] ;;;
  kret 8.
Definition pipe_child (fd0 fd1 : Z) : KM U Z :=
  u_close fd1 ;;;
  r <- read_into fd0 (replicate 32 0) 24 ;;
  print (cline "read len:%d") [Num r.1] ;;;
  print (bytes_of "I`m child, my father said to me: " ++ [34] ++ bytes_of "%s" ++ [34; 10; 0]) [Str r.2] ;;;
  pid <- u_getpid ;;
  print ([10] ++ cline "I`m child, my pid is %d") [Num pid] ;;;
  kret 9.
Definition pipe_test : KM U Z :=
  r <- u_pipe ;;
  let fd := if r.1.1 =? -1 then (-1, 0) else (r.1.2, r.2) in
  pid <- u_fork ;;
  if negb (pid =? 0) then pipe_father fd.1 fd.2 else pipe_child fd.1 fd.2.

Definition prog_no_arg (argc : Z) (argv : list (list Z)) : KM U Z :=
  print (cline "prog_no_arg from disk") [] ;;;
  a0 <- klift (match argv !! 0%nat with Some a => Ok a | None => Err OutOfBounds end) ;;
  a1 <- klift (match argv !! 1%nat with Some a => Ok a | None => Err OutOfBounds end) ;;
  print (cline "argc:%d ,argv[0]:%s ,argv[1]:%s") [Num argc; Str a0; Str a1] ;;;
  kret 0.

(** [init], as many children as there is fuel for. *)
Definition init_line : list Z := cline "I`m init, My pid is 1, I recieve a child, It`s pid is %d, status is %d".
Fixpoint init_loop (n : nat) : KM U unit :=
  match n with
  | O => kret tt
  | S n =>
      w <- u_wait ;;
      print init_line [Num w.1; Num w.2] ;;;
      init_loop n
  end.
Definition init (rounds keys n : nat) : KM (shell U) bool :=
  ret_pid <- call u_fork ;;
  if negb (ret_pid =? 0) then call (init_loop rounds) ;;; kret true
  else my_shell rounds keys n.
End programs.

(** ** load_user_code *)

(** How a program comes to the file system: its sectors from 300 on of the first disk [sda],
    which is another device than the one the file system is on, are written to a file of the
    root directory.  The call of it in [main] is commented out.  The loop behind a failed
    write is a stop. *)
Section load_user_code.
Context {D H C : Type} `{!BlockDev D, !KernelHeap H, !CharIo C}.

Definition load_user_code (g : garbage) (sda : D) (size : Z) (name : list Z) : KM (vfs D H C) D :=
  let file_size := size in
  let sec_cnt := DIV_ROUND_UP file_size 512 in
  namebuf <- klift (wr (replicate 16 0) 0 47) ;;
  namebuf <- klift (wr namebuf 1 0) ;;
  namebuf <- klift (strcat namebuf (Some 0) name (Some 0)) ;;
  prog_buf <- in_fs (malloc file_size) ;;
  r <- klift (disk_read 300 sec_cnt sda) ;;
  in_fs (buffer prog_buf) ;;;
  fd <- in_fs (sys_open g namebuf (Z.lor O_CREAT O_RDWR)) ;;
  (if negb (fd =? -1) then
     w <- sys_write fd r.1 0 file_size ;;
     if w =? -1 then PANIC else kret tt
   else kret tt) ;;;
  sys_close fd ;;;
  kret r.2.
End load_user_code.

(** ** What the calls promise *)

(** What a process sees: the text put out so far, what is left to be read of each open
    descriptor, its blocks, the files by their paths, the working directory, and the pids and
    statuses of the children that have ended. *)
Record view : Type := View {
  v_out : list Z;
  v_open : gmap Z (list Z);
  v_heap : gset Z;
  v_files : list Z -> option (list Z);
  v_cwd : list Z;
  v_ended : list (Z * Z)
}.
Definition say (t : list Z) (v : view) : view := View (v_out v ++ t) (v_open v) (v_heap v) (v_files v) (v_cwd v) (v_ended v).
Definition with_open (f : gmap Z (list Z) -> gmap Z (list Z)) (v : view) : view :=
  View (v_out v) (f (v_open v)) (v_heap v) (v_files v) (v_cwd v) (v_ended v).
Definition with_heap (f : gset Z -> gset Z) (v : view) : view :=
  View (v_out v) (v_open v) (f (v_heap v)) (v_files v) (v_cwd v) (v_ended v).
Definition with_ended (l : list (Z * Z)) (v : view) : view :=
  View (v_out v) (v_open v) (v_heap v) (v_files v) (v_cwd v) l.

(** Up to 1023 bytes of text are shown as they are; [read] gives the next bytes of a file and
    -1 at its end; [open] takes a free descriptor. *)
Class UserLaws (U : Type) `{!ShellCalls U, !UserCalls U} : Type := {
  view_of : U -> view;
  uw_write : forall u m t, is_text t -> (length t < 1024)%nat -> take (length t) m = t ->
    exists u', u_write 1 m (Z.of_nat (length t)) u = Ok (Z.of_nat (length t), u') /\ view_of u' = say t (view_of u);
  uw_read : forall u fd n l, v_open (view_of u) !! fd = Some l -> 0 < n ->
    let got := take (Z.to_nat n) l in
    exists u', u_read fd n u = Ok (if decide (l = []) then (-1, []) else (Z.of_nat (length got), got), u') /\
      view_of u' = with_open (<[fd := drop (Z.to_nat n) l]>) (view_of u);
  uw_open : forall u m p, str_at m 0 p -> exists fd u', u_open m O_RDINLY u = Ok (fd, u') /\
    match v_files (view_of u) p with
    | Some t => fd <> -1 /\ v_open (view_of u) !! fd = None /\ view_of u' = with_open (<[fd := t]>) (view_of u)
    | None => fd = -1 /\ view_of u' = view_of u
    end;
  uw_close : forall u fd, is_Some (v_open (view_of u) !! fd) -> exists r u', u_close fd u = Ok (r, u') /\
    view_of u' = with_open (delete fd) (view_of u);
  uw_getcwd : forall u m, Z.of_nat (length m) = 512 -> is_text (v_cwd (view_of u)) ->
    (length (v_cwd (view_of u)) < 512)%nat ->
    exists m' u', u_getcwd m 512 u = Ok (Some m', u') /\ view_of u' = view_of u /\ length m' = length m /\
      str_at m' 0 (v_cwd (view_of u));
  uw_malloc : forall u n, 0 < n -> exists a u', u_malloc n u = Ok (a, u') /\
    (a = 0 /\ view_of u' = view_of u \/
     a <> 0 /\ a ∉ v_heap (view_of u) /\ view_of u' = with_heap (fun h => {[a]} ∪ h) (view_of u));
  uw_free : forall u a, a ∈ v_heap (view_of u) -> exists u', u_free a u = Ok (tt, u') /\
    view_of u' = with_heap (fun h => h ∖ {[a]}) (view_of u);
  uw_wait : forall u c l, v_ended (view_of u) = c :: l -> exists u', u_wait u = Ok (c, u') /\
    view_of u' = with_ended l (view_of u)
}.

Section user_properties.
Context {U : Type} `{!ShellCalls U, !UserCalls U, !UserLaws U}.
Implicit Types (u : U) (v : view) (t : list Z).

Lemma say_say t1 t2 v : say t2 (say t1 v) = say (t1 ++ t2) v.
Proof. unfold say. cbn. by rewrite app_assoc. Qed.

(** The texts the arguments stand for. *)
Definition argument (texts : list (option (list Z))) (w : Z) : option (list Z) := mjoin (texts !! Z.to_nat w).
Definition holds_text (a : print_arg) (o : option (list Z)) : Prop :=
  match o with Some t => exists b, a = Str b /\ str_at b 0 t | None => True end.

Lemma argument_object args texts w t : Forall2 holds_text args texts -> argument texts w = Some t ->
  exists m, arg_object args w = Ok m /\ str_at m 0 t.
Proof.
  unfold argument, arg_object. intros Hf Hw. destruct (texts !! Z.to_nat w) as [o|] eqn:E; [|done]. cbn in Hw. subst o.
  destruct (Forall2_lookup_r _ _ _ _ _ Hf E) as (a & -> & b & -> & Hb). by exists b.
Qed.

Lemma print_text_run fm f args texts t u :
  Forall2 holds_text args texts -> str_at fm 0 f ->
  render (argument texts) f (imap arg_word args) = Some t -> is_text t -> (length t < 1024)%nat ->
  exists u', print fm args u = Ok (Z.of_nat (length t), u') /\ view_of u' = say t (view_of u).
Proof.
  intros Ha Hf Hr Ht Hl. unfold print.
  destruct (print_buf_run (arg_object args) (argument texts)) with (fm := fm) (f := f) (args := imap arg_word args) (text := t)
    as (rest & E & Hs); try done; [intros; by eapply argument_object|].
  rewrite (kbind_ok _ _ u (t ++ 0 :: rest) u) by (unfold klift; by rewrite E).
  rewrite (kbind_ok _ _ u (Z.of_nat (length t)) u).
  - apply uw_write; [done|done|apply take_app_length].
  - unfold klift, strlen, not_null. cbn [obind]. rewrite (find_nul_spec _ _ _ _ Hs) by (apply str_fuel in Hs; exact Hs).
    cbn [obind]. by rewrite Z.add_0_l, Z.sub_0_r.
Qed.

Lemma read_into_run u fd buf n l :
  v_open (view_of u) !! fd = Some l -> 0 < n <= Z.of_nat (length buf) ->
  let got := take (Z.to_nat n) l in
  exists u', read_into fd buf n u = Ok (if decide (l = []) then -1 else Z.of_nat (length got),
      got ++ drop (length got) buf, u') /\
    view_of u' = with_open (<[fd := drop (Z.to_nat n) l]>) (view_of u).
Proof.
  intros Hl Hn. destruct (uw_read u fd n l Hl ltac:(lia)) as (u' & E & Hv). exists u'. split; [|exact Hv].
  unfold read_into. rewrite (kbind_ok _ _ _ _ _ E). cbn zeta in *.
  assert (Hlen : (length (take (Z.to_nat n) l) <= length buf)%nat) by (rewrite length_take; lia).
  assert (Hs : forall got : list Z, (length got <= length buf)%nat -> splice buf 0 got = Ok (got ++ drop (length got) buf)).
  { intros got Hg. unfold splice. rewrite decide_True by lia. done. }
  destruct (decide (l = [])) as [->|Hne]; cbn [fst snd].
  - rewrite (kbind_ok _ _ u' buf u'); [by rewrite take_nil|]. unfold klift. by rewrite (Hs []) by (cbn; lia).
  - rewrite (kbind_ok _ _ u' (take (Z.to_nat n) l ++ drop (length (take (Z.to_nat n) l)) buf) u'); [done|].
    unfold klift. by rewrite Hs.
Qed.

(** ** cat *)

Lemma read_open u fd t : v_open (view_of u) !! fd = Some t -> (length t < 1024)%nat -> forall buf, length buf = 1024%nat ->
  exists u', read_into fd buf 1024 u = Ok (if decide (t = []) then -1 else Z.of_nat (length t), t ++ drop (length t) buf, u') /\
    view_of u' = with_open (<[fd := []]>) (view_of u).
Proof.
  intros Ho Hl buf Hb. destruct (read_into_run u fd buf 1024 t Ho) as (u' & E & Hv); [lia|].
  rewrite (take_ge t), (drop_ge t) in * by lia. by exists u'.
Qed.

Lemma cat_loop_run n fd t buf u :
  v_open (view_of u) !! fd = Some t -> is_text t -> (length t < 1024)%nat -> length buf = 1024%nat ->
  exists buf' u', cat_loop (S (S n)) fd buf 1024 u = Ok (buf', u') /\
    view_of u' = with_open (<[fd := []]>) (say t (view_of u)).
Proof.
  intros Ho Ht Hl Hb. cbn [cat_loop]. destruct (read_open u fd t Ho Hl buf Hb) as (u1 & E1 & V1). rewrite (kbind_ok _ _ _ _ _ E1).
  cbn [fst snd]. destruct (decide (t = [])) as [->|Hne].
  - rewrite Z.eqb_refl. eexists _, u1. split; [reflexivity|]. rewrite V1. unfold say, with_open. cbn. by rewrite app_nil_r.
  - rewrite (proj2 (Z.eqb_neq _ _)) by lia. set (buf1 := t ++ drop (length t) buf).
    destruct (uw_write u1 buf1 t Ht Hl) as (u2 & E2 & V2); [apply take_app_length|]. rewrite (kbind_ok _ _ _ _ _ E2).
    assert (Hb1 : length buf1 = 1024%nat) by (unfold buf1; rewrite length_app, length_drop; lia).
    destruct (read_open u2 fd [] ltac:(rewrite V2, V1; cbn; apply lookup_insert_eq) ltac:(cbn; lia) buf1 Hb1) as (u3 & E3 & V3).
    rewrite (kbind_ok _ _ _ _ _ E3). cbn [fst snd]. rewrite decide_True by done. rewrite Z.eqb_refl.
    eexists _, u3. split; [reflexivity|]. rewrite V3, V2, V1. unfold with_open, say. cbn. by rewrite insert_insert_eq.
Qed.

(** The path [cat] opens for an argument. *)
Definition absolute_path (v : view) (p : list Z) : list Z := if bool_decide (head p = Some 47) then p else v_cwd v ++ [47] ++ p.

Lemma cat_path_run arg1 p u : str_at arg1 0 p -> (length (absolute_path (view_of u) p) < 512)%nat -> is_text (v_cwd (view_of u)) ->
  exists m u', cat_path arg1 u = Ok (m, u') /\ view_of u' = view_of u /\ str_at m 0 (absolute_path (view_of u) p).
Proof.
  intros Hp Hl Hcwd. unfold cat_path. destruct (str_at_head _ _ _ Hp) as (c & Hc & H0 & Hd). cbv zeta.
  rewrite (kbind_ok _ _ u c u) by (unfold klift; by rewrite Hc).
  assert (Hh : bool_decide (head p = Some 47) = (c =? 47)).
  { destruct p as [|d q]; cbn [head].
    - rewrite (proj2 H0) by done. done.
    - rewrite (Hd d q) by done. destruct (Z.eqb_spec d 47) as [->|]; [by apply bool_decide_eq_true|].
      apply bool_decide_eq_false. congruence. }
  unfold absolute_path in *. rewrite Hh in *. destruct (c =? 47); cbn [negb].
  - destruct (strlen_strcat_strcpy_spec (replicate 512 0) 0 [] arg1 0 p) as (_ & _ & E); [|exact Hp| |].
    { apply (str_at_app [] (replicate 511 0)). constructor. }
    { rewrite length_replicate. cbn [length]. lia. }
    exists (p ++ replicate (512 - length p) 0), u. split; [|split; [done|]].
    + unfold klift. rewrite E. unfold splice. rewrite decide_True by (rewrite length_replicate; lia).
      by rewrite drop_replicate.
    + replace (512 - length p)%nat with (S (511 - length p)) by lia. apply str_at_app. apply Hp.
  - rewrite !length_app in Hl. cbn [length] in Hl.
    destruct (uw_getcwd u (replicate 512 0)) as (m1 & u1 & E1 & V1 & L1 & S1); [reflexivity|exact Hcwd|lia|].
    rewrite (kbind_ok _ _ _ _ _ E1). cbn [default from_option]. rewrite length_replicate in L1.
    destruct (strcat_run m1 (v_cwd (view_of u)) [47; 0] [47] S1) as (m2 & E2 & S2 & L2).
    { apply (str_at_app [47] []). repeat constructor. }
    { cbn [length]. lia. }
    rewrite (kbind_ok _ _ u1 m2 u1) by (unfold klift, id; by rewrite E2).
    destruct (strcat_run m2 (v_cwd (view_of u) ++ [47]) arg1 p S2 Hp) as (m3 & E3 & S3 & L3).
    { rewrite length_app. cbn [length]. lia. }
    exists m3, u1. rewrite <- app_assoc in S3. split; [unfold klift; by rewrite E3|by split].
Qed.

Definition no_memory : list Z := bytes_of "cat: malloc memory failed" ++ [10].
Definition open_failed (p : list Z) : list Z := bytes_of "cat: open: open " ++ p ++ bytes_of " failed" ++ [10].
Definition cat_usage : list Z := bytes_of "cat: only support 1 argument." ++ [10] ++ bytes_of "eg: cat filename" ++ [10].

Lemma say_plain t u : is_text t -> (length t < 1024)%nat -> render (argument []) t [] = Some t ->
  exists u', print (t ++ [0]) [] u = Ok (Z.of_nat (length t), u') /\ view_of u' = say t (view_of u).
Proof.
  intros Ht Hl Hr. apply (print_text_run (t ++ [0]) t [] []); [constructor|by apply str_at_app|exact Hr|done|done].
Qed.

Lemma say_opened p b u : str_at b 0 p -> (length p < 512)%nat ->
  exists r u', print (cline "cat: open: open %s failed") [Str b] u = Ok (r, u') /\ view_of u' = say (open_failed p) (view_of u).
Proof.
  intros Hb Hl. eexists.
  apply (print_text_run _ (bytes_of "cat: open: open %s failed" ++ [10]) [Str b] [Some p] (open_failed p)).
  - constructor; [by exists b|constructor].
  - apply cline_at, text_check. reflexivity.
  - reflexivity.
  - unfold open_failed, is_text. rewrite !list.Forall_app. split; [apply text_check; reflexivity|].
    split; [by apply Hb|]. split; apply text_check; reflexivity.
  - unfold open_failed. rewrite !length_app. change (length (bytes_of "cat: open: open ")) with 16%nat.
    change (length (bytes_of " failed")) with 7%nat. cbn [length]. lia.
Qed.

Lemma say_constant t u : forallb (fun c => (0 <? c) && (c <? 256)) t = true -> (length t <? 1024)%nat = true ->
  render (argument []) t [] = Some t ->
  exists r u', print (t ++ [0]) [] u = Ok (r, u') /\ view_of u' = say t (view_of u).
Proof. intros Ht%text_check Hl%Nat.ltb_lt Hr. eexists. by apply say_plain. Qed.

(** The file is shown, the buffer given back and the descriptor closed. *)
Lemma cat_shows n fd a t junk u v :
  view_of u = with_open (<[fd := t]>) (with_heap (fun h => {[a]} ∪ h) v) -> a ∉ v_heap v -> v_open v !! fd = None ->
  is_text t -> (length t < 1024)%nat -> length junk = 1024%nat ->
  exists u', (cat_loop (S (S n)) fd junk 1024 ;;; u_free a ;;; u_close fd ;;; kret 66) u = Ok (66, u') /\ view_of u' = say t v.
Proof.
  intros Hv Ha Hfd Ht Hl Hj.
  destruct (cat_loop_run n fd t junk u) as (b & u1 & E1 & V1); [rewrite Hv; cbn; apply lookup_insert_eq|done..|].
  rewrite (kbind_ok _ _ _ _ _ E1).
  destruct (uw_free u1 a) as (u2 & E2 & V2); [rewrite V1, Hv; cbn; set_solver|]. rewrite (kbind_ok _ _ _ _ _ E2).
  destruct (uw_close u2 fd) as (r & u3 & E3 & V3); [rewrite V2, V1; cbn; rewrite lookup_insert_eq; by eexists|].
  rewrite (kbind_ok _ _ _ _ _ E3). exists u3. split; [reflexivity|]. rewrite V3, V2, V1, Hv.
  unfold with_open, with_heap, say. cbn. destruct v as [o op h f c e]. cbn in *. f_equal.
  - rewrite insert_insert_eq. by apply delete_insert_id.
  - set_solver.
Qed.


(** ** init *)

Lemma decimal_fits w : is_text (decimal w) /\ (length (decimal w) <= 33)%nat.
Proof.
  unfold decimal. destruct (Z.ltb_spec (i32 w) 0).
  - split; [constructor; [lia|apply digits_text; lia]|]. cbn [length]. apply le_n_S, digits_length. lia.
  - split; [apply digits_text; lia|]. etrans; [apply digits_length; lia|lia].
Qed.

Definition init_words : list Z := bytes_of "I`m init, My pid is 1, I recieve a child, It`s pid is ".
Definition status_words : list Z := bytes_of ", status is ".
Definition init_report (c : Z * Z) : list Z := init_words ++ decimal c.1 ++ status_words ++ decimal c.2 ++ [10].

(** A text without a percent sign, and a number. *)
Lemma render_text strings l f args : forallb (fun c => negb (c =? 37)) l = true ->
  render strings (l ++ f) args = app l <$> render strings f args.
Proof.
  induction l as [|c l IH]; cbn [forallb app render]; [destruct (render strings f args); reflexivity|].
  intros [Hc Hl]%andb_true_iff. apply negb_true_iff in Hc. rewrite Hc, IH by done. destruct (render strings f args); reflexivity.
Qed.
Lemma render_number strings f w args : render strings (37 :: 100 :: f) (w :: args) = app (decimal w) <$> render strings f args.
Proof. reflexivity. Qed.

Lemma init_format : bytes_of "I`m init, My pid is 1, I recieve a child, It`s pid is %d, status is %d" ++ [10] =
  init_words ++ 37 :: 100 :: status_words ++ 37 :: 100 :: [10] ++ [].
Proof. reflexivity. Qed.

Lemma init_report_text c : is_text (init_report c) /\ (length (init_report c) < 1024)%nat.
Proof.
  destruct (decimal_fits c.1) as [T1 L1], (decimal_fits c.2) as [T2 L2]. unfold init_report.
  generalize dependent (decimal c.1). generalize dependent (decimal c.2). intros d2 T2 L2 d1 T1 L1. split.
  - unfold is_text. rewrite !list.Forall_app. split; [apply text_check; reflexivity|].
    split; [exact T1|]. split; [apply text_check; reflexivity|]. split; [exact T2|]. repeat constructor.
  - rewrite !length_app. assert (E1 : length init_words = 54%nat) by reflexivity. assert (E2 : length status_words = 12%nat) by reflexivity.
    rewrite E1, E2. cbn [length]. lia.
Qed.

Lemma init_report_run c u : exists r u', print init_line [Num c.1; Num c.2] u = Ok (r, u') /\
  view_of u' = say (init_report c) (view_of u).
Proof.
  destruct (init_report_text c) as [Ht Hl]. eexists.
  apply (print_text_run init_line (bytes_of "I`m init, My pid is 1, I recieve a child, It`s pid is %d, status is %d" ++ [10])
    [Num c.1; Num c.2] [None; None] (init_report c)); [repeat constructor| | |exact Ht|exact Hl].
  - apply cline_at, text_check. reflexivity.
  - change (imap arg_word [Num c.1; Num c.2]) with [c.1; c.2]. rewrite init_format.
    rewrite render_text, render_number, render_text, render_number, render_text by reflexivity. reflexivity.
Qed.

(** [init] collects its children: for every sequence of children that end, the loop takes
    them from [wait] one by one and reports the pid and the status of each, in this order. *)
Theorem init_collects kids u : v_ended (view_of u) = kids ->
  exists u', init_loop (length kids) u = Ok (tt, u') /\
    view_of u' = say (concat (init_report <$> kids)) (with_ended [] (view_of u)).
Proof.
  revert u. induction kids as [|c kids IH]; intros u Hk; cbn [length init_loop].
  - exists u. split; [reflexivity|]. destruct (view_of u) as [o op h f cw e]. unfold say, with_ended. cbn in *. subst e.
    by rewrite app_nil_r.
  - destruct (uw_wait u c kids Hk) as (u1 & E1 & V1). rewrite (kbind_ok _ _ _ _ _ E1).
    destruct (init_report_run c u1) as (r & u2 & E2 & V2). rewrite (kbind_ok _ _ _ _ _ E2).
    destruct (IH u2) as (u3 & E3 & V3); [by rewrite V2, V1|]. exists u3. split; [exact E3|].
    rewrite V3, V2, V1. unfold say, with_ended. cbn. by rewrite <- app_assoc.
Qed.
End user_properties.

(** ** A world for programs to run in *)

(** The text before the first NUL. *)
Fixpoint until_nul (m : list Z) : list Z :=
  match m with [] => [] | c :: m => if c =? 0 then [] else c :: until_nul m end.

Lemma until_nul_at m p : str_at m 0 p -> until_nul m = p.
Proof.
  intros (_ & Hp & rest & Hm). change (m = p ++ 0 :: rest) in Hm. subst m. induction Hp as [|c p Hc _ IH]; [done|].
  cbn [app until_nul]. rewrite (proj2 (Z.eqb_neq _ _)) by lia. by rewrite IH.
Qed.

#[export] Instance world_calls : ShellCalls view := {|
  u_read fd n v := match v_open v !! fd with
    | Some l => let got := take (Z.to_nat n) l in
        Ok (if decide (l = []) then (-1, []) else (Z.of_nat (length got), got), with_open (<[fd := drop (Z.to_nat n) l]>) v)
    | None => Ok ((-1, []), v)
    end;
  u_write _ m n v := Ok (n, say (take (Z.to_nat n) m) v);
  u_putchar c v := Ok (tt, say [c] v);
  u_clear v := Ok (tt, v);
  u_ps v := Ok (tt, v);
  u_help v := Ok (tt, v);
  u_getcwd m _ v := Ok (Some (v_cwd v ++ 0 :: drop (S (length (v_cwd v))) m), v);
  u_chdir _ v := Ok (0, v);
  u_mkdir _ v := Ok (0, v);
  u_create _ v := Ok (0, v);
  u_rmdir _ v := Ok (-1, v);
  u_unlink _ v := Ok (-1, v);
  u_stat _ st v := Ok ((-1, st), v);
  u_opendir _ v := Ok (0, v);
  u_rewinddir _ v := Ok (tt, v);
  u_readdir _ v := Ok (None, v);
  u_closedir _ v := Ok (0, v);
  u_fork v := Ok (1, v);
  u_wait v := match v_ended v with c :: l => Ok (c, with_ended l v) | [] => Ok ((-1, 0), v) end;
  u_execv _ _ v := Ok (Some (-1), v);
  u_pipe v := Ok ((-1, 0, 0), v);
  u_fd_redirect _ _ v := Ok (tt, v);
  u_close fd v := Ok (0, with_open (delete fd) v)
|}.
#[export] Instance world_user_calls : UserCalls view := {|
  u_open m _ v := match v_files v (until_nul m) with
    | Some t => let fd := fresh (dom (v_open v) ∪ {[-1]}) in Ok (fd, with_open (<[fd := t]>) v)
    | None => Ok (-1, v)
    end;
  u_malloc _ v := let a := fresh (v_heap v ∪ {[0]}) in Ok (a, with_heap (fun h => {[a]} ∪ h) v);
  u_free a v := Ok (tt, with_heap (fun h => h ∖ {[a]}) v);
  u_getpid v := Ok (1, v)
|}.

#[export] Program Instance world_laws : UserLaws view := {| view_of v := v |}.
Next Obligation. intros v m t _ _ Hm. exists (say t v). cbn. by rewrite Nat2Z.id, Hm. Qed.
Next Obligation. intros v fd n l Hl _. eexists. cbn. rewrite Hl. split; reflexivity. Qed.
Next Obligation.
  intros v m p Hp. cbn [u_open world_user_calls]. rewrite (until_nul_at _ _ Hp). destruct (v_files v p) as [t|]; [|by eexists _, _].
  eexists _, _. split; [reflexivity|]. pose proof (is_fresh (dom (v_open v) ∪ {[-1]})) as Hf.
  rewrite not_elem_of_union, not_elem_of_singleton in Hf. destruct Hf as [H1 H2]. split; [exact H2|].
  split; [by apply not_elem_of_dom|reflexivity].
Qed.
Next Obligation. intros v fd _. eexists _, _. split; reflexivity. Qed.
Next Obligation.
  intros v m Hm Ht Hc. cbn in *. eexists _, _. split; [reflexivity|]. split; [done|]. split; [|by apply str_at_app].
  rewrite length_app. cbn [length]. rewrite length_drop. lia.
Qed.
Next Obligation.
  intros v n _. eexists _, _. split; [reflexivity|]. right. pose proof (is_fresh (v_heap v ∪ {[0]})) as Hf.
  rewrite not_elem_of_union, not_elem_of_singleton in Hf. destruct Hf as [H1 H2]. split; [exact H2|]. by split.
Qed.
Next Obligation. intros v a _. eexists. split; reflexivity. Qed.
Next Obligation. intros v c l Hv. eexists. cbn. rewrite Hv. split; reflexivity. Qed.

(** The file /motd, and a child of init that has ended with status 7. *)
Definition sample_text : list Z := bytes_of "welcome" ++ [10].
Definition sample_world : view :=
  View [] ∅ ∅ (fun p => if decide (p = bytes_of "/motd") then Some sample_text else None) (bytes_of "/") [(4, 7)].


Lemma init_collects_witness : exists v', init_loop 1 sample_world = Ok (tt, v') /\ v_out v' = init_report (4, 7).
Proof.
  destruct (init_collects [(4, 7)] sample_world) as (v' & E & V); [reflexivity|]. exists v'. split; [exact E|].
  cbn in V. subst v'. unfold say. cbn. by rewrite app_nil_r.
Defined.
