(* ===== verification/Main.v ===== *)
(** * Main: kernel/main.c and kernel/debug.c

    What [main] shows between the start of the kernel and the first command: the cleared
    screen, the banner, a coloured line and the prompt.  [printf] and [put_color] are system
    calls, made here by the kernel; they come to [console_put_str] (through [sys_write], which
    copies the text to a buffer of 1024 bytes) and [console_str_color].  [panic_spin], where
    every failed assertion of the kernel ends. *)

From Stdlib Require Import Ascii String.
From S2P Require Import Prelude Bitmap Interrupt DList Sched Sync Cstring Stdio Screen Console Fs.
Close Scope string_scope.

#[local] Set Default Proof Using "Type*".

Definition zstr (t : string) : list Z := bytes_of t ++ [0].
Definition zline (t : string) : list Z := bytes_of t ++ [10; 0].

Section main.
Context {P : Type} `{!KernelPages P, !ScreenStore P}.
Context (console_lock : Z).
Notation C := (CM (kst P)).

Definition put_color (fuel : nat) (str : list Z) (color : Z) : C unit := console_str_color console_lock fuel str color.

Definition printf (fuel : nat) (format : list Z) : C unit :=
  buf <~ atomic (klift (print_buf (fun _ => Err OutOfBounds) format [])) ;;
  count <~ atomic (klift (strlen buf (Some 0))) ;;
  tmp_buf <~ atomic (klift (memcpy (replicate 1024 0) (Some 0) buf (Some 0) count)) ;;
  Console.console_put_str console_lock fuel tmp_buf.

(** The colour of dash [i]. *)
Definition dash_color (i : Z) : Z :=
  if i mod 9 =? 0 then 7
  else if i mod 9 =? 1 then 8
  else if i mod 9 =? 2 then 9
  else if i mod 9 =? 3 then 10
  else if i mod 9 =? 4 then 11
  else if i mod 9 =? 5 then 12
  else if i mod 9 =? 6 then 13
  else if i mod 9 =? 7 then 14
  else 15.
Fixpoint dashes (n : nat) (fuel : nat) (i : Z) : C unit :=
  match n with
  | O => cret tt
  | S n => put_color fuel (zstr "-") (dash_color i) ;~; dashes n fuel (i + 1)
  end.

(** [main] from [cls_screen] on, up to its endless loop. *)
Definition banner_lines (fuel : nat) : C unit :=
  printf fuel [10; 0] ;~;
  put_color fuel (zline "             ______            ____  _____     ") 11 ;~;
  put_color fuel (zstr "            / ____/           / __ \/ ___/     ") 11 ;~;
  put_color fuel (zstr "Name:") 11 ;~;
  printf fuel (zline "G-OS") ;~;
  put_color fuel (zstr "           / / __   ______   / / / /\__ \      ") 11 ;~;
  put_color fuel (zstr "Version:") 11 ;~;
  printf fuel (zline "1.0.0.0") ;~;
  put_color fuel (zstr "          / /_/ /  /_____/  / /_/ /___/ /      ") 11 ;~;
  put_color fuel (zstr "Architecture:") 11 ;~;
  printf fuel (zline "X86") ;~;
  put_color fuel (zstr "          \____/            \____//____/       ") 11 ;~;
  put_color fuel (zstr "Language:") 11 ;~;
  printf fuel (zline "C") ;~;
  printf fuel [10; 0] ;~;
  dashes 80 fuel 0 ;~;
  printf fuel [10; 10; 0] ;~;
  Console.console_put_str console_lock fuel (zstr "[rabbit@localhost /]$ ").
Definition main_banner (fuel : nat) : C unit :=
  atomic (on_screen cls_screen) ;~;
  banner_lines fuel.

(** [panic_spin] up to its endless loop; [arr] is the uninitialised array of [put_int]. *)
Definition panic_message (arr filename : list Z) (line : Z) (func condition : list Z) : KM screen unit :=
  put_str ([10; 10; 10] ++ zline "!!!!! error !!!!!") ;;;
  put_str (zstr "filename:") ;;;
  put_str filename ;;;
  put_char 10 ;;;
  put_str (zstr "line:") ;;;
  put_int arr line ;;;
  put_char 10 ;;;
  put_str (zstr "funtion:") ;;;
  put_str func ;;;
  put_char 10 ;;;
  put_str (zstr "condition:") ;;;
  put_str condition ;;;
  put_char 10.
Definition panic_spin (arr filename : list Z) (line : Z) (func condition : list Z) : KM (kst P) unit :=
  intr_disable ;;;
  on_screen (panic_message arr filename line func condition) ;;;
  kfail AssertFail.
End main.

(** ** What is shown *)

(** A text is painted piece by piece, each in its colour. *)
Definition paint (t : term) (pieces : list (Z * list Z)) : term :=
  fold_left (fun t p => fold_left (typed rc_black p.1) p.2 t) pieces t.

Definition cleared : term := Term (replicate 2000 blank) 0 0.

Definition dash_pieces : list (Z * list Z) := (fun i => (dash_color (Z.of_nat i), bytes_of "-")) <$> seq 0 80.
Definition banner : list (Z * list Z) :=
  [(rc_white, [10]);
   (11, bytes_of "             ______            ____  _____     " ++ [10]);
   (11, bytes_of "            / ____/           / __ \/ ___/     "); (11, bytes_of "Name:"); (rc_white, bytes_of "G-OS" ++ [10]);
   (11, bytes_of "           / / __   ______   / / / /\__ \      "); (11, bytes_of "Version:"); (rc_white, bytes_of "1.0.0.0" ++ [10]);
   (11, bytes_of "          / /_/ /  /_____/  / /_/ /___/ /      "); (11, bytes_of "Architecture:"); (rc_white, bytes_of "X86" ++ [10]);
   (11, bytes_of "          \____/            \____//____/       "); (11, bytes_of "Language:"); (rc_white, bytes_of "C" ++ [10]);
   (rc_white, [10])] ++ dash_pieces ++ [(rc_white, [10; 10]); (rc_white, bytes_of "[rabbit@localhost /]$ ")].

Section shown.
Context {P : Type} `{!KernelPages P, !ScreenStore P}.
Context (console_lock : Z).
Implicit Types (s : kst P).

(** Code that, with a free console, returns having painted [pieces]. *)
Definition paints (m : CM (kst P) unit) (pieces : list (Z * list Z)) : Prop :=
  forall s, console_free console_lock s -> screen_ok (screen_of (k_pages s)) ->
  exists v, m s = Ok (Return tt, with_screen v s) /\ screen_ok v /\
    term_of v = paint (term_of (screen_of (k_pages s))) pieces.

Lemma with_screen_twice v w s : with_screen v (with_screen w s) = with_screen v s.
Proof. unfold with_screen. cbn. by rewrite set_screen_twice. Qed.

Lemma free_with_screen v s : console_free console_lock s -> console_free console_lock (with_screen v s).
Proof. intros [H1 H2 H3 H4]. constructor; assumption. Qed.

Lemma paints_bind m k l1 l2 : paints m l1 -> paints k l2 -> paints (m ;~; k) (l1 ++ l2).
Proof.
  intros Hm Hk s Hf Hs. destruct (Hm s Hf Hs) as (v & E & Hv & Ht). rewrite (cbind_return _ _ _ _ _ E).
  destruct (Hk (with_screen v s)) as (w & E2 & Hw & Ht2); [by apply free_with_screen|by cbn; rewrite screen_of_set|].
  exists w. rewrite with_screen_twice in E2. split; [exact E2|]. split; [exact Hw|].
  cbn in Ht2. rewrite screen_of_set, Ht in Ht2. rewrite Ht2. unfold paint. by rewrite fold_left_app.
Qed.

Lemma paints_put_str f m t : str_at m 0 t -> paints (Console.console_put_str console_lock (S f) m) [(rc_white, t)].
Proof. intros Hm s Hf Hs. destruct (console_put_str_run console_lock f m t s Hf Hs Hm) as (v & E & Hv & Ht). by exists v. Qed.

Lemma paints_color f m t c : str_at m 0 t -> is_color c -> paints (put_color console_lock (S f) m c) [(c, t)].
Proof.
  intros Hm Hc s Hf Hs.
  destruct (put_loop_run (S (length m)) m 0 t rc_black c (screen_of (k_pages s)) Hm) as (v & E & (H1 & H2 & _) & _); try done.
  { by apply str_fuel in Hm. }
  exists v. split; [|done]. by apply (console_run console_lock (put_str_color m rc_black c) tt v f s).
Qed.

Lemma paints_printf f fm t : str_at fm 0 t -> render (fun _ => None) t [] = Some t -> (length t < 1024)%nat ->
  paints (printf console_lock (S f) fm) [(rc_white, t)].
Proof.
  intros Hm Hr Hl s Hf Hs. unfold printf. assert (Ht : is_text t) by apply Hm.
  destruct (print_buf_run (fun _ => Err OutOfBounds) (fun _ => None)) with (fm := fm) (f := t) (args := @nil Z) (text := t)
    as (rest & E & Hb); try done.
  rewrite (cbind_atomic _ _ s (t ++ 0 :: rest) s) by (unfold klift; by rewrite E).
  rewrite (cbind_atomic _ _ s (Z.of_nat (length t)) s).
  2: { unfold klift, strlen, not_null. cbn [obind]. rewrite (find_nul_spec _ _ _ _ Hb) by (apply str_fuel in Hb; exact Hb).
    cbn [obind]. by rewrite Z.add_0_l, Z.sub_0_r. }
  rewrite (cbind_atomic _ _ s (t ++ replicate (1024 - length t) 0) s).
  2: { unfold klift, memcpy. cbn [not_null obind]. rewrite Nat2Z.id.
    pose proof (memcpy_loop_spec (length t) [] (replicate (length t) 0) (replicate (1024 - length t) 0) (t ++ 0 :: rest) 0) as C.
    cbn [app] in C. change (Z.of_nat (@length Z [])) with 0 in C. rewrite <- replicate_add in C.
    replace (length t + (1024 - length t))%nat with 1024%nat in C by lia.
    rewrite C; [|by rewrite length_replicate|lia|rewrite length_app; lia]. change (drop (Z.to_nat 0) (t ++ 0 :: rest)) with (t ++ 0 :: rest).
    by rewrite take_app_length. }
  replace (1024 - length t)%nat with (S (1023 - length t)) by lia.
  by apply (paints_put_str f (t ++ 0 :: replicate (1023 - length t) 0) t (str_at_app _ _ Ht)).
Qed.

Lemma cls_screen_run v : screen_ok v -> exists v', cls_screen v = Ok (tt, v') /\ screen_ok v' /\ term_of v' = cleared.
Proof.
  intros [Hl _ _]. unfold cls_screen. remember (80 * 25)%nat as n eqn:Hn.
  pose proof (blank_loop_run n 0 v ltac:(rewrite Hl, Hn; apply Nat.leb_le; reflexivity)) as E.
  rewrite take_0, Nat.add_0_l, drop_ge, app_nil_r in E by (rewrite Hl, Hn; apply Nat.leb_le; reflexivity).
  change (Z.of_nat 0) with 0 in E. rewrite (kbind_ok _ _ _ _ _ E). set (v1 := set_video _ v).
  rewrite (kbind_ok _ _ v1 tt (set_x 0 v1)) by reflexivity. rewrite (kbind_ok _ _ _ tt (set_y 0 (set_x 0 v1))) by reflexivity.
  assert (Hok : screen_ok (set_y 0 (set_x 0 v1))).
  { split; cbn; [|lia|lia]. rewrite length_replicate, Hn. reflexivity. }
  destruct (set_cursor_run _ Hok) as (l & E2 & _). eexists. split; [exact E2|]. split; [by destruct Hok|].
  unfold term_of, cleared. cbn. by rewrite Hn.
Qed.

Lemma on_screen_run {A} (m : KM screen A) a v s : m (screen_of (k_pages s)) = Ok (a, v) -> on_screen m s = Ok (a, with_screen v s).
Proof. intros E. unfold on_screen. by rewrite E. Qed.

Lemma paints_end m l : paints m l -> paints (m ;~; cret tt) l.
Proof.
  intros Hm s Hf Hs. destruct (Hm s Hf Hs) as (v & E & Hv). exists v. split; [|exact Hv]. by rewrite (cbind_return _ _ _ _ _ E).
Qed.

Lemma paints_dash f i : paints (put_color console_lock (S f) (zstr "-") (dash_color i)) [(dash_color i, bytes_of "-")].
Proof.
  apply paints_color; [apply (str_at_app (bytes_of "-") []), text_check; reflexivity|].
  unfold dash_color, is_color. repeat (destruct (_ =? _); [lia|]). lia.
Qed.

Lemma paints_dashes n f i : paints (dashes console_lock (S n) (S f) (Z.of_nat i))
  ((fun j => (dash_color (Z.of_nat j), bytes_of "-")) <$> seq i (S n)).
Proof.
  revert i. induction n as [|n IH]; intros i; [apply paints_end, paints_dash|].
  cbn [seq]. rewrite fmap_cons. apply (paints_bind _ _ [_]); [apply paints_dash|].
  replace (Z.of_nat i + 1) with (Z.of_nat (S i)) by lia. apply IH.
Qed.

Lemma zline_at t : is_text (bytes_of t ++ [10]) -> str_at (zline t) 0 (bytes_of t ++ [10]).
Proof. intros Ht. unfold zline. change [10; 0] with ([10] ++ [0]). rewrite app_assoc. by apply (str_at_app _ []). Qed.

Ltac paint_text :=
  first [ apply paints_color; [|unfold is_color; lia]
        | apply paints_printf; [|reflexivity|apply Nat.ltb_lt; reflexivity]
        | apply paints_put_str ];
  first [ apply (str_at_app (bytes_of _) []) | apply (str_at_app [10] []) | apply (str_at_app [10; 10] [])
        | apply zline_at ]; apply text_check; reflexivity.
Ltac paint_step :=
  lazymatch goal with
  | |- paints _ (?p :: ?l) => apply (paints_bind _ _ [p] l); [paint_text|]
  end.

Lemma paints_banner f : paints (banner_lines console_lock (S f)) banner.
Proof.
  unfold banner_lines, banner. cbn [app]. do 15 paint_step. apply paints_bind; [apply (paints_dashes 79 f 0)|].
  paint_step. paint_text.
Qed.

Lemma main_banner_run f s : console_free console_lock s -> screen_ok (screen_of (k_pages s)) ->
  exists v, main_banner console_lock (S f) s = Ok (Return tt, with_screen v s) /\ screen_ok v /\ term_of v = paint cleared banner.
Proof.
  intros Hf Hs. destruct (cls_screen_run _ Hs) as (v & E & Hv & Ht). unfold main_banner.
  rewrite (cbind_atomic _ _ _ _ _ (on_screen_run _ _ _ _ E)).
  destruct (paints_banner f (with_screen v s)) as (w & E2 & Hw & Ht2); [by apply free_with_screen|by cbn; rewrite screen_of_set|].
  exists w. rewrite with_screen_twice in E2. split; [exact E2|]. split; [exact Hw|]. rewrite Ht2. cbn. by rewrite screen_of_set, Ht.
Qed.
End shown.

(** The rows of the screen, and the colours of their characters. *)
Definition row_text (t : term) (i : nat) : list Z := (fun w => w mod 256) <$> take 80 (drop (80 * i) (cells t)).
Definition row_colors (t : term) (i : nat) : list Z := (fun w => w / 256) <$> take 80 (drop (80 * i) (cells t)).
Definition padded (l : string) : list Z := bytes_of l ++ replicate (80 - length (bytes_of l)) 32.

Definition first_screen : list string := [
  "";
  "             ______            ____  _____     ";
  "            / ____/           / __ \/ ___/     Name:G-OS";
  "           / / __   ______   / / / /\__ \      Version:1.0.0.0";
  "          / /_/ /  /_____/  / /_/ /___/ /      Architecture:X86";
  "          \____/            \____//____/       Language:C";
  "";
  "--------------------------------------------------------------------------------";
  "";
  "";
  "[rabbit@localhost /]$ "]%string.

Lemma banner_rows : row_text (paint cleared banner) <$> seq 0 11 = padded <$> first_screen.
Proof. vm_compute. reflexivity. Qed.
Lemma banner_dashes : row_colors (paint cleared banner) 7 = (fun i => 7 + i mod 9) <$> seqZ 0 80.
Proof. vm_compute. reflexivity. Qed.
Lemma banner_cursor : col (paint cleared banner) = 22 /\ row (paint cleared banner) = 10.
Proof. split; vm_compute; reflexivity. Qed.

Section main_properties.
Context {P : Type} `{!KernelPages P, !ScreenStore P}.
Context (console_lock : Z).
Implicit Types (s : kst P).

(** C38: The first screen.  Whatever the screen shows before, when nobody has the console [main]
    clears it and returns to its loop with the banner, the line of 80 dashes in the colours 7
    to 15 by turns and the prompt, row by row as listed; the cursor is behind the prompt, the
    console is free again and nothing else of the kernel's state has changed. *)
Theorem main_banner_spec f s : console_free console_lock s -> screen_ok (screen_of (k_pages s)) ->
  exists v, main_banner console_lock (S f) s = Ok (Return tt, with_screen v s) /\
    console_free console_lock (with_screen v s) /\ screen_ok v /\
    row_text (term_of v) <$> seq 0 11 = padded <$> first_screen /\
    row_colors (term_of v) 7 = (fun i => 7 + i mod 9) <$> seqZ 0 80 /\
    cursor_x v = 22 /\ cursor_y v = 10.
Proof.
  intros Hf Hs. destruct (main_banner_run console_lock f s Hf Hs) as (v & E & Hv & Ht). exists v. split; [exact E|].
  split; [by apply free_with_screen|]. split; [exact Hv|]. rewrite Ht. split; [exact banner_rows|]. split; [exact banner_dashes|].
  pose proof banner_cursor as [Hc Hr]. rewrite <- Ht in Hc, Hr. exact (conj Hc Hr).
Qed.

(** ** panic_spin *)

(** The text of a failed assertion. *)
Definition panic_text (filename : list Z) (line : Z) (func condition : list Z) : list Z :=
  [10; 10; 10] ++ bytes_of "!!!!! error !!!!!" ++ [10] ++ bytes_of "filename:" ++ filename ++ [10]
  ++ bytes_of "line:" ++ numeral 16 line ++ [10] ++ bytes_of "funtion:" ++ func ++ [10]
  ++ bytes_of "condition:" ++ condition ++ [10].

(** Code on the screen that shows a text in white. *)
Definition writes (m : KM screen unit) (t : list Z) : Prop :=
  forall v, screen_ok v -> exists v', m v = Ok (tt, v') /\ screen_ok v' /\
    term_of v' = fold_left (typed rc_black rc_white) t (term_of v).

Lemma writes_bind m k t1 t2 : writes m t1 -> writes k t2 -> writes (m ;;; k) (t1 ++ t2).
Proof.
  intros Hm Hk v Hv. destruct (Hm v Hv) as (v1 & E1 & H1 & T1). destruct (Hk v1 H1) as (v2 & E2 & H2 & T2).
  exists v2. rewrite (kbind_ok _ _ _ _ _ E1). split; [exact E2|]. split; [exact H2|]. by rewrite fold_left_app, <- T1.
Qed.

Lemma writes_str m t : str_at m 0 t -> writes (put_str m) t.
Proof.
  intros Hm v Hv. destruct (put_loop_run (S (length m)) m 0 t rc_black rc_white v Hm) as (v' & E & (H1 & H2 & _) & _); try done.
  { by apply str_fuel in Hm. }
  by exists v'.
Qed.

Lemma writes_newline : writes (put_char 10) [10].
Proof.
  intros v Hv. destruct (put_char_color_run v 10 rc_black rc_white Hv) as (v' & E & H1 & H2 & _); [lia|unfold is_color, rc_black; lia|unfold is_color, rc_white; lia|].
  by exists v'.
Qed.

Lemma writes_hex arr n : length arr = 16%nat -> 0 <= n < 2 ^ 32 -> writes (put_int arr n) (numeral 16 n).
Proof.
  intros Hl Hn v Hv. unfold put_int. destruct (Z.eqb_spec n 0) as [->|Hn0].
  - destruct (put_char_color_run v 48 rc_black rc_white Hv) as (v' & E & H1 & H2 & _);
      [lia|unfold is_color, rc_black; lia|unfold is_color, rc_white; lia|].
    exists v'. split; [exact E|]. split; [exact H1|exact H2].
  - destruct (put_number_run 16 hex_digit arr n v) as (v' & E & H1 & H2 & _); [lia|apply hex_digit_char|done|lia|done|].
    exists v'. split; [exact E|]. split; [exact H1|exact H2].
Qed.

Ltac writes_text := apply writes_str; apply (str_at_app (bytes_of _) []); apply text_check; reflexivity.

(** A failed assertion says where it is.  [panic_spin] shows the file, the line in hexadecimal,
    the function and the condition, each on a line of its own, whatever the console lock is,
    and never comes back; interrupts are off by then. *)
Theorem panic_message_spec arr filename fn line func fu condition co v :
  length arr = 16%nat -> 0 <= line < 2 ^ 32 -> str_at filename 0 fn -> str_at func 0 fu -> str_at condition 0 co -> screen_ok v ->
  exists v', panic_message arr filename line func condition v = Ok (tt, v') /\ screen_ok v' /\
    term_of v' = fold_left (typed rc_black rc_white) (panic_text fn line fu co) (term_of v).
Proof.
  intros Hl Hn Hf Hu Hc. revert v. change (writes (panic_message arr filename line func condition) (panic_text fn line fu co)).
  unfold panic_message, panic_text.
  change ([10; 10; 10] ++ bytes_of "!!!!! error !!!!!" ++ [10] ++ ?r) with (([10; 10; 10] ++ bytes_of "!!!!! error !!!!!" ++ [10]) ++ r).
  apply writes_bind; [apply writes_str, (str_at_app ([10; 10; 10] ++ bytes_of "!!!!! error !!!!!" ++ [10]) []), text_check; reflexivity|].
  apply writes_bind; [writes_text|]. apply writes_bind; [by apply writes_str|]. apply writes_bind; [apply writes_newline|].
  apply writes_bind; [writes_text|]. apply writes_bind; [by apply writes_hex|]. apply writes_bind; [apply writes_newline|].
  apply writes_bind; [writes_text|]. apply writes_bind; [by apply writes_str|]. apply writes_bind; [apply writes_newline|].
  apply writes_bind; [writes_text|]. apply writes_bind; [by apply writes_str|]. apply writes_newline.
Qed.
End main_properties.

Lemma main_banner_spec_witness : exists v,
  main_banner 0x9000 1 sample_console = Ok (Return tt, with_screen v sample_console) /\ cursor_y v = 10.
Proof.
  destruct (main_banner_spec 0x9000 0 sample_console) as (v & E & _ & _ & _ & _ & _ & Hy).
  - split; [reflexivity|reflexivity|reflexivity|discriminate].
  - apply sample_screen_ok.
  - exists v. split; [exact E|exact Hy].
Defined.

Lemma panic_message_spec_witness : exists v,
  panic_message (replicate 16 0) (zstr "thread.c") 255 (zstr "schedule") (zstr "intr_get_status()==INTR_OFF") sample_screen = Ok (tt, v) /\
  col (term_of v) = 0.
Proof.
  destruct (panic_message_spec (replicate 16 0) (zstr "thread.c") (bytes_of "thread.c") 255 (zstr "schedule") (bytes_of "schedule")
    (zstr "intr_get_status()==INTR_OFF") (bytes_of "intr_get_status()==INTR_OFF") sample_screen) as (v & E & _ & Ht).
  - reflexivity.
  - lia.
  - apply (str_at_app (bytes_of _) []), text_check. reflexivity.
  - apply (str_at_app (bytes_of _) []), text_check. reflexivity.
  - apply (str_at_app (bytes_of _) []), text_check. reflexivity.
  - apply sample_screen_ok.
  - exists v. split; [exact E|]. rewrite Ht. vm_compute. reflexivity.
Defined.
